(* ===== verification/_CoqProject ===== *)
-Q . S2P
Prelude.v
Numerics.v
Floats.v
Errors.v
Store.v
Schema.v
GridTopology.v
Escrow.v
Crypto.v
OnChain.v
Orders.v
Clearing.v
Settlement.v
MatchingEngine.v
MatchingTrades.v
MatchingLifecycle.v
Triggers.v
Recurring.v
Futures.v
Pagination.v
Text.v
Validation.v
Auth.v
Meters.v
Telemetry.v
Tokenization.v
Readings.v
Minting.v
Accounts.v
Wallets.v
Certificates.v
Notifications.v
Confirmations.v
Carbon.v
LinkedWallets.v
OrderQueries.v
Export.v
Instructions.v
Transactions.v
RefundQueue.v
Operations.v
Submissions.v
OrderRequests.v
Websocket.v
ZoneRates.v
Faucet.v
Diagnostics.v
Analytics.v
