(* ===== verification/Prelude.v ===== *)
(** * The trading core of the GridTokenX gateway

    The gateway is the Rust server of an electricity market: users and their meters
    register, prosumers place buy and sell orders for energy, an engine matches them in
    fifteen-minute epochs with the costs of the grid between two zones, and a settlement
    service turns the matches into escrow movements and transfers on a chain.  This library
    models the parts that decide about money, energy and access, as executable functions
    translated from the source, and proves what each of them promises.

    ** How the parts interact

    A handler checks a request and calls a service; a service runs SQL statements over
    PostgreSQL and calls the outside (chain, websocket, mail, Redis).  Creating an order
    ([Orders]) moves its cost from the balance of its user into escrow ([Escrow]) and, after the
    commit, puts it on the chain ([OnChain]), which may give the user a wallet; the
    epoch clearing ([Clearing]) or the background engine ([MatchingEngine]) matches open
    orders at landed cost ([GridTopology]) into rows of [order_matches] and [settlements];
    the settlement service ([Settlement]) executes the settlements on the chain and
    releases the escrow.  The price monitor ([Triggers]) and the scheduler ([Recurring])
    place further orders from stored ones, futures ([Futures]) are a market of their own.
    Users register and log in ([Accounts]), which also creates their custodial wallet with
    keys encrypted by [Crypto]; [Wallets] diagnoses and repairs the stored keys.
    Requests pass the middleware ([Auth]), are validated ([Validation], [Pagination]), and
    meters are registered ([Meters]).  Their readings go through a queue ([Readings]): a worker
    stores them, mints the energy they accumulate, updates the totals of the grid
    ([Telemetry]) and places orders through the same service as a request; a reading can also
    be minted or submitted directly ([Minting]).

    ** State and effects

    [Store] is the monad every service method runs in: [world] holds the tables ([st]), a
    failure schedule ([faults]: which of the statements to come the database refuses) and
    the outside effects so far ([trace]).  [query], [exec] and [attempt] are one statement,
    [with_tx] is a transaction that rolls back.  A theorem for every [world] therefore
    holds for every way the database can fail, between any two statements.  The Hoare
    triples of [Store] ([hoare], with its hints) carry the invariants; a history of
    requests is a list of operations folded over a world.  The tables are stdpp maps from
    row id to a record with the columns the code reads or writes; each statement that
    inserts also checks the constraints of the migrations (keys, references, lengths,
    CHECKs, the range of NUMERIC), and returns [None] when the server would refuse it.
    Each service method is atomic with respect to the others: isolation is the database's,
    and interleavings are sequences of calls.  Where the code reads a row in one call and
    writes it in a later one, the step in between is modelled ([execution_overwrites_status],
    [settlement] runs over the list of ids read before).

    ** Files

    - [Prelude]: machine integers ([wrap_i32] ... are the values of a release build), generic
      lemmas on lists, sorting and folds, tactics, hint databases.
    - [Numerics]: [Decimal] amounts and NUMERIC columns, an interface with its laws and an
      instance for the witnesses.  [Floats]: [f64] as IEEE binary64.
    - [Errors]: src/src/error.rs, codes, messages, HTTP status and bodies.
    - [Store]: the monad above.  [Schema]: enumerations, rows and tables
      (src/src/models/trading.rs, src/src/database/schema.rs, the types of the services,
      src/migrations/).
    - [GridTopology]: src/src/services/grid_topology.rs.
    - [Escrow]: src/src/services/market_clearing/escrow.rs.
    - [Crypto]: utils/crypto.rs and the encryption of services/wallet/service.rs.  [OnChain]:
      market_clearing/blockchain.rs, what the clearing asks of the chain.
    - [Orders]: market_clearing/epoch.rs and orders.rs, epochs and the creation, update and
      cancellation of orders.
    - [Clearing]: market_clearing/mod.rs, matching.rs, revenue.rs.
    - [Settlement]: src/src/services/settlement/.
    - [MatchingEngine], [MatchingTrades], [MatchingLifecycle]:
      src/src/services/order_matching_engine/mod.rs, the definitions, what a cycle
      delivers, and the life of the engine over many cycles.
    - [Triggers]: price_monitor.rs and handlers/trading/conditional.rs.
    - [Recurring]: recurring_scheduler.rs and handlers/trading/recurring.rs.
    - [Futures]: services/futures/mod.rs.
    - [Pagination]: utils/pagination.rs, database/repository.rs, handlers/common/.
    - [Text], [Validation]: characters and regular expressions; utils/validation.rs.
    - [Auth]: src/src/auth/.
    - [Accounts]: handlers/auth/registration.rs, login.rs, password_reset.rs and profile.rs,
      with the bcrypt wrappers of auth/password.rs and the sending of services/email/mod.rs.
    - [Wallets]: the rest of services/wallet/, the repair of stored keys, the authority's
      keypair and the audit log.
    - [Meters]: handlers/auth/meters/registration.rs, the registration in
      handlers/meter/stub.rs, services/meter/verification.rs.
    - [Certificates]: services/erc/.
    - [Notifications]: services/notification_dispatcher.rs, handlers/notifications.rs,
      models/notification.rs and handlers/trading/price_alerts.rs.
    - [Confirmations]: services/event_processor/ and services/webhook/.
    - [Telemetry]: services/meter_analyzer.rs, the health of a meter in handlers/meter/stub.rs
      and the totals of the grid of services/dashboard/.
    - [Tokenization]: config/tokenization.rs.
    - [Readings]: handlers/auth/meters/reading.rs, services/reading_processor.rs and
      services/validation/oracle_validator.rs, from the submission of a reading over the queue
      and the aggregation to the orders it places.
    - [Minting]: handlers/meter/minting.rs and the submission and the queries of
      handlers/meter/stub.rs.
    - [Carbon]: handlers/carbon.rs.  [LinkedWallets]: handlers/wallets.rs.
    - [OrderQueries]: handlers/trading/orders/queries.rs, status.rs and the epoch of
      market_data.rs.  [OrderRequests]: handlers/trading/orders/create.rs and management.rs,
      and handlers/trading/blockchain.rs.  [Export]: handlers/trading/export.rs.
    - [Instructions]: services/blockchain/instructions/; the reading of their bytes in it is a
      device of the proof that different requests have different bytes.
      [Transactions]: services/blockchain/transactions/, account_management.rs, on_chain/ and
      utils/keys.rs, building, signing, sending and confirming.
    - [RefundQueue]: services/blockchain_task/mod.rs and its worker in startup.rs.
    - [Operations]: services/transaction/ but service.rs, with models/transaction.rs and the
      view they read.  [Submissions]: services/transaction/service.rs, priority_fee.rs and
      services/validation/transaction_validation_service.rs.
    - [Websocket]: services/websocket/ and handlers/websocket/, the market feed and the
      registry of connections with their channels and tasks.
    - [ZoneRates]: handlers/analytics/zone_rates.rs.  [Analytics]: the other files of
      handlers/analytics/.  [Faucet]: handlers/dev/faucet.rs.
    - [Diagnostics]: utils/error_tracker.rs, query_profiler.rs, secrets.rs, signature.rs and
      request_info.rs, services/transaction/metrics.rs, services/health_check/ and
      middleware/json_validation.rs.

    A definition carries the name of the function it translates; rows, queries and
    statements embedded in a function have definitions of their own next to it.

    ** What is shown

    - Money and energy: an account is what the accepted escrow requests make of it, up to the
      rounding of its columns ([escrow_conserves]), locking and unlocking are inverse, creating and cancelling a
      limit buy order gives everything back ([create_cancel_roundtrip]), settlements balance
      ([settlement_accounts_balance]) and each party's escrow is
      released, conserving the whole when nothing is rounded ([finalize_escrow_conserves]); transfers carry the exact amounts of the settlement
      ([transfer_amounts_exact]).
    - Outcomes: for the operations of [Orders], [Escrow], [Settlement], [Futures],
      [Recurring] and [Meters], every result with the state it leaves, errors included
      ([create_order_outcome], [cancel_order_outcome], [execute_settlement_outcome]).
    - Matching: the loop of the clearing ends ([match_loop_terminates]) and never fills an
      order beyond its amount, at prices between those of both sides; the seller chosen is
      the best; a cycle of the engine is a refinement of a list of deals
      ([cycle_refines_deals]), the abstract specification of matching: an open buyer and an
      open seller whose landed cost the buyer accepts.  The start/stop switch of the engine
      is a transition relation ([engine_loops]).
    - Derived orders: the monitor triggers only what should be triggered, executions of a
      recurring order never exceed their limit.
    - Access: the middleware is sound, validators accept exactly their languages, pages
      partition a list, a meter never changes its owner.
    - Accounts: over any history of the requests of handlers/auth and any failures the table of
      users stays sound ([accounts_invariant]); a password changes only by its owner's doing
      ([password_guarded]), a reset token works once ([reset_token_single_use]), login is
      sound ([login_sound]), and a forgotten password can be replaced
      ([forgot_reset_login]).  The test tokens of the verification break all of this
      ([verify_logs_in_anyone]).  Each request is first characterised by the one row it may
      write ([writes], [perform_settles]); the properties are read off that.
    - Keys: encryption and decryption are inverse across both modules ([key_roundtrip],
      [decryptions_agree]); a repaired wallet can sign and a legacy one keeps its key
      ([fix_heals]), the batch repair adds up ([fix_all_report]).
    - Certificates: over any history each certificate keeps what it certifies and belongs to
      the recipient of its last transfer ([certificates_history]), but a settlement can be
      certified twice ([settlement_certified_twice]) and a retirement undone by a transfer
      ([retired_not_final]).
    - Notifications: no history of requests loses or changes one but for its being read, and
      no price alert ever triggers ([notifications_kept]); what a send stores, broadcasts
      and mails follows the preferences ([send_outcome]).
    - Confirmations: only what the node reported as a success is marked
      ([confirmations_sound]), and it is marked by the first poll that sees it
      ([settled_confirmed]), unless failed transactions fill the batch ([stuck_batch]);
      no event is ever stored ([events_never_stored]), and a replay ends but for the last
      slot there is ([replay_completes], [replay_never_completes]).
    - Readings: the queue is emptied whatever fails ([queue_drains]); every outcome of a task,
      of the aggregation behind it, of a mint on request and of the simulator's submission
      ([task_outcome], [aggregate_accounts], [mint_request_outcome], [submission_outcome]);
      the orders a reading places are those of a request ([task_orders], proved with the
      lemmas of [Orders]); no request mints a reading twice ([reading_minted_once]), while
      the books can still be minted twice ([energy_minted_twice],
      [refused_reading_counted_thrice], [submissions_mint_unrecorded]).  The dashboard
      counts every meter once ([grid_status_accounts]), the health score stays in its range,
      and every configuration that loads is within its limits ([from_env_outcome]).
    - Carbon: a transfer moves what the sender's active credits add up to, and those credits
      can be sent again ([credits_respent]).  A user with wallets has one primary wallet as
      long as the database serves every statement ([one_primary]).
    - On the chain: two requests have the same instruction exactly when they ask for the
      same ([instructions_unambiguous]); what is sent is signed by the payer of the configuration
      ([submit_needs_payer]); a refund or release asks for one transfer at most, from the gateway's
      pooled account to the account of the user's stored wallet ([payout_outcome]).
    - Retries: while the database does not fail, confirmed transfers and completed tasks agree in
      real mode and no transfer is asked for in mock mode ([payments_accounted]); a task's state only
      moves forward ([worker_evolves]); a queued refund is paid ([queued_refund_paid]), with two
      workers twice ([two_workers_pay_twice]).
    - Feeds: over every interleaving of its tasks a client of the feed, or the socket of a
      user, is sent a beginning of what was sent to it, in order and without a gap
      ([feed_in_order], [direct_in_order]); the second socket of a user silences the first
      ([closing_silences_other]) and broadcasts of the registry reach nobody
      ([broadcasts_reach_nobody]).  Both are stated over an abstract queue, the list of
      messages a channel still holds.
    - Rates and faucet: a stored rate between zones is what the cache answers after a refresh
      ([rate_cached]), unless two are active ([rates_ambiguous]), but trades are charged the built-in
      formulas, which never look at it; the faucet lets
      anyone become an administrator ([anyone_promotes]) and mints a billion times what was
      asked ([faucet_mints_billionfold]).
    - Analytics: the history of a trader's balance ends at the net revenue shown beside it
      ([history_ends_at_net]); a user's transactions are the user's own ([transactions_own]); the
      volumes within, between and outside zones add up ([zones_partition]); the trading statistics
      of the zones are never answered ([zone_trading_refused]).
    - Diagnostics: error counts, slow queries, health checks and the checks of secrets and
      signatures are exact ([tracker_counts], [top_is_top], [health_exact], [secrets_exact],
      [verify_exact]).
    - Tracking: the records of transactions never change, whatever the chain reports
      ([tracking_inert]), and one old operation stops the monitor ([monitor_blocked]);
      validation accepts exactly what it says ([validation_exact]), and a fee stays within its
      limits ([fee_limits]).
    - Requests for orders: a signature that passes was made with the key of a live session
      or a constant of the source ([signature_checked]); on the migrated tables no order can be
      cancelled or updated through the API ([requests_unreadable]); with complete tables a
      cancellation can lose what was locked ([cancel_loses_funds]).
    - Defects the model exposes are theorems about the code as it is, listed as findings of
      the manifest; for example [epochless_pair_stops_market], [simulator_wallet_takeover],
      [execution_overwrites_status] and [futures_order_outcome].

    ** Interfaces

    Code that is not the repository's is a type class whose fields are its operations and
    the documented laws that are used: [Numerics] (rust_decimal, NUMERIC),
    [DecimalFromF64], [Calendar] and [Chrono] (chrono), [CharClass] (Unicode tables),
    [UuidParse], [Chain] and [Keypairs] (Solana client and keys), [KeyStore] (the secret of the
    settlement service and the table of wallet sessions, which no modelled code writes), [Simulator]
    (the HTTP service for transmission costs), [PriceAverage] and [Deviation] (SQL's AVG and
    STDDEV), [Plan] (the order of unsorted rows), [JwtLib],
    [Sha256], [Bcrypt], [PasswordHash] (bcrypt with its salt), [Mailer] (SMTP), [Cipher]
    (PBKDF2 and AES-GCM), [Base64], [KeyFiles] (files, JSON and base58), [FloatText], [F64Parse] and [F64Powi] (the formatting, parsing and
    powers of [f64]), [PgNumeric], [PgFloat] and [RowDecode] (what the driver and the server
    make of numbers), [DecimalFloat], [AddressText], [DateText], [MeterPda]
    (program addresses), [SqlOrder] (an ORDER BY given as text), [Deadline] (the clock of
    [tokio::time::timeout]), [NoteMailer], [DecimalText] and [JsonNumber] (mail, texts and
    JSON of notifications), [Ledger] (what the RPC node and a webhook's receiver answer),
    [NumericDecode], [NumericSign] and [PgFloatMono] (NUMERIC and float8 in PostgreSQL),
    [DecimalParse] and [ExportText] (texts of amounts and dates), [TokenLedger], [SolanaSdk],
    [Rpc] and [TokenChain] (the Solana SDK and node), [TaskJson] (payloads of the retry queue),
    [Mpsc], [Broadcast] and [WsJson]
    (channels of tokio and texts of messages), [FaucetOutside], [Ed25519], [OpsOutside] and [ValidationServices] (what the transaction services ask), [Hmac] and
    [Env] (environment variables and error texts).  Each has a
    concrete instance with which the witnesses of the theorems evaluate.  Fresh identifiers,
    the clock and random draws are arguments.

    ** Bounds and fuel

    Loops that wait or retry run on fuel.  Every iteration of the matching loop of [Clearing] either
    consumes an order or fills one, so the number of orders of both sides, plus one, is
    enough, which [match_loop_terminates] proves; the replay of [Confirmations] takes one
    unit for a slot ([replay_completes]); the retries of [Transactions] take one unit for an
    attempt of the source's constant number, and its polling is bounded by the source's timeout;
    the monitor of [Submissions] ends in its first round.  All other recursions are structural.
    Integers keep their width through [wrap_u32] and its like wherever the source computes
    at that width.

    ** Not modelled

    The command lines of the token manager (services/blockchain/token_management.rs) and the
    delegating methods of its facade, the dashboards, the delivery of mail,
    caches, the exporters of metrics and logs: they are effects of the trace or interfaces
    here, and hold no state the modelled parts decide on.  Routing and start-up wire the services.
    The directories named _disabled are not part of the build.  The background tasks are
    modelled by their body ([matching_turn], [process_due_orders],
    [check_and_trigger_orders], [load_rates]); the timer around each is not.

    ** Plan

    In order: the command lines of the token manager and the calls behind the blockchain service. *)
From stdpp Require Export base gmap strings list numbers.
From Stdlib Require Export ZArith Lia.
From Stdlib Require Import Sorting.Sorted.

(** ** Machine integers

    Rust integers are [Z] with their width written out: [wrap_i32] is the value
    a release build of the gateway stores for an [i32] whose exact value is the
    argument (two's complement, overflow checks off, the profile of the
    repository's build). *)

Declare Scope gateway_scope.
Delimit Scope gateway_scope with gw.
Open Scope Z_scope.

Definition i32_min : Z := -2147483648.
Definition i32_max : Z := 2147483647.
Definition u64_max : Z := 18446744073709551615.
Definition u32_max : Z := 4294967295.

Definition wrap_i32 (z : Z) : Z := (z + 2147483648) mod 4294967296 - 2147483648.
Definition wrap_u32 (z : Z) : Z := z mod 4294967296.
Definition wrap_u64 (z : Z) : Z := z mod 18446744073709551616.

Lemma wrap_i32_id z : i32_min <= z <= i32_max -> wrap_i32 z = z.
Proof. unfold wrap_i32, i32_min, i32_max. intros. rewrite Z.mod_small; lia. Qed.

Lemma wrap_u32_id z : 0 <= z <= u32_max -> wrap_u32 z = z.
Proof. unfold wrap_u32, u32_max. intros. rewrite Z.mod_small; lia. Qed.

Lemma wrap_u64_id z : 0 <= z <= u64_max -> wrap_u64 z = z.
Proof. unfold wrap_u64, u64_max. intros. rewrite Z.mod_small; lia. Qed.

Lemma wrap_u64_range z : 0 <= wrap_u64 z <= u64_max.
Proof. unfold wrap_u64, u64_max. pose proof (Z.mod_pos_bound z 18446744073709551616); lia. Qed.

(** ** Results

    [Ok]/[Err] of Rust's [Result<T, E>]. *)

Inductive res (E A : Type) : Type :=
| Ok (a : A)
| Err (e : E).
Arguments Ok {E A} a.
Arguments Err {E A} e.

Definition is_ok {E A} (r : res E A) : bool :=
  match r with Ok _ => true | Err _ => false end.

Global Instance res_bind {E} : MBind (res E) := fun A B f r =>
  match r with Ok a => f a | Err e => Err e end.
Global Instance res_ret {E} : MRet (res E) := fun A a => Ok a.

(** ** Sums over lists *)

Fixpoint sumZ {A} (f : A -> Z) (l : list A) : Z :=
  match l with
  | [] => 0
  | a :: l => f a + sumZ f l
  end.

Lemma sumZ_app {A} (f : A -> Z) l1 l2 : sumZ f (l1 ++ l2) = sumZ f l1 + sumZ f l2.
Proof. induction l1; simpl in *; lia. Qed.

Lemma sumZ_nonneg {A} (f : A -> Z) l :
  Forall (fun a => 0 <= f a) l -> 0 <= sumZ f l.
Proof. induction 1; simpl in *; lia. Qed.

Lemma sumZ_le {A} (f g : A -> Z) l :
  Forall (fun a => f a <= g a) l -> sumZ f l <= sumZ g l.
Proof. induction 1; simpl in *; lia. Qed.

Lemma sumZ_elem {A} (f : A -> Z) l x :
  Forall (fun a => 0 <= f a) l -> x ∈ l -> f x <= sumZ f l.
Proof.
  intros H Hx. induction Hx as [x l|x y l Hx IH]; inversion H; subst; simpl.
  - pose proof (sumZ_nonneg f l ltac:(assumption)); lia.
  - specialize (IH ltac:(assumption)); lia.
Qed.

Lemma sumZ_filter_le {A} (f : A -> Z) (p : A -> bool) l :
  Forall (fun a => 0 <= f a) l -> sumZ f (List.filter p l) <= sumZ f l.
Proof. induction 1; simpl; [lia|]. destruct (p x); simpl in *; lia. Qed.

Lemma sumZ_filter {A} (f : A -> Z) (p : A -> bool) l :
  sumZ f (List.filter p l) = sumZ (fun a => if p a then f a else 0) l.
Proof. induction l as [|a l IH]; simpl; [done|]. destruct (p a); simpl in *; lia. Qed.

Lemma sumZ_insert {A} (f : A -> Z) (l : list A) i x y :
  l !! i = Some x -> sumZ f (<[i:=y]> l) = sumZ f l - f x + f y.
Proof.
  revert i. induction l as [|a l IH]; intros [|i] H; simplify_eq/=; [lia|].
  specialize (IH _ H). lia.
Qed.

Lemma sumZ_divide {A} (f : A -> Z) k l : Forall (fun a => (k | f a)) l -> (k | sumZ f l).
Proof. induction 1; simpl; [apply Z.divide_0_r|by apply Z.divide_add_r]. Qed.

Lemma sumZ_Forall2 {A B} (f : A -> Z) (g : B -> Z) l k :
  Forall2 (fun a b => g b <= f a) l k -> sumZ g k <= sumZ f l.
Proof. induction 1; simpl in *; lia. Qed.

#[global] Instance sumZ_perm {A} (f : A -> Z) : Proper ((≡ₚ) ==> eq) (sumZ f).
Proof. intros l l' H. induction H; simpl; lia. Qed.

(** The sum over the rows of a table after one row was stored. *)
Lemma sumZ_table_insert `{Countable K} {A} (f : A -> Z) (m : gmap K A) i x :
  sumZ f (map_to_list (<[i := x]> m)).*2
  = sumZ f (map_to_list m).*2 - default 0 (f <$> m !! i) + f x.
Proof.
  assert (Hm : forall y, sumZ f (map_to_list (<[i := y]> (delete i m))).*2
                         = f y + sumZ f (map_to_list (delete i m)).*2).
  { intros y. by rewrite map_to_list_insert by apply lookup_delete_eq. }
  rewrite <- insert_delete_eq, Hm. destruct (m !! i) as [y|] eqn:E.
  - rewrite <- (insert_delete_id m i y) at 2 by done. rewrite Hm. cbn. lia.
  - rewrite delete_id by done. cbn. lia.
Qed.

Lemma NoDup_fmap_filter {A B} (f : A -> B) (p : A -> bool) l :
  NoDup (f <$> l) -> NoDup (f <$> List.filter p l).
Proof.
  induction l as [|a l IH]; simpl; [done|]. rewrite list.NoDup_cons. intros [Ha Hl].
  destruct (p a); [|by apply IH]. simpl. apply list.NoDup_cons. split; [|by apply IH].
  rewrite list_elem_of_fmap in *. intros (y & Hy & Hin). apply Ha. exists y. split; [done|].
  apply list_elem_of_In. apply list_elem_of_In in Hin. by apply List.filter_In in Hin as [? _].
Qed.

Lemma filter_none {A} (p : A -> bool) l :
  (forall x, x ∈ l -> p x = false) -> List.filter p l = [].
Proof.
  induction l as [|x l IH]; intros H; simpl; [done|]. rewrite (H x) by (by left).
  apply IH. intros y Hy. apply H. by right.
Qed.

(** The values of a map, as rows of a table. *)
Lemma elem_of_values `{Countable K} {A} (m : gmap K A) x :
  x ∈ (map_to_list m).*2 <-> exists i, m !! i = Some x.
Proof.
  rewrite list_elem_of_fmap. split.
  - intros ([i y] & -> & Hi). exists i. by apply elem_of_map_to_list in Hi.
  - intros [i Hi]. exists (i, x). split; [done|]. by apply elem_of_map_to_list.
Qed.

(** [Vec::remove(i)]. *)
Fixpoint remove_nth {A} (i : nat) (l : list A) : list A :=
  match l, i with
  | [], _ => []
  | _ :: l, O => l
  | a :: l, S i => a :: remove_nth i l
  end.

Lemma length_remove_nth {A} (l : list A) i :
  (i < length l)%nat -> S (length (remove_nth i l)) = length l.
Proof.
  revert i; induction l as [|a l IH]; intros [|i] H; simpl in *; try lia.
  rewrite <- (IH i); lia.
Qed.

Lemma remove_nth_subset {A} (l : list A) i x : x ∈ remove_nth i l -> x ∈ l.
Proof.
  revert i; induction l as [|a l IH]; intros [|i]; simpl; auto.
  - intros. now right.
  - rewrite !elem_of_cons. intros [->|H]; eauto.
Qed.

Lemma sumZ_remove_nth {A} (f : A -> Z) (l : list A) i x :
  l !! i = Some x -> sumZ f (remove_nth i l) = sumZ f l - f x.
Proof.
  revert i. induction l as [|a l IH]; intros [|i] H; simplify_eq/=; [lia|].
  specialize (IH _ H). lia.
Qed.

Lemma Forall_remove_nth {A} (P : A -> Prop) l i : Forall P l -> Forall P (remove_nth i l).
Proof. intros H. revert i. induction H; intros [|i]; simpl; auto. Qed.

(** ** Rows of a table

    [fetch_optional] of a query without ORDER BY: the first row in the order of the table. *)

Definition row_where {A} (p : A -> bool) (m : gmap N A) : option (N * A) :=
  List.find (fun x => p x.2) (map_to_list m).

Lemma row_where_Some {A} (p : A -> bool) m i x :
  row_where p m = Some (i, x) -> m !! i = Some x /\ p x = true.
Proof. intros [H Hp]%List.find_some. split; [|done]. by apply elem_of_map_to_list, list_elem_of_In. Qed.

Lemma row_where_None {A} (p : A -> bool) m :
  row_where p m = None <-> forall i x, m !! i = Some x -> p x = false.
Proof.
  split.
  - intros H i x Hx. apply (List.find_none _ _ H (i, x)), list_elem_of_In. by apply elem_of_map_to_list.
  - intros H. destruct (row_where p m) as [[i x]|] eqn:E; [|done].
    apply row_where_Some in E as [Hx Hp]. by rewrite (H i x Hx) in Hp.
Qed.

Lemma row_where_unique {A} (p : A -> bool) m i x : m !! i = Some x -> p x = true ->
  (forall j y, m !! j = Some y -> p y = true -> j = i) -> row_where p m = Some (i, x).
Proof.
  intros Hx Hp Huniq. destruct (row_where p m) as [[j y]|] eqn:E.
  - apply row_where_Some in E as [Hy Hq]. assert (j = i) as -> by by eapply Huniq. congruence.
  - apply row_where_None with (i := i) (x := x) in E; [|done]. congruence.
Qed.

(** A filter of permuted lists. *)
#[global] Instance bool_filter_perm {A} (p : A -> bool) : Proper ((≡ₚ) ==> (≡ₚ)) (List.filter p).
Proof.
  intros l l' H. induction H; simpl; repeat case_match; try done;
    [by constructor|by apply Permutation_swap|by etransitivity].
Qed.

(** ** Stable sorting

    [sort_by le] is the stable sort of a list: what [ORDER BY] and
    [slice::sort_by] deliver. *)
Section sorting.
Context {A : Type} (le : A -> A -> bool).

Fixpoint insert_by (x : A) (l : list A) : list A :=
  match l with
  | [] => [x]
  | y :: l' => if le x y then x :: l else y :: insert_by x l'
  end.

Definition sort_by (l : list A) : list A := foldr insert_by [] l.

Lemma insert_by_perm x l : insert_by x l ≡ₚ x :: l.
Proof.
  induction l as [|y l IH]; simpl; [done|]. destruct (le x y); [done|].
  rewrite IH. apply Permutation_swap.
Qed.

Lemma sort_by_perm l : sort_by l ≡ₚ l.
Proof. induction l as [|x l IH]; simpl; [done|]. by rewrite insert_by_perm, IH. Qed.

Lemma insert_by_front x l : Forall (fun y => le x y = true) l -> insert_by x l = x :: l.
Proof. intros H. destruct H as [|y l Hy _]; simpl; [done|by rewrite Hy]. Qed.

Lemma insert_by_app_left x l1 l2 :
  Forall (fun y => le x y = true) l2 -> insert_by x (l1 ++ l2) = insert_by x l1 ++ l2.
Proof.
  intros H. induction l1 as [|y l1 IH]; simpl; [by apply insert_by_front|].
  destruct (le x y); [done|]. by rewrite IH.
Qed.

Lemma insert_by_app_right x l1 l2 :
  Forall (fun y => le x y = false) l1 -> insert_by x (l1 ++ l2) = l1 ++ insert_by x l2.
Proof. induction 1 as [|y l1 Hy _ IH]; simpl; [done|]. by rewrite Hy, IH. Qed.

(** What comes before everything else can be sorted by itself. *)
Lemma sort_by_split (p : A -> bool) l :
  (forall x y, x ∈ l -> y ∈ l -> p x = true -> p y = false -> le x y = true /\ le y x = false) ->
  sort_by l = sort_by (List.filter p l) ++ sort_by (List.filter (fun x => negb (p x)) l).
Proof.
  induction l as [|a l IH]; intros H; simpl; [done|].
  rewrite IH by (intros x y ? ?; apply H; by right).
  assert (Hin : forall q b, b ∈ sort_by (List.filter q l) -> b ∈ l /\ q b = true).
  { intros q b Hb. rewrite sort_by_perm in Hb. apply list_elem_of_In, List.filter_In in Hb as [Hb ?].
    by apply list_elem_of_In in Hb. }
  destruct (p a) eqn:E; simpl.
  - apply insert_by_app_left, list.Forall_forall. intros b Hb.
    apply Hin in Hb as [Hb Hp%negb_true_iff]. apply H; try done; [by left|by right].
  - apply insert_by_app_right, list.Forall_forall. intros b Hb.
    apply Hin in Hb as [Hb Hp]. apply H; try done; [by right|by left].
Qed.

Definition rel (x y : A) : Prop := le x y = true.

Hypothesis le_total : forall x y, le x y = true \/ le y x = true.

Lemma insert_by_sorted x l : Sorted.Sorted rel l -> Sorted.Sorted rel (insert_by x l).
Proof.
  unfold rel. induction 1 as [|y l Hs IH Hd]; simpl; [repeat constructor|].
  destruct (le x y) eqn:E; [repeat constructor; auto|].
  constructor; [done|]. destruct (le_total x y) as [?|Hyx]; [congruence|].
  destruct l as [|z l]; simpl in *; [by repeat constructor|].
  destruct (le x z); constructor; [done|]. by inversion Hd.
Qed.

Lemma sort_by_sorted l : Sorted.Sorted rel (sort_by l).
Proof. induction l; simpl; [constructor|by apply insert_by_sorted]. Qed.
End sorting.

(** ** Text

    [str::to_lowercase] and [char::is_ascii_*] on ASCII text, [str::contains] and
    [str::parse] of unsigned integers. *)

Definition in_range (lo hi : Z) (c : Ascii.ascii) : bool :=
  let n := Z.of_N (Ascii.N_of_ascii c) in (lo <=? n) && (n <=? hi).

Definition is_ascii_uppercase : Ascii.ascii -> bool := in_range 65 90.
Definition is_ascii_lowercase : Ascii.ascii -> bool := in_range 97 122.
Definition is_ascii_digit : Ascii.ascii -> bool := in_range 48 57.

Definition lower_char (c : Ascii.ascii) : Ascii.ascii :=
  if is_ascii_uppercase c then Ascii.ascii_of_N (Ascii.N_of_ascii c + 32) else c.

Fixpoint to_lowercase (s : string) : string :=
  match s with
  | EmptyString => EmptyString
  | String c s => String (lower_char c) (to_lowercase s)
  end.

Definition contains (pat s : string) : bool :=
  match String.index 0 pat s with Some _ => true | None => false end.

Definition digit_value (c : Ascii.ascii) : option Z :=
  if is_ascii_digit c then Some (Z.of_N (Ascii.N_of_ascii c) - 48) else None.

Fixpoint digits_value (acc : Z) (s : string) : option Z :=
  match s with
  | EmptyString => Some acc
  | String c s => d ← digit_value c; digits_value (acc * 10 + d) s
  end.

(** [s.parse::<uN>()] for the type with maximum [max]: an optional plus sign, at
    least one digit, no overflow. *)
Definition parse_unsigned (max : Z) (s : string) : option Z :=
  let digits := match s with
    | String c s' => if in_range 43 43 c then s' else s
    | EmptyString => s
    end in
  match digits with
  | EmptyString => None
  | _ => v ← digits_value 0 digits; if v <=? max then Some v else None
  end.

(** [s.parse::<bool>()]. *)
Definition parse_bool (s : string) : option bool :=
  if (s =? "true")%string then Some true
  else if (s =? "false")%string then Some false else None.

(** ** Automation *)

(** Splits the boolean tests and [match]es the code makes, in goal and
    hypotheses, keeping the equations. *)
Ltac split_tests :=
  repeat match goal with
  | H : context [if ?b then _ else _] |- _ =>
      let E := fresh "E" in destruct b eqn:E
  | |- context [if ?b then _ else _] =>
      let E := fresh "E" in destruct b eqn:E
  end.

(** Turns boolean integer comparisons into the propositions [lia] uses. *)
Ltac to_prop :=
  repeat match goal with
  | H : (_ <? _)%Z = true |- _ => apply Z.ltb_lt in H
  | H : (_ <? _)%Z = false |- _ => apply Z.ltb_ge in H
  | H : (_ <=? _)%Z = true |- _ => apply Z.leb_le in H
  | H : (_ <=? _)%Z = false |- _ => apply Z.leb_gt in H
  | H : (_ =? _)%Z = true |- _ => apply Z.eqb_eq in H
  | H : (_ =? _)%Z = false |- _ => apply Z.eqb_neq in H
  | H : (_ =? _)%N = true |- _ => apply N.eqb_eq in H
  | H : (_ =? _)%N = false |- _ => apply N.eqb_neq in H
  | H : (_ =? _)%string = true |- _ => apply String.eqb_eq in H
  | H : (_ =? _)%string = false |- _ => apply String.eqb_neq in H
  | H : _ && _ = true |- _ => apply andb_true_iff in H; destruct H
  | H : _ || _ = false |- _ => apply orb_false_iff in H; destruct H
  | H : negb _ = true |- _ => apply negb_true_iff in H
  | H : negb _ = false |- _ => apply negb_false_iff in H
  end.

Ltac tests := split_tests; to_prop; simplify_eq/=.

Create HintDb gateway.
