(* ===== verification/Numerics.v ===== *)
(** Decimal money and energy amounts, and the NUMERIC columns they are stored in.

    The gateway computes with [rust_decimal::Decimal] (a 96-bit mantissa and a
    decimal scale of at most 28) and stores amounts in PostgreSQL columns of type
    NUMERIC(20, 8).  Neither is code of the repository, so both are parameters:
    [Numerics] packs their operations with the documented behaviour the theorems
    rely on.  A [Decimal] is modelled by its value counted in units of 10^-28,
    the finest scale the type has; comparison, equality, [min] and [max] of the
    crate are numeric, so they are the integer ones. *)
From S2P Require Import Prelude.

(** One whole unit (1 kWh, 1 currency token), and one step of a NUMERIC(20, 8)
    column, both counted in 10^-28. *)
Definition U : Z := 10000000000000000000000000000.
Definition G8 : Z := 100000000000000000000.

Abbreviation Decimal := Z (only parsing).

(** The literal [m * 10^-s]. *)
Definition dec (m s : Z) : Decimal := m * 10 ^ (28 - s).

(** [z] has at most [s] decimals. *)
Definition on_grid (s z : Z) : Prop := (10 ^ (28 - s) | z).

(** [z] is the value of some [Decimal]: 96-bit mantissa, scale at most 28. *)
Definition repr (z : Z) : Prop :=
  exists s, 0 <= s <= 28 /\ on_grid s z /\ Z.abs z < 2 ^ 96 * 10 ^ (28 - s).

(** What the code relies on of [rust_decimal] and of PostgreSQL.

    - [dadd], [dsub], [dmul], [ddiv]: the crate's operators.  A result that a
      [Decimal] can represent is computed exactly; outside that range the crate
      rounds or panics and nothing is assumed.  Division by zero panics ([None]).
    - [num8]: the value a NUMERIC(20, 8) column holds after a store, [None] when
      the server rejects the statement (numeric field overflow).  A stored value
      is a multiple of 10^-8 within half a step of the value given. *)
Class Numerics := {
  dadd : Decimal -> Decimal -> Decimal;
  dsub : Decimal -> Decimal -> Decimal;
  dmul : Decimal -> Decimal -> Decimal;
  ddiv : Decimal -> Decimal -> option Decimal;
  num8 : Decimal -> option Decimal;
  dadd_exact a b : repr (a + b) -> dadd a b = a + b;
  dsub_exact a b : repr (a - b) -> dsub a b = a - b;
  dmul_exact a b c : a * b = c * U -> repr c -> dmul a b = c;
  ddiv_exact a b c : b <> 0 -> a * U = c * b -> repr c -> ddiv a b = Some c;
  ddiv_zero a : ddiv a 0 = None;
  num8_stored z r : num8 z = Some r -> (G8 | r) /\ 2 * Z.abs (r - z) <= G8;
  num8_fits z : Z.abs z <= 999999999999 * U -> exists r, num8 z = Some r;
}.

(** [Decimal::to_string] of the truncated value, parsed as [u64], with
    [unwrap_or(0)]: the integer part when it is a [u64], else 0. *)
Definition trunc_u64_or_0 (z : Decimal) : Z :=
  let t := Z.quot z U in if (0 <=? t) && (t <=? u64_max) then t else 0.

(** [ToPrimitive::to_u64] on a non-negative value: the integer part, [None] when
    it does not fit. *)
Definition to_u64 (z : Decimal) : option Z :=
  let t := Z.quot z U in if (0 <=? t) && (t <=? u64_max) then Some t else None.

Lemma on_grid_8 z : on_grid 8 z <-> (G8 | z).
Proof. reflexivity. Qed.

Lemma on_grid_add s a b : on_grid s a -> on_grid s b -> on_grid s (a + b).
Proof. apply Z.divide_add_r. Qed.

Lemma on_grid_sub s a b : on_grid s a -> on_grid s b -> on_grid s (a - b).
Proof. apply Z.divide_sub_r. Qed.

Lemma on_grid_0 s : on_grid s 0.
Proof. apply Z.divide_0_r. Qed.

Lemma on_grid_mono s s' z : 0 <= s -> s <= s' -> s' <= 28 -> on_grid s z -> on_grid s' z.
Proof.
  unfold on_grid. intros ? ? ? H. etransitivity; [|exact H].
  exists (10 ^ (s' - s)). rewrite <- Z.pow_add_r by lia. f_equal; lia.
Qed.

(** The product of values with [s1] and [s2] decimals has [s1 + s2] decimals. *)
Lemma grid_mul s1 s2 a b :
  0 <= s1 -> 0 <= s2 -> s1 + s2 <= 28 -> on_grid s1 a -> on_grid s2 b ->
  exists c, a * b = c * U /\ on_grid (s1 + s2) c.
Proof.
  intros ? ? ? [p ->] [q ->]. exists (p * q * 10 ^ (28 - (s1 + s2))). split.
  - replace U with (10 ^ 28) by reflexivity.
    replace (p * 10 ^ (28 - s1) * (q * 10 ^ (28 - s2)))
      with (p * q * (10 ^ (28 - s1) * 10 ^ (28 - s2))) by ring.
    rewrite <- (Z.mul_assoc (p * q) (10 ^ _) (10 ^ 28)), <- !Z.pow_add_r by lia.
    f_equal. f_equal. lia.
  - exists (p * q). reflexivity.
Qed.

Lemma repr_grid s z :
  0 <= s <= 28 -> on_grid s z -> Z.abs z < 2 ^ 96 * 10 ^ (28 - s) -> repr z.
Proof. unfold repr. eauto. Qed.

(** The two grids of the program: amounts and prices have 8 decimals, their
    products 16. *)
Lemma repr_8 z : (G8 | z) -> Z.abs z <= 10 ^ 20 * U -> repr z.
Proof. intros H1 H2. apply (repr_grid 8); [split; discriminate|exact H1|]. eapply Z.le_lt_trans; [exact H2|reflexivity]. Qed.

Lemma repr_16 z : on_grid 16 z -> Z.abs z <= 10 ^ 12 * U -> repr z.
Proof. intros H1 H2. apply (repr_grid 16); [split; discriminate|exact H1|]. eapply Z.le_lt_trans; [exact H2|reflexivity]. Qed.

Lemma repr_0 : repr 0.
Proof. apply (repr_grid 0); [split; discriminate|apply on_grid_0|reflexivity]. Qed.

Section exactness.
Context `{Numerics}.

(** The product is exact when the operands' decimals add up to at most 28 and
    the mantissa of the result has at most 96 bits. *)
Lemma dmul_grid s1 s2 a b :
  0 <= s1 -> 0 <= s2 -> s1 + s2 <= 28 -> on_grid s1 a -> on_grid s2 b ->
  Z.abs (a * b) < 2 ^ 96 * 10 ^ (28 - (s1 + s2)) * U ->
  dmul a b * U = a * b /\ on_grid (s1 + s2) (dmul a b).
Proof.
  intros Hs1 Hs2 Hs Ha Hb Hlt.
  destruct (grid_mul s1 s2 a b) as (c & Hc & Hg); auto.
  rewrite (dmul_exact a b c Hc); [auto|].
  apply (repr_grid (s1 + s2)); [lia|auto|]. rewrite Hc, Z.abs_mul in Hlt.
  replace (Z.abs U) with U in Hlt by reflexivity. unfold U in *. nia.
Qed.

(** The midpoint of two values with at most [s] decimals is exact. *)
Lemma midpoint_exact s a b :
  0 <= s <= 27 -> on_grid s a -> on_grid s b ->
  Z.abs a + Z.abs b < 2 ^ 96 * 10 ^ (27 - s) ->
  exists c, ddiv (dadd a b) (dec 2 0) = Some c /\ 2 * c = a + b /\ on_grid (s + 1) c.
Proof.
  intros Hs Ga Gb Hlt. assert (E : 10 ^ (28 - s) = 10 * 10 ^ (27 - s)).
  { replace (28 - s) with (Z.succ (27 - s)) by lia. apply Z.pow_succ_r. lia. }
  assert (P : 0 < 10 ^ (27 - s)) by (apply Z.pow_pos_nonneg; lia).
  destruct (on_grid_add s a b Ga Gb) as [k Hk]. rewrite E in Hk.
  assert (Hc : 2 * (5 * k * 10 ^ (27 - s)) = a + b) by lia.
  assert (G : on_grid (s + 1) (5 * k * 10 ^ (27 - s))).
  { exists (5 * k). f_equal. f_equal. lia. }
  exists (5 * k * 10 ^ (27 - s)). split_and!; [|exact Hc|exact G].
  rewrite dadd_exact.
  - apply ddiv_exact; [discriminate|unfold dec; rewrite Z.sub_0_r; change (10 ^ 28) with U; lia|].
    apply (repr_grid (s + 1)); [lia|exact G|].
    replace (28 - (s + 1)) with (27 - s) by lia. lia.
  - apply (repr_grid s); [lia|by apply on_grid_add|]. rewrite E. lia.
Qed.

Lemma num8_grid z : (G8 | z) -> Z.abs z <= 999999999999 * U -> num8 z = Some z.
Proof.
  intros Hz Hb. destruct (num8_fits z Hb) as [r Hr]. rewrite Hr.
  destruct (num8_stored _ _ Hr) as [Hg Hd]. f_equal.
  destruct (Z.divide_sub_r _ _ _ Hg Hz) as [k Hk]. unfold G8 in *. nia.
Qed.

Lemma num8_on_grid z r : num8 z = Some r -> (G8 | r).
Proof. intros Hr. apply (num8_stored _ _ Hr). Qed.

Lemma num8_id z r : (G8 | z) -> num8 z = Some r -> r = z.
Proof.
  intros Hz Hr. destruct (num8_stored _ _ Hr) as [Hg Hd].
  destruct (Z.divide_sub_r _ _ _ Hg Hz) as [k Hk]. unfold G8 in *. nia.
Qed.
End exactness.

(** ** A concrete instance

    Unbounded decimals with 28 decimals (products and quotients truncated) and
    columns that round half away from zero.  The witnesses evaluate the model
    with it. *)
Definition round8 (z : Z) : Z :=
  Z.sgn z * ((Z.abs z + G8 / 2) / G8 * G8).

Definition std_num8 (z : Z) : option Z :=
  if Z.abs z <=? 999999999999 * U then Some (round8 z) else None.

Lemma round8_spec z : (G8 | round8 z) /\ 2 * Z.abs (round8 z - z) <= G8.
Proof.
  unfold round8. split.
  - apply Z.divide_mul_r, Z.divide_factor_r.
  - pose proof (Z.div_mod (Z.abs z + G8 / 2) G8 ltac:(discriminate)).
    pose proof (Z.mod_pos_bound (Z.abs z + G8 / 2) G8 ltac:(reflexivity)).
    replace (G8 / 2) with 50000000000000000000 in * by reflexivity. unfold G8 in *.
    destruct (Z.sgn_spec z) as [[? ->]|[[? ->]|[? ->]]]; subst; simpl; lia.
Qed.

Definition std_div (a b : Z) : option Z :=
  if b =? 0 then None else Some (Z.quot (a * U) b).

Lemma std_mul_exact a b c : a * b = c * U -> repr c -> Z.quot (a * b) U = c.
Proof. intros -> _. apply Z.quot_mul. discriminate. Qed.

Lemma std_div_exact a b c : b <> 0 -> a * U = c * b -> repr c -> std_div a b = Some c.
Proof.
  intros Hb Hc _. unfold std_div. destruct (b =? 0) eqn:E; to_prop; [lia|].
  rewrite Hc, Z.quot_mul; auto.
Qed.

Lemma std_num8_stored z r : std_num8 z = Some r -> (G8 | r) /\ 2 * Z.abs (r - z) <= G8.
Proof. unfold std_num8. intros Hz. tests. apply round8_spec. Qed.

Lemma std_num8_fits z : Z.abs z <= 999999999999 * U -> exists r, std_num8 z = Some r.
Proof. unfold std_num8. intros Hz%Z.leb_le. rewrite Hz. eauto. Qed.

Definition std_numerics : Numerics := {|
  dadd := Z.add;
  dsub := Z.sub;
  dmul a b := Z.quot (a * b) U;
  ddiv := std_div;
  num8 := std_num8;
  dadd_exact _ _ _ := eq_refl;
  dsub_exact _ _ _ := eq_refl;
  dmul_exact := std_mul_exact;
  ddiv_exact := std_div_exact;
  ddiv_zero _ := eq_refl;
  num8_stored := std_num8_stored;
  num8_fits := std_num8_fits;
|}.

#[export] Hint Resolve on_grid_add on_grid_sub on_grid_0 repr_0 : gateway.

(** Closed goals [(G8 | z)] and the like, by computing the remainder. *)
Ltac grid := apply Z.mod_divide; [discriminate|vm_compute; reflexivity].
