(* ===== verification/Floats.v ===== *)
(** binary64 arithmetic: the [f64] of the gateway.

    Meter readings, limits and page counts are computed in [f64].  The operations are
    those of the [SpecFloat] module (IEEE 754 binary64, round to nearest even); this
    file adds the operations of Rust's standard library the code uses ([min], [max],
    [abs], [ceil], the saturating casts) and what the theorems need of them: small
    integers are exact, a quotient of two of them is correctly rounded, and its
    [ceil] is therefore the exact ceiling. *)
From S2P Require Import Prelude.
From Stdlib Require Export SpecFloat.

Open Scope Z_scope.

(** ** Operations *)

Definition f64_of_Z (z : Z) : spec_float := binary_normalize 53 1024 z 0 false.
Definition f64_add : spec_float -> spec_float -> spec_float := SFadd 53 1024.
Definition f64_sub : spec_float -> spec_float -> spec_float := SFsub 53 1024.
Definition f64_mul : spec_float -> spec_float -> spec_float := SFmul 53 1024.
Definition f64_div : spec_float -> spec_float -> spec_float := SFdiv 53 1024.
Definition f64_abs : spec_float -> spec_float := SFabs.

#[export] Instance spec_float_eq_dec : EqDecision spec_float.
Proof. solve_decision. Defined.

(** [<] and [<=]; [x > y] is [f64_lt y x]. *)
Definition f64_lt : spec_float -> spec_float -> bool := SFltb.
Definition f64_le : spec_float -> spec_float -> bool := SFleb.

(** The double nearest to [n / d]: a decimal literal of the source. *)
Definition f64_lit (n d : Z) : spec_float := f64_div (f64_of_Z n) (f64_of_Z d).

Definition is_nan (x : spec_float) : bool := match x with S754_nan => true | _ => false end.

(** [f64::min] and [f64::max]: a NaN is ignored. *)
Definition f64_min (a b : spec_float) : spec_float :=
  if is_nan a then b else if f64_lt b a then b else a.
Definition f64_max (a b : spec_float) : spec_float :=
  if is_nan a then b else if f64_lt a b then b else a.

(** The integer part (towards zero), and the least integer that is not smaller. *)
Definition f64_trunc (x : spec_float) : Z :=
  match x with
  | S754_finite s m e =>
      cond_Zopp s (if 0 <=? e then Z.pos m * 2 ^ e else Z.pos m / 2 ^ (- e))
  | _ => 0
  end.

Definition f64_ceil (x : spec_float) : spec_float :=
  match x with
  | S754_finite s m e =>
      if 0 <=? e then x
      else binary_normalize 53 1024 (- (- cond_Zopp s (Z.pos m) / 2 ^ (- e))) 0 s
  | _ => x
  end.

(** [x as uN] for the type with maximum [max]: truncated, saturating, NaN to 0. *)
Definition as_unsigned (max : Z) (x : spec_float) : Z :=
  match x with
  | S754_finite _ _ _ => Z.max 0 (Z.min max (f64_trunc x))
  | S754_infinity false => max
  | _ => 0
  end.

(** ** Digits *)

Lemma digits2_pos_bounds p :
  2 ^ (Z.pos (digits2_pos p) - 1) <= Z.pos p < 2 ^ Z.pos (digits2_pos p).
Proof.
  induction p as [p IH|p IH|]; simpl digits2_pos; [| |by split].
  all: rewrite Pos2Z.inj_succ, Z.pow_succ_r by lia.
  all: replace (Z.succ (Z.pos (digits2_pos p)) - 1) with (Z.succ (Z.pos (digits2_pos p) - 1)) by lia.
  all: rewrite (Z.pow_succ_r 2 (Z.pos (digits2_pos p) - 1)) by lia; lia.
Qed.

Lemma pow2_pos k : 0 <= k -> 0 < 2 ^ k.
Proof. intros. by apply Z.pow_pos_nonneg. Qed.

Lemma Zdigits2_unique z d : 0 < d -> 2 ^ (d - 1) <= z < 2 ^ d -> Zdigits2 z = d.
Proof.
  intros Hd Hz. pose proof (pow2_pos (d - 1) ltac:(lia)).
  destruct z as [|p|p]; simpl; [lia| |lia].
  pose proof (digits2_pos_bounds p) as Hp.
  assert (A : d - 1 < Z.pos (digits2_pos p)) by (apply (Z.pow_lt_mono_r_iff 2); lia).
  assert (B : Z.pos (digits2_pos p) - 1 < d) by (apply (Z.pow_lt_mono_r_iff 2); lia).
  lia.
Qed.

Lemma fexp_normal d e : -1021 <= d + e -> fexp 53 1024 (d + e) = d + e - 53.
Proof. unfold fexp, emin. lia. Qed.

(** ** Rounding *)

(** [l] says where [r] lies in [0, b). *)
Definition loc_ok (b r : Z) (l : location) : Prop :=
  match l with
  | loc_Exact => r = 0
  | loc_Inexact c => 0 < r < b /\ (2 * r ?= b) = c
  end.

Lemma new_location_ok b r : 0 <= r < b -> loc_ok b r (new_location b r).
Proof.
  intros H. unfold new_location, new_location_even, new_location_odd.
  destruct (Z.even b) eqn:Eb, (r =? 0) eqn:Er; to_prop; simpl; try done.
  - split; [lia|done].
  - split; [lia|]. rewrite <- Z.negb_odd in Eb. apply negb_false_iff, Z.odd_spec in Eb as [k Hk].
    destruct (Z.compare_spec (2 * r + 1) b); [| |];
      [apply Z.compare_lt_iff|apply Z.compare_lt_iff|apply Z.compare_gt_iff]; lia.
Qed.

Lemma loc_of_record m l : loc_of_shr_record (shr_record_of_loc m l) = l.
Proof. by destruct l as [|[]]. Qed.

Lemma shr_m_of_record m l : shr_m (shr_record_of_loc m l) = m.
Proof. by destruct l as [|[]]. Qed.

Ltac compare_props :=
  repeat match goal with
  | H : _ /\ _ |- _ => destruct H
  | H : (_ ?= _) = Eq |- _ => rewrite Z.compare_eq_iff in H
  | H : (_ ?= _) = Lt |- _ => rewrite Z.compare_lt_iff in H
  | H : (_ ?= _) = Gt |- _ => rewrite Z.compare_gt_iff in H
  | |- (_ ?= _) = Eq => rewrite Z.compare_eq_iff
  | |- (_ ?= _) = Lt => rewrite Z.compare_lt_iff
  | |- (_ ?= _) = Gt => rewrite Z.compare_gt_iff
  end.

(** One shift: the dropped bit joins the location. *)
Lemma shr_1_ok m l b r : 0 < m -> 0 < b -> loc_ok b r l ->
  let rec := shr_1 (shr_record_of_loc m l) in
  exists c, (c = 0 \/ c = 1) /\ m = 2 * shr_m rec + c
    /\ loc_ok (2 * b) (c * b + r) (loc_of_shr_record rec).
Proof.
  intros Hm Hb Hl.
  destruct m as [|[p|p|]|]; try lia; [exists 1|exists 0|exists 1];
    (split; [lia|]); destruct l as [|[]];
    cbn [shr_1 shr_record_of_loc shr_m loc_of_shr_record loc_ok orb] in *;
    compare_props; (split; [lia|]); try (split; [lia|]); compare_props; lia.
Qed.

(** Rounding to nearest: within half a step. *)
Lemma round_nearest_err q b r l : 0 < b -> loc_ok b r l ->
  (round_nearest_even q l = q \/ round_nearest_even q l = q + 1)
  /\ 2 * Z.abs (round_nearest_even q l * b - (q * b + r)) <= b.
Proof.
  intros Hb Hl. destruct l as [|[]]; simpl in *;
    compare_props; try (destruct (Z.even q)); split; lia.
Qed.

Lemma shr_fexp_none q e l : 2 ^ 52 <= q < 2 ^ 53 -> -1074 <= e ->
  shr_fexp 53 1024 q e l = (shr_record_of_loc q l, e).
Proof.
  intros Hq He. unfold shr_fexp. rewrite (Zdigits2_unique q 53) by (simpl; lia).
  rewrite fexp_normal by lia. by replace (53 + e - 53 - e) with 0 by lia.
Qed.

Lemma shr_fexp_one q e l : 2 ^ 53 <= q < 2 ^ 54 -> -1074 <= e ->
  shr_fexp 53 1024 q e l = (shr_1 (shr_record_of_loc q l), e + 1).
Proof.
  intros Hq He. unfold shr_fexp. rewrite (Zdigits2_unique q 54) by (simpl; lia).
  rewrite fexp_normal by lia. by replace (54 + e - 53 - e) with 1 by lia.
Qed.

(** What is left after rounding a 53 bit mantissa: a carry shifts once more. *)
Lemma finish_round s m e : 2 ^ 52 <= m <= 2 ^ 53 -> -1074 <= e <= 970 ->
  let '(mrs, e') := shr_fexp 53 1024 m e loc_Exact in
  exists p, shr_m mrs = Z.pos p /\ 2 ^ 52 <= Z.pos p < 2 ^ 53
    /\ (match shr_m mrs with
        | Z0 => S754_zero s
        | Zpos m => if Z.leb e' (1024 - 53) then S754_finite s m e' else S754_infinity s
        | _ => S754_nan
        end) = S754_finite s p e'
    /\ (e' = e /\ Z.pos p = m \/ e' = e + 1 /\ 2 * Z.pos p = m).
Proof.
  intros Hm He. destruct (Z.eq_dec m (2 ^ 53)) as [->|].
  - rewrite shr_fexp_one by lia. exists (2 ^ 52)%positive. split; [reflexivity|].
    split; [simpl; lia|]. split; [|right; split; [done|reflexivity]].
    change (shr_m (shr_1 (shr_record_of_loc (2 ^ 53) loc_Exact))) with (Z.pos (2 ^ 52)).
    by replace (e + 1 <=? 1024 - 53) with true by (symmetry; apply Z.leb_le; lia).
  - rewrite shr_fexp_none by lia. destruct m as [|p|p]; try lia. exists p.
    split; [reflexivity|]. split; [lia|]. split; [|by left].
    cbn [shr_m shr_record_of_loc].
    by replace (e <=? 1024 - 53) with true by (symmetry; apply Z.leb_le; lia).
Qed.

(** [q * b + r] counts a value in steps of [2^e / b]: the result is the nearest
    double, at most half a unit of its last place away. *)
Lemma round_aux_nearest s q e l b r : 2 ^ 52 <= q < 2 ^ 54 -> -1074 <= e <= 960 -> 0 < b ->
  loc_ok b r l ->
  exists m k, binary_round_aux 53 1024 s q e l = S754_finite s m (e + k)
    /\ 2 ^ 52 <= Z.pos m < 2 ^ 53 /\ 0 <= k <= 2
    /\ 2 * Z.abs (Z.pos m * 2 ^ k * b - (q * b + r)) <= 2 ^ k * b.
Proof.
  intros Hq He Hb Hl. unfold binary_round_aux.
  assert (Hstep : exists q' r' c l', (c = 0 \/ c = 1) /\ 2 ^ 52 <= q' < 2 ^ 53
    /\ (let '(mrs, e') := shr_fexp 53 1024 q e l in
        shr_m mrs = q' /\ loc_of_shr_record mrs = l' /\ e' = e + c)
    /\ loc_ok (2 ^ c * b) r' l' /\ q' * (2 ^ c * b) + r' = q * b + r).
  { destruct (Z_lt_le_dec q (2 ^ 53)).
    - rewrite shr_fexp_none by lia. exists q, r, 0, l. change (2 ^ 0) with 1.
      rewrite loc_of_record, shr_m_of_record, Z.mul_1_l, Z.add_0_r. split_and!; first [lia | done].
    - rewrite shr_fexp_one by lia.
      destruct (shr_1_ok q l b r ltac:(lia) Hb Hl) as (c & Hc & Hqc & Hlc).
      eexists _, (c * b + r), 1, _. change (2 ^ 1) with 2.
      split; [by right|]. split; [|split; [split_and!; reflexivity|split; [exact Hlc|]]].
      + change (2 ^ 54) with (2 * 2 ^ 53) in Hq. change (2 ^ 53) with (2 * 2 ^ 52) in *. lia.
      + rewrite Hqc at 2. ring. }
  destruct Hstep as (q' & r' & c & l' & Hc & Hq' & Hs & Hl' & Hsum).
  destruct (shr_fexp 53 1024 q e l) as [mrs e']. destruct Hs as (-> & -> & ->).
  assert (Hcb : 0 < 2 ^ c * b) by (destruct Hc; subst; lia).
  destruct (round_nearest_err q' (2 ^ c * b) r' l' Hcb Hl') as [Hr Herr].
  set (m := round_nearest_even q' l') in *.
  assert (Hm : 2 ^ 52 <= m <= 2 ^ 53) by lia.
  pose proof (finish_round s m (e + c) Hm ltac:(lia)) as Hf.
  destruct (shr_fexp 53 1024 m (e + c) loc_Exact) as [mrs' e''].
  destruct Hf as (p & _ & Hp & Hres & Hk). rewrite Hres, <- Hsum.
  destruct Hk as [[-> <-]|[-> <-]].
  - exists p, c. split_and!; [done|lia..|by rewrite <- Z.mul_assoc].
  - exists p, (c + 1). rewrite Z.pow_add_r by lia. change (2 ^ 1) with 2.
    split_and!; [by rewrite Z.add_assoc|lia..].
Qed.

(** ** Integers and their quotients *)

Lemma iter_xO d p : Z.pos (Pos.iter xO p d) = Z.pos p * 2 ^ Z.pos d.
Proof.
  induction d as [|d IH] using Pos.peano_ind; [simpl; lia|].
  rewrite Pos.iter_succ, Pos2Z.inj_succ, Z.pow_succ_r by lia.
  change (Z.pos (Pos.iter xO p d)~0) with (2 * Z.pos (Pos.iter xO p d)). rewrite IH. ring.
Qed.

(** An integer below [2^53] is a double, with the mantissa shifted up to 53 bits. *)
Lemma f64_of_Z_pos a : 0 < a < 2 ^ 53 ->
  let d := Zdigits2 a in
  exists m, f64_of_Z a = S754_finite false m (d - 53) /\ 0 < d <= 53
    /\ Z.pos m = a * 2 ^ (53 - d) /\ 2 ^ 52 <= Z.pos m < 2 ^ 53.
Proof.
  intros Ha d. destruct a as [|p|p]; try lia.
  pose proof (digits2_pos_bounds p) as Hp. change (Z.pos (digits2_pos p)) with d in Hp.
  assert (Hd : 0 < d <= 53).
  { split; [subst d; simpl; lia|]. destruct (Z_le_gt_dec d 53); [done|].
    assert (2 ^ 53 <= 2 ^ (d - 1)) by (apply Z.pow_le_mono_r; lia). lia. }
  assert (Hm : 2 ^ 52 <= Z.pos p * 2 ^ (53 - d) < 2 ^ 53).
  { replace 52 with (d - 1 + (53 - d)) at 1 by lia. replace (2 ^ 53) with (2 ^ (d + (53 - d))) by (f_equal; lia).
    rewrite !Z.pow_add_r by lia. pose proof (pow2_pos (53 - d) ltac:(lia)). nia. }
  assert (Hmz : exists m, shl_align p 0 (fexp 53 1024 (Z.pos (digits2_pos p) + 0)) = (m, d - 53)
                          /\ Z.pos m = Z.pos p * 2 ^ (53 - d)).
  { change (Z.pos (digits2_pos p)) with d. rewrite fexp_normal by lia. unfold shl_align.
    replace (d + 0 - 53 - 0) with (d - 53) by lia.
    destruct (d - 53) as [|k|k] eqn:E; [|lia|].
    - exists p. split; [done|]. replace (53 - d) with 0 by lia. lia.
    - eexists. split; [f_equal; lia|]. rewrite iter_xO. do 2 f_equal. lia. }
  destruct Hmz as (m & Hal & Hmv). exists m. rewrite <- Hmv in Hm.
  split; [|split_and!; first [done | lia]]. unfold f64_of_Z, binary_normalize, binary_round. rewrite Hal.
  unfold binary_round_aux. rewrite shr_fexp_none by lia.
  cbn [shr_m shr_record_of_loc loc_of_shr_record round_nearest_even].
  rewrite shr_fexp_none by lia. cbn [shr_m shr_record_of_loc].
  by replace (d - 53 <=? 1024 - 53) with true by (symmetry; apply Z.leb_le; lia).
Qed.

(** The quotient of two integers below [2^53] is the double nearest to it: [m * 2^-p]
    with [m] of 53 bits. *)
Lemma f64_div_Z a b : 0 < a < 2 ^ 53 -> 0 < b < 2 ^ 53 ->
  exists m x, f64_div (f64_of_Z a) (f64_of_Z b) = S754_finite false m x
    /\ 2 ^ 52 <= Z.pos m < 2 ^ 53 /\ -105 <= x <= 3
    /\ 2 * Z.abs (Z.pos m * 2 ^ (x + 107) * b - a * 2 ^ 107) <= 2 ^ (x + 107) * b.
Proof.
  intros Ha Hb.
  destruct (f64_of_Z_pos a Ha) as (ma & -> & Hda & Hma & Ra).
  destruct (f64_of_Z_pos b Hb) as (mb & -> & Hdb & Hmb & Rb).
  set (da := Zdigits2 a) in *. set (db := Zdigits2 b) in *.
  unfold f64_div, SFdiv, SFdiv_core_binary.
  rewrite (Zdigits2_unique (Z.pos ma) 53), (Zdigits2_unique (Z.pos mb) 53) by (simpl; lia).
  replace (53 + (da - 53) - (53 + (db - 53))) with (da - db + 0) by lia.
  rewrite fexp_normal by lia.
  replace (Z.min (da - db + 0 - 53) (da - 53 - (db - 53))) with (da - db - 53) by lia.
  replace (da - 53 - (db - 53) - (da - db - 53)) with 53 by lia. cbv zeta.
  rewrite Z.shiftl_mul_pow2 by lia.
  pose proof (Z_div_mod (Z.pos ma * 2 ^ 53) (Z.pos mb) ltac:(lia)) as Hdm.
  destruct (Z.div_eucl (Z.pos ma * 2 ^ 53) (Z.pos mb)) as [q r]. destruct Hdm as [Hqr Hr].
  assert (Hq : 2 ^ 52 <= q < 2 ^ 54).
  { change (2 ^ 54) with (2 * 2 ^ 53). split.
    - destruct (Z_lt_le_dec q (2 ^ 52)); [exfalso|done].
      assert ((q + 1) * Z.pos mb <= 2 ^ 52 * Z.pos mb) by (apply Z.mul_le_mono_nonneg_r; lia). lia.
    - destruct (Z_lt_le_dec q (2 * 2 ^ 53)); [done|exfalso].
      assert (2 * 2 ^ 53 * Z.pos mb <= q * Z.pos mb) by (apply Z.mul_le_mono_nonneg_r; lia). lia. }
  destruct (round_aux_nearest false q (da - db - 53) (new_location (Z.pos mb) r) (Z.pos mb) r Hq
    ltac:(lia) ltac:(lia) (new_location_ok _ _ Hr)) as (m & k & Hres & Hm & Hk & Herr).
  exists m, (da - db - 53 + k). cbn [xorb]. split; [exact Hres|]. split; [exact Hm|]. split; [lia|].
  replace (q * Z.pos mb + r) with (Z.pos ma * 2 ^ 53) in Herr by lia.
  rewrite Hma, Hmb in Herr.
  replace (da - db - 53 + k + 107) with (k + (54 + da - db)) by lia. rewrite Z.pow_add_r by lia.
  replace (2 ^ 107) with (2 ^ 53 * 2 ^ 54) by reflexivity.
  replace (54 + da - db) with (53 - db + (1 + da)) by lia. rewrite Z.pow_add_r by lia.
  replace (2 ^ 54) with (2 ^ (53 - da) * 2 ^ (1 + da)) by (rewrite <- Z.pow_add_r by lia; f_equal; lia).
  set (A := 2 ^ (53 - da)) in *. set (B := 2 ^ (53 - db)) in *. set (K := 2 ^ k) in *.
  pose proof (pow2_pos (1 + da) ltac:(lia)) as HD. set (D := 2 ^ (1 + da)) in *.
  replace (Z.pos m * (K * (B * D)) * b - a * (2 ^ 53 * (A * D)))
    with ((Z.pos m * K * (b * B) - a * A * 2 ^ 53) * D) by ring.
  rewrite Z.abs_mul, (Z.abs_eq D) by lia.
  replace (K * (B * D) * b) with (K * (b * B) * D) by ring.
  rewrite Z.mul_assoc. apply Z.mul_le_mono_nonneg_r; [lia|exact Herr].
Qed.

Lemma trunc_of_Z a : 0 <= a < 2 ^ 53 -> f64_trunc (f64_of_Z a) = a.
Proof.
  intros Ha. destruct (Z.eq_dec a 0) as [->|]; [done|].
  destruct (f64_of_Z_pos a ltac:(lia)) as (m & -> & Hd & Hm & _). unfold f64_trunc, cond_Zopp.
  destruct (Z.leb_spec 0 (Zdigits2 a - 53)) as [E|E].
  - replace (Zdigits2 a - 53) with 0 by lia. replace (53 - Zdigits2 a) with 0 in Hm by lia. lia.
  - rewrite Hm. replace (- (Zdigits2 a - 53)) with (53 - Zdigits2 a) by lia.
    apply Z.div_mul. pose proof (pow2_pos (53 - Zdigits2 a) ltac:(lia)). lia.
Qed.

Lemma as_unsigned_of_Z max a : 0 <= a < 2 ^ 53 -> 0 <= max ->
  as_unsigned max (f64_of_Z a) = Z.min max a.
Proof.
  intros Ha Hmax. pose proof (trunc_of_Z a Ha) as E. destruct (Z.eq_dec a 0) as [->|].
  { cbn. lia. }
  destruct (f64_of_Z_pos a ltac:(lia)) as (m & H & _). rewrite H in *. unfold as_unsigned. rewrite E. lia.
Qed.

Lemma ceil_bounds a b m P : 0 < b -> 0 < a < 2 ^ 52 -> 2 ^ 52 <= m -> 0 < P ->
  2 * Z.abs (m * b - a * P) <= b -> - (- m / P) = (a + b - 1) / b.
Proof.
  intros Hb Ha Hm HP Herr.
  assert (HbP : b < P).
  { assert (b * (2 ^ 53 - 1) <= 2 * a * P) by nia.
    assert (2 * a * P <= (2 ^ 53 - 2) * P) by (apply Z.mul_le_mono_nonneg_r; lia).
    destruct (Z_lt_le_dec b P); [done|]. nia. }
  set (C := (a + b - 1) / b).
  assert (HC : exists t, a = C * b - t /\ 0 <= t < b).
  { exists (C * b - a). pose proof (Z.div_mod (a + b - 1) b ltac:(lia)) as H.
    pose proof (Z.mod_pos_bound (a + b - 1) b Hb). fold C in H. lia. }
  destruct HC as (t & Hat & Ht). clearbody C. subst a.
  assert (HC : 0 < C) by nia.
  assert (Hup : m <= C * P).
  { destruct (Z_le_gt_dec m (C * P)); [done|exfalso].
    assert ((C * P + 1) * b <= m * b) by (apply Z.mul_le_mono_nonneg_r; lia).
    assert (0 <= t * P) by nia. lia. }
  assert (Hlo : (C - 1) * P < m).
  { destruct (Z_lt_le_dec ((C - 1) * P) m); [done|exfalso].
    assert (m * b <= (C - 1) * P * b) by (apply Z.mul_le_mono_nonneg_r; lia).
    assert (P <= (b - t) * P) by nia. lia. }
  assert (E : - m / P = - C); [|lia].
  symmetry. apply (Z.div_unique (- m) P (- C) (C * P - m)); [left|]; lia.
Qed.

(** [(a as f64 / b as f64).ceil() as uN] is the ceiling of [a / b]. *)
Lemma ceil_div_exact max a b : 0 < a < 2 ^ 52 -> 0 < b < 2 ^ 53 -> 0 <= max ->
  as_unsigned max (f64_ceil (f64_div (f64_of_Z a) (f64_of_Z b))) = Z.min max ((a + b - 1) / b).
Proof.
  intros Ha Hb Hmax.
  destruct (f64_div_Z a b ltac:(lia) Hb) as (m & x & -> & Hm & Hx & Herr).
  assert (Hx0 : x < 0).
  { destruct (Z_lt_le_dec x 0); [done|exfalso]. rewrite Z.pow_add_r in Herr by lia.
    assert (H : 2 * Z.abs (Z.pos m * 2 ^ x * b - a) <= 2 ^ x * b).
    { replace (Z.pos m * (2 ^ x * 2 ^ 107) * b - a * 2 ^ 107)
        with ((Z.pos m * 2 ^ x * b - a) * 2 ^ 107) in Herr by ring.
      rewrite Z.abs_mul, (Z.abs_eq (2 ^ 107)) in Herr by (apply Z.pow_nonneg; lia).
      apply (Z.mul_le_mono_pos_r _ _ (2 ^ 107)); [apply pow2_pos; lia|].
      replace (2 ^ x * 2 ^ 107 * b) with (2 ^ x * b * 2 ^ 107) in Herr by ring. lia. }
    pose proof (pow2_pos x ltac:(lia)) as Hp.
    assert (1 <= 2 ^ x * b) by nia. set (y := 2 ^ x * b) in *.
    replace (Z.pos m * 2 ^ x * b) with (Z.pos m * y) in H by (subst y; ring). nia. }
  assert (H : 2 * Z.abs (Z.pos m * b - a * 2 ^ (- x)) <= b).
  { replace (2 ^ 107) with (2 ^ (- x) * 2 ^ (x + 107)) in Herr by (rewrite <- Z.pow_add_r by lia; f_equal; lia).
    pose proof (pow2_pos (x + 107) ltac:(lia)) as Hp. set (Q := 2 ^ (x + 107)) in *.
    replace (Z.pos m * Q * b - a * (2 ^ (- x) * Q)) with ((Z.pos m * b - a * 2 ^ (- x)) * Q) in Herr by ring.
    rewrite Z.abs_mul, (Z.abs_eq Q) in Herr by lia.
    apply (Z.mul_le_mono_pos_r _ _ Q Hp). lia. }
  pose proof (pow2_pos (- x) ltac:(lia)) as HP.
  unfold f64_ceil. destruct (Z.leb_spec 0 x); [lia|]. cbn [cond_Zopp].
  rewrite (ceil_bounds a b (Z.pos m) (2 ^ (- x))) by lia.
  apply as_unsigned_of_Z; [|done]. split; [apply Z.div_pos; lia|].
  apply Z.div_lt_upper_bound; nia.
Qed.
