(* ===== verification/Errors.v ===== *)
(** The gateway's error type: [src/error.rs].

    [ErrorCode] and [ApiError] with their numeric codes, messages, HTTP status,
    response body and JSON-rejection mapping.  The payload of [Database] and
    [Redis] is the text the third-party error displays, the only use the code
    makes of it.  [failure] is what a service call can return: a database error,
    an [ApiError], an [anyhow] message, or a panic. *)
From S2P Require Import Prelude.
From stdpp Require Import pretty.

Open Scope string_scope.
Open Scope Z_scope.

(** ** [ErrorCode] *)
Module Code.

Inductive ErrorCode :=
| InvalidCredentials
| TokenExpired
| TokenInvalid
| TokenMissing
| EmailNotVerified
| AccountLocked
| AccountDisabled
| InsufficientPermissions
| ResourceAccessDenied
| RoleNotAuthorized
| InvalidInput
| MissingRequiredField
| InvalidFormat
| InvalidWalletAddress
| InvalidAmount
| InvalidEmail
| InvalidPassword
| PasswordTooWeak
| NotFound
| AlreadyExists
| Conflict
| Gone
| InsufficientBalance
| OrderNotMatched
| TradingNotAllowed
| MeterReadingInvalid
| TokenMintingFailed
| EpochNotActive
| BlockchainConnectionFailed
| BlockchainTransactionFailed
| TransactionTimeout
| InvalidSignature
| InsufficientGasFee
| ProgramError
| DatabaseConnectionFailed
| QueryFailed
| DatabaseTransactionFailed
| ConstraintViolation
| ExternalServiceUnavailable
| ExternalServiceTimeout
| ExternalServiceError
| EmailServiceFailed
| ServiceUnavailable
| RateLimitExceeded
| TooManyRequests
| InternalServerError
| ConfigurationError
| UnexpectedError.

(** The wire name serde gives the code. *)
Definition serde_name (c : ErrorCode) : string :=
  match c with
  | InvalidCredentials => "AUTH_1001"
  | TokenExpired => "AUTH_1002"
  | TokenInvalid => "AUTH_1003"
  | TokenMissing => "AUTH_1004"
  | EmailNotVerified => "AUTH_1005"
  | AccountLocked => "AUTH_1006"
  | AccountDisabled => "AUTH_1007"
  | InsufficientPermissions => "AUTHZ_2001"
  | ResourceAccessDenied => "AUTHZ_2002"
  | RoleNotAuthorized => "AUTHZ_2003"
  | InvalidInput => "VAL_3001"
  | MissingRequiredField => "VAL_3002"
  | InvalidFormat => "VAL_3003"
  | InvalidWalletAddress => "VAL_3004"
  | InvalidAmount => "VAL_3005"
  | InvalidEmail => "VAL_3006"
  | InvalidPassword => "VAL_3007"
  | PasswordTooWeak => "VAL_3008"
  | NotFound => "RES_4001"
  | AlreadyExists => "RES_4002"
  | Conflict => "RES_4003"
  | Gone => "RES_4004"
  | InsufficientBalance => "BIZ_5001"
  | OrderNotMatched => "BIZ_5002"
  | TradingNotAllowed => "BIZ_5003"
  | MeterReadingInvalid => "BIZ_5004"
  | TokenMintingFailed => "BIZ_5005"
  | EpochNotActive => "BIZ_5006"
  | BlockchainConnectionFailed => "BC_6001"
  | BlockchainTransactionFailed => "BC_6002"
  | TransactionTimeout => "BC_6003"
  | InvalidSignature => "BC_6004"
  | InsufficientGasFee => "BC_6005"
  | ProgramError => "BC_6006"
  | DatabaseConnectionFailed => "DB_7001"
  | QueryFailed => "DB_7002"
  | DatabaseTransactionFailed => "DB_7003"
  | ConstraintViolation => "DB_7004"
  | ExternalServiceUnavailable => "EXT_8001"
  | ExternalServiceTimeout => "EXT_8002"
  | ExternalServiceError => "EXT_8003"
  | EmailServiceFailed => "EXT_8004"
  | ServiceUnavailable => "EXT_8005"
  | RateLimitExceeded => "RATE_9001"
  | TooManyRequests => "RATE_9002"
  | InternalServerError => "INT_9999"
  | ConfigurationError => "INT_9998"
  | UnexpectedError => "INT_9997"
  end.

(** [ErrorCode::code]. *)
Definition code (c : ErrorCode) : Z :=
  match c with
  | InvalidCredentials => 1001
  | TokenExpired => 1002
  | TokenInvalid => 1003
  | TokenMissing => 1004
  | EmailNotVerified => 1005
  | AccountLocked => 1006
  | AccountDisabled => 1007
  | InsufficientPermissions => 2001
  | ResourceAccessDenied => 2002
  | RoleNotAuthorized => 2003
  | InvalidInput => 3001
  | MissingRequiredField => 3002
  | InvalidFormat => 3003
  | InvalidWalletAddress => 3004
  | InvalidAmount => 3005
  | InvalidEmail => 3006
  | InvalidPassword => 3007
  | PasswordTooWeak => 3008
  | NotFound => 4001
  | AlreadyExists => 4002
  | Conflict => 4003
  | Gone => 4004
  | InsufficientBalance => 5001
  | OrderNotMatched => 5002
  | TradingNotAllowed => 5003
  | MeterReadingInvalid => 5004
  | TokenMintingFailed => 5005
  | EpochNotActive => 5006
  | BlockchainConnectionFailed => 6001
  | BlockchainTransactionFailed => 6002
  | TransactionTimeout => 6003
  | InvalidSignature => 6004
  | InsufficientGasFee => 6005
  | ProgramError => 6006
  | DatabaseConnectionFailed => 7001
  | QueryFailed => 7002
  | DatabaseTransactionFailed => 7003
  | ConstraintViolation => 7004
  | ExternalServiceUnavailable => 8001
  | ExternalServiceTimeout => 8002
  | ExternalServiceError => 8003
  | EmailServiceFailed => 8004
  | ServiceUnavailable => 8005
  | RateLimitExceeded => 9001
  | TooManyRequests => 9002
  | InternalServerError => 9999
  | ConfigurationError => 9998
  | UnexpectedError => 9997
  end.

(** [ErrorCode::message]. *)
Definition message (c : ErrorCode) : string :=
  match c with
  | InvalidCredentials => "Invalid email or password"
  | TokenExpired => "Your session has expired. Please log in again"
  | TokenInvalid => "Invalid authentication token"
  | TokenMissing => "Authentication required. Please log in"
  | EmailNotVerified => "Please verify your email address before proceeding"
  | AccountLocked => "Your account has been locked. Please contact support"
  | AccountDisabled => "Your account has been disabled. Please contact support"
  | InsufficientPermissions => "You don't have permission to perform this action"
  | ResourceAccessDenied => "Access to this resource is denied"
  | RoleNotAuthorized => "Your role is not authorized for this action"
  | InvalidInput => "Invalid input provided"
  | MissingRequiredField => "Required field is missing"
  | InvalidFormat => "Invalid format provided"
  | InvalidWalletAddress => "Invalid wallet address format"
  | InvalidAmount => "Invalid amount provided"
  | InvalidEmail => "Invalid email address format"
  | InvalidPassword => "Invalid password"
  | PasswordTooWeak => "Password is too weak. Use at least 8 characters with letters and numbers"
  | NotFound => "The requested resource was not found"
  | AlreadyExists => "This resource already exists"
  | Conflict => "A conflict occurred with an existing resource"
  | Gone => "This resource is no longer available"
  | InsufficientBalance => "Insufficient balance to complete this transaction"
  | OrderNotMatched => "No matching orders found"
  | TradingNotAllowed => "Trading is not allowed at this time"
  | MeterReadingInvalid => "Invalid meter reading provided"
  | TokenMintingFailed => "Failed to mint energy tokens"
  | EpochNotActive => "Trading epoch is not active"
  | BlockchainConnectionFailed => "Failed to connect to blockchain network"
  | BlockchainTransactionFailed => "Blockchain transaction failed"
  | TransactionTimeout => "Blockchain transaction timed out"
  | InvalidSignature => "Invalid transaction signature"
  | InsufficientGasFee => "Insufficient gas fee for transaction"
  | ProgramError => "Blockchain program error occurred"
  | DatabaseConnectionFailed => "Database connection failed"
  | QueryFailed => "Database query failed"
  | DatabaseTransactionFailed => "Database transaction failed"
  | ConstraintViolation => "Database constraint violation"
  | ExternalServiceUnavailable => "External service is currently unavailable"
  | ExternalServiceTimeout => "External service request timed out"
  | ExternalServiceError => "External service error occurred"
  | EmailServiceFailed => "Failed to send email"
  | ServiceUnavailable => "Service is currently unavailable"
  | RateLimitExceeded => "Rate limit exceeded. Please try again later"
  | TooManyRequests => "Too many requests. Please slow down"
  | InternalServerError => "An internal server error occurred"
  | ConfigurationError => "Server configuration error"
  | UnexpectedError => "An unexpected error occurred"
  end.

#[global] Instance ErrorCode_eq_dec : EqDecision ErrorCode.
Proof. solve_decision. Defined.

Definition all_codes : list ErrorCode :=
  [InvalidCredentials;
   TokenExpired;
   TokenInvalid;
   TokenMissing;
   EmailNotVerified;
   AccountLocked;
   AccountDisabled;
   InsufficientPermissions;
   ResourceAccessDenied;
   RoleNotAuthorized;
   InvalidInput;
   MissingRequiredField;
   InvalidFormat;
   InvalidWalletAddress;
   InvalidAmount;
   InvalidEmail;
   InvalidPassword;
   PasswordTooWeak;
   NotFound;
   AlreadyExists;
   Conflict;
   Gone;
   InsufficientBalance;
   OrderNotMatched;
   TradingNotAllowed;
   MeterReadingInvalid;
   TokenMintingFailed;
   EpochNotActive;
   BlockchainConnectionFailed;
   BlockchainTransactionFailed;
   TransactionTimeout;
   InvalidSignature;
   InsufficientGasFee;
   ProgramError;
   DatabaseConnectionFailed;
   QueryFailed;
   DatabaseTransactionFailed;
   ConstraintViolation;
   ExternalServiceUnavailable;
   ExternalServiceTimeout;
   ExternalServiceError;
   EmailServiceFailed;
   ServiceUnavailable;
   RateLimitExceeded;
   TooManyRequests;
   InternalServerError;
   ConfigurationError;
   UnexpectedError].

End Code.

(** ** [ApiError] *)

Inductive ApiError :=
| Authentication (m : string)
| Authorization (m : string)
| BadRequest (m : string)
| Unauthorized (m : string)
| Forbidden (m : string)
| Validation (m : string)
| Database (e : string)
| Redis (e : string)
| Blockchain (m : string)
| ExternalService (m : string)
| Configuration (m : string)
| NotFound (m : string)
| Conflict (m : string)
| Internal (m : string)
| RateLimitExceeded (m : string)
| WithCode (c : Code.ErrorCode) (m : string)
| WithCodeAndDetails (c : Code.ErrorCode) (m d : string)
| ValidationWithField (c : Code.ErrorCode) (field m : string).

(** The [Display] text that [thiserror] derives. *)
Definition display (e : ApiError) : string :=
  match e with
  | Authentication m => "Authentication failed: " ++ m
  | Authorization m => "Authorization failed: " ++ m
  | BadRequest m => "Bad request: " ++ m
  | Unauthorized m => "Unauthorized: " ++ m
  | Forbidden m => "Forbidden: " ++ m
  | Validation m => "Validation error: " ++ m
  | Database m => "Database error: " ++ m
  | Redis m => "Redis error: " ++ m
  | Blockchain m => "Blockchain error: " ++ m
  | ExternalService m => "External service error: " ++ m
  | Configuration m => "Configuration error: " ++ m
  | NotFound m => "Not found: " ++ m
  | Conflict m => "Conflict: " ++ m
  | Internal m => "Internal server error: " ++ m
  | RateLimitExceeded m => "Rate limit exceeded: " ++ m
  | WithCode _ m => m
  | WithCodeAndDetails _ m _ => m
  | ValidationWithField _ field _ => "Validation failed: " ++ field
  end.

Definition with_code (c : Code.ErrorCode) (m : string) : ApiError := WithCode c m.
Definition with_details (c : Code.ErrorCode) (m d : string) : ApiError :=
  WithCodeAndDetails c m d.
Definition validation_field (field m : string) : ApiError :=
  ValidationWithField Code.InvalidInput field m.
Definition validation_error (m : string) (field : option string) : ApiError :=
  match field with
  | Some f => ValidationWithField Code.InvalidInput f m
  | None => with_code Code.InvalidInput m
  end.

Definition invalid_credentials : ApiError := with_code Code.InvalidCredentials "Invalid credentials".
Definition token_expired : ApiError := with_code Code.TokenExpired "Token expired".
Definition email_not_verified : ApiError := with_code Code.EmailNotVerified "Email not verified".
Definition insufficient_balance (amount : string) : ApiError :=
  with_details Code.InsufficientBalance "Insufficient balance" ("Required: " ++ amount).
Definition not_found (resource : string) : ApiError :=
  with_code Code.NotFound (resource ++ " not found").
Definition already_exists (resource : string) : ApiError :=
  with_code Code.AlreadyExists (resource ++ " already exists").
Definition invalid_wallet : ApiError :=
  with_code Code.InvalidWalletAddress "Invalid wallet address".
Definition meter_not_found (meter_id : string) : ApiError :=
  with_details Code.NotFound ("Meter " ++ meter_id ++ " not found")
    "The specified meter does not exist in the system".
Definition order_already_matched (order_id : string) : ApiError :=
  with_details Code.Conflict ("Order " ++ order_id ++ " has already been matched")
    "This order cannot be modified as it has been matched".
Definition order_not_found (order_id : string) : ApiError :=
  not_found ("Order " ++ order_id).
Definition epoch_not_active (epoch_id : string) : ApiError :=
  with_details Code.EpochNotActive ("Epoch " ++ epoch_id ++ " is not active")
    "Trading is only allowed during active epochs".
Definition certificate_not_found (cert_id : string) : ApiError :=
  not_found ("Certificate " ++ cert_id).
Definition invalid_meter_reading (reason : string) : ApiError :=
  with_details Code.MeterReadingInvalid "Invalid meter reading" reason.
Definition blockchain_tx_failed (details : string) : ApiError :=
  with_details Code.BlockchainTransactionFailed "Blockchain transaction failed" details.
Definition constraint_violation (constraint : string) : ApiError :=
  with_details Code.ConstraintViolation "Database constraint violation"
    ("Constraint '" ++ constraint ++ "' was violated").
Definition service_unavailable (service : string) : ApiError :=
  with_details Code.ServiceUnavailable (service ++ " service is currently unavailable")
    "Please try again later".

Definition error_code (e : ApiError) : Code.ErrorCode :=
  match e with
  | Authentication _ => Code.InvalidCredentials
  | Authorization _ => Code.InsufficientPermissions
  | BadRequest _ => Code.InvalidInput
  | Unauthorized _ => Code.TokenMissing
  | Forbidden _ => Code.ResourceAccessDenied
  | Validation _ => Code.InvalidInput
  | NotFound _ => Code.NotFound
  | Conflict _ => Code.Conflict
  | Database _ => Code.QueryFailed
  | Redis _ => Code.ExternalServiceError
  | Blockchain _ => Code.BlockchainTransactionFailed
  | ExternalService _ => Code.ExternalServiceError
  | Configuration _ => Code.ConfigurationError
  | Internal _ => Code.InternalServerError
  | RateLimitExceeded _ => Code.RateLimitExceeded
  | WithCode c _ => c
  | WithCodeAndDetails c _ _ => c
  | ValidationWithField c _ _ => c
  end.

Definition error_details (e : ApiError) : option string :=
  match e with WithCodeAndDetails _ _ d => Some d | _ => None end.

Definition error_field (e : ApiError) : option string :=
  match e with ValidationWithField _ f _ => Some f | _ => None end.

(** [StatusCode] by its number. *)
Definition status_code (e : ApiError) : Z :=
  match e with
  | Authentication _ | Unauthorized _
  | WithCode Code.TokenExpired _ | WithCode Code.TokenInvalid _
  | WithCode Code.TokenMissing _ | WithCode Code.EmailNotVerified _ => 401
  | Authorization _ | Forbidden _
  | WithCode Code.InsufficientPermissions _ | WithCode Code.ResourceAccessDenied _ => 403
  | BadRequest _ | Validation _ | ValidationWithField _ _ _
  | WithCode Code.InvalidInput _ | WithCode Code.InvalidWalletAddress _
  | WithCode Code.InvalidAmount _ => 400
  | NotFound _ | WithCode Code.NotFound _ => 404
  | Conflict _ | WithCode Code.Conflict _ | WithCode Code.AlreadyExists _ => 409
  | Blockchain _ | ExternalService _
  | WithCode Code.BlockchainConnectionFailed _
  | WithCode Code.ExternalServiceUnavailable _
  | WithCode Code.ServiceUnavailable _ => 502
  | RateLimitExceeded _ | WithCode Code.RateLimitExceeded _ => 429
  | Database _ | Redis _ | Configuration _ | Internal _
  | WithCode _ _ | WithCodeAndDetails _ _ _ => 500
  end.

(** The level [log_error] logs at, [None] when it logs nothing. *)
Inductive LogLevel := LogError | LogWarn.
Definition log_error (e : ApiError) : option LogLevel :=
  let s := status_code e in
  if (500 <=? s) && (s <? 600) then Some LogError
  else if (400 <=? s) && (s <? 500) then Some LogWarn
  else None.

Record ErrorDetail := {
  ed_code : Code.ErrorCode;
  ed_code_number : Z;
  ed_message : string;
  ed_details : option string;
  ed_field : option string;
}.

Record ErrorResponse := {
  er_error : ErrorDetail;
  er_request_id : string;
  er_timestamp : string;
}.

Definition into_response (request_id timestamp : string) (e : ApiError) : Z * ErrorResponse :=
  let code := error_code e in
  (status_code e,
   {| er_error :=
        {| ed_code := code;
           ed_code_number := Code.code code;
           ed_message :=
             match e with
             | WithCode _ m | WithCodeAndDetails _ m _ => m
             | BadRequest m => m
             | ValidationWithField _ _ m => m
             | _ => Code.message code
             end;
           ed_details := error_details e;
           ed_field := error_field e |};
      er_request_id := request_id;
      er_timestamp := timestamp |}).

Definition error_type (e : ApiError) : string :=
  match e with
  | Authentication _ => "authentication_error"
  | Authorization _ => "authorization_error"
  | BadRequest _ => "bad_request"
  | Unauthorized _ => "unauthorized"
  | Forbidden _ => "forbidden"
  | Validation _ => "validation_error"
  | Database _ => "database_error"
  | Redis _ => "cache_error"
  | Blockchain _ => "blockchain_error"
  | ExternalService _ => "external_service_error"
  | Configuration _ => "configuration_error"
  | NotFound _ => "not_found"
  | Conflict _ => "conflict"
  | Internal _ => "internal_error"
  | RateLimitExceeded _ => "rate_limit_exceeded"
  | WithCode c _ | WithCodeAndDetails c _ _ =>
      match c with
      | Code.InvalidCredentials => "authentication_error"
      | Code.InsufficientPermissions => "authorization_error"
      | Code.NotFound => "not_found"
      | _ => "error"
      end
  | ValidationWithField _ _ _ => "validation_error"
  end.

(** axum's [JsonRejection]; the payload of the two formatted cases is the text
    the code formats them to. *)
Inductive JsonRejection :=
| JsonDataError (display : string)
| JsonSyntaxError
| MissingJsonContentType
| BytesRejection
| OtherRejection (debug : string).

Definition handle_rejection (err : JsonRejection) : ApiError :=
  match err with
  | JsonDataError d => with_details Code.InvalidInput "Invalid input provided" d
  | JsonSyntaxError => with_code Code.InvalidFormat "Invalid JSON format"
  | MissingJsonContentType => with_code Code.InvalidFormat "JSON content type required"
  | BytesRejection => with_code Code.InvalidInput "Invalid request body format"
  | OtherRejection d => with_details Code.InvalidInput "Invalid input provided" d
  end.

(** ** Failures of service calls *)

(** [FPanic] unwinds the task: no [match] or [let _ =] of the caller catches it. *)
Inductive failure :=
| FDb
| FApi (e : ApiError)
| FMsg (m : string)
| FPanic.

(** ** Properties *)

(** The prefix of the wire name announces the category of the code. *)
Definition category_prefix (c : Code.ErrorCode) : string :=
  let n := Code.code c in
  if n <? 2000 then "AUTH" else if n <? 3000 then "AUTHZ" else if n <? 4000 then "VAL"
  else if n <? 5000 then "RES" else if n <? 6000 then "BIZ" else if n <? 7000 then "BC"
  else if n <? 8000 then "DB" else if n <? 9000 then "EXT"
  else if n <? 9500 then "RATE" else "INT".

Lemma all_codes_complete c : c ∈ Code.all_codes.
Proof. destruct c; unfold Code.all_codes; set_solver. Qed.

(** The wire name of every error code is its category prefix followed by its
    numeric code, and no two codes share a number. *)
Theorem error_codes_consistent (c : Code.ErrorCode) :
  Code.serde_name c = category_prefix c +:+ "_" +:+ pretty (Code.code c)
  /\ (forall c', Code.code c' = Code.code c -> c' = c).
Proof.
  split.
  - destruct c; reflexivity.
  - intros c'. destruct c, c'; simpl; first [reflexivity | discriminate].
Qed.

(** An error response logs as an error exactly when its status is a server
    error, and as a warning otherwise: every [ApiError] has a 4xx or 5xx status, so
    every response is logged. *)
Theorem error_response_logged (e : ApiError) :
  (400 <= status_code e < 600)
  /\ (log_error e = Some LogError <-> 500 <= status_code e)
  /\ (log_error e = Some LogWarn <-> status_code e < 500).
Proof.
  assert (H : 400 <= status_code e < 600)
    by (destruct e; try destruct c; simpl; lia).
  unfold log_error. split; [done|].
  destruct ((500 <=? status_code e) && (status_code e <? 600)) eqn:E1;
    [apply andb_true_iff in E1; to_prop|apply andb_false_iff in E1];
    destruct ((400 <=? status_code e) && (status_code e <? 500)) eqn:E2;
    [apply andb_true_iff in E2; to_prop|apply andb_false_iff in E2
    |apply andb_true_iff in E2; to_prop|apply andb_false_iff in E2];
    rewrite ?Z.leb_gt, ?Z.ltb_ge in *; split; split; intros; try done; lia.
Qed.

(** Errors built with details always answer 500, whatever their code; of the
    JSON body rejections only an unreadable body answers 400, the malformed and the
    mistyped ones answer 500 although their code is in the 3xxx validation range. *)
Theorem rejection_status (r : JsonRejection) (req ts : string) :
  let '(status, resp) := into_response req ts (handle_rejection r) in
  (status = 400 <-> r = BytesRejection)
  /\ (status = 500 <-> r <> BytesRejection)
  /\ 3000 <= ed_code_number (er_error resp) < 4000.
Proof. destruct r; simpl; repeat split; intros; try done; lia. Qed.
