(* ===== verification/Store.v ===== *)
(** Service calls over a database: state, transactions, failures, outside effects.

    A service method of the gateway is a sequence of SQL statements and calls to
    the outside (chain, websocket, mail) in which every statement may fail.  It is
    modelled as a function on a [world]:
    - [st]: the tables;
    - [faults]: for each statement to come, whether the database fails it (the
      empty list: no more failures).  A theorem that holds for every [faults]
      holds however the database fails;
    - [trace]: the outside effects performed so far, newest last.  A rollback
      does not undo them.

    [with_tx] is [pool.begin()] ... [tx.commit()]: an error inside, or a failing
    commit, leaves the tables as they were at [begin] (the [Transaction] is
    dropped and rolls back).  Methods run one at a time: isolation between
    concurrent requests is the database's. *)
From S2P Require Import Prelude Errors.

Record world (S T : Type) := World {
  st : S;
  faults : list bool;
  trace : list T;
}.
Arguments World {S T} _ _ _.
Arguments st {S T} _.
Arguments faults {S T} _.
Arguments trace {S T} _.

Definition M (S T A : Type) : Type := world S T -> res failure A * world S T.

Section monad.
Context {S T : Type}.
Implicit Types (w : world S T).

Definition set_st (s : S) (w : world S T) : world S T := World s (faults w) (trace w).

(** The verdict on the next statement. *)
Definition pop_fault (w : world S T) : bool * world S T :=
  match faults w with
  | [] => (false, w)
  | b :: f => (b, World (st w) f (trace w))
  end.

#[global] Instance M_ret : MRet (M S T) := fun A a w => (Ok a, w).
#[global] Instance M_bind : MBind (M S T) := fun A B f m w =>
  match m w with
  | (Ok a, w') => f a w'
  | (Err e, w') => (Err e, w')
  end.

Definition fail {A} (e : failure) : M S T A := fun w => (Err e, w).

(** A read-only statement. *)
Definition query {A} (f : S -> A) : M S T A := fun w =>
  let '(bad, w') := pop_fault w in
  if bad then (Err FDb, w') else (Ok (f (st w')), w').

(** A writing statement; [None]: the server rejects it (constraint, overflow). *)
Definition exec (f : S -> option S) : M S T unit := fun w =>
  let '(bad, w') := pop_fault w in
  if bad then (Err FDb, w')
  else match f (st w') with
       | Some s => (Ok tt, set_st s w')
       | None => (Err FDb, w')
       end.

(** A writing statement with a result: the rows it affected, or what it returns. *)
Definition exec_ret {A} (f : S -> option (A * S)) : M S T A := fun w =>
  let '(bad, w') := pop_fault w in
  if bad then (Err FDb, w')
  else match f (st w') with
       | Some (a, s) => (Ok a, set_st s w')
       | None => (Err FDb, w')
       end.

(** [fetch_one]/[ok_or]: the row or an error. *)
Definition expect {A} (e : failure) (o : option A) : M S T A :=
  match o with Some a => mret a | None => fail e end.

(** An outside effect, and one whose outcome the caller gets. *)
Definition emit (t : T) : M S T unit := fun w =>
  (Ok tt, World (st w) (faults w) (trace w ++ [t])).

(** Run [m] and return its outcome as a value: [match m.await { Ok .. Err .. }].
    A panic is not an outcome. *)
Definition attempt {A} (m : M S T A) : M S T (res failure A) := fun w =>
  match m w with
  | (Err FPanic, w') => (Err FPanic, w')
  | (r, w') => (Ok r, w')
  end.

(** [m.map_err(f)]. *)
Definition map_err {A} (f : failure -> failure) (m : M S T A) : M S T A := fun w =>
  match m w with
  | (Err FPanic, w') => (Err FPanic, w')
  | (Err e, w') => (Err (f e), w')
  | r => r
  end.

(** [let _ = m.await;] *)
Definition ignore {A} (m : M S T A) : M S T unit :=
  attempt m ;; mret ().

Definition with_tx {A} (body : M S T A) : M S T A := fun w =>
  let '(bad, w1) := pop_fault w in
  if bad then (Err FDb, w1)
  else
    let '(r, w2) := body w1 in
    match r with
    | Err e => (Err e, set_st (st w) w2)
    | Ok a =>
        let '(bad', w3) := pop_fault w2 in
        if bad' then (Err FDb, set_st (st w) w3) else (Ok a, w3)
    end.

(** A transaction whose body goes on after a statement failed ([true]): the server has
    aborted it, and its COMMIT rolls back without an error. *)
Definition with_tx_aborted {A} (body : M S T (A * bool)) : M S T A := fun w =>
  let '(r, w') := with_tx body w in
  match r with
  | Err e => (Err e, w')
  | Ok (a, aborted) => (Ok a, if aborted then set_st (st w) w' else w')
  end.

(** [for x in l { f(x).await?; }] *)
Fixpoint for_each {A} (f : A -> M S T unit) (l : list A) : M S T unit :=
  match l with
  | [] => mret ()
  | a :: l => f a ;; for_each f l
  end.
End monad.

Arguments fail {S T A} e.

(** ** Reasoning about runs *)

Section laws.
Context {S T : Type}.
Implicit Types (w : world S T).

Lemma pop_fault_st w : st (snd (pop_fault w)) = st w.
Proof. unfold pop_fault. by destruct w as [? [|]]. Qed.

Lemma pop_fault_trace w : trace (snd (pop_fault w)) = trace w.
Proof. unfold pop_fault. by destruct w as [? [|]]. Qed.

Lemma bind_Ok {A B} (m : M S T A) (f : A -> M S T B) w b w' :
  (m ≫= f) w = (Ok b, w') -> exists a w1, m w = (Ok a, w1) /\ f a w1 = (Ok b, w').
Proof. unfold mbind, M_bind. destruct (m w) as [[a|e] w1]; intros; simplify_eq; eauto. Qed.

Lemma bind_Err {A B} (m : M S T A) (f : A -> M S T B) w e w' :
  (m ≫= f) w = (Err e, w') ->
  m w = (Err e, w') \/ exists a w1, m w = (Ok a, w1) /\ f a w1 = (Err e, w').
Proof. unfold mbind, M_bind. destruct (m w) as [[a|e0] w1]; intros; simplify_eq; eauto. Qed.

Lemma bind_run {A B} (m : M S T A) (f : A -> M S T B) w a w1 :
  m w = (Ok a, w1) -> (m ≫= f) w = f a w1.
Proof. unfold mbind, M_bind. by intros ->. Qed.

Lemma bind_run_Err {A B} (m : M S T A) (f : A -> M S T B) w e w1 :
  m w = (Err e, w1) -> (m ≫= f) w = (Err e, w1).
Proof. unfold mbind, M_bind. by intros ->. Qed.

Lemma query_Ok {A} (f : S -> A) w a w' :
  query f w = (Ok a, w') -> a = f (st w) /\ st w' = st w /\ trace w' = trace w.
Proof.
  unfold query. pose proof (pop_fault_st w). pose proof (pop_fault_trace w).
  destruct (pop_fault w) as [[] w1]; simpl in *; intros; simplify_eq. by rewrite H.
Qed.

Lemma exec_Ok f w a w' :
  exec f w = (Ok a, w') -> f (st w) = Some (st w') /\ trace w' = trace w.
Proof.
  unfold exec. pose proof (pop_fault_st w). pose proof (pop_fault_trace w).
  destruct (pop_fault w) as [[] w1]; simpl in *; [congruence|].
  rewrite H. destruct (f (st w)) eqn:E; intros; simplify_eq/=; auto.
Qed.

Lemma exec_ret_Ok {A} (f : S -> option (A * S)) w a w' :
  exec_ret f w = (Ok a, w') -> f (st w) = Some (a, st w') /\ trace w' = trace w.
Proof.
  unfold exec_ret. pose proof (pop_fault_st w). pose proof (pop_fault_trace w).
  destruct (pop_fault w) as [[] w1]; simpl in *; [congruence|].
  rewrite H. destruct (f (st w)) as [[b s]|] eqn:E; intros; simplify_eq/=; auto.
Qed.

(** A statement that fails changes nothing. *)
Lemma exec_ret_Err {A} (f : S -> option (A * S)) w e w' :
  exec_ret f w = (Err e, w') -> e = FDb /\ st w' = st w /\ trace w' = trace w
    /\ (hd false (faults w) = false -> f (st w) = None).
Proof.
  unfold exec_ret, pop_fault. destruct w as [d [|[] fs] tr]; simpl;
    try destruct (f d) as [[b s]|]; intros; by simplify_eq/=.
Qed.

Lemma query_st {A} (f : S -> A) w r w' : query f w = (r, w') -> st w' = st w.
Proof.
  unfold query. pose proof (pop_fault_st w).
  destruct (pop_fault w) as [[] w1]; simpl in *; intros; simplify_eq; done.
Qed.

Lemma query_Err {A} (f : S -> A) w e w' : query f w = (Err e, w') ->
  e = FDb /\ st w' = st w /\ trace w' = trace w /\ hd false (faults w) = true.
Proof.
  unfold query, pop_fault. destruct w as [s [|[] fs] tr]; intros H; simplify_eq/=; done.
Qed.

Lemma fail_Ok {A} e w (a : A) w' : fail e w = (Ok a, w') -> False.
Proof. unfold fail. congruence. Qed.

Lemma expect_Ok {A} e (o : option A) w a w' :
  expect e o w = (Ok a, w') -> o = Some a /\ w' = w.
Proof. unfold expect. destruct o; unfold mret, M_ret, fail; intros; simplify_eq; auto. Qed.

Lemma attempt_Ok {A} (m : M S T A) w r w' :
  attempt m w = (Ok r, w') -> m w = (r, w').
Proof. unfold attempt. destruct (m w) as [[a|[]] w1]; intros; simplify_eq; auto. Qed.

Lemma map_err_Ok {A} f (m : M S T A) w a w' :
  map_err f m w = (Ok a, w') -> m w = (Ok a, w').
Proof. unfold map_err. destruct (m w) as [[b|[]] w1]; intros; simplify_eq; auto. Qed.

Lemma ret_Ok {A} (a b : A) w w' : (mret a : M S T A) w = (Ok b, w') -> a = b /\ w = w'.
Proof. unfold mret, M_ret. intros; simplify_eq; auto. Qed.

(** A transaction that returns [Ok] ran its body to the end and committed. *)
Lemma with_tx_Ok {A} (body : M S T A) w a w' :
  with_tx body w = (Ok a, w') ->
  exists w1 w2, st w1 = st w /\ trace w1 = trace w /\ body w1 = (Ok a, w2)
    /\ st w' = st w2 /\ trace w' = trace w2.
Proof.
  unfold with_tx. pose proof (pop_fault_st w). pose proof (pop_fault_trace w).
  destruct (pop_fault w) as [[] w1]; simpl in *; [congruence|].
  destruct (body w1) as [[a'|e] w2] eqn:E; [|congruence].
  pose proof (pop_fault_st w2). pose proof (pop_fault_trace w2).
  destruct (pop_fault w2) as [[] w3]; simpl in *; intros; simplify_eq.
  exists w1, w2. auto.
Qed.

(** A transaction that does not return [Ok] leaves every table as it was. *)
Lemma with_tx_Err {A} (body : M S T A) w e w' :
  with_tx body w = (Err e, w') -> st w' = st w.
Proof.
  unfold with_tx. pose proof (pop_fault_st w).
  destruct (pop_fault w) as [[] w1]; simpl in *; [congruence|].
  destruct (body w1) as [[a'|e'] w2]; [|intros; simplify_eq/=; auto].
  destruct (pop_fault w2) as [[] w3]; simpl in *; intros; simplify_eq/=; auto.
Qed.

Lemma with_tx_aborted_Ok {A} (body : M S T (A * bool)) w a w' :
  with_tx_aborted body w = (Ok a, w') ->
  exists ab w2, with_tx body w = (Ok (a, ab), w2) /\ st w' = if ab then st w else st w2.
Proof.
  unfold with_tx_aborted. destruct (with_tx body w) as [[[a' ab]|e] w2]; [|congruence].
  intros; simplify_eq. exists ab, w2. split; [done|]. by destruct ab.
Qed.

Lemma with_tx_aborted_Err {A} (body : M S T (A * bool)) w e w' :
  with_tx_aborted body w = (Err e, w') -> st w' = st w.
Proof.
  unfold with_tx_aborted. destruct (with_tx body w) as [[[a ab]|e'] w2] eqn:E; [congruence|].
  intros; simplify_eq. by apply with_tx_Err in E.
Qed.

(** ** Runs that cannot fail *)

(** [m] never panics; [m] always returns a value. *)
Definition no_panic {A} (m : M S T A) : Prop := forall w, fst (m w) <> Err FPanic.
Definition total {A} (m : M S T A) : Prop := forall w, exists a w', m w = (Ok a, w').

Lemma no_panic_ret {A} (a : A) : no_panic (mret a : M S T A).
Proof. by intros w. Qed.

Lemma no_panic_fail {A} e : e <> FPanic -> no_panic (fail e : M S T A).
Proof. intros He w. simpl. congruence. Qed.

Lemma no_panic_bind {A B} (m : M S T A) (f : A -> M S T B) :
  no_panic m -> (forall a, no_panic (f a)) -> no_panic (m ≫= f).
Proof.
  intros Hm Hf w. specialize (Hm w). unfold mbind, M_bind.
  destruct (m w) as [[a|e] w1]; simpl in *; [apply Hf|congruence].
Qed.

Lemma no_panic_query {A} (f : S -> A) : no_panic (query f).
Proof. intros w. unfold query. by destruct (pop_fault w) as [[] w1]. Qed.

Lemma no_panic_exec f : no_panic (exec f).
Proof.
  intros w. unfold exec. destruct (pop_fault w) as [[] w1]; [done|]. by destruct (f _).
Qed.

Lemma no_panic_expect {A} e (o : option A) : e <> FPanic -> no_panic (expect e o).
Proof. destruct o; simpl; [intros _; apply no_panic_ret|apply no_panic_fail]. Qed.

Lemma no_panic_emit t : no_panic (emit t).
Proof. by intros w. Qed.

Lemma no_panic_attempt {A} (m : M S T A) : no_panic m -> no_panic (attempt m).
Proof.
  intros Hm w. specialize (Hm w). unfold attempt. by destruct (m w) as [[a|[]] w1].
Qed.

Lemma no_panic_tx {A} (body : M S T A) : no_panic body -> no_panic (with_tx body).
Proof.
  intros Hm w. unfold with_tx. destruct (pop_fault w) as [[] w1]; [done|].
  specialize (Hm w1). destruct (body w1) as [[a|e] w2]; simpl in *; [|congruence].
  by destruct (pop_fault w2) as [[] w3].
Qed.

Lemma total_ret {A} (a : A) : total (mret a : M S T A).
Proof. intros w. by exists a, w. Qed.

Lemma total_emit t : total (emit t).
Proof. intros w. by eexists _, _. Qed.

Lemma total_bind {A B} (m : M S T A) (f : A -> M S T B) :
  total m -> (forall a, total (f a)) -> total (m ≫= f).
Proof.
  intros Hm Hf w. destruct (Hm w) as (a & w1 & E). unfold mbind, M_bind. rewrite E. apply Hf.
Qed.

Lemma total_attempt {A} (m : M S T A) : no_panic m -> total (attempt m).
Proof.
  intros Hm w. specialize (Hm w). unfold attempt. destruct (m w) as [[a|[]] w1]; eauto. done.
Qed.

Lemma total_ignore {A} (m : M S T A) : no_panic m -> total (ignore m).
Proof. intros Hm. apply total_bind; [by apply total_attempt|intros; apply total_ret]. Qed.

(** ** Invariants of the tables, preserved under every failure schedule *)

Definition preserves {A} (I : S -> Prop) (m : M S T A) : Prop :=
  forall w, I (st w) -> I (st (snd (m w))).

Lemma preserves_ret {A} (I : S -> Prop) (a : A) : preserves I (mret a : M S T A).
Proof. by intros w. Qed.

Lemma preserves_fail {A} (I : S -> Prop) e : preserves I (fail e : M S T A).
Proof. by intros w. Qed.

Lemma preserves_bind {A B} (I : S -> Prop) (m : M S T A) (f : A -> M S T B) :
  preserves I m -> (forall a, preserves I (f a)) -> preserves I (m ≫= f).
Proof.
  intros Hm Hf w Hw. specialize (Hm w Hw). unfold mbind, M_bind.
  destruct (m w) as [[a|e] w1]; simpl in *; auto. by apply Hf.
Qed.

Lemma preserves_query {A} (I : S -> Prop) (f : S -> A) : preserves I (query f).
Proof.
  intros w Hw. unfold query. pose proof (pop_fault_st w).
  destruct (pop_fault w) as [[] w1]; simpl in *; congruence.
Qed.

Lemma preserves_exec (I : S -> Prop) f :
  (forall s s', I s -> f s = Some s' -> I s') -> preserves I (exec f).
Proof.
  intros Hf w Hw. unfold exec. pose proof (pop_fault_st w) as Hst.
  destruct (pop_fault w) as [[] w1]; simpl in *; [congruence|].
  rewrite Hst. destruct (f (st w)) eqn:E; simpl; eauto. congruence.
Qed.

Lemma preserves_exec_ret {A} (I : S -> Prop) (f : S -> option (A * S)) :
  (forall s a s', I s -> f s = Some (a, s') -> I s') -> preserves I (exec_ret f).
Proof.
  intros Hf w Hw. destruct (exec_ret f w) as [[a|e] w'] eqn:E; simpl.
  - apply exec_ret_Ok in E as [E _]. by eapply Hf.
  - apply exec_ret_Err in E as (_ & -> & _). done.
Qed.

Lemma preserves_emit (I : S -> Prop) t : preserves I (emit t).
Proof. by intros w. Qed.

Lemma preserves_attempt {A} (I : S -> Prop) (m : M S T A) :
  preserves I m -> preserves I (attempt m).
Proof.
  intros Hm w Hw. specialize (Hm w Hw). unfold attempt.
  by destruct (m w) as [[a|[]] w'].
Qed.

Lemma preserves_map_err {A} (I : S -> Prop) f (m : M S T A) :
  preserves I m -> preserves I (map_err f m).
Proof.
  intros Hm w Hw. specialize (Hm w Hw). unfold map_err. by destruct (m w) as [[a|[]] w'].
Qed.

Lemma preserves_ignore {A} (I : S -> Prop) (m : M S T A) :
  preserves I m -> preserves I (ignore m).
Proof.
  intros Hm. apply preserves_bind; [by apply preserves_attempt|].
  intros; apply preserves_ret.
Qed.

Lemma preserves_expect {A} (I : S -> Prop) e (o : option A) : preserves I (expect e o).
Proof. unfold expect. destruct o; [apply preserves_ret|apply preserves_fail]. Qed.

Lemma preserves_for_each {A} (I : S -> Prop) (f : A -> M S T unit) l :
  (forall a, preserves I (f a)) -> preserves I (for_each f l).
Proof.
  intros Hf. induction l; simpl; [apply preserves_ret|apply preserves_bind; auto].
Qed.

(** A committed body that establishes the invariant is enough: a rollback
    restores a state that had it. *)
Lemma preserves_tx {A} (I : S -> Prop) (body : M S T A) :
  (forall w a w', I (st w) -> body w = (Ok a, w') -> I (st w')) ->
  preserves I (with_tx body).
Proof.
  intros Hb w Hw. destruct (with_tx body w) as [[a|e] w'] eqn:E; simpl.
  - apply with_tx_Ok in E as (w1 & w2 & Hst & _ & Hbody & -> & _).
    eapply Hb; [|exact Hbody]. by rewrite Hst.
  - apply with_tx_Err in E. by rewrite E.
Qed.

(** ** What an error leaves behind *)

Definition errs_keep {A} (I : S -> Prop) (m : M S T A) : Prop :=
  forall w e w', I (st w) -> m w = (Err e, w') -> I (st w').

Lemma errs_keep_preserves {A} (I : S -> Prop) (m : M S T A) : preserves I m -> errs_keep I m.
Proof. intros Hm w e w' Hw H. specialize (Hm w Hw). by rewrite H in Hm. Qed.

Lemma errs_keep_total {A} (I : S -> Prop) (m : M S T A) : total m -> errs_keep I m.
Proof. intros Hm w e w' _ H. destruct (Hm w) as (a & w1 & E). congruence. Qed.

Lemma errs_keep_bind {A B} (I : S -> Prop) (m : M S T A) (f : A -> M S T B) :
  preserves I m -> (forall a, errs_keep I (f a)) -> errs_keep I (m ≫= f).
Proof.
  intros Hm Hf w e w' Hw H. specialize (Hm w Hw). unfold mbind, M_bind in H.
  destruct (m w) as [[a|e'] w1]; simpl in *; [by eapply (Hf a); [exact Hm|]|by simplify_eq].
Qed.
End laws.

(** ** Outcome triples

    [hoare P m Q E]: from tables with [P], a run of [m] under any failure schedule either
    returns [a] in tables with [Q a] or fails with [e] in tables with [E e]. *)

Section hoare.
Context {S T : Type}.

Definition hoare {A} (P : S -> Prop) (m : M S T A) (Q : A -> S -> Prop)
    (E : failure -> S -> Prop) : Prop :=
  forall w, P (st w) ->
    match m w with (Ok a, w') => Q a (st w') | (Err e, w') => E e (st w') end.

Implicit Types (P : S -> Prop) (E : failure -> S -> Prop).

Lemma hoare_conseq {A} P P' (m : M S T A) Q Q' E E' :
  hoare P' m Q' E' -> (forall d, P d -> P' d) -> (forall a d, Q' a d -> Q a d) ->
  (forall e d, E' e d -> E e d) -> hoare P m Q E.
Proof.
  intros H HP HQ HE w Hw. specialize (H w (HP _ Hw)). destruct (m w) as [[a|e] w']; auto.
Qed.

Lemma hoare_ret {A} P (a : A) Q E : (forall d, P d -> Q a d) -> hoare P (mret a) Q E.
Proof. intros H w Hw. by apply H. Qed.

Lemma hoare_bind {A B} P (m : M S T A) (f : A -> M S T B) R Q E :
  hoare P m R E -> (forall a, hoare (R a) (f a) Q E) -> hoare P (m ≫= f) Q E.
Proof.
  intros Hm Hf w Hw. specialize (Hm w Hw). unfold mbind, M_bind.
  destruct (m w) as [[a|e] w']; [by apply Hf|done].
Qed.

Lemma hoare_query {A} P (f : S -> A) Q E :
  (forall d, P d -> Q (f d) d /\ E FDb d) -> hoare P (query f) Q E.
Proof.
  intros H w Hw. unfold query. pose proof (pop_fault_st w) as Hst.
  destruct (pop_fault w) as [[] w1]; simpl in *; rewrite Hst; by apply H.
Qed.

Lemma hoare_exec P f Q E :
  (forall d, P d -> E FDb d /\ forall d', f d = Some d' -> Q tt d') -> hoare P (exec f) Q E.
Proof.
  intros H w Hw. unfold exec. pose proof (pop_fault_st w) as Hst.
  destruct (H _ Hw) as [HE HQ].
  destruct (pop_fault w) as [[] w1]; simpl in *; [by rewrite Hst|].
  rewrite Hst. destruct (f (st w)) eqn:Ef; simpl; [by apply HQ|by rewrite Hst].
Qed.

Lemma hoare_exec_ret {A} P (f : S -> option (A * S)) Q E :
  (forall d, P d -> E FDb d /\ forall a d', f d = Some (a, d') -> Q a d') ->
  hoare P (exec_ret f) Q E.
Proof.
  intros H w Hw. unfold exec_ret. pose proof (pop_fault_st w) as Hst.
  destruct (H _ Hw) as [HE HQ].
  destruct (pop_fault w) as [[] w1]; simpl in *; [by rewrite Hst|].
  rewrite Hst. destruct (f (st w)) as [[a s]|] eqn:Ef; simpl; [by apply HQ|by rewrite Hst].
Qed.

Lemma hoare_expect {A} P e (o : option A) Q E :
  (forall d, P d -> match o with Some a => Q a d | None => E e d end) ->
  hoare P (expect e o) Q E.
Proof. intros H w Hw. specialize (H _ Hw). by destruct o. Qed.

(** [attempt] lets only a panic through. *)
Lemma hoare_attempt {A} P (m : M S T A) Q E E' :
  hoare P m Q E' -> (forall d, E' FPanic d -> E FPanic d) ->
  hoare P (attempt m)
    (fun r d => match r with Ok a => Q a d | Err e => e <> FPanic /\ E' e d end) E.
Proof.
  intros H HE w Hw. specialize (H w Hw). unfold attempt.
  destruct (m w) as [[a|[]] w']; try split; try done. by apply HE.
Qed.

(** The same where every error keeps the precondition. *)
Lemma hoare_attempt_keep {A} (I : S -> Prop) (m : M S T A) Q :
  hoare I m Q (fun _ => I) ->
  hoare I (attempt m) (fun r d => match r with Ok a => Q a d | Err _ => I d end) (fun _ => I).
Proof.
  intros H w Hw. specialize (H w Hw). unfold attempt. by destruct (m w) as [[a|[]] w'].
Qed.

Lemma hoare_map_err {A} P g (m : M S T A) Q (X : S -> Prop) :
  hoare P m Q (fun _ => X) -> hoare P (map_err g m) Q (fun _ => X).
Proof.
  intros H w Hw. specialize (H w Hw). unfold map_err. by destruct (m w) as [[a|[]] w'].
Qed.

(** The same where the error matters. *)
Lemma hoare_map_err_as {A} P g (m : M S T A) Q E E' :
  hoare P m Q E' -> (forall e d, e <> FPanic -> E' e d -> E (g e) d) ->
  (forall d, E' FPanic d -> E FPanic d) -> hoare P (map_err g m) Q E.
Proof.
  intros H HE HP w Hw. specialize (H w Hw). unfold map_err.
  destruct (m w) as [[a|[]] w']; auto; by apply HE.
Qed.

(** A statement whose outcome is ignored keeps what it keeps in every outcome. *)
Lemma hoare_ignore {A} P (m : M S T A) E : preserves P m -> no_panic m ->
  hoare P (ignore m) (fun _ => P) E.
Proof.
  intros Hp Hn w Hw. specialize (Hp w Hw). specialize (Hn w).
  unfold ignore, attempt, mbind, M_bind. by destruct (m w) as [[a|[]] w'].
Qed.

(** The same for one statement with an effect of its own. *)
Lemma hoare_ignore_exec P f (Q : S -> Prop) E :
  (forall d, P d -> Q d /\ forall d', f d = Some d' -> Q d') ->
  hoare P (ignore (exec f)) (fun _ => Q) E.
Proof.
  intros H. eapply hoare_bind with (R := fun r d => match r with Ok _ => Q d | Err e => e <> FPanic /\ (e <> FPanic /\ Q d) end).
  - eapply hoare_attempt with (E' := fun e d => e <> FPanic /\ Q d); [|by intros d [? _]].
    apply hoare_exec. intros d Hd. destruct (H d Hd). split; [split; [discriminate|done]|done].
  - intros r. apply hoare_ret. destruct r; [done|]. by intros d (_ & _ & ?).
Qed.

(** A transaction of which only the effect matters: committed, or nothing. *)
Lemma hoare_ignore_tx {A} P (body : M S T A) (Q : S -> Prop) E :
  (forall w a w', P (st w) -> body w = (Ok a, w') -> Q (st w')) -> (forall d, P d -> Q d) ->
  no_panic body -> hoare P (ignore (with_tx body)) (fun _ => Q) E.
Proof.
  intros HQ HP Hn w Hw. pose proof (no_panic_tx body Hn w) as Hp.
  unfold ignore, attempt, mbind, M_bind.
  destruct (with_tx body w) as [[a|e] w'] eqn:Ex; simpl in Hp.
  - apply with_tx_Ok in Ex as (w1 & w2 & Hst & _ & Hb & Hst' & _). unfold mret, M_ret.
    rewrite Hst'. eapply HQ; [|exact Hb]. by rewrite Hst.
  - apply with_tx_Err in Ex. assert (G : Q (st w')) by (rewrite Ex; by apply HP).
    by destruct e.
Qed.

Lemma hoare_preserves {A} P (m : M S T A) E : preserves P m ->
  (forall e d, P d -> E e d) -> hoare P m (fun _ => P) E.
Proof.
  intros Hp HE w Hw. specialize (Hp w Hw). destruct (m w) as [[a|e] w']; [done|by apply HE].
Qed.

Lemma hoare_keeps {A} P (m : M S T A) : preserves P m -> no_panic m ->
  hoare P m (fun _ => P) (fun e d => e <> FPanic /\ P d).
Proof.
  intros Hp Hn w Hw. specialize (Hp w Hw). specialize (Hn w).
  destruct (m w) as [[a|e] w']; simpl in *; [done|split; congruence].
Qed.

(** A run that never fails. *)
Lemma hoare_total {A} P (m : M S T A) E : preserves P m -> total m ->
  hoare P m (fun _ => P) E.
Proof.
  intros Hp Ht w Hw. specialize (Hp w Hw). destruct (Ht w) as (a & w' & Em). by rewrite Em in *.
Qed.

Lemma hoare_exists {A X} (P : X -> S -> Prop) (m : M S T A) Q E :
  (forall x, hoare (P x) m Q E) -> hoare (fun d => exists x, P x d) m Q E.
Proof. intros H w [x Hx]. by apply (H x). Qed.

(** A loop, with an invariant over the elements already done. *)
Lemma hoare_for_each {A} (I : list A -> S -> Prop) (f : A -> M S T unit) l E :
  (forall (done : list A) x todo, l = (done ++ x :: todo)%list -> hoare (I done) (f x) (fun _ => I (done ++ [x])%list) E) ->
  hoare (I []) (for_each f l) (fun _ => I l) E.
Proof.
  intros H. enough (G : forall todo done : list A, l = (done ++ todo)%list ->
    hoare (I done) (for_each f todo) (fun _ => I l) E) by (by apply (G l [])).
  induction todo as [|x todo IH]; intros done ->; simpl.
  - apply hoare_ret. by rewrite app_nil_r.
  - eapply hoare_bind; [by eapply H|]. intros []. apply IH. by rewrite <- app_assoc.
Qed.

(** A fact that no table carries can be used as a hypothesis. *)
Lemma hoare_pure {A} (X : Prop) P (m : M S T A) Q E :
  (X -> hoare P m Q E) -> hoare (fun d => X /\ P d) m Q E.
Proof. intros H w [HX Hw]. by apply H. Qed.
End hoare.

(** ** Runs without failures *)

Section calm.
Context {S T : Type}.

Lemma query_calm {A} (f : S -> A) (w : world S T) : faults w = [] ->
  query f w = (Ok (f (st w)), w).
Proof. intros H. unfold query, pop_fault. by rewrite H. Qed.

Lemma exec_calm f (w : world S T) : faults w = [] ->
  exec f w = match f (st w) with Some s => (Ok tt, set_st s w) | None => (Err FDb, w) end.
Proof. intros H. unfold exec, pop_fault. by rewrite H. Qed.

Lemma exec_ret_calm {A} (f : S -> option (A * S)) (w : world S T) : faults w = [] ->
  exec_ret f w = match f (st w) with Some (a, s) => (Ok a, set_st s w) | None => (Err FDb, w) end.
Proof. intros H. unfold exec_ret, pop_fault. by rewrite H. Qed.

Lemma exec_ret_run {A} (f : S -> option (A * S)) (w : world S T) a s :
  faults w = [] -> f (st w) = Some (a, s) -> exec_ret f w = (Ok a, set_st s w).
Proof. intros Hf E. by rewrite exec_ret_calm, E. Qed.

Lemma map_err_run {A} g (m : M S T A) w a w' : m w = (Ok a, w') -> map_err g m w = (Ok a, w').
Proof. unfold map_err. by intros ->. Qed.

Lemma with_tx_run {A} (body : M S T A) w a w' : faults w = [] -> body w = (Ok a, w') -> faults w' = [] ->
  with_tx body w = (Ok a, w').
Proof. unfold with_tx, pop_fault. by intros -> -> ->. Qed.

Lemma attempt_run {A} (m : M S T A) w r w' : m w = (r, w') -> r <> Err FPanic ->
  attempt m w = (Ok r, w').
Proof. intros H Hr. unfold attempt. rewrite H. by destruct r as [a|[]]. Qed.

(** Runs that end without failures to come when they began so. *)
Definition stays_calm {A} (m : M S T A) : Prop := forall w, faults w = [] -> faults (m w).2 = [].

Lemma calm_ret {A} (a : A) : stays_calm (mret a : M S T A).
Proof. by intros w. Qed.

Lemma calm_fail {A} e : stays_calm (fail e : M S T A).
Proof. by intros w. Qed.

Lemma calm_bind {A B} (m : M S T A) (f : A -> M S T B) :
  stays_calm m -> (forall a, stays_calm (f a)) -> stays_calm (m ≫= f).
Proof.
  intros Hm Hf w Hw. unfold mbind, M_bind. specialize (Hm w Hw). destruct (m w) as [[a|e] w1]; [|done].
  by apply Hf.
Qed.

Lemma calm_query {A} (f : S -> A) : stays_calm (query f).
Proof. intros w Hw. by rewrite query_calm. Qed.

Lemma calm_exec f : stays_calm (exec f).
Proof. intros w Hw. rewrite exec_calm by done. by destruct (f (st w)). Qed.

Lemma calm_exec_ret {A} (f : S -> option (A * S)) : stays_calm (exec_ret f).
Proof. intros w Hw. rewrite exec_ret_calm by done. by destruct (f (st w)) as [[a s]|]. Qed.

Lemma calm_expect {A} e (o : option A) : stays_calm (expect e o).
Proof. intros w Hw. by destruct o. Qed.

Lemma calm_emit t : stays_calm (emit t).
Proof. by intros w. Qed.

Lemma calm_attempt {A} (m : M S T A) : stays_calm m -> stays_calm (attempt m).
Proof. intros Hm w Hw. specialize (Hm w Hw). unfold attempt. by destruct (m w) as [[a|[]] w1]. Qed.

Lemma calm_map_err {A} g (m : M S T A) : stays_calm m -> stays_calm (map_err g m).
Proof. intros Hm w Hw. specialize (Hm w Hw). unfold map_err. by destruct (m w) as [[a|[]] w1]. Qed.

Lemma calm_ignore {A} (m : M S T A) : stays_calm m -> stays_calm (ignore m).
Proof. intros Hm. apply calm_bind; [by apply calm_attempt|]. intros r. apply calm_ret. Qed.

Lemma calm_tx {A} (m : M S T A) : stays_calm m -> stays_calm (with_tx m).
Proof.
  intros Hm w Hw. specialize (Hm w Hw). unfold with_tx, pop_fault. rewrite Hw.
  destruct (m w) as [[a|e] w1]; [|done]. simpl in *. by rewrite Hm.
Qed.

Lemma calm_for_each {A} (f : A -> M S T unit) l : (forall a, stays_calm (f a)) -> stays_calm (for_each f l).
Proof. intros Hf. induction l as [|a l IH]; [apply calm_ret|]. by apply calm_bind. Qed.

(** A statement as a value, whatever the failure schedule. *)
Lemma attempt_query {A} (f : S -> A) (w : world S T) : exists r w1,
  attempt (query f) w = (Ok r, w1) /\ st w1 = st w /\ trace w1 = trace w
    /\ faults w1 = tl (faults w)
    /\ ((r = Err FDb /\ hd false (faults w) = true) \/ r = Ok (f (st w))).
Proof.
  unfold attempt, query, pop_fault. destruct w as [d [|[] fs] tr]; simpl.
  all: eexists _, _; split_and!; try done; (by right) || (by left).
Qed.

Lemma attempt_exec f (w : world S T) : exists r w1,
  attempt (exec f) w = (Ok r, w1) /\ trace w1 = trace w /\ faults w1 = tl (faults w)
    /\ ((r = Err FDb /\ st w1 = st w /\ (hd false (faults w) = false -> f (st w) = None))
        \/ r = Ok tt /\ f (st w) = Some (st w1)).
Proof.
  unfold attempt, exec, pop_fault. destruct w as [d [|[] fs] tr]; simpl.
  2: { eexists _, _. split_and!; [done..|]. by left. }
  all: destruct (f d) as [s|]; eexists _, _; split_and!; try done; [by right|by left].
Qed.

(** A statement with a result, whatever the failure schedule. *)
Lemma attempt_exec_ret {A} (f : S -> option (A * S)) (w : world S T) :
  exists r w1, attempt (exec_ret f) w = (Ok r, w1)
    /\ trace w1 = trace w /\ faults w1 = tl (faults w)
    /\ ((r = Err FDb /\ st w1 = st w /\ (hd false (faults w) = false -> f (st w) = None))
        \/ exists a s, r = Ok a /\ f (st w) = Some (a, s) /\ st w1 = s).
Proof.
  unfold attempt, exec_ret, pop_fault. destruct w as [d [|[] fs] tr]; simpl.
  2: { eexists _, _. split_and!; [done..|]. by left. }
  all: destruct (f d) as [[a s]|]; eexists _, _; split_and!; try done; [right|left]; eauto.
Qed.
End calm.

(** ** Parts of a state, and tasks of their own *)

(** A service that knows only a part of the tables. *)
Definition zoom {S S' T A} (get : S' -> S) (put : S -> S' -> S') (m : M S T A) : M S' T A :=
  fun w =>
    let '(r, w1) := m (World (get (st w)) (faults w) (trace w)) in
    (r, World (put (st w1) (st w)) (faults w1) (trace w1)).

(** [tokio::spawn(m)]: neither an error nor a panic reaches the caller.  The task is run at
    the point where it is spawned. *)
Definition spawn {S T A} (m : M S T A) : M S T unit := fun w => (Ok tt, snd (m w)).

Section parts.
Context {S S' T : Type} (get : S' -> S) (put : S -> S' -> S').

Lemma preserves_zoom {A} (I : S' -> Prop) (J : S -> Prop) (m : M S T A) :
  preserves J m -> (forall d, I d -> J (get d)) -> (forall s d, I d -> J s -> I (put s d)) ->
  preserves I (zoom get put m).
Proof.
  intros Hm Hg Hp w Hw. unfold zoom. specialize (Hm (World (get (st w)) (faults w) (trace w)) (Hg _ Hw)).
  destruct (m _) as [r w1]. by apply Hp.
Qed.

Lemma no_panic_zoom {A} (m : M S T A) : no_panic m -> no_panic (zoom get put m).
Proof.
  intros Hm w. unfold zoom. specialize (Hm (World (get (st w)) (faults w) (trace w))).
  by destruct (m _) as [r w1].
Qed.
End parts.

Lemma calm_spawn {S T A} (m : M S T A) : stays_calm m -> stays_calm (spawn m).
Proof. intros Hm w Hw. by apply Hm. Qed.

Lemma preserves_spawn {S T A} (I : S -> Prop) (m : M S T A) : preserves I m -> preserves I (spawn m).
Proof. intros Hm w Hw. by apply Hm. Qed.

Lemma total_spawn {S T A} (m : M S T A) : total (spawn m).
Proof. intros w. by eexists _, _. Qed.

#[export] Hint Resolve no_panic_ret no_panic_bind no_panic_query no_panic_exec no_panic_emit
  no_panic_attempt no_panic_tx no_panic_zoom total_spawn total_ret total_emit total_bind total_attempt total_ignore
  : gateway.

#[export] Hint Resolve preserves_ret preserves_fail preserves_bind preserves_query
  preserves_emit preserves_attempt preserves_map_err preserves_ignore preserves_expect
  preserves_for_each preserves_spawn : gateway.

Create HintDb calm.
#[export] Hint Resolve calm_ret calm_fail calm_query calm_exec calm_exec_ret calm_expect calm_emit calm_bind calm_attempt
  calm_map_err calm_ignore calm_tx calm_for_each calm_spawn : calm.

(** Unfolds one run that returned [Ok] into its steps. *)
Ltac run_step :=
  match goal with
  | H : (_ ≫= _) _ = (Ok _, _) |- _ =>
      apply bind_Ok in H as (? & ? & ? & H)
  | H : query _ _ = (Ok _, _) |- _ => apply query_Ok in H as (-> & ? & ?)
  | H : exec _ _ = (Ok _, _) |- _ => apply exec_Ok in H as (? & ?)
  | H : expect _ _ _ = (Ok _, _) |- _ => apply expect_Ok in H as (? & ->)
  | H : fail _ _ = (Ok _, _) |- _ => apply fail_Ok in H; contradiction
  | H : map_err _ _ _ = (Ok _, _) |- _ => apply map_err_Ok in H
  | H : mret _ _ = (Ok _, _) |- _ =>
      first [apply ret_Ok in H as (<- & <-) | apply ret_Ok in H as (_ & <-)]
  | H : with_tx _ _ = (Ok _, _) |- _ =>
      apply with_tx_Ok in H as (? & ? & ? & ? & H & ? & ?)
  end.
Ltac run_steps := repeat run_step.

(** Follows the equations between the states of successive worlds. *)
Ltac norm_st :=
  repeat match goal with
  | H : st ?x = _, H' : context [st ?x] |- _ =>
      lazymatch H' with H => fail | _ => rewrite H in H' end
  | H : st ?x = _ |- context [st ?x] => rewrite H
  end.

(** Follows the equations [f (st x) = f (st y)] of one table in the goal. *)
Ltac chase f :=
  repeat match goal with
  | H : f (st ?x) = f (st ?y) |- context [f (st ?x)] => rewrite H
  end.
