(* ===== verification/Schema.v ===== *)
(** Data model: [src/database/schema.rs], [src/models/trading.rs],
    [src/services/market_clearing/types.rs], [src/services/settlement/types.rs],
    and the tables the migrations create for them.

    A [Uuid] is its 128-bit value, a [DateTime<Utc>] the nanoseconds since the
    Unix epoch.  Columns that are nullable in the schema are options.  [as_str]
    functions give the text an enum is stored and displayed with. *)
From S2P Require Import Prelude Numerics Floats Errors Store.

Open Scope string_scope.
Open Scope Z_scope.

Abbreviation Uuid := N (only parsing).
Abbreviation DateTime := Z (only parsing).

(** ** Enumerations *)

Inductive UserRole := RoleUser | RoleAdmin | RoleProsumer | RoleConsumer | RoleCorporate.

Inductive OrderType := Limit | Market.
Inductive OrderSide := Buy | Sell.

Definition OrderType_as_str (t : OrderType) : string :=
  match t with Limit => "limit" | Market => "market" end.

Definition OrderSide_as_str (s : OrderSide) : string :=
  match s with Buy => "buy" | Sell => "sell" end.

Inductive OrderStatus :=
| Pending | Active | PartiallyFilled | Filled | Settled | Cancelled | Expired.

Definition OrderStatus_as_str (s : OrderStatus) : string :=
  match s with
  | Pending => "pending"
  | Active => "active"
  | PartiallyFilled => "partially_filled"
  | Filled => "filled"
  | Settled => "settled"
  | Cancelled => "cancelled"
  | Expired => "expired"
  end.

Inductive EpochStatus := EpochPending | EpochActive | EpochCleared | EpochSettled.

Definition EpochStatus_as_str (s : EpochStatus) : string :=
  match s with
  | EpochPending => "pending"
  | EpochActive => "active"
  | EpochCleared => "cleared"
  | EpochSettled => "settled"
  end.

Inductive TriggerType := StopLoss | TakeProfit | TrailingStop.
Inductive TriggerStatus := TrigPending | TrigTriggered | TrigCancelled | TrigExpired.

Definition TriggerType_as_str (t : TriggerType) : string :=
  match t with
  | StopLoss => "stop_loss"
  | TakeProfit => "take_profit"
  | TrailingStop => "trailing_stop"
  end.

Definition TriggerStatus_as_str (t : TriggerStatus) : string :=
  match t with
  | TrigPending => "pending"
  | TrigTriggered => "triggered"
  | TrigCancelled => "cancelled"
  | TrigExpired => "expired"
  end.

Inductive IntervalType := Hourly | Daily | Weekly | Monthly.
Inductive RecurringStatus := RecActive | RecPaused | RecCompleted | RecCancelled.

Definition IntervalType_as_str (t : IntervalType) : string :=
  match t with
  | Hourly => "hourly" | Daily => "daily" | Weekly => "weekly" | Monthly => "monthly"
  end.

Definition RecurringStatus_as_str (s : RecurringStatus) : string :=
  match s with
  | RecActive => "active"
  | RecPaused => "paused"
  | RecCompleted => "completed"
  | RecCancelled => "cancelled"
  end.

#[global] Instance OrderType_eq_dec : EqDecision OrderType.
Proof. solve_decision. Defined.
#[global] Instance OrderSide_eq_dec : EqDecision OrderSide.
Proof. solve_decision. Defined.
#[global] Instance OrderStatus_eq_dec : EqDecision OrderStatus.
Proof. solve_decision. Defined.
#[global] Instance EpochStatus_eq_dec : EqDecision EpochStatus.
Proof. solve_decision. Defined.
#[global] Instance TriggerType_eq_dec : EqDecision TriggerType.
Proof. solve_decision. Defined.
#[global] Instance TriggerStatus_eq_dec : EqDecision TriggerStatus.
Proof. solve_decision. Defined.
#[global] Instance RecurringStatus_eq_dec : EqDecision RecurringStatus.
Proof. solve_decision. Defined.

(** ** Orders *)

Record TradingOrderDb := {
  o_id : Uuid;
  o_user_id : Uuid;
  o_order_type : OrderType;
  o_side : OrderSide;
  o_energy_amount : Decimal;
  o_price_per_kwh : Decimal;
  o_filled_amount : option Decimal;
  o_status : OrderStatus;
  o_expires_at : option DateTime;
  o_created_at : option DateTime;
  o_filled_at : option DateTime;
  o_epoch_id : option Uuid;
  o_zone_id : option Z;
  o_meter_id : option Uuid;
  o_refund_tx_signature : option string;
  o_order_pda : option string;
  o_blockchain_tx_signature : option string;
  o_session_token : option string;
  o_is_confidential : bool;
  o_energy_source : option string;
  o_trigger_price : option Decimal;
  o_trigger_type : option TriggerType;
  o_trigger_status : option TriggerStatus;
  o_trailing_offset : option Decimal;
  o_triggered_at : option DateTime;
}.

(** [filled_amount.unwrap_or(Decimal::ZERO)]. *)
Definition filled (o : TradingOrderDb) : Decimal := default 0 (o_filled_amount o).

(** Row updates ([UPDATE trading_orders SET status = .., filled_amount = ..]). *)
Definition set_order_fill (f : option Decimal) (s : OrderStatus) (o : TradingOrderDb)
    : TradingOrderDb :=
  {| o_id := o_id o; o_user_id := o_user_id o; o_order_type := o_order_type o;
     o_side := o_side o; o_energy_amount := o_energy_amount o;
     o_price_per_kwh := o_price_per_kwh o; o_filled_amount := f; o_status := s;
     o_expires_at := o_expires_at o; o_created_at := o_created_at o;
     o_filled_at := o_filled_at o; o_epoch_id := o_epoch_id o; o_zone_id := o_zone_id o;
     o_meter_id := o_meter_id o; o_refund_tx_signature := o_refund_tx_signature o;
     o_order_pda := o_order_pda o;
     o_blockchain_tx_signature := o_blockchain_tx_signature o;
     o_session_token := o_session_token o;
     o_is_confidential := o_is_confidential o; o_energy_source := o_energy_source o;
     o_trigger_price := o_trigger_price o; o_trigger_type := o_trigger_type o;
     o_trigger_status := o_trigger_status o; o_trailing_offset := o_trailing_offset o;
     o_triggered_at := o_triggered_at o |}.

Definition set_order_status (s : OrderStatus) (o : TradingOrderDb) : TradingOrderDb :=
  set_order_fill (o_filled_amount o) s o.

(** [UPDATE trading_orders SET blockchain_tx_signature = .., order_pda = ..]; without a PDA that
    column is not named. *)
Definition set_order_link (signature : string) (pda : option string) (o : TradingOrderDb)
    : TradingOrderDb :=
  {| o_id := o_id o; o_user_id := o_user_id o; o_order_type := o_order_type o;
     o_side := o_side o; o_energy_amount := o_energy_amount o;
     o_price_per_kwh := o_price_per_kwh o; o_filled_amount := o_filled_amount o;
     o_status := o_status o;
     o_expires_at := o_expires_at o; o_created_at := o_created_at o;
     o_filled_at := o_filled_at o; o_epoch_id := o_epoch_id o; o_zone_id := o_zone_id o;
     o_meter_id := o_meter_id o; o_refund_tx_signature := o_refund_tx_signature o;
     o_order_pda := match pda with Some p => Some p | None => o_order_pda o end;
     o_blockchain_tx_signature := Some signature;
     o_session_token := o_session_token o;
     o_is_confidential := o_is_confidential o; o_energy_source := o_energy_source o;
     o_trigger_price := o_trigger_price o; o_trigger_type := o_trigger_type o;
     o_trigger_status := o_trigger_status o; o_trailing_offset := o_trailing_offset o;
     o_triggered_at := o_triggered_at o |}.

Definition set_order_trigger (t : option TriggerStatus) (at_ : option DateTime)
    (o : TradingOrderDb) : TradingOrderDb :=
  {| o_id := o_id o; o_user_id := o_user_id o; o_order_type := o_order_type o;
     o_side := o_side o; o_energy_amount := o_energy_amount o;
     o_price_per_kwh := o_price_per_kwh o; o_filled_amount := o_filled_amount o;
     o_status := o_status o;
     o_expires_at := o_expires_at o; o_created_at := o_created_at o;
     o_filled_at := o_filled_at o; o_epoch_id := o_epoch_id o; o_zone_id := o_zone_id o;
     o_meter_id := o_meter_id o; o_refund_tx_signature := o_refund_tx_signature o;
     o_order_pda := o_order_pda o;
     o_blockchain_tx_signature := o_blockchain_tx_signature o;
     o_session_token := o_session_token o;
     o_is_confidential := o_is_confidential o; o_energy_source := o_energy_source o;
     o_trigger_price := o_trigger_price o; o_trigger_type := o_trigger_type o;
     o_trigger_status := t; o_trailing_offset := o_trailing_offset o;
     o_triggered_at := at_ |}.

(** [TradingOrder] and [From<TradingOrderDb>]. *)
Record TradingOrder := {
  t_id : Uuid;
  t_user_id : Uuid;
  t_order_type : OrderType;
  t_side : OrderSide;
  t_energy_amount : Decimal;
  t_price_per_kwh : Decimal;
  t_filled_amount : Decimal;
  t_status : OrderStatus;
  t_expires_at : option DateTime;
  t_created_at : option DateTime;
  t_filled_at : option DateTime;
  t_epoch_id : option Uuid;
  t_zone_id : option Z;
  t_meter_id : option Uuid;
  t_refund_tx_signature : option string;
  t_order_pda : option string;
  t_session_token : option string;
  t_is_confidential : bool;
  t_energy_source : option string;
}.

Definition TradingOrder_from (db : TradingOrderDb) : TradingOrder :=
  {| t_id := o_id db; t_user_id := o_user_id db; t_order_type := o_order_type db;
     t_side := o_side db; t_energy_amount := o_energy_amount db;
     t_price_per_kwh := o_price_per_kwh db; t_filled_amount := filled db;
     t_status := o_status db; t_expires_at := o_expires_at db;
     t_created_at := o_created_at db; t_filled_at := o_filled_at db;
     t_epoch_id := o_epoch_id db; t_zone_id := o_zone_id db; t_meter_id := o_meter_id db;
     t_refund_tx_signature := o_refund_tx_signature db; t_order_pda := o_order_pda db;
     t_session_token := o_session_token db; t_is_confidential := o_is_confidential db;
     t_energy_source := o_energy_source db |}.

(** ** Escrow, matches, settlements, epochs *)

Record EscrowRecord := {
  er_user_id : Uuid;
  er_order_id : option Uuid;
  er_amount : Decimal;
  er_asset_type : string;
  er_escrow_type : string;
  er_status : string;
  er_description : option string;
}.

Record OrderMatch := {
  om_id : Uuid;
  om_epoch_id : Uuid;
  om_buy_order_id : Uuid;
  om_sell_order_id : Uuid;
  om_matched_amount : Decimal;
  om_match_price : Decimal;
  om_match_time : DateTime;
  om_status : string;
  om_settlement_id : option Uuid;
}.

Record TradeMatch := {
  tm_id : Uuid;
  tm_match_id : Uuid;
  tm_epoch_id : Uuid;
  tm_buyer_id : Uuid;
  tm_seller_id : Uuid;
  tm_buy_order_id : Uuid;
  tm_sell_order_id : Uuid;
  tm_quantity : Decimal;
  tm_price : Decimal;
  tm_total_value : Decimal;
  tm_wheeling_charge : Decimal;
  tm_loss_factor : Decimal;
  tm_loss_cost : Decimal;
  tm_buyer_zone_id : option Z;
  tm_seller_zone_id : option Z;
  tm_matched_at : DateTime;
  tm_buyer_session_token : option string;
  tm_seller_session_token : option string;
}.

Inductive SettlementStatus :=
| SPending | SProcessing | SCompleted | SFailed | SPendingBridge | SBridgingInitiated.

Definition SettlementStatus_to_string (s : SettlementStatus) : string :=
  match s with
  | SPending => "pending"
  | SProcessing => "processing"
  | SCompleted => "completed"
  | SFailed => "failed"
  | SPendingBridge => "pending_bridge"
  | SBridgingInitiated => "bridging_initiated"
  end.

#[global] Instance SettlementStatus_eq_dec : EqDecision SettlementStatus.
Proof. solve_decision. Defined.

(** A row of [settlements]; [status] is the text in the column. *)
Record SettlementRow := {
  s_id : Uuid;
  s_epoch_id : Uuid;
  s_buyer_id : Uuid;
  s_seller_id : Uuid;
  s_buy_order_id : option Uuid;
  s_sell_order_id : option Uuid;
  s_energy_amount : Decimal;
  s_price : Decimal;
  s_total_amount : Decimal;
  s_fee_amount : Decimal;
  s_net_amount : Decimal;
  s_status : string;
  s_transaction_hash : option string;
  s_created_at : DateTime;
  s_processed_at : option DateTime;
  s_wheeling_charge : option Decimal;
  s_loss_factor : option Decimal;
  s_loss_cost : option Decimal;
  s_effective_energy : option Decimal;
  s_buyer_zone_id : option Z;
  s_seller_zone_id : option Z;
  s_buyer_session_token : option string;
  s_seller_session_token : option string;
  s_retry_count : option Z;
  s_updated_at : DateTime;
}.

Definition set_settlement (status : string) (tx : option string) (processed : option DateTime)
    (retry : option Z) (now : DateTime) (s : SettlementRow) : SettlementRow :=
  {| s_id := s_id s; s_epoch_id := s_epoch_id s; s_buyer_id := s_buyer_id s;
     s_seller_id := s_seller_id s; s_buy_order_id := s_buy_order_id s;
     s_sell_order_id := s_sell_order_id s; s_energy_amount := s_energy_amount s;
     s_price := s_price s; s_total_amount := s_total_amount s;
     s_fee_amount := s_fee_amount s; s_net_amount := s_net_amount s; s_status := status;
     s_transaction_hash := tx; s_created_at := s_created_at s;
     s_processed_at := processed; s_wheeling_charge := s_wheeling_charge s;
     s_loss_factor := s_loss_factor s; s_loss_cost := s_loss_cost s;
     s_effective_energy := s_effective_energy s; s_buyer_zone_id := s_buyer_zone_id s;
     s_seller_zone_id := s_seller_zone_id s;
     s_buyer_session_token := s_buyer_session_token s;
     s_seller_session_token := s_seller_session_token s;
     s_retry_count := retry; s_updated_at := now |}.

Record MarketEpoch := {
  e_id : Uuid;
  e_epoch_number : Z;
  e_start_time : DateTime;
  e_end_time : DateTime;
  e_status : EpochStatus;
  e_clearing_price : option Decimal;
  e_total_volume : option Decimal;
  e_total_orders : option Z;
  e_matched_orders : option Z;
}.

Record RevenueRow := {
  r_settlement_id : Uuid;
  r_amount : Decimal;
  r_revenue_type : string;
  r_description : option string;
  r_created_at : DateTime;
}.

(** The columns of [users] the trading services touch; the last three are BYTEA. *)
Record User := {
  u_balance : option Decimal;
  u_locked_amount : option Decimal;
  u_locked_energy : option Decimal;
  u_wallet_address : option string;
  u_encrypted_private_key : option (list Byte.byte);
  u_wallet_salt : option (list Byte.byte);
  u_encryption_iv : option (list Byte.byte);
}.

(** A row of [blockchain_tasks] queued by the order service. *)
Record RefundTask := {
  rt_user_id : Uuid;
  rt_amount : Decimal;
  rt_asset_type : string;
  rt_order_id : Uuid;
}.

(** ** The tables *)

Record Db := {
  users : gmap Uuid User;
  orders : gmap Uuid TradingOrderDb;
  escrow_records : list EscrowRecord;
  order_matches : gmap Uuid OrderMatch;
  settlements : gmap Uuid SettlementRow;
  epochs : gmap Uuid MarketEpoch;
  platform_revenue : list RevenueRow;
  refund_tasks : list RefundTask;
}.

Definition set_users (m : gmap Uuid User) (d : Db) : Db :=
  {| users := m; orders := orders d; escrow_records := escrow_records d;
     order_matches := order_matches d; settlements := settlements d; epochs := epochs d;
     platform_revenue := platform_revenue d; refund_tasks := refund_tasks d |}.
Definition set_orders (m : gmap Uuid TradingOrderDb) (d : Db) : Db :=
  {| users := users d; orders := m; escrow_records := escrow_records d;
     order_matches := order_matches d; settlements := settlements d; epochs := epochs d;
     platform_revenue := platform_revenue d; refund_tasks := refund_tasks d |}.
Definition set_escrow (l : list EscrowRecord) (d : Db) : Db :=
  {| users := users d; orders := orders d; escrow_records := l;
     order_matches := order_matches d; settlements := settlements d; epochs := epochs d;
     platform_revenue := platform_revenue d; refund_tasks := refund_tasks d |}.
Definition set_matches (m : gmap Uuid OrderMatch) (d : Db) : Db :=
  {| users := users d; orders := orders d; escrow_records := escrow_records d;
     order_matches := m; settlements := settlements d; epochs := epochs d;
     platform_revenue := platform_revenue d; refund_tasks := refund_tasks d |}.
Definition set_settlements (m : gmap Uuid SettlementRow) (d : Db) : Db :=
  {| users := users d; orders := orders d; escrow_records := escrow_records d;
     order_matches := order_matches d; settlements := m; epochs := epochs d;
     platform_revenue := platform_revenue d; refund_tasks := refund_tasks d |}.
Definition set_epochs (m : gmap Uuid MarketEpoch) (d : Db) : Db :=
  {| users := users d; orders := orders d; escrow_records := escrow_records d;
     order_matches := order_matches d; settlements := settlements d; epochs := m;
     platform_revenue := platform_revenue d; refund_tasks := refund_tasks d |}.
Definition set_revenue (l : list RevenueRow) (d : Db) : Db :=
  {| users := users d; orders := orders d; escrow_records := escrow_records d;
     order_matches := order_matches d; settlements := settlements d; epochs := epochs d;
     platform_revenue := l; refund_tasks := refund_tasks d |}.
Definition set_tasks (l : list RefundTask) (d : Db) : Db :=
  {| users := users d; orders := orders d; escrow_records := escrow_records d;
     order_matches := order_matches d; settlements := settlements d; epochs := epochs d;
     platform_revenue := platform_revenue d; refund_tasks := l |}.

Definition empty_db : Db :=
  {| users := ∅; orders := ∅; escrow_records := []; order_matches := ∅;
     settlements := ∅; epochs := ∅; platform_revenue := []; refund_tasks := [] |}.

(** A nullable NUMERIC(20, 8) value. *)
Definition num8_opt `{Numerics} (c : option Decimal) : option (option Decimal) :=
  match c with None => Some None | Some v => r ← num8 v; Some (Some r) end.

(** The characters of a UTF-8 text, and a nullable VARCHAR(n) value. *)
Fixpoint utf8_length (s : string) : nat :=
  match s with
  | EmptyString => 0
  | String a s =>
      let n := Ascii.N_of_ascii a in
      if (128 <=? n)%N && (n <? 192)%N then utf8_length s else S (utf8_length s)
  end.

Definition varchar (n : nat) (c : option string) : bool :=
  match c with None => true | Some s => (utf8_length s <=? n)%nat end.

(** ** Statements shared by the services

    A statement maps the tables to the tables after it, [None] when the server
    rejects it.  SQL arithmetic on a NULL column yields NULL; the result of a
    computed column is stored with [num8]. *)
Section statements.
Context `{NUM : Numerics}.

(** [col + amount] stored into a nullable NUMERIC(20, 8) column. *)
Definition col_add (c : option Decimal) (amount : Decimal) : option (option Decimal) :=
  match c with
  | None => Some None
  | Some v => r ← num8 (v + amount); Some (Some r)
  end.

Definition update_user (id : Uuid) (f : User -> option User) (d : Db) : option Db :=
  match users d !! id with
  | None => Some d
  | Some u => u' ← f u; Some (set_users (<[id := u']> (users d)) d)
  end.

(** [UPDATE users SET balance = balance + db, locked_amount = locked_amount + dl,
    locked_energy = locked_energy + de]: one statement, columns it does not name
    get a zero delta. *)
Definition add_balance_locked (db dl : Decimal) (u : User) : option User :=
  b ← col_add (u_balance u) db;
  l ← col_add (u_locked_amount u) dl;
  Some {| u_balance := b; u_locked_amount := l; u_locked_energy := u_locked_energy u;
          u_wallet_address := u_wallet_address u; u_encrypted_private_key := u_encrypted_private_key u;
          u_wallet_salt := u_wallet_salt u; u_encryption_iv := u_encryption_iv u |}.

Definition add_balance (db : Decimal) (u : User) : option User :=
  b ← col_add (u_balance u) db;
  Some {| u_balance := b; u_locked_amount := u_locked_amount u;
          u_locked_energy := u_locked_energy u; u_wallet_address := u_wallet_address u;
          u_encrypted_private_key := u_encrypted_private_key u;
          u_wallet_salt := u_wallet_salt u; u_encryption_iv := u_encryption_iv u |}.

Definition add_locked (dl : Decimal) (u : User) : option User :=
  l ← col_add (u_locked_amount u) dl;
  Some {| u_balance := u_balance u; u_locked_amount := l;
          u_locked_energy := u_locked_energy u; u_wallet_address := u_wallet_address u;
          u_encrypted_private_key := u_encrypted_private_key u;
          u_wallet_salt := u_wallet_salt u; u_encryption_iv := u_encryption_iv u |}.

Definition add_locked_energy (de : Decimal) (u : User) : option User :=
  e ← col_add (u_locked_energy u) de;
  Some {| u_balance := u_balance u; u_locked_amount := u_locked_amount u;
          u_locked_energy := e; u_wallet_address := u_wallet_address u;
          u_encrypted_private_key := u_encrypted_private_key u;
          u_wallet_salt := u_wallet_salt u; u_encryption_iv := u_encryption_iv u |}.

(** [UPDATE users SET wallet_address = .., encrypted_private_key = .., wallet_salt = ..,
    encryption_iv = .. WHERE id = ..]: a wallet is UNIQUE, of at most 88 characters. *)
Definition set_user_keys (wallet : string) (key salt iv : list Byte.byte) (u : User) : User :=
  {| u_balance := u_balance u; u_locked_amount := u_locked_amount u;
     u_locked_energy := u_locked_energy u; u_wallet_address := Some wallet;
     u_encrypted_private_key := Some key; u_wallet_salt := Some salt; u_encryption_iv := Some iv |}.

Definition store_user_keys (id : Uuid) (wallet : string) (key salt iv : list Byte.byte) (d : Db)
    : option Db :=
  match users d !! id with
  | None => Some d
  | Some u =>
      if varchar 88 (Some wallet)
         && forallb (fun x => (x.1 =? id)%N || negb (bool_decide (u_wallet_address x.2 = Some wallet)))
              (map_to_list (users d))
      then Some (set_users (<[id := set_user_keys wallet key salt iv u]> (users d)) d)
      else None
  end.

(** [INSERT INTO escrow_records]: the referenced user and order must exist, the
    status must be one of the allowed ones. *)
Definition insert_escrow (user_id order_id : Uuid) (amount : Decimal)
    (asset_type escrow_type : string) (description : string) (d : Db) : option Db :=
  match users d !! user_id, orders d !! order_id, num8 amount with
  | Some _, Some _, Some a =>
      Some (set_escrow (escrow_records d ++
        [{| er_user_id := user_id; er_order_id := Some order_id; er_amount := a;
            er_asset_type := asset_type; er_escrow_type := escrow_type;
            er_status := "locked"; er_description := Some description |}]) d)
  | _, _, _ => None
  end.

Definition set_escrow_status (s : string) (desc : option string) (r : EscrowRecord)
    : EscrowRecord :=
  {| er_user_id := er_user_id r; er_order_id := er_order_id r;
     er_amount := er_amount r; er_asset_type := er_asset_type r;
     er_escrow_type := er_escrow_type r; er_status := s;
     er_description := match desc with Some _ => desc | None => er_description r end |}.

(** [UPDATE escrow_records SET status = 'released' WHERE p]. *)
Definition release_escrow (p : EscrowRecord -> bool) (desc : option string) (d : Db) : option Db :=
  Some (set_escrow ((fun r => if p r then set_escrow_status "released" desc r else r)
                      <$> escrow_records d) d).

(** A nullable reference to an epoch. *)
Definition epoch_exists (e : option Uuid) (d : Db) : bool :=
  match e with None => true | Some id => bool_decide (is_Some (epochs d !! id)) end.

(** [INSERT INTO trading_orders], with the constraints of the table: a user, an existing
    epoch if one is named, a new id, positive energy and positive price, and a session token
    of at most 128 characters. *)
Definition insert_order (o : TradingOrderDb) (d : Db) : option Db :=
  match users d !! o_user_id o, orders d !! o_id o,
        num8 (o_energy_amount o), num8 (o_price_per_kwh o),
        num8_opt (o_trigger_price o), num8_opt (o_trailing_offset o) with
  | Some _, None, Some e, Some p, Some tp, Some off =>
      if (0 <? e) && (0 <? p) && epoch_exists (o_epoch_id o) d
         && varchar 128 (o_session_token o) then
        Some (set_orders (<[o_id o :=
          {| o_id := o_id o; o_user_id := o_user_id o; o_order_type := o_order_type o;
             o_side := o_side o; o_energy_amount := e; o_price_per_kwh := p;
             o_filled_amount := o_filled_amount o; o_status := o_status o;
             o_expires_at := o_expires_at o; o_created_at := o_created_at o;
             o_filled_at := o_filled_at o; o_epoch_id := o_epoch_id o;
             o_zone_id := o_zone_id o; o_meter_id := o_meter_id o;
             o_refund_tx_signature := o_refund_tx_signature o;
             o_order_pda := o_order_pda o;
             o_blockchain_tx_signature := o_blockchain_tx_signature o;
             o_session_token := o_session_token o;
             o_is_confidential := o_is_confidential o;
             o_energy_source := o_energy_source o;
             o_trigger_price := tp; o_trigger_type := o_trigger_type o;
             o_trigger_status := o_trigger_status o;
             o_trailing_offset := off;
             o_triggered_at := o_triggered_at o |}]> (orders d)) d)
      else None
  | _, _, _, _, _, _ => None
  end.

Definition update_order (id : Uuid) (f : TradingOrderDb -> option TradingOrderDb) (d : Db)
    : option Db :=
  match orders d !! id with
  | None => Some d
  | Some o => o' ← f o; Some (set_orders (<[id := o']> (orders d)) d)
  end.

(** [UPDATE trading_orders SET filled_amount = $1, status = $2 WHERE id = $3]. *)
Definition update_fill (id : Uuid) (f : option Decimal) (s : OrderStatus) : Db -> option Db :=
  update_order id (fun o =>
    match f with
    | None => Some (set_order_fill None s o)
    | Some v => r ← num8 v; Some (set_order_fill (Some r) s o)
    end).

Definition update_status (id : Uuid) (s : OrderStatus) : Db -> option Db :=
  update_order id (fun o => Some (set_order_status s o)).
End statements.

(** [INSERT INTO order_matches]: epoch and orders must exist, the amount must be
    positive once stored. *)
Definition insert_match `{Numerics} (m : OrderMatch) (d : Db) : option Db :=
  match epochs d !! om_epoch_id m, orders d !! om_buy_order_id m, orders d !! om_sell_order_id m,
        order_matches d !! om_id m, num8 (om_matched_amount m), num8 (om_match_price m) with
  | Some _, Some _, Some _, None, Some a, Some p =>
      if 0 <? a then
        Some (set_matches (<[om_id m :=
          {| om_id := om_id m; om_epoch_id := om_epoch_id m;
             om_buy_order_id := om_buy_order_id m; om_sell_order_id := om_sell_order_id m;
             om_matched_amount := a; om_match_price := p; om_match_time := om_match_time m;
             om_status := om_status m; om_settlement_id := om_settlement_id m |}]>
          (order_matches d)) d)
      else None
  | _, _, _, _, _, _ => None
  end.

(** [chk_settlement_status] of the [settlements] table. *)
Definition chk_settlement_status (s : string) : bool :=
  bool_decide (s ∈ ["pending"; "processing"; "completed"; "failed"]).

(** [INSERT INTO settlements]: epoch, buyer and seller must exist, the id is new. *)
Definition insert_settlement `{Numerics} (s : SettlementRow) (d : Db) : option Db :=
  match epochs d !! s_epoch_id s, users d !! s_buyer_id s, users d !! s_seller_id s,
        settlements d !! s_id s with
  | Some _, Some _, Some _, None =>
      if chk_settlement_status (s_status s) then
        energy ← num8 (s_energy_amount s); price ← num8 (s_price s);
        total ← num8 (s_total_amount s); fee ← num8 (s_fee_amount s);
        net ← num8 (s_net_amount s);
        wheeling ← num8_opt (s_wheeling_charge s); lf ← num8_opt (s_loss_factor s);
        lc ← num8_opt (s_loss_cost s); eff ← num8_opt (s_effective_energy s);
        Some (set_settlements (<[s_id s :=
          {| s_id := s_id s; s_epoch_id := s_epoch_id s; s_buyer_id := s_buyer_id s;
             s_seller_id := s_seller_id s; s_buy_order_id := s_buy_order_id s;
             s_sell_order_id := s_sell_order_id s; s_energy_amount := energy;
             s_price := price; s_total_amount := total; s_fee_amount := fee;
             s_net_amount := net; s_status := s_status s;
             s_transaction_hash := s_transaction_hash s; s_created_at := s_created_at s;
             s_processed_at := s_processed_at s; s_wheeling_charge := wheeling;
             s_loss_factor := lf; s_loss_cost := lc; s_effective_energy := eff;
             s_buyer_zone_id := s_buyer_zone_id s; s_seller_zone_id := s_seller_zone_id s;
             s_buyer_session_token := s_buyer_session_token s;
             s_seller_session_token := s_seller_session_token s;
             s_retry_count := s_retry_count s; s_updated_at := s_updated_at s |}]>
          (settlements d)) d)
      else None
  | _, _, _, _ => None
  end.

(** [UPDATE settlements SET .. WHERE id = $n], with the status check. *)
Definition update_settlement (id : Uuid) (f : SettlementRow -> SettlementRow) (d : Db)
    : option Db :=
  match settlements d !! id with
  | None => Some d
  | Some s =>
      if chk_settlement_status (s_status (f s))
      then Some (set_settlements (<[id := f s]> (settlements d)) d)
      else None
  end.

Lemma update_order_users id f d d' :
  update_order id f d = Some d' -> users d' = users d.
Proof.
  unfold update_order. destruct (orders d !! id) as [o|]; [|by intros; simplify_eq].
  destruct (f o); intros; simplify_eq/=; done.
Qed.

Lemma update_order_lookup id f d d' o :
  update_order id f d = Some d' -> orders d !! id = Some o ->
  exists o', f o = Some o' /\ orders d' = <[id := o']> (orders d).
Proof.
  unfold update_order. intros Hu Ho. rewrite Ho in Hu.
  destruct (f o); simplify_eq/=. eauto.
Qed.

Lemma update_user_lookup `{Numerics} id f d d' u :
  update_user id f d = Some d' -> users d !! id = Some u ->
  exists u', f u = Some u' /\ d' = set_users (<[id := u']> (users d)) d.
Proof.
  unfold update_user. intros Hu Hid. rewrite Hid in Hu.
  destruct (f u); simplify_eq/=. eauto.
Qed.

(** ** Text of a [Uuid]

    Hyphenated lower-case hexadecimal, groups of 8, 4, 4, 4 and 12 digits. *)
Definition hex_char (d : N) : string :=
  match d with
  | 0 => "0" | 1 => "1" | 2 => "2" | 3 => "3" | 4 => "4" | 5 => "5" | 6 => "6" | 7 => "7"
  | 8 => "8" | 9 => "9" | 10 => "a" | 11 => "b" | 12 => "c" | 13 => "d" | 14 => "e" | _ => "f"
  end%N.

Fixpoint hex (digits : nat) (n : N) : string :=
  match digits with
  | O => ""
  | S k => hex k (n / 16)%N +:+ hex_char (n mod 16)%N
  end.

Definition uuid_to_string (u : Uuid) : string :=
  hex 8 (N.shiftr u 96) +:+ "-" +:+ hex 4 (N.shiftr u 80) +:+ "-" +:+
  hex 4 (N.shiftr u 64) +:+ "-" +:+ hex 4 (N.shiftr u 48) +:+ "-" +:+ hex 12 u.

(** ** Outside effects of the services *)

(** The calls of [BlockchainService] and of the on-chain helpers the
    services make, by the arguments that matter to them. *)
Inductive ChainCall :=
| EscrowRefund (user : Uuid) (amount : Decimal) (asset_type : string)
| EscrowRelease (user : Uuid) (amount : Decimal) (asset_type : string)
| MatchOrders (buy_pda sell_pda : string) (amount : Z)
| GetAuthority
| EnsureTokenAccount (wallet mint : string)
| TransferTokens (owner from to mint : string) (amount : Z)
| GetSlot
| GetTradingProgramId
| InitiateBridge (amount : Z)
| CompleteBridge
| SwapBuyEnergy (wallet : string) (curve : Z) (amount max_currency : Z)
| AtomicSwap (buyer seller : Uuid) (buy_pda sell_pda : string)
    (amount price wheeling fee : Decimal)
| BatchSettlement (amounts prices wheeling : list Z) (accounts : list string)
| UpdateMeterReading (serial : string) (generated consumed timestamp : Z)
| MintEnergyTokens (wallet mint : string) (kwh : spec_float)
| MintSplTokens (wallet mint : string) (kwh : spec_float)
| BurnEnergyTokens (account mint : string) (kwh : spec_float)
| RequestAirdrop (wallet : string) (lamports : Z)
| RegisterUser (wallet : string) (user_type : Z) (location : string)
| RpcHealth
| IssueErc (certificate wallet meter : string) (amount : Z) (source data : string)
| TransferErc (certificate owner to_owner : string)
| RevokeErc (certificate reason : string)
| GetTransaction (signature : string)
| GetBlock (slot : Z)
| SignatureStatus (signature : string).

(** A transfer of raw token units between two token accounts. *)
Inductive MoveKind := MLock | MRelease | MRefund.
#[global] Instance MoveKind_eq_dec : EqDecision MoveKind.
Proof. solve_decision. Defined.

Record TokenMove := {
  mv_kind : MoveKind;
  mv_signer : string;
  mv_from : string;
  mv_to : string;
  mv_mint : string;
  mv_amount : Z;
  mv_decimals : Z;
}.

(** The arguments of [execute_atomic_settlement], the authority included. *)
Record AtomicSwapCall := {
  as_authority : string; as_market : string; as_buy_order : string; as_sell_order : string;
  as_buyer_currency_escrow : string; as_seller_energy_escrow : string;
  as_seller_currency_account : string; as_buyer_energy_account : string;
  as_fee_collector : string; as_wheeling_collector : string;
  as_energy_mint : string; as_currency_mint : string;
  as_amount : Z; as_price : Z; as_wheeling : Z;
}.

(** The calls of the on-chain part of the clearing service, with the account an ensured wallet
    has, and the address of an authority. *)
Inductive OnEvent :=
| OAuthority (answer : option string)
| OEnsure (wallet mint : string) (answer : option string)
| OMove (m : TokenMove) (ok : bool)
| OOrder (payer market : string) (amount price : Z) (side : string) (ok : bool)
| OSwap (c : AtomicSwapCall) (ok : bool).

Inductive Event :=
| EvOnChain (e : OnEvent)
| EvChain (c : ChainCall) (succeeded : bool)
| EvOrderUpdate (order user : Uuid) (side status : string)
    (original filled_ remaining price : Decimal)
| EvOrderCreated (order user : Uuid) (amount price : Decimal) (source : option string)
| EvAuditOrderCreated (user order : Uuid) (side : OrderSide) (amount price : Decimal)
| EvOrderMatched (buy sell match_ : Uuid) (amount price : Decimal)
| EvTradeExecuted (settlement buy sell buyer seller : Uuid) (amount price total : Decimal)
| EvSettlementComplete (settlement buyer seller : Uuid) (amount total : Decimal) (sig : string)
| EvNotify (settlement user : Uuid)
| EvIssueRec (settlement seller : Uuid) (kwh : Decimal)
| EvSimulator (buyer_zone seller_zone : Z) (amount price : Decimal)
| EvMeterAlert (meter_id alert_type : string) (value threshold : spec_float)
| EvMeterReading (user : Uuid) (wallet serial : string) (kwh : spec_float)
    (power voltage current : option spec_float)
| EvTokensMinted (wallet serial : string) (kwh : spec_float) (tokens : Z) (sig : string)
| EvMail (template to token username : string) (sent : bool)
| EvNotificationMail (to username title message : string) (sent : bool)
| EvBroadcast (user notification : Uuid)
| EvWebhook (event signature : string) (slot : Z) (block_time : option Z) (delivered : bool)
| EvGridStatus (generation consumption balance : spec_float) (active_meters : Z)
    (co2_saved : spec_float).

(** [std::env::var], the text of [sqlx::Error], and [Decimal::from_str]. *)
Class Env := {
  env_var : string -> option string;
  db_error_text : string;
  decimal_from_str : string -> option Decimal;
}.

(** The chain as the services see it: what a call answers may depend on
    everything done before. [Ok s]: the signature (or other text) it returns;
    [Err m]: the error's text.  [token_balance] is [get_token_balance] and
    [parse_pubkey] says whether [Pubkey::from_str] accepts the text. *)
Class Chain := {
  chain_answer : list Event -> ChainCall -> res string string;
  token_balance : list Event -> string -> string -> res string Z;
  parse_pubkey : string -> bool;
}.

Definition chain_call `{Chain} {S : Type} (c : ChainCall) : M S Event string := fun w =>
  match chain_answer (trace w) c with
  | Ok s => (Ok s, World (st w) (faults w) (trace w ++ [EvChain c true]))
  | Err m => (Err (FMsg m), World (st w) (faults w) (trace w ++ [EvChain c false]))
  end.

Definition get_token_balance `{Chain} {S : Type} (wallet mint : string) : M S Event Z := fun w =>
  match token_balance (trace w) wallet mint with
  | Ok z => (Ok z, w)
  | Err m => (Err (FMsg m), w)
  end.

Lemma chain_call_st `{Chain} {S} c (w : world S Event) : st (snd (chain_call c w)) = st w.
Proof. unfold chain_call. by destruct (chain_answer _ _). Qed.

Lemma preserves_chain_call `{Chain} {S} (I : S -> Prop) c : preserves I (chain_call c).
Proof. intros w Hw. by rewrite chain_call_st. Qed.

Lemma preserves_token_balance `{Chain} {S} (I : S -> Prop) a b :
  preserves I (get_token_balance a b).
Proof. intros w Hw. unfold get_token_balance. by destruct (token_balance _ _ _). Qed.

Lemma no_panic_chain_call `{Chain} {S} c : no_panic (S := S) (chain_call c).
Proof. intros w. unfold chain_call. by destruct (chain_answer _ _). Qed.

(** A call as a value. *)
Lemma chain_attempt `{Chain} {S} c (w : world S Event) :
  exists r ok, attempt (chain_call c) w
      = (Ok r, World (st w) (faults w) (trace w ++ [EvChain c ok])%list) /\ ok = is_ok r.
Proof.
  unfold attempt, chain_call. destruct (chain_answer (trace w) c) as [s|m].
  - by exists (Ok s), true.
  - by exists (Err (FMsg m)), false.
Qed.

#[export] Hint Resolve no_panic_chain_call : gateway.
#[export] Hint Resolve preserves_chain_call preserves_token_balance : gateway.
