(* ===== verification/GridTopology.v ===== *)
(** Transmission costs between grid zones: [src/services/grid_topology.rs].

    Wheeling charge and loss factor of a pair of zones, from the cache loaded from
    the [zone_rates] table or from the built-in distance formulas.  Zone ids are
    [i32], and the distance is computed at that width.  The loss formula computes
    in [f64] (the file [Floats]) before it converts; the conversion is a parameter. *)
From S2P Require Import Prelude Numerics Floats Errors.

Open Scope Z_scope.

(** ** From [f64] to [Decimal] *)

(** [x] is within [4 * 10^-16], relatively, of the decimal [m * 10^-s]. *)
Definition sf_near (x : spec_float) (m s : Z) : bool :=
  match x with
  | S754_finite false mx ex =>
      let p := 2 ^ (Z.max 0 (- ex)) in
      let v := Z.pos mx * 2 ^ (Z.max 0 ex) in
      Z.abs (v * 10 ^ s - m * p) * 10 ^ 16 <=? 4 * m * p
  | _ => false
  end.

(** [Decimal::from_f64(x).expect(..)]: the crate keeps 15 significant digits, so a
    double next to a short decimal converts to that decimal. *)
Class DecimalFromF64 := {
  from_f64 : spec_float -> Decimal;
  from_f64_near x m s :
    0 < m < 10 ^ 6 -> 0 <= s <= 6 -> sf_near x m s = true -> from_f64 x = dec m s;
}.

(** ** The service *)

Record ZoneRate := {
  from_zone_id : Z;
  to_zone_id : Z;
  wheeling_charge : Decimal;
  loss_factor : Decimal;
}.

(** A row of [zone_rates]. *)
Record ZoneRateRow := {
  zr_rate : ZoneRate;
  zr_is_active : bool;
  zr_effective_from : Z;
  zr_effective_until : option Z;
}.

Record GridTopologyService := {
  rates_cache : gmap (Z * Z) ZoneRate;
  pool : bool;
  last_refresh : option Z;
}.

Definition new_topology : GridTopologyService :=
  {| rates_cache := ∅; pool := false; last_refresh := None |}.
Definition with_pool : GridTopologyService :=
  {| rates_cache := ∅; pool := true; last_refresh := None |}.

(** The rows the query of [load_rates] selects. *)
Definition selected_rates (now : Z) (rows : list ZoneRateRow) : list ZoneRate :=
  zr_rate <$> List.filter (fun r =>
    zr_is_active r
    && match zr_effective_until r with None => true | Some u => now <? u end
    && (zr_effective_from r <=? now)) rows.

(** [db]: the table, or the error of the query. *)
Definition load_rates (db : res failure (list ZoneRateRow)) (now : Z)
    (g : GridTopologyService) : res failure nat * GridTopologyService :=
  if negb (pool g) then (Ok 0%nat, g)
  else match db with
       | Err e => (Err e, g)
       | Ok rows =>
           let rates := selected_rates now rows in
           (Ok (length rates),
            {| rates_cache := foldl (fun c r => <[(from_zone_id r, to_zone_id r) := r]> c) ∅ rates;
               pool := pool g; last_refresh := Some now |})
       end.

Definition cache_age_secs (now : Z) (g : GridTopologyService) : option Z :=
  (fun t => (now - t) / 1000000000) <$> last_refresh g.

Definition get_rate (g : GridTopologyService) (from_zone to_zone : Z) : option ZoneRate :=
  rates_cache g !! (from_zone, to_zone).

(** [(mz - bz).abs()] on [i32]. *)
Definition zone_distance (mz bz : Z) : Z := wrap_i32 (Z.abs (wrap_i32 (mz - bz))).

Section costs.
Context `{NUM : Numerics} `{F64 : DecimalFromF64}.

Definition calculate_wheeling_charge_default (from_zone to_zone : option Z) : Decimal :=
  match from_zone, to_zone with
  | Some mz, Some bz =>
      if mz =? bz then from_f64 (f64_lit 50 100)
      else
        let distance := zone_distance mz bz in
        if distance =? 1 then from_f64 (f64_lit 100 100)
        else dadd (from_f64 (f64_lit 150 100))
                  (dmul (dec distance 0) (from_f64 (f64_lit 1 10)))
  | _, _ => from_f64 (f64_lit 200 100)
  end.

Definition calculate_loss_factor_default (from_zone to_zone : option Z) : Decimal :=
  match from_zone, to_zone with
  | Some mz, Some bz =>
      if mz =? bz then from_f64 (f64_lit 1 100)
      else
        let distance := zone_distance mz bz in
        if distance =? 1 then from_f64 (f64_lit 3 100)
        else
          let loss := f64_add (f64_lit 3 100) (f64_mul (f64_of_Z distance) (f64_lit 1 100)) in
          from_f64 (f64_min loss (f64_lit 15 100))
  | _, _ => from_f64 (f64_lit 5 100)
  end.

(** What the matching engine charges a trade: the built-in formulas; the cached rates are read by the
    asynchronous variants only. *)
Definition calculate_wheeling_charge := calculate_wheeling_charge_default.
Definition calculate_loss_factor := calculate_loss_factor_default.

Definition calculate_wheeling_charge_async (g : GridTopologyService)
    (from_zone to_zone : option Z) : Decimal :=
  match from_zone, to_zone with
  | Some fz, Some tz =>
      match get_rate g fz tz with
      | Some rate => wheeling_charge rate
      | None => calculate_wheeling_charge_default from_zone to_zone
      end
  | _, _ => calculate_wheeling_charge_default from_zone to_zone
  end.

Definition calculate_loss_factor_async (g : GridTopologyService)
    (from_zone to_zone : option Z) : Decimal :=
  match from_zone, to_zone with
  | Some fz, Some tz =>
      match get_rate g fz tz with
      | Some rate => loss_factor rate
      | None => calculate_loss_factor_default from_zone to_zone
      end
  | _, _ => calculate_loss_factor_default from_zone to_zone
  end.

Definition calculate_loss_cost (energy_amount price lf : Decimal) : Decimal :=
  dmul (dmul energy_amount price) lf.
End costs.

(** ** A concrete conversion: round to six decimals *)

Definition round_f64 (x : spec_float) : Decimal :=
  match x with
  | S754_finite sg mx ex =>
      let p := 2 ^ (Z.max 0 (- ex)) in
      let v := Z.pos mx * 2 ^ (Z.max 0 ex) in
      (if sg then -1 else 1) * ((2 * v * 10 ^ 6 + p) / (2 * p)) * 10 ^ 22
  | _ => 0
  end.

Lemma round_f64_near x m s :
  0 < m < 10 ^ 6 -> 0 <= s <= 6 -> sf_near x m s = true -> round_f64 x = dec m s.
Proof.
  intros Hm Hs. unfold sf_near, round_f64, dec.
  destruct x as [| | |[] mx ex]; try discriminate. intros H%Z.leb_le.
  set (p := 2 ^ Z.max 0 (- ex)) in *. set (v := Z.pos mx * 2 ^ Z.max 0 ex) in *.
  assert (Hp : 0 < p) by (apply Z.pow_pos_nonneg; lia). clearbody p v.
  rewrite Z.mul_1_l. replace (28 - s) with ((6 - s) + 22) by lia.
  rewrite Z.pow_add_r, Z.mul_assoc by lia. f_equal.
  symmetry. apply Z.div_unique with (2 * v * 10 ^ 6 + p - 2 * p * (m * 10 ^ (6 - s))); [|lia].
  left. assert (He : 10 ^ 6 = 10 ^ s * 10 ^ (6 - s))
    by (rewrite <- Z.pow_add_r by lia; f_equal; lia).
  set (k := 10 ^ (6 - s)) in *. assert (0 < k) by (apply Z.pow_pos_nonneg; lia).
  assert (0 < 10 ^ s) by (apply Z.pow_pos_nonneg; lia).
  assert (Hk : k <= 10 ^ 6) by nia.
  assert (Hd : Z.abs (v * 10 ^ s - m * p) * 10 ^ 16 < 4 * 10 ^ 6 * p) by nia.
  replace (2 * v * 10 ^ 6 + p - 2 * p * (m * k))
    with (2 * k * (v * 10 ^ s - m * p) + p) by (rewrite He; ring).
  assert (Z.abs (v * 10 ^ s - m * p) * k * 10 ^ 4 < 4 * p) by nia.
  nia.
Qed.

Definition std_from_f64 : DecimalFromF64 :=
  {| from_f64 := round_f64; from_f64_near := round_f64_near |}.

(** ** Properties *)

Lemma zone_distance_exact mz bz :
  Z.abs (mz - bz) <= i32_max -> zone_distance mz bz = Z.abs (mz - bz).
Proof.
  unfold zone_distance, i32_max. intros H.
  rewrite (wrap_i32_id (mz - bz)) by (unfold i32_min, i32_max; lia).
  apply wrap_i32_id. unfold i32_min, i32_max. lia.
Qed.

Section props.
Context `{NUM : Numerics} `{F64 : DecimalFromF64}.

Lemma from_f64_lit m s n d :
  0 < m < 10 ^ 6 -> 0 <= s <= 6 -> sf_near (f64_lit n d) m s = true ->
  from_f64 (f64_lit n d) = dec m s.
Proof. apply from_f64_near. Qed.

(** The long-distance charge is computed exactly. *)
Lemma far_charge_exact d :
  0 <= d <= i32_max ->
  dadd (dec 15 1) (dmul (dec d 0) (dec 1 1)) = dec (15 + d) 1.
Proof.
  intros Hd. unfold i32_max in *.
  assert (Hg : forall m, on_grid 1 (dec m 1)) by (intros; exists m; reflexivity).
  assert (Hr : forall m, 0 <= m <= 10 ^ 12 -> repr (dec m 1)).
  { intros m Hm. apply (repr_grid 1); [lia|apply Hg|].
    unfold dec. rewrite Z.abs_eq by nia.
    apply Z.mul_lt_mono_pos_r; [reflexivity|]. eapply Z.le_lt_trans; [apply Hm|reflexivity]. }
  rewrite (dmul_exact (dec d 0) (dec 1 1) (dec d 1)).
  - rewrite dadd_exact; [unfold dec; ring|].
    replace (dec 15 1 + dec d 1) with (dec (15 + d) 1) by (unfold dec; ring).
    apply Hr. lia.
  - unfold dec, U. change (10 ^ (28 - 0)) with 10000000000000000000000000000.
    change (10 ^ (28 - 1)) with 1000000000000000000000000000. ring.
  - apply Hr. lia.
Qed.

(** Between zones [d] apart the built-in wheeling charge is 0.50 when [d = 0],
    1.00 when [d = 1] and [1.50 + 0.1 * d] beyond; in particular it depends on the
    distance only and grows with it.  (Zone ids whose difference fits an [i32].) *)
Theorem wheeling_default_spec (a b : Z) :
  let d := Z.abs (a - b) in
  d <= i32_max ->
  calculate_wheeling_charge (Some a) (Some b)
  = dec (if d =? 0 then 5 else if d =? 1 then 10 else 15 + d) 1.
Proof.
  intros d Hd. unfold calculate_wheeling_charge, calculate_wheeling_charge_default.
  rewrite zone_distance_exact by exact Hd. fold d.
  destruct (a =? b) eqn:Eab; to_prop.
  - replace (d =? 0) with true by (symmetry; apply Z.eqb_eq; lia).
    rewrite (from_f64_lit 5 1) by first [lia | reflexivity]. reflexivity.
  - replace (d =? 0) with false by (symmetry; apply Z.eqb_neq; lia).
    destruct (d =? 1) eqn:E1.
    + rewrite (from_f64_lit 10 1) by first [lia | reflexivity]. reflexivity.
    + rewrite (from_f64_lit 15 1), (from_f64_lit 1 1) by first [lia | reflexivity].
      apply far_charge_exact. unfold d in *. lia.
Qed.

(** The capped [f64] sum is next to the two-decimal value, checked at every
    distance up to 1000. *)
Lemma loss_near d :
  2 <= d <= 1000 ->
  sf_near (f64_min (f64_add (f64_lit 3 100) (f64_mul (f64_of_Z d) (f64_lit 1 100)))
             (f64_lit 15 100)) (Z.min (3 + d) 15) 2 = true.
Proof.
  intros Hd.
  assert (H : forallb (fun n => let d := Z.of_nat n in
     sf_near (f64_min (f64_add (f64_lit 3 100) (f64_mul (f64_of_Z d) (f64_lit 1 100)))
             (f64_lit 15 100)) (Z.min (3 + d) 15) 2) (List.seq 2 999) = true)
    by (vm_compute; reflexivity).
  rewrite forallb_forall in H. specialize (H (Z.to_nat d)).
  rewrite Z2Nat.id in H by lia. apply H. apply in_seq. lia.
Qed.

(** Between zones [d <= 1000] apart the built-in loss factor is 1% when
    [d = 0], 3% when [d = 1] and [(3 + d)%] capped at 15% beyond: the binary
    floating-point detour of the formula is invisible in the result. *)
Theorem loss_default_spec (a b : Z) :
  let d := Z.abs (a - b) in
  d <= 1000 ->
  calculate_loss_factor (Some a) (Some b)
  = dec (if d =? 0 then 1 else if d =? 1 then 3 else Z.min (3 + d) 15) 2.
Proof.
  intros d Hd. unfold calculate_loss_factor, calculate_loss_factor_default.
  rewrite zone_distance_exact by (unfold i32_max; unfold d in Hd; lia). fold d.
  destruct (a =? b) eqn:Eab; to_prop.
  - replace (d =? 0) with true by (symmetry; apply Z.eqb_eq; lia).
    rewrite (from_f64_lit 1 2) by first [lia | reflexivity]. reflexivity.
  - replace (d =? 0) with false by (symmetry; apply Z.eqb_neq; lia).
    destruct (d =? 1) eqn:E1; to_prop.
    + rewrite (from_f64_lit 3 2) by first [lia | reflexivity]. reflexivity.
    + apply from_f64_near; [lia|lia|]. apply loss_near. unfold d in *. lia.
Qed.

(** What the cache holds for a pair of zones: the last selected row for it. *)
Definition last_rate (f t : Z) (rates : list ZoneRate) : option ZoneRate :=
  list.last (List.filter (fun r => (from_zone_id r =? f) && (to_zone_id r =? t)) rates).

Lemma cache_fold (f t : Z) (rates : list ZoneRate) (c : gmap (Z * Z) ZoneRate) :
  foldl (fun c r => <[(from_zone_id r, to_zone_id r) := r]> c) c rates !! (f, t)
  = match last_rate f t rates with Some r => Some r | None => c !! (f, t) end.
Proof.
  unfold last_rate. revert c. induction rates as [|r rates IH] using rev_ind; intros c; [done|].
  rewrite foldl_app, List.filter_app. simpl.
  destruct ((from_zone_id r =? f) && (to_zone_id r =? t)) eqn:E.
  - to_prop. subst. rewrite list.last_snoc. by rewrite lookup_insert_eq.
  - rewrite app_nil_r, lookup_insert_ne; [apply IH|].
    intros [= H1 H2]. by rewrite H1, H2, !Z.eqb_refl in E.
Qed.

(** After a successful refresh the asynchronous functions, which nothing calls, answer for every
    pair of zones with the last currently effective row for that pair, and with the built-in
    formula when there is none; a failed refresh leaves the service as it was. *)
Theorem load_rates_spec (db : res failure (list ZoneRateRow)) (now : Z)
    (g : GridTopologyService) (f t : Z) :
  pool g = true ->
  match load_rates db now g with
  | (Ok n, g') =>
      exists rows, db = Ok rows /\ n = length (selected_rates now rows)
        /\ last_refresh g' = Some now
        /\ calculate_wheeling_charge_async g' (Some f) (Some t)
           = match last_rate f t (selected_rates now rows) with
             | Some r => wheeling_charge r
             | None => calculate_wheeling_charge (Some f) (Some t)
             end
        /\ calculate_loss_factor_async g' (Some f) (Some t)
           = match last_rate f t (selected_rates now rows) with
             | Some r => loss_factor r
             | None => calculate_loss_factor (Some f) (Some t)
             end
  | (Err e, g') => db = Err e /\ g' = g
  end.
Proof.
  intros Hp. unfold load_rates. rewrite Hp. simpl. destruct db as [rows|e]; [|done].
  exists rows. unfold calculate_wheeling_charge_async, calculate_loss_factor_async, get_rate.
  simpl. rewrite cache_fold, lookup_empty. by destruct (last_rate _ _ _).
Qed.
End props.

(** Zones 3 and 7: 1.90 per kWh and 7% losses. *)
Lemma wheeling_default_spec_witness :
  Z.abs (3 - 7) <= i32_max
  /\ @calculate_wheeling_charge std_numerics std_from_f64 (Some 3) (Some 7) = dec 19 1.
Proof. split; [vm_compute; discriminate|]. apply (@wheeling_default_spec std_numerics std_from_f64 3 7). vm_compute. discriminate. Defined.

Lemma loss_default_spec_witness :
  Z.abs (3 - 7) <= 1000
  /\ @calculate_loss_factor std_from_f64 (Some 3) (Some 7) = dec 7 2.
Proof. split; [vm_compute; discriminate|]. apply (@loss_default_spec std_from_f64 3 7). vm_compute. discriminate. Defined.

Lemma load_rates_spec_witness :
  pool with_pool = true
  /\ exists rows, @Ok failure _ ([] : list ZoneRateRow) = Ok rows.
Proof.
  split; [reflexivity|].
  pose proof (@load_rates_spec std_numerics std_from_f64 (Ok []) 5 with_pool 1 2 eq_refl) as H.
  simpl in H. destruct H as (rows & H & _). exists rows. exact H.
Defined.
