(* ===== verification/Escrow.v ===== *)
(** Escrow of funds and energy: [src/services/market_clearing/escrow.rs].

    Each method is one database transaction over the [users] row of the caller
    and the [escrow_records] ledger. *)
From S2P Require Import Prelude Numerics Errors Store Schema.

Open Scope string_scope.
Open Scope Z_scope.

Abbreviation TM := (M Db Event).

(** ** The operations *)
Section escrow.
Context `{NUM : Numerics}.

Definition lock_funds (user_id order_id : Uuid) (amount : Decimal) : TM unit :=
  with_tx (
    row ← query (fun d => users d !! user_id);
    user ← expect FDb row;
    if default 0 (u_balance user) <? amount
    then fail (FMsg "Insufficient balance for escrow")
    else
      exec (update_user user_id (add_balance_locked (- amount) amount)) ;;
      exec (insert_escrow user_id order_id amount "currency" "buy_lock"
              ("Buy order " +:+ uuid_to_string order_id +:+ " escrow"))).

Definition lock_energy (user_id order_id : Uuid) (amount : Decimal) : TM unit :=
  with_tx (
    exec (update_user user_id (add_locked_energy amount)) ;;
    exec (insert_escrow user_id order_id amount "energy" "sell_lock"
            ("Sell order " +:+ uuid_to_string order_id +:+ " energy lock"))).

(** [WHERE user_id = $2 AND order_id = $3 AND asset_type = asset]. *)
Definition escrow_of (user_id order_id : Uuid) (asset : string) (r : EscrowRecord) : bool :=
  (er_user_id r =? user_id)%N && bool_decide (er_order_id r = Some order_id)
  && (er_asset_type r =? asset)%string.

Definition unlock_funds (user_id order_id : Uuid) (amount : Decimal) (reason : string)
    : TM unit :=
  with_tx (
    exec (update_user user_id (add_balance_locked amount (- amount))) ;;
    exec (release_escrow (escrow_of user_id order_id "currency")
            (Some ("Unlock: " +:+ reason)))).

Definition unlock_energy (user_id order_id : Uuid) (amount : Decimal) (reason : string)
    : TM unit :=
  with_tx (
    exec (update_user user_id (add_locked_energy (- amount))) ;;
    exec (release_escrow (escrow_of user_id order_id "energy")
            (Some ("Unlock: " +:+ reason)))).
End escrow.

(** ** Well-formed accounts *)

Definition col_wf (c : option Decimal) : Prop :=
  match c with None => True | Some v => (G8 | v) end.

(** Every amount held in [users] has at most eight decimals. *)
Definition user_wf (u : User) : Prop :=
  col_wf (u_balance u) /\ col_wf (u_locked_amount u) /\ col_wf (u_locked_energy u).

Definition accounts_wf (d : Db) : Prop := map_Forall (fun _ => user_wf) (users d).

(** The columns escrow has nothing to do with. *)
Definition user_keys (u : User) :=
  (u_wallet_address u, u_encrypted_private_key u, u_wallet_salt u, u_encryption_iv u).

(** The currency a user owns: free and locked. *)
Definition holdings (u : User) : Z :=
  default 0 (u_balance u) + default 0 (u_locked_amount u).

Definition account (d : Db) (id : Uuid) : Z :=
  match users d !! id with Some u => holdings u | None => 0 end.

Section lemmas.
Context `{NUM : Numerics}.

Lemma col_add_wf c a c' : col_add c a = Some c' -> col_wf c -> col_wf c'.
Proof.
  destruct c as [v|]; simpl; [|intros; by simplify_eq].
  destruct (num8 (v + a)) eqn:E; simpl; intros; simplify_eq/=.
  by eapply num8_on_grid.
Qed.

Lemma add_balance_locked_wf db dl u u' :
  add_balance_locked db dl u = Some u' -> user_wf u -> user_wf u'.
Proof.
  unfold add_balance_locked, user_wf. intros H (?&?&?).
  destruct (col_add (u_balance u) db) eqn:E1; simplify_eq/=.
  destruct (col_add (u_locked_amount u) dl) eqn:E2; simplify_eq/=.
  eauto using col_add_wf.
Qed.

Lemma add_locked_energy_wf de u u' :
  add_locked_energy de u = Some u' -> user_wf u -> user_wf u'.
Proof.
  unfold add_locked_energy, user_wf. intros H (?&?&?).
  destruct (col_add (u_locked_energy u) de) eqn:E1; simplify_eq/=.
  eauto using col_add_wf.
Qed.

Lemma add_balance_wf db u u' : add_balance db u = Some u' -> user_wf u -> user_wf u'.
Proof.
  unfold add_balance, user_wf. intros H (?&?&?).
  destruct (col_add (u_balance u) db) eqn:E1; simplify_eq/=.
  eauto using col_add_wf.
Qed.

Lemma add_locked_wf dl u u' : add_locked dl u = Some u' -> user_wf u -> user_wf u'.
Proof.
  unfold add_locked, user_wf. intros H (?&?&?).
  destruct (col_add (u_locked_amount u) dl) eqn:E1; simplify_eq/=.
  eauto using col_add_wf.
Qed.

Lemma update_user_wf id f d d' :
  (forall u u', f u = Some u' -> user_wf u -> user_wf u') ->
  update_user id f d = Some d' -> accounts_wf d -> accounts_wf d'.
Proof.
  unfold update_user, accounts_wf. intros Hf.
  destruct (users d !! id) as [u|] eqn:Hu; [|intros; by simplify_eq].
  destruct (f u) as [u'|] eqn:Hfu; intros H Hd; simplify_eq/=.
  apply map_Forall_insert_2; [|done]. eapply Hf; [done|]. by eapply Hd.
Qed.

Lemma insert_escrow_users a b c e f g d d' :
  insert_escrow a b c e f g d = Some d' -> users d' = users d /\ orders d' = orders d.
Proof. unfold insert_escrow. intros. by repeat case_match; simplify_eq/=. Qed.

Lemma release_escrow_users p s d d' :
  release_escrow p s d = Some d' -> users d' = users d.
Proof. unfold release_escrow. by intros; simplify_eq/=. Qed.

Lemma insert_escrow_wf a b c e f g d d' :
  insert_escrow a b c e f g d = Some d' -> accounts_wf d -> accounts_wf d'.
Proof. intros [H _]%insert_escrow_users. unfold accounts_wf. by rewrite H. Qed.

Lemma release_escrow_wf p s d d' :
  release_escrow p s d = Some d' -> accounts_wf d -> accounts_wf d'.
Proof. intros H%release_escrow_users. unfold accounts_wf. by rewrite H. Qed.

(** Storing [v + a] into a column moves it by [a], up to half a step; exactly
    [a] when [a] has at most eight decimals. *)
Lemma col_add_near v a c' :
  col_add (Some v) a = Some c' ->
  exists r, c' = Some r /\ 2 * Z.abs (r - (v + a)) <= G8 /\ ((G8 | v) -> (G8 | a) -> r = v + a).
Proof.
  simpl. destruct (num8 (v + a)) as [r|] eqn:E; simpl; intros; simplify_eq.
  exists r. split; [done|]. split; [by apply (num8_stored _ _ E)|].
  intros Hv Ha. eapply num8_id; [by apply Z.divide_add_r|done].
Qed.

(** Moving [a] between the two currency columns of an account changes what the
    account holds by at most one step, and not at all when [a] is on the grid. *)
Lemma add_balance_locked_holdings b l a u u' :
  u_balance u = Some b -> u_locked_amount u = Some l -> user_wf u ->
  add_balance_locked (- a) a u = Some u' ->
  Z.abs (holdings u' - holdings u) <= G8
  /\ ((G8 | a) -> holdings u' = holdings u
      /\ u_balance u' = Some (b - a) /\ u_locked_amount u' = Some (l + a)).
Proof.
  intros Hb Hl (Wb & Wl & _) H. unfold add_balance_locked in H.
  rewrite Hb, Hl in *. simpl in Wb, Wl.
  destruct (col_add (Some b) (- a)) as [c1|] eqn:E1; [|discriminate].
  destruct (col_add (Some l) a) as [c2|] eqn:E2; [|discriminate].
  injection H as <-.
  apply col_add_near in E1 as (r1 & -> & N1 & X1).
  apply col_add_near in E2 as (r2 & -> & N2 & X2).
  unfold holdings. simpl. rewrite Hb, Hl. simpl. unfold id. split.
  - unfold G8 in *. lia.
  - intros Ha. rewrite X1, X2; auto; [split; [lia|split; f_equal; lia]|].
    by apply Z.divide_opp_r.
Qed.

Lemma add_balance_locked_frame db dl u u' :
  add_balance_locked db dl u = Some u' ->
  u_locked_energy u' = u_locked_energy u /\ user_keys u' = user_keys u.
Proof.
  unfold add_balance_locked. intros H.
  destruct (col_add (u_balance u) db); [|discriminate].
  destruct (col_add (u_locked_amount u) dl); [|discriminate].
  injection H as <-. done.
Qed.

(** Moving an amount with at most eight decimals out and back restores the row. *)
Lemma add_balance_locked_inverse b l a u u' u2 :
  u_balance u = Some b -> u_locked_amount u = Some l -> user_wf u -> (G8 | a) ->
  add_balance_locked (- a) a u = Some u' -> add_balance_locked a (- a) u' = Some u2 -> u2 = u.
Proof.
  intros Hb Hl Wu Ha Hf Hf2.
  destruct (add_balance_locked_holdings b l a u u' Hb Hl Wu Hf) as [_ X].
  destruct (X Ha) as (_ & Hb' & Hl').
  assert (Wu' : user_wf u') by (by eapply add_balance_locked_wf).
  rewrite <- (Z.opp_involutive a) in Hf2 at 1.
  destruct (add_balance_locked_holdings _ _ _ u' u2 Hb' Hl' Wu' Hf2) as [_ Y].
  destruct (Y ltac:(by apply Z.divide_opp_r)) as (_ & Hb2 & Hl2).
  apply add_balance_locked_frame in Hf as [He Hw], Hf2 as [He2 Hw2].
  unfold user_keys in *. destruct u, u2; simpl in *. simplify_eq. f_equal; f_equal; lia.
Qed.

(** What [lock_funds] did when it returned [Ok]. *)
Lemma lock_funds_Ok user_id order_id amount w w' :
  lock_funds user_id order_id amount w = (Ok tt, w') ->
  exists u u', users (st w) !! user_id = Some u
    /\ amount <= default 0 (u_balance u)
    /\ add_balance_locked (- amount) amount u = Some u'
    /\ users (st w') = <[user_id := u']> (users (st w))
    /\ orders (st w') = orders (st w).
Proof.
  unfold lock_funds. intros H. run_steps.
  match goal with H : users _ !! user_id = Some ?u |- _ => rename H into Hu; rename u into u0 end.
  destruct (default 0 (u_balance u0) <? amount) eqn:Eb; run_steps. to_prop.
  match goal with H : update_user _ _ _ = Some _ |- _ => rename H into Hup end.
  match goal with H : insert_escrow _ _ _ _ _ _ _ = Some _ |- _ => rename H into Hins end.
  apply insert_escrow_users in Hins as [Hiu Hio].
  norm_st. eapply update_user_lookup in Hup as (u' & Hf & Hd); [|exact Hu].
  rewrite Hd in *. exists u0, u'. auto.
Qed.
End lemmas.

(** ** Sequences of requests *)

Definition currency_nonnull (u : User) : Prop :=
  is_Some (u_balance u) /\ is_Some (u_locked_amount u).

(** The requests a client of the escrow service can issue. *)
Inductive escrow_op :=
| OpLockFunds (user order : Uuid) (amount : Decimal)
| OpLockEnergy (user order : Uuid) (amount : Decimal)
| OpUnlockFunds (user order : Uuid) (amount : Decimal) (reason : string)
| OpUnlockEnergy (user order : Uuid) (amount : Decimal) (reason : string).

Definition run_op `{Numerics} (o : escrow_op) : TM unit :=
  match o with
  | OpLockFunds u i a => lock_funds u i a
  | OpLockEnergy u i a => lock_energy u i a
  | OpUnlockFunds u i a r => unlock_funds u i a r
  | OpUnlockEnergy u i a r => unlock_energy u i a r
  end.

(** One request after another; the first component lists the ones answered with [Ok]. *)
Fixpoint run_ops `{Numerics} (ops : list escrow_op) (w : world Db Event)
    : list escrow_op * world Db Event :=
  match ops with
  | [] => ([], w)
  | o :: ops =>
      let '(r, w1) := run_op o w in
      let '(done, w2) := run_ops ops w1 in
      ((if is_ok r then [o] else []) ++ done, w2)
  end%list.

(** What a request adds to the locked currency, or the locked energy, of user [id]. *)
Definition currency_of (id : Uuid) (o : escrow_op) : option Decimal :=
  match o with
  | OpLockFunds u _ a => if (u =? id)%N then Some a else None
  | OpUnlockFunds u _ a _ => if (u =? id)%N then Some (- a) else None
  | _ => None
  end.
Definition energy_of (id : Uuid) (o : escrow_op) : option Decimal :=
  match o with
  | OpLockEnergy u _ a => if (u =? id)%N then Some a else None
  | OpUnlockEnergy u _ a _ => if (u =? id)%N then Some (- a) else None
  | _ => None
  end.

(** A column after the deltas [l] were added to it one by one: it has moved by their sum, up to
    half a step of the column for each, and exactly if all have at most eight decimals; NULL stays
    NULL. *)
Definition drifted (l : list Decimal) (c c' : option Decimal) : Prop :=
  match c with
  | None => c' = None
  | Some v => exists v', c' = Some v'
      /\ 2 * Z.abs (v' - (v + sumZ id l)) <= Z.of_nat (length l) * G8
      /\ ((G8 | v) -> (G8 | v') /\ (Forall (fun a => (G8 | a)) l -> v' = v + sumZ id l))
  end.

(** How the account of user [id] has changed after the requests in [done] were answered. *)
Definition account_drifted (id : Uuid) (done : list escrow_op) (u u' : User) : Prop :=
  drifted (Z.opp <$> omap (currency_of id) done) (u_balance u) (u_balance u')
  /\ drifted (omap (currency_of id) done) (u_locked_amount u) (u_locked_amount u')
  /\ drifted (omap (energy_of id) done) (u_locked_energy u) (u_locked_energy u')
  /\ user_keys u' = user_keys u.

Section sequences.
Context `{NUM : Numerics}.

Lemma sumZ_id_app l l' : sumZ id (l ++ l')%list = sumZ id l + sumZ id l'.
Proof. apply sumZ_app. Qed.

Lemma drifted_refl c : drifted [] c c.
Proof.
  destruct c as [v|]; [|done]. exists v. simpl. rewrite Z.add_0_r, Z.sub_diag.
  split_and!; [done..|]. auto.
Qed.

Lemma drifted_add a c c' : col_add c a = Some c' -> drifted [a] c c'.
Proof.
  destruct c as [v|]; [|by intros [= <-]]. intros H. pose proof (col_add_wf _ _ _ H) as W.
  apply col_add_near in H as (r & -> & N & X). exists r. simpl. rewrite Z.add_0_r.
  split_and!; [done|unfold id; lia|]. intros Hv. split; [by apply W|].
  intros Ha. apply X; [done|]. by apply list.Forall_cons in Ha as [? _].
Qed.

Lemma drifted_trans l l' c c1 c2 : drifted l c c1 -> drifted l' c1 c2 -> drifted (l ++ l')%list c c2.
Proof.
  destruct c as [v|]; simpl; [|by intros ->]. intros (v1 & -> & N1 & X1) (v2 & -> & N2 & X2).
  exists v2. rewrite sumZ_id_app, length_app. split_and!; [done|lia|].
  intros Hv. destruct (X1 Hv) as [G1 E1]. destruct (X2 G1) as [G2 E2]. split; [done|].
  intros [H1 H2]%Forall_app. rewrite E2, E1 by done. lia.
Qed.

Lemma account_drifted_refl id u : account_drifted id [] u u.
Proof. split_and!; simpl; auto using drifted_refl. Qed.

Lemma account_drifted_trans id done done' u u1 u2 :
  account_drifted id done u u1 -> account_drifted id done' u1 u2 ->
  account_drifted id (done ++ done')%list u u2.
Proof.
  intros (B & L & E & K) (B' & L' & E' & K'). unfold account_drifted.
  rewrite !omap_app, fmap_app. split_and!; eauto using drifted_trans. congruence.
Qed.

(** Every account after the requests in [done]; there are no other accounts. *)
Definition accounts_drifted (done : list escrow_op) (d d' : Db) : Prop := forall id,
  match users d !! id with
  | None => users d' !! id = None
  | Some u => exists u', users d' !! id = Some u' /\ account_drifted id done u u'
  end.

Lemma accounts_drifted_same d d' : users d' = users d -> accounts_drifted [] d d'.
Proof.
  intros E id. rewrite E. destruct (users d !! id) as [u|]; [|done].
  exists u. auto using account_drifted_refl.
Qed.

Lemma accounts_drifted_trans l l' d d1 d2 :
  accounts_drifted l d d1 -> accounts_drifted l' d1 d2 -> accounts_drifted (l ++ l')%list d d2.
Proof.
  intros H H' id. specialize (H id). specialize (H' id). destruct (users d !! id) as [u|].
  - destruct H as (u1 & E & H). rewrite E in H'. destruct H' as (u2 & E2 & H').
    exists u2. eauto using account_drifted_trans.
  - by rewrite H in H'.
Qed.

(** A request that is an update of the row of [user]. *)
Lemma update_drifted user f o d d1 d' : update_user user f d = Some d1 -> users d' = users d1 ->
  (forall u u', f u = Some u' -> account_drifted user [o] u u') ->
  (forall id, id <> user -> currency_of id o = None /\ energy_of id o = None) ->
  accounts_drifted [o] d d'.
Proof.
  intros H E Hf Ho id. rewrite E. unfold update_user in H.
  assert (Hother : forall u, id <> user -> account_drifted id [o] u u).
  { intros u Hne. destruct (Ho id Hne) as [H1 H2]. unfold account_drifted. simpl.
    rewrite H1, H2. split_and!; simpl; auto using drifted_refl. }
  destruct (users d !! user) as [u|] eqn:Hu.
  - destruct (f u) as [u'|] eqn:Hfu; simplify_eq/=. rewrite lookup_insert.
    case_decide as Hid; [subst|].
    + rewrite Hu. exists u'. auto.
    + destruct (users d !! id) as [x|]; [|done]. exists x. split; [done|]. apply Hother. congruence.
  - simplify_eq. destruct (users d1 !! id) as [x|] eqn:Hx; [|done]. exists x. split; [done|].
    apply Hother. congruence.
Qed.

Lemma balance_locked_drifted user o a u u' :
  currency_of user o = Some a -> energy_of user o = None ->
  add_balance_locked (- a) a u = Some u' -> account_drifted user [o] u u'.
Proof.
  intros Hc He H. pose proof (add_balance_locked_frame _ _ _ _ H) as [Hen Hk].
  unfold account_drifted. simpl. rewrite Hc, He. simpl. unfold add_balance_locked in H.
  destruct (col_add (u_balance u) _) eqn:E1; simplify_eq/=.
  destruct (col_add (u_locked_amount u) _) eqn:E2; simplify_eq/=.
  split_and!; auto using drifted_add, drifted_refl.
Qed.

Lemma locked_energy_drifted user o a u u' :
  currency_of user o = None -> energy_of user o = Some a ->
  add_locked_energy a u = Some u' -> account_drifted user [o] u u'.
Proof.
  intros Hc He H. unfold account_drifted. simpl. rewrite Hc, He. simpl. unfold add_locked_energy in H.
  destruct (col_add (u_locked_energy u) _) eqn:E1; simplify_eq/=.
  split_and!; auto using drifted_add, drifted_refl.
Qed.

(** One request. *)
Lemma run_op_drifted o w r w' : run_op o w = (r, w') ->
  accounts_drifted (if is_ok r then [o] else []) (st w) (st w').
Proof.
  intros H. destruct r as [[]|e]; simpl.
  2: { apply accounts_drifted_same. f_equal. destruct o; by eapply with_tx_Err. }
  assert (Hne : forall (x y : Uuid) z, x <> y -> (if (y =? x)%N then Some z else None) = @None Decimal).
  { intros x y z Hxy. destruct (N.eqb_spec y x); congruence. }
  assert (Heq : forall (x : Uuid) z, (if (x =? x)%N then Some z else None) = @Some Decimal z)
    by (intros; by rewrite N.eqb_refl).
  destruct o; simpl in H; unfold lock_funds, lock_energy, unlock_funds, unlock_energy in H; run_steps;
    try match goal with H : (if ?c then _ else _) _ = _ |- _ => destruct c end; run_steps; norm_st;
    try match goal with H : insert_escrow _ _ _ _ _ _ _ = Some _ |- _ =>
      apply insert_escrow_users in H as [H _] end;
    try match goal with H : release_escrow _ _ _ = Some _ |- _ => apply release_escrow_users in H end;
    eapply update_drifted; try eassumption; try (intros; simpl; by rewrite ?Hne).
  - intros. eapply balance_locked_drifted; [by simpl; rewrite Heq|done|done].
  - intros. eapply locked_energy_drifted; [done|by simpl; rewrite Heq|done].
  - intros u u' Hu. eapply balance_locked_drifted; [by simpl; rewrite Heq|done|].
    by rewrite Z.opp_involutive.
  - intros. eapply locked_energy_drifted; [done|by simpl; rewrite Heq|done].
Qed.

Lemma run_ops_drifted ops w done w' : run_ops ops w = (done, w') -> accounts_drifted done (st w) (st w').
Proof.
  revert w done. induction ops as [|o ops IH]; intros w done; simpl.
  { intros [= <- <-]. by apply accounts_drifted_same. }
  destruct (run_op o w) as [r w1] eqn:E. destruct (run_ops ops w1) as [done1 w2] eqn:E2.
  intros [= <- <-]. eapply accounts_drifted_trans; [by eapply run_op_drifted|by apply IH].
Qed.

(** The two currency columns move against each other. *)
Lemma account_drifted_holdings id done u u' : user_wf u -> currency_nonnull u ->
  account_drifted id done u u' ->
  Z.abs (holdings u' - holdings u) <= Z.of_nat (length (omap (currency_of id) done)) * G8
  /\ (Forall (fun a => (G8 | a)) (omap (currency_of id) done) -> holdings u' = holdings u).
Proof.
  intros (Wb & Wl & _) [[b Hb] [l Hl]] (B & L & _ & _). unfold holdings.
  rewrite Hb, Hl in *. simpl in *. destruct B as (b' & -> & NB & XB), L as (l' & -> & NL & XL).
  simpl. assert (S : forall x, sumZ Datatypes.id (Z.opp <$> x) = - sumZ Datatypes.id x).
  { intros x. induction x as [|y x IH]; [done|]. rewrite fmap_cons. cbn [sumZ foldr] in *. unfold sumZ in *. simpl. rewrite IH. unfold Datatypes.id. lia. }
  rewrite !S in *. rewrite length_fmap in NB. split; [unfold Datatypes.id in *; lia|].
  intros Hg. destruct (XL Wl) as [_ EL]. destruct (XB Wb) as [_ EB]. rewrite EL by done.
  rewrite EB; [unfold Datatypes.id in *; lia|]. apply Forall_fmap. eapply list.Forall_impl; [exact Hg|].
  intros x Hx. simpl. by apply Z.divide_opp_r.
Qed.
End sequences.

(** *** The ledger, for amounts on the grid *)

(** Accounts are well formed and user [id] owns [A id]. *)
Definition ledger (A : Uuid -> Z) (d : Db) : Prop :=
  map_Forall (fun _ u => user_wf u /\ currency_nonnull u) (users d)
  /\ forall id, account d id = A id.

Definition op_amount (o : escrow_op) : Decimal :=
  match o with
  | OpLockFunds _ _ a | OpLockEnergy _ _ a
  | OpUnlockFunds _ _ a _ | OpUnlockEnergy _ _ a _ => a
  end.

Section invariant.
Context `{NUM : Numerics}.

(** A row update that keeps the holdings keeps the ledger. *)
Lemma update_user_ledger A id f d d' :
  (forall u u', f u = Some u' -> user_wf u -> currency_nonnull u ->
     user_wf u' /\ currency_nonnull u' /\ holdings u' = holdings u) ->
  update_user id f d = Some d' -> ledger A d -> ledger A d'.
Proof.
  unfold update_user. intros Hf H [Hwf HA].
  destruct (users d !! id) as [u|] eqn:Hu; [|by simplify_eq].
  destruct (f u) as [u'|] eqn:Hfu; simplify_eq/=.
  destruct (Hwf id u Hu) as [W N]. destruct (Hf u u' Hfu W N) as (W' & N' & Hh).
  split; [by apply map_Forall_insert_2|].
  intros i. rewrite <- HA. unfold account. simpl. rewrite lookup_insert.
  case_decide; [|done]. subst. by rewrite Hu.
Qed.

Lemma ledger_users A d d' : users d' = users d -> ledger A d -> ledger A d'.
Proof. unfold ledger, account. intros ->. done. Qed.

Lemma add_balance_locked_keeps a u u' :
  (G8 | a) -> add_balance_locked (- a) a u = Some u' -> user_wf u -> currency_nonnull u ->
  user_wf u' /\ currency_nonnull u' /\ holdings u' = holdings u.
Proof.
  intros Ha H W [[b Hb] [l Hl]]. split; [by eapply add_balance_locked_wf|].
  destruct (add_balance_locked_holdings b l a u u' Hb Hl W H) as [_ X].
  destruct (X Ha) as (Hh & Hb' & Hl'). split; [|done].
  unfold currency_nonnull. rewrite Hb', Hl'. eauto.
Qed.

Lemma add_locked_energy_keeps a u u' :
  add_locked_energy a u = Some u' -> user_wf u -> currency_nonnull u ->
  user_wf u' /\ currency_nonnull u' /\ holdings u' = holdings u.
Proof.
  intros H W N. split; [by eapply add_locked_energy_wf|].
  unfold add_locked_energy in H. destruct (col_add _ _); simplify_eq/=.
  done.
Qed.

Lemma update_then A id f g :
  (forall u u', f u = Some u' -> user_wf u -> currency_nonnull u ->
     user_wf u' /\ currency_nonnull u' /\ holdings u' = holdings u) ->
  (forall d d', g d = Some d' -> users d' = users d) ->
  preserves (T := Event) (ledger A) (with_tx (exec (update_user id f) ;; exec g)).
Proof.
  intros Hf Hg. apply preserves_tx. intros w a w' Hw H. run_steps.
  eapply ledger_users; [by eapply Hg|]. by eapply update_user_ledger.
Qed.

Lemma run_op_ledger A o : (G8 | op_amount o) -> preserves (ledger A) (run_op o).
Proof.
  destruct o; simpl; intros Ha.
  - apply preserves_tx. intros w [] w' Hw H. run_steps.
    match goal with H : (if ?c then _ else _) _ = _ |- _ => destruct c end; run_steps. norm_st.
    eapply ledger_users; [by eapply insert_escrow_users|].
    eapply update_user_ledger; [|done|done]. intros; eapply add_balance_locked_keeps; eauto.
  - apply update_then; [intros; eapply add_locked_energy_keeps; eauto|].
    intros d d' H. by apply insert_escrow_users in H as [? _].
  - apply update_then; [|apply release_escrow_users].
    intros u u' H. rewrite <- (Z.opp_involutive amount) in H at 1.
    eapply add_balance_locked_keeps; [|exact H]. by apply Z.divide_opp_r.
  - apply update_then; [intros; eapply add_locked_energy_keeps; eauto|apply release_escrow_users].
Qed.
End invariant.

(** ** Properties *)
Section props.
Context `{NUM : Numerics}.

(** [lock_funds] is atomic however the database fails: it either returns an
    error and every table is as before, or it moved [amount] from the free to the
    locked balance of that user alone.  The move never overdraws the account, and it
    changes what the user owns by at most 10^-8, by nothing when [amount] has at most
    eight decimals. *)
Theorem lock_funds_atomic (user_id order_id : Uuid) (amount : Decimal)
    (w : world Db Event) (u : User) (b l : Decimal) :
  accounts_wf (st w) -> users (st w) !! user_id = Some u ->
  u_balance u = Some b -> u_locked_amount u = Some l ->
  let '(r, w') := lock_funds user_id order_id amount w in
  match r with
  | Err _ => st w' = st w
  | Ok _ =>
      exists u', users (st w') = <[user_id := u']> (users (st w))
        /\ amount <= b
        /\ Z.abs (holdings u' - holdings u) <= G8
        /\ ((G8 | amount) ->
            u_balance u' = Some (b - amount) /\ u_locked_amount u' = Some (l + amount))
  end.
Proof.
  intros Hwf Hu Hb Hl. destruct (lock_funds _ _ _ w) as [[[]|e] w'] eqn:E;
    [|by eapply with_tx_Err].
  apply lock_funds_Ok in E as (u0 & u' & Hu0 & Hle & Hf & Hw' & _). simplify_eq.
  rewrite Hb in Hle. exists u'.
  destruct (add_balance_locked_holdings b l amount u u' Hb Hl) as [Hnear Hgrid]; auto.
  { by eapply Hwf. }
  split_and!; auto. intros Ha. by apply Hgrid.
Qed.

(** C2: whatever sequence of escrow requests is issued and whichever statements the database
    fails, every account afterwards is what the requests answered with [Ok] make of it: its balance
    less, its locked currency plus what they locked (an unlock counts negative), its locked energy
    likewise, each up to half a step of the column (10^-8) a request and exactly if the amounts have
    at most eight decimals; NULL columns stay NULL, wallets and keys are as they were and no account
    appears.  So, where neither currency column is NULL, what a user owns in total changes by at most
    one step for each accepted request that names the user's currency, and not at all if those
    amounts have at most eight decimals. *)
Theorem escrow_conserves (ops : list escrow_op) (w : world Db Event) :
  accounts_wf (st w) ->
  let '(done, w') := run_ops ops w in
  forall id, match users (st w) !! id with
  | None => users (st w') !! id = None
  | Some u => exists u', users (st w') !! id = Some u' /\ account_drifted id done u u'
      /\ (currency_nonnull u ->
          Z.abs (holdings u' - holdings u) <= Z.of_nat (length (omap (currency_of id) done)) * G8
          /\ (Forall (fun a => (G8 | a)) (omap (currency_of id) done) -> holdings u' = holdings u))
  end.
Proof.
  intros Hwf. destruct (run_ops ops w) as [done w'] eqn:E. intros id.
  pose proof (run_ops_drifted _ _ _ _ E id) as H. destruct (users (st w) !! id) as [u|] eqn:Hu; [|done].
  destruct H as (u' & Hu' & H). exists u'. split_and!; [done..|]. intros Hn.
  apply account_drifted_holdings; [by eapply Hwf|done..].
Qed.

(** With a healthy database, an existing user and order, a sufficient balance
    and amounts within the column range, [lock_funds] succeeds and records exactly one
    new locked escrow entry for the order. *)
Theorem lock_funds_succeeds (user_id order_id : Uuid) (amount : Decimal)
    (w : world Db Event) (u : User) (o : TradingOrderDb) (b l : Decimal) :
  faults w = [] -> users (st w) !! user_id = Some u -> orders (st w) !! order_id = Some o ->
  u_balance u = Some b -> u_locked_amount u = Some l ->
  0 <= amount <= b -> 0 <= l -> b <= 10 ^ 11 * U -> l <= 10 ^ 11 * U ->
  exists w' rec, lock_funds user_id order_id amount w = (Ok tt, w')
    /\ escrow_records (st w') = (escrow_records (st w) ++ [rec])%list
    /\ er_user_id rec = user_id /\ er_order_id rec = Some order_id
    /\ er_status rec = "locked".
Proof.
  intros Hf Hu Ho Hb Hl Ha Hl0 Hbb Hlb. destruct w as [d f tr]; simpl in *; subst.
  destruct (num8_fits (b + - amount)) as [r1 E1]; [unfold U in *; lia|].
  destruct (num8_fits (l + amount)) as [r2 E2]; [unfold U in *; lia|].
  destruct (num8_fits amount) as [r3 E3]; [unfold U in *; lia|].
  unfold lock_funds, with_tx, query, expect, exec, update_user, add_balance_locked, col_add,
    insert_escrow, mbind, M_bind, mret, M_ret, pop_fault. simpl. rewrite Hu. simpl.
  rewrite Hb. simpl. destruct (b <? amount) eqn:E; [to_prop; lia|]. simpl.
  rewrite Hu. unfold option_bind. rewrite Hb, Hl, E1, E2. simpl.
  rewrite lookup_insert_eq, Ho, E3. simpl. eauto 10.
Qed.

(** Unlocking what was locked for an order gives the user back exactly the
    account they had. *)
Theorem lock_unlock_roundtrip (user_id order_id : Uuid) (amount : Decimal) (reason : string)
    (w w1 w2 : world Db Event) (u : User) (b l : Decimal) :
  (G8 | amount) -> accounts_wf (st w) -> users (st w) !! user_id = Some u ->
  u_balance u = Some b -> u_locked_amount u = Some l ->
  lock_funds user_id order_id amount w = (Ok tt, w1) ->
  unlock_funds user_id order_id amount reason w1 = (Ok tt, w2) ->
  users (st w2) = users (st w)
  /\ Forall (fun r => escrow_of user_id order_id "currency" r = true -> er_status r = "released")
       (escrow_records (st w2)).
Proof.
  intros Ha Hwf Hu Hb Hl H1 H2. apply lock_funds_Ok in H1 as (u0 & u' & Hu0 & _ & Hf & Hw1 & _).
  simplify_eq. assert (Wu : user_wf u) by (by eapply Hwf).
  unfold unlock_funds in H2. run_steps. norm_st.
  match goal with H : update_user _ _ _ = Some _ |- _ => rename H into Hup end.
  match goal with H : release_escrow _ _ _ = Some _ |- _ => rename H into Hrel end.
  eapply update_user_lookup in Hup as (u2 & Hf2 & Hd); [|rewrite Hw1; apply lookup_insert_eq].
  pose proof (add_balance_locked_inverse b l amount u u' u2 Hb Hl Wu Ha Hf Hf2) as ->.
  split.
  - apply release_escrow_users in Hrel. rewrite Hrel, Hd. simpl. rewrite Hw1, insert_insert_eq.
    by apply insert_id.
  - unfold release_escrow in Hrel. simplify_eq. rewrite <- Hrel. simpl.
    apply Forall_fmap, Forall_forall. intros r _. simpl.
    destruct (escrow_of user_id order_id "currency" r) eqn:Er; simpl; [done|].
    intros; congruence.
Qed.
End props.

(** ** Witnesses *)

Lemma run_ok {A} (m : TM A) w a : fst (m w) = Ok a -> m w = (Ok a, snd (m w)).
Proof. destruct (m w). simpl. congruence. Qed.

Section witnesses.
#[local] Existing Instance std_numerics.

Definition demo_user : User :=
  {| u_balance := Some (dec 100 0); u_locked_amount := Some (dec 0 0);
     u_locked_energy := Some (dec 0 0); u_wallet_address := Some "wallet";
     u_encrypted_private_key := None; u_wallet_salt := None; u_encryption_iv := None |}.

(** A limit buy order of 10 kWh at 2.00, unfilled. *)
Definition demo_order (id user : Uuid) (side : OrderSide) (energy price : Decimal)
    : TradingOrderDb :=
  {| o_id := id; o_user_id := user; o_order_type := Limit; o_side := side;
     o_energy_amount := energy; o_price_per_kwh := price; o_filled_amount := Some 0;
     o_status := Pending; o_expires_at := Some 1000; o_created_at := Some 0;
     o_filled_at := None; o_epoch_id := Some 9%N; o_zone_id := Some 1; o_meter_id := None;
     o_refund_tx_signature := None; o_order_pda := None; o_blockchain_tx_signature := None; o_session_token := None;
     o_is_confidential := false; o_energy_source := None; o_trigger_price := None;
     o_trigger_type := None; o_trigger_status := None; o_trailing_offset := None;
     o_triggered_at := None |}.

Definition demo_db : Db :=
  set_orders {[7%N := demo_order 7 1 Buy (dec 10 0) (dec 2 0)]}
    (set_users {[1%N := demo_user]} empty_db).

Definition demo_world : world Db Event := World demo_db [] [].

Lemma demo_user_wf : user_wf demo_user.
Proof. split_and!; [exists (100 * 10 ^ 8)|exists 0|exists 0]; reflexivity. Qed.

Lemma demo_accounts_wf : accounts_wf demo_db.
Proof. apply map_Forall_singleton, demo_user_wf. Qed.

Lemma grid_5 : (G8 | dec 5 0).
Proof. exists (5 * 10 ^ 8). reflexivity. Qed.

Definition demo_locked : world Db Event := snd (lock_funds 1 7 (dec 5 0) demo_world).
Definition demo_unlocked : world Db Event := snd (unlock_funds 1 7 (dec 5 0) "done" demo_locked).

Lemma lock_funds_atomic_witness :
  exists u', users (st demo_locked) = <[1%N := u']> (users demo_db)
    /\ u_balance u' = Some (dec 95 0).
Proof.
  pose proof (lock_funds_atomic 1 7 (dec 5 0) demo_world demo_user (dec 100 0) (dec 0 0)
                demo_accounts_wf eq_refl eq_refl eq_refl) as H.
  unfold demo_locked. destruct (lock_funds 1 7 (dec 5 0) demo_world) as [r w'] eqn:E.
  assert (Hr : r = Ok tt) by (change r with (fst (r, w')); rewrite <- E; vm_compute; reflexivity).
  subst r. destruct H as (u' & Hu & _ & _ & Hg). exists u'. split; [exact Hu|].
  apply Hg, grid_5.
Defined.

(** The first request fails with the database, the second locks, the third has too many decimals
    and rounds. *)
Definition demo_ops : list escrow_op :=
  [OpLockFunds 1 7 (dec 5 0); OpLockFunds 1 7 (dec 5 0); OpUnlockFunds 1 7 (dec 15 9) "odd"].

Lemma escrow_conserves_witness : exists done w' u',
  run_ops demo_ops (World demo_db [false; true] []) = (done, w')
  /\ length done = 2%nat /\ users (st w') !! 1%N = Some u'
  /\ Z.abs (holdings u' - holdings demo_user) <= 2 * G8.
Proof.
  pose proof (escrow_conserves demo_ops (World demo_db [false; true] []) demo_accounts_wf) as H.
  destruct (run_ops demo_ops _) as [done w'] eqn:E. specialize (H 1%N).
  destruct H as (u' & Hu & _ & [Hn _]); [split; by eexists|]. exists done, w', u'.
  assert (Hl : done = [OpLockFunds 1 7 (dec 5 0); OpUnlockFunds 1 7 (dec 15 9) "odd"])
    by (vm_compute in E; injection E as <- _; reflexivity).
  subst done. split_and!; [done|done|exact Hu|exact Hn].
Defined.

Lemma lock_funds_succeeds_witness :
  exists w' rec, lock_funds 1 7 (dec 5 0) demo_world = (Ok tt, w')
    /\ escrow_records (st w') = [rec] /\ er_status rec = "locked".
Proof.
  destruct (lock_funds_succeeds 1 7 (dec 5 0) demo_world demo_user
              (demo_order 7 1 Buy (dec 10 0) (dec 2 0)) (dec 100 0) (dec 0 0))
    as (w' & rec & H1 & H2 & _ & _ & H3);
    [reflexivity..|split; vm_compute; discriminate|vm_compute; discriminate
    |vm_compute; discriminate|vm_compute; discriminate|].
  exists w', rec. auto.
Defined.

Lemma lock_unlock_roundtrip_witness : users (st demo_unlocked) = users demo_db.
Proof.
  refine (proj1 (lock_unlock_roundtrip 1 7 (dec 5 0) "done" demo_world demo_locked demo_unlocked
    demo_user (dec 100 0) (dec 0 0) grid_5 demo_accounts_wf eq_refl eq_refl eq_refl _ _));
    [unfold demo_locked|unfold demo_unlocked]; apply run_ok; vm_compute; reflexivity.
Defined.
End witnesses.
