(* ===== verification/Crypto.v ===== *)
(** Encryption of private keys.

    [src/utils/crypto.rs] and the encryption helpers of [src/services/wallet/service.rs]: a key
    derived from the master secret with PBKDF2, AES-256-GCM, and base64 for what is returned as
    text.  The two primitives and base64 are interfaces with their round trips; the random salt
    and nonce are arguments ([Draws]).  A Rust [u8] is a [Byte.byte].

    [Nonce::from_slice] panics unless it is given exactly twelve bytes; [crypto.rs] checks the
    length first, [WalletService] does not. *)
From S2P Require Import Prelude Errors.
From Stdlib Require Import Strings.Byte Strings.String.
From stdpp Require Import pretty.
Open Scope string_scope.
Open Scope Z_scope.

#[export] Instance byte_decision : EqDecision Byte.byte := Byte.byte_eq_dec.

Abbreviation bytes := (list Byte.byte).

(** A keypair of the chain: its address and its 64 bytes. *)
Record Keypair := { kp_pubkey : string; kp_bytes : bytes }.

(** [Keypair::try_from] of 64 bytes and [Keypair::new_from_array] of 32. *)
Class Keypairs := {
  keypair_try_from : bytes -> res string Keypair;
  keypair_from_seed : bytes -> Keypair;
}.

(** [pbkdf2::<Hmac<Sha256>>] with 100 000 iterations and 32 bytes of output, and AES-256-GCM
    under the derived key. *)
Class Cipher := {
  pbkdf2 : string -> bytes -> res string bytes;
  aes_encrypt : bytes -> bytes -> bytes -> res string bytes;
  aes_decrypt : bytes -> bytes -> bytes -> res string bytes;
  aes_roundtrip key nonce data c :
    aes_encrypt key nonce data = Ok c -> aes_decrypt key nonce c = Ok data;
}.

(** [general_purpose::STANDARD]. *)
Class Base64 := {
  b64_encode : bytes -> string;
  b64_decode : string -> res string bytes;
  b64_roundtrip data : b64_decode (b64_encode data) = Ok data;
}.

Definition SALT_LEN : nat := 16.
Definition NONCE_LEN : nat := 12.

(** What the operating system's generator fills the two arrays with. *)
Record Draws := { dr_salt : bytes; dr_nonce : bytes }.
Record draws_ok (d : Draws) : Prop := {
  salt_len : length (dr_salt d) = SALT_LEN;
  nonce_len : length (dr_nonce d) = NONCE_LEN;
}.

(** [.map_err(|e| anyhow!("{what}: {}", e))]. *)
Definition context {A} (what : string) (r : res string A) : res failure A :=
  match r with Ok a => Ok a | Err e => Err (FMsg (what ++ ": " ++ e)) end.

(** The length of a slice in a message. *)
Definition show_len {A} (l : list A) : string := pretty (N.of_nat (length l)).

(** [Nonce::from_slice]. *)
Definition nonce_from_slice (l : bytes) : res failure bytes :=
  if (length l =? NONCE_LEN)%nat then Ok l else Err FPanic.

Section crypto.
Context `{CI : Cipher} `{B64 : Base64}.

(** ** [utils/crypto.rs] *)

(** The part [encrypt] and [encrypt_to_bytes] share. *)
Definition encrypt_raw (d : Draws) (data : bytes) (master_secret : string)
    : res failure (bytes * bytes * bytes) :=
  key ← context "PBKDF2 error" (pbkdf2 master_secret (dr_salt d));
  ciphertext ← context "Encryption failure" (aes_encrypt key (dr_nonce d) data);
  Ok (ciphertext, dr_salt d, dr_nonce d).

Definition encode3 (t : bytes * bytes * bytes) : string * string * string :=
  let '(a, b, c) := t in (b64_encode a, b64_encode b, b64_encode c).

Definition encrypt (d : Draws) (data : bytes) (master_secret : string)
    : res failure (string * string * string) :=
  t ← encrypt_raw d data master_secret; Ok (encode3 t).

Definition encrypt_to_bytes := encrypt_raw.

Definition decrypt (encrypted_data_b64 salt_b64 nonce_b64 master_secret : string)
    : res failure bytes :=
  ciphertext ← context "Invalid base64 ciphertext" (b64_decode encrypted_data_b64);
  salt ← context "Invalid base64 salt" (b64_decode salt_b64);
  nonce_bytes ← context "Invalid base64 nonce" (b64_decode nonce_b64);
  if negb (length salt =? SALT_LEN)%nat then Err (FMsg "Invalid salt length")
  else
    key ← context "PBKDF2 error" (pbkdf2 master_secret salt);
    nonce_to_use ←
      (if (length nonce_bytes =? NONCE_LEN)%nat then Ok nonce_bytes
       else if (length nonce_bytes =? 16)%nat then Ok (take NONCE_LEN nonce_bytes)
       else Err (FMsg ("Invalid nonce/IV length: expected 12 or 16 bytes, got "
                       ++ show_len nonce_bytes)));
    nonce ← nonce_from_slice nonce_to_use;
    context "Decryption failure" (aes_decrypt key nonce ciphertext).

Definition decrypt_bytes (encrypted_data salt nonce : bytes) (master_secret : string)
    : res failure bytes :=
  decrypt (b64_encode encrypted_data) (b64_encode salt) (b64_encode nonce) master_secret.

(** ** [WalletService] *)

Definition encrypt_private_key (d : Draws) (password : string) (private_key : bytes)
    : res failure (string * string * string) :=
  derived_key ← context "Key derivation failed" (pbkdf2 password (dr_salt d));
  nonce ← nonce_from_slice (dr_nonce d);
  encrypted_data ← context "Encryption failed" (aes_encrypt derived_key nonce private_key);
  Ok (encode3 (encrypted_data, dr_salt d, dr_nonce d)).

Definition decrypt_private_key_bytes (password : string) (encrypted_data salt iv : bytes)
    : res failure bytes :=
  derived_key ← context "Key derivation failed" (pbkdf2 password salt);
  nonce ← nonce_from_slice iv;
  match aes_decrypt derived_key nonce encrypted_data with
  | Ok plaintext => Ok plaintext
  | Err _ => Err (FMsg "Decryption failed - incorrect password or corrupted data")
  end.

Definition decrypt_private_key (password encrypted_data_b64 salt_b64 iv_b64 : string)
    : res failure bytes :=
  encrypted_data ← context "Invalid Base64 encrypted data" (b64_decode encrypted_data_b64);
  salt ← context "Invalid Base64 salt" (b64_decode salt_b64);
  iv ← context "Invalid Base64 IV" (b64_decode iv_b64);
  decrypt_private_key_bytes password encrypted_data salt iv.

(** ** Lemmas *)

Lemma context_Ok {A} what (r : res string A) a : context what r = Ok a <-> r = Ok a.
Proof. destruct r; simpl; split; congruence. Qed.

Lemma res_bind_Ok {E A B} (r : res E A) (f : A -> res E B) b :
  (r ≫= f) = Ok b <-> exists a, r = Ok a /\ f a = Ok b.
Proof. destruct r as [a|e]; simpl; split; [eauto|by intros (? & [= ->] & ?)|done|by intros (? & ? & _)]. Qed.

Lemma nonce_from_slice_ok l : length l = NONCE_LEN -> nonce_from_slice l = Ok l.
Proof. intros H. unfold nonce_from_slice. by rewrite H. Qed.

(** Decryption of the raw columns, in the terms of the primitives. *)
Lemma decrypt_bytes_run enc salt nonce secret :
  decrypt_bytes enc salt nonce secret
  = if negb (length salt =? SALT_LEN)%nat then Err (FMsg "Invalid salt length")
    else
      key ← context "PBKDF2 error" (pbkdf2 secret salt);
      nonce ← (if (length nonce =? NONCE_LEN)%nat then Ok nonce
               else if (length nonce =? 16)%nat then Ok (take NONCE_LEN nonce)
               else Err (FMsg ("Invalid nonce/IV length: expected 12 or 16 bytes, got " ++ show_len nonce)));
      context "Decryption failure" (aes_decrypt key nonce enc).
Proof.
  unfold decrypt_bytes, decrypt. rewrite !b64_roundtrip. simpl.
  destruct (negb _); [done|]. destruct (pbkdf2 secret salt) as [key|e]; simpl; [|done].
  destruct (length nonce =? NONCE_LEN)%nat eqn:E1; simpl.
  - unfold nonce_from_slice. by rewrite E1.
  - destruct (length nonce =? 16)%nat eqn:E2; simpl; [|done].
    rewrite nonce_from_slice_ok; [done|]. apply Nat.eqb_eq in E2. rewrite length_take, E2. done.
Qed.

Lemma encrypt_raw_Ok d data secret c s n : draws_ok d -> encrypt_raw d data secret = Ok (c, s, n) ->
  s = dr_salt d /\ n = dr_nonce d
  /\ exists key, pbkdf2 secret s = Ok key /\ aes_decrypt key n c = Ok data.
Proof.
  intros _ (key & Hk%context_Ok & (ct & Hc%context_Ok & [= <- <- <-])%res_bind_Ok)%res_bind_Ok.
  split_and!; [done..|]. exists key. split; [done|by apply aes_roundtrip].
Qed.

(** Both modules encrypt alike. *)
Lemma encrypt_private_key_raw d password key : draws_ok d -> forall t,
  encrypt_private_key d password key = Ok t
  <-> exists raw, encrypt_raw d key password = Ok raw /\ t = encode3 raw.
Proof.
  intros [_ Hn] t. unfold encrypt_private_key, encrypt_raw.
  rewrite (nonce_from_slice_ok _ Hn).
  destruct (pbkdf2 password (dr_salt d)) as [k|]; simpl; [|by split; [|intros (? & ? & _)]].
  destruct (aes_encrypt k (dr_nonce d) key) as [c|]; simpl; [|by split; [|intros (? & ? & _)]].
  split; [intros [= <-]; by eexists|by intros (? & [= <-] & ->)].
Qed.

(** What can be read back from a triple of raw columns. *)
Lemma raw_roundtrip d data secret c s n : draws_ok d -> encrypt_raw d data secret = Ok (c, s, n) ->
  decrypt_bytes c s n secret = Ok data /\ decrypt_private_key_bytes secret c s n = Ok data.
Proof.
  intros Hd H. destruct (encrypt_raw_Ok _ _ _ _ _ _ Hd H) as (-> & -> & key & Hk & Ha).
  destruct Hd as [Hs Hn]. split.
  - rewrite decrypt_bytes_run, Hs, Hk, Hn. simpl. by rewrite Ha.
  - unfold decrypt_private_key_bytes. rewrite Hk. simpl.
    rewrite (nonce_from_slice_ok _ Hn). simpl. by rewrite Ha.
Qed.

(** ** Properties *)

(** C23: a private key comes back.  Whatever is encrypted under a password, by either module and
    as text or as raw columns, is decrypted to itself under that password by every decryption
    routine of both modules. *)
Theorem key_roundtrip d password data e s i : draws_ok d ->
  encrypt_private_key d password data = Ok (e, s, i) \/ encrypt d data password = Ok (e, s, i) ->
  decrypt_private_key password e s i = Ok data /\ decrypt e s i password = Ok data
  /\ exists c salt nonce, encrypt_to_bytes d data password = Ok (c, salt, nonce)
     /\ b64_decode e = Ok c /\ b64_decode s = Ok salt /\ b64_decode i = Ok nonce
     /\ decrypt_bytes c salt nonce password = Ok data
     /\ decrypt_private_key_bytes password c salt nonce = Ok data.
Proof.
  intros Hd H.
  assert (G : exists raw, encrypt_raw d data password = Ok raw /\ (e, s, i) = encode3 raw).
  { destruct H as [H|H]; [by apply encrypt_private_key_raw in H|].
    apply res_bind_Ok in H as (raw & H & E). exists raw. split; [done|congruence]. }
  destruct G as ([[c salt] nonce] & Hr & [= -> -> ->]).
  destruct (raw_roundtrip _ _ _ _ _ _ Hd Hr) as [H1 H2]. split_and!.
  - unfold decrypt_private_key. by rewrite !b64_roundtrip.
  - exact H1.
  - exists c, salt, nonce. by rewrite !b64_roundtrip.
Qed.

(** The two decryption routines of stored columns agree on every nonce of the standard
    length.  On a legacy IV of sixteen bytes [crypto.rs] decrypts with its first twelve, and
    [WalletService], which signs for the user, panics. *)
Theorem decryptions_agree secret enc salt nonce : length salt = SALT_LEN ->
  (length nonce = NONCE_LEN -> forall data,
     decrypt_bytes enc salt nonce secret = Ok data
     <-> decrypt_private_key_bytes secret enc salt nonce = Ok data)
  /\ (length nonce = 16%nat ->
        decrypt_bytes enc salt nonce secret = decrypt_bytes enc salt (take NONCE_LEN nonce) secret)
  /\ (length nonce <> NONCE_LEN -> is_ok (pbkdf2 secret salt) = true ->
        decrypt_private_key_bytes secret enc salt nonce = Err FPanic).
Proof.
  intros Hs. split_and!.
  - intros Hn data. rewrite decrypt_bytes_run, Hs, Hn. unfold decrypt_private_key_bytes. simpl.
    destruct (pbkdf2 secret salt) as [key|]; simpl; [|done].
    rewrite (nonce_from_slice_ok _ Hn). simpl. by destruct (aes_decrypt key nonce enc).
  - intros Hn. rewrite !decrypt_bytes_run, length_take, Hn. reflexivity.
  - intros Hn Hk. unfold decrypt_private_key_bytes. destruct (pbkdf2 secret salt); [simpl|done].
    unfold nonce_from_slice. by apply Nat.eqb_neq in Hn as ->.
Qed.
End crypto.

(** ** Witnesses *)

(** The ciphertext starts with the key and the nonce; decryption checks them. *)
Definition demo_decrypt (key nonce c : bytes) : res string bytes :=
  if bool_decide (take (length key + length nonce) c = key ++ nonce)%list
  then Ok (drop (length key + length nonce) c) else Err "tag".

Program Definition demo_cipher : Cipher :=
  {| pbkdf2 password salt := Ok (String.list_byte_of_string password ++ salt)%list;
     aes_encrypt key nonce data := Ok (key ++ nonce ++ data)%list;
     aes_decrypt := demo_decrypt |}.
Next Obligation.
  intros key nonce data c [= <-]. unfold demo_decrypt. rewrite app_assoc, <- length_app.
  rewrite take_app_length, drop_app_length. by rewrite bool_decide_true.
Qed.

Definition demo_base64 : Base64 :=
  {| b64_encode := String.string_of_list_byte; b64_decode s := Ok (String.list_byte_of_string s);
     b64_roundtrip data := f_equal Ok (String.list_byte_of_string_of_list_byte data) |}.

#[export] Instance demo_keypairs : Keypairs := {|
  keypair_try_from l := Ok {| kp_pubkey := "wallet"; kp_bytes := l |};
  keypair_from_seed l := {| kp_pubkey := "wallet"; kp_bytes := l |} |}.

Section witnesses.
#[local] Existing Instance demo_cipher.
#[local] Existing Instance demo_base64.

Definition demo_draws : Draws := {| dr_salt := repeat x01 16; dr_nonce := repeat x02 12 |}.
Lemma demo_draws_ok : draws_ok demo_draws.
Proof. by constructor. Qed.

Lemma key_roundtrip_witness :
  match encrypt_private_key demo_draws "secret" [x2a; x2b] with
  | Ok (e, s, i) => decrypt e s i "secret" = Ok [x2a; x2b] /\ is_ok (decrypt e s i "other") = false
  | Err _ => False
  end.
Proof.
  destruct (encrypt_private_key demo_draws "secret" [x2a; x2b]) as [[[e s] i]|] eqn:E; [|by vm_compute in E].
  destruct (key_roundtrip demo_draws "secret" [x2a; x2b] e s i demo_draws_ok (or_introl E)) as (_ & H & _).
  split; [exact H|]. vm_compute in E. injection E as <- <- <-. vm_compute. reflexivity.
Defined.

Lemma decryptions_agree_witness :
  decrypt_private_key_bytes "secret" [] (repeat x01 16) (repeat x02 16) = Err FPanic.
Proof.
  apply (decryptions_agree "secret" [] (repeat x01 16) (repeat x02 16)); vm_compute; congruence.
Defined.
End witnesses.
