(* ===== verification/OnChain.v ===== *)
(** Orders and escrow on the chain: [src/services/market_clearing/blockchain.rs].

    The clearing service puts a new order on the chain, locks what it commits in the gateway's
    pooled token accounts, and pays out of them on a release, a refund or an atomic swap.  It works
    on the tables of [Schema]: the users' wallets and keys and the on-chain columns of the orders.
    The calls of the blockchain service are an interface; each is logged with its outcome.
    [config.tokenization.enable_real_blockchain] and [config.encryption_secret] are variables of
    the section, a new keypair and the draws of its encryption are arguments. *)
From S2P Require Import Prelude Numerics Errors Store Schema Escrow Crypto.
Open Scope string_scope.
Open Scope Z_scope.
Open Scope list_scope.

(** [Pubkey::from_str], [calculate_ata_address], the market's address, the text of
    [Signature::default()], and what the blockchain service answers. *)
Class TokenChain := {
  address_ok : string -> res string unit;
  ata : string -> string -> string;
  market_address : res string string;
  default_signature : string;
  authority_answer : list Event -> res string string;
  ensure_answer : list Event -> string -> string -> res string string;
  move_answer : list Event -> TokenMove -> res string string;
  order_answer : list Event -> string -> string -> Z -> Z -> string -> res string (string * string);
  swap_answer : list Event -> AtomicSwapCall -> res string string;
}.

Definition log_call {A} (answer : list Event -> res string A) (event : res string A -> OnEvent)
    : TM A := fun w =>
  let r := answer (trace w) in
  let w' := World (st w) (faults w) (trace w ++ [EvOnChain (event r)]) in
  match r with Ok a => (Ok a, w') | Err e => (Err (FMsg e), w') end.

Definition run_res {A} (r : res failure A) : TM A :=
  match r with Ok a => mret a | Err e => fail e end.

Definition text_res {A} (r : res string A) : TM A :=
  match r with Ok a => mret a | Err e => fail (FMsg e) end.

(** [(amount * 10^decimals).to_u64().unwrap_or(0)]. *)
Definition raw_amount `{Numerics} (decimals : Z) (amount : Decimal) : Z :=
  default 0 (to_u64 (dmul amount (dec (10 ^ decimals) 0))).

Definition asset_decimals (asset_type : string) : Z :=
  if (asset_type =? "energy")%string then 9 else 6.

Definition default_energy_mint : string := "Geq98m3Vw63AqrMEVoZsiW5DbNkScteZAdWDmm95ykYF".
Definition default_currency_mint : string := "4zMMC9srt5Ri5X14GAgXhaHii3GnPAEERYPJgZJDncDU".

(** The mint of an asset in the lock, the release and the refund; the swap has its own. *)
Definition select_mint `{Env} (asset_type : string) : string :=
  if (asset_type =? "energy")%string then
    match env_var "EnergyTokenMint" with
    | Some m => m
    | None => default default_energy_mint (env_var "ENERGY_TOKEN_MINT")
    end
  else default default_currency_mint (env_var "CURRENCY_TOKEN_MINT").

Definition swap_energy_mint `{Env} : string :=
  default default_energy_mint (env_var "ENERGY_TOKEN_MINT").
Definition swap_currency_mint `{Env} : string :=
  default default_currency_mint (env_var "CURRENCY_TOKEN_MINT").

Section onchain.
Context `{NUM : Numerics} `{ENV : Env} `{CIPHER : Cipher} `{B64 : Base64} `{KP : Keypairs} `{TC : TokenChain}.
Variable real : bool.
Variable secret : string.

(** The value of an answer. *)
Definition answered (r : res string string) : option string :=
  match r with Ok a => Some a | Err _ => None end.

Definition get_authority : TM string := log_call authority_answer (fun r => OAuthority (answered r)).
Definition ensure_token_account (wallet mint : string) : TM string :=
  log_call (fun l => ensure_answer l wallet mint) (fun r => OEnsure wallet mint (answered r)).
Definition move_tokens (m : TokenMove) : TM string :=
  log_call (fun l => move_answer l m) (fun r => OMove m (is_ok r)).

(** The keys of a user as the service decrypts them. *)
Definition decrypt_keypair (what : string) (enc_key salt iv : bytes) : TM Keypair :=
  pk_bytes ← run_res (decrypt_private_key secret (b64_encode enc_key) (b64_encode salt) (b64_encode iv));
  match keypair_try_from pk_bytes with
  | Ok k => mret k
  | Err e => fail (FMsg ("Invalid decrypted key" +:+ what +:+ ": " +:+ e))
  end.

(** ** Escrow *)

Definition execute_escrow_lock (user_id order_id : Uuid) (amount : Decimal) (asset_type : string)
    : TM string :=
  if negb real then mret ("mock_escrow_lock_" +:+ uuid_to_string order_id)
  else
    row ← query (fun d => users d !! user_id);
    db_user ← expect (FMsg "User not found") row;
    keypair ← match u_encrypted_private_key db_user, u_encryption_iv db_user, u_wallet_salt db_user with
              | Some enc_key, Some iv, Some salt => decrypt_keypair " for escrow" enc_key salt iv
              | _, _, _ => fail (FMsg "User has no wallet keys")
              end;
    let mint := select_mint asset_type in
    text_res (address_ok mint) ;;
    let user_ata := ata (kp_pubkey keypair) mint in
    escrow_owner ← get_authority;
    escrow_ata ← ensure_token_account escrow_owner mint;
    let decimals := asset_decimals asset_type in
    move_tokens
      {| mv_kind := MLock; mv_signer := kp_pubkey keypair; mv_from := user_ata; mv_to := escrow_ata;
         mv_mint := mint; mv_amount := raw_amount decimals amount; mv_decimals := decimals |}.

(** The part the release and the refund share: pay a user out of the gateway's account. *)
Definition pay_from_escrow (kind : MoveKind) (missing nowallet : string) (receiver : Uuid)
    (amount : Decimal) (asset_type : string) : TM string :=
  row ← query (fun d => u_wallet_address <$> users d !! receiver);
  wallet ← expect (FMsg missing) row;
  match wallet with
  | None => fail (FMsg nowallet)
  | Some receiver_wallet =>
      text_res (address_ok receiver_wallet) ;;
      let mint := select_mint asset_type in
      text_res (address_ok mint) ;;
      escrow_owner ← get_authority;
      let escrow_ata := ata escrow_owner mint in
      receiver_ata ← ensure_token_account receiver_wallet mint;
      let decimals := asset_decimals asset_type in
      move_tokens
        {| mv_kind := kind; mv_signer := escrow_owner; mv_from := escrow_ata; mv_to := receiver_ata;
           mv_mint := mint; mv_amount := raw_amount decimals amount; mv_decimals := decimals |}
  end.

Definition execute_escrow_release (seller_id : Uuid) (amount : Decimal) (asset_type : string)
    : TM string :=
  if negb real then mret ("mock_escrow_release_" +:+ uuid_to_string seller_id)
  else pay_from_escrow MRelease "Receiver (Seller) not found" "Receiver has no wallet address"
         seller_id amount asset_type.

Definition execute_escrow_refund (buyer_id : Uuid) (amount : Decimal) (asset_type : string)
    : TM string :=
  if negb real then mret ("mock_escrow_refund_" +:+ uuid_to_string buyer_id)
  else pay_from_escrow MRefund "User (Buyer) not found" "User has no wallet address"
         buyer_id amount asset_type.

Definition execute_escrow_refund_retry (buyer_id : Uuid) (amount : Decimal) (asset_type : string)
    : TM string :=
  execute_escrow_refund buyer_id amount asset_type.

(** ** The order *)

(** [WalletService::encrypt_private_key], decoded into columns and stored. *)
Definition create_missing_wallet (user_id : Uuid) (kp : Keypair) (draws : Draws) : TM Keypair :=
  t ← run_res (encrypt_private_key draws secret (kp_bytes kp));
  let '(enc_key_b64, salt_b64, iv_b64) := t in
  enc_key ← text_res (b64_decode enc_key_b64);
  salt ← text_res (b64_decode salt_b64);
  iv ← text_res (b64_decode iv_b64);
  exec (store_user_keys user_id (kp_pubkey kp) enc_key salt iv) ;;
  mret kp.

Definition order_keypair (user_id : Uuid) (new_kp : Keypair) (draws : Draws) : TM Keypair :=
  row ← query (fun d => users d !! user_id);
  db_user ← expect (FMsg "User not found") row;
  match u_encrypted_private_key db_user, u_encryption_iv db_user, u_wallet_salt db_user with
  | Some enc_key, Some iv, Some salt => decrypt_keypair "" enc_key salt iv
  | _, _, _ => create_missing_wallet user_id new_kp draws
  end.

(** The order on the chain; a failure is replaced by a default signature. *)
Definition create_chain_order (payer : string) (order_id : Uuid) (side : OrderSide)
    (energy_amount price_per_kwh : Decimal) : TM (string * option string) :=
  if real then
    market ← text_res market_address;
    let amount_u64 := raw_amount 9 energy_amount in
    let price_u64 := raw_amount 9 price_per_kwh in
    let side_text := OrderSide_as_str side in
    r ← attempt (log_call (fun l => order_answer l payer market amount_u64 price_u64 side_text)
                   (fun r => OOrder payer market amount_u64 price_u64 side_text (is_ok r)));
    let '(sig, pda) := match r with Ok res => res | Err _ => (default_signature, "") end in
    mret (sig, if (pda =? "")%string then None else Some pda)
  else mret ("mock_order_sig_" +:+ uuid_to_string order_id, None).

(** The two UPDATEs of [trading_orders]. *)
Definition link_order (order_id : Uuid) (signature : string) (pda : option string) : TM unit :=
  exec (update_order order_id (fun o =>
    if varchar 88 (Some signature) then Some (set_order_link signature pda o) else None)).

Definition execute_on_chain_order_creation (user_id order_id : Uuid) (side : OrderSide)
    (energy_amount price_per_kwh : Decimal) (new_kp : Keypair) (draws : Draws) : TM unit :=
  keypair ← order_keypair user_id new_kp draws;
  linked ← create_chain_order (kp_pubkey keypair) order_id side energy_amount price_per_kwh;
  let '(signature, pda) := linked in
  link_order order_id signature pda ;;
  let '(asset_type, lock_amount) :=
    match side with
    | Buy => ("currency", dmul price_per_kwh energy_amount)
    | Sell => ("energy", energy_amount)
    end in
  if 0 <? lock_amount
  then ignore (execute_escrow_lock user_id order_id lock_amount asset_type)
  else mret ().

(** ** The swap *)

(** [row.get] panics on a NULL wallet. *)
Definition fetch_user_wallet (user_id : Uuid) : TM string :=
  row ← query (fun d => u_wallet_address <$> users d !! user_id);
  wallet ← expect FDb row;
  addr ← expect FPanic wallet;
  text_res (address_ok addr) ;;
  mret addr.

Definition execute_atomic_swap (buyer_id seller_id : Uuid) (buy_order_pda sell_order_pda : string)
    (amount price wheeling_charge : Decimal) : TM string :=
  if negb real then
    mret ("mock_atomic_swap_" +:+ uuid_to_string buyer_id +:+ "_" +:+ uuid_to_string seller_id)
  else
    text_res (address_ok buy_order_pda) ;;
    text_res (address_ok sell_order_pda) ;;
    buyer_wallet ← fetch_user_wallet buyer_id;
    seller_wallet ← fetch_user_wallet seller_id;
    text_res (address_ok swap_energy_mint) ;;
    text_res (address_ok swap_currency_mint) ;;
    authority ← get_authority;
    market ← text_res market_address;
    let call :=
      {| as_authority := authority; as_market := market;
         as_buy_order := buy_order_pda; as_sell_order := sell_order_pda;
         as_buyer_currency_escrow := ata authority swap_currency_mint;
         as_seller_energy_escrow := ata authority swap_energy_mint;
         as_seller_currency_account := ata seller_wallet swap_currency_mint;
         as_buyer_energy_account := ata buyer_wallet swap_energy_mint;
         as_fee_collector := ata authority swap_currency_mint;
         as_wheeling_collector := ata authority swap_currency_mint;
         as_energy_mint := swap_energy_mint; as_currency_mint := swap_currency_mint;
         as_amount := raw_amount 9 amount; as_price := raw_amount 9 price;
         as_wheeling := raw_amount 6 wheeling_charge |} in
    log_call (fun l => swap_answer l call) (fun r => OSwap call (is_ok r)).
End onchain.

(** ** What was moved *)

(** The transfers the chain confirmed, and all that were asked for: one that was answered with an
    error may still have landed. *)
Definition moves (l : list Event) : list TokenMove :=
  omap (fun e => match e with EvOnChain (OMove m true) => Some m | _ => None end) l.
Definition asked_moves (l : list Event) : list TokenMove :=
  omap (fun e => match e with EvOnChain (OMove m _) => Some m | _ => None end) l.

Lemma moves_app l l' : moves (l ++ l') = moves l ++ moves l'.
Proof. apply omap_app. Qed.
Lemma asked_moves_app l l' : asked_moves (l ++ l') = asked_moves l ++ asked_moves l'.
Proof. apply omap_app. Qed.

Lemma moves_asked l : asked_moves l = [] -> moves l = [].
Proof.
  induction l as [|e l IH]; [done|]. unfold asked_moves, moves in *. simpl.
  destruct e; simpl; try exact IH. match goal with e : OnEvent |- _ => destruct e end; simpl; done || exact IH.
Qed.

Section effects.
Context `{NUM : Numerics} `{ENV : Env} `{CIPHER : Cipher} `{B64 : Base64} `{KP : Keypairs} `{TC : TokenChain}.
Variable real : bool.
Variable secret : string.

(** A computation that asks for no transfer and changes no table: it may only log calls. *)
Definition harmless {A} (m : TM A) : Prop := forall w,
  st (m w).2 = st w /\ exists l, trace (m w).2 = trace w ++ l /\ asked_moves l = [].

Lemma harmless_ret {A} (a : A) : harmless (mret a : TM A).
Proof. intros w. split; [done|]. exists []. by rewrite app_nil_r. Qed.
Lemma harmless_fail {A} e : harmless (fail e : TM A).
Proof. intros w. split; [done|]. exists []. by rewrite app_nil_r. Qed.
Lemma harmless_query {A} (f : Db -> A) : harmless (query f).
Proof.
  intros w. unfold query, pop_fault. destruct w as [d [|[] fs] tr]; simpl; split; try done; exists [];
    by rewrite app_nil_r.
Qed.
Lemma harmless_expect {A} e (o : option A) : harmless (expect e o).
Proof. destruct o; [apply harmless_ret|apply harmless_fail]. Qed.
Lemma harmless_res {A} (r : res failure A) : harmless (run_res r).
Proof. destruct r; [apply harmless_ret|apply harmless_fail]. Qed.
Lemma harmless_text {A} (r : res string A) : harmless (text_res r).
Proof. destruct r; [apply harmless_ret|apply harmless_fail]. Qed.
Lemma harmless_log {A} (answer : list Event -> res string A) event :
  (forall r, asked_moves [EvOnChain (event r)] = []) -> harmless (log_call answer event).
Proof.
  intros H w. unfold log_call. destruct (answer _); simpl; (split; [done|]); eexists; eauto.
Qed.
Lemma harmless_bind {A B} (m : TM A) (f : A -> TM B) :
  harmless m -> (forall a, harmless (f a)) -> harmless (m ≫= f).
Proof.
  intros Hm Hf w. destruct (Hm w) as [Hs (l & Hl & Hn)]. unfold mbind, M_bind.
  destruct (m w) as [[a|e] w1]; cbn [snd] in *.
  - destruct (Hf a w1) as [Hs' (l' & Hl' & Hn')]. rewrite Hs', Hs. split; [done|].
    exists (l ++ l'). rewrite Hl', Hl, asked_moves_app, Hn, Hn'. by rewrite (assoc_L (++)).
  - split; [done|]. by exists l.
Qed.
Lemma harmless_authority : harmless get_authority.
Proof. by apply harmless_log. Qed.
Lemma harmless_ensure wallet mint : harmless (ensure_token_account wallet mint).
Proof. by apply harmless_log. Qed.
Lemma harmless_decrypt what k s i : harmless (decrypt_keypair secret what k s i).
Proof.
  unfold decrypt_keypair. apply harmless_bind; [apply harmless_res|]. intros a.
  destruct (keypair_try_from a); [apply harmless_ret|apply harmless_fail].
Qed.
End effects.

Create HintDb harmless.
#[export] Hint Resolve harmless_ret harmless_fail harmless_query harmless_expect harmless_res harmless_text
  harmless_log harmless_bind harmless_authority harmless_ensure harmless_decrypt : harmless.

Section escrow.
Context `{NUM : Numerics} `{ENV : Env} `{CIPHER : Cipher} `{B64 : Base64} `{KP : Keypairs} `{TC : TokenChain}.
Variable real : bool.
Variable secret : string.

(** A harmless computation, then at most one transfer, of which the answer is the outcome. *)
Definition one_move (m : TM string) (P : Db -> list Event -> TokenMove -> Prop) : Prop := forall w,
  let '(r, w') := m w in
  st w' = st w /\ exists l, trace w' = trace w ++ l
    /\ ((asked_moves l = [] /\ is_ok r = false)
        \/ exists mv l', l = l' ++ [EvOnChain (OMove mv (is_ok r))] /\ asked_moves l' = []
           /\ P (st w) l' mv).

Lemma one_move_bind {A} (m : TM A) (f : A -> TM string) (P : Db -> list Event -> TokenMove -> Prop)
    (Q : A -> Db -> list Event -> Prop) :
  harmless m -> (forall w a w' l, m w = (Ok a, w') -> trace w' = trace w ++ l -> Q a (st w) l) ->
  (forall a, one_move (f a) (fun d l mv => forall l0, Q a d l0 -> P d (l0 ++ l) mv)) ->
  one_move (m ≫= f) P.
Proof.
  intros Hm HQ Hf w. destruct (Hm w) as [Hs (l & Hl & Hn)]. specialize (HQ w).
  unfold mbind, M_bind. destruct (m w) as [[a|e] w1]; cbn [snd] in *.
  - specialize (HQ _ _ _ eq_refl Hl). specialize (Hf a w1). destruct (f a w1) as [r w2].
    destruct Hf as [Hs' (l1 & Hl1 & Hcase)]. rewrite Hs', Hs. split; [done|].
    exists (l ++ l1). rewrite Hl1, Hl, asked_moves_app, Hn. split; [by rewrite (assoc_L (++))|].
    destruct Hcase as [[H1 H2]|(mv & l' & -> & H1 & HP)]; [by left|right].
    exists mv, (l ++ l'). rewrite asked_moves_app, Hn, (assoc_L (++)). split_and!; [done..|].
    rewrite Hs in HP. auto.
  - split; [done|]. exists l. split; [done|]. by left.
Qed.

Lemma one_move_move mv (P : Db -> list Event -> TokenMove -> Prop) :
  (forall d, P d [] mv) -> one_move (move_tokens mv) P.
Proof.
  intros HP w. unfold move_tokens, log_call. destruct (move_answer _ mv); simpl; (split; [done|]);
    (eexists; split; [done|]); right; exists mv, []; auto.
Qed.

Lemma one_move_fail e P : one_move (fail e) P.
Proof. intros w. split; [done|]. exists []. rewrite app_nil_r. split; [done|]. by left. Qed.

Lemma one_move_weaken m (P Q : Db -> list Event -> TokenMove -> Prop) :
  (forall d l mv, P d l mv -> Q d l mv) -> one_move m P -> one_move m Q.
Proof.
  intros H Hm w. specialize (Hm w). destruct (m w) as [r w'].
  destruct Hm as [Hs (l & Hl & [?|(mv & l' & ? & ? & ?)])]; (split; [done|]); exists l; (split; [done|]);
    [by left|right]. exists mv, l'. auto.
Qed.

Lemma query_value {A} (f : Db -> A) (w w' : world Db Event) a l :
  query f w = (Ok a, w') -> trace w' = trace w ++ l -> a = f (st w) /\ l = [].
Proof.
  unfold query, pop_fault. destruct w as [d [|[] fs] tr]; simpl; intros; simplify_eq/=; split; try done;
    eapply app_inv_head; by rewrite app_nil_r.
Qed.

Lemma log_value {A} (answer : list Event -> res string A) event (w w' : world Db Event) a l :
  log_call answer event w = (Ok a, w') -> trace w' = trace w ++ l -> l = [EvOnChain (event (Ok a))].
Proof.
  unfold log_call. destruct (answer _); intros [= <- <-]. simpl. intros H. by apply app_inv_head in H.
Qed.

Lemma text_value {A} (r : res string A) (w w' : world Db Event) a l :
  text_res r w = (Ok a, w') -> trace w' = trace w ++ l -> r = Ok a /\ l = [].
Proof.
  unfold text_res. destruct r; intros [= <- <-]. intros H. split; [done|].
  eapply app_inv_head. by rewrite app_nil_r.
Qed.

Lemma expect_value {A} e (o : option A) (w w' : world Db Event) a l :
  expect e o w = (Ok a, w') -> trace w' = trace w ++ l -> o = Some a /\ l = [].
Proof.
  destruct o; intros [= <- <-]. intros H. split; [done|]. eapply app_inv_head. by rewrite app_nil_r.
Qed.

(** The transfer of a payment out of the escrow: by the authority the service answered, out of its
    pooled account of the mint, to the account [to]. *)
Definition payment (kind : MoveKind) (amount : Decimal) (asset_type authority to : string) : TokenMove :=
  {| mv_kind := kind; mv_signer := authority; mv_from := ata authority (select_mint asset_type);
     mv_to := to; mv_mint := select_mint asset_type;
     mv_amount := raw_amount (asset_decimals asset_type) amount;
     mv_decimals := asset_decimals asset_type |}.

(** A payment of user [user]: the calls before it asked for the authority and for the account of the
    wallet stored for the user, and these are the authority that signs and the account that is paid. *)
Definition pays (kind : MoveKind) (user : Uuid) (amount : Decimal) (asset_type : string)
    (d : Db) (l : list Event) (mv : TokenMove) : Prop :=
  exists u wallet authority account,
    users d !! user = Some u /\ u_wallet_address u = Some wallet /\ address_ok wallet = Ok tt
    /\ l = EvOnChain <$> [OAuthority (Some authority);
                          OEnsure wallet (select_mint asset_type) (Some account)]
    /\ mv = payment kind amount asset_type authority account.

Lemma pay_from_escrow_outcome kind e1 e2 user amount asset :
  one_move (pay_from_escrow kind e1 e2 user amount asset) (pays kind user amount asset).
Proof.
  unfold pay_from_escrow.
  eapply (one_move_bind _ _ _ (fun r d l => r = u_wallet_address <$> users d !! user /\ l = []));
    [auto with harmless|intros ????; apply query_value|]. intros row.
  eapply (one_move_bind _ _ _ (fun x _ l => row = Some x /\ l = []));
    [auto with harmless|intros ????; apply expect_value|]. intros [wallet|]; [|apply one_move_fail].
  eapply (one_move_bind _ _ _ (fun x _ l => address_ok wallet = Ok tt /\ l = []));
    [auto with harmless|intros ? [] ??; apply text_value|]. intros [].
  eapply (one_move_bind _ _ _ (fun x _ l => l = []));
    [auto with harmless|intros ? [] ?? H Hl; by eapply text_value in H as [_ ?]|]. intros [].
  eapply (one_move_bind _ _ _ (fun x _ l => l = [EvOnChain (OAuthority (Some x))]));
    [auto with harmless|intros ????; apply log_value|]. intros authority.
  eapply (one_move_bind _ _ _ (fun x _ l => l = [EvOnChain (OEnsure wallet (select_mint asset) (Some x))]));
    [auto with harmless|intros ????; apply log_value|]. intros account.
  apply one_move_move.
  intros d ? -> ? -> ? -> ? [Ha ->] ? [Hrow ->] ? [Hu ->]. subst row. symmetry in Hu.
  apply fmap_Some in Hu as (u & Hu & Hw). exists u, wallet, authority, account. by split_and!.
Qed.

(** C16: A refund or a release in real mode asks for at most one transfer, after it asked for the
    gateway's authority and for the token account of the wallet stored for the user, and for no
    other: of the asked amount in the mint's units, signed by that authority, out of the authority's
    pooled account to that account of the user.  It answers exactly when the chain confirmed the
    transfer; an error before the transfer asked for none, and one of the transfer itself, which may
    have landed, is passed on.  No table changes, and nothing the user ever locked is looked at. *)
Theorem payout_outcome (release : bool) user amount asset w :
  let m := if release then execute_escrow_release true user amount asset
           else execute_escrow_refund true user amount asset in
  let '(r, w') := m w in
  st w' = st w /\ exists l, trace w' = trace w ++ l
    /\ ((asked_moves l = [] /\ is_ok r = false)
        \/ exists mv l', l = l' ++ [EvOnChain (OMove mv (is_ok r))] /\ asked_moves l' = []
           /\ pays (if release then MRelease else MRefund) user amount asset (st w) l' mv).
Proof. destruct release; apply pay_from_escrow_outcome. Qed.

(** What a lock moves: out of the account of the user whose stored key signs for it, into the
    account of the gateway's authority. *)
Definition locks (user : Uuid) (amount : Decimal) (asset_type : string) (d : Db) (l : list Event)
    (mv : TokenMove) : Prop :=
  exists u k i s bytes kp authority account,
    users d !! user = Some u /\ u_encrypted_private_key u = Some k /\ u_encryption_iv u = Some i
    /\ u_wallet_salt u = Some s
    /\ decrypt_private_key secret (b64_encode k) (b64_encode s) (b64_encode i) = Ok bytes
    /\ keypair_try_from bytes = Ok kp
    /\ l = EvOnChain <$> [OAuthority (Some authority);
                          OEnsure authority (select_mint asset_type) (Some account)]
    /\ mv = {| mv_kind := MLock; mv_signer := kp_pubkey kp;
               mv_from := ata (kp_pubkey kp) (select_mint asset_type); mv_to := account;
               mv_mint := select_mint asset_type;
               mv_amount := raw_amount (asset_decimals asset_type) amount;
               mv_decimals := asset_decimals asset_type |}.

Lemma decrypt_keypair_value what k s i (w w' : world Db Event) kp l :
  decrypt_keypair secret what k s i w = (Ok kp, w') -> trace w' = trace w ++ l ->
  (exists bytes, decrypt_private_key secret (b64_encode k) (b64_encode s) (b64_encode i) = Ok bytes
    /\ keypair_try_from bytes = Ok kp) /\ l = [].
Proof.
  unfold decrypt_keypair, run_res, mbind, M_bind. destruct (decrypt_private_key _ _ _ _) as [b|]; [|done].
  simpl. destruct (keypair_try_from b) as [k'|] eqn:Ek; intros [= <- <-]. intros H.
  split; [by exists b|]. eapply app_inv_head. by rewrite app_nil_r.
Qed.

Lemma lock_outcome user order amount asset :
  one_move (execute_escrow_lock true secret user order amount asset) (locks user amount asset).
Proof.
  unfold execute_escrow_lock. cbn [negb].
  eapply (one_move_bind _ _ _ (fun r d l => r = users d !! user /\ l = []));
    [auto with harmless|intros ????; apply query_value|]. intros row.
  eapply (one_move_bind _ _ _ (fun x _ l => row = Some x /\ l = []));
    [auto with harmless|intros ????; apply expect_value|]. intros u.
  eapply (one_move_bind _ _ _ (fun kp _ l => exists k i s bytes,
      u_encrypted_private_key u = Some k /\ u_encryption_iv u = Some i /\ u_wallet_salt u = Some s
      /\ decrypt_private_key secret (b64_encode k) (b64_encode s) (b64_encode i) = Ok bytes
      /\ keypair_try_from bytes = Ok kp /\ l = [])).
  { repeat case_match; auto with harmless. }
  { intros w kp w' l. destruct (u_encrypted_private_key u) as [k|]; [|done].
    destruct (u_encryption_iv u) as [i|]; [|done]. destruct (u_wallet_salt u) as [s|]; [|done].
    intros H Hl. eapply decrypt_keypair_value in H as [(b & H1 & H2) ->]; [|exact Hl].
    by exists k, i, s, b. }
  intros kp.
  eapply (one_move_bind _ _ _ (fun x _ l => l = []));
    [auto with harmless|intros ? [] ?? H Hl; by eapply text_value in H as [_ ?]|]. intros [].
  eapply (one_move_bind _ _ _ (fun x _ l => l = [EvOnChain (OAuthority (Some x))]));
    [auto with harmless|intros ????; apply log_value|]. intros authority.
  eapply (one_move_bind _ _ _ (fun x _ l => l = [EvOnChain (OEnsure authority (select_mint asset) (Some x))]));
    [auto with harmless|intros ????; apply log_value|]. intros account.
  apply one_move_move.
  intros d ? -> ? -> ? -> ? (k & i & s & b & Hk & Hi & Hs & Hd & Ht & ->) ? [Hrow ->] ? [Hu ->]. subst row.
  exists u, k, i, s, b, kp, authority, account. by split_and!.
Qed.

(** ** Raw amounts *)

(** With at most sixteen decimals the units are counted exactly, rounded down; from [2^64] units
    on the amount is taken for zero. *)
Lemma raw_amount_spec d c : d = 6 \/ d = 9 -> on_grid 16 c -> 0 <= c < 2 ^ 96 * 10 ^ 12 ->
  raw_amount d c = if c * 10 ^ d <? 2 ^ 64 * U then c * 10 ^ d / U else 0.
Proof.
  intros Hd Hg Hc. unfold raw_amount.
  assert (E : dmul c (dec (10 ^ d) 0) = c * 10 ^ d).
  { apply dmul_exact; [unfold dec; rewrite Z.sub_0_r; change (10 ^ 28) with U; lia|].
    destruct Hg as [k ->]. apply (repr_grid (16 - d)); [lia|..].
    - exists k. destruct Hd as [-> | ->]; simpl; lia.
    - rewrite Z.abs_eq by (destruct Hd as [-> | ->]; simpl in *; lia).
      destruct Hd as [-> | ->]; simpl in *; lia. }
  rewrite E. unfold to_u64. assert (Hp : 0 < 10 ^ d) by (destruct Hd as [-> | ->]; done).
  rewrite Z.quot_div_nonneg by (done || nia).
  pose proof (Z.div_pos (c * 10 ^ d) U ltac:(nia) eq_refl) as Hq.
  assert (Hlt : c * 10 ^ d < 2 ^ 64 * U <-> c * 10 ^ d / U <= u64_max).
  { split; intros H.
    - apply Z.lt_succ_r. apply Z.div_lt_upper_bound; [done|]. change (Z.succ u64_max) with (2 ^ 64). lia.
    - pose proof (Z.mul_succ_div_gt (c * 10 ^ d) U eq_refl). unfold u64_max, U in *. lia. }
  destruct (c * 10 ^ d <? 2 ^ 64 * U) eqn:Et.
  - apply Z.ltb_lt, Hlt, Z.leb_le in Et. apply Z.leb_le in Hq. by rewrite Hq, Et.
  - apply Z.ltb_ge in Et. replace (c * 10 ^ d / U <=? u64_max) with false; [by rewrite andb_false_r|].
    symmetry. apply Z.leb_gt. destruct (Z.le_gt_cases (c * 10 ^ d / U) u64_max) as [H|H]; [|done].
    apply Hlt in H. lia.
Qed.

(** Energy with the eight decimals of its column is moved exactly; an amount of currency loses
    less than one millionth; too large an amount is moved as zero and still counts as done. *)
Theorem raw_amounts c :
  (on_grid 8 c -> 0 <= c < 2 ^ 64 * 10 ^ 19 -> raw_amount 9 c * 10 ^ 19 = c)
  /\ (on_grid 16 c -> 0 <= c < 2 ^ 96 * 10 ^ 12 -> c < 2 ^ 64 * 10 ^ 22 ->
       raw_amount 6 c * 10 ^ 22 <= c < (raw_amount 6 c + 1) * 10 ^ 22)
  /\ (on_grid 16 c -> 2 ^ 64 * 10 ^ 19 <= c < 2 ^ 96 * 10 ^ 12 -> raw_amount 9 c = 0).
Proof.
  split_and!.
  - intros Hg Hc. assert (Hg' := Hg). apply (on_grid_mono 8 16) in Hg'; [|lia..].
    rewrite raw_amount_spec; [|by right|done|lia].
    replace (c * 10 ^ 9 <? 2 ^ 64 * U) with true by (symmetry; apply Z.ltb_lt; unfold U; lia).
    destruct Hg as [k ->]. change U with (10 ^ (28 - 8) * 10 ^ 8).
    replace (k * 10 ^ (28 - 8) * 10 ^ 9) with (k * 10 * (10 ^ (28 - 8) * 10 ^ 8)) by lia.
    rewrite Z.div_mul by done. simpl. lia.
  - intros Hg Hc Hb. rewrite raw_amount_spec; [|by left|done|done].
    replace (c * 10 ^ 6 <? 2 ^ 64 * U) with true by (symmetry; apply Z.ltb_lt; unfold U; lia).
    pose proof (Z.div_mod (c * 10 ^ 6) U ltac:(done)). pose proof (Z.mod_pos_bound (c * 10 ^ 6) U eq_refl).
    unfold U in *. lia.
  - intros Hg Hc. rewrite raw_amount_spec; [|by right|done|lia].
    replace (c * 10 ^ 9 <? 2 ^ 64 * U) with false; [done|]. symmetry. apply Z.ltb_ge. unfold U. lia.
Qed.

(** The parts an order's commitment is paid out in never add up to more units than were locked for
    the whole, as long as the whole is less than 2^64 units. *)
Theorem payouts_within_lock d l : d = 6 \/ d = 9 ->
  Forall (fun c => on_grid 16 c /\ 0 <= c) l -> sumZ id l < 2 ^ 96 * 10 ^ 12 ->
  sumZ id l * 10 ^ d < 2 ^ 64 * U -> sumZ (raw_amount d) l <= raw_amount d (sumZ id l).
Proof.
  intros Hd. induction l as [|c l IH]; intros Hl Hs Hf.
  - simpl. rewrite raw_amount_spec; [done|done|apply on_grid_0|done].
  - apply list.Forall_cons in Hl as [[Hg Hc] Hl]. simpl in *.
    assert (Hn : 0 <= sumZ id l).
    { apply sumZ_nonneg. eapply list.Forall_impl; [exact Hl|]. by intros x [_ H]. }
    assert (Hgl : on_grid 16 (sumZ id l)).
    { apply sumZ_divide. eapply list.Forall_impl; [exact Hl|]. by intros x [H _]. }
    change (id c) with c in *. assert (Hp : 0 < 10 ^ d) by (destruct Hd as [-> | ->]; done).
    assert (Hm : (c + sumZ id l) * 10 ^ d = c * 10 ^ d + sumZ id l * 10 ^ d) by ring.
    assert (0 <= c * 10 ^ d) by (apply Z.mul_nonneg_nonneg; lia).
    assert (0 <= sumZ id l * 10 ^ d) by (apply Z.mul_nonneg_nonneg; lia).
    specialize (IH Hl ltac:(lia) ltac:(lia)). etransitivity; [apply Z.add_le_mono_l, IH|].
    rewrite !raw_amount_spec; try done; try lia; try by apply on_grid_add.
    repeat match goal with |- context [?a <? ?b] =>
      replace (a <? b) with true by (symmetry; apply Z.ltb_lt; lia) end.
    rewrite Hm. apply Z.div_le_lower_bound; [done|].
    pose proof (Z.mul_div_le (c * 10 ^ d) U eq_refl). pose proof (Z.mul_div_le (sumZ id l * 10 ^ d) U eq_refl). lia.
Qed.
End escrow.

(** ** Orders *)

Section orders.
Context `{NUM : Numerics} `{ENV : Env} `{CIPHER : Cipher} `{B64 : Base64} `{KP : Keypairs} `{TC : TokenChain}.
Variable secret : string.

(** No transfer is asked for, whatever happens to the tables. *)
Definition still {A} (m : TM A) : Prop := forall w,
  exists l, trace (m w).2 = trace w ++ l /\ asked_moves l = [].

Lemma harmless_still {A} (m : TM A) : harmless m -> still m.
Proof. intros H w. by destruct (H w). Qed.

Lemma still_exec (f : Db -> option Db) : still (exec f).
Proof.
  intros w. exists []. rewrite app_nil_r. split; [|done].
  unfold exec, pop_fault. destruct w as [d [|[] fs] tr]; simpl; try done; by destruct (f d).
Qed.

Lemma still_bind {A B} (m : TM A) (f : A -> TM B) : still m -> (forall a, still (f a)) -> still (m ≫= f).
Proof.
  intros Hm Hf w. destruct (Hm w) as (l & Hl & Hn). unfold mbind, M_bind.
  destruct (m w) as [[a|e] w1]; cbn [snd] in *; [|by exists l].
  destruct (Hf a w1) as (l' & Hl' & Hn'). exists (l ++ l').
  by rewrite Hl', Hl, asked_moves_app, Hn, Hn', (assoc_L (++)).
Qed.

Lemma still_attempt {A} (m : TM A) : still m -> still (attempt m).
Proof.
  intros Hm w. destruct (Hm w) as (l & Hl & Hn). exists l. unfold attempt.
  destruct (m w) as [[a|[]] w1]; done.
Qed.
#[local] Hint Resolve harmless_still still_exec still_bind still_attempt : harmless.

Lemma still_wallet user kp draws : still (create_missing_wallet secret user kp draws).
Proof.
  unfold create_missing_wallet. apply still_bind; [auto with harmless|]. intros [[e s] i].
  repeat (apply still_bind; [auto with harmless|intros]). auto with harmless.
Qed.

Lemma still_keypair user kp draws : still (order_keypair secret user kp draws).
Proof.
  unfold order_keypair. do 2 (apply still_bind; [auto with harmless|intros]).
  repeat case_match; auto using still_wallet with harmless.
Qed.

Lemma still_order real payer order side e p : still (create_chain_order real payer order side e p).
Proof.
  unfold create_chain_order. destruct real; [|auto with harmless].
  apply still_bind; [auto with harmless|intros market].
  apply still_bind; [apply still_attempt, harmless_still; by apply harmless_log|]. intros r.
  destruct (match r with Ok res => res | Err _ => _ end). auto with harmless.
Qed.

Lemma still_link order sig pda : still (link_order order sig pda).
Proof. apply still_exec. Qed.

(** What an order commits. *)
Definition commitment (side : OrderSide) (e p : Decimal) : string * Decimal :=
  match side with Buy => ("currency", dmul p e) | Sell => ("energy", e) end.

(** An order that was put on the chain asked for at most one lock, of its whole commitment; whether
    the chain confirmed it makes no difference to the outcome. *)
Theorem creation_moves user order side e p kp draws w w' :
  execute_on_chain_order_creation true secret user order side e p kp draws w = (Ok tt, w') ->
  exists l, trace w' = trace w ++ l /\ (asked_moves l = [] \/ exists mv d l', asked_moves l = [mv]
     /\ locks secret user (commitment side e p).2 (commitment side e p).1 d l' mv).
Proof.
  unfold execute_on_chain_order_creation. intros H.
  apply bind_Ok in H as (k & w1 & E1 & H). apply bind_Ok in H as ([sig pda] & w2 & E2 & H).
  apply bind_Ok in H as ([] & w3 & E3 & H).
  destruct (still_keypair user kp draws w) as (l1 & Hl1 & Hm1). rewrite E1 in Hl1.
  destruct (still_order true (kp_pubkey k) order side e p w1) as (l2 & Hl2 & Hm2). rewrite E2 in Hl2.
  destruct (still_link order sig pda w2) as (l3 & Hl3 & Hm3). rewrite E3 in Hl3. cbn [snd] in *.
  assert (Hs : exists l, trace w3 = trace w ++ l /\ asked_moves l = []).
  { exists (l1 ++ l2 ++ l3). rewrite !asked_moves_app, Hm1, Hm2, Hm3. split; [|done].
    rewrite Hl3, Hl2, Hl1. by rewrite !(assoc_L (++)). }
  clear - H Hs. destruct Hs as (l0 & Hl0 & Hm0).
  change (match side with Buy => _ | Sell => _ end) with (commitment side e p) in H.
  destruct (commitment side e p) as [asset amount]. destruct (0 <? amount).
  - unfold ignore, attempt, mbind, M_bind in H.
    pose proof (lock_outcome secret user order amount asset w3) as Ho.
    destruct (execute_escrow_lock true secret user order amount asset w3) as [r w4].
    assert (w' = w4) as -> by (destruct r as [s|[]]; cbn in H; unfold mret, M_ret in H; congruence).
    destruct Ho as [_ (l & Hl & Hc)]. exists (l0 ++ l). rewrite Hl, Hl0, asked_moves_app, Hm0.
    split; [by rewrite (assoc_L (++))|].
    destruct Hc as [[? _]|(mv & l' & -> & Hm & HP)]; [by left|right].
    exists mv, (st w3), l'. by rewrite asked_moves_app, Hm.
  - injection H as <-. exists l0. auto.
Qed.

(** Paying back what was never locked: an order whose lock failed is still refunded in full, out of
    the account that holds the others' tokens. *)
Theorem refund_without_lock user order side e p kp draws w w1 s w2 :
  execute_on_chain_order_creation true secret user order side e p kp draws w = (Ok tt, w1) ->
  moves (trace w1) = moves (trace w) ->
  execute_escrow_refund true user (commitment side e p).2 (commitment side e p).1 w1 = (Ok s, w2) ->
  exists mv l, moves (trace w2) = moves (trace w) ++ [mv]
    /\ pays MRefund user (commitment side e p).2 (commitment side e p).1 (st w1) l mv.
Proof.
  intros _ Hm Hr. pose proof (pay_from_escrow_outcome MRefund "User (Buyer) not found"
    "User has no wallet address" user (commitment side e p).2 (commitment side e p).1 w1) as Ho.
  unfold execute_escrow_refund in Hr. cbn [negb] in Hr. rewrite Hr in Ho.
  destruct Ho as [_ (l & Hl & [[_ ?]|(mv & l' & -> & Hn & Hp)])]; [done|]. exists mv, l'.
  split; [|exact Hp]. rewrite Hl, !moves_app, Hm, (moves_asked _ Hn). done.
Qed.

(** *** What the tables hold afterwards *)

Definition has_keys (u : User) : bool :=
  match u_encrypted_private_key u, u_encryption_iv u, u_wallet_salt u with
  | Some _, Some _, Some _ => true
  | _, _, _ => false
  end.

(** The user [user], who had no complete set of keys, was given a new wallet, in the place of any
    they had. *)
Definition rekeyed (user : Uuid) (d d' : Db) : Prop :=
  exists u wallet key salt iv, users d !! user = Some u /\ has_keys u = false
    /\ d' = set_users (<[user := set_user_keys wallet key salt iv u]> (users d)) d.

(** What the on-chain step of an order does to the tables: it may give its user a wallet, and it
    writes the signature (and the address) of the order, which it has done when it succeeds. *)
Definition on_chain_effect (real linked : bool) (user order : Uuid) (d d' : Db) : Prop :=
  exists d1, (d1 = d \/ rekeyed user d d1)
    /\ ((linked = false /\ d' = d1)
        \/ exists signature pda, update_order order (fun o => Some (set_order_link signature pda o)) d1 = Some d'
           /\ (real = false -> signature = "mock_order_sig_" +:+ uuid_to_string order /\ pda = None)).

Lemma hoare_harmless {A} P (m : TM A) E : harmless m -> (forall e d, P d -> E e d) ->
  hoare P m (fun _ => P) E.
Proof.
  intros Hm HE w Hw. destruct (Hm w) as [Hs _]. destruct (m w) as [[a|e] w']; cbn in Hs; rewrite Hs; auto.
Qed.

Lemma store_user_keys_rekeyed user wallet key salt iv d d' u :
  users d !! user = Some u -> has_keys u = false ->
  store_user_keys user wallet key salt iv d = Some d' -> rekeyed user d d'.
Proof.
  intros Hu Hk. unfold store_user_keys. rewrite Hu. destruct (_ && _); [|done].
  intros [= <-]. by exists u, wallet, key, salt, iv.
Qed.

Lemma order_keypair_effect user kp draws d0 :
  hoare (fun d => d = d0) (order_keypair secret user kp draws)
    (fun _ d => d = d0 \/ rekeyed user d0 d) (fun _ d => d = d0).
Proof.
  unfold order_keypair.
  eapply hoare_bind with (R := fun row d => d = d0 /\ row = users d0 !! user).
  { apply hoare_query. by intros d ->. }
  intros row. eapply hoare_bind with (R := fun u d => d = d0 /\ users d0 !! user = Some u).
  { apply hoare_expect. intros d [-> Hr]. destruct row; by split. }
  intros u. destruct (has_keys u) eqn:Ek; unfold has_keys in Ek.
  - destruct (u_encrypted_private_key u) as [k|]; [|done].
    destruct (u_encryption_iv u) as [i|]; [|done]. destruct (u_wallet_salt u) as [s|]; [|done].
    intros w [Hw _]. destruct (harmless_decrypt secret "" k s i w) as [Hs _].
    destruct (decrypt_keypair _ _ _ _ _ w) as [[a|e] w']; cbn in Hs; rewrite Hs; auto.
  - assert (G : hoare (fun d => d = d0 /\ users d0 !! user = Some u)
      (create_missing_wallet secret user kp draws)
      (fun _ d => d = d0 \/ rekeyed user d0 d) (fun _ d => d = d0)).
    { unfold create_missing_wallet. set (P := fun d => d = d0 /\ users d0 !! user = Some u).
      eapply hoare_bind with (R := fun _ => P);
        [apply hoare_harmless; [auto with harmless|by intros ? d []]|]. intros [[a b] c].
      do 3 (eapply hoare_bind with (R := fun _ => P);
        [apply hoare_harmless; [auto with harmless|by intros ? d []]|intros ?]).
      eapply hoare_bind with (R := fun _ d => rekeyed user d0 d); [|intros; by apply hoare_ret; right].
      apply hoare_exec. intros d [-> Hu]. split; [done|]. intros d' Hd.
      by eapply store_user_keys_rekeyed. }
    destruct (u_encrypted_private_key u), (u_encryption_iv u), (u_wallet_salt u); try exact G. done.
Qed.

(** The step, in every run. *)
Lemma on_chain_creation_effect real user order side e p kp draws w :
  let '(r, w') := execute_on_chain_order_creation real secret user order side e p kp draws w in
  on_chain_effect real (is_ok r) user order (st w) (st w').
Proof.
  set (d0 := st w).
  assert (H : hoare (fun d => d = d0)
    (execute_on_chain_order_creation real secret user order side e p kp draws)
    (fun _ d => on_chain_effect real true user order d0 d)
    (fun _ d => on_chain_effect real false user order d0 d)).
  { unfold execute_on_chain_order_creation.
    eapply hoare_bind with (R := fun _ d => d = d0 \/ rekeyed user d0 d).
    { eapply hoare_conseq; [apply (order_keypair_effect _ _ _ d0)|done|done|].
      intros _ d ->. exists d0. auto. }
    intros keypair.
    eapply hoare_bind with (R := fun l d => (d = d0 \/ rekeyed user d0 d)
      /\ (real = false -> l = ("mock_order_sig_" +:+ uuid_to_string order, None))).
    { unfold create_chain_order. destruct real; [|by apply hoare_ret].
      eapply hoare_conseq with (P' := fun d => d = d0 \/ rekeyed user d0 d)
        (Q' := fun _ d => d = d0 \/ rekeyed user d0 d) (E' := fun _ d => d = d0 \/ rekeyed user d0 d);
        [|done|by intros|by intros ? d ?; exists d; auto].
      eapply hoare_bind; [apply hoare_harmless; [auto with harmless|auto]|intros market].
      eapply hoare_bind with (R := fun _ d => d = d0 \/ rekeyed user d0 d); [|].
      { intros v Hv. unfold attempt, log_call. by destruct (order_answer _ _ _ _ _ _). }
      intros r. destruct (match r with Ok res => res | Err _ => _ end). by apply hoare_ret. }
    intros [signature pda].
    eapply hoare_bind with (R := fun _ d => on_chain_effect real true user order d0 d).
    { unfold link_order. apply hoare_exec. intros d [Hd Hl]. split; [by exists d; auto|].
      intros d' Hu. exists d. split; [done|]. right. exists signature, pda. split.
      - unfold update_order in *. destruct (orders d !! order) as [o|]; [|done].
        by destruct (varchar 88 (Some signature)).
      - intros Hr. specialize (Hl Hr). by injection Hl as -> ->. }
    intros []. destruct (match side with Buy => _ | Sell => _ end) as [asset amount].
    assert (HE : forall d, on_chain_effect real true user order d0 d ->
      on_chain_effect real false user order d0 d).
    { intros d (d1 & H1 & [[? _]|H2]); [done|]. exists d1. auto. }
    destruct (0 <? amount); [|by apply hoare_ret].
    intros v Hv. unfold ignore, attempt, mbind, M_bind.
    assert (Hs : st (execute_escrow_lock real secret user order amount asset v).2 = st v).
    { destruct real; [|done]. pose proof (lock_outcome secret user order amount asset v) as Ho.
      destruct (execute_escrow_lock _ _ _ _ _ _ v). by destruct Ho. }
    destruct (execute_escrow_lock _ _ _ _ _ _ v) as [[s|[]] v']; cbn in Hs |- *; rewrite Hs; auto. }
  specialize (H w eq_refl). by destruct (execute_on_chain_order_creation _ _ _ _ _ _ _ _ _ w) as [[[]|f] w'].
Qed.

(** *** Wallets *)

(** An order of a user without keys gives them a new wallet, in the place of any they had linked; the
    columns stored with it are the new keypair's. *)
Theorem missing_keys_replace_wallet user kp draws w k w' u :
  draws_ok draws -> users (st w) !! user = Some u -> has_keys u = false ->
  order_keypair secret user kp draws w = (Ok k, w') ->
  k = kp /\ exists e s i,
    users (st w') = <[user := set_user_keys (kp_pubkey kp) e s i u]> (users (st w))
    /\ decrypt_private_key secret (b64_encode e) (b64_encode s) (b64_encode i) = Ok (kp_bytes kp).
Proof.
  intros Hd Ha Hn H. unfold order_keypair in H. apply bind_Ok in H as (row & w1 & E1 & H).
  pose proof (query_st _ _ _ _ E1) as Hs1. apply query_Ok in E1 as (-> & _). rewrite Ha in H.
  cbn in H. unfold mbind, M_bind, expect, mret, M_ret in H.
  assert (Hw : create_missing_wallet secret user kp draws w1 = (Ok k, w')).
  { unfold has_keys in Hn.
    by destruct (u_encrypted_private_key u), (u_encryption_iv u), (u_wallet_salt u). }
  clear H. unfold create_missing_wallet in Hw. apply bind_Ok in Hw as ([[eb sb] ib] & w2 & E2 & Hw).
  unfold run_res in E2. destruct (encrypt_private_key draws secret (kp_bytes kp)) as [t|] eqn:Et; [|done].
  injection E2 as -> <-.
  apply encrypt_private_key_raw in Et as ([[c s] i] & Hr & Hx); [|done]. unfold encode3 in Hx.
  injection Hx as -> -> ->.
  unfold text_res in Hw. rewrite !b64_roundtrip in Hw. cbn in Hw. unfold mbind, M_bind in Hw. cbn in Hw.
  destruct (exec _ w1) as [[[]|] w3] eqn:E3; [|done]. injection Hw as <- <-. split; [done|].
  apply exec_Ok in E3 as [Hf _]. rewrite Hs1 in Hf. unfold store_user_keys in Hf. rewrite Ha in Hf.
  destruct (_ && _); [|done]. injection Hf as Hst. rewrite <- Hst. cbn.
  destruct (raw_roundtrip _ _ _ _ _ _ Hd Hr) as [_ Hdec].
  exists c, s, i. split; [done|]. unfold decrypt_private_key. by rewrite !b64_roundtrip.
Qed.

(** A key stored with a nonce of another length than twelve bytes, as old wallets have, panics every
    order of its user, on the chain or in the mock. *)
Theorem legacy_key_panics real user order side e p kp draws w u k s n :
  faults w = [] -> users (st w) !! user = Some u ->
  u_encrypted_private_key u = Some k -> u_wallet_salt u = Some s -> u_encryption_iv u = Some n ->
  length n <> NONCE_LEN -> is_ok (pbkdf2 secret s) = true ->
  (execute_on_chain_order_creation real secret user order side e p kp draws w).1 = Err FPanic.
Proof.
  intros Hf Ha Hk Hs Hn Hl Hp. unfold execute_on_chain_order_creation, order_keypair.
  unfold mbind at 1. unfold M_bind at 1. unfold mbind at 1. unfold M_bind at 1.
  unfold query, pop_fault. rewrite Hf, Ha. unfold expect, mbind, M_bind. cbn. rewrite Hk, Hn, Hs.
  unfold decrypt_keypair, mbind, M_bind, decrypt_private_key. rewrite !b64_roundtrip. cbn.
  unfold decrypt_private_key_bytes. destruct (pbkdf2 secret s); [|done]. cbn.
  unfold nonce_from_slice. by apply Nat.eqb_neq in Hl as ->.
Qed.

Lemma log_call_Ok {A} (answer : list Event -> res string A) event (w : world Db Event) a w' :
  log_call answer event w = (Ok a, w') -> EvOnChain (event (Ok a)) ∈ trace w'.
Proof.
  unfold log_call. destruct (answer _); simpl; [|done]. intros [= -> <-]. cbn.
  apply elem_of_app. right. by apply list_elem_of_singleton.
Qed.

(** The swap knows one name of the energy mint, the escrow two: with [EnergyTokenMint] set to another
    mint, what was locked and what is swapped are different tokens, in different accounts. *)
Theorem swap_other_mint mint buyer seller bp sp amount price wheeling w x w' :
  env_var "EnergyTokenMint" = Some mint -> mint <> swap_energy_mint ->
  execute_atomic_swap true buyer seller bp sp amount price wheeling w = (Ok x, w') ->
  exists c, EvOnChain (OSwap c true) ∈ trace w'
    /\ as_seller_energy_escrow c = ata (as_authority c) (as_energy_mint c)
    /\ as_energy_mint c <> select_mint "energy"
    /\ as_amount c = raw_amount 9 amount /\ as_wheeling c = raw_amount 6 wheeling.
Proof.
  intros Henv Hne H. unfold execute_atomic_swap in H. cbn [negb] in H.
  do 8 (apply bind_Ok in H as (? & ? & _ & H)). apply log_call_Ok in H. eexists. split; [exact H|]. cbn.
  unfold select_mint. rewrite Henv. by split_and!.
Qed.

(** A user without a wallet panics the swap. *)
Theorem swap_without_wallet_panics buyer seller bp sp amount price wheeling w a :
  faults w = [] -> address_ok bp = Ok tt -> address_ok sp = Ok tt ->
  users (st w) !! buyer = Some a -> u_wallet_address a = None ->
  (execute_atomic_swap true buyer seller bp sp amount price wheeling w).1 = Err FPanic.
Proof.
  intros Hf Hb Hs Ha Hw. unfold execute_atomic_swap, fetch_user_wallet, mbind, M_bind, text_res.
  cbn [negb]. rewrite Hb, Hs. cbn. unfold query, pop_fault. rewrite Hf, Ha. cbn. by rewrite Hw.
Qed.
End orders.

(** ** A concrete market *)

Section demo.
#[local] Existing Instance std_numerics.
#[local] Existing Instance demo_cipher.
#[local] Existing Instance demo_base64.
#[local] Instance two_mints : Env := {|
  env_var n := if (n =? "EnergyTokenMint")%string then Some "MintA"
               else if (n =? "ENERGY_TOKEN_MINT")%string then Some "MintB" else None;
  db_error_text := ""; decimal_from_str _ := None |}.

(** The user has no tokens to lock; the gateway has. *)
#[local] Instance demo_tokens : TokenChain := {|
  address_ok _ := Ok tt;
  ata owner mint := owner +:+ ":" +:+ mint;
  market_address := Ok "market";
  default_signature := "111";
  authority_answer _ := Ok "Gateway";
  ensure_answer _ wallet mint := Ok (wallet +:+ ":" +:+ mint);
  move_answer _ m := if decide (mv_kind m = MLock) then Err "insufficient funds" else Ok "moved";
  order_answer _ _ _ _ _ _ := Ok ("sig", "pda");
  swap_answer _ _ := Ok "swapped" |}.

Definition chain_user (wallet : option string) (iv : option bytes) : User :=
  {| u_balance := Some (100 * U); u_locked_amount := Some 0; u_locked_energy := Some 0;
     u_wallet_address := wallet;
     u_encrypted_private_key := match iv with Some _ => Some [] | None => None end;
     u_wallet_salt := match iv with Some _ => Some [] | None => None end; u_encryption_iv := iv |}.

Definition chain_world (u : User) : world Db Event :=
  World (set_users {[ 1%N := u ]} (set_orders {[ 5%N := demo_order 5 1 Sell (2 * U) U ]} empty_db)) [] [].

Definition chain_keypair : Keypair := {| kp_pubkey := "NewWa11et"; kp_bytes := [Byte.x2a] |}.

Definition after_order : world Db Event :=
  (execute_on_chain_order_creation true "secret" 1 5 Sell (2 * U) U chain_keypair demo_draws
     (chain_world (chain_user (Some "Linked") None))).2.

(** Two kilowatt hours that were never locked are paid out. *)
Lemma refund_without_lock_witness : exists mv,
  moves (trace (execute_escrow_refund true 1 (2 * U) "energy" after_order).2) = [mv]
  /\ mv_amount mv = 2000000000 /\ mv_from mv = "Gateway:MintA" /\ mv_to mv = "NewWa11et:MintA".
Proof.
  destruct (refund_without_lock "secret" 1 5 Sell (2 * U) U chain_keypair demo_draws
    (chain_world (chain_user (Some "Linked") None)) after_order "moved"
    (execute_escrow_refund true 1 (2 * U) "energy" after_order).2)
    as (mv & l & Hm & Hp); [vm_compute; reflexivity..|].
  exists mv. split; [exact Hm|]. vm_compute in Hm. injection Hm as <-. split_and!; reflexivity.
Defined.

Lemma creation_moves_witness : exists mv,
  asked_moves (trace after_order) = [mv] /\ mv_kind mv = MLock /\ moves (trace after_order) = [].
Proof.
  destruct (creation_moves "secret" 1 5 Sell (2 * U) U chain_keypair demo_draws
    (chain_world (chain_user (Some "Linked") None)) after_order) as (l & Hl & [H|(mv & d & l' & H & Hk)]);
    [vm_compute; reflexivity| |]; cbn in Hl; rewrite <- Hl in H; [vm_compute in H; discriminate|].
  exists mv. split_and!; [exact H| |vm_compute; reflexivity].
  by destruct Hk as (? & ? & ? & ? & ? & ? & ? & ? & _ & _ & _ & _ & _ & _ & _ & ->).
Defined.

Lemma raw_amounts_witness :
  raw_amount 9 (3 * G8) * 10 ^ 19 = 3 * G8 /\ raw_amount 9 (20000000000 * U) = 0.
Proof.
  split.
  - destruct (raw_amounts (3 * G8)) as (H & _ & _). apply H; [exists 3; vm_compute; reflexivity|].
    split; [vm_compute; discriminate|vm_compute; reflexivity].
  - destruct (raw_amounts (20000000000 * U)) as (_ & _ & H).
    apply H; [exists (20000000000 * 10 ^ 16); vm_compute; reflexivity|].
    split; [vm_compute; discriminate|vm_compute; reflexivity].
Defined.

Lemma payouts_within_lock_witness :
  sumZ (raw_amount 6) [dec 15 7; dec 15 7] <= raw_amount 6 (sumZ id [dec 15 7; dec 15 7]).
Proof.
  apply (payouts_within_lock 6 [dec 15 7; dec 15 7]); [by left| |vm_compute; reflexivity|vm_compute; reflexivity].
  assert (H : on_grid 16 (dec 15 7) /\ 0 <= dec 15 7) by (split; [exists (15 * 10 ^ 9); vm_compute; reflexivity|vm_compute; discriminate]).
  by repeat (apply list.Forall_cons; split).
Defined.

Lemma missing_keys_replace_wallet_witness : exists (w' : world Db Event) u',
  users (st w') !! 1%N = Some u' /\ u_wallet_address u' = Some "NewWa11et".
Proof.
  set (w := chain_world (chain_user (Some "Linked") None)).
  destruct (order_keypair "secret" 1 chain_keypair demo_draws w) as [r w'] eqn:E.
  assert (Hr : r = Ok chain_keypair) by (vm_compute in E; injection E as <- _; reflexivity). subst r.
  destruct (missing_keys_replace_wallet "secret" 1 chain_keypair demo_draws w chain_keypair w'
    (chain_user (Some "Linked") None)) as (_ & e & s & i & Hu & _);
    [split; reflexivity|reflexivity|reflexivity|exact E|].
  eexists w', _. split; [by rewrite Hu, lookup_insert_eq|reflexivity].
Defined.

Lemma legacy_key_panics_witness :
  (execute_on_chain_order_creation false "secret" 1 5 Sell U U chain_keypair demo_draws
     (chain_world (chain_user (Some "Linked") (Some (repeat Byte.x00 16))))).1 = Err FPanic.
Proof.
  apply (legacy_key_panics "secret" false 1 5 Sell U U chain_keypair demo_draws _
    (chain_user (Some "Linked") (Some (repeat Byte.x00 16))) [] [] (repeat Byte.x00 16));
    try reflexivity. discriminate.
Defined.

Lemma swap_other_mint_witness : exists x w' c,
  execute_atomic_swap true 1 1 "buy" "sell" U U 0 (chain_world (chain_user (Some "Linked") None)) = (Ok x, w')
  /\ EvOnChain (OSwap c true) ∈ trace w' /\ as_energy_mint c <> select_mint "energy".
Proof.
  destruct (execute_atomic_swap true 1 1 "buy" "sell" U U 0 (chain_world (chain_user (Some "Linked") None)))
    as [r w'] eqn:E.
  assert (Hr : r = Ok "swapped") by (vm_compute in E; injection E as <- _; reflexivity). subst r.
  destruct (swap_other_mint "MintA" 1 1 "buy" "sell" U U 0 (chain_world (chain_user (Some "Linked") None))
    "swapped" w') as (c & Hc & _ & Hm & _); [reflexivity|discriminate|exact E|].
  exists "swapped", w', c. done.
Defined.

Lemma swap_without_wallet_panics_witness :
  (execute_atomic_swap true 1 1 "buy" "sell" U U 0 (chain_world (chain_user None None))).1 = Err FPanic.
Proof. by apply (swap_without_wallet_panics 1 1 "buy" "sell" U U 0 _ (chain_user None None)). Defined.
End demo.
