(* ===== verification/Orders.v ===== *)
(** Market epochs and the life of an order: [src/services/market_clearing/epoch.rs]
    and [src/services/market_clearing/orders.rs].

    Time is nanoseconds since the Unix epoch; [civil] is chrono's date of a day
    number and a parameter, hours and minutes are arithmetic.  Fresh identifiers
    ([Uuid::new_v4]) and the clock ([Utc::now]) are arguments, and so are the keypair and the draws
    of a wallet the on-chain part of creating an order ([OnChain]) may have to make. *)
From S2P Require Import Prelude Numerics Errors Store Schema Escrow Crypto OnChain.

Open Scope string_scope.
Open Scope Z_scope.

(** ** Epochs *)

Definition nanos_per_min : Z := 60000000000.
Definition nanos_per_hour : Z := 3600000000000.
Definition nanos_per_day : Z := 86400000000000.

Class Calendar := {
  civil : Z -> Z * Z * Z;
  civil_range n : let '(_, m, d) := civil n in 1 <= m <= 12 /\ 1 <= d <= 31;
  civil_inj n n' : civil n = civil n' -> n = n';
}.

Definition hour (t : DateTime) : Z := (t / nanos_per_hour) mod 24.
Definition minute (t : DateTime) : Z := (t / nanos_per_min) mod 60.
Definition second (t : DateTime) : Z := (t / 1000000000) mod 60.

Definition with_minute (m : Z) (t : DateTime) : option DateTime :=
  if m <? 60 then Some (t + (m - minute t) * nanos_per_min) else None.
Definition with_second (s : Z) (t : DateTime) : option DateTime :=
  if s <? 60 then Some (t + (s - second t) * 1000000000) else None.
Definition with_nanosecond (n : Z) (t : DateTime) : option DateTime :=
  if n <? 2000000000 then Some (t - t mod 1000000000 + n) else None.

Section epochs.
Context `{CAL : Calendar}.

Definition epoch_number (timestamp : DateTime) : Z :=
  let '(y, m, d) := civil (timestamp / nanos_per_day) in
  y * 100000000 + m * 1000000 + d * 10000 + hour timestamp * 100
  + (minute timestamp / 15) * 15.

Definition epoch_start (timestamp : DateTime) : DateTime :=
  default timestamp
    (dt ← with_minute ((minute timestamp / 15) * 15) timestamp;
     dt ← with_second 0 dt;
     with_nanosecond 0 dt).

Definition epoch_end (timestamp : DateTime) : DateTime :=
  epoch_start timestamp + 15 * nanos_per_min.

Definition set_epoch_status (s : EpochStatus) (e : MarketEpoch) : MarketEpoch :=
  {| e_id := e_id e; e_epoch_number := e_epoch_number e; e_start_time := e_start_time e;
     e_end_time := e_end_time e; e_status := s; e_clearing_price := e_clearing_price e;
     e_total_volume := e_total_volume e; e_total_orders := e_total_orders e;
     e_matched_orders := e_matched_orders e |}.

Definition epoch_rows (d : Db) : list MarketEpoch := (map_to_list (epochs d)).*2.

(** [ORDER BY start_time DESC LIMIT 1] among the epochs that contain [now]. *)
Definition get_current_epoch (now : DateTime) : TM (option MarketEpoch) :=
  query (fun d => head (sort_by (fun a b => e_start_time b <=? e_start_time a)
    (List.filter (fun e => (e_start_time e <=? now) && (now <? e_end_time e)) (epoch_rows d)))).

Definition get_epoch_by_number (n : Z) : TM (option MarketEpoch) :=
  query (fun d => head (List.filter (fun e => e_epoch_number e =? n) (epoch_rows d))).

(** The status an existing epoch gets at time [now]. *)
Definition refreshed_status (timestamp now : DateTime) (old : EpochStatus) : EpochStatus :=
  if (epoch_start timestamp <=? now) && (now <? epoch_end timestamp) then EpochActive
  else if epoch_end timestamp <=? now then EpochCleared
  else old.

Definition get_or_create_epoch (timestamp now : DateTime) (epoch_id : Uuid) : TM MarketEpoch :=
  found ← get_epoch_by_number (epoch_number timestamp);
  match found with
  | Some existing =>
      let new_status := refreshed_status timestamp now (e_status existing) in
      if decide (new_status = e_status existing) then mret existing
      else
        exec (fun d => Some (set_epochs (alter (set_epoch_status new_status) (e_id existing)
                               (epochs d)) d)) ;;
        mret (set_epoch_status new_status existing)
  | None =>
      let epoch :=
        {| e_id := epoch_id; e_epoch_number := epoch_number timestamp;
           e_start_time := epoch_start timestamp; e_end_time := epoch_end timestamp;
           e_status := EpochPending; e_clearing_price := None; e_total_volume := None;
           e_total_orders := None; e_matched_orders := None |} in
      exec (fun d =>
        (* epoch_number is UNIQUE, id is the primary key *)
        match epochs d !! epoch_id,
              head (List.filter (fun e => e_epoch_number e =? epoch_number timestamp)
                      (epoch_rows d)) with
        | None, None => Some (set_epochs (<[epoch_id := epoch]> (epochs d)) d)
        | _, _ => None
        end) ;;
      mret epoch
  end.

Definition update_epoch_statistics `{Numerics} (epoch_id : Uuid) (total_volume : Decimal)
    (matched_orders : Z) : TM unit :=
  total_orders ← query (fun d => Z.of_nat (length (List.filter (fun o =>
      bool_decide (o_epoch_id o = Some epoch_id)
      && bool_decide (o_status o = Pending \/ o_status o = Filled))
    (map_to_list (orders d)).*2)));
  exec (fun d =>
    v ← num8 total_volume;
    Some (set_epochs (alter (fun e =>
      {| e_id := e_id e; e_epoch_number := e_epoch_number e; e_start_time := e_start_time e;
         e_end_time := e_end_time e; e_status := EpochCleared;
         e_clearing_price := e_clearing_price e; e_total_volume := Some v;
         e_total_orders := Some total_orders; e_matched_orders := Some matched_orders |})
      epoch_id (epochs d)) d)).

(** [WHERE status IN ('cleared', 'settled') ORDER BY epoch_number DESC LIMIT n]. *)
Definition get_market_statistics (n : nat) : TM (list MarketEpoch) :=
  query (fun d => take n (sort_by (fun a b => e_epoch_number b <=? e_epoch_number a)
    (List.filter (fun e => bool_decide (e_status e = EpochCleared \/ e_status e = EpochSettled))
      (epoch_rows d)))).
End epochs.

(** ** Orders *)

Record OrderConfig := {
  use_onchain_balance_for_escrow : bool;
  energy_token_mint : string;
  currency_token_mint : string;
  currency_decimals : Z;
  oc_enable_real_blockchain : bool;
  oc_encryption_secret : string;
}.

(** What creating an order may draw for its user: a keypair, and the salt and nonce to encrypt it. *)
Record NewWallet := { nw_keypair : Keypair; nw_draws : Draws }.

(** What a cancellation reads of an order. *)
Definition order_core (o : TradingOrderDb)
    : Uuid * OrderSide * Decimal * Decimal * option Decimal * OrderStatus :=
  (o_user_id o, o_side o, o_energy_amount o, o_price_per_kwh o, o_filled_amount o, o_status o).

Section orders.
Context `{NUM : Numerics} `{CAL : Calendar} `{CH : Chain} `{ENV : Env} `{CIPHER : Cipher} `{B64 : Base64}
        `{KP : Keypairs} `{TC : TokenChain}.
Context (config : OrderConfig).

(** The unfilled part of an order row: [energy_amount - COALESCE(filled_amount, 0)],
    computed by the server. *)
Definition remaining_sql (o : TradingOrderDb) : Decimal := o_energy_amount o - filled o.

Record OrderBookEntry := {
  b_order_id : Uuid;
  b_user_id : Uuid;
  b_side : OrderSide;
  b_energy_amount : Decimal;
  b_original_amount : Decimal;
  b_price_per_kwh : Decimal;
  b_created_at : option DateTime;
  b_zone_id : option Z;
}.

Definition book_entry (o : TradingOrderDb) : OrderBookEntry :=
  {| b_order_id := o_id o; b_user_id := o_user_id o; b_side := o_side o;
     b_energy_amount := remaining_sql o; b_original_amount := o_energy_amount o;
     b_price_per_kwh := o_price_per_kwh o; b_created_at := o_created_at o;
     b_zone_id := o_zone_id o |}.

Definition in_book (epoch_id : Uuid) (side : OrderSide) (o : TradingOrderDb) : bool :=
  bool_decide (o_status o = Pending \/ o_status o = PartiallyFilled)
  && bool_decide (o_side o = side) && bool_decide (o_epoch_id o = Some epoch_id).

Definition created_le (a b : option DateTime) : bool :=
  match a, b with
  | Some x, Some y => x <=? y
  | _, None => true            (* NULLS LAST *)
  | None, Some _ => false
  end.

Definition book_side (epoch_id : Uuid) (side : OrderSide) (d : Db) : list OrderBookEntry :=
  sort_by (fun a b =>
    let pa := b_price_per_kwh a in let pb := b_price_per_kwh b in
    match side with
    | Buy => (pb <? pa) || ((pa =? pb) && created_le (b_created_at a) (b_created_at b))
    | Sell => (pa <? pb) || ((pa =? pb) && created_le (b_created_at a) (b_created_at b))
    end)
  (book_entry <$> List.filter (in_book epoch_id side) (map_to_list (orders d)).*2).

Definition get_order_book (epoch_id : Uuid) : TM (list OrderBookEntry * list OrderBookEntry) :=
  buys ← query (book_side epoch_id Buy);
  sells ← query (book_side epoch_id Sell);
  mret (buys, sells).

(** [if use_onchain_balance { .. }]: the wallet must hold [required] tokens. *)
Definition onchain_check (wallet : option string) (mint : string) (decimals : Z)
    (amount : Decimal) : TM unit :=
  if use_onchain_balance_for_escrow config then
    w ← expect (FMsg "User wallet address required for on-chain check") wallet;
    if negb (parse_pubkey w) then fail (FMsg "Invalid user wallet address")
    else if negb (parse_pubkey mint) then fail (FMsg "Invalid mint config")
    else
      required ← expect (FMsg "Amount too large")
                   (to_u64 (dmul amount (dec (wrap_u64 (10 ^ decimals)) 0)));
      balance ← get_token_balance w mint;
      if balance <? required then fail (FMsg "Insufficient on-chain balance") else mret ()
  else mret ().

Definition validated_price (order_type : OrderType) (price : option Decimal)
    : res failure Decimal :=
  match order_type with
  | Limit =>
      match price with
      | None => Err (FMsg "Price per kWh is required for Limit orders")
      | Some p => if p <=? 0 then Err (FMsg "Price per kWh must be positive") else Ok p
      end
  | Market => Ok 0
  end.

(** Columns the [INSERT] does not name have the table's defaults; that of
    [trigger_status] is [pending]. *)
Definition new_order_row (order_id user_id : Uuid) (order_type : OrderType) (side : OrderSide)
    (energy price : Decimal) (expires_at now : DateTime) (epoch_id : option Uuid)
    (zone_id : option Z) (meter_id : option Uuid) (token : option string) : TradingOrderDb :=
  {| o_id := order_id; o_user_id := user_id; o_order_type := order_type; o_side := side;
     o_energy_amount := energy; o_price_per_kwh := price; o_filled_amount := Some 0;
     o_status := Pending; o_expires_at := Some expires_at; o_created_at := Some now;
     o_filled_at := None; o_epoch_id := epoch_id; o_zone_id := zone_id;
     o_meter_id := meter_id; o_refund_tx_signature := None; o_order_pda := None; o_blockchain_tx_signature := None;
     o_session_token := token; o_is_confidential := false; o_energy_source := None;
     o_trigger_price := None; o_trigger_type := None; o_trigger_status := Some TrigPending;
     o_trailing_offset := None; o_triggered_at := None |}.

(** Step 4 of [create_order]: lock funds or energy, inside the transaction. *)
Definition escrow_order (user : User) (user_id order_id : Uuid) (side : OrderSide)
    (energy price : Decimal) : TM unit :=
  match side with
  | Buy =>
      let total := dmul energy price in
      onchain_check (u_wallet_address user) (currency_token_mint config)
        (currency_decimals config) total ;;
      if default 0 (u_balance user) <? total
      then fail (FMsg "Insufficient DB balance for escrow")
      else
        exec (update_user user_id (add_balance_locked (- total) total)) ;;
        exec (insert_escrow user_id order_id total "currency" "buy_lock"
                ("Buy order " +:+ uuid_to_string order_id +:+ " escrow"))
  | Sell =>
      onchain_check (u_wallet_address user) (energy_token_mint config) 9 energy ;;
      exec (update_user user_id (add_locked_energy energy)) ;;
      exec (insert_escrow user_id order_id energy "energy" "sell_lock"
              ("Sell order " +:+ uuid_to_string order_id +:+ " energy lock"))
  end.

Record OrderRequest := {
  q_user_id : Uuid;
  q_side : OrderSide;
  q_order_type : OrderType;
  q_energy_amount : Decimal;
  q_price_per_kwh : option Decimal;
  q_expiry_time : option DateTime;
  q_zone_id : option Z;
  q_meter_id : option Uuid;
  q_session_token : option string;
}.

(** The transaction of [create_order]; its value is the meter type used by the
    announcement.  [meter_type]: the [meter_registry] table.  A failure of that last
    query is ignored, although it has aborted the transaction. *)
Definition create_order_tx (q : OrderRequest) (price : Decimal) (order_id epoch_id : Uuid)
    (now : DateTime) (meter_type : Uuid -> option string) : TM (option string) :=
  with_tx_aborted (
    exec (insert_order (new_order_row order_id (q_user_id q) (q_order_type q) (q_side q)
            (q_energy_amount q) price
            (default (now + nanos_per_day) (q_expiry_time q)) now (Some epoch_id)
            (q_zone_id q) (q_meter_id q) None)) ;;
    row ← query (fun d => users d !! q_user_id q);
    user ← expect FDb row;
    escrow_order user (q_user_id q) order_id (q_side q) (q_energy_amount q) price ;;
    match q_meter_id q with
    | None => mret (None, false)
    | Some mid =>
        r ← attempt (query (fun _ => meter_type mid));
        mret match r with Ok o => (o, false) | Err _ => (None, true) end
    end).

Definition create_order (q : OrderRequest) (order_id new_epoch_id : Uuid) (now : DateTime)
    (meter_type : Uuid -> option string) (wallet : NewWallet) : TM Uuid :=
  if q_energy_amount q <=? 0 then fail (FMsg "Energy amount must be positive")
  else
    match validated_price (q_order_type q) (q_price_per_kwh q) with
    | Err e => fail e
    | Ok price =>
        epoch ← get_or_create_epoch now now new_epoch_id;
        source ← create_order_tx q price order_id (e_id epoch) now meter_type;
        emit (EvOrderCreated order_id (q_user_id q) (q_energy_amount q) price
                match q_side q with
                | Buy => None
                | Sell => Some (default "solar" source)
                end) ;;
        emit (EvAuditOrderCreated (q_user_id q) order_id (q_side q) (q_energy_amount q) price) ;;
        execute_on_chain_order_creation (oc_enable_real_blockchain config) (oc_encryption_secret config)
          (q_user_id q) order_id (q_side q) (q_energy_amount q) price
          (nw_keypair wallet) (nw_draws wallet) ;;
        mret order_id
    end.

Definition update_order_status (order_id : Uuid) (status : OrderStatus) : TM unit :=
  exec (update_status order_id status).

(** [filled_amount = filled_amount + $1]: NULL stays NULL. *)
Definition update_order_filled_amount (order_id : Uuid) (amount : Decimal) : TM unit :=
  exec (update_order order_id (fun o =>
    f ← col_add (o_filled_amount o) amount;
    Some (set_order_fill f (o_status o) o))).

(** The refund inside the transaction of [cancel_order]. *)
Definition refund_unfilled (user_id : Uuid) (side : OrderSide) (unfilled price : Decimal)
    : TM unit :=
  match side with
  | Buy =>
      let refund := dmul unfilled price in
      exec (update_user user_id (add_balance_locked refund (- refund)))
  | Sell => exec (update_user user_id (add_locked_energy (- unfilled)))
  end.

Definition queue_blockchain_task (t : RefundTask) : TM unit :=
  exec (fun d => Some (set_tasks (refund_tasks d ++ [t]) d)).

Definition cancel_order (order_id user_id : Uuid) : TM unit :=
  row ← query (fun d => orders d !! order_id);
  match row with
  | None => fail (FApi (NotFound "Order not found"))
  | Some order =>
      if negb (o_user_id order =? user_id)%N
      then fail (FApi (Forbidden "Order does not belong to user"))
      else if negb (bool_decide (o_status order = Pending \/ o_status order = PartiallyFilled))
      then fail (FApi (BadRequest "Order cannot be cancelled"))
      else
        let unfilled := dsub (o_energy_amount order) (filled order) in
        if unfilled <=? 0
        then fail (FApi (BadRequest "Order is fully filled and cannot be cancelled"))
        else
          let price := o_price_per_kwh order in
          with_tx (
            refund_unfilled user_id (o_side order) unfilled price ;;
            exec (release_escrow (fun r => bool_decide (er_order_id r = Some order_id)
                                           && (er_status r =? "locked")%string)
                    (Some "Order cancelled - refunded unfilled portion")) ;;
            exec (update_status order_id Cancelled)) ;;
          emit (EvOrderUpdate order_id user_id (OrderSide_as_str (o_side order)) "cancelled"
                  (o_energy_amount order) (filled order) 0 price) ;;
          let '(asset_type, refund) :=
            match o_side order with
            | Buy => ("currency", dmul unfilled price)
            | Sell => ("energy", unfilled)
            end in
          if 0 <? refund then
            r ← attempt (chain_call (EscrowRefund user_id refund asset_type));
            match r with
            | Ok _ => mret ()
            | Err _ =>
                ignore (queue_blockchain_task
                  {| rt_user_id := user_id; rt_amount := refund; rt_asset_type := asset_type;
                     rt_order_id := order_id |})
            end
          else mret ()
  end.
End orders.

(** ** Epoch arithmetic *)

(** The length of a market epoch. *)
Definition slot : Z := 15 * nanos_per_min.

(** Day, hour and quarter of an instant, from its slot number. *)
Lemma slot_parts t :
  t / nanos_per_day = (t / slot) / 96 /\ hour t = (t / slot) / 4 mod 24
  /\ minute t / 15 = (t / slot) mod 4.
Proof.
  unfold slot, nanos_per_day, hour, minute, nanos_per_hour.
  replace (15 * nanos_per_min) with (nanos_per_min * 15) by reflexivity.
  rewrite !Z.div_div by (vm_compute; congruence). split_and!; [done..|].
  rewrite <- (Z.div_div t nanos_per_min 15) by (vm_compute; congruence).
  generalize (t / nanos_per_min). intros u. Z.to_euclidean_division_equations. lia.
Qed.

Lemma epoch_start_slot t : epoch_start t = slot * (t / slot).
Proof.
  unfold epoch_start, with_minute. destruct (slot_parts t) as (_ & _ & Hq).
  pose proof (Z.mod_pos_bound (t / slot) 4 ltac:(lia)) as Hb.
  replace (minute t / 15 * 15 <? 60) with true by (symmetry; apply Z.ltb_lt; lia).
  simpl. unfold with_second, with_nanosecond. simpl.
  set (m := t / nanos_per_min). assert (Em : t = nanos_per_min * m + t mod nanos_per_min)
    by (apply Z.div_mod; discriminate).
  pose proof (Z.mod_pos_bound t nanos_per_min ltac:(reflexivity)) as Hr.
  set (r := t mod nanos_per_min) in *. clearbody r.
  assert (Ek : t / slot = m / 15) by (unfold m, slot; rewrite Z.div_div by (vm_compute; congruence); reflexivity).
  assert (Emin : minute t = m mod 60) by reflexivity.
  set (t1 := t + (minute t / 15 * 15 - minute t) * nanos_per_min).
  (* clearing seconds and nanoseconds removes what is left of the minute *)
  assert (H1 : t1 + (0 - second t1) * 1000000000
               - (t1 + (0 - second t1) * 1000000000) mod 1000000000 + 0
             = nanos_per_min * (m + (minute t / 15 * 15 - minute t))).
  { assert (Et1 : t1 = nanos_per_min * (m + (minute t / 15 * 15 - minute t)) + r)
      by (unfold t1; lia).
    unfold second. rewrite Et1. generalize (m + (minute t / 15 * 15 - minute t)). intros x.
    unfold nanos_per_min in *. clear - Hr.
    replace ((60000000000 * x + r) / 1000000000) with (60 * x + r / 1000000000)
      by (rewrite <- Z.div_add_l by lia; f_equal; lia).
    assert (Es : (60 * x + r / 1000000000) mod 60 = r / 1000000000).
    { rewrite Z.add_comm, Z.mul_comm, Z.mod_add by lia. apply Z.mod_small.
      split; [apply Z.div_pos; lia|apply Z.div_lt_upper_bound; lia]. }
    rewrite Es. pose proof (Z.div_mod r 1000000000 ltac:(lia)) as Hd.
    replace (60000000000 * x + r + (0 - r / 1000000000) * 1000000000)
      with (r mod 1000000000 + (60 * x) * 1000000000) by lia.
    rewrite Z.mod_add, Z.mod_mod by lia. lia. }
  rewrite H1, Emin, Ek. unfold slot, nanos_per_min. clear.
  Z.to_euclidean_division_equations. lia.
Qed.

(** Positional notation: the leading part and the rest are determined. *)
Lemma digits_unique B a r a' r' :
  0 <= r < B -> 0 <= r' < B -> a * B + r = a' * B + r' -> a = a' /\ r = r'.
Proof.
  intros Hr Hr' E.
  assert (Ha : a = (a * B + r) / B) by (apply Z.div_unique with r; lia).
  assert (Ha' : a' = (a' * B + r') / B) by (apply Z.div_unique with r'; lia).
  assert (a = a') as -> by congruence. lia.
Qed.

Section epoch_props.
Context `{CAL : Calendar}.

(** Epoch numbers name the 15-minute slots of the clock: two instants get the
    same number exactly when they lie in the same slot, and the epoch computed for an
    instant starts at or before it and ends after it. *)
Theorem epoch_number_slot (t t' : DateTime) :
  (epoch_number t = epoch_number t' <-> t / slot = t' / slot)
  /\ epoch_start t <= t < epoch_end t
  /\ (t / slot = t' / slot -> epoch_start t = epoch_start t').
Proof.
  split_and!.
  - unfold epoch_number.
    destruct (slot_parts t) as (-> & -> & ->), (slot_parts t') as (-> & -> & ->).
    generalize (t / slot), (t' / slot). intros k k'.
    pose proof (civil_range (k / 96)) as R. pose proof (civil_range (k' / 96)) as R'.
    pose proof (civil_inj (k / 96) (k' / 96)) as Inj.
    destruct (civil (k / 96)) as [[y m] d] eqn:Ec, (civil (k' / 96)) as [[y' m'] d'] eqn:Ec'.
    pose proof (Z.mod_pos_bound (k / 4) 24 ltac:(lia)).
    pose proof (Z.mod_pos_bound (k' / 4) 24 ltac:(lia)).
    pose proof (Z.mod_pos_bound k 4 ltac:(lia)). pose proof (Z.mod_pos_bound k' 4 ltac:(lia)).
    split.
    + intros E. rewrite <- !Z.add_assoc in E.
      apply digits_unique in E as [-> E]; [|lia|lia].
      apply digits_unique in E as [-> E]; [|lia|lia].
      apply digits_unique in E as [-> E]; [|lia|lia].
      apply digits_unique in E as [Eh Eq]; [|lia|lia].
      apply Z.mul_reg_r in Eq; [|discriminate].
      specialize (Inj eq_refl). clear - Inj Eh Eq. Z.to_euclidean_division_equations. lia.
    + intros ->. rewrite Ec in Ec'. injection Ec' as -> -> ->. done.
  - unfold epoch_end. rewrite epoch_start_slot. fold slot.
    pose proof (Z.div_mod t slot ltac:(discriminate)). 
    pose proof (Z.mod_pos_bound t slot ltac:(reflexivity)). lia.
  - pose proof (Z.div_mod t slot ltac:(discriminate)). unfold epoch_end. rewrite epoch_start_slot.
    fold slot. pose proof (Z.mod_pos_bound t slot ltac:(reflexivity)). lia.
  - intros E. by rewrite !epoch_start_slot, E.
Qed.
End epoch_props.

(** ** What the order operations do *)

(** The tables that hold money are the same. *)
Definition same_money (d d' : Db) : Prop :=
  users d' = users d /\ orders d' = orders d /\ escrow_records d' = escrow_records d.

Lemma same_money_refl d : same_money d d.
Proof. done. Qed.

Lemma same_money_trans d1 d2 d3 : same_money d1 d2 -> same_money d2 d3 -> same_money d1 d3.
Proof. unfold same_money. intros (->&->&->) (->&->&->). done. Qed.

Section order_lemmas.
Context `{NUM : Numerics} `{CAL : Calendar} `{CH : Chain} `{ENV : Env} `{CIPHER : Cipher} `{B64 : Base64}
        `{KP : Keypairs} `{TC : TokenChain}.
Context (config : OrderConfig).

Lemma get_or_create_epoch_money t now eid d0 :
  preserves (same_money d0) (get_or_create_epoch t now eid).
Proof.
  apply preserves_bind; [apply preserves_query|]. intros [e|]; cbv beta iota zeta.
  - case_decide; [apply preserves_ret|].
    apply preserves_bind; [|intros; apply preserves_ret].
    apply preserves_exec. intros d d' ? ?; simplify_eq. done.
  - apply preserves_bind; [|intros; apply preserves_ret].
    apply preserves_exec. intros d d' ? ?. repeat case_match; simplify_eq. done.
Qed.

(** What an order locks, and the record of it. *)
Definition lock_amount (q : OrderRequest) (price : Decimal) : Decimal :=
  match q_side q with Buy => dmul (q_energy_amount q) price | Sell => q_energy_amount q end.
Definition lock_record (q : OrderRequest) (order_id : Uuid) (amount : Decimal) : EscrowRecord :=
  {| er_user_id := q_user_id q; er_order_id := Some order_id; er_amount := amount;
     er_asset_type := match q_side q with Buy => "currency" | Sell => "energy" end;
     er_escrow_type := match q_side q with Buy => "buy_lock" | Sell => "sell_lock" end;
     er_status := "locked";
     er_description := Some match q_side q with
       | Buy => "Buy order " +:+ uuid_to_string order_id +:+ " escrow"
       | Sell => "Sell order " +:+ uuid_to_string order_id +:+ " energy lock"
       end |}.

(** The account before and after: a buy order is covered by the free balance. *)
Definition lock_row (q : OrderRequest) (price : Decimal) (u u' : User) : Prop :=
  match q_side q with
  | Buy => let total := lock_amount q price in
      total <= default 0 (u_balance u) /\ add_balance_locked (- total) total u = Some u'
  | Sell => add_locked_energy (lock_amount q price) u = Some u'
  end.

(** What the transaction of [create_order] leaves when it is not lost. *)
Definition committed (q : OrderRequest) (price : Decimal) (order_id epoch_id : Uuid) (now : DateTime)
    (d d' : Db) : Prop :=
  exists u u' e p a, users d !! q_user_id q = Some u /\ lock_row q price u u'
    /\ users d' = <[q_user_id q := u']> (users d)
    /\ num8 (q_energy_amount q) = Some e /\ num8 price = Some p /\ 0 < e /\ 0 < p
    /\ orders d !! order_id = None
    /\ orders d' = <[order_id := new_order_row order_id (q_user_id q) (q_order_type q) (q_side q) e p
         (default (now + nanos_per_day) (q_expiry_time q)) now (Some epoch_id) (q_zone_id q)
         (q_meter_id q) None]> (orders d)
    /\ num8 (lock_amount q price) = Some a
    /\ escrow_records d' = (escrow_records d ++ [lock_record q order_id a])%list.

(** The on-chain step seen from the tables: a user without a complete set of keys may have been
    given a wallet, and the order its signature and address (in mock mode a made-up signature). *)
Definition keys_only (user : Uuid) (m m' : gmap Uuid User) : Prop :=
  m' = m \/ exists u wallet key salt iv, m !! user = Some u /\ has_keys u = false
    /\ m' = <[user := set_user_keys wallet key salt iv u]> m.
Definition link_only (real linked : bool) (order_id : Uuid) (m m' : gmap Uuid TradingOrderDb) : Prop :=
  (linked = false /\ m' = m)
  \/ exists signature pda, m' = alter (set_order_link signature pda) order_id m
     /\ (real = false -> signature = "mock_order_sig_" +:+ uuid_to_string order_id /\ pda = None).

(** The order is placed: its row, its lock and the record of it are there, and beside them only what
    the on-chain step may change ([linked]: it did link the order). *)
Definition order_placed (linked : bool) (q : OrderRequest) (order_id : Uuid) (now : DateTime)
    (d d' : Db) : Prop :=
  exists price epoch d1, validated_price (q_order_type q) (q_price_per_kwh q) = Ok price
    /\ e_epoch_number epoch = epoch_number now
    /\ committed q price order_id (e_id epoch) now d d1
    /\ keys_only (q_user_id q) (users d1) (users d')
    /\ link_only (oc_enable_real_blockchain config) linked order_id (orders d1) (orders d')
    /\ escrow_records d' = escrow_records d1.

(** The order is not placed: no row and no lock, but its user may have been given a wallet. *)
Definition order_absent (q : OrderRequest) (d d' : Db) : Prop :=
  orders d' = orders d /\ escrow_records d' = escrow_records d
  /\ keys_only (q_user_id q) (users d) (users d').

(** The tables an order does not touch; the epochs are not among them. *)
Definition others_same (d d' : Db) : Prop :=
  order_matches d' = order_matches d /\ settlements d' = settlements d
  /\ platform_revenue d' = platform_revenue d /\ refund_tasks d' = refund_tasks d.

Lemma onchain_check_st wallet mint dcm amount w r w' :
  onchain_check config wallet mint dcm amount w = (r, w') -> st w' = st w.
Proof.
  intros H. assert (P : preserves (fun d => d = st w) (onchain_check config wallet mint dcm amount)).
  { unfold onchain_check. destruct (use_onchain_balance_for_escrow config); [|apply preserves_ret].
    apply preserves_bind; [apply preserves_expect|]. intros a.
    case_match; [apply preserves_fail|]. case_match; [apply preserves_fail|].
    apply preserves_bind; [apply preserves_expect|]. intros b.
    apply preserves_bind; [apply preserves_token_balance|]. intros c.
    case_match; [apply preserves_fail|apply preserves_ret]. }
  specialize (P w eq_refl). by rewrite H in P.
Qed.

Lemma insert_order_Ok order_id uid t side energy price expires now eid zone meter token d d' :
  insert_order (new_order_row order_id uid t side energy price expires now eid zone meter token) d = Some d' ->
  users d' = users d /\ escrow_records d' = escrow_records d /\ others_same d d'
  /\ orders d !! order_id = None
  /\ exists e p, num8 energy = Some e /\ num8 price = Some p /\ 0 < e /\ 0 < p
     /\ orders d' = <[order_id := new_order_row order_id uid t side e p expires now eid zone meter token]> (orders d).
Proof.
  unfold insert_order. intros H. repeat case_match; simplify_eq/=. to_prop.
  split_and!; [done..|]. eexists _, _. split_and!; try done.
Qed.

(** The escrow step locks, and changes nothing else. *)
Lemma escrow_order_Ok q price order_id u w w' a :
  users (st w) !! q_user_id q = Some u ->
  escrow_order config u (q_user_id q) order_id (q_side q) (q_energy_amount q) price w = (Ok a, w') ->
  exists u' r, lock_row q price u u' /\ users (st w') = <[q_user_id q := u']> (users (st w))
    /\ num8 (lock_amount q price) = Some r
    /\ escrow_records (st w') = (escrow_records (st w) ++ [lock_record q order_id r])%list
    /\ orders (st w') = orders (st w) /\ others_same (st w) (st w').
Proof.
  intros Hu H. unfold escrow_order in H. unfold lock_row, lock_amount, lock_record.
  destruct (q_side q); run_steps;
    match goal with H : onchain_check _ _ _ _ _ _ = _ |- _ => apply onchain_check_st in H end;
    [match goal with H : (if ?c then _ else _) _ = _ |- _ => destruct c eqn:Eb end|];
    run_steps; norm_st; to_prop;
    match goal with H : update_user _ _ _ = Some _ |- _ =>
      eapply update_user_lookup in H as (u' & Hf & Hd); [|exact Hu] end;
    match goal with H : insert_escrow _ _ _ _ _ _ _ = Some ?x |- _ =>
      unfold insert_escrow in H; rewrite Hd in *; simpl in *;
      repeat case_match; simplify_eq; rewrite <- H in * end;
    simpl in *; exists u'; eexists; split_and!; done.
Qed.

Lemma create_order_tx_Ok q price order_id eid now mt w src w' :
  create_order_tx config q price order_id eid now mt w = (Ok src, w') ->
  others_same (st w) (st w') /\ orders (st w) !! order_id = None
  /\ (exists p, num8 price = Some p /\ 0 < p)
  /\ ((q_meter_id q <> None /\ st w' = st w) \/ committed q price order_id eid now (st w) (st w')).
Proof.
  unfold create_order_tx. intros (ab & wt & H & Hab)%with_tx_aborted_Ok. run_steps.
  match goal with H : insert_order _ _ = Some _ |- _ =>
    apply insert_order_Ok in H as (Hiu & Hie & Hio & Hfresh & e & p & He & Hp & He0 & Hp0 & Ho) end.
  match goal with H : escrow_order _ _ _ _ _ _ _ _ = _ |- _ =>
    eapply escrow_order_Ok in H as (u' & a' & Hl & Hu' & Ha & Hrec & Hor & Hoth); [|norm_st; done] end.
  match goal with H : match q_meter_id q with _ => _ end ?a = (Ok _, ?b) |- _ =>
    assert (Hst : st b = st a /\ (ab = true -> q_meter_id q <> None)); [|clear H] end.
  { destruct (q_meter_id q).
    - apply bind_Ok in H as (r & ? & Ha' & H). apply ret_Ok in H as [_ <-].
      apply attempt_Ok, query_st in Ha'. done.
    - apply ret_Ok in H as [H <-]. by simplify_eq. }
  destruct Hst as [Hst Hmeter].
  assert (Hsame : others_same (st w) (st wt)).
  { norm_st. unfold others_same in *. simpl in *. intuition congruence. }
  split; [|split; [norm_st; done|split; [by exists p|]]].
  { destruct ab; unfold others_same in *; intuition congruence. }
  destruct ab; [left; split; auto; congruence|right].
  unfold committed. norm_st. simpl in *.
  eexists _, u', e, p, a'. split_and!; try done; congruence.
Qed.

(** The epoch that is found or made is the one of the instant. *)
Lemma get_or_create_epoch_number t now eid w ep w' :
  get_or_create_epoch t now eid w = (Ok ep, w') -> e_epoch_number ep = epoch_number t.
Proof.
  unfold get_or_create_epoch. intros H. run_steps.
  match goal with H : match ?o with Some _ => _ | None => _ end _ = _ |- _ => destruct o as [e|] eqn:Ef end.
  - unfold get_epoch_by_number in *. run_steps.
    assert (En : e_epoch_number e = epoch_number t).
    { match goal with H : query _ _ = _ |- _ => apply query_Ok in H as (Hq & _) end.
      symmetry in Hq. apply head_Some in Hq as [l Hq].
      assert (Hin : In e (List.filter (fun e => e_epoch_number e =? epoch_number t) (epoch_rows (st w))))
        by (rewrite Hq; by left).
      apply filter_In in Hin as [_ Hin]. by apply Z.eqb_eq. }
    case_decide; run_steps; simplify_eq; done.
  - run_steps. simplify_eq. done.
Qed.

Lemma get_or_create_epoch_others t now eid d0 :
  preserves (others_same d0) (get_or_create_epoch t now eid).
Proof.
  apply preserves_bind; [apply preserves_query|]. intros [e|]; cbv beta iota zeta.
  - case_decide; [apply preserves_ret|].
    apply preserves_bind; [|intros; apply preserves_ret].
    apply preserves_exec. intros d d' ? ?; simplify_eq. done.
  - apply preserves_bind; [|intros; apply preserves_ret].
    apply preserves_exec. intros d d' ? ?. repeat case_match; simplify_eq. done.
Qed.

(** The on-chain step in the words of the tables. *)
Lemma on_chain_effect_tables real linked user order d d' : on_chain_effect real linked user order d d' ->
  keys_only user (users d) (users d') /\ link_only real linked order (orders d) (orders d')
  /\ escrow_records d' = escrow_records d /\ others_same d d'.
Proof.
  intros (d1 & H1 & H2).
  assert (K : keys_only user (users d) (users d1) /\ orders d1 = orders d
    /\ escrow_records d1 = escrow_records d /\ others_same d d1).
  { destruct H1 as [->|(u & wal & k & s & i & Hu & Hk & ->)]; [by split_and!; try left|].
    split_and!; try done. right. by exists u, wal, k, s, i. }
  destruct K as (K & Ko & Ke & Kt). destruct H2 as [[Hl ->]|(sig & pda & Hu & Hr)].
  - split_and!; try done. left. by rewrite Ko.
  - unfold update_order in Hu. rewrite Ko in Hu. unfold others_same in *.
    destruct (orders d !! order) as [o|] eqn:Ho; simplify_eq/=.
    + split_and!; try tauto. right. exists sig, pda. split; [|done].
      apply map_eq. intros i. rewrite lookup_insert. case_decide; subst;
        [by rewrite lookup_alter_eq, Ho|by rewrite lookup_alter_ne].
    + split_and!; try tauto. right. exists sig, pda. split; [|done]. rewrite Ko.
      apply map_eq. intros i. destruct (decide (order = i)) as [<-|];
        [by rewrite lookup_alter_eq, Ho|by rewrite lookup_alter_ne].
Qed.

(** Money never moves in the on-chain step. *)
Definition user_money (u : User) := (u_balance u, u_locked_amount u, u_locked_energy u).

Lemma keys_only_money user m m' : keys_only user m m' ->
  forall id, user_money <$> m' !! id = user_money <$> m !! id.
Proof.
  intros [->|(u & w & k & s & i & Hu & _ & ->)] id; [done|]. rewrite lookup_insert.
  case_decide; subst; [|done]. by rewrite Hu.
Qed.

(** The ways a call of [create_order] can end. *)
Lemma create_order_cases q order_id eid now mt wal w r w' :
  create_order config q order_id eid now mt wal w = (r, w') ->
  others_same (st w) (st w')
  /\ ((is_ok r = false /\ same_money (st w) (st w'))
      \/ (forall id, r = Ok id -> id = order_id)
         /\ (exists price p, validated_price (q_order_type q) (q_price_per_kwh q) = Ok price
              /\ num8 price = Some p /\ 0 < p)
         /\ (order_placed (is_ok r) q order_id now (st w) (st w')
             \/ (q_meter_id q <> None /\ order_absent q (st w) (st w')))).
Proof.
  intros E. assert (O0 : others_same (st w) (st w)) by done. unfold create_order in E. case_match.
  { unfold fail in E. simplify_eq. split; [done|]. by left. }
  destruct (validated_price _ _) as [price|e] eqn:Ev; [|unfold fail in E; simplify_eq; split; [done|]; by left].
  unfold mbind at 1, M_bind at 1 in E.
  pose proof (get_or_create_epoch_money now now eid (st w) w (same_money_refl _)) as Hep.
  pose proof (get_or_create_epoch_others now now eid (st w) w O0) as Hot.
  destruct (get_or_create_epoch now now eid w) as [[ep|e] w1] eqn:Eep; simpl in Hep, Hot;
    [|simplify_eq; split; [done|]; by left].
  apply get_or_create_epoch_number in Eep.
  unfold mbind at 1, M_bind at 1 in E.
  destruct (create_order_tx config q price order_id (e_id ep) now mt w1) as [[src|e] w2] eqn:Etx.
  2: { simplify_eq. apply with_tx_aborted_Err in Etx. rewrite Etx. split; [done|]. by left. }
  apply create_order_tx_Ok in Etx as (Htx & Hfresh & (p & Hp & Hp0) & Hcm).
  destruct Hep as (Hu & Ho & He).
  unfold mbind, M_bind, emit, mret, M_ret in E. simpl in E.
  match type of E with context [execute_on_chain_order_creation ?r ?s ?a ?b ?c ?d ?pr ?k ?f ?x] =>
    pose proof (on_chain_creation_effect s r a b c d pr k f x) as X;
    destruct (execute_on_chain_order_creation r s a b c d pr k f x) as [r3 w3] end.
  simpl in X. assert (w' = w3 /\ is_ok r = is_ok r3) as [-> ->] by (destruct r3 as [[]|]; by simplify_eq).
  apply on_chain_effect_tables in X as (Xk & Xl & Xe & Xo).
  split; [unfold others_same in *; intuition congruence|]. right.
  split; [intros id ->; destruct r3 as [[]|]; by simplify_eq|].
  split; [by exists price, p|].
  destruct Hcm as [[Hm Hst]|Hcm].
  - right. split; [done|]. rewrite Hst in *. unfold order_absent. rewrite Hu in Xk. rewrite Xe, He.
    split_and!; [|done|done]. rewrite Ho in Xl, Hfresh. destruct Xl as [[_ ->]|(sig & pda & -> & _)]; [done|].
    apply map_eq. intros i. destruct (decide (order_id = i)) as [<-|];
      [by rewrite lookup_alter_eq, Hfresh|by rewrite lookup_alter_ne].
  - left. exists price, ep, (st w2). split_and!; try done.
    unfold committed in *. by rewrite Hu, Ho, He in Hcm.
Qed.
End order_lemmas.

(** ** Properties of the order operations *)
Section order_props.
Context `{NUM : Numerics} `{CAL : Calendar} `{CH : Chain} `{ENV : Env} `{CIPHER : Cipher} `{B64 : Base64}
        `{KP : Keypairs} `{TC : TokenChain}.
Context (config : OrderConfig).

(** C3: what [create_order] leaves in every run, whatever the database and the chain do.  An error
    either leaves accounts, orders and escrow records untouched, or comes from the on-chain step
    after the commit, and then the order is placed.  Placed means, as a whole: the order's row is
    inserted with the amounts of the request rounded to its columns, under the epoch of the
    instant; the user's account has the whole cost [energy * price] of a buy order, covered by the free
    balance, moved from the free to the locked column, or the energy of a sell order locked; and one
    locked escrow record of that amount is added.  Beside this the on-chain step may only give a user
    without keys a wallet and write the order's signature and address, and it has done the latter
    when the call succeeds.  In one case nothing is placed although the transaction is taken for
    committed, and an id may be returned: the lookup of the named meter failed inside it.  Matches, settlements, revenue and refund tasks
    are never touched. *)
Theorem create_order_outcome (q : OrderRequest) (order_id eid : Uuid) (now : DateTime)
    (mt : Uuid -> option string) (wal : NewWallet) (w : world Db Event) :
  let '(r, w') := create_order config q order_id eid now mt wal w in
  others_same (st w) (st w')
  /\ match r with
     | Ok id => id = order_id
         /\ (order_placed config true q order_id now (st w) (st w')
             \/ (q_meter_id q <> None /\ order_absent q (st w) (st w')))
     | Err _ => same_money (st w) (st w')
         \/ order_placed config false q order_id now (st w) (st w')
         \/ (q_meter_id q <> None /\ order_absent q (st w) (st w'))
     end.
Proof.
  destruct (create_order config q order_id eid now mt wal w) as [r w'] eqn:E.
  apply create_order_cases in E as [Ho [[Hr Hs]|(Hid & _ & Hc)]]; (split; [exact Ho|]).
  - destruct r; [done|by left].
  - destruct r as [id|]; [split; [by apply Hid|exact Hc]|by right].
Qed.

(** A market order can never be created: the code inserts it with price 0 and the
    table requires a positive price, so every attempt fails and changes no balance, order
    or escrow record. *)
Theorem market_order_rejected (q : OrderRequest) (order_id eid : Uuid) (now : DateTime)
    (mt : Uuid -> option string) (wal : NewWallet) (w : world Db Event) :
  q_order_type q = Market ->
  let '(r, w') := create_order config q order_id eid now mt wal w in
  is_ok r = false /\ same_money (st w) (st w').
Proof.
  intros Hm. destruct (create_order config q order_id eid now mt wal w) as [r w'] eqn:E.
  apply create_order_cases in E as [_ [[Hr Hs]|(_ & (price & p & Hv & Hp & Hp0) & _)]]; [done|].
  rewrite Hm in Hv. simpl in Hv. simplify_eq.
  rewrite num8_grid in Hp; [simplify_eq; lia|apply Z.divide_0_r|unfold U; lia].
Qed.

(** What a successful cancellation did. *)
Definition cancelled (order_id user_id : Uuid) (d d' : Db) : Prop :=
  exists o, orders d !! order_id = Some o /\ o_user_id o = user_id
    /\ (o_status o = Pending \/ o_status o = PartiallyFilled)
    /\ orders d' = <[order_id := set_order_status Cancelled o]> (orders d)
    /\ let unfilled := dsub (o_energy_amount o) (filled o) in
       0 < unfilled
       /\ update_user user_id
            match o_side o with
            | Buy => add_balance_locked (dmul unfilled (o_price_per_kwh o))
                                        (- dmul unfilled (o_price_per_kwh o))
            | Sell => add_locked_energy (- unfilled)
            end d = Some (set_users (users d') d)
       /\ Forall (fun r => er_order_id r = Some order_id -> er_status r <> "locked")
            (escrow_records d').

Lemma cancel_tx_Ok order_id user_id o unfilled desc w a w' :
  orders (st w) !! order_id = Some o ->
  with_tx (refund_unfilled user_id (o_side o) unfilled (o_price_per_kwh o) ;;
           exec (release_escrow (fun r => bool_decide (er_order_id r = Some order_id)
                   && (er_status r =? "locked")%string) desc) ;;
           exec (update_status order_id Cancelled)) w = (Ok a, w') ->
  orders (st w') = <[order_id := set_order_status Cancelled o]> (orders (st w))
  /\ update_user user_id
       match o_side o with
       | Buy => add_balance_locked (dmul unfilled (o_price_per_kwh o))
                                   (- dmul unfilled (o_price_per_kwh o))
       | Sell => add_locked_energy (- unfilled)
       end (st w) = Some (set_users (users (st w')) (st w))
  /\ Forall (fun r => er_order_id r = Some order_id -> er_status r <> "locked")
       (escrow_records (st w')).
Proof.
  intros Ho H. run_steps. unfold refund_unfilled in *.
  assert (Hup : exists d1, update_user user_id
       match o_side o with
       | Buy => add_balance_locked (dmul unfilled (o_price_per_kwh o))
                                   (- dmul unfilled (o_price_per_kwh o))
       | Sell => add_locked_energy (- unfilled)
       end (st w) = Some d1 /\ d1 = st x2).
  { destruct (o_side o); run_steps; norm_st; eauto. }
  destruct Hup as (d1 & Hup & ->). rewrite Hup.
  assert (Ho1 : orders (st x2) = orders (st w) /\ set_users (users (st x2)) (st w) = st x2).
  { unfold update_user in Hup. destruct (users (st w) !! user_id).
    - destruct (match o_side o with Buy => _ | Sell => _ end u) eqn:Ef; simplify_eq/=.
      rewrite <- Hup. done.
    - simplify_eq. rewrite <- Hup. by destruct (st w). }
  destruct Ho1 as [Ho1 Hd1].
  match goal with H : release_escrow _ _ _ = Some _ |- _ =>
    unfold release_escrow in H; injection H as Hrel end.
  match goal with H : update_status _ _ _ = Some _ |- _ => rename H into Hst end.
  unfold update_status in Hst. eapply update_order_lookup in Hst as Hl;
    [|rewrite <- Hrel; simpl; rewrite Ho1; exact Ho].
  destruct Hl as (o' & Hso & Hor). simplify_eq/=. norm_st.
  apply update_order_users in Hst as Hus. rewrite <- Hrel in *. simpl in *.
  split_and!.
  - by rewrite Hor, Ho1.
  - by rewrite Hus, Hd1.
  - unfold update_order in Hst. simpl in Hst. rewrite Ho1, Ho in Hst. simplify_eq/=.
    rewrite <- Hst. simpl. apply Forall_fmap, Forall_forall. intros r _. simpl.
    destruct (bool_decide (er_order_id r = Some order_id)) eqn:Eb; simpl;
      [|rewrite bool_decide_eq_false in Eb; intros; done].
    destruct (er_status r =? "locked")%string eqn:Es; simpl; [done|]. to_prop. done.
Qed.

(** The two ways a call of [cancel_order] can end. *)
Lemma cancel_order_cases (order_id user_id : Uuid) (w : world Db Event) :
  let '(r, w') := cancel_order order_id user_id w in
  match r with
  | Err _ => same_money (st w) (st w')
  | Ok _ => cancelled order_id user_id (st w) (st w')
  end.
Proof.
  destruct (cancel_order order_id user_id w) as [r w'] eqn:E. unfold cancel_order in E.
  unfold mbind at 1, M_bind at 1 in E.
  destruct (query (fun d => orders d !! order_id) w) as [[row|e] w1] eqn:Eq;
    pose proof (query_st _ _ _ _ Eq) as Hst1; [|simplify_eq; by rewrite Hst1].
  apply query_Ok in Eq as (-> & _).
  destruct (orders (st w) !! order_id) as [o|] eqn:Ho;
    [|unfold fail in E; simplify_eq; by rewrite Hst1].
  case_match eqn:E1; [unfold fail in E; simplify_eq; by rewrite Hst1|].
  case_match eqn:E2; [unfold fail in E; simplify_eq; by rewrite Hst1|].
  case_match eqn:E3; [unfold fail in E; simplify_eq; by rewrite Hst1|].
  unfold mbind at 1, M_bind at 1 in E.
  match type of E with match with_tx ?b ?x with _ => _ end = _ =>
    destruct (with_tx b x) as [[[]|e] w2] eqn:Etx end;
    [|simplify_eq; apply with_tx_Err in Etx; by rewrite Etx, Hst1].
  eapply cancel_tx_Ok in Etx as (T1 & T2 & T3); [|by rewrite Hst1].
  match type of E with ?m w2 = _ =>
    assert (P : preserves (fun d => users d = users (st w2) /\ orders d = orders (st w2)
      /\ escrow_records d = escrow_records (st w2)) m /\ forall e0, fst (m w2) <> Err e0) end.
  { clear E. split.
    - apply preserves_bind; [apply preserves_emit|intros _].
      destruct (o_side o); cbv beta iota zeta;
        (match goal with |- preserves _ (if ?c then _ else _) => destruct c end; [|apply preserves_ret]);
        (apply preserves_bind; [apply preserves_attempt, preserves_chain_call|]);
        (intros [s|e']; [apply preserves_ret|]; apply preserves_ignore, preserves_exec);
        intros d d' ? ?; by simplify_eq.
    - intros e0. unfold mbind, M_bind, emit. simpl.
      destruct (o_side o);
        (match goal with |- context [if ?c then _ else _] => destruct c end; [|done]);
        unfold attempt, chain_call; simpl;
        (match goal with |- context [chain_answer ?a ?b] => destruct (chain_answer a b) end;
          [done|]);
        unfold ignore, attempt, mbind, M_bind, queue_blockchain_task, exec; simpl;
        by destruct (pop_fault _) as [[] ?]. }
  destruct P as [P1 P2]. specialize (P1 w2 ltac:(done)). rewrite E in P1, P2. simpl in *.
  destruct r as [[]|e]; [|by destruct (P2 e)]. destruct P1 as (Pu & Po & Pe).
  rewrite Hst1 in *. to_prop. rewrite bool_decide_eq_true in E2.
  exists o. split_and!; auto; [congruence|]. simpl. rewrite Pu, Pe. split_and!; auto.
Qed.

(** C4: [cancel_order] is atomic and guarded: an error leaves balances, orders and
    escrow untouched; success means the caller owns the order, it was pending or partially
    filled with something left, it is now cancelled, no escrow record of it stays locked,
    and exactly the unfilled part ([unfilled * price], or the unfilled energy) was
    given back. *)
Theorem cancel_order_outcome (order_id user_id : Uuid) (w : world Db Event) :
  let '(r, w') := cancel_order order_id user_id w in
  match r with
  | Err _ => same_money (st w) (st w')
  | Ok _ => cancelled order_id user_id (st w) (st w')
  end.
Proof. apply cancel_order_cases. Qed.

(** Locking and unlocking do not depend on the keys. *)
Lemma add_balance_locked_keys db dl wal k s i u :
  add_balance_locked db dl (set_user_keys wal k s i u)
  = set_user_keys wal k s i <$> add_balance_locked db dl u.
Proof.
  unfold add_balance_locked, set_user_keys. simpl.
  destruct (col_add (u_balance u) db); [|done]. simpl. by destruct (col_add (u_locked_amount u) dl).
Qed.

(** C37: cancelling a freshly placed limit buy order restores every account exactly: no currency is
    gained, lost or left locked.  It holds for a request that names no meter, a user whose currency
    columns are not NULL, and amounts on the 8-decimal grid (energy, price and their product, up to
    10^11 kWh); if the user had no complete set of keys, the wallet and the keys the order gave them
    stay, which is all that may differ. *)
Theorem create_cancel_roundtrip (q : OrderRequest) (order_id eid : Uuid) (now : DateTime)
    (mt : Uuid -> option string) (wal : NewWallet) (w w1 w2 : world Db Event) (u : User)
    (b l price : Decimal) :
  q_side q = Buy -> q_order_type q = Limit -> q_price_per_kwh q = Some price ->
  q_meter_id q = None ->
  (G8 | q_energy_amount q) -> (G8 | price) -> (G8 | dmul (q_energy_amount q) price) ->
  q_energy_amount q <= 10 ^ 11 * U ->
  accounts_wf (st w) -> users (st w) !! q_user_id q = Some u ->
  u_balance u = Some b -> u_locked_amount u = Some l ->
  create_order config q order_id eid now mt wal w = (Ok order_id, w1) ->
  cancel_order order_id (q_user_id q) w1 = (Ok tt, w2) ->
  keys_only (q_user_id q) (users (st w)) (users (st w2)).
Proof.
  intros Hs Ht Hpr Hm Ge Gp Gt Be Hwf Hu Hb Hl Hc Hx.
  apply create_order_cases in Hc as [_ [[? _]|(_ & _ & [Hpl|[? _]])]]; [done| |done].
  destruct Hpl as (pr & ep & d1 & Hv & _ & Hcm & Hk & Hlk & _).
  rewrite Ht, Hpr in Hv. simpl in Hv. case_match; simplify_eq.
  destruct Hcm as (u0 & u1 & e & p & a & Hu0 & Hrow & Hu1 & He & Hp & He0 & Hp0 & _ & Ho1 & _ & _).
  simplify_eq. apply num8_id in He as ->; [|done]. apply num8_id in Hp as ->; [|done].
  unfold lock_row, lock_amount in Hrow. rewrite Hs in Hrow. destruct Hrow as [_ Hadd].
  pose proof (cancel_order_cases order_id (q_user_id q) w1) as Hout. rewrite Hx in Hout.
  destruct Hout as (o & Ho & _ & _ & _ & Hpos & Hup & _).
  destruct Hlk as [[? _]|(sig & pda & Hlk & _)]; [done|].
  rewrite Hlk, Ho1, lookup_alter_eq, lookup_insert_eq in Ho. simpl in Ho. injection Ho as <-.
  unfold filled in Hup. simpl in Hup.
  assert (Eu : dsub (q_energy_amount q) 0 = q_energy_amount q).
  { rewrite dsub_exact; [lia|]. apply repr_8; [by rewrite Z.sub_0_r|]. unfold U in *. lia. }
  rewrite Eu, Hs in Hup. assert (Wu : user_wf u) by (by eapply Hwf).
  rewrite Hu1 in Hk. destruct Hk as [Hk|(u1' & wa & ke & sa & iv & Hu1' & Hnk & Hk)].
  - eapply update_user_lookup in Hup as (u2 & Hf2 & Hd); [|rewrite Hk; apply lookup_insert_eq].
    pose proof (add_balance_locked_inverse _ _ _ _ _ _ Hb Hl Wu Gt Hadd Hf2) as ->.
    apply (f_equal users) in Hd. simpl in Hd. left. rewrite Hd, Hk, insert_insert_eq. by apply insert_id.
  - rewrite lookup_insert_eq in Hu1'. injection Hu1' as <-. rewrite insert_insert_eq in Hk.
    eapply update_user_lookup in Hup as (u2 & Hf2 & Hd); [|rewrite Hk; apply lookup_insert_eq].
    rewrite add_balance_locked_keys in Hf2. apply fmap_Some in Hf2 as (u2' & Hf2 & ->).
    pose proof (add_balance_locked_inverse _ _ _ _ _ _ Hb Hl Wu Gt Hadd Hf2) as ->.
    apply (f_equal users) in Hd. simpl in Hd. right. exists u, wa, ke, sa, iv.
    rewrite Hd, Hk, insert_insert_eq. split_and!; [done| |done].
    apply add_balance_locked_frame in Hadd as [_ Hkeys]. unfold user_keys in Hkeys. injection Hkeys as K1 K2 K3 K4.
    unfold has_keys in *. by rewrite <- K2, <- K3, <- K4.
Qed.
End order_props.

(** ** Witnesses *)
#[local] Program Instance demo_calendar : Calendar := {| civil n := (n, 1, 1) |}.
Next Obligation. intros n. cbn. lia. Qed.
Next Obligation. intros. simplify_eq. done. Qed.

(** A chain on which every call succeeds, and order creation that records nothing. *)
Definition demo_chain : Chain :=
  {| chain_answer _ _ := Ok "signature"; token_balance _ _ _ := Ok 1000; parse_pubkey _ := true |}.

(** No environment, and addresses that are their texts. *)
Definition plain_env : Env :=
  {| env_var _ := None; db_error_text := "error"; decimal_from_str _ := None |}.
Definition plain_tokens : TokenChain :=
  {| address_ok _ := Ok tt; ata owner mint := owner +:+ ":" +:+ mint; market_address := Ok "market";
     default_signature := "1"; authority_answer _ := Ok "Gateway";
     ensure_answer _ wallet mint := Ok (wallet +:+ ":" +:+ mint); move_answer _ _ := Ok "moved";
     order_answer _ _ _ _ _ _ := Ok ("sig", "pda"); swap_answer _ _ := Ok "swapped" |}.

Section witnesses.
#[local] Existing Instance std_numerics.
#[local] Existing Instance demo_chain.
#[local] Existing Instance plain_env.
#[local] Existing Instance plain_tokens.
#[local] Existing Instance demo_cipher.
#[local] Existing Instance demo_base64.

Definition demo_config : OrderConfig :=
  {| use_onchain_balance_for_escrow := true; energy_token_mint := "energy";
     currency_token_mint := "currency"; currency_decimals := 0;
     oc_enable_real_blockchain := false; oc_encryption_secret := "secret" |}.

Definition demo_wallet : NewWallet :=
  {| nw_keypair := {| kp_pubkey := "NewWa11et"; kp_bytes := [] |}; nw_draws := demo_draws |}.

Definition demo_request (t : OrderType) (price : option Decimal) : OrderRequest :=
  {| q_user_id := 1; q_side := Buy; q_order_type := t; q_energy_amount := dec 10 0;
     q_price_per_kwh := price; q_expiry_time := None; q_zone_id := Some 1; q_meter_id := None;
     q_session_token := None |}.

Definition no_meters : Uuid -> option string := fun _ => None.

Lemma market_order_rejected_witness :
  let '(r, w') := create_order demo_config (demo_request Market None) 20 9 0 no_meters demo_wallet demo_world in
  is_ok r = false /\ same_money demo_db (st w').
Proof.
  apply (market_order_rejected demo_config (demo_request Market None) 20 9 0 no_meters demo_wallet demo_world).
  reflexivity.
Defined.

Definition demo_placed : world Db Event :=
  snd (create_order demo_config (demo_request Limit (Some (dec 25 1))) 20 9 0 no_meters demo_wallet demo_world).
Definition demo_cancelled : world Db Event := snd (cancel_order 20 1 demo_placed).

Lemma create_cancel_roundtrip_witness :
  (u_balance <$> users (st demo_placed) !! 1%N) = Some (Some (dec 75 0))
  /\ keys_only 1 (users demo_db) (users (st demo_cancelled)).
Proof.
  split; [vm_compute; reflexivity|].
  refine (create_cancel_roundtrip demo_config (demo_request Limit (Some (dec 25 1))) 20 9 0
    no_meters demo_wallet demo_world demo_placed demo_cancelled demo_user (dec 100 0) (dec 0 0) (dec 25 1)
    eq_refl eq_refl eq_refl eq_refl _ _ _ _ demo_accounts_wf eq_refl eq_refl eq_refl _ _).
  - exists (10 * 10 ^ 8). reflexivity.
  - exists (25 * 10 ^ 7). reflexivity.
  - exists (25 * 10 ^ 8). vm_compute. reflexivity.
  - vm_compute. discriminate.
  - unfold demo_placed. apply run_ok. vm_compute. reflexivity.
  - unfold demo_cancelled. apply run_ok. vm_compute. reflexivity.
Defined.
End witnesses.
