(* ===== verification/Clearing.v ===== *)
(** Epoch clearing: [src/services/market_clearing/mod.rs] (clearing price),
    [src/services/market_clearing/matching.rs] (landed-cost matching of an epoch and
    its settlements) and [src/services/market_clearing/revenue.rs].

    The transmission-cost simulator is an HTTP service and a parameter; its answers
    may change from call to call.  The [while] loop of the matching runs on fuel and
    returns [None] when it runs out: [match_loop_terminates] gives enough fuel. *)
From S2P Require Import Prelude Numerics Errors Store Schema Escrow Orders.

Open Scope string_scope.
Open Scope Z_scope.

(** ** The clearing price *)

Record ClearingPrice := {
  cp_price : Decimal;
  cp_volume : Decimal;
  cp_buy_orders_count : nat;
  cp_sell_orders_count : nat;
  cp_best_bid : Decimal;
  cp_best_ask : Decimal;
}.

(** [Iterator::max] and [Iterator::min] over the prices. *)
Definition max_price (l : list OrderBookEntry) : option Decimal :=
  match l with
  | [] => None
  | e :: l => Some (foldl (fun m e => Z.max m (b_price_per_kwh e)) (b_price_per_kwh e) l)
  end.
Definition min_price (l : list OrderBookEntry) : option Decimal :=
  match l with
  | [] => None
  | e :: l => Some (foldl (fun m e => Z.min m (b_price_per_kwh e)) (b_price_per_kwh e) l)
  end.

Section clearing_price.
Context `{NUM : Numerics}.

(** [Iterator::sum] of decimals. *)
Definition sum_energy (l : list OrderBookEntry) : Decimal :=
  foldl (fun acc e => dadd acc (b_energy_amount e)) 0 l.

(** [Ok None]: no clearing price; the error is the panic of the division. *)
Definition calculate_clearing_price (buy_orders sell_orders : list OrderBookEntry)
    : res failure (option ClearingPrice) :=
  match max_price buy_orders, min_price sell_orders with
  | Some best_bid, Some best_ask =>
      if best_bid <? best_ask then Ok None
      else
        match ddiv (dadd best_bid best_ask) (dec 2 0) with
        | None => Err FPanic
        | Some price =>
            let buy_volume := sum_energy
              (List.filter (fun o => best_ask <=? b_price_per_kwh o) buy_orders) in
            let sell_volume := sum_energy
              (List.filter (fun o => b_price_per_kwh o <=? best_bid) sell_orders) in
            Ok (Some {| cp_price := price; cp_volume := Z.min buy_volume sell_volume;
                        cp_buy_orders_count := length buy_orders;
                        cp_sell_orders_count := length sell_orders;
                        cp_best_bid := best_bid; cp_best_ask := best_ask |})
        end
  | _, _ => Ok None
  end.
End clearing_price.

(** ** The simulator

    The fields of its answer as [Decimal::from_f64] reads them (an absent field is
    0.0); [None]: not a decimal. *)
Record CostData := {
  cd_wheeling_charge : option Decimal;
  cd_loss_factor : option Decimal;
  cd_loss_cost : option Decimal;
  cd_effective_energy : option Decimal;
}.

(** [calculate_cost]: the answer to a request after the given effects, [None] for a
    transport error, a failure status or a body that is not JSON. *)
Class Simulator := {
  calculate_cost : list Event -> Z -> Z -> Decimal -> Decimal -> option CostData;
}.

Definition simulate `{Simulator} (b_zone s_zone : Z) (amount price : Decimal)
    : TM (option CostData) := fun w =>
  (Ok (calculate_cost (trace w) b_zone s_zone amount price),
   World (st w) (faults w) (trace w ++ [EvSimulator b_zone s_zone amount price])%list).

Section matching.
Context `{NUM : Numerics} `{CH : Chain} `{SIM : Simulator}.

Definition estimate_zonal_costs (buyer_zone seller_zone : option Z) : TM (Decimal * Decimal) :=
  match buyer_zone, seller_zone with
  | Some b_zone, Some s_zone =>
      answer ← simulate b_zone s_zone (dec 1 0) (dec 1 0);
      mret match answer with
           | Some c => (default 0 (cd_wheeling_charge c), default 0 (cd_loss_factor c))
           | None => (0, 0)
           end
  | _, _ => mret (0, 0)
  end.

Definition landed_cost (ask wheeling lf : Decimal) : Decimal :=
  dadd (dadd ask wheeling) (dmul lf ask).

(** The scan for the best seller: index, surplus and price of the best so far. *)
Fixpoint find_best (buy : OrderBookEntry) (idx : nat) (sells : list OrderBookEntry)
    (best : option nat) (max_surplus match_price : Decimal) : TM (option nat * Decimal) :=
  match sells with
  | [] => mret (best, match_price)
  | sell :: rest =>
      costs ← attempt (estimate_zonal_costs (b_zone_id buy) (b_zone_id sell));
      let '(wheeling, lf) := match costs with Ok c => c | Err _ => (0, 0) end in
      let landed := landed_cost (b_price_per_kwh sell) wheeling lf in
      if landed <=? b_price_per_kwh buy then
        let surplus := dsub (b_price_per_kwh buy) landed in
        if max_surplus <? surplus then
          price ← expect FPanic (ddiv (dadd (b_price_per_kwh buy) landed) (dec 2 0));
          find_best buy (S idx) rest (Some idx) surplus price
        else find_best buy (S idx) rest best max_surplus match_price
      else find_best buy (S idx) rest best max_surplus match_price
  end.

Definition save_order_match (m : OrderMatch) : TM unit := exec (insert_match m).

(** The variables of the matching loop. *)
Record Clearing := {
  cl_buys : list OrderBookEntry;
  cl_sells : list OrderBookEntry;
  cl_matches : list OrderMatch;
  cl_volume : Decimal;
  cl_count : Z;
}.

(** [entry.energy_amount -= amount]. *)
Definition draw (amount : Decimal) (e : OrderBookEntry) : OrderBookEntry :=
  {| b_order_id := b_order_id e; b_user_id := b_user_id e; b_side := b_side e;
     b_energy_amount := dsub (b_energy_amount e) amount;
     b_original_amount := b_original_amount e; b_price_per_kwh := b_price_per_kwh e;
     b_created_at := b_created_at e; b_zone_id := b_zone_id e |}.

(** Records the fill of one side; [true]: the order is fully filled and leaves the book. *)
Definition record_fill (side : string) (e : OrderBookEntry) (amount : Decimal) : TM bool :=
  let rem := b_energy_amount e in
  let orig := b_original_amount e in
  if rem <=? 0 then
    update_order_status (b_order_id e) Filled ;;
    emit (EvOrderUpdate (b_order_id e) (b_user_id e) side "filled" orig orig 0
            (b_price_per_kwh e)) ;;
    mret true
  else
    update_order_filled_amount (b_order_id e) amount ;;
    emit (EvOrderUpdate (b_order_id e) (b_user_id e) side "partially_filled" orig
            (dsub orig rem) rem (b_price_per_kwh e)) ;;
    mret false.

(** Fresh identifiers and the clock, by the number of matches made before. *)
Context (new_match_id new_settlement_id : nat -> Uuid) (clock : nat -> DateTime).

Definition make_match (epoch_id : Uuid) (buy sell : OrderBookEntry) (amount price : Decimal)
    (n : nat) : OrderMatch :=
  {| om_id := new_match_id n; om_epoch_id := epoch_id; om_buy_order_id := b_order_id buy;
     om_sell_order_id := b_order_id sell; om_matched_amount := amount;
     om_match_price := price; om_match_time := clock n; om_status := "pending";
     om_settlement_id := None |}.

(** The body of [while !buy_orders.is_empty() && !sell_orders.is_empty()]. *)
Definition match_step (epoch_id : Uuid) (buy : OrderBookEntry) (buys : list OrderBookEntry)
    (c : Clearing) : TM Clearing :=
  best ← find_best buy 0 (cl_sells c) None (- dec 1 0) 0;
  match best with
  | (None, _) =>
      mret {| cl_buys := buys; cl_sells := cl_sells c; cl_matches := cl_matches c;
              cl_volume := cl_volume c; cl_count := cl_count c |}
  | (Some idx, price) =>
      sell ← expect FPanic (cl_sells c !! idx);
      let amount := Z.min (b_energy_amount buy) (b_energy_amount sell) in
      if 0 <? amount then
        let m := make_match epoch_id buy sell amount price (length (cl_matches c)) in
        save_order_match m ;;
        buy_done ← record_fill "buy" (draw amount buy) amount;
        sell_done ← record_fill "sell" (draw amount sell) amount;
        mret {| cl_buys := if (buy_done : bool) then buys else draw amount buy :: buys;
                cl_sells := if (sell_done : bool) then remove_nth idx (cl_sells c)
                            else <[idx := draw amount sell]> (cl_sells c);
                cl_matches := (cl_matches c ++ [m])%list;
                cl_volume := dadd (cl_volume c) amount;
                cl_count := cl_count c + 1 |}
      else mret c
  end.

Fixpoint match_loop (fuel : nat) (epoch_id : Uuid) (c : Clearing) : TM (option Clearing) :=
  match cl_buys c, cl_sells c with
  | buy :: buys, _ :: _ =>
      match fuel with
      | O => mret None
      | S fuel => c' ← match_step epoch_id buy buys c; match_loop fuel epoch_id c'
      end
  | _, _ => mret (Some c)
  end.

(** ** Settlement of a match *)

(** [Row::get(name)]: panics when the statement did not select the column. *)
Definition row_get {A} (columns : list string) (name : string) (v : A) : TM A :=
  if bool_decide (name ∈ columns) then mret v else fail FPanic.

Definition buy_columns : list string := ["user_id"; "zone_id"; "session_token"].
Definition sell_columns : list string := ["user_id"; "zone_id"; "meter_id"; "session_token"].

(** Wheeling charge, loss factor, loss cost and effective energy of a match. *)
Definition settlement_costs (b_zone s_zone : option Z) (m : OrderMatch)
    : TM (Decimal * Decimal * Decimal * Decimal) :=
  match b_zone, s_zone with
  | Some b, Some s =>
      answer ← simulate b s (om_matched_amount m) (om_match_price m);
      mret match answer with
           | Some c => (default 0 (cd_wheeling_charge c), default 0 (cd_loss_factor c),
                        default 0 (cd_loss_cost c),
                        default (om_matched_amount m) (cd_effective_energy c))
           | None => (0, 0, 0, om_matched_amount m)
           end
  | _, _ => mret (0, 0, 0, om_matched_amount m)
  end.

Definition fee_rate : Decimal := dec 1 2.

(** The on-chain part: an atomic swap, or the legacy releases; failures are logged. *)
Definition settle_on_chain (buyer seller : Uuid) (pdas : option string * option string)
    (m : OrderMatch) (wheeling fee net effective : Decimal) : TM unit :=
  match pdas with
  | (Some b_pda, Some s_pda) =>
      ignore (chain_call (AtomicSwap buyer seller b_pda s_pda (om_matched_amount m)
                            (om_match_price m) wheeling fee))
  | _ =>
      ignore (chain_call (EscrowRelease seller net "currency")) ;;
      ignore (chain_call (EscrowRelease buyer effective "energy"))
  end.

Definition epoch_settlement (id : Uuid) (now : DateTime) (m : OrderMatch)
    (buy sell : TradingOrderDb) (costs : Decimal * Decimal * Decimal * Decimal) : SettlementRow :=
  let '(wheeling, lf, lc, effective) := costs in
  let total := dmul (om_matched_amount m) (om_match_price m) in
  let fee := dmul total fee_rate in
  {| s_id := id; s_epoch_id := om_epoch_id m; s_buyer_id := o_user_id buy;
     s_seller_id := o_user_id sell; s_buy_order_id := None; s_sell_order_id := None;
     s_energy_amount := om_matched_amount m; s_price := om_match_price m;
     s_total_amount := total; s_fee_amount := fee;
     s_net_amount := dsub (dsub total fee) wheeling; s_status := "pending";
     s_transaction_hash := None; s_created_at := now; s_processed_at := None;
     s_wheeling_charge := Some wheeling; s_loss_factor := Some lf; s_loss_cost := Some lc;
     s_effective_energy := Some effective; s_buyer_zone_id := o_zone_id buy;
     s_seller_zone_id := o_zone_id sell; s_buyer_session_token := o_session_token buy;
     s_seller_session_token := o_session_token sell; s_retry_count := Some 0;
     s_updated_at := now |}.

(** The certificate for the seller, in a task of its own. *)
Definition issue_match_rec (sell : TradingOrderDb) (s : SettlementRow) : TM unit :=
  match o_meter_id sell with
  | None => mret ()
  | Some _ =>
      ignore (query (fun _ => ())) ;;
      emit (EvIssueRec (s_id s) (o_user_id sell) (s_energy_amount s))
  end.

Definition create_match_settlement (id : Uuid) (now : DateTime) (m : OrderMatch)
    : TM SettlementRow :=
  buy_row ← query (fun d => orders d !! om_buy_order_id m);
  buy ← expect FDb buy_row;
  sell_row ← query (fun d => orders d !! om_sell_order_id m);
  sell ← expect FDb sell_row;
  b_zone ← row_get buy_columns "zone_id" (o_zone_id buy);
  s_zone ← row_get sell_columns "zone_id" (o_zone_id sell);
  costs ← settlement_costs b_zone s_zone m;
  let s := epoch_settlement id now m buy sell costs in
  seller_row ← query (fun d => users d !! o_user_id sell);
  _ ← expect FDb seller_row;
  buy_pda ← row_get buy_columns "order_pda" (o_order_pda buy);
  sell_pda ← row_get sell_columns "order_pda" (o_order_pda sell);
  settle_on_chain (o_user_id buy) (o_user_id sell) (buy_pda, sell_pda) m
    (default 0 (s_wheeling_charge s)) (s_fee_amount s) (s_net_amount s)
    (default 0 (s_effective_energy s)) ;;
  exec (insert_settlement s) ;;
  exec (fun d => Some (set_matches (alter (fun m0 =>
    {| om_id := om_id m0; om_epoch_id := om_epoch_id m0;
       om_buy_order_id := om_buy_order_id m0; om_sell_order_id := om_sell_order_id m0;
       om_matched_amount := om_matched_amount m0; om_match_price := om_match_price m0;
       om_match_time := om_match_time m0; om_status := om_status m0;
       om_settlement_id := Some id |}) (om_id m) (order_matches d)) d)) ;;
  issue_match_rec sell s ;;
  mret s.

(** ** The whole run *)

Definition total_match_value (ms : list OrderMatch) : Decimal :=
  foldl (fun acc m => dadd acc (dmul (om_matched_amount m) (om_match_price m))) 0 ms.

Definition set_clearing_price (epoch_id : Uuid) (p : Decimal) (d : Db) : option Db :=
  v ← num8 p;
  Some (set_epochs (alter (fun e =>
    {| e_id := e_id e; e_epoch_number := e_epoch_number e; e_start_time := e_start_time e;
       e_end_time := e_end_time e; e_status := e_status e; e_clearing_price := Some v;
       e_total_volume := e_total_volume e; e_total_orders := e_total_orders e;
       e_matched_orders := e_matched_orders e |}) epoch_id (epochs d)) d).

Fixpoint settle_matches (n : nat) (ms : list OrderMatch) : TM unit :=
  match ms with
  | [] => mret ()
  | m :: ms =>
      r ← attempt (create_match_settlement (new_settlement_id n) (clock n) m);
      match r with
      | Ok s => emit (EvTradeExecuted (s_id s) (om_buy_order_id m) (om_sell_order_id m)
                        (s_buyer_id s) (s_seller_id s) (s_energy_amount s) (s_price s)
                        (s_total_amount s))
      | Err _ => mret ()
      end ;;
      settle_matches (S n) ms
  end.

(** [Ok None]: the fuel ran out. *)
Definition run_order_matching (fuel : nat) (epoch_id : Uuid) : TM (option (list OrderMatch)) :=
  book ← get_order_book epoch_id;
  let '(buys, sells) := book in
  match buys, sells with
  | [], _ | _, [] => mret (Some [])
  | _, _ =>
      done ← match_loop fuel epoch_id
        {| cl_buys := buys; cl_sells := sells; cl_matches := []; cl_volume := 0;
           cl_count := 0 |};
      match done with
      | None => mret None
      | Some c =>
          update_epoch_statistics epoch_id (cl_volume c) (cl_count c) ;;
          match cl_matches c with
          | [] => mret ()
          | _ :: _ =>
              price ← expect FPanic (ddiv (total_match_value (cl_matches c)) (cl_volume c));
              exec (set_clearing_price epoch_id price)
          end ;;
          settle_matches 0 (cl_matches c) ;;
          mret (Some (cl_matches c))
      end
  end.
End matching.

(** [row.get] of a NULL into a [Decimal] panics. *)
Definition history_decodes (s : SettlementRow) : bool :=
  match s_wheeling_charge s, s_loss_factor s, s_loss_cost s, s_effective_energy s with
  | Some _, Some _, Some _, Some _ => true
  | _, _, _, _ => false
  end.

Definition get_trading_history (user_id : Uuid) (limit offset : Z) : TM (list SettlementRow) :=
  if (limit <? 0) || (offset <? 0) then fail FDb
  else
    rows ← query (fun d => take (Z.to_nat limit) (drop (Z.to_nat offset)
      (sort_by (fun a b => s_created_at b <=? s_created_at a)
        (List.filter (fun s => (s_buyer_id s =? user_id)%N || (s_seller_id s =? user_id)%N)
          (map_to_list (settlements d)).*2))));
    if forallb history_decodes rows then mret rows else fail FPanic.

(** ** Platform revenue *)

Record PlatformRevenueSummary := {
  total_revenue : Decimal;
  platform_fees : Decimal;
  wheeling_charges : Decimal;
  loss_costs : Decimal;
  settlement_count : Z;
}.

Definition revenue_of (t : string) (l : list RevenueRow) : Decimal :=
  sumZ r_amount (List.filter (fun r => (r_revenue_type r =? t)%string) l).

Definition get_platform_revenue_summary : TM PlatformRevenueSummary :=
  query (fun d =>
    {| total_revenue := sumZ r_amount (platform_revenue d);
       platform_fees := revenue_of "platform_fee" (platform_revenue d);
       wheeling_charges := revenue_of "wheeling_charge" (platform_revenue d);
       loss_costs := revenue_of "loss_cost" (platform_revenue d);
       settlement_count := Z.of_nat (size (list_to_set (r_settlement_id <$> platform_revenue d)
                                           : gset Uuid)) |}).

(** [ORDER BY created_at DESC LIMIT .. OFFSET ..]; a negative bound is an error. *)
Definition get_revenue_records (limit offset : Z) : TM (list RevenueRow) :=
  if (limit <? 0) || (offset <? 0) then fail FDb
  else query (fun d => take (Z.to_nat limit) (drop (Z.to_nat offset)
         (sort_by (fun a b => r_created_at b <=? r_created_at a) (platform_revenue d)))).

(** ** The clearing price: lemmas and property *)

Lemma max_price_spec l m :
  max_price l = Some m ->
  (exists e, e ∈ l /\ b_price_per_kwh e = m) /\ forall e, e ∈ l -> b_price_per_kwh e <= m.
Proof.
  destruct l as [|e0 l]; simpl; [done|]. intros [= <-].
  assert (H : forall l a, let m := foldl (fun m e => Z.max m (b_price_per_kwh e)) a l in
    a <= m /\ (forall e, e ∈ l -> b_price_per_kwh e <= m)
    /\ (m = a \/ exists e, e ∈ l /\ b_price_per_kwh e = m)).
  { clear. induction l as [|e l IH]; intros a; simpl.
    - split_and!; [lia|by intros ? ?%not_elem_of_nil|auto].
    - destruct (IH (Z.max a (b_price_per_kwh e))) as (H1 & H2 & H3). split_and!; [lia| |].
      + intros x [->|Hx]%elem_of_cons; [lia|auto].
      + destruct H3 as [->|(x & Hx & <-)]; [|right; exists x; by split; [right|]].
        destruct (Z.max_spec a (b_price_per_kwh e)) as [[_ ->]|[_ ->]]; [|by left].
        right. exists e. by split; [left|]. }
  destruct (H l (b_price_per_kwh e0)) as (H1 & H2 & H3). split.
  - destruct H3 as [->|(x & Hx & <-)]; [exists e0; by split; [left|]|exists x; by split; [right|]].
  - intros x [->|Hx]%elem_of_cons; auto.
Qed.

Lemma min_price_spec l m :
  min_price l = Some m ->
  (exists e, e ∈ l /\ b_price_per_kwh e = m) /\ forall e, e ∈ l -> m <= b_price_per_kwh e.
Proof.
  destruct l as [|e0 l]; simpl; [done|]. intros [= <-].
  assert (H : forall l a, let m := foldl (fun m e => Z.min m (b_price_per_kwh e)) a l in
    m <= a /\ (forall e, e ∈ l -> m <= b_price_per_kwh e)
    /\ (m = a \/ exists e, e ∈ l /\ b_price_per_kwh e = m)).
  { clear. induction l as [|e l IH]; intros a; simpl.
    - split_and!; [lia|by intros ? ?%not_elem_of_nil|auto].
    - destruct (IH (Z.min a (b_price_per_kwh e))) as (H1 & H2 & H3). split_and!; [lia| |].
      + intros x [->|Hx]%elem_of_cons; [lia|auto].
      + destruct H3 as [->|(x & Hx & <-)]; [|right; exists x; by split; [right|]].
        destruct (Z.min_spec a (b_price_per_kwh e)) as [[_ ->]|[_ ->]]; [by left|].
        right. exists e. by split; [left|]. }
  destruct (H l (b_price_per_kwh e0)) as (H1 & H2 & H3). split.
  - destruct H3 as [->|(x & Hx & <-)]; [exists e0; by split; [left|]|exists x; by split; [right|]].
  - intros x [->|Hx]%elem_of_cons; auto.
Qed.

(** Entries as the book delivers them: positive amounts and prices with at most eight
    decimals, within the range of the columns. *)
Definition entry_ok (e : OrderBookEntry) : Prop :=
  0 < b_energy_amount e <= 10 ^ 12 * U /\ (G8 | b_energy_amount e)
  /\ 0 < b_price_per_kwh e <= 10 ^ 9 * U /\ (G8 | b_price_per_kwh e).

Definition energy_total (l : list OrderBookEntry) : Z := sumZ b_energy_amount l.

Section clearing_price_props.
Context `{NUM : Numerics}.

Lemma entry_energy_nonneg l : Forall entry_ok l -> Forall (fun e => 0 <= b_energy_amount e) l.
Proof. apply Forall_impl. intros e [? _]. lia. Qed.

Lemma sum_energy_exact l :
  Forall entry_ok l -> energy_total l <= 10 ^ 20 * U -> sum_energy l = energy_total l.
Proof.
  unfold sum_energy. intros Hl Hb.
  assert (H : forall l a, Forall entry_ok l -> 0 <= a -> (G8 | a) ->
    a + energy_total l <= 10 ^ 20 * U ->
    foldl (fun acc e => dadd acc (b_energy_amount e)) a l = a + energy_total l).
  { clear. induction l as [|e l IH]; intros a Hl Ha Ga Hb; simpl in *;
      unfold energy_total in *; simpl in *; [lia|].
    inversion Hl as [|? ? He Hl']; subst. destruct He as (Hp & Gp & _).
    pose proof (sumZ_nonneg b_energy_amount l (entry_energy_nonneg l Hl')).
    assert (G : (G8 | a + b_energy_amount e)) by (by apply Z.divide_add_r).
    rewrite dadd_exact; [|apply repr_8; [done|]; lia].
    rewrite IH; [lia|done|lia|done|lia]. }
  rewrite H; [lia|done|lia|apply Z.divide_0_r|lia].
Qed.

(** The clearing price exists exactly when some bid reaches some ask; it is the
    midpoint of the best bid and the best ask, hence between them, and the volume is what
    both the buyers willing to pay the best ask and the sellers content with the best bid
    can trade. *)
Theorem clearing_price_spec (buys sells : list OrderBookEntry) :
  Forall entry_ok buys -> Forall entry_ok sells ->
  energy_total buys <= 10 ^ 20 * U -> energy_total sells <= 10 ^ 20 * U ->
  match calculate_clearing_price buys sells with
  | Err _ => False
  | Ok None => forall b s, b ∈ buys -> s ∈ sells -> b_price_per_kwh b < b_price_per_kwh s
  | Ok (Some cp) =>
      (exists b s, b ∈ buys /\ s ∈ sells /\ b_price_per_kwh b = cp_best_bid cp
         /\ b_price_per_kwh s = cp_best_ask cp)
      /\ (forall b, b ∈ buys -> b_price_per_kwh b <= cp_best_bid cp)
      /\ (forall s, s ∈ sells -> cp_best_ask cp <= b_price_per_kwh s)
      /\ 2 * cp_price cp = cp_best_bid cp + cp_best_ask cp
      /\ cp_best_ask cp <= cp_price cp <= cp_best_bid cp
      /\ cp_volume cp
         = Z.min (energy_total (List.filter (fun o => cp_best_ask cp <=? b_price_per_kwh o) buys))
                 (energy_total (List.filter (fun o => b_price_per_kwh o <=? cp_best_bid cp) sells))
  end.
Proof.
  intros Hb Hs Tb Ts. unfold calculate_clearing_price.
  destruct (max_price buys) as [bid|] eqn:Eb; cycle 1.
  { destruct buys; [|done]. by intros b s ?%not_elem_of_nil. }
  destruct (min_price sells) as [ask|] eqn:Es; cycle 1.
  { destruct sells; [|done]. by intros b s _ ?%not_elem_of_nil. }
  apply max_price_spec in Eb as [(eb & Heb & Hbid) Hmax].
  apply min_price_spec in Es as [(es & Hes & Hask) Hmin].
  destruct (bid <? ask) eqn:Ecross; to_prop.
  { intros b s Bb Bs. specialize (Hmax b Bb). specialize (Hmin s Bs). lia. }
  rewrite list.Forall_forall in Hb, Hs.
  destruct (Hb eb Heb) as (_ & _ & Rb & Gb). destruct (Hs es Hes) as (_ & _ & Rs & Gs).
  destruct (midpoint_exact 8 bid ask) as (c & Hc & Hmid & _); subst;
    [lia|exact Gb|exact Gs|unfold U in *; simpl; lia|].
  rewrite Hc. simpl. rewrite <- list.Forall_forall in Hb, Hs.
  assert (F : forall p l, Forall entry_ok l -> energy_total l <= 10 ^ 20 * U ->
    sum_energy (List.filter p l) = energy_total (List.filter p l)).
  { intros p l Hl Tl. apply sum_energy_exact.
    - apply list.Forall_forall. intros x [Hx _]%list_elem_of_In%filter_In.
      rewrite list.Forall_forall in Hl. by apply Hl, list_elem_of_In.
    - pose proof (sumZ_filter_le b_energy_amount p l (entry_energy_nonneg l Hl)).
      unfold energy_total in *. lia. }
  rewrite !F by done. split_and!; [by exists eb, es|done|done|lia..|done].
Qed.
End clearing_price_props.

(** ** The scan for the best seller *)

Section scan.
Context `{NUM : Numerics} `{SIM : Simulator}.

(** What [estimate_zonal_costs] answers after the effects [tr]. *)
Definition quote (tr : list Event) (b_zone s_zone : option Z) : Decimal * Decimal :=
  match b_zone, s_zone with
  | Some b, Some s =>
      match calculate_cost tr b s (dec 1 0) (dec 1 0) with
      | Some c => (default 0 (cd_wheeling_charge c), default 0 (cd_loss_factor c))
      | None => (0, 0)
      end
  | _, _ => (0, 0)
  end.

Lemma estimate_run b s w :
  exists tr, attempt (estimate_zonal_costs b s) w
             = (Ok (Ok (quote (trace w) b s)), World (st w) (faults w) tr).
Proof.
  unfold attempt, estimate_zonal_costs, quote. destruct w as [d f tr].
  destruct b as [b|]; [destruct s as [s|]|]; simpl; [|by exists tr..].
  unfold simulate, mbind, M_bind, mret, M_ret. simpl. destruct (calculate_cost _ _ _ _ _); eauto.
Qed.

(** [sell] can serve [buy] at [price]: for costs the simulator quoted, the landed cost
    is within the bid and [price] is half way between the two. *)
Definition serves (buy sell : OrderBookEntry) (price : Decimal) : Prop :=
  exists tr, let '(wheeling, lf) := quote tr (b_zone_id buy) (b_zone_id sell) in
    let landed := landed_cost (b_price_per_kwh sell) wheeling lf in
    landed <= b_price_per_kwh buy
    /\ ddiv (dadd (b_price_per_kwh buy) landed) (dec 2 0) = Some price.

(** The scan touches no table, and what it selects serves the buyer. *)
Lemma find_best_run buy (l : list OrderBookEntry) : forall sells idx best sur price w r w',
  (forall k (s : OrderBookEntry), sells !! k = Some s -> l !! (idx + k)%nat = Some s) ->
  (forall i, best = Some i -> exists s, l !! i = Some s /\ serves buy s price) ->
  find_best buy idx sells best sur price w = (r, w') ->
  st w' = st w /\ faults w' = faults w
  /\ forall best' price', r = Ok (best', price') ->
     forall i, best' = Some i -> exists s, l !! i = Some s /\ serves buy s price'.
Proof.
  induction sells as [|s sells IH]; intros idx best sur price w r w' Hl Hbest H; simpl in H.
  { unfold mret, M_ret in H. simplify_eq. split_and!; auto. intros; simplify_eq. by apply Hbest. }
  assert (Hl' : forall k x, sells !! k = Some x -> l !! (S idx + k)%nat = Some x).
  { intros k x Hk. replace (S idx + k)%nat with (idx + S k)%nat by lia. by apply Hl. }
  destruct (estimate_run (b_zone_id buy) (b_zone_id s) w) as (tr & Hest).
  unfold mbind at 1, M_bind at 1 in H. rewrite Hest in H.
  destruct (quote (trace w) (b_zone_id buy) (b_zone_id s)) as [wh lf] eqn:Eq.
  cbv zeta in H.
  destruct (_ <=? b_price_per_kwh buy) eqn:El; [|by eapply IH in H].
  destruct (sur <? _) eqn:Es; [|by eapply IH in H].
  unfold expect in H. destruct (ddiv _ _) as [p|] eqn:Ed.
  - unfold mbind, M_bind, mret, M_ret in H. eapply IH in H; [done|done|].
    intros i [= <-]. exists s. split; [rewrite <- (Nat.add_0_r idx); by apply Hl|].
    exists (trace w). rewrite Eq. to_prop. done.
  - unfold mbind, M_bind, fail in H. simplify_eq/=. done.
Qed.

Lemma find_best_serves buy sells w i price w' :
  find_best buy 0 sells None (- dec 1 0) 0 w = (Ok (Some i, price), w') ->
  st w' = st w /\ exists s, sells !! i = Some s /\ serves buy s price.
Proof.
  intros H. eapply (find_best_run buy sells) in H as (Hst & _ & H); [|done|done].
  split; [done|]. by eapply H.
Qed.

Lemma find_best_st buy sells w r w' :
  find_best buy 0 sells None (- dec 1 0) 0 w = (r, w') -> st w' = st w.
Proof. intros H. by eapply (find_best_run buy sells) in H as (? & _). Qed.
End scan.

(** ** The matching loop as a step relation *)

Section steps.
Context `{NUM : Numerics} `{CH : Chain} `{SIM : Simulator}.
Context (new_match_id : nat -> Uuid) (clock : nat -> DateTime) (epoch_id : Uuid).

Definition without_buyer (buys : list OrderBookEntry) (c : Clearing) : Clearing :=
  {| cl_buys := buys; cl_sells := cl_sells c; cl_matches := cl_matches c;
     cl_volume := cl_volume c; cl_count := cl_count c |}.

Definition after_match (buy : OrderBookEntry) (buys : list OrderBookEntry) (idx : nat)
    (sell : OrderBookEntry) (price : Decimal) (c : Clearing) : Clearing :=
  let a := Z.min (b_energy_amount buy) (b_energy_amount sell) in
  let buy' := draw a buy in
  let sell' := draw a sell in
  {| cl_buys := if b_energy_amount buy' <=? 0 then buys else buy' :: buys;
     cl_sells := if b_energy_amount sell' <=? 0 then remove_nth idx (cl_sells c)
                 else <[idx := sell']> (cl_sells c);
     cl_matches := (cl_matches c ++ [make_match new_match_id clock epoch_id buy sell a price
                      (length (cl_matches c))])%list;
     cl_volume := dadd (cl_volume c) a;
     cl_count := cl_count c + 1 |}.

Inductive clearing_step (c : Clearing) : Clearing -> Prop :=
| step_unmatched buy buys :
    cl_buys c = buy :: buys -> clearing_step c (without_buyer buys c)
| step_stuck buy buys idx sell :
    cl_buys c = buy :: buys -> cl_sells c !! idx = Some sell ->
    Z.min (b_energy_amount buy) (b_energy_amount sell) <= 0 -> clearing_step c c
| step_match buy buys idx sell price :
    cl_buys c = buy :: buys -> cl_sells c !! idx = Some sell -> serves buy sell price ->
    0 < Z.min (b_energy_amount buy) (b_energy_amount sell) ->
    clearing_step c (after_match buy buys idx sell price c).

Lemma record_fill_Ok side e amount w b w' :
  record_fill side e amount w = (Ok b, w') -> b = (b_energy_amount e <=? 0).
Proof.
  unfold record_fill. by destruct (_ <=? 0); intros H; run_steps.
Qed.

Lemma match_step_sound buy buys c w c' w' :
  cl_buys c = buy :: buys ->
  match_step new_match_id clock epoch_id buy buys c w = (Ok c', w') -> clearing_step c c'.
Proof.
  intros Hb H. unfold match_step in H.
  apply bind_Ok in H as ([[idx|] price] & w1 & Hf & H); cycle 1.
  { apply ret_Ok in H as [<- _]. by eapply step_unmatched. }
  apply find_best_serves in Hf as (_ & s & Hs & Hsv). rewrite Hs in H.
  apply bind_Ok in H as (s' & w2 & Hx & H). apply expect_Ok in Hx as [[= <-] ->].
  cbv zeta in H. destruct (0 <? _) eqn:Ea; to_prop.
  - apply bind_Ok in H as (? & ? & _ & H). apply bind_Ok in H as (bd & ? & Hbd & H).
    apply bind_Ok in H as (sd & ? & Hsd & H). apply ret_Ok in H as [<- _].
    apply record_fill_Ok in Hbd as ->, Hsd as ->. by eapply step_match.
  - apply ret_Ok in H as [<- _]. by eapply step_stuck.
Qed.

Lemma match_loop_steps fuel : forall c w c' w',
  match_loop new_match_id clock fuel epoch_id c w = (Ok (Some c'), w') ->
  rtc clearing_step c c' /\ (cl_buys c' = [] \/ cl_sells c' = []).
Proof.
  induction fuel as [|fuel IH]; intros c w c' w' H; simpl in H.
  - destruct (cl_buys c) eqn:Eb; [apply ret_Ok in H as [[= <-] _]; split; auto using rtc_refl|].
    destruct (cl_sells c) eqn:Es; [apply ret_Ok in H as [[= <-] _]; split; auto using rtc_refl|].
    by apply ret_Ok in H as [? _].
  - destruct (cl_buys c) as [|buy buys] eqn:Eb;
      [apply ret_Ok in H as [[= <-] _]; split; auto using rtc_refl|].
    destruct (cl_sells c) eqn:Es; [apply ret_Ok in H as [[= <-] _]; split; auto using rtc_refl|].
    apply bind_Ok in H as (c1 & w1 & Hs & H). apply IH in H as [H1 H2].
    split; [|done]. eapply rtc_l; [by eapply match_step_sound|done].
Qed.
End steps.

(** ** No order is matched beyond what it had left *)

(** What is left in the book under an order id, and what matches took from it. *)
Definition remaining_of (id : Uuid) (l : list OrderBookEntry) : Z :=
  energy_total (List.filter (fun e => (b_order_id e =? id)%N) l).
Definition bought_by (id : Uuid) (ms : list OrderMatch) : Z :=
  sumZ om_matched_amount (List.filter (fun m => (om_buy_order_id m =? id)%N) ms).
Definition sold_by (id : Uuid) (ms : list OrderMatch) : Z :=
  sumZ om_matched_amount (List.filter (fun m => (om_sell_order_id m =? id)%N) ms).
Definition matched_total (ms : list OrderMatch) : Z := sumZ om_matched_amount ms.

(** An entry that stems from one of the initial book: same order, price and zone. *)
Definition stems_from (l : list OrderBookEntry) (e : OrderBookEntry) : Prop :=
  exists e0, e0 ∈ l /\ b_order_id e0 = b_order_id e /\ b_price_per_kwh e0 = b_price_per_kwh e
    /\ b_zone_id e0 = b_zone_id e.

Section invariant.
Context `{NUM : Numerics} `{CH : Chain} `{SIM : Simulator}.
Context (new_match_id : nat -> Uuid) (clock : nat -> DateTime) (epoch_id : Uuid).
Context (B0 S0 : list OrderBookEntry).

(** A match between two orders of the initial book at a price the landed cost allows. *)
Definition match_ok (m : OrderMatch) : Prop :=
  0 < om_matched_amount m /\
  exists b s, b ∈ B0 /\ s ∈ S0 /\ om_buy_order_id m = b_order_id b
    /\ om_sell_order_id m = b_order_id s /\ serves b s (om_match_price m).

Record clearing_inv (c : Clearing) : Prop := {
  inv_buys : Forall (fun e => entry_ok e /\ stems_from B0 e) (cl_buys c);
  inv_sells : Forall (fun e => entry_ok e /\ stems_from S0 e) (cl_sells c);
  inv_bought id : remaining_of id (cl_buys c) + bought_by id (cl_matches c)
                  <= remaining_of id B0;
  inv_sold id : remaining_of id (cl_sells c) + sold_by id (cl_matches c) <= remaining_of id S0;
  inv_total : energy_total (cl_buys c) + matched_total (cl_matches c) <= energy_total B0;
  inv_volume : cl_volume c = matched_total (cl_matches c);
  inv_grid : (G8 | matched_total (cl_matches c));
  inv_matches : Forall match_ok (cl_matches c);
  inv_count : cl_count c = Z.of_nat (length (cl_matches c));
}.

Lemma clearing_inv_init :
  Forall entry_ok B0 -> Forall entry_ok S0 ->
  clearing_inv {| cl_buys := B0; cl_sells := S0; cl_matches := []; cl_volume := 0; cl_count := 0 |}.
Proof.
  intros HB HS. rewrite list.Forall_forall in HB, HS.
  assert (R : forall l e, e ∈ l -> stems_from l e) by (intros l e ?; by exists e).
  split; simpl.
  - apply list.Forall_forall. eauto.
  - apply list.Forall_forall. eauto.
  - intros id. unfold bought_by. simpl. lia.
  - intros id. unfold sold_by. simpl. lia.
  - unfold matched_total. simpl. lia.
  - done.
  - apply Z.divide_0_r.
  - done.
  - done.
Qed.

(** Drawing at most what an entry holds. *)
Lemma draw_energy a e :
  entry_ok e -> (G8 | a) -> 0 < a <= b_energy_amount e ->
  b_energy_amount (draw a e) = b_energy_amount e - a.
Proof.
  intros (He & Ge & _) Ga Ha. simpl. apply dsub_exact, repr_8; [by apply Z.divide_sub_r|].
  unfold U in *. lia.
Qed.

Lemma draw_ok a e l :
  entry_ok e /\ stems_from l e -> (G8 | a) -> 0 < a <= b_energy_amount e ->
  0 < b_energy_amount (draw a e) -> entry_ok (draw a e) /\ stems_from l (draw a e).
Proof.
  intros [He Hl] Ga Ha Hd. pose proof (draw_energy a e He Ga Ha) as E.
  destruct He as (He & Ge & Hp & Gp). split; [|exact Hl].
  split_and!; [lia|rewrite E; lia|rewrite E; by apply Z.divide_sub_r|exact (proj1 Hp)|exact (proj2 Hp)|exact Gp].
Qed.

(** One side of the book after an entry was drawn on: it leaves when empty. *)
Definition after_fill (idx : nat) (e : OrderBookEntry) (a : Decimal) (l : list OrderBookEntry)
    : list OrderBookEntry :=
  if b_energy_amount (draw a e) <=? 0 then remove_nth idx l else <[idx := draw a e]> l.

Lemma after_fill_spec idx e a l l0 :
  l !! idx = Some e -> Forall (fun e => entry_ok e /\ stems_from l0 e) l -> (G8 | a) ->
  0 < a <= b_energy_amount e ->
  Forall (fun e => entry_ok e /\ stems_from l0 e) (after_fill idx e a l)
  /\ energy_total (after_fill idx e a l) = energy_total l - a
  /\ forall id, remaining_of id (after_fill idx e a l)
                = remaining_of id l - (if (b_order_id e =? id)%N then a else 0).
Proof.
  intros He Hl Ga Ha. assert (Ok : entry_ok e /\ stems_from l0 e)
    by (by eapply list.Forall_lookup_1 in Hl).
  pose proof (draw_energy a e (proj1 Ok) Ga Ha) as Ed. unfold after_fill.
  destruct (_ <=? 0) eqn:Ez; to_prop.
  - assert (a = b_energy_amount e) as -> by lia. split_and!; [by apply Forall_remove_nth| |].
    + unfold energy_total. by rewrite (sumZ_remove_nth _ _ _ _ He).
    + intros id. unfold remaining_of, energy_total.
      by rewrite !sumZ_filter, (sumZ_remove_nth _ _ _ _ He).
  - split_and!.
    + apply Forall_insert; [done|]. by apply draw_ok.
    + unfold energy_total. rewrite (sumZ_insert _ _ _ _ _ He), Ed. lia.
    + intros id. unfold remaining_of, energy_total.
      rewrite !sumZ_filter, (sumZ_insert _ _ _ _ _ He), Ed. simpl. destruct (_ =? id)%N; lia.
Qed.

Lemma serves_stems b s b0 s0 p :
  b_price_per_kwh b0 = b_price_per_kwh b -> b_zone_id b0 = b_zone_id b ->
  b_price_per_kwh s0 = b_price_per_kwh s -> b_zone_id s0 = b_zone_id s ->
  serves b s p -> serves b0 s0 p.
Proof. unfold serves. by intros -> -> -> ->. Qed.

Lemma taken_app f (ms : list OrderMatch) m :
  sumZ om_matched_amount (List.filter f (ms ++ [m])%list)
  = sumZ om_matched_amount (List.filter f ms) + (if f m then om_matched_amount m else 0).
Proof. rewrite List.filter_app, sumZ_app. simpl. destruct (f m); simpl; lia. Qed.

Lemma clearing_step_inv c c' :
  energy_total B0 <= 10 ^ 20 * U ->
  clearing_step new_match_id clock epoch_id c c' -> clearing_inv c -> clearing_inv c'.
Proof.
  intros HT Hstep [Ib Is Ibo Iso It Iv Ig Im Ic]. destruct Hstep as
    [buy buys Hb|buy buys idx sell Hb Hs Ha|buy buys idx sell price Hb Hs Hsv Ha]; [|done|].
  - rewrite Hb in *. apply list.Forall_cons in Ib as [[(? & _) _] Ib].
    split; simpl; try done.
    + intros id. specialize (Ibo id). unfold remaining_of, energy_total in *. simpl in Ibo.
      destruct (_ =? id)%N; simpl in Ibo; lia.
    + unfold energy_total in *. simpl in It. lia.
  - set (a := Z.min (b_energy_amount buy) (b_energy_amount sell)) in *.
    rewrite Hb in *. assert (Hb0 : (buy :: buys) !! 0%nat = Some buy) by done.
    pose proof (list.Forall_lookup_1 _ _ _ _ Ib Hb0) as [(Rb & Gb & Pb) (b0 & Eb0 & Kb & Kbp & Kbz)].
    pose proof (list.Forall_lookup_1 _ _ _ _ Is Hs) as [(Rs & Gs & Ps) (s0 & Es0 & Ks & Ksp & Ksz)].
    assert (Ga : (G8 | a)) by (unfold a; by destruct (Z.min_spec (b_energy_amount buy)
      (b_energy_amount sell)) as [[_ ->]|[_ ->]]).
    destruct (after_fill_spec 0 buy a _ B0 Hb0 Ib Ga ltac:(lia)) as (Ib' & Tb' & Rb').
    destruct (after_fill_spec idx sell a _ S0 Hs Is Ga ltac:(lia)) as (Is' & Ts' & Rs').
    unfold after_fill in Ib', Tb', Rb', Is', Rs'. simpl remove_nth in Ib', Tb', Rb'.
    assert (G : (G8 | matched_total (cl_matches c) + a)) by (by apply Z.divide_add_r).
    assert (Tm : 0 <= matched_total (cl_matches c)).
    { apply sumZ_nonneg. eapply Forall_impl; [|exact Im]. intros m [? _]. lia. }
    assert (Tn : 0 <= energy_total buys).
    { apply sumZ_nonneg. apply list.Forall_cons in Ib as [_ Ib].
      eapply Forall_impl; [|exact Ib]. intros e [[? _] _]. lia. }
    assert (E : matched_total (cl_matches (after_match new_match_id clock epoch_id buy buys idx sell
      price c)) = matched_total (cl_matches c) + a).
    { simpl. unfold matched_total. rewrite sumZ_app. simpl. fold a. lia. }
    split; rewrite ?E; simpl cl_buys; simpl cl_sells; fold a.
    + exact Ib'.
    + exact Is'.
    + intros id. specialize (Ibo id). specialize (Rb' id). unfold bought_by in *. simpl cl_matches.
      rewrite taken_app. simpl. fold a. simpl in Rb'. destruct (_ =? id)%N; lia.
    + intros id. specialize (Iso id). specialize (Rs' id). unfold sold_by in *. simpl cl_matches.
      rewrite taken_app. simpl. fold a. simpl in Rs'. destruct (_ =? id)%N; lia.
    + simpl in Tb' |- *. lia.
    + simpl. rewrite Iv. fold a. apply dadd_exact, repr_8; [done|].
      unfold energy_total in *. simpl in It. lia.
    + exact G.
    + simpl. apply Forall_app. split; [done|]. repeat constructor; simpl; [exact Ha|].
      exists b0, s0. split_and!; auto. by eapply serves_stems.
    + simpl. rewrite length_app, Ic. simpl. lia.
Qed.
End invariant.

(** ** Costs the simulator may quote

    Charges with at most eight decimals, not negative, of a sensible size. *)
Definition simulator_sane `{Simulator} : Prop :=
  forall tr b s c, calculate_cost tr b s (dec 1 0) (dec 1 0) = Some c ->
    let w := default 0 (cd_wheeling_charge c) in
    let l := default 0 (cd_loss_factor c) in
    (G8 | w) /\ 0 <= w <= 10 ^ 9 * U /\ (G8 | l) /\ 0 <= l <= 10 * U.

Section landed.
Context `{NUM : Numerics} `{SIM : Simulator}.

Lemma quote_sane tr b s : simulator_sane ->
  let '(w, l) := quote tr b s in
  (G8 | w) /\ 0 <= w <= 10 ^ 9 * U /\ (G8 | l) /\ 0 <= l <= 10 * U.
Proof.
  intros Hs. unfold quote.
  assert (Z0 : (G8 | 0) /\ 0 <= 0 <= 10 ^ 9 * U /\ (G8 | 0) /\ 0 <= 0 <= 10 * U)
    by (unfold U; split_and!; first [apply Z.divide_0_r | lia]).
  destruct b as [b|]; [destruct s as [s|]|]; try done.
  destruct (calculate_cost tr b s _ _) as [c|] eqn:E; [by apply Hs in E|done].
Qed.

(** The landed cost of a sane quote is exact and at least the ask. *)
Lemma landed_exact ask w l :
  0 < ask <= 10 ^ 9 * U -> (G8 | ask) ->
  (G8 | w) /\ 0 <= w <= 10 ^ 9 * U /\ (G8 | l) /\ 0 <= l <= 10 * U ->
  exists loss, loss * U = l * ask /\ landed_cost ask w l = ask + w + loss
    /\ on_grid 16 (landed_cost ask w l) /\ ask <= landed_cost ask w l <= 10 ^ 11 * U.
Proof.
  intros Ha Ga (Gw & Hw & Gl & Hl). unfold landed_cost.
  destruct (dmul_grid 8 8 l ask) as [Hm Gm]; [lia..|exact Gl|exact Ga| |].
  { rewrite Z.abs_eq by nia. unfold U in *. simpl Z.pow in *. nia. }
  simpl Z.add in Gm. assert (Hm0 : 0 <= dmul l ask <= 10 ^ 10 * U) by (unfold U in *; nia).
  rewrite (dadd_exact ask w);
    [|apply repr_8; [by apply Z.divide_add_r|unfold U in *; lia]].
  assert (G : on_grid 16 (ask + w + dmul l ask)).
  { apply on_grid_add; [apply (on_grid_mono 8); [lia..|by apply Z.divide_add_r]|done]. }
  rewrite dadd_exact; [|apply repr_16; [done|unfold U in *; lia]].
  exists (dmul l ask). split_and!; [done..| |]; unfold U in *; lia.
Qed.

(** A price at which a seller serves a buyer lies between the two. *)
Lemma serves_fair b s p :
  simulator_sane -> entry_ok b -> entry_ok s -> serves b s p ->
  b_price_per_kwh s <= p <= b_price_per_kwh b.
Proof.
  intros Hsane (_ & _ & Hb & Gb) (_ & _ & Ha & Ga) (tr & H).
  pose proof (quote_sane tr (b_zone_id b) (b_zone_id s) Hsane) as Hq.
  destruct (quote tr _ _) as [w l]. destruct H as [Hle Hd].
  destruct (landed_exact _ w l Ha Ga Hq) as (_ & _ & _ & Gl & Hl).
  destruct (midpoint_exact 16 (b_price_per_kwh b) (landed_cost (b_price_per_kwh s) w l))
    as (c & Hc & Hmid & _); [lia| |done|unfold U in *; simpl; lia|].
  { apply (on_grid_mono 8); [lia..|done]. }
  rewrite Hc in Hd. simplify_eq. lia.
Qed.
End landed.

(** ** Properties of the matching loop *)

Definition initial_clearing (buys sells : list OrderBookEntry) : Clearing :=
  {| cl_buys := buys; cl_sells := sells; cl_matches := []; cl_volume := 0; cl_count := 0 |}.

Section matching_props.
Context `{NUM : Numerics} `{CH : Chain} `{SIM : Simulator}.
Context (new_match_id : nat -> Uuid) (clock : nat -> DateTime) (epoch_id : Uuid).

Lemma match_loop_inv fuel buys sells w c w' :
  Forall entry_ok buys -> Forall entry_ok sells -> energy_total buys <= 10 ^ 20 * U ->
  match_loop new_match_id clock fuel epoch_id (initial_clearing buys sells) w
    = (Ok (Some c), w') ->
  clearing_inv buys sells c /\ (cl_buys c = [] \/ cl_sells c = []).
Proof.
  intros Hb Hs Ht H. apply match_loop_steps in H as [Hrtc Hend]. split; [|done].
  assert (H0 : clearing_inv buys sells (initial_clearing buys sells))
    by (by apply clearing_inv_init).
  induction Hrtc as [|c0 c1 c2 Hstep Hrtc IH]; [done|].
  apply IH; [done|]. by eapply clearing_step_inv.
Qed.

(** C5: the matching of an epoch never takes from an order more than it had left,
    on either side, every match is for a positive amount, the reported volume and count
    are those of the matches, and it only stops when one side of the book is exhausted. *)
Theorem matching_no_overfill (fuel : nat) (buys sells : list OrderBookEntry)
    (w w' : world Db Event) (c : Clearing) :
  Forall entry_ok buys -> Forall entry_ok sells -> energy_total buys <= 10 ^ 20 * U ->
  match_loop new_match_id clock fuel epoch_id (initial_clearing buys sells) w
    = (Ok (Some c), w') ->
  (forall id, bought_by id (cl_matches c) <= remaining_of id buys)
  /\ (forall id, sold_by id (cl_matches c) <= remaining_of id sells)
  /\ Forall (fun m => 0 < om_matched_amount m) (cl_matches c)
  /\ cl_volume c = matched_total (cl_matches c)
  /\ cl_count c = Z.of_nat (length (cl_matches c))
  /\ (cl_buys c = [] \/ cl_sells c = []).
Proof.
  intros Hb Hs Ht H. destruct (match_loop_inv _ _ _ _ _ _ Hb Hs Ht H) as [[Ib Is Ibo Iso _ Iv _ Im Ic] He].
  assert (P : forall l0 l id, Forall (fun e => entry_ok e /\ stems_from l0 e) l -> 0 <= remaining_of id l).
  { intros l0 l id Hl. unfold remaining_of, energy_total. rewrite sumZ_filter.
    apply sumZ_nonneg. eapply Forall_impl; [|exact Hl]. intros e [[? _] _]. simpl.
    destruct (_ =? id)%N; lia. }
  split_and!; auto.
  - intros id. specialize (Ibo id). specialize (P _ _ id Ib). lia.
  - intros id. specialize (Iso id). specialize (P _ _ id Is). lia.
  - eapply Forall_impl; [|exact Im]. by intros m [? _].
Qed.

(** Every match is between a buy and a sell order of the book, at a price no
    buyer would refuse (at most the bid) and no seller would refuse (at least the ask). *)
Theorem matching_prices_fair (fuel : nat) (buys sells : list OrderBookEntry)
    (w w' : world Db Event) (c : Clearing) :
  simulator_sane ->
  Forall entry_ok buys -> Forall entry_ok sells -> energy_total buys <= 10 ^ 20 * U ->
  match_loop new_match_id clock fuel epoch_id (initial_clearing buys sells) w
    = (Ok (Some c), w') ->
  Forall (fun m => exists b s, b ∈ buys /\ s ∈ sells
    /\ om_buy_order_id m = b_order_id b /\ om_sell_order_id m = b_order_id s
    /\ b_price_per_kwh s <= om_match_price m <= b_price_per_kwh b) (cl_matches c).
Proof.
  intros Hsane Hb Hs Ht H. destruct (match_loop_inv _ _ _ _ _ _ Hb Hs Ht H) as [Hi _].
  eapply Forall_impl; [|apply (inv_matches _ _ _ Hi)].
  intros m (_ & b & s & Eb & Es & Kb & Ks & Hsv). exists b, s. split_and!; auto;
    rewrite list.Forall_forall in Hb, Hs; eapply serves_fair in Hsv; eauto; lia.
Qed.

(** C26: on a book whose entries all have a positive remaining energy (of at most 8 decimals, and
    10^20 in total) the loop ends: with as much fuel as the book has entries it never runs out,
    whatever the simulator answers and however the database fails.  With an entry that has nothing
    left it can spin for ever ([zero_remaining_diverges]). *)
Theorem match_loop_terminates (fuel : nat) (buys sells : list OrderBookEntry)
    (w : world Db Event) :
  Forall entry_ok buys -> Forall entry_ok sells -> energy_total buys <= 10 ^ 20 * U ->
  (length buys + length sells <= fuel)%nat ->
  fst (match_loop new_match_id clock fuel epoch_id (initial_clearing buys sells) w)
    <> Ok None.
Proof.
  intros Hb Hs Ht Hf.
  assert (Hi : clearing_inv buys sells (initial_clearing buys sells))
    by (by apply clearing_inv_init).
  assert (G : forall fuel c w, clearing_inv buys sells c ->
    (length (cl_buys c) + length (cl_sells c) <= fuel)%nat ->
    fst (match_loop new_match_id clock fuel epoch_id c w) <> Ok None).
  { clear -Ht. induction fuel as [|fuel IH]; intros c w Hi Hf; simpl.
    - destruct (cl_buys c) as [|buy l] eqn:Eb, (cl_sells c) eqn:Es; simpl in *; try done; lia.
    - destruct (cl_buys c) as [|buy l] eqn:Eb; [done|].
      destruct (cl_sells c) as [|sell l'] eqn:Es; [done|]. unfold mbind, M_bind.
      destruct (match_step _ _ _ _ _ _ w) as [[c1|e] w1] eqn:E; [|done].
      pose proof (match_step_sound _ _ _ _ _ _ _ _ _ Eb E) as Hstep.
      apply IH; [by eapply clearing_step_inv|].
      destruct Hstep as [b bs Hc|b bs idx s Hc Hs Hle|b bs idx s p Hc Hs _ Hlt];
        rewrite Eb in Hc; simplify_eq/=.
      + rewrite Es in *. simpl in *. lia.
      + exfalso. pose proof (inv_buys _ _ _ Hi) as Ib. pose proof (inv_sells _ _ _ Hi) as Is.
        rewrite Eb in Ib. apply list.Forall_cons in Ib as [[(? & _) _] _].
        destruct (list.Forall_lookup_1 _ _ _ _ Is Hs) as [(? & _) _]. lia.
      + pose proof (inv_buys _ _ _ Hi) as Ib. pose proof (inv_sells _ _ _ Hi) as Is.
        rewrite Eb in Ib. apply list.Forall_cons in Ib as [[Ob Sb] _].
        destruct (list.Forall_lookup_1 _ _ _ _ Is Hs) as [Os Ss].
        assert (Ga : forall x y, (G8 | x) -> (G8 | y) -> (G8 | Z.min x y)).
        { intros x y ? ?. by destruct (Z.min_spec x y) as [[_ ->]|[_ ->]]. }
        pose proof (lookup_lt_Some _ _ _ Hs).
        rewrite !dsub_exact by (destruct Ob as (? & ? & _), Os as (? & ? & _);
          apply repr_8; [apply Z.divide_sub_r; auto|unfold U in *; lia]).
        pose proof (length_remove_nth (cl_sells c) idx ltac:(done)).
        assert (Hn : length (cl_sells c) = S (length l')) by (by rewrite Es).
        destruct (Z.min_spec (b_energy_amount b) (b_energy_amount s)) as [[? ->]|[? ->]];
          repeat case_match; to_prop; simpl length; rewrite ?length_insert; lia. }
  by apply G.
Qed.
End matching_props.

(** ** The best seller, and a run that does not end *)

Definition price_ok (e : OrderBookEntry) : Prop :=
  0 < b_price_per_kwh e <= 10 ^ 9 * U /\ (G8 | b_price_per_kwh e).

Section best_seller.
Context `{NUM : Numerics} `{SIM : Simulator}.
Context (buy : OrderBookEntry).
Open Scope list_scope.

Definition landed_for (s : OrderBookEntry) : Decimal :=
  let '(w, l) := quote [] (b_zone_id buy) (b_zone_id s) in
  landed_cost (b_price_per_kwh s) w l.

(** The quotes for this buyer are sane and do not change during the scan. *)
Definition quotes_ok : Prop :=
  forall tr z, quote tr (b_zone_id buy) z = quote [] (b_zone_id buy) z
    /\ let '(w, l) := quote tr (b_zone_id buy) z in
       (G8 | w) /\ 0 <= w <= 10 ^ 9 * U /\ (G8 | l) /\ 0 <= l <= 10 * U.

(** The first of the sellers with the least landed cost within the bid. *)
Definition cheapest (sells : list OrderBookEntry) (best : option nat) : Prop :=
  match best with
  | None => forall s, s ∈ sells -> b_price_per_kwh buy < landed_for s
  | Some i => exists s, sells !! i = Some s /\ landed_for s <= b_price_per_kwh buy
      /\ forall j s', sells !! j = Some s' -> landed_for s' <= b_price_per_kwh buy ->
           landed_for s < landed_for s' \/ (landed_for s = landed_for s' /\ (i <= j)%nat)
  end.

(** The surplus kept along the scan is that of the best seller seen. *)
Definition scan_surplus (sells : list OrderBookEntry) (best : option nat) (sur : Decimal)
    : Prop :=
  match best with
  | None => sur = - dec 1 0
  | Some i => exists s, sells !! i = Some s /\ sur = b_price_per_kwh buy - landed_for s
  end.

Lemma surplus_exact s :
  quotes_ok -> price_ok buy -> price_ok s -> landed_for s <= b_price_per_kwh buy ->
  dsub (b_price_per_kwh buy) (landed_for s) = b_price_per_kwh buy - landed_for s
  /\ exists p, ddiv (dadd (b_price_per_kwh buy) (landed_for s)) (dec 2 0) = Some p.
Proof.
  intros Hq [Hb Gb] [Hs Gs] Hle. destruct (Hq [] (b_zone_id s)) as [_ Hs0].
  unfold landed_for in *. destruct (quote [] _ _) as [w l].
  destruct (landed_exact _ w l Hs Gs Hs0) as (_ & _ & _ & Gl & Hl).
  assert (Gb' : on_grid 16 (b_price_per_kwh buy)) by (apply (on_grid_mono 8); [lia..|done]).
  split.
  - apply dsub_exact, repr_16; [by apply on_grid_sub|unfold U in *; lia].
  - destruct (midpoint_exact 16 (b_price_per_kwh buy) (landed_cost (b_price_per_kwh s) w l))
      as (c & Hc & _); [lia|done|done|unfold U in *; simpl; lia|eauto].
Qed.

Lemma cheapest_snoc pre s best sur :
  quotes_ok -> price_ok buy -> price_ok s ->
  cheapest pre best -> scan_surplus pre best sur ->
  if landed_for s <=? b_price_per_kwh buy then
    if sur <? b_price_per_kwh buy - landed_for s
    then cheapest (pre ++ [s]) (Some (length pre))
    else cheapest (pre ++ [s]) best
  else cheapest (pre ++ [s]) best.
Proof.
  intros Hq Hb Hs Hc Hsur.
  assert (Hl : (pre ++ [s]) !! length pre = Some s) by (by apply list_lookup_middle).
  assert (L : forall j x, (pre ++ [s]) !! j = Some x ->
    pre !! j = Some x \/ (j = length pre /\ x = s)).
  { intros j x [?|[? Hj]]%lookup_app_Some; [by left|right].
    apply list_lookup_singleton_Some in Hj as [? ->]. split; [lia|done]. }
  destruct (landed_for s <=? _) eqn:Ein; to_prop.
  - destruct (sur <? _) eqn:Elt; to_prop; destruct best as [i|]; simpl in *.
    + destruct Hc as (x & Hx & Hxl & Hmin). destruct Hsur as (x' & Hx' & ->). simplify_eq.
      exists s. split_and!; [done..|]. intros j s' [Hj|[-> ->]]%L Hle; [|right; lia].
      left. destruct (Hmin j s' Hj Hle) as [?|[? ?]]; lia.
    + exists s. split_and!; [done..|]. intros j s' [Hj|[-> ->]]%L Hle; [|right; lia].
      apply list_elem_of_lookup_2, Hc in Hj. lia.
    + destruct Hc as (x & Hx & Hxl & Hmin). destruct Hsur as (x' & Hx' & ->). simplify_eq.
      exists x. split_and!; [by apply lookup_app_l_Some|done|].
      intros j s' [Hj|[-> ->]]%L Hle; [by apply Hmin|].
      apply lookup_lt_Some in Hx. destruct (decide (landed_for x = landed_for s)); [right|left]; lia.
    + unfold dec in Hsur. rewrite Hsur in Elt. lia.
  - destruct best as [i|]; simpl in *.
    + destruct Hc as (x & Hx & Hxl & Hmin). exists x.
      split_and!; [by apply lookup_app_l_Some|done|].
      intros j s' [Hj|[-> ->]]%L Hle; [by apply Hmin|lia].
    + intros x [Hx|Hx]%elem_of_app; [by apply Hc|]. apply list_elem_of_singleton in Hx as ->. lia.
Qed.

Lemma scan_surplus_app pre s best sur :
  scan_surplus pre best sur -> scan_surplus (pre ++ [s]) best sur.
Proof.
  destruct best as [i|]; simpl; [|done]. intros (x & Hx & ->). exists x.
  split; [by apply lookup_app_l_Some|done].
Qed.

(** The scan always succeeds, changes no table, and selects the cheapest seller. *)
Lemma find_best_cheapest : forall sells pre best sur price w,
  quotes_ok -> price_ok buy -> Forall price_ok sells ->
  cheapest pre best -> scan_surplus pre best sur ->
  exists best' price' w',
    find_best buy (length pre) sells best sur price w = (Ok (best', price'), w')
    /\ st w' = st w /\ faults w' = faults w /\ cheapest (pre ++ sells) best'.
Proof.
  induction sells as [|s sells IH]; intros pre best sur price w Hq Hb Hs Hc Hsur; simpl.
  { exists best, price, w. rewrite app_nil_r. done. }
  apply list.Forall_cons in Hs as [Hs0 Hs].
  destruct (estimate_run (b_zone_id buy) (b_zone_id s) w) as (tr & Hest).
  unfold mbind at 1, M_bind at 1. rewrite Hest.
  destruct (Hq (trace w) (b_zone_id s)) as [Hquote _].
  pose proof (cheapest_snoc pre s best sur Hq Hb Hs0 Hc Hsur) as Hsn.
  pose proof (surplus_exact s Hq Hb Hs0) as Hex.
  assert (El : landed_for s = let '(w0, l) := quote (trace w) (b_zone_id buy) (b_zone_id s) in
    landed_cost (b_price_per_kwh s) w0 l) by (unfold landed_for; by rewrite Hquote).
  destruct (quote (trace w) _ _) as [wh lf]. cbv zeta. rewrite <- El.
  replace (S (length pre)) with (length (pre ++ [s])) by (rewrite length_app; simpl; lia).
  assert (Ea : pre ++ s :: sells = (pre ++ [s]) ++ sells) by (by rewrite <- app_assoc).
  rewrite Ea. destruct (landed_for s <=? _) eqn:Ein; to_prop.
  - destruct (Hex Ein) as [-> (p & Hp)]. destruct (sur <? _) eqn:Elt.
    + unfold mbind, M_bind. rewrite Hp. simpl.
      destruct (IH (pre ++ [s]) (Some (length pre)) (b_price_per_kwh buy - landed_for s) p
        (World (st w) (faults w) tr)) as (b' & p' & w' & Hf & ? & ? & ?); try done; [|eauto 10].
      simpl. exists s. split; [by apply list_lookup_middle|done].
    + destruct (IH (pre ++ [s]) best sur price (World (st w) (faults w) tr))
        as (b' & p' & w' & Hf & ? & ? & ?); try done; [by apply scan_surplus_app|eauto 10].
  - destruct (IH (pre ++ [s]) best sur price (World (st w) (faults w) tr))
      as (b' & p' & w' & Hf & ? & ? & ?); try done; [by apply scan_surplus_app|eauto 10].
Qed.
End best_seller.

Section run_props.
Context `{NUM : Numerics} `{CH : Chain} `{SIM : Simulator}.
Context (new_match_id new_settlement_id : nat -> Uuid) (clock : nat -> DateTime)
        (epoch_id : Uuid).

(** For the buyer at the head of the book the scan finds the seller that costs the
    least delivered (ask, wheeling charge and losses), the earliest one among equals, and
    none exactly when every seller costs more than the bid. *)
Theorem best_seller_cheapest (buy : OrderBookEntry) (sells : list OrderBookEntry)
    (w : world Db Event) :
  simulator_sane ->
  (forall tr tr' b s, calculate_cost tr b s (dec 1 0) (dec 1 0)
                      = calculate_cost tr' b s (dec 1 0) (dec 1 0)) ->
  entry_ok buy -> Forall entry_ok sells ->
  exists best price w', find_best buy 0 sells None (- dec 1 0) 0 w = (Ok (best, price), w')
    /\ st w' = st w /\ cheapest buy sells best.
Proof.
  intros Hsane Hstable (_ & _ & Hb) Hs.
  destruct (find_best_cheapest buy sells [] None (- dec 1 0) 0 w)
    as (best & price & w' & H & Hst & _ & Hc).
  - intros tr z. split; [|by apply quote_sane]. unfold quote.
    destruct (b_zone_id buy), z; try done. by rewrite (Hstable tr []).
  - exact Hb.
  - eapply Forall_impl; [|exact Hs]. by intros e (_ & _ & ?).
  - by intros s ?%not_elem_of_nil.
  - done.
  - eauto 10.
Qed.

(** An order with nothing left at the head of the buy side hangs the matching for
    ever as soon as some seller asks no more than it bids: no amount of fuel suffices (the
    guard [match_amount > 0] has no other branch). *)
Theorem zero_remaining_diverges (buy : OrderBookEntry) (buys sells : list OrderBookEntry)
    (sell : OrderBookEntry) (c : Clearing) (fuel : nat) (w : world Db Event) :
  cl_buys c = buy :: buys -> cl_sells c = sells ->
  b_energy_amount buy <= 0 -> b_zone_id buy = None -> price_ok buy ->
  Forall price_ok sells -> sell ∈ sells -> b_price_per_kwh sell <= b_price_per_kwh buy ->
  fst (match_loop new_match_id clock fuel epoch_id c w) = Ok None.
Proof.
  intros Hb Hs He Hz Pb Ps Hin Hle. revert w.
  assert (Hq : quotes_ok buy).
  { intros tr z. rewrite Hz. simpl. unfold U. split_and!; first [apply Z.divide_0_r|lia|done]. }
  assert (Hl : landed_for buy sell = b_price_per_kwh sell).
  { rewrite list.Forall_forall in Ps. destruct (Ps sell Hin) as [Ha Ga].
    destruct (Hq [] (b_zone_id sell)) as [_ Hq0]. unfold landed_for. rewrite Hz in *. simpl in *.
    destruct (landed_exact _ 0 0 Ha Ga Hq0) as (loss & H0 & -> & _). unfold U in H0. lia. }
  induction fuel as [|fuel IH]; intros w; simpl; rewrite Hb, Hs;
    (destruct sells as [|s0 sells]; [by apply not_elem_of_nil in Hin|]); [done|].
  unfold mbind, M_bind, match_step. unfold mbind at 1, M_bind at 1. rewrite Hs.
  destruct (find_best_cheapest buy (s0 :: sells) [] None (- dec 1 0) 0 w)
    as (best & price & w' & Hf & _ & _ & Hc); try done; [by intros s ?%not_elem_of_nil|].
  simpl length in Hf. rewrite Hf.
  destruct best as [i|]; [|specialize (Hc sell Hin); lia].
  destruct Hc as (s & Hi & _). change ([] ++ s0 :: sells)%list with (s0 :: sells) in Hi.
  unfold expect, mbind, M_bind. rewrite Hi. unfold mret, M_ret. cbv zeta.
  destruct (0 <? _) eqn:E; to_prop; [lia|]. apply IH.
Qed.

Lemma row_get_missing {A B} (columns : list string) name (v : A) (k : A -> TM B) w :
  name ∉ columns -> (row_get columns name v ≫= k) w = (Err FPanic, w).
Proof. intros H. unfold row_get. by rewrite bool_decide_false. Qed.

Lemma order_pda_missing : "order_pda" ∉ buy_columns.
Proof. apply (bool_decide_unpack _). vm_compute. done. Qed.

(** No match of an epoch is ever settled by the clearing service: the settlement
    reads a column its query does not select, so it panics whenever the database is healthy
    and both orders and the seller exist; in every case it fails and leaves all tables as
    they were. *)
Theorem epoch_settlement_panics (id : Uuid) (now : DateTime) (m : OrderMatch)
    (w : world Db Event) :
  let '(r, w') := create_match_settlement id now m w in
  is_ok r = false /\ st w' = st w
  /\ forall buy sell u, faults w = [] -> orders (st w) !! om_buy_order_id m = Some buy ->
       orders (st w) !! om_sell_order_id m = Some sell ->
       users (st w) !! o_user_id sell = Some u -> r = Err FPanic.
Proof.
  assert (Hno : forall s w', create_match_settlement id now m w = (Ok s, w') -> False).
  { intros s w' H. unfold create_match_settlement in H.
    repeat first [rewrite row_get_missing in H by apply order_pda_missing; done
                 |apply bind_Ok in H as (? & ? & _ & H)]. }
  assert (Hst : preserves (fun d => d = st w) (create_match_settlement id now m)).
  { unfold create_match_settlement.
    do 6 (apply preserves_bind; [first [apply preserves_query|apply preserves_expect
      |unfold row_get; case_match; [apply preserves_ret|apply preserves_fail]]|intros ?]).
    apply preserves_bind; [|intros ?].
    { unfold settlement_costs. repeat case_match; [|apply preserves_ret..].
      apply preserves_bind; [by intros [] ?|intros; apply preserves_ret]. }
    do 2 (apply preserves_bind; [first [apply preserves_query|apply preserves_expect]|intros ?]).
    intros w0 Hw0. by rewrite row_get_missing by apply order_pda_missing. }
  specialize (Hst w eq_refl).
  destruct (create_match_settlement id now m w) as [[s|e] w'] eqn:H; [by destruct (Hno s w' eq_refl)|].
  split_and!; [done|done|]. intros buy sell u Hf Hb Hs Hu. destruct w as [d f tr]. simpl in *. subst f.
  unfold create_match_settlement in H. unfold mbind, M_bind, query, pop_fault, expect, row_get in H.
  simpl in H. rewrite Hb in H. simpl in H. rewrite Hs in H. simpl in H. unfold settlement_costs, simulate in H.
  destruct (o_zone_id buy), (o_zone_id sell); simpl in H; rewrite Hu in H; simpl in H; by simplify_eq.
Qed.
End run_props.

(** ** Revenue *)

(** [chk_revenue_type] of the table. *)
Definition revenue_types_ok (l : list RevenueRow) : Prop :=
  Forall (fun r => r_revenue_type r ∈ ["platform_fee"; "wheeling_charge"; "loss_cost"]) l.

Lemma size_list_to_set_le (l : list Uuid) :
  (size (list_to_set l : gset Uuid) <= length l)%nat.
Proof.
  induction l as [|x l IH]; simpl; [done|]. rewrite size_union_alt, size_singleton.
  pose proof (subseteq_size (list_to_set l ∖ {[x]}) (list_to_set l : gset Uuid) (subseteq_difference_l _ _ _ (reflexivity _))).
  lia.
Qed.

(** The revenue summary splits the total exactly into fees, wheeling charges and
    loss costs, and counts each settlement once. *)
Theorem revenue_summary_splits (w w' : world Db Event) (s : PlatformRevenueSummary) :
  revenue_types_ok (platform_revenue (st w)) ->
  get_platform_revenue_summary w = (Ok s, w') ->
  total_revenue s = platform_fees s + wheeling_charges s + loss_costs s
  /\ total_revenue s = sumZ r_amount (platform_revenue (st w))
  /\ settlement_count s <= Z.of_nat (length (platform_revenue (st w))).
Proof.
  intros Hok H. apply query_Ok in H as (-> & _). simpl. split_and!; [|done|].
  - unfold revenue_of. induction Hok as [|r l Hr Hl IH]; simpl; [done|].
    rewrite !list_elem_of_In in Hr. simpl in Hr.
    destruct Hr as [<-|[<-|[<-|[]]]]; simpl; lia.
  - apply inj_le. etrans; [apply size_list_to_set_le|]. by rewrite length_fmap.
Qed.

(** ** Witnesses *)
Section witnesses.
#[local] Existing Instance std_numerics.
#[local] Existing Instance demo_chain.

(** A simulator that charges 0.1 per kWh between zones, with two percent of losses. *)
Definition demo_costs : CostData :=
  {| cd_wheeling_charge := Some (dec 1 1); cd_loss_factor := Some (dec 2 2);
     cd_loss_cost := Some 0; cd_effective_energy := None |}.
Definition demo_simulator : Simulator := {| calculate_cost _ _ _ _ _ := Some demo_costs |}.
#[local] Existing Instance demo_simulator.

Definition demo_entry (id : Uuid) (side : OrderSide) (energy price : Decimal) (zone : option Z)
    : OrderBookEntry :=
  {| b_order_id := id; b_user_id := 1; b_side := side; b_energy_amount := energy;
     b_original_amount := energy; b_price_per_kwh := price; b_created_at := Some 0;
     b_zone_id := zone |}.

Definition demo_buys : list OrderBookEntry := [demo_entry 7 Buy (dec 10 0) (dec 2 0) (Some 1)].
Definition demo_sells : list OrderBookEntry :=
  [demo_entry 8 Sell (dec 4 0) (dec 15 1) (Some 2); demo_entry 9 Sell (dec 5 0) (dec 1 0) (Some 2)].

Ltac entry_tac := unfold entry_ok, price_ok; split_and!; cbn -[G8 U Z.pow Z.mul];
  first [apply Z.mod_divide; [discriminate|vm_compute; reflexivity]
        |vm_compute; first [reflexivity|discriminate]].

Lemma demo_buys_ok : Forall entry_ok demo_buys.
Proof. apply Forall_cons_2; [entry_tac|apply Forall_nil_2]. Qed.
Lemma demo_sells_ok : Forall entry_ok demo_sells.
Proof. do 2 (apply Forall_cons_2; [entry_tac|]). apply Forall_nil_2. Qed.

Lemma demo_simulator_sane : simulator_sane.
Proof. intros tr b s c [= <-]. entry_tac. Qed.

Lemma clearing_price_spec_witness :
  calculate_clearing_price demo_buys demo_sells
    = Ok (Some {| cp_price := dec 15 1; cp_volume := dec 9 0; cp_buy_orders_count := 1;
                  cp_sell_orders_count := 2; cp_best_bid := dec 2 0; cp_best_ask := dec 1 0 |})
  /\ 2 * dec 15 1 = dec 2 0 + dec 1 0.
Proof.
  pose proof (clearing_price_spec demo_buys demo_sells demo_buys_ok demo_sells_ok
    ltac:(vm_compute; discriminate) ltac:(vm_compute; discriminate)) as H.
  assert (E : calculate_clearing_price demo_buys demo_sells
    = Ok (Some {| cp_price := dec 15 1; cp_volume := dec 9 0; cp_buy_orders_count := 1;
                  cp_sell_orders_count := 2; cp_best_bid := dec 2 0; cp_best_ask := dec 1 0 |}))
    by (vm_compute; reflexivity).
  rewrite E in H. split; [exact E|]. exact (proj1 (proj2 (proj2 (proj2 H)))).
Defined.

(** Two orders in epoch 9 and the sellers of the book. *)
Definition market_db : Db :=
  set_epochs {[9%N := {| e_id := 9; e_epoch_number := 1; e_start_time := 0; e_end_time := 900;
                         e_status := EpochActive; e_clearing_price := None; e_total_volume := None;
                         e_total_orders := None; e_matched_orders := None |}]}
    (set_orders (<[7%N := demo_order 7 1 Buy (dec 10 0) (dec 2 0)]>
                (<[8%N := demo_order 8 2 Sell (dec 4 0) (dec 15 1)]>
                {[9%N := demo_order 9 2 Sell (dec 5 0) (dec 1 0)]}))
      (set_users (<[2%N := demo_user]> {[1%N := demo_user]}) empty_db)).
Definition market_world : world Db Event := World market_db [] [].

Definition demo_run : res failure (option Clearing) * world Db Event :=
  match_loop (fun n => N.of_nat n) (fun _ => 0) 3 9 (initial_clearing demo_buys demo_sells)
    market_world.
Definition demo_final : Clearing :=
  match fst demo_run with Ok (Some c) => c | _ => initial_clearing [] [] end.

Lemma demo_run_ok : demo_run = (Ok (Some demo_final), snd demo_run).
Proof.
  assert (E : exists c, fst demo_run = Ok (Some c)) by (eexists; vm_compute; reflexivity).
  destruct E as [c E]. unfold demo_final. rewrite E. destruct demo_run. simpl in *. congruence.
Qed.

Lemma matching_no_overfill_witness :
  bought_by 7 (cl_matches demo_final) = dec 9 0
  /\ bought_by 7 (cl_matches demo_final) <= remaining_of 7 demo_buys.
Proof.
  split; [vm_compute; reflexivity|].
  refine (proj1 (matching_no_overfill (fun n => N.of_nat n) (fun _ => 0) 9 3 demo_buys demo_sells
    market_world (snd demo_run) demo_final demo_buys_ok demo_sells_ok _ demo_run_ok) 7%N).
  vm_compute. discriminate.
Defined.

Lemma matching_prices_fair_witness :
  Forall (fun m => exists b s, b ∈ demo_buys /\ s ∈ demo_sells
    /\ om_buy_order_id m = b_order_id b /\ om_sell_order_id m = b_order_id s
    /\ b_price_per_kwh s <= om_match_price m <= b_price_per_kwh b) (cl_matches demo_final).
Proof.
  apply (matching_prices_fair (fun n => N.of_nat n) (fun _ => 0) 9 3 demo_buys demo_sells
    market_world (snd demo_run) demo_final demo_simulator_sane demo_buys_ok demo_sells_ok);
    [vm_compute; discriminate|apply demo_run_ok].
Defined.

Lemma match_loop_terminates_witness :
  fst (match_loop (fun n => N.of_nat n) (fun _ => 0) 3 9 (initial_clearing demo_buys demo_sells)
    (World market_db [false; true] [])) <> Ok None.
Proof.
  apply (match_loop_terminates (fun n => N.of_nat n) (fun _ => 0) 9 3 demo_buys demo_sells
    (World market_db [false; true] []) demo_buys_ok demo_sells_ok);
    [vm_compute; discriminate|simpl; lia].
Defined.

Lemma best_seller_cheapest_witness :
  exists best price w',
    find_best (demo_entry 7 Buy (dec 10 0) (dec 2 0) (Some 1)) 0 demo_sells None (- dec 1 0) 0
      market_world = (Ok (best, price), w')
    /\ st w' = market_db
    /\ cheapest (demo_entry 7 Buy (dec 10 0) (dec 2 0) (Some 1)) demo_sells best.
Proof.
  apply (best_seller_cheapest (demo_entry 7 Buy (dec 10 0) (dec 2 0) (Some 1)) demo_sells
    market_world demo_simulator_sane); [done|entry_tac|apply demo_sells_ok].
Defined.

Lemma zero_remaining_diverges_witness :
  fst (match_loop (fun n => N.of_nat n) (fun _ => 0) 1000 9
    (initial_clearing [demo_entry 7 Buy 0 (dec 2 0) None] demo_sells) market_world) = Ok None.
Proof.
  apply (zero_remaining_diverges (fun n => N.of_nat n) (fun _ => 0) 9
    (demo_entry 7 Buy 0 (dec 2 0) None) [] demo_sells (demo_entry 9 Sell (dec 5 0) (dec 1 0) (Some 2)));
    [done|done|done|done|entry_tac| | |vm_compute; discriminate].
  - eapply Forall_impl; [|apply demo_sells_ok]. by intros e (_ & _ & ?).
  - right. by left.
Defined.

Lemma revenue_summary_splits_witness :
  exists s w', get_platform_revenue_summary
    (World (set_revenue [{| r_settlement_id := 1; r_amount := dec 3 0;
       r_revenue_type := "platform_fee"; r_description := None; r_created_at := 0 |}] empty_db)
       [] []) = (Ok s, w')
    /\ total_revenue s = platform_fees s + wheeling_charges s + loss_costs s.
Proof.
  eexists _, _. split; [reflexivity|].
  refine (proj1 (revenue_summary_splits (World (set_revenue [{| r_settlement_id := 1;
    r_amount := dec 3 0; r_revenue_type := "platform_fee"; r_description := None;
    r_created_at := 0 |}] empty_db) [] []) _ _ _ eq_refl)).
  repeat constructor.
Defined.
End witnesses.
