(* ===== verification/Settlement.v ===== *)
(** Settlement of trades: [src/services/settlement/mod.rs] and
    [src/services/settlement/types.rs].

    A settlement row goes from [pending] over [processing] to [completed] or [failed].
    The chain, the environment variables and the text of a database error are the interfaces of
    [Schema], encryption and key pairs those of [Crypto]; the table [wallet_sessions], which the
    service only reads, and its secret are parameters ([KeyStore]).
    Concurrent executions of [process_pending_settlements] are run one after another
    in the order given. *)
From S2P Require Import Prelude Numerics Errors Store Schema Escrow Crypto.
From Stdlib Require Strings.String.

Open Scope string_scope.
Open Scope Z_scope.

(** ** Configuration *)

Record SettlementConfig := {
  sc_fee_rate : Decimal;
  sc_min_confirmation_blocks : Z;
  sc_retry_attempts : Z;
  sc_retry_delay_secs : Z;
  sc_enable_real_blockchain : bool;
}.

Definition default_config : SettlementConfig :=
  {| sc_fee_rate := dec 1 2; sc_min_confirmation_blocks := 32; sc_retry_attempts := 3;
     sc_retry_delay_secs := 5; sc_enable_real_blockchain := true |}.

Definition env_or {A} `{Env} (name : string) (parse : string -> option A) (old : A) : A :=
  match env_var name with
  | Some v => match parse v with Some a => a | None => old end
  | None => old
  end.

Definition config_from_env `{Env} : SettlementConfig :=
  {| sc_fee_rate := env_or "SETTLEMENT_FEE_RATE" decimal_from_str (sc_fee_rate default_config);
     sc_min_confirmation_blocks := sc_min_confirmation_blocks default_config;
     sc_retry_attempts := env_or "SETTLEMENT_RETRY_ATTEMPTS" (parse_unsigned u32_max)
                            (sc_retry_attempts default_config);
     sc_retry_delay_secs := env_or "SETTLEMENT_RETRY_DELAY_SECS" (parse_unsigned u64_max)
                              (sc_retry_delay_secs default_config);
     sc_enable_real_blockchain := env_or "TOKENIZATION_ENABLE_REAL_BLOCKCHAIN" parse_bool
                                    (sc_enable_real_blockchain default_config) |}.

(** ** Settlements in memory *)

Record Settlement := {
  st_id : Uuid;
  st_trade_id : Uuid;
  st_buyer_id : Uuid;
  st_seller_id : Uuid;
  st_buy_order_id : Uuid;
  st_sell_order_id : Uuid;
  st_energy_amount : Decimal;
  st_price : Decimal;
  st_total_value : Decimal;
  st_fee_amount : Decimal;
  st_net_amount : Decimal;
  st_status : SettlementStatus;
  st_blockchain_tx : option string;
  st_created_at : DateTime;
  st_confirmed_at : option DateTime;
  st_buyer_zone_id : option Z;
  st_seller_zone_id : option Z;
  st_wheeling_charge : option Decimal;
  st_loss_cost : option Decimal;
  st_loss_factor : option Decimal;
  st_effective_energy : option Decimal;
  st_buyer_session_token : option string;
  st_seller_session_token : option string;
}.

Record SettlementTransaction := {
  stx_settlement_id : Uuid;
  stx_signature : string;
  stx_slot : Z;
  stx_confirmation_status : string;
}.

(** ** Keys

    The table [wallet_sessions]: its columns, and the live row of a token and a user; and the
    secret the stored keys are encrypted under. *)
Record SessionKey := {
  sk_private_key : bytes;
  sk_salt : bytes;
  sk_iv : bytes;
}.

Class KeyStore := {
  encryption_secret : string;
  session_columns : list string;
  session_key : string -> Uuid -> option SessionKey;
}.

(** The columns the statement of [get_user_keypair] names, and those of the table
    ([20260104000002_add_wallet_sessions.sql], the only migration of it). *)
Definition session_statement : list string :=
  ["encrypted_private_key"; "encryption_salt"; "encryption_iv"; "session_token"; "user_id";
   "revoked_at"; "expires_at"].
Definition migrated_session_columns : list string :=
  ["id"; "user_id"; "session_token"; "device_fingerprint"; "device_name"; "ip_address"; "user_agent";
   "cached_key_encrypted"; "key_salt"; "key_iv"; "created_at"; "expires_at"; "last_used_at";
   "is_active"; "revoked_at"; "revoked_reason"].

Section settlement.
Context `{NUM : Numerics} `{CH : Chain} `{ENV : Env} `{KEYS : KeyStore}
        `{CIPHER : Cipher} `{B64 : Base64} `{KP : Keypairs}.
Context (config : SettlementConfig).

(** [e.to_string()]. *)
Definition error_text (e : failure) : string :=
  match e with
  | FDb => display (Database db_error_text)
  | FApi e => display e
  | FMsg m => m
  | FPanic => ""
  end.

(** [.map_err(|e| ApiError::Internal(format!("{what}: {}", e)))]. *)
Definition internal {S T A} (what : string) (m : M S T A) : M S T A :=
  map_err (fun e => FApi (Internal (what +:+ ": " +:+ error_text e))) m.

Definition require_pubkey (what text : string) : TM string :=
  if parse_pubkey text then mret text else fail (FApi (Internal what)).

(** [(d * 1_000_000_000).trunc().to_string().parse::<u64>().unwrap_or(0)]. *)
Definition atomic (d : Decimal) : Z := trunc_u64_or_0 (dmul d (dec 1000000000 0)).

(** ** Creation *)

Definition is_cross_chain (buyer : Uuid) : bool := String.prefix "0000" (uuid_to_string buyer).

Definition settlement_of_trade (id : Uuid) (now : DateTime) (t : TradeMatch) : Settlement :=
  let total_value := tm_total_value t in
  let fee_amount := dmul total_value (sc_fee_rate config) in
  {| st_id := id; st_trade_id := tm_id t; st_buyer_id := tm_buyer_id t;
     st_seller_id := tm_seller_id t; st_buy_order_id := tm_buy_order_id t;
     st_sell_order_id := tm_sell_order_id t; st_energy_amount := tm_quantity t;
     st_price := tm_price t; st_total_value := total_value; st_fee_amount := fee_amount;
     st_net_amount := dsub (dsub total_value fee_amount) (tm_wheeling_charge t);
     st_status := if is_cross_chain (tm_buyer_id t) then SPendingBridge else SPending;
     st_blockchain_tx := None; st_created_at := now; st_confirmed_at := None;
     st_buyer_zone_id := tm_buyer_zone_id t; st_seller_zone_id := tm_seller_zone_id t;
     st_wheeling_charge := Some (tm_wheeling_charge t); st_loss_cost := Some (tm_loss_cost t);
     st_loss_factor := Some (tm_loss_factor t);
     st_effective_energy := Some (dmul (tm_quantity t) (dsub (dec 1 0) (tm_loss_factor t)));
     st_buyer_session_token := tm_buyer_session_token t;
     st_seller_session_token := tm_seller_session_token t |}.

(** The values bound to the [INSERT]; the retry count has the column's default. *)
Definition settlement_row (epoch_id : Uuid) (s : Settlement) : SettlementRow :=
  {| s_id := st_id s; s_epoch_id := epoch_id; s_buyer_id := st_buyer_id s;
     s_seller_id := st_seller_id s; s_buy_order_id := Some (st_buy_order_id s);
     s_sell_order_id := Some (st_sell_order_id s); s_energy_amount := st_energy_amount s;
     s_price := st_price s; s_total_amount := st_total_value s;
     s_fee_amount := st_fee_amount s; s_net_amount := st_net_amount s;
     s_status := SettlementStatus_to_string (st_status s); s_transaction_hash := None;
     s_created_at := st_created_at s; s_processed_at := None;
     s_wheeling_charge := st_wheeling_charge s; s_loss_factor := st_loss_factor s;
     s_loss_cost := st_loss_cost s; s_effective_energy := st_effective_energy s;
     s_buyer_zone_id := st_buyer_zone_id s; s_seller_zone_id := st_seller_zone_id s;
     s_buyer_session_token := st_buyer_session_token s;
     s_seller_session_token := st_seller_session_token s; s_retry_count := Some 0;
     s_updated_at := st_created_at s |}.

Definition create_settlement (id : Uuid) (now : DateTime) (t : TradeMatch) : TM Settlement :=
  let s := settlement_of_trade id now t in
  exec (insert_settlement (settlement_row (tm_epoch_id t) s)) ;;
  mret s.

Fixpoint create_settlements_from_trades (fresh : nat -> Uuid) (now : DateTime)
    (trades : list TradeMatch) : TM (list Settlement) :=
  match trades with
  | [] => mret []
  | t :: trades =>
      s ← create_settlement (fresh (length trades)) now t;
      rest ← create_settlements_from_trades fresh now trades;
      mret (s :: rest)
  end.

(** ** Reading and updating rows *)

Definition parse_status (text : string) : SettlementStatus :=
  let t := to_lowercase text in
  if (t =? "pending")%string then SPending
  else if (t =? "processing")%string then SProcessing
  else if (t =? "completed")%string || (t =? "confirmed")%string then SCompleted
  else if (t =? "failed")%string then SFailed
  else if (t =? "pending_bridge")%string then SPendingBridge
  else if (t =? "bridging_initiated")%string then SBridgingInitiated
  else SPending.

(** [trade_id] is a fresh identifier; a NULL order id makes [row.get] panic. *)
Definition settlement_of_row (trade_id : Uuid) (r : SettlementRow) : res failure Settlement :=
  match s_buy_order_id r, s_sell_order_id r with
  | Some b, Some s =>
      Ok {| st_id := s_id r; st_trade_id := trade_id; st_buyer_id := s_buyer_id r;
            st_seller_id := s_seller_id r; st_buy_order_id := b; st_sell_order_id := s;
            st_energy_amount := s_energy_amount r; st_price := s_price r;
            st_total_value := s_total_amount r; st_fee_amount := s_fee_amount r;
            st_net_amount := s_net_amount r; st_status := parse_status (s_status r);
            st_blockchain_tx := s_transaction_hash r; st_created_at := s_created_at r;
            st_confirmed_at := s_processed_at r; st_buyer_zone_id := s_buyer_zone_id r;
            st_seller_zone_id := s_seller_zone_id r; st_wheeling_charge := s_wheeling_charge r;
            st_loss_cost := s_loss_cost r; st_loss_factor := s_loss_factor r;
            st_effective_energy := s_effective_energy r;
            st_buyer_session_token := s_buyer_session_token r;
            st_seller_session_token := s_seller_session_token r |}
  | _, _ => Err FPanic
  end.

Definition lift {A} (r : res failure A) : TM A :=
  match r with Ok a => mret a | Err e => fail e end.

Definition get_settlement (id : Uuid) : TM Settlement :=
  row ← query (fun d => settlements d !! id);
  r ← expect (FApi (NotFound "Settlement not found")) row;
  lift (settlement_of_row id r).

Definition settlement_rows (d : Db) : list SettlementRow := (map_to_list (settlements d)).*2.

(** [WHERE status = 'pending' ORDER BY created_at ASC LIMIT 100]. *)
Definition get_pending_settlements : TM (list Uuid) :=
  query (fun d => s_id <$> take 100 (sort_by (fun a b => s_created_at a <=? s_created_at b)
    (List.filter (fun s => (s_status s =? "pending")%string) (settlement_rows d)))).

Definition with_status (status : string) (now : DateTime) (s : SettlementRow) : SettlementRow :=
  set_settlement status (s_transaction_hash s) (s_processed_at s) (s_retry_count s) now s.

Definition update_settlement_status (id : Uuid) (status : SettlementStatus) (now : DateTime)
    : TM unit :=
  exec (update_settlement id (with_status (SettlementStatus_to_string status) now)).

Definition confirmed (sig : string) (status : SettlementStatus) (now : DateTime)
    (s : SettlementRow) : SettlementRow :=
  set_settlement (SettlementStatus_to_string status) (Some sig) (Some now) (s_retry_count s) now s.

Definition update_settlement_confirmed (id : Uuid) (sig : string) (status : SettlementStatus)
    (now : DateTime) : TM unit :=
  exec (update_settlement id (confirmed sig status now)).

Definition update_bridge_completed (id : Uuid) (sig : string) (now : DateTime) : TM unit :=
  update_settlement_confirmed id sig SCompleted now.

(** [SET retry_count = retry_count + 1]: NULL stays NULL. *)
Definition increment_retry_count (id : Uuid) (now : DateTime) : TM unit :=
  exec (update_settlement id (fun s =>
    set_settlement (s_status s) (s_transaction_hash s) (s_processed_at s)
      (Z.add 1 <$> s_retry_count s) now s)).

(** The statement names [error_message], a column no migration gives the table. *)
Definition mark_settlement_permanent_failure (id : Uuid) (message : string) : TM unit :=
  exec (fun _ => None).

(** ** Keys and wallets *)

Definition get_user_wallet (user_id : Uuid) : TM string :=
  row ← query (fun d => users d !! user_id);
  u ← expect FDb row;
  expect (FApi (Internal ("User " +:+ uuid_to_string user_id +:+ " has no wallet connected")))
    (u_wallet_address u).

(** [WalletService::decrypt_private_key] on raw columns, with its error under a heading. *)
Definition decrypt_columns (what : string) (key salt iv : bytes) : res failure bytes :=
  match decrypt_private_key encryption_secret (b64_encode key) (b64_encode salt) (b64_encode iv) with
  | Ok bytes => Ok bytes
  | Err FPanic => Err FPanic
  | Err e => Err (FApi (Internal (what +:+ ": " +:+ error_text e)))
  end.

Definition checked_keypair (what : string) (bytes : bytes) : res failure Keypair :=
  match keypair_try_from bytes with
  | Err e => Err (FApi (Internal (what +:+ ": " +:+ e)))
  | Ok k => Ok k
  end.

Definition bad_length (l : bytes) : failure := FApi (Internal ("Invalid key length: " +:+ show_len l)).

(** The key in a [wallet_sessions] row. *)
Definition session_keypair (k : SessionKey) : res failure Keypair :=
  decrypted ← decrypt_columns "Failed to decrypt session key" (sk_private_key k) (sk_salt k) (sk_iv k);
  checked_keypair "Invalid session key" decrypted.

(** The key in the [users] row: encrypted, or the legacy plain or base64 form. *)
Definition stored_keypair (encrypted_pk : bytes) (wallet_salt encryption_iv : option bytes)
    : res failure Keypair :=
  match wallet_salt, encryption_iv with
  | Some salt, Some iv =>
      decrypted ← decrypt_columns "Failed to decrypt wallet" encrypted_pk salt iv;
      if (length decrypted =? 64)%nat then checked_keypair "Invalid 64-byte keypair" decrypted
      else if (length decrypted =? 32)%nat then Ok (keypair_from_seed decrypted)
      else Err (bad_length decrypted)
  | _, _ =>
      let decoded := match b64_decode (Strings.String.string_of_list_byte encrypted_pk) with
                     | Ok d => d
                     | Err _ => encrypted_pk
                     end in
      if (length decoded =? 64)%nat || (length decoded =? 32)%nat
      then Ok (keypair_from_seed (take 32 decoded))
      else Err (bad_length decoded)
  end.

(** The statement on [wallet_sessions] fails when the table lacks a column it names. *)
Definition find_session (token : string) (user_id : Uuid) : TM (option SessionKey) :=
  if forallb (fun c => bool_decide (c ∈ session_columns)) session_statement
  then query (fun _ => session_key token user_id)
  else found ← query (fun _ => None); expect FDb found.

(** The key pair of a user. *)
Definition get_user_keypair (user_id : Uuid) (session_token : option string) : TM Keypair :=
  session ← match session_token with
            | Some token => find_session token user_id
            | None => mret None
            end;
  match session with
  | Some k => lift (session_keypair k)
  | None =>
      row ← query (fun d => users d !! user_id);
      u ← expect FDb row;
      key ← expect (FApi (Internal ("User " +:+ uuid_to_string user_id
                                    +:+ " has no private key stored"))) (u_encrypted_private_key u);
      lift (stored_keypair key (u_wallet_salt u) (u_encryption_iv u))
  end.

(** ** Execution *)

Definition default_loss_sink : string := "LoSsSiNk1111111111111111111111111111111111".
Definition default_market : string := "Fmk6vb74MjZpXVE9kAS5q4U5L8hr2AEJcDikfRSFTiyY".

Definition ensure_account (what wallet mint : string) : TM string :=
  internal what (chain_call (EnsureTokenAccount wallet mint)).

(** The difference between gross and effective energy goes to the loss sink; every
    failure on the way is ignored. *)
Definition transfer_loss (s : Settlement) (seller seller_account mint : string)
    (effective : Decimal) : TM unit :=
  let loss_energy := dsub (st_energy_amount s) effective in
  if 0 <? loss_energy then
    let loss_atomic := atomic loss_energy in
    if 0 <? loss_atomic then
      let sink := default default_loss_sink (env_var "GRID_LOSS_SINK_WALLET") in
      if parse_pubkey sink then
        account ← attempt (chain_call (EnsureTokenAccount sink mint));
        match account with
        | Ok account => ignore (chain_call (TransferTokens seller seller_account account mint loss_atomic))
        | Err _ => mret ()
        end
      else mret ()
    else mret ()
  else mret ().

Definition execute_blockchain_transfer (mock_sig : string) (s : Settlement)
    : TM SettlementTransaction :=
  if negb (sc_enable_real_blockchain config) then
    mret {| stx_settlement_id := st_id s; stx_signature := "mock_settlement_sig_" +:+ mock_sig;
            stx_slot := 12345678; stx_confirmation_status := "confirmed" |}
  else
    buyer_wallet ← get_user_wallet (st_buyer_id s);
    seller_wallet ← get_user_wallet (st_seller_id s);
    buyer ← require_pubkey "Invalid buyer wallet" buyer_wallet;
    _ ← require_pubkey "Invalid seller wallet" seller_wallet;
    mint_str ← expect (FApi (Internal "ENERGY_TOKEN_MINT not set")) (env_var "ENERGY_TOKEN_MINT");
    mint ← require_pubkey "Invalid mint config" mint_str;
    _ ← internal "Failed to get authority" (chain_call GetAuthority);
    seller ← get_user_keypair (st_seller_id s) (st_seller_session_token s);
    if negb (kp_pubkey seller =? seller_wallet)%string
    then fail (FApi (Internal "Wallet identity mismatch"))
    else
      buyer_account ← ensure_account "Failed to create buyer token account" buyer mint;
      seller_account ← ensure_account "Failed to create seller token account" (kp_pubkey seller) mint;
      let effective := default (st_energy_amount s) (st_effective_energy s) in
      sig ← internal "Token transfer failed"
              (chain_call (TransferTokens (kp_pubkey seller) seller_account buyer_account mint (atomic effective)));
      transfer_loss s (kp_pubkey seller) seller_account mint effective ;;
      slot ← internal "Failed to get slot" (chain_call GetSlot);
      mret {| stx_settlement_id := st_id s; stx_signature := sig;
              stx_slot := default 0 (parse_unsigned u64_max slot);
              stx_confirmation_status := "confirmed" |}.

Definition execute_bridge_initiation (s : Settlement) : TM string :=
  _ ← internal "Failed to get authority" (chain_call GetAuthority);
  let market_str := default default_market (env_var "TRADING_MARKET_ADDRESS") in
  _ ← require_pubkey "Invalid market address" market_str;
  if negb (parse_pubkey default_market) then fail FPanic
  else internal "Bridge initiation failed" (chain_call (InitiateBridge (atomic (st_energy_amount s)))).

(** ** Settling the books *)

(** [INSERT INTO platform_revenue]: the settlement must exist, the type is one of
    the three. *)
Definition insert_revenue (s : Settlement) (amount : Decimal) (kind what : string) (now : DateTime)
    (d : Db) : option Db :=
  match settlements d !! st_id s with
  | None => None
  | Some _ =>
      a ← num8 amount;
      Some (set_revenue (platform_revenue d ++
        [{| r_settlement_id := st_id s; r_amount := a; r_revenue_type := kind;
            r_description := Some (what +:+ " for settlement " +:+ uuid_to_string (st_id s));
            r_created_at := now |}])%list d)
  end.

Definition record_revenue (s : Settlement) (amount : option Decimal) (kind what : string)
    (now : DateTime) : TM unit :=
  match amount with
  | Some a => if 0 <? a then exec (insert_revenue s a kind what now) else mret ()
  | None => mret ()
  end.

Definition escrow_of_orders (s : Settlement) (r : EscrowRecord) : bool :=
  (bool_decide (er_order_id r = Some (st_buy_order_id s))
   || bool_decide (er_order_id r = Some (st_sell_order_id s)))
  && (er_status r =? "locked")%string.

Definition finalize_escrow (s : Settlement) (now : DateTime) : TM unit :=
  with_tx (
    exec (update_user (st_seller_id s) (add_locked_energy (- st_energy_amount s))) ;;
    exec (update_user (st_buyer_id s) (add_locked (- dmul (st_energy_amount s) (st_price s)))) ;;
    exec (update_user (st_seller_id s) (add_balance (st_net_amount s))) ;;
    record_revenue s (Some (st_fee_amount s)) "platform_fee" "Platform fee" now ;;
    record_revenue s (st_wheeling_charge s) "wheeling_charge" "Wheeling charge" now ;;
    record_revenue s (st_loss_cost s) "loss_cost" "Grid loss cost" now ;;
    exec (release_escrow (escrow_of_orders s) None)).

(** ** After completion: mail and certificate *)

(** [get_user_email] finds the user's row. *)
Definition notify (s : Settlement) (user : Uuid) : TM unit :=
  r ← attempt (query (fun d => users d !! user));
  match r with
  | Ok (Some _) => emit (EvNotify (st_id s) user)
  | _ => mret ()
  end.

Definition send_settlement_notifications (s : Settlement) : TM unit :=
  notify s (st_buyer_id s) ;; notify s (st_seller_id s).

Definition issue_rec_for_settlement (s : Settlement) : TM unit :=
  _ ← get_user_wallet (st_seller_id s);
  _ ← attempt (query (fun _ => ()));
  emit (EvIssueRec (st_id s) (st_seller_id s) (st_energy_amount s)).

(** ** The handlers *)

Definition execute_settlement (mock_sig : string) (now : DateTime) (id : Uuid)
    : TM SettlementTransaction :=
  update_settlement_status id SProcessing now ;;
  s ← get_settlement id;
  if decide (st_status s = SPendingBridge) then
    r ← attempt (execute_bridge_initiation s);
    match r with
    | Ok sig =>
        update_settlement_confirmed id sig SBridgingInitiated now ;;
        mret {| stx_settlement_id := id; stx_signature := sig; stx_slot := 0;
                stx_confirmation_status := "bridging_initiated" |}
    | Err e => update_settlement_status id SFailed now ;; fail e
    end
  else
    r ← attempt (execute_blockchain_transfer mock_sig s);
    match r with
    | Ok tx =>
        update_settlement_confirmed id (stx_signature tx) SCompleted now ;;
        ignore (finalize_escrow s now) ;;
        emit (EvSettlementComplete (st_id s) (st_buyer_id s) (st_seller_id s)
                (st_energy_amount s) (st_total_value s) (stx_signature tx)) ;;
        send_settlement_notifications s ;;
        ignore (issue_rec_for_settlement s) ;;
        mret tx
    | Err e =>
        update_settlement_status id SFailed now ;;
        fail (FApi (Internal ("Settlement execution failed: " +:+ error_text e)))
    end.

Fixpoint execute_each (mock_sig : Uuid -> string) (now : DateTime) (ids : list Uuid) (done : nat)
    : TM nat :=
  match ids with
  | [] => mret done
  | id :: ids =>
      r ← attempt (execute_settlement (mock_sig id) now id);
      execute_each mock_sig now ids (if is_ok r then S done else done)
  end.

Definition process_pending_settlements (mock_sig : Uuid -> string) (now : DateTime) : TM nat :=
  pending_ids ← get_pending_settlements;
  execute_each mock_sig now pending_ids 0.

Definition process_relayer_queue (now : DateTime) : TM unit :=
  pending ← query (fun d => List.filter (fun s => (s_status s =? "BridgingInitiated")%string)
              (settlement_rows d));
  for_each (fun bridge =>
    _ ← chain_call GetAuthority;
    r ← attempt (chain_call CompleteBridge);
    match r with
    | Ok sig => update_bridge_completed (s_id bridge) sig now
    | Err _ => mret ()
    end) pending.

(** ** Batches *)

Fixpoint get_settlements (ids : list Uuid) : TM (list Settlement) :=
  match ids with
  | [] => mret []
  | id :: ids => s ← get_settlement id; rest ← get_settlements ids; mret (s :: rest)
  end.

Definition fee_collector : string := "GTuRUUwCfvmqW7knqQtzQLMCy61p4UKUrdT5ssVgZbat".

(** [parse_pubkey(..).unwrap()]. *)
Definition unwrap_pubkey (text : string) : TM string :=
  if parse_pubkey text then mret text else fail FPanic.

(** The six accounts of one settlement. *)
Definition batch_accounts (s : Settlement) : TM (list string) :=
  buyer_wallet ← get_user_wallet (st_buyer_id s);
  seller_wallet ← get_user_wallet (st_seller_id s);
  buyer_currency ← unwrap_pubkey buyer_wallet;
  seller_energy ← unwrap_pubkey seller_wallet;
  seller_currency ← unwrap_pubkey seller_wallet;
  buyer_energy ← unwrap_pubkey buyer_wallet;
  fees ← unwrap_pubkey fee_collector;
  wheeling ← unwrap_pubkey fee_collector;
  mret [buyer_currency; seller_energy; seller_currency; buyer_energy; fees; wheeling].

Fixpoint batch_all_accounts (l : list Settlement) : TM (list string) :=
  match l with
  | [] => mret []
  | s :: l => a ← batch_accounts s; rest ← batch_all_accounts l; mret (a ++ rest)%list
  end.

Definition execute_batch_settlement (now : DateTime) (ids : list Uuid) : TM string :=
  l ← get_settlements ids;
  accounts ← batch_all_accounts l;
  _ ← internal "Failed to get authority" (chain_call GetAuthority);
  _ ← require_pubkey "Invalid market address"
        (default default_market (env_var "TRADING_MARKET_ADDRESS"));
  sig ← internal "Batch settlement failed" (chain_call (BatchSettlement
          ((fun s => atomic (st_energy_amount s)) <$> l) ((fun s => atomic (st_price s)) <$> l)
          ((fun s => atomic (default 0 (st_wheeling_charge s))) <$> l) accounts));
  for_each (fun s => update_settlement_confirmed (st_id s) sig SCompleted now ;;
                     ignore (finalize_escrow s now)) l ;;
  mret sig.

(** ** Retries *)

Definition non_retryable_patterns : list string :=
  ["insufficient"; "invalid signature"; "invalid account"; "unauthorized"; "forbidden";
   "already processed"; "account not found"; "program failed"].
Definition retryable_patterns : list string :=
  ["timeout"; "connection refused"; "network"; "rate limit"; "429"; "503"; "temporary";
   "try again"; "blockhash"; "not found"].

Definition is_retryable_error (error : string) : bool :=
  let error_lower := to_lowercase error in
  if existsb (fun p => contains p error_lower) non_retryable_patterns then false
  else if existsb (fun p => contains p error_lower) retryable_patterns then true
  else true.

(** [base * 2_u64.pow(retry_count)], capped: release-build [u64] arithmetic. *)
Definition retry_delay (retry_count : Z) : Z :=
  Z.min (wrap_u64 (sc_retry_delay_secs config * wrap_u64 (2 ^ wrap_u32 retry_count))) 300.

(** [WHERE status = 'failed' AND retry_count < $1 ORDER BY retry_count, updated_at]. *)
Definition failed_settlements (max_retries : Z) (d : Db) : list SettlementRow :=
  sort_by (fun a b => let ra := default 0 (s_retry_count a) in let rb := default 0 (s_retry_count b) in
      (ra <? rb) || ((ra =? rb) && (s_updated_at a <=? s_updated_at b)))
    (List.filter (fun s => (s_status s =? "failed")%string
        && match s_retry_count s with Some n => n <? wrap_i32 max_retries | None => false end)
      (settlement_rows d)).

(** The waits are not part of the result: [retry_delay] gives them. *)
Fixpoint retry_each (mock_sig : Uuid -> string) (now : DateTime) (l : list SettlementRow)
    (retried : nat) : TM nat :=
  match l with
  | [] => mret retried
  | row :: l =>
      r ← attempt (execute_settlement (mock_sig (s_id row)) now (s_id row));
      match r with
      | Ok _ => retry_each mock_sig now l (S retried)
      | Err e =>
          (if is_retryable_error (error_text e)
           then increment_retry_count (s_id row) now
           else mark_settlement_permanent_failure (s_id row) (error_text e)) ;;
          retry_each mock_sig now l retried
      end
  end.

Definition retry_failed_settlements (mock_sig : Uuid -> string) (now : DateTime)
    (max_retries : Z) : TM nat :=
  failed ← query (failed_settlements max_retries);
  retry_each mock_sig now failed 0.

(** ** Statistics of the last 24 hours *)

Record SettlementStats := {
  pending_count : Z;
  processing_count : Z;
  confirmed_count : Z;
  failed_count : Z;
  total_settled_value : Decimal;
}.

Definition count_status (status : string) (l : list SettlementRow) : Z :=
  Z.of_nat (length (List.filter (fun s => (s_status s =? status)%string) l)).

Definition get_settlement_stats (now : DateTime) : TM SettlementStats :=
  query (fun d =>
    let recent := List.filter (fun s => now - 86400000000000 <? s_created_at s)
                    (settlement_rows d) in
    {| pending_count := count_status "pending" recent;
       processing_count := count_status "processing" recent;
       confirmed_count := count_status "completed" recent;
       failed_count := count_status "failed" recent;
       total_settled_value := sumZ s_total_amount
         (List.filter (fun s => (s_status s =? "completed")%string) recent) |}).
End settlement.

(** ** Creation: lemmas and properties *)

(** What the [settlements] table admits as status. *)
Definition statuses_ok (d : Db) : Prop :=
  map_Forall (fun _ s => chk_settlement_status (s_status s) = true) (settlements d).

Lemma num8_opt_Some `{Numerics} v c :
  num8_opt (Some v) = Some c -> exists r, c = Some r /\ num8 v = Some r.
Proof. simpl. destruct (num8 v) as [r|]; simpl; intros; simplify_eq. eauto. Qed.

(** What [insert_settlement] stored. *)
Lemma insert_settlement_Ok `{Numerics} s d d' :
  insert_settlement s d = Some d' ->
  chk_settlement_status (s_status s) = true /\ settlements d !! s_id s = None
  /\ exists r, settlements d' = <[s_id s := r]> (settlements d)
     /\ users d' = users d /\ orders d' = orders d /\ escrow_records d' = escrow_records d
     /\ order_matches d' = order_matches d /\ platform_revenue d' = platform_revenue d
     /\ s_status r = s_status s /\ s_buyer_id r = s_buyer_id s /\ s_seller_id r = s_seller_id s
     /\ num8 (s_energy_amount s) = Some (s_energy_amount r)
     /\ num8 (s_price s) = Some (s_price r)
     /\ num8 (s_total_amount s) = Some (s_total_amount r)
     /\ num8 (s_fee_amount s) = Some (s_fee_amount r)
     /\ num8 (s_net_amount s) = Some (s_net_amount r)
     /\ num8_opt (s_wheeling_charge s) = Some (s_wheeling_charge r).
Proof.
  unfold insert_settlement. intros Hi.
  destruct (epochs d !! _); [|done]. destruct (users d !! _); [|done].
  destruct (users d !! _); [|done]. destruct (settlements d !! s_id s) eqn:E; [done|].
  destruct (chk_settlement_status _) eqn:Ec; [|done].
  repeat (apply bind_Some in Hi as (? & ? & Hi)). simplify_eq/=.
  split_and!; [done..|]. eexists. split; [reflexivity|]. simpl. split_and!; done.
Qed.

Section creation_props.
Context `{NUM : Numerics} (config : SettlementConfig).

(** The amounts of a trade the way the matching engine computes them. *)
Definition trade_ok (t : TradeMatch) : Prop :=
  on_grid 16 (tm_total_value t) /\ on_grid 16 (tm_wheeling_charge t)
  /\ 0 <= tm_total_value t <= 10 ^ 9 * U /\ 0 <= tm_wheeling_charge t <= 10 ^ 9 * U.

(** A fee rate in whole percents, at most one. *)
Definition rate_ok : Prop := on_grid 2 (sc_fee_rate config) /\ 0 <= sc_fee_rate config <= U.

Lemma settlement_split id now t :
  trade_ok t -> rate_ok ->
  let s := settlement_of_trade config id now t in
  st_fee_amount s * U = tm_total_value t * sc_fee_rate config
  /\ st_fee_amount s + st_net_amount s + tm_wheeling_charge t = tm_total_value t
  /\ 0 <= st_fee_amount s <= tm_total_value t.
Proof.
  intros (Gt & Gw & Ht & Hw) (Gr & Hr). simpl.
  assert (Hpos : 0 <= tm_total_value t * sc_fee_rate config) by (apply Z.mul_nonneg_nonneg; lia).
  assert (Hprod : tm_total_value t * sc_fee_rate config <= 10 ^ 9 * U * U)
    by (apply Z.mul_le_mono_nonneg; lia).
  assert (Hshare : tm_total_value t * sc_fee_rate config <= tm_total_value t * U)
    by (apply Z.mul_le_mono_nonneg_l; lia).
  destruct (dmul_grid 16 2 (tm_total_value t) (sc_fee_rate config)) as [Hf Gf]; try done.
  { rewrite Z.abs_eq by lia. eapply Z.le_lt_trans; [exact Hprod|]. reflexivity. }
  set (fee := dmul _ _) in *. simpl Z.add in Gf.
  assert (Hfee : 0 <= fee <= tm_total_value t) by (unfold U in *; lia).
  assert (R : forall z, on_grid 18 z -> Z.abs z <= 2 * 10 ^ 9 * U -> repr z).
  { intros z Gz Hz. apply (repr_grid 18); [lia|done|]. unfold U in *. simpl Z.pow in *. lia. }
  assert (Gt' : on_grid 18 (tm_total_value t)) by (apply (on_grid_mono 16); [lia..|done]).
  assert (Gw' : on_grid 18 (tm_wheeling_charge t)) by (apply (on_grid_mono 16); [lia..|done]).
  rewrite (dsub_exact (tm_total_value t) fee);
    [|apply R; [by apply on_grid_sub|unfold U in *; lia]].
  rewrite dsub_exact; [|apply R; [by apply on_grid_sub; [apply on_grid_sub|]|unfold U in *; lia]].
  split_and!; lia.
Qed.

(** C8: a stored settlement accounts for the whole payment: fee, seller's net amount and
    wheeling charge add up to the total exactly, the fee is the configured share, and the
    columns of the row add up to within two steps of 10^-8.  It starts out pending. *)
Theorem settlement_accounts_balance (id : Uuid) (now : DateTime) (t : TradeMatch)
    (w w' : world Db Event) (s : Settlement) :
  trade_ok t -> rate_ok ->
  create_settlement config id now t w = (Ok s, w') ->
  st_fee_amount s + st_net_amount s + tm_wheeling_charge t = tm_total_value t
  /\ st_fee_amount s * U = tm_total_value t * sc_fee_rate config
  /\ exists r wheeling, settlements (st w') = <[id := r]> (settlements (st w))
     /\ users (st w') = users (st w) /\ s_status r = "pending"
     /\ s_buyer_id r = tm_buyer_id t /\ s_seller_id r = tm_seller_id t
     /\ s_wheeling_charge r = Some wheeling
     /\ Z.abs (s_fee_amount r + s_net_amount r + wheeling - s_total_amount r) <= 2 * G8.
Proof.
  intros Ht Hr H. unfold create_settlement in H. run_steps.
  match goal with X : insert_settlement _ _ = Some _ |- _ =>
    apply insert_settlement_Ok in X
      as (Hc & _ & r & Hs & Hu & _ & _ & _ & _ & Hst & Hb & Hse & _ & _ & Htot & Hfee & Hnet & Hwh)
  end.
  destruct (settlement_split id now t Ht Hr) as (Hf & Hsum & _).
  set (s := settlement_of_trade config id now t) in *.
  change (num8 (tm_total_value t) = Some (s_total_amount r)) in Htot.
  change (num8 (st_fee_amount s) = Some (s_fee_amount r)) in Hfee.
  change (num8 (st_net_amount s) = Some (s_net_amount r)) in Hnet.
  apply num8_opt_Some in Hwh as (wh & Hwh & Ew).
  split; [exact Hsum|]. split; [exact Hf|]. exists r, wh.
  assert (Hpend : s_status r = "pending").
  { rewrite Hst. unfold settlement_row, s, settlement_of_trade in *.
    cbn [s_status st_status] in *. destruct (is_cross_chain (tm_buyer_id t)); [|done].
    exfalso. revert Hc. by vm_compute. }
  split_and!; [exact Hs|exact Hu|exact Hpend|exact Hb|exact Hse|exact Hwh|].
  apply num8_stored in Htot as [_ Ht'], Hfee as [_ Hf'], Hnet as [_ Hn'], Ew as [_ Hw'].
  unfold G8 in *. lia.
Qed.

(** A trade whose buyer looks like one of another chain (an id beginning with 0000)
    can never be settled: its initial status [pending_bridge] violates the table's check, so
    the creation fails and stores nothing. *)
Theorem cross_chain_rejected (id : Uuid) (now : DateTime) (t : TradeMatch)
    (w : world Db Event) :
  is_cross_chain (tm_buyer_id t) = true ->
  let '(r, w') := create_settlement config id now t w in
  r = Err FDb /\ st w' = st w.
Proof.
  intros Hc. assert (E : forall d, insert_settlement
    (settlement_row (tm_epoch_id t) (settlement_of_trade config id now t)) d = None).
  { intros d. destruct (insert_settlement _ d) eqn:E; [|done].
    apply insert_settlement_Ok in E as [E _]. unfold settlement_row, settlement_of_trade in E.
    cbn [s_status st_status] in E. rewrite Hc in E. by vm_compute in E. }
  unfold create_settlement, mbind, M_bind, exec.
  pose proof (pop_fault_st w) as Hp. destruct (pop_fault w) as [[] w1]; simpl in *; [done|].
  by rewrite E.
Qed.
End creation_props.

(** ** Conservation of currency *)

(** What all users own together, and with the platform's revenue. *)
Definition total_holdings (d : Db) : Z := map_fold (fun _ u acc => holdings u + acc) 0 (users d).
Definition total_currency (d : Db) : Z := total_holdings d + sumZ r_amount (platform_revenue d).

(** Accounts that exist, are well formed and have no NULL amounts. *)
Definition healthy_accounts (d : Db) : Prop :=
  map_Forall (fun _ u => user_wf u /\ currency_nonnull u) (users d).

Lemma total_holdings_insert (m : gmap Uuid User) id u u' :
  m !! id = Some u ->
  map_fold (fun _ u acc => holdings u + acc) 0 (<[id := u']> m)
  = map_fold (fun _ u acc => holdings u + acc) 0 m - holdings u + holdings u'.
Proof.
  intros Hu. assert (A : forall (j1 j2 : Uuid) (z1 z2 : User) (y : Z), j1 <> j2 ->
    holdings z1 + (holdings z2 + y) = holdings z2 + (holdings z1 + y)) by (intros; lia).
  rewrite (map_fold_delete_L _ _ id u m) by (auto; intros; lia).
  rewrite <- insert_delete_eq. rewrite map_fold_insert_L; [lia|intros; lia|apply lookup_delete_eq].
Qed.

Section finalize.
Context `{NUM : Numerics}.

(** A row update that moves the holdings of one user by [delta]. *)
Lemma update_user_total id f delta d d' u :
  healthy_accounts d -> users d !! id = Some u ->
  (forall u0 u1, f u0 = Some u1 -> user_wf u0 -> currency_nonnull u0 ->
     user_wf u1 /\ currency_nonnull u1 /\ holdings u1 = holdings u0 + delta) ->
  update_user id f d = Some d' ->
  healthy_accounts d' /\ total_holdings d' = total_holdings d + delta
  /\ platform_revenue d' = platform_revenue d /\ settlements d' = settlements d
  /\ (forall i, is_Some (users d !! i) -> is_Some (users d' !! i)).
Proof.
  intros Hh Hu Hf H. destruct (Hh id u Hu) as [W N].
  eapply update_user_lookup in H as (u' & Hfu & ->); [|done].
  destruct (Hf _ _ Hfu W N) as (W' & N' & Hd). split_and!; [| |done..|].
  - by apply map_Forall_insert_2.
  - unfold total_holdings. simpl. rewrite (total_holdings_insert _ _ _ _ Hu). lia.
  - intros i Hi. simpl. destruct (decide (i = id)) as [->|];
      [rewrite lookup_insert_eq; eauto|by rewrite lookup_insert_ne].
Qed.

Lemma add_locked_delta a u u' :
  (G8 | a) -> add_locked a u = Some u' -> user_wf u -> currency_nonnull u ->
  user_wf u' /\ currency_nonnull u' /\ holdings u' = holdings u + a.
Proof.
  intros Ga H W N. split; [by eapply add_locked_wf|]. destruct W as (_ & Wl & _).
  destruct N as [[b Hb] [l Hl]]. unfold add_locked in H. rewrite Hl in *. simpl in Wl.
  destruct (col_add (Some l) a) as [c|] eqn:E; [|done]. injection H as <-.
  apply col_add_near in E as (r & -> & _ & X). unfold currency_nonnull, holdings. simpl.
  rewrite Hb, Hl. simpl. rewrite X by auto. split; [eauto|unfold id; lia].
Qed.

Lemma add_balance_delta a u u' :
  (G8 | a) -> add_balance a u = Some u' -> user_wf u -> currency_nonnull u ->
  user_wf u' /\ currency_nonnull u' /\ holdings u' = holdings u + a.
Proof.
  intros Ga H W N. split; [by eapply add_balance_wf|]. destruct W as (Wb & _).
  destruct N as [[b Hb] [l Hl]]. unfold add_balance in H. rewrite Hb in *. simpl in Wb.
  destruct (col_add (Some b) a) as [c|] eqn:E; [|done]. injection H as <-.
  apply col_add_near in E as (r & -> & _ & X). unfold currency_nonnull, holdings. simpl.
  rewrite Hb, Hl. simpl. rewrite X by auto. split; [eauto|unfold id; lia].
Qed.

Lemma record_revenue_total s amount kind what now w w' :
  (G8 | default 0 amount) ->
  record_revenue s amount kind what now w = (Ok tt, w') ->
  users (st w') = users (st w) /\ settlements (st w') = settlements (st w)
  /\ sumZ r_amount (platform_revenue (st w'))
     = sumZ r_amount (platform_revenue (st w)) + Z.max 0 (default 0 amount).
Proof.
  unfold record_revenue. intros Ga H. destruct amount as [a|]; [|apply ret_Ok in H as [_ <-]; split_and!; [done..|simpl; lia]].
  destruct (0 <? a) eqn:E; run_steps; to_prop; simpl; [|split_and!; [done..|lia]].
  match goal with X : insert_revenue _ _ _ _ _ _ = Some _ |- _ =>
    unfold insert_revenue in X; destruct (settlements (st w) !! _); [|done];
    destruct (num8 a) as [r|] eqn:En; simplify_eq/=; rewrite <- X end.
  simpl. rewrite sumZ_app. apply num8_id in En as ->; [|done]. simpl. split_and!; [done..|lia].
Qed.

Lemma release_escrow_frame p desc d d' :
  release_escrow p desc d = Some d' ->
  users d' = users d /\ platform_revenue d' = platform_revenue d.
Proof. unfold release_escrow. intros. by simplify_eq/=. Qed.

(** Amounts a column holds without rounding. *)
Definition amounts_on_grid (s : Settlement) : Prop :=
  (G8 | dmul (st_energy_amount s) (st_price s)) /\ (G8 | st_net_amount s)
  /\ (G8 | st_fee_amount s) /\ (G8 | default 0 (st_wheeling_charge s))
  /\ (G8 | default 0 (st_loss_cost s)).

(** Conservation, when nothing is rounded. *)
Lemma finalize_total s now w w' :
  healthy_accounts (st w) ->
  is_Some (users (st w) !! st_buyer_id s) -> is_Some (users (st w) !! st_seller_id s) ->
  amounts_on_grid s -> 0 <= st_fee_amount s -> 0 <= default 0 (st_wheeling_charge s) ->
  st_fee_amount s + st_net_amount s + default 0 (st_wheeling_charge s)
    = dmul (st_energy_amount s) (st_price s) ->
  finalize_escrow s now w = (Ok tt, w') ->
  total_currency (st w') = total_currency (st w) + Z.max 0 (default 0 (st_loss_cost s)).
Proof.
  intros Hh [ub Hb] [us Hs] (Gc & Gn & Gf & Gw & Gl) Hf Hw Hsum E.
  unfold finalize_escrow in E. run_steps.
  repeat match goal with X : record_revenue _ _ _ _ _ _ = (Ok ?t, _) |- _ =>
    destruct t; apply record_revenue_total in X as (? & ? & ?);
      [|done] end.
  match goal with X : release_escrow _ _ _ = Some _ |- _ =>
    apply release_escrow_frame in X as [Hru Hrr] end.
  match goal with X : update_user _ (add_locked_energy _) _ = Some _ |- _ => rename X into U1 end.
  match goal with X : update_user _ (add_locked _) _ = Some _ |- _ => rename X into U2 end.
  match goal with X : update_user _ (add_balance _) _ = Some _ |- _ => rename X into U3 end.
  match goal with X : st ?a = st w |- _ => rewrite X in U1 end.
  eapply (update_user_total _ _ 0) in U1 as (Hh1 & T1 & R1 & _ & K1); [|done..|]; cycle 1.
  { intros u0 u1 X W N. destruct (add_locked_energy_keeps _ _ _ X W N) as (? & ? & ?).
    split_and!; auto; lia. }
  destruct (K1 (st_buyer_id s)) as [ub1 Hb1]; [eauto|].
  eapply (update_user_total _ _ (- dmul (st_energy_amount s) (st_price s)))
    in U2 as (Hh2 & T2 & R2 & _ & K2); [|done..|]; cycle 1.
  { intros u0 u1. apply add_locked_delta. by apply Z.divide_opp_r. }
  destruct (K2 (st_seller_id s)) as [us2 Hs2]; [apply K1; eauto|].
  eapply (update_user_total _ _ (st_net_amount s)) in U3 as (Hh3 & T3 & R3 & _ & _);
    [|done..|]; cycle 1.
  { intros u0 u1. by apply add_balance_delta. }
  unfold total_currency, total_holdings in *. norm_st. simpl default in *.
  chase users. chase platform_revenue.
  match goal with X : platform_revenue (st ?x) = platform_revenue (st ?y),
                  Y : platform_revenue (st ?y) = platform_revenue (st ?z),
                  Z : platform_revenue (st ?z) = platform_revenue (st w) |- _ =>
    assert (R : platform_revenue (st x) = platform_revenue (st w)) by congruence;
    rewrite R in * end.
  lia.
Qed.

(** The revenue a settlement owes: its positive amounts, each with its type and heading. *)
Definition revenue_due (s : Settlement) : list (Decimal * (string * string)) :=
  List.filter (fun x => 0 <? fst x)
    [(st_fee_amount s, ("platform_fee", "Platform fee"));
     (default 0 (st_wheeling_charge s), ("wheeling_charge", "Wheeling charge"));
     (default 0 (st_loss_cost s), ("loss_cost", "Grid loss cost"))].

Definition revenue_row (s : Settlement) (now : DateTime) (x : Decimal * (string * string)) (r : RevenueRow)
    : Prop :=
  r_settlement_id r = st_id s /\ num8 (fst x) = Some (r_amount r) /\ r_revenue_type r = fst (snd x)
  /\ r_description r = Some (snd (snd x) +:+ " for settlement " +:+ uuid_to_string (st_id s))
  /\ r_created_at r = now.

(** What finalizing does to an account: the seller's locked energy and free balance, and the
    buyer's locked currency, each rounded to its column ([col_add]); nothing else. *)
Definition account_settled (s : Settlement) (id : Uuid) (u u' : User) : Prop :=
  (if decide (id = st_seller_id s)
   then col_add (u_locked_energy u) (- st_energy_amount s) = Some (u_locked_energy u')
        /\ col_add (u_balance u) (st_net_amount s) = Some (u_balance u')
   else u_locked_energy u' = u_locked_energy u /\ u_balance u' = u_balance u)
  /\ (if decide (id = st_buyer_id s)
      then col_add (u_locked_amount u) (- dmul (st_energy_amount s) (st_price s)) = Some (u_locked_amount u')
      else u_locked_amount u' = u_locked_amount u)
  /\ user_keys u' = user_keys u.

(** The books after a settlement: every account, the revenue, and the locked escrow records of
    the two orders, which are released. *)
Definition settled (s : Settlement) (now : DateTime) (d d' : Db) : Prop :=
  (forall id, match users d !! id, users d' !! id with
              | Some u, Some u' => account_settled s id u u'
              | None, None => True
              | _, _ => False
              end)
  /\ (exists rows, platform_revenue d' = (platform_revenue d ++ rows)%list
       /\ Forall2 (revenue_row s now) (revenue_due s) rows)
  /\ escrow_records d' = (fun r => if escrow_of_orders s r then set_escrow_status "released" None r else r)
                           <$> escrow_records d
  /\ orders d' = orders d.

Lemma update_user_each id f d d' : update_user id f d = Some d' ->
  (forall i, match users d !! i, users d' !! i with
             | Some u, Some u' => if decide (i = id) then f u = Some u' else u' = u
             | None, None => True
             | _, _ => False
             end)
  /\ platform_revenue d' = platform_revenue d /\ escrow_records d' = escrow_records d
  /\ orders d' = orders d.
Proof.
  unfold update_user. intros H. destruct (users d !! id) as [u|] eqn:Hu; simplify_eq.
  - destruct (f u) as [u'|] eqn:Hf; simplify_eq/=. split; [|done]. intros i.
    destruct (decide (i = id)) as [->|Hi].
    + by rewrite lookup_insert_eq, Hu.
    + rewrite lookup_insert_ne by done. by destruct (users d !! i).
  - split; [|done]. intros i. destruct (decide (i = id)) as [->|]; [by rewrite Hu|].
    by destruct (users d' !! i).
Qed.

Lemma record_revenue_rows s amount kind what now w w' :
  record_revenue s amount kind what now w = (Ok tt, w') ->
  users (st w') = users (st w) /\ escrow_records (st w') = escrow_records (st w)
  /\ orders (st w') = orders (st w)
  /\ exists rows, platform_revenue (st w') = (platform_revenue (st w) ++ rows)%list
     /\ Forall2 (revenue_row s now) (List.filter (fun x => 0 <? fst x) [(default 0 amount, (kind, what))]) rows.
Proof.
  unfold record_revenue. intros H. destruct amount as [a|]; simpl.
  2: { apply ret_Ok in H as [_ <-]. split_and!; [done..|]. exists []. by rewrite app_nil_r. }
  destruct (0 <? a) eqn:E; run_steps.
  2: { split_and!; [done..|]. exists []. by rewrite app_nil_r. }
  match goal with X : insert_revenue _ _ _ _ _ _ = Some _ |- _ =>
    unfold insert_revenue in X; destruct (settlements (st w) !! _); [|done];
    destruct (num8 a) as [r|] eqn:En; simplify_eq/=; rewrite <- X end.
  split_and!; [done..|]. eexists. split; [reflexivity|]. by repeat constructor.
Qed.

(** What a finalized settlement left. *)
Lemma finalize_settled s now w w' : finalize_escrow s now w = (Ok tt, w') -> settled s now (st w) (st w').
Proof.
  unfold finalize_escrow. intros E. run_steps.
  repeat match goal with X : record_revenue _ _ _ _ _ _ = (Ok ?t, _) |- _ =>
    destruct t; apply record_revenue_rows in X as (? & ? & ? & ? & ? & ?) end.
  repeat match goal with X : update_user _ _ _ = Some _ |- _ => apply update_user_each in X as (? & ? & ? & ?) end.
  match goal with X : release_escrow _ _ _ = Some _ |- _ => unfold release_escrow in X; injection X as X end.
  unfold settled. norm_st. match goal with X : set_escrow _ _ = st _ |- _ => rewrite <- X end. simpl.
  split_and!.
  - intros id. chase users.
    repeat match goal with X : forall i : N, _ |- _ => specialize (X id) end. norm_st. unfold account_settled.
    repeat case_match; simplify_eq; try done;
      repeat match goal with X : add_locked_energy _ _ = Some _ |- _ => apply bind_Some in X as (? & ? & ?)
        | X : add_locked _ _ = Some _ |- _ => apply bind_Some in X as (? & ? & ?)
        | X : add_balance _ _ = Some _ |- _ => apply bind_Some in X as (? & ? & ?) end;
      simplify_eq/=; done.
  - repeat match goal with X : platform_revenue (st ?x) = _ |- context [platform_revenue (st ?x)] => rewrite X end.
    norm_st. rewrite <- !app_assoc. eexists. split; [reflexivity|]. unfold revenue_due.
    match goal with |- context [List.filter ?f [?a; ?b; ?c]] =>
      change (List.filter f [a; b; c]) with (List.filter f ([a] ++ [b] ++ [c])%list) end.
    rewrite !List.filter_app. by repeat apply Forall2_app.
  - chase escrow_records. by norm_st.
  - chase orders. by norm_st.
Qed.

(** C7: finalizing a settlement is one transaction: on error no table changes.  On success the
    books are settled party by party ([settled]): the seller's locked energy falls by the energy
    and the free balance grows by the net amount; the buyer's locked currency falls by
    energy * price; no other account and no other column changes; the fee, the wheeling charge and
    the loss cost, where positive, are booked as revenue of the settlement; and the locked escrow
    records of the two orders, and no others, are released.  Columns are rounded to 8 decimals
    and a NULL column stays NULL.  When nothing has to be rounded (energy * price, net amount, fee,
    wheeling charge and loss cost fit 8 decimals), both accounts exist, no currency column is NULL,
    and fee, net amount and wheeling charge, the first and the last not negative, add up to
    energy * price, then all users and the platform together own what they owned before plus
    the loss cost, which is booked as revenue although nobody is charged for it. *)
Theorem finalize_escrow_conserves (s : Settlement) (now : DateTime) (w : world Db Event) :
  let '(r, w') := finalize_escrow s now w in
  match r with
  | Err _ => st w' = st w
  | Ok _ => settled s now (st w) (st w')
      /\ (healthy_accounts (st w) ->
          is_Some (users (st w) !! st_buyer_id s) -> is_Some (users (st w) !! st_seller_id s) ->
          amounts_on_grid s -> 0 <= st_fee_amount s -> 0 <= default 0 (st_wheeling_charge s) ->
          st_fee_amount s + st_net_amount s + default 0 (st_wheeling_charge s)
            = dmul (st_energy_amount s) (st_price s) ->
          total_currency (st w') = total_currency (st w) + Z.max 0 (default 0 (st_loss_cost s)))
  end.
Proof.
  destruct (finalize_escrow s now w) as [[[]|e] w'] eqn:E; [|by eapply with_tx_Err].
  split; [by apply finalize_settled|]. intros. by eapply finalize_total.
Qed.
End finalize.

(** ** The outcome of an execution *)

(** The same accounts, orders, escrow and revenue. *)
Definition books_same (d d' : Db) : Prop :=
  users d' = users d /\ orders d' = orders d /\ escrow_records d' = escrow_records d
  /\ platform_revenue d' = platform_revenue d.

Lemma books_same_refl d : books_same d d.
Proof. done. Qed.

#[global] Instance books_same_equiv : Equivalence books_same.
Proof.
  split; [done|intros ? ? (?&?&?&?)|intros ? ? ? (?&?&?&?) (?&?&?&?)];
    unfold books_same; split_and!; congruence.
Qed.

Lemma update_settlement_books id f d d' :
  update_settlement id f d = Some d' -> books_same d d'.
Proof.
  unfold update_settlement. intros H. destruct (settlements d !! id); [|by simplify_eq].
  destruct (chk_settlement_status _); by simplify_eq.
Qed.

Lemma update_settlement_row id f d d' s :
  update_settlement id f d = Some d' -> settlements d !! id = Some s ->
  settlements d' = <[id := f s]> (settlements d) /\ chk_settlement_status (s_status (f s)) = true.
Proof.
  unfold update_settlement. intros H Hs. rewrite Hs in H.
  destruct (chk_settlement_status (s_status (f s))) eqn:E; by simplify_eq/=.
Qed.

Lemma settlement_of_row_status id r s :
  settlement_of_row id r = Ok s -> st_status s = parse_status (s_status r).
Proof.
  unfold settlement_of_row. intros H.
  destruct (s_buy_order_id r), (s_sell_order_id r); by simplify_eq/=.
Qed.

Section execution_lemmas.
Context `{NUM : Numerics} `{CH : Chain} `{ENV : Env} `{KEYS : KeyStore}
        `{CIPHER : Cipher} `{B64 : Base64} `{KP : Keypairs}.
Context (config : SettlementConfig).

Lemma preserves_update_settlement (I : Db -> Prop) id f :
  (forall d d', books_same d d' -> I d -> I d') ->
  preserves (T := Event) I (exec (update_settlement id f)).
Proof.
  intros HI. apply preserves_exec. intros d d' Hd H. eapply HI; [|exact Hd].
  by eapply update_settlement_books.
Qed.

Lemma preserves_lift {A} (I : Db -> Prop) (r : res failure A) : preserves (T := Event) I (lift r).
Proof. destruct r; [apply preserves_ret|apply preserves_fail]. Qed.

Lemma preserves_get_settlement (I : Db -> Prop) id : preserves I (get_settlement id).
Proof. unfold get_settlement. eauto using preserves_lift with gateway. Qed.

Lemma preserves_internal {A} (I : Db -> Prop) what (m : TM A) :
  preserves I m -> preserves I (internal what m).
Proof. apply preserves_map_err. Qed.

Lemma preserves_wallet (I : Db -> Prop) id : preserves I (get_user_wallet id).
Proof. unfold get_user_wallet. eauto 6 with gateway. Qed.

Lemma preserves_keypair (I : Db -> Prop) id tok : preserves I (get_user_keypair id tok).
Proof.
  unfold get_user_keypair, find_session. apply preserves_bind.
  - destruct tok; [|apply preserves_ret]. destruct (forallb _ _); eauto with gateway.
  - intros [k|]; [apply preserves_lift|].
    apply preserves_bind; [apply preserves_query|]. intros u.
    apply preserves_bind; [apply preserves_expect|]. intros u'.
    apply preserves_bind; [apply preserves_expect|]. intros k. apply preserves_lift.
Qed.

(** The transfer reads the tables and calls the chain; it writes nothing. *)
Lemma preserves_transfer (I : Db -> Prop) sig s :
  preserves I (execute_blockchain_transfer config sig s).
Proof.
  unfold execute_blockchain_transfer, ensure_account, transfer_loss, require_pubkey.
  repeat first
    [ apply preserves_ret | apply preserves_fail | apply preserves_wallet | apply preserves_keypair
    | apply preserves_expect | apply preserves_internal | apply preserves_chain_call
    | apply preserves_attempt | apply preserves_ignore
    | apply preserves_bind; [|intros ?]
    | match goal with |- preserves _ (if ?b then _ else _) => destruct b end
    | match goal with |- preserves _ (match ?r with Ok _ => _ | Err _ => _ end) => destruct r end
    | progress cbv zeta ].
Qed.

Lemma preserves_bridge (I : Db -> Prop) s : preserves I (execute_bridge_initiation s).
Proof.
  unfold execute_bridge_initiation, require_pubkey.
  repeat first
    [ apply preserves_ret | apply preserves_fail | apply preserves_internal
    | apply preserves_chain_call | apply preserves_bind; [|intros ?]
    | match goal with |- preserves _ (if ?b then _ else _) => destruct b end
    | progress cbv zeta ].
Qed.

Lemma finalize_no_panic s now : no_panic (finalize_escrow s now).
Proof.
  apply no_panic_tx. unfold record_revenue.
  repeat first [ apply no_panic_exec | apply no_panic_ret | apply no_panic_bind; [|intros ?]
    | match goal with |- no_panic (match ?x with _ => _ end) => destruct x end ].
Qed.

Lemma issue_rec_no_panic s : no_panic (issue_rec_for_settlement s).
Proof.
  unfold issue_rec_for_settlement, get_user_wallet.
  repeat first [ apply no_panic_query | apply no_panic_emit | apply no_panic_attempt
    | apply no_panic_expect; discriminate | apply no_panic_bind; [|intros ?] ].
Qed.

Lemma notify_total s u : total (notify s u).
Proof.
  unfold notify. apply total_bind; [apply total_attempt, no_panic_query|].
  intros [[u'|]|e]; [apply total_emit|apply total_ret|apply total_ret].
Qed.

Lemma preserves_notify (I : Db -> Prop) s u : preserves I (notify s u).
Proof.
  unfold notify. apply preserves_bind; [eauto with gateway|].
  intros [[u'|]|e]; eauto with gateway.
Qed.

(** What follows the confirmation of a settlement. *)
Definition after_confirmation (s : Settlement) (now : DateTime) (tx : SettlementTransaction)
    : TM SettlementTransaction :=
  ignore (finalize_escrow s now) ;;
  emit (EvSettlementComplete (st_id s) (st_buyer_id s) (st_seller_id s)
          (st_energy_amount s) (st_total_value s) (stx_signature tx)) ;;
  send_settlement_notifications s ;;
  ignore (issue_rec_for_settlement s) ;;
  mret tx.

Lemma after_confirmation_total s now tx : total (after_confirmation s now tx).
Proof.
  unfold after_confirmation, send_settlement_notifications.
  repeat first [ apply total_ret | apply total_emit | apply notify_total
    | apply total_ignore; first [apply finalize_no_panic | apply issue_rec_no_panic]
    | apply total_bind; [|intros ?] ].
Qed.

(** It either finalized the escrow or left the tables as they were. *)
Lemma after_confirmation_effect s now tx w r w' :
  after_confirmation s now tx w = (r, w') ->
  r = Ok tx /\ (st w' = st w \/ exists wb, finalize_escrow s now w = (Ok tt, wb) /\ st w' = st wb).
Proof.
  intros H. unfold after_confirmation in H. unfold mbind at 1, M_bind at 1 in H.
  unfold ignore at 1, attempt at 1 in H. unfold mbind at 1, M_bind at 1 in H.
  pose proof (finalize_no_panic s now w) as Hp.
  destruct (finalize_escrow s now w) as [rf wf] eqn:Ef.
  assert (Htail : forall w0 r w', (emit (EvSettlementComplete (st_id s) (st_buyer_id s)
      (st_seller_id s) (st_energy_amount s) (st_total_value s) (stx_signature tx)) ;;
    send_settlement_notifications s ;; ignore (issue_rec_for_settlement s) ;; mret tx) w0 = (r, w') ->
    r = Ok tx /\ st w' = st w0).
  { clear. intros w0 r w' H.
    match type of H with ?m w0 = _ => assert (Ht : total m);
      [|assert (Hs : preserves (fun d => d = st w0) m)] end.
    - unfold send_settlement_notifications.
      repeat first [ apply total_ret | apply total_emit | apply notify_total
        | apply total_ignore, issue_rec_no_panic | apply total_bind; [|intros ?] ].
    - unfold send_settlement_notifications, issue_rec_for_settlement.
      repeat first [ apply preserves_ret | apply preserves_emit | apply preserves_notify
        | apply preserves_ignore | apply preserves_wallet | apply preserves_attempt
        | apply preserves_query | apply preserves_bind; [|intros ?] ].
    - specialize (Hs w0 eq_refl). destruct (Ht w0) as (a & w1 & E). rewrite H in *. simplify_eq/=.
      split; [|done]. run_steps. done. }
  destruct rf as [[]|e].
  - apply Htail in H as [-> H]. split; [done|]. right. by exists wf.
  - assert (st wf = st w) by (by eapply with_tx_Err).
    destruct e; simpl in Hp; [| | |done]; apply Htail in H as [-> H]; (split; [done|]); left; congruence.
Qed.
End execution_lemmas.

(** ** Properties of the execution *)

Section execution_props.
Context `{NUM : Numerics} `{CH : Chain} `{ENV : Env} `{KEYS : KeyStore}
        `{CIPHER : Cipher} `{B64 : Base64} `{KP : Keypairs}.
Context (config : SettlementConfig).

(** The row of a completed settlement. *)
Definition completed_row (r : SettlementRow) (sig : string) (now : DateTime) : SettlementRow :=
  confirmed sig SCompleted now (with_status "processing" now r).

(** One row of [settlements] rewritten, and nothing else. *)
Definition set_row (id : Uuid) (r : SettlementRow) (d : Db) : Db :=
  set_settlements (<[id := r]> (settlements d)) d.
Definition processing_row (now : DateTime) (r : SettlementRow) : SettlementRow := with_status "processing" now r.
Definition failed_row (now : DateTime) (r : SettlementRow) : SettlementRow := with_status "failed" now r.

Definition settlement_missing : failure := FApi (NotFound "Settlement not found").
Definition execution_error (e : failure) : failure :=
  FApi (Internal ("Settlement execution failed: " +:+ error_text e)).

Lemma set_row_twice id r r' d : set_row id r (set_row id r' d) = set_row id r d.
Proof. unfold set_row, set_settlements. simpl. by rewrite insert_insert_eq. Qed.

(** A statement that updates one row. *)
Lemma row_statement id f (w : world Db Event) r w' : exec (update_settlement id f) w = (r, w') ->
  (r = Err FDb /\ st w' = st w)
  \/ (r = Ok tt /\ ((settlements (st w) !! id = None /\ st w' = st w)
        \/ exists row, settlements (st w) !! id = Some row /\ st w' = set_row id (f row) (st w))).
Proof.
  intros H. destruct r as [[]|e].
  - right. split; [done|]. apply exec_Ok in H as [H _]. unfold update_settlement in H.
    destruct (settlements (st w) !! id) as [row|]; [|left; split; [done|congruence]].
    right. exists row. split; [done|]. case_match; simplify_eq. done.
  - left. unfold exec, pop_fault in H. repeat case_match; simplify_eq; done.
Qed.

Lemma get_settlement_cases id (w : world Db Event) r w' : get_settlement id w = (r, w') ->
  st w' = st w /\ match r with
  | Ok s => exists row, settlements (st w) !! id = Some row /\ settlement_of_row id row = Ok s
  | Err e => e = FDb \/ (settlements (st w) !! id = None /\ e = settlement_missing)
             \/ (is_Some (settlements (st w) !! id) /\ e = FPanic)
  end.
Proof.
  unfold get_settlement, mbind, M_bind. intros H.
  destruct (query _ w) as [[o|e] w1] eqn:Q; [apply query_Ok in Q as (-> & Q & _)|apply query_Err in Q as (-> & Q & _)].
  2: { simplify_eq. auto. }
  destruct (settlements (st w) !! id) as [row|] eqn:Hr; unfold expect, fail in H; simpl in H; [|simplify_eq; auto].
  unfold mret, M_ret in H. simpl in H. destruct (settlement_of_row id row) as [s|e] eqn:Es; simpl in H;
    unfold mret, M_ret, fail in H; simplify_eq; (split; [done|]); [eauto|].
  unfold settlement_of_row in Es. repeat case_match; simplify_eq; right; right; split; eauto.
Qed.

(** How an execution ends: the answer, with the tables it leaves, from the tables [d]. *)
Inductive execution_outcome (mock_sig : string) (now : DateTime) (id : Uuid) (d : Db) :
    res failure SettlementTransaction -> Db -> Prop :=
| never_started e :
    e = FDb \/ (settlements d !! id = None /\ e = settlement_missing) ->
    execution_outcome mock_sig now id d (Err e) d
| stuck_processing row e :
    settlements d !! id = Some row -> e = FDb \/ e = FPanic ->
    execution_outcome mock_sig now id d (Err e) (set_row id (processing_row now row) d)
| transfer_failed row s wt wt' e :
    settlements d !! id = Some row -> settlement_of_row id (processing_row now row) = Ok s ->
    st wt = set_row id (processing_row now row) d ->
    execute_blockchain_transfer config mock_sig s wt = (Err e, wt') ->
    execution_outcome mock_sig now id d (Err (execution_error e)) (set_row id (failed_row now row) d)
| transfer_done row s wt wt' tx d' :
    settlements d !! id = Some row -> settlement_of_row id (processing_row now row) = Ok s ->
    st wt = set_row id (processing_row now row) d ->
    execute_blockchain_transfer config mock_sig s wt = (Ok tx, wt') ->
    (let d1 := set_row id (completed_row row (stx_signature tx) now) d in
     d' = d1 \/ (settled s now d1 d' /\ settlements d' = settlements d1)) ->
    execution_outcome mock_sig now id d (Ok tx) d'.

Lemma finalize_rows s now m : preserves (fun d => settlements d = m) (finalize_escrow s now).
Proof.
  apply preserves_tx. intros w a w' Hw H.
  assert (P : forall f, (forall d d', f d = Some d' -> settlements d' = settlements d) ->
    preserves (T := Event) (fun d => settlements d = m) (exec f)).
  { intros f Hf. apply preserves_exec. intros d d' Hd Hx. by rewrite (Hf _ _ Hx). }
  match type of H with ?body w = _ => assert (G : preserves (fun d => settlements d = m) body) end.
  { unfold record_revenue.
    repeat first
      [ apply preserves_ret
      | apply P; intros d d' X; first
          [ unfold update_user in X; destruct (users d !! _); [destruct (bind _ _)|]; by simplify_eq/=
          | unfold update_user in X; repeat case_match; simplify_eq; try done;
            apply bind_Some in X as (? & ? & ?); by simplify_eq/=
          | unfold insert_revenue in X; destruct (settlements d !! _); [|done];
            destruct (num8 _); by simplify_eq/=
          | unfold release_escrow in X; by simplify_eq/= ]
      | apply preserves_bind; [|intros ?]
      | match goal with |- preserves _ (match ?x with _ => _ end) => destruct x end ]. }
  specialize (G w Hw). by rewrite H in G.
Qed.

(** C9: what an execution answers and leaves behind, the row's status and signature included.
    It answers an error and leaves the tables exactly as they were; or it answers a database error
    or panics, and nothing has changed but that the row says processing (this is also how a
    transfer ends that was made and could not be recorded); or the transfer answered an error, and
    nothing has changed but that the row says failed; or it answers the transfer that was made, the row
    says completed with the signature of that transfer, and the books are settled party by party
    ([settled]) or, when settling them failed, not touched at all: the row says completed although buyer
    and seller have not been settled. *)
Theorem execute_settlement_outcome (mock_sig : string) (now : DateTime) (id : Uuid)
    (w : world Db Event) :
  let '(r, w') := execute_settlement config mock_sig now id w in
  execution_outcome mock_sig now id (st w) r (st w').
Proof.
  destruct (execute_settlement config mock_sig now id w) as [r w'] eqn:E.
  unfold execute_settlement, update_settlement_status, update_settlement_confirmed in E.
  unfold mbind at 1, M_bind at 1 in E.
  destruct (exec _ w) as [r1 w1] eqn:E1. apply row_statement in E1 as [[-> S1]|[-> S1]].
  { simplify_eq. rewrite S1. apply never_started. auto. }
  unfold mbind at 1, M_bind at 1 in E.
  destruct (get_settlement id w1) as [[s|e] w2] eqn:E2; apply get_settlement_cases in E2 as [S2 G].
  2: { simplify_eq. rewrite S2. destruct S1 as [[Hn S1]|(row & Hrow & S1)]; rewrite S1 in *.
       - apply never_started. destruct G as [->|[[_ ->]|[[? G] _]]]; auto. congruence.
       - apply stuck_processing; [done|]. unfold set_row in G. simpl in G. rewrite lookup_insert_eq in G.
         destruct G as [->|[[? _]|[_ ->]]]; auto. done. }
  destruct G as (row1 & Hr1 & Hs). destruct S1 as [[Hn S1]|(row & Hrow & S1)]; rewrite S1 in *; [congruence|].
  unfold set_row in Hr1. simpl in Hr1. rewrite lookup_insert_eq in Hr1. injection Hr1 as <-.
  rewrite decide_False in E by (rewrite (settlement_of_row_status _ _ _ Hs); by vm_compute).
  unfold mbind at 1, M_bind at 1, attempt at 1 in E.
  pose proof (preserves_transfer config (fun d => d = st w2) mock_sig s w2 eq_refl) as S3.
  destruct (execute_blockchain_transfer config mock_sig s w2) as [r3 w3] eqn:E3. simpl in S3.
  destruct r3 as [tx|e].
  - unfold mbind at 1, M_bind at 1 in E. destruct (exec _ w3) as [r4 w4] eqn:E4.
    apply row_statement in E4 as [[-> S4]|[-> [[Hn _]|(row4 & Hrow4 & S4)]]].
    + simplify_eq. rewrite S4, S3, S2. apply stuck_processing; auto.
    + rewrite S3, S2 in Hn. unfold set_row in Hn. simpl in Hn. by rewrite lookup_insert_eq in Hn.
    + rewrite S3, S2 in *. unfold set_row in Hrow4. simpl in Hrow4. rewrite lookup_insert_eq in Hrow4.
      injection Hrow4 as <-. rewrite set_row_twice in S4.
      apply after_confirmation_effect in E as [-> He].
      apply (transfer_done _ _ _ _ row s w2 w3); [exact Hrow|exact Hs|exact S2|exact E3|].
      cbv zeta. destruct He as [He|(wb & Hf & He)]; [left; by rewrite He|right].
      pose proof (finalize_settled _ _ _ _ Hf) as X.
      pose proof (finalize_rows s now (settlements (st w4)) w4 eq_refl) as Y. rewrite Hf in Y. simpl in Y.
      rewrite He, S4 in *. by split.
  - assert (K : (e = FPanic /\ (Err FPanic, w3) = (r, w'))
      \/ (exec (update_settlement id (failed_row now)) ≫= fun _ => fail (execution_error e)) w3 = (r, w'))
      by (destruct e; [right; exact E..|left; split; [done|exact E]]).
    clear E. destruct K as [[-> [= <- <-]]|E]; [rewrite S3, S2; apply stuck_processing; auto|].
    unfold mbind at 1, M_bind at 1 in E. destruct (exec _ w3) as [r4 w4] eqn:E4.
    apply row_statement in E4 as [[-> S4]|[-> [[Hn _]|(row4 & Hrow4 & S4)]]].
    + injection E as <- <-. rewrite S4, S3, S2. apply stuck_processing; auto.
    + rewrite S3, S2 in Hn. unfold set_row in Hn. simpl in Hn. by rewrite lookup_insert_eq in Hn.
    + rewrite S3, S2 in *. unfold set_row in Hrow4. simpl in Hrow4. rewrite lookup_insert_eq in Hrow4.
      injection Hrow4 as <-. rewrite set_row_twice in S4. injection E as <- <-. rewrite S4.
      exact (transfer_failed _ _ _ _ row s w2 w3 e Hrow Hs S2 E3).
Qed.

(** The relayer never relays anything: it looks for a status text that no service
    writes and the table's check forbids, so a round changes no table and calls no chain. *)
Theorem relayer_idle (now : DateTime) (w : world Db Event) :
  statuses_ok (st w) ->
  let '(r, w') := process_relayer_queue now w in
  st w' = st w /\ trace w' = trace w.
Proof.
  intros Hs. unfold process_relayer_queue. unfold mbind, M_bind, query.
  pose proof (pop_fault_st w) as Hst. pose proof (pop_fault_trace w) as Htr.
  destruct (pop_fault w) as [[] w1]; simpl in *; [done|]. rewrite Hst.
  rewrite filter_none; [done|]. intros s [i Hi]%elem_of_values.
  apply Hs in Hi. destruct (String.eqb_spec (s_status s) "BridgingInitiated") as [E|]; [|done].
  rewrite E in Hi. by vm_compute in Hi.
Qed.
End execution_props.

(** ** The status column *)

(** The requests a client of the service, a job or the relayer can issue. *)
Inductive settlement_op :=
| OpCreate (id : Uuid) (now : DateTime) (t : TradeMatch)
| OpExecute (sig : string) (now : DateTime) (id : Uuid)
| OpProcess (sigs : Uuid -> string) (now : DateTime)
| OpRetry (sigs : Uuid -> string) (now : DateTime) (max_retries : Z)
| OpBatch (now : DateTime) (ids : list Uuid)
| OpRelay (now : DateTime).

Section statuses.
Context `{NUM : Numerics} `{CH : Chain} `{ENV : Env} `{KEYS : KeyStore}
        `{CIPHER : Cipher} `{B64 : Base64} `{KP : Keypairs}.
Context (config : SettlementConfig).

Definition run_settlement_op (o : settlement_op) : TM unit :=
  match o with
  | OpCreate id now t => ignore (create_settlement config id now t)
  | OpExecute sig now id => ignore (execute_settlement config sig now id)
  | OpProcess sigs now => ignore (process_pending_settlements config sigs now)
  | OpRetry sigs now n => ignore (retry_failed_settlements config sigs now n)
  | OpBatch now ids => ignore (execute_batch_settlement now ids)
  | OpRelay now => ignore (process_relayer_queue now)
  end.

Lemma statuses_update id f : preserves (T := Event) statuses_ok (exec (update_settlement id f)).
Proof.
  apply preserves_exec. unfold update_settlement. intros d d' Hd H.
  destruct (settlements d !! id); [|by simplify_eq].
  destruct (chk_settlement_status _) eqn:E; simplify_eq/=. by apply map_Forall_insert_2.
Qed.

Lemma statuses_same f :
  (forall d d', f d = Some d' -> settlements d' = settlements d) ->
  preserves (T := Event) statuses_ok (exec f).
Proof.
  intros Hf. apply preserves_exec. intros d d' Hd H. unfold statuses_ok. by rewrite (Hf _ _ H).
Qed.

Lemma update_user_settlements id f d d' :
  update_user id f d = Some d' -> settlements d' = settlements d.
Proof.
  unfold update_user. intros H. destruct (users d !! id); [|by simplify_eq].
  destruct (f _); by simplify_eq/=.
Qed.

Lemma preserves_with_tx {A} (I : Db -> Prop) (body : TM A) :
  preserves I body -> preserves I (with_tx body).
Proof.
  intros Hb. apply preserves_tx. intros w a w' Hw H. specialize (Hb w Hw). by rewrite H in Hb.
Qed.

Lemma statuses_finalize s now : preserves statuses_ok (finalize_escrow s now).
Proof.
  apply preserves_with_tx. unfold record_revenue.
  repeat first
    [ apply preserves_ret
    | apply statuses_same; intros d d' H; first
        [ by eapply update_user_settlements
        | unfold insert_revenue in H; destruct (settlements d !! _); [|done];
          destruct (num8 _); by simplify_eq/=
        | unfold release_escrow in H; by simplify_eq/= ]
    | apply preserves_bind; [|intros ?]
    | match goal with |- preserves _ (match ?x with _ => _ end) => destruct x end ].
Qed.

Lemma statuses_execute sig now id : preserves statuses_ok (execute_settlement config sig now id).
Proof.
  unfold execute_settlement, update_settlement_status, update_settlement_confirmed,
    send_settlement_notifications, issue_rec_for_settlement.
  repeat first
    [ apply preserves_ret | apply preserves_fail | apply statuses_update
    | apply preserves_get_settlement | apply preserves_bridge | apply preserves_transfer
    | apply preserves_attempt | apply preserves_ignore | apply statuses_finalize
    | apply preserves_emit | apply preserves_notify | apply preserves_wallet | apply preserves_query
    | apply preserves_bind; [|intros ?] | case_decide
    | match goal with |- preserves _ (match ?x with Ok _ => _ | Err _ => _ end) => destruct x end ].
Qed.

Lemma statuses_execute_each sigs now ids n : preserves statuses_ok (execute_each config sigs now ids n).
Proof.
  revert n. induction ids as [|id ids IH]; intros n; simpl; [apply preserves_ret|].
  apply preserves_bind; [apply preserves_attempt, statuses_execute|intros r; apply IH].
Qed.

Lemma statuses_retry_each sigs now l n : preserves statuses_ok (retry_each config sigs now l n).
Proof.
  revert n. induction l as [|row l IH]; intros n; simpl; [apply preserves_ret|].
  apply preserves_bind; [apply preserves_attempt, statuses_execute|]. intros [x|e]; [apply IH|].
  apply preserves_bind; [|intros _; apply IH]. destruct (is_retryable_error _).
  - apply statuses_update.
  - by apply statuses_same.
Qed.

Lemma statuses_batch now ids : preserves statuses_ok (execute_batch_settlement now ids).
Proof.
  assert (G : forall ids, preserves statuses_ok (get_settlements ids)).
  { clear. induction ids; simpl; [apply preserves_ret|].
    apply preserves_bind; [apply preserves_get_settlement|intros ?].
    apply preserves_bind; [done|intros; apply preserves_ret]. }
  assert (A : forall l, preserves statuses_ok (batch_all_accounts l)).
  { clear. induction l; simpl; [apply preserves_ret|]. unfold batch_accounts, unwrap_pubkey.
    repeat first [ apply preserves_ret | apply preserves_fail | apply preserves_wallet | apply IHl
      | apply preserves_bind; [|intros ?]
      | match goal with |- preserves _ (if ?b then _ else _) => destruct b end ]. }
  unfold execute_batch_settlement, require_pubkey, update_settlement_confirmed.
  repeat first
    [ apply preserves_ret | apply preserves_fail | apply G | apply A | apply preserves_internal
    | apply preserves_chain_call | apply statuses_update | apply preserves_ignore
    | apply statuses_finalize | apply preserves_bind; [|intros ?] | apply preserves_for_each; intros ?
    | match goal with |- preserves _ (if ?b then _ else _) => destruct b end ].
Qed.

Lemma statuses_relay now : preserves statuses_ok (process_relayer_queue now).
Proof.
  unfold process_relayer_queue, update_bridge_completed, update_settlement_confirmed.
  repeat first
    [ apply preserves_ret | apply preserves_query | apply preserves_chain_call
    | apply preserves_attempt | apply statuses_update | apply preserves_bind; [|intros ?]
    | apply preserves_for_each; intros ?
    | match goal with |- preserves _ (match ?x with Ok _ => _ | Err _ => _ end) => destruct x end ].
Qed.

(** Whatever requests are made and however the database and the chain fail, every
    settlement row is pending, processing, completed or failed: the states of a bridged or a
    permanently failed settlement are never recorded. *)
Theorem settlement_statuses_invariant (ops : list settlement_op) (w : world Db Event) :
  statuses_ok (st w) -> statuses_ok (st (snd (for_each run_settlement_op ops w))).
Proof.
  revert w. change (preserves statuses_ok (for_each run_settlement_op ops)).
  apply preserves_for_each. intros []; simpl; apply preserves_ignore.
  - unfold create_settlement. apply preserves_bind; [|intros; apply preserves_ret].
    apply preserves_exec. intros d d' Hd H.
    apply insert_settlement_Ok in H as (Hc & _ & r & Hr & _ & _ & _ & _ & _ & Hs & _).
    unfold statuses_ok. rewrite Hr. apply map_Forall_insert_2; [by rewrite Hs|done].
  - apply statuses_execute.
  - unfold process_pending_settlements, get_pending_settlements.
    apply preserves_bind; [apply preserves_query|intros; apply statuses_execute_each].
  - unfold retry_failed_settlements.
    apply preserves_bind; [apply preserves_query|intros; apply statuses_retry_each].
  - apply statuses_batch.
  - apply statuses_relay.
Qed.
End statuses.

(** ** Amounts on the chain *)

(** The token units moved by the successful transfers among some effects. *)
Definition moved (e : Event) : Z :=
  match e with EvChain (TransferTokens _ _ _ _ a) true => a | _ => 0 end.
Definition tokens_moved (l : list Event) : Z := sumZ moved l.

(** Every transfer among the effects is signed by [owner]. *)
Definition signed_by (owner : string) (e : Event) : Prop :=
  match e with EvChain (TransferTokens o _ _ _ _) _ => o = owner | _ => True end.

Section transfer_props.
Context `{NUM : Numerics} `{CH : Chain} `{ENV : Env} `{KEYS : KeyStore}
        `{CIPHER : Cipher} `{B64 : Base64} `{KP : Keypairs}.
Context (config : SettlementConfig).

Lemma chain_call_Ok c (w : world Db Event) a w' :
  chain_call c w = (Ok a, w') -> st w' = st w /\ trace w' = (trace w ++ [EvChain c true])%list.
Proof. unfold chain_call. destruct (chain_answer _ _); intros; simplify_eq; done. Qed.

Lemma attempt_chain_call c (w : world Db Event) r w' :
  attempt (chain_call c) w = (Ok r, w') -> trace w' = (trace w ++ [EvChain c (is_ok r)])%list.
Proof.
  unfold attempt, chain_call. destruct (chain_answer _ _); intros; by simplify_eq/=.
Qed.

(** Whole numbers of atomic units convert exactly. *)
Lemma atomic_exact d : (G8 | d) -> 0 <= d <= 10 ^ 9 * U -> atomic d * U = d * 10 ^ 9.
Proof.
  intros [k ->] Hd. unfold atomic.
  assert (E : dmul (k * G8) (dec 1000000000 0) = 10 * k * U).
  { apply dmul_exact; [unfold dec, G8, U; simpl Z.pow; lia|].
    apply (repr_grid 0); [lia|unfold on_grid; simpl Z.sub; change (10 ^ 28) with U; apply Z.divide_factor_r|].
    unfold G8, U in *. simpl Z.pow in *. lia. }
  rewrite E. unfold trunc_u64_or_0. rewrite Z.quot_mul by discriminate.
  assert (Hk : 0 <= 10 * k <= u64_max) by (unfold G8, U, u64_max in *; lia).
  replace ((0 <=? 10 * k) && (10 * k <=? u64_max)) with true.
  - unfold G8, U. lia.
  - symmetry. apply andb_true_iff. split; apply Z.leb_le; lia.
Qed.

Lemma get_user_wallet_Ok id w a w' :
  get_user_wallet id w = (Ok a, w') ->
  st w' = st w /\ trace w' = trace w
  /\ exists u, users (st w) !! id = Some u /\ u_wallet_address u = Some a.
Proof. unfold get_user_wallet. intros H. run_steps. norm_st. eauto 6. Qed.

Lemma lift_Ok {A} (r : res failure A) (w : world Db Event) a w' :
  lift r w = (Ok a, w') -> r = Ok a /\ w' = w.
Proof. destruct r; simpl; unfold mret, M_ret, fail; intros; by simplify_eq. Qed.

Lemma get_user_keypair_trace id tok w a w' :
  get_user_keypair id tok w = (Ok a, w') -> trace w' = trace w.
Proof.
  unfold get_user_keypair, find_session. intros H. apply bind_Ok in H as (k & w1 & H1 & H).
  assert (T : trace w1 = trace w).
  { destruct tok; [|run_steps; done]. destruct (forallb _ _); run_steps; congruence. }
  destruct k as [k|]; [apply lift_Ok in H as [_ ->]; done|].
  run_steps. match goal with X : lift _ _ = _ |- _ => apply lift_Ok in X as [_ ->] end. congruence.
Qed.

Lemma transfer_loss_effect s owner acc mint eff w w' :
  transfer_loss s owner acc mint eff w = (Ok tt, w') ->
  exists evs, trace w' = (trace w ++ evs)%list /\ Forall (signed_by owner) evs
    /\ tokens_moved evs <= Z.max 0 (atomic (dsub (st_energy_amount s) eff))
    /\ (dsub (st_energy_amount s) eff <= 0 -> evs = []).
Proof.
  intros H. unfold transfer_loss in H. cbv zeta in H.
  assert (N : forall x y : world Db Event, (mret () : TM unit) x = (Ok tt, y) ->
    exists evs, trace y = (trace x ++ evs)%list /\ Forall (signed_by owner) evs
    /\ tokens_moved evs <= Z.max 0 (atomic (dsub (st_energy_amount s) eff)) /\ evs = []).
  { intros x y X. apply ret_Ok in X as [_ <-]. exists []. rewrite app_nil_r. repeat split; try done.
    unfold tokens_moved. simpl. lia. }
  destruct (0 <? dsub _ _) eqn:E1; to_prop; [|apply N in H as (evs & ? & ? & ? & ?); eauto 6].
  destruct (0 <? atomic _) eqn:E2; to_prop; [|apply N in H as (evs & ? & ? & ? & ?); eauto 6].
  destruct (parse_pubkey _); [|apply N in H as (evs & ? & ? & ? & ?); eauto 6].
  apply bind_Ok in H as (r & w1 & H1 & H). apply attempt_chain_call in H1.
  destruct r as [acc'|e].
  - unfold ignore in H. apply bind_Ok in H as (r2 & w2 & H2 & H). apply attempt_chain_call in H2.
    apply ret_Ok in H as [_ <-]. rewrite H2, H1, <- app_assoc. eexists. split; [reflexivity|].
    split; [by repeat constructor|]. split; [|lia].
    unfold tokens_moved. simpl. destruct (is_ok r2); simpl; lia.
  - apply ret_Ok in H as [_ <-]. rewrite H1. eexists. split; [reflexivity|].
    split; [by repeat constructor|]. split; [|lia]. unfold tokens_moved. simpl. lia.
Qed.

(** A successful transfer on the real chain sends the buyer exactly the effective
    energy, in atomic units of 10^-9; together with the losses it never moves more than the
    energy of the settlement, and every transfer is signed by the key of the seller's
    recorded wallet. *)
Theorem transfer_amounts_exact (mock_sig : string) (s : Settlement) (w w' : world Db Event)
    (tx : SettlementTransaction) (eff : Decimal) :
  sc_enable_real_blockchain config = true ->
  st_effective_energy s = Some eff -> (G8 | eff) -> (G8 | st_energy_amount s) ->
  0 <= eff <= st_energy_amount s -> st_energy_amount s <= 10 ^ 9 * U ->
  execute_blockchain_transfer config mock_sig s w = (Ok tx, w') ->
  exists evs u wallet, trace w' = (trace w ++ evs)%list
    /\ users (st w) !! st_seller_id s = Some u /\ u_wallet_address u = Some wallet
    /\ Forall (signed_by wallet) evs
    /\ (exists owner from to mint a, EvChain (TransferTokens owner from to mint a) true ∈ evs
         /\ a * U = eff * 10 ^ 9)
    /\ tokens_moved evs * U <= st_energy_amount s * 10 ^ 9.
Proof.
  intros Hreal He Ge Gs Hle Hmax H. unfold execute_blockchain_transfer in H. rewrite Hreal, He in H.
  simpl negb in H. cbv iota in H.
  apply bind_Ok in H as (bw & w1 & H1 & H). apply get_user_wallet_Ok in H1 as (S1 & T1 & _).
  apply bind_Ok in H as (sw & w2 & H2 & H).
  apply get_user_wallet_Ok in H2 as (S2 & T2 & u & Hu & Hw). rewrite S1 in Hu.
  assert (Q : forall what text x a y, require_pubkey what text x = (Ok a, y) -> a = text /\ y = x).
  { clear. unfold require_pubkey. intros. case_match; run_steps; done. }
  assert (I : forall A what (m : TM A) x a y, internal what m x = (Ok a, y) -> m x = (Ok a, y)).
  { clear. intros. by eapply map_err_Ok. }
  apply bind_Ok in H as (b & w3 & H3 & H). apply Q in H3 as [-> ->].
  apply bind_Ok in H as (b2 & w4 & H4 & H). apply Q in H4 as [-> ->].
  apply bind_Ok in H as (ms & w5 & H5 & H). apply expect_Ok in H5 as [_ ->].
  apply bind_Ok in H as (mint & w6 & H6 & H). apply Q in H6 as [-> ->].
  apply bind_Ok in H as (auth & w7 & H7 & H). apply I, chain_call_Ok in H7 as [_ T7].
  apply bind_Ok in H as (key & w8 & H8 & H). apply get_user_keypair_trace in H8.
  destruct (negb _) eqn:Ekey; [run_steps|]. to_prop. rewrite Ekey in H.
  apply bind_Ok in H as (ba & w9 & H9 & H). apply I, chain_call_Ok in H9 as [_ T9].
  apply bind_Ok in H as (sa & w10 & H10 & H). apply I, chain_call_Ok in H10 as [_ T10].
  cbv zeta in H. simpl default in H.
  apply bind_Ok in H as (sig & w11 & H11 & H). apply I, chain_call_Ok in H11 as [_ T11].
  apply bind_Ok in H as ([] & w12 & H12 & H).
  apply transfer_loss_effect in H12 as (evs & T12 & Sg & Tm & Nil).
  apply bind_Ok in H as (slot & w13 & H13 & H). apply I, chain_call_Ok in H13 as [_ T13].
  apply ret_Ok in H as [_ <-].
  rewrite T13, T12, T11, T10, T9, H8, T7, T2, T1, <- !app_assoc. eexists _, u, sw.
  split; [reflexivity|]. split; [done|]. split; [done|].
  assert (Ha : atomic eff * U = eff * 10 ^ 9) by (apply atomic_exact; [done|lia]).
  assert (Hd : dsub (st_energy_amount s) eff = st_energy_amount s - eff).
  { apply dsub_exact, repr_8; [by apply Z.divide_sub_r|unfold U in *; lia]. }
  rewrite Hd in *.
  assert (Hl : atomic (st_energy_amount s - eff) * U = (st_energy_amount s - eff) * 10 ^ 9).
  { apply atomic_exact; [by apply Z.divide_sub_r|lia]. }
  split_and!.
  - repeat (apply Forall_cons_2; [done|]). apply Forall_app. split; [done|by repeat constructor].
  - eexists _, _, _, _, _. split; [|exact Ha]. do 3 right. left.
  - unfold tokens_moved in *. simpl. rewrite sumZ_app. simpl.
    destruct (decide (st_energy_amount s - eff <= 0)) as [Hz|Hz].
    + rewrite (Nil Hz). simpl. unfold U in *. lia.
    + unfold U in *. lia.
Qed.

(** With a session token of the seller nothing is ever transferred: the statement that looks the
    session up names columns the migrated table does not have. *)
Theorem session_token_refused (mock_sig token : string) (s : Settlement) (w : world Db Event) :
  sc_enable_real_blockchain config = true -> session_columns = migrated_session_columns ->
  st_seller_session_token s = Some token ->
  is_ok (fst (execute_blockchain_transfer config mock_sig s w)) = false.
Proof.
  intros Hreal Hc Ht. destruct (execute_blockchain_transfer config mock_sig s w) as [[tx|e] w'] eqn:H; [|done].
  exfalso. unfold execute_blockchain_transfer in H. rewrite Hreal, Ht in H. simpl negb in H. cbv iota in H.
  do 7 apply bind_Ok in H as (? & ? & _ & H).
  apply bind_Ok in H as (k & ? & K & _). unfold get_user_keypair, find_session in K.
  apply bind_Ok in K as (? & ? & K & _). rewrite Hc in K.
  assert (F : forallb (fun c => bool_decide (c ∈ migrated_session_columns)) session_statement = false)
    by (vm_compute; reflexivity).
  rewrite F in K. apply bind_Ok in K as (? & ? & Q & K). apply query_Ok in Q as (-> & _ & _).
  unfold expect, fail in K. congruence.
Qed.

(** The wait before a retry is the base delay doubled for each retry made, at most five
    minutes, while that product fits 64 bits; from the 64th retry on it is no wait at all. *)
Theorem retry_delay_spec (n : Z) :
  0 <= n <= u32_max -> 0 <= sc_retry_delay_secs config ->
  0 <= retry_delay config n <= 300
  /\ (sc_retry_delay_secs config * 2 ^ n <= u64_max -> 0 < sc_retry_delay_secs config ->
      retry_delay config n = Z.min (sc_retry_delay_secs config * 2 ^ n) 300)
  /\ (64 <= n -> retry_delay config n = 0).
Proof.
  intros Hn Hb. unfold retry_delay. rewrite (wrap_u32_id n) by done.
  pose proof (Z.pow_nonneg 2 n ltac:(lia)). split_and!.
  - pose proof (wrap_u64_range (sc_retry_delay_secs config * wrap_u64 (2 ^ n))). lia.
  - pose proof (wrap_u64_range (sc_retry_delay_secs config * wrap_u64 (2 ^ n))). lia.
  - intros Hf Hp. rewrite (wrap_u64_id (2 ^ n)) by nia. by rewrite wrap_u64_id by nia.
  - intros H64. assert (E : wrap_u64 (2 ^ n) = 0).
    { unfold wrap_u64. replace n with ((n - 64) + 64) by lia. rewrite Z.pow_add_r by lia.
      change (2 ^ 64) with 18446744073709551616. by apply Z.mod_mul. }
    rewrite E, Z.mul_0_r. reflexivity.
Qed.
End transfer_props.

(** ** No guard against a second execution *)
Section repeat_props.
Context `{NUM : Numerics} `{CH : Chain} `{ENV : Env} `{KEYS : KeyStore}
        `{CIPHER : Cipher} `{B64 : Base64} `{KP : Keypairs}.
Context (config : SettlementConfig).

(** An execution does not look at the status of the row: run on a completed (or a
    failed, or a processing) settlement it does exactly what it does on a pending one, with
    the same result and the same tables after it.  So a second execution pays a second
    time. *)
Theorem execution_ignores_status (mock_sig text : string) (now before : DateTime) (id : Uuid)
    (d : Db) (f : list bool) (tr : list Event) (row : SettlementRow) :
  settlements d !! id = Some row -> head f <> Some true ->
  execute_settlement config mock_sig now id
    (World (set_settlements (<[id := with_status text before row]> (settlements d)) d) f tr)
  = execute_settlement config mock_sig now id (World d f tr).
Proof.
  intros Hrow Hf.
  set (d' := set_settlements (<[id := with_status text before row]> (settlements d)) d).
  assert (E : update_settlement id (with_status "processing" now) d'
              = update_settlement id (with_status "processing" now) d).
  { unfold update_settlement, d'. simpl settlements. rewrite lookup_insert_eq, Hrow.
    change (with_status "processing" now (with_status text before row))
      with (with_status "processing" now row).
    destruct (chk_settlement_status _); [|done]. f_equal. unfold set_settlements. simpl.
    by rewrite insert_insert_eq. }
  assert (X : exec (update_settlement id (with_status "processing" now)) (World d' f tr)
              = exec (update_settlement id (with_status "processing" now)) (World d f tr)).
  { unfold exec, pop_fault. destruct f as [|[] f]; simpl in *; [|by destruct Hf|]; rewrite E;
      destruct (update_settlement _ _ d) eqn:Eu; try done;
      unfold update_settlement in Eu; rewrite Hrow in Eu; by vm_compute in Eu. }
  assert (B : forall A (k : unit -> TM A),
    (exec (update_settlement id (with_status "processing" now)) ≫= k) (World d' f tr)
    = (exec (update_settlement id (with_status "processing" now)) ≫= k) (World d f tr)).
  { intros A k. unfold mbind, M_bind. by rewrite X. }
  apply B.
Qed.
End repeat_props.

(** ** Witnesses *)
Section witnesses.
#[local] Existing Instance std_numerics.

Definition demo_env : Env :=
  {| env_var v := if (v =? "ENERGY_TOKEN_MINT")%string then Some "mint" else None;
     db_error_text := "pool timed out"; decimal_from_str _ := None |}.
Definition demo_keys : KeyStore :=
  {| encryption_secret := "secret"; session_columns := migrated_session_columns; session_key _ _ := None |}.
Definition chain_of_signatures : Chain :=
  {| chain_answer _ _ := Ok "signature"; token_balance _ _ _ := Ok 1000; parse_pubkey _ := true |}.
#[local] Existing Instance demo_env.
#[local] Existing Instance demo_keys.
#[local] Existing Instance demo_cipher.
#[local] Existing Instance demo_base64.
#[local] Existing Instance chain_of_signatures.

(** 10 kWh at 2.00, 0.50 wheeling, two percent of losses; the buyer's id does not begin
    with 0000. *)
Definition buyer_id : Uuid := (2 ^ 127 + 1)%N.
Definition demo_trade : TradeMatch :=
  {| tm_id := 1; tm_match_id := 2; tm_epoch_id := 9; tm_buyer_id := buyer_id; tm_seller_id := 2;
     tm_buy_order_id := 7; tm_sell_order_id := 8; tm_quantity := dec 10 0; tm_price := dec 2 0;
     tm_total_value := dec 20 0; tm_wheeling_charge := dec 5 1; tm_loss_factor := dec 2 2;
     tm_loss_cost := dec 4 1; tm_buyer_zone_id := None; tm_seller_zone_id := None;
     tm_matched_at := 0; tm_buyer_session_token := None; tm_seller_session_token := None |}.

(** Buyer and seller, with the buyer's 20 and the seller's 10 kWh locked, and a key of 64 bytes
    encrypted under the secret. *)
Definition demo_secret_key : bytes :=
  match encrypt_raw demo_draws (repeat Byte.x07 64) "secret" with Ok (c, _, _) => c | Err _ => [] end.
Definition locked_user : User :=
  {| u_balance := Some (dec 100 0); u_locked_amount := Some (dec 20 0);
     u_locked_energy := Some (dec 10 0); u_wallet_address := Some "wallet";
     u_encrypted_private_key := Some demo_secret_key; u_wallet_salt := Some (dr_salt demo_draws);
     u_encryption_iv := Some (dr_nonce demo_draws) |}.
Definition trade_db : Db :=
  set_epochs {[9%N := {| e_id := 9; e_epoch_number := 1; e_start_time := 0; e_end_time := 900;
                         e_status := EpochActive; e_clearing_price := None; e_total_volume := None;
                         e_total_orders := None; e_matched_orders := None |}]}
    (set_users (<[buyer_id := locked_user]> {[2%N := locked_user]}) empty_db).
Definition trade_world : world Db Event := World trade_db [] [].

Definition created : res failure Settlement * world Db Event :=
  create_settlement default_config 77 0 demo_trade trade_world.
Definition demo_settlement : Settlement := settlement_of_trade default_config 77 0 demo_trade.

Lemma demo_trade_ok : trade_ok demo_trade.
Proof. unfold trade_ok. split_and!; [grid|grid|vm_compute; discriminate..]. Qed.
Lemma default_rate_ok : rate_ok default_config.
Proof. unfold rate_ok. split_and!; [grid|vm_compute; discriminate..]. Qed.

Lemma created_ok : created = (Ok demo_settlement, snd created).
Proof. apply run_ok. vm_compute. reflexivity. Qed.

Lemma settlement_accounts_balance_witness :
  st_fee_amount demo_settlement = dec 2 1
  /\ st_fee_amount demo_settlement + st_net_amount demo_settlement + dec 5 1 = dec 20 0.
Proof.
  split; [vm_compute; reflexivity|].
  exact (proj1 (settlement_accounts_balance default_config 77 0 demo_trade trade_world (snd created)
    demo_settlement demo_trade_ok default_rate_ok created_ok)).
Defined.

Definition foreign_trade : TradeMatch :=
  {| tm_id := 1; tm_match_id := 2; tm_epoch_id := 9; tm_buyer_id := 2; tm_seller_id := 2;
     tm_buy_order_id := 7; tm_sell_order_id := 8; tm_quantity := dec 10 0; tm_price := dec 2 0;
     tm_total_value := dec 20 0; tm_wheeling_charge := dec 5 1; tm_loss_factor := dec 2 2;
     tm_loss_cost := dec 4 1; tm_buyer_zone_id := None; tm_seller_zone_id := None;
     tm_matched_at := 0; tm_buyer_session_token := None; tm_seller_session_token := None |}.

Lemma cross_chain_rejected_witness :
  let '(r, w') := create_settlement default_config 77 0 foreign_trade trade_world in
  r = Err FDb /\ st w' = trade_db.
Proof.
  apply (cross_chain_rejected default_config 77 0 foreign_trade trade_world). vm_compute. reflexivity.
Defined.

Lemma created_users : users (st (snd created)) = users trade_db.
Proof. vm_compute. reflexivity. Qed.

Lemma created_row : settlements (st (snd created)) = {[77%N := settlement_row 9 demo_settlement]}.
Proof. vm_compute. reflexivity. Qed.

Lemma trade_accounts : healthy_accounts (st (snd created)).
Proof.
  assert (H : user_wf locked_user /\ currency_nonnull locked_user).
  { split; [|split; eauto]. unfold user_wf. simpl. split_and!; grid. }
  unfold healthy_accounts. rewrite created_users. unfold trade_db. cbn [users set_epochs set_users].
  apply map_Forall_insert_2; [exact H|]. by apply map_Forall_singleton.
Qed.

Lemma finalize_escrow_conserves_witness :
  let '(r, w') := finalize_escrow demo_settlement 1 (snd created) in
  r = Ok tt /\ total_currency (st w') = total_currency (st (snd created)) + dec 4 1
  /\ exists u', users (st w') !! 2%N = Some u'
     /\ col_add (u_balance locked_user) (dec 193 1) = Some (u_balance u').
Proof.
  pose proof (finalize_escrow_conserves demo_settlement 1 (snd created)) as H.
  destruct (finalize_escrow demo_settlement 1 (snd created)) as [r w'] eqn:E.
  assert (Hr : r = Ok tt) by (change r with (fst (r, w')); rewrite <- E; vm_compute; reflexivity).
  subst r. destruct H as [(A & _) H]. split; [reflexivity|]. split.
  - apply H.
    + exact trade_accounts.
    + exists locked_user. vm_compute. reflexivity.
    + exists locked_user. vm_compute. reflexivity.
    + unfold amounts_on_grid. split_and!; grid.
    + vm_compute. discriminate.
    + vm_compute. discriminate.
    + vm_compute. reflexivity.
  - specialize (A 2%N). assert (U : users (st (snd created)) !! 2%N = Some locked_user) by (vm_compute; reflexivity).
    rewrite U in A. destruct (users (st w') !! 2%N) as [u'|]; [|contradiction A].
    exists u'. split; [reflexivity|]. apply (proj2 (proj1 A)).
Defined.

Lemma no_settlements_ok : statuses_ok trade_db.
Proof. apply map_Forall_empty. Qed.

Lemma created_statuses_ok : statuses_ok (st (snd created)).
Proof. unfold statuses_ok. rewrite created_row. by apply map_Forall_singleton. Qed.

Lemma relayer_idle_witness :
  let '(r, w') := process_relayer_queue 5 (snd created) in
  st w' = st (snd created) /\ trace w' = [].
Proof. apply (relayer_idle 5 (snd created)). apply created_statuses_ok. Defined.

Lemma settlement_statuses_invariant_witness :
  statuses_ok (st (snd (for_each (run_settlement_op default_config)
    [OpCreate 77 0 demo_trade; OpProcess (fun _ => "mock") 1; OpRelay 2] trade_world))).
Proof.
  apply (settlement_statuses_invariant default_config
    [OpCreate 77 0 demo_trade; OpProcess (fun _ => "mock") 1; OpRelay 2] trade_world).
  apply no_settlements_ok.
Defined.

Definition transferred := execute_blockchain_transfer default_config "mock" demo_settlement trade_world.
Definition demo_tx : SettlementTransaction :=
  {| stx_settlement_id := 77; stx_signature := "signature"; stx_slot := 0;
     stx_confirmation_status := "confirmed" |}.

Lemma transfer_amounts_exact_witness :
  exists evs, trace (snd transferred) = evs /\ Forall (signed_by "wallet") evs
    /\ tokens_moved evs * U <= dec 10 0 * 10 ^ 9.
Proof.
  destruct (transfer_amounts_exact default_config "mock" demo_settlement trade_world (snd transferred)
    demo_tx (dec 98 1)) as (evs & u & wallet & Ht & Hu & Hw & Hs & _ & Hm).
  - reflexivity.
  - vm_compute. reflexivity.
  - grid.
  - grid.
  - split; vm_compute; discriminate.
  - vm_compute. discriminate.
  - apply run_ok. vm_compute. reflexivity.
  - exists evs. split; [exact Ht|]. split; [|exact Hm].
    assert (E : users (st trade_world) !! st_seller_id demo_settlement = Some locked_user)
      by (vm_compute; reflexivity).
    rewrite E in Hu. injection Hu as <-. injection Hw as <-. exact Hs.
Defined.

Definition session_settlement : Settlement :=
  settlement_of_trade default_config 77 0
    {| tm_id := 1; tm_match_id := 2; tm_epoch_id := 9; tm_buyer_id := buyer_id; tm_seller_id := 2;
       tm_buy_order_id := 7; tm_sell_order_id := 8; tm_quantity := dec 10 0; tm_price := dec 2 0;
       tm_total_value := dec 20 0; tm_wheeling_charge := dec 5 1; tm_loss_factor := dec 2 2;
       tm_loss_cost := dec 4 1; tm_buyer_zone_id := None; tm_seller_zone_id := None;
       tm_matched_at := 0; tm_buyer_session_token := None; tm_seller_session_token := Some "token" |}.

Lemma session_token_refused_witness :
  is_ok (fst (execute_blockchain_transfer default_config "mock" session_settlement trade_world)) = false.
Proof.
  apply (session_token_refused default_config "mock" "token" session_settlement trade_world);
    vm_compute; reflexivity.
Defined.

Lemma retry_delay_spec_witness : retry_delay default_config 3 = 40 /\ retry_delay default_config 64 = 0.
Proof.
  split.
  - apply (retry_delay_spec default_config 3); vm_compute; [split|..]; discriminate || reflexivity.
  - apply (retry_delay_spec default_config 64); [|vm_compute; discriminate|]; unfold u32_max; lia.
Defined.

Definition mock_config : SettlementConfig :=
  {| sc_fee_rate := dec 1 2; sc_min_confirmation_blocks := 32; sc_retry_attempts := 3;
     sc_retry_delay_secs := 5; sc_enable_real_blockchain := false |}.

(** Executed once, and once more on the completed row: the seller's balance grows by the
    net amount of 19.30 each time. *)
Lemma execution_ignores_status_witness :
  let once := execute_settlement mock_config "a" 1 77 (snd created) in
  let twice := execute_settlement mock_config "a" 1 77 (snd once) in
  (s_status <$> settlements (st (snd once)) !! 77%N) = Some "completed"
  /\ (u_balance <$> users (st (snd once)) !! 2%N) = Some (Some (dec 1193 1))
  /\ (u_balance <$> users (st (snd twice)) !! 2%N) = Some (Some (dec 1386 1))
  /\ exists row, execute_settlement mock_config "a" 1 77
       (World (set_settlements (<[77%N := with_status "completed" 0 row]>
          (settlements (st (snd created)))) (st (snd created))) [] [])
     = execute_settlement mock_config "a" 1 77 (World (st (snd created)) [] []).
Proof.
  split; [vm_compute; reflexivity|]. split; [vm_compute; reflexivity|].
  split; [vm_compute; reflexivity|].
  eexists. apply (execution_ignores_status mock_config "a" "completed" 1 0 77
    (st (snd created)) [] []); [vm_compute; reflexivity|discriminate].
Defined.
End witnesses.
