(* ===== verification/MatchingEngine.v ===== *)
(** The background matching engine: [src/services/order_matching_engine/mod.rs].

    Each cycle expires stale orders, then matches every open buy order, oldest first,
    against the open sell orders in order of landed cost, creates matches and
    settlements, and falls back to the automated market maker.  Most statements of a
    cycle ignore their errors.  The optional services are switches of [Engine]; fresh
    identifiers are functions of the number of matches made so far in the cycle. *)
From S2P Require Import Prelude Numerics Errors Store Schema GridTopology Escrow Orders Settlement.

Open Scope string_scope.
Open Scope Z_scope.

Record Engine := {
  en_market_clearing : bool;
  en_websocket : bool;
  en_settlement : bool;
  en_blockchain : bool;
}.

(** [Decimal::from_parts(100000000, 0, 0, false, 9)]. *)
Definition MIN_TRADE_AMOUNT : Decimal := dec 100000000 9.

(** A seller a buyer can trade with. *)
Record Candidate := {
  c_index : nat;
  c_landed_cost : Decimal;
  c_match_price : Decimal;
  c_wheeling_charge_per_kwh : Decimal;
  c_loss_factor : Decimal;
  c_loss_cost_per_kwh : Decimal;
}.

Definition landed_le (a b : Candidate) : bool := c_landed_cost a <=? c_landed_cost b.

(** What a cycle has done so far: the sell orders with their fills, the number of
    matches and their volume. *)
Record Cycle := {
  cy_sells : list TradingOrderDb;
  cy_matches : nat;
  cy_volume : Decimal;
}.

(** The variables of the loop over one buyer's candidates. *)
Record Fill := {
  f_cycle : Cycle;
  f_filled : Decimal;
  f_remaining : Decimal;
}.

Section engine.
Context `{NUM : Numerics} `{F64 : DecimalFromF64} `{CH : Chain} `{ENV : Env}.
Context (engine : Engine) (config : SettlementConfig).
Context (new_match_id new_settlement_id new_trade_id : nat -> Uuid).

(** ** Expiry *)

Definition is_open (o : TradingOrderDb) : bool :=
  bool_decide (o_status o = Active \/ o_status o = Pending \/ o_status o = PartiallyFilled).

Definition stale (now : DateTime) (o : TradingOrderDb) : bool :=
  is_open o && match o_expires_at o with Some t => t <? now | None => false end.

(** The part of an order that is not filled, computed in memory. *)
Definition unfilled (o : TradingOrderDb) : Decimal := dsub (o_energy_amount o) (filled o).

Definition release_expired (o : TradingOrderDb) : TM unit :=
  if en_market_clearing engine then
    let remaining := unfilled o in
    if 0 <? remaining then
      match o_side o with
      | Buy => ignore (unlock_funds (o_user_id o) (o_id o) (dmul remaining (o_price_per_kwh o))
                         "Order Expired")
      | Sell => ignore (unlock_energy (o_user_id o) (o_id o) remaining "Order Expired")
      end
    else mret ()
  else mret ().

Definition expire_order (o : TradingOrderDb) : TM unit :=
  exec (update_status (o_id o) Expired) ;; release_expired o.

Definition order_rows (d : Db) : list TradingOrderDb := (map_to_list (orders d)).*2.

Definition expire_stale_orders (now : DateTime) : TM nat :=
  stale_orders ← query (fun d => List.filter (stale now) (order_rows d));
  for_each expire_order stale_orders ;;
  mret (length stale_orders).

(** ** Candidates *)

Definition candidate (buy : TradingOrderDb) (idx : nat) (sell : TradingOrderDb) : option Candidate :=
  if unfilled sell <? MIN_TRADE_AMOUNT then None
  else
    let wheeling := calculate_wheeling_charge (o_zone_id sell) (o_zone_id buy) in
    let lf := calculate_loss_factor (o_zone_id sell) (o_zone_id buy) in
    let loss_cost_unit := dmul (o_price_per_kwh sell) lf in
    let landed := dadd (dadd (o_price_per_kwh sell) wheeling) loss_cost_unit in
    if landed <=? o_price_per_kwh buy then
      Some {| c_index := idx; c_landed_cost := landed; c_match_price := o_price_per_kwh sell;
              c_wheeling_charge_per_kwh := wheeling; c_loss_factor := lf;
              c_loss_cost_per_kwh := loss_cost_unit |}
    else None.

Fixpoint all_candidates (buy : TradingOrderDb) (idx : nat) (sells : list TradingOrderDb)
    : list Candidate :=
  match sells with
  | [] => []
  | s :: rest =>
      match candidate buy idx s with
      | Some c => c :: all_candidates buy (S idx) rest
      | None => all_candidates buy (S idx) rest
      end
  end.

Definition candidates (buy : TradingOrderDb) (sells : list TradingOrderDb) : list Candidate :=
  sort_by landed_le (all_candidates buy 0 sells).

(** ** Matches and their settlements *)

Definition execute_on_chain_match (buy_pda sell_pda : option string) (amount : Decimal) : TM unit :=
  if en_blockchain engine then
    authority ← attempt (chain_call GetAuthority);
    match authority with
    | Ok _ =>
        match buy_pda, sell_pda with
        | Some b, Some s =>
            ignore (chain_call (MatchOrders b s (default 0 (to_u64 (dmul amount (dec 1000000000 0))))))
        | _, _ => mret ()
        end
    | Err _ => mret ()
    end
  else mret ().

Definition create_order_match (match_id : Uuid) (now : DateTime) (epoch_id buy_order_id sell_order_id : Uuid)
    (amount price : Decimal) (buy_pda sell_pda : option string) : TM Uuid :=
  exec (insert_match {| om_id := match_id; om_epoch_id := epoch_id; om_buy_order_id := buy_order_id;
                        om_sell_order_id := sell_order_id; om_matched_amount := amount;
                        om_match_price := price; om_match_time := now; om_status := "pending";
                        om_settlement_id := None |}) ;;
  execute_on_chain_match buy_pda sell_pda amount ;;
  (if en_websocket engine
   then emit (EvOrderMatched buy_order_id sell_order_id match_id amount price) else mret ()) ;;
  mret match_id.

Definition link_settlement (match_id settlement_id : Uuid) (d : Db) : option Db :=
  Some (set_matches (alter (fun m =>
    {| om_id := om_id m; om_epoch_id := om_epoch_id m; om_buy_order_id := om_buy_order_id m;
       om_sell_order_id := om_sell_order_id m; om_matched_amount := om_matched_amount m;
       om_match_price := om_match_price m; om_match_time := om_match_time m;
       om_status := om_status m; om_settlement_id := Some settlement_id |})
    match_id (order_matches d)) d).

Definition trigger_settlement (settlement_id : Uuid) (now : DateTime) (t : TradeMatch) : TM unit :=
  if en_settlement engine then
    r ← attempt (create_settlement config settlement_id now t);
    match r with
    | Ok s =>
        (if en_websocket engine
         then emit (EvTradeExecuted (st_id s) (tm_buy_order_id t) (tm_sell_order_id t)
                      (tm_buyer_id t) (tm_seller_id t) (tm_quantity t) (tm_price t)
                      (tm_total_value t))
         else mret ()) ;;
        ignore (exec (link_settlement (tm_match_id t) (st_id s)))
    | Err _ => mret ()
    end
  else mret ().

Definition trade_of (n : nat) (now : DateTime) (match_id epoch_id : Uuid)
    (buy sell : TradingOrderDb) (c : Candidate) (amount : Decimal) : TradeMatch :=
  {| tm_id := new_trade_id n; tm_match_id := match_id; tm_epoch_id := epoch_id;
     tm_buyer_id := o_user_id buy; tm_seller_id := o_user_id sell; tm_buy_order_id := o_id buy;
     tm_sell_order_id := o_id sell; tm_quantity := amount; tm_price := c_match_price c;
     tm_total_value := dmul amount (c_match_price c);
     tm_wheeling_charge := dmul amount (c_wheeling_charge_per_kwh c);
     tm_loss_factor := c_loss_factor c; tm_loss_cost := dmul amount (c_loss_cost_per_kwh c);
     tm_buyer_zone_id := o_zone_id buy; tm_seller_zone_id := o_zone_id sell; tm_matched_at := now;
     tm_buyer_session_token := o_session_token buy;
     tm_seller_session_token := o_session_token sell |}.

Definition fill_status (filled_ energy : Decimal) : OrderStatus :=
  if energy <=? filled_ then Filled else PartiallyFilled.

(** One pass of [for candidate in candidates]; the loop ends when nothing remains. *)
Definition match_candidate (now : DateTime) (buy : TradingOrderDb) (c : Candidate) (f : Fill)
    : TM Fill :=
  match cy_sells (f_cycle f) !! c_index c with
  | None => fail FPanic
  | Some sell =>
      let sell_filled := filled sell in
      let remaining_sell := dsub (o_energy_amount sell) sell_filled in
      if remaining_sell <=? 0 then mret f
      else
        let amount := if f_remaining f <? remaining_sell then f_remaining f else remaining_sell in
        epoch_id ← expect (FMsg "Epoch ID required")
          (match o_epoch_id buy with Some e => Some e | None => o_epoch_id sell end);
        let n := cy_matches (f_cycle f) in
        r ← attempt (create_order_match (new_match_id n) now epoch_id (o_id buy) (o_id sell) amount
                       (c_match_price c) (o_order_pda buy) (o_order_pda sell));
        match r with
        | Err _ => mret f
        | Ok match_id =>
            trigger_settlement (new_settlement_id n) now
              (trade_of n now match_id epoch_id buy sell c amount) ;;
            let sell_filled' := dadd sell_filled amount in
            let status := fill_status sell_filled' (o_energy_amount sell) in
            ignore (exec (update_fill (o_id sell) (Some sell_filled') status)) ;;
            mret {| f_cycle :=
                      {| cy_sells := <[c_index c :=
                           set_order_fill (Some sell_filled') (o_status sell) sell]>
                           (cy_sells (f_cycle f));
                         cy_matches := S n;
                         cy_volume := dadd (cy_volume (f_cycle f)) amount |};
                    f_filled := dadd (f_filled f) amount;
                    f_remaining := dsub (f_remaining f) amount |}
        end
  end.

Fixpoint match_candidates (now : DateTime) (buy : TradingOrderDb) (cs : list Candidate) (f : Fill)
    : TM Fill :=
  match cs with
  | [] => mret f
  | c :: cs =>
      if f_remaining f <=? 0 then mret f
      else f' ← match_candidate now buy c f; match_candidates now buy cs f'
  end.

(** ** The automated market maker *)

Definition curve_type (source : option string) : Z :=
  match source with
  | Some s => if (s =? "wind")%string then 1 else if (s =? "battery")%string then 2 else 0
  | None => 0
  end.

Definition pubkey_from_str (text : string) : TM string :=
  if parse_pubkey text then mret text else fail (FMsg "invalid public key").

Definition attempt_amm_match (order : TradingOrderDb) (remaining : Decimal) : TM Decimal :=
  if negb (en_blockchain engine) then fail (FMsg "Blockchain service not available for AMM")
  else if o_is_confidential order then mret 0
  else
    _ ← chain_call GetTradingProgramId;
    energy_mint ← pubkey_from_str (default "Geq98m3Vw63AqrMEVoZsiW5DbNkScteZAdWDmm95ykYF"
                                     (env_var "ENERGY_TOKEN_MINT"));
    currency_mint ← pubkey_from_str (default "TokenkegQfeZyiNwAJbNbGKPFXCWuBvf9Ss623VQ5DA"
                                       (env_var "PAYMENT_TOKEN_MINT"));
    row ← query (fun d => users d !! o_user_id order);
    u ← expect FDb row;
    wallet_text ← expect (FMsg ("User " +:+ uuid_to_string (o_user_id order) +:+ " has no wallet"))
                    (u_wallet_address u);
    wallet ← pubkey_from_str wallet_text;
    _ ← chain_call GetAuthority;
    _ ← chain_call (EnsureTokenAccount wallet energy_mint);
    _ ← chain_call (EnsureTokenAccount wallet currency_mint);
    let amount := default 0 (to_u64 (dmul remaining (dec 1000 0))) in
    let max_currency :=
      default 0 (to_u64 (dmul (dmul remaining (o_price_per_kwh order)) (dec 1000000 0))) in
    if amount =? 0 then mret 0
    else
      _ ← chain_call (SwapBuyEnergy wallet (curve_type (o_energy_source order)) amount max_currency);
      mret remaining.

(** ** A buy order, and a cycle *)

Definition amm_fallback (buy : TradingOrderDb) (buy_filled remaining : Decimal) (status : OrderStatus)
    : TM unit :=
  if (MIN_TRADE_AMOUNT <? remaining) && negb (bool_decide (status = Filled)) then
    r ← attempt (attempt_amm_match buy remaining);
    match r with
    | Ok by_amm =>
        let total := dadd buy_filled by_amm in
        ignore (exec (update_fill (o_id buy) (Some total) (fill_status total (o_energy_amount buy))))
    | Err _ => mret ()
    end
  else mret ().

Definition match_buy (now : DateTime) (buy : TradingOrderDb) (cy : Cycle) : TM Cycle :=
  let buy_filled := filled buy in
  let remaining := dsub (o_energy_amount buy) buy_filled in
  if remaining <? MIN_TRADE_AMOUNT then
    (if 0 <? remaining then ignore (exec (update_status (o_id buy) Cancelled)) else mret ()) ;;
    mret cy
  else
    f ← match_candidates now buy (candidates buy (cy_sells cy))
          {| f_cycle := cy; f_filled := buy_filled; f_remaining := remaining |};
    let status := if o_energy_amount buy <=? f_filled f then Filled
                  else if 0 <? f_filled f then PartiallyFilled else Active in
    ignore (exec (update_fill (o_id buy) (Some (f_filled f)) status)) ;;
    amm_fallback buy (f_filled f) (f_remaining f) status ;;
    mret (f_cycle f).

Fixpoint match_buys (now : DateTime) (buys : list TradingOrderDb) (cy : Cycle) : TM Cycle :=
  match buys with
  | [] => mret cy
  | buy :: buys => cy' ← match_buy now buy cy; match_buys now buys cy'
  end.

Definition open_orders (side : OrderSide) (le : TradingOrderDb -> TradingOrderDb -> bool) (d : Db)
    : list TradingOrderDb :=
  sort_by le (List.filter (fun o => bool_decide (o_side o = side) && is_open o) (order_rows d)).

Definition oldest_first (a b : TradingOrderDb) : bool := created_le (o_created_at a) (o_created_at b).
Definition cheapest_first (a b : TradingOrderDb) : bool :=
  (o_price_per_kwh a <? o_price_per_kwh b)
  || ((o_price_per_kwh a =? o_price_per_kwh b) && oldest_first a b).

Definition match_orders_cycle (now : DateTime) : TM (nat * Decimal) :=
  buys ← query (open_orders Buy oldest_first);
  sells ← query (open_orders Sell cheapest_first);
  match buys, sells with
  | [], _ | _, [] => mret (0%nat, 0)
  | _, _ =>
      cy ← match_buys now buys {| cy_sells := sells; cy_matches := 0; cy_volume := 0 |};
      mret (cy_matches cy, cy_volume cy)
  end.

Definition trigger_matching := match_orders_cycle.

(** One turn of [run_matching_loop]. *)
Definition matching_turn (now : DateTime) : TM unit :=
  ignore (expire_stale_orders now) ;; ignore (match_orders_cycle now).
End engine.
