(* ===== verification/MatchingTrades.v ===== *)
(** What a cycle of the matching engine delivers.

    The cycle of [MatchingEngine] is a refinement of a list of deals: whatever the
    database does, the rows it leaves are the rows before plus one match per deal, every
    deal is between an open buy order and an open sell order whose landed cost the buyer
    accepts, and no order gets more than it lacked. *)
From S2P Require Import Prelude Numerics Errors Store Schema GridTopology Escrow Orders Settlement MatchingEngine.

Open Scope string_scope.
Open Scope Z_scope.

(** ** Deals *)

(** [dl_amount] kWh from [dl_sell] to [dl_buy], the rows as they were when the cycle began. *)
Record Deal := {
  dl_buy : TradingOrderDb;
  dl_sell : TradingOrderDb;
  dl_amount : Z;
}.

Definition volume (l : list Deal) : Z := sumZ dl_amount l.
Definition bought (l : list Deal) (id : Uuid) : Z :=
  sumZ (fun x => if (o_id (dl_buy x) =? id)%N then dl_amount x else 0) l.
Definition sold (l : list Deal) (id : Uuid) : Z :=
  sumZ (fun x => if (o_id (dl_sell x) =? id)%N then dl_amount x else 0) l.

Lemma bought_cons b s a l id : bought ({| dl_buy := b; dl_sell := s; dl_amount := a |} :: l) id
  = (if (o_id b =? id)%N then a else 0) + bought l id.
Proof. reflexivity. Qed.
Lemma sold_cons b s a l id : sold ({| dl_buy := b; dl_sell := s; dl_amount := a |} :: l) id
  = (if (o_id s =? id)%N then a else 0) + sold l id.
Proof. reflexivity. Qed.
Lemma volume_cons b s a l :
  volume ({| dl_buy := b; dl_sell := s; dl_amount := a |} :: l) = a + volume l.
Proof. reflexivity. Qed.

(** A measure of the recorded matches: [k] of buy order, sell order, amount and price,
    summed over the table. *)
Definition tally (k : Uuid -> Uuid -> Z -> Z -> Z) (d : Db) : Z :=
  sumZ (fun m => k (om_buy_order_id m) (om_sell_order_id m) (om_matched_amount m)
                   (om_match_price m))
       (map_to_list (order_matches d)).*2.

(** The matches of [d] are those of [d0] and one for each deal, at the seller's price. *)
Definition recorded (d0 : Db) (deals : list Deal) (d : Db) : Prop :=
  forall k, tally k d = tally k d0
    + sumZ (fun x => k (o_id (dl_buy x)) (o_id (dl_sell x)) (dl_amount x)
                       (o_price_per_kwh (dl_sell x))) deals.

(** ** Rows *)

Definition fill_ok (o : TradingOrderDb) : Prop :=
  (G8 | filled o) /\ 0 <= filled o <= o_energy_amount o.

(** The columns of an order row, as NUMERIC(20, 8) columns and the checks of the table
    keep them. *)
Definition row_ok (o : TradingOrderDb) : Prop :=
  (G8 | o_energy_amount o) /\ o_energy_amount o <= 10 ^ 12 * U /\ (G8 | o_price_per_kwh o)
  /\ fill_ok o.

Definition rows_ok (d : Db) : Prop :=
  map_Forall (fun id o => o_id o = id /\ row_ok o) (orders d).

(** An order without the columns the engine writes. *)
Definition order_static (o : TradingOrderDb) : TradingOrderDb := set_order_fill None Pending o.

Lemma static_eq o o' : order_static o = order_static o' ->
  o_id o = o_id o' /\ o_energy_amount o = o_energy_amount o' /\ o_side o = o_side o'
  /\ o_price_per_kwh o = o_price_per_kwh o' /\ o_zone_id o = o_zone_id o'
  /\ o_user_id o = o_user_id o'.
Proof. unfold order_static, set_order_fill. intros [=]. by split_and!. Qed.

(** Only fills and statuses differ from [d0], and every fill is within its order. *)
Definition good_db (d0 d : Db) : Prop :=
  (forall id, order_static <$> orders d !! id = order_static <$> orders d0 !! id)
  /\ map_Forall (fun _ => fill_ok) (orders d).

Lemma rows_ok_good d : rows_ok d -> good_db d d.
Proof. intros H. split; [done|]. intros id o Ho. by destruct (H id o Ho) as (_ & _ & _ & _ & ?). Qed.

Lemma good_rows_ok d0 d : rows_ok d0 -> good_db d0 d -> rows_ok d.
Proof.
  intros H [Hs Hf] id o Ho. specialize (Hs id). rewrite Ho in Hs. simpl in Hs.
  destruct (orders d0 !! id) as [o0|] eqn:E0; [|done]. apply (inj Some), static_eq in Hs.
  destruct (H id o0 E0) as (Hid & He & Hb & Hp & _). destruct Hs as (-> & Ee & _ & Ep & _).
  unfold row_ok. rewrite Ee, Ep. split_and!; auto. by eapply Hf.
Qed.

Section rows.
Context `{NUM : Numerics}.
Context (d0 : Db).

(** A fill within the order's energy keeps the rows good; so does a status. *)
Lemma good_update id f d d' :
  (forall o o', orders d !! id = Some o -> fill_ok o -> f o = Some o' ->
     order_static o' = order_static o /\ fill_ok o') ->
  update_order id f d = Some d' -> good_db d0 d ->
  good_db d0 d' /\ order_matches d' = order_matches d.
Proof.
  intros Hf H [Hs Hd]. unfold update_order in H.
  destruct (orders d !! id) as [o|] eqn:Eo; [|by simplify_eq].
  destruct (f o) as [o'|] eqn:Ef; simplify_eq/=. specialize (Hf _ _ eq_refl (Hd _ _ Eo) Ef).
  destruct Hf as [Hf1 Hf2]. split; [split; simpl|done].
  - intros i. rewrite lookup_insert, <- Hs. case_decide; [|done]. subst. rewrite Eo. simpl. by f_equal.
  - by apply map_Forall_insert_2.
Qed.

Lemma good_fill id v s d d' :
  (forall o, orders d0 !! id = Some o -> (G8 | v) /\ 0 <= v <= o_energy_amount o) ->
  update_fill id (Some v) s d = Some d' -> good_db d0 d ->
  good_db d0 d' /\ order_matches d' = order_matches d.
Proof.
  intros Hv H Hg. eapply good_update; [|exact H|done]. intros o o' Ho Hfo Hf. simpl in Hf.
  destruct (num8 v) as [r|] eqn:Er; simplify_eq/=. split; [done|].
  destruct Hg as [Hs _]. specialize (Hs id). rewrite Ho in Hs.
  destruct (orders d0 !! id) as [o0|]; [|done]. apply (inj Some), static_eq in Hs.
  destruct (Hv o0 eq_refl) as [Hgv Hr]. destruct Hs as (_ & Ee & _).
  apply num8_id in Er as ->; [|done]. unfold fill_ok, filled. simpl. by rewrite Ee.
Qed.

Lemma good_status id s d d' :
  update_status id s d = Some d' -> good_db d0 d ->
  good_db d0 d' /\ order_matches d' = order_matches d.
Proof. intros H Hg. eapply good_update; [|exact H|done]. intros o o' _ Hfo [= <-]. done. Qed.

(** ** The record of the deals *)

Definition dbinv (deals : list Deal) (d : Db) : Prop := good_db d0 d /\ recorded d0 deals d.

Lemma dbinv_same deals d d' :
  orders d' = orders d -> order_matches d' = order_matches d -> dbinv deals d -> dbinv deals d'.
Proof. unfold dbinv, good_db, recorded, tally. by intros -> ->. Qed.

Lemma dbinv_good deals d d' :
  good_db d0 d' -> order_matches d' = order_matches d -> dbinv deals d -> dbinv deals d'.
Proof. unfold dbinv, recorded, tally. by intros ? -> [_ ?]. Qed.

Lemma dbinv_insert deals x m d d' :
  insert_match m d = Some d' -> dbinv deals d ->
  om_buy_order_id m = o_id (dl_buy x) -> om_sell_order_id m = o_id (dl_sell x) ->
  om_matched_amount m = dl_amount x -> (G8 | dl_amount x) ->
  om_match_price m = o_price_per_kwh (dl_sell x) -> (G8 | o_price_per_kwh (dl_sell x)) ->
  dbinv (x :: deals) d'.
Proof.
  intros H [Hg Hr] Eb Es Ea Ga Ep Gp. unfold insert_match in H.
  destruct (epochs d !! om_epoch_id m), (orders d !! om_buy_order_id m),
    (orders d !! om_sell_order_id m), (order_matches d !! om_id m) eqn:Em, (num8 (om_matched_amount m)) as [a|] eqn:Ha,
    (num8 (om_match_price m)) as [p|] eqn:Hp; try discriminate.
  destruct (0 <? a); simplify_eq. rewrite Ea in Ha. rewrite Ep in Hp.
  apply num8_id in Ha as ->; [|done]. apply num8_id in Hp as ->; [|done].
  split; [done|]. intros k. unfold tally. simpl. rewrite sumZ_table_insert, Em. cbn [option_fmap].
  specialize (Hr k). unfold tally in Hr. rewrite Hr. simpl. rewrite Eb, Es.
  change (default 0 (_ <$> None)) with 0. lia.
Qed.

Lemma dbinv_link mid sid deals d : dbinv deals d ->
  forall d', link_settlement mid sid d = Some d' -> dbinv deals d'.
Proof.
  intros [Hg Hr] d' H. unfold link_settlement in H. simplify_eq. split; [done|].
  intros k. rewrite <- Hr. unfold tally. cbn [set_matches order_matches].
  destruct (order_matches d !! mid) as [m|] eqn:Em.
  - rewrite (alter_alt_Some _ _ _ _ Em), sumZ_table_insert, Em. cbn. lia.
  - by rewrite alter_id'.
Qed.
End rows.

(** ** The steps of a match *)

Section steps.
Context `{NUM : Numerics} `{CH : Chain}.
Context (engine : Engine) (config : SettlementConfig) (d0 : Db).

Lemma on_chain_match_preserves (I : Db -> Prop) b s a :
  preserves I (execute_on_chain_match engine b s a).
Proof.
  unfold execute_on_chain_match. destruct (en_blockchain engine); [|apply preserves_ret].
  apply preserves_bind; [eauto with gateway|]. intros [r|e]; [|apply preserves_ret].
  destruct b, s; eauto with gateway.
Qed.

Lemma on_chain_match_total b s a : total (S := Db) (execute_on_chain_match engine b s a).
Proof.
  unfold execute_on_chain_match. destruct (en_blockchain engine); [|apply total_ret].
  apply total_bind; [eauto with gateway|]. intros [r|e]; [|apply total_ret].
  destruct b, s; eauto with gateway.
Qed.

(** [create_order_match] records the deal or leaves the tables alone. *)
Lemma create_order_match_spec deals x mid now eid pb ps :
  (G8 | dl_amount x) -> (G8 | o_price_per_kwh (dl_sell x)) ->
  hoare (dbinv d0 deals)
    (create_order_match engine mid now eid (o_id (dl_buy x)) (o_id (dl_sell x)) (dl_amount x)
       (o_price_per_kwh (dl_sell x)) pb ps)
    (fun _ => dbinv d0 (x :: deals))
    (fun e d => e <> FPanic /\ dbinv d0 deals d).
Proof.
  intros Ga Gp. unfold create_order_match.
  eapply hoare_bind with (R := fun _ => dbinv d0 (x :: deals)).
  { apply hoare_exec. intros d Hd. split; [done|]. intros d' H. by eapply dbinv_insert. }
  intros []. eapply hoare_bind with (R := fun _ => dbinv d0 (x :: deals)).
  { apply hoare_total; [apply on_chain_match_preserves|apply on_chain_match_total]. }
  intros []. eapply hoare_bind with (R := fun _ => dbinv d0 (x :: deals)); [|intros; by apply hoare_ret].
  destruct (en_websocket engine); [|by apply hoare_ret].
  apply hoare_total; eauto with gateway.
Qed.

(** Creating and linking a settlement touches neither orders nor the recorded deals. *)
Lemma create_settlement_dbinv deals sid now t :
  preserves (dbinv d0 deals) (create_settlement config sid now t).
Proof.
  unfold create_settlement. apply preserves_bind; [|intros; apply preserves_ret].
  apply preserves_exec. intros d d' Hd H.
  apply insert_settlement_Ok in H as (_ & _ & r & _ & _ & Ho & _ & Hm & _).
  by eapply dbinv_same.
Qed.

Lemma trigger_settlement_spec deals sid now t E :
  hoare (dbinv d0 deals) (trigger_settlement engine config sid now t)
    (fun _ => dbinv d0 deals) E.
Proof.
  apply hoare_total.
  - unfold trigger_settlement. destruct (en_settlement engine); [|apply preserves_ret].
    apply preserves_bind; [apply preserves_attempt, create_settlement_dbinv|].
    intros [s|e]; [|apply preserves_ret]. apply preserves_bind.
    { destruct (en_websocket engine); eauto with gateway. }
    intros []. apply preserves_ignore, preserves_exec. intros d d' Hd H. by eapply dbinv_link.
  - unfold trigger_settlement. destruct (en_settlement engine); [|apply total_ret].
    apply total_bind.
    { apply total_attempt. unfold create_settlement.
      apply no_panic_bind; [apply no_panic_exec|intros; apply no_panic_ret]. }
    intros [s|e]; [|apply total_ret]. apply total_bind.
    { destruct (en_websocket engine); eauto with gateway. }
    intros []. apply total_ignore, no_panic_exec.
Qed.
End steps.

(** ** Sells as the engine keeps them, against the rows of the cycle's beginning *)

Definition sell_rel (deals : list Deal) (s0 s : TradingOrderDb) : Prop :=
  order_static s = order_static s0 /\ filled s = filled s0 + sold deals (o_id s0).

Section book.
Context `{NUM : Numerics} `{F64 : DecimalFromF64}.

(** What a kWh of [sell] costs [buy]. *)
Definition landed (buy sell : TradingOrderDb) : Decimal :=
  dadd (dadd (o_price_per_kwh sell) (calculate_wheeling_charge (o_zone_id sell) (o_zone_id buy)))
       (dmul (o_price_per_kwh sell) (calculate_loss_factor (o_zone_id sell) (o_zone_id buy))).

(** The candidates found from position [idx] on. *)
Lemma all_candidates_elem buy sells : forall idx c,
  c ∈ all_candidates buy idx sells
  <-> exists j s, sells !! j = Some s /\ candidate buy (idx + j) s = Some c.
Proof.
  induction sells as [|s sells IH]; intros idx c; simpl.
  { split; [by intros ?%elem_of_nil|]. by intros (j & s & ? & _). }
  assert (Hsplit : (exists j s', (s :: sells) !! j = Some s' /\ candidate buy (idx + j) s' = Some c)
    <-> candidate buy idx s = Some c \/ c ∈ all_candidates buy (S idx) sells).
  { rewrite IH. split.
    - intros ([|j] & s' & Hj & Hc); simpl in Hj.
      + left. rewrite Nat.add_0_r in Hc. by simplify_eq.
      + right. exists j, s'. by rewrite Nat.add_succ_r in Hc.
    - intros [Hc|(j & s' & Hj & Hc)].
      + exists 0%nat, s. by rewrite Nat.add_0_r.
      + exists (S j), s'. by rewrite Nat.add_succ_r. }
  rewrite Hsplit. clear. destruct (candidate buy idx s) as [c'|].
  - rewrite elem_of_cons. split; intros [H|H]; simplify_eq; auto.
  - split; [by right|by intros [H|H]].
Qed.

Lemma candidate_spec buy i s c : candidate buy i s = Some c ->
  c_index c = i /\ c_landed_cost c = landed buy s /\ c_match_price c = o_price_per_kwh s
  /\ MIN_TRADE_AMOUNT <= unfilled s /\ landed buy s <= o_price_per_kwh buy.
Proof.
  unfold candidate, landed. intros H.
  destruct (unfilled s <? MIN_TRADE_AMOUNT) eqn:E1; [done|]. cbv zeta in H.
  match type of H with (if ?b then _ else _) = _ => destruct b eqn:E2 end; [|done].
  to_prop. by simplify_eq/=.
Qed.

Lemma candidates_elem buy sells c : c ∈ candidates buy sells
  <-> exists i s, sells !! i = Some s /\ candidate buy i s = Some c.
Proof. unfold candidates. by rewrite sort_by_perm, all_candidates_elem. Qed.

Context (d0 : Db).
Definition buys0 : list TradingOrderDb := open_orders Buy oldest_first d0.
Definition sells0 : list TradingOrderDb := open_orders Sell cheapest_first d0.

(** A deal of the cycle: an open buy order, an open sell order whose landed cost the buyer
    accepts, a positive amount. *)
Definition deal_ok (x : Deal) : Prop :=
  dl_buy x ∈ buys0 /\ dl_sell x ∈ sells0 /\ 0 < dl_amount x /\ (G8 | dl_amount x)
  /\ landed (dl_buy x) (dl_sell x) <= o_price_per_kwh (dl_buy x).

Record deals_ok (deals : list Deal) : Prop := {
  deals_each : Forall deal_ok deals;
  deals_buys : forall b, b ∈ buys0 -> bought deals (o_id b) <= o_energy_amount b - filled b;
  deals_sells : forall s, s ∈ sells0 -> sold deals (o_id s) <= o_energy_amount s - filled s;
}.

(** The engine's variables after [deals], with the buy orders [rest] still to come. *)
Record cycle_ok (rest : list TradingOrderDb) (deals : list Deal) (cy : Cycle) : Prop := {
  cycle_deals : deals_ok deals;
  cycle_sells : Forall2 (sell_rel deals) sells0 (cy_sells cy);
  cycle_count : cy_matches cy = length deals;
  cycle_volume : cy_volume cy = volume deals;
  cycle_sum : volume deals = sumZ filled (cy_sells cy) - sumZ filled sells0;
  cycle_rest : forall b, b ∈ rest -> bought deals (o_id b) = 0;
}.

Record fill_of (b : TradingOrderDb) (rest : list TradingOrderDb) (deals : list Deal) (f : Fill)
    : Prop := {
  fill_cycle : cycle_ok rest deals (f_cycle f);
  fill_filled : f_filled f = filled b + bought deals (o_id b);
  fill_remaining : f_remaining f = o_energy_amount b - f_filled f;
}.

(** ** The rows of the beginning *)

Hypothesis rows : rows_ok d0.

Lemma order_rows_ok o : o ∈ order_rows d0 -> orders d0 !! o_id o = Some o /\ row_ok o.
Proof. intros (id & Ho)%elem_of_values. destruct (rows id o Ho) as [Hid ?]. by rewrite Hid. Qed.

Lemma open_orders_elem side le o :
  o ∈ open_orders side le d0 -> o ∈ order_rows d0 /\ o_side o = side /\ is_open o = true.
Proof.
  unfold open_orders. rewrite sort_by_perm. intros H%list_elem_of_In.
  apply List.filter_In in H as [H1 H2]. to_prop. rewrite bool_decide_eq_true in *.
  by apply list_elem_of_In in H1.
Qed.

Lemma open_order_row side le o :
  o ∈ open_orders side le d0 -> orders d0 !! o_id o = Some o /\ row_ok o.
Proof. intros [H _]%open_orders_elem. by apply order_rows_ok. Qed.

Lemma order_rows_nodup : NoDup (o_id <$> order_rows d0).
Proof.
  unfold order_rows. rewrite <- list_fmap_compose.
  rewrite (list_fmap_ext _ fst (map_to_list (orders d0))); [apply NoDup_fst_map_to_list|].
  intros i [id o] Hi. apply list_elem_of_lookup_2, elem_of_map_to_list in Hi. simpl.
  by destruct (rows id o Hi).
Qed.

Lemma open_orders_nodup side le : NoDup (o_id <$> open_orders side le d0).
Proof.
  unfold open_orders. rewrite sort_by_perm. apply NoDup_fmap_filter, order_rows_nodup.
Qed.

(** Two open orders with the same id are the same order. *)
Lemma open_orders_same side le side' le' o o' :
  o ∈ open_orders side le d0 -> o' ∈ open_orders side' le' d0 -> o_id o = o_id o' -> o = o'.
Proof.
  intros [H _]%open_order_row [H' _]%open_order_row E. rewrite E, H' in H. by simplify_eq.
Qed.

(** ** One deal more *)

Lemma deal_amounts deals : Forall deal_ok deals ->
  Forall (fun x => (G8 | dl_amount x) /\ 0 <= dl_amount x) deals.
Proof. apply Forall_impl. intros x (_ & _ & ? & ? & _). split; [done|lia]. Qed.

Lemma sold_grid deals id : Forall deal_ok deals -> (G8 | sold deals id) /\ 0 <= sold deals id.
Proof.
  intros H%deal_amounts. split; [apply sumZ_divide|apply sumZ_nonneg];
    (eapply list.Forall_impl; [exact H|]); intros x [? ?]; simpl;
    destruct (_ =? _)%N; auto using Z.divide_0_r; lia.
Qed.

Lemma bought_grid deals id : Forall deal_ok deals -> (G8 | bought deals id) /\ 0 <= bought deals id.
Proof.
  intros H%deal_amounts. split; [apply sumZ_divide|apply sumZ_nonneg];
    (eapply list.Forall_impl; [exact H|]); intros x [? ?]; simpl;
    destruct (_ =? _)%N; auto using Z.divide_0_r; lia.
Qed.

(** What an order still lacks, as the code computes it. *)
Lemma remaining_exact e f :
  (G8 | e) -> (G8 | f) -> 0 <= f <= e -> e <= 10 ^ 12 * U -> dsub e f = e - f /\ (G8 | e - f).
Proof.
  intros Ge Gf Hf He. assert (G : (G8 | e - f)) by (by apply Z.divide_sub_r).
  split; [|done]. apply dsub_exact, repr_8; [done|]. unfold U in *. lia.
Qed.

Lemma sum_exact a b m : (G8 | a) -> (G8 | b) -> 0 <= a -> 0 <= b -> a + b <= m ->
  m <= 10 ^ 20 * U -> dadd a b = a + b.
Proof. intros. apply dadd_exact, repr_8; [by apply Z.divide_add_r|lia]. Qed.

(** The sell order behind a candidate, and its counterpart at the beginning. *)
Lemma sell_lookup rest deals cy i s : cycle_ok rest deals cy -> cy_sells cy !! i = Some s ->
  exists s0, sells0 !! i = Some s0 /\ s0 ∈ sells0 /\ row_ok s0 /\ sell_rel deals s0 s
    /\ (G8 | filled s) /\ 0 <= filled s <= o_energy_amount s0.
Proof.
  intros [Hd Hs _ _ _ _] Hi. destruct (Forall2_lookup_r _ _ _ _ _ Hs Hi) as (s0 & H0 & Hr).
  assert (Hin : s0 ∈ sells0) by (by eapply list_elem_of_lookup_2).
  destruct (open_order_row _ _ _ Hin) as [_ Hrow]. exists s0. split_and!; try done;
    destruct Hr as [_ ->], Hrow as (_ & _ & _ & Gf & Hf), Hd as [He _ Hsl];
    destruct (sold_grid deals (o_id s0) He) as [Gs Ps]; [by apply Z.divide_add_r|lia|].
  specialize (Hsl s0 Hin). lia.
Qed.

Lemma volume_bound rest deals cy : cycle_ok rest deals cy ->
  sumZ filled (cy_sells cy) <= sumZ o_energy_amount sells0 /\ 0 <= sumZ filled sells0.
Proof.
  intros C. split.
  - apply sumZ_Forall2, Forall2_same_length_lookup_2; [by eapply Forall2_length, cycle_sells|].
    intros i s0 s H0 Hs. destruct (sell_lookup _ _ _ _ _ C Hs) as (s1 & H1 & _ & _ & _ & _ & Hb).
    simplify_eq. lia.
  - apply sumZ_nonneg, list.Forall_forall. intros s Hs.
    destruct (open_order_row _ _ _ Hs) as [_ (_ & _ & _ & _ & ?)]. lia.
Qed.

Hypothesis bounded : sumZ o_energy_amount sells0 <= 10 ^ 20 * U.

(** The sells after one more deal with the sell order at [i]. *)
Lemma sells_step deals sells i s0 s amount b st :
  Forall2 (sell_rel deals) sells0 sells -> sells0 !! i = Some s0 -> sells !! i = Some s ->
  let x := {| dl_buy := b; dl_sell := s0; dl_amount := amount |} in
  Forall2 (sell_rel (x :: deals)) sells0
    (<[i := set_order_fill (Some (filled s + amount)) st s]> sells).
Proof.
  intros Hs H0 Hi x. apply Forall2_same_length_lookup_2.
  { rewrite length_insert. by eapply Forall2_length. }
  intros j a a' Ha Ha'.
  assert (Nd : NoDup (o_id <$> sells0)) by apply open_orders_nodup.
  destruct (decide (j = i)) as [->|Hj].
  - rewrite list_lookup_insert_eq in Ha' by (by eapply lookup_lt_Some). simplify_eq.
    destruct (Forall2_lookup_lr _ _ _ _ _ _ Hs H0 Hi) as [Hst Hf]. split; [done|].
    unfold x. rewrite sold_cons, N.eqb_refl. unfold filled in *. cbn. lia.
  - rewrite list_lookup_insert_ne in Ha' by done.
    destruct (Forall2_lookup_lr _ _ _ _ _ _ Hs Ha Ha') as [Hst Hf]. split; [done|].
    unfold x. rewrite Hf, sold_cons. destruct (o_id s0 =? o_id a)%N eqn:E; [|lia]. to_prop. exfalso.
    apply Hj. eapply NoDup_lookup; [exact Nd|rewrite list_lookup_fmap, Ha; done|].
    rewrite list_lookup_fmap, H0. simpl. by rewrite E.
Qed.

(** The deals stay within both orders. *)
Lemma deals_step deals b s0 amount :
  deals_ok deals -> b ∈ buys0 -> s0 ∈ sells0 -> 0 < amount -> (G8 | amount) ->
  landed b s0 <= o_price_per_kwh b ->
  bought deals (o_id b) + amount <= o_energy_amount b - filled b ->
  sold deals (o_id s0) + amount <= o_energy_amount s0 - filled s0 ->
  deals_ok ({| dl_buy := b; dl_sell := s0; dl_amount := amount |} :: deals).
Proof.
  intros [He Hb Hs] Inb Ins Ha Ga Hl Bb Bs. constructor.
  - by constructor.
  - intros b' Hb'. specialize (Hb b' Hb'). rewrite bought_cons. destruct (o_id b =? o_id b')%N eqn:E; [|lia].
    to_prop. assert (b' = b) as -> by (eapply open_orders_same; eauto). lia.
  - intros s' Hs'. specialize (Hs s' Hs'). rewrite sold_cons. destruct (o_id s0 =? o_id s')%N eqn:E; [|lia].
    to_prop. assert (s' = s0) as -> by (eapply open_orders_same; eauto). lia.
Qed.

(** The engine's variables after the deal. *)
Lemma fill_step b rest deals f i s0 s amount :
  fill_of b rest deals f -> b ∈ buys0 -> o_id b ∉ (o_id <$> rest) ->
  sells0 !! i = Some s0 -> cy_sells (f_cycle f) !! i = Some s ->
  landed b s0 <= o_price_per_kwh b ->
  0 < amount -> (G8 | amount) -> amount <= f_remaining f ->
  amount <= o_energy_amount s0 - filled s ->
  let x := {| dl_buy := b; dl_sell := s0; dl_amount := amount |} in
  fill_of b rest (x :: deals)
    {| f_cycle := {| cy_sells := <[i := set_order_fill (Some (filled s + amount)) (o_status s) s]>
                       (cy_sells (f_cycle f));
                     cy_matches := S (cy_matches (f_cycle f));
                     cy_volume := dadd (cy_volume (f_cycle f)) amount |};
       f_filled := dadd (f_filled f) amount;
       f_remaining := dsub (f_remaining f) amount |}.
Proof.
  intros [C Hf Hr] Inb Hrest H0 Hi Hl Ha Ga Hab Has x.
  destruct (sell_lookup _ _ _ _ _ C Hi) as (s0' & H0' & Ins & Rs & [Hst Hfs] & Gs & Bs).
  simplify_eq. destruct (open_order_row _ _ _ Inb) as [_ (Ge & Be & Gp & Gf & Bf)].
  pose proof (volume_bound _ _ _ C) as [V1 V2].
  destruct C as [D S N V Sum R]. pose proof (deals_each _ D) as De.
  destruct (bought_grid deals (o_id b) De) as [Gb Pb].
  assert (Vg : (G8 | volume deals) /\ 0 <= volume deals).
  { split; [apply sumZ_divide|apply sumZ_nonneg]; (eapply list.Forall_impl; [by apply deal_amounts|]);
      by intros y [? ?]. }
  assert (Sum' : volume deals + amount
      = sumZ filled (<[i := set_order_fill (Some (filled s + amount)) (o_status s) s]>
                       (cy_sells (f_cycle f))) - sumZ filled sells0).
  { erewrite sumZ_insert by exact Hi. rewrite Sum.
    change (filled (set_order_fill (Some (filled s + amount)) (o_status s) s)) with (filled s + amount).
    lia. }
  pose proof (sells_step deals _ i s0 s amount b (o_status s) S H0 Hi) as S'.
  assert (C' : cycle_ok rest (x :: deals) {| cy_sells := <[i := set_order_fill (Some (filled s + amount)) (o_status s) s]>
                       (cy_sells (f_cycle f)); cy_matches := Datatypes.S (cy_matches (f_cycle f));
                     cy_volume := volume deals + amount |}).
  { constructor; simpl; [|exact S'|by f_equal|unfold x; rewrite volume_cons; lia|unfold x; rewrite volume_cons; lia|].
    - apply deals_step; auto; lia.
    - intros b' Hb'. unfold x. rewrite bought_cons, R by done. destruct (o_id b =? o_id b')%N eqn:E; [|lia]. to_prop.
      exfalso. apply Hrest. rewrite E. by apply list_elem_of_fmap_2. }
  assert (Ev : dadd (volume deals) amount = volume deals + amount).
  { apply volume_bound in C' as [V1' _]. simpl in V1'.
    apply (sum_exact _ _ (10 ^ 20 * U)); try apply Vg; auto; lia. }
  assert (Gfb : (G8 | filled b + bought deals (o_id b))) by (by apply Z.divide_add_r).
  assert (Ef : dadd (f_filled f) amount = f_filled f + amount).
  { rewrite Hf. apply (sum_exact _ _ (o_energy_amount b)); auto; [lia..|]. unfold U in *. lia. }
  assert (Er : dsub (f_remaining f) amount = f_remaining f - amount).
  { apply dsub_exact, repr_8; [|unfold U in *; lia]. rewrite Hr, Hf.
    repeat apply Z.divide_sub_r; auto. }
  constructor; cbn [f_cycle f_filled f_remaining].
  - by rewrite V, Ev.
  - unfold x. rewrite bought_cons, N.eqb_refl. lia.
  - lia.
Qed.
End book.

(** ** The loops *)

Section loops.
Context `{NUM : Numerics} `{F64 : DecimalFromF64} `{CH : Chain} `{ENV : Env}.
Context (engine : Engine) (config : SettlementConfig).
Context (new_match_id new_settlement_id new_trade_id : nat -> Uuid).
Context (d0 : Db) (rows : rows_ok d0).
Context (bounded : sumZ o_energy_amount (sells0 d0) <= 10 ^ 20 * U).

Definition no_epoch : failure := FMsg "Epoch ID required".

(** After [deals], with [rest] to come. *)
Definition filling (b : TradingOrderDb) (rest : list TradingOrderDb) (f : Fill) (d : Db) : Prop :=
  exists deals, fill_of d0 b rest deals f /\ dbinv d0 deals d.
Definition cycling (rest : list TradingOrderDb) (cy : Cycle) (d : Db) : Prop :=
  exists deals, cycle_ok d0 rest deals cy /\ dbinv d0 deals d.
Definition stopped (e : failure) (d : Db) : Prop :=
  e = no_epoch /\ exists deals, deals_ok d0 deals /\ dbinv d0 deals d.

Definition cand_ok (b : TradingOrderDb) (c : Candidate) : Prop :=
  exists s0, sells0 d0 !! c_index c = Some s0 /\ c_match_price c = o_price_per_kwh s0
    /\ landed b s0 <= o_price_per_kwh b.

Lemma match_candidate_spec now b rest c f :
  b ∈ buys0 d0 -> o_id b ∉ (o_id <$> rest) -> cand_ok b c -> 0 < f_remaining f ->
  hoare (filling b rest f)
    (match_candidate engine config new_match_id new_settlement_id new_trade_id now b c f)
    (filling b rest) stopped.
Proof.
  intros Inb Hrest (s0 & H0 & Hp & Hl) Hrem. apply hoare_exists. intros deals.
  apply hoare_pure. intros Hf. unfold match_candidate. pose proof (fill_cycle _ _ _ _ _ Hf) as C.
  destruct (cy_sells (f_cycle f) !! c_index c) as [s|] eqn:Hi; cycle 1.
  { exfalso. apply lookup_ge_None in Hi. apply lookup_lt_Some in H0.
    apply cycle_sells, Forall2_length in C. lia. }
  destruct (sell_lookup _ rows _ _ _ _ _ C Hi) as (s0' & H0' & Ins & Rs & [Hst Hfs] & Gs & Bs).
  rewrite H0 in H0'. apply (inj Some) in H0' as <-. destruct (static_eq _ _ Hst) as (Ei & Ee & _ & Ep & _).
  destruct Rs as (Ge & Be & Gp & _). rewrite Ee in *.
  destruct (remaining_exact (o_energy_amount s0) (filled s) Ge Gs Bs Be) as [Es Gr].
  cbv zeta. rewrite Es. destruct (_ <=? 0) eqn:E0; to_prop.
  { apply hoare_ret. intros d Hd. by exists deals. }
  set (amount := if _ <? _ then _ else _).
  assert (Ha : 0 < amount /\ (G8 | amount) /\ amount <= f_remaining f
               /\ amount <= o_energy_amount s0 - filled s).
  { destruct (fill_filled _ _ _ _ _ Hf), (open_order_row _ rows _ _ _ Inb) as [_ (Gb & _ & _ & Gfb & _)].
    assert (G8 | f_remaining f).
    { rewrite (fill_remaining _ _ _ _ _ Hf), (fill_filled _ _ _ _ _ Hf).
      apply Z.divide_sub_r; [done|]. apply Z.divide_add_r; [done|].
      apply (bought_grid _ deals (o_id b) (deals_each _ _ (cycle_deals _ _ _ _ C))). }
    unfold amount. destruct (_ <? _) eqn:El; to_prop; split_and!; auto; lia. }
  destruct Ha as (Ha & Ga & Hab & Has). clearbody amount.
  eapply hoare_bind with (R := fun _ => dbinv d0 deals).
  { apply hoare_expect. intros d Hd.
    destruct (o_epoch_id b); [done|]. destruct (o_epoch_id s); [done|].
    split; [done|]. exists deals. split; [by eapply cycle_deals|done]. }
  intros eid. rewrite Hp, Ei. set (x := {| dl_buy := b; dl_sell := s0; dl_amount := amount |}).
  eapply hoare_bind.
  { eapply hoare_attempt; [apply (create_order_match_spec engine d0 deals x); done|].
    by intros d [? _]. }
  intros [mid|e]; cycle 1.
  { apply hoare_ret. intros d (_ & _ & Hd). by exists deals. }
  assert (Ef : dadd (filled s) amount = filled s + amount).
  { apply (sum_exact _ _ (o_energy_amount s0)); auto; unfold U in *; lia. }
  rewrite Ef. eapply hoare_bind; [apply trigger_settlement_spec|]. intros [].
  eapply hoare_bind with (R := fun _ => dbinv d0 (x :: deals)).
  { apply hoare_ignore_exec. intros d Hd. split; [done|]. intros d' H.
    assert (Hv : forall o, orders d0 !! o_id s0 = Some o ->
      (G8 | filled s + amount) /\ 0 <= filled s + amount <= o_energy_amount o).
    { intros o Ho. destruct (open_order_row _ rows _ _ _ Ins) as [Ho' _]. simplify_eq.
      split; [by apply Z.divide_add_r|lia]. }
    eapply good_fill in H as [? ?]; [by eapply dbinv_good|exact Hv|apply Hd]. }
  intros []. apply hoare_ret. intros d Hd. exists (x :: deals). split; [|done].
  by apply fill_step.
Qed.

Lemma match_candidates_spec now b rest cs : forall f,
  b ∈ buys0 d0 -> o_id b ∉ (o_id <$> rest) -> Forall (cand_ok b) cs ->
  hoare (filling b rest f)
    (match_candidates engine config new_match_id new_settlement_id new_trade_id now b cs f)
    (filling b rest) stopped.
Proof.
  induction cs as [|c cs IH]; intros f Inb Hrest Hcs; simpl; [by apply hoare_ret|].
  inversion_clear Hcs. destruct (f_remaining f <=? 0) eqn:E; [by apply hoare_ret|]. to_prop.
  eapply hoare_bind; [by apply match_candidate_spec|]. intros f'. by apply IH.
Qed.

(** ** A buy order, and the cycle *)

Lemma cycle_weaken b rest deals cy : cycle_ok d0 (b :: rest) deals cy -> cycle_ok d0 rest deals cy.
Proof. intros [? ? ? ? ? R]. constructor; auto. intros b' H. apply R. by right. Qed.

Lemma candidates_ok deals b cy :
  Forall2 (sell_rel deals) (sells0 d0) (cy_sells cy) -> Forall (cand_ok b) (candidates b (cy_sells cy)).
Proof.
  intros Hs. apply list.Forall_forall. intros c (i & s & Hi & Hc)%candidates_elem.
  destruct (Forall2_lookup_r _ _ _ _ _ Hs Hi) as (s0 & H0 & Hst & _).
  apply candidate_spec in Hc as (<- & _ & Hp & _ & Hl). exists s0.
  destruct (static_eq _ _ Hst) as (_ & _ & _ & Ep & Ez & _). unfold landed in *.
  rewrite Ep, Ez in *. done.
Qed.

(** The market maker takes nothing or the whole remainder, and touches no table. *)
Lemma amm_spec (I : Db -> Prop) b remaining :
  hoare I (attempt_amm_match engine b remaining)
    (fun r d => I d /\ (r = 0 \/ r = remaining)) (fun e d => e <> FPanic /\ I d).
Proof.
  assert (Pk : forall t, hoare I (pubkey_from_str t) (fun _ => I) (fun e d => e <> FPanic /\ I d)).
  { intros t. unfold pubkey_from_str. destruct (parse_pubkey t); intros w Hw; simpl; auto. }
  unfold attempt_amm_match.
  repeat first
    [ match goal with |- hoare _ (if ?c then _ else _) _ _ => destruct c end
    | apply hoare_ret; by auto
    | intros w Hw; simpl; by auto
    | eapply hoare_bind with (R := fun _ => I);
        [solve [apply Pk | apply hoare_keeps; [eauto with gateway|];
                first [apply no_panic_chain_call | apply no_panic_query | by apply no_panic_expect]]
        |intros ?]
    | progress cbv zeta ].
Qed.

Lemma amm_fallback_spec deals b rest f status E :
  b ∈ buys0 d0 -> fill_of d0 b rest deals f -> 
  hoare (dbinv d0 deals) (amm_fallback engine b (f_filled f) (f_remaining f) status)
    (fun _ => dbinv d0 deals) E.
Proof.
  intros Inb [C Hf Hr]. destruct (open_order_row _ rows _ _ _ Inb) as [Ho (Ge & Be & _ & Gf & Bf)].
  pose proof (cycle_deals _ _ _ _ C) as D.
  destruct (bought_grid _ deals (o_id b) (deals_each _ _ D)) as [Gb Pb].
  pose proof (deals_buys _ _ D b Inb) as Bb.
  unfold amm_fallback. destruct (_ && _); [|by apply hoare_ret].
  eapply hoare_bind; [eapply hoare_attempt; [apply amm_spec|by intros d [? _]]|].
  intros [by_amm|e]; [|by apply hoare_ret; intros d (_ & _ & ?)].
  cbv zeta. apply hoare_conseq with (P' := fun d => (by_amm = 0 \/ by_amm = f_remaining f)
    /\ dbinv d0 deals d) (Q' := fun _ => dbinv d0 deals) (E' := E);
    [|by intros d [? ?]|done|done].
  apply hoare_pure. intros Ham.
  assert (Gt : (G8 | f_filled f)) by (rewrite Hf; by apply Z.divide_add_r).
  assert (Et : dadd (f_filled f) by_amm = f_filled f + by_amm).
  { apply (sum_exact _ _ (o_energy_amount b)); auto; try (unfold U in *; lia).
    destruct Ham as [->| ->]; [apply Z.divide_0_r|rewrite Hr; by apply Z.divide_sub_r]. }
  rewrite Et. apply hoare_ignore_exec. intros d Hd. split; [done|]. intros d' H.
  eapply good_fill in H as [? ?]; [by eapply dbinv_good| |apply Hd].
  intros o Ho'. simplify_eq. split; [|lia].
  destruct Ham as [->| ->]; [by rewrite Z.add_0_r|]. rewrite Hr.
  by replace (f_filled f + (o_energy_amount b - f_filled f)) with (o_energy_amount b) by lia.
Qed.

Lemma match_buy_spec now b rest cy :
  b ∈ buys0 d0 -> o_id b ∉ (o_id <$> rest) ->
  hoare (cycling (b :: rest) cy)
    (match_buy engine config new_match_id new_settlement_id new_trade_id now b cy)
    (cycling rest) stopped.
Proof.
  intros Inb Hrest. apply hoare_exists. intros deals. apply hoare_pure. intros C.
  destruct (open_order_row _ rows _ _ _ Inb) as [Ho (Ge & Be & _ & Gf & Bf)].
  destruct (remaining_exact _ _ Ge Gf Bf Be) as [Er Gr].
  unfold match_buy. cbv zeta. rewrite Er. destruct (_ <? MIN_TRADE_AMOUNT).
  { eapply hoare_bind with (R := fun _ => dbinv d0 deals).
    - destruct (0 <? _); [|by apply hoare_ret]. apply hoare_ignore_exec. intros d Hd.
      split; [done|]. intros d' H. eapply good_status in H as [? ?]; [by eapply dbinv_good|apply Hd].
    - intros []. apply hoare_ret. intros d Hd. exists deals. split; [by eapply cycle_weaken|done]. }
  eapply hoare_bind with (R := filling b rest).
  { eapply hoare_conseq; [apply match_candidates_spec with (b := b); try done| |done|done].
    - eapply candidates_ok, cycle_sells, C.
    - intros d Hd. exists deals. split; [|done].
      pose proof (cycle_rest _ _ _ _ C b ltac:(by left)) as H0.
      constructor; simpl; [by eapply cycle_weaken|lia|done]. }
  intros f. apply hoare_exists. intros deals'. apply hoare_pure. intros F.
  pose proof (cycle_deals _ _ _ _ (fill_cycle _ _ _ _ _ F)) as D.
  eapply hoare_bind with (R := fun _ => dbinv d0 deals').
  { apply hoare_ignore_exec. intros d Hd. split; [done|]. intros d' H.
    eapply good_fill in H as [? ?]; [by eapply dbinv_good| |apply Hd].
    intros o Ho'. simplify_eq. rewrite (fill_filled _ _ _ _ _ F).
    destruct (bought_grid _ deals' (o_id b) (deals_each _ _ D)) as [Gb Pb].
    pose proof (deals_buys _ _ D b Inb). split; [by apply Z.divide_add_r|lia]. }
  intros []. eapply hoare_bind; [by apply amm_fallback_spec with (rest := rest)|].
  intros []. apply hoare_ret. intros d Hd. exists deals'. split; [apply F|done].
Qed.

Lemma match_buys_spec now : forall buys cy,
  Forall (fun b => b ∈ buys0 d0) buys -> NoDup (o_id <$> buys) ->
  hoare (cycling buys cy)
    (match_buys engine config new_match_id new_settlement_id new_trade_id now buys cy)
    (cycling []) stopped.
Proof.
  induction buys as [|b buys IH]; intros cy Hin Hnd; simpl; [by apply hoare_ret|].
  inversion_clear Hin. apply list.NoDup_cons in Hnd as [Hb Hnd].
  eapply hoare_bind; [by apply match_buy_spec|]. intros cy'. by apply IH.
Qed.
End loops.

(** ** The order book of the engine *)

(** Order rows within the columns' range, and a total the engine can add up. *)
Definition book_ok (d : Db) : Prop :=
  rows_ok d /\ sumZ o_energy_amount (order_rows d) <= 10 ^ 20 * U.

Lemma row_energy_nonneg d : rows_ok d -> Forall (fun o => 0 <= o_energy_amount o) (order_rows d).
Proof.
  intros H. apply list.Forall_forall. intros o (id & Ho)%elem_of_values.
  destruct (H id o Ho) as (_ & _ & _ & _ & _ & ?). lia.
Qed.

Lemma book_bounded `{Numerics} d : book_ok d -> sumZ o_energy_amount (sells0 d) <= 10 ^ 20 * U.
Proof.
  intros [Hr Hs]. unfold sells0, open_orders. rewrite sort_by_perm.
  etransitivity; [|exact Hs]. by apply sumZ_filter_le, row_energy_nonneg.
Qed.

Lemma static_energy (m : gmap Uuid TradingOrderDb) :
  sumZ o_energy_amount (map_to_list m).*2
  = sumZ o_energy_amount (map_to_list (order_static <$> m)).*2.
Proof.
  rewrite map_to_list_fmap, <- list_fmap_compose.
  assert (H : forall l : list (Uuid * TradingOrderDb),
    sumZ o_energy_amount (l.*2) = sumZ o_energy_amount (((fun p => p.2) ∘ prod_map id order_static) <$> l)).
  { induction l as [|[i o] l IH]; [done|]. rewrite !fmap_cons. cbn [sumZ]. by rewrite IH. }
  apply H.
Qed.

Lemma good_book d0 d : book_ok d0 -> good_db d0 d -> book_ok d.
Proof.
  intros [Hr Hs] Hg. split; [by eapply good_rows_ok|].
  assert (E : order_static <$> orders d = order_static <$> orders d0).
  { apply map_eq. intros i. rewrite !lookup_fmap. apply Hg. }
  unfold order_rows in *. by rewrite static_energy, E, <- static_energy.
Qed.

Section cycle.
Context `{NUM : Numerics} `{F64 : DecimalFromF64} `{CH : Chain} `{ENV : Env}.
Context (engine : Engine) (config : SettlementConfig).
Context (new_match_id new_settlement_id new_trade_id : nat -> Uuid).

Lemma deals_ok_nil d0 : rows_ok d0 -> deals_ok d0 [].
Proof.
  intros H. constructor; [constructor|..]; intros o Ho;
    destruct (open_order_row _ H _ _ _ Ho) as [_ (_ & _ & _ & _ & ?)];
    unfold bought, sold; simpl; lia.
Qed.

Lemma cycle_ok_start d0 : rows_ok d0 ->
  cycle_ok d0 (buys0 d0) [] {| cy_sells := sells0 d0; cy_matches := 0; cy_volume := 0 |}.
Proof.
  intros H. constructor; simpl; try done.
  - by apply deals_ok_nil.
  - apply Forall2_same_length_lookup_2; [done|]. intros i s s' Hs Hs'. simplify_eq.
    split; [done|]. unfold sold. simpl. lia.
  - unfold volume. simpl. lia.
Qed.

Lemma recorded_nil d : recorded d [] d.
Proof. intros k. simpl. lia. Qed.

Lemma match_cycle_spec now d0 : book_ok d0 ->
  hoare (fun d => d = d0)
    (match_orders_cycle engine config new_match_id new_settlement_id new_trade_id now)
    (fun r d => exists deals, deals_ok d0 deals /\ dbinv d0 deals d
       /\ r = (length deals, volume deals))
    (fun e d => (e = FDb /\ d = d0) \/ stopped d0 e d).
Proof.
  intros Hbook. pose proof (book_bounded _ Hbook) as Hb. destruct Hbook as [Hr _].
  unfold match_orders_cycle.
  eapply hoare_bind with (R := fun buys d => buys = buys0 d0 /\ d = d0).
  { apply hoare_query. intros d ->. auto. }
  intros buys. apply hoare_pure. intros ->.
  eapply hoare_bind with (R := fun sells d => sells = sells0 d0 /\ d = d0).
  { apply hoare_query. intros d ->. auto. }
  intros sells. apply hoare_pure. intros ->.
  assert (Hnone : hoare (fun d => d = d0) (mret (0%nat, 0) : TM (nat * Decimal))
    (fun r d => exists deals, deals_ok d0 deals /\ dbinv d0 deals d /\ r = (length deals, volume deals))
    (fun e d => (e = FDb /\ d = d0) \/ stopped d0 e d)).
  { apply hoare_ret. intros d ->. exists []. split_and!; [by apply deals_ok_nil| |done].
    split; [by apply rows_ok_good|apply recorded_nil]. }
  pose proof (cycle_ok_start d0 Hr) as C.
  pose proof (match_buys_spec engine config new_match_id new_settlement_id new_trade_id d0 Hr Hb now
    (buys0 d0) {| cy_sells := sells0 d0; cy_matches := 0; cy_volume := 0 |}
    ltac:(by apply list.Forall_forall) ltac:(by apply open_orders_nodup)) as Hm.
  destruct (buys0 d0) as [|b bs] eqn:Eb; [exact Hnone|].
  destruct (sells0 d0) as [|s ss] eqn:Es; [exact Hnone|]. rewrite <- Eb, <- Es in *.
  eapply hoare_bind.
  - eapply hoare_conseq; [exact Hm| |done|by right]. intros d ->. exists []. split; [done|].
    split; [by apply rows_ok_good|apply recorded_nil].
  - intros cy. apply hoare_ret. intros d (deals & [D _ N V _ _] & Hd). exists deals.
    by rewrite N, V.
Qed.

(** C1: a cycle of the matching engine is a list of deals, whatever statements the
    database fails.  Each deal is between an open buy order and an open sell order whose
    landed cost the buyer accepts; over the cycle no order gets more than it lacked; the
    matches recorded are exactly the deals, at the seller's price; nothing of an order but
    fill and status changes.  When the cycle succeeds it reports number and volume of the
    deals exactly; it fails only when an order query failed (nothing happened) or when two
    orders without an epoch met. *)
Theorem cycle_refines_deals (now : DateTime) (w : world Db Event) :
  book_ok (st w) ->
  let '(r, w') := match_orders_cycle engine config new_match_id new_settlement_id new_trade_id now w in
  exists deals, deals_ok (st w) deals /\ good_db (st w) (st w') /\ recorded (st w) deals (st w')
    /\ match r with
       | Ok (n, v) => n = length deals /\ v = volume deals
       | Err e => e = no_epoch \/ (e = FDb /\ st w' = st w)
       end.
Proof.
  intros Hb. pose proof (match_cycle_spec now (st w) Hb w eq_refl) as H.
  destruct (match_orders_cycle _ _ _ _ _ _ _) as [[r|e] w'].
  - destruct H as (deals & D & [G R] & ->). exists deals. auto.
  - destruct H as [[-> ->]|[-> (deals & D & G & R)]].
    + exists []. destruct Hb as [Hr _]. split_and!; auto using deals_ok_nil, rows_ok_good, recorded_nil.
    + exists deals. auto.
Qed.

Lemma all_candidates_index buy sells : forall idx,
  NoDup (c_index <$> all_candidates buy idx sells)
  /\ Forall (fun c => (idx <= c_index c)%nat) (all_candidates buy idx sells).
Proof.
  induction sells as [|s sells IH]; intros idx; simpl; [split; constructor|].
  destruct (IH (S idx)) as [N F].
  assert (F' : Forall (fun c => (idx <= c_index c)%nat) (all_candidates buy (S idx) sells))
    by (eapply list.Forall_impl; [exact F|]; simpl; lia).
  destruct (candidate buy idx s) as [c|] eqn:Ec; [|done].
  apply candidate_spec in Ec as (Hi & _). split; [|constructor; [lia|done]].
  apply list.NoDup_cons. split; [|done]. intros (c' & E & Hc')%list_elem_of_fmap.
  rewrite list.Forall_forall in F. specialize (F c' Hc'). lia.
Qed.

(** C10: the sellers a buy order is offered are exactly the sell orders with at least 0.1 kWh
    left whose landed cost is within its price, each once, cheapest landed cost first. *)
Theorem candidates_cheapest (buy : TradingOrderDb) (sells : list TradingOrderDb) :
  let cs := candidates buy sells in
  Sorted.Sorted (rel landed_le) cs
  /\ NoDup (c_index <$> cs)
  /\ (forall i, (exists c, c ∈ cs /\ c_index c = i)
        <-> exists s, sells !! i = Some s /\ MIN_TRADE_AMOUNT <= unfilled s
             /\ landed buy s <= o_price_per_kwh buy)
  /\ (forall c s, c ∈ cs -> sells !! c_index c = Some s ->
        c_landed_cost c = landed buy s /\ c_match_price c = o_price_per_kwh s).
Proof.
  intros cs. split_and!.
  - apply sort_by_sorted. intros x y. unfold landed_le.
    destruct (Z.le_total (c_landed_cost x) (c_landed_cost y)); [left|right]; by apply Z.leb_le.
  - unfold cs, candidates. rewrite sort_by_perm. apply all_candidates_index.
  - intros i. split.
    + intros (c & (j & s & Hj & Hc)%candidates_elem & <-).
      apply candidate_spec in Hc as (<- & _ & _ & Hm & Hl). eauto.
    + intros (s & Hs & Hm & Hl).
      assert (Hc : exists c, candidate buy i s = Some c).
      { unfold candidate. unfold landed in Hl.
        destruct (unfilled s <? MIN_TRADE_AMOUNT) eqn:E1; to_prop; [lia|]. cbv zeta.
        apply Z.leb_le in Hl. rewrite Hl. eauto. }
      destruct Hc as [c Hc]. exists c. split; [|by apply candidate_spec in Hc as (? & _)].
      apply candidates_elem. eauto.
  - intros c s (j & s' & Hj & Hc)%candidates_elem Hs.
    apply candidate_spec in Hc as (<- & ? & ? & _). by simplify_eq.
Qed.
End cycle.

(** ** Witnesses *)
Section witnesses.
#[local] Existing Instance std_numerics.
#[local] Existing Instance std_from_f64.
#[local] Existing Instance demo_env.
#[local] Existing Instance chain_of_signatures.

Definition bare_engine : Engine :=
  {| en_market_clearing := true; en_websocket := false; en_settlement := false;
     en_blockchain := false |}.

(** A buyer of 10 kWh at 3.00 and a seller of 25 kWh at 2.00, in one zone. *)
Definition book_orders : list TradingOrderDb :=
  [demo_order 7 1 Buy (dec 10 0) (dec 3 0); demo_order 8 2 Sell (dec 25 0) (dec 2 0)].
Definition book_db : Db :=
  set_orders (list_to_map ((fun o => (o_id o, o)) <$> book_orders))
    (set_users {[1%N := demo_user]} (set_epochs {[9%N :=
      {| e_id := 9; e_epoch_number := 1; e_start_time := 0; e_end_time := 900;
         e_status := EpochActive; e_clearing_price := None; e_total_volume := None;
         e_total_orders := None; e_matched_orders := None |}]} empty_db)).
Definition book_world : world Db Event := World book_db [] [].

Definition cycle_at (first : N) (now : DateTime) : TM (nat * Decimal) :=
  match_orders_cycle bare_engine default_config (fun n => (first + N.of_nat n)%N)
    (fun n => (first + N.of_nat n)%N) (fun n => (first + N.of_nat n)%N) now.

Lemma book_row i user side e p : (G8 | e) -> 0 <= e -> e <= 10 ^ 12 * U -> (G8 | p) ->
  row_ok (demo_order i user side e p).
Proof.
  intros. unfold row_ok, fill_ok. cbn. unfold id. split_and!; auto; try lia. apply Z.divide_0_r.
Qed.

Lemma book_db_ok : book_ok book_db.
Proof.
  split.
  - apply map_Forall_insert_2; [|apply map_Forall_insert_2; [|apply map_Forall_empty]];
      (split; [reflexivity|]); apply book_row; try grid; vm_compute; discriminate.
  - vm_compute. discriminate.
Qed.

(** The cycle fills the buyer from the seller and reports it. *)
Lemma cycle_refines_deals_witness :
  exists deals, deals_ok book_db deals /\ length deals = 1%nat /\ volume deals = dec 10 0
    /\ recorded book_db deals (st (snd (cycle_at 100 5 book_world))).
Proof.
  pose proof (cycle_refines_deals bare_engine default_config (fun n => (100 + N.of_nat n)%N)
    (fun n => (100 + N.of_nat n)%N) (fun n => (100 + N.of_nat n)%N) 5 book_world book_db_ok) as H.
  assert (E : fst (cycle_at 100 5 book_world) = Ok (1%nat, dec 10 0))
    by (vm_compute; reflexivity).
  unfold cycle_at in *. destruct (match_orders_cycle _ _ _ _ _ _ _) as [r w'].
  cbn [fst snd] in *. subst r. destruct H as (deals & D & _ & R & Hn & Hv). exists deals.
  split_and!; [exact D|by symmetry|by symmetry|exact R].
Defined.
End witnesses.
