(* ===== verification/MatchingLifecycle.v ===== *)
(** Around the cycle: expiry of stale orders, orders the engine leaves behind, the order
    book over many turns, and starting and stopping the engine. *)
From S2P Require Import Prelude Numerics Errors Store Schema GridTopology Escrow Orders Settlement MatchingEngine MatchingTrades.

Open Scope string_scope.
Open Scope Z_scope.

(** ** Expiry *)

(** The rows of [d0] with the orders of [ids] expired. *)
Definition expired_in (ids : list Uuid) (d0 d : Db) : Prop :=
  forall id, orders d !! id
    = (fun o => if decide (id ∈ ids) then set_order_status Expired o else o) <$> orders d0 !! id.

Definition stale_orders (now : DateTime) (d : Db) : list TradingOrderDb :=
  List.filter (stale now) (order_rows d).

Section expiry.
Context `{NUM : Numerics}.
Context (engine : Engine).

Lemma expired_nil d : expired_in [] d d.
Proof.
  intros id. by destruct (orders d !! id).
Qed.

Lemma expired_snoc ids id d0 d d' :
  expired_in ids d0 d -> update_status id Expired d = Some d' ->
  expired_in (ids ++ [id])%list d0 d'.
Proof.
  intros H Hu i. specialize (H i) as Hi. unfold update_status, update_order in Hu.
  destruct (orders d !! id) as [o|] eqn:Eo; simplify_eq/=.
  - destruct (decide (i = id)) as [->|E].
    + rewrite lookup_insert_eq. rewrite Hi in Eo. destruct (orders d0 !! id) as [o0|]; [|done].
      cbn in *. apply (inj Some) in Eo. rewrite <- Eo.
      rewrite (decide_True (P := id ∈ (ids ++ [id])%list)) by (apply elem_of_app; right; by left).
      by case_decide.
    + rewrite lookup_insert_ne, Hi by done. destruct (orders d0 !! i); [|done]. simpl. f_equal.
      apply decide_ext. rewrite elem_of_app, list_elem_of_singleton. clear -E. tauto.
  - rewrite Hi. destruct (orders d0 !! i) as [o0|] eqn:E0; [|done]. simpl. f_equal.
    assert (E : i <> id) by (intros ->; rewrite Hi in Eo; done).
    apply decide_ext. rewrite elem_of_app, list_elem_of_singleton. clear -E. tauto.
Qed.

Lemma unlock_funds_no_panic u i a r : no_panic (unlock_funds u i a r).
Proof. apply no_panic_tx, no_panic_bind; intros; apply no_panic_exec. Qed.
Lemma unlock_energy_no_panic u i a r : no_panic (unlock_energy u i a r).
Proof. apply no_panic_tx, no_panic_bind; intros; apply no_panic_exec. Qed.

Lemma update_user_frame id f d d' : update_user id f d = Some d' ->
  orders d' = orders d /\ order_matches d' = order_matches d.
Proof.
  unfold update_user. destruct (users d !! id) as [u|]; [|by intros; simplify_eq].
  destruct (f u); intros; by simplify_eq/=.
Qed.

(** A refund touches users and escrow records only. *)
Lemma refund_frame (I : Db -> Prop) id f p r :
  (forall d d', orders d' = orders d -> order_matches d' = order_matches d -> I d -> I d') ->
  preserves (T := Event) I (with_tx (exec (update_user id f) ;; exec (release_escrow p r))).
Proof.
  intros HI. apply preserves_tx. intros w a w' Hw H. run_steps.
  match goal with H : update_user _ _ _ = Some _ |- _ => apply update_user_frame in H as [? ?] end.
  match goal with H : release_escrow _ _ _ = Some ?x |- _ =>
    unfold release_escrow in H; injection H as H end.
  eapply HI; [..|exact Hw]; norm_st;
    match goal with H : set_escrow _ _ = st w' |- _ => rewrite <- H end; simpl; congruence.
Qed.

Lemma release_expired_frame (I : Db -> Prop) o E :
  (forall d d', orders d' = orders d -> order_matches d' = order_matches d -> I d -> I d') ->
  hoare I (release_expired engine o) (fun _ => I) E.
Proof.
  intros HI. unfold release_expired. destruct (en_market_clearing engine); [|by apply hoare_ret].
  cbv zeta. destruct (0 <? unfilled o); [|by apply hoare_ret].
  destruct (o_side o); (apply hoare_ignore; [by apply refund_frame|]);
    [apply unlock_funds_no_panic|apply unlock_energy_no_panic].
Qed.

Lemma expire_spec now d0 :
  hoare (fun d => d = d0) (expire_stale_orders engine now)
    (fun n d => n = length (stale_orders now d0)
       /\ expired_in (o_id <$> stale_orders now d0) d0 d)
    (fun e d => e = FDb /\ exists done todo, stale_orders now d0 = (done ++ todo)%list
       /\ expired_in (o_id <$> done) d0 d).
Proof.
  unfold expire_stale_orders.
  eapply hoare_bind with (R := fun l d => l = stale_orders now d0 /\ expired_in (o_id <$> []) d0 d).
  { apply hoare_query. intros d ->. split; [split; [done|apply expired_nil]|].
    split; [done|]. exists [], (stale_orders now d0). split; [done|apply expired_nil]. }
  intros l. apply hoare_pure. intros ->.
  eapply hoare_bind with (R := fun _ d => expired_in (o_id <$> stale_orders now d0) d0 d);
    [|intros []; by apply hoare_ret].
  apply (hoare_for_each (fun done d => expired_in (o_id <$> done) d0 d)).
  intros done o todo Hl. unfold expire_order.
  eapply hoare_bind with (R := fun _ d => expired_in (o_id <$> (done ++ [o])%list) d0 d).
  - apply hoare_exec. intros d Hd. split; [split; [reflexivity|by eauto]|].
    intros d' Hu. rewrite fmap_app. by eapply expired_snoc.
  - intros []. apply release_expired_frame. intros d d' Ho _ Hd id. by rewrite Ho.
Qed.

(** C11: expiry is exact, whatever statements the database fails: the only rows that change
    are stale orders, which become expired.  When it returns [n], there were [n] stale orders
    and none is left. *)
Theorem expire_outcome (now : DateTime) (w : world Db Event) :
  rows_ok (st w) ->
  let '(r, w') := expire_stale_orders engine now w in
  exists ids, expired_in ids (st w) (st w') /\ ids ⊆ (o_id <$> stale_orders now (st w))
    /\ match r with
       | Ok n => n = length (stale_orders now (st w)) /\ stale_orders now (st w') = []
       | Err e => e = FDb
       end.
Proof.
  intros Hr. pose proof (expire_spec now (st w) w eq_refl) as H.
  destruct (expire_stale_orders engine now w) as [[n|e] w'].
  - destruct H as [-> H]. eexists. split; [exact H|]. split; [done|]. split; [done|].
    apply filter_none. intros o (id & Ho)%elem_of_values. rewrite (H id) in Ho.
    destruct (orders (st w) !! id) as [o0|] eqn:E0; simplify_eq/=.
    destruct (Hr id o0 E0) as [Hid _]. case_decide as Hin; [done|].
    apply not_true_is_false. intros Hst. apply Hin. apply list_elem_of_fmap. exists o0.
    split; [done|]. apply list_elem_of_In, List.filter_In. split; [|done].
    apply list_elem_of_In, elem_of_values. by exists id.
  - destruct H as (-> & done & todo & Hl & H). exists (o_id <$> done). split; [done|].
    split; [|done]. intros x Hx. rewrite Hl, fmap_app, elem_of_app. by left.
Qed.

(** Expiring orders gives nothing away and takes nothing: whatever the database fails,
    every user owns afterwards, free and locked together, what they owned before. *)
Theorem expire_conserves (A : Uuid -> Z) (now : DateTime) (w : world Db Event) :
  ledger A (st w) ->
  Forall (fun o => (G8 | unfilled o) /\ (G8 | dmul (unfilled o) (o_price_per_kwh o)))
    (stale_orders now (st w)) ->
  ledger A (st (snd (expire_stale_orders engine now w))).
Proof.
  intros HA Hg. assert (H : hoare (fun d => stale_orders now d = stale_orders now (st w) /\ ledger A d)
    (expire_stale_orders engine now) (fun _ => ledger A) (fun _ => ledger A)).
  { unfold expire_stale_orders.
    eapply hoare_bind with (R := fun l d => l = stale_orders now (st w) /\ ledger A d).
    { apply hoare_query. intros d [Hs Hd]. done. }
    intros l. apply hoare_pure. intros ->.
    eapply hoare_bind with (R := fun _ => ledger A); [|intros []; by apply hoare_ret].
    apply (hoare_for_each (fun _ => ledger A)). intros done o todo Hl.
    rewrite Hl in Hg. apply Forall_app in Hg as [_ [[G1 G2] _]%list.Forall_cons].
    apply hoare_preserves; [|done]. unfold expire_order. apply preserves_bind.
    { apply preserves_exec. intros d d' Hd Hu%update_order_users. by eapply ledger_users. }
    intros []. unfold release_expired. destruct (en_market_clearing engine); [|apply preserves_ret].
    cbv zeta. destruct (0 <? unfilled o); [|apply preserves_ret].
    destruct (o_side o); apply preserves_ignore;
      [apply (run_op_ledger A (OpUnlockFunds _ _ _ _)); exact G2
      |apply (run_op_ledger A (OpUnlockEnergy _ _ _ _)); exact G1]. }
  specialize (H w (conj eq_refl HA)). by destruct (expire_stale_orders engine now w) as [[]].
Qed.
End expiry.

(** ** Many turns *)

Section turns.
Context `{NUM : Numerics} `{F64 : DecimalFromF64} `{CH : Chain} `{ENV : Env}.
Context (engine : Engine) (config : SettlementConfig).

(** The clock and the fresh identifiers of one turn of the loop. *)
Record Turn := {
  turn_now : DateTime;
  turn_match_id : nat -> Uuid;
  turn_settlement_id : nat -> Uuid;
  turn_trade_id : nat -> Uuid;
}.

Definition run_turn (t : Turn) : TM unit :=
  matching_turn engine config (turn_match_id t) (turn_settlement_id t) (turn_trade_id t)
    (turn_now t).

Lemma expired_book ids d0 d : book_ok d0 -> expired_in ids d0 d -> book_ok d.
Proof.
  intros Hb He. apply (good_book d0); [done|]. destruct Hb as [Hr _]. split.
  - intros id. rewrite (He id). destruct (orders d0 !! id) as [o|]; [|done]. simpl.
    by case_decide.
  - intros id o Ho. rewrite (He id) in Ho. destruct (orders d0 !! id) as [o0|] eqn:E0; [|done].
    cbn in Ho. apply (inj Some) in Ho. destruct (Hr id o0 E0) as (_ & _ & _ & _ & Hf).
    subst o. by case_decide.
Qed.

Lemma expire_book now : preserves book_ok (expire_stale_orders engine now).
Proof.
  intros w Hb. pose proof (expire_spec engine now (st w) w eq_refl) as H.
  destruct (expire_stale_orders engine now w) as [[n|e] w']; simpl.
  - destruct H as [_ H]. by eapply expired_book.
  - destruct H as (_ & done & todo & _ & H). by eapply expired_book.
Qed.

Lemma cycle_book f g h now : preserves book_ok (match_orders_cycle engine config f g h now).
Proof.
  intros w Hb. pose proof (match_cycle_spec engine config f g h now (st w) Hb w eq_refl) as H.
  destruct (match_orders_cycle engine config f g h now w) as [[r|e] w']; simpl.
  - destruct H as (deals & _ & [G _] & _). by eapply good_book.
  - destruct H as [[_ ->]|[_ (deals & _ & G & _)]]; [done|]. by eapply good_book.
Qed.

(** C6: the engine keeps the order book well formed: after any number of turns of the
    matching loop, at whatever times and whatever statements the database fails, every order
    row still has its energy and price, and a fill between zero and its energy. *)
Theorem turns_keep_book (turns : list Turn) (w : world Db Event) :
  book_ok (st w) -> book_ok (st (snd (for_each run_turn turns w))).
Proof.
  apply (preserves_for_each book_ok). intros t. unfold run_turn, matching_turn.
  apply preserves_bind; [apply preserves_ignore, expire_book|].
  intros []. apply preserves_ignore, cycle_book.
Qed.

(** ** Orders the engine leaves behind *)

Lemma exec_run f (w : world Db Event) d' : faults w = [] -> f (st w) = Some d' ->
  exec f w = (Ok tt, set_st d' w).
Proof. intros Hf H. unfold exec, pop_fault. rewrite Hf. by rewrite H. Qed.

Lemma ignore_exec_run f (w : world Db Event) d' : faults w = [] -> f (st w) = Some d' ->
  ignore (exec f) w = (Ok tt, set_st d' w).
Proof.
  intros Hf H. unfold ignore, attempt, mbind, M_bind. by rewrite (exec_run f w d').
Qed.

Definition not_cancellable : failure := FApi (BadRequest "Order cannot be cancelled").

(** An order in a state [cancel_order] does not list cannot be cancelled by its owner. *)
Lemma cancel_refused o w :
  faults w = [] -> orders (st w) !! o_id o = Some o ->
  o_status o <> Pending -> o_status o <> PartiallyFilled ->
  cancel_order (o_id o) (o_user_id o) w = (Err not_cancellable, w).
Proof.
  intros Hf Ho Hp Hpf. unfold cancel_order, mbind, M_bind, query, pop_fault. rewrite Hf, Ho.
  rewrite N.eqb_refl. simpl. rewrite bool_decide_eq_false_2 by (intros [?|?]; auto). done.
Qed.

Lemma amm_off : en_blockchain engine = false -> forall b x r s (w : world Db Event),
  amm_fallback engine b x r s w = (Ok tt, w).
Proof.
  intros Hb b x r s w. unfold amm_fallback. destruct (_ && _); [|done].
  unfold attempt_amm_match. by rewrite Hb.
Qed.

(** A new buy order that nobody can serve becomes [active] in its first cycle, with a
    healthy database; from then on its owner cannot cancel it, and it is in no order book. *)
Theorem unmatched_order_stuck (f g h : nat -> Uuid) (now : DateTime) (b : TradingOrderDb)
    (cy : Cycle) (w : world Db Event) :
  faults w = [] -> en_blockchain engine = false ->
  orders (st w) !! o_id b = Some b -> row_ok b -> filled b = 0 ->
  MIN_TRADE_AMOUNT <= o_energy_amount b -> candidates b (cy_sells cy) = [] ->
  let '(r, w') := match_buy engine config f g h now b cy w in
  let b' := set_order_fill (Some 0) Active b in
  r = Ok cy /\ orders (st w') !! o_id b = Some b'
  /\ cancel_order (o_id b) (o_user_id b) w' = (Err not_cancellable, w')
  /\ forall epoch, in_book epoch Buy b' = false.
Proof.
  intros Hf Hbc Ho (Ge & Be & _ & Gf & Bf) H0 Hmin Hc.
  destruct (remaining_exact _ _ Ge Gf Bf Be) as [Er _]. unfold match_buy.
  rewrite Hc, Er, H0, Z.sub_0_r. cbv zeta.
  destruct (o_energy_amount b <? MIN_TRADE_AMOUNT) eqn:E1; to_prop; [lia|].
  assert (Hpos : 0 < o_energy_amount b) by (unfold MIN_TRADE_AMOUNT, dec in *; lia).
  cbn [match_candidates].
  assert (Hu : update_fill (o_id b) (Some 0) Active (st w)
    = Some (set_orders (<[o_id b := set_order_fill (Some 0) Active b]> (orders (st w))) (st w))).
  { unfold update_fill, update_order. rewrite Ho. simpl.
    rewrite num8_grid; [done|apply Z.divide_0_r|unfold U; lia]. }
  rewrite (bind_run (mret _) _ w _ w eq_refl). cbn [f_filled f_remaining f_cycle].
  destruct (o_energy_amount b <=? 0) eqn:E3; to_prop; [lia|]. change (0 <? 0) with false.
  rewrite (bind_run _ _ w _ _ (ignore_exec_run _ w _ Hf Hu)).
  rewrite (bind_run _ _ _ _ _ (amm_off Hbc _ _ _ _ _)).
  set (b' := set_order_fill (Some 0) Active b). set (w' := set_st _ w).
  assert (Ho' : orders (st w') !! o_id b = Some b') by apply lookup_insert_eq.
  split_and!; [done|done| |by intros epoch; unfold in_book].
  by apply (cancel_refused b' w').
Qed.

(** The remainder of a buy order that has less than 0.1 kWh left is cancelled without a
    refund, with a healthy database: no account and no escrow record changes, and the owner
    can no longer cancel it to get the money back. *)
Theorem dust_order_unrefunded (f g h : nat -> Uuid) (now : DateTime) (b : TradingOrderDb)
    (cy : Cycle) (w : world Db Event) :
  faults w = [] -> orders (st w) !! o_id b = Some b ->
  0 < unfilled b < MIN_TRADE_AMOUNT ->
  let '(r, w') := match_buy engine config f g h now b cy w in
  r = Ok cy /\ orders (st w') !! o_id b = Some (set_order_status Cancelled b)
  /\ users (st w') = users (st w) /\ escrow_records (st w') = escrow_records (st w)
  /\ cancel_order (o_id b) (o_user_id b) w' = (Err not_cancellable, w').
Proof.
  intros Hf Ho [H0 H1]. unfold match_buy. cbv zeta. fold (unfilled b).
  destruct (unfilled b <? MIN_TRADE_AMOUNT) eqn:E1; to_prop; [|lia].
  destruct (0 <? unfilled b) eqn:E2; to_prop; [|lia].
  assert (Hu : update_status (o_id b) Cancelled (st w)
    = Some (set_orders (<[o_id b := set_order_status Cancelled b]> (orders (st w))) (st w))).
  { unfold update_status, update_order. by rewrite Ho. }
  rewrite (bind_run _ _ w _ _ (ignore_exec_run _ w _ Hf Hu)).
  assert (Ho' : orders (st (set_st (set_orders (<[o_id b := set_order_status Cancelled b]>
    (orders (st w))) (st w)) w)) !! o_id b = Some (set_order_status Cancelled b))
    by apply lookup_insert_eq.
  split_and!; [done..|]. by apply (cancel_refused (set_order_status Cancelled b)).
Qed.
End turns.

(** ** Starting and stopping

    [start] sets the flag and spawns a loop afterwards; every loop looks at the flag between
    two turns.  [Service] is the flag, the callers between the two steps of [start], and the
    running loops with the point each has reached.  Any of them may take the next step. *)
Module Lifecycle.

Inductive LoopPoint := AtCheck | AtTurn | AtSleep.

Record Service := {
  running : bool;
  starting : nat;
  loops : list LoopPoint;
}.

Definition new_engine : Service := {| running := false; starting := 0; loops := [] |}.

Inductive Action :=
| Start            (* a call of [start] takes the lock *)
| Spawn            (* a call of [start] that set the flag spawns its loop *)
| Stop             (* a call of [stop] *)
| Advance (i : nat). (* loop [i] goes on *)

Definition start (s : Service) : Service :=
  if running s then s
  else {| running := true; starting := S (starting s); loops := loops s |}.

Definition stop (s : Service) : Service :=
  {| running := false; starting := starting s; loops := loops s |}.

(** [run_matching_loop] from one point to the next; [None]: the loop has ended. *)
Definition run_matching_loop (flag : bool) (p : LoopPoint) : option LoopPoint :=
  match p with
  | AtCheck => if flag then Some AtTurn else None
  | AtTurn => Some AtSleep
  | AtSleep => Some AtCheck
  end.

Definition step (s : Service) (a : Action) : option Service :=
  match a with
  | Start => Some (start s)
  | Stop => Some (stop s)
  | Spawn =>
      match starting s with
      | O => None
      | S n => Some {| running := running s; starting := n; loops := loops s ++ [AtCheck] |}
      end
  | Advance i =>
      p ← loops s !! i;
      Some {| running := running s; starting := starting s;
              loops := match run_matching_loop (running s) p with
                       | Some p' => <[i := p']> (loops s)
                       | None => remove_nth i (loops s)
                       end |}
  end.

(** The states a history of actions leads to. *)
Inductive reachable : list Action -> Service -> Prop :=
| reach_new : reachable [] new_engine
| reach_step h s a s' : reachable h s -> step s a = Some s' -> reachable (a :: h) s'.

Definition stops (h : list Action) : nat :=
  length (List.filter (fun a => match a with Stop => true | _ => false end) h).
Definition live (s : Service) : nat := starting s + length (loops s).

(** What a step does to the number of loops. *)
Lemma step_live s a s' : step s a = Some s' ->
  match a with
  | Start => running s' = true /\ live s' = if running s then live s else S (live s)
  | Spawn => running s' = running s /\ live s' = live s
  | Stop => running s' = false /\ live s' = live s
  | Advance _ => running s' = running s
      /\ (live s' = live s \/ (running s = false /\ S (live s') = live s))
  end.
Proof.
  unfold live. destruct a; simpl; intros H.
  - simplify_eq. unfold start. destruct (running s) eqn:E; by rewrite ?E.
  - destruct (starting s) eqn:E; simplify_eq/=. rewrite length_app. simpl. split; [done|lia].
  - by simplify_eq.
  - destruct (loops s !! i) as [p|] eqn:Ei; simplify_eq/=. split; [done|].
    destruct p; simpl; [destruct (running s)|..]; rewrite ?length_insert; auto.
    right. split; [done|]. apply lookup_lt_Some in Ei.
    pose proof (length_remove_nth (loops s) i Ei). lia.
Qed.

Lemma live_bounds h s : reachable h s ->
  (running s = true -> (1 <= live s)%nat)
  /\ (live s <= stops h + (if running s then 1 else 0))%nat.
Proof.
  induction 1 as [|h s a s' _ [IH1 IH2] Hs]; [unfold live; simpl; split; [done|lia]|].
  apply step_live in Hs. unfold stops in *. destruct a; simpl; destruct Hs as [-> Hl].
  - rewrite Hl. destruct (running s); split; intros; simpl in *; auto; lia.
  - rewrite Hl. auto.
  - rewrite Hl. split; [done|]. destruct (running s); simpl in *; lia.
  - destruct Hl as [->|[Hr Hl]]; [done|]. rewrite Hr in *. split; [done|simpl in *; lia].
Qed.

(** An engine that runs has a loop or is about to get one, and it never has more loops
    than one and one more per call of [stop]. The bound is reached: a stop and a start before
    the loop looks at the flag leave two loops matching the same book. *)
Theorem engine_loops :
  (forall h s, reachable h s ->
     (running s = true -> (1 <= live s)%nat) /\ (live s <= S (stops h))%nat)
  /\ exists s, reachable [Spawn; Start; Stop; Spawn; Start] s
       /\ running s = true /\ loops s = [AtCheck; AtCheck].
Proof.
  split.
  - intros h s H. apply live_bounds in H as [H1 H2]. split; [done|].
    destruct (running s); simpl in *; lia.
  - pose proof (reach_step _ _ Start _ reach_new eq_refl) as H1.
    pose proof (reach_step _ _ Spawn _ H1 eq_refl) as H2.
    pose proof (reach_step _ _ Stop _ H2 eq_refl) as H3.
    pose proof (reach_step _ _ Start _ H3 eq_refl) as H4.
    pose proof (reach_step _ _ Spawn _ H4 eq_refl) as H5.
    eexists. split; [exact H5|]. split; reflexivity.
Qed.

(** A stopped engine drains: with no further [start], the flag stays off, no loop is added
    beyond those already being started, and every loop that looks at the flag ends. *)
Theorem stopped_engine_drains (s : Service) :
  running s = false ->
  (forall a s', a <> Start -> step s a = Some s' -> running s' = false /\ (live s' <= live s)%nat)
  /\ (forall i, loops s !! i = Some AtCheck ->
        exists s', step s (Advance i) = Some s' /\ S (length (loops s')) = length (loops s)).
Proof.
  intros Hr. split.
  - intros a s' Ha Hs. apply step_live in Hs. destruct a; [done|..]; destruct Hs as [-> Hl];
      split; try done; lia.
  - intros i Hi. simpl. rewrite Hi. simpl. rewrite Hr. eexists. split; [reflexivity|]. simpl.
    apply length_remove_nth. by eapply lookup_lt_Some.
Qed.
End Lifecycle.

(** ** A lost update *)
Section examples.
#[local] Existing Instance std_numerics.
#[local] Existing Instance std_from_f64.
#[local] Existing Instance demo_env.
#[local] Existing Instance chain_of_signatures.

(** What the recorded matches sold to order [id]. *)
Definition bought_in_matches (id : Uuid) : Db -> Z :=
  tally (fun b _ a _ => if (b =? id)%N then a else 0).

(** Two turns of the engine on [book_db]; the failed statement is the fill update of the
    buy order in the first. *)
Definition two_cycles : TM (nat * Decimal) := cycle_at 100 5 ;; cycle_at 200 6.

(** A fill that fails to be stored is not noticed, and the order is filled again: one
    failing statement in a cycle that reports success, and the next cycle sells 10 kWh more
    to a buyer of 10 kWh. *)
Theorem lost_fill_overfills :
  let w := World book_db [false; false; false; false; true] [] in
  let '(r, w') := two_cycles w in
  r = Ok (1%nat, dec 10 0)
  /\ (o_energy_amount <$> orders (st w) !! 7%N) = Some (dec 10 0)
  /\ bought_in_matches 7 (st w') = dec 20 0.
Proof.
  intros w. destruct (two_cycles w) as [r w'] eqn:E.
  assert (Hr : fst (two_cycles w) = Ok (1%nat, dec 10 0)) by (vm_compute; reflexivity).
  assert (Hb : bought_in_matches 7 (st (snd (two_cycles w))) = dec 20 0) by (vm_compute; reflexivity).
  rewrite E in Hr, Hb. split_and!; [exact Hr|reflexivity|exact Hb].
Qed.

(** ** Witnesses *)

(** [book_db] with the seller's account, at a time when both orders have expired. *)
Definition late_world : world Db Event := World book_db [] [].

Lemma expire_outcome_witness :
  fst (expire_stale_orders bare_engine 2000 late_world) = Ok 2%nat
  /\ stale_orders 2000 (st (snd (expire_stale_orders bare_engine 2000 late_world))) = [].
Proof.
  pose proof (expire_outcome bare_engine 2000 late_world (proj1 book_db_ok)) as H.
  assert (E : fst (expire_stale_orders bare_engine 2000 late_world) = Ok 2%nat)
    by (vm_compute; reflexivity).
  split; [exact E|]. destruct (expire_stale_orders _ _ _) as [r w']. cbn [fst snd] in *.
  subst r. by destruct H as (_ & _ & _ & _ & H).
Defined.

Lemma expire_conserves_witness :
  ledger (account book_db) (st (snd (expire_stale_orders bare_engine 2000 late_world))).
Proof.
  apply (expire_conserves bare_engine (account book_db) 2000 late_world).
  - split; [|done]. apply map_Forall_singleton. split; [apply demo_user_wf|split; eauto].
  - replace (stale_orders 2000 (st late_world)) with (rev book_orders) by (vm_compute; reflexivity).
    unfold book_orders. cbn [rev app].
    repeat (constructor; [split; grid|]). constructor.
Defined.

Definition demo_turn : Turn :=
  {| turn_now := 5; turn_match_id n := (100 + N.of_nat n)%N;
     turn_settlement_id n := (100 + N.of_nat n)%N; turn_trade_id n := (100 + N.of_nat n)%N |}.

Lemma turns_keep_book_witness :
  book_ok (st (snd (for_each (run_turn bare_engine default_config) [demo_turn; demo_turn]
                      (World book_db [false; true] [])))).
Proof.
  apply (turns_keep_book bare_engine default_config [demo_turn; demo_turn]
           (World book_db [false; true] [])), book_db_ok.
Defined.

Definition lone_buy : TradingOrderDb := demo_order 7 1 Buy (dec 10 0) (dec 3 0).
Definition no_sells : Cycle := {| cy_sells := []; cy_matches := 0; cy_volume := 0 |}.
Definition lone_run := match_buy bare_engine default_config (fun _ => 1%N) (fun _ => 1%N)
  (fun _ => 1%N) 5 lone_buy no_sells book_world.

Lemma unmatched_order_stuck_witness :
  cancel_order 7 1 (snd lone_run) = (Err not_cancellable, snd lone_run).
Proof.
  pose proof (unmatched_order_stuck bare_engine default_config (fun _ => 1%N) (fun _ => 1%N)
    (fun _ => 1%N) 5 lone_buy no_sells book_world eq_refl eq_refl eq_refl) as H.
  unfold lone_run. destruct (match_buy _ _ _ _ _ _ _ _ _) as [r w'].
  apply H; [apply book_row; try grid; vm_compute; discriminate|reflexivity
           |vm_compute; discriminate|reflexivity].
Defined.

(** A buy order of 10 kWh of which 9.95 kWh are filled. *)
Definition dust_buy : TradingOrderDb :=
  set_order_fill (Some (dec 995 2)) PartiallyFilled lone_buy.
Definition dust_world : world Db Event :=
  World (set_orders {[7%N := dust_buy]} book_db) [] [].
Definition dust_run := match_buy bare_engine default_config (fun _ => 1%N) (fun _ => 1%N)
  (fun _ => 1%N) 5 dust_buy no_sells dust_world.

Lemma dust_order_unrefunded_witness :
  users (st (snd dust_run)) = users (st dust_world)
  /\ cancel_order 7 1 (snd dust_run) = (Err not_cancellable, snd dust_run).
Proof.
  pose proof (dust_order_unrefunded bare_engine default_config (fun _ => 1%N) (fun _ => 1%N)
    (fun _ => 1%N) 5 dust_buy no_sells dust_world eq_refl eq_refl) as H.
  unfold dust_run. destruct (match_buy _ _ _ _ _ _ _ _ _) as [r w'].
  destruct H as (_ & _ & Hu & _ & Hc); [split; vm_compute; reflexivity|]. split; [exact Hu|exact Hc].
Defined.

End examples.
