(* ===== verification/Triggers.v ===== *)
(** Conditional orders: [src/handlers/trading/conditional.rs] (creation, listing,
    cancellation) and [src/services/price_monitor.rs] (the monitor that triggers them).

    A conditional order is a row of [trading_orders] with a trigger type; triggering it
    stores a second, ordinary row.  The average the server computes over the recent trades
    is an interface, [PriceAverage]. *)
From S2P Require Import Prelude Numerics Errors Store Schema GridTopology Escrow Orders Settlement MatchingEngine MatchingTrades MatchingLifecycle.

Open Scope string_scope.
Open Scope Z_scope.

(** PostgreSQL's [AVG] over at least one NUMERIC(20, 8) value, as a [Decimal]. *)
Class PriceAverage := {
  avg : Decimal -> list Decimal -> Decimal;
  avg_bounds p l lo hi : Forall (fun x => lo <= x <= hi) (p :: l) -> lo <= avg p l <= hi;
}.

(** ** The handlers *)

Record ConditionalRequest := {
  cr_side : OrderSide;
  cr_energy_amount : Decimal;
  cr_trigger_price : Decimal;
  cr_trigger_type : TriggerType;
  cr_limit_price : option Decimal;
  cr_trailing_offset : option Decimal;
  cr_expiry_time : option DateTime;
  cr_session_token : option string;
}.

Record ConditionalOrder := {
  co_id : Uuid;
  co_user_id : Uuid;
  co_side : OrderSide;
  co_energy_amount : Decimal;
  co_trigger_price : Decimal;
  co_trigger_type : TriggerType;
  co_trigger_status : TriggerStatus;
  co_limit_price : option Decimal;
  co_trailing_offset : option Decimal;
  co_expires_at : option DateTime;
  co_created_at : DateTime;
  co_triggered_at : option DateTime;
}.

(** A row both services insert; [trigger]: price, type, status and offset of a conditional
    order.  The columns not named have the table's defaults. *)
Definition plain_row (order_id user_id : Uuid) (order_type : OrderType) (side : OrderSide)
    (energy price : Decimal) (expires_at now : DateTime) (token : option string)
    (trigger : option (Decimal * TriggerType * option Decimal)) : TradingOrderDb :=
  {| o_id := order_id; o_user_id := user_id; o_order_type := order_type; o_side := side;
     o_energy_amount := energy; o_price_per_kwh := price; o_filled_amount := Some 0;
     o_status := Pending; o_expires_at := Some expires_at; o_created_at := Some now;
     o_filled_at := None; o_epoch_id := None; o_zone_id := None; o_meter_id := None;
     o_refund_tx_signature := None; o_order_pda := None; o_blockchain_tx_signature := None; o_session_token := token;
     o_is_confidential := false; o_energy_source := None;
     o_trigger_price := (fun '(p, _, _) => p) <$> trigger;
     o_trigger_type := (fun '(_, t, _) => t) <$> trigger;
     o_trigger_status := Some TrigPending;
     o_trailing_offset := trigger ≫= (fun '(_, _, off) => off); o_triggered_at := None |}.

Definition bad_request {A} (text : string) : TM A := fail (FApi (BadRequest text)).

(** The direction announced in the response. *)
Definition announced_direction (t : TriggerType) : string :=
  if bool_decide (t = StopLoss) then "falls below" else "rises above".

Section handlers.
Context `{NUM : Numerics} `{ENV : Env}.

Definition conditional_row (q : ConditionalRequest) (user order_id : Uuid) (now : DateTime)
    : TradingOrderDb :=
  plain_row order_id user
    match cr_limit_price q with Some _ => Limit | None => Market end
    (cr_side q) (cr_energy_amount q) (default 0 (cr_limit_price q))
    (default (now + 7 * nanos_per_day) (cr_expiry_time q)) now (cr_session_token q)
    (Some (cr_trigger_price q, cr_trigger_type q, cr_trailing_offset q)).

Definition create_conditional_order (q : ConditionalRequest) (user order_id : Uuid)
    (now : DateTime) : TM Uuid :=
  if cr_trigger_price q <=? 0 then bad_request "Trigger price must be positive"
  else if cr_energy_amount q <=? 0 then bad_request "Energy amount must be positive"
  else if bool_decide (cr_trigger_type q = TrailingStop)
          && bool_decide (cr_trailing_offset q = None)
  then bad_request "Trailing offset is required for trailing stop orders"
  else
    internal "Failed to create order"
      (exec (insert_order (conditional_row q user order_id now))) ;;
    mret order_id.

Definition conditional_of_row (o : TradingOrderDb) : option ConditionalOrder :=
  p ← o_trigger_price o; t ← o_trigger_type o; s ← o_trigger_status o; c ← o_created_at o;
  Some {| co_id := o_id o; co_user_id := o_user_id o; co_side := o_side o;
          co_energy_amount := o_energy_amount o; co_trigger_price := p; co_trigger_type := t;
          co_trigger_status := s; co_limit_price := Some (o_price_per_kwh o);
          co_trailing_offset := o_trailing_offset o; co_expires_at := o_expires_at o;
          co_created_at := c; co_triggered_at := o_triggered_at o |}.

(** [ORDER BY created_at DESC] puts NULLs first. *)
Definition newest_first (a b : TradingOrderDb) : bool :=
  match o_created_at a, o_created_at b with
  | None, _ => true
  | Some _, None => false
  | Some x, Some y => y <=? x
  end.

Definition user_conditionals (user : Uuid) (d : Db) : list TradingOrderDb :=
  take 100 (sort_by newest_first
    (List.filter (fun o => (o_user_id o =? user)%N && bool_decide (o_trigger_type o <> None))
       (order_rows d))).

Definition list_conditional_orders (user : Uuid) : TM (list ConditionalOrder) :=
  internal "Failed to list orders"
    (rows ← query (user_conditionals user);
     expect FDb (mapM conditional_of_row rows)).

(** The rows [cancel_conditional_order] updates. *)
Definition cancellable (user : Uuid) (o : TradingOrderDb) : bool :=
  (o_user_id o =? user)%N && bool_decide (o_trigger_status o = Some TrigPending).

Definition set_order_cancelled (o : TradingOrderDb) : TradingOrderDb :=
  set_order_trigger (Some TrigCancelled) (o_triggered_at o) (set_order_status Cancelled o).

(** The statement and its count of affected rows. *)
Definition cancel_rows (order_id user : Uuid) (d : Db) : option (nat * Db) :=
  match orders d !! order_id with
  | Some o =>
      if cancellable user o
      then Some (1%nat, set_orders (<[order_id := set_order_cancelled o]> (orders d)) d)
      else Some (0%nat, d)
  | None => Some (0%nat, d)
  end.

Definition cancel_conditional_order (order_id user : Uuid) : TM unit :=
  n ← internal "Failed to cancel order" (exec_ret (cancel_rows order_id user));
  if (n =? 0)%nat
  then fail (FApi (NotFound "Order not found or already triggered/cancelled"))
  else mret ().
End handlers.

(** ** The monitor *)

Definition check_trigger_condition (trigger_type : TriggerType) (side : OrderSide)
    (trigger_price current_price : Decimal) : bool :=
  match trigger_type, side with
  | StopLoss, Sell => current_price <=? trigger_price
  | StopLoss, Buy => trigger_price <=? current_price
  | TakeProfit, Sell => trigger_price <=? current_price
  | TakeProfit, Buy => current_price <=? trigger_price
  | TrailingStop, _ => false
  end.

Section monitor.
Context `{NUM : Numerics} `{AVG : PriceAverage}.

Definition recent_trade (now : DateTime) (o : TradingOrderDb) : bool :=
  bool_decide (o_status o = Filled)
  && match o_filled_at o with Some t => now - nanos_per_hour <? t | None => false end.

Definition market_price (now : DateTime) (d : Db) : Decimal :=
  match o_price_per_kwh <$> List.filter (recent_trade now) (order_rows d) with
  | [] => 0
  | p :: l => avg p l
  end.

Definition get_current_market_price (now : DateTime) : TM Decimal := query (market_price now).

Definition awaiting_trigger (now : DateTime) (o : TradingOrderDb) : bool :=
  bool_decide (o_trigger_type o <> None) && bool_decide (o_trigger_status o = Some TrigPending)
  && match o_expires_at o with None => true | Some t => now <? t end.

Definition pending_orders (now : DateTime) (d : Db) : list TradingOrderDb :=
  take 100 (sort_by oldest_first (List.filter (awaiting_trigger now) (order_rows d))).

Definition should_trigger (current_price : Decimal) (o : TradingOrderDb) : bool :=
  match o_trigger_type o with
  | None => false
  | Some t => check_trigger_condition t (o_side o) (default 0 (o_trigger_price o)) current_price
  end.

Definition mark_triggered (order_id : Uuid) (now : DateTime) : Db -> option Db :=
  update_order order_id (fun o => Some (set_order_trigger (Some TrigTriggered) (Some now) o)).

(** The row [trigger_order] inserts. *)
Definition triggered_row (o : TradingOrderDb) (new_order_id : Uuid) (now : DateTime)
    : TradingOrderDb :=
  let limit_price := Some (o_price_per_kwh o) in
  plain_row new_order_id (o_user_id o)
    (if 0 <? default 0 limit_price then Limit else Market)
    (o_side o) (o_energy_amount o) (default 0 limit_price) (now + 24 * nanos_per_hour) now
    (o_session_token o) None.

Definition trigger_order (o : TradingOrderDb) (new_order_id : Uuid) (now : DateTime) : TM unit :=
  with_tx (
    exec (mark_triggered (o_id o) now) ;;
    exec (insert_order (triggered_row o new_order_id now))).

(** One pass of [for order in pending_orders]; [fresh]: the identifier for the order. *)
Definition check_order (fresh : Uuid -> Uuid) (now : DateTime) (current_price : Decimal)
    (o : TradingOrderDb) : TM unit :=
  if should_trigger current_price o then ignore (trigger_order o (fresh (o_id o)) now)
  else mret ().

Definition check_and_trigger_orders (fresh : Uuid -> Uuid) (now : DateTime) : TM unit :=
  current_price ← get_current_market_price now;
  if current_price <=? 0 then mret ()
  else
    rows ← query (pending_orders now);
    for_each (check_order fresh now current_price) rows.
End monitor.

(** ** What the operations do *)

(** Orders aside, the tables are the same. *)
Definition only_orders (d d' : Db) : Prop :=
  users d' = users d /\ escrow_records d' = escrow_records d /\ order_matches d' = order_matches d
  /\ settlements d' = settlements d /\ epochs d' = epochs d
  /\ platform_revenue d' = platform_revenue d.

Lemma only_orders_refl d : only_orders d d.
Proof. by split_and!. Qed.

Lemma only_orders_trans d1 d2 d3 : only_orders d1 d2 -> only_orders d2 d3 -> only_orders d1 d3.
Proof. unfold only_orders. intuition congruence. Qed.

Lemma update_order_only id f d d' : update_order id f d = Some d' -> only_orders d d'.
Proof.
  unfold update_order. destruct (orders d !! id) as [o|]; [|by intros; simplify_eq].
  destruct (f o); intros; by simplify_eq/=.
Qed.

Section inserts.
Context `{NUM : Numerics}.

(** What [insert_order] stored. *)
Lemma insert_order_row o d d' : insert_order o d = Some d' ->
  only_orders d d' /\ orders d !! o_id o = None
  /\ exists o', orders d' = <[o_id o := o']> (orders d)
     /\ num8 (o_energy_amount o) = Some (o_energy_amount o') /\ 0 < o_energy_amount o'
     /\ num8 (o_price_per_kwh o) = Some (o_price_per_kwh o') /\ 0 < o_price_per_kwh o'
     /\ o_id o' = o_id o /\ o_user_id o' = o_user_id o /\ o_side o' = o_side o
     /\ o_status o' = o_status o /\ o_filled_amount o' = o_filled_amount o
     /\ o_trigger_type o' = o_trigger_type o /\ o_trigger_status o' = o_trigger_status o
     /\ o_epoch_id o' = o_epoch_id o /\ o_filled_at o' = o_filled_at o.
Proof.
  unfold insert_order. intros H. repeat case_match; simplify_eq. to_prop.
  split_and!; [done..|]. eexists. split; [reflexivity|]. by split_and!.
Qed.
End inserts.

Section handler_props.
Context `{NUM : Numerics} `{ENV : Env}.

(** A conditional order is live before its trigger, and unbacked: the new row is open
    for the matching engine at once, whatever the market price, and nothing of the owner's
    balance or energy was locked for it.  An order without a limit price is always refused:
    it is stored with price 0. *)
Theorem conditional_order_live (q : ConditionalRequest) (user order_id : Uuid) (now : DateTime)
    (w : world Db Event) :
  let '(r, w') := create_conditional_order q user order_id now w in
  match r with
  | Err _ => st w' = st w
  | Ok id => id = order_id /\ cr_limit_price q <> None /\ only_orders (st w) (st w')
      /\ exists o, orders (st w') = <[order_id := o]> (orders (st w))
         /\ o_trigger_status o = Some TrigPending /\ o_user_id o = user
         /\ forall le, o ∈ open_orders (cr_side q) le (st w')
  end.
Proof.
  unfold create_conditional_order.
  destruct (cr_trigger_price q <=? 0); [done|]. destruct (cr_energy_amount q <=? 0); [done|].
  destruct (_ && _); [done|].
  assert (H : hoare (T := Event) (fun d => d = st w)
    (internal "Failed to create order" (exec (insert_order (conditional_row q user order_id now)))
       ;; mret order_id)
    (fun id d' => id = order_id /\ insert_order (conditional_row q user order_id now) (st w) = Some d')
    (fun _ d => d = st w)).
  { eapply hoare_bind with (R := fun _ d' =>
      insert_order (conditional_row q user order_id now) (st w) = Some d').
    - unfold internal. apply hoare_map_err. apply hoare_exec. by intros d ->.
    - intros []. by apply hoare_ret. }
  specialize (H w eq_refl).
  match goal with |- match ?x with _ => _ end => destruct x as [[id|e] w'] end; [|done].
  destruct H as [-> H]. apply insert_order_row in H
    as (Ho & _ & o & Hor & He & _ & Hp & Hp0 & _ & Hu & Hs & Hst & _ & _ & Htr & _).
  split_and!; [done| |done|].
  - intros Hl. simpl in Hp. rewrite Hl in Hp. simpl in Hp.
    apply num8_id in Hp; [lia|apply Z.divide_0_r].
  - exists o. split_and!; try done. intros le. unfold open_orders. rewrite sort_by_perm.
    apply list_elem_of_In, List.filter_In. split.
    + apply list_elem_of_In, elem_of_values. exists order_id. by rewrite Hor, lookup_insert_eq.
    + rewrite Hs. simpl. rewrite bool_decide_eq_true_2 by done. unfold is_open. by rewrite Hst.
Qed.

(** The endpoint that cancels conditional orders cancels any order of the caller that
    was never triggered, also an ordinary one and whatever has become of it: a new order row
    has trigger status [pending].  Unlike [cancel_order] it checks neither status nor fill
    and gives nothing back (with a healthy database). *)
Theorem ordinary_order_cancelled_unrefunded (order_id : Uuid) (o : TradingOrderDb)
    (w : world Db Event) :
  faults w = [] -> orders (st w) !! order_id = Some o -> o_trigger_status o = Some TrigPending ->
  let '(r, w') := cancel_conditional_order order_id (o_user_id o) w in
  r = Ok tt /\ only_orders (st w) (st w')
  /\ orders (st w') = <[order_id := set_order_cancelled o]> (orders (st w)).
Proof.
  intros Hf Ho Ht. unfold cancel_conditional_order.
  assert (E : internal "Failed to cancel order" (exec_ret (cancel_rows order_id (o_user_id o))) w
    = (Ok 1%nat, set_st (set_orders (<[order_id := set_order_cancelled o]> (orders (st w))) (st w)) w)).
  { unfold internal, map_err, exec_ret, pop_fault. rewrite Hf. unfold cancel_rows, cancellable.
    rewrite Ho, Ht, N.eqb_refl. done. }
  rewrite (bind_run _ _ w _ _ E). by split_and!.
Qed.
End handler_props.

(** ** The monitor: one check *)

Section monitor_props.
Context `{NUM : Numerics} `{AVG : PriceAverage}.

Definition triggered (now : DateTime) (o : TradingOrderDb) : TradingOrderDb :=
  set_order_trigger (Some TrigTriggered) (Some now) o.

(** After the conditional orders [fired] were triggered: each is marked, each has one new
    row with its terms, and no other row differs. *)
Record fired_from (fresh : Uuid -> Uuid) (now : DateTime) (fired : list TradingOrderDb)
    (d0 d : Db) : Prop := {
  fired_only : only_orders d0 d;
  fired_old : forall id o, orders d0 !! id = Some o ->
    orders d !! id = Some (if decide (id ∈ o_id <$> fired) then triggered now o else o);
  fired_new : forall id o', orders d0 !! id = None -> orders d !! id = Some o' ->
    exists o, o ∈ fired /\ id = fresh (o_id o) /\ o_trigger_type o' = None
      /\ order_core o' = (o_user_id o, o_side o, o_energy_amount o, o_price_per_kwh o,
                          Some 0, Pending);
  fired_all : forall o, o ∈ fired ->
    orders d0 !! fresh (o_id o) = None /\ is_Some (orders d !! fresh (o_id o));
}.

Lemma fired_none fresh now d : fired_from fresh now [] d d.
Proof.
  constructor; [apply only_orders_refl|done|by intros id o -> ?|by intros o ?%elem_of_nil].
Qed.

(** Triggering one order more. *)
Lemma fired_step fresh now fired d0 d o d1 d2 :
  fired_from fresh now fired d0 d -> orders d0 !! o_id o = Some o -> row_ok o ->
  o_id o ∉ o_id <$> fired ->
  mark_triggered (o_id o) now d = Some d1 ->
  insert_order (triggered_row o (fresh (o_id o)) now) d1 = Some d2 ->
  fired_from fresh now (fired ++ [o])%list d0 d2.
Proof.
  intros [F1 F2 F3 F4] Ho (Ge & _ & Gp & _) Hn Hm Hi.
  pose proof (F2 _ _ Ho) as Hd. rewrite decide_False in Hd by done.
  apply update_order_only in Hm as O1.
  eapply update_order_lookup in Hm as (o1 & [= <-] & Hm); [|exact Hd].
  apply insert_order_row in Hi as (O2 & Hfree & o' & Hor & He & _ & Hp & _ & Hid & Hu & Hs & Hst
    & Hfl & Htt & _). simpl in *.
  apply num8_id in He; [|done]. apply num8_id in Hp; [|done].
  rewrite Hm in Hor, Hfree.
  assert (Hne : fresh (o_id o) <> o_id o).
  { intros E. rewrite E, lookup_insert_eq in Hfree. done. }
  rewrite lookup_insert_ne in Hfree by done.
  assert (H0 : orders d0 !! fresh (o_id o) = None).
  { destruct (orders d0 !! fresh (o_id o)) as [x|] eqn:E; [|done].
    apply F2 in E. congruence. }
  constructor.
  - eapply only_orders_trans; [exact F1|]. by eapply only_orders_trans.
  - intros id x Hx. rewrite Hor. rewrite lookup_insert_ne by (intros <-; congruence).
    destruct (decide (id = o_id o)) as [->|Hne'].
    + rewrite lookup_insert_eq. rewrite Hx in Ho. apply (inj Some) in Ho as ->.
      rewrite decide_True; [done|]. rewrite fmap_app, elem_of_app. right. by left.
    + rewrite lookup_insert_ne, (F2 _ _ Hx) by done. f_equal. apply decide_ext.
      rewrite fmap_app, elem_of_app. change (o_id <$> [o]) with [o_id o].
      rewrite list_elem_of_singleton. clear -Hne'. tauto.
  - intros id x Hx. rewrite Hor. destruct (decide (id = fresh (o_id o))) as [->|Hne'].
    + rewrite lookup_insert_eq. intros [= <-]. exists o. split_and!; [|done|done|].
      * apply elem_of_app. right. by left.
      * unfold order_core. by rewrite Hu, Hs, He, Hp, Hst, Hfl.
    + rewrite lookup_insert_ne by done.
      rewrite lookup_insert_ne by (intros <-; congruence).
      intros Hx'. destruct (F3 _ _ Hx Hx') as (y & Hy & ?). exists y. split; [|done].
      apply elem_of_app. by left.
  - intros x [Hx|Hx%list_elem_of_singleton]%elem_of_app.
    + destruct (F4 x Hx) as [A B]. split; [done|]. rewrite Hor.
      destruct (decide (fresh (o_id x) = fresh (o_id o))) as [->|?].
      * rewrite lookup_insert_eq. eauto.
      * rewrite lookup_insert_ne by done. rewrite lookup_insert_ne by (intros E; rewrite <- E in A; congruence). done.
    + subst x. split; [done|]. rewrite Hor, lookup_insert_eq. eauto.
Qed.

Lemma trigger_order_no_panic o nid now : no_panic (T := Event)
  (exec (mark_triggered (o_id o) now) ;; exec (insert_order (triggered_row o nid now))).
Proof. apply no_panic_bind; intros; apply no_panic_exec. Qed.

Lemma pending_orders_rows now d o : o ∈ pending_orders now d ->
  o ∈ order_rows d /\ awaiting_trigger now o = true.
Proof.
  unfold pending_orders. intros H%elem_of_take. destruct H as (i & H%list_elem_of_lookup_2 & _).
  rewrite sort_by_perm in H. apply list_elem_of_In, List.filter_In in H as [H ?].
  by apply list_elem_of_In in H.
Qed.

Lemma pending_orders_nodup now d : rows_ok d -> NoDup (o_id <$> pending_orders now d).
Proof.
  intros Hr. unfold pending_orders. rewrite fmap_take. apply sublist_NoDup with
    (o_id <$> sort_by oldest_first (List.filter (awaiting_trigger now) (order_rows d)));
    [|apply sublist_take].
  rewrite sort_by_perm. apply NoDup_fmap_filter. by apply order_rows_nodup.
Qed.

(** A check of the monitor is sound, whatever statements the database fails: the orders
    it triggers were waiting for their trigger, their condition holds at the average price
    of the recent trades, each is marked and gets exactly one new pending order with its
    terms, no other order changes, and no balance or escrow record does: the new orders are
    not backed by a lock. *)
Theorem trigger_sound (fresh : Uuid -> Uuid) (now : DateTime) (w : world Db Event) :
  rows_ok (st w) ->
  let '(r, w') := check_and_trigger_orders fresh now w in
  let price := market_price now (st w) in
  exists fired, fired_from fresh now fired (st w) (st w')
    /\ Forall (fun o => o ∈ order_rows (st w) /\ awaiting_trigger now o = true
                        /\ should_trigger price o = true /\ 0 < price) fired
    /\ match r with Ok _ => True | Err e => e = FDb /\ st w' = st w end.
Proof.
  intros Hr. set (d0 := st w) in *. set (price := market_price now d0).
  set (J := fun (done : list TradingOrderDb) d => exists fired, fired_from fresh now fired d0 d
    /\ Forall (fun o => o ∈ done /\ should_trigger price o = true) fired).
  assert (H : hoare (fun d => d = d0) (check_and_trigger_orders fresh now)
    (fun _ d => d = d0 \/ (0 < price /\ J (pending_orders now d0) d))
    (fun e d => e = FDb /\ d = d0)).
  { unfold check_and_trigger_orders, get_current_market_price.
    eapply hoare_bind with (R := fun p d => p = price /\ d = d0).
    { apply hoare_query. by intros d ->. }
    intros p. apply hoare_pure. intros ->. destruct (price <=? 0) eqn:Ep; to_prop.
    { apply hoare_ret. auto. }
    eapply hoare_bind with (R := fun l d => l = pending_orders now d0 /\ d = d0).
    { apply hoare_query. by intros d ->. }
    intros l. apply hoare_pure. intros ->.
    eapply hoare_conseq with (P' := J []); [apply (hoare_for_each J)| |by auto|].
    - intros done o todo Hl. unfold check_order.
      assert (Hin : o ∈ pending_orders now d0) by (rewrite Hl; apply elem_of_app; right; by left).
      apply pending_orders_rows in Hin as [Hin _].
      destruct (order_rows_ok _ Hr _ Hin) as [Ho Hrow].
      pose proof (pending_orders_nodup now d0 Hr) as Hnd.
      rewrite Hl, fmap_app, list.NoDup_app in Hnd. destruct Hnd as (_ & Hnd & _).
      assert (Hweak : forall d, J done d -> J (done ++ [o])%list d).
      { intros d (fired & F & Ff). exists fired. split; [done|].
        eapply list.Forall_impl; [exact Ff|]. intros x [? ?]. split; [|done]. apply elem_of_app. by left. }
      destruct (should_trigger price o) eqn:Es; [|apply hoare_ret; exact Hweak].
      apply hoare_ignore_tx; [|exact Hweak|apply trigger_order_no_panic].
      intros w1 a w2 (fired & F & Ff) Hb. run_steps. norm_st.
      exists (fired ++ [o])%list. split.
      + eapply fired_step; [exact F|exact Ho|exact Hrow| |done|done].
        intros (y & Hy & Hyf)%list_elem_of_fmap. rewrite list.Forall_forall in Ff.
        destruct (Ff y Hyf) as [Hyd _]. apply (Hnd (o_id o)); [|by left].
        rewrite Hy. by apply list_elem_of_fmap_2.
      + apply Forall_app. split; [|constructor; [|constructor]; split; [apply elem_of_app; right; by left|done]].
        eapply list.Forall_impl; [exact Ff|]. intros y [? ?]. split; [|done]. apply elem_of_app. by left.
    - intros d ->. exists []. split; [apply fired_none|constructor].
    - intros e d He. exact He. }
  specialize (H w eq_refl). destruct (check_and_trigger_orders fresh now w) as [[[]|e] w'].
  - destruct H as [E|[Hp (fired & F & Ff)]].
    + exists []. rewrite E. split_and!; [apply fired_none|constructor|done].
    + exists fired. split_and!; [done| |done]. eapply list.Forall_impl; [exact Ff|].
      intros o [Hin Hs]. apply pending_orders_rows in Hin as [? ?]. by split_and!.
  - destruct H as [-> E]. exists []. rewrite E. split_and!; [apply fired_none|constructor|done..].
Qed.
End monitor_props.

(** ** The monitor beside the engine *)

(** No order has a fill time: no statement of the services writes [filled_at]. *)
Definition no_fill_times (d : Db) : Prop := map_Forall (fun _ o => o_filled_at o = None) (orders d).

Lemma fill_times_static d d' :
  (forall id, order_static <$> orders d' !! id = order_static <$> orders d !! id) ->
  no_fill_times d -> no_fill_times d'.
Proof.
  intros Hs H id o Ho. specialize (Hs id). rewrite Ho in Hs. simpl in Hs.
  destruct (orders d !! id) as [o0|] eqn:E; [|done]. apply (inj Some) in Hs.
  apply (f_equal o_filled_at) in Hs. simpl in Hs. rewrite Hs. exact (H id o0 E).
Qed.

Lemma expired_static ids d d' : expired_in ids d d' ->
  forall id, order_static <$> orders d' !! id = order_static <$> orders d !! id.
Proof. intros H id. rewrite (H id). destruct (orders d !! id); [simpl; by case_decide|done]. Qed.

Section beside.
Context `{NUM : Numerics} `{AVG : PriceAverage} `{F64 : DecimalFromF64} `{CH : Chain} `{ENV : Env}.
Context (engine : Engine) (config : SettlementConfig).

(** The book is well formed and the market price is 0. *)
Definition priceless (d : Db) : Prop := book_ok d /\ no_fill_times d.

Lemma market_price_zero now d : no_fill_times d -> market_price now d = 0.
Proof.
  intros H. unfold market_price. rewrite filter_none; [done|].
  intros o (id & Ho)%elem_of_values. unfold recent_trade. rewrite (H id o Ho).
  by rewrite andb_false_r.
Qed.

Lemma turn_priceless t : preserves priceless (run_turn engine config t).
Proof.
  unfold run_turn, matching_turn. apply preserves_bind; [|intros []]; apply preserves_ignore.
  - intros w [Hb Hn]. split; [by apply expire_book|].
    pose proof (expire_spec engine (turn_now t) (st w) w eq_refl) as H.
    destruct (expire_stale_orders engine (turn_now t) w) as [[n|e] w']; simpl.
    + destruct H as [_ H]. eapply fill_times_static; [by eapply expired_static|done].
    + destruct H as (_ & l1 & l2 & _ & H). eapply fill_times_static; [by eapply expired_static|done].
  - intros w [Hb Hn]. split; [by apply cycle_book|].
    pose proof (match_cycle_spec engine config (turn_match_id t) (turn_settlement_id t)
      (turn_trade_id t) (turn_now t) (st w) Hb w eq_refl) as H.
    destruct (match_orders_cycle _ _ _ _ _ _ w) as [[r|e] w']; simpl.
    + destruct H as (deals & _ & [[G _] _] & _). by eapply fill_times_static.
    + destruct H as [[_ ->]|[_ (deals & _ & [G _] & _)]]; [done|]. by eapply fill_times_static.
Qed.

Lemma check_priceless fresh now w : no_fill_times (st w) ->
  st (snd (check_and_trigger_orders fresh now w)) = st w.
Proof.
  intros H. unfold check_and_trigger_orders, get_current_market_price, mbind, M_bind, query.
  pose proof (pop_fault_st w) as Hst. destruct (pop_fault w) as [[] w1]; simpl in *; [done|].
  by rewrite Hst, (market_price_zero now _ H).
Qed.

(** A turn of the engine or a check of the monitor. *)
Inductive Tick :=
| Trade (t : Turn)
| Watch (fresh : Uuid -> Uuid) (now : DateTime).

Definition run_tick (k : Tick) : TM unit :=
  match k with
  | Trade t => run_turn engine config t
  | Watch fresh now => ignore (check_and_trigger_orders fresh now)
  end.

(** The monitor never triggers anything.  From any well formed book without fill times,
    after any interleaving of turns of the engine (however much it trades) and checks of the
    monitor, and whatever statements fail, the market price is still 0 and a check of the
    monitor leaves every table as it is. *)
Theorem monitor_idle (ticks : list Tick) (fresh : Uuid -> Uuid) (now : DateTime)
    (w : world Db Event) :
  book_ok (st w) -> no_fill_times (st w) ->
  let w' := snd (for_each run_tick ticks w) in
  market_price now (st w') = 0
  /\ st (snd (check_and_trigger_orders fresh now w')) = st w'.
Proof.
  intros Hb Hn. cbv zeta.
  assert (H : priceless (st (snd (for_each run_tick ticks w)))).
  { apply (preserves_for_each priceless); [|done]. intros [t|f n]; simpl.
    - apply turn_priceless.
    - apply preserves_ignore. intros w1 [? ?]. unfold priceless. by rewrite check_priceless. }
  destruct H as [_ H]. split; [by apply market_price_zero|by apply check_priceless].
Qed.

(** Two crossing orders without an epoch stop the market.  When the oldest open buy order
    and its cheapest seller both have none (as every triggered order does), the cycle fails
    at once and changes nothing, so every later cycle fails the same way. *)
Theorem epochless_pair_stops_market (f g h : nat -> Uuid) (now : DateTime)
    (b s : TradingOrderDb) (buys : list TradingOrderDb) (c : Candidate) (cs : list Candidate)
    (w : world Db Event) :
  faults w = [] ->
  open_orders Buy oldest_first (st w) = b :: buys ->
  MIN_TRADE_AMOUNT <= unfilled b ->
  candidates b (open_orders Sell cheapest_first (st w)) = c :: cs ->
  open_orders Sell cheapest_first (st w) !! c_index c = Some s ->
  o_epoch_id b = None -> o_epoch_id s = None ->
  match_orders_cycle engine config f g h now w = (Err (FMsg "Epoch ID required"), w).
Proof.
  intros Hf Hb Hmin Hc Hs Eb Es.
  assert (Hq : forall A (q : Db -> A), query q w = (Ok (q (st w)), w)).
  { intros A q. unfold query, pop_fault. by rewrite Hf. }
  unfold match_orders_cycle.
  rewrite (bind_run _ _ w _ _ (Hq _ _)), (bind_run _ _ w _ _ (Hq _ _)), Hb.
  destruct (open_orders Sell cheapest_first (st w)) as [|s0 rest] eqn:Esl; [done|].
  cbn [match_buys].
  enough (Hm : match_buy engine config f g h now b
      {| cy_sells := s0 :: rest; cy_matches := 0; cy_volume := 0 |} w
      = (Err (FMsg "Epoch ID required"), w)).
  { unfold mbind at 1, M_bind. unfold mbind at 1, M_bind. by rewrite Hm. }
  unfold match_buy. cbn [cy_sells]. rewrite Hc. cbv zeta. fold (unfilled b).
  destruct (unfilled b <? MIN_TRADE_AMOUNT) eqn:E1; to_prop; [lia|].
  cbn [match_candidates f_remaining].
  assert (0 < MIN_TRADE_AMOUNT) by done.
  destruct (unfilled b <=? 0) eqn:E2; to_prop; [lia|].
  enough (Hk : match_candidate engine config f g h now b c
      {| f_cycle := {| cy_sells := s0 :: rest; cy_matches := 0; cy_volume := 0 |};
         f_filled := filled b; f_remaining := unfilled b |} w
      = (Err (FMsg "Epoch ID required"), w)).
  { unfold mbind at 1, M_bind. unfold mbind at 1, M_bind. by rewrite Hk. }
  unfold match_candidate. cbn [f_cycle cy_sells]. rewrite Hs.
  assert (Hin : c ∈ candidates b (s0 :: rest)) by (rewrite Hc; left).
  apply candidates_elem in Hin as (i & s' & Hi & Hcand).
  apply candidate_spec in Hcand as (Hci & _ & _ & Hsmin & _).
  rewrite <- Hci, Hs in Hi. apply (inj Some) in Hi as <-.
  cbv zeta. fold (unfilled s). destruct (unfilled s <=? 0) eqn:E3; to_prop; [lia|].
  by rewrite Eb, Es.
Qed.
End beside.

(** ** Witnesses *)
Section witnesses.
#[local] Existing Instance std_numerics.
#[local] Existing Instance std_from_f64.
#[local] Existing Instance demo_env.
#[local] Existing Instance chain_of_signatures.

(** The average rounded down. *)
Definition mean (p : Decimal) (l : list Decimal) : Decimal :=
  sumZ id (p :: l) / Z.of_nat (length (p :: l)).

Lemma mean_bounds p l lo hi : Forall (fun x => lo <= x <= hi) (p :: l) -> lo <= mean p l <= hi.
Proof.
  intros H. assert (B : Z.of_nat (length (p :: l)) * lo <= sumZ id (p :: l)
    <= Z.of_nat (length (p :: l)) * hi).
  { induction H as [|x k Hx _ IH]; [simpl; lia|]. cbn [length sumZ]. unfold id at 1 3. lia. }
  unfold mean. assert (0 < Z.of_nat (length (p :: l))) by (simpl; lia).
  split; [apply Z.div_le_lower_bound|apply Z.div_le_upper_bound]; lia.
Qed.

#[local] Instance mean_average : PriceAverage := {| avg := mean; avg_bounds := mean_bounds |}.

(** An ordinary order as the engine stores it, and its cancellation as a conditional one. *)
Definition plain_demo (order_id : Uuid) (side : OrderSide) : TradingOrderDb :=
  plain_row order_id 1 Limit side (dec 10 0)
    match side with Buy => dec 9 0 | Sell => dec 2 0 end 1000 0 None None.
Definition plain_world : world Db Event :=
  World (set_orders {[7%N := plain_demo 7 Buy]} book_db) [] [].

Lemma ordinary_order_cancelled_unrefunded_witness :
  let w' := snd (cancel_conditional_order 7 1 plain_world) in
  users (st w') = users (st plain_world)
  /\ (o_status <$> orders (st w') !! 7%N) = Some Cancelled.
Proof.
  pose proof (ordinary_order_cancelled_unrefunded 7 (plain_demo 7 Buy) plain_world
    eq_refl eq_refl eq_refl) as H. cbv zeta.
  change (o_user_id (plain_demo 7 Buy)) with 1%N in H.
  destruct (cancel_conditional_order 7 1 plain_world) as [r w'].
  destruct H as (_ & [Hu _] & Ho). split; [exact Hu|].
  change (snd (r, w')) with w'. rewrite Ho. reflexivity.
Defined.

(** A sell order that waits for the price to fall to 3.00, and a trade at 2.00. *)
Definition stop_loss : TradingOrderDb :=
  plain_row 5 1 Limit Sell (dec 4 0) (dec 2 0) 1000 0 None (Some (dec 3 0, StopLoss, None)).
Definition past_trade : TradingOrderDb :=
  {| o_id := 6; o_user_id := 2; o_order_type := Limit; o_side := Buy;
     o_energy_amount := dec 1 0; o_price_per_kwh := dec 2 0; o_filled_amount := Some (dec 1 0);
     o_status := Filled; o_expires_at := None; o_created_at := Some 0; o_filled_at := Some 50;
     o_epoch_id := None; o_zone_id := None; o_meter_id := None; o_refund_tx_signature := None;
     o_order_pda := None; o_blockchain_tx_signature := None; o_session_token := None; o_is_confidential := false;
     o_energy_source := None; o_trigger_price := None; o_trigger_type := None;
     o_trigger_status := Some TrigPending; o_trailing_offset := None; o_triggered_at := None |}.
Definition watched_world : world Db Event :=
  World (set_orders (<[5%N := stop_loss]> {[6%N := past_trade]}) book_db) [] [].
Definition first_check := check_and_trigger_orders (fun id => (100 + id)%N) 100 watched_world.

Lemma watched_rows : rows_ok (st watched_world).
Proof.
  apply map_Forall_insert_2; [|apply map_Forall_insert_2; [|apply map_Forall_empty]];
    (split; [reflexivity|]); unfold row_ok, fill_ok; cbn; unfold id;
    split_and!; try grid; vm_compute; discriminate.
Qed.

Lemma trigger_sound_witness :
  fst first_check = Ok tt
  /\ exists fired, 5%N ∈ o_id <$> fired
     /\ fired_from (fun id => (100 + id)%N) 100 fired (st watched_world) (st (snd first_check)).
Proof.
  pose proof (trigger_sound (fun id => (100 + id)%N) 100 watched_world watched_rows) as H.
  assert (E : fst first_check = Ok tt) by (vm_compute; reflexivity).
  assert (S5 : (o_trigger_status <$> orders (st (snd first_check)) !! 5%N)
    = Some (Some TrigTriggered)) by (vm_compute; reflexivity).
  split; [exact E|]. unfold first_check in *.
  destruct (check_and_trigger_orders _ _ _) as [r w'].
  destruct H as (fired & F & _ & _). exists fired. split; [|exact F].
  cbn [snd] in S5. rewrite (fired_old _ _ _ _ _ F 5%N stop_loss eq_refl) in S5.
  destruct (decide (5%N ∈ o_id <$> fired)) as [Hin|_]; [exact Hin|discriminate S5].
Defined.

Definition demo_ticks : list Tick :=
  [Watch (fun id => (100 + id)%N) 4; Trade demo_turn; Watch (fun id => (100 + id)%N) 6].

Lemma monitor_idle_witness :
  market_price 7 (st (snd (for_each (run_tick bare_engine default_config) demo_ticks book_world)))
  = 0.
Proof.
  apply (monitor_idle bare_engine default_config demo_ticks (fun id => id) 7 book_world book_db_ok).
  apply map_Forall_insert_2; [reflexivity|].
  apply map_Forall_insert_2; [reflexivity|apply map_Forall_empty].
Defined.

(** The two rows a triggered buy and a triggered sell order leave. *)
Definition epochless_world : world Db Event :=
  World (set_orders {[7%N := plain_demo 7 Buy; 8%N := plain_demo 8 Sell]} book_db) [] [].

Lemma epochless_pair_stops_market_witness :
  match_orders_cycle bare_engine default_config (fun _ => 1%N) (fun _ => 1%N) (fun _ => 1%N) 5
    epochless_world = (Err (FMsg "Epoch ID required"), epochless_world).
Proof.
  eapply (epochless_pair_stops_market bare_engine default_config (fun _ => 1%N) (fun _ => 1%N)
    (fun _ => 1%N) 5 (plain_demo 7 Buy) (plain_demo 8 Sell) []).
  - reflexivity.
  - vm_compute. reflexivity.
  - vm_compute. discriminate.
  - vm_compute. reflexivity.
  - vm_compute. reflexivity.
  - reflexivity.
  - reflexivity.
Defined.
End witnesses.
