(* ===== verification/Recurring.v ===== *)
(** Recurring orders: [src/handlers/trading/recurring.rs] (creation, listing, pausing,
    resuming, cancelling) and [src/services/recurring_scheduler.rs] (the scheduler that
    turns due ones into trading orders).

    The state adds the tables [recurring_orders] and [recurring_order_executions] to those
    of the other services.  Columns whose statements always give a value are not options.
    The range of chrono's [DateTime<Utc>] is an interface, [Chrono]: adding a duration
    that leaves it panics. *)
From S2P Require Import Prelude Numerics Errors Store Schema Escrow Orders Settlement MatchingEngine MatchingTrades Triggers.

Open Scope string_scope.
Open Scope Z_scope.

(** [DateTime::<Utc>::MIN_UTC] and [MAX_UTC], some 260000 years around the epoch. *)
Class Chrono := {
  min_utc : DateTime;
  max_utc : DateTime;
  min_utc_bound : min_utc <= - (90000000 * nanos_per_day);
  max_utc_bound : 90000000 * nanos_per_day <= max_utc < 100000000 * nanos_per_day;
}.

(** ** Data *)

Record CreateRecurringOrderRequest := {
  rq_side : OrderSide;
  rq_energy_amount : Decimal;
  rq_max_price_per_kwh : option Decimal;
  rq_min_price_per_kwh : option Decimal;
  rq_interval_type : IntervalType;
  rq_interval_value : option Z;
  rq_max_executions : option Z;
  rq_name : option string;
  rq_description : option string;
  rq_session_token : option string;
}.

Record RecurringOrder := {
  r_id : Uuid;
  r_user_id : Uuid;
  r_side : OrderSide;
  r_energy_amount : Decimal;
  r_max_price_per_kwh : option Decimal;
  r_min_price_per_kwh : option Decimal;
  r_interval_type : IntervalType;
  r_interval_value : Z;
  r_next_execution_at : DateTime;
  r_last_executed_at : option DateTime;
  r_status : RecurringStatus;
  r_total_executions : Z;
  r_max_executions : option Z;
  r_name : option string;
  r_description : option string;
  r_created_at : DateTime;
  r_updated_at : DateTime;
  r_session_token : option string;
}.

Record Execution := {
  x_recurring_order_id : Uuid;
  x_trading_order_id : option Uuid;
  x_status : string;
  x_error_message : option string;
  x_energy_amount : option Decimal;
  x_price_per_kwh : option Decimal;
}.

Record RecDb := {
  base : Db;
  recurring_orders : gmap Uuid RecurringOrder;
  executions : list Execution;
}.

Abbreviation RM := (M RecDb Event).

Definition set_base (b : Db) (d : RecDb) : RecDb :=
  {| base := b; recurring_orders := recurring_orders d; executions := executions d |}.
Definition set_recurring (m : gmap Uuid RecurringOrder) (d : RecDb) : RecDb :=
  {| base := base d; recurring_orders := m; executions := executions d |}.
Definition set_executions (l : list Execution) (d : RecDb) : RecDb :=
  {| base := base d; recurring_orders := recurring_orders d; executions := l |}.

(** The columns the statements update. *)
Definition set_schedule (next : DateTime) (last : option DateTime) (s : RecurringStatus)
    (total : Z) (updated : DateTime) (r : RecurringOrder) : RecurringOrder :=
  {| r_id := r_id r; r_user_id := r_user_id r; r_side := r_side r;
     r_energy_amount := r_energy_amount r; r_max_price_per_kwh := r_max_price_per_kwh r;
     r_min_price_per_kwh := r_min_price_per_kwh r; r_interval_type := r_interval_type r;
     r_interval_value := r_interval_value r; r_next_execution_at := next;
     r_last_executed_at := last; r_status := s; r_total_executions := total;
     r_max_executions := r_max_executions r; r_name := r_name r;
     r_description := r_description r; r_created_at := r_created_at r;
     r_updated_at := updated; r_session_token := r_session_token r |}.

Definition set_rec_status (s : RecurringStatus) (now : DateTime) (r : RecurringOrder)
    : RecurringOrder :=
  set_schedule (r_next_execution_at r) (r_last_executed_at r) s (r_total_executions r) now r.

(** ** Statements *)

Definition on_base (f : Db -> option Db) (d : RecDb) : option RecDb :=
  b ← f (base d); Some (set_base b d).

(** The count of affected rows, and the tables. *)
Definition update_where (id : Uuid) (p : RecurringOrder -> bool)
    (f : RecurringOrder -> RecurringOrder) (d : RecDb) : option (nat * RecDb) :=
  match recurring_orders d !! id with
  | Some r => if p r then Some (1%nat, set_recurring (<[id := f r]> (recurring_orders d)) d)
              else Some (0%nat, d)
  | None => Some (0%nat, d)
  end.

Definition update_recurring (id : Uuid) (f : RecurringOrder -> RecurringOrder) (d : RecDb)
    : option RecDb :=
  snd <$> update_where id (fun _ => true) f d.

Definition rec_rows (d : RecDb) : list RecurringOrder := (map_to_list (recurring_orders d)).*2.

Section statements.
Context `{NUM : Numerics}.

Definition insert_recurring (r : RecurringOrder) (d : RecDb) : option RecDb :=
  match users (base d) !! r_user_id r, recurring_orders d !! r_id r, num8 (r_energy_amount r),
        num8_opt (r_max_price_per_kwh r), num8_opt (r_min_price_per_kwh r) with
  | Some _, None, Some e, Some mx, Some mn =>
      if (0 <? r_interval_value r) && varchar 100 (r_name r) && varchar 128 (r_session_token r)
      then Some (set_recurring (<[r_id r :=
        {| r_id := r_id r; r_user_id := r_user_id r; r_side := r_side r;
           r_energy_amount := e; r_max_price_per_kwh := mx; r_min_price_per_kwh := mn;
           r_interval_type := r_interval_type r; r_interval_value := r_interval_value r;
           r_next_execution_at := r_next_execution_at r;
           r_last_executed_at := r_last_executed_at r; r_status := r_status r;
           r_total_executions := r_total_executions r; r_max_executions := r_max_executions r;
           r_name := r_name r; r_description := r_description r;
           r_created_at := r_created_at r; r_updated_at := r_updated_at r;
           r_session_token := r_session_token r |}]> (recurring_orders d)) d)
      else None
  | _, _, _, _, _ => None
  end.

(** The references to the recurring order and to the trading order must hold. *)
Definition insert_execution (x : Execution) (d : RecDb) : option RecDb :=
  if bool_decide (is_Some (recurring_orders d !! x_recurring_order_id x))
     && match x_trading_order_id x with
        | None => true
        | Some id => bool_decide (is_Some (orders (base d) !! id))
        end
  then
    e ← num8_opt (x_energy_amount x); p ← num8_opt (x_price_per_kwh x);
    Some (set_executions (executions d ++
      [{| x_recurring_order_id := x_recurring_order_id x;
          x_trading_order_id := x_trading_order_id x; x_status := x_status x;
          x_error_message := x_error_message x; x_energy_amount := e;
          x_price_per_kwh := p |}]) d)
  else None.
End statements.

(** ** The schedule *)

Definition interval_nanos (interval_type : IntervalType) (interval_value : Z) : Z :=
  match interval_type with
  | Hourly => interval_value * nanos_per_hour
  | Daily => interval_value * nanos_per_day
  | Weekly => interval_value * (7 * nanos_per_day)
  | Monthly => 30 * interval_value * nanos_per_day
  end.

Section recurring.
Context `{NUM : Numerics} `{ENV : Env} `{CHR : Chrono}.

(** [None]: the addition panics. *)
Definition calculate_next_execution (now : DateTime) (interval_type : IntervalType)
    (interval_value : Z) : option DateTime :=
  let next := now + interval_nanos interval_type interval_value in
  if (min_utc <=? next) && (next <=? max_utc) then Some next else None.

(** ** The handlers *)

Definition no_such (text : string) : RM unit := fail (FApi (NotFound text)).

(** [now] is the handler's clock, [later] the one of [calculate_next_execution]. *)
Definition create_recurring_order (q : CreateRecurringOrderRequest) (user order_id : Uuid)
    (now later : DateTime) : RM (Uuid * DateTime) :=
  if rq_energy_amount q <=? 0
  then fail (FApi (BadRequest "Energy amount must be positive"))
  else
    let interval_value := default 1 (rq_interval_value q) in
    next_execution_at ←
      expect FPanic (calculate_next_execution later (rq_interval_type q) interval_value);
    internal "Failed to create order" (exec (insert_recurring
      {| r_id := order_id; r_user_id := user; r_side := rq_side q;
         r_energy_amount := rq_energy_amount q;
         r_max_price_per_kwh := rq_max_price_per_kwh q;
         r_min_price_per_kwh := rq_min_price_per_kwh q;
         r_interval_type := rq_interval_type q; r_interval_value := interval_value;
         r_next_execution_at := next_execution_at; r_last_executed_at := None;
         r_status := RecActive; r_total_executions := 0;
         r_max_executions := rq_max_executions q; r_name := rq_name q;
         r_description := rq_description q; r_created_at := now; r_updated_at := now;
         r_session_token := rq_session_token q |})) ;;
    mret (order_id, next_execution_at).

Definition latest_first (a b : RecurringOrder) : bool := r_created_at b <=? r_created_at a.

Definition list_recurring_orders (user : Uuid) : RM (list RecurringOrder) :=
  internal "Failed to list orders" (query (fun d =>
    take 100 (sort_by latest_first
      (List.filter (fun r => (r_user_id r =? user)%N) (rec_rows d))))).

Definition owned (user : Uuid) (id : Uuid) (d : RecDb) : option RecurringOrder :=
  r ← recurring_orders d !! id; if (r_user_id r =? user)%N then Some r else None.

Definition get_recurring_order (order_id user : Uuid) : RM RecurringOrder :=
  row ← internal "Failed to get order" (query (owned user order_id));
  expect (FApi (NotFound "Recurring order not found")) row.

Definition cancel_recurring_order (order_id user : Uuid) (now : DateTime) : RM unit :=
  n ← internal "Failed to cancel order" (exec_ret (update_where order_id
        (fun r => (r_user_id r =? user)%N
                  && negb (bool_decide (r_status r = RecCancelled \/ r_status r = RecCompleted)))
        (set_rec_status RecCancelled now)));
  if (n =? 0)%nat then no_such "Order not found or already cancelled/completed" else mret ().

Definition pause_recurring_order (order_id user : Uuid) (now : DateTime) : RM unit :=
  n ← internal "Failed to pause order" (exec_ret (update_where order_id
        (fun r => (r_user_id r =? user)%N && bool_decide (r_status r = RecActive))
        (set_rec_status RecPaused now)));
  if (n =? 0)%nat then no_such "Order not found or not active" else mret ().

Definition resume_recurring_order (order_id user : Uuid) (now later : DateTime) : RM DateTime :=
  row ← internal "Failed to get order" (query (owned user order_id));
  order ← expect (FApi (NotFound "Order not found")) row;
  next_execution ← expect FPanic
    (calculate_next_execution now (r_interval_type order) (r_interval_value order));
  n ← internal "Failed to resume order" (exec_ret (update_where order_id
        (fun r => (r_user_id r =? user)%N && bool_decide (r_status r = RecPaused))
        (fun r => set_schedule next_execution (r_last_executed_at r) RecActive
                    (r_total_executions r) later r)));
  (if (n =? 0)%nat then no_such "Order not found or not paused" else mret ()) ;;
  mret next_execution.

(** ** The scheduler *)

Definition due (now : DateTime) (r : RecurringOrder) : bool :=
  bool_decide (r_status r = RecActive) && (r_next_execution_at r <=? now).

Definition soonest_first (a b : RecurringOrder) : bool :=
  r_next_execution_at a <=? r_next_execution_at b.

Definition due_rows (now : DateTime) (d : RecDb) : list RecurringOrder :=
  take 50 (sort_by soonest_first (List.filter (due now) (rec_rows d))).

Definition execution_price (r : RecurringOrder) : Decimal :=
  match r_side r with
  | Buy => default 0 (r_max_price_per_kwh r)
  | Sell => default 0 (r_min_price_per_kwh r)
  end.

(** The trading order of an execution. *)
Definition recurring_row (r : RecurringOrder) (order_id : Uuid) (now : DateTime) : TradingOrderDb :=
  let price := execution_price r in
  plain_row order_id (r_user_id r) (if 0 <? price then Limit else Market) (r_side r)
    (r_energy_amount r) price (now + 24 * nanos_per_hour) now (r_session_token r) None.

Definition status_after (new_total : Z) (max_executions : option Z) : RecurringStatus :=
  match max_executions with
  | Some max => if max <=? new_total then RecCompleted else RecActive
  | None => RecActive
  end.

(** [r]: the values the scheduler read. *)
Definition execute_order (r : RecurringOrder) (order_id : Uuid) (now : DateTime) : RM unit :=
  with_tx (
    exec (on_base (insert_order (recurring_row r order_id now))) ;;
    next_execution ← expect FPanic
      (calculate_next_execution now (r_interval_type r) (r_interval_value r));
    let new_total := wrap_i32 (r_total_executions r + 1) in
    exec (update_recurring (r_id r) (set_schedule next_execution (Some now)
            (status_after new_total (r_max_executions r)) new_total now)) ;;
    exec (insert_execution
      {| x_recurring_order_id := r_id r; x_trading_order_id := Some order_id;
         x_status := "success"; x_error_message := None;
         x_energy_amount := Some (r_energy_amount r);
         x_price_per_kwh := Some (execution_price r) |})).

Definition record_execution (recurring_id : Uuid) (trading_order_id : option Uuid)
    (status : string) (error : option string) : RM unit :=
  exec (insert_execution
    {| x_recurring_order_id := recurring_id; x_trading_order_id := trading_order_id;
       x_status := status; x_error_message := error; x_energy_amount := None;
       x_price_per_kwh := None |}).

(** One pass of [for row in due_rows]; [fresh] and [clock]: the identifier and the time of
    the execution of the order. *)
Definition run_due (fresh : Uuid -> Uuid) (clock : Uuid -> DateTime) (r : RecurringOrder)
    : RM unit :=
  res ← attempt (execute_order r (fresh (r_id r)) (clock (r_id r)));
  match res with
  | Ok _ => mret ()
  | Err e => ignore (record_execution (r_id r) None "failed" (Some (error_text e)))
  end.

Definition process_due_orders (fresh : Uuid -> Uuid) (clock : Uuid -> DateTime) (now : DateTime)
    : RM unit :=
  rows ← query (due_rows now);
  for_each (run_due fresh clock) rows.
End recurring.

(** ** Executions and their counts *)

Definition is_success (id : Uuid) (x : Execution) : bool :=
  (x_recurring_order_id x =? id)%N && (x_status x =? "success")%string.

(** The successful executions recorded for an order. *)
Definition successes (id : Uuid) (d : RecDb) : Z :=
  Z.of_nat (length (List.filter (is_success id) (executions d))).

(** What is known of an order with [n] successful executions. *)
Definition counted (n : Z) (r : RecurringOrder) : Prop :=
  r_total_executions r = wrap_i32 n
  /\ match r_max_executions r with
     | None => True
     | Some max => max <= i32_max /\ n <= Z.max 1 max
         /\ (r_status r = RecActive \/ r_status r = RecPaused -> n < Z.max 1 max)
     end.

Record rec_ok (d : RecDb) : Prop := {
  rec_counted : forall id r, recurring_orders d !! id = Some r ->
    r_id r = id /\ counted (successes id d) r;
  rec_refs : Forall (fun x => is_Some (recurring_orders d !! x_recurring_order_id x)) (executions d);
}.

Lemma wrap_i32_succ n : wrap_i32 (wrap_i32 n + 1) = wrap_i32 (n + 1).
Proof.
  unfold wrap_i32. f_equal.
  replace ((n + 2147483648) mod 4294967296 - 2147483648 + 1 + 2147483648)
    with ((n + 2147483648) mod 4294967296 + 1) by lia.
  rewrite Z.add_mod_idemp_l by discriminate. f_equal. lia.
Qed.

Lemma successes_nonneg id d : 0 <= successes id d.
Proof. unfold successes. lia. Qed.

Lemma successes_app id d x :
  successes id (set_executions (executions d ++ [x]) d)
  = successes id d + if is_success id x then 1 else 0.
Proof.
  unfold successes. simpl. rewrite List.filter_app, length_app. simpl.
  destruct (is_success id x); simpl; lia.
Qed.

(** One execution more of an order that had not reached its limit. *)
Lemma counted_next n r next now :
  0 <= n -> counted n r -> r_status r = RecActive ->
  let total := wrap_i32 (r_total_executions r + 1) in
  counted (n + 1) (set_schedule next (Some now) (status_after total (r_max_executions r)) total now r).
Proof.
  intros Hn [Ht Hm] Hs. unfold counted. simpl. rewrite Ht, wrap_i32_succ. split; [done|].
  destruct (r_max_executions r) as [m|]; [|done]. destruct Hm as (Hi & Hle & Hlt).
  specialize (Hlt (or_introl Hs)). simpl.
  rewrite wrap_i32_id by (unfold i32_min, i32_max in *; lia).
  destruct (m <=? n + 1) eqn:E; to_prop; split_and!; try lia. intros [?|?]; discriminate.
Qed.

Lemma counted_status n s now r :
  counted n r -> (s = RecActive \/ s = RecPaused -> r_status r = RecActive \/ r_status r = RecPaused) ->
  forall next last, counted n (set_schedule next last s (r_total_executions r) now r).
Proof.
  intros [Ht Hm] Hs next last. split; [done|]. simpl. destruct (r_max_executions r); [|done].
  destruct Hm as (? & ? & H). split_and!; auto.
Qed.

(** A change of one row, the executions left as they are. *)
Lemma rec_ok_insert id r d :
  rec_ok d -> r_id r = id -> counted (successes id d) r ->
  rec_ok (set_recurring (<[id := r]> (recurring_orders d)) d).
Proof.
  intros [Hc Hr] Hi Hn. constructor; simpl.
  - intros i x. rewrite lookup_insert. case_decide as E; [|apply Hc]. subst i. by intros [= <-].
  - eapply list.Forall_impl; [exact Hr|]. intros x Hx. apply lookup_insert_is_Some. destruct (decide (id = x_recurring_order_id x)); auto.
Qed.

Lemma rec_ok_base b d : rec_ok d -> rec_ok (set_base b d).
Proof. by intros [? ?]. Qed.

Lemma on_base_row f d d' : on_base f d = Some d' ->
  exists b, f (base d) = Some b /\ d' = set_base b d.
Proof. unfold on_base. intros H. destruct (f (base d)) as [b|] eqn:E; simplify_eq/=. eauto. Qed.

Lemma update_where_row id p f d n d' : update_where id p f d = Some (n, d') ->
  (n = 0%nat /\ d' = d)
  \/ (n = 1%nat /\ exists r, recurring_orders d !! id = Some r /\ p r = true
        /\ d' = set_recurring (<[id := f r]> (recurring_orders d)) d).
Proof.
  unfold update_where. destruct (recurring_orders d !! id) as [r|] eqn:E; [|intros; simplify_eq; auto].
  destruct (p r) eqn:Ep; intros; simplify_eq; [right|auto]. eauto 10.
Qed.

Lemma update_where_ok id p f d n d' :
  (forall r, recurring_orders d !! id = Some r -> p r = true -> r_id (f r) = r_id r
     /\ (counted (successes id d) r -> counted (successes id d) (f r))) ->
  update_where id p f d = Some (n, d') -> rec_ok d -> rec_ok d'.
Proof.
  intros Hf H Hok. apply update_where_row in H as [[_ ->]|(_ & r & Hr & Hp & ->)]; [done|].
  destruct (Hf r Hr Hp) as [Hi Hc]. destruct (rec_counted _ Hok _ _ Hr) as [Hid Hn].
  apply rec_ok_insert; [done|congruence|auto].
Qed.

Lemma update_recurring_row id f d d' :
  update_recurring id f d = Some d' -> is_Some (recurring_orders d' !! id) ->
  exists r, recurring_orders d !! id = Some r
    /\ d' = set_recurring (<[id := f r]> (recurring_orders d)) d.
Proof.
  unfold update_recurring, update_where. intros H Hs.
  destruct (recurring_orders d !! id) as [r|] eqn:E; simplify_eq/=; [eauto|].
  rewrite E in Hs. by destruct Hs.
Qed.

Section execution_rows.
Context `{NUM : Numerics}.

Lemma insert_execution_row x d d' : insert_execution x d = Some d' ->
  is_Some (recurring_orders d !! x_recurring_order_id x)
  /\ exists x', d' = set_executions (executions d ++ [x']) d
     /\ x_recurring_order_id x' = x_recurring_order_id x /\ x_status x' = x_status x
     /\ x_trading_order_id x' = x_trading_order_id x.
Proof.
  unfold insert_execution. intros H. destruct (_ && _) eqn:E; [|done].
  apply andb_true_iff in E as [E _]. apply bool_decide_eq_true in E. split; [done|].
  destruct (num8_opt (x_energy_amount x)); [|done]. cbn in H.
  destruct (num8_opt (x_price_per_kwh x)); [|done]. cbn in H. simplify_eq. by eexists.
Qed.

Lemma insert_recurring_row r d d' : insert_recurring r d = Some d' ->
  recurring_orders d !! r_id r = None
  /\ exists r', d' = set_recurring (<[r_id r := r']> (recurring_orders d)) d
     /\ r_id r' = r_id r /\ r_status r' = r_status r /\ 0 < r_interval_value r'
     /\ r_total_executions r' = r_total_executions r /\ r_max_executions r' = r_max_executions r.
Proof.
  unfold insert_recurring. intros H. repeat case_match; simplify_eq. to_prop.
  split; [done|]. eexists. split; [reflexivity|]. by split_and!.
Qed.

(** An order without executions. *)
Lemma no_successes id d : rec_ok d -> recurring_orders d !! id = None -> successes id d = 0.
Proof.
  intros [_ Hr] Hn. unfold successes. rewrite filter_none; [done|]. intros x Hx.
  rewrite list.Forall_forall in Hr. destruct (Hr x Hx) as [r Hr']. unfold is_success.
  apply andb_false_intro1, N.eqb_neq. congruence.
Qed.

Lemma insert_recurring_ok r d d' :
  r_total_executions r = 0 -> match r_max_executions r with Some m => m <= i32_max | None => True end ->
  insert_recurring r d = Some d' -> rec_ok d -> rec_ok d'.
Proof.
  intros H0 Hm H Hok. apply insert_recurring_row in H as (Hn & r' & -> & Hi & Hs & _ & Ht & Hx).
  apply rec_ok_insert; [done|done|]. rewrite no_successes by done. unfold counted.
  rewrite Ht, Hx, H0. split; [done|]. destruct (r_max_executions r); [|done]. lia.
Qed.

Lemma insert_execution_failed x d d' :
  x_status x <> "success" -> insert_execution x d = Some d' -> rec_ok d ->
  rec_ok d' /\ recurring_orders d' = recurring_orders d.
Proof.
  intros Hs H [Hc Hr]. apply insert_execution_row in H as (Hx & x' & -> & Hi & Hs' & _).
  split; [|done]. constructor.
  - intros id r Hid. destruct (Hc id r Hid) as [? ?]. split; [done|].
    rewrite successes_app. unfold is_success. rewrite Hs', (proj2 (String.eqb_neq _ _) Hs), andb_false_r.
    by rewrite Z.add_0_r.
  - simpl. apply Forall_app. split; [done|]. constructor; [by rewrite Hi|constructor].
Qed.
End execution_rows.

Section executions.
Context `{NUM : Numerics} `{ENV : Env} `{CHR : Chrono}.

(** A stored row after an execution with the values [r]. *)
Definition executed (r : RecurringOrder) (next now : DateTime) (r' : RecurringOrder)
    : RecurringOrder :=
  let total := wrap_i32 (r_total_executions r + 1) in
  set_schedule next (Some now) (status_after total (r_max_executions r)) total now r'.

(** What an execution did, when it returns. *)
Lemma execute_order_row r order_id now w w' :
  execute_order r order_id now w = (Ok tt, w') ->
  exists r' b next x,
    recurring_orders (st w) !! r_id r = Some r'
    /\ insert_order (recurring_row r order_id now) (base (st w)) = Some b
    /\ calculate_next_execution now (r_interval_type r) (r_interval_value r) = Some next
    /\ st w' = {| base := b;
                  recurring_orders := <[r_id r := executed r next now r']> (recurring_orders (st w));
                  executions := executions (st w) ++ [x] |}
    /\ x_recurring_order_id x = r_id r /\ x_status x = "success"
    /\ x_trading_order_id x = Some order_id.
Proof.
  unfold execute_order. intros H. run_steps. norm_st.
  match goal with H : on_base _ _ = Some _ |- _ => apply on_base_row in H as (b & Hb & Hd); rewrite Hd in * end.
  match goal with H : insert_execution _ _ = Some _ |- _ =>
    apply insert_execution_row in H as (Hfk & ex & Hx & Hx1 & Hx2 & Hx3) end.
  match goal with H : update_recurring _ _ _ = Some _ |- _ =>
    apply update_recurring_row in H as (r' & Hr' & Hu); [|exact Hfk] end.
  rewrite Hu in Hx. exists r', b. do 2 eexists. split_and!; try done.
Qed.

(** The loop of the scheduler: the orders still to run are as they were read. *)
Definition as_read (todo : list RecurringOrder) (d : RecDb) : Prop :=
  rec_ok d /\ NoDup (r_id <$> todo)
  /\ Forall (fun r => recurring_orders d !! r_id r = Some r /\ r_status r = RecActive) todo.

Lemma execute_order_ok r todo order_id now w w' :
  execute_order r order_id now w = (Ok tt, w') ->
  as_read (r :: todo) (st w) -> as_read todo (st w').
Proof.
  intros H (Hok & [Hn Hnd]%list.NoDup_cons & [[Hr Ha] Hf]%list.Forall_cons).
  apply execute_order_row in H as (r' & b & next & x & Hr' & _ & _ & Hd & Hx1 & Hx2 & _).
  rewrite Hr in Hr'. apply (inj Some) in Hr' as <-. destruct (rec_counted _ Hok _ _ Hr) as [_ Hc].
  assert (Hs : forall id, successes id (st w') = successes id (st w) + if (id =? r_id r)%N then 1 else 0).
  { intros id. rewrite Hd. unfold successes. simpl. rewrite List.filter_app, length_app. simpl.
    unfold is_success at 2. rewrite Hx1, Hx2, N.eqb_sym. simpl.
    rewrite andb_true_r. destruct (_ =? _)%N; simpl; lia. }
  split_and!; [|done|].
  - constructor.
    + intros id r2 H2. rewrite Hs. rewrite Hd in H2. simpl in H2. rewrite lookup_insert in H2.
      case_decide as E.
      * apply (inj Some) in H2 as <-. subst id. split; [done|]. rewrite N.eqb_refl.
        by apply counted_next; [apply successes_nonneg|..].
      * destruct (rec_counted _ Hok _ _ H2) as [? ?]. split; [done|].
        rewrite (proj2 (N.eqb_neq _ _)), Z.add_0_r by congruence. done.
    + rewrite Hd. simpl. apply Forall_app. split.
      * eapply list.Forall_impl; [apply (rec_refs _ Hok)|]. intros y Hy.
        apply lookup_insert_is_Some. destruct (decide (r_id r = x_recurring_order_id y)); auto.
      * constructor; [|constructor]. rewrite Hx1, lookup_insert_eq. eauto.
  - rewrite list.Forall_forall in *. intros y Hy. destruct (Hf y Hy) as [? ?]. split; [|done].
    rewrite Hd. simpl. rewrite lookup_insert_ne; [done|]. intros E. apply Hn. rewrite E.
    by apply list_elem_of_fmap_2.
Qed.
End executions.

(** ** The invariant *)

Section invariant.
Context `{NUM : Numerics} `{ENV : Env} `{CHR : Chrono}.

(** A request to the handlers, or a check of the scheduler. *)
Inductive RecOp :=
| Create (q : CreateRecurringOrderRequest) (user order_id : Uuid) (now later : DateTime)
| Cancel (order_id user : Uuid) (now : DateTime)
| Pause (order_id user : Uuid) (now : DateTime)
| Resume (order_id user : Uuid) (now later : DateTime)
| Process (fresh : Uuid -> Uuid) (clock : Uuid -> DateTime) (now : DateTime).

Definition run_rec (op : RecOp) : world RecDb Event -> world RecDb Event := fun w =>
  match op with
  | Create q user id now later => snd (create_recurring_order q user id now later w)
  | Cancel id user now => snd (cancel_recurring_order id user now w)
  | Pause id user now => snd (pause_recurring_order id user now w)
  | Resume id user now later => snd (resume_recurring_order id user now later w)
  | Process fresh clock now => snd (process_due_orders fresh clock now w)
  end.

(** [max_executions] is an [i32]. *)
Definition op_ok (op : RecOp) : Prop :=
  match op with
  | Create q _ _ _ _ => match rq_max_executions q with Some m => m <= i32_max | None => True end
  | _ => True
  end.

Lemma update_where_preserves id p f :
  (forall r d, rec_ok d -> recurring_orders d !! id = Some r -> p r = true ->
     r_id (f r) = r_id r /\ (counted (successes id d) r -> counted (successes id d) (f r))) ->
  preserves (T := Event) rec_ok (exec_ret (update_where id p f)).
Proof.
  intros Hf w Hw. unfold exec_ret. pose proof (pop_fault_st w) as Hst.
  destruct (pop_fault w) as [[] w1]; simpl in *; [by rewrite Hst|]. rewrite Hst.
  destruct (update_where id p f (st w)) as [[n d']|] eqn:E; simpl; [|by rewrite Hst].
  eapply update_where_ok; [|exact E|exact Hw]. intros r Hr Hp. by apply Hf.
Qed.

Lemma status_preserves id p s now :
  (forall r, p r = true -> s = RecActive \/ s = RecPaused ->
     r_status r = RecActive \/ r_status r = RecPaused) ->
  preserves (T := Event) rec_ok (exec_ret (update_where id p (set_rec_status s now))).
Proof.
  intros Hp. apply update_where_preserves. intros r d _ _ Hr. split; [done|].
  intros Hc. apply counted_status; auto.
Qed.

Lemma run_due_ok fresh clock r todo w :
  as_read (r :: todo) (st w) -> as_read todo (st (snd (run_due fresh clock r w))).
Proof.
  intros H. unfold run_due, mbind, M_bind, attempt.
  assert (Herr : forall w' : world RecDb Event, st w' = st w -> as_read todo (st w')).
  { intros w' ->. destruct H as (? & [? ?]%list.NoDup_cons & [_ ?]%list.Forall_cons). done. }
  destruct (execute_order r (fresh (r_id r)) (clock (r_id r)) w) as [[[]|e] w1] eqn:E.
  - by eapply execute_order_ok.
  - apply with_tx_Err in E. pose proof (Herr w1 E) as H1.
    assert (P : preserves (as_read todo)
      (ignore (record_execution (r_id r) None "failed" (Some (error_text e))))).
    { apply preserves_ignore, preserves_exec. intros d d' (Hok & Hn & Hf) Hx.
      apply insert_execution_failed in Hx as [? Hr]; [|discriminate|done].
      split_and!; [done..|]. by rewrite Hr. }
    destruct e; simpl; try apply P; done.
Qed.

Lemma due_as_read now d : rec_ok d -> as_read (due_rows now d) d.
Proof.
  intros Hok. assert (Hin : forall r, r ∈ due_rows now d ->
    recurring_orders d !! r_id r = Some r /\ r_status r = RecActive).
  { intros r H%elem_of_take. destruct H as (i & H%list_elem_of_lookup_2 & _).
    rewrite sort_by_perm in H. apply list_elem_of_In, List.filter_In in H as [H Hd].
    apply list_elem_of_In, elem_of_values in H as (id & Hr).
    destruct (rec_counted _ Hok _ _ Hr) as [-> _]. split; [done|].
    unfold due in Hd. apply andb_true_iff in Hd as [Hd _]. by apply bool_decide_eq_true in Hd. }
  split_and!; [done| |by apply list.Forall_forall].
  unfold due_rows. rewrite fmap_take. apply sublist_NoDup with
    (r_id <$> sort_by soonest_first (List.filter (due now) (rec_rows d)));
    [|apply sublist_take].
  rewrite sort_by_perm. apply NoDup_fmap_filter. unfold rec_rows.
  replace (r_id <$> (map_to_list (recurring_orders d)).*2) with (map_to_list (recurring_orders d)).*1;
    [apply NoDup_fst_map_to_list|].
  rewrite <- list_fmap_compose. apply list_fmap_ext. intros i [id r] Hi.
  apply list_elem_of_lookup_2, elem_of_map_to_list in Hi. simpl.
  by destruct (rec_counted _ Hok _ _ Hi).
Qed.

Lemma process_ok fresh clock now : preserves rec_ok (process_due_orders fresh clock now).
Proof.
  intros w Hw. unfold process_due_orders, mbind, M_bind, query. pose proof (pop_fault_st w) as Hst.
  destruct (pop_fault w) as [[] w1]; simpl in *; [by rewrite Hst|]. rewrite Hst.
  pose proof (due_as_read now (st w) Hw) as H. rewrite <- Hst in H at 2. revert H.
  clear Hst Hw. generalize (due_rows now (st w)) as l. revert w1. intros w1 l. revert w1.
  induction l as [|r l IH]; intros w1 H; [by destruct H|].
  apply run_due_ok with (fresh := fresh) (clock := clock) in H. simpl.
  unfold mbind, M_bind. destruct (run_due fresh clock r w1) as [[[]|e] w2]; simpl in *; [by apply IH|].
  by destruct H.
Qed.

Lemma no_such_preserves n text :
  preserves rec_ok (if (n =? 0)%nat then no_such text else mret () : RM unit).
Proof. destruct (n =? 0)%nat; [apply preserves_fail|apply preserves_ret]. Qed.

Lemma run_rec_ok op w : op_ok op -> rec_ok (st w) -> rec_ok (st (run_rec op w)).
Proof.
  intros Ho. destruct op as [q user id now later|id user now|id user now|id user now later|f c now].
  - enough (P : preserves rec_ok (create_recurring_order q user id now later)) by exact (P w).
    unfold create_recurring_order. destruct (_ <=? 0); [apply preserves_fail|].
    apply preserves_bind; [apply preserves_expect|]. intros next.
    apply preserves_bind; [|intros; apply preserves_ret]. apply preserves_map_err, preserves_exec.
    intros d d' Hd Hi. by eapply insert_recurring_ok; [..|exact Hi|exact Hd].
  - enough (P : preserves rec_ok (cancel_recurring_order id user now)) by exact (P w).
    apply preserves_bind; [|intros n; apply no_such_preserves].
    apply preserves_map_err, status_preserves. intros r _ [?|?]; discriminate.
  - enough (P : preserves rec_ok (pause_recurring_order id user now)) by exact (P w).
    apply preserves_bind; [|intros n; apply no_such_preserves].
    apply preserves_map_err, status_preserves.
    intros r [_ H]%andb_true_iff _. left. by apply bool_decide_eq_true in H.
  - enough (P : preserves rec_ok (resume_recurring_order id user now later)) by exact (P w).
    apply preserves_bind; [apply preserves_map_err, preserves_query|]. intros row.
    apply preserves_bind; [apply preserves_expect|]. intros r.
    apply preserves_bind; [apply preserves_expect|]. intros next.
    apply preserves_bind; [|intros n; apply preserves_bind;
      [apply no_such_preserves|intros; apply preserves_ret]].
    apply preserves_map_err, update_where_preserves. intros r' d _ _ [_ H]%andb_true_iff.
    apply bool_decide_eq_true in H. split; [done|]. intros Hc.
    apply counted_status; [done|]. intros _. by right.
  - apply process_ok.
Qed.

(** Any history of requests and checks. *)
Definition history (ops : list RecOp) (w : world RecDb Event) : world RecDb Event :=
  fold_left (fun w op => run_rec op w) ops w.

(** Recurring orders are counted exactly and bounded.  After any history of requests and
    checks of the scheduler, whatever statements the database fails and whatever panics,
    every order's counter is the number of its recorded successful executions (an [i32]),
    and an order with a limit is never executed more often than the limit, or once when the
    limit is not positive; while it may still run it has executions left. *)
Theorem recurring_executions_bounded (ops : list RecOp) (w : world RecDb Event) :
  rec_ok (st w) -> Forall op_ok ops ->
  forall id r, recurring_orders (st (history ops w)) !! id = Some r ->
    let n := successes id (st (history ops w)) in
    r_total_executions r = wrap_i32 n
    /\ forall limit, r_max_executions r = Some limit ->
         n <= Z.max 1 limit /\ (r_status r = RecActive -> n < Z.max 1 limit).
Proof.
  intros Hok Hops id r Hr.
  assert (H : rec_ok (st (history ops w))).
  { clear Hr. revert w Hok. unfold history. induction Hops as [|op ops Ho _ IH]; intros w Hok; [done|].
    simpl. by apply IH, run_rec_ok. }
  destruct (rec_counted _ H _ _ Hr) as (_ & Ht & Hm). split; [done|]. intros limit E.
  rewrite E in Hm. destruct Hm as (_ & ? & ?). auto.
Qed.
End invariant.

(** ** The scheduler and the requests *)

Section scheduler.
Context `{NUM : Numerics} `{ENV : Env} `{CHR : Chrono}.

(** An execution places exactly one order with the terms read, and overwrites whatever
    happened to the recurring order since it was read: when the owner cancelled or paused it
    in between ([r'], with any status), the order is placed all the same and the recurring
    order is active again, or completed. *)
Theorem execution_overwrites_status (r r' : RecurringOrder) (order_id : Uuid) (now : DateTime)
    (w w' : world RecDb Event) :
  recurring_orders (st w) !! r_id r = Some r' ->
  execute_order r order_id now w = (Ok tt, w') ->
  (exists o, orders (base (st w')) = <[order_id := o]> (orders (base (st w)))
     /\ orders (base (st w)) !! order_id = None
     /\ o_user_id o = r_user_id r /\ o_side o = r_side r /\ o_status o = Pending
     /\ num8 (r_energy_amount r) = Some (o_energy_amount o)
     /\ num8 (execution_price r) = Some (o_price_per_kwh o) /\ o_epoch_id o = None)
  /\ only_orders (base (st w)) (base (st w'))
  /\ exists r'', recurring_orders (st w') = <[r_id r := r'']> (recurring_orders (st w))
     /\ (r_status r'' = RecActive \/ r_status r'' = RecCompleted)
     /\ r_total_executions r'' = wrap_i32 (r_total_executions r + 1)
     /\ calculate_next_execution now (r_interval_type r) (r_interval_value r)
        = Some (r_next_execution_at r'').
Proof.
  intros Hr H. apply execute_order_row in H as (r2 & b & next & x & Hr2 & Hi & Hn & -> & _).
  rewrite Hr in Hr2. apply (inj Some) in Hr2 as <-.
  apply insert_order_row in Hi as (Ho & Hfree & o & Hor & He & _ & Hp & _ & _ & Hu & Hs & Hst
    & _ & _ & _ & Hep & _). simpl in *.
  split_and!; [|done|].
  - exists o. by split_and!.
  - eexists. split; [reflexivity|]. split_and!; [|done|done]. simpl. unfold status_after.
    destruct (r_max_executions r); [|auto]. destruct (_ <=? _); auto.
Qed.

(** No price, or a price that is rounded to 0: the table refuses the trading order. *)
Definition unpriced (r : RecurringOrder) : bool :=
  match num8 (execution_price r) with Some p => p <=? 0 | None => true end.

Lemma unpriced_refused r order_id now b :
  unpriced r = true -> insert_order (recurring_row r order_id now) b = None.
Proof.
  intros H. destruct (insert_order _ b) as [b'|] eqn:E; [|done].
  apply insert_order_row in E as (_ & _ & o & _ & _ & _ & Hp & Hp0 & _). simpl in Hp.
  unfold unpriced in H. rewrite Hp in H. to_prop. lia.
Qed.

(** The tables with more failed executions recorded. *)
Definition same_but_executions (d d' : RecDb) : Prop :=
  base d' = base d /\ recurring_orders d' = recurring_orders d.

Lemma run_due_unpriced d0 fresh clock r : unpriced r = true ->
  hoare (same_but_executions d0) (run_due fresh clock r) (fun _ => same_but_executions d0)
    (fun _ => same_but_executions d0).
Proof.
  intros Hu w Hw. unfold run_due, mbind, M_bind, attempt.
  destruct (execute_order r (fresh (r_id r)) (clock (r_id r)) w) as [[[]|e] w1] eqn:E.
  - apply execute_order_row in E as (r' & b & next & x & _ & Hi & _).
    by rewrite unpriced_refused in Hi.
  - apply with_tx_Err in E.
    assert (H : hoare (same_but_executions d0)
      (ignore (record_execution (r_id r) None "failed" (Some (error_text e))))
      (fun _ => same_but_executions d0) (fun _ => same_but_executions d0)).
    { apply hoare_ignore_exec. intros d Hd. split; [done|]. intros d' Hx.
      apply insert_execution_row in Hx as (_ & x & -> & _). exact Hd. }
    destruct e; simpl; try (apply H; by rewrite E). by rewrite E.
Qed.

Lemma due_rows_same now d d' : same_but_executions d d' -> due_rows now d' = due_rows now d.
Proof. intros [_ H]. unfold due_rows, rec_rows. by rewrite H. Qed.

Lemma process_unpriced d0 fresh clock now :
  Forall (fun r => unpriced r = true) (due_rows now d0) ->
  preserves (T := Event) (same_but_executions d0) (process_due_orders fresh clock now).
Proof.
  intros Hall w Hw. enough (H : hoare (same_but_executions d0) (process_due_orders fresh clock now)
    (fun _ => same_but_executions d0) (fun _ => same_but_executions d0)).
  { specialize (H w Hw). by destruct (process_due_orders fresh clock now w) as [[[]|e] w']. }
  unfold process_due_orders.
  eapply hoare_bind with (R := fun l d => l = due_rows now d0 /\ same_but_executions d0 d).
  { apply hoare_query. intros d Hd. split; [|done]. split; [by apply due_rows_same|done]. }
  intros l. apply hoare_pure. intros ->.
  apply (hoare_for_each (fun _ => same_but_executions d0)). intros l1 r l2 Hl.
  apply run_due_unpriced. rewrite Hl in Hall. apply Forall_app in Hall as [_ Hall].
  by apply list.Forall_cons in Hall as [? _].
Qed.
(** The first fifty stay the first fifty. *)
Lemma due_rows_later now now' d : now <= now' -> length (due_rows now d) = 50%nat ->
  due_rows now' d = due_rows now d.
Proof.
  intros Hle Hlen. unfold due_rows in *.
  set (rows := rec_rows d) in *. set (l := List.filter (due now') rows).
  assert (Hl : List.filter (due now) l = List.filter (due now) rows).
  { unfold l. clear -Hle. induction rows as [|r rows IH]; simpl; [done|].
    destruct (due now' r) eqn:E'; simpl; destruct (due now r) eqn:E; rewrite ?IH; try done.
    exfalso. unfold due in *. destruct (bool_decide _); simpl in *; [to_prop; lia|done]. }
  rewrite (sort_by_split soonest_first (due now) l), Hl.
  - rewrite take_app_le; [done|]. rewrite length_take in Hlen. lia.
  - intros x y _ Hy Hx Hy'. apply list_elem_of_In, List.filter_In in Hy as [_ Hy].
    unfold due, soonest_first in *. destruct (bool_decide (r_status y = _)); [|done].
    to_prop. simpl in *. to_prop. split; [apply Z.leb_le; lia|apply Z.leb_gt; lia].
Qed.

(** One check of the scheduler: fresh identifiers, the clock of each execution, and the time. *)
Record SchedulerCheck := {
  ck_fresh : Uuid -> Uuid;
  ck_clock : Uuid -> DateTime;
  ck_now : DateTime;
}.

Definition run_check (c : SchedulerCheck) : RM unit :=
  ignore (process_due_orders (ck_fresh c) (ck_clock c) (ck_now c)).

(** Fifty recurring orders without a price stop the scheduler for everybody.  An order
    whose price is missing fails and stays due; once the fifty orders due longest are such,
    no later check, however many there are, places any trading order or advances any
    recurring order: only failures are recorded. *)
Theorem unpriced_orders_starve (checks : list SchedulerCheck) (now : DateTime)
    (w : world RecDb Event) :
  length (due_rows now (st w)) = 50%nat ->
  Forall (fun r => unpriced r = true) (due_rows now (st w)) ->
  Forall (fun c => now <= ck_now c) checks ->
  let w' := snd (for_each run_check checks w) in
  base (st w') = base (st w) /\ recurring_orders (st w') = recurring_orders (st w).
Proof.
  intros Hlen Hall Hnow. cbv zeta. set (d0 := st w) in *.
  assert (P : forall w1, same_but_executions d0 (st w1) ->
    same_but_executions d0 (st (snd (for_each run_check checks w1)))).
  { induction Hnow as [|c cs Hc _ IH]; [done|]. apply preserves_bind; [|intros []; exact IH].
    apply preserves_ignore, process_unpriced. by rewrite (due_rows_later now). }
  by apply (P w).
Qed.

(** An interval of a hundred million days or more panics the request that creates the
    order, before anything is stored; with one interval of an hour or more the next execution
    lies in the future. *)
Theorem next_execution_bounds (q : CreateRecurringOrderRequest) (user order_id : Uuid)
    (now later : DateTime) (w : world RecDb Event) :
  0 <= later ->
  let v := default 1 (rq_interval_value q) in
  (forall next, 1 <= v -> calculate_next_execution later (rq_interval_type q) v = Some next ->
     later + nanos_per_hour <= next <= max_utc)
  /\ (0 < rq_energy_amount q -> rq_interval_type q <> Hourly -> 100000000 <= v ->
      create_recurring_order q user order_id now later w = (Err FPanic, w)).
Proof.
  intros Hl v. split.
  - intros next Hv H. unfold calculate_next_execution in H. tests.
    split; [|done]. unfold interval_nanos, nanos_per_hour, nanos_per_day in *.
    destruct (rq_interval_type q); lia.
  - intros He Ht Hv. unfold create_recurring_order.
    destruct (rq_energy_amount q <=? 0) eqn:E; to_prop; [lia|]. fold v.
    replace (calculate_next_execution later (rq_interval_type q) v) with (@None DateTime); [done|].
    unfold calculate_next_execution. destruct max_utc_bound as [_ Hm]. symmetry.
    enough (max_utc < later + interval_nanos (rq_interval_type q) v) as H.
    { rewrite (proj2 (Z.leb_gt _ _) H). by rewrite andb_false_r. }
    unfold interval_nanos, nanos_per_day in *. destruct (rq_interval_type q); [done|lia..].
Qed.
End scheduler.

(** ** Witnesses *)
Section witnesses.
#[local] Existing Instance std_numerics.
#[local] Existing Instance demo_env.

#[local] Instance wide_chrono : Chrono := {|
  min_utc := - (95000000 * nanos_per_day);
  max_utc := 95000000 * nanos_per_day;
  min_utc_bound := ltac:(vm_compute; discriminate);
  max_utc_bound := ltac:(split; vm_compute; [discriminate|reflexivity]);
|}.

(** Buys 2 kWh every hour, [limit] times, for at most [price]. *)
Definition demo_recurring (id : Uuid) (price : option Decimal) (limit : option Z)
    : RecurringOrder :=
  {| r_id := id; r_user_id := 1; r_side := Buy; r_energy_amount := dec 2 0;
     r_max_price_per_kwh := price; r_min_price_per_kwh := None; r_interval_type := Hourly;
     r_interval_value := 1; r_next_execution_at := 50; r_last_executed_at := None;
     r_status := RecActive; r_total_executions := 0; r_max_executions := limit;
     r_name := None; r_description := None; r_created_at := 0; r_updated_at := 0;
     r_session_token := None |}.

Definition rec_world (rows : list RecurringOrder) : world RecDb Event :=
  World {| base := book_db; recurring_orders := list_to_map ((fun r => (r_id r, r)) <$> rows);
           executions := [] |} [] [].

Definition once : RecurringOrder := demo_recurring 5 (Some (dec 3 0)) (Some 1).
Definition two_checks : list RecOp :=
  [Process (fun id => (100 + id)%N) (fun _ => 100) 100;
   Resume 5 1 200 200;
   Process (fun id => (200 + id)%N) (fun _ => 300) 300].

Lemma recurring_executions_bounded_witness :
  let d := st (history two_checks (rec_world [once])) in
  (r_status <$> recurring_orders d !! 5%N) = Some RecCompleted
  /\ successes 5 d = 1 /\ successes 5 d <= Z.max 1 1.
Proof.
  cbv zeta. split; [vm_compute; reflexivity|]. split; [vm_compute; reflexivity|].
  assert (E : exists r, recurring_orders (st (history two_checks (rec_world [once]))) !! 5%N = Some r
    /\ r_max_executions r = Some 1).
  { eexists. split; vm_compute; reflexivity. }
  destruct E as (r & Hr & Hm).
  apply (recurring_executions_bounded two_checks (rec_world [once])) with (id := 5%N) (r := r);
    [| |exact Hr|exact Hm].
  - constructor; [|constructor]. apply map_Forall_insert_2; [|apply map_Forall_empty].
    split; [reflexivity|]. split; [reflexivity|]. cbn. unfold i32_max, successes. simpl. lia.
  - repeat constructor.
Defined.

Definition cancelled_once : RecurringOrder := set_rec_status RecCancelled 60 once.

Lemma execution_overwrites_status_witness :
  let w := rec_world [cancelled_once] in
  let w' := snd (execute_order once 105 100 w) in
  exists r'', recurring_orders (st w') !! 5%N = Some r''
    /\ (r_status r'' = RecActive \/ r_status r'' = RecCompleted).
Proof.
  cbv zeta. assert (E : fst (execute_order once 105 100 (rec_world [cancelled_once])) = Ok tt)
    by (vm_compute; reflexivity).
  destruct (execute_order once 105 100 (rec_world [cancelled_once])) as [r w'] eqn:Ex.
  cbn [fst snd] in *. subst r.
  destruct (execution_overwrites_status once cancelled_once 105 100 (rec_world [cancelled_once]) w' eq_refl Ex)
    as (_ & _ & r'' & Hr & Hs & _).
  exists r''. split; [|exact Hs]. rewrite Hr. apply lookup_insert_eq.
Defined.

(** Fifty orders without a price, and one that is due later. *)
Definition starved : list RecurringOrder :=
  (fun n => demo_recurring (10 + N.of_nat n) None None) <$> seq 0 50.
Definition starving : SchedulerCheck :=
  {| ck_fresh id := (100 + id)%N; ck_clock _ := 60; ck_now := 60 |}.

Lemma unpriced_orders_starve_witness :
  base (st (snd (for_each run_check [starving; starving] (rec_world starved)))) = book_db.
Proof.
  apply (unpriced_orders_starve [starving; starving] 50 (rec_world starved)).
  - vm_compute. reflexivity.
  - apply list.Forall_forall. intros r Hr.
    assert (H : forallb unpriced (due_rows 50 (st (rec_world starved))) = true)
      by (vm_compute; reflexivity).
    apply (proj1 (forallb_forall _ _) H). by apply list_elem_of_In.
  - repeat constructor; vm_compute; discriminate.
Defined.

Definition far_away : CreateRecurringOrderRequest :=
  {| rq_side := Buy; rq_energy_amount := dec 2 0; rq_max_price_per_kwh := Some (dec 3 0);
     rq_min_price_per_kwh := None; rq_interval_type := Daily;
     rq_interval_value := Some 2000000000; rq_max_executions := None; rq_name := None;
     rq_description := None; rq_session_token := None |}.

Lemma next_execution_bounds_witness :
  create_recurring_order far_away 1 5 7 8 (rec_world []) = (Err FPanic, rec_world [])
  /\ exists next, calculate_next_execution 8 Daily 2 = Some next /\ 8 + nanos_per_hour <= next.
Proof.
  split.
  - apply (next_execution_bounds far_away 1 5 7 8 (rec_world [])); vm_compute; congruence.
  - eexists. split; [vm_compute; reflexivity|]. vm_compute. discriminate.
Defined.
End witnesses.
