(* ===== verification/Futures.v ===== *)
(** Futures: [src/services/futures/mod.rs], with the tables of
    [src/migrations/20251214000000_add_futures_tables.sql].

    The identifiers the database generates are arguments.  Side and type of an order are
    texts the statement casts to enumerations; a cast that fails rejects the statement. *)
From S2P Require Import Prelude Numerics Errors Store Schema Escrow Orders Settlement.

Open Scope string_scope.
Open Scope Z_scope.

(** ** Data *)

Inductive FuturesSide := Long | Short.
Inductive FuturesType := FMarket | FLimit.
Inductive FuturesStatus := FPending | FOpen | FFilled | FCancelled | FLiquidated.

#[global] Instance FuturesSide_eq_dec : EqDecision FuturesSide.
Proof. solve_decision. Defined.
#[global] Instance FuturesStatus_eq_dec : EqDecision FuturesStatus.
Proof. solve_decision. Defined.

(** The casts to the enumerations, and back. *)
Definition cast_side (text : string) : option FuturesSide :=
  if (text =? "long")%string then Some Long
  else if (text =? "short")%string then Some Short else None.

Definition cast_type (text : string) : option FuturesType :=
  if (text =? "market")%string then Some FMarket
  else if (text =? "limit")%string then Some FLimit else None.

Definition side_text (s : FuturesSide) : string :=
  match s with Long => "long" | Short => "short" end.

Record FuturesProduct := {
  fp_id : Uuid;
  fp_symbol : string;
  fp_base_asset : string;
  fp_quote_asset : string;
  fp_contract_size : Decimal;
  fp_expiration_date : DateTime;
  fp_current_price : Decimal;
  fp_is_active : option bool;
}.

Record FuturesOrder := {
  fo_id : Uuid;
  fo_user_id : Uuid;
  fo_product_id : Uuid;
  fo_side : FuturesSide;
  fo_order_type : FuturesType;
  fo_quantity : Decimal;
  fo_price : Decimal;
  fo_leverage : Z;
  fo_status : FuturesStatus;
  fo_filled_quantity : option Decimal;
  fo_average_fill_price : option Decimal;
  fo_created_at : DateTime;
}.

Record FuturesPosition := {
  pos_id : Uuid;
  pos_user_id : Uuid;
  pos_product_id : Uuid;
  pos_side : FuturesSide;
  pos_quantity : Decimal;
  pos_entry_price : Decimal;
  pos_current_price : Decimal;
  pos_leverage : Z;
  pos_margin_used : Decimal;
  pos_unrealized_pnl : option Decimal;
  pos_liquidation_price : option Decimal;
}.

Record FutDb := {
  fut_users : gmap Uuid User;
  products : gmap Uuid FuturesProduct;
  futures_orders : gmap Uuid FuturesOrder;
  positions : gmap Uuid FuturesPosition;
}.

Abbreviation FM := (M FutDb Event).

Definition set_futures_orders (m : gmap Uuid FuturesOrder) (d : FutDb) : FutDb :=
  {| fut_users := fut_users d; products := products d; futures_orders := m;
     positions := positions d |}.
Definition set_positions (m : gmap Uuid FuturesPosition) (d : FutDb) : FutDb :=
  {| fut_users := fut_users d; products := products d; futures_orders := futures_orders d;
     positions := m |}.

(** ** Statements *)

Definition same_slot (p q : FuturesPosition) : bool :=
  (pos_user_id p =? pos_user_id q)%N && (pos_product_id p =? pos_product_id q)%N
  && bool_decide (pos_side p = pos_side q).

(** [UNIQUE(user_id, product_id, side)]. *)
Definition slot_free (p : FuturesPosition) (d : FutDb) : bool :=
  negb (existsb (same_slot p) (map_to_list (positions d)).*2).

Section futures.
Context `{NUM : Numerics} `{ENV : Env}.

Definition insert_futures_order (o : FuturesOrder) (d : FutDb) : option FutDb :=
  match fut_users d !! fo_user_id o, products d !! fo_product_id o, futures_orders d !! fo_id o,
        num8 (fo_quantity o), num8 (fo_price o), num8_opt (fo_filled_quantity o),
        num8_opt (fo_average_fill_price o) with
  | Some _, Some _, None, Some q, Some p, Some fq, Some ap =>
      Some (set_futures_orders (<[fo_id o :=
        {| fo_id := fo_id o; fo_user_id := fo_user_id o; fo_product_id := fo_product_id o;
           fo_side := fo_side o; fo_order_type := fo_order_type o; fo_quantity := q;
           fo_price := p; fo_leverage := fo_leverage o; fo_status := fo_status o;
           fo_filled_quantity := fq; fo_average_fill_price := ap;
           fo_created_at := fo_created_at o |}]> (futures_orders d)) d)
  | _, _, _, _, _, _, _ => None
  end.

Definition insert_position (p : FuturesPosition) (d : FutDb) : option FutDb :=
  match fut_users d !! pos_user_id p, products d !! pos_product_id p, positions d !! pos_id p,
        num8 (pos_quantity p), num8 (pos_entry_price p), num8 (pos_current_price p),
        num8 (pos_margin_used p) with
  | Some _, Some _, None, Some q, Some e, Some c, Some m =>
      if slot_free p d then
        Some (set_positions (<[pos_id p :=
          {| pos_id := pos_id p; pos_user_id := pos_user_id p;
             pos_product_id := pos_product_id p; pos_side := pos_side p; pos_quantity := q;
             pos_entry_price := e; pos_current_price := c; pos_leverage := pos_leverage p;
             pos_margin_used := m; pos_unrealized_pnl := pos_unrealized_pnl p;
             pos_liquidation_price := pos_liquidation_price p |}]> (positions d)) d)
      else None
  | _, _, _, _, _, _, _ => None
  end.

Definition fill_order (order_id : Uuid) (quantity price : Decimal) (d : FutDb) : option FutDb :=
  match futures_orders d !! order_id with
  | None => Some d
  | Some o =>
      q ← num8 quantity; p ← num8 price;
      Some (set_futures_orders (<[order_id :=
        {| fo_id := fo_id o; fo_user_id := fo_user_id o; fo_product_id := fo_product_id o;
           fo_side := fo_side o; fo_order_type := fo_order_type o; fo_quantity := fo_quantity o;
           fo_price := fo_price o; fo_leverage := fo_leverage o; fo_status := FFilled;
           fo_filled_quantity := Some q; fo_average_fill_price := Some p;
           fo_created_at := fo_created_at o |}]> (futures_orders d)) d)
  end.

Definition delete_position (position_id : Uuid) (d : FutDb) : option FutDb :=
  Some (set_positions (delete position_id (positions d)) d).

(** ** Operations *)

(** [.map_err(|e| ApiError::Internal(e.to_string()))]. *)
Definition as_internal {A} (m : FM A) : FM A :=
  map_err (fun e => match e with FDb => FApi (Internal db_error_text) | _ => e end) m.

Definition get_products : FM (list FuturesProduct) :=
  as_internal (query (fun d => List.filter (fun p => bool_decide (fp_is_active p = Some true))
                                 (map_to_list (products d)).*2)).

Definition create_order (user_id product_id : Uuid) (side order_type : string)
    (quantity price : Decimal) (leverage : Z) (order_id position_id : Uuid) (now : DateTime)
    : FM Uuid :=
  if quantity <=? 0 then fail (FApi (BadRequest "Quantity must be positive"))
  else
    margin_required ← expect FPanic (ddiv (dmul quantity price) (dec leverage 0));
    as_internal (exec (fun d =>
      s ← cast_side side; t ← cast_type order_type;
      insert_futures_order
        {| fo_id := order_id; fo_user_id := user_id; fo_product_id := product_id; fo_side := s;
           fo_order_type := t; fo_quantity := quantity; fo_price := price;
           fo_leverage := leverage; fo_status := FPending; fo_filled_quantity := Some 0;
           fo_average_fill_price := None; fo_created_at := now |} d)) ;;
    (if (order_type =? "market")%string then
       as_internal (exec (fun d =>
         s ← cast_side side;
         insert_position
           {| pos_id := position_id; pos_user_id := user_id; pos_product_id := product_id;
              pos_side := s; pos_quantity := quantity; pos_entry_price := price;
              pos_current_price := price; pos_leverage := leverage;
              pos_margin_used := margin_required; pos_unrealized_pnl := Some 0;
              pos_liquidation_price := None |} d)) ;;
       as_internal (exec (fill_order order_id quantity price))
     else mret ()) ;;
    mret order_id.

(** The JOIN with the products. *)
Definition get_positions (user_id : Uuid) : FM (list (FuturesPosition * string)) :=
  as_internal (query (fun d => omap (fun p =>
    if (pos_user_id p =? user_id)%N
    then (fun prod => (p, fp_symbol prod)) <$> products d !! pos_product_id p
    else None) (map_to_list (positions d)).*2)).

Definition latest_order (a b : FuturesOrder) : bool := fo_created_at b <=? fo_created_at a.

Definition get_user_orders (user_id : Uuid) : FM (list (FuturesOrder * string)) :=
  as_internal (query (fun d => take 50 (omap (fun o =>
    (fun prod => (o, fp_symbol prod)) <$> products d !! fo_product_id o)
    (sort_by latest_order (List.filter (fun o => (fo_user_id o =? user_id)%N
      && bool_decide (is_Some (products d !! fo_product_id o)))
      (map_to_list (futures_orders d)).*2))))).

Definition position_of (user_id position_id : Uuid) (d : FutDb) : option FuturesPosition :=
  p ← positions d !! position_id; if (pos_user_id p =? user_id)%N then Some p else None.

(** The order that records the closing of [p]. *)
Definition closing_order (user_id order_id : Uuid) (p : FuturesPosition) (now : DateTime)
    : FuturesOrder :=
  let close_side := match pos_side p with Long => Short | Short => Long end in
  {| fo_id := order_id; fo_user_id := user_id; fo_product_id := pos_product_id p;
     fo_side := close_side; fo_order_type := FMarket; fo_quantity := pos_quantity p;
     fo_price := pos_current_price p; fo_leverage := 1; fo_status := FFilled;
     fo_filled_quantity := Some (pos_quantity p);
     fo_average_fill_price := Some (pos_current_price p); fo_created_at := now |}.

Definition close_position (user_id position_id order_id : Uuid) (now : DateTime) : FM Uuid :=
  row ← as_internal (query (position_of user_id position_id));
  position ← expect (FApi (BadRequest "Position not found")) row;
  as_internal (exec (insert_futures_order (closing_order user_id order_id position now))) ;;
  as_internal (exec (delete_position position_id)) ;;
  mret order_id.
End futures.

(** ** What the operations do *)

Section outcomes.
Context `{NUM : Numerics} `{ENV : Env}.

(** [d] is [d0] with the order [o] stored, and perhaps the position [p]. *)
Definition placed (o : FuturesOrder) (d0 d : FutDb) : Prop :=
  futures_orders d = <[fo_id o := o]> (futures_orders d0)
  /\ futures_orders d0 !! fo_id o = None
  /\ fut_users d = fut_users d0 /\ products d = products d0.

Definition opened (p : FuturesPosition) (d0 d : FutDb) : Prop :=
  positions d = <[pos_id p := p]> (positions d0)
  /\ positions d0 !! pos_id p = None /\ slot_free p d0 = true.

Lemma insert_futures_order_row o d d' : insert_futures_order o d = Some d' ->
  exists o', placed o' d d' /\ positions d' = positions d
    /\ fo_id o' = fo_id o /\ fo_user_id o' = fo_user_id o /\ fo_product_id o' = fo_product_id o
    /\ fo_side o' = fo_side o /\ fo_order_type o' = fo_order_type o /\ fo_status o' = fo_status o
    /\ num8 (fo_quantity o) = Some (fo_quantity o') /\ num8 (fo_price o) = Some (fo_price o')
    /\ fo_leverage o' = fo_leverage o
    /\ num8_opt (fo_filled_quantity o) = Some (fo_filled_quantity o')
    /\ num8_opt (fo_average_fill_price o) = Some (fo_average_fill_price o').
Proof.
  unfold insert_futures_order. intros H. repeat case_match; simplify_eq.
  match goal with |- context [<[_ := ?x]> _] => exists x end.
  split; [by split_and!|]. by split_and!.
Qed.

Lemma insert_position_row p d d' : insert_position p d = Some d' ->
  exists p', opened p' d d' /\ futures_orders d' = futures_orders d
    /\ fut_users d' = fut_users d /\ products d' = products d
    /\ pos_id p' = pos_id p /\ pos_user_id p' = pos_user_id p
    /\ pos_product_id p' = pos_product_id p /\ pos_side p' = pos_side p
    /\ num8 (pos_quantity p) = Some (pos_quantity p')
    /\ num8 (pos_entry_price p) = Some (pos_entry_price p')
    /\ num8 (pos_current_price p) = Some (pos_current_price p')
    /\ num8 (pos_margin_used p) = Some (pos_margin_used p')
    /\ pos_leverage p' = pos_leverage p /\ pos_unrealized_pnl p' = pos_unrealized_pnl p.
Proof.
  unfold insert_position. intros H. repeat case_match; simplify_eq.
  match goal with |- context [<[_ := ?x]> _] => exists x end.
  split; [by split_and!|]. by split_and!.
Qed.

(** The order and the position of a request. *)
Definition order_of (user product id : Uuid) (s : FuturesSide) (t : FuturesType)
    (quantity price : Decimal) (leverage : Z) (st : FuturesStatus) (o : FuturesOrder) : Prop :=
  fo_id o = id /\ fo_user_id o = user /\ fo_product_id o = product /\ fo_side o = s
  /\ fo_order_type o = t /\ fo_status o = st /\ fo_leverage o = leverage
  /\ num8 quantity = Some (fo_quantity o) /\ num8 price = Some (fo_price o)
  /\ (st = FFilled -> fo_filled_quantity o = Some (fo_quantity o)
                      /\ fo_average_fill_price o = Some (fo_price o)).

Definition position_for (user product id : Uuid) (s : FuturesSide) (quantity price : Decimal)
    (leverage : Z) (margin : Decimal) (p : FuturesPosition) : Prop :=
  pos_id p = id /\ pos_user_id p = user /\ pos_product_id p = product /\ pos_side p = s
  /\ num8 quantity = Some (pos_quantity p) /\ num8 price = Some (pos_entry_price p)
  /\ pos_current_price p = pos_entry_price p /\ num8 margin = Some (pos_margin_used p)
  /\ pos_leverage p = leverage /\ pos_unrealized_pnl p = Some 0.

(** The three states a request can leave. *)
Definition only_order user product oid s t q p lev (d0 d : FutDb) : Prop :=
  positions d = positions d0
  /\ exists o, placed o d0 d /\ order_of user product oid s t q p lev FPending o.

Definition order_and_position user product oid pid s q p lev margin status (d0 d : FutDb) : Prop :=
  exists o pos, placed o d0 d /\ opened pos d0 d
    /\ order_of user product oid s FMarket q p lev status o
    /\ position_for user product pid s q p lev margin pos.

Lemma fill_order_row oid q p d0 d d' user product s lev pid margin :
  order_and_position user product oid pid s q p lev margin FPending d0 d ->
  fill_order oid q p d = Some d' ->
  order_and_position user product oid pid s q p lev margin FFilled d0 d'.
Proof.
  intros (o & pos & (Ho & Hf & Hu & Hpr) & Hop & (Hi & Huo & Hpo & Hs & Ht & _ & Hl & Hq & Hp & _) & Hpos) H.
  unfold fill_order in H. rewrite Ho, <- Hi, lookup_insert_eq, Hq, Hp in H. simpl in H.
  injection H as <-. rewrite insert_insert_eq.
  match goal with |- context [<[_ := ?x]> _] => exists x, pos end. split_and!; [|exact Hop| |exact Hpos].
  - split_and!; [reflexivity|exact Hf|exact Hu|exact Hpr].
  - unfold order_of. cbn. split_and!; congruence || done.
Qed.

(** Every outcome of an order that passes the checks. *)
Definition create_result user product side type q price lev margin oid pid (d0 : FutDb)
    (r : res failure Uuid) (d : FutDb) : Prop :=
  exists s t, cast_side side = Some s /\ cast_type type = Some t /\
  match r with
  | Ok id => id = oid /\
      match t with
      | FLimit => only_order user product oid s FLimit q price lev d0 d
      | FMarket => order_and_position user product oid pid s q price lev margin FFilled d0 d
      end
  | Err _ => t = FMarket /\
      (only_order user product oid s FMarket q price lev d0 d
       \/ order_and_position user product oid pid s q price lev margin FPending d0 d)
  end.

Lemma cast_market t : cast_type "market" = Some t -> t = FMarket.
Proof. by intros [= <-]. Qed.

Lemma hoare_as_internal {A} (m : FM A) P Q (E : failure -> FutDb -> Prop) :
  hoare P m Q (fun e d => e = FDb /\ E (FApi (Internal db_error_text)) d) ->
  hoare P (as_internal m) Q E.
Proof.
  intros H w Hw. specialize (H w Hw). unfold as_internal, map_err.
  destruct (m w) as [[a|e] w']; [done|]. by destruct H as [-> H].
Qed.

Lemma create_order_spec user product side type q price lev margin oid pid now d0 :
  0 < q -> ddiv (dmul q price) (dec lev 0) = Some margin ->
  hoare (fun d => d = d0) (create_order user product side type q price lev oid pid now)
    (fun id d => create_result user product side type q price lev margin oid pid d0 (Ok id) d)
    (fun e d => e = FApi (Internal db_error_text)
       /\ (d = d0 \/ create_result user product side type q price lev margin oid pid d0 (Err e) d)).
Proof.
  intros Hq Hm. unfold create_order. destruct (q <=? 0) eqn:E; to_prop; [lia|]. rewrite Hm.
  eapply hoare_bind with (R := fun m d => m = margin /\ d = d0); [by apply hoare_ret; auto|].
  intros m. apply hoare_pure. intros ->.
  eapply hoare_bind with (R := fun _ d => exists s t, cast_side side = Some s
      /\ cast_type type = Some t /\ only_order user product oid s t q price lev d0 d).
  { apply hoare_as_internal, hoare_exec. intros d ->. split; [by auto|]. intros d' H.
    destruct (cast_side side) as [s|]; [|done]. destruct (cast_type type) as [t|]; [|done].
    cbn in H. apply insert_futures_order_row in H as (o & Hpl & Hpos & ? & ? & ? & ? & ? & ? & ? & ? & ? & _).
    exists s, t. split_and!; [done..|]. split; [done|]. exists o. split; [done|]. by split_and!. }
  intros [].
  eapply hoare_bind with (R := fun _ d => create_result user product side type q price lev margin oid pid d0 (Ok oid) d);
    [|intros []; apply hoare_ret; intros d H; exact H].
  destruct (type =? "market")%string eqn:Et; to_prop; cycle 1.
  { apply hoare_ret. intros d (s & t & Hs & Ht & Ho). exists s, t. split_and!; [done..|].
    unfold cast_type in Ht. rewrite (proj2 (String.eqb_neq _ _) Et) in Ht.
    by destruct (type =? "limit")%string; simplify_eq. }
  subst type.
  eapply hoare_bind with (R := fun _ d => exists s, cast_side side = Some s
      /\ order_and_position user product oid pid s q price lev margin FPending d0 d);
    [|intros []]; apply hoare_as_internal, hoare_exec.
  - intros d (s & t & Hs & Ht & Ho). apply cast_market in Ht as ->. split.
    { split; [done|]. split; [done|]. right. exists s, FMarket. auto. }
    intros d' H. rewrite Hs in H. cbn in H. destruct Ho as (Hp & o & (Ho & Hf & Hu & Hpr) & Hor).
    apply insert_position_row in H as (p & (Hpo & Hfree & Hslot) & Ho' & Hu' & Hpr' & ? & ? & ? & ? & ? & He & Hc & ? & ? & ?).
    simpl in *. exists s. split; [done|]. exists o, p. split_and!; [| |exact Hor|].
    + unfold placed. by rewrite Ho', Hu', Hpr'.
    + unfold opened, slot_free in *. rewrite Hp in *. done.
    + split_and!; congruence || done.
  - intros d (s & Hs & Ho). split.
    { split; [done|]. split; [done|]. right. exists s, FMarket. auto. }
    intros d' H. exists s, FMarket. split_and!; [done..|]. eapply fill_order_row; [exact Ho|exact H].
Qed.

(** Every outcome of a futures order.  A zero leverage panics the request; an accepted
    limit order is stored pending, an accepted market order is stored filled with a position
    of its quantity at its price and of margin quantity * price / leverage.  The statements
    are not one transaction: a market order that fails may leave its pending order behind,
    with or without the position. *)
Theorem futures_order_outcome (user product : Uuid) (side type : string) (q price : Decimal)
    (lev : Z) (oid pid : Uuid) (now : DateTime) (w : world FutDb Event) :
  let '(r, w') := create_order user product side type q price lev oid pid now w in
  (q <= 0 -> r = Err (FApi (BadRequest "Quantity must be positive")) /\ w' = w)
  /\ (0 < q -> lev = 0 -> r = Err FPanic /\ w' = w)
  /\ (forall margin, 0 < q -> ddiv (dmul q price) (dec lev 0) = Some margin ->
        match r with
        | Ok _ => create_result user product side type q price lev margin oid pid (st w) r (st w')
        | Err e => e = FApi (Internal db_error_text)
            /\ (st w' = st w
                \/ create_result user product side type q price lev margin oid pid (st w) r (st w'))
        end).
Proof.
  destruct (create_order user product side type q price lev oid pid now w) as [r w'] eqn:Ex.
  split_and!.
  - intros Hq. unfold create_order in Ex. rewrite (proj2 (Z.leb_le q 0) Hq) in Ex. by injection Ex.
  - intros Hq ->. unfold create_order in Ex. rewrite (proj2 (Z.leb_gt q 0) Hq) in Ex.
    change (dec 0 0) with 0 in Ex. rewrite ddiv_zero in Ex. by injection Ex.
  - intros margin Hq Hm.
    pose proof (create_order_spec user product side type q price lev margin oid pid now (st w) Hq Hm w eq_refl) as H.
    rewrite Ex in H. by destruct r.
Qed.

(** ** Closing, and the positions over time *)

(** A position as it is stored: it never leaves its entry price. *)
Definition flat (p : FuturesPosition) : Prop :=
  pos_current_price p = pos_entry_price p /\ pos_unrealized_pnl p = Some 0
  /\ (G8 | pos_entry_price p) /\ (G8 | pos_quantity p).

Record fut_ok (d : FutDb) : Prop := {
  fut_flat : forall id p, positions d !! id = Some p -> pos_id p = id /\ flat p;
  fut_slots : forall i j p q, positions d !! i = Some p -> positions d !! j = Some q ->
    same_slot p q = true -> i = j;
  fut_filled : forall id o, futures_orders d !! id = Some o -> fo_status o = FFilled ->
    fo_filled_quantity o = Some (fo_quantity o) /\ fo_average_fill_price o = Some (fo_price o);
}.

Lemma same_slot_sym p q : same_slot p q = same_slot q p.
Proof.
  unfold same_slot. rewrite (N.eqb_sym (pos_user_id p)), (N.eqb_sym (pos_product_id p)).
  f_equal. apply bool_decide_ext. split; by intros ->.
Qed.

Lemma slot_free_spec p d : slot_free p d = true ->
  forall i q, positions d !! i = Some q -> same_slot p q = false.
Proof.
  unfold slot_free. intros H i q Hq. apply not_true_is_false. intros E.
  apply negb_true_iff in H. assert (existsb (same_slot p) (map_to_list (positions d)).*2 = true);
    [|congruence].
  apply existsb_exists. exists q. split; [|done]. apply list_elem_of_In, elem_of_values. eauto.
Qed.

Lemma placed_ok o d0 d : placed o d0 d -> positions d = positions d0 ->
  (fo_status o = FFilled -> fo_filled_quantity o = Some (fo_quantity o)
                            /\ fo_average_fill_price o = Some (fo_price o)) ->
  fut_ok d0 -> fut_ok d.
Proof.
  intros (Ho & _) Hp Hf [F1 F2 F3]. constructor; rewrite ?Hp; [exact F1|exact F2|].
  intros id o'. rewrite Ho, lookup_insert. case_decide; [intros [= <-]; done|apply F3].
Qed.

Lemma opened_ok o p d0 d : placed o d0 d -> opened p d0 d -> flat p ->
  (fo_status o = FFilled -> fo_filled_quantity o = Some (fo_quantity o)
                            /\ fo_average_fill_price o = Some (fo_price o)) ->
  fut_ok d0 -> fut_ok d.
Proof.
  intros (Ho & _) (Hp & Hn & Hs) Hfl Hf [F1 F2 F3]. pose proof (slot_free_spec _ _ Hs) as Hfree.
  constructor; rewrite ?Hp.
  - intros id q. rewrite lookup_insert. case_decide as E; [intros [= <-]; by subst|apply F1].
  - intros i j q r. rewrite !lookup_insert. repeat case_decide; subst; try congruence.
    + intros [= <-] Hr E. rewrite (Hfree _ _ Hr) in E. done.
    + intros Hq [= <-] E. rewrite same_slot_sym, (Hfree _ _ Hq) in E. done.
    + apply F2.
  - intros id o'. rewrite Ho, lookup_insert. case_decide; [intros [= <-]; done|apply F3].
Qed.

Lemma create_result_ok user product side type q price lev margin oid pid d0 r d :
  create_result user product side type q price lev margin oid pid d0 r d -> fut_ok d0 -> fut_ok d.
Proof.
  intros (s & t & _ & _ & H) Hok.
  assert (H1 : forall t, only_order user product oid s t q price lev d0 d -> fut_ok d).
  { intros t' (Hp & o & Hpl & (_ & _ & _ & _ & _ & Hst & _)). eapply placed_ok; eauto.
    by rewrite Hst. }
  assert (H2 : forall st, order_and_position user product oid pid s q price lev margin st d0 d -> fut_ok d).
  { intros st (o & p & Hpl & Hop & Ho & Hpos). destruct Ho as (_ & _ & _ & _ & _ & Hst & _ & _ & _ & Hf).
    destruct Hpos as (_ & _ & _ & _ & Hq & Hpr & Hc & _ & _ & Hu).
    eapply opened_ok; eauto; [|by rewrite Hst]. split_and!; [done|done|by eapply num8_on_grid..]. }
  destruct r as [id|e]; [destruct H as [_ H]; destruct t|destruct H as [_ [H|H]]]; eauto.
Qed.

Lemma close_position_spec user pid oid now d0 :
  hoare (fun d => d = d0) (close_position user pid oid now)
    (fun id d => id = oid /\ exists p d1, position_of user pid d0 = Some p
       /\ insert_futures_order (closing_order user oid p now) d0 = Some d1
       /\ d = set_positions (delete pid (positions d1)) d1)
    (fun e d => e <> FPanic /\ (d = d0 \/ exists p, position_of user pid d0 = Some p
       /\ insert_futures_order (closing_order user oid p now) d0 = Some d)).
Proof.
  unfold close_position.
  eapply hoare_bind with (R := fun row d => row = position_of user pid d0 /\ d = d0).
  { apply hoare_as_internal, hoare_query. intros d ->. split; [done|]. split; [done|]. auto. }
  intros row. apply hoare_pure. intros ->.
  eapply hoare_bind with (R := fun p d => position_of user pid d0 = Some p /\ d = d0).
  { apply hoare_expect. intros d ->. by destruct (position_of user pid d0); [|split; [discriminate|left]]. }
  intros p. apply hoare_pure. intros Hp.
  eapply hoare_bind with (R := fun _ d => insert_futures_order (closing_order user oid p now) d0 = Some d).
  { apply hoare_as_internal, hoare_exec. intros d ->. split; [|done]. split; [done|].
    split; [discriminate|auto]. }
  intros [].
  eapply hoare_bind with (R := fun _ d => exists d1,
    insert_futures_order (closing_order user oid p now) d0 = Some d1
    /\ d = set_positions (delete pid (positions d1)) d1); [|intros []; apply hoare_ret].
  - apply hoare_as_internal, hoare_exec. intros d Hd. split.
    + split; [done|]. split; [discriminate|]. right. eauto.
    + intros d' [= <-]. eauto.
  - intros d (d1 & H & ->). split; [done|]. eauto 10.
Qed.

Lemma closing_order_row user oid p now d0 d : flat p ->
  insert_futures_order (closing_order user oid p now) d0 = Some d ->
  exists o, placed o d0 d /\ positions d = positions d0 /\ fo_id o = oid /\ fo_user_id o = user
    /\ fo_product_id o = pos_product_id p /\ fo_side o <> pos_side p
    /\ fo_quantity o = pos_quantity p /\ fo_price o = pos_entry_price p /\ fo_status o = FFilled
    /\ fo_filled_quantity o = Some (fo_quantity o) /\ fo_average_fill_price o = Some (fo_price o).
Proof.
  intros (Hc & _ & Ge & Gq) H. apply insert_futures_order_row in H
    as (o & Hpl & Hpos & ? & ? & ? & Hs & _ & ? & Hq & Hp & _ & Hfq & Hap).
  simpl in *. rewrite Hc in *. pose proof (num8_id _ _ Gq Hq) as Eq. pose proof (num8_id _ _ Ge Hp) as Ep.
  rewrite Hq in Hfq. rewrite Hp in Hap. simpl in *. injection Hfq as Hfq. injection Hap as Hap.
  exists o. split_and!; try done; try congruence. rewrite Hs. by destruct (pos_side p).
Qed.

(** Closing a position, in every outcome.  On success it is gone and one filled order
    of the opposite side records its quantity, at its entry price.  The two statements are
    not one transaction: when the deletion fails the closing order stays and so does the
    position, which can be closed again. *)
Theorem close_position_outcome (user pid oid : Uuid) (now : DateTime) (w : world FutDb Event) :
  fut_ok (st w) ->
  let '(r, w') := close_position user pid oid now w in
  let closed p := exists o, placed o (st w) (st w') /\ fo_id o = oid /\ fo_side o <> pos_side p
    /\ fo_quantity o = pos_quantity p /\ fo_price o = pos_entry_price p /\ fo_status o = FFilled in
  match r with
  | Ok id => id = oid /\ exists p, position_of user pid (st w) = Some p /\ closed p
      /\ positions (st w') = delete pid (positions (st w))
  | Err _ => st w' = st w
      \/ exists p, position_of user pid (st w) = Some p /\ closed p
         /\ positions (st w') = positions (st w)
  end.
Proof.
  intros Hok. pose proof (close_position_spec user pid oid now (st w) w eq_refl) as H.
  assert (Hfl : forall p, position_of user pid (st w) = Some p -> flat p).
  { intros p Hp. unfold position_of in Hp. destruct (positions (st w) !! pid) as [q|] eqn:E; [|done].
    simpl in Hp. destruct (_ =? _)%N; simplify_eq. by destruct (fut_flat _ Hok _ _ E). }
  destruct (close_position user pid oid now w) as [[id|e] w'].
  - destruct H as (-> & p & d1 & Hp & Hi & ->). split; [done|]. exists p. split; [done|].
    apply closing_order_row in Hi as (o & Hpl & Hpos & ? & _ & _ & ? & ? & ? & ? & _); [|auto].
    rewrite Hpos. split; [|done]. exists o. by split_and!.
  - destruct H as [_ [->|(p & Hp & Hi)]]; [by left|right]. exists p. split; [done|].
    apply closing_order_row in Hi as (o & Hpl & Hpos & ? & _ & _ & ? & ? & ? & ? & _); [|auto].
    split; [|done]. exists o. by split_and!.
Qed.

Inductive FutOp :=
| OpCreate (user product : Uuid) (side type : string) (q price : Decimal) (lev : Z)
    (oid pid : Uuid) (now : DateTime)
| OpClose (user pid oid : Uuid) (now : DateTime).

Definition run_fut (op : FutOp) : world FutDb Event -> world FutDb Event := fun w =>
  match op with
  | OpCreate user product side type q price lev oid pid now =>
      snd (create_order user product side type q price lev oid pid now w)
  | OpClose user pid oid now => snd (close_position user pid oid now w)
  end.

Lemma run_fut_ok op w : fut_ok (st w) -> fut_ok (st (run_fut op w)).
Proof.
  intros Hok. destruct op as [user product side type q price lev oid pid now|user pid oid now]; simpl.
  - destruct (q <=? 0) eqn:Eq; [unfold create_order; by rewrite Eq|]. to_prop.
    destruct (ddiv (dmul q price) (dec lev 0)) as [margin|] eqn:Em.
    + pose proof (create_order_spec user product side type q price lev margin oid pid now (st w) Eq Em w eq_refl) as H.
      destruct (create_order _ _ _ _ _ _ _ _ _ _ w) as [[id|e] w']; simpl.
      * by eapply create_result_ok.
      * destruct H as [_ [->|H]]; [done|by eapply create_result_ok].
    + unfold create_order. rewrite (proj2 (Z.leb_gt q 0) Eq), Em. done.
  - pose proof (close_position_spec user pid oid now (st w) w eq_refl) as H.
    assert (Hc : forall p d, position_of user pid (st w) = Some p ->
      insert_futures_order (closing_order user oid p now) (st w) = Some d -> fut_ok d).
    { intros p d Hp Hi. unfold position_of in Hp.
      destruct (positions (st w) !! pid) as [p'|] eqn:E; [|done]. simpl in Hp.
      destruct (_ =? _)%N; simplify_eq. destruct (fut_flat _ Hok _ _ E) as [_ Hf].
      apply closing_order_row in Hi as (o & Hpl & Hpos & H1); [|done].
      eapply placed_ok; [exact Hpl|done| |done]. intuition. }
    destruct (close_position user pid oid now w) as [[id|e] w']; simpl.
    + destruct H as (_ & p & d1 & Hp & Hi & ->). destruct (Hc p d1 Hp Hi) as [F1 F2 F3].
      constructor; simpl; [| |exact F3].
      * intros i p'. rewrite lookup_delete_Some. intros [_ ?]. by apply F1.
      * intros i j p1 p2. rewrite !lookup_delete_Some. intros [_ ?] [_ ?]. by apply F2.
    + destruct H as [_ [->|(p & Hp & Hi)]]; [done|by eapply Hc].
Qed.

(** Futures never gain or lose.  After any history of orders and closings, whatever
    statements the database fails, a user has at most one position per product and side,
    every position still stands at its entry price with no profit or loss, and every filled
    order was filled completely at its own price. *)
Theorem positions_stay_flat (ops : list FutOp) (w : world FutDb Event) :
  fut_ok (st w) ->
  let d := st (fold_left (fun w op => run_fut op w) ops w) in
  (forall i j p q, positions d !! i = Some p -> positions d !! j = Some q ->
     same_slot p q = true -> i = j)
  /\ (forall i p, positions d !! i = Some p ->
        pos_current_price p = pos_entry_price p /\ pos_unrealized_pnl p = Some 0)
  /\ (forall i o, futures_orders d !! i = Some o -> fo_status o = FFilled ->
        fo_filled_quantity o = Some (fo_quantity o) /\ fo_average_fill_price o = Some (fo_price o)).
Proof.
  intros Hok. cbv zeta.
  assert (H : fut_ok (st (fold_left (fun w op => run_fut op w) ops w))).
  { revert w Hok. induction ops as [|op ops IH]; intros w Hok; [done|]. by apply IH, run_fut_ok. }
  destruct H as [F1 F2 F3]. split_and!; [exact F2| |exact F3].
  intros i p Hp. destruct (F1 i p Hp) as [_ (? & ? & _)]. by split.
Qed.
End outcomes.

(** ** Witnesses *)
Section witnesses.
#[local] Existing Instance std_numerics.
#[local] Existing Instance demo_env.

Definition demo_product : FuturesProduct :=
  {| fp_id := 3; fp_symbol := "GTX-PERP"; fp_base_asset := "GTX"; fp_quote_asset := "USDC";
     fp_contract_size := dec 1 0; fp_expiration_date := 0; fp_current_price := dec 100 0;
     fp_is_active := Some true |}.
Definition fut_world (faults : list bool) : world FutDb Event :=
  World {| fut_users := {[1%N := demo_user]}; products := {[3%N := demo_product]};
           futures_orders := ∅; positions := ∅ |} faults [].

(** Two contracts at 5.00 with leverage 4, then the same again, then a closing whose
    deletion fails. *)
Definition open_long (oid pid : Uuid) : FutOp :=
  OpCreate 1 3 "long" "market" (dec 2 0) (dec 5 0) 4 oid pid 10.
Definition open_world : world FutDb Event := run_fut (open_long 10 20) (fut_world []).

Lemma futures_order_outcome_witness :
  fst (create_order 1 3 "long" "market" (dec 2 0) (dec 5 0) 4 10 20 10 (fut_world [])) = Ok 10%N
  /\ create_result 1 3 "long" "market" (dec 2 0) (dec 5 0) 4 (dec 25 1) 10 20
       (st (fut_world [])) (Ok 10%N) (st open_world).
Proof.
  assert (E : fst (create_order 1 3 "long" "market" (dec 2 0) (dec 5 0) 4 10 20 10 (fut_world []))
    = Ok 10%N) by (vm_compute; reflexivity).
  split; [exact E|].
  pose proof (futures_order_outcome 1 3 "long" "market" (dec 2 0) (dec 5 0) 4 10 20 10 (fut_world [])) as H.
  unfold open_world, open_long, run_fut.
  destruct (create_order 1 3 "long" "market" (dec 2 0) (dec 5 0) 4 10 20 10 (fut_world [])) as [r w'].
  cbn [fst snd] in *. subst r. destruct H as (_ & _ & H). apply H; vm_compute; reflexivity.
Defined.

Lemma fut_world_ok f : fut_ok (st (fut_world f)).
Proof. constructor; by intros. Qed.

Lemma open_world_ok : fut_ok (st open_world).
Proof. apply run_fut_ok, fut_world_ok. Qed.

(** The deletion fails: the order is recorded and the position is still there. *)
Definition stuck_world : world FutDb Event := World (st open_world) [false; false; true] [].

Lemma close_position_outcome_witness :
  exists p, position_of 1 20 (st stuck_world) = Some p
    /\ positions (st (snd (close_position 1 20 30 40 stuck_world))) = positions (st stuck_world).
Proof.
  pose proof (close_position_outcome 1 20 30 40 stuck_world open_world_ok) as H.
  assert (E : is_ok (fst (close_position 1 20 30 40 stuck_world)) = false) by (vm_compute; reflexivity).
  assert (N : is_Some (futures_orders (st (snd (close_position 1 20 30 40 stuck_world))) !! 30%N))
    by (vm_compute; eauto).
  assert (N0 : futures_orders (st stuck_world) !! 30%N = None) by (vm_compute; reflexivity).
  destruct (close_position 1 20 30 40 stuck_world) as [[id|e] w']; [discriminate E|].
  cbn [fst snd] in *. destruct H as [H|(p & Hp & _ & Hpos)].
  - destruct N as [x N]. rewrite H, N0 in N. discriminate N.
  - exists p. split; [exact Hp|exact Hpos].
Defined.

Lemma positions_stay_flat_witness :
  let d := st (fold_left (fun w op => run_fut op w)
                 [open_long 10 20; open_long 11 21; OpClose 1 20 30 40] (fut_world [])) in
  (fo_status <$> futures_orders d !! 11%N) = Some FPending
  /\ forall i p, positions d !! i = Some p -> pos_current_price p = pos_entry_price p.
Proof.
  cbv zeta. split; [vm_compute; reflexivity|]. intros i p Hp.
  apply (positions_stay_flat [open_long 10 20; open_long 11 21; OpClose 1 20 30 40]
    (fut_world []) (fut_world_ok [])) with (i := i). exact Hp.
Defined.
End witnesses.
