(* ===== verification/Pagination.v ===== *)
(** Pages: [src/utils/pagination.rs], [src/database/repository.rs] and
    [src/handlers/common/] ([extractors.rs], [response.rs]).

    The repository pages lists in three places, each with parameters, an offset and a
    page count of its own.  Pages and sizes are [u32], totals [i64] or [u64]; the page
    count goes through [f64].  [sql_page] is what a query with [LIMIT] and [OFFSET]
    selects of the rows in order. *)
From S2P Require Import Prelude Floats Errors.

Open Scope string_scope.
Open Scope Z_scope.

Definition sql_page {A} (limit offset : Z) (rows : list A) : list A :=
  take (Z.to_nat limit) (drop (Z.to_nat offset) rows).

Inductive SortOrder := Asc | Desc.

(** [((total as f64) / (per_page as f64)).ceil() as u32]. *)
Definition ceil_pages (total per_page : Z) : Z :=
  as_unsigned u32_max (f64_ceil (f64_div (f64_of_Z total) (f64_of_Z per_page))).

(** ** utils/pagination.rs *)

Record PaginationParams := {
  page : Z;
  page_size : Z;
  sort_by : option string;
  sort_order : SortOrder;
}.

Definition default_page : Z := 1.
Definition default_page_size : Z := 20.
Definition default_sort_order : SortOrder := Desc.

Definition clamp_page (p : Z) : Z := if p <? 1 then 1 else p.
Definition clamp_size (s : Z) : Z :=
  if s <? 1 then default_page_size else if 100 <? s then 100 else s.

(** [validate(&mut self)]: the result, and [self] afterwards. *)
Definition validate_params (p : PaginationParams) : res string unit * PaginationParams :=
  (Ok tt, {| page := clamp_page (page p); page_size := clamp_size (page_size p);
             sort_by := sort_by p; sort_order := sort_order p |}).

Definition params_limit (p : PaginationParams) : Z := page_size p.
Definition params_offset (p : PaginationParams) : Z :=
  wrap_u32 (wrap_u32 (page p - 1) * page_size p).
Definition sort_direction (o : SortOrder) : string :=
  match o with Asc => "ASC" | Desc => "DESC" end.

Record PaginationMeta := {
  current_page : Z;
  total_pages : Z;
  total_items : Z;
  items_per_page : Z;
  has_next : bool;
  has_previous : bool;
}.

Definition meta_new (p : PaginationParams) (total : Z) : PaginationMeta :=
  let total_pages := if total =? 0 then 1 else ceil_pages total (page_size p) in
  {| current_page := page p; total_pages := total_pages; total_items := total;
     items_per_page := page_size p; has_next := page p <? total_pages;
     has_previous := 1 <? page p |}.

Record PaginatedResponse (T : Type) := {
  data : list T;
  pagination : PaginationMeta;
}.
Arguments data {T} _.
Arguments pagination {T} _.

Definition response_new {T} (items : list T) (p : PaginationParams) (total : Z)
    : PaginatedResponse T := {| data := items; pagination := meta_new p total |}.

Record FilterParams := {
  f_status : option string;
  f_from_date : option Z;
  f_to_date : option Z;
  f_search : option string;
}.

Definition is_some {A} (o : option A) : bool := match o with Some _ => true | None => false end.

Definition has_filters (f : FilterParams) : bool :=
  is_some (f_status f) || is_some (f_from_date f) || is_some (f_to_date f)
  || is_some (f_search f).

Record ListQueryParams := {
  q_page : Z;
  q_page_size : Z;
  q_sort_by : option string;
  q_sort_order : SortOrder;
  q_status : option string;
  q_from_date : option Z;
  q_to_date : option Z;
  q_search : option string;
}.

Definition query_pagination (q : ListQueryParams) : PaginationParams :=
  {| page := q_page q; page_size := q_page_size q; sort_by := q_sort_by q;
     sort_order := q_sort_order q |}.
Definition query_filters (q : ListQueryParams) : FilterParams :=
  {| f_status := q_status q; f_from_date := q_from_date q; f_to_date := q_to_date q;
     f_search := q_search q |}.

(** [validate(&mut self)]: page and size are changed even when the dates are refused. *)
Definition validate_query (q : ListQueryParams) : res string unit * ListQueryParams :=
  let q' := {| q_page := clamp_page (q_page q); q_page_size := clamp_size (q_page_size q);
               q_sort_by := q_sort_by q; q_sort_order := q_sort_order q;
               q_status := q_status q; q_from_date := q_from_date q;
               q_to_date := q_to_date q; q_search := q_search q |} in
  match q_from_date q, q_to_date q with
  | Some from, Some to =>
      (if to <? from then Err "from_date must be before to_date" else Ok tt, q')
  | _, _ => (Ok tt, q')
  end.

Definition query_limit (q : ListQueryParams) : Z := q_page_size q.
Definition query_offset (q : ListQueryParams) : Z :=
  wrap_u32 (wrap_u32 (q_page q - 1) * q_page_size q).

(** ** database/repository.rs *)

Record Pagination := {
  r_page : Z;
  r_per_page : Z;
  r_sort_by : option string;
  r_sort_order : SortOrder;
}.

Definition pagination_default : Pagination :=
  {| r_page := 1; r_per_page := 20; r_sort_by := None; r_sort_order := Asc |}.
Definition pagination_new (page per_page : Z) : Pagination :=
  {| r_page := Z.max page 1; r_per_page := Z.max 1 (Z.min per_page 100);
     r_sort_by := r_sort_by pagination_default; r_sort_order := r_sort_order pagination_default |}.
Definition pagination_with_sort (p : Pagination) (column : string) (o : SortOrder) : Pagination :=
  {| r_page := r_page p; r_per_page := r_per_page p; r_sort_by := Some column;
     r_sort_order := o |}.
Definition pagination_offset (p : Pagination) : Z :=
  wrap_u32 (wrap_u32 (r_page p - 1) * r_per_page p).
Definition pagination_limit (p : Pagination) : Z := r_per_page p.

Record PagedResult (T : Type) := {
  pr_items : list T;
  pr_total : Z;
  pr_page : Z;
  pr_per_page : Z;
  pr_total_pages : Z;
}.
Arguments pr_items {T} _.
Arguments pr_total {T} _.
Arguments pr_page {T} _.
Arguments pr_per_page {T} _.
Arguments pr_total_pages {T} _.

Definition paged_new {T} (items : list T) (total : Z) (p : Pagination) : PagedResult T :=
  {| pr_items := items; pr_total := total; pr_page := r_page p; pr_per_page := r_per_page p;
     pr_total_pages := ceil_pages total (r_per_page p) |}.
Definition paged_empty {T} (p : Pagination) : PagedResult T :=
  {| pr_items := []; pr_total := 0; pr_page := r_page p; pr_per_page := r_per_page p;
     pr_total_pages := 0 |}.
Definition has_next_page {T} (r : PagedResult T) : bool := pr_page r <? pr_total_pages r.
Definition has_prev_page {T} (r : PagedResult T) : bool := 1 <? pr_page r.
Definition paged_map {T U} (f : T -> U) (r : PagedResult T) : PagedResult U :=
  {| pr_items := f <$> pr_items r; pr_total := pr_total r; pr_page := pr_page r;
     pr_per_page := pr_per_page r; pr_total_pages := pr_total_pages r |}.

(** ** handlers/common *)

Record CommonParams := {
  c_page : Z;
  c_per_page : Z;
  c_sort_by : option string;
  c_sort_order : option SortOrder;
}.

Definition common_new (page per_page : Z) : CommonParams :=
  {| c_page := Z.max page 1; c_per_page := Z.max 1 (Z.min per_page 100); c_sort_by := None;
     c_sort_order := None |}.
Definition common_offset (p : CommonParams) : Z :=
  wrap_u32 (Z.max 0 (c_page p - 1) * c_per_page p).
Definition common_limit (p : CommonParams) : Z := Z.max 1 (Z.min (c_per_page p) 100).
Definition common_validate (p : CommonParams) : res ApiError unit :=
  if c_page p =? 0 then Err (validation_error "Page must be at least 1" (Some "page"))
  else if (c_per_page p =? 0) || (100 <? c_per_page p) then
    Err (validation_error "Per page must be between 1 and 100" (Some "per_page"))
  else Ok tt.

Record PaginationInfo := {
  i_page : Z;
  i_per_page : Z;
  i_total : Z;
  i_total_pages : Z;
  i_has_next : bool;
  i_has_prev : bool;
}.

Definition info_new (page per_page total : Z) : PaginationInfo :=
  {| i_page := page; i_per_page := per_page; i_total := total;
     i_total_pages := ceil_pages total per_page; i_has_next := page <? ceil_pages total per_page;
     i_has_prev := 1 <? page |}.

Record DateRangeParams := {
  start_date : option Z;
  end_date : option Z;
}.

Definition range_validate (r : DateRangeParams) : res ApiError unit :=
  match start_date r, end_date r with
  | Some s, Some e =>
      if e <? s then Err (validation_error "start_date must be before end_date" (Some "date_range"))
      else Ok tt
  | _, _ => Ok tt
  end.
Definition range_is_complete (r : DateRangeParams) : bool :=
  is_some (start_date r) && is_some (end_date r).
Definition range_is_empty (r : DateRangeParams) : bool :=
  negb (is_some (start_date r)) && negb (is_some (end_date r)).

(** ** Well-formed parameters *)

Definition is_u32 (z : Z) : Prop := 0 <= z <= u32_max.
Definition wf_params (p : PaginationParams) : Prop :=
  1 <= page p <= u32_max /\ 1 <= page_size p <= 100.
Definition at_page (p : PaginationParams) (k : Z) : PaginationParams :=
  {| page := k; page_size := page_size p; sort_by := sort_by p; sort_order := sort_order p |}.

Lemma clamp_page_wf z : is_u32 z -> 1 <= clamp_page z <= u32_max.
Proof. unfold is_u32, clamp_page, u32_max. intros. tests; lia. Qed.

Lemma clamp_size_wf z : 1 <= clamp_size z <= 100.
Proof. unfold clamp_size, default_page_size. tests; lia. Qed.

Lemma clamp_page_id z : 1 <= z -> clamp_page z = z.
Proof. unfold clamp_page. intros. tests; lia. Qed.

Lemma clamp_size_id z : 1 <= z <= 100 -> clamp_size z = z.
Proof. unfold clamp_size. intros. tests; lia. Qed.

(** [validate] never fails and makes any parameters well formed (page at least 1, size
    between 1 and 100); it keeps well-formed ones, and the list query validates, limits and
    offsets exactly as the pagination parameters it contains, whatever its dates. *)
Theorem validate_normalizes p q : is_u32 (page p) ->
  fst (validate_params p) = Ok tt /\ wf_params (snd (validate_params p))
  /\ (wf_params p -> snd (validate_params p) = p)
  /\ query_pagination (snd (validate_query q)) = snd (validate_params (query_pagination q))
  /\ query_filters (snd (validate_query q)) = query_filters q
  /\ query_limit q = params_limit (query_pagination q)
  /\ query_offset q = params_offset (query_pagination q).
Proof.
  intros Hp. split_and!; try reflexivity.
  - split; [by apply clamp_page_wf|apply clamp_size_wf].
  - intros [H1 H2]. destruct p as [pg sz sb so]. unfold validate_params. simpl in *.
    by rewrite clamp_page_id, clamp_size_id by lia.
  - by destruct q as [? ? ? ? ? [] [] ?].
  - by destruct q as [? ? ? ? ? [] [] ?].
Qed.

(** ** Page counts *)

Lemma ceil_pages_exact total n : 0 <= total < 2 ^ 52 -> 1 <= n <= u32_max ->
  ceil_pages total n = Z.min u32_max ((total + n - 1) / n).
Proof.
  unfold u32_max. intros Ht Hn. unfold ceil_pages. destruct (Z.eq_dec total 0) as [->|].
  - destruct (f64_of_Z_pos n ltac:(lia)) as (m & E & _). rewrite E. simpl.
    rewrite Z.div_small by lia. reflexivity.
  - apply ceil_div_exact; unfold u32_max; lia.
Qed.

(** The three page counts agree with the exact ceiling of total over size, up to 2^52
    rows (saturating at the largest [u32]), although they divide in floating point; only for
    an empty list does utils/pagination.rs answer one page where the others answer none. *)
Theorem page_counts_agree {T} (items : list T) p q pg total :
  0 <= total < 2 ^ 52 -> 1 <= page_size p <= u32_max -> r_per_page q = page_size p ->
  let pages := Z.min u32_max ((total + page_size p - 1) / page_size p) in
  total_pages (meta_new p total) = (if total =? 0 then 1 else pages)
  /\ pr_total_pages (paged_new items total q) = pages
  /\ i_total_pages (info_new pg (page_size p) total) = pages.
Proof.
  intros Ht Hn Hq pages. unfold meta_new, paged_new, info_new. simpl. rewrite Hq.
  rewrite ceil_pages_exact by done. done.
Qed.

(** ** The pages of a list *)

Lemma chunks_prefix {A} (l : list A) (n c : nat) :
  concat ((fun k => take n (drop (k * n) l)) <$> seq 0 c) = take (c * n) l.
Proof.
  induction c as [|c IH]; [done|].
  rewrite seq_S, fmap_app, concat_app, IH. simpl. rewrite app_nil_r.
  rewrite take_take_drop. f_equal. lia.
Qed.

Lemma params_offset_exact p k : 1 <= k <= u32_max -> 0 <= (k - 1) * page_size p <= u32_max ->
  params_offset (at_page p k) = (k - 1) * page_size p.
Proof.
  intros Hk Ho. unfold params_offset. simpl.
  rewrite (wrap_u32_id (k - 1)) by (unfold u32_max in *; lia). by apply wrap_u32_id.
Qed.

(** Read one after the other, the pages 1 to [total_pages] of a query give every row
    exactly once and in order, and "has next" holds on every page but the last. *)
Theorem pages_partition {A} (rows : list A) p : wf_params p ->
  Z.of_nat (length rows) <= u32_max ->
  let total := Z.of_nat (length rows) in
  let pages := total_pages (meta_new p total) in
  concat ((fun k => sql_page (params_limit p) (params_offset (at_page p (Z.of_nat k))) rows)
          <$> seq 1 (Z.to_nat pages)) = rows
  /\ (forall k, 1 <= k -> has_next (meta_new (at_page p k) total) = true <-> k < pages)
  /\ (forall k, 1 <= k <= pages -> (has_next (meta_new (at_page p k) total) = false <-> k = pages)).
Proof.
  intros [_ Hs] Hlen total pages.
  assert (Hnext : forall k, has_next (meta_new (at_page p k) total) = (k <? pages)) by reflexivity.
  split; [|split; intros k Hk; rewrite Hnext; [apply Z.ltb_lt|rewrite Z.ltb_ge; lia]].
  set (n := page_size p) in *.
  assert (Hp : pages = if total =? 0 then 1 else Z.min u32_max ((total + n - 1) / n)).
  { subst pages. unfold meta_new. simpl. destruct (total =? 0); [done|].
    apply ceil_pages_exact; unfold u32_max in *; subst total n; lia. }
  assert (Hle : pages <= Z.max 1 total /\ total <= pages * n /\ 1 <= pages
                /\ (pages - 1) * n <= Z.max 0 (total - 1)).
  { rewrite Hp. destruct (total =? 0) eqn:E; to_prop; [lia|].
    pose proof (Z.div_mod (total + n - 1) n ltac:(lia)) as D.
    pose proof (Z.mod_pos_bound (total + n - 1) n ltac:(lia)) as M.
    assert ((total + n - 1) / n <= total) by nia.
    rewrite Z.min_r by (subst total; lia). subst total. nia. }
  clearbody pages. rewrite <- fmap_S_seq, <- list_fmap_compose.
  transitivity (take (Z.to_nat pages * Z.to_nat n) rows).
  - rewrite <- chunks_prefix. f_equal. apply list_fmap_ext. intros i k Hk.
    apply lookup_seq in Hk as [-> Hk]. simpl. unfold sql_page, params_limit. fold n.
    assert (Hi : 0 <= (Z.of_nat (S i) - 1) * n <= (pages - 1) * n) by nia.
    rewrite params_offset_exact by (unfold u32_max in *; fold n; lia). fold n.
    do 2 f_equal. lia.
  - apply take_ge. subst total. nia.
Qed.

(** The offset is (page - 1) * size as long as that fits in [u32] and wraps around beyond:
    a validated request for page 42949674 of size 100 starts at row 4.  Parameters that skip
    the validation wrap already at page 0, and in handlers/common a size above 100 leaves
    rows out of every page, because the limit is clamped and the offset is not. *)
Theorem offset_bounds p : wf_params p ->
  params_offset p = (page p - 1) * page_size p mod 2 ^ 32
  /\ (params_offset p = (page p - 1) * page_size p <-> (page p - 1) * page_size p <= u32_max)
  /\ params_offset (at_page p 0) = 2 ^ 32 - page_size p
  /\ (forall c, 100 < c_per_page c -> 1 <= c_page c -> c_page c * c_per_page c <= u32_max ->
        common_limit c = 100 /\ ~ (common_offset c <= 100 < common_offset c + common_limit c)).
Proof.
  intros [H1 H2]. unfold u32_max in *. split_and!.
  - unfold params_offset. rewrite (wrap_u32_id (page p - 1)) by (unfold u32_max; lia). done.
  - unfold params_offset. rewrite (wrap_u32_id (page p - 1)) by (unfold u32_max; lia).
    assert (0 <= (page p - 1) * page_size p) by nia. unfold wrap_u32. split.
    + intros E. pose proof (Z.mod_pos_bound ((page p - 1) * page_size p) 4294967296). lia.
    + intros E. apply Z.mod_small. lia.
  - unfold params_offset, wrap_u32. simpl. change (2 ^ 32) with 4294967296.
    symmetry. apply (Z.mod_unique _ _ (page_size p - 1)); [left; lia|].
    change (0 - 1) with (-1). change (-1 mod 4294967296) with 4294967295. lia.
  - intros c Hc Hpg Hmax. unfold common_limit, common_offset. split; [lia|].
    rewrite wrap_u32_id by (unfold u32_max; nia). rewrite Z.max_r by lia.
    destruct (Z.eq_dec (c_page c) 1) as [->|]; [lia|]. nia.
Qed.

(** ** Witnesses *)

Definition demo_params (k n : Z) : PaginationParams :=
  {| page := k; page_size := n; sort_by := None; sort_order := Desc |}.
Definition demo_query : ListQueryParams :=
  {| q_page := 0; q_page_size := 500; q_sort_by := None; q_sort_order := Asc; q_status := None;
     q_from_date := Some 9; q_to_date := Some 5; q_search := None |}.

Lemma validate_normalizes_witness :
  is_u32 0 /\ wf_params (snd (validate_params (demo_params 0 500)))
  /\ fst (validate_query demo_query) = Err "from_date must be before to_date".
Proof.
  split; [done|]. split; [|reflexivity].
  apply (validate_normalizes (demo_params 0 500) demo_query). done.
Defined.

Lemma page_counts_agree_witness :
  0 <= 45 < 2 ^ 52 /\ total_pages (meta_new (demo_params 2 10) 45) = 5.
Proof.
  split; [done|].
  apply (page_counts_agree (@nil nat) (demo_params 2 10) (pagination_new 1 10) 1 45); first [done | split; vm_compute; discriminate || reflexivity].
Defined.

Lemma pages_partition_witness :
  wf_params (demo_params 1 2)
  /\ concat ((fun k => sql_page 2 (params_offset (demo_params (Z.of_nat k) 2)) [7; 8; 9]) <$> [1; 2]%nat)
     = [7; 8; 9].
Proof.
  split; [done|]. apply (pages_partition [7; 8; 9] (demo_params 1 2)); done.
Defined.

Lemma offset_bounds_witness :
  wf_params (demo_params 42949674 100) /\ params_offset (demo_params 42949674 100) = 4.
Proof.
  assert (W : wf_params (demo_params 42949674 100)) by done. split; [exact W|].
  exact (proj1 (offset_bounds (demo_params 42949674 100) W)).
Defined.
