(* ===== verification/Text.v ===== *)
(** Text: the characters of a [str] and the regular expressions of the validators.

    A Rust string is its UTF-8 bytes ([String.string]); [chars] decodes it into code
    points.  The Unicode tables behind [char::is_alphabetic] and the like are the
    interface [CharClass], fixed on ASCII.  A pattern of the [regex] crate is a [regex];
    [re_match] decides it with derivatives, and [re_match_spec] says that it decides the
    language of the pattern. *)
From S2P Require Import Prelude.

Open Scope string_scope.
Open Scope N_scope.
Open Scope list_scope.

(** ** Characters *)

(** [need] continuation bytes are still to come; [acc] is the value so far. *)
Fixpoint decode (need : nat) (acc : N) (s : string) : list N :=
  match s with
  | EmptyString => []
  | String a s =>
      let b := Ascii.N_of_ascii a in
      match need with
      | S O => (acc * 64 + (b - 128)) :: decode 0 0 s
      | S n => decode n (acc * 64 + (b - 128)) s
      | O =>
          if b <? 128 then b :: decode 0 0 s
          else if b <? 224 then decode 1 (b - 192) s
          else if b <? 240 then decode 2 (b - 224) s
          else decode 3 (b - 240) s
      end
  end.

Definition chars : string -> list N := decode 0 0.

Definition ascii_letter (c : N) : bool :=
  (65 <=? c) && (c <=? 90) || (97 <=? c) && (c <=? 122).
Definition ascii_digit (c : N) : bool := (48 <=? c) && (c <=? 57).
Definition ascii_space (c : N) : bool := (9 <=? c) && (c <=? 13) || (c =? 32).

Definition is_ascii (s : string) : bool := forallb (fun c => c <? 128) (chars s).

(** The classes of [char] and [str::to_lowercase], with their documented values on ASCII. *)
Class CharClass := {
  is_alphabetic : N -> bool;
  is_numeric : N -> bool;
  is_whitespace : N -> bool;
  lowercase : string -> string;
  is_alphabetic_ascii c : c < 128 -> is_alphabetic c = ascii_letter c;
  is_numeric_ascii c : c < 128 -> is_numeric c = ascii_digit c;
  is_whitespace_ascii c : c < 128 -> is_whitespace c = ascii_space c;
  lowercase_ascii s : is_ascii s = true -> lowercase s = to_lowercase s;
}.

Definition is_alphanumeric `{CharClass} (c : N) : bool := is_alphabetic c || is_numeric c.

Definition std_chars : CharClass := {|
  is_alphabetic := ascii_letter;
  is_numeric := ascii_digit;
  is_whitespace := ascii_space;
  lowercase := to_lowercase;
  is_alphabetic_ascii _ _ := eq_refl;
  is_numeric_ascii _ _ := eq_refl;
  is_whitespace_ascii _ _ := eq_refl;
  lowercase_ascii _ _ := eq_refl;
|}.

(** The code point of an ASCII character of the source. *)
Definition cp (a : Ascii.ascii) : N := Ascii.N_of_ascii a.

(** [s.trim().is_empty()]. *)
Definition trim_is_empty `{CharClass} (s : string) : bool := forallb is_whitespace (chars s).

(** ** Regular expressions *)

Inductive regex :=
| RNone
| REmpty
| RClass (p : N -> bool)
| RCat (r1 r2 : regex)
| RAlt (r1 r2 : regex)
| RStar (r : regex).

Definition RPlus (r : regex) : regex := RCat r (RStar r).
Definition RChar (a : Ascii.ascii) : regex := RClass (fun c => c =? cp a).

(** [r{n}], [r{0,n}], [r{n,m}] and [r{n,}]. *)
Fixpoint RTimes (n : nat) (r : regex) (k : regex) : regex :=
  match n with O => k | S n => RCat r (RTimes n r k) end.
Fixpoint RUpTo (n : nat) (r : regex) : regex :=
  match n with O => REmpty | S n => RAlt REmpty (RCat r (RUpTo n r)) end.
Definition RRepeat (n m : nat) (r : regex) : regex := RTimes n r (RUpTo (m - n) r).
Definition RAtLeast (n : nat) (r : regex) : regex := RTimes n r (RStar r).

(** The language of a pattern anchored at both ends. *)
Inductive matches : regex -> list N -> Prop :=
| MEmpty : matches REmpty []
| MClass p c : p c = true -> matches (RClass p) [c]
| MCat r1 r2 s1 s2 : matches r1 s1 -> matches r2 s2 -> matches (RCat r1 r2) (s1 ++ s2)
| MAltL r1 r2 s : matches r1 s -> matches (RAlt r1 r2) s
| MAltR r1 r2 s : matches r2 s -> matches (RAlt r1 r2) s
| MStarNil r : matches (RStar r) []
| MStarCons r s1 s2 : matches r s1 -> matches (RStar r) s2 -> matches (RStar r) (s1 ++ s2).

Fixpoint nullable (r : regex) : bool :=
  match r with
  | RNone | RClass _ => false
  | REmpty | RStar _ => true
  | RCat r1 r2 => nullable r1 && nullable r2
  | RAlt r1 r2 => nullable r1 || nullable r2
  end.

(** What is left of [r] after the character [c]. *)
Fixpoint deriv (c : N) (r : regex) : regex :=
  match r with
  | RNone | REmpty => RNone
  | RClass p => if p c then REmpty else RNone
  | RCat r1 r2 =>
      if nullable r1 then RAlt (RCat (deriv c r1) r2) (deriv c r2) else RCat (deriv c r1) r2
  | RAlt r1 r2 => RAlt (deriv c r1) (deriv c r2)
  | RStar r => RCat (deriv c r) (RStar r)
  end.

Fixpoint re_match (r : regex) (s : list N) : bool :=
  match s with [] => nullable r | c :: s => re_match (deriv c r) s end.

Lemma nullable_spec r : nullable r = true <-> matches r [].
Proof.
  split.
  - induction r; simpl; intros H; try discriminate H.
    + constructor.
    + apply andb_true_iff in H as [H1 H2]. apply (MCat r1 r2 [] []); auto.
    + apply orb_true_iff in H as [H|H]; [apply MAltL|apply MAltR]; auto.
    + constructor.
  - intros H. remember [] as s eqn:E. induction H; simpl; auto; try discriminate E.
    + apply app_eq_nil in E as [-> ->]. by rewrite IHmatches1, IHmatches2.
    + by rewrite IHmatches.
    + rewrite IHmatches by done. apply orb_true_r.
Qed.

Lemma star_cons r c s : matches (RStar r) (c :: s) ->
  exists s1 s2, s = s1 ++ s2 /\ matches r (c :: s1) /\ matches (RStar r) s2.
Proof.
  intros H. remember (RStar r) as R eqn:ER. remember (c :: s) as t eqn:Et.
  induction H; try discriminate ER; try discriminate Et.
  injection ER as ->. destruct s1 as [|d s1]; simpl in Et; [by apply IHmatches2|].
  injection Et as -> <-. by exists s1, s2.
Qed.

Lemma deriv_sound c r s : matches (deriv c r) s -> matches r (c :: s).
Proof.
  revert s. induction r as [| |p|r1 IH1 r2 IH2|r1 IH1 r2 IH2|r IH]; intros s H; simpl in H.
  - inversion H.
  - inversion H.
  - destruct (p c) eqn:E; inversion H; subst. by constructor.
  - destruct (nullable r1) eqn:E; [inversion H as [| | |? ? ? H'|? ? ? H'| |]; subst|].
    + inversion H'; subst. apply (MCat r1 r2 (c :: s1) s2); auto.
    + apply (MCat r1 r2 [] (c :: s)); [by apply nullable_spec|auto].
    + inversion H; subst. apply (MCat r1 r2 (c :: s1) s2); auto.
  - inversion H; subst; [apply MAltL|apply MAltR]; auto.
  - inversion H; subst. apply (MStarCons r (c :: s1) s2); auto.
Qed.

Lemma deriv_complete c r s : matches r (c :: s) -> matches (deriv c r) s.
Proof.
  revert s. induction r as [| |p|r1 IH1 r2 IH2|r1 IH1 r2 IH2|r IH]; intros s H; simpl.
  - inversion H.
  - inversion H.
  - inversion H as [|? ? E| | | | |]; subst. rewrite E. constructor.
  - inversion H as [| |? ? s1 s2 H1 H2 E1 E2| | | |]; subst.
    destruct s1 as [|d s1]; simpl in E2.
    + subst s2. rewrite (proj2 (nullable_spec r1) H1). apply MAltR, IH2, H2.
    + injection E2 as -> <-. destruct (nullable r1); [apply MAltL|]; constructor; auto.
  - inversion H; subst; [apply MAltL|apply MAltR]; auto.
  - apply star_cons in H as (s1 & s2 & -> & H1 & H2). constructor; auto.
Qed.

(** The matcher decides the language. *)
Lemma re_match_spec r s : re_match r s = true <-> matches r s.
Proof.
  revert r. induction s as [|c s IH]; intros r; simpl; [apply nullable_spec|].
  rewrite IH. split; [apply deriv_sound|apply deriv_complete].
Qed.

(** ** Repetitions *)

Lemma matches_class p s : matches (RClass p) s <-> exists c, s = [c] /\ p c = true.
Proof. split; [intros H; inversion H; eauto|intros (c & -> & H); by constructor]. Qed.

Lemma matches_cat r1 r2 s :
  matches (RCat r1 r2) s <-> exists s1 s2, s = s1 ++ s2 /\ matches r1 s1 /\ matches r2 s2.
Proof. split; [intros H; inversion H; eauto|intros (s1 & s2 & -> & ? & ?); by constructor]. Qed.

Lemma matches_char a s : matches (RChar a) s <-> s = [cp a].
Proof.
  unfold RChar. rewrite matches_class. split.
  - intros (c & -> & H). apply N.eqb_eq in H. by subst.
  - intros ->. exists (cp a). by rewrite N.eqb_refl.
Qed.

Lemma matches_star_class p s : matches (RStar (RClass p)) s <-> forallb p s = true.
Proof.
  induction s as [|c s IH]; simpl.
  - split; [done|intros _; constructor].
  - rewrite andb_true_iff, <- IH. split.
    + intros H. apply star_cons in H as (s1 & s2 & -> & H1 & H2).
      apply matches_class in H1 as (d & E & Hd). simplify_eq. by split.
    + intros [H1 H2]. apply (MStarCons _ [c] s); [by constructor|done].
Qed.

Lemma matches_plus_class p s :
  matches (RPlus (RClass p)) s <-> forallb p s = true /\ (1 <= length s)%nat.
Proof.
  unfold RPlus. rewrite matches_cat. split.
  - intros (s1 & s2 & -> & H1 & H2). apply matches_class in H1 as (c & -> & Hc).
    apply matches_star_class in H2. simpl. rewrite Hc, H2. split; [done|lia].
  - destruct s as [|c s]; simpl; [lia|]. rewrite andb_true_iff. intros [[H1 H2] _].
    exists [c], s. split; [done|]. split; [by constructor|by apply matches_star_class].
Qed.

Lemma matches_times n p k s : matches (RTimes n (RClass p) k) s <->
  exists s1 s2, s = s1 ++ s2 /\ length s1 = n /\ forallb p s1 = true /\ matches k s2.
Proof.
  revert s. induction n as [|n IH]; intros s; simpl.
  - split; [intros H; by exists [], s|]. by intros ([|] & s2 & -> & ? & ? & ?).
  - rewrite matches_cat. split.
    + intros (s1 & s2 & -> & H1 & H2). apply matches_class in H1 as (c & -> & Hc).
      apply IH in H2 as (t1 & t2 & -> & Hl & Hp & Hk). exists (c :: t1), t2. simpl.
      rewrite Hc, Hp. auto.
    + intros ([|c s1] & s2 & -> & Hl & Hp & Hk); simpl in *; [lia|].
      apply andb_true_iff in Hp as [Hc Hp]. exists [c], (s1 ++ s2).
      split; [done|]. split; [by constructor|]. apply IH. exists s1, s2. auto with lia.
Qed.

Lemma matches_up_to n p s : matches (RUpTo n (RClass p)) s <->
  forallb p s = true /\ (length s <= n)%nat.
Proof.
  revert s. induction n as [|n IH]; intros s; simpl.
  - split; [intros H; by inversion H|]. intros [_ H]. destruct s; simpl in H; [constructor|lia].
  - split.
    + intros H. inversion H as [| | |? ? ? H'|? ? ? H'| |]; subst.
      * inversion H'; subst. split; [done|simpl; lia].
      * apply matches_cat in H' as (s1 & s2 & -> & H1 & H2).
        apply matches_class in H1 as (c & -> & Hc). apply IH in H2 as [H2 Hl]. simpl.
        rewrite Hc, H2. split; [done|lia].
    + intros [Hp Hl]. destruct s as [|c s]; simpl in *; [apply MAltL; constructor|].
      apply andb_true_iff in Hp as [Hc Hp]. apply MAltR. apply matches_cat. exists [c], s.
      split; [done|]. split; [by constructor|]. apply IH. auto with lia.
Qed.

Lemma matches_repeat n m p s : (n <= m)%nat -> matches (RRepeat n m (RClass p)) s <->
  forallb p s = true /\ (n <= length s <= m)%nat.
Proof.
  intros Hnm. unfold RRepeat. rewrite matches_times. split.
  - intros (s1 & s2 & -> & Hl & Hp & H). apply matches_up_to in H as [H2 Hl2].
    rewrite forallb_app, Hp, H2, length_app. split; [done|lia].
  - intros [Hp Hl]. exists (take n s), (drop n s).
    rewrite <- (take_drop n s), forallb_app, andb_true_iff in Hp. destruct Hp as [H1 H2].
    split; [by rewrite take_drop|]. split; [rewrite length_take; lia|]. split; [done|].
    apply matches_up_to. rewrite length_drop. split; [done|lia].
Qed.

Lemma matches_at_least n p s : matches (RAtLeast n (RClass p)) s <->
  forallb p s = true /\ (n <= length s)%nat.
Proof.
  unfold RAtLeast. rewrite matches_times. split.
  - intros (s1 & s2 & -> & Hl & Hp & H). apply matches_star_class in H.
    rewrite forallb_app, Hp, H, length_app. split; [done|lia].
  - intros [Hp Hl]. exists (take n s), (drop n s).
    rewrite <- (take_drop n s), forallb_app, andb_true_iff in Hp. destruct Hp as [H1 H2].
    split; [by rewrite take_drop|]. split; [rewrite length_take; lia|]. split; [done|].
    by apply matches_star_class.
Qed.
