(* ===== verification/Validation.v ===== *)
(** Input validation: [src/utils/validation.rs].

    The validators of request fields, in the order of the source.  Amounts are [f64]
    ([Floats]); the two patterns are [regex] values ([Text]).  The current time is an
    argument; [Uuid::parse_str] is a parameter ([UuidParse]) and a [BigDecimal] is its
    integer mantissa with its scale. *)
From Stdlib Require Import Ascii.
From stdpp Require Import pretty.
From S2P Require Import Prelude Floats Errors Store Schema Text.

Open Scope string_scope.
Open Scope Z_scope.

(** [Uuid::parse_str(s).ok()]. *)
Class UuidParse := { parse_uuid : string -> option Uuid }.

(** The value [bd_int * 10^-bd_scale]. *)
Record BigDecimal := { bd_int : Z; bd_scale : Z }.

Definition str_len (s : string) : Z := Z.of_nat (String.length s).

(** [usize::to_string]. *)
Definition show_usize (n : Z) : string := pretty (Z.to_N n).

(** ** Patterns *)

Definition email_local (c : N) : bool :=
  ascii_letter c || ascii_digit c || existsb (N.eqb c) [cp "."; cp "_"; cp "%"; cp "+"; cp "-"]%char.
Definition email_domain (c : N) : bool :=
  ascii_letter c || ascii_digit c || existsb (N.eqb c) [cp "."; cp "-"]%char.

(** [^[a-zA-Z0-9._%+-]+@[a-zA-Z0-9.-]+\.[a-zA-Z]{2,}$]. *)
Definition EMAIL_REGEX : regex :=
  RCat (RPlus (RClass email_local))
    (RCat (RChar "@"%char)
      (RCat (RPlus (RClass email_domain))
        (RCat (RChar "."%char) (RAtLeast 2 (RClass ascii_letter))))).

Definition char_between (lo hi : Ascii.ascii) (c : N) : bool := (cp lo <=? c)%N && (c <=? cp hi)%N.

(** [1-9A-HJ-NP-Za-km-z]. *)
Definition base58 (c : N) : bool :=
  char_between "1" "9" c || char_between "A" "H" c || char_between "J" "N" c
  || char_between "P" "Z" c || char_between "a" "k" c || char_between "m" "z" c.

(** [^[1-9A-HJ-NP-Za-km-z]{32,44}$]. *)
Definition WALLET_REGEX : regex := RRepeat 32 44 (RClass base58).

Definition is_match (r : regex) (s : string) : bool := re_match r (chars s).

(** [xs.contains(&s)] and [xs.join(", ")]. *)
Definition member (s : string) (l : list string) : bool := existsb (String.eqb s) l.
Definition join (l : list string) : string := String.concat ", " l.

(** ** The validators *)

Section validators.
Context `{CharClass} `{UuidParse}.

Definition validate_email (email : string) : res ApiError unit :=
  if str_len email =? 0 then Err (validation_field "email" "Email is required")
  else if 255 <? str_len email then Err (validation_field "email" "Email is too long")
  else if negb (is_match EMAIL_REGEX email) then
    Err (with_code Code.InvalidEmail "Invalid email format")
  else Ok tt.

Definition validate_password (password : string) : res ApiError unit :=
  if str_len password =? 0 then Err (validation_field "password" "Password is required")
  else if str_len password <? 8 then
    Err (with_code Code.PasswordTooWeak "Password must be at least 8 characters")
  else if 128 <? str_len password then
    Err (validation_field "password" "Password is too long")
  else
    let has_letter := existsb is_alphabetic (chars password) in
    let has_number := existsb is_numeric (chars password) in
    if negb has_letter || negb has_number then
      Err (with_code Code.PasswordTooWeak "Password must contain at least one letter and one number")
    else Ok tt.

Definition validate_wallet_address (address : string) : res ApiError unit :=
  if str_len address =? 0 then
    Err (validation_field "wallet_address" "Wallet address is required")
  else if negb (is_match WALLET_REGEX address) then
    Err (with_code Code.InvalidWalletAddress "Invalid Solana wallet address format")
  else Ok tt.

Definition is_infinite (x : spec_float) : bool :=
  match x with S754_infinity _ => true | _ => false end.

Definition validate_amount (amount : spec_float) (field_name : string) : res ApiError unit :=
  if f64_le amount (f64_of_Z 0) then
    Err (validation_field field_name (field_name ++ " must be greater than zero"))
  else if is_infinite amount || is_nan amount then
    Err (validation_field field_name (field_name ++ " must be a valid number"))
  else Ok tt.

Definition validate_token_amount (amount : Z) (field_name : string) : res ApiError unit :=
  if amount <=? 0 then
    Err (validation_field field_name (field_name ++ " must be greater than zero"))
  else Ok tt.

Definition validate_energy_reading (kwh : spec_float) : res ApiError unit :=
  if f64_lt kwh (f64_of_Z 0) then
    Err (with_code Code.MeterReadingInvalid "Energy reading cannot be negative")
  else if f64_lt (f64_of_Z 1000000) kwh then
    Err (with_code Code.MeterReadingInvalid
           "Energy reading is unreasonably high (max 1,000,000 kWh)")
  else Ok tt.

Definition validate_price (price : spec_float) : res ApiError unit :=
  validate_amount price "price" ≫= fun _ =>
  if f64_lt (f64_of_Z 1000) price then
    Err (validation_field "price" "Price is unreasonably high (max 1000)")
  else Ok tt.

Definition validate_required_string (value field_name : string) : res ApiError unit :=
  if trim_is_empty value then Err (validation_field field_name (field_name ++ " is required"))
  else Ok tt.

Definition validate_string_length (value field_name : string) (min max : Z) : res ApiError unit :=
  let len := str_len value in
  if len <? min then
    Err (validation_field field_name
           (field_name ++ " must be at least " ++ show_usize min ++ " characters"))
  else if max <? len then
    Err (validation_field field_name
           (field_name ++ " must be at most " ++ show_usize max ++ " characters"))
  else Ok tt.

Definition validate_uuid (value field_name : string) : res ApiError unit :=
  match parse_uuid value with
  | None => Err (validation_field field_name (field_name ++ " must be a valid UUID"))
  | Some _ => Ok tt
  end.

Definition validate_positive_integer (value : Z) (field_name : string) : res ApiError unit :=
  if value <=? 0 then
    Err (validation_field field_name (field_name ++ " must be a positive integer"))
  else Ok tt.

Definition validate_not_future_date (now date : DateTime) (field_name : string)
    : res ApiError unit :=
  if now <? date then
    Err (validation_field field_name (field_name ++ " cannot be in the future"))
  else Ok tt.

Definition validate_date_range (from_date to_date : option DateTime) : res ApiError unit :=
  match from_date, to_date with
  | Some from, Some to =>
      if to <? from then Err (validation_error "from_date must be before to_date" None) else Ok tt
  | _, _ => Ok tt
  end.

Definition energy_sources : list string :=
  ["solar"; "wind"; "hydro"; "mixed"; "biomass"; "geothermal"].

Definition validate_energy_source (source : string) : res ApiError unit :=
  if negb (member (to_lowercase source) energy_sources) then
    Err (validation_field "energy_source"
           ("Energy source must be one of: " ++ join energy_sources))
  else Ok tt.

Definition validate_order_side (side : string) : res ApiError unit :=
  if negb (member (to_lowercase side) ["buy"; "sell"]) then
    Err (validation_field "side" "Order side must be 'buy' or 'sell'")
  else Ok tt.

Definition one_of (valid : list string) (status : string) : res ApiError unit :=
  if negb (member status valid) then
    Err (validation_field "status" ("Status must be one of: " ++ join valid))
  else Ok tt.

Definition validate_order_status : string -> res ApiError unit :=
  one_of ["Pending"; "PartiallyFilled"; "Filled"; "Cancelled"; "Expired"].
Definition validate_transaction_status : string -> res ApiError unit :=
  one_of ["Pending"; "Processing"; "Completed"; "Failed"; "Cancelled"].
Definition validate_certificate_status : string -> res ApiError unit :=
  one_of ["Active"; "Retired"; "Expired"; "Cancelled"].

Definition valid_roles : list string := ["consumer"; "producer"; "prosumer"; "admin"; "rec"].

Definition validate_user_role (role : string) : res ApiError unit :=
  if negb (member (to_lowercase role) valid_roles) then
    Err (validation_field "role" ("Role must be one of: " ++ join valid_roles))
  else Ok tt.

Definition validate_percentage (value : spec_float) (field_name : string) : res ApiError unit :=
  if f64_lt value (f64_of_Z 0) || f64_lt (f64_of_Z 100) value then
    Err (validation_field field_name (field_name ++ " must be between 0 and 100"))
  else Ok tt.

Definition validate_latitude (lat : spec_float) : res ApiError unit :=
  if f64_lt lat (f64_of_Z (-90)) || f64_lt (f64_of_Z 90) lat then
    Err (validation_field "latitude" "Latitude must be between -90 and 90")
  else Ok tt.

Definition validate_longitude (lng : spec_float) : res ApiError unit :=
  if f64_lt lng (f64_of_Z (-180)) || f64_lt (f64_of_Z 180) lng then
    Err (validation_field "longitude" "Longitude must be between -180 and 180")
  else Ok tt.

Definition validate_bigdecimal_amount (amount : BigDecimal) (field_name : string)
    : res ApiError unit :=
  if (bd_int amount =? 0) || (bd_int amount <? 0) then
    Err (validation_field field_name (field_name ++ " must be greater than zero"))
  else Ok tt.

Definition validate_username (username : string) : res ApiError unit :=
  if str_len username =? 0 then Err (validation_field "username" "Username is required")
  else if str_len username <? 3 then
    Err (validation_field "username" "Username must be at least 3 characters")
  else if 50 <? str_len username then
    Err (validation_field "username" "Username must be at most 50 characters")
  else if negb (forallb (fun c => is_alphanumeric c || (c =? cp "_")%N || (c =? cp "-")%N)
                  (chars username)) then
    Err (validation_field "username"
           "Username can only contain letters, numbers, underscores, and hyphens")
  else Ok tt.

(** The bytes of a character. *)
Definition utf8_len (c : N) : Z :=
  if (c <? 128)%N then 1 else if (c <? 2048)%N then 2 else if (c <? 65536)%N then 3 else 4.

Definition validate_phone_number (phone : string) : res ApiError unit :=
  if str_len phone =? 0 then Ok tt
  else
    let cleaned := List.filter (fun c => is_numeric c || (c =? cp "+")%N) (chars phone) in
    let len := sumZ utf8_len cleaned in
    if (len <? 10) || (15 <? len) then
      Err (validation_field "phone_number" "Phone number must be between 10 and 15 digits")
    else Ok tt.

Definition validate_time_range_hours (hours : Z) : res ApiError unit :=
  if hours <=? 0 then Err (validation_field "hours" "Hours must be positive")
  else if 8760 <? hours then
    Err (validation_field "hours" "Hours cannot exceed 8760 (1 year)")
  else Ok tt.
End validators.

(** ** What the patterns accept *)

Lemma is_match_spec r s : is_match r s = true <-> matches r (chars s).
Proof. apply re_match_spec. Qed.

(** C35: An e-mail address is accepted exactly when it has at most 255 bytes and the form
    local@domain.tld: a non-empty local part and domain of the allowed characters, and a
    top-level domain of two or more letters. *)
Theorem email_accepts email : validate_email email = Ok tt <->
  str_len email <= 255
  /\ exists l d t, chars email = (l ++ [cp "@"%char] ++ d ++ [cp "."%char] ++ t)%list
     /\ l <> [] /\ forallb email_local l = true
     /\ d <> [] /\ forallb email_domain d = true
     /\ (2 <= length t)%nat /\ forallb ascii_letter t = true.
Proof.
  assert (NE : forall l : list N, (1 <= length l)%nat <-> l <> []) by (intros []; simpl; split; [lia|done|done|lia]).
  assert (M : is_match EMAIL_REGEX email = true <->
    exists l d t, chars email = (l ++ [cp "@"%char] ++ d ++ [cp "."%char] ++ t)%list
     /\ l <> [] /\ forallb email_local l = true
     /\ d <> [] /\ forallb email_domain d = true
     /\ (2 <= length t)%nat /\ forallb ascii_letter t = true).
  { rewrite is_match_spec. unfold EMAIL_REGEX. split.
    - intros (l & r1 & E1 & [Hl Ll]%matches_plus_class & H)%matches_cat.
      apply matches_cat in H as (a & r2 & E2 & ->%matches_char & H).
      apply matches_cat in H as (d & r3 & E3 & [Hd Ld]%matches_plus_class & H).
      apply matches_cat in H as (p & t & E4 & ->%matches_char & [Ht Lt]%matches_at_least).
      exists l, d, t. rewrite <- !NE, E1, E2, E3, E4. by split_and!.
    - intros (l & d & t & E & Hl & Pl & Hd & Pd & Lt & Pt). rewrite E.
      constructor; [by apply matches_plus_class, conj, NE|].
      constructor; [by apply matches_char|].
      constructor; [by apply matches_plus_class, conj, NE|].
      constructor; [by apply matches_char|by apply matches_at_least]. }
  rewrite <- M. unfold validate_email. destruct (str_len email =? 0) eqn:E0.
  - to_prop. assert (email = "") as -> by (destruct email; [done|unfold str_len in E0; simpl in E0; lia]).
    split; [done|]. intros [_ H]. discriminate H.
  - destruct (255 <? str_len email) eqn:E1; to_prop; [split; [done|lia]|].
    destruct (is_match EMAIL_REGEX email); simpl; split; try done. by intros [_ ?].
Qed.

(** A wallet address is accepted exactly when it is 32 to 44 base58 characters. *)
Theorem wallet_accepts address : validate_wallet_address address = Ok tt <->
  forallb base58 (chars address) = true /\ (32 <= length (chars address) <= 44)%nat.
Proof.
  rewrite <- (matches_repeat 32 44 base58) by lia. fold WALLET_REGEX. rewrite <- is_match_spec.
  unfold validate_wallet_address. destruct (str_len address =? 0) eqn:E0.
  - to_prop. assert (address = "") as -> by (destruct address; [done|unfold str_len in E0; simpl in E0; lia]).
    split; [done|]. intros H. discriminate H.
  - by destruct (is_match WALLET_REGEX address).
Qed.

(** ** What the ranges accept *)

Lemma f64_compare_antisym x y :
  SFcompare y x = CompOpp <$> SFcompare x y.
Proof.
  destruct x as [s|[]| |[] m e], y as [s'|[]| |[] m' e']; simpl; try done;
    rewrite (Z.compare_antisym e e'); destruct (e ?= e'); simpl; try done;
    by rewrite (Pos.compare_cont_antisym m m' Eq), ?CompOpp_involutive.
Qed.

(** Without a NaN, [<] is the negation of [>=]. *)
Lemma f64_lt_not_le x y : is_nan x = false -> is_nan y = false -> f64_lt x y = negb (f64_le y x).
Proof.
  unfold f64_lt, f64_le, SFltb, SFleb. intros Hx Hy. rewrite (f64_compare_antisym x y).
  destruct (SFcompare x y) as [[]|] eqn:E; simpl; try done.
  by destruct x as [|[]| |[] ? ?], y as [|[]| |[] ? ?].
Qed.

(** A range test written with [<] and [>] lets a NaN through. *)
Lemma range_test lo hi x : is_nan lo = false -> is_nan hi = false ->
  f64_lt x lo || f64_lt hi x = false <-> is_nan x = true \/ f64_le lo x = true /\ f64_le x hi = true.
Proof.
  intros Hlo Hhi. destruct (is_nan x) eqn:E.
  - destruct x; try discriminate E. split; [by left|].
    by destruct lo as [|[]| |[] ? ?], hi as [|[]| |[] ? ?].
  - rewrite !f64_lt_not_le by done.
    destruct (f64_le lo x), (f64_le x hi); simpl; intuition congruence.
Qed.

(** Percentages, latitudes, longitudes and energy readings are accepted in their closed
    ranges, and so is NaN; amounts and prices reject NaN and both infinities, a price is
    positive and at most 1000. *)
Theorem float_ranges x f :
  let in_range lo hi := f64_le (f64_of_Z lo) x = true /\ f64_le x (f64_of_Z hi) = true in
  (validate_percentage x f = Ok tt <-> is_nan x = true \/ in_range 0 100)
  /\ (validate_latitude x = Ok tt <-> is_nan x = true \/ in_range (-90) 90)
  /\ (validate_longitude x = Ok tt <-> is_nan x = true \/ in_range (-180) 180)
  /\ (validate_energy_reading x = Ok tt <-> is_nan x = true \/ in_range 0 1000000)
  /\ (validate_amount x f = Ok tt <->
        is_nan x = false /\ is_infinite x = false /\ f64_lt (f64_of_Z 0) x = true)
  /\ (validate_price x = Ok tt <->
        f64_lt (f64_of_Z 0) x = true /\ f64_le x (f64_of_Z 1000) = true).
Proof.
  assert (A : forall f, validate_amount x f = Ok tt <->
    is_nan x = false /\ is_infinite x = false /\ f64_lt (f64_of_Z 0) x = true).
  { intros g. unfold validate_amount. destruct (is_nan x) eqn:En.
    - destruct x; try discriminate En. simpl. split; [done|by intros [? _]].
    - rewrite (f64_lt_not_le (f64_of_Z 0) x) by done. rewrite orb_false_r.
      destruct (f64_le x (f64_of_Z 0)), (is_infinite x); simpl; split; try done; by intros (_ & ? & ?). }
  cbv zeta. split_and!; [..|apply A|].
  - rewrite <- range_test by done. unfold validate_percentage. by case_match.
  - rewrite <- range_test by done. unfold validate_latitude. by case_match.
  - rewrite <- range_test by done. unfold validate_longitude. by case_match.
  - rewrite <- range_test by done. unfold validate_energy_reading.
    destruct (f64_lt x (f64_of_Z 0)); simpl; [done|by case_match].
  - unfold validate_price. specialize (A "price"). destruct (validate_amount x "price") as [[]|e]; cbn [mbind res_bind].
    + destruct (proj1 A eq_refl) as (En & Ei & Hp). rewrite Hp, (f64_lt_not_le (f64_of_Z 1000) x) by done.
      destruct (f64_le x (f64_of_Z 1000)); simpl; intuition congruence.
    + split; [done|]. intros [Hp Hle]. enough (Ok (E := ApiError) tt = Err e \/ Err e = Ok tt) as [?|?] by done.
      right. apply A. split_and!; [| |done];
        destruct x as [|[]| |[] ? ?]; try done; discriminate Hle.
Qed.

(** No status the gateway stores for an order passes [validate_order_status], which knows
    the names of the Rust constructors only, while the sides do pass. *)
Theorem status_vocabulary_differs (s : OrderStatus) (side : OrderSide) :
  is_ok (validate_order_status (OrderStatus_as_str s)) = false
  /\ validate_order_side (OrderSide_as_str side) = Ok tt.
Proof. by destruct s, side. Qed.

(** ** Witnesses *)

Lemma email_accepts_witness :
  validate_email "a.b@grid.co" = Ok tt /\ exists l d t,
    chars "a.b@grid.co" = (l ++ [cp "@"%char] ++ d ++ [cp "."%char] ++ t)%list.
Proof.
  assert (E : validate_email "a.b@grid.co" = Ok tt) by reflexivity. split; [exact E|].
  destruct (proj1 (email_accepts "a.b@grid.co") E) as (_ & l & d & t & H & _). by exists l, d, t.
Defined.
