(* ===== verification/Auth.v ===== *)
(** Authentication and authorization: [src/auth/].

    The two role systems ([mod.rs] and [roles.rs]), the claims of a token, the service
    around the JWT library, the password rules, and the middleware every protected route
    runs.  Signing and checking a token is the interface [JwtLib]; bcrypt and SHA-256 only
    produce and compare opaque texts.  A request is the three headers the middleware
    reads, present only when they are visible text. *)
From Stdlib Require Import Ascii.
From stdpp Require Import pretty.
From S2P Require Import Prelude Errors Store Schema Text Validation.

Open Scope string_scope.
Open Scope Z_scope.

(** ** Text *)

Definition starts_with (pat s : string) : bool := String.prefix pat s.

Definition ends_with (pat s : string) : bool :=
  let n := (String.length s - String.length pat)%nat in
  (String.length pat <=? String.length s)%nat && (String.substring n (String.length pat) s =? pat)%string.

(** [s.split(':')]: the segment before the first colon, and what follows it. *)
Fixpoint split_colon (s : string) : string * option string :=
  match s with
  | EmptyString => (EmptyString, None)
  | String c s =>
      if Ascii.eqb c ":"%char then (EmptyString, Some s)
      else let '(h, t) := split_colon s in (String c h, t)
  end.

(** ** Permissions ([roles.rs]) *)

Definition permission_new (resource action : string) : string := resource ++ ":" ++ action.
Definition permission_wildcard (resource : string) : string := resource ++ ":*".
Definition permission_resource (p : string) : string := fst (split_colon p).
Definition permission_action (p : string) : string :=
  match snd (split_colon p) with None => "" | Some s => fst (split_colon s) end.
Definition permission_is_wildcard (p : string) : bool := ends_with ":*" p.

Definition grants (p requested : string) : bool :=
  (p =? requested)%string
  || (permission_is_wildcard p && (permission_resource p =? permission_resource requested)%string).

Inductive Role := User | Admin | AMI | Producer | Consumer | Operator.

#[global] Instance Role_eq_dec : EqDecision Role.
Proof. solve_decision. Defined.

Definition permissions (r : Role) : list string :=
  match r with
  | User =>
      ["energy:read"; "energy:submit"; "trading:read"; "trading:create"; "profile:read";
       "profile:update"; "meters:read"]
  | Admin =>
      ["energy:*"; "trading:*"; "profile:*"; "analytics:*"; "users:*"; "admin:*"; "meters:*";
       "system:*"]
  | AMI => ["energy:submit"; "meters:read"; "meters:update"; "readings:submit"]
  | Producer =>
      ["energy:read"; "energy:submit"; "offers:*"; "trading:read"; "trading:create";
       "transactions:read"; "profile:read"; "profile:update"; "meters:read"]
  | Consumer =>
      ["energy:read"; "orders:*"; "offers:read"; "trading:read"; "trading:create";
       "transactions:read"; "profile:read"; "profile:update"]
  | Operator => ["energy:read"; "meters:*"; "readings:*"; "analytics:read"; "system:health"]
  end.

Definition has_permission (r : Role) (p : string) : bool :=
  existsb (fun q => grants q p) (permissions r).
Definition has_any_permission (r : Role) (ps : list string) : bool :=
  existsb (has_permission r) ps.
Definition has_all_permissions (r : Role) (ps : list string) : bool :=
  forallb (has_permission r) ps.

(** [FromStr] and [Display]. *)
Definition role_from_str (s : string) : res string Role :=
  let l := to_lowercase s in
  if (l =? "user")%string then Ok User
  else if (l =? "admin")%string then Ok Admin
  else if (l =? "ami")%string then Ok AMI
  else if (l =? "producer")%string then Ok Producer
  else if (l =? "consumer")%string then Ok Consumer
  else if (l =? "operator")%string then Ok Operator
  else Err ("Invalid role: " ++ s).

Definition role_display (r : Role) : string :=
  match r with
  | User => "user" | Admin => "admin" | AMI => "ami" | Producer => "producer"
  | Consumer => "consumer" | Operator => "operator"
  end.

(** ** The roles of [mod.rs] *)

Inductive LegacyRole := LUser | LAdmin | LAMI | LProducer | LConsumer.

#[global] Instance LegacyRole_eq_dec : EqDecision LegacyRole.
Proof. solve_decision. Defined.

Definition legacy_from_str (s : string) : res string LegacyRole :=
  let l := to_lowercase s in
  if (l =? "user")%string then Ok LUser
  else if (l =? "admin")%string then Ok LAdmin
  else if (l =? "ami")%string then Ok LAMI
  else if (l =? "producer")%string then Ok LProducer
  else if (l =? "consumer")%string then Ok LConsumer
  else Err ("Invalid role: " ++ s).

Definition legacy_as_str (r : LegacyRole) : string :=
  match r with
  | LUser => "user" | LAdmin => "admin" | LAMI => "ami" | LProducer => "producer"
  | LConsumer => "consumer"
  end.

Definition legacy_permissions (r : LegacyRole) : list string :=
  match r with
  | LUser =>
      ["energy:read"; "energy:submit"; "trading:read"; "trading:create"; "profile:read";
       "profile:update"]
  | LAdmin => ["energy:*"; "trading:*"; "profile:*"; "analytics:*"; "users:*"; "admin:*"]
  | LAMI => ["energy:submit"; "meters:read"; "meters:update"]
  | LProducer =>
      ["energy:read"; "offers:*"; "trading:read"; "transactions:read"; "profile:read";
       "profile:update"]
  | LConsumer =>
      ["energy:read"; "orders:*"; "offers:read"; "trading:read"; "transactions:read";
       "profile:read"; "profile:update"]
  end.

(** [&perm[..perm.len() - 1]]. *)
Definition drop_last (s : string) : string := String.substring 0 (String.length s - 1) s.

Definition can_access (r : LegacyRole) (permission : string) : bool :=
  member permission (legacy_permissions r)
  || existsb (fun perm => ends_with "*" perm && starts_with (drop_last perm) permission)
       (legacy_permissions r).

(** ** Claims and tokens ([mod.rs], [jwt.rs]) *)

Record Claims := {
  sub : Uuid;
  username : string;
  role : string;
  exp : Z;
  iat : Z;
  iss : string;
}.

(** Times are seconds since the epoch. *)
Definition claims_new (now : Z) (user_id : Uuid) (username role : string) : Claims :=
  {| sub := user_id; username := username; role := role; exp := now + 24 * 3600; iat := now;
     iss := "api-gateway" |}.

Definition is_expired (now : Z) (c : Claims) : bool := exp c <? now.
Definition has_role (c : Claims) (required : string) : bool := (role c =? required)%string.
Definition has_any_role (c : Claims) (required : list string) : bool := member (role c) required.

Inductive JwtErrorKind := ExpiredSignature | InvalidToken | InvalidSignature | OtherKind.

(** The JWT library with the key and the validation of [JwtService::new] (HS256, issuer
    [api-gateway], [validate_exp], the default leeway of 60 seconds).  [jwt_decode now] sees
    the current time.  A token the service signed decodes to its claims while it has not
    been expired for more than the leeway, and not later. *)
Class JwtLib := {
  jwt_encode : Claims -> res string string;
  jwt_decode : Z -> string -> res (JwtErrorKind * string) Claims;
  jwt_fresh now c t : jwt_encode c = Ok t -> iss c = "api-gateway" -> now - 60 <= exp c ->
    jwt_decode now t = Ok c;
  jwt_stale now c t : jwt_encode c = Ok t -> iss c = "api-gateway" -> exp c < now - 60 ->
    exists m, jwt_decode now t = Err (ExpiredSignature, m);
}.

(** ** Passwords ([password.rs]) *)

Definition special_chars : string := "!@#$%^&*()_+-=[]{}|;:,.<>?".
Definition weak_patterns : list string :=
  ["password"; "123456"; "qwerty"; "admin"; "letmein"; "welcome"; "monkey"; "dragon"].

Definition has_char (p : N -> bool) (s : string) : bool := existsb p (chars s).
Definition lowercase_letter (c : N) : bool := (97 <=? c)%N && (c <=? 122)%N.
Definition uppercase_letter (c : N) : bool := (65 <=? c)%N && (c <=? 90)%N.
Definition special_char (c : N) : bool := existsb (N.eqb c) (chars special_chars).

(** The requirements, and whether a password meets them. *)
Definition strength_checks (password : string) : list (bool * string) :=
  [(has_char lowercase_letter password, "at least one lowercase letter");
   (has_char uppercase_letter password, "at least one uppercase letter");
   (has_char ascii_digit password, "at least one digit");
   (has_char special_char password,
    "at least one special character (" ++ special_chars ++ ")")].

Section passwords.
Context `{CharClass}.

Definition validate_password_strength (password : string) : res ApiError unit :=
  if str_len password <? 8 then
    Err (BadRequest ("Password must be at least " ++ show_usize 8 ++ " characters long"))
  else if 128 <? str_len password then
    Err (BadRequest ("Password must be no more than " ++ show_usize 128 ++ " characters long"))
  else
    let missing := (List.filter (fun r => negb (fst r)) (strength_checks password)).*2 in
    match missing with
    | _ :: _ => Err (BadRequest ("Password must contain: " ++ join missing))
    | [] =>
        if existsb (fun pattern => contains pattern (lowercase password)) weak_patterns then
          Err (BadRequest "Password contains common weak patterns")
        else Ok tt
    end.
End passwords.

(** The character of an index into a byte string of the source. *)
Definition char_at (i : nat) (s : string) : ascii := default " "%char (String.get i s).

(** [chars.swap(i, j)]. *)
Definition swap {A} (i j : nat) (l : list A) : list A :=
  match l !! i, l !! j with Some a, Some b => <[j := a]> (<[i := b]> l) | _, _ => l end.

Definition temp_special : string := "!@#$%^&*".
Definition temp_alphanumeric : string :=
  "ABCDEFGHIJKLMNOPQRSTUVWXYZabcdefghijklmnopqrstuvwxyz0123456789".
Definition temp_upper : string := "ABCDEFGHIJKLMNOPQRSTUVWXYZ".
Definition temp_lower : string := "abcdefghijklmnopqrstuvwxyz".
Definition temp_digits : string := "0123456789".

(** The draws of the generator: four required characters, eight more, twelve swaps. *)
Record Draws := {
  d_upper : nat; d_lower : nat; d_digit : nat; d_special : nat;
  d_fill : list nat;
  d_swaps : list nat;
}.

Definition generate_temporary_password (d : Draws) : string :=
  let password :=
    char_at (d_upper d) temp_upper :: char_at (d_lower d) temp_lower
    :: char_at (d_digit d) temp_digits :: char_at (d_special d) temp_special
    :: ((fun i => char_at i temp_alphanumeric) <$> d_fill d) in
  String.string_of_list_ascii (fold_left (fun l ij => swap (fst ij) (snd ij) l)
    (imap (fun i j => (i, j)) (d_swaps d)) password).

(** ** The token service ([jwt.rs]) *)

Section tokens.
Context `{JWT : JwtLib}.

Definition encode_token (c : Claims) : res ApiError string :=
  match jwt_encode c with
  | Ok t => Ok t
  | Err e => Err (Internal ("Failed to encode JWT: " ++ e))
  end.

Definition decode_token (now : Z) (token : string) : res ApiError Claims :=
  match jwt_decode now token with
  | Ok c => Ok c
  | Err (ExpiredSignature, _) => Err (Unauthorized "Token has expired")
  | Err (InvalidToken, _) => Err (Unauthorized "Invalid token")
  | Err (InvalidSignature, _) => Err (Unauthorized "Invalid token signature")
  | Err (OtherKind, e) => Err (Internal ("JWT decode error: " ++ e))
  end.

Definition validate_token (now : Z) (token : string) : bool :=
  match decode_token now token with Ok c => negb (is_expired now c) | Err _ => false end.

Definition refresh_token (now : Z) (old_token : string) : res ApiError string :=
  match decode_token now old_token with
  | Ok c => encode_token (claims_new now (sub c) (username c) (role c))
  | Err e => Err e
  end.
End tokens.

(** [ApiKeyService]: the hex digest of the key followed by the secret. *)
Class Sha256 := { sha256_hex : string -> string }.

Section keys.
Context `{SHA : Sha256}.

Definition hash_key (secret key : string) : string := sha256_hex (key ++ secret).
(** [simple]: the 32 hexadecimal digits of a new UUID. *)
Definition generate_key (secret simple : string) : string * string :=
  let key := "ak_" ++ simple in (key, hash_key secret key).
Definition verify_key (secret key stored_hash : string) : bool :=
  (hash_key secret key =? stored_hash)%string.
End keys.

(** ** The middleware ([middleware.rs]) *)

Record Request := {
  authorization : option string;
  x_api_key : option string;
  x_impersonate_user : option string;
}.

Record AuthConfig := {
  engineering_api_key : string;
  simulator_user_id : string;
}.

(** The request goes on, with the claims in its extensions, or is answered here. *)
Inductive AuthOutcome :=
| Next (claims : Claims)
| Respond (status : Z) (body : string).

Section middleware.
Context `{JWT : JwtLib} `{UUID : UuidParse}.

(** The user an engineering key acts for; [0] is [Uuid::nil()]. *)
Definition engineering_user (config : AuthConfig) (req : Request) : Uuid :=
  let simulator_uuid := default 0%N (parse_uuid (simulator_user_id config)) in
  match x_impersonate_user req with
  | Some id => default simulator_uuid (parse_uuid id)
  | None => simulator_uuid
  end.

Definition engineering_claims (config : AuthConfig) (now : Z) (req : Request) : Claims :=
  claims_new now (engineering_user config req) "simulator" "ami".

(** The token of a [Bearer] header. *)
Definition bearer (req : Request) : option string :=
  match authorization req with
  | Some v => if starts_with "Bearer " v then Some (String.substring 7 (String.length v - 7) v) else None
  | None => None
  end.

Definition auth_middleware (config : AuthConfig) (now : Z) (req : Request) : AuthOutcome :=
  match bearer req with
  | None =>
      match x_api_key req with
      | Some key =>
          if (key =? engineering_api_key config)%string
          then Next (engineering_claims config now req)
          else Respond 401 "Missing or invalid Authorization header"
      | None => Respond 401 "Missing or invalid Authorization header"
      end
  | Some token =>
      if (token =? engineering_api_key config)%string
      then Next (engineering_claims config now req)
      else match decode_token now token with
           | Ok claims => Next claims
           | Err _ => Respond 401 "Invalid or expired token"
           end
  end.

(** [None]: the request goes on. *)
Definition require_admin_role (user : Claims) : option (Z * string) :=
  match legacy_from_str (role user) with
  | Err _ => Some (403, "Invalid user role")
  | Ok r => if bool_decide (r = LAdmin) then None else Some (403, "Admin access required")
  end.
End middleware.

(** ** Roles and permissions *)

Definition upgrade (r : LegacyRole) : Role :=
  match r with
  | LUser => User | LAdmin => Admin | LAMI => AMI | LProducer => Producer
  | LConsumer => Consumer
  end.

(** A role parses back from its name in any case and from nothing else, in both role
    systems, and where the older one parses a name the newer one parses it to the same role. *)
Theorem role_names_roundtrip s r l :
  (role_from_str s = Ok r <-> to_lowercase s = role_display r)
  /\ (legacy_from_str s = Ok l <-> to_lowercase s = legacy_as_str l)
  /\ (legacy_from_str s = Ok l -> role_from_str s = Ok (upgrade l)).
Proof.
  assert (A : role_from_str s = Ok r <-> to_lowercase s = role_display r).
  { unfold role_from_str. repeat case_match; to_prop;
      [..|split; [done|intros E; destruct r; simpl in E; congruence]];
      (split; [intros [= <-]; done|intros E; destruct r; simpl in E; congruence]). }
  assert (B : legacy_from_str s = Ok l <-> to_lowercase s = legacy_as_str l).
  { unfold legacy_from_str. repeat case_match; to_prop;
      [..|split; [done|intros E; destruct l; simpl in E; congruence]];
      (split; [intros [= <-]; done|intros E; destruct l; simpl in E; congruence]). }
  split_and!; [exact A|exact B|]. intros E%B. unfold role_from_str. rewrite E. by destruct l.
Qed.

Lemma starts_with_app pat s : starts_with pat s = true -> exists t, s = pat ++ t.
Proof.
  unfold starts_with. revert s. induction pat as [|a pat IH]; intros s H.
  - by exists s.
  - destruct s as [|b s]; [discriminate H|]. simpl in H. destruct (Ascii.ascii_dec a b) as [->|]; [|discriminate H].
    destruct (IH s H) as [t ->]. by exists t.
Qed.

Lemma member_spec s l : member s l = true <-> s ∈ l.
Proof.
  unfold member. rewrite existsb_exists, list_elem_of_In. split.
  - intros (x & Hx & ->%String.eqb_eq). exact Hx.
  - intros H. exists s. split; [exact H|apply String.eqb_refl].
Qed.

(** Whatever the older role system lets a role access, the newer one permits it too. *)
Theorem legacy_access_subsumed r p : can_access r p = true -> has_permission (upgrade r) p = true.
Proof.
  unfold can_access. intros [H|H]%orb_true_iff.
  - apply member_spec in H.
    assert (F : forallb (has_permission (upgrade r)) (legacy_permissions r) = true) by (by destruct r).
    rewrite forallb_forall in F. by apply F, list_elem_of_In.
  - apply existsb_exists in H as (q & Hq & [He Hs]%andb_true_iff).
    apply starts_with_app in Hs as [t ->].
    assert (G : In q (permissions (upgrade r)) /\ grants q (drop_last q ++ t) = true).
    { destruct r; simpl in Hq; destruct_or! Hq; subst q; try discriminate He; try contradiction Hq;
        (split; [simpl; tauto|apply orb_true_iff; right; reflexivity]). }
    destruct G as [G1 G2]. apply existsb_exists. by exists q.
Qed.

(** Only the admin role has any permission on users or on the administration; it is not
    above the other roles, though: producers have offers, consumers orders, meter
    infrastructure and operators readings, both trading sides transactions, the admin none. *)
Theorem admin_permissions r a :
  (has_permission r (permission_new "users" a) = true -> r = Admin)
  /\ (has_permission r (permission_new "admin" a) = true -> r = Admin)
  /\ has_permission Admin (permission_new "users" a) = true
  /\ has_permission Admin (permission_new "admin" a) = true
  /\ existsb (has_permission Admin)
       ["offers:create"; "offers:read"; "orders:create"; "readings:submit"; "transactions:read"]
     = false
  /\ has_permission Producer "offers:create" = true
  /\ has_permission Consumer "orders:create" = true
  /\ has_permission AMI "readings:submit" = true
  /\ has_permission Consumer "transactions:read" = true.
Proof.
  assert (W : forall q, In q (permissions Admin) -> forall p,
    permission_is_wildcard q = true -> permission_resource q = permission_resource p ->
    has_permission Admin p = true).
  { intros q Hq p Hw Hr. apply existsb_exists. exists q. split; [exact Hq|].
    apply orb_true_iff. right. by rewrite Hw, Hr, String.eqb_refl. }
  split_and!; try reflexivity.
  - intros H. destruct r; [discriminate H|reflexivity|discriminate H..].
  - intros H. destruct r; [discriminate H|reflexivity|discriminate H..].
  - apply (W "users:*"); [simpl; tauto|reflexivity..].
  - apply (W "admin:*"); [simpl; tauto|reflexivity..].
Qed.

(** ** The middleware *)

Section soundness.
Context `{JWT : JwtLib} `{UUID : UuidParse}.

(** C40: a request passes the middleware only with claims that its bearer token carries and
    the key vouches for, or with the engineering key, as a bearer token or as API key; the
    engineering key gives any user the request names, in the role [ami], and that role never
    passes the admin gate. *)
Theorem middleware_sound config now req c :
  auth_middleware config now req = Next c ->
  (exists token, bearer req = Some token /\ decode_token now token = Ok c)
  \/ (c = engineering_claims config now req
      /\ (bearer req = Some (engineering_api_key config)
          \/ bearer req = None /\ x_api_key req = Some (engineering_api_key config))
      /\ (forall id user, x_impersonate_user req = Some id -> parse_uuid id = Some user ->
            sub c = user)
      /\ require_admin_role c <> None).
Proof.
  assert (E : forall id user, x_impersonate_user req = Some id -> parse_uuid id = Some user ->
            sub (engineering_claims config now req) = user).
  { intros id user Hi Hp. unfold engineering_claims, engineering_user. simpl. by rewrite Hi, Hp. }
  unfold auth_middleware. destruct (bearer req) as [token|] eqn:Eb.
  - destruct (token =? engineering_api_key config)%string eqn:Ek.
    + intros [= <-]. to_prop. subst. right. split; [done|]. split; [by left|]. by split.
    + destruct (decode_token now token) eqn:Ed; intros [= <-]. left. by exists token.
  - destruct (x_api_key req) as [key|] eqn:Ea; [|discriminate].
    destruct (key =? engineering_api_key config)%string eqn:Ek; intros [= <-]. to_prop. subst.
    right. split; [done|]. split; [right; by split|]. by split.
Qed.

(** A token the service issued lets its bearer in until a minute after its expiry, with
    exactly the claims it was issued for, and no longer. *)
Theorem issued_token_admits config now now' c t req :
  encode_token c = Ok t -> iss c = "api-gateway" -> bearer req = Some t ->
  t <> engineering_api_key config ->
  (now <= exp c + 60 -> auth_middleware config now req = Next c)
  /\ (exp c + 60 < now' -> auth_middleware config now' req = Respond 401 "Invalid or expired token")
  /\ (now <= exp c + 60 -> exp c < now -> validate_token now t = false
      /\ refresh_token now t = encode_token (claims_new now (sub c) (username c) (role c))).
Proof.
  unfold encode_token. destruct (jwt_encode c) as [t'|e] eqn:Ej; intros Ht Hi Hb Hk; simplify_eq.
  unfold auth_middleware, validate_token, refresh_token, decode_token. rewrite Hb.
  apply String.eqb_neq in Hk. rewrite Hk. split_and!.
  - intros Hn. by rewrite (jwt_fresh now c t Ej Hi) by lia.
  - intros Hn. by destruct (jwt_stale now' c t Ej Hi ltac:(lia)) as [m ->].
  - intros H1 H2. rewrite (jwt_fresh now c t Ej Hi) by lia. split; [|done].
    unfold is_expired. by rewrite (proj2 (Z.ltb_lt (exp c) now)) by lia.
Qed.
End soundness.

(** ** Passwords *)

Lemma swap_perm {A} i j (l : list A) : swap i j l ≡ₚ l.
Proof.
  unfold swap. destruct (l !! i) as [a|] eqn:Ei; [|done]. destruct (l !! j) as [b|] eqn:Ej; [|done].
  apply Permutation_inj. rewrite !length_insert. split; [done|].
  pose proof (lookup_lt_Some _ _ _ Ei). pose proof (lookup_lt_Some _ _ _ Ej).
  exists (fun k => if decide (k = i) then j else if decide (k = j) then i else k). split.
  - intros x y. repeat case_decide; congruence.
  - intros k. repeat case_decide; subst.
    + destruct (decide (i = j)) as [->|]; [rewrite list_lookup_insert_eq by (by rewrite length_insert); congruence|].
      rewrite list_lookup_insert_ne, list_lookup_insert_eq by done. congruence.
    + rewrite list_lookup_insert_eq by (by rewrite length_insert). congruence.
    + by rewrite !list_lookup_insert_ne by done.
Qed.

Lemma swaps_perm {A} (ijs : list (nat * nat)) (l : list A) :
  fold_left (fun l ij => swap (fst ij) (snd ij) l) ijs l ≡ₚ l.
Proof.
  revert l. induction ijs as [|[i j] ijs IH]; intros l; simpl; [done|]. by rewrite IH, swap_perm.
Qed.

Lemma chars_of_ascii l : Forall (fun a => (cp a < 128)%N) l ->
  chars (String.string_of_list_ascii l) = cp <$> l.
Proof.
  unfold chars. induction 1 as [|a l Ha _ IH]; [done|]. simpl. unfold cp in Ha.
  rewrite (proj2 (N.ltb_lt _ _) Ha). by rewrite IH.
Qed.

Lemma str_len_of_list l : str_len (String.string_of_list_ascii l) = Z.of_nat (length l).
Proof. unfold str_len. f_equal. induction l; simpl; congruence. Qed.

(** A property of all characters of a byte string of the source, checked by running. *)
Lemma char_at_class (p : N -> bool) s n i :
  forallb (fun i => p (cp (char_at i s))) (seq 0 n) = true -> (i < n)%nat ->
  p (cp (char_at i s)) = true.
Proof.
  intros H Hi. rewrite forallb_forall in H. apply H. apply in_seq. lia.
Qed.

Definition draws_in_range (d : Draws) : Prop :=
  (d_upper d < 26)%nat /\ (d_lower d < 26)%nat /\ (d_digit d < 10)%nat /\ (d_special d < 8)%nat
  /\ length (d_fill d) = 8%nat /\ Forall (fun i => i < 62)%nat (d_fill d).

Section temporary.
Context `{CC : CharClass}.

(** Whatever the random draws, a temporary password has twelve characters and meets every
    requirement on characters: the strength rules accept it, unless the draws happen to
    spell one of the weak patterns, which the generator does not exclude. *)
Theorem temporary_password_strong d : draws_in_range d ->
  let p := generate_temporary_password d in
  str_len p = 12 /\ forallb fst (strength_checks p) = true
  /\ validate_password_strength p =
       if existsb (fun pattern => contains pattern (to_lowercase p)) weak_patterns
       then Err (BadRequest "Password contains common weak patterns") else Ok tt.
Proof.
  intros (Hu & Hl & Hd & Hs & Hlen & Hfill). cbv zeta. unfold generate_temporary_password.
  set (base := char_at (d_upper d) temp_upper :: _).
  pose proof (swaps_perm (imap (fun i j => (i, j)) (d_swaps d)) base) as HP.
  set (l := fold_left _ _ base) in *. clearbody l.
  pose proof (char_at_class uppercase_letter temp_upper 26 _ ltac:(by vm_compute) Hu) as Cu.
  pose proof (char_at_class lowercase_letter temp_lower 26 _ ltac:(by vm_compute) Hl) as Cl.
  pose proof (char_at_class ascii_digit temp_digits 10 _ ltac:(by vm_compute) Hd) as Cd.
  pose proof (char_at_class special_char temp_special 8 _ ltac:(by vm_compute) Hs) as Cs.
  assert (Hascii : Forall (fun a => (cp a < 128)%N) l).
  { rewrite HP. subst base. repeat apply Forall_cons; [..|apply list.Forall_fmap; eapply list.Forall_impl; [exact Hfill|]];
      [| | | |intros i Hi]; simpl; apply N.ltb_lt.
    - by apply (char_at_class (fun c => c <? 128)%N temp_upper 26); [vm_compute|].
    - by apply (char_at_class (fun c => c <? 128)%N temp_lower 26); [vm_compute|].
    - by apply (char_at_class (fun c => c <? 128)%N temp_digits 10); [vm_compute|].
    - by apply (char_at_class (fun c => c <? 128)%N temp_special 8); [vm_compute|].
    - by apply (char_at_class (fun c => c <? 128)%N temp_alphanumeric 62); [vm_compute|]. }
  assert (Hhas : forall q, (exists a, a ∈ base /\ q (cp a) = true) ->
                      has_char q (String.string_of_list_ascii l) = true).
  { intros q (a & Ha & Hq). unfold has_char. rewrite chars_of_ascii by done.
    apply existsb_exists. exists (cp a). split; [|done]. apply list_elem_of_In, list_elem_of_fmap_2.
    by rewrite HP. }
  assert (Hlen12 : str_len (String.string_of_list_ascii l) = 12).
  { rewrite str_len_of_list, HP. subst base. simpl. rewrite length_fmap, Hlen. done. }
  assert (Hchecks : List.filter (fun r => negb (fst r)) (strength_checks (String.string_of_list_ascii l)) = []
                    /\ forallb fst (strength_checks (String.string_of_list_ascii l)) = true).
  { unfold strength_checks. rewrite !Hhas; [by split|..]; subst base;
      eexists; (split; [|eassumption]); rewrite !elem_of_cons; tauto. }
  split; [exact Hlen12|]. split; [apply Hchecks|]. unfold validate_password_strength.
  rewrite Hlen12, (proj1 Hchecks). simpl ((12 <? 8)%Z). cbn iota beta.
  rewrite lowercase_ascii; [done|]. unfold is_ascii. rewrite chars_of_ascii by done.
  apply forallb_forall. intros c Hc. apply list_elem_of_In, list_elem_of_fmap in Hc as (a & -> & Ha).
  apply N.ltb_lt. by apply (proj1 (list.Forall_forall _ _) Hascii).
Qed.
End temporary.

(** ** Witnesses *)

#[global] Instance Claims_eq_dec : EqDecision Claims.
Proof. solve_decision. Defined.

Definition demo_claims : Claims := claims_new 1000 7 "alice" "prosumer".

Definition demo_encode (c : Claims) : res string string :=
  if decide (c = demo_claims) then Ok "t0" else Err "no key".
Definition demo_decode (now : Z) (t : string) : res (JwtErrorKind * string) Claims :=
  if (t =? "t0")%string
  then if exp demo_claims <? now - 60 then Err (ExpiredSignature, "expired") else Ok demo_claims
  else Err (InvalidToken, "invalid").

Lemma demo_encoded c t : demo_encode c = Ok t -> c = demo_claims /\ t = "t0".
Proof. unfold demo_encode. intros H. case_decide; simplify_eq. by split. Qed.

(** A library that signs one token. *)
Definition demo_jwt : JwtLib.
Proof.
  refine {| jwt_encode := demo_encode; jwt_decode := demo_decode |}.
  - intros now c t [-> ->]%demo_encoded _ H. unfold demo_decode.
    by rewrite (proj2 (Z.ltb_ge _ _)) by exact H.
  - intros now c t [-> ->]%demo_encoded _ H. unfold demo_decode.
    rewrite (proj2 (Z.ltb_lt _ _)) by exact H. by eexists.
Defined.

Definition demo_uuids : UuidParse := {| parse_uuid s := if (s =? "u7")%string then Some 7%N else None |}.
Definition demo_auth : AuthConfig := {| engineering_api_key := "eng"; simulator_user_id := "sim" |}.
Definition bearer_request (token : string) (as_user : option string) : Request :=
  {| authorization := Some ("Bearer " ++ token); x_api_key := None; x_impersonate_user := as_user |}.

Section witnesses.
#[local] Existing Instance demo_jwt.
#[local] Existing Instance demo_uuids.

Lemma role_names_roundtrip_witness :
  legacy_from_str "ADMIN" = Ok LAdmin /\ role_from_str "ADMIN" = Ok Admin.
Proof.
  assert (E : legacy_from_str "ADMIN" = Ok LAdmin) by reflexivity. split; [exact E|].
  exact (proj2 (proj2 (role_names_roundtrip "ADMIN" Admin LAdmin)) E).
Defined.

Lemma legacy_access_subsumed_witness :
  can_access LAdmin "users:create" = true /\ has_permission Admin "users:create" = true.
Proof.
  assert (E : can_access LAdmin "users:create" = true) by reflexivity. split; [exact E|].
  exact (legacy_access_subsumed LAdmin "users:create" E).
Defined.

Lemma admin_permissions_witness :
  has_permission Admin (permission_new "users" "create") = true /\ Admin = Admin.
Proof.
  assert (E : has_permission Admin (permission_new "users" "create") = true) by reflexivity.
  split; [exact E|]. exact (proj1 (admin_permissions Admin "create") E).
Defined.

(** The engineering key acts for user 7. *)
Lemma middleware_sound_witness :
  let c := claims_new 5 7 "simulator" "ami" in
  auth_middleware demo_auth 5 (bearer_request "eng" (Some "u7")) = Next c
  /\ ((exists token, bearer (bearer_request "eng" (Some "u7")) = Some token /\ decode_token 5 token = Ok c)
      \/ require_admin_role c <> None).
Proof.
  assert (E : auth_middleware demo_auth 5 (bearer_request "eng" (Some "u7"))
    = Next (claims_new 5 7 "simulator" "ami")) by (vm_compute; reflexivity).
  split; [exact E|]. destruct (middleware_sound demo_auth 5 _ _ E) as [H|(_ & _ & _ & H)]; [by left|by right].
Defined.

Lemma issued_token_admits_witness :
  encode_token demo_claims = Ok "t0"
  /\ auth_middleware demo_auth (1000 + 24 * 3600 + 60) (bearer_request "t0" None) = Next demo_claims.
Proof.
  assert (E : encode_token demo_claims = Ok "t0") by (vm_compute; reflexivity). split; [exact E|].
  apply (issued_token_admits demo_auth (1000 + 24 * 3600 + 60) 0 demo_claims "t0"
    (bearer_request "t0" None) E); [reflexivity|vm_compute; reflexivity|discriminate|vm_compute; discriminate].
Defined.

Definition demo_draws : Draws :=
  {| d_upper := 3; d_lower := 4; d_digit := 5; d_special := 6;
     d_fill := [0; 10; 20; 30; 40; 50; 60; 61]%nat; d_swaps := [11; 3; 0; 7]%nat |}.

Lemma temporary_password_strong_witness :
  draws_in_range demo_draws /\ str_len (generate_temporary_password demo_draws) = 12.
Proof.
  assert (R : draws_in_range demo_draws).
  { unfold draws_in_range, demo_draws. simpl. repeat split; try lia. repeat constructor; lia. }
  split; [exact R|]. exact (proj1 (@temporary_password_strong std_chars demo_draws R)).
Defined.
End witnesses.
