(* ===== verification/Meters.v ===== *)
(** Meters: registration and verification.

    [src/handlers/auth/meters/registration.rs] and the simulator's registration in
    [src/handlers/meter/stub.rs] are the routed code, over the tables [meters] and
    [meter_registry]; [src/services/meter/verification.rs] is the verification service, which
    is built but which no route calls.  Tables and constraints are those of
    [src/migrations/20251221000001_create_meters_table.sql] and
    [src/migrations/20241119000001_add_meter_verification.sql].  New identifiers and the
    current time are arguments. *)
From S2P Require Import Prelude Floats Errors Store Schema Escrow Settlement Text Validation.

Open Scope string_scope.
Open Scope Z_scope.

(** ** Tables *)

(** The columns of [users] these operations touch. *)
Record MeterUser := {
  mu_email : string;
  mu_username : string;
  mu_wallet : option string;
  mu_email_verified : bool;
}.

Record Meter := {
  m_id : Uuid;
  m_user_id : Uuid;
  m_serial : string;
  m_type : option string;
  m_location : option string;
  m_is_verified : option bool;
  m_latitude : option spec_float;
  m_longitude : option spec_float;
  m_zone_id : option Z;
}.

Record MeterRegistry := {
  rg_id : Uuid;
  rg_serial : string;
  rg_key_hash : string;
  rg_method : string;
  rg_status : string;
  rg_user_id : Uuid;
  rg_manufacturer : option string;
  rg_type : option string;
  rg_location : option string;
  rg_proof : option string;
  rg_verified_at : option DateTime;
  rg_zone_id : option Z;
  rg_created_at : DateTime;
}.

Record VerificationAttempt := {
  at_serial : string;
  at_user_id : Uuid;
  at_method : string;
  at_ip : option string;
  at_agent : option string;
  at_status : string;
  at_result : option string;
  at_failure : option string;
  at_time : DateTime;
}.

Record MeterDb := {
  md_users : gmap Uuid MeterUser;
  meters : gmap Uuid Meter;
  registry : gmap Uuid MeterRegistry;
  attempts : list VerificationAttempt;
}.

Abbreviation MM := (M MeterDb Event).

Definition set_md_users (u : gmap Uuid MeterUser) (d : MeterDb) : MeterDb :=
  {| md_users := u; meters := meters d; registry := registry d; attempts := attempts d |}.
Definition set_meters (m : gmap Uuid Meter) (d : MeterDb) : MeterDb :=
  {| md_users := md_users d; meters := m; registry := registry d; attempts := attempts d |}.
Definition set_registry (r : gmap Uuid MeterRegistry) (d : MeterDb) : MeterDb :=
  {| md_users := md_users d; meters := meters d; registry := r; attempts := attempts d |}.

(** The row with a serial number, and the user with an address. *)
Definition meter_of (serial : string) (d : MeterDb) : option Meter :=
  List.find (fun m => (m_serial m =? serial)%string) (map_to_list (meters d)).*2.
Definition registry_of (serial : string) (d : MeterDb) : option MeterRegistry :=
  List.find (fun r => (rg_serial r =? serial)%string) (map_to_list (registry d)).*2.
Definition user_where (p : MeterUser -> bool) (d : MeterDb) : option (Uuid * MeterUser) :=
  List.find (fun u => p u.2) (map_to_list (md_users d)).

(** ** Statements *)

Definition insert_meter (m : Meter) (d : MeterDb) : option MeterDb :=
  match md_users d !! m_user_id m, meters d !! m_id m, meter_of (m_serial m) d with
  | Some _, None, None =>
      if varchar 100 (Some (m_serial m)) && varchar 50 (m_type m)
      then Some (set_meters (<[m_id m := m]> (meters d)) d) else None
  | _, _, _ => None
  end.

(** The length limits of [meter_registry]. *)
Definition registry_fits (r : MeterRegistry) : bool :=
  varchar 255 (Some (rg_serial r)) && varchar 255 (Some (rg_key_hash r))
  && varchar 50 (Some (rg_method r)) && varchar 20 (Some (rg_status r))
  && varchar 255 (rg_manufacturer r) && varchar 50 (rg_type r).

Definition insert_registry (r : MeterRegistry) (d : MeterDb) : option MeterDb :=
  match md_users d !! rg_user_id r, registry d !! rg_id r, registry_of (rg_serial r) d with
  | Some _, None, None =>
      if registry_fits r then Some (set_registry (<[rg_id r := r]> (registry d)) d) else None
  | _, _, _ => None
  end.

Definition relocate (zone : option Z) (location : option string) (r : MeterRegistry) : MeterRegistry :=
  {| rg_id := rg_id r; rg_serial := rg_serial r; rg_key_hash := rg_key_hash r;
     rg_method := rg_method r; rg_status := rg_status r; rg_user_id := rg_user_id r;
     rg_manufacturer := rg_manufacturer r; rg_type := rg_type r; rg_location := location;
     rg_proof := rg_proof r; rg_verified_at := rg_verified_at r; rg_zone_id := zone;
     rg_created_at := rg_created_at r |}.

(** [INSERT .. ON CONFLICT (meter_serial) DO UPDATE SET zone_id, location_address]. *)
Definition upsert_registry (r : MeterRegistry) (d : MeterDb) : option MeterDb :=
  match registry_of (rg_serial r) d with
  | Some old =>
      if bool_decide (is_Some (md_users d !! rg_user_id r)) && registry_fits r
      then Some (set_registry (<[rg_id old := relocate (rg_zone_id r) (rg_location r) old]>
                                 (registry d)) d)
      else None
  | None => insert_registry r d
  end.

(** [UPDATE meter_registry SET .. WHERE meter_serial = $]. *)
Definition update_registry (serial : string) (f : MeterRegistry -> MeterRegistry) (d : MeterDb)
    : option MeterDb :=
  Some (set_registry ((fun r => if (rg_serial r =? serial)%string then f r else r) <$> registry d) d).

(** [UPDATE meters SET .. WHERE serial_number = $], with the number of rows. *)
Definition update_meters (serial : string) (f : Meter -> Meter) (d : MeterDb)
    : option (nat * MeterDb) :=
  let hit m := (m_serial m =? serial)%string in
  Some (length (List.filter hit (map_to_list (meters d)).*2),
        set_meters ((fun m => if hit m then f m else m) <$> meters d) d).

Definition set_verified (v : bool) (m : Meter) : Meter :=
  {| m_id := m_id m; m_user_id := m_user_id m; m_serial := m_serial m; m_type := m_type m;
     m_location := m_location m; m_is_verified := Some v; m_latitude := m_latitude m;
     m_longitude := m_longitude m; m_zone_id := m_zone_id m |}.

(** ** Registration ([registration.rs]) *)

Record RegisterMeterRequest := {
  q_serial : string;
  q_type : option string;
  q_location : option string;
  q_latitude : option spec_float;
  q_longitude : option spec_float;
  q_zone : option Z;
}.

Record MeterResponse := {
  mr_id : Uuid;
  mr_serial : string;
  mr_type : string;
  mr_location : string;
  mr_is_verified : bool;
  mr_wallet : string;
  mr_latitude : option spec_float;
  mr_longitude : option spec_float;
  mr_zone : option Z;
}.

Record RegisterMeterResponse := {
  rr_success : bool;
  rr_message : string;
  rr_meter : option MeterResponse;
}.

Definition refused (message : string) : RegisterMeterResponse :=
  {| rr_success := false; rr_message := message; rr_meter := None |}.
Definition accepted (message : string) : RegisterMeterResponse :=
  {| rr_success := true; rr_message := message; rr_meter := None |}.

(** The rows of a registration: verified from the start. *)
Definition meter_row (id user : Uuid) (kind location : string) (q : RegisterMeterRequest) : Meter :=
  {| m_id := id; m_user_id := user; m_serial := q_serial q; m_type := Some kind;
     m_location := Some location; m_is_verified := Some true; m_latitude := q_latitude q;
     m_longitude := q_longitude q; m_zone_id := q_zone q |}.

Definition registry_row (hash method : string) (now : DateTime) (m : Meter) : MeterRegistry :=
  {| rg_id := m_id m; rg_serial := m_serial m; rg_key_hash := hash; rg_method := method;
     rg_status := "verified"; rg_user_id := m_user_id m; rg_manufacturer := None;
     rg_type := m_type m; rg_location := m_location m; rg_proof := None;
     rg_verified_at := None; rg_zone_id := m_zone_id m; rg_created_at := now |}.

Section handlers.
Context `{ENV : Env}.

Definition register_meter (user_id meter_id : Uuid) (now : DateTime) (q : RegisterMeterRequest)
    : MM RegisterMeterResponse :=
  let meter_type := default "solar" (q_type q) in
  let location := default "Not specified" (q_location q) in
  existing ← attempt (query (meter_of (q_serial q)));
  match existing with
  | Ok (Some _) =>
      mret (refused ("Meter " ++ q_serial q ++ " is already registered to another account"))
  | _ =>
      let row := meter_row meter_id user_id meter_type location q in
      inserted ← attempt (exec (insert_meter row));
      match inserted with
      | Ok _ =>
          ignore (exec (insert_registry (registry_row "mock_hash" "serial" now row))) ;;
          wallet ← attempt (query (fun d => mu_wallet <$> md_users d !! user_id));
          mret {| rr_success := true;
                  rr_message := "Meter " ++ q_serial q
                    ++ " registered successfully. Waiting for verification.";
                  rr_meter := Some
                    {| mr_id := meter_id; mr_serial := q_serial q; mr_type := meter_type;
                       mr_location := location; mr_is_verified := true;
                       mr_wallet := match wallet with Ok (Some (Some w)) => w | _ => "" end;
                       mr_latitude := q_latitude q; mr_longitude := q_longitude q;
                       mr_zone := q_zone q |} |}
      | Err _ => mret (refused ("Failed to register meter: " ++ db_error_text))
      end
  end.

(** The JOIN of a meter with its owner. *)
Definition owner_check (serial : string) (d : MeterDb) : option bool :=
  m ← meter_of serial d; mu_email_verified <$> md_users d !! m_user_id m.

Definition verify_meter (serial : string) : MM RegisterMeterResponse :=
  owner ← attempt (query (owner_check serial));
  match owner with
  | Ok (Some false) =>
      mret (refused "Meter owner must verify their email before meter can be verified.")
  | Ok None => mret (refused ("Meter " ++ serial ++ " not found"))
  | Err _ => mret (refused "Database error")
  | Ok (Some true) =>
      updated ← attempt (exec_ret (update_meters serial (set_verified true)));
      match updated with
      | Ok (S _) =>
          mret (accepted ("Meter " ++ serial ++ " is now verified and ready to submit readings."))
      | _ => mret (refused ("Meter " ++ serial ++ " not found or already verified"))
      end
  end.

Record UpdateMeterStatusRequest := {
  u_status : option string;
  u_zone : option Z;
  u_latitude : option spec_float;
  u_longitude : option spec_float;
}.

(** The SET list: only the fields the request names. *)
Definition apply_update (u : UpdateMeterStatusRequest) (m : Meter) : Meter :=
  {| m_id := m_id m; m_user_id := m_user_id m; m_serial := m_serial m; m_type := m_type m;
     m_location := m_location m;
     m_is_verified := match u_status u with
       | Some s => Some ((s =? "verified")%string || (s =? "active")%string)
       | None => m_is_verified m
       end;
     m_latitude := match u_latitude u with Some x => Some x | None => m_latitude m end;
     m_longitude := match u_longitude u with Some x => Some x | None => m_longitude m end;
     m_zone_id := match u_zone u with Some z => Some z | None => m_zone_id m end |}.

Definition update_meter_status (serial : string) (u : UpdateMeterStatusRequest)
    : MM RegisterMeterResponse :=
  updated ← attempt (exec_ret (update_meters serial (apply_update u)));
  match updated with
  | Ok (S _) =>
      (match u_zone u with
       | Some z => ignore (exec (update_registry serial (fun r => relocate (Some z) (rg_location r) r)))
       | None => mret ()
       end) ;;
      mret (accepted ("Meter " ++ serial ++ " updated successfully"))
  | _ => mret (refused ("Meter " ++ serial ++ " not found or no changes made"))
  end.
End handlers.

(** ** The simulator's registration ([stub.rs]) *)

Record RegisterMeterByIdRequest := {
  b_meter_id : string;
  b_wallet : string;
  b_type : option string;
  b_location : option string;
  b_latitude : option spec_float;
  b_longitude : option spec_float;
  b_zone : option Z;
}.

Record RegisterMeterByIdResponse := {
  br_success : bool;
  br_message : string;
  br_meter_id : string;
}.

(** [&s[..i]]; [None]: [i] is not the start of a character, and the slice panics. *)
Definition slice_to (i : nat) (s : string) : option string :=
  match String.get i s with
  | Some a => let b := Ascii.N_of_ascii a in
              if (128 <=? b)%N && (b <? 192)%N then None else Some (String.substring 0 i s)
  | None => Some s
  end.

Definition simulator_email (wallet : string) : option string :=
  (fun p => "simulator_" ++ p ++ "@gridtokenx.local") <$> slice_to (Nat.min 8 (String.length wallet)) wallet.

Definition has_wallet (w : string) (u : MeterUser) : bool := bool_decide (mu_wallet u = Some w).
Definition has_email (e : string) (u : MeterUser) : bool := (mu_email u =? e)%string.

(** [INSERT INTO users .. ON CONFLICT (email) DO UPDATE SET wallet_address]. *)
Definition upsert_user (id : Uuid) (email wallet : string) (d : MeterDb) : option MeterDb :=
  if varchar 255 (Some email) && varchar 50 (Some email) && varchar 88 (Some wallet) then
    match user_where (has_email email) d with
    | Some (old, u) =>
        if forallb (fun v => (v.1 =? old)%N || negb (has_wallet wallet v.2))
             (map_to_list (md_users d))
        then Some (set_md_users (<[old := {| mu_email := mu_email u; mu_username := mu_username u;
                                             mu_wallet := Some wallet;
                                             mu_email_verified := mu_email_verified u |}]>
                                   (md_users d)) d)
        else None
    | None =>
        match md_users d !! id, user_where (has_wallet wallet) d,
              user_where (fun u => (mu_username u =? email)%string) d with
        | None, None, None =>
            Some (set_md_users (<[id := {| mu_email := email; mu_username := email;
                                           mu_wallet := Some wallet;
                                           mu_email_verified := true |}]> (md_users d)) d)
        | _, _, _ => None
        end
    end
  else None.

Section simulator.
Context `{ENV : Env}.

Definition wallet_owner (wallet : string) (d : MeterDb) : option Uuid :=
  fst <$> user_where (has_wallet wallet) d.

Definition get_or_create_simulator_user (new_id : Uuid) (wallet : string) : MM Uuid :=
  existing ← attempt (query (wallet_owner wallet));
  match existing with
  | Ok (Some user_id) => mret user_id
  | _ =>
      email ← expect FPanic (simulator_email wallet);
      inserted ← attempt (exec (upsert_user new_id email wallet));
      match inserted with
      | Ok _ => mret new_id
      | Err _ =>
          again ← attempt (query (wallet_owner wallet));
          match again with
          | Ok (Some uid) => mret uid
          | _ => fail (FApi (Internal "Failed to create simulator user"))
          end
      end
  end.

Definition by_id_request (b : RegisterMeterByIdRequest) : RegisterMeterRequest :=
  {| q_serial := b_meter_id b; q_type := b_type b; q_location := b_location b;
     q_latitude := b_latitude b; q_longitude := b_longitude b; q_zone := b_zone b |}.

(** What a repeated registration changes: the registry only. *)
Definition relocated (b : RegisterMeterByIdRequest) (r : MeterRegistry) : MeterRegistry :=
  relocate (match b_zone b with Some z => Some z | None => rg_zone_id r end)
    (match b_location b with Some l => Some l | None => rg_location r end) r.

Definition register_meter_by_id (new_user meter_id : Uuid) (now : DateTime)
    (b : RegisterMeterByIdRequest) : MM RegisterMeterByIdResponse :=
  count ← attempt (query (meter_of (b_meter_id b)));
  match count with
  | Ok (Some _) =>
      (if bool_decide (is_Some (b_latitude b)) || bool_decide (is_Some (b_longitude b))
       then ignore (exec (update_registry (b_meter_id b) (relocated b))) else mret ()) ;;
      mret {| br_success := true;
              br_message := "Meter " ++ b_meter_id b ++ " is already registered";
              br_meter_id := b_meter_id b |}
  | _ =>
      system_user_id ← get_or_create_simulator_user new_user (b_wallet b);
      let row := meter_row meter_id system_user_id (default "solar" (b_type b))
                   (default "Simulator" (b_location b)) (by_id_request b) in
      inserted ← attempt (exec (insert_meter row));
      match inserted with
      | Ok _ =>
          ignore (exec (upsert_registry (registry_row "simulator_hash" "auto" now row))) ;;
          mret {| br_success := true;
                  br_message := "Meter " ++ b_meter_id b ++ " registered and verified";
                  br_meter_id := b_meter_id b |}
      | Err _ => fail (FApi (Internal ("Failed to register meter: " ++ db_error_text)))
      end
  end.

(** [.map(|c| c > 0).unwrap_or(false)]. *)
Definition is_meter_registered (serial : string) : MM bool :=
  found ← attempt (query (meter_of serial));
  mret (match found with Ok (Some _) => true | _ => false end).
End simulator.

(** ** The verification service ([services/meter/verification.rs]) *)

Record VerifyMeterRequest := {
  v_serial : string;
  v_key : string;
  v_method : string;
  v_manufacturer : option string;
  v_type : string;
  v_location : option string;
  v_proof : option string;
}.

(** [bcrypt::hash]: opaque, or a failure text. *)
Class Bcrypt := { bcrypt_hash : string -> res string string }.

Section service.
Context `{ENV : Env} `{CC : CharClass} `{BC : Bcrypt}.

(** [.map_err(|e| anyhow!("<text>: {}", e))]. *)
Definition anyhow_ctx {A} (text : string) (m : MM A) : MM A :=
  map_err (fun e => match e with FDb => FMsg (text ++ ": " ++ db_error_text) | _ => e end) m.

Definition validate_meter_key_format (key : string) : option string :=
  if (str_len key <? 16) || (64 <? str_len key) then
    Some "Meter key must be between 16 and 64 characters long"
  else if negb (forallb (fun c => is_alphanumeric c || existsb (N.eqb c) (chars "-_")) (chars key)) then
    Some "Meter key can only contain letters, numbers, hyphens, and underscores"
  else None.

Definition validate_meter_serial_format (serial : string) : option string :=
  if (str_len serial <? 5) || (50 <? str_len serial) then
    Some "Meter serial must be between 5 and 50 characters long"
  else if negb (forallb (fun c => is_alphanumeric c || (c =? 45)%N) (chars serial)) then
    Some "Meter serial can only contain letters, numbers, and hyphens"
  else None.

Definition insert_attempt (a : VerificationAttempt) (d : MeterDb) : option MeterDb :=
  if bool_decide (is_Some (md_users d !! at_user_id a)) && varchar 255 (Some (at_serial a))
     && varchar 50 (Some (at_method a)) && varchar 20 (Some (at_status a))
  then Some {| md_users := md_users d; meters := meters d; registry := registry d;
               attempts := attempts d ++ [a] |}
  else None.

(** The status goes to [attempt_status]; [attempt_result] stays NULL. *)
Definition log_attempt (serial : string) (user_id : Uuid) (method : string)
    (ip agent : option string) (status : string) (failure : option string) (now : DateTime) : MM unit :=
  anyhow_ctx "Failed to log verification attempt" (exec (insert_attempt
    {| at_serial := serial; at_user_id := user_id; at_method := method; at_ip := ip;
       at_agent := agent; at_status := status; at_result := None; at_failure := failure;
       at_time := now |})).

Definition check_meter_availability (serial : string) (user_id : Uuid) : MM unit :=
  existing ← anyhow_ctx "Failed to check meter availability" (query (registry_of serial));
  match existing with
  | Some m =>
      if negb (rg_user_id m =? user_id)%N then
        fail (FMsg ("Meter '" ++ serial ++ "' is already registered by another user"))
      else if (rg_status m =? "verified")%string then
        fail (FMsg ("Meter '" ++ serial ++ "' is already verified for your account"))
      else mret ()
  | None => mret ()
  end.

Definition verified_row (id user_id : Uuid) (hash : string) (now : DateTime)
    (q : VerifyMeterRequest) : MeterRegistry :=
  {| rg_id := id; rg_serial := v_serial q; rg_key_hash := hash; rg_method := v_method q;
     rg_status := "verified"; rg_user_id := user_id; rg_manufacturer := v_manufacturer q;
     rg_type := Some (v_type q); rg_location := v_location q; rg_proof := v_proof q;
     rg_verified_at := Some now; rg_zone_id := None; rg_created_at := now |}.

Definition insert_meter_registry (id user_id : Uuid) (hash : string) (now : DateTime)
    (q : VerifyMeterRequest) : MM Uuid :=
  anyhow_ctx "Failed to insert meter registry"
    (exec (insert_registry (verified_row id user_id hash now q))) ;; mret id.

(** The text of an [anyhow] error. *)
Definition failure_text (e : failure) : string := match e with FMsg m => m | _ => db_error_text end.

Definition service_verify_meter (user_id meter_id : Uuid) (now : DateTime) (q : VerifyMeterRequest)
    (ip agent : option string) : MM Uuid :=
  let log := log_attempt (v_serial q) user_id (v_method q) ip agent in
  match validate_meter_key_format (v_key q) with
  | Some e => log "invalid_key" (Some e) now ;; fail (FMsg e)
  | None =>
      available ← attempt (check_meter_availability (v_serial q) user_id);
      match available with
      | Err e => log "meter_claimed" (Some (failure_text e)) now ;; fail e
      | Ok _ =>
          match bcrypt_hash (v_key q) with
          | Err e => fail (FMsg ("Failed to hash meter key: " ++ e))
          | Ok hash =>
              id ← insert_meter_registry meter_id user_id hash now q;
              log "success" None now ;;
              mret id
          end
      end
  end.

Definition newest (a b : MeterRegistry) : bool := rg_created_at b <=? rg_created_at a.

Definition get_user_meters (user_id : Uuid) : MM (list MeterRegistry) :=
  anyhow_ctx "Failed to fetch user meters" (query (fun d =>
    sort_by newest (List.filter (fun r => (rg_user_id r =? user_id)%N)
      (map_to_list (registry d)).*2))).

Definition verify_meter_ownership `{UUID : UuidParse} (user_id : string) (meter_id : Uuid) : MM bool :=
  user ← expect (FMsg "Invalid user ID format") (parse_uuid user_id);
  meter ← anyhow_ctx "Failed to check meter ownership" (query (fun d => registry d !! meter_id));
  mret (match meter with
        | Some m => (rg_user_id m =? user)%N && (rg_status m =? "verified")%string
        | None => false
        end).

Definition latest_attempt (a b : VerificationAttempt) : bool := at_time b <=? at_time a.

Definition get_user_verification_attempts (user_id : Uuid) (limit : Z) : MM (list VerificationAttempt) :=
  anyhow_ctx "Failed to fetch verification attempts" (exec_ret (fun d =>
    if limit <? 0 then None
    else Some (take (Z.to_nat limit) (sort_by latest_attempt
                 (List.filter (fun a => (at_user_id a =? user_id)%N) (attempts d))), d))).

Definition simple_row (id user_id : Uuid) (serial : string) (kind location : option string)
    (now : DateTime) : MeterRegistry :=
  {| rg_id := id; rg_serial := serial; rg_key_hash := ""; rg_method := "serial";
     rg_status := "pending"; rg_user_id := user_id; rg_manufacturer := None; rg_type := kind;
     rg_location := location; rg_proof := None; rg_verified_at := None; rg_zone_id := None;
     rg_created_at := now |}.

Definition register_meter_simple (user_id meter_id : Uuid) (now : DateTime) (serial : string)
    (kind location : option string) : MM MeterRegistry :=
  match validate_meter_serial_format serial with
  | Some e => fail (FMsg e)
  | None =>
      existing ← anyhow_ctx "Failed to fetch meter by serial" (query (registry_of serial));
      match existing with
      | Some m =>
          if negb (rg_user_id m =? user_id)%N then
            fail (FMsg ("Meter serial '" ++ serial ++ "' is already registered by another user"))
          else fail (FMsg ("Meter serial '" ++ serial ++ "' is already registered to your account"))
      | None =>
          anyhow_ctx "Failed to register meter"
            (exec (insert_registry (simple_row meter_id user_id serial kind location now))) ;;
          meter ← anyhow_ctx "Failed to fetch meter by ID" (query (fun d => registry d !! meter_id));
          expect (FMsg "Failed to retrieve registered meter") meter
      end
  end.

Definition delete_pending_meter (user_id meter_id : Uuid) : MM unit :=
  row ← anyhow_ctx "Failed to fetch meter" (query (fun d => registry d !! meter_id));
  meter ← expect (FMsg "Meter not found") row;
  if negb (rg_user_id meter =? user_id)%N then fail (FMsg "You do not own this meter")
  else if negb (rg_status meter =? "pending")%string then
    fail (FMsg ("Cannot delete " ++ rg_status meter
                ++ " meters. Only pending meters can be deleted."))
  else anyhow_ctx "Failed to delete meter"
         (exec (fun d => Some (set_registry (delete meter_id (registry d)) d))).

Record VerificationStats := {
  total_meters : Z;
  verified_meters : Z;
  pending_meters : Z;
  rejected_meters : Z;
  attempts_last_24h : Z;
}.

Definition count_status (status : string) (d : MeterDb) : Z :=
  Z.of_nat (length (List.filter (fun r => (rg_status r =? status)%string) (map_to_list (registry d)).*2)).

Definition get_verification_stats (now : DateTime) : MM VerificationStats :=
  stats ← anyhow_ctx "Failed to fetch verification stats" (query (fun d =>
    (Z.of_nat (size (registry d)), count_status "verified" d, count_status "pending" d,
     count_status "rejected" d)));
  recent ← anyhow_ctx "Failed to fetch recent attempts" (query (fun d =>
    Z.of_nat (length (List.filter (fun a => now - 24 * 3600 * 1000000000 <? at_time a) (attempts d)))));
  let '(t, v, p, r) := stats in
  mret {| total_meters := t; verified_meters := v; pending_meters := p; rejected_meters := r;
          attempts_last_24h := recent |}.
End service.

(** ** Lookups by serial number *)

Lemma find_value {A} (p : A -> bool) (m : gmap Uuid A) x :
  List.find p (map_to_list m).*2 = Some x -> (exists i, m !! i = Some x) /\ p x = true.
Proof.
  intros H. apply List.find_some in H as [Hin Hp]. split; [|exact Hp].
  by apply elem_of_values, list_elem_of_In.
Qed.

Lemma find_no_value {A} (p : A -> bool) (m : gmap Uuid A) :
  List.find p (map_to_list m).*2 = None <-> forall i x, m !! i = Some x -> p x = false.
Proof.
  split.
  - intros H i x Hx. apply (List.find_none _ _ H). apply list_elem_of_In, elem_of_values. by exists i.
  - intros H. destruct (List.find p (map_to_list m).*2) as [x|] eqn:E; [|done].
    apply find_value in E as [[i Hi] Hp]. by rewrite (H i x Hi) in Hp.
Qed.

(** ** Who owns a meter *)

(** Tables without stray rows: keys are identifiers, serial numbers are unique, owners
    exist, and every registry row belongs to the meter of its identifier. *)
Record meters_ok (d : MeterDb) : Prop := {
  mo_meter : forall i m, meters d !! i = Some m -> m_id m = i /\ is_Some (md_users d !! m_user_id m);
  mo_serial : forall i j m n, meters d !! i = Some m -> meters d !! j = Some n ->
    m_serial m = m_serial n -> i = j;
  mo_registry : forall i r, registry d !! i = Some r -> rg_id r = i
    /\ exists m, meters d !! i = Some m /\ m_serial m = rg_serial r /\ m_user_id m = rg_user_id r;
}.

(** No meter of [d0] has changed its serial number or owner in [d], or gone. *)
Definition keeps_owners (d0 d : MeterDb) : Prop :=
  forall i m, meters d0 !! i = Some m ->
    exists m', meters d !! i = Some m' /\ m_serial m' = m_serial m /\ m_user_id m' = m_user_id m.

Section ownership.
Context `{ENV : Env} (d0 : MeterDb).

Definition owned (d : MeterDb) : Prop := meters_ok d /\ keeps_owners d0 d.

Lemma insert_meter_owned m d d' : owned d -> insert_meter m d = Some d' ->
  owned d' /\ meters d' !! m_id m = Some m.
Proof.
  intros [[H1 H2 H3] Hk] H. unfold insert_meter in H.
  destruct (md_users d !! m_user_id m) as [u|] eqn:Eu; [|done].
  destruct (meters d !! m_id m) eqn:Ei; [done|].
  destruct (meter_of (m_serial m) d) eqn:Es; [done|]. case_match; simplify_eq.
  assert (Hnew : forall i n, meters d !! i = Some n -> m_serial n <> m_serial m).
  { intros i n Hn E. pose proof (proj1 (find_no_value _ _) Es i n Hn) as F.
    simpl in F. rewrite E, String.eqb_refl in F. discriminate F. }
  split; [|by apply lookup_insert_eq]. split; [constructor|]; simpl.
  - intros i n [[<- <-]|[_ Hm]]%lookup_insert_Some; [split; [done|by rewrite Eu]|by apply (H1 i)].
  - intros i j x y [[<- <-]|[? Hx]]%lookup_insert_Some [[<- <-]|[? Hy]]%lookup_insert_Some E;
      [done|exfalso; by apply (Hnew j y Hy)|exfalso; by apply (Hnew i x Hx)|by eapply H2].
  - intros i r Hr. destruct (H3 i r Hr) as (Hi & x & Hx & ?). split; [done|]. exists x. split; [|done].
    rewrite lookup_insert_ne; [done|]. intros <-. congruence.
  - intros i x Hx. destruct (Hk i x Hx) as (x' & Hx' & ?). exists x'. split; [|done].
    simpl. rewrite lookup_insert_ne; [done|]. intros <-. congruence.
Qed.

(** A change of meters that keeps identifier, serial number and owner. *)
Lemma map_meters_owned (f : Meter -> Meter) d : owned d ->
  (forall m, m_id (f m) = m_id m /\ m_serial (f m) = m_serial m /\ m_user_id (f m) = m_user_id m) ->
  owned (set_meters (f <$> meters d) d).
Proof.
  intros [[H1 H2 H3] Hk] Hf. split; [constructor|]; simpl.
  - intros i m Hm. apply lookup_fmap_Some in Hm as (m0 & <- & Hm). destruct (Hf m0) as (-> & _ & ->).
    by apply (H1 i).
  - intros i j m n Hm Hn E. apply lookup_fmap_Some in Hm as (m0 & <- & Hm), Hn as (n0 & <- & Hn).
    destruct (Hf m0) as (_ & E1 & _), (Hf n0) as (_ & E2 & _). eapply H2; [exact Hm|exact Hn|congruence].
  - intros i r Hr. destruct (H3 i r Hr) as (Hi & x & Hx & Es & Eo). split; [done|]. exists (f x).
    rewrite lookup_fmap, Hx. destruct (Hf x) as (_ & E1 & E2). split_and!; [done|congruence..].
  - intros i x Hx. destruct (Hk i x Hx) as (x' & Hx' & Es & Eo). exists (f x'). simpl.
    rewrite lookup_fmap, Hx'. destruct (Hf x') as (_ & E1 & E2). split_and!; [done|congruence..].
Qed.

(** A registry whose rows belong to the meters. *)
Lemma set_registry_owned rg d : owned d ->
  (forall i r, rg !! i = Some r -> rg_id r = i
     /\ exists m, meters d !! i = Some m /\ m_serial m = rg_serial r /\ m_user_id m = rg_user_id r) ->
  owned (set_registry rg d).
Proof. intros [[H1 H2 H3] Hk] H. split; [by constructor|done]. Qed.

Lemma map_registry_owned (f : MeterRegistry -> MeterRegistry) d : owned d ->
  (forall r, rg_id (f r) = rg_id r /\ rg_serial (f r) = rg_serial r /\ rg_user_id (f r) = rg_user_id r) ->
  owned (set_registry (f <$> registry d) d).
Proof.
  intros Ho Hf. apply set_registry_owned; [done|]. intros i r Hr.
  apply lookup_fmap_Some in Hr as (r0 & <- & Hr). destruct (Hf r0) as (E0 & E1 & E2).
  destruct (mo_registry _ (proj1 Ho) i r0 Hr) as (Hi & m & Hm & Es & Eo).
  split; [congruence|]. exists m. split_and!; [done|congruence..].
Qed.

Lemma insert_registry_owned hash method now m d d' : owned d -> meters d !! m_id m = Some m ->
  insert_registry (registry_row hash method now m) d = Some d' -> owned d'.
Proof.
  intros Ho Hm H. unfold insert_registry in H. repeat case_match; simplify_eq.
  apply set_registry_owned; [done|]. intros i r [[<- <-]|[_ Hr]]%lookup_insert_Some.
  - split; [done|]. by exists m.
  - apply (mo_registry _ (proj1 Ho) i r Hr).
Qed.

Lemma upsert_registry_owned hash method now m d d' : owned d -> meters d !! m_id m = Some m ->
  upsert_registry (registry_row hash method now m) d = Some d' -> owned d'.
Proof.
  intros Ho Hm H. unfold upsert_registry in H.
  destruct (registry_of _ d) as [old|] eqn:E; [|by eapply insert_registry_owned].
  case_match; simplify_eq. apply find_value in E as [[k Hk] _].
  destruct (mo_registry _ (proj1 Ho) k old Hk) as (E0 & x & Hx & Es & Eo).
  apply set_registry_owned; [done|]. intros i r [[<- <-]|[_ Hr]]%lookup_insert_Some.
  - split; [done|]. exists x. by rewrite E0.
  - apply (mo_registry _ (proj1 Ho) i r Hr).
Qed.

(** Users are only added, or get another wallet. *)
Lemma upsert_user_owned id email wallet d d' : owned d -> upsert_user id email wallet d = Some d' ->
  owned d'.
Proof.
  intros [[H1 H2 H3] Hk] H.
  assert (A : exists k u, d' = set_md_users (<[k := u]> (md_users d)) d).
  { unfold upsert_user in H. repeat case_match; simplify_eq; by eexists _, _. }
  destruct A as (k & u & ->). split; [constructor|]; simpl; [|done..|done].
  intros i m Hm. destruct (H1 i m Hm) as [Hi Hu]. split; [done|].
  destruct (decide (m_user_id m = k)) as [->|]; [by rewrite lookup_insert_eq|by rewrite lookup_insert_ne].
Qed.

(** ** Every operation keeps owners *)

Lemma hoare_attempt_query {A} (f : MeterDb -> A) :
  hoare owned (attempt (T := Event) (query f)) (fun _ => owned) (fun _ => owned).
Proof. apply hoare_preserves; [|done]. auto with gateway. Qed.

Lemma hoare_attempt_update serial (f : Meter -> Meter) :
  (forall m, m_id (f m) = m_id m /\ m_serial (f m) = m_serial m /\ m_user_id (f m) = m_user_id m) ->
  hoare owned (attempt (T := Event) (exec_ret (update_meters serial f))) (fun _ => owned) (fun _ => owned).
Proof.
  intros Hf. eapply hoare_conseq; [apply hoare_attempt_keep with (Q := fun _ => owned)|done| |done].
  - apply hoare_exec_ret. intros d Hd. split; [done|]. unfold update_meters. intros n d' [= <- <-].
    apply map_meters_owned; [done|]. intros m. case_match; [apply Hf|done].
  - by intros [r|e] d.
Qed.

(** The insertion of a meter: a row that can be synced, or nothing. *)
Lemma hoare_attempt_insert m :
  hoare owned (attempt (T := Event) (exec (insert_meter m)))
    (fun r d => owned d /\ (r = Ok tt -> meters d !! m_id m = Some m)) (fun _ => owned).
Proof.
  eapply hoare_conseq; [apply hoare_attempt_keep with
    (Q := fun _ d => owned d /\ meters d !! m_id m = Some m)|done| |done].
  - apply hoare_exec. intros d Hd. split; [done|]. intros d' H. by eapply insert_meter_owned.
  - intros [[]|e] d; [by intros [? ?]|]. intros ?. by split.
Qed.

Lemma hoare_sync (f : MeterDb -> option MeterDb) (P : MeterDb -> Prop) :
  (forall d d', P d -> f d = Some d' -> owned d') -> (forall d, P d -> owned d) ->
  hoare P (ignore (T := Event) (exec f)) (fun _ => owned) (fun _ => owned).
Proof. intros Hf HP. apply hoare_ignore_exec. intros d Hd. split; [by apply HP|]. intros d' H. by eapply Hf. Qed.

Lemma register_meter_owned user id now q :
  hoare owned (register_meter user id now q) (fun _ => owned) (fun _ => owned).
Proof.
  unfold register_meter. eapply hoare_bind; [apply hoare_attempt_query|]. intros ex.
  match goal with |- context [match ex with Ok _ => _ | Err _ => ?b end] =>
    assert (G : hoare owned b (fun _ => owned) (fun _ => owned)) end.
  { eapply hoare_bind; [apply hoare_attempt_insert|].
    intros [[]|e]; [|apply hoare_ret; by intros d [? _]].
    eapply hoare_bind with (R := fun _ => owned).
    - apply hoare_sync; [|by intros d [? _]]. intros d d' [Ho Hm] H.
      eapply insert_registry_owned; [exact Ho| |exact H]. by apply Hm.
    - intros []. eapply hoare_bind; [apply hoare_attempt_query|]. intros w. by apply hoare_ret. }
  destruct ex as [[m|]|e]; [by apply hoare_ret|exact G|exact G].
Qed.

Lemma verify_meter_owned serial :
  hoare owned (verify_meter serial) (fun _ => owned) (fun _ => owned).
Proof.
  unfold verify_meter. eapply hoare_bind; [apply hoare_attempt_query|].
  intros [[[]|]|e]; try by apply hoare_ret.
  eapply hoare_bind; [apply hoare_attempt_update; by intros|].
  intros [[|n]|e]; by apply hoare_ret.
Qed.

Lemma update_meter_status_owned serial u :
  hoare owned (update_meter_status serial u) (fun _ => owned) (fun _ => owned).
Proof.
  unfold update_meter_status. eapply hoare_bind; [apply hoare_attempt_update; by intros|].
  intros [[|n]|e]; try by apply hoare_ret.
  eapply hoare_bind with (R := fun _ => owned); [|intros []; by apply hoare_ret].
  destruct (u_zone u) as [z|]; [|by apply hoare_ret].
  apply hoare_sync; [|done]. unfold update_registry. intros d d' Ho [= <-].
  apply map_registry_owned; [done|]. intros r. by case_match.
Qed.

Lemma simulator_user_owned id wallet :
  hoare owned (get_or_create_simulator_user id wallet) (fun _ => owned) (fun _ => owned).
Proof.
  unfold get_or_create_simulator_user. eapply hoare_bind; [apply hoare_attempt_query|]. intros ex.
  match goal with |- context [match ex with Ok _ => _ | Err _ => ?b end] =>
    assert (G : hoare owned b (fun _ => owned) (fun _ => owned)) end.
  { eapply hoare_bind with (R := fun _ => owned); [apply hoare_expect; intros d Hd; by case_match|]. intros email.
    eapply hoare_bind with (R := fun _ => owned).
    - eapply hoare_conseq; [apply hoare_attempt_keep with (Q := fun _ => owned)|done| |done].
      + apply hoare_exec. intros d Hd. split; [done|]. intros d' H. by eapply upsert_user_owned.
      + by intros [a|e] d.
    - intros [[]|e]; [by apply hoare_ret|]. eapply hoare_bind; [apply hoare_attempt_query|].
      intros [[uid|]|e']; [by apply hoare_ret|by intros w Hw..]. }
  destruct ex as [[u|]|e]; [by apply hoare_ret|exact G|exact G].
Qed.

Lemma register_by_id_owned user id now b :
  hoare owned (register_meter_by_id user id now b) (fun _ => owned) (fun _ => owned).
Proof.
  unfold register_meter_by_id. eapply hoare_bind; [apply hoare_attempt_query|]. intros ex.
  match goal with |- context [match ex with Ok _ => _ | Err _ => ?b end] =>
    assert (G : hoare owned b (fun _ => owned) (fun _ => owned)) end.
  { eapply hoare_bind; [apply simulator_user_owned|]. intros sys.
    eapply hoare_bind; [apply hoare_attempt_insert|].
    intros [[]|e]; [|by intros w [Hw _]].
    eapply hoare_bind with (R := fun _ => owned); [|intros []; by apply hoare_ret].
    apply hoare_sync; [|by intros d [? _]]. intros d d' [Ho Hm] H.
    eapply upsert_registry_owned; [exact Ho| |exact H]. by apply Hm. }
  destruct ex as [[m|]|e]; [|exact G|exact G].
  eapply hoare_bind with (R := fun _ => owned); [|intros []; by apply hoare_ret].
  case_match; [|by apply hoare_ret]. apply hoare_sync; [|done]. unfold update_registry.
  intros d d' Ho [= <-]. apply map_registry_owned; [done|]. intros r. by case_match.
Qed.
End ownership.

(** ** Histories *)

Inductive MeterOp :=
| OpRegister (user id : Uuid) (now : DateTime) (q : RegisterMeterRequest)
| OpVerify (serial : string)
| OpUpdate (serial : string) (u : UpdateMeterStatusRequest)
| OpById (new_user id : Uuid) (now : DateTime) (b : RegisterMeterByIdRequest).

Section history.
Context `{ENV : Env}.

Definition run_meter (w : world MeterDb Event) (op : MeterOp) : world MeterDb Event :=
  match op with
  | OpRegister user id now q => snd (register_meter user id now q w)
  | OpVerify serial => snd (verify_meter serial w)
  | OpUpdate serial u => snd (update_meter_status serial u w)
  | OpById user id now b => snd (register_meter_by_id user id now b w)
  end.

Lemma hoare_snd {A} (I : MeterDb -> Prop) (m : MM A) w :
  hoare I m (fun _ => I) (fun _ => I) -> I (st w) -> I (st (snd (m w))).
Proof. intros H Hw. specialize (H w Hw). by destruct (m w) as [[a|e] w']. Qed.

(** C39: under any history of the routed meter operations and any failures of the database,
    serial numbers stay unique, every registry row names the owner of its meter, and no
    meter that exists is ever removed or changes its serial number or its owner. *)
Theorem meter_owner_permanent ops w : meters_ok (st w) ->
  let d := st (fold_left run_meter ops w) in
  meters_ok d /\ keeps_owners (st w) d.
Proof.
  intros Hok. cbv zeta. set (d0 := st w).
  assert (H : owned d0 (st w)) by (split; [done|]; intros i m Hm; by exists m).
  clearbody d0. revert w Hok H. induction ops as [|op ops IH]; intros w Hok H; [exact H|].
  assert (Hop : owned d0 (st (run_meter w op))).
  { destruct op; simpl; apply (hoare_snd (owned d0)); try exact H.
    - apply register_meter_owned.
    - apply verify_meter_owned.
    - apply update_meter_status_owned.
    - apply register_by_id_owned. }
  apply IH; [apply Hop|exact Hop].
Qed.

(** ** Runs without failures *)

Lemma find_none_of {A} (p : A -> bool) (m : gmap Uuid A) :
  (forall i x, m !! i = Some x -> p x = false) -> List.find p (map_to_list m).*2 = None.
Proof. apply find_no_value. Qed.

Lemma user_where_none p d :
  user_where p d = None <-> forall i u, md_users d !! i = Some u -> p u = false.
Proof.
  unfold user_where. split.
  - intros H i u Hu. apply (List.find_none _ _ H (i, u)). apply list_elem_of_In. by apply elem_of_map_to_list.
  - intros H. destruct (List.find _ _) as [[i u]|] eqn:E; [|done].
    apply List.find_some in E as [Hin Hp]. apply list_elem_of_In, elem_of_map_to_list in Hin.
    simpl in Hp. by rewrite (H i u Hin) in Hp.
Qed.

Lemma user_where_unique p d i u : md_users d !! i = Some u -> p u = true ->
  (forall j v, md_users d !! j = Some v -> p v = true -> j = i) -> user_where p d = Some (i, u).
Proof.
  intros Hu Hp Huniq. unfold user_where. destruct (List.find _ _) as [[j v]|] eqn:E.
  - apply List.find_some in E as [Hin Hv]. apply list_elem_of_In, elem_of_map_to_list in Hin.
    simpl in Hv. assert (j = i) as -> by by eapply Huniq. by simplify_eq.
  - exfalso. pose proof (List.find_none _ _ E (i, u)) as F. simpl in F. rewrite F in Hp; [done|].
    apply list_elem_of_In. by apply elem_of_map_to_list.
Qed.

(** Nobody authenticates for the simulator's registration, and its users are found by the
    first eight bytes of an address: registering an unknown meter for another address with
    the same eight bytes replaces the wallet of the existing user, whose meters mint to it
    from then on, and then fails, because the new identifier it goes on with was not stored. *)
Theorem simulator_wallet_takeover new_user meter_id now b victim u email w :
  faults w = [] -> meters_ok (st w) ->
  md_users (st w) !! victim = Some u -> mu_email u = email ->
  simulator_email (b_wallet b) = Some email ->
  (forall j v, md_users (st w) !! j = Some v -> mu_email v = email -> j = victim) ->
  (forall j v, md_users (st w) !! j = Some v -> mu_wallet v <> Some (b_wallet b)) ->
  varchar 255 (Some email) && varchar 50 (Some email) && varchar 88 (Some (b_wallet b)) = true ->
  md_users (st w) !! new_user = None -> meter_of (b_meter_id b) (st w) = None ->
  let '(r, w') := register_meter_by_id new_user meter_id now b w in
  r = Err (FApi (Internal ("Failed to register meter: " ++ db_error_text)))
  /\ (mu_wallet <$> md_users (st w') !! victim) = Some (Some (b_wallet b))
  /\ meters (st w') = meters (st w).
Proof.
  intros Hf Hok Hu He Hse Huniq Hwal Hfit Hnew Hnone.
  set (u' := {| mu_email := mu_email u; mu_username := mu_username u;
                mu_wallet := Some (b_wallet b); mu_email_verified := mu_email_verified u |}).
  set (d' := set_md_users (<[victim := u']> (md_users (st w))) (st w)).
  assert (Hups : upsert_user new_user email (b_wallet b) (st w) = Some d').
  { unfold upsert_user. rewrite Hfit.
    rewrite (user_where_unique (has_email email) (st w) victim u Hu).
    - replace (forallb _ _) with true; [done|]. symmetry. apply forallb_forall. intros [j v] Hin.
      apply list_elem_of_In, elem_of_map_to_list in Hin. simpl. apply orb_true_iff. right.
      unfold has_wallet. by rewrite bool_decide_eq_false_2 by by eapply Hwal.
    - unfold has_email. by rewrite He, String.eqb_refl.
    - intros j v Hv Hp. apply (Huniq j v Hv). by apply String.eqb_eq. }
  assert (Hw : wallet_owner (b_wallet b) (st w) = None).
  { unfold wallet_owner. rewrite (proj2 (user_where_none _ _)); [done|]. intros j v Hv.
    unfold has_wallet. by rewrite bool_decide_eq_false_2 by by eapply Hwal. }
  assert (Hget : get_or_create_simulator_user new_user (b_wallet b) w = (Ok new_user, set_st d' w)).
  { unfold get_or_create_simulator_user.
    rewrite (bind_run _ _ w _ _ (attempt_run _ w _ _ (query_calm _ w Hf) ltac:(done))), Hw, Hse.
    unfold expect at 1. rewrite (bind_run (mret email) _ w email w eq_refl).
    assert (E : exec (upsert_user new_user email (b_wallet b)) w = (Ok tt, set_st d' w))
      by (rewrite exec_calm by done; by rewrite Hups).
    by rewrite (bind_run _ _ w _ _ (attempt_run _ w _ _ E ltac:(done))). }
  unfold register_meter_by_id.
  rewrite (bind_run _ _ w _ _ (attempt_run _ w _ _ (query_calm _ w Hf) ltac:(done))), Hnone.
  rewrite (bind_run _ _ w _ _ Hget).
  set (row := meter_row _ _ _ _ _).
  assert (Hins : insert_meter row d' = None).
  { unfold insert_meter. simpl. rewrite lookup_insert_ne by (intros ->; congruence). by rewrite Hnew. }
  assert (E : exec (insert_meter row) (set_st d' w) = (Err FDb, set_st d' w))
    by (rewrite exec_calm by done; simpl; by rewrite Hins).
  rewrite (bind_run _ _ (set_st d' w) _ _ (attempt_run _ (set_st d' w) _ _ E ltac:(done))).
  simpl. by rewrite lookup_insert_eq.
Qed.
End history.

(** ** The verification service *)

Section verification.
Context `{ENV : Env} `{CC : CharClass} `{BC : Bcrypt}.

(** The registry of [d0] with the verified row of a request. *)
Definition verified_registry (id user : Uuid) (now : DateTime) (q : VerifyMeterRequest)
    (d0 d : MeterDb) : Prop :=
  registry_of (v_serial q) d0 = None
  /\ exists hash, bcrypt_hash (v_key q) = Ok hash
     /\ registry d = <[id := verified_row id user hash now q]> (registry d0).

Lemma hoare_log (P : MeterDb -> Prop) serial user method ip agent status failure now Q (X : MeterDb -> Prop) :
  (forall d, P d -> X d /\ forall d', registry d' = registry d ->
     (exists a, attempts d' = (attempts d ++ [a])%list /\ at_status a = status /\ at_result a = None) -> Q tt d') ->
  hoare P (log_attempt serial user method ip agent status failure now) Q (fun _ => X).
Proof.
  intros H. apply hoare_map_err, hoare_exec. intros d Hd. destruct (H d Hd) as [HX HQ].
  split; [exact HX|]. intros d' Hi. unfold insert_attempt in Hi. case_match; simplify_eq.
  apply HQ; [done|]. by eexists.
Qed.

Lemma hoare_availability d0 serial user :
  hoare (fun d => d = d0) (check_meter_availability serial user)
    (fun _ d => d = d0) (fun _ d => d = d0).
Proof.
  unfold check_meter_availability. eapply hoare_bind with (R := fun _ d => d = d0).
  - by apply hoare_map_err, hoare_query.
  - intros m. destruct m as [m|]; repeat case_match; first [by apply hoare_ret|by intros w Hw].
Qed.

Lemma service_verify_hoare user id now q ip agent d0 :
  hoare (fun d => d = d0) (service_verify_meter user id now q ip agent)
    (fun i d => i = id /\ verified_registry id user now q d0 d
       /\ exists a, attempts d = (attempts d0 ++ [a])%list /\ at_status a = "success")
    (fun _ d => registry d = registry d0
       \/ verified_registry id user now q d0 d /\ attempts d = attempts d0).
Proof.
  unfold service_verify_meter. destruct (validate_meter_key_format (v_key q)) as [e|].
  { eapply hoare_bind with (R := fun _ d => registry d = registry d0).
    - apply hoare_log. intros d ->. split; [by left|by intros].
    - intros []. intros w Hw. by left. }
  eapply hoare_bind with (R := fun _ d => d = d0).
  { eapply hoare_conseq; [apply (hoare_attempt_keep _ _ (fun _ d => d = d0)), hoare_availability|done|..].
    - by intros [a|e] d.
    - intros e d ->. by left. }
  intros [a|e].
  2: { eapply hoare_bind with (R := fun _ d => registry d = registry d0).
       - apply hoare_log. intros d ->. split; [by left|by intros].
       - intros []. intros w Hw. by left. }
  destruct (bcrypt_hash (v_key q)) as [hash|e] eqn:Eh; [|intros w Hw; left; simpl; congruence].
  eapply hoare_bind with (R := fun i d => i = id /\ verified_registry id user now q d0 d
    /\ attempts d = attempts d0).
  - unfold insert_meter_registry.
    eapply hoare_bind with (R := fun _ d => verified_registry id user now q d0 d /\ attempts d = attempts d0);
      [|intros []; by apply hoare_ret].
    apply hoare_map_err, hoare_exec. intros d ->. split; [by left|]. intros d' H.
    unfold insert_registry in H. destruct (md_users d0 !! _); [|done].
    destruct (registry d0 !! _); [done|].
    destruct (registry_of (rg_serial _) d0) eqn:Es; [done|]. case_match; simplify_eq.
    split; [|done]. split; [exact Es|]. by exists hash.
  - intros i. eapply hoare_bind with (R := fun _ d => i = id /\ verified_registry id user now q d0 d
      /\ exists a, attempts d = (attempts d0 ++ [a])%list /\ at_status a = "success"); [|intros []; by apply hoare_ret].
    apply hoare_log. intros d (Hi & Hv & Ha). split; [right; by split|].
    intros d' Hr (at_ & Hat & Hs & _). split; [done|]. split; [|exists at_; by rewrite Hat, Ha].
    destruct Hv as (Hn & h & Hh & Hreg). split; [done|]. exists h. by rewrite Hr.
Qed.

(** Verification succeeds only for a serial number nobody has registered, and then enters
    the meter as verified and logs it.  An error leaves the registry alone, except that a
    failing log leaves the meter verified without a trace of it.  A serial number that is
    registered, even by the same user and still pending, can never be verified. *)
Theorem service_verify_outcome user id now q ip agent w :
  let '(r, w') := service_verify_meter user id now q ip agent w in
  match r with
  | Ok i => i = id /\ verified_registry id user now q (st w) (st w')
      /\ exists a, attempts (st w') = (attempts (st w) ++ [a])%list /\ at_status a = "success"
  | Err _ => registry (st w') = registry (st w)
      \/ verified_registry id user now q (st w) (st w') /\ attempts (st w') = attempts (st w)
  end
  /\ (is_Some (registry_of (v_serial q) (st w)) ->
        is_ok r = false /\ registry (st w') = registry (st w)).
Proof.
  pose proof (service_verify_hoare user id now q ip agent (st w) w eq_refl) as H.
  destruct (service_verify_meter user id now q ip agent w) as [[i|e] w'].
  - split; [exact H|]. intros [m Hm]. destruct H as (_ & (Hn & _) & _). congruence.
  - split; [exact H|]. intros [m Hm]. split; [done|].
    destruct H as [H|[(Hn & _) _]]; [exact H|congruence].
Qed.

(** The key is compared with nothing: without failures, any key of the right form
    verifies any serial number that is not in the registry, for any user. *)
Theorem any_key_verifies user id now q ip agent w :
  faults w = [] -> validate_meter_key_format (v_key q) = None ->
  registry_of (v_serial q) (st w) = None -> is_Some (md_users (st w) !! user) ->
  registry (st w) !! id = None ->
  (exists hash, bcrypt_hash (v_key q) = Ok hash
     /\ registry_fits (verified_row id user hash now q) = true) ->
  fst (service_verify_meter user id now q ip agent w) = Ok id.
Proof.
  intros Hf Hk Hn [u Hu] Hi (hash & Hh & Hfit). unfold service_verify_meter. rewrite Hk.
  assert (Hav : check_meter_availability (v_serial q) user w = (Ok tt, w)).
  { unfold check_meter_availability, anyhow_ctx, map_err, mbind, M_bind.
    by rewrite query_calm, Hn by done. }
  rewrite (bind_run _ _ w _ w (attempt_run _ w _ _ Hav ltac:(done))), Hh.
  set (d' := set_registry (<[id := verified_row id user hash now q]> (registry (st w))) (st w)).
  assert (Hins : insert_meter_registry id user hash now q w = (Ok id, set_st d' w)).
  { unfold insert_meter_registry, anyhow_ctx, map_err, mbind, M_bind. rewrite exec_calm by done.
    unfold insert_registry. simpl. by rewrite Hu, Hi, Hn, Hfit. }
  rewrite (bind_run _ _ w _ _ Hins).
  assert (Hlog : exists w2, log_attempt (v_serial q) user (v_method q) ip agent "success" None now
                              (set_st d' w) = (Ok tt, w2)).
  { unfold log_attempt, anyhow_ctx, map_err. rewrite exec_calm by done. unfold insert_attempt. simpl.
    rewrite Hu, bool_decide_eq_true_2 by done.
    unfold registry_fits in Hfit. simpl in Hfit. repeat rewrite andb_true_iff in Hfit.
    destruct Hfit as [[[[[H1 _] H2] _] _] _]. rewrite H1, H2. by eexists. }
  destruct Hlog as [w2 Hlog]. by rewrite (bind_run _ _ _ _ _ Hlog).
Qed.
End verification.

(** ** Witnesses *)
Section witnesses.
#[local] Existing Instance demo_env.
#[local] Existing Instance std_chars.

Definition demo_bcrypt : Bcrypt := {| bcrypt_hash _ := Ok "$2b$12$hash" |}.
#[local] Existing Instance demo_bcrypt.

Definition demo_owner (wallet : string) : MeterUser :=
  {| mu_email := "simulator_AAAABBBB@gridtokenx.local";
     mu_username := "simulator_AAAABBBB@gridtokenx.local"; mu_wallet := Some wallet;
     mu_email_verified := true |}.
Definition demo_request (serial wallet : string) : RegisterMeterByIdRequest :=
  {| b_meter_id := serial; b_wallet := wallet; b_type := None; b_location := None;
     b_latitude := None; b_longitude := None; b_zone := Some 3 |}.
Definition meter_world (faults : list bool) : world MeterDb Event :=
  World {| md_users := {[1%N := demo_owner "AAAABBBB1"]}; meters := ∅; registry := ∅;
           attempts := [] |} faults [].

Lemma meter_world_ok f : meters_ok (st (meter_world f)).
Proof. constructor; by intros. Qed.

(** The user registers a meter; then somebody registers one for [AAAABBBB2]. *)
Definition demo_meter_ops : list MeterOp :=
  [OpById 9 20 5 (demo_request "M-1" "AAAABBBB1"); OpUpdate "M-1" {| u_status := Some "inactive";
     u_zone := Some 4; u_latitude := None; u_longitude := None |}].

Lemma meter_owner_permanent_witness :
  let d := st (fold_left run_meter demo_meter_ops (meter_world [])) in
  (m_user_id <$> meters d !! 20%N) = Some 1%N /\ meters_ok d.
Proof.
  cbv zeta. split; [vm_compute; reflexivity|].
  exact (proj1 (meter_owner_permanent demo_meter_ops (meter_world []) (meter_world_ok []))).
Defined.

Lemma simulator_wallet_takeover_witness :
  let '(r, w') := register_meter_by_id 9 21 6 (demo_request "M-2" "AAAABBBB2") (meter_world []) in
  is_ok r = false /\ (mu_wallet <$> md_users (st w') !! 1%N) = Some (Some "AAAABBBB2").
Proof.
  assert (U : forall j v, md_users (st (meter_world [])) !! j = Some v -> j = 1%N /\ v = demo_owner "AAAABBBB1").
  { intros j v H. change (({[1%N := demo_owner "AAAABBBB1"]} : gmap Uuid MeterUser) !! j = Some v) in H.
    apply lookup_singleton_Some in H as [<- <-]. by split. }
  pose proof (simulator_wallet_takeover 9 21 6 (demo_request "M-2" "AAAABBBB2") 1 (demo_owner "AAAABBBB1")
    "simulator_AAAABBBB@gridtokenx.local" (meter_world []) eq_refl (meter_world_ok [])
    ltac:(vm_compute; reflexivity) eq_refl ltac:(vm_compute; reflexivity)
    ltac:(intros j v [-> _]%U _; reflexivity)
    ltac:(intros j v [_ ->]%U; vm_compute; discriminate)
    ltac:(vm_compute; reflexivity) ltac:(vm_compute; reflexivity) ltac:(vm_compute; reflexivity)) as H.
  destruct (register_meter_by_id 9 21 6 (demo_request "M-2" "AAAABBBB2") (meter_world [])) as [r w'].
  destruct H as (-> & Hw & _). by split.
Defined.

Definition demo_verify (key : string) : VerifyMeterRequest :=
  {| v_serial := "M-7"; v_key := key; v_method := "serial"; v_manufacturer := None;
     v_type := "solar"; v_location := None; v_proof := None |}.

(** A meter the user registered simply stays pending. *)
Definition pending_world : world MeterDb Event :=
  snd (register_meter_simple 1 30 5 "M-777" (Some "solar") None (meter_world [])).
Definition verify_pending : VerifyMeterRequest :=
  {| v_serial := "M-777"; v_key := "key-0123456789-AB"; v_method := "serial"; v_manufacturer := None;
     v_type := "solar"; v_location := None; v_proof := None |}.

Lemma service_verify_outcome_witness :
  is_Some (registry_of "M-777" (st pending_world))
  /\ is_ok (fst (service_verify_meter 1 31 6 verify_pending None None pending_world)) = false.
Proof.
  assert (E : is_Some (registry_of "M-777" (st pending_world))) by (vm_compute; eauto).
  split; [exact E|].
  pose proof (service_verify_outcome 1 31 6 verify_pending None None pending_world) as H.
  destruct (service_verify_meter 1 31 6 verify_pending None None pending_world) as [r w'].
  exact (proj1 (proj2 H E)).
Defined.

Lemma any_key_verifies_witness :
  fst (service_verify_meter 1 30 5 (demo_verify "0000000000000000") None None (meter_world [])) = Ok 30%N
  /\ fst (service_verify_meter 1 30 5 (demo_verify "any-other-key-of-16") None None (meter_world [])) = Ok 30%N.
Proof.
  split.
  - apply (any_key_verifies 1 30 5 (demo_verify "0000000000000000") None None (meter_world []));
      first [reflexivity | vm_compute; eauto | eexists; split; vm_compute; reflexivity].
  - apply (any_key_verifies 1 30 5 (demo_verify "any-other-key-of-16") None None (meter_world []));
      first [reflexivity | vm_compute; eauto | eexists; split; vm_compute; reflexivity].
Defined.
End witnesses.
