(* ===== verification/Telemetry.v ===== *)
(** What the gateway computes of a meter reading: [src/services/meter_analyzer.rs] (alerts and
    health score), the health of a meter in [src/handlers/meter/stub.rs], and the running
    totals of the grid in [src/services/dashboard/].

    All quantities are [f64] ([Floats]).  How a number is printed is the interface
    [FloatText]; the current time is an argument. *)
From S2P Require Import Prelude Numerics Floats Errors Store Schema.
From stdpp Require Import pretty.
Open Scope string_scope.
Open Scope Z_scope.

(** [format!("{}", x)] and [format!("{:.n}", x)]. *)
Class FloatText := {
  f64_display : spec_float -> string;
  f64_fixed : nat -> spec_float -> string;
}.

(** ** Requests *)

Record CreateReadingRequest := {
  r_kwh : spec_float;
  r_timestamp : option DateTime;
  r_wallet_address : option string;
  r_meter_id : option string;
  r_meter_serial : option string;
  r_meter_type : option string;
  r_energy_generated : option spec_float;
  r_energy_consumed : option spec_float;
  r_surplus_energy : option spec_float;
  r_deficit_energy : option spec_float;
  r_voltage : option spec_float;
  r_current : option spec_float;
  r_power : option spec_float;
  r_power_generated : option spec_float;
  r_power_consumed : option spec_float;
  r_power_factor : option spec_float;
  r_frequency : option spec_float;
  r_temperature : option spec_float;
  r_thd_voltage : option spec_float;
  r_thd_current : option spec_float;
  r_latitude : option spec_float;
  r_longitude : option spec_float;
  r_battery_level : option spec_float;
  r_weather_condition : option string;
  r_zone_id : option Z;
  r_rec_eligible : option bool;
  r_carbon_offset : option spec_float;
  r_max_sell_price : option spec_float;
  r_max_buy_price : option spec_float;
  r_meter_signature : option string;
}.

Record SubmitReadingRequest := {
  s_wallet_address : option string;
  s_kwh_amount : Decimal;
  s_reading_timestamp : DateTime;
  s_meter_serial : option string;
  s_energy_generated : option spec_float;
  s_energy_consumed : option spec_float;
  s_surplus_energy : option spec_float;
  s_deficit_energy : option spec_float;
  s_power_generated : option spec_float;
  s_power_consumed : option spec_float;
  s_voltage : option spec_float;
  s_current : option spec_float;
  s_power_factor : option spec_float;
  s_frequency : option spec_float;
  s_temperature : option spec_float;
  s_thd_voltage : option spec_float;
  s_thd_current : option spec_float;
  s_latitude : option spec_float;
  s_longitude : option spec_float;
  s_battery_level : option spec_float;
}.

(** The trait [ReadingData]. *)
Class ReadingData (T : Type) := {
  voltage : T -> option spec_float;
  frequency : T -> option spec_float;
  battery_level : T -> option spec_float;
  power_factor : T -> option spec_float;
  thd_voltage : T -> option spec_float;
  thd_current : T -> option spec_float;
}.

#[export] Instance create_reading_data : ReadingData CreateReadingRequest := {
  voltage := r_voltage; frequency := r_frequency; battery_level := r_battery_level;
  power_factor := r_power_factor; thd_voltage := r_thd_voltage; thd_current := r_thd_current;
}.
#[export] Instance submit_reading_data : ReadingData SubmitReadingRequest := {
  voltage := s_voltage; frequency := s_frequency; battery_level := s_battery_level;
  power_factor := s_power_factor; thd_voltage := s_thd_voltage; thd_current := s_thd_current;
}.

(** Integer literals of the source. *)
Definition f64 : Z -> spec_float := f64_of_Z.
Arguments f64 _ : simpl never.
Arguments f64_lit _ _ : simpl never.

(** ** Alerts *)

Inductive AlertSeverity := Info | Warning | Critical.

Record MeterAlert := {
  a_meter_id : string;
  a_alert_type : string;
  a_value : spec_float;
  a_threshold : spec_float;
  a_severity : AlertSeverity;
  a_message : string;
  a_timestamp : DateTime;
}.

Definition mk_alert (now : DateTime) (meter_id kind : string) (value threshold : spec_float)
    (severity : AlertSeverity) (message : string) : MeterAlert :=
  {| a_meter_id := meter_id; a_alert_type := kind; a_value := value; a_threshold := threshold;
     a_severity := severity; a_message := message; a_timestamp := now |}.

(** What is left to say of an alert of the meter at hand. *)
Definition AlertMaker : Type :=
  string -> spec_float -> spec_float -> AlertSeverity -> string -> MeterAlert.

Section alerts.
Context `{FT : FloatText} {T : Type} `{RD : ReadingData T}.

(** One quantity: at most one alert. *)
Definition voltage_alert (mk : AlertMaker) (v : spec_float) : list MeterAlert :=
  if f64_lt v (f64 200) then
    [mk "low_voltage" v (f64 200) Critical
       ("Low voltage detected: " ++ f64_fixed 1 v ++ "V (threshold: 200V)")]
  else if f64_lt (f64 260) v then
    [mk "high_voltage" v (f64 260) Critical
       ("High voltage detected: " ++ f64_fixed 1 v ++ "V (threshold: 260V)")]
  else [].

Definition frequency_alert (mk : AlertMaker) (f : spec_float) : list MeterAlert :=
  let low := f64_lit 99 2 in let high := f64_lit 101 2 in
  if f64_lt f low || f64_lt high f then
    [mk "frequency_deviation" f (if f64_lt f low then low else high) Warning
       ("Frequency deviation: " ++ f64_fixed 2 f ++ "Hz (normal: 49.5-50.5Hz)")]
  else [].

Definition battery_alert (mk : AlertMaker) (b : spec_float) : list MeterAlert :=
  if f64_lt b (f64 20) then
    [mk "low_battery" b (f64 20) (if f64_lt b (f64 10) then Critical else Warning)
       ("Low battery: " ++ f64_fixed 0 b ++ "%")]
  else [].

Definition power_factor_alert (mk : AlertMaker) (p : spec_float) : list MeterAlert :=
  if f64_lt p (f64_lit 8 10) then
    [mk "poor_power_factor" p (f64_lit 8 10) Warning
       ("Poor power factor: " ++ f64_fixed 2 p ++ " (threshold: 0.8)")]
  else [].

Definition thd_alert (mk : AlertMaker) (kind text : string) (limit : Z) (t : spec_float) : list MeterAlert :=
  if f64_lt (f64 limit) t then
    [mk kind t (f64 limit) Warning (text ++ f64_fixed 1 t ++ "% (threshold: " ++ pretty limit ++ "%)")]
  else [].

Definition on {A} (o : option spec_float) (f : spec_float -> list A) : list A :=
  match o with Some x => f x | None => [] end.

Definition check_alerts (now : DateTime) (meter_id : string) (data : T) : list MeterAlert :=
  let mk := mk_alert now meter_id in
  (on (voltage data) (voltage_alert mk) ++ on (frequency data) (frequency_alert mk)
   ++ on (battery_level data) (battery_alert mk) ++ on (power_factor data) (power_factor_alert mk)
   ++ on (thd_voltage data) (thd_alert mk "high_thd_voltage" "High THD voltage: " 5)
   ++ on (thd_current data) (thd_alert mk "high_thd_current" "High THD current: " 8))%list.

(** ** Health score *)

Definition voltage_score (v : spec_float) : spec_float :=
  if f64_le (f64 220) v && f64_le v (f64 240) then f64 100
  else if f64_le (f64 200) v && f64_le v (f64 260) then
    let deviation := if f64_lt v (f64 220) then f64_sub (f64 220) v else f64_sub v (f64 240) in
    f64_sub (f64 100) (f64_min (f64_mul deviation (f64 5)) (f64 50))
  else f64 25.

(** [weighted_score += score * w; total_weight += w]. *)
Definition weigh (w : spec_float) (score : option spec_float) (acc : spec_float * spec_float)
    : spec_float * spec_float :=
  match score with
  | Some s => (f64_add acc.1 (f64_mul s w), f64_add acc.2 w)
  | None => acc
  end.

Definition thd_score (data : T) : option spec_float :=
  match thd_voltage data, thd_current data with
  | None, None => None
  | v, i =>
      let total := f64_add (default (f64 0) v) (default (f64 0) i) in
      Some (f64_max (f64_sub (f64 100) (f64_mul total (f64 5))) (f64 0))
  end.

Definition calculate_health_score (data : T) : spec_float :=
  let w30 := f64_lit 3 10 in let w20 := f64_lit 2 10 in
  let acc := (f64 0, f64 0) in
  let acc := weigh w30 (voltage_score <$> voltage data) acc in
  let acc := weigh w30 ((fun pf => f64_min (f64_mul pf (f64 100)) (f64 100)) <$> power_factor data) acc in
  let acc := weigh w20 (thd_score data) acc in
  let '(weighted_score, total_weight) := weigh w20 (battery_level data) acc in
  if f64_lt (f64 0) total_weight
  then f64_max (f64_min (f64_div weighted_score total_weight) (f64 100)) (f64 0)
  else f64 50.
End alerts.

(** ** The health of a meter *)

Record HealthComponents := {
  hc_voltage_stability : option spec_float;
  hc_power_factor : option spec_float;
  hc_thd_quality : option spec_float;
  hc_battery_level : option spec_float;
}.

Record MeterHealthResponse := {
  h_meter_serial : string;
  h_health_score : spec_float;
  h_status : string;
  h_last_reading : option DateTime;
  h_components : HealthComponents;
}.

(** The columns of the newest reading that [get_meter_health] reads. *)
Record LatestReading := {
  l_voltage : option spec_float;
  l_power_factor : option spec_float;
  l_thd_voltage : option spec_float;
  l_thd_current : option spec_float;
  l_battery_level : option spec_float;
  l_timestamp : DateTime;
}.

Definition components (l : LatestReading) : HealthComponents :=
  {| hc_voltage_stability := (fun v =>
       if f64_le (f64 220) v && f64_le v (f64 240) then f64 100
       else if f64_le (f64 200) v && f64_le v (f64 260) then f64 75 else f64 25) <$> l_voltage l;
     hc_power_factor := (fun pf => f64_mul pf (f64 100)) <$> l_power_factor l;
     hc_thd_quality :=
       match l_thd_voltage l, l_thd_current l with
       | Some v, Some i => Some (f64_max (f64_sub (f64 100) (f64_mul (f64_add v i) (f64 5))) (f64 0))
       | Some v, None => Some (f64_max (f64_sub (f64 100) (f64_mul v (f64 10))) (f64 0))
       | None, _ => None
       end;
     hc_battery_level := l_battery_level l |}.

Definition tally (o : option spec_float) (acc : spec_float * Z) : spec_float * Z :=
  match o with Some s => (f64_add acc.1 s, acc.2 + 1) | None => acc end.

Definition health_status (score : spec_float) : string :=
  if f64_le (f64 80) score then "Good"
  else if f64_le (f64 60) score then "Fair"
  else if f64_le (f64 40) score then "Poor" else "Critical".

Definition meter_health (serial : string) (latest : option LatestReading) : MeterHealthResponse :=
  match latest with
  | Some l =>
      let c := components l in
      let '(total, count) :=
        tally (hc_battery_level c) (tally (hc_thd_quality c) (tally (hc_power_factor c)
          (tally (hc_voltage_stability c) (f64 0, 0)))) in
      let score := if 0 <? count then f64_div total (f64_of_Z count) else f64 50 in
      {| h_meter_serial := serial; h_health_score := score; h_status := health_status score;
         h_last_reading := Some (l_timestamp l); h_components := c |}
  | None =>
      {| h_meter_serial := serial; h_health_score := f64 0; h_status := "Unknown";
         h_last_reading := None;
         h_components := {| hc_voltage_stability := None; hc_power_factor := None;
                            hc_thd_quality := None; hc_battery_level := None |} |}
  end.

(** ** The running totals of the grid *)

Record ZoneGridStatus := {
  z_zone_id : Z;
  z_generation : spec_float;
  z_consumption : spec_float;
  z_net_balance : spec_float;
  z_active_meters : Z;
  z_active_meter_ids : gset string;
  z_meter_generation : gmap string spec_float;
  z_meter_consumption : gmap string spec_float;
}.

Record GridStatus := {
  g_total_generation : spec_float;
  g_total_consumption : spec_float;
  g_net_balance : spec_float;
  g_active_meters : Z;
  g_co2_saved_kg : spec_float;
  g_zones : gmap Z ZoneGridStatus;
  g_timestamp : DateTime;
  g_active_meter_ids : gset string;
  g_meter_generation : gmap string spec_float;
  g_meter_consumption : gmap string spec_float;
}.

Definition new_grid_status (now : DateTime) : GridStatus :=
  {| g_total_generation := f64 0; g_total_consumption := f64 0; g_net_balance := f64 0;
     g_active_meters := 0; g_co2_saved_kg := f64 0; g_zones := ∅; g_timestamp := now;
     g_active_meter_ids := ∅; g_meter_generation := ∅; g_meter_consumption := ∅ |}.

Definition new_zone (zone : Z) : ZoneGridStatus :=
  {| z_zone_id := zone; z_generation := f64 0; z_consumption := f64 0; z_net_balance := f64 0;
     z_active_meters := 0; z_active_meter_ids := ∅; z_meter_generation := ∅;
     z_meter_consumption := ∅ |}.

(** [map.insert(meter, x).unwrap_or(0.0)]: the value replaced. *)
Definition old_value (meter : string) (m : gmap string spec_float) : spec_float :=
  default (f64 0) (m !! meter).

(** [total - old + new]. *)
Definition replace_in (total old new : spec_float) : spec_float := f64_add (f64_sub total old) new.

Definition with_active (meter : string) (ids : gset string) : gset string :=
  if (meter =? "unknown")%string then ids else {[meter]} ∪ ids.

Definition update_zone (meter : string) (power_gen power_cons : spec_float) (z : ZoneGridStatus)
    : ZoneGridStatus :=
  let generation := replace_in (z_generation z) (old_value meter (z_meter_generation z)) power_gen in
  let consumption := replace_in (z_consumption z) (old_value meter (z_meter_consumption z)) power_cons in
  let ids := with_active meter (z_active_meter_ids z) in
  {| z_zone_id := z_zone_id z; z_generation := generation; z_consumption := consumption;
     z_net_balance := f64_sub generation consumption;
     z_active_meters := wrap_i32 (Z.of_nat (size ids)); z_active_meter_ids := ids;
     z_meter_generation := <[meter := power_gen]> (z_meter_generation z);
     z_meter_consumption := <[meter := power_cons]> (z_meter_consumption z) |}.

(** A reading as the dashboard gets it. *)
Record Report := {
  p_kwh : spec_float;
  p_serial : string;
  p_zone_id : option Z;
  p_power_gen : spec_float;
  p_power_cons : spec_float;
}.

Definition handle_meter_reading (now : DateTime) (p : Report) (g : GridStatus) : GridStatus :=
  let meter := p_serial p in
  let generation := replace_in (g_total_generation g) (old_value meter (g_meter_generation g)) (p_power_gen p) in
  let consumption := replace_in (g_total_consumption g) (old_value meter (g_meter_consumption g)) (p_power_cons p) in
  let ids := with_active meter (g_active_meter_ids g) in
  {| g_total_generation := generation; g_total_consumption := consumption;
     g_net_balance := f64_sub generation consumption;
     g_active_meters := Z.of_nat (size ids);
     g_co2_saved_kg := if f64_lt (f64 0) (p_kwh p)
       then f64_add (g_co2_saved_kg g) (f64_mul (p_kwh p) (f64_lit 431 1000)) else g_co2_saved_kg g;
     g_zones := match p_zone_id p with
       | Some z => <[z := update_zone meter (p_power_gen p) (p_power_cons p)
                            (default (new_zone z) (g_zones g !! z))]> (g_zones g)
       | None => g_zones g
       end;
     g_timestamp := now; g_active_meter_ids := ids;
     g_meter_generation := <[meter := p_power_gen p]> (g_meter_generation g);
     g_meter_consumption := <[meter := p_power_cons p]> (g_meter_consumption g) |}.

(** What the clients are told after a reading. *)
Definition grid_status_event (g : GridStatus) : Event :=
  EvGridStatus (g_total_generation g) (g_total_consumption g) (g_net_balance g)
    (g_active_meters g) (g_co2_saved_kg g).

Definition run_reports (reports : list (DateTime * Report)) (g : GridStatus) : GridStatus :=
  fold_left (fun g p => handle_meter_reading p.1 p.2 g) reports g.

(** ** Theorems *)

(** On numbers [<=] is the negation of [>]. *)
Lemma f64_total x y : is_nan x = false -> is_nan y = false -> f64_lt x y = false -> f64_le y x = true.
Proof.
  intros Hx Hy. unfold f64_lt, f64_le, SFltb, SFleb.
  assert (E : SFcompare y x = CompOpp <$> SFcompare x y).
  { destruct x as [sx|sx| |sx mx ex], y as [sy|sy| |sy my ey]; try done;
      try (destruct sx; done); try (destruct sy; done); try (by destruct sx, sy).
    unfold SFcompare. destruct sx, sy; try done; rewrite (Z.compare_antisym ex ey);
      destruct (ex ?= ey); try done; simpl;
      change (Pos.compare_cont Eq my mx) with (my ?= mx)%positive;
      change (Pos.compare_cont Eq mx my) with (mx ?= my)%positive;
      rewrite (Pos.compare_antisym mx my); by destruct (mx ?= my)%positive. }
  rewrite E. destruct (SFcompare x y) as [[]|] eqn:C; try done.
  by destruct x as [[]|[]| |[]], y as [[]|[]| |[]].
Qed.

Lemma clamp_bounds x :
  let r := f64_max (f64_min x (f64 100)) (f64 0) in
  f64_le (f64 0) r = true /\ f64_le r (f64 100) = true.
Proof.
  cbv zeta. unfold f64_min. destruct (is_nan x) eqn:En; [by vm_compute|].
  destruct (f64_lt (f64 100) x) eqn:Eh; [by vm_compute|].
  apply (f64_total (f64 100) x) in Eh; [|by vm_compute|done].
  unfold f64_max. rewrite En. destruct (f64_lt x (f64 0)) eqn:El; [by vm_compute|].
  apply f64_total in El; [done|done|by vm_compute].
Qed.

Section analyzer.
Context `{FT : FloatText} {T : Type} `{RD : ReadingData T}.

(** The health score lies between 0 and 100 for every reading, also for one whose
    measurements are not numbers. *)
Theorem health_score_bounds (data : T) :
  f64_le (f64 0) (calculate_health_score data) = true
  /\ f64_le (calculate_health_score data) (f64 100) = true.
Proof.
  unfold calculate_health_score. destruct (weigh _ (battery_level data) _) as [score weight].
  destruct (f64_lt (f64 0) weight); [apply clamp_bounds|by vm_compute].
Qed.

Definition present (o : option spec_float) (p : spec_float -> bool) : Prop :=
  match o with Some x => p x = true | None => True end.

(** Every measurement the reading carries is inside its limits. *)
Definition in_limits (data : T) : Prop :=
  present (voltage data) (fun v => negb (f64_lt v (f64 200)) && negb (f64_lt (f64 260) v))
  /\ present (frequency data) (fun f => negb (f64_lt f (f64_lit 99 2)) && negb (f64_lt (f64_lit 101 2) f))
  /\ present (battery_level data) (fun b => negb (f64_lt b (f64 20)))
  /\ present (power_factor data) (fun p => negb (f64_lt p (f64_lit 8 10)))
  /\ present (thd_voltage data) (fun t => negb (f64_lt (f64 5) t))
  /\ present (thd_current data) (fun t => negb (f64_lt (f64 8) t)).

(** What an alert says of its value. *)
Definition beyond (a : MeterAlert) : Prop :=
  f64_lt (a_value a) (a_threshold a) = true \/ f64_lt (a_threshold a) (a_value a) = true.

(** At most one alert, of the kind given, from the meter and at the time given. *)
Definition alert_of (id : string) (now : DateTime) (kinds : list string) (ok : Prop)
    (l : list MeterAlert) : Prop :=
  (l = [] <-> ok)
  /\ match l with
     | [] => True
     | [a] => a_alert_type a ∈ kinds /\ a_meter_id a = id /\ a_timestamp a = now /\ beyond a
     | _ => False
     end.

Lemma alert_of_one id now kinds (ok : Prop) kind v t severity m :
  kind ∈ kinds -> ~ ok -> f64_lt v t = true \/ f64_lt t v = true ->
  alert_of id now kinds ok [mk_alert now id kind v t severity m].
Proof. intros Hk Ho Hb. split; [by split|]. by split_and!. Qed.

Lemma alert_of_none id now kinds (ok : Prop) : ok -> alert_of id now kinds ok [].
Proof. by split. Qed.

Ltac alert_cases :=
  repeat match goal with
  | |- context [f64_lt ?a ?b] => destruct (f64_lt a b) eqn:?
  end; cbn [negb andb orb];
  first [ by apply alert_of_none
        | apply alert_of_one; [by eauto using list_elem_of_here, list_elem_of_further|done|eauto] ].

Lemma alert_of_on id now kinds o p f :
  (forall x, alert_of id now kinds (p x = true) (f x)) ->
  alert_of id now kinds (present o p) (on o f).
Proof. intros H. destruct o as [x|]; [apply H|by split]. Qed.

Lemma voltage_alert_of id now x : alert_of id now ["low_voltage"; "high_voltage"]
  (negb (f64_lt x (f64 200)) && negb (f64_lt (f64 260) x) = true) (voltage_alert (mk_alert now id) x).
Proof. unfold voltage_alert. alert_cases. Qed.

Lemma frequency_alert_of id now x : alert_of id now ["frequency_deviation"]
  (negb (f64_lt x (f64_lit 99 2)) && negb (f64_lt (f64_lit 101 2) x) = true)
  (frequency_alert (mk_alert now id) x).
Proof. unfold frequency_alert. alert_cases. Qed.

Lemma battery_alert_of id now x : alert_of id now ["low_battery"]
  (negb (f64_lt x (f64 20)) = true) (battery_alert (mk_alert now id) x).
Proof. unfold battery_alert. alert_cases. Qed.

Lemma power_factor_alert_of id now x : alert_of id now ["poor_power_factor"]
  (negb (f64_lt x (f64_lit 8 10)) = true) (power_factor_alert (mk_alert now id) x).
Proof. unfold power_factor_alert. alert_cases. Qed.

Lemma thd_alert_of id now kind text limit x : alert_of id now [kind]
  (negb (f64_lt (f64 limit) x) = true) (thd_alert (mk_alert now id) kind text limit x).
Proof. unfold thd_alert. alert_cases. Qed.
(** A list of alerts of the kinds given. *)
Definition alerts_of (id : string) (now : DateTime) (kinds : list string) (ok : Prop)
    (l : list MeterAlert) : Prop :=
  (l = [] <-> ok) /\ NoDup (a_alert_type <$> l)
  /\ Forall (fun a => a_alert_type a ∈ kinds /\ a_meter_id a = id /\ a_timestamp a = now /\ beyond a) l.

Lemma alerts_of_single id now kinds ok l : alert_of id now kinds ok l -> alerts_of id now kinds ok l.
Proof.
  intros [Hn Hl]. split; [exact Hn|]. destruct l as [|a [|]]; [..|done].
  - split; constructor.
  - split; [apply NoDup_singleton|by apply list.Forall_singleton].
Qed.

Lemma alerts_of_app id now k1 k2 ok1 ok2 l1 l2 :
  Forall (fun x => x ∉ k2) k1 -> alerts_of id now k1 ok1 l1 -> alerts_of id now k2 ok2 l2 ->
  alerts_of id now (k1 ++ k2)%list (ok1 /\ ok2) (l1 ++ l2)%list.
Proof.
  intros Hd (E1 & N1 & F1) (E2 & N2 & F2). rewrite list.Forall_forall in Hd. split_and!.
  - rewrite <- E1, <- E2. destruct l1, l2; simpl; intuition congruence.
  - rewrite list.fmap_app. apply list.NoDup_app. split_and!; [done| |done].
    intros x (a & -> & Ha)%list_elem_of_fmap (b & Hab & Hb)%list_elem_of_fmap.
    apply (list.Forall_forall _ l1) with (x := a) in F1 as [Ka _]; [|done].
    apply (list.Forall_forall _ l2) with (x := b) in F2 as [Kb _]; [|done].
    apply (Hd _ Ka). by rewrite Hab.
  - apply list.Forall_app. split; eapply list.Forall_impl; eauto; intros a (K & R);
      (split; [apply elem_of_app; by auto|exact R]).
Qed.

(** No alert is raised exactly when every measurement is inside its limits, no kind of
    alert is raised twice, and every alert carries the meter, the time and a value beyond its
    threshold. *)
Theorem alerts_iff_abnormal now id (data : T) :
  (check_alerts now id data = [] <-> in_limits data)
  /\ NoDup (a_alert_type <$> check_alerts now id data)
  /\ Forall (fun a => a_meter_id a = id /\ a_timestamp a = now /\ beyond a) (check_alerts now id data).
Proof.
  assert (H : exists kinds, alerts_of id now kinds (in_limits data) (check_alerts now id data)).
  { eexists. unfold check_alerts. cbv zeta.
    repeat (apply alerts_of_app; [shelve|..]); apply alerts_of_single, alert_of_on;
      intros x; auto using voltage_alert_of, frequency_alert_of, battery_alert_of,
        power_factor_alert_of, thd_alert_of.
    Unshelve. all: apply (bool_decide_unpack _); vm_compute; exact I. }
  destruct H as (kinds & He & Hn & Hf). split; [exact He|]. split; [exact Hn|].
  eapply list.Forall_impl; [exact Hf|]. by intros a [_ ?].
Qed.
End analyzer.

(** *** The dashboard *)

Lemma run_reports_snoc reports p g :
  run_reports (reports ++ [p]) g = handle_meter_reading p.1 p.2 (run_reports reports g).
Proof. unfold run_reports. by rewrite fold_left_app. Qed.

(** The last report of a meter, and the meters a zone (or the grid) has heard of. *)
Definition last_report (meter : string) (reports : list (DateTime * Report)) : option Report :=
  List.find (fun p => (p_serial p =? meter)%string) (reverse reports.*2).

Definition known (keep : Report -> bool) (reports : list (DateTime * Report)) : gset string :=
  list_to_set (p_serial <$> List.filter (fun p => keep p && negb (p_serial p =? "unknown")%string) reports.*2).

Lemma last_report_snoc meter reports p :
  last_report meter (reports ++ [p]) =
  if (p_serial p.2 =? meter)%string then Some p.2 else last_report meter reports.
Proof. unfold last_report. rewrite fmap_app, reverse_app. simpl. by destruct (String.eqb _ _). Qed.

Lemma known_snoc keep reports p :
  known keep (reports ++ [p]) =
  if keep p.2 then with_active (p_serial p.2) (known keep reports) else known keep reports.
Proof.
  unfold known, with_active. rewrite fmap_app, List.filter_app, list.fmap_app, list_to_set_app_L. simpl.
  destruct (keep p.2), (String.eqb _ _); simpl; rewrite ?(right_id_L ∅ (∪)); try done.
  by rewrite (comm_L (∪)).
Qed.

Definition in_zone (z : Z) (p : Report) : bool := bool_decide (p_zone_id p = Some z).

(** After any readings the balance is generation minus consumption, the active meters are
    those heard of under a serial number, counted once, and the power kept of every meter is
    that of its last report; a zone counts every meter that ever reported from it. *)
Theorem grid_status_accounts start reports :
  let g := run_reports reports (new_grid_status start) in
  g_net_balance g = f64_sub (g_total_generation g) (g_total_consumption g)
  /\ g_active_meters g = Z.of_nat (size (known (fun _ => true) reports))
  /\ (forall m, g_meter_generation g !! m = p_power_gen <$> last_report m reports)
  /\ (forall m, g_meter_consumption g !! m = p_power_cons <$> last_report m reports)
  /\ (forall z zone, g_zones g !! z = Some zone ->
        z_active_meters zone = wrap_i32 (Z.of_nat (size (known (in_zone z) reports)))
        /\ z_net_balance zone = f64_sub (z_generation zone) (z_consumption zone)).
Proof.
  cbv zeta.
  enough (G : forall reports, let g := run_reports reports (new_grid_status start) in
    g_net_balance g = f64_sub (g_total_generation g) (g_total_consumption g)
    /\ g_active_meters g = Z.of_nat (size (known (fun _ => true) reports))
    /\ g_active_meter_ids g = known (fun _ => true) reports
    /\ (forall m, g_meter_generation g !! m = p_power_gen <$> last_report m reports)
    /\ (forall m, g_meter_consumption g !! m = p_power_cons <$> last_report m reports)
    /\ (forall z, match g_zones g !! z with
         | Some zone => z_active_meter_ids zone = known (in_zone z) reports
             /\ z_active_meters zone = wrap_i32 (Z.of_nat (size (known (in_zone z) reports)))
             /\ z_net_balance zone = f64_sub (z_generation zone) (z_consumption zone)
         | None => known (in_zone z) reports = ∅
         end)).
  { destruct (G reports) as (H1 & H2 & _ & H3 & H4 & H5). split_and!; try done.
    intros z zone Hz. specialize (H5 z). rewrite Hz in H5. by destruct H5 as (_ & ? & ?). }
  clear reports. induction reports as [|p reports IH] using rev_ind; cbv zeta in *.
  { split_and!; try done; by intros z. }
  rewrite run_reports_snoc, !known_snoc.
  destruct IH as (_ & _ & Hids & Hg & Hc & Hz). set (g := run_reports reports _) in *.
  split_and!; simpl; [done|by rewrite Hids|by rewrite Hids|..].
  - intros m. rewrite last_report_snoc. destruct (String.eqb_spec (p_serial p.2) m) as [->|Hm].
    + by rewrite lookup_insert_eq.
    + by rewrite lookup_insert_ne.
  - intros m. rewrite last_report_snoc. destruct (String.eqb_spec (p_serial p.2) m) as [->|Hm].
    + by rewrite lookup_insert_eq.
    + by rewrite lookup_insert_ne.
  - intros z. rewrite known_snoc. specialize (Hz z).
    change (in_zone z p.2) with (bool_decide (p_zone_id p.2 = Some z)).
    destruct (p_zone_id p.2) as [z'|]; [|exact Hz].
    destruct (decide (z' = z)) as [->|Hne].
    + rewrite lookup_insert_eq, bool_decide_eq_true_2 by done. simpl.
      destruct (g_zones g !! z) as [zone|]; simpl; [by destruct Hz as (-> & _)|].
      by rewrite Hz.
    + rewrite lookup_insert_ne, bool_decide_eq_false_2 by congruence. exact Hz.
Qed.

Definition finite (x : spec_float) : bool :=
  match x with S754_zero _ | S754_finite _ _ _ => true | _ => false end.

Lemma replace_in_infinity old new : finite old = true -> finite new = true ->
  replace_in (S754_infinity false) old new = S754_infinity false.
Proof. by destruct old, new. Qed.

(** Once the total generation has overflowed it stays infinite, whatever finite powers the
    meters report afterwards; two reports are enough to get there. *)
Theorem grid_total_saturates reports g :
  g_total_generation g = S754_infinity false ->
  map_Forall (fun _ x => finite x = true) (g_meter_generation g) ->
  Forall (fun p => finite (p_power_gen p.2) = true) reports ->
  g_total_generation (run_reports reports g) = S754_infinity false.
Proof.
  revert g. induction reports as [|p reports IH]; intros g Hg Hm Hr; [done|].
  apply list.Forall_cons in Hr as [Hp Hr]. simpl. apply IH; [..|done]; simpl.
  - rewrite Hg. apply replace_in_infinity; [|done]. unfold old_value.
    destruct (g_meter_generation g !! _) eqn:E; [by eapply Hm|done].
  - by apply map_Forall_insert_2.
Qed.

(** ** Witnesses *)

Definition demo_report (serial : string) (power : Z) : DateTime * Report :=
  (0, {| p_kwh := f64 0; p_serial := serial; p_zone_id := Some 1; p_power_gen := f64 power;
         p_power_cons := f64 0 |}).
Definition overflowed : GridStatus :=
  run_reports [demo_report "M-1" (17 * 10 ^ 307); demo_report "M-2" (17 * 10 ^ 307)] (new_grid_status 0).

Lemma grid_total_saturates_witness :
  g_total_generation (run_reports [demo_report "M-1" 0; demo_report "M-2" 0] overflowed)
  = S754_infinity false.
Proof.
  apply grid_total_saturates.
  - vm_compute. reflexivity.
  - apply (bool_decide_unpack _). vm_compute. exact I.
  - apply (bool_decide_unpack _). vm_compute. exact I.
Defined.
