(* ===== verification/Tokenization.v ===== *)
(** The configuration of tokenization: [src/config/tokenization.rs].

    Loading from the environment, and the conversions between energy and tokens.  The
    environment is a function from names to values; [str::parse::<f64>] and [f64::powi] are
    the interfaces [F64Parse] and [F64Powi]; the parsers of integers and [bool] are those of
    [Prelude]. *)
From S2P Require Import Prelude Numerics Floats Errors.
From Stdlib Require Import Ascii.
Open Scope string_scope.
Open Scope Z_scope.

Class F64Parse := { parse_f64 : string -> option spec_float }.

(** [powi] multiplies: where every power is a small integer nothing is rounded. *)
Class F64Powi := {
  powi : spec_float -> Z -> spec_float;
  powi_exact b n : 0 < b -> 0 <= n -> b ^ n < 2 ^ 53 -> powi (f64_of_Z b) n = f64_of_Z (b ^ n);
}.

(** ** Parsing *)

Definition i64_max : Z := 9223372036854775807.

(** [parse::<i64>]. *)
Definition parse_i64 (s : string) : option Z :=
  match s with
  | String "-" s =>
      if (s =? "")%string then None
      else n ← digits_value 0 s; if n <=? i64_max + 1 then Some (- n) else None
  | _ => parse_unsigned i64_max s
  end.

(** ** Configuration *)

Record TokenizationConfig := {
  kwh_to_token_ratio : spec_float;
  decimals : Z;
  max_reading_kwh : spec_float;
  reading_max_age_days : Z;
  auto_mint_enabled : bool;
  polling_interval_secs : Z;
  batch_size : Z;
  max_retry_attempts : Z;
  initial_retry_delay_secs : Z;
  retry_backoff_multiplier : spec_float;
  max_retry_delay_secs : Z;
  transaction_timeout_secs : Z;
  max_transactions_per_batch : Z;
  enable_real_blockchain : bool;
  use_onchain_balance_for_escrow : bool;
  mint_threshold : spec_float;
}.

Definition default_config : TokenizationConfig := {|
  kwh_to_token_ratio := f64_of_Z 1;
  decimals := 9;
  max_reading_kwh := f64_of_Z 100;
  reading_max_age_days := 7;
  auto_mint_enabled := true;
  polling_interval_secs := 60;
  batch_size := 50;
  max_retry_attempts := 3;
  initial_retry_delay_secs := 300;
  retry_backoff_multiplier := f64_of_Z 2;
  max_retry_delay_secs := 3600;
  transaction_timeout_secs := 60;
  max_transactions_per_batch := 20;
  enable_real_blockchain := true;
  use_onchain_balance_for_escrow := false;
  mint_threshold := f64_of_Z 5;
|}.

(** [config.field = value]. *)
Definition set_kwh_to_token_ratio x (c : TokenizationConfig) : TokenizationConfig := {|
  kwh_to_token_ratio := x; decimals := decimals c; max_reading_kwh := max_reading_kwh c;
  reading_max_age_days := reading_max_age_days c; auto_mint_enabled := auto_mint_enabled c;
  polling_interval_secs := polling_interval_secs c; batch_size := batch_size c;
  max_retry_attempts := max_retry_attempts c;
  initial_retry_delay_secs := initial_retry_delay_secs c;
  retry_backoff_multiplier := retry_backoff_multiplier c;
  max_retry_delay_secs := max_retry_delay_secs c;
  transaction_timeout_secs := transaction_timeout_secs c;
  max_transactions_per_batch := max_transactions_per_batch c;
  enable_real_blockchain := enable_real_blockchain c;
  use_onchain_balance_for_escrow := use_onchain_balance_for_escrow c;
  mint_threshold := mint_threshold c |}.
Definition set_decimals x (c : TokenizationConfig) : TokenizationConfig := {|
  kwh_to_token_ratio := kwh_to_token_ratio c; decimals := x; max_reading_kwh := max_reading_kwh c;
  reading_max_age_days := reading_max_age_days c; auto_mint_enabled := auto_mint_enabled c;
  polling_interval_secs := polling_interval_secs c; batch_size := batch_size c;
  max_retry_attempts := max_retry_attempts c;
  initial_retry_delay_secs := initial_retry_delay_secs c;
  retry_backoff_multiplier := retry_backoff_multiplier c;
  max_retry_delay_secs := max_retry_delay_secs c;
  transaction_timeout_secs := transaction_timeout_secs c;
  max_transactions_per_batch := max_transactions_per_batch c;
  enable_real_blockchain := enable_real_blockchain c;
  use_onchain_balance_for_escrow := use_onchain_balance_for_escrow c;
  mint_threshold := mint_threshold c |}.
Definition set_max_reading_kwh x (c : TokenizationConfig) : TokenizationConfig := {|
  kwh_to_token_ratio := kwh_to_token_ratio c; decimals := decimals c; max_reading_kwh := x;
  reading_max_age_days := reading_max_age_days c; auto_mint_enabled := auto_mint_enabled c;
  polling_interval_secs := polling_interval_secs c; batch_size := batch_size c;
  max_retry_attempts := max_retry_attempts c;
  initial_retry_delay_secs := initial_retry_delay_secs c;
  retry_backoff_multiplier := retry_backoff_multiplier c;
  max_retry_delay_secs := max_retry_delay_secs c;
  transaction_timeout_secs := transaction_timeout_secs c;
  max_transactions_per_batch := max_transactions_per_batch c;
  enable_real_blockchain := enable_real_blockchain c;
  use_onchain_balance_for_escrow := use_onchain_balance_for_escrow c;
  mint_threshold := mint_threshold c |}.
Definition set_reading_max_age_days x (c : TokenizationConfig) : TokenizationConfig := {|
  kwh_to_token_ratio := kwh_to_token_ratio c; decimals := decimals c;
  max_reading_kwh := max_reading_kwh c; reading_max_age_days := x;
  auto_mint_enabled := auto_mint_enabled c; polling_interval_secs := polling_interval_secs c;
  batch_size := batch_size c; max_retry_attempts := max_retry_attempts c;
  initial_retry_delay_secs := initial_retry_delay_secs c;
  retry_backoff_multiplier := retry_backoff_multiplier c;
  max_retry_delay_secs := max_retry_delay_secs c;
  transaction_timeout_secs := transaction_timeout_secs c;
  max_transactions_per_batch := max_transactions_per_batch c;
  enable_real_blockchain := enable_real_blockchain c;
  use_onchain_balance_for_escrow := use_onchain_balance_for_escrow c;
  mint_threshold := mint_threshold c |}.
Definition set_auto_mint_enabled x (c : TokenizationConfig) : TokenizationConfig := {|
  kwh_to_token_ratio := kwh_to_token_ratio c; decimals := decimals c;
  max_reading_kwh := max_reading_kwh c; reading_max_age_days := reading_max_age_days c;
  auto_mint_enabled := x; polling_interval_secs := polling_interval_secs c;
  batch_size := batch_size c; max_retry_attempts := max_retry_attempts c;
  initial_retry_delay_secs := initial_retry_delay_secs c;
  retry_backoff_multiplier := retry_backoff_multiplier c;
  max_retry_delay_secs := max_retry_delay_secs c;
  transaction_timeout_secs := transaction_timeout_secs c;
  max_transactions_per_batch := max_transactions_per_batch c;
  enable_real_blockchain := enable_real_blockchain c;
  use_onchain_balance_for_escrow := use_onchain_balance_for_escrow c;
  mint_threshold := mint_threshold c |}.
Definition set_polling_interval_secs x (c : TokenizationConfig) : TokenizationConfig := {|
  kwh_to_token_ratio := kwh_to_token_ratio c; decimals := decimals c;
  max_reading_kwh := max_reading_kwh c; reading_max_age_days := reading_max_age_days c;
  auto_mint_enabled := auto_mint_enabled c; polling_interval_secs := x;
  batch_size := batch_size c; max_retry_attempts := max_retry_attempts c;
  initial_retry_delay_secs := initial_retry_delay_secs c;
  retry_backoff_multiplier := retry_backoff_multiplier c;
  max_retry_delay_secs := max_retry_delay_secs c;
  transaction_timeout_secs := transaction_timeout_secs c;
  max_transactions_per_batch := max_transactions_per_batch c;
  enable_real_blockchain := enable_real_blockchain c;
  use_onchain_balance_for_escrow := use_onchain_balance_for_escrow c;
  mint_threshold := mint_threshold c |}.
Definition set_batch_size x (c : TokenizationConfig) : TokenizationConfig := {|
  kwh_to_token_ratio := kwh_to_token_ratio c; decimals := decimals c;
  max_reading_kwh := max_reading_kwh c; reading_max_age_days := reading_max_age_days c;
  auto_mint_enabled := auto_mint_enabled c; polling_interval_secs := polling_interval_secs c;
  batch_size := x; max_retry_attempts := max_retry_attempts c;
  initial_retry_delay_secs := initial_retry_delay_secs c;
  retry_backoff_multiplier := retry_backoff_multiplier c;
  max_retry_delay_secs := max_retry_delay_secs c;
  transaction_timeout_secs := transaction_timeout_secs c;
  max_transactions_per_batch := max_transactions_per_batch c;
  enable_real_blockchain := enable_real_blockchain c;
  use_onchain_balance_for_escrow := use_onchain_balance_for_escrow c;
  mint_threshold := mint_threshold c |}.
Definition set_max_retry_attempts x (c : TokenizationConfig) : TokenizationConfig := {|
  kwh_to_token_ratio := kwh_to_token_ratio c; decimals := decimals c;
  max_reading_kwh := max_reading_kwh c; reading_max_age_days := reading_max_age_days c;
  auto_mint_enabled := auto_mint_enabled c; polling_interval_secs := polling_interval_secs c;
  batch_size := batch_size c; max_retry_attempts := x;
  initial_retry_delay_secs := initial_retry_delay_secs c;
  retry_backoff_multiplier := retry_backoff_multiplier c;
  max_retry_delay_secs := max_retry_delay_secs c;
  transaction_timeout_secs := transaction_timeout_secs c;
  max_transactions_per_batch := max_transactions_per_batch c;
  enable_real_blockchain := enable_real_blockchain c;
  use_onchain_balance_for_escrow := use_onchain_balance_for_escrow c;
  mint_threshold := mint_threshold c |}.
Definition set_initial_retry_delay_secs x (c : TokenizationConfig) : TokenizationConfig := {|
  kwh_to_token_ratio := kwh_to_token_ratio c; decimals := decimals c;
  max_reading_kwh := max_reading_kwh c; reading_max_age_days := reading_max_age_days c;
  auto_mint_enabled := auto_mint_enabled c; polling_interval_secs := polling_interval_secs c;
  batch_size := batch_size c; max_retry_attempts := max_retry_attempts c;
  initial_retry_delay_secs := x; retry_backoff_multiplier := retry_backoff_multiplier c;
  max_retry_delay_secs := max_retry_delay_secs c;
  transaction_timeout_secs := transaction_timeout_secs c;
  max_transactions_per_batch := max_transactions_per_batch c;
  enable_real_blockchain := enable_real_blockchain c;
  use_onchain_balance_for_escrow := use_onchain_balance_for_escrow c;
  mint_threshold := mint_threshold c |}.
Definition set_retry_backoff_multiplier x (c : TokenizationConfig) : TokenizationConfig := {|
  kwh_to_token_ratio := kwh_to_token_ratio c; decimals := decimals c;
  max_reading_kwh := max_reading_kwh c; reading_max_age_days := reading_max_age_days c;
  auto_mint_enabled := auto_mint_enabled c; polling_interval_secs := polling_interval_secs c;
  batch_size := batch_size c; max_retry_attempts := max_retry_attempts c;
  initial_retry_delay_secs := initial_retry_delay_secs c; retry_backoff_multiplier := x;
  max_retry_delay_secs := max_retry_delay_secs c;
  transaction_timeout_secs := transaction_timeout_secs c;
  max_transactions_per_batch := max_transactions_per_batch c;
  enable_real_blockchain := enable_real_blockchain c;
  use_onchain_balance_for_escrow := use_onchain_balance_for_escrow c;
  mint_threshold := mint_threshold c |}.
Definition set_max_retry_delay_secs x (c : TokenizationConfig) : TokenizationConfig := {|
  kwh_to_token_ratio := kwh_to_token_ratio c; decimals := decimals c;
  max_reading_kwh := max_reading_kwh c; reading_max_age_days := reading_max_age_days c;
  auto_mint_enabled := auto_mint_enabled c; polling_interval_secs := polling_interval_secs c;
  batch_size := batch_size c; max_retry_attempts := max_retry_attempts c;
  initial_retry_delay_secs := initial_retry_delay_secs c;
  retry_backoff_multiplier := retry_backoff_multiplier c; max_retry_delay_secs := x;
  transaction_timeout_secs := transaction_timeout_secs c;
  max_transactions_per_batch := max_transactions_per_batch c;
  enable_real_blockchain := enable_real_blockchain c;
  use_onchain_balance_for_escrow := use_onchain_balance_for_escrow c;
  mint_threshold := mint_threshold c |}.
Definition set_transaction_timeout_secs x (c : TokenizationConfig) : TokenizationConfig := {|
  kwh_to_token_ratio := kwh_to_token_ratio c; decimals := decimals c;
  max_reading_kwh := max_reading_kwh c; reading_max_age_days := reading_max_age_days c;
  auto_mint_enabled := auto_mint_enabled c; polling_interval_secs := polling_interval_secs c;
  batch_size := batch_size c; max_retry_attempts := max_retry_attempts c;
  initial_retry_delay_secs := initial_retry_delay_secs c;
  retry_backoff_multiplier := retry_backoff_multiplier c;
  max_retry_delay_secs := max_retry_delay_secs c; transaction_timeout_secs := x;
  max_transactions_per_batch := max_transactions_per_batch c;
  enable_real_blockchain := enable_real_blockchain c;
  use_onchain_balance_for_escrow := use_onchain_balance_for_escrow c;
  mint_threshold := mint_threshold c |}.
Definition set_max_transactions_per_batch x (c : TokenizationConfig) : TokenizationConfig := {|
  kwh_to_token_ratio := kwh_to_token_ratio c; decimals := decimals c;
  max_reading_kwh := max_reading_kwh c; reading_max_age_days := reading_max_age_days c;
  auto_mint_enabled := auto_mint_enabled c; polling_interval_secs := polling_interval_secs c;
  batch_size := batch_size c; max_retry_attempts := max_retry_attempts c;
  initial_retry_delay_secs := initial_retry_delay_secs c;
  retry_backoff_multiplier := retry_backoff_multiplier c;
  max_retry_delay_secs := max_retry_delay_secs c;
  transaction_timeout_secs := transaction_timeout_secs c; max_transactions_per_batch := x;
  enable_real_blockchain := enable_real_blockchain c;
  use_onchain_balance_for_escrow := use_onchain_balance_for_escrow c;
  mint_threshold := mint_threshold c |}.
Definition set_enable_real_blockchain x (c : TokenizationConfig) : TokenizationConfig := {|
  kwh_to_token_ratio := kwh_to_token_ratio c; decimals := decimals c;
  max_reading_kwh := max_reading_kwh c; reading_max_age_days := reading_max_age_days c;
  auto_mint_enabled := auto_mint_enabled c; polling_interval_secs := polling_interval_secs c;
  batch_size := batch_size c; max_retry_attempts := max_retry_attempts c;
  initial_retry_delay_secs := initial_retry_delay_secs c;
  retry_backoff_multiplier := retry_backoff_multiplier c;
  max_retry_delay_secs := max_retry_delay_secs c;
  transaction_timeout_secs := transaction_timeout_secs c;
  max_transactions_per_batch := max_transactions_per_batch c; enable_real_blockchain := x;
  use_onchain_balance_for_escrow := use_onchain_balance_for_escrow c;
  mint_threshold := mint_threshold c |}.
Definition set_mint_threshold x (c : TokenizationConfig) : TokenizationConfig := {|
  kwh_to_token_ratio := kwh_to_token_ratio c; decimals := decimals c;
  max_reading_kwh := max_reading_kwh c; reading_max_age_days := reading_max_age_days c;
  auto_mint_enabled := auto_mint_enabled c; polling_interval_secs := polling_interval_secs c;
  batch_size := batch_size c; max_retry_attempts := max_retry_attempts c;
  initial_retry_delay_secs := initial_retry_delay_secs c;
  retry_backoff_multiplier := retry_backoff_multiplier c;
  max_retry_delay_secs := max_retry_delay_secs c;
  transaction_timeout_secs := transaction_timeout_secs c;
  max_transactions_per_batch := max_transactions_per_batch c;
  enable_real_blockchain := enable_real_blockchain c;
  use_onchain_balance_for_escrow := use_onchain_balance_for_escrow c; mint_threshold := x |}.

(** [if let Ok(val) = env::var(key) { match val.parse() { Ok(x) if ok(x) => set, _ => warn } }]. *)
Definition load {A} (vars : string -> option string) (key : string) (parse : string -> option A)
    (ok : A -> TokenizationConfig -> bool) (set : A -> TokenizationConfig -> TokenizationConfig)
    (c : TokenizationConfig) : TokenizationConfig :=
  match vars key ≫= parse with
  | Some x => if ok x c then set x c else c
  | None => c
  end.

Section config.
Context `{FP : F64Parse}.
Context (vars : string -> option string).

Definition load_all : TokenizationConfig :=
  let positive (x : spec_float) (_ : TokenizationConfig) := f64_lt (f64_of_Z 0) x in
  let c := default_config in
  let c := load vars "TOKENIZATION_KWH_TO_TOKEN_RATIO" parse_f64 positive set_kwh_to_token_ratio c in
  let c := load vars "TOKENIZATION_DECIMALS" (parse_unsigned 255) (fun x _ => x <=? 18) set_decimals c in
  let c := load vars "TOKENIZATION_MAX_READING_KWH" parse_f64 positive set_max_reading_kwh c in
  let c := load vars "TOKENIZATION_READING_MAX_AGE_DAYS" parse_i64 (fun x _ => 0 <? x) set_reading_max_age_days c in
  let c := load vars "TOKENIZATION_AUTO_MINT_ENABLED" parse_bool (fun _ _ => true) set_auto_mint_enabled c in
  let c := load vars "TOKENIZATION_POLLING_INTERVAL_SECS" (parse_unsigned u64_max) (fun x _ => 10 <=? x) set_polling_interval_secs c in
  let c := load vars "TOKENIZATION_BATCH_SIZE" (parse_unsigned u64_max) (fun x _ => (1 <=? x) && (x <=? 1000)) set_batch_size c in
  let c := load vars "TOKENIZATION_MAX_RETRY_ATTEMPTS" (parse_unsigned u32_max) (fun x _ => 0 <=? x) set_max_retry_attempts c in
  let c := load vars "TOKENIZATION_INITIAL_RETRY_DELAY_SECS" (parse_unsigned u64_max) (fun x _ => 1 <=? x) set_initial_retry_delay_secs c in
  let c := load vars "TOKENIZATION_RETRY_BACKOFF_MULTIPLIER" parse_f64 (fun x _ => f64_le (f64_of_Z 1) x) set_retry_backoff_multiplier c in
  let c := load vars "TOKENIZATION_MAX_RETRY_DELAY_SECS" (parse_unsigned u64_max) (fun x c => initial_retry_delay_secs c <=? x) set_max_retry_delay_secs c in
  let c := load vars "TOKENIZATION_TRANSACTION_TIMEOUT_SECS" (parse_unsigned u64_max) (fun x _ => 10 <=? x) set_transaction_timeout_secs c in
  let c := load vars "TOKENIZATION_MAX_TRANSACTIONS_PER_BATCH" (parse_unsigned u64_max) (fun x _ => 1 <=? x) set_max_transactions_per_batch c in
  let c := load vars "TOKENIZATION_ENABLE_REAL_BLOCKCHAIN" parse_bool (fun _ _ => true) set_enable_real_blockchain c in
  load vars "TOKENIZATION_MINT_THRESHOLD" parse_f64 (fun x _ => f64_le (f64_of_Z 0) x) set_mint_threshold c.

Definition from_env : res string TokenizationConfig :=
  let c := load_all in
  if auto_mint_enabled c && (polling_interval_secs c <? 10) then
    Err "Polling interval must be at least 10 seconds when auto mint is enabled"
  else if batch_size c =? 0 then Err "Batch size must be greater than 0"
  else if 18 <? decimals c then Err "Token decimals cannot exceed 18"
  else if max_retry_delay_secs c <? initial_retry_delay_secs c then
    Err "Max retry delay must be at least the initial retry delay"
  else Ok c.
End config.

(** ** Conversions *)

Inductive ValidationError :=
| NegativeAmount
| AmountTooHigh (kwh : spec_float)
| AmountExceedsMaximum
| InvalidConversion
| InvalidWalletAddress
| ReadingTooOld
| DuplicateReading.

Section conversions.
Context `{FP : F64Powi}.

Definition kwh_to_tokens (c : TokenizationConfig) (kwh_amount : spec_float)
    : res ValidationError Z :=
  if f64_lt kwh_amount (f64_of_Z 0) then Err NegativeAmount
  else if f64_lt (max_reading_kwh c) kwh_amount then Err (AmountTooHigh kwh_amount)
  else
    let tokens_decimal :=
      f64_mul (f64_mul kwh_amount (kwh_to_token_ratio c)) (powi (f64_of_Z 10) (decimals c)) in
    if f64_lt (f64_of_Z u64_max) tokens_decimal then Err AmountExceedsMaximum
    else Ok (as_unsigned u64_max tokens_decimal).

Definition tokens_to_kwh (c : TokenizationConfig) (token_amount : Z) : spec_float :=
  f64_div (f64_of_Z token_amount)
    (f64_mul (kwh_to_token_ratio c) (powi (f64_of_Z 10) (decimals c))).

Definition calculate_retry_delay (c : TokenizationConfig) (attempt : Z) : Z :=
  if attempt =? 0 then 0
  else
    let delay := f64_mul (f64_of_Z (initial_retry_delay_secs c))
                   (powi (retry_backoff_multiplier c) (wrap_i32 (wrap_i32 attempt - 1))) in
    as_unsigned u64_max (f64_min delay (f64_of_Z (max_retry_delay_secs c))).
End conversions.

(** ** Theorems *)

Lemma digit_value_nonneg c d : digit_value c = Some d -> 0 <= d.
Proof.
  unfold digit_value, is_ascii_digit, in_range. destruct (_ && _) eqn:E; [|done]. intros H. simplify_eq.
  to_prop. lia.
Qed.

Lemma digits_value_nonneg s : forall acc n, 0 <= acc -> digits_value acc s = Some n -> 0 <= n.
Proof.
  induction s as [|c s IH]; simpl; intros acc n Ha H; [by simplify_eq|].
  apply bind_Some in H as (d & Hd & H). apply digit_value_nonneg in Hd. eapply IH; [|exact H]. lia.
Qed.

Lemma parse_unsigned_range max s n : parse_unsigned max s = Some n -> 0 <= n <= max.
Proof.
  unfold parse_unsigned. cbv zeta. generalize (match s with String c s' => if in_range 43 43 c then s' else s | _ => s end).
  intros [|c t]; [done|]. intros (m & Hm & H)%bind_Some.
  destruct (m <=? max) eqn:E; simplify_eq. split; [by eapply digits_value_nonneg, Hm|lia].
Qed.

Lemma load_keeps {A} (P : TokenizationConfig -> Prop) vars key (parse : string -> option A) ok set c :
  (forall c s x, P c -> parse s = Some x -> ok x c = true -> P (set x c)) -> P c ->
  P (load vars key parse ok set c).
Proof.
  intros Hs Hc. unfold load. destruct (vars key ≫= parse) as [x|] eqn:E; [|done].
  apply bind_Some in E as (s & _ & E). destruct (ok x c) eqn:Eo; [by eapply (Hs c)|done].
Qed.

(** What every configuration satisfies, whatever the environment. *)
Record valid_config (c : TokenizationConfig) : Prop := {
  range_ratio : f64_lt (f64_of_Z 0) (kwh_to_token_ratio c) = true;
  range_decimals : 0 <= decimals c <= 18;
  range_reading : f64_lt (f64_of_Z 0) (max_reading_kwh c) = true;
  range_age : 0 < reading_max_age_days c;
  range_polling : 10 <= polling_interval_secs c <= u64_max;
  range_batch : 1 <= batch_size c <= 1000;
  range_attempts : 0 <= max_retry_attempts c <= u32_max;
  range_initial : 1 <= initial_retry_delay_secs c <= u64_max;
  range_multiplier : f64_le (f64_of_Z 1) (retry_backoff_multiplier c) = true;
  range_max : 0 <= max_retry_delay_secs c <= u64_max;
  range_timeout : 10 <= transaction_timeout_secs c <= u64_max;
  range_transactions : 1 <= max_transactions_per_batch c <= u64_max;
  range_threshold : f64_le (f64_of_Z 0) (mint_threshold c) = true;
}.

Section environment.
Context `{FP : F64Parse}.
Context (vars : string -> option string).

Lemma load_all_range : valid_config (load_all vars).
Proof.
  unfold load_all. cbv zeta.
  repeat match goal with
  | |- valid_config (load _ _ _ _ _ _) =>
      apply load_keeps; [intros c s x [] Hp Ho;
        try (apply parse_unsigned_range in Hp); to_prop; constructor; simpl; try assumption; lia|]
  end.
  constructor; vm_compute; first [reflexivity|repeat split; discriminate].
Qed.

(** Loading the configuration can fail only in one way: an initial retry delay from the
    environment above the maximum.  Every other invalid value falls back to the default, and
    the configuration returned is in range, retry delays in order. *)
Theorem from_env_outcome :
  match from_env vars with
  | Ok c => c = load_all vars /\ valid_config c /\ initial_retry_delay_secs c <= max_retry_delay_secs c
  | Err m => m = "Max retry delay must be at least the initial retry delay"
      /\ max_retry_delay_secs (load_all vars) < initial_retry_delay_secs (load_all vars)
  end.
Proof.
  pose proof load_all_range as R. unfold from_env. cbv zeta.
  replace (polling_interval_secs _ <? 10) with false by (destruct R; lia).
  rewrite andb_false_r.
  replace (batch_size _ =? 0) with false by (destruct R; lia).
  replace (18 <? decimals _) with false by (destruct R; lia).
  destruct (_ <? _) eqn:E; to_prop; [by split|]. by split_and!.
Qed.
End environment.

Section tokens.
Context `{FP : F64Powi}.

Definition whole_kwh_ok (p : spec_float) (k : nat) : bool :=
  let x := f64_of_Z (Z.of_nat k) in
  let t := f64_mul (f64_mul x (f64_of_Z 1)) p in
  negb (f64_lt x (f64_of_Z 0)) && negb (f64_lt (f64_of_Z 100) x) && negb (f64_lt (f64_of_Z u64_max) t)
  && (as_unsigned u64_max t =? Z.of_nat k * 1000000000)
  && bool_decide (f64_div (f64_of_Z (Z.of_nat k * 1000000000)) (f64_mul (f64_of_Z 1) p) = x).

(** With the default configuration every whole number of kWh a reading may have converts to
    exactly 10^9 tokens per kWh, and the tokens convert back to the same energy. *)
Theorem tokens_roundtrip k : 0 <= k <= 100 ->
  kwh_to_tokens default_config (f64_of_Z k) = Ok (k * 1000000000)
  /\ tokens_to_kwh default_config (k * 1000000000) = f64_of_Z k.
Proof.
  intros Hk. assert (E : powi (f64_of_Z 10) 9 = f64_of_Z 1000000000) by (by rewrite powi_exact).
  assert (H : forallb (whole_kwh_ok (f64_of_Z 1000000000)) (seq 0 101) = true) by (by vm_compute).
  rewrite forallb_forall in H. specialize (H (Z.to_nat k) ltac:(apply in_seq; lia)).
  unfold whole_kwh_ok in H. rewrite Z2Nat.id in H by lia.
  repeat rewrite andb_true_iff in H. destruct H as [[[[H1 H2] H3] H4] H5].
  apply negb_true_iff in H1, H2, H3. apply Z.eqb_eq in H4. apply bool_decide_eq_true in H5.
  unfold kwh_to_tokens, tokens_to_kwh. cbn [max_reading_kwh kwh_to_token_ratio decimals default_config].
  rewrite E, H1, H2, H3, H4. by split.
Qed.
End tokens.

(** ** Witnesses *)

(** Repeated multiplication, on integers. *)
Definition demo_powi (b : spec_float) (n : Z) : spec_float := f64_of_Z (f64_trunc b ^ n).

Lemma demo_powi_exact b n : 0 < b -> 0 <= n -> b ^ n < 2 ^ 53 ->
  demo_powi (f64_of_Z b) n = f64_of_Z (b ^ n).
Proof.
  intros Hb Hn Hp. unfold demo_powi. destruct (decide (n = 0)) as [->|Hn0]; [by rewrite !Z.pow_0_r|].
  rewrite trunc_of_Z; [done|]. split; [lia|]. eapply Z.le_lt_trans; [|exact Hp].
  rewrite <- (Z.pow_1_r b) at 1. apply Z.pow_le_mono_r; lia.
Qed.

Definition demo_f64_powi : F64Powi := {| powi := demo_powi; powi_exact := demo_powi_exact |}.

Lemma tokens_roundtrip_witness :
  kwh_to_tokens (FP := demo_f64_powi) default_config (f64_of_Z 42) = Ok 42000000000.
Proof. exact (proj1 (tokens_roundtrip (FP := demo_f64_powi) 42 ltac:(lia))). Defined.

(** A configuration the environment spoils: an initial delay of two hours. *)
Example spoiled_environment : forall FP : F64Parse,
  from_env (FP := FP) (fun key =>
    if (key =? "TOKENIZATION_INITIAL_RETRY_DELAY_SECS")%string then Some "7200" else None)
  = Err "Max retry delay must be at least the initial retry delay".
Proof. reflexivity. Qed.
