(* ===== verification/Readings.v ===== *)
(** Meter readings: submission, the queue, processing, aggregation and minting.

    [src/handlers/auth/meters/reading.rs] (the endpoints and the task behind them),
    [src/services/reading_processor.rs] (the worker) and
    [src/services/validation/oracle_validator.rs].  The state is the tables of [Meters], the
    tables [meter_readings] and [meter_unminted_balances], the two Redis queues, the trading
    tables ([Schema.Db]) the automatic orders go to, and the totals of the dashboard.  A
    Redis command is a statement that may fail like any other.

    A request comes out of [serde_json], which yields finite numbers only.  Interfaces: the
    value a NUMERIC column holds of a number ([PgNumeric]), the conversions between [f64] and
    [Decimal] ([DecimalFloat]), and the clock of [tokio::time::timeout] ([Deadline]). *)
From S2P Require Import Prelude Numerics Floats Errors Store Schema Escrow Crypto OnChain Orders Settlement Text Validation Meters Telemetry Tokenization.
From stdpp Require Import pretty.
Open Scope string_scope.
Open Scope Z_scope.

(** The value a NUMERIC(p, s) column holds after a store, [None]: the server rejects it. *)
Class PgNumeric := {
  numeric_f64 : Z -> Z -> spec_float -> option Decimal;
  numeric_dec : Z -> Z -> Decimal -> option Decimal;
}.

(** [Decimal::to_f64] and [Decimal::from_f64_retain]. *)
Class DecimalFloat := {
  to_f64 : Decimal -> option spec_float;
  from_f64_retain : spec_float -> option Decimal;
}.

(** Whether a limit of so many seconds passed while a call was awaited, by what has been done
    until then. *)
Class Deadline := { elapsed : Z -> list Event -> bool }.

(** ** Tables *)

Record ReadingRow := {
  rd_id : Uuid;
  rd_serial : string;
  rd_meter_id : Uuid;
  rd_user_id : option Uuid;
  rd_wallet : string;
  rd_timestamp : DateTime;
  rd_kwh : option Decimal;
  rd_generated : option Decimal;
  rd_consumed : option Decimal;
  rd_surplus : option Decimal;
  rd_deficit : option Decimal;
  rd_voltage : option Decimal;
  rd_current_amps : option spec_float;
  rd_power_factor : option spec_float;
  rd_frequency : option spec_float;
  rd_temperature : option Decimal;
  rd_thd_voltage : option spec_float;
  rd_thd_current : option spec_float;
  rd_latitude : option spec_float;
  rd_longitude : option spec_float;
  rd_battery_level : option Decimal;
  rd_weather : option string;
  rd_health : option spec_float;
  rd_rec_eligible : bool;
  rd_carbon_offset : option spec_float;
  rd_max_sell_price : option spec_float;
  rd_max_buy_price : option spec_float;
  rd_signature : option string;
  rd_meter_type : option string;
  rd_minted : option bool;
  rd_mint_tx : option string;
}.

Record UnmintedBalance := { ub_kwh : Decimal; ub_last_mint : option DateTime }.

Record CreateReadingParams := { auto_mint : option bool; timeout_secs : option Z }.

Record ReadingTask := {
  t_serial : string;
  t_params : CreateReadingParams;
  t_request : CreateReadingRequest;
  t_retry_count : Z;
}.

(** Queues: the head is the end [LPUSH] adds to. *)
Record RdDb := {
  rd_meters : MeterDb;
  readings : gmap (Uuid * DateTime) ReadingRow;
  balances : gmap string UnmintedBalance;
  queue : list ReadingTask;
  dlq : list ReadingTask;
  market : Db;
  grid : GridStatus;
}.

Abbreviation RM := (M RdDb Event).

Definition set_readings (r : gmap (Uuid * DateTime) ReadingRow) (d : RdDb) : RdDb :=
  {| rd_meters := rd_meters d; readings := r; balances := balances d; queue := queue d;
     dlq := dlq d; market := market d; grid := grid d |}.
Definition set_balances (b : gmap string UnmintedBalance) (d : RdDb) : RdDb :=
  {| rd_meters := rd_meters d; readings := readings d; balances := b; queue := queue d;
     dlq := dlq d; market := market d; grid := grid d |}.
Definition set_queues (q l : list ReadingTask) (d : RdDb) : RdDb :=
  {| rd_meters := rd_meters d; readings := readings d; balances := balances d; queue := q;
     dlq := l; market := market d; grid := grid d |}.
(** The meters' view of [users] shows the wallets a statement on the market's view has rewritten. *)
Definition follow_wallet (old new : gmap Uuid User) (id : Uuid) (u : MeterUser) : MeterUser :=
  if decide (u_wallet_address <$> new !! id = u_wallet_address <$> old !! id) then u
  else {| mu_email := mu_email u; mu_username := mu_username u; mu_wallet := new !! id ≫= u_wallet_address;
          mu_email_verified := mu_email_verified u |}.
Definition follow_wallets (old new : Db) (m : MeterDb) : MeterDb :=
  {| md_users := map_imap (fun id u => Some (follow_wallet (users old) (users new) id u)) (md_users m);
     meters := meters m; registry := registry m; attempts := attempts m |}.
Definition set_market (m : Db) (d : RdDb) : RdDb :=
  {| rd_meters := follow_wallets (market d) m (rd_meters d); readings := readings d; balances := balances d; queue := queue d;
     dlq := dlq d; market := m; grid := grid d |}.
Definition set_grid (g : GridStatus) (d : RdDb) : RdDb :=
  {| rd_meters := rd_meters d; readings := readings d; balances := balances d; queue := queue d;
     dlq := dlq d; market := market d; grid := g |}.

(** [INSERT INTO meter_readings] of a row whose numbers fit: key, references, lengths. *)
Definition insert_reading (r : ReadingRow) (d : RdDb) : option RdDb :=
  match readings d !! (rd_id r, rd_timestamp r), registry (rd_meters d) !! rd_meter_id r with
  | None, Some _ =>
      if match rd_user_id r with Some u => bool_decide (is_Some (md_users (rd_meters d) !! u)) | None => true end
         && varchar 50 (Some (rd_serial r)) && varchar 88 (Some (rd_wallet r))
         && varchar 50 (rd_weather r) && varchar 50 (rd_meter_type r) && varchar 88 (rd_mint_tx r)
      then Some (set_readings (<[(rd_id r, rd_timestamp r) := r]> (readings d)) d)
      else None
  | _, _ => None
  end.

Section statements.
Context `{PN : PgNumeric}.

(** An optional number in a nullable NUMERIC(p, s) column. *)
Definition nullable {A} (store : Z -> Z -> A -> option Decimal) (p s : Z) (x : option A)
    : option (option Decimal) :=
  match x with Some x => Some <$> store p s x | None => Some None end.

(** The upsert of the aggregation, with the total it returns. *)
Definition add_unminted (serial : string) (kwh : spec_float) (d : RdDb) : option (Decimal * RdDb) :=
  x ← numeric_f64 15 6 kwh;
  let '(total, last) := match balances d !! serial with
    | Some b => (ub_kwh b + x, ub_last_mint b)
    | None => (x, None)
    end in
  if varchar 100 (Some serial) && (Z.abs total <? 10 ^ 9 * U)
  then Some (total, set_balances (<[serial := {| ub_kwh := total; ub_last_mint := last |}]> (balances d)) d)
  else None.

Definition reset_unminted (serial : string) (now : DateTime) (d : RdDb) : RdDb :=
  match balances d !! serial with
  | Some _ => set_balances (<[serial := {| ub_kwh := 0; ub_last_mint := Some now |}]> (balances d)) d
  | None => d
  end.
End statements.

(** ** Validation *)

Record ValidationConfig := {
  max_kwh_per_reading : spec_float;
  allow_negative_generation : bool;
}.

Definition default_validation : ValidationConfig :=
  {| max_kwh_per_reading := f64 1000; allow_negative_generation := false |}.

Definition positive (x : spec_float) : bool := f64_lt (f64 0) x.
Definition negative (x : spec_float) : bool := f64_lt x (f64 0).

Definition validate_reading `{FT : FloatText} (meter_serial : string) (r : CreateReadingRequest)
    (config : ValidationConfig) : res string unit :=
  if f64_lt (max_kwh_per_reading config) (r_kwh r) then
    Err ("Reading for " ++ meter_serial ++ " exceeds sanity threshold: " ++ f64_display (r_kwh r)
         ++ " kWh > " ++ f64_display (max_kwh_per_reading config) ++ " kWh")
  else if negb (allow_negative_generation config) && negative (r_kwh r) then
    Err ("Negative energy generation detected for " ++ meter_serial ++ ": "
         ++ f64_display (r_kwh r) ++ " kWh")
  else
    match r_surplus_energy r, r_deficit_energy r with
    | Some surplus, Some deficit =>
        if positive surplus && positive deficit
        then Err ("Inconsistent telemetry for " ++ meter_serial ++ ": simultaneous surplus and deficit")
        else Ok tt
    | _, _ => Ok tt
    end.

Definition check_monotonicity (current previous : Decimal) : res string unit :=
  if current <? previous
  then Err "Counter reset detected or invalid decrement in cumulative reading" else Ok tt.

(** ** Submission *)

Record CreateReadingResponse := {
  cr_id : Uuid;
  cr_serial : string;
  cr_kwh : spec_float;
  cr_timestamp : DateTime;
  cr_minted : bool;
  cr_tx : option string;
  cr_message : string;
}.

Record BatchReadingResponse := { br_success : Z; br_failed : Z; br_message : string }.

(** [LPUSH] and [BRPOP]. *)
Definition push_reading (t : ReadingTask) (d : RdDb) : option RdDb :=
  Some (set_queues (t :: queue d) (dlq d) d).
Definition push_to_dlq (t : ReadingTask) (d : RdDb) : option RdDb :=
  Some (set_queues (queue d) (t :: dlq d) d).
Definition pop_reading (d : RdDb) : option (option ReadingTask * RdDb) :=
  Some match list.last (queue d) with
  | Some t => (Some t, set_queues (removelast (queue d)) (dlq d) d)
  | None => (None, d)
  end.

Section submission.
Context `{FT : FloatText} (redis_error_text : string).

Definition internal_create_reading (reading_id : Uuid) (now : DateTime) (serial : string)
    (params : CreateReadingParams) (request : CreateReadingRequest) : RM CreateReadingResponse :=
  let answer message :=
    {| cr_id := reading_id; cr_serial := serial; cr_kwh := r_kwh request;
       cr_timestamp := default now (r_timestamp request); cr_minted := false; cr_tx := None;
       cr_message := message |} in
  match validate_reading serial request default_validation with
  | Err e => mret (answer ("Oracle Validation Failed: " ++ e))
  | Ok _ =>
      let task := {| t_serial := serial; t_params := params; t_request := request;
                     t_retry_count := 0 |} in
      queued ← attempt (exec (push_reading task));
      mret (answer match queued with
                   | Ok _ => "Reading queued for processing"
                   | Err _ => "Failed to queue reading: Redis LPUSH failed: " ++ redis_error_text
                   end)
  end.

Definition create_reading := internal_create_reading.

(** The futures of a batch, in the order [join_all] first polls them; [ids] are their fresh
    identifiers. *)
Fixpoint batch_results (ids : nat -> Uuid) (now : DateTime) (n : nat)
    (readings : list CreateReadingRequest) : RM (list bool) :=
  match readings with
  | [] => mret []
  | r :: rest =>
      ok ← match match r_meter_serial r with Some s => Some s | None => r_meter_id r end with
           | Some serial =>
               internal_create_reading (ids n) now serial
                 {| auto_mint := Some true; timeout_secs := Some 30 |} r ;;
               mret true
           | None => mret false
           end;
      oks ← batch_results ids now (S n) rest;
      mret (ok :: oks)
  end.

Definition create_batch_readings (ids : nat -> Uuid) (now : DateTime)
    (requests : list CreateReadingRequest) : RM BatchReadingResponse :=
  results ← batch_results ids now 0 requests;
  let success := Z.of_nat (length (List.filter id results)) in
  let failed := Z.of_nat (length (List.filter negb results)) in
  mret {| br_success := success; br_failed := failed;
          br_message := "Processed " ++ pretty (success + failed) ++ " readings ("
                        ++ pretty failed ++ " failed)" |}.
End submission.

(** ** Processing *)

(** Meter, owner, wallet and zone: [meter_registry] joined with [users]. *)
Definition meter_info (serial : string) (d : RdDb) : option (Uuid * Uuid * option string * option Z) :=
  m ← registry_of serial (rd_meters d);
  u ← md_users (rd_meters d) !! rg_user_id m;
  Some (rg_id m, rg_user_id m, mu_wallet u, rg_zone_id m).

Section processing.
Context `{NUM : Numerics} `{CAL : Calendar} `{CH : Chain} `{ENV : Env} `{CIPHER : Cipher} `{B64 : Base64}
        `{KP : Keypairs} `{TC : TokenChain}.
Context `{FT : FloatText} `{PN : PgNumeric} `{DF : DecimalFloat} `{DL : Deadline}.
Context (orders_config : OrderConfig) (config : TokenizationConfig) (energy_mint : string).

Definition resolve_meter_context (serial : string) (request_wallet : option string)
    : RM (Uuid * Uuid * string * option Z) :=
  info ← map_err (fun e => FMsg ("Database lookup error: " ++ failure_text e))
           (query (meter_info serial));
  match info with
  | Some (mid, uid, Some w, zid) => mret (mid, uid, w, zid)
  | Some (mid, uid, None, zid) =>
      w ← expect (FMsg "Wallet address required (not found on user profile)") request_wallet;
      mret (mid, uid, w, zid)
  | None => fail (FMsg "Meter not found")
  end.

Definition late (secs : Z) : RM bool := fun w => (Ok (elapsed secs (trace w)), w).

(** One awaited call inside [tokio::time::timeout]: [None] when the limit has passed
    meanwhile, whatever became of the call. *)
Definition timed (secs : Z) (c : ChainCall) (context : string)
    (next : string -> RM (option (res string string))) : RM (option (res string string)) :=
  r ← attempt (chain_call c);
  over ← late secs;
  if over : bool then mret None
  else
    match r with
    | Err e => mret (Some (Err (context ++ ": " ++ failure_text e)))
    | Ok s => next s
    end.

Definition mint_call (wallet : string) (kwh : spec_float) : ChainCall * string :=
  if enable_real_blockchain config then (MintEnergyTokens wallet energy_mint kwh, "Anchor Mint error")
  else (MintSplTokens wallet energy_mint kwh, "CLI Mint error").

Definition process_minting (secs : Z) (wallet : string) (kwh : spec_float)
    : RM (bool * option string * string) :=
  let invalid what := mret (Some (Err what)) in
  outcome ← timed secs GetAuthority "Authority keypair error" (fun _ =>
    if negb (parse_pubkey energy_mint) then invalid "Invalid token mint"
    else if negb (parse_pubkey wallet) then invalid "Invalid wallet address"
    else timed secs (EnsureTokenAccount wallet energy_mint) "Token account error" (fun _ =>
      let '(call, context) := mint_call wallet kwh in
      timed secs call context (fun sig => mret (Some (Ok sig)))));
  mret match outcome with
  | Some (Ok sig) => (true, Some sig, f64_display kwh ++ " kWh minted successfully")
  | Some (Err e) => (false, None, "Reading recorded but minting failed: " ++ e)
  | None => (false, None, "Reading recorded but minting timed out after " ++ pretty secs ++ "s")
  end.

(** Step 2: whether tokens were minted, and the transaction. *)
Definition aggregate (now : DateTime) (serial wallet : string) (secs : Z) (kwh : spec_float)
    : RM (bool * option string) :=
  added ← attempt (exec_ret (add_unminted serial kwh));
  match added with
  | Ok total =>
      let current_total := default (f64 0) (to_f64 total) in
      if f64_le (mint_threshold config) current_total then
        minted ← process_minting secs wallet current_total;
        let '(m, sig, _) := minted in
        if m : bool then
          ignore (exec (fun d => Some (reset_unminted serial now d))) ;; mret (true, sig)
        else mret (false, None)
      else mret (false, None)
  | Err _ => mret (false, None)
  end.

Definition surplus_of (r : CreateReadingRequest) : spec_float :=
  default (if positive (r_kwh r) then r_kwh r else f64 0) (r_surplus_energy r).
Definition deficit_of (r : CreateReadingRequest) : spec_float :=
  default (if negative (r_kwh r) then f64_abs (r_kwh r) else f64 0) (r_deficit_energy r).

(** The bound row of [persist_reading_to_db]. *)
Definition reading_row (id : Uuid) (serial : string) (meter_id user_id : Uuid) (wallet : string)
    (timestamp : DateTime) (r : CreateReadingRequest) (minted : bool) (tx : option string)
    (health : spec_float) : option ReadingRow :=
  let '(def_gen, def_cons) :=
    if positive (r_kwh r) then (r_kwh r, f64 0) else (f64 0, f64_abs (r_kwh r)) in
  kwh ← nullable numeric_f64 12 4 (Some (r_kwh r));
  gen ← nullable numeric_f64 12 4 (Some (default def_gen (r_energy_generated r)));
  used ← nullable numeric_f64 12 4 (Some (default def_cons (r_energy_consumed r)));
  surplus ← nullable numeric_f64 12 4 (Some (surplus_of r));
  deficit ← nullable numeric_f64 12 4 (Some (deficit_of r));
  volt ← nullable numeric_f64 8 2 (r_voltage r);
  temp ← nullable numeric_f64 5 2 (r_temperature r);
  battery ← nullable numeric_f64 5 2 (r_battery_level r);
  Some {| rd_id := id; rd_serial := serial; rd_meter_id := meter_id; rd_user_id := Some user_id;
          rd_wallet := wallet; rd_timestamp := timestamp; rd_kwh := kwh; rd_generated := gen;
          rd_consumed := used; rd_surplus := surplus; rd_deficit := deficit;
          rd_voltage := volt; rd_current_amps := r_current r;
          rd_power_factor := r_power_factor r; rd_frequency := r_frequency r;
          rd_temperature := temp; rd_thd_voltage := r_thd_voltage r;
          rd_thd_current := r_thd_current r; rd_latitude := r_latitude r;
          rd_longitude := r_longitude r; rd_battery_level := battery;
          rd_weather := r_weather_condition r; rd_health := Some health;
          rd_rec_eligible := default false (r_rec_eligible r);
          rd_carbon_offset := r_carbon_offset r; rd_max_sell_price := r_max_sell_price r;
          rd_max_buy_price := r_max_buy_price r; rd_signature := r_meter_signature r;
          rd_meter_type := r_meter_type r; rd_minted := Some minted; rd_mint_tx := tx |}.

(** ** After a reading is stored *)

Definition power_value (r : CreateReadingRequest) : option spec_float :=
  match r_power r with
  | Some p => Some p
  | None =>
      match r_power_generated r, r_power_consumed r with
      | Some gen, Some used => Some (f64_sub gen used)
      | _, _ =>
          v ← r_voltage r; i ← r_current r;
          Some (f64_div (f64_mul (f64_mul v i) (default (f64 1) (r_power_factor r))) (f64 1000))
      end
  end.

Definition report_of (serial : string) (zone_id : option Z) (r : CreateReadingRequest) : Report :=
  let power_val := default (f64 0) (power_value r) in
  {| p_kwh := r_kwh r; p_serial := serial; p_zone_id := zone_id;
     p_power_gen := default (if positive (r_kwh r) then power_val else f64 0) (r_power_generated r);
     p_power_cons := default (if negative (r_kwh r) then f64_abs power_val else f64 0) (r_power_consumed r) |}.

(** [dashboard_service.handle_meter_reading(..).await], which cannot fail. *)
Definition update_dashboard (now : DateTime) (p : Report) : RM unit := fun w =>
  let g := handle_meter_reading now p (grid (st w)) in
  emit (grid_status_event g) (set_st (set_grid g (st w)) w).

(** The order a surplus or a deficit is offered with, if a price for it is known. *)
Definition auto_order (user_id meter_id : Uuid) (side : OrderSide) (energy : spec_float)
    (price : option spec_float) : option OrderRequest :=
  let amount := default 0 (from_f64_retain energy) in
  let price := (fun p => default 0 (from_f64_retain p)) <$> price in
  match price with
  | Some p =>
      if (0 <? amount) && (0 <? p) then
        Some {| q_user_id := user_id; q_side := side; q_order_type := Limit;
                q_energy_amount := amount; q_price_per_kwh := Some p; q_expiry_time := None;
                q_zone_id := None; q_meter_id := Some meter_id; q_session_token := None |}
      else None
  | None => None
  end.

(** What the task draws: the identifier of the reading and, for each order, its own, that of an
    epoch it may have to make, and the wallet its owner may be given. *)
Record FreshIds := {
  f_reading : Uuid;
  f_sell : Uuid;
  f_sell_epoch : Uuid;
  f_sell_wallet : NewWallet;
  f_buy : Uuid;
  f_buy_epoch : Uuid;
  f_buy_wallet : NewWallet;
}.

(** [market_clearing.create_order(..)] whose outcome is only logged. *)
Definition place (now : DateTime) (order_id epoch_id : Uuid) (wal : NewWallet) (q : option OrderRequest)
    : RM unit :=
  match q with
  | Some q => fun w =>
      ignore (zoom market set_market (create_order orders_config q order_id epoch_id now
        (fun mid => registry (rd_meters (st w)) !! mid ≫= rg_type) wal)) w
  | None => mret ()
  end.

Definition trigger_post_processing (ids : FreshIds) (now : DateTime) (serial : string)
    (meter_id user_id : Uuid) (wallet : string) (r : CreateReadingRequest) : RM unit :=
  emit (EvMeterReading user_id wallet serial (r_kwh r) (power_value r) (r_voltage r) (r_current r)) ;;
  spawn (
    place now (f_sell ids) (f_sell_epoch ids) (f_sell_wallet ids)
      (auto_order user_id meter_id Sell (surplus_of r) (r_max_sell_price r)) ;;
    place now (f_buy ids) (f_buy_epoch ids) (f_buy_wallet ids)
      (auto_order user_id meter_id Buy (deficit_of r) (r_max_buy_price r))).

Definition broadcast_alerts (alerts : list MeterAlert) : RM unit :=
  for_each (fun a => emit (EvMeterAlert (a_meter_id a) (a_alert_type a) (a_value a) (a_threshold a))) alerts.

Definition process_reading_task (ids : FreshIds) (now : DateTime) (task : ReadingTask) : RM unit :=
  let serial := t_serial task in
  let r := t_request task in
  let mint := default true (auto_mint (t_params task)) in
  let secs := default 30 (timeout_secs (t_params task)) in
  match validate_reading serial r default_validation with
  | Err e => fail (FMsg ("Oracle Validation Failed: " ++ e))
  | Ok _ =>
      ctx ← resolve_meter_context serial (r_wallet_address r);
      let '(meter_id, user_id, wallet, zone_id) := ctx in
      minting ← (if mint && positive (r_kwh r) then aggregate now serial wallet secs (r_kwh r)
                 else mret (false, None));
      let '(minted, tx) := minting in
      broadcast_alerts (check_alerts now serial r) ;;
      let row := reading_row (f_reading ids) serial meter_id user_id wallet
                   (default now (r_timestamp r)) r minted tx (calculate_health_score r) in
      map_err (fun e => FMsg ("Database error: " ++ failure_text e))
        (exec (fun d => row ≫= fun x => insert_reading x d)) ;;
      update_dashboard now (report_of serial zone_id r) ;;
      trigger_post_processing ids now serial meter_id user_id wallet r
  end.

(** ** The worker *)

Definition requeue (task : ReadingTask) : RM unit :=
  let task := {| t_serial := t_serial task; t_params := t_params task; t_request := t_request task;
                 t_retry_count := wrap_u32 (t_retry_count task + 1) |} in
  if t_retry_count task <? 3 then ignore (exec (push_reading task))
  else ignore (exec (push_to_dlq task)).

(** One turn of the worker's loop. *)
Definition worker_turn (worker_id : Z) (ids : FreshIds) (now : DateTime) : RM unit :=
  (if worker_id =? 0 then ignore (query (fun d => length (queue d))) else mret ()) ;;
  popped ← attempt (exec_ret pop_reading);
  match popped with
  | Ok (Some task) =>
      done ← attempt (process_reading_task ids now task);
      match done with
      | Ok _ => mret ()
      | Err _ => requeue task
      end
  | _ => mret ()
  end.
End processing.

(** ** Lemmas: minting *)

(** The energy of the mint calls the chain has accepted. *)
Definition mint_amount (e : Event) : option spec_float :=
  match e with
  | EvChain (MintEnergyTokens _ _ k) true | EvChain (MintSplTokens _ _ k) true => Some k
  | _ => None
  end.
Definition minted_in (evs : list Event) : list spec_float := omap mint_amount evs.

Section minting.
Context `{NUM : Numerics} `{CH : Chain} `{ENV : Env} `{FT : FloatText} `{PN : PgNumeric}.
Context `{DF : DecimalFloat} `{DL : Deadline}.
Context (config : TokenizationConfig) (energy_mint : string).

Lemma timed_run secs c context next (w : world RdDb Event) :
  exists ok, let w1 := World (st w) (faults w) (trace w ++ [EvChain c ok])%list in
    (elapsed secs (trace w1) = true /\ timed secs c context next w = (Ok None, w1))
    \/ ok = false /\ (exists e, timed secs c context next w = (Ok (Some (Err e)), w1))
    \/ ok = true /\ elapsed secs (trace w1) = false
       /\ (exists s, timed secs c context next w = next s w1).
Proof.
  unfold timed, attempt, chain_call, late, mbind, M_bind.
  destruct (chain_answer (trace w) c) as [s|e]; simpl.
  - exists true. destruct (elapsed secs _) eqn:El; [by left|right; right; eauto].
  - exists false. destruct (elapsed secs _) eqn:El; [by left|right; left]. by split; [|eexists].
Qed.

(** A mint touches no table and makes at most one mint call, for the whole amount; when it
    reports failure, the call was not accepted or the time was over. *)
Lemma process_minting_run secs wallet kwh (w : world RdDb Event) :
  exists m tx msg calls,
    process_minting config energy_mint secs wallet kwh w
      = (Ok (m, tx, msg), World (st w) (faults w) (trace w ++ calls)%list)
    /\ m = bool_decide (is_Some tx)
    /\ (if m : bool then minted_in calls = [kwh]
        else minted_in calls = []
             \/ minted_in calls = [kwh] /\ elapsed secs (trace w ++ calls)%list = true).
Proof.
  unfold process_minting. cbv zeta.
  set (k1 := fun _ : string => _). set (fin := fun outcome : option (res string string) => _).
  assert (G : exists out calls, timed secs GetAuthority "Authority keypair error" k1 w
      = (Ok out, World (st w) (faults w) (trace w ++ calls)%list)
    /\ match out with
       | Some (Ok _) => minted_in calls = [kwh]
       | Some (Err _) => minted_in calls = []
       | None => minted_in calls = [] \/ minted_in calls = [kwh] /\ elapsed secs (trace w ++ calls)%list = true
       end).
  { destruct (timed_run secs GetAuthority "Authority keypair error" k1 w)
      as (ok & [[El ->]|[[-> [e ->]]|[-> [_ [s ->]]]]]); simpl;
      [by eexists _, _; split; [reflexivity|left]|by eexists _, _|].
    set (w1 := World _ _ _). unfold k1.
    destruct (negb (parse_pubkey energy_mint)); [by eexists _, _|].
    destruct (negb (parse_pubkey wallet)); [by eexists _, _|].
    set (k2 := fun _ : string => _).
    destruct (timed_run secs (EnsureTokenAccount wallet energy_mint) "Token account error" k2 w1)
      as (ok & [[El ->]|[[-> [e ->]]|[-> [_ [s' ->]]]]]); simpl; rewrite <- ?app_assoc;
      [by eexists _, _; split; [reflexivity|left]|by eexists _, _|].
    unfold k2, mint_call. destruct (enable_real_blockchain config); simpl;
      (match goal with |- context [timed ?s ?c ?t ?k ?w2] =>
        destruct (timed_run s c t k w2)
          as (ok & [[El ->]|[[-> [e ->]]|[-> [_ [s'' ->]]]]]) end; simpl in *;
      rewrite <- ?app_assoc in *; simpl in *;
      [eexists _, _; split; [reflexivity|]; destruct ok; [right; by split|by left]
      |by eexists _, _|by eexists _, _]). }
  destruct G as (out & calls & E & H). rewrite (bind_run _ _ _ _ _ E). unfold fin, mret, M_ret.
  destruct out as [[sig|e]|].
  - exists true, (Some sig). eexists _, calls. by split_and!.
  - exists false, None. eexists _, calls. split_and!; [done..|by left].
  - exists false, None. eexists _, calls. by split_and!.
Qed.

(** Every run of the aggregation. *)
Lemma aggregate_run now serial wallet secs kwh (w : world RdDb Event) :
  exists m tx w' calls,
    aggregate config energy_mint now serial wallet secs kwh w = (Ok (m, tx), w')
    /\ trace w' = (trace w ++ calls)%list /\ m = bool_decide (is_Some tx)
    /\ ( (st w' = st w /\ calls = [] /\ m = false
          /\ (faults w = [] -> add_unminted serial kwh (st w) = None))
      \/ exists total d1, add_unminted serial kwh (st w) = Some (total, d1)
         /\ let amount := default (f64 0) (to_f64 total) in
            (m = false /\ st w' = d1
             /\ (minted_in calls = [] \/ minted_in calls = [amount] /\ elapsed secs (trace w') = true))
            \/ (m = true /\ minted_in calls = [amount]
                /\ (st w' = reset_unminted serial now d1 \/ st w' = d1 /\ faults w <> [])) ).
Proof.
  unfold aggregate.
  destruct (attempt_exec_ret (add_unminted serial kwh) w) as (r & w1 & E & Ht & Hf & H).
  rewrite (bind_run _ _ w _ _ E).
  destruct H as [(-> & Hs & Hn)|(total & d1 & -> & Ha & Hs)].
  { exists false, None, w1, []. rewrite app_nil_r. split_and!; [done..|]. left. split_and!; try done.
    intros H. apply Hn. by rewrite H. }
  set (amount := default (f64 0) (to_f64 total)). cbv zeta.
  destruct (f64_le (mint_threshold config) amount).
  2: { exists false, None, w1, []. rewrite app_nil_r. split_and!; [done..|]. right.
       exists total, d1. split; [done|]. left. split_and!; [done..|by left]. }
  destruct (process_minting_run secs wallet amount w1) as (m & tx & msg & calls & Em & Hm & Hc).
  rewrite (bind_run _ _ w1 _ _ Em). destruct m.
  - unfold ignore, attempt, mbind, M_bind, exec, pop_fault, mret, M_ret. simpl.
    destruct (faults w1) as [|[] f] eqn:Ef; simpl.
    all: eexists true, tx, _, calls; split; [reflexivity|]; simpl; rewrite Ht.
    all: split_and!; [done..|]; right; exists total, d1; split; [done|]; right.
    all: split_and!; [done..|].
    + left. by rewrite Hs.
    + right. split; [by simpl|]. intros Hn. by rewrite Hn in Hf.
    + left. by rewrite Hs.
  - exists false, None. eexists _, calls. split; [reflexivity|]. simpl. rewrite Ht in *.
    split_and!; [done..|]. right. exists total, d1. split; [done|]. left. by split_and!.
Qed.

(** C30: the books of the aggregation.  A reading is either not counted at all, or it is added
    to the balance of its meter once.  Tokens are minted for the whole balance or not at all;
    the balance is cleared exactly after a mint, unless that last statement fails, and a mint
    is not noticed exactly when it was accepted after the time limit. *)
Theorem aggregate_accounts now serial wallet secs kwh (w : world RdDb Event) :
  exists m tx w' calls,
    aggregate config energy_mint now serial wallet secs kwh w = (Ok (m, tx), w')
    /\ trace w' = (trace w ++ calls)%list /\ m = bool_decide (is_Some tx)
    /\ ( (st w' = st w /\ calls = [] /\ m = false
          /\ (faults w = [] -> add_unminted serial kwh (st w) = None))
      \/ exists total d1, add_unminted serial kwh (st w) = Some (total, d1)
         /\ let amount := default (f64 0) (to_f64 total) in
            (m = false /\ st w' = d1
             /\ (minted_in calls = [] \/ minted_in calls = [amount] /\ elapsed secs (trace w') = true))
            \/ (m = true /\ minted_in calls = [amount]
                /\ (st w' = reset_unminted serial now d1 \/ st w' = d1 /\ faults w <> [])) ).
Proof. apply aggregate_run. Qed.
End minting.

(** ** Lemmas: what processing leaves alone *)

(** The parts of the state that only the queue and the registration of meters touch. *)
Definition frame (d0 d : RdDb) : Prop :=
  rd_meters d = rd_meters d0 /\ queue d = queue d0 /\ dlq d = dlq d0.
(** Meters, and users up to their wallets. *)
Definition no_wallet (u : MeterUser) : MeterUser :=
  {| mu_email := mu_email u; mu_username := mu_username u; mu_wallet := None;
     mu_email_verified := mu_email_verified u |}.
Definition but_wallets (m : MeterDb) : MeterDb :=
  {| md_users := no_wallet <$> md_users m; meters := meters m; registry := registry m;
     attempts := attempts m |}.

Lemma follow_but_wallets old new m : but_wallets (follow_wallets old new m) = but_wallets m.
Proof.
  unfold but_wallets. f_equal. apply map_eq. intros i. simpl. rewrite !lookup_fmap, map_lookup_imap.
  destruct (md_users m !! i) as [u|]; [|done]. simpl. f_equal. unfold follow_wallet. by case_decide.
Qed.

(** What the steps after the row is stored keep: placing an order may give a user a wallet. *)
Definition row_kept (d0 d : RdDb) : Prop :=
  (but_wallets (rd_meters d) = but_wallets (rd_meters d0) /\ queue d = queue d0 /\ dlq d = dlq d0)
  /\ readings d = readings d0 /\ balances d = balances d0.

Section processing_lemmas.
Context `{NUM : Numerics} `{CAL : Calendar} `{CH : Chain} `{ENV : Env} `{CIPHER : Cipher} `{B64 : Base64}
        `{KP : Keypairs} `{TC : TokenChain}.
Context `{FT : FloatText} `{PN : PgNumeric} `{DF : DecimalFloat} `{DL : Deadline}.
Context (orders_config : OrderConfig) (config : TokenizationConfig) (energy_mint : string).

Lemma zoom_market_kept {A} d0 (m : M Db Event A) : preserves (row_kept d0) (zoom market set_market m).
Proof.
  apply preserves_zoom with (J := fun _ => True); [by intros w _|done|].
  intros x d [(H1 & H2 & H3) [H4 H5]] _. split_and!; [|done..]. rewrite <- H1. apply follow_but_wallets.
Qed.

Lemma place_kept d0 now o e wal q : preserves (row_kept d0) (place orders_config now o e wal q).
Proof.
  destruct q as [q|]; [|apply preserves_ret]. intros w Hw. unfold place.
  by apply (preserves_ignore _ _ (zoom_market_kept d0 _)).
Qed.

Lemma trigger_kept d0 ids now serial mid uid wallet r :
  preserves (row_kept d0) (trigger_post_processing orders_config ids now serial mid uid wallet r).
Proof.
  unfold trigger_post_processing. apply preserves_bind; [apply preserves_emit|]. intros _.
  apply preserves_spawn, preserves_bind; [|intros _]; apply place_kept.
Qed.

Lemma dashboard_kept d0 now p : preserves (row_kept d0) (update_dashboard now p).
Proof. intros w Hw. exact Hw. Qed.

Lemma total_dashboard now p : Store.total (update_dashboard now p).
Proof. intros w. by eexists _, _. Qed.

Lemma total_trigger ids now serial mid uid wallet r :
  Store.total (trigger_post_processing orders_config ids now serial mid uid wallet r).
Proof. unfold trigger_post_processing. apply total_bind; [apply total_emit|intros; apply total_spawn]. Qed.

Lemma total_broadcast alerts : Store.total (broadcast_alerts alerts).
Proof.
  induction alerts as [|a alerts IH]; [apply total_ret|].
  apply total_bind; [apply total_emit|intros; exact IH].
Qed.

Lemma broadcast_preserves (I : RdDb -> Prop) alerts : preserves I (broadcast_alerts alerts).
Proof. apply preserves_for_each. intros a. apply preserves_emit. Qed.

(** How the balance and the transaction of a reading come about. *)
Definition counted (mint : bool) (now : DateTime) (serial : string) (kwh : spec_float)
    (d0 : RdDb) (tx : option string) (d : RdDb) : Prop :=
  (d = d0 /\ tx = None)
  \/ mint = true /\ positive kwh = true /\ exists total d1,
       add_unminted serial kwh d0 = Some (total, d1)
       /\ match tx with
          | None => d = d1
          | Some _ => d = d1 \/ d = reset_unminted serial now d1
          end.

Lemma add_unminted_frame serial kwh d total d1 : add_unminted serial kwh d = Some (total, d1) ->
  frame d d1 /\ readings d1 = readings d.
Proof.
  unfold add_unminted. intros (x & _ & H)%bind_Some.
  destruct (balances d !! serial); case_match; by simplify_eq.
Qed.

Lemma counted_frame mint now serial kwh d0 tx d : counted mint now serial kwh d0 tx d ->
  frame d0 d /\ readings d = readings d0.
Proof.
  intros [[-> _]|(_ & _ & total & d1 & [Hf Hr]%add_unminted_frame & Hd)]; [done|].
  assert (Hreset : frame d1 (reset_unminted serial now d1) /\ readings (reset_unminted serial now d1) = readings d1)
    by (unfold reset_unminted; by destruct (balances d1 !! serial)).
  destruct Hreset as [(H1 & H2 & H3) H4], Hf as (H5 & H6 & H7).
  destruct tx as [tx|]; [destruct Hd as [->| ->]|subst d]; unfold frame; split_and!; congruence.
Qed.

Lemma hoare_aggregate now serial wallet secs kwh d0 : positive kwh = true ->
  hoare (fun d => d = d0) (aggregate config energy_mint now serial wallet secs kwh)
    (fun r d => r.1 = bool_decide (is_Some r.2) /\ counted true now serial kwh d0 r.2 d)
    (fun _ _ => False).
Proof.
  intros Hp w Hw. rewrite <- Hw.
  destruct (aggregate_run config energy_mint now serial wallet secs kwh w)
    as (m & tx & w' & calls & -> & _ & -> & H). split; [done|].
  destruct H as [(Hs & _ & Hn & _)|(total & d1 & Ha & [(Hm & Hs & _)|(Hm & _ & Hs)])]; simpl in *.
  - left. split; [done|]. by destruct tx.
  - right. split_and!; [done..|]. exists total, d1. split; [done|]. by destruct tx.
  - right. split_and!; [done..|]. exists total, d1. split; [done|].
    destruct tx; [|done]. destruct Hs as [?|[? _]]; auto.
Qed.

(** The context [resolve_meter_context] finds. *)
Definition resolved (serial : string) (request_wallet : option string) (d : RdDb)
    (c : Uuid * Uuid * string * option Z) : Prop :=
  let '(mid, uid, wallet, zid) := c in
  exists known, meter_info serial d = Some (mid, uid, known, zid)
    /\ (known = Some wallet \/ known = None /\ request_wallet = Some wallet).

Lemma hoare_resolve serial request_wallet d0 :
  hoare (fun d => d = d0) (resolve_meter_context serial request_wallet)
    (fun c d => resolved serial request_wallet d0 c /\ d = d0) (fun e d => d = d0 /\ e <> FPanic).
Proof.
  unfold resolve_meter_context.
  eapply hoare_bind with (R := fun info d => d = d0 /\ info = meter_info serial d0).
  - intros w Hw. unfold map_err, query. pose proof (pop_fault_st w) as Hst.
    destruct (pop_fault w) as [[] w1]; simpl in *; by rewrite Hst, Hw.
  - intros [[[[mid uid] [k|]] zid]|].
    + apply hoare_ret. intros d [-> H]. split; [|done]. exists (Some k). auto.
    + eapply hoare_bind with (R := fun k d => d = d0 /\ request_wallet = Some k
        /\ meter_info serial d0 = Some (mid, uid, None, zid)).
      * apply hoare_expect. intros d [-> H]. by destruct request_wallet.
      * intros k. apply hoare_ret. intros d (-> & H1 & H2). split; [|done]. exists None. auto.
    + intros w [Hw _]. by split.
Qed.

Definition mints (task : ReadingTask) : bool := default true (auto_mint (t_params task)).

(** What processing a task leaves when it succeeds, and when it fails. *)
Definition stored (ids : FreshIds) (now : DateTime) (task : ReadingTask) (d0 d : RdDb) : Prop :=
  let serial := t_serial task in let r := t_request task in
  validate_reading serial r default_validation = Ok tt
  /\ exists mid uid wallet zid tx d1 row d2,
    resolved serial (r_wallet_address r) d0 (mid, uid, wallet, zid)
    /\ counted (mints task) now serial (r_kwh r) d0 tx d1
    /\ reading_row (f_reading ids) serial mid uid wallet (default now (r_timestamp r)) r
         (bool_decide (is_Some tx)) tx (calculate_health_score r) = Some row
    /\ insert_reading row d1 = Some d2 /\ row_kept d2 d.

Definition not_stored (now : DateTime) (task : ReadingTask) (d0 d : RdDb) : Prop :=
  frame d0 d /\ readings d = readings d0
  /\ exists tx d1, counted (mints task) now (t_serial task) (r_kwh (t_request task)) d0 tx d1
     /\ balances d = balances d1.

Lemma not_stored_refl now task d : not_stored now task d d.
Proof. split_and!; [done..|]. exists None, d. split; [by left|done]. Qed.

Lemma hoare_task ids now task d0 :
  hoare (fun d => d = d0) (process_reading_task orders_config config energy_mint ids now task)
    (fun _ d => stored ids now task d0 d) (fun e d => e <> FPanic /\ not_stored now task d0 d).
Proof.
  unfold process_reading_task. cbv zeta. fold (mints task).
  destruct (validate_reading _ _ _) as [[]|e] eqn:Ev.
  2: { intros w Hw. split; [done|]. rewrite Hw. apply not_stored_refl. }
  set (serial := t_serial task) in *. set (r := t_request task) in *.
  eapply hoare_bind with (R := fun c d => resolved serial (r_wallet_address r) d0 c /\ d = d0).
  { eapply hoare_conseq; [apply (hoare_resolve _ _ d0)|done|done|]. intros e d [-> He].
    split; [exact He|apply not_stored_refl]. }
  intros [[[mid uid] wallet] zid]. apply hoare_pure. intros Hres.
  eapply hoare_bind with (R := fun m d => m.1 = bool_decide (is_Some m.2)
      /\ counted (mints task) now serial (r_kwh r) d0 m.2 d).
  { destruct (mints task) eqn:Em; simpl; [destruct (positive (r_kwh r)) eqn:Ep; simpl|].
    - eapply hoare_conseq; [by apply (hoare_aggregate now serial wallet _ _ d0)|done|done|by intros e d []].
    - apply hoare_ret. intros d ->. split; [done|by left].
    - apply hoare_ret. intros d ->. split; [done|by left]. }
  intros [m tx]. simpl. apply hoare_pure. intros ->.
  eapply hoare_bind; [apply hoare_total; [apply broadcast_preserves|apply total_broadcast]|]. intros [].
  eapply hoare_bind with (R := fun _ d => exists d1 row,
    counted (mints task) now serial (r_kwh r) d0 tx d1
    /\ reading_row (f_reading ids) serial mid uid wallet (default now (r_timestamp r)) r
         (bool_decide (is_Some tx)) tx (calculate_health_score r) = Some row
    /\ insert_reading row d1 = Some d).
  { eapply hoare_map_err_as with (E' := fun e d => e = FDb
      /\ counted (mints task) now serial (r_kwh r) d0 tx d).
    - apply hoare_exec. intros d Hd. split; [done|]. intros d' (row & Hr & Hi)%bind_Some.
      by exists d, row.
    - intros e d _ [_ Hc]. split; [done|]. destruct (counted_frame _ _ _ _ _ _ _ Hc) as [Hf Hr].
      split_and!; [exact Hf|exact Hr|]. by exists tx, d.
    - by intros d [? _]. }
  intros []. intros w (d1 & row & Hc & Hrow & Hi).
  assert (H : hoare (row_kept (st w))
    (update_dashboard now (report_of serial zid r) ;;
     trigger_post_processing orders_config ids now serial mid uid wallet r)
    (fun _ => row_kept (st w)) (fun _ _ => False)).
  { eapply hoare_bind; [apply hoare_total; [apply dashboard_kept|apply total_dashboard]|].
    intros []. apply hoare_total; [apply trigger_kept|apply total_trigger]. }
  specialize (H w ltac:(done)).
  match type of H with context [?m w] => destruct (m w) as [[[]|e] w'] end; [|done].
  split; [done|]. exists mid, uid, wallet, zid, tx, d1, row, (st w). split_and!; done.
Qed.

(** *** The worker *)

Lemma no_panic_task ids now task :
  no_panic (process_reading_task orders_config config energy_mint ids now task).
Proof.
  intros w. pose proof (hoare_task ids now task (st w) w eq_refl) as H.
  destruct (process_reading_task _ _ _ _ _ _ w) as [[[]|e] w']; simpl; [done|].
  intros [= ->]. by destruct H as [H _].
Qed.

Definition bump (t : ReadingTask) : ReadingTask :=
  {| t_serial := t_serial t; t_params := t_params t; t_request := t_request t;
     t_retry_count := wrap_u32 (t_retry_count t + 1) |}.

(** What a turn whose [BRPOP] succeeds does. *)
Inductive turn (ids : FreshIds) (now : DateTime) (d0 : RdDb) : RdDb -> Prop :=
| turn_idle : queue d0 = [] -> turn ids now d0 d0
| turn_stored q t d : queue d0 = (q ++ [t])%list ->
    stored ids now t (set_queues q (dlq d0) d0) d -> turn ids now d0 d
| turn_retried q t d d' : queue d0 = (q ++ [t])%list ->
    not_stored now t (set_queues q (dlq d0) d0) d -> t_retry_count (bump t) < 3 ->
    d' = set_queues (bump t :: queue d) (dlq d) d \/ d' = d -> turn ids now d0 d'
| turn_dead q t d d' : queue d0 = (q ++ [t])%list ->
    not_stored now t (set_queues q (dlq d0) d0) d -> 3 <= t_retry_count (bump t) ->
    d' = set_queues (queue d) (bump t :: dlq d) d \/ d' = d -> turn ids now d0 d'.

Lemma pop_reading_spec d : match pop_reading d with
  | Some (Some t, d') => exists q, queue d = (q ++ [t])%list /\ d' = set_queues q (dlq d) d
  | Some (None, d') => queue d = [] /\ d' = d
  | None => False
  end.
Proof.
  unfold pop_reading. induction (queue d) as [|t q _] using rev_ind; [done|].
  rewrite last_snoc, removelast_last. by exists q.
Qed.

(** The turn after the task was popped. *)
Lemma handle_task ids now q t d0 (w : world RdDb Event) : queue d0 = (q ++ [t])%list ->
  st w = set_queues q (dlq d0) d0 ->
  exists w', (outcome ← attempt (process_reading_task orders_config config energy_mint ids now t);
              match outcome with Ok _ => mret () | Err _ => requeue t end) w = (Ok tt, w')
    /\ turn ids now d0 (st w').
Proof.
  intros Hq Hw. pose proof (hoare_task ids now t (st w) w eq_refl) as H.
  destruct (process_reading_task _ _ _ _ _ _ w) as [[[]|e] w'] eqn:E.
  - rewrite (bind_run _ _ w _ _ (attempt_run _ w _ _ E ltac:(done))). exists w'. split; [done|].
    eapply turn_stored; [exact Hq|by rewrite <- Hw].
  - destruct H as [He H]. rewrite Hw in H.
    rewrite (bind_run _ _ w _ _ (attempt_run _ w _ _ E ltac:(congruence))). unfold requeue. fold (bump t).
    destruct (t_retry_count (bump t) <? 3) eqn:Er; to_prop.
    all: unfold ignore, attempt, exec, pop_fault, mbind, M_bind, mret, M_ret.
    all: destruct (faults w') as [|[] f]; simpl; eexists; (split; [reflexivity|]); simpl.
    all: first [by eapply turn_retried; eauto|by eapply turn_dead; eauto].
Qed.

Lemma worker_turn_spec worker ids now (w : world RdDb Event) :
  exists w', worker_turn orders_config config energy_mint worker ids now w = (Ok tt, w')
    /\ (st w' = st w \/ turn ids now (st w) (st w'))
    /\ (worker <> 0 -> hd false (faults w) = false -> turn ids now (st w) (st w')).
Proof.
  unfold worker_turn.
  assert (G : exists w0, (if worker =? 0 then ignore (query (fun d => length (queue d))) else mret ()) w = (Ok tt, w0)
    /\ st w0 = st w /\ (worker <> 0 -> w0 = w)).
  { destruct (worker =? 0) eqn:Ew; to_prop; [|by exists w].
    unfold ignore, attempt, query, pop_fault, mbind, M_bind, mret, M_ret.
    destruct (faults w) as [|[] f]; by eexists. }
  destruct G as (w0 & E0 & Hs & Hw). rewrite (bind_run _ _ w _ _ E0).
  pose proof (pop_reading_spec (st w)) as Hp.
  destruct (attempt_exec_ret pop_reading w0) as (r & w1 & E1 & _ & _ & H).
  rewrite (bind_run _ _ w0 _ _ E1). rewrite Hs in H.
  destruct H as [(-> & H1 & H2)|(popped & d & -> & H1 & H2)].
  - exists w1. split; [done|]. split; [left; congruence|]. intros Hne Hf.
    rewrite (Hw Hne) in H2. by rewrite (H2 Hf) in Hp.
  - rewrite H1 in Hp. destruct popped as [t|].
    + destruct Hp as (q & Hq & ->).
      destruct (handle_task ids now q t (st w) w1 Hq H2) as (w' & -> & Ht).
      exists w'. split_and!; [done|by right|done].
    + destruct Hp as [Hq ->]. exists w1. split; [done|].
      split; [by left|]. intros _ _. rewrite H2. by apply turn_idle.
Qed.

(** *** Draining the queue *)

Definition fresh (t : ReadingTask) : Prop := 0 <= t_retry_count t < 3.

(** The turns the queue can still take. *)
Definition remaining_turns (q : list ReadingTask) : nat :=
  sum_list_with (fun t => Z.to_nat (3 - t_retry_count t)) q.

Lemma remaining_cons t q :
  remaining_turns (t :: q) = (Z.to_nat (3 - t_retry_count t) + remaining_turns q)%nat.
Proof. reflexivity. Qed.

Lemma remaining_snoc q t :
  remaining_turns (q ++ [t]) = (remaining_turns q + Z.to_nat (3 - t_retry_count t))%nat.
Proof. unfold remaining_turns. rewrite sum_list_with_app. cbn [sum_list_with]. lia. Qed.

Lemma bump_count t : fresh t -> t_retry_count (bump t) = t_retry_count t + 1.
Proof. unfold fresh, bump. simpl. intros H. apply wrap_u32_id. unfold u32_max. lia. Qed.

Lemma turn_queue ids now d0 d : turn ids now d0 d -> Forall fresh (queue d0) ->
  Forall fresh (queue d)
  /\ (queue d0 = [] /\ queue d = [] \/ (remaining_turns (queue d) < remaining_turns (queue d0))%nat)
  /\ (Forall (fun t => t_retry_count t = 3) (dlq d0) -> Forall (fun t => t_retry_count t = 3) (dlq d)).
Proof.
  intros H Hf. destruct H as [Hq|q t d Hq Hs|q t d d' Hq Hn Hr Hd|q t d d' Hq Hn Hr Hd].
  { split_and!; [done|by left|done]. }
  all: rewrite Hq in Hf |- *; apply list.Forall_app in Hf as [Hf [Ht _]%list.Forall_cons];
    pose proof (bump_count t Ht) as Hb; unfold fresh in Ht; rewrite remaining_snoc.
  - destruct Hs as (_ & mid & uid & wallet & zid & tx & d1 & row & d2 & _ & Hc & _ & Hi & Hs & _).
    apply counted_frame in Hc as [(_ & H1 & H2) _]. destruct Hs as (_ & H3 & H4).
    assert (queue d2 = queue d1 /\ dlq d2 = dlq d1) as [H5 H6]
      by (unfold insert_reading in Hi; repeat case_match; by simplify_eq).
    assert (Eq : queue d = q) by (rewrite H3, H5, H1; done).
    assert (El : dlq d = dlq d0) by (rewrite H4, H6, H2; done).
    rewrite Eq, El. split_and!; [done|right; lia|done].
  - destruct Hn as ((_ & H1 & H2) & _). simpl in H1, H2.
    assert (G : queue d' = bump t :: q \/ queue d' = q) by (destruct Hd as [->| ->]; simpl; rewrite H1; auto).
    assert (El : dlq d' = dlq d0) by (destruct Hd as [->| ->]; simpl; by rewrite H2).
    rewrite El. split_and!; [| |done].
    + destruct G as [->| ->]; [|done]. constructor; [unfold fresh; lia|done].
    + right. destruct G as [->| ->]; [rewrite remaining_cons|]; lia.
  - destruct Hn as ((_ & H1 & H2) & _). simpl in H1, H2.
    assert (Eq : queue d' = q) by (destruct Hd as [->| ->]; simpl; by rewrite H1).
    assert (G : dlq d' = bump t :: dlq d0 \/ dlq d' = dlq d0) by (destruct Hd as [->| ->]; simpl; rewrite H2; auto).
    rewrite Eq. split_and!; [done|right; lia|].
    intros Hl. destruct G as [->| ->]; [|done]. constructor; [lia|done].
Qed.

(** Turns of a worker, each with a failure schedule of its own. *)
Record Turn := { tu_ids : FreshIds; tu_now : DateTime; tu_faults : list bool }.

Definition take_turn (worker : Z) (w : world RdDb Event) (t : Turn) : world RdDb Event :=
  snd (worker_turn orders_config config energy_mint worker (tu_ids t) (tu_now t)
         (World (st w) (tu_faults t) (trace w))).

(** The turns whose [BRPOP], the first statement of a worker other than number 0, succeeds. *)
Definition pops (t : Turn) : bool := negb (hd false (tu_faults t)).

(** A worker empties the queue.  Every task leaves it after at most three turns, whatever
    else fails in between: stored, or in the dead-letter queue with three failures, or lost
    by a failing Redis command. *)
Theorem queue_drains worker turns w : worker <> 0 -> Forall fresh (queue (st w)) ->
  (remaining_turns (queue (st w)) <= length (List.filter pops turns))%nat ->
  Forall (fun t => t_retry_count t = 3) (dlq (st w)) ->
  let w' := fold_left (take_turn worker) turns w in
  queue (st w') = [] /\ Forall (fun t => t_retry_count t = 3) (dlq (st w')).
Proof.
  intros Hw. cbv zeta. revert w. induction turns as [|t turns IH]; intros w Hf Hm Hl; simpl in *.
  { split; [|done]. destruct (queue (st w)) as [|task q]; [done|].
    apply list.Forall_cons in Hf as [Ht _]. rewrite remaining_cons in Hm. unfold fresh in Ht. lia. }
  destruct (worker_turn_spec worker (tu_ids t) (tu_now t) (World (st w) (tu_faults t) (trace w)))
    as (w' & E & H1 & H2).
  assert (Et : take_turn worker w t = w') by (unfold take_turn; by rewrite E).
  rewrite Et. unfold pops in Hm at 1. simpl in *.
  destruct (hd false (tu_faults t)); simpl in Hm.
  - destruct H1 as [Hs|Ht]; [apply IH; rewrite Hs; done|].
    destruct (turn_queue _ _ _ _ Ht Hf) as (G1 & G2 & G3). apply IH; [done| |by auto].
    destruct G2 as [[_ ->]|G2]; [simpl; lia|lia].
  - destruct (turn_queue _ _ _ _ (H2 Hw eq_refl) Hf) as (G1 & G2 & G3). apply IH; [done| |by auto].
    destruct G2 as [[_ ->]|G2]; [simpl; lia|lia].
Qed.

(** What becomes of a task.  It succeeds exactly when its row is stored, with the mint it
    caused; when it fails no row is stored, but the energy may have been counted or minted.
    A task the validation refuses changes nothing. *)
Theorem task_outcome ids now task w :
  let '(r, w') := process_reading_task orders_config config energy_mint ids now task w in
  match r with
  | Ok _ => stored ids now task (st w) (st w')
  | Err e => e <> FPanic /\ not_stored now task (st w) (st w')
  end
  /\ (validate_reading (t_serial task) (t_request task) default_validation <> Ok tt ->
        is_ok r = false /\ w' = w).
Proof.
  pose proof (hoare_task ids now task (st w) w eq_refl) as H.
  destruct (process_reading_task _ _ _ _ _ _ w) as [r w'] eqn:E. split; [by destruct r|].
  intros Hv. unfold process_reading_task in E. cbv zeta in E.
  destruct (validate_reading _ _ _) as [[]|e]; [done|]. unfold fail in E. by simplify_eq.
Qed.

(** *** A reading the table refuses *)

Definition unminted (serial : string) (d : RdDb) : Decimal :=
  match balances d !! serial with Some b => ub_kwh b | None => 0 end.

(** The database lets the reading be counted, below the threshold, and refuses its row. *)
Record refused (x : Decimal) (b : Decimal) (task : ReadingTask) : Prop := {
  ref_valid : validate_reading (t_serial task) (t_request task) default_validation = Ok tt;
  ref_mint : mints task && positive (r_kwh (t_request task)) = true;
  ref_number : numeric_f64 15 6 (r_kwh (t_request task)) = Some x;
  ref_serial : varchar 100 (Some (t_serial task)) = true;
  ref_fits : Z.abs (b + x) < 10 ^ 9 * U;
  ref_below : f64_le (mint_threshold config) (default (f64 0) (to_f64 (b + x))) = false;
  ref_row : varchar 50 (r_weather_condition (t_request task)) = false;
}.

Lemma add_unminted_refused x task d : refused x (unminted (t_serial task) d) task ->
  exists d1, add_unminted (t_serial task) (r_kwh (t_request task)) d
      = Some (unminted (t_serial task) d + x, d1)
    /\ unminted (t_serial task) d1 = unminted (t_serial task) d + x.
Proof.
  intros [_ _ Hn Hv Hf _ _]. unfold add_unminted, unminted in *. rewrite Hn. simpl.
  apply Z.ltb_lt in Hf. unfold varchar in Hv. simpl in Hv.
  destruct (balances d !! t_serial task) as [b|]; rewrite ?Z.add_0_l in *; simpl in *;
    rewrite Hv, Hf; simpl;
    eexists; (split; [reflexivity|]); simpl; by rewrite lookup_insert_eq.
Qed.

Lemma broadcast_run alerts (w : world RdDb Event) : exists tr,
  broadcast_alerts alerts w = (Ok tt, World (st w) (faults w) tr).
Proof.
  revert w. induction alerts as [|a alerts IH]; intros w; [exists (trace w); by destruct w|].
  destruct (IH (World (st w) (faults w)
    (trace w ++ [EvMeterAlert (a_meter_id a) (a_alert_type a) (a_value a) (a_threshold a)])%list))
    as [tr H]. exists tr. exact H.
Qed.

Lemma resolve_run serial request_wallet (w : world RdDb Event) mid uid wallet zid : faults w = [] ->
  meter_info serial (st w) = Some (mid, uid, Some wallet, zid) ->
  resolve_meter_context serial request_wallet w = (Ok (mid, uid, wallet, zid), w).
Proof.
  intros Hf Hi. unfold resolve_meter_context, map_err, mbind, M_bind.
  by rewrite query_calm, Hi by done.
Qed.

Lemma aggregate_below now serial wallet secs kwh (w : world RdDb Event) total d1 : faults w = [] ->
  add_unminted serial kwh (st w) = Some (total, d1) ->
  f64_le (mint_threshold config) (default (f64 0) (to_f64 total)) = false ->
  aggregate config energy_mint now serial wallet secs kwh w = (Ok (false, None), set_st d1 w).
Proof.
  intros Hf Ha Hb. unfold aggregate.
  assert (E : exec_ret (add_unminted serial kwh) w = (Ok total, set_st d1 w))
    by (by rewrite exec_ret_calm, Ha by done).
  by rewrite (bind_run _ _ w _ _ (attempt_run _ w _ _ E ltac:(done))), Hb.
Qed.

(** Processing such a task counts it and fails. *)
Lemma refused_task ids now task x (w : world RdDb Event) mid uid wallet zid : faults w = [] ->
  refused x (unminted (t_serial task) (st w)) task ->
  meter_info (t_serial task) (st w) = Some (mid, uid, Some wallet, zid) ->
  exists e d1 tr, process_reading_task orders_config config energy_mint ids now task w
      = (Err (FMsg e), World d1 [] tr)
    /\ unminted (t_serial task) d1 = unminted (t_serial task) (st w) + x
    /\ frame (st w) d1 /\ readings d1 = readings (st w).
Proof.
  intros Hf Hr Hi. destruct (add_unminted_refused x task (st w) Hr) as (d1 & Ha & Hu).
  destruct (add_unminted_frame _ _ _ _ _ Ha) as [Hframe Hread]. destruct Hr.
  unfold process_reading_task. cbv zeta. rewrite ref_valid0. fold (mints task). rewrite ref_mint0.
  rewrite (bind_run _ _ w _ _ (resolve_run _ _ w _ _ _ _ Hf Hi)).
  rewrite (bind_run _ _ w _ _ (aggregate_below _ _ _ _ _ w _ _ Hf Ha ref_below0)).
  destruct (broadcast_run (check_alerts now (t_serial task) (t_request task)) (set_st d1 w)) as [tr E].
  rewrite (bind_run _ _ _ _ _ E). simpl. rewrite Hf. clear E.
  set (row := reading_row _ _ _ _ _ _ _ _ _ _).
  assert (Hrow : (row ≫= fun y => insert_reading y d1) = None).
  { destruct row as [y|] eqn:Er; [|done]. simpl.
    assert (Hy : rd_weather y = r_weather_condition (t_request task)).
    { unfold row, reading_row in Er. destruct (positive _); repeat (apply bind_Some in Er as (? & _ & Er)); by simplify_eq. }
    unfold insert_reading. destruct (readings d1 !! _); [done|].
    destruct (registry (rd_meters d1) !! _); [|done]. by rewrite Hy, ref_row0, andb_false_r. }
  set (w1 := World d1 [] tr).
  assert (Ex : exec (fun d => row ≫= fun y => insert_reading y d) w1 = (Err FDb, w1))
    by (rewrite exec_calm by done; simpl; by rewrite Hrow).
  eexists _, d1, tr. split; [|done]. apply bind_run_Err. unfold map_err. by rewrite Ex.
Qed.

(** One turn of a worker over such a task at the head of the queue. *)
Lemma refused_turn worker ids now task x (w : world RdDb Event) mid uid wallet zid q :
  worker <> 0 -> faults w = [] -> queue (st w) = (q ++ [task])%list ->
  refused x (unminted (t_serial task) (st w)) task ->
  meter_info (t_serial task) (st w) = Some (mid, uid, Some wallet, zid) ->
  exists w', worker_turn orders_config config energy_mint worker ids now w = (Ok tt, w')
    /\ faults w' = []
    /\ (if t_retry_count (bump task) <? 3
        then queue (st w') = bump task :: q /\ dlq (st w') = dlq (st w)
        else queue (st w') = q /\ dlq (st w') = bump task :: dlq (st w))
    /\ unminted (t_serial task) (st w') = unminted (t_serial task) (st w) + x
    /\ readings (st w') = readings (st w) /\ rd_meters (st w') = rd_meters (st w).
Proof.
  intros Hw Hf Hq Hr Hi. unfold worker_turn. rewrite (proj2 (Z.eqb_neq _ _) Hw).
  assert (Hpop : exec_ret pop_reading w = (Ok (Some task), set_st (set_queues q (dlq (st w)) (st w)) w)).
  { rewrite exec_ret_calm by done. unfold pop_reading. by rewrite Hq, last_snoc, removelast_last. }
  change ((mret () : RM unit) w) with (Ok (), w).
  rewrite (bind_run (mret ()) _ w () w eq_refl).
  rewrite (bind_run _ _ w _ _ (attempt_run _ w _ _ Hpop ltac:(done))).
  destruct (refused_task ids now task x (set_st (set_queues q (dlq (st w)) (st w)) w) mid uid wallet zid
    Hf Hr Hi) as (e & d1 & tr & E & Hu & (Hm & Hq1 & Hl) & Hrd). simpl in Hm, Hq1, Hl, Hrd.
  rewrite (bind_run _ _ _ _ _ (attempt_run _ _ _ _ E ltac:(done))).
  unfold requeue. fold (bump task). destruct (t_retry_count (bump task) <? 3);
    (eexists; split; [reflexivity|]); simpl; rewrite Hq1, Hl; by split_and!.
Qed.

(** A reading that is counted but whose row the table refuses is counted three times: each
    of the three attempts adds it to the balance of unminted energy, and none stores it. *)
Theorem refused_reading_counted_thrice worker t1 t2 t3 task x w mid uid wallet zid :
  worker <> 0 -> faults w = [] -> tu_faults t1 = [] -> tu_faults t2 = [] -> tu_faults t3 = [] ->
  queue (st w) = [task] -> t_retry_count task = 0 ->
  meter_info (t_serial task) (st w) = Some (mid, uid, Some wallet, zid) ->
  let b := unminted (t_serial task) (st w) in
  refused x b task -> refused x (b + x) task -> refused x (b + x + x) task ->
  let w' := fold_left (take_turn worker) [t1; t2; t3] w in
  queue (st w') = [] /\ dlq (st w') = bump (bump (bump task)) :: dlq (st w)
  /\ readings (st w') = readings (st w)
  /\ unminted (t_serial task) (st w') = b + 3 * x.
Proof.
  intros Hw Hf F1 F2 F3 Hq H0 Hi b R1 R2 R3. cbv zeta. simpl.
  assert (Step : forall t task' (w0 : world RdDb Event) q, tu_faults t = [] ->
    queue (st w0) = (q ++ [task'])%list -> t_serial task' = t_serial task ->
    refused x (unminted (t_serial task') (st w0)) task' ->
    rd_meters (st w0) = rd_meters (st w) ->
    exists w1, take_turn worker w0 t = w1
      /\ (if t_retry_count (bump task') <? 3
          then queue (st w1) = bump task' :: q /\ dlq (st w1) = dlq (st w0)
          else queue (st w1) = q /\ dlq (st w1) = bump task' :: dlq (st w0))
      /\ unminted (t_serial task) (st w1) = unminted (t_serial task) (st w0) + x
      /\ readings (st w1) = readings (st w0) /\ rd_meters (st w1) = rd_meters (st w)).
  { intros t task' w0 q Ft Hq0 Hs R Hm.
    assert (Hi0 : meter_info (t_serial task') (st w0) = Some (mid, uid, Some wallet, zid))
      by (unfold meter_info in *; by rewrite Hm, Hs).
    destruct (refused_turn worker (tu_ids t) (tu_now t) task' x (World (st w0) (tu_faults t) (trace w0))
      mid uid wallet zid q Hw Ft Hq0 R Hi0) as (w1 & E & _ & H1 & H2 & H3 & H4).
    cbn [st] in *. rewrite Hs in H2. exists w1. unfold take_turn. rewrite E.
    split; [done|]. split; [exact H1|]. split; [exact H2|]. split; [exact H3|congruence]. }
  destruct (Step t1 task w [] F1 Hq eq_refl R1 eq_refl) as (w1 & -> & Q1 & U1 & L1 & M1).
  assert (B1 : t_retry_count (bump task) = 1) by (simpl; by rewrite H0).
  rewrite B1 in Q1. destruct Q1 as [Q1 D1].
  assert (R2' : refused x (unminted (t_serial task) (st w1)) (bump task))
    by (rewrite U1; destruct R2; by constructor).
  destruct (Step t2 (bump task) w1 [] F2 Q1 eq_refl R2' M1) as (w2 & -> & Q2 & U2 & L2 & M2).
  assert (B2 : t_retry_count (bump (bump task)) = 2) by (simpl; by rewrite H0).
  rewrite B2 in Q2. destruct Q2 as [Q2 D2].
  assert (R3' : refused x (unminted (t_serial task) (st w2)) (bump (bump task)))
    by (rewrite U2, U1; destruct R3; by constructor).
  destruct (Step t3 (bump (bump task)) w2 [] F3 Q2 eq_refl R3' M2) as (w3 & -> & Q3 & U3 & L3 & _).
  assert (B3 : t_retry_count (bump (bump (bump task))) = 3) by (simpl; by rewrite H0).
  rewrite B3 in Q3. destruct Q3 as [Q3 D3].
  split_and!; [done|congruence|congruence|]. rewrite U3, U2, U1. unfold b. lia.
Qed.

(** *** The orders a reading places *)

(** An automatic order: nothing when no price is known, else what a request does: no account, order
    or escrow record changes, or the order is placed as a whole, or (the lookup of the meter having
    failed) nothing is placed but the user may have been given a wallet. *)
Definition placed (q : option OrderRequest) (id : Uuid) (now : DateTime) (m m' : Db) : Prop :=
  match q with
  | None => m' = m
  | Some q => same_money m m'
      \/ (exists linked, order_placed orders_config linked q id now m m')
      \/ order_absent q m m'
  end.

Lemma placed_skip q id now m : placed q id now m m.
Proof. destruct q; [by left|done]. Qed.

Lemma place_market now o e wal q (w : world RdDb Event) :
  placed q o now (market (st w)) (market (st (snd (place orders_config now o e wal q w)))).
Proof.
  destruct q as [q|]; [|done]. unfold place. set (mt := fun mid => _).
  unfold ignore, attempt, zoom, mbind, M_bind.
  destruct (create_order orders_config q o e now mt wal _) as [r w'] eqn:E.
  apply create_order_cases in E as [_ E].
  assert (G : placed (Some q) o now (market (st w)) (st w')).
  { destruct E as [[_ E]|(_ & _ & [E|[_ E]])]; [by left|right; left; eauto|by right; right]. }
  by destruct r as [a|[]].
Qed.

Lemma counted_market mint now serial kwh d0 tx d : counted mint now serial kwh d0 tx d ->
  market d = market d0.
Proof.
  intros [[-> _]|(_ & _ & total & d1 & Ha & Hd)]; [done|].
  assert (H1 : market d1 = market d0).
  { unfold add_unminted in Ha. apply bind_Some in Ha as (x & _ & Ha).
    destruct (balances d0 !! serial), (_ && _) in Ha; simplify_eq; done. }
  assert (H2 : market (reset_unminted serial now d1) = market d1)
    by (unfold reset_unminted; by destruct (balances d1 !! serial)).
  destruct tx as [tx|]; [destruct Hd as [->| ->]|subst d]; congruence.
Qed.

(** A reading that is stored places at most two orders: a sell order of its surplus and a
    buy order of its deficit, each for the owner of the meter, at the price the reading names
    and without a zone, and each with exactly the effect of a request.  A reading that is not
    stored places none. *)
Theorem task_orders ids now task w :
  let '(r, w') := process_reading_task orders_config config energy_mint ids now task w in
  let q := t_request task in
  match r with
  | Err _ => market (st w') = market (st w)
  | Ok _ => exists mid uid wallet zid m,
      resolved (t_serial task) (r_wallet_address q) (st w) (mid, uid, wallet, zid)
      /\ placed (auto_order uid mid Sell (surplus_of q) (r_max_sell_price q)) (f_sell ids) now
           (market (st w)) m
      /\ placed (auto_order uid mid Buy (deficit_of q) (r_max_buy_price q)) (f_buy ids) now
           m (market (st w'))
  end.
Proof.
  set (d0 := st w). enough (H : hoare (fun d => d = d0)
    (process_reading_task orders_config config energy_mint ids now task)
    (fun _ d => exists mid uid wallet zid m,
      resolved (t_serial task) (r_wallet_address (t_request task)) d0 (mid, uid, wallet, zid)
      /\ placed (auto_order uid mid Sell (surplus_of (t_request task)) (r_max_sell_price (t_request task)))
           (f_sell ids) now (market d0) m
      /\ placed (auto_order uid mid Buy (deficit_of (t_request task)) (r_max_buy_price (t_request task)))
           (f_buy ids) now m (market d))
    (fun _ d => market d = market d0)).
  { specialize (H w eq_refl). by destruct (process_reading_task _ _ _ _ _ _ w) as [[[]|e] w']. }
  unfold process_reading_task. cbv zeta.
  destruct (validate_reading _ _ _) as [[]|e]; [|intros v Hv; simpl; congruence].
  set (r := t_request task).
  eapply hoare_bind with (R := fun c d => resolved (t_serial task) (r_wallet_address r) d0 c /\ d = d0).
  { eapply hoare_conseq; [apply (hoare_resolve _ _ d0)|done|done|]. by intros e d [-> _]. }
  intros [[[mid uid] wallet] zid]. apply hoare_pure. intros Hres.
  eapply hoare_bind with (R := fun _ d => market d = market d0).
  { destruct (_ && positive (r_kwh r)) eqn:Ep; [|by apply hoare_ret; intros d ->].
    to_prop. eapply hoare_conseq; [by apply (hoare_aggregate now (t_serial task) wallet _ _ d0)|done| |by intros e d []].
    intros m d [_ Hc]. by apply counted_market in Hc. }
  intros [m tx].
  eapply hoare_bind; [apply hoare_total; [apply broadcast_preserves|apply total_broadcast]|]. intros [].
  eapply hoare_bind with (R := fun _ d => market d = market d0).
  { apply hoare_map_err, hoare_exec. intros d Hd. split; [done|].
    intros d' (row & _ & Hi)%bind_Some. unfold insert_reading in Hi. repeat case_match; by simplify_eq. }
  intros []. eapply hoare_bind with (R := fun _ d => market d = market d0); [by intros v Hv|].
  intros [] v Hv. unfold trigger_post_processing. rewrite (bind_run (emit _) _ v () _ eq_refl).
  unfold spawn. set (sell := auto_order uid mid Sell _ _). set (buy := auto_order uid mid Buy _ _).
  match goal with |- context [(place _ _ _ _ _ sell ≫= _) ?v1] => set (w1 := v1) end.
  pose proof (place_market now (f_sell ids) (f_sell_epoch ids) (f_sell_wallet ids) sell w1) as Hs.
  unfold mbind, M_bind. destruct (place _ _ _ _ _ sell w1) as [[[]|e] w2]; simpl in *.
  - pose proof (place_market now (f_buy ids) (f_buy_epoch ids) (f_buy_wallet ids) buy w2) as Hb.
    exists mid, uid, wallet, zid, (market (st w2)). rewrite Hv in Hs. by split_and!.
  - exists mid, uid, wallet, zid, (market (st w2)). rewrite Hv in Hs.
    split_and!; [done|done|apply placed_skip].
Qed.
End processing_lemmas.

(** ** Witnesses *)

(** Numbers truncated to the scale of the column. *)
Definition demo_numeric (p s : Z) (x : spec_float) : option Decimal :=
  match x with
  | S754_zero _ => Some 0
  | S754_finite sign m e =>
      let v := if 0 <=? e then Z.pos m * 2 ^ e * 10 ^ s else Z.pos m * 10 ^ s / 2 ^ (- e) in
      if v <? 10 ^ p then Some (SpecFloat.cond_Zopp sign v * 10 ^ (28 - s)) else None
  | _ => None
  end.

Definition demo_pg : PgNumeric :=
  {| numeric_f64 := demo_numeric;
     numeric_dec p s z := let v := Z.quot z (10 ^ (28 - s)) in
       if Z.abs v <? 10 ^ p then Some (v * 10 ^ (28 - s)) else None |}.
Definition demo_decimal_float : DecimalFloat :=
  {| to_f64 z := Some (f64_div (f64_of_Z z) (f64_of_Z U));
     from_f64_retain x := demo_numeric 28 8 x |}.
Definition no_deadline : Deadline := {| elapsed _ _ := false |}.
Definition demo_float_text : FloatText :=
  {| f64_display _ := "x"; f64_fixed _ _ := "x" |}.

Section witnesses.
#[local] Existing Instance std_numerics.
#[local] Existing Instance demo_calendar.
#[local] Existing Instance demo_chain.
#[local] Existing Instance demo_cipher.
#[local] Existing Instance demo_base64.
#[local] Existing Instance plain_tokens.
#[local] Existing Instance demo_env.
#[local] Existing Instance demo_pg.
#[local] Existing Instance demo_decimal_float.
#[local] Existing Instance no_deadline.
#[local] Existing Instance demo_float_text.

Definition demo_meter_db : MeterDb :=
  {| md_users := {[1%N := demo_owner "wallet"]}; meters := ∅;
     registry := {[20%N := {| rg_id := 20; rg_serial := "M-1"; rg_key_hash := ""; rg_method := "auto";
       rg_status := "verified"; rg_user_id := 1; rg_manufacturer := None; rg_type := Some "solar";
       rg_location := None; rg_proof := None; rg_verified_at := None; rg_zone_id := Some 3;
       rg_created_at := 0 |}]};
     attempts := [] |}.

Definition demo_reading (kwh : Z) (weather : option string) : CreateReadingRequest :=
  {| r_kwh := f64 kwh; r_timestamp := Some 5; r_wallet_address := None; r_meter_id := None;
     r_meter_serial := Some "M-1"; r_meter_type := None; r_energy_generated := None;
     r_energy_consumed := None; r_surplus_energy := None; r_deficit_energy := None;
     r_voltage := None; r_current := None; r_power := None; r_power_generated := None;
     r_power_consumed := None; r_power_factor := None; r_frequency := None; r_temperature := None;
     r_thd_voltage := None; r_thd_current := None; r_latitude := None; r_longitude := None;
     r_battery_level := None; r_weather_condition := weather; r_zone_id := None;
     r_rec_eligible := None; r_carbon_offset := None; r_max_sell_price := None;
     r_max_buy_price := None; r_meter_signature := None |}.

Definition demo_task (kwh : Z) (weather : option string) : ReadingTask :=
  {| t_serial := "M-1"; t_params := {| auto_mint := None; timeout_secs := None |};
     t_request := demo_reading kwh weather; t_retry_count := 0 |}.

(** A description of the weather that does not fit its column. *)
Definition long_weather : string := "partly cloudy with a light breeze from the south-west".

Definition reading_world (tasks : list ReadingTask) : world RdDb Event :=
  World {| rd_meters := demo_meter_db; readings := ∅; balances := ∅; queue := tasks; dlq := [];
           market := demo_db; grid := new_grid_status 0 |} [] [].

Definition demo_ids (n : N) : FreshIds :=
  {| f_reading := n; f_sell := n + 1; f_sell_epoch := n + 2; f_sell_wallet := demo_wallet;
     f_buy := n + 3; f_buy_epoch := n + 4; f_buy_wallet := demo_wallet |}%N.
Definition demo_turn (n : N) (faults : list bool) : Turn :=
  {| tu_ids := demo_ids n; tu_now := 7; tu_faults := faults |}.

Lemma refused_demo b : b = 0 \/ b = dec 1 0 \/ b = dec 2 0 ->
  refused default_config (dec 1 0) b (demo_task 1 (Some long_weather)).
Proof. by intros [->|[->| ->]]; constructor; vm_compute. Qed.

Lemma refused_reading_counted_thrice_witness :
  let w' := fold_left (take_turn demo_config default_config "mint" 1)
    [demo_turn 100 []; demo_turn 200 []; demo_turn 300 []]
    (reading_world [demo_task 1 (Some long_weather)]) in
  readings (st w') = ∅ /\ unminted "M-1" (st w') = dec 3 0.
Proof.
  set (task := demo_task 1 (Some long_weather)).
  assert (Hi : meter_info (t_serial task) (st (reading_world [task]))
    = Some (20%N, 1%N, Some "wallet", Some 3)) by (vm_compute; reflexivity).
  destruct (refused_reading_counted_thrice demo_config default_config "mint" 1
    (demo_turn 100 []) (demo_turn 200 []) (demo_turn 300 []) task (dec 1 0)
    (reading_world [task]) 20 1 "wallet" (Some 3)
    ltac:(discriminate) eq_refl eq_refl eq_refl eq_refl eq_refl eq_refl Hi
    (refused_demo 0 (or_introl eq_refl)) (refused_demo (dec 1 0) (or_intror (or_introl eq_refl)))
    (refused_demo (dec 2 0) (or_intror (or_intror eq_refl)))) as (_ & _ & Hr & Hu).
  split; [exact Hr|]. change "M-1" with (t_serial task). rewrite Hu. vm_compute. reflexivity.
Defined.

(** Two turns fail at their first statement, and still the queue drains. *)
Lemma queue_drains_witness :
  let turns := [demo_turn 100 [true]; demo_turn 200 [false; true]; demo_turn 300 [];
                demo_turn 400 [true]; demo_turn 500 [false; false; false; true]; demo_turn 600 [];
                demo_turn 700 []; demo_turn 800 []] in
  queue (st (fold_left (take_turn demo_config default_config "mint" 1) turns
    (reading_world [demo_task 1 (Some long_weather); demo_task 2 None]))) = [].
Proof.
  apply queue_drains.
  - discriminate.
  - by repeat constructor.
  - vm_compute. lia.
  - constructor.
Defined.

Lemma task_outcome_witness :
  let '(r, w') := process_reading_task demo_config default_config "mint" (demo_ids 100) 7
    (demo_task (-1) None) (reading_world []) in
  is_ok r = false /\ w' = reading_world [].
Proof.
  pose proof (task_outcome demo_config default_config "mint" (demo_ids 100) 7 (demo_task (-1) None)
    (reading_world [])) as H.
  destruct (process_reading_task _ _ _ _ _ _ _) as [r w']. apply H. vm_compute. discriminate.
Defined.
End witnesses.
