(* ===== verification/Minting.v ===== *)
(** Minting a stored reading, and the simulator's submission.

    [src/handlers/meter/minting.rs] (an administrator or the owner mints a reading) and, of
    [src/handlers/meter/stub.rs], the submission that mints or burns at once and the queries of
    the readings of a meter.  The state is that of [Readings].  Some columns are NUMERIC and
    read as [f64]: what the driver makes of that is the interface [RowDecode]. *)
From S2P Require Import Auth Prelude Numerics Floats Errors Store Schema Escrow Crypto OnChain Orders Settlement Text Validation Pagination Meters Telemetry Tokenization Readings.
From stdpp Require Import pretty sorting.
Open Scope string_scope.
Open Scope Z_scope.

(** The text of a rejected address; a NUMERIC value stored in a DOUBLE PRECISION column. *)
Class AddressText := { pubkey_error : string -> string }.
Class PgFloat := { float8_of : Decimal -> spec_float }.

(** A NUMERIC column read as [f64]; [None]: the driver refuses. *)
Class RowDecode := { numeric_as_f64 : Decimal -> option spec_float }.

(** ** Minting a reading *)

Record MintResponse := {
  mr_message : string;
  mr_signature : string;
  mr_kwh_amount : Decimal;
  mr_wallet_address : string;
}.

Definition reading_by_id (id : Uuid) (d : RdDb) : option ReadingRow :=
  List.find (fun r => (rd_id r =? id)%N) (map_to_list (readings d)).*2.

Definition set_minted (tx : string) (r : ReadingRow) : ReadingRow :=
  {| rd_id := rd_id r; rd_serial := rd_serial r; rd_meter_id := rd_meter_id r;
     rd_user_id := rd_user_id r; rd_wallet := rd_wallet r; rd_timestamp := rd_timestamp r;
     rd_kwh := rd_kwh r; rd_generated := rd_generated r; rd_consumed := rd_consumed r;
     rd_surplus := rd_surplus r; rd_deficit := rd_deficit r; rd_voltage := rd_voltage r;
     rd_current_amps := rd_current_amps r; rd_power_factor := rd_power_factor r;
     rd_frequency := rd_frequency r; rd_temperature := rd_temperature r;
     rd_thd_voltage := rd_thd_voltage r; rd_thd_current := rd_thd_current r;
     rd_latitude := rd_latitude r; rd_longitude := rd_longitude r;
     rd_battery_level := rd_battery_level r; rd_weather := rd_weather r; rd_health := rd_health r;
     rd_rec_eligible := rd_rec_eligible r; rd_carbon_offset := rd_carbon_offset r;
     rd_max_sell_price := rd_max_sell_price r; rd_max_buy_price := rd_max_buy_price r;
     rd_signature := rd_signature r; rd_meter_type := rd_meter_type r;
     rd_minted := Some true; rd_mint_tx := Some tx |}.

(** The rows the [UPDATE] of [mark_as_minted] leaves. *)
Definition marked (id : Uuid) (tx : string) (r : ReadingRow) : ReadingRow :=
  if (rd_id r =? id)%N then set_minted tx r else r.

Definition mark_rows (id : Uuid) (tx : string) (d : RdDb) : option RdDb :=
  match reading_by_id id d with
  | Some _ => if varchar 88 (Some tx) then Some (set_readings (marked id tx <$> readings d) d) else None
  | None => Some d
  end.

Section minting.
Context `{CC : CharClass} `{CH : Chain} `{ENV : Env} `{DF : DecimalFloat} `{AT : AddressText}.
Context (config : TokenizationConfig) (energy_mint : string).

Definition check_admin_role (user : Claims) : res ApiError unit :=
  if negb (lowercase (role user) =? "admin")%string
  then Err (Forbidden "Access denied. Admin role required.") else Ok tt.

Definition get_reading_by_id (id : Uuid) : RM ReadingRow :=
  row ← map_err (fun _ => FApi (Internal "Database error")) (query (reading_by_id id));
  expect (FApi (NotFound "Reading not found")) row.

Definition mark_as_minted (id : Uuid) (tx : string) : RM unit :=
  map_err (fun _ => FApi (Internal "Failed to update reading status")) (exec (mark_rows id tx)).

(** The second half of both handlers, once the reading may be minted. *)
Definition mint_row (id : Uuid) (row : ReadingRow) : RM MintResponse :=
  if default false (rd_minted row) then fail (FApi (BadRequest "Reading has already been minted"))
  else
    kwh ← expect (FApi (Internal "Missing kwh_amount")) (rd_kwh row);
    let wallet := rd_wallet row in
    map_err (fun _ => FApi (Internal "Failed to access blockchain")) (chain_call GetAuthority) ;;
    if negb (parse_pubkey energy_mint) then
      fail (FApi (Internal ("Invalid token mint: " ++ pubkey_error energy_mint)))
    else if negb (parse_pubkey wallet) then
      fail (FApi (BadRequest ("Invalid wallet address: " ++ pubkey_error wallet)))
    else
      map_err (fun _ => FApi (Internal "Failed to create token account"))
        (chain_call (EnsureTokenAccount wallet energy_mint)) ;;
      amount ← expect (FApi (Internal "Failed to convert amount")) (to_f64 kwh);
      sig ← map_err (fun e => FApi (Internal ("Blockchain minting failed: " ++ failure_text e)))
              (chain_call (fst (mint_call config energy_mint wallet amount)));
      mark_as_minted id sig ;;
      mret {| mr_message := "Tokens minted successfully"; mr_signature := sig;
              mr_kwh_amount := kwh; mr_wallet_address := wallet |}.

Definition mint_from_reading (user : Claims) (reading_id : Uuid) : RM MintResponse :=
  match check_admin_role user with
  | Err e => fail (FApi e)
  | Ok _ => row ← get_reading_by_id reading_id; mint_row reading_id row
  end.

Definition mint_user_reading (user : Claims) (reading_id : Uuid) : RM MintResponse :=
  row ← get_reading_by_id reading_id;
  uid ← expect (FApi (BadRequest "Reading has no associated user")) (rd_user_id row);
  if negb (uid =? sub user)%N then fail (FApi (Forbidden "You can only mint your own readings"))
  else mint_row reading_id row.
End minting.

(** ** The simulator's submission *)

Record MeterReadingResponse := {
  sr_id : Uuid;
  sr_wallet : string;
  sr_kwh : Decimal;
  sr_timestamp : DateTime;
  sr_submitted_at : DateTime;
  sr_minted : bool;
  sr_tx : option string;
  sr_message : string;
}.

Section submission.
Context `{CH : Chain} `{ENV : Env} `{FT : FloatText} `{PN : PgNumeric} `{PF : PgFloat}.
Context `{DF : DecimalFloat}.
Context (energy_mint : string).

(** What minting or burning leaves for the response: flag, transaction, message. *)
Abbreviation Outcome := (bool * option string * string)%type.

(** Authority, addresses, token account and the registry on the chain, then [act] on the
    account; [what] starts the messages. *)
Definition with_account (what no_account : string) (wallet serial : string)
    (generated consumed timestamp : Z) (act : string -> RM Outcome) : RM Outcome :=
  let sorry message := mret (false, None, message) in
  authority ← attempt (chain_call GetAuthority);
  match authority with
  | Err e => sorry (what ++ " but authority wallet not available: " ++ failure_text e)
  | Ok _ =>
      if negb (parse_pubkey energy_mint && parse_pubkey wallet)
      then sorry (what ++ " but invalid addresses")
      else
        account ← attempt (chain_call (EnsureTokenAccount wallet energy_mint));
        match account with
        | Err e => sorry (what ++ " but token account " ++ no_account ++ ": " ++ failure_text e)
        | Ok account =>
            ignore (chain_call (UpdateMeterReading serial generated consumed timestamp)) ;;
            act account
        end
  end.

Definition mint_now (r : SubmitReadingRequest) (wallet serial : string) (kwh : spec_float)
    (_ : string) : RM Outcome :=
  minted ← attempt (chain_call (MintEnergyTokens wallet energy_mint kwh));
  match minted with
  | Err e => mret (false, None, "Reading received but minting failed: " ++ failure_text e)
  | Ok sig =>
      let power := f64_sub (default (f64 0) (s_energy_generated r)) (default (f64 0) (s_energy_consumed r)) in
      emit (EvMeterReading 0 wallet serial kwh (Some power) (s_voltage r) (s_current r)) ;;
      emit (EvTokensMinted wallet serial kwh
              (as_unsigned u64_max (f64_mul kwh (f64 1000000000))) sig) ;;
      mret (true, Some sig,
            "Reading received and " ++ f64_display kwh ++ " kWh minted. TX: " ++ sig)
  end.

Definition burn_now (r : SubmitReadingRequest) (wallet serial : string) (amount : spec_float)
    (account : string) : RM Outcome :=
  burnt ← attempt (chain_call (BurnEnergyTokens account energy_mint amount));
  match burnt with
  | Err e => mret (false, None, "Consumption recorded but burn failed: " ++ failure_text e)
  | Ok sig =>
      emit (EvMeterReading 0 wallet serial (SFopp amount) (Some (SFopp amount)) (s_voltage r) (s_current r)) ;;
      mret (false, Some sig,
            "Consumption of " ++ f64_display amount ++ " kWh recorded. " ++ f64_display amount
            ++ " tokens burned. TX: " ++ sig)
  end.

(** kWh as whole Wh. *)
Definition energy_wh (kwh : spec_float) : Z := as_unsigned u64_max (f64_mul kwh (f64 1000)).

Definition chain_action (r : SubmitReadingRequest) (wallet serial : string) (kwh : spec_float)
    : RM Outcome :=
  let seconds := s_reading_timestamp r / 1000000000 in
  if Readings.positive kwh then
    with_account "Reading received" "creation failed" wallet serial (energy_wh kwh) 0 seconds
      (mint_now r wallet serial kwh)
  else if Readings.negative kwh then
    let amount := f64_abs kwh in
    with_account "Consumption recorded" "not found" wallet serial 0 (energy_wh amount) seconds
      (burn_now r wallet serial amount)
  else mret (false, None, "Reading received").

(** The bound row of the [INSERT]; the casts to NUMERIC keep the value. *)
Definition submitted_row (id : Uuid) (serial : string) (meter_id user_id : Uuid) (wallet : string)
    (r : SubmitReadingRequest) (minted : bool) (tx : option string) (health : spec_float)
    : option ReadingRow :=
  let decimal (x : option spec_float) := x ≫= from_f64_retain in
  let double (x : option spec_float) := float8_of <$> decimal x in
  kwh ← nullable numeric_dec 12 4 (Some (s_kwh_amount r));
  gen ← nullable numeric_dec 12 4 (decimal (s_energy_generated r));
  used ← nullable numeric_dec 12 4 (decimal (s_energy_consumed r));
  surplus ← nullable numeric_dec 12 4 (decimal (s_surplus_energy r));
  deficit ← nullable numeric_dec 12 4 (decimal (s_deficit_energy r));
  volt ← nullable numeric_dec 8 2 (decimal (s_voltage r));
  temp ← nullable numeric_dec 5 2 (decimal (s_temperature r));
  battery ← nullable numeric_dec 5 2 (decimal (s_battery_level r));
  Some {| rd_id := id; rd_serial := serial; rd_meter_id := meter_id; rd_user_id := Some user_id;
          rd_wallet := wallet; rd_timestamp := s_reading_timestamp r; rd_kwh := kwh;
          rd_generated := gen; rd_consumed := used; rd_surplus := surplus; rd_deficit := deficit;
          rd_voltage := volt; rd_current_amps := double (s_current r);
          rd_power_factor := double (s_power_factor r); rd_frequency := double (s_frequency r);
          rd_temperature := temp; rd_thd_voltage := double (s_thd_voltage r);
          rd_thd_current := double (s_thd_current r); rd_latitude := s_latitude r;
          rd_longitude := s_longitude r; rd_battery_level := battery; rd_weather := None;
          rd_health := Some health; rd_rec_eligible := false; rd_carbon_offset := None;
          rd_max_sell_price := None; rd_max_buy_price := None; rd_signature := None;
          rd_meter_type := None; rd_minted := Some minted; rd_mint_tx := tx |}.

Definition submit_reading (reading_id : Uuid) (now : DateTime) (r : SubmitReadingRequest)
    : RM MeterReadingResponse :=
  wallet ← expect (FApi (BadRequest "Wallet address required")) (s_wallet_address r);
  let kwh := default (f64 0) (to_f64 (s_kwh_amount r)) in
  if f64_lt (f64 100) (f64_abs kwh)
  then fail (FApi (BadRequest "kWh amount exceeds maximum (100 kWh)"))
  else
    zone_id ← match s_meter_serial r with
      | None => mret None
      | Some serial =>
          found ← attempt (query (fun d => meter_of serial (rd_meters d)));
          match found with
          | Ok (Some m) => mret (m_zone_id m)
          | _ => fail (FApi (NotFound ("Meter " ++ serial
                   ++ " is not registered. Please register the meter first.")))
          end
      end;
    let serial := default "unknown" (s_meter_serial r) in
    update_dashboard now {| p_kwh := kwh; p_serial := serial; p_zone_id := zone_id;
      p_power_gen := default (f64 0) (s_power_generated r);
      p_power_cons := default (f64 0) (s_power_consumed r) |} ;;
    broadcast_alerts (check_alerts now serial r) ;;
    let health := calculate_health_score r in
    outcome ← chain_action r wallet serial kwh;
    let '(minted, tx, message) := outcome in
    found ← attempt (query (fun d => meter_of serial (rd_meters d)));
    match found with
    | Ok (Some m) =>
        ignore (exec (fun d =>
          submitted_row reading_id serial (m_id m) (m_user_id m) wallet r minted tx health
            ≫= fun row => insert_reading row d))
    | _ => mret ()
    end ;;
    mret {| sr_id := reading_id; sr_wallet := wallet; sr_kwh := s_kwh_amount r;
            sr_timestamp := s_reading_timestamp r; sr_submitted_at := now; sr_minted := minted;
            sr_tx := tx; sr_message := message |}.
End submission.

(** ** The readings of a meter *)

Record GetReadingsQuery := {
  g_from : option DateTime;
  g_to : option DateTime;
  g_limit : option Z;
  g_offset : option Z;
}.

Record ReadingRecord := {
  rr_id : Uuid;
  rr_serial : string;
  rr_timestamp : DateTime;
  rr_kwh : spec_float;
  rr_generated : option spec_float;
  rr_consumed : option spec_float;
  rr_voltage : option spec_float;
  rr_current_amps : option spec_float;
  rr_power_factor : option spec_float;
  rr_frequency : option spec_float;
  rr_temperature : option spec_float;
  rr_thd_voltage : option spec_float;
  rr_thd_current : option spec_float;
  rr_latitude : option spec_float;
  rr_longitude : option spec_float;
  rr_battery_level : option spec_float;
  rr_health : option spec_float;
  rr_minted : bool;
}.

Record ReadingsResponse := {
  rs_readings : list ReadingRecord;
  rs_total : Z;
  rs_limit : Z;
  rs_offset : Z;
}.

Section queries.
Context `{RDec : RowDecode}.

(** A nullable NUMERIC column in an [Option<f64>]. *)
Definition decode_opt (x : option Decimal) : option (option spec_float) :=
  match x with Some x => Some <$> numeric_as_f64 x | None => Some None end.

Definition decode_reading (r : ReadingRow) : option ReadingRecord :=
  kwh ← rd_kwh r ≫= numeric_as_f64;
  gen ← decode_opt (rd_generated r);
  used ← decode_opt (rd_consumed r);
  volt ← decode_opt (rd_voltage r);
  temp ← decode_opt (rd_temperature r);
  battery ← decode_opt (rd_battery_level r);
  minted ← rd_minted r;
  Some {| rr_id := rd_id r; rr_serial := rd_serial r; rr_timestamp := rd_timestamp r; rr_kwh := kwh;
          rr_generated := gen; rr_consumed := used; rr_voltage := volt;
          rr_current_amps := rd_current_amps r; rr_power_factor := rd_power_factor r;
          rr_frequency := rd_frequency r; rr_temperature := temp;
          rr_thd_voltage := rd_thd_voltage r; rr_thd_current := rd_thd_current r;
          rr_latitude := rd_latitude r; rr_longitude := rd_longitude r;
          rr_battery_level := battery; rr_health := rd_health r; rr_minted := minted |}.

(** [ORDER BY timestamp DESC] over the rows of a meter within the dates; rows of the same time
    come in the order of the table. *)
Definition newer_first (r s : ReadingRow) : bool := rd_timestamp s <=? rd_timestamp r.
Definition readings_of (serial : string) (wanted : ReadingRow -> bool) (d : RdDb) : list ReadingRow :=
  Prelude.sort_by newer_first
    (List.filter (fun r => (rd_serial r =? serial)%string && wanted r) (map_to_list (readings d)).*2).

Definition in_dates (q : GetReadingsQuery) (r : ReadingRow) : bool :=
  match g_from q, g_to q with
  | Some from, Some to => (from <=? rd_timestamp r) && (rd_timestamp r <=? to)
  | Some from, None => from <=? rd_timestamp r
  | None, _ => true
  end.

(** The server refuses a negative LIMIT or OFFSET. *)
Definition page_of (q : GetReadingsQuery) (serial : string) (d : RdDb) : option (list ReadingRow) :=
  let limit := Z.min (default 100 (g_limit q)) 1000 in
  let offset := default 0 (g_offset q) in
  if (limit <? 0) || (offset <? 0) then None
  else Some (sql_page limit offset (readings_of serial (in_dates q) d)).

Definition get_meter_readings (serial : string) (q : GetReadingsQuery) : RM ReadingsResponse :=
  page ← query (page_of q serial);
  rows ← expect FDb (page ≫= fun p => mapM decode_reading p);
  total ← attempt (query (fun d =>
    Z.of_nat (length (List.filter (fun r => (rd_serial r =? serial)%string) (map_to_list (readings d)).*2))));
  mret {| rs_readings := rows;
          rs_total := match total with Ok n => n | Err _ => 0 end;
          rs_limit := Z.min (default 100 (g_limit q)) 1000;
          rs_offset := default 0 (g_offset q) |}.

Definition decode_latest (r : ReadingRow) : option LatestReading :=
  volt ← decode_opt (rd_voltage r);
  battery ← decode_opt (rd_battery_level r);
  Some {| l_voltage := volt; l_power_factor := rd_power_factor r; l_thd_voltage := rd_thd_voltage r;
          l_thd_current := rd_thd_current r; l_battery_level := battery;
          l_timestamp := rd_timestamp r |}.

Definition get_meter_health (serial : string) : RM MeterHealthResponse :=
  row ← query (fun d => head (readings_of serial (fun _ => true) d));
  latest ← expect FDb (match row with Some r => Some <$> decode_latest r | None => Some None end);
  mret (meter_health serial latest).
End queries.

(** ** Lemmas: chain calls and statements *)

(** One chain call with its error renamed. *)
Lemma chain_step `{Chain} f c (w : world RdDb Event) :
  exists ok, let w1 := World (st w) (faults w) (trace w ++ [EvChain c ok])%list in
    ok = true /\ (exists s, map_err f (chain_call c) w = (Ok s, w1))
    \/ ok = false /\ (exists m, map_err f (chain_call c) w = (Err (f (FMsg m)), w1)).
Proof.
  unfold map_err, chain_call. destruct (chain_answer (trace w) c) as [s|m].
  - exists true. left. by split; [|exists s].
  - exists false. right. by split; [|exists m].
Qed.

(** A query, whatever the failure schedule. *)
Lemma query_run {S T A} (g : S -> A) (w : world S T) : exists w1, st w1 = st w /\ trace w1 = trace w
  /\ (query g w = (Ok (g (st w)), w1) \/ query g w = (Err FDb, w1)).
Proof.
  exists (snd (pop_fault w)). unfold query, pop_fault. destruct (faults w) as [|[] f].
  all: split; [reflexivity|]; split; [reflexivity|].
  all: first [left; reflexivity|right; reflexivity].
Qed.

(** One statement with its error renamed. *)
Lemma query_step {A} e (g : RdDb -> A) (w : world RdDb Event) :
  exists w1, st w1 = st w /\ trace w1 = trace w
    /\ (map_err (fun _ => e) (query g) w = (Ok (g (st w)), w1)
        \/ map_err (fun _ => e) (query g) w = (Err e, w1)).
Proof.
  destruct (query_run g w) as (w1 & Hs & Ht & [E|E]); exists w1; unfold map_err; rewrite E; auto.
Qed.

Lemma exec_step e g (w : world RdDb Event) :
  exists r w1, map_err (fun _ => e) (exec g) w = (r, w1) /\ trace w1 = trace w
    /\ (r = Ok tt /\ g (st w) = Some (st w1) \/ r = Err e /\ st w1 = st w).
Proof.
  unfold map_err, exec, pop_fault. destruct (faults w) as [|[] f]; simpl.
  2: { eexists _, _. split; [reflexivity|]. split; [done|by right]. }
  all: destruct (g (st w)); eexists _, _; (split; [reflexivity|]); (split; [done|]); [by left|by right].
Qed.

Lemma bind_assoc {S T A B C} (m : M S T A) (f : A -> M S T B) (g : B -> M S T C) w :
  ((m ≫= f) ≫= g) w = (m ≫= fun a => f a ≫= g) w.
Proof. unfold mbind, M_bind. by destruct (m w) as [[a|e] w1]. Qed.

Lemma minted_in_app l l' : minted_in (l ++ l') = (minted_in l ++ minted_in l')%list.
Proof. apply omap_app. Qed.

(** ** Minting a reading *)

Definition marking_failed : failure := FApi (Internal "Failed to update reading status").

Section outcomes.
Context `{CC : CharClass} `{CH : Chain} `{ENV : Env} `{DF : DecimalFloat} `{AT : AddressText}.
Context (config : TokenizationConfig) (energy_mint : string).

(** What a call of a handler for the reading [id] may do: it mints the energy of a stored,
    permitted, not yet minted reading and marks it; or it changes no table, and has minted
    nothing unless it is the marking that failed. *)
Definition mint_result (id : Uuid) (allowed : ReadingRow -> Prop) (w : world RdDb Event)
    (result : res failure MintResponse * world RdDb Event) : Prop :=
  let '(r, w') := result in
  exists calls, trace w' = (trace w ++ calls)%list /\
  let mintable row amount := reading_by_id id (st w) = Some row /\ allowed row
    /\ default false (rd_minted row) = false
    /\ rd_kwh row ≫= to_f64 = Some amount /\ minted_in calls = [amount] in
  match r with
  | Ok resp => exists row amount, mintable row amount
      /\ Some (mr_kwh_amount resp) = rd_kwh row /\ mr_wallet_address resp = rd_wallet row
      /\ mark_rows id (mr_signature resp) (st w) = Some (st w')
  | Err e => st w' = st w
      /\ (minted_in calls = [] \/ e = marking_failed /\ exists row amount, mintable row amount)
  end.

Lemma mint_result_fail id allowed (w w' : world RdDb Event) e calls :
  st w' = st w -> trace w' = (trace w ++ calls)%list -> minted_in calls = [] ->
  mint_result id allowed w (Err e, w').
Proof. intros Hs Ht Hc. exists calls. split; [done|]. split; [done|by left]. Qed.

(** The second half, for a row that was found and is permitted. *)
Lemma mint_row_result id (allowed : ReadingRow -> Prop) row w0 (w : world RdDb Event) :
  reading_by_id id (st w0) = Some row -> allowed row -> st w = st w0 -> trace w = trace w0 ->
  mint_result id allowed w0 (mint_row config energy_mint id row w).
Proof.
  intros Hrow Hall Hs Ht. unfold mint_row. cbv zeta.
  destruct (default false (rd_minted row)) eqn:Em; [by apply (mint_result_fail _ _ _ _ _ []); rewrite ?app_nil_r|].
  destruct (rd_kwh row) as [kwh|] eqn:Ek; [|by apply (mint_result_fail _ _ _ _ _ []); rewrite ?app_nil_r].
  rewrite (bind_run _ _ w kwh w eq_refl).
  set (f1 := fun _ : failure => FApi (Internal "Failed to access blockchain")).
  destruct (chain_step f1 GetAuthority w) as (ok & [[-> [s E]]|[-> [m E]]]).
  2: { rewrite (bind_run_Err _ _ _ _ _ E).
       by eapply mint_result_fail; [exact Hs|simpl; rewrite Ht|]. }
  rewrite (bind_run _ _ _ _ _ E). clear E s. cbv beta. set (w1 := World _ _ _).
  do 2 (match goal with |- context [negb ?b] => destruct b end; cbn [negb]; cbv iota;
    [|by eapply mint_result_fail; [exact Hs|simpl; rewrite Ht|]]).
  set (f2 := fun _ : failure => FApi (Internal "Failed to create token account")).
  destruct (chain_step f2 (EnsureTokenAccount (rd_wallet row) energy_mint) w1) as (ok & [[-> [s E]]|[-> [m E]]]).
  2: { rewrite (bind_run_Err _ _ _ _ _ E).
       by eapply mint_result_fail; [exact Hs|simpl; rewrite Ht, <- app_assoc|]. }
  rewrite (bind_run _ _ _ _ _ E). clear E s. cbv beta. set (w2 := World (st w1) _ _).
  destruct (to_f64 kwh) as [amount|] eqn:Ea; [|by eapply mint_result_fail; [exact Hs|simpl; rewrite Ht, <- app_assoc|]].
  rewrite (bind_run _ _ w2 amount w2 eq_refl).
  set (f3 := fun e : failure => FApi (Internal _)).
  set (mc := fst _).
  destruct (chain_step f3 mc w2) as (ok & [[-> [s E]]|[-> [m E]]]).
  2: { rewrite (bind_run_Err _ _ _ _ _ E).
       eapply mint_result_fail; [exact Hs|simpl; rewrite Ht, <- !app_assoc; reflexivity|].
       unfold mc, mint_call. by destruct (enable_real_blockchain config). }
  rewrite (bind_run _ _ _ _ _ E). clear E. cbv beta. set (w3 := World (st w2) _ _).
  set (calls := [EvChain GetAuthority true; EvChain (EnsureTokenAccount (rd_wallet row) energy_mint) true; EvChain mc true]).
  assert (Ht3 : trace w3 = (trace w0 ++ calls)%list) by (simpl; rewrite Ht, <- !app_assoc; done).
  assert (Hc : minted_in calls = [amount]) by (unfold calls, mc, mint_call; by destruct (enable_real_blockchain config)).
  unfold mark_as_minted. fold marking_failed.
  destruct (exec_step marking_failed (mark_rows id s) w3) as (r & w4 & E & Ht4 & [[-> H]|[-> H]]).
  - rewrite (bind_run _ _ _ _ _ E). exists calls. split; [congruence|]. exists row, amount.
    split; [by rewrite Ek|]. split; [by rewrite Ek|]. split; [done|]. simpl. rewrite <- H. simpl. by rewrite Hs.
  - rewrite (bind_run_Err _ _ _ _ _ E). exists calls. split; [congruence|]. split; [rewrite H; exact Hs|].
    right. split; [done|]. exists row, amount. by rewrite Ek.
Qed.

(** The reading a handler finds. *)
Lemma get_reading_by_id_cases id (w : world RdDb Event) :
  exists w1, st w1 = st w /\ trace w1 = trace w
    /\ ((exists row, reading_by_id id (st w) = Some row /\ get_reading_by_id id w = (Ok row, w1))
        \/ exists e, get_reading_by_id id w = (Err e, w1)).
Proof.
  unfold get_reading_by_id.
  destruct (query_step (FApi (Internal "Database error")) (reading_by_id id) w) as (w1 & Hs & Ht & [E|E]).
  - rewrite (bind_run _ _ _ _ _ E). exists w1. split_and!; [done..|].
    destruct (reading_by_id id (st w)) as [row|]; [left; by exists row|right; by eexists].
  - rewrite (bind_run_Err _ _ _ _ _ E). exists w1. split_and!; [done..|]. right. by eexists.
Qed.

Lemma mint_user_reading_result user id w :
  mint_result id (fun row => rd_user_id row = Some (sub user)) w
    (mint_user_reading config energy_mint user id w).
Proof.
  unfold mint_user_reading.
  destruct (get_reading_by_id_cases id w) as (w1 & Hs & Ht & [(row & Hr & E)|(e & E)]).
  2: { rewrite (bind_run_Err _ _ _ _ _ E). by apply (mint_result_fail _ _ _ _ _ []); rewrite ?app_nil_r. }
  rewrite (bind_run _ _ _ _ _ E).
  destruct (rd_user_id row) as [uid|] eqn:Eu; [|by apply (mint_result_fail _ _ _ _ _ []); rewrite ?app_nil_r].
  rewrite (bind_run _ _ w1 uid w1 eq_refl).
  destruct (N.eqb_spec uid (sub user)) as [->|]; simpl;
    [by apply mint_row_result|by apply (mint_result_fail _ _ _ _ _ []); rewrite ?app_nil_r].
Qed.

Lemma mint_from_reading_result user id w :
  mint_result id (fun _ => lowercase (role user) = "admin") w
    (mint_from_reading config energy_mint user id w).
Proof.
  unfold mint_from_reading, check_admin_role.
  destruct (String.eqb_spec (lowercase (role user)) "admin") as [Ha|]; simpl;
    [|by apply (mint_result_fail _ _ _ _ _ []); rewrite ?app_nil_r].
  destruct (get_reading_by_id_cases id w) as (w1 & Hs & Ht & [(row & Hr & E)|(e & E)]).
  - rewrite (bind_run _ _ _ _ _ E). by apply mint_row_result.
  - rewrite (bind_run_Err _ _ _ _ _ E). by apply (mint_result_fail _ _ _ _ _ []); rewrite ?app_nil_r.
Qed.

(** C31: minting a reading on request.  Its owner, or an administrator, mints exactly its energy,
    and the reading is then marked; every refusal leaves the tables alone and mints nothing,
    except that a failing mark comes after the mint. *)
Theorem mint_request_outcome user id w :
  mint_result id (fun row => rd_user_id row = Some (sub user)) w
    (mint_user_reading config energy_mint user id w)
  /\ mint_result id (fun _ => lowercase (role user) = "admin") w
    (mint_from_reading config energy_mint user id w).
Proof. split; [apply mint_user_reading_result|apply mint_from_reading_result]. Qed.

(** *** A marked reading *)

Lemma minted_row_refused id row (w : world RdDb Event) : rd_minted row = Some true ->
  exists e, mint_row config energy_mint id row w = (Err e, w).
Proof. intros H. unfold mint_row. rewrite H. by eexists. Qed.

End outcomes.

(** ** The submission *)

(** The mints and burns the chain has accepted. *)
Definition mint_to (e : Event) : option (string * spec_float) :=
  match e with
  | EvChain (MintEnergyTokens w _ k) true | EvChain (MintSplTokens w _ k) true => Some (w, k)
  | _ => None
  end.
Definition burnt_amount (e : Event) : option spec_float :=
  match e with EvChain (BurnEnergyTokens _ _ k) true => Some k | _ => None end.
Definition mints (evs : list Event) : list (string * spec_float) := omap mint_to evs.
Definition burns (evs : list Event) : list spec_float := omap burnt_amount evs.

(** The energy of a request as the handler computes with it. *)
Definition kwh_of `{DecimalFloat} (r : SubmitReadingRequest) : spec_float :=
  default (f64 0) (to_f64 (s_kwh_amount r)).
Definition too_large (kwh : spec_float) : bool := f64_lt (f64 100) (f64_abs kwh).

Section submissions.
Context `{CH : Chain} `{ENV : Env} `{FT : FloatText} `{PN : PgNumeric} `{PF : PgFloat}.
Context `{DF : DecimalFloat}.
Context (energy_mint : string).

(** Minting or burning for a reading: at most one of the two, in the amount of the reading. *)
Definition acts (wallet : string) (kwh : spec_float) (m : RM (bool * option string * string)) : Prop :=
  forall w, exists minted tx msg evs,
    m w = (Ok (minted, tx, msg), World (st w) (faults w) (trace w ++ evs)%list)
    /\ mints evs = (if minted : bool then [(wallet, kwh)] else [])
    /\ burns evs = (if negb minted && bool_decide (is_Some tx) then [f64_abs kwh] else [])
    /\ (minted = true -> Readings.positive kwh = true)
    /\ (burns evs <> [] -> Readings.negative kwh = true).

Lemma acts_nothing wallet kwh msg : acts wallet kwh (mret (false, None, msg)).
Proof. intros w. exists false, None, msg, []. rewrite app_nil_r. by destruct w. Qed.

Lemma with_account_acts what no_account wallet serial gen used ts act kwh :
  (forall account, acts wallet kwh (act account)) ->
  acts wallet kwh (with_account energy_mint what no_account wallet serial gen used ts act).
Proof.
  intros Hact w. unfold with_account. cbv zeta.
  destruct (chain_attempt GetAuthority w) as (r & ok & E & ->). rewrite (bind_run _ _ _ _ _ E).
  destruct r as [authority|e]; [|by exists false, None; eexists _, _].
  destruct (negb (_ && _)); [by exists false, None; eexists _, _|].
  set (w1 := World _ _ _).
  destruct (chain_attempt (EnsureTokenAccount wallet energy_mint) w1) as (r & ok & E1 & ->).
  rewrite (bind_run _ _ _ _ _ E1).
  destruct r as [account|e].
  2: { exists false, None. eexists _, _. split; [simpl; by rewrite <- app_assoc|done]. }
  set (w2 := World (st w1) _ _).
  assert (E2 : exists ok, ignore (chain_call (UpdateMeterReading serial gen used ts)) w2
    = (Ok tt, World (st w2) (faults w2) (trace w2 ++ [EvChain (UpdateMeterReading serial gen used ts) ok])%list)).
  { unfold ignore. destruct (chain_attempt (UpdateMeterReading serial gen used ts) w2) as (r & ok & E2 & _).
    exists ok. by rewrite (bind_run _ _ _ _ _ E2). }
  destruct E2 as [ok E2]. rewrite (bind_run _ _ _ _ _ E2).
  match goal with |- context [act account ?w3] =>
    destruct (Hact account w3) as (minted & tx & msg & evs & -> & H1 & H2 & H3 & H4) end.
  exists minted, tx, msg. eexists. split; [simpl; rewrite <- !app_assoc; reflexivity|].
  unfold mints, burns in *. rewrite !omap_app, H1, H2. simpl. by rewrite <- H2.
Qed.

Lemma mint_now_acts r wallet serial kwh account : Readings.positive kwh = true ->
  acts wallet kwh (mint_now energy_mint r wallet serial kwh account).
Proof.
  intros Hp w. unfold mint_now.
  destruct (chain_attempt (MintEnergyTokens wallet energy_mint kwh) w) as (x & ok & E & ->).
  rewrite (bind_run _ _ _ _ _ E). destruct x as [sig|e]; [|by exists false, None; eexists _, _].
  exists true, (Some sig). eexists _, _.
  split; [unfold emit, mbind, M_bind, mret, M_ret; simpl; rewrite <- !app_assoc; reflexivity|]. by split_and!.
Qed.

Lemma burn_now_acts r wallet serial kwh account : Readings.negative kwh = true ->
  acts wallet kwh (burn_now energy_mint r wallet serial (f64_abs kwh) account).
Proof.
  intros Hp w. unfold burn_now.
  destruct (chain_attempt (BurnEnergyTokens account energy_mint (f64_abs kwh)) w) as (x & ok & E & ->).
  rewrite (bind_run _ _ _ _ _ E). destruct x as [sig|e]; [|by exists false, None; eexists _, _].
  exists false, (Some sig). eexists _, _.
  split; [unfold emit, mbind, M_bind, mret, M_ret; simpl; rewrite <- !app_assoc; reflexivity|]. by split_and!.
Qed.

Lemma chain_action_acts r wallet serial kwh : acts wallet kwh (chain_action energy_mint r wallet serial kwh).
Proof.
  unfold chain_action. destruct (Readings.positive kwh) eqn:Ep; [|destruct (Readings.negative kwh) eqn:En].
  - apply with_account_acts. intros account. by apply mint_now_acts.
  - apply with_account_acts. intros account. by apply burn_now_acts.
  - apply acts_nothing.
Qed.

(** The tables a submission never touches. *)
Definition aside (d d' : RdDb) : Prop :=
  rd_meters d' = rd_meters d /\ balances d' = balances d /\ queue d' = queue d /\ dlq d' = dlq d
  /\ market d' = market d.

(** At most one row, which says what happened on the chain. *)
Definition stored_as (id : Uuid) (r : SubmitReadingRequest) (wallet : string) (minted : bool)
    (tx : option string) (d d' : RdDb) : Prop :=
  readings d' = readings d
  \/ exists row, readings d' = <[(id, s_reading_timestamp r) := row]> (readings d)
     /\ readings d !! (id, s_reading_timestamp r) = None
     /\ rd_minted row = Some minted /\ rd_mint_tx row = tx
     /\ rd_wallet row = wallet /\ rd_id row = id
     /\ exists m, meter_of (default "unknown" (s_meter_serial r)) (rd_meters d) = Some m
        /\ rd_user_id row = Some (m_user_id m).

Lemma broadcast_mintless alerts (w : world RdDb Event) : exists evs,
  broadcast_alerts alerts w = (Ok tt, World (st w) (faults w) (trace w ++ evs)%list)
  /\ mints evs = [] /\ burns evs = [].
Proof.
  revert w. induction alerts as [|a alerts IH]; intros w.
  - exists []. rewrite app_nil_r. by destruct w.
  - unfold broadcast_alerts. cbn [for_each]. rewrite (bind_run (emit _) _ w tt _ eq_refl).
    match goal with |- context [for_each _ _ ?w1] => destruct (IH w1) as (evs & E & H1 & H2) end.
    unfold broadcast_alerts in E. rewrite E. eexists. simpl. rewrite <- app_assoc. split; [reflexivity|].
    unfold mints, burns in *. rewrite !omap_app, H1, H2. done.
Qed.

(** Storing the row at the end, whose failures are only logged. *)
Lemma store_run id r wallet minted tx health serial (w : world RdDb Event) :
  serial = default "unknown" (s_meter_serial r) ->
  exists w', (found ← attempt (query (fun d => meter_of serial (rd_meters d)));
    match found with
    | Ok (Some m) =>
        ignore (exec (fun d =>
          submitted_row id serial (m_id m) (m_user_id m) wallet r minted tx health
            ≫= fun row => insert_reading row d))
    | _ => mret ()
    end) w = (Ok tt, w') /\ trace w' = trace w /\ aside (st w) (st w') /\ grid (st w') = grid (st w)
    /\ stored_as id r wallet minted tx (st w) (st w').
Proof.
  intros Hserial.
  assert (Hsame : forall w' : world RdDb Event, st w' = st w -> aside (st w) (st w') /\ grid (st w') = grid (st w)
    /\ stored_as id r wallet minted tx (st w) (st w')) by (intros w' ->; split; [done|split; [done|by left]]).
  unfold attempt, query, mbind at 1, M_bind. pose proof (pop_fault_st w) as Hs. pose proof (pop_fault_trace w) as Ht.
  destruct (pop_fault w) as [[] w1]; simpl in *; [by exists w1; auto|].
  rewrite Hs. destruct (meter_of serial (rd_meters (st w))) as [m|] eqn:Em; [|by exists w1; auto].
  unfold ignore, attempt, exec, mbind, M_bind. pose proof (pop_fault_st w1) as Hs1. pose proof (pop_fault_trace w1) as Ht1.
  destruct (pop_fault w1) as [[] w2]; simpl in *; [eexists; split; [reflexivity|]; split; [congruence|apply Hsame; congruence]|].
  rewrite Hs1, Hs.
  match goal with |- context [match match ?i with _ => _ end with _ => _ end] => destruct i as [d'|] eqn:Ei end.
  2: { eexists; split; [reflexivity|]; split; [congruence|apply Hsame; congruence]. }
  eexists. split; [reflexivity|]. simpl. split; [congruence|].
  apply bind_Some in Ei as (row & Erow & Ei).
  assert (Hrow : rd_id row = id /\ rd_timestamp row = s_reading_timestamp r /\ rd_minted row = Some minted
    /\ rd_mint_tx row = tx /\ rd_wallet row = wallet /\ rd_user_id row = Some (m_user_id m)).
  { unfold submitted_row in Erow. cbv zeta in Erow.
    repeat (apply bind_Some in Erow as (? & _ & Erow)). by injection Erow as <-. }
  destruct Hrow as (H1 & H2 & H3 & H4 & H5 & H6).
  unfold insert_reading in Ei. destruct (readings (st w) !! _) eqn:Er; [done|].
  destruct (registry _ !! _); [|done].
  match type of Ei with (if ?b then _ else _) = _ => destruct b; [|done] end. injection Ei as <-.
  split; [by split_and!|]. split; [done|]. right. exists row. rewrite <- H1, <- H2 in *. simpl.
  split_and!; try done. exists m. by rewrite <- Hserial.
Qed.

(** Looking the meter up before anything else: the zone, or a refusal. *)
Lemma zone_lookup_run (r : SubmitReadingRequest) (w : world RdDb Event) :
  exists w', st w' = st w /\ trace w' = trace w /\
  let m : RM (option Z) := match s_meter_serial r with
      | None => mret None
      | Some serial =>
          found ← attempt (query (fun d => meter_of serial (rd_meters d)));
          match found with
          | Ok (Some m) => mret (m_zone_id m)
          | _ => fail (FApi (NotFound ("Meter " ++ serial
                   ++ " is not registered. Please register the meter first.")))
          end
      end in
  (exists zone, m w = (Ok zone, w')
     /\ forall serial, s_meter_serial r = Some serial -> meter_of serial (rd_meters (st w)) <> None)
  \/ (exists e serial, m w = (Err (FApi e), w') /\ s_meter_serial r = Some serial
     /\ (faults w = [] -> meter_of serial (rd_meters (st w)) = None)).
Proof.
  destruct (s_meter_serial r) as [serial|]; cbv zeta.
  2: { exists w. split_and!; [done..|]. left. by exists None. }
  unfold attempt, query, mbind, M_bind, pop_fault. exists (snd (pop_fault w)). unfold pop_fault.
  destruct w as [d [|[] f] tr]; simpl; (split; [done|]); (split; [done|]).
  2: { right. by eexists _, serial. }
  all: destruct (meter_of serial (rd_meters d)) as [m|] eqn:Em; [left|right].
  1,3: exists (m_zone_id m); split; [done|]; intros s [= <-]; by rewrite Em.
  all: by eexists _, serial.
Qed.

(** Every run of a submission. *)
Lemma submit_reading_run id now r w :
  let '(result, w') := submit_reading energy_mint id now r w in
  exists evs, trace w' = (trace w ++ evs)%list /\
  match result with
  | Err e => st w' = st w /\ evs = []
      /\ (s_wallet_address r = None \/ too_large (kwh_of r) = true
          \/ exists serial, s_meter_serial r = Some serial
             /\ (faults w = [] -> meter_of serial (rd_meters (st w)) = None))
  | Ok resp => s_wallet_address r = Some (sr_wallet resp) /\ too_large (kwh_of r) = false
      /\ (forall serial, s_meter_serial r = Some serial -> meter_of serial (rd_meters (st w)) <> None)
      /\ mints evs = (if sr_minted resp then [(sr_wallet resp, kwh_of r)] else [])
      /\ burns evs = (if negb (sr_minted resp) && bool_decide (is_Some (sr_tx resp)) then [f64_abs (kwh_of r)] else [])
      /\ (sr_minted resp = true -> Readings.positive (kwh_of r) = true)
      /\ (burns evs <> [] -> Readings.negative (kwh_of r) = true)
      /\ aside (st w) (st w')
      /\ stored_as id r (sr_wallet resp) (sr_minted resp) (sr_tx resp) (st w) (st w')
  end.
Proof.
  unfold submit_reading. fold (kwh_of r). cbv zeta. fold (too_large (kwh_of r)).
  destruct (s_wallet_address r) as [wallet|]; [|exists []; rewrite app_nil_r; split_and!; try done; by left].
  rewrite (bind_run _ _ w wallet w eq_refl). cbv beta.
  destruct (too_large (kwh_of r)) eqn:Ek; [exists []; rewrite app_nil_r; split_and!; try done; by right; left|].
  destruct (zone_lookup_run r w) as (w1 & Hs1 & Ht1 & [(zone & E & Hreg)|(e & serial & E & Hser & Hno)]).
  2: { cbv zeta in E. rewrite (bind_run_Err _ _ _ _ _ E). exists []. rewrite app_nil_r. split_and!; try done.
       right. right. by exists serial. }
  cbv zeta in E. rewrite (bind_run _ _ _ _ _ E). clear E.
  set (serial := default "unknown" (s_meter_serial r)). set (kwh := kwh_of r) in *.
  match goal with |- context [update_dashboard now ?p] => set (report := p) end.
  set (w2 := snd (update_dashboard now report w1)).
  rewrite (bind_run (update_dashboard now report) _ w1 tt w2 eq_refl).
  destruct (broadcast_mintless (check_alerts now serial r) w2) as (evs1 & E & Hm1 & Hb1).
  rewrite (bind_run _ _ _ _ _ E). clear E. set (w3 := World (st w2) _ _).
  destruct (chain_action_acts r wallet serial kwh w3) as (minted & tx & msg & evs2 & E & Hm2 & Hb2 & Hp & Hn).
  rewrite (bind_run _ _ _ _ _ E). clear E. cbv beta iota. set (w4 := World (st w3) _ _).
  destruct (store_run id r wallet minted tx (calculate_health_score r) serial w4 eq_refl)
    as (w5 & E & Ht5 & Ha & _ & Hst).
  rewrite <- bind_assoc, (bind_run _ _ _ _ _ E). simpl.
  exists ([grid_status_event (grid (st w2))] ++ evs1 ++ evs2)%list.
  split; [rewrite Ht5; simpl; rewrite Ht1, <- !app_assoc; done|].
  unfold mints, burns in *. rewrite !omap_app, Hm1, Hm2, Hb1, Hb2. simpl.
  split_and!; try done.
  - by rewrite <- Hb2.
  - unfold aside in *. simpl in Ha. by rewrite <- Hs1.
  - unfold stored_as in *. simpl in Hst. by rewrite <- Hs1.
Qed.

(** The simulator's submission.  A refusal (no wallet, more than 100 kWh, an unknown meter)
    has no effect at all.  Otherwise at most one mint or one burn is accepted, of exactly the
    energy submitted and to the wallet named in the request, a mint only of a positive amount
    and a burn only of a negative one; and at most one row is stored, which says what happened
    on the chain. *)
Theorem submission_outcome id now r w :
  let '(result, w') := submit_reading energy_mint id now r w in
  exists evs, trace w' = (trace w ++ evs)%list /\
  match result with
  | Err e => st w' = st w /\ evs = []
      /\ (s_wallet_address r = None \/ too_large (kwh_of r) = true
          \/ exists serial, s_meter_serial r = Some serial
             /\ (faults w = [] -> meter_of serial (rd_meters (st w)) = None))
  | Ok resp => s_wallet_address r = Some (sr_wallet resp) /\ too_large (kwh_of r) = false
      /\ (forall serial, s_meter_serial r = Some serial -> meter_of serial (rd_meters (st w)) <> None)
      /\ mints evs = (if sr_minted resp then [(sr_wallet resp, kwh_of r)] else [])
      /\ burns evs = (if negb (sr_minted resp) && bool_decide (is_Some (sr_tx resp)) then [f64_abs (kwh_of r)] else [])
      /\ (sr_minted resp = true -> Readings.positive (kwh_of r) = true)
      /\ (burns evs <> [] -> Readings.negative (kwh_of r) = true)
      /\ aside (st w) (st w')
      /\ stored_as id r (sr_wallet resp) (sr_minted resp) (sr_tx resp) (st w) (st w')
  end.
Proof. apply submit_reading_run. Qed.

(** Submissions of the same request, one after another; the identifiers are fresh. *)
Fixpoint submissions (n : nat) (id : nat -> Uuid) (now : DateTime) (r : SubmitReadingRequest)
    (w : world RdDb Event) : world RdDb Event :=
  match n with
  | O => w
  | S n => snd (submit_reading energy_mint (id n) now r (submissions n id now r w))
  end.

Section minting_freely.
Context (accepts : forall tr c, is_ok (chain_answer tr c) = true).

Lemma chain_accepts c (w : world RdDb Event) : exists s,
  attempt (chain_call c) w = (Ok (Ok s), World (st w) (faults w) (trace w ++ [EvChain c true])%list).
Proof.
  unfold attempt, chain_call. specialize (accepts (trace w) c).
  destruct (chain_answer (trace w) c) as [s|e]; [by exists s|done].
Qed.

#[local] Ltac next_call :=
  match goal with |- context [(attempt (chain_call ?c) ≫= ?f) ?w1] =>
    let E := fresh in destruct (chain_accepts c w1) as (? & E); rewrite (bind_run _ f _ _ _ E); clear E end.

Lemma chain_action_mints r wallet serial kwh (w : world RdDb Event) :
  parse_pubkey energy_mint = true -> parse_pubkey wallet = true -> Readings.positive kwh = true ->
  exists sig msg w', chain_action energy_mint r wallet serial kwh w = (Ok (true, Some sig, msg), w').
Proof.
  intros Hm Hw Hp. unfold chain_action, with_account, mint_now, ignore. rewrite Hp, Hm, Hw. cbv zeta.
  destruct (chain_accepts GetAuthority w) as (s & E). rewrite (bind_run _ _ _ _ _ E). cbn [negb andb]. cbv iota.
  next_call. rewrite bind_assoc. next_call. rewrite (bind_run (mret ()) _ _ tt _ eq_refl). next_call.
  by eexists _, _, _.
Qed.

(** A submission without a meter. *)
Lemma submit_mints id now r wallet w : s_wallet_address r = Some wallet -> s_meter_serial r = None ->
  parse_pubkey energy_mint = true -> parse_pubkey wallet = true ->
  Readings.positive (kwh_of r) = true -> too_large (kwh_of r) = false ->
  exists resp w', submit_reading energy_mint id now r w = (Ok resp, w')
    /\ sr_minted resp = true /\ sr_wallet resp = wallet.
Proof.
  intros Hw Hs Hm Hp Hk Hl. unfold submit_reading. cbv zeta. rewrite Hw, Hs.
  rewrite (bind_run _ _ w wallet w eq_refl). cbv beta. unfold too_large, kwh_of in Hl, Hk. rewrite Hl.
  rewrite (bind_run (mret None : RM (option Z)) _ w None w eq_refl). simpl default.
  match goal with |- context [(update_dashboard now ?p ≫= ?f) w] =>
    rewrite (bind_run (update_dashboard now p) f w tt (snd (update_dashboard now p w)) eq_refl) end.
  match goal with |- context [(broadcast_alerts ?a ≫= ?f) ?w2] =>
    destruct (broadcast_mintless a w2) as (evs1 & E & _); rewrite (bind_run _ f _ _ _ E); clear E end.
  match goal with |- context [(chain_action _ _ _ ?s ?k ≫= ?f) ?w3] =>
    destruct (chain_action_mints r wallet s k w3 Hm Hp Hk) as (sig & msg & w4 & E); rewrite (bind_run _ f _ _ _ E); clear E end.
  cbv beta iota.
  destruct (store_run id r wallet true (Some sig) (calculate_health_score r) "unknown" w4
    ltac:(by rewrite Hs)) as (w5 & E & _).
  rewrite <- bind_assoc, (bind_run _ _ _ _ _ E). by eexists _, _.
Qed.

(** The meter is optional in a submission: a request that names a wallet and no meter mints
    its energy, as often as it is sent, and no reading is stored, as long as no meter is called
    "unknown". *)
Theorem submissions_mint_unrecorded n id now r wallet w :
  s_wallet_address r = Some wallet -> s_meter_serial r = None ->
  parse_pubkey energy_mint = true -> parse_pubkey wallet = true ->
  Readings.positive (kwh_of r) = true -> too_large (kwh_of r) = false ->
  meter_of "unknown" (rd_meters (st w)) = None ->
  let w' := submissions n id now r w in
  mints (trace w') = (mints (trace w) ++ replicate n (wallet, kwh_of r))%list
  /\ readings (st w') = readings (st w) /\ balances (st w') = balances (st w)
  /\ rd_meters (st w') = rd_meters (st w).
Proof.
  intros Hw Hs Hm Hp Hk Hl Hu. cbv zeta. induction n as [|n IH]; [by rewrite app_nil_r|].
  destruct IH as (IH1 & IH2 & IH3 & IH4). cbn [submissions].
  set (v := submissions n id now r w) in *.
  pose proof (submit_reading_run (id n) now r v) as H.
  destruct (submit_mints (id n) now r wallet v Hw Hs Hm Hp Hk Hl) as (resp & w' & E & Hmint & Hwal).
  rewrite E in H |- *. destruct H as (evs & Ht & _ & _ & _ & Hmints & _ & _ & _ & (A1 & A2 & _) & Hst).
  rewrite Hmint, Hwal in Hmints. cbn [snd]. split.
  { rewrite Ht. unfold mints in *. rewrite omap_app, Hmints, IH1, replicate_S_end, app_assoc. done. }
  split; [|split; congruence].
  destruct Hst as [->|(row & _ & _ & _ & _ & _ & _ & m & Hmeter & _)]; [done|].
  rewrite Hs, IH4 in Hmeter. simpl in Hmeter. congruence.
Qed.
End minting_freely.
End submissions.

(** ** No second mint *)

Section once.
Context `{NUM : Numerics} `{CAL : Calendar} `{CH : Chain} `{ENV : Env} `{CIPHER : Cipher} `{B64 : Base64}
        `{KP : Keypairs} `{TC : TokenChain}.
Context `{FT : FloatText} `{PN : PgNumeric} `{PF : PgFloat} `{DF : DecimalFloat} `{DL : Deadline}.
Context `{CC : CharClass} `{AT : AddressText}.
Context (orders_config : OrderConfig) (config : TokenizationConfig) (energy_mint : string).

(** What the program can do to the tables between two requests for the reading [id], each with a
    failure schedule of its own: a turn of a worker or a submission of the simulator, both of which
    store their reading under a new identifier; a mint, by anybody, of any reading; and whatever
    leaves the table of readings alone. *)
Inductive reading_step (id : Uuid) : RdDb -> RdDb -> Prop :=
| step_worker worker ids now w : f_reading ids <> id ->
    reading_step id (st w) (st (snd (worker_turn orders_config config energy_mint worker ids now w)))
| step_submission new now r w : new <> id ->
    reading_step id (st w) (st (snd (submit_reading energy_mint new now r w)))
| step_mint_user user other w :
    reading_step id (st w) (st (snd (mint_user_reading config energy_mint user other w)))
| step_mint_admin user other w :
    reading_step id (st w) (st (snd (mint_from_reading config energy_mint user other w)))
| step_elsewhere d d' : readings d' = readings d -> reading_step id d d'.

Definition all_minted (id : Uuid) (d : RdDb) : Prop :=
  forall k row, readings d !! k = Some row -> rd_id row = id -> rd_minted row = Some true.

Lemma mark_rows_minted id tx d d' : mark_rows id tx d = Some d' -> all_minted id d'.
Proof.
  unfold mark_rows. destruct (reading_by_id id d) eqn:E; [|intros [= <-]].
  - destruct (varchar _ _); [|done]. intros [= <-] k row. simpl. rewrite lookup_fmap.
    destruct (readings d !! k) as [z|]; [|done]. intros [= <-]. unfold marked.
    destruct (rd_id z =? id)%N eqn:Ez; [done|]. intros Hz. to_prop. congruence.
  - intros k row Hk Hid. unfold reading_by_id in E.
    assert (Hin : In row (map_to_list (readings d)).*2).
    { apply list_elem_of_In, list_elem_of_fmap. exists (k, row). by rewrite elem_of_map_to_list. }
    pose proof (List.find_none _ _ E row Hin) as G. simpl in G. by rewrite Hid, N.eqb_refl in G.
Qed.

Lemma mark_rows_keeps id other tx d d' : mark_rows other tx d = Some d' -> all_minted id d -> all_minted id d'.
Proof.
  unfold mark_rows. intros H Hd. destruct (reading_by_id other d); [|by injection H as <-].
  destruct (varchar _ _); [|done]. injection H as <-. intros k row. simpl. rewrite lookup_fmap.
  destruct (readings d !! k) as [z|] eqn:Ez; [|done]. intros [= <-]. unfold marked.
  destruct (rd_id z =? other)%N; [done|]. by apply (Hd k).
Qed.

Lemma mint_result_keeps id other allowed w x : mint_result other allowed w x ->
  all_minted id (st w) -> all_minted id (st (snd x)).
Proof.
  destruct x as [[resp|e] w']; intros (calls & _ & H) Hd; simpl.
  - destruct H as (_ & _ & _ & _ & _ & H). by eapply mark_rows_keeps.
  - by destruct H as [-> _].
Qed.

Lemma reading_row_id id serial mid uid wallet ts r minted tx health row :
  reading_row id serial mid uid wallet ts r minted tx health = Some row -> rd_id row = id.
Proof.
  unfold reading_row. destruct (if Readings.positive _ then _ else _) as [g c]. intros H.
  do 8 (apply bind_Some in H as (? & _ & H)). by injection H as <-.
Qed.

Lemma insert_keeps (id : Uuid) (key : Uuid * DateTime) (row : ReadingRow) (m : gmap (Uuid * DateTime) ReadingRow) :
    rd_id row <> id ->
  (forall k x, m !! k = Some x -> rd_id x = id -> rd_minted x = Some true) ->
  forall k x, <[key := row]> m !! k = Some x -> rd_id x = id -> rd_minted x = Some true.
Proof.
  intros Hne Hm k x. destruct (decide (key = k)) as [->|]; simpl_map; [|apply Hm].
  by intros [= <-].
Qed.

Lemma stored_keeps id ids now t d0 d : f_reading ids <> id -> stored ids now t d0 d ->
  all_minted id d0 -> all_minted id d.
Proof.
  intros Hne (_ & mid & uid & wallet & zid & tx & d1 & row & d2 & _ & Hc & Hrow & Hi & _ & Hr & _) Hd.
  apply counted_frame in Hc as [_ Hc]. apply reading_row_id in Hrow.
  unfold all_minted. rewrite Hr. unfold insert_reading in Hi.
  destruct (readings d1 !! _); [done|]. destruct (registry _ !! _); [|done].
  match type of Hi with (if ?b then _ else _) = _ => destruct b; [|done] end.
  injection Hi as <-. simpl. rewrite Hc. apply insert_keeps; [congruence|exact Hd].
Qed.

Lemma turn_keeps id ids now d0 d : f_reading ids <> id -> turn ids now d0 d -> all_minted id d0 -> all_minted id d.
Proof.
  intros Hne [Hq|q t d1 Hq Hs|q t d1 d' Hq (_ & Hr & _) _ Hd|q t d1 d' Hq (_ & Hr & _) _ Hd] Hm; [done|..].
  - eapply stored_keeps; [done|exact Hs|exact Hm].
  - unfold all_minted. destruct Hd as [->| ->]; simpl; rewrite Hr; exact Hm.
  - unfold all_minted. destruct Hd as [->| ->]; simpl; rewrite Hr; exact Hm.
Qed.

Lemma reading_step_keeps id d d' : reading_step id d d' -> all_minted id d -> all_minted id d'.
Proof.
  intros [worker ids now w Hne|new now r w Hne|user other w|user other w|d1 d2 H] Hd.
  - destruct (worker_turn_spec orders_config config energy_mint worker ids now w) as (w' & -> & Hw & _).
    simpl. destruct Hw as [->|Ht]; [done|]. by eapply turn_keeps.
  - pose proof (submit_reading_run energy_mint new now r w) as H.
    destruct (submit_reading energy_mint new now r w) as [[resp|e] w']; simpl; destruct H as (evs & _ & H).
    + destruct H as (_ & _ & _ & _ & _ & _ & _ & _ & H). unfold all_minted.
      destruct H as [->|(row & -> & _ & _ & _ & _ & Hid & _)]; [exact Hd|].
      apply insert_keeps; [congruence|exact Hd].
    + by destruct H as [-> _].
  - eapply mint_result_keeps; [apply mint_user_reading_result|done].
  - eapply mint_result_keeps; [apply mint_from_reading_result|done].
  - unfold all_minted. by rewrite H.
Qed.

Lemma all_minted_refused id user (w : world RdDb Event) : all_minted id (st w) ->
  (let '(r, w') := mint_user_reading config energy_mint user id w in
   is_ok r = false /\ st w' = st w /\ trace w' = trace w)
  /\ (let '(r, w') := mint_from_reading config energy_mint user id w in
      is_ok r = false /\ st w' = st w /\ trace w' = trace w).
Proof.
  intros H.
  assert (Hm : forall row, reading_by_id id (st w) = Some row -> rd_minted row = Some true).
  { intros row Hr. apply List.find_some in Hr as [Hin%list_elem_of_In Hid%N.eqb_eq].
    apply list_elem_of_fmap in Hin as ([k y] & -> & Hk%elem_of_map_to_list). by eapply H. }
  split.
  - unfold mint_user_reading.
    destruct (get_reading_by_id_cases id w) as (w3 & Hs3 & Ht3 & [(row & Hr & E)|(e & E)]).
    + rewrite (bind_run _ _ _ _ _ E).
      destruct (rd_user_id row) as [uid|]; [|by split_and!]. rewrite (bind_run _ _ w3 uid w3 eq_refl).
      destruct (negb _); [by split_and!|].
      destruct (minted_row_refused config energy_mint id row w3 (Hm _ Hr)) as [e ->]. by split_and!.
    + rewrite (bind_run_Err _ _ _ _ _ E). by split_and!.
  - unfold mint_from_reading. destruct (check_admin_role _); [|by split_and!].
    destruct (get_reading_by_id_cases id w) as (w3 & Hs3 & Ht3 & [(row & Hr & E)|(e & E)]).
    + rewrite (bind_run _ _ _ _ _ E).
      destruct (minted_row_refused config energy_mint id row w3 (Hm _ Hr)) as [e ->]. by split_and!.
    + rewrite (bind_run_Err _ _ _ _ _ E). by split_and!.
Qed.

(** C32: no reading is minted twice through these requests: once one of them has succeeded, every
    later one, of its owner or of an administrator, is refused before it reaches the chain, under
    every failure schedule and after any number of turns of the reading workers, submissions of the
    simulator and mints of any readings, provided these store their readings under identifiers
    other than this one. *)
Theorem reading_minted_once user id w r w1 user' w2 :
  mint_user_reading config energy_mint user id w = (Ok r, w1)
  \/ mint_from_reading config energy_mint user id w = (Ok r, w1) ->
  rtc (reading_step id) (st w1) (st w2) ->
  (let '(r', w3) := mint_user_reading config energy_mint user' id w2 in
   is_ok r' = false /\ st w3 = st w2 /\ trace w3 = trace w2)
  /\ (let '(r', w3) := mint_from_reading config energy_mint user' id w2 in
      is_ok r' = false /\ st w3 = st w2 /\ trace w3 = trace w2).
Proof.
  intros H Hsteps. apply all_minted_refused.
  assert (H1 : all_minted id (st w1)).
  { destruct H as [H|H];
      [pose proof (mint_user_reading_result config energy_mint user id w) as G
      |pose proof (mint_from_reading_result config energy_mint user id w) as G];
      rewrite H in G; destruct G as (calls & _ & row & amount & _ & _ & _ & G); by eapply mark_rows_minted. }
  clear H. induction Hsteps as [|x y z Hxy _ IH]; [done|]. apply IH. by eapply reading_step_keeps.
Qed.
End once.

(** ** Reading the readings *)

Section pages.
Context `{RDec : RowDecode}.

Lemma newer_first_total r s : newer_first r s = true \/ newer_first s r = true.
Proof. unfold newer_first. destruct (Z.le_ge_cases (rd_timestamp s) (rd_timestamp r)); [left|right]; lia. Qed.

Lemma readings_of_sorted serial wanted d :
  Sorted.StronglySorted (rel newer_first) (readings_of serial wanted d).
Proof.
  apply Sorted.Sorted_StronglySorted.
  - intros x y z. unfold rel, newer_first. lia.
  - apply sort_by_sorted, newer_first_total.
Qed.

Lemma readings_of_wanted serial wanted d r : r ∈ readings_of serial wanted d ->
  rd_serial r = serial /\ wanted r = true.
Proof.
  unfold readings_of. rewrite sort_by_perm. intros [_ H]%list_elem_of_In%List.filter_In.
  apply andb_true_iff in H as [H1 H2]. split; [by apply String.eqb_eq|done].
Qed.

Lemma page_sorted {A} (R : A -> A -> Prop) limit offset l :
  Sorted.StronglySorted R l -> Sorted.StronglySorted R (sql_page limit offset l).
Proof.
  intros H. unfold sql_page. rewrite <- (take_drop (Z.to_nat offset) l) in H.
  apply StronglySorted_app_1_r in H. rewrite <- (take_drop (Z.to_nat limit) (drop _ l)) in H.
  by apply StronglySorted_app_1_l in H.
Qed.

Lemma page_of_spec q serial d page : page_of q serial d = Some page ->
  Z.of_nat (length page) <= Z.min (default 100 (g_limit q)) 1000
  /\ Sorted.StronglySorted (rel newer_first) page
  /\ Forall (fun r => rd_serial r = serial /\ in_dates q r = true) page.
Proof.
  unfold page_of. destruct (_ || _) eqn:E; [done|]. intros [= <-].
  apply orb_false_iff in E as [E1%Z.ltb_ge E2%Z.ltb_ge]. split_and!.
  - unfold sql_page. rewrite length_take. lia.
  - apply page_sorted, readings_of_sorted.
  - apply list.Forall_take, list.Forall_drop, list.Forall_forall. apply readings_of_wanted.
Qed.

Lemma decode_refused (Hn : forall x, numeric_as_f64 x = None) r : decode_reading r = None.
Proof. unfold decode_reading. destruct (rd_kwh r) as [k|]; [|done]. simpl. by rewrite Hn. Qed.

(** The readings of a meter.  The answer is a page of the rows of that meter, within the
    dates, newest first, at most a thousand; it changes nothing.  If the driver refuses NUMERIC
    values as [f64], only an empty page can be answered. *)
Theorem readings_page serial q w :
  let '(r, w') := get_meter_readings serial q w in
  st w' = st w /\ trace w' = trace w /\
  match r with
  | Ok resp => exists page, page_of q serial (st w) = Some page
      /\ mapM decode_reading page = Some (rs_readings resp)
      /\ Z.of_nat (length page) <= rs_limit resp <= 1000
      /\ Sorted.StronglySorted (rel newer_first) page
      /\ Forall (fun r => rd_serial r = serial /\ in_dates q r = true) page
      /\ ((forall x, numeric_as_f64 x = None) -> page = [])
  | Err e => e = FDb
  end.
Proof.
  unfold get_meter_readings.
  destruct (query_run (page_of q serial) w) as (w1 & Hs & Ht & [E|E]).
  2: { rewrite (bind_run_Err _ _ _ _ _ E). by split_and!. }
  rewrite (bind_run _ _ _ _ _ E). cbv beta. clear E.
  destruct (page_of q serial (st w)) as [page|] eqn:Ep; [|by split_and!].
  destruct (mapM decode_reading page) as [rows|] eqn:Er.
  2: { rewrite (bind_run_Err _ _ w1 FDb w1); [by split_and!|]. simpl. by rewrite Er. }
  rewrite (bind_run _ _ w1 rows w1) by (simpl; by rewrite Er). cbv beta.
  match goal with |- context [(attempt (query ?g) ≫= ?f) w1] =>
    destruct (attempt_query g w1) as (total & w2 & E & Hs2 & Ht2 & _); rewrite (bind_run _ f _ _ _ E) end.
  simpl. split; [congruence|]. split; [congruence|].
  destruct (page_of_spec q serial (st w) page Ep) as (H1 & H2 & H3).
  exists page. split; [done|]. split; [done|]. split; [lia|]. split; [done|]. split; [done|].
  intros Hn; destruct page as [|row page]; [done|]; exfalso.
  cbn [mapM] in Er. by rewrite (decode_refused Hn row) in Er.
Qed.
End pages.

(** ** Witnesses *)

Definition demo_address_text : AddressText := {| pubkey_error a := "Invalid pubkey" |}.
Definition demo_pg_float : PgFloat := {| float8_of z := f64_div (f64_of_Z z) (f64_of_Z U) |}.

Section witnesses.
#[local] Existing Instance std_chars.
#[local] Existing Instance std_numerics.
#[local] Existing Instance demo_calendar.
#[local] Existing Instance demo_chain.
#[local] Existing Instance demo_cipher.
#[local] Existing Instance demo_base64.
#[local] Existing Instance plain_tokens.
#[local] Existing Instance demo_env.
#[local] Existing Instance demo_pg.
#[local] Existing Instance demo_decimal_float.
#[local] Existing Instance no_deadline.
#[local] Existing Instance demo_float_text.
#[local] Existing Instance demo_address_text.
#[local] Existing Instance demo_pg_float.

Definition demo_claims (user : Uuid) : Claims := claims_new 0 user "owner" "prosumer".

(** Two readings of 3 kWh, the first of which its owner mints in between: the aggregation still
    holds its energy, and mints it again with the second. *)
Definition two_readings : world RdDb Event :=
  let process n w := snd (process_reading_task demo_config default_config "mint" (demo_ids n) 7 (demo_task 3 None) w) in
  process 200%N (snd (mint_user_reading default_config "mint" (demo_claims 1) 100 (process 100%N (reading_world [])))).

(** Minting a reading on request does not take it out of the aggregation: two readings of
    3 kWh each mint 9 kWh. *)
Theorem energy_minted_twice : minted_in (trace two_readings) = [f64 3; f64 6].
Proof. vm_compute. reflexivity. Qed.

Definition minted_world : world RdDb Event :=
  snd (process_reading_task demo_config default_config "mint" (demo_ids 100) 7 (demo_task 3 None) (reading_world [])).

Definition demo_submission : SubmitReadingRequest :=
  {| s_wallet_address := Some "anyone"; s_kwh_amount := dec 100 0; s_reading_timestamp := 5;
     s_meter_serial := None; s_energy_generated := None;
     s_energy_consumed := None; s_surplus_energy := None; s_deficit_energy := None; s_voltage := None;
     s_current := None; s_power_generated := None; s_power_consumed := None; s_power_factor := None; s_frequency := None; s_temperature := None;
     s_thd_voltage := None; s_thd_current := None; s_latitude := None; s_longitude := None;
     s_battery_level := None |}.

Lemma reading_minted_once_witness :
  let w1 := snd (mint_user_reading default_config "mint" (demo_claims 1) 100 minted_world) in
  let w2 := snd (submit_reading "mint" 101 7 demo_submission w1) in
  minted_in (trace w1) = [f64 3]
  /\ is_ok (fst (mint_user_reading default_config "mint" (demo_claims 1) 100 w2)) = false.
Proof.
  cbv zeta. set (w2 := snd (submit_reading _ _ _ _ _)).
  assert (H : exists r w1, mint_user_reading default_config "mint" (demo_claims 1) 100 minted_world = (Ok r, w1)
    /\ minted_in (trace w1) = [f64 3]) by (eexists _, _; split; vm_compute; reflexivity).
  destruct H as (r & w1 & E & Hm). subst w2. rewrite E. split; [exact Hm|]. cbn [snd].
  set (w2 := snd (submit_reading _ _ _ _ _)).
  destruct (reading_minted_once demo_config default_config "mint" (demo_claims 1) 100 minted_world r w1 (demo_claims 1)
    w2 (or_introl E)) as [G _].
  { eapply rtc_once, step_submission. discriminate. }
  destruct (mint_user_reading _ _ _ _ w2) as [r' w3]. apply G.
Defined.

(** Five requests of 100 kWh each. *)
Lemma submissions_mint_unrecorded_witness :
  mints (trace (submissions "mint" 5 (fun n => N.of_nat n) 7 demo_submission (reading_world [])))
  = replicate 5 ("anyone", f64 100).
Proof.
  destruct (submissions_mint_unrecorded (CH := demo_chain) (DF := demo_decimal_float) "mint" (fun _ _ => eq_refl) 5 (fun n => N.of_nat n) 7
    demo_submission "anyone" (reading_world []) eq_refl eq_refl eq_refl eq_refl
    ltac:(vm_compute; reflexivity) ltac:(vm_compute; reflexivity) ltac:(vm_compute; reflexivity)) as [H _].
  rewrite H. vm_compute. reflexivity.
Defined.
End witnesses.
