(* ===== verification/Accounts.v ===== *)
(** User accounts: registration, login, e-mail verification, passwords, wallets.

    [src/handlers/auth/registration.rs], [login.rs], [password_reset.rs] and [profile.rs], with
    the two bcrypt wrappers of [src/auth/password.rs] and the sending of their mails in
    [src/services/email/mod.rs], over the table [users] of the migrations.  Identifiers, tokens,
    salts, keypairs and the current time are arguments; times are nanoseconds since the epoch,
    within chrono's range.  bcrypt and the SMTP transport are interfaces.  A handler that never
    returns [Err] has its HTTP body (and status, where it sets one) as result. *)
From S2P Require Import Prelude Numerics Errors Store Schema Orders Settlement Text Validation Auth Crypto.
From Stdlib Require Import Strings.Byte.
Open Scope string_scope.
Open Scope Z_scope.

(** [bcrypt::hash] with its random salt, and [bcrypt::verify]. *)
Class PasswordHash := {
  bcrypt : bytes -> string -> res string string;
  bcrypt_verify : string -> string -> res string bool;
  bcrypt_own salt password h : bcrypt salt password = Ok h -> bcrypt_verify password h = Ok true;
}.

(** The SMTP transport: the template, the address, the token and the name. *)
Class Mailer := { smtp_send : list Event -> string -> string -> string -> string -> res string unit }.

(** ** The table *)

Record Account := {
  ac_username : string;
  ac_email : string;
  ac_password_hash : string;
  ac_role : string;
  ac_first_name : option string;
  ac_last_name : option string;
  ac_active : bool;
  ac_email_verified : bool;
  ac_registered : bool;
  ac_verification_token : option string;
  ac_verification_expires : option DateTime;
  ac_reset_token : option string;
  ac_reset_expires : option DateTime;
  ac_wallet : option string;
  ac_key : option bytes;
  ac_salt : option bytes;
  ac_iv : option bytes;
  ac_balance : option Decimal;
  ac_locked_amount : option Decimal;
  ac_locked_energy : option Decimal;
  ac_created_at : DateTime;
}.

Abbreviation AccountDb := (gmap Uuid Account).
Abbreviation AM := (M AccountDb Event).

(** The columns a verification or a change of the wallet writes. *)
Definition with_wallet (verified registered : bool) (wallet : option string)
    (key salt iv : option bytes) (a : Account) : Account :=
  {| ac_username := ac_username a; ac_email := ac_email a; ac_password_hash := ac_password_hash a;
     ac_role := ac_role a; ac_first_name := ac_first_name a; ac_last_name := ac_last_name a;
     ac_active := ac_active a; ac_email_verified := verified; ac_registered := registered;
     ac_verification_token := ac_verification_token a;
     ac_verification_expires := ac_verification_expires a;
     ac_reset_token := ac_reset_token a; ac_reset_expires := ac_reset_expires a;
     ac_wallet := wallet; ac_key := key; ac_salt := salt; ac_iv := iv;
     ac_balance := ac_balance a; ac_locked_amount := ac_locked_amount a;
     ac_locked_energy := ac_locked_energy a; ac_created_at := ac_created_at a |}.

(** The columns of the password and of the two tokens. *)
Definition with_secrets (hash : string) (verification : option string)
    (verification_expires : option DateTime) (reset : option string)
    (reset_expires : option DateTime) (a : Account) : Account :=
  {| ac_username := ac_username a; ac_email := ac_email a; ac_password_hash := hash;
     ac_role := ac_role a; ac_first_name := ac_first_name a; ac_last_name := ac_last_name a;
     ac_active := ac_active a; ac_email_verified := ac_email_verified a;
     ac_registered := ac_registered a; ac_verification_token := verification;
     ac_verification_expires := verification_expires; ac_reset_token := reset;
     ac_reset_expires := reset_expires; ac_wallet := ac_wallet a; ac_key := ac_key a;
     ac_salt := ac_salt a; ac_iv := ac_iv a; ac_balance := ac_balance a;
     ac_locked_amount := ac_locked_amount a; ac_locked_energy := ac_locked_energy a;
     ac_created_at := ac_created_at a |}.

(** UNIQUE: user name, address, wallet. *)
Definition clash (a b : Account) : bool :=
  (ac_username a =? ac_username b)%string || (ac_email a =? ac_email b)%string
  || match ac_wallet a, ac_wallet b with Some v, Some w => (v =? w)%string | _, _ => false end.

Definition unique_in (id : Uuid) (a : Account) (d : AccountDb) : bool :=
  forallb (fun x => (x.1 =? id)%N || negb (clash a x.2)) (map_to_list d).

Definition account_fits (a : Account) : bool :=
  varchar 50 (Some (ac_username a)) && varchar 255 (Some (ac_email a))
  && varchar 255 (Some (ac_password_hash a)) && varchar 100 (ac_first_name a)
  && varchar 100 (ac_last_name a) && varchar 88 (ac_wallet a)
  && varchar 128 (ac_verification_token a) && varchar 128 (ac_reset_token a).

(** ** Statements *)

Definition insert_account (id : Uuid) (a : Account) (d : AccountDb) : option AccountDb :=
  match d !! id with
  | Some _ => None
  | None => if unique_in id a d && account_fits a then Some (<[id := a]> d) else None
  end.

(** [UPDATE users SET .. WHERE id = $ RETURNING ..]. *)
Definition update_account (id : Uuid) (f : Account -> Account) (d : AccountDb)
    : option (option (Uuid * Account) * AccountDb) :=
  match d !! id with
  | Some a =>
      if unique_in id (f a) d && account_fits (f a)
      then Some (Some (id, f a), <[id := f a]> d) else None
  | None => Some (None, d)
  end.

(** The same with another condition.  Two rows that satisfy it would be given the same wallet,
    which is UNIQUE. *)
Definition update_accounts (p : Account -> bool) (f : Account -> Account) (d : AccountDb)
    : option (option (Uuid * Account) * AccountDb) :=
  match List.filter (fun x => p x.2) (map_to_list d) with
  | [] => Some (None, d)
  | [(id, _)] => update_account id f d
  | _ => None
  end.

(** An [UPDATE] of which only the success counts. *)
Definition update_only (id : Uuid) (f : Account -> Account) (d : AccountDb) : option AccountDb :=
  snd <$> update_account id f d.

(** ** Requests and responses ([types.rs]) *)

Record UserResponse := {
  ur_id : Uuid;
  ur_username : string;
  ur_email : string;
  ur_role : string;
  ur_first_name : string;
  ur_last_name : string;
  ur_wallet : option string;
  ur_balance : Decimal;
  ur_locked_amount : Decimal;
  ur_locked_energy : Decimal;
}.

Record AuthResponse := { access_token : string; expires_in : Z; auth_user : UserResponse }.

Record LoginRequest := { lg_username : string; lg_password : string }.

Record RegistrationRequest := {
  nr_username : string;
  nr_email : string;
  nr_password : string;
  nr_first_name : string;
  nr_last_name : string;
}.

Record RegistrationResponse := {
  rr_message : string;
  rr_email_sent : bool;
  rr_auth : option AuthResponse;
}.

Record VerifyEmailResponse := {
  ve_success : bool;
  ve_message : string;
  ve_wallet : option string;
  ve_auth : option AuthResponse;
}.

Definition simple (success : bool) (message : string) : VerifyEmailResponse :=
  {| ve_success := success; ve_message := message; ve_wallet := None; ve_auth := None |}.

Record AccountsConfig := {
  email_service : option bool; (** the service, if configured, and whether it is enabled *)
  verification_expiry_hours : Z;
  encryption_secret : string;
}.

(** The row as [profile] and [login] show it. *)
Definition user_response (id : Uuid) (a : Account) : UserResponse :=
  {| ur_id := id; ur_username := ac_username a; ur_email := ac_email a; ur_role := ac_role a;
     ur_first_name := default "" (ac_first_name a); ur_last_name := default "" (ac_last_name a);
     ur_wallet := ac_wallet a; ur_balance := default 0 (ac_balance a);
     ur_locked_amount := default 0 (ac_locked_amount a);
     ur_locked_energy := default 0 (ac_locked_energy a) |}.

(** The empty user of a refused login. *)
Definition nobody : UserResponse :=
  {| ur_id := 0; ur_username := ""; ur_email := ""; ur_role := ""; ur_first_name := "";
     ur_last_name := ""; ur_wallet := None; ur_balance := 0; ur_locked_amount := 0;
     ur_locked_energy := 0 |}.

Definition guest (fresh : Uuid) : UserResponse :=
  {| ur_id := fresh; ur_username := "guest"; ur_email := "guest@gridtokenx.com"; ur_role := "user";
     ur_first_name := "Guest"; ur_last_name := "User"; ur_wallet := None; ur_balance := 0;
     ur_locked_amount := 0; ur_locked_energy := 0 |}.

Definition hours (n : Z) : Z := n * 3600 * 1000000000.
Definition seconds_of (now : DateTime) : Z := now / 1000000000.

Section handlers.
Context `{CC : CharClass} `{CH : Chain} `{ENV : Env} `{JWT : JwtLib} `{PH : PasswordHash}.
Context `{MA : Mailer} `{CI : Cipher} `{B64 : Base64}.
Context (config : AccountsConfig).

(** ** Passwords ([password.rs]) *)

Definition hash_password (salt : bytes) (password : string) : res ApiError string :=
  validate_password_strength password ≫= fun _ =>
  match bcrypt salt password with
  | Ok h => Ok h
  | Err e => Err (Internal ("Failed to hash password: " ++ e))
  end.

Definition verify_password (password hash : string) : res ApiError bool :=
  match bcrypt_verify password hash with
  | Ok b => Ok b
  | Err e => Err (Internal ("Failed to verify password: " ++ e))
  end.

(** ** Mail ([services/email/mod.rs]) *)

(** [send_verification_email] and [send_password_reset_email]: a disabled service sends nothing
    and reports success. *)
Definition send_token_email (enabled : bool) (template to token username : string) : AM bool := fun w =>
  if negb enabled then (Ok true, w)
  else
    match smtp_send (trace w) template to token username with
    | Ok _ => (Ok true, World (st w) (faults w) (trace w ++ [EvMail template to token username true])%list)
    | Err _ => (Ok false, World (st w) (faults w) (trace w ++ [EvMail template to token username false])%list)
    end.

(** [if let Some(ref email_service) = state.email_service { .. } else { false }]. *)
Definition send_if_configured (template to token username : string) : AM bool :=
  match email_service config with
  | Some enabled => send_token_email enabled template to token username
  | None => mret false
  end.

(** ** Tokens *)

(** [encode_token(&claims).unwrap_or_else(|_| format!("token_{}_{}", ..))]. *)
Definition issue_token (now : DateTime) (id : Uuid) (username role : string) : string :=
  match encode_token (claims_new (seconds_of now) id username role) with
  | Ok t => t
  | Err _ => "token_" ++ username ++ "_" ++ uuid_to_string id
  end.

(** [generate_auth_response] of [verify_email]. *)
Definition generate_auth_response (now : DateTime) (id : Uuid) (a : Account) (wallet : option string)
    : option AuthResponse :=
  match encode_token (claims_new (seconds_of now) id (ac_username a) (ac_role a)) with
  | Ok t => Some {| access_token := t; expires_in := 86400;
      auth_user := {| ur_id := id; ur_username := ac_username a; ur_email := ac_email a;
        ur_role := ac_role a; ur_first_name := default "" (ac_first_name a);
        ur_last_name := default "" (ac_last_name a); ur_wallet := wallet; ur_balance := 0;
        ur_locked_amount := 0; ur_locked_energy := 0 |} |}
  | Err _ => None
  end.

(** ** Registration ([registration.rs]) *)

Definition new_account (now : DateTime) (hash token : string) (q : RegistrationRequest) : Account :=
  {| ac_username := nr_username q; ac_email := nr_email q; ac_password_hash := hash;
     ac_role := "user"; ac_first_name := Some (nr_first_name q);
     ac_last_name := Some (nr_last_name q); ac_active := true; ac_email_verified := false;
     ac_registered := false; ac_verification_token := Some token;
     ac_verification_expires := Some (now + hours (verification_expiry_hours config));
     ac_reset_token := None; ac_reset_expires := None; ac_wallet := None; ac_key := None;
     ac_salt := None; ac_iv := None; ac_balance := Some 0; ac_locked_amount := Some 0;
     ac_locked_energy := Some 0; ac_created_at := now |}.

Definition register (id token : Uuid) (salt : bytes) (now : DateTime) (q : RegistrationRequest)
    : AM RegistrationResponse :=
  let failed text := {| rr_message := "Registration failed: " ++ text; rr_email_sent := false;
                        rr_auth := None |} in
  match hash_password salt (nr_password q) with
  | Err e => mret (failed (display e))
  | Ok hash =>
      let verification_token := uuid_to_string token in
      inserted ← attempt (exec (insert_account id (new_account now hash verification_token q)));
      match inserted with
      | Err _ => mret (failed db_error_text)
      | Ok _ =>
          email_sent ← send_if_configured "verification" (nr_email q) verification_token (nr_username q);
          mret {| rr_message :=
                    if email_sent : bool then
                      "Registration successful. Please check your email to verify your account."
                    else "Registration successful. Email verification may be delayed.";
                  rr_email_sent := email_sent;
                  rr_auth := Some {| access_token := issue_token now id (nr_username q) "user";
                    expires_in := 86400;
                    auth_user := {| ur_id := id; ur_username := nr_username q;
                      ur_email := nr_email q; ur_role := "user"; ur_first_name := nr_first_name q;
                      ur_last_name := nr_last_name q; ur_wallet := None; ur_balance := 0;
                      ur_locked_amount := 0; ur_locked_energy := 0 |} |} |}
      end
  end.

(** The new token of [resend_verification]. *)
Definition renew_verification (token : string) (expires : DateTime) (a : Account) : Account :=
  with_secrets (ac_password_hash a) (Some token) (Some expires) (ac_reset_token a) (ac_reset_expires a) a.

Definition resend_verification (token : Uuid) (now : DateTime) (email : string) : AM VerifyEmailResponse :=
  found ← attempt (query (row_where (fun a => (ac_email a =? email)%string)));
  match found with
  | Err _ => mret (simple false "An error occurred. Please try again.")
  | Ok None => mret (simple false "Email address not found.")
  | Ok (Some (user_id, a)) =>
      if ac_email_verified a then mret (simple true "Email is already verified. You can login now.")
      else
        let verification_token := uuid_to_string token in
        updated ← attempt (exec (update_only user_id
          (renew_verification verification_token (now + hours (verification_expiry_hours config)))));
        match updated with
        | Err _ => mret (simple false "Failed to generate new verification token.")
        | Ok _ =>
            email_sent ← send_if_configured "verification" email verification_token (ac_username a);
            mret (if email_sent : bool
                  then simple true ("Verification email sent to " ++ email ++ ". Please check your inbox.")
                  else simple false "Failed to send verification email. Please try again later.")
        end
  end.

(** ** Login ([login.rs]) *)

Definition login_matches (identity : string) (a : Account) : bool :=
  ((ac_username a =? identity)%string || (ac_email a =? identity)%string) && ac_active a.

(** The status and the body. *)
Definition login (now : DateTime) (q : LoginRequest) : AM (Z * AuthResponse) :=
  let refused status token := (status, {| access_token := token; expires_in := 0; auth_user := nobody |}) in
  found ← attempt (query (row_where (login_matches (lg_username q))));
  mret match found with
  | Ok (Some (id, a)) =>
      match verify_password (lg_password q) (ac_password_hash a) with
      | Ok true =>
          (200, {| access_token := issue_token now id (ac_username a) (ac_role a);
                   expires_in := 86400; auth_user := user_response id a |})
      | Ok false => refused 401 "invalid_credentials"
      | Err _ => refused 500 ""
      end
  | Ok None => refused 401 "user_not_found"
  | Err _ => refused 500 ""
  end.

(** ** E-mail verification ([login.rs]) *)

(** The three updates of [verify_email]: a pending verification, a user without a wallet, and
    any user. *)
Definition verified (registered : bool) (wallet : string) (key salt iv : bytes) : Account -> Account :=
  with_wallet true registered (Some wallet) (Some key) (Some salt) (Some iv).

Definition pending_token (token : string) (a : Account) : bool :=
  match ac_verification_token a with
  | Some t => (t =? token)%string && negb (ac_email_verified a)
  | None => false
  end.

Definition walletless (username : string) (a : Account) : bool :=
  (ac_username a =? username)%string
  && match ac_wallet a with Some w => (w =? "")%string | None => true end.

(** [COALESCE(x, y)], and with [NULLIF(x, '')]. *)
Definition coalesce {A} (x : option A) (y : A) : option A := Some (default y x).
Definition nullif_empty (x : option string) : option string :=
  match x with Some "" => None | _ => x end.

Definition completed (wallet : string) (key salt iv : bytes) (a : Account) : Account :=
  with_wallet true (ac_registered a) (coalesce (nullif_empty (ac_wallet a)) wallet)
    (coalesce (ac_key a) key) (coalesce (ac_salt a) salt) (coalesce (ac_iv a) iv) a.

(** Airdrop and registration of the new wallet, neither of which stops the verification. *)
Definition register_wallet_on_chain (wallet : string) : AM bool :=
  airdrop ← attempt (chain_call (RequestAirdrop wallet 100000000));
  match airdrop with
  | Ok _ =>
      registered ← attempt (chain_call (RegisterUser wallet 0 "GridTokenX Platform"));
      mret (is_ok registered)
  | Err _ => mret false
  end.

Definition decode_or_empty (text : string) : bytes :=
  match b64_decode text with Ok l => l | Err _ => [] end.

(** The answers of [verify_email]. *)
Definition invalid_token : VerifyEmailResponse := simple false "Invalid or expired verification token".
Definition logged_in (message : string) (now : DateTime) (id : Uuid) (a : Account)
    (wallet : option string) : VerifyEmailResponse :=
  {| ve_success := true; ve_message := message; ve_wallet := wallet;
     ve_auth := generate_auth_response now id a wallet |}.

(** A test token [verify_<username>]: the user, whatever their wallet. *)
Definition verify_any_user (now : DateTime) (username wallet : string) (key salt iv : bytes)
    : AM VerifyEmailResponse :=
  any ← attempt (exec_ret (update_accounts (fun a => (ac_username a =? username)%string)
                             (completed wallet key salt iv)));
  match any with
  | Ok (Some (id, a)) => mret (logged_in "Email verified! You are now logged in." now id a (ac_wallet a))
  | _ => mret invalid_token
  end.

(** The same, with a user without a wallet first. *)
Definition verify_by_username (now : DateTime) (username : string) (registered : bool)
    (wallet : string) (key salt iv : bytes) : AM VerifyEmailResponse :=
  by_name ← attempt (exec_ret (update_accounts (walletless username)
                                 (verified registered wallet key salt iv)));
  match by_name with
  | Ok (Some (id, a)) => mret (logged_in "Email verified! You are now logged in." now id a (Some wallet))
  | _ => verify_any_user now username wallet key salt iv
  end.

Definition verify_email (kp : Keypair) (draws : Draws) (now : DateTime) (token : string)
    : AM VerifyEmailResponse :=
  if (token =? "")%string then mret (simple false "Missing verification token")
  else
    let wallet := kp_pubkey kp in
    match encrypt_private_key draws (encryption_secret config) (kp_bytes kp) with
    | Err FPanic => fail FPanic
    | Err _ => mret (simple false "Failed to create secure wallet")
    | Ok (encrypted_key, salt, iv) =>
        let key := decode_or_empty encrypted_key in
        let salt := decode_or_empty salt in
        let iv := decode_or_empty iv in
        registered ← register_wallet_on_chain wallet;
        updated ← attempt (exec_ret (update_accounts (pending_token token)
                                       (verified registered wallet key salt iv)));
        match updated with
        | Ok (Some (id, a)) =>
            mret (logged_in "Email verified successfully! You are now logged in." now id a (Some wallet))
        | Ok None =>
            if starts_with "verify_" token then
              verify_by_username now (String.substring 7 (String.length token - 7) token)
                registered wallet key salt iv
            else mret invalid_token
        | Err _ => mret (simple false "Verification failed. Please try again.")
        end
    end.

(** ** Passwords ([password_reset.rs]) *)

Definition start_reset (token : string) (expires : DateTime) (a : Account) : Account :=
  with_secrets (ac_password_hash a) (ac_verification_token a) (ac_verification_expires a)
    (Some token) (Some expires) a.

Definition forgot_password (token : Uuid) (now : DateTime) (email : string) : AM VerifyEmailResponse :=
  let sent := simple true "If an account with that email exists, a password reset link has been sent." in
  found ← attempt (query (row_where (fun a => (ac_email a =? email)%string && ac_active a)));
  match found with
  | Ok None => mret sent
  | Err _ => mret (simple false "An error occurred. Please try again.")
  | Ok (Some (user_id, a)) =>
      let reset_token := uuid_to_string token in
      updated ← attempt (exec (update_only user_id (start_reset reset_token (now + hours 1))));
      match updated with
      | Err _ => mret (simple false "Failed to generate reset token. Please try again.")
      | Ok _ => send_if_configured "reset" email reset_token (ac_username a) ;; mret sent
      end
  end.

Definition has_reset_token (token : string) (a : Account) : bool :=
  match ac_reset_token a, ac_reset_expires a with
  | Some t, Some _ => (t =? token)%string && ac_active a
  | _, _ => false
  end.

Definition finish_reset (hash : string) (a : Account) : Account :=
  with_secrets hash (ac_verification_token a) (ac_verification_expires a) None None a.

Definition reset_password (salt : bytes) (now : DateTime) (token new_password : string)
    : AM VerifyEmailResponse :=
  if (token =? "")%string then mret (simple false "Reset token is required.")
  else if str_len new_password <? 8 then
    mret (simple false "Password must be at least 8 characters long.")
  else
    found ← attempt (query (row_where (has_reset_token token)));
    match found with
    | Ok None => mret (simple false "Invalid or expired reset token.")
    | Err _ => mret (simple false "An error occurred. Please try again.")
    | Ok (Some (user_id, a)) =>
        if default now (ac_reset_expires a) <? now then
          mret (simple false "Reset token has expired. Please request a new one.")
        else
          match hash_password salt new_password with
          | Err e => mret (simple false (display e))
          | Ok hash =>
              updated ← attempt (exec (update_only user_id (finish_reset hash)));
              mret match updated with
                   | Ok _ => simple true "Password has been reset successfully. You can now login with your new password."
                   | Err _ => simple false "Failed to reset password. Please try again."
                   end
          end
    end.

(** [auth_header.strip_prefix("Bearer ").unwrap_or(auth_header)]. *)
Definition strip_bearer (header : string) : string :=
  if starts_with "Bearer " header then String.substring 7 (String.length header - 7) header else header.

Definition set_password (hash : string) (a : Account) : Account :=
  with_secrets hash (ac_verification_token a) (ac_verification_expires a) (ac_reset_token a)
    (ac_reset_expires a) a.

Definition change_password (salt : bytes) (now : DateTime) (header : option string)
    (current_password new_password : string) : AM VerifyEmailResponse :=
  match decode_token (seconds_of now) (strip_bearer (default "" header)) with
  | Err _ => mret (simple false "Invalid or expired token. Please log in again.")
  | Ok claims =>
      if str_len new_password <? 8 then
        mret (simple false "New password must be at least 8 characters long.")
      else
        found ← attempt (query (fun d => a ← d !! sub claims;
                                  if ac_active a then Some (ac_password_hash a) else None));
        match found with
        | Ok None => mret (simple false "User not found.")
        | Err _ => mret (simple false "An error occurred. Please try again.")
        | Ok (Some current_hash) =>
            match verify_password current_password current_hash with
            | Ok false => mret (simple false "Current password is incorrect.")
            | Err _ => mret (simple false "An error occurred. Please try again.")
            | Ok true =>
                match hash_password salt new_password with
                | Err e => mret (simple false (display e))
                | Ok new_hash =>
                    updated ← attempt (exec (update_only (sub claims) (set_password new_hash)));
                    mret match updated with
                         | Ok _ => simple true "Password changed successfully."
                         | Err _ => simple false "Failed to change password. Please try again."
                         end
                end
            end
        end
  end.

(** ** Profile and wallet ([profile.rs]) *)

Definition profile (fresh : Uuid) (now : DateTime) (header : option string) : AM UserResponse :=
  match decode_token (seconds_of now) (strip_bearer (default "" header)) with
  | Err _ => mret (guest fresh)
  | Ok claims =>
      found ← attempt (query (fun d => d !! sub claims));
      mret match found with Ok (Some a) => user_response (sub claims) a | _ => guest fresh end
  end.

(** The claims of a request that needs them. *)
Definition authorized (now : DateTime) (header : option string) : AM Claims :=
  h ← expect (FApi (Unauthorized "Missing token")) header;
  match decode_token (seconds_of now) (strip_bearer h) with
  | Ok c => mret c
  | Err _ => fail (FApi (Unauthorized "Invalid token"))
  end.

(** [UPDATE .. RETURNING], of which [fetch_one] wants a row. *)
Definition update_returning (id : Uuid) (f : Account -> Account) : AM (Uuid * Account) :=
  map_err (fun _ => FApi (Internal "Database error"))
    (row ← exec_ret (update_account id f); expect FDb row).

Definition update_wallet (now : DateTime) (header : option string) (wallet : string) : AM UserResponse :=
  claims ← authorized now header;
  row ← update_returning (sub claims) (fun a =>
    with_wallet (ac_email_verified a) true (Some wallet) (ac_key a) (ac_salt a) (ac_iv a) a);
  mret (user_response row.1 row.2).

Definition generate_wallet (kp : Keypair) (draws : Draws) (now : DateTime) (header : option string)
    : AM UserResponse :=
  claims ← authorized now header;
  match encrypt_private_key draws (encryption_secret config) (kp_bytes kp) with
  | Err FPanic => fail FPanic
  | Err _ => fail (FApi (Internal "Encryption failure"))
  | Ok (key, salt, iv) =>
      row ← update_returning (sub claims) (fun a =>
        with_wallet (ac_email_verified a) true (Some (kp_pubkey kp)) (Some (decode_or_empty key))
          (Some (decode_or_empty salt)) (Some (decode_or_empty iv)) a);
      ignore (chain_call (RequestAirdrop (kp_pubkey kp) 2000000000)) ;;
      mret (user_response row.1 row.2)
  end.
End handlers.

(** ** Histories: any sequence of requests, under any failures *)

Inductive AccountOp :=
| OpRegister (id token : Uuid) (salt : bytes) (now : DateTime) (q : RegistrationRequest)
| OpResend (token : Uuid) (now : DateTime) (email : string)
| OpLogin (now : DateTime) (q : LoginRequest)
| OpVerify (kp : Keypair) (draws : Draws) (now : DateTime) (token : string)
| OpForgot (token : Uuid) (now : DateTime) (email : string)
| OpReset (salt : bytes) (now : DateTime) (token new_password : string)
| OpChange (salt : bytes) (now : DateTime) (header : option string) (current new_password : string)
| OpProfile (fresh : Uuid) (now : DateTime) (header : option string)
| OpWallet (now : DateTime) (header : option string) (wallet : string)
| OpGenerate (kp : Keypair) (draws : Draws) (now : DateTime) (header : option string).

Section histories.
Context `{CC : CharClass} `{CH : Chain} `{ENV : Env} `{JWT : JwtLib} `{PH : PasswordHash}.
Context `{MA : Mailer} `{CI : Cipher} `{B64 : Base64}.
Context (config : AccountsConfig).

Definition perform (o : AccountOp) : AM unit :=
  match o with
  | OpRegister id token salt now q => register config id token salt now q ;; mret ()
  | OpResend token now email => resend_verification config token now email ;; mret ()
  | OpLogin now q => login now q ;; mret ()
  | OpVerify kp draws now token => verify_email config kp draws now token ;; mret ()
  | OpForgot token now email => forgot_password config token now email ;; mret ()
  | OpReset salt now token password => reset_password salt now token password ;; mret ()
  | OpChange salt now header current password =>
      change_password salt now header current password ;; mret ()
  | OpProfile fresh now header => profile fresh now header ;; mret ()
  | OpWallet now header wallet => update_wallet now header wallet ;; mret ()
  | OpGenerate kp draws now header => generate_wallet config kp draws now header ;; mret ()
  end.

(** Each request ends for itself: with an answer, an error or a panic. *)
Definition history (ops : list AccountOp) : AM unit := for_each (fun o => spawn (perform o)) ops.

(** The claims of a request with a valid token. *)
Definition bears (now : DateTime) (header : option string) (id : Uuid) : Prop :=
  exists c, decode_token (seconds_of now) (strip_bearer (default "" header)) = Ok c /\ sub c = id.

(** The row a request may write, given the tables: which account, and its new columns. *)
Definition writes (o : AccountOp) (d : AccountDb) (id : Uuid) (b : Account) : Prop :=
  match o with
  | OpRegister id' token salt now q => id = id' /\ d !! id = None
      /\ exists hash, hash_password salt (nr_password q) = Ok hash
         /\ b = new_account config now hash (uuid_to_string token) q
  | OpResend token now email => exists a, d !! id = Some a /\ ac_email a = email
      /\ ac_email_verified a = false
      /\ b = renew_verification (uuid_to_string token)
               (now + hours (verification_expiry_hours config)) a
  | OpVerify kp draws now token => exists a, d !! id = Some a /\ exists registered key salt iv,
      (pending_token token a = true \/ token = "verify_" ++ ac_username a)
      /\ (b = verified registered (kp_pubkey kp) key salt iv a
          \/ b = completed (kp_pubkey kp) key salt iv a)
  | OpForgot token now email => exists a, d !! id = Some a /\ ac_email a = email
      /\ ac_active a = true /\ b = start_reset (uuid_to_string token) (now + hours 1) a
  | OpReset salt now token password => exists a, d !! id = Some a /\ token <> ""
      /\ has_reset_token token a = true /\ now <= default now (ac_reset_expires a)
      /\ exists hash, hash_password salt password = Ok hash /\ b = finish_reset hash a
  | OpChange salt now header current password => bears now header id
      /\ exists a, d !! id = Some a /\ ac_active a = true
      /\ bcrypt_verify current (ac_password_hash a) = Ok true
      /\ exists hash, hash_password salt password = Ok hash /\ b = set_password hash a
  | OpWallet now header wallet => bears now header id
      /\ exists a, d !! id = Some a
      /\ b = with_wallet (ac_email_verified a) true (Some wallet) (ac_key a) (ac_salt a) (ac_iv a) a
  | OpGenerate kp draws now header => bears now header id
      /\ exists a, d !! id = Some a /\ exists key salt iv,
         b = with_wallet (ac_email_verified a) true (Some (kp_pubkey kp)) key salt iv a
  | OpLogin _ _ | OpProfile _ _ _ => False
  end.

(** The tables after a request: as they were, or with one row written that the constraints
    of the table admit. *)
Definition outcome (o : AccountOp) (d0 d : AccountDb) : Prop :=
  d = d0 \/ exists id b, writes o d0 id b /\ unique_in id b d0 = true /\ account_fits b = true
                         /\ d = <[id := b]> d0.

(** ** Lemmas: the statements *)

Lemma update_account_Some id f d r d' : update_account id f d = Some (r, d') ->
  (r = None /\ d' = d /\ d !! id = None)
  \/ exists a, d !! id = Some a /\ r = Some (id, f a) /\ unique_in id (f a) d = true
       /\ account_fits (f a) = true /\ d' = <[id := f a]> d.
Proof.
  unfold update_account. destruct (d !! id) as [a|] eqn:E; [|intros [= <- <-]; by left].
  destruct (unique_in id (f a) d && account_fits (f a)) eqn:F; [|done].
  apply andb_prop in F as [F1 F2]. intros [= <- <-]. right. by exists a.
Qed.

Lemma update_only_Some id f d d' : update_only id f d = Some d' ->
  d' = d \/ exists a, d !! id = Some a /\ unique_in id (f a) d = true
    /\ account_fits (f a) = true /\ d' = <[id := f a]> d.
Proof.
  unfold update_only. intros H. destruct (update_account id f d) as [[r d1]|] eqn:E; [|discriminate H].
  injection H as ->. apply update_account_Some in E as [(_ & -> & _)|(a & Ha & _ & U & F & ->)];
    [by left|right; by exists a].
Qed.

Lemma update_accounts_Some p f d r d' : update_accounts p f d = Some (r, d') ->
  (r = None /\ d' = d)
  \/ exists id a, d !! id = Some a /\ p a = true /\ r = Some (id, f a)
       /\ unique_in id (f a) d = true /\ account_fits (f a) = true /\ d' = <[id := f a]> d.
Proof.
  unfold update_accounts. intros H.
  destruct (List.filter _ _) as [|[id x] [|]] eqn:E; [injection H as <- <-; by left| |done].
  apply update_account_Some in H as [(-> & -> & _)|(a & Ha & Hr & U & F & ->)]; [by left|right].
  exists id, a. split_and!; try done.
  assert (In (id, x) (List.filter (fun x => p x.2) (map_to_list d))) as [Hin Hp]%List.filter_In
    by (rewrite E; by left).
  apply list_elem_of_In, elem_of_map_to_list in Hin. simpl in Hp. congruence.
Qed.

Lemma preserves_mail (I : AccountDb -> Prop) template to token username :
  preserves I (send_if_configured config template to token username).
Proof.
  intros w Hw. unfold send_if_configured, send_token_email.
  destruct (email_service config) as [[]|]; simpl; [by destruct (smtp_send _ _ _ _ _)|done..].
Qed.

(** ** Lemmas: what a request may write *)

(** From the tables [d0], [m] ends in an outcome of the request [o]. *)
Definition settles {A} (o : AccountOp) (d0 : AccountDb) (m : AM A) : Prop :=
  hoare (eq d0) m (fun _ => outcome o d0) (fun _ => outcome o d0).

Lemma outcome_same o d0 : outcome o d0 d0.
Proof. by left. Qed.

Lemma settles_ret {A} o d0 (a : A) : settles o d0 (mret a).
Proof. apply hoare_ret. intros d <-. by left. Qed.

Lemma settles_fail {A} o d0 e : settles o d0 (fail e : AM A).
Proof. intros w Hw. left. exact (eq_sym Hw). Qed.

Lemma settles_then {A} o d0 (m : AM A) : settles o d0 m -> settles o d0 (m ;; mret ()).
Proof.
  intros H. eapply hoare_bind; [exact H|]. intros a. by apply hoare_ret.
Qed.

Lemma settles_query {A B} o d0 (f : AccountDb -> A) (k : res failure A -> AM B) :
  (forall r, (forall a, r = Ok a -> a = f d0) -> settles o d0 (k r)) ->
  settles o d0 (attempt (query f) ≫= k).
Proof.
  intros H w Hw. destruct (attempt_query f w) as (r & w1 & E & Hs & _ & _ & Hr).
  rewrite (bind_run _ _ _ _ _ E). apply (H r); [|congruence].
  intros a ->. destruct Hr as [[? _]|[= ->]]; congruence.
Qed.

(** After the last write nothing touches the tables. *)
Lemma settles_exec {B} o d0 g (k : res failure unit -> AM B) :
  (forall d, g d0 = Some d -> outcome o d0 d) ->
  (forall r, preserves (outcome o d0) (k r)) ->
  settles o d0 (attempt (exec g) ≫= k).
Proof.
  intros Hg Hk w Hw. destruct (attempt_exec g w) as (r & w1 & E & _ & _ & Hr).
  rewrite (bind_run _ _ _ _ _ E).
  assert (G : outcome o d0 (st (snd (k r w1)))).
  { apply Hk. destruct Hr as [(_ & Hs & _)|[_ H]]; [left; congruence|]. apply Hg. by rewrite Hw. }
  by destruct (k r w1) as [[a|e] w'].
Qed.

Lemma settles_exec_ret {B} o d0 f p (k : res failure (option (Uuid * Account)) -> AM B) :
  (forall id a, d0 !! id = Some a -> p a = true -> writes o d0 id (f a)) ->
  (forall row, preserves (outcome o d0) (k (Ok (Some row)))) ->
  settles o d0 (k (Ok None)) -> settles o d0 (k (Err FDb)) ->
  settles o d0 (attempt (exec_ret (update_accounts p f)) ≫= k).
Proof.
  intros Hg Hk Hn He w Hw.
  destruct (attempt_exec_ret (update_accounts p f) w) as (r & w1 & E & _ & _ & Hr).
  rewrite (bind_run _ _ _ _ _ E). rewrite <- Hw in Hr.
  destruct Hr as [(-> & Hs & _)|(a & d & -> & [[-> ->]|(id & x & Hx & Hp & -> & U & F & ->)]%update_accounts_Some & Hs)].
  - by apply He.
  - by apply Hn.
  - assert (G : outcome o d0 (st (snd (k (Ok (Some (id, f x))) w1)))).
    { apply Hk. right. exists id, (f x). split_and!; [by apply Hg|done..]. }
    by destruct (k (Ok (Some (id, f x))) w1) as [[b|e] w'].
Qed.

(** The row of an identifier. *)
Lemma updated_outcome o d0 id f :
  (forall a, d0 !! id = Some a -> writes o d0 id (f a)) ->
  forall d, update_only id f d0 = Some d -> outcome o d0 d.
Proof.
  intros H d [->|(a & Ha & U & F & ->)]%update_only_Some; [by left|right].
  exists id, (f a). split_and!; [by apply H|done..].
Qed.

#[local] Hint Resolve outcome_same settles_ret settles_fail preserves_mail : gateway.

Lemma register_settles id token salt now q d0 :
  settles (OpRegister id token salt now q) d0 (register config id token salt now q).
Proof.
  unfold register. cbv zeta.
  destruct (hash_password salt (nr_password q)) as [hash|e] eqn:Eh; [|apply settles_ret].
  apply settles_exec; [|intros []; eauto 6 with gateway].
  intros d. unfold insert_account. destruct (d0 !! id) eqn:E; [done|].
  destruct (_ && _) eqn:F; [|done]. apply andb_prop in F as [U F]. intros [= <-]. right.
  exists id, (new_account config now hash (uuid_to_string token) q).
  split; [|by split_and!]. split_and!; [done..|]. by exists hash.
Qed.

Lemma resend_settles token now email d0 :
  settles (OpResend token now email) d0 (resend_verification config token now email).
Proof.
  apply settles_query. intros [[[id a]|]|e] Hr; [|apply settles_ret..].
  destruct (ac_email_verified a) eqn:Ev; [apply settles_ret|].
  symmetry in Hr. specialize (Hr _ eq_refl). apply row_where_Some in Hr as [Ha He%String.eqb_eq].
  apply settles_exec; [|intros []; eauto 6 with gateway].
  apply updated_outcome. intros a' Ha'. exists a'. assert (a' = a) as -> by congruence. done.
Qed.

Lemma forgot_settles token now email d0 :
  settles (OpForgot token now email) d0 (forgot_password config token now email).
Proof.
  apply settles_query. intros [[[id a]|]|e] Hr; [|apply settles_ret..].
  specialize (Hr _ eq_refl). symmetry in Hr.
  apply row_where_Some in Hr as [Ha [He%String.eqb_eq Hact]%andb_prop].
  apply settles_exec; [|intros []; eauto 6 with gateway].
  apply updated_outcome. intros a' Ha'. exists a'. assert (a' = a) as -> by congruence. done.
Qed.

Lemma reset_settles salt now token password d0 :
  settles (OpReset salt now token password) d0 (reset_password salt now token password).
Proof.
  unfold reset_password. destruct (token =? "")%string eqn:Et; [apply settles_ret|].
  destruct (str_len password <? 8); [apply settles_ret|].
  apply settles_query. intros [[[id a]|]|e] Hr; [|apply settles_ret..].
  specialize (Hr _ eq_refl). symmetry in Hr. apply row_where_Some in Hr as [Ha Hp].
  destruct (default now (ac_reset_expires a) <? now) eqn:El; [apply settles_ret|].
  destruct (hash_password salt password) as [hash|e] eqn:Eh; [|apply settles_ret].
  apply settles_exec; [|intros []; eauto 6 with gateway].
  apply updated_outcome. intros a' Ha'. exists a'. assert (a' = a) as -> by congruence.
  apply Z.ltb_ge in El. split_and!; [done|by apply String.eqb_neq|done..|]. by exists hash.
Qed.

Lemma change_settles salt now header current password d0 :
  settles (OpChange salt now header current password) d0
    (change_password salt now header current password).
Proof.
  unfold change_password. destruct (decode_token _ _) as [c|e] eqn:Ec; [|apply settles_ret].
  destruct (str_len password <? 8); [apply settles_ret|].
  apply settles_query. intros [[h|]|e] Hr; [|apply settles_ret..].
  specialize (Hr _ eq_refl). simpl in Hr. destruct (d0 !! sub c) as [a|] eqn:Ha; [|discriminate Hr].
  simpl in Hr. destruct (ac_active a) eqn:Hact; [|discriminate Hr]. injection Hr as ->.
  unfold verify_password. destruct (bcrypt_verify _ _) as [[]|e] eqn:Ev; [|apply settles_ret..].
  destruct (hash_password salt password) as [hash|e] eqn:Eh; [|apply settles_ret].
  apply settles_exec; [|intros []; eauto 6 with gateway].
  apply updated_outcome. intros a' Ha'. split; [by exists c|].
  exists a'. assert (a' = a) as -> by congruence. split_and!; [done..|]. by exists hash.
Qed.

(** The claims of an accepted request. *)
Lemma authorized_run now header w r w' : authorized now header w = (r, w') ->
  w' = w /\ forall c, r = Ok c -> bears now header (sub c).
Proof.
  unfold authorized. destruct header as [h|]; unfold expect, mbind, M_bind, mret, M_ret, fail.
  - destruct (decode_token _ _) as [c|e] eqn:E; intros [= <- <-]; (split; [done|]); [|done].
    intros c' [= <-]. by exists c.
  - by intros [= <- <-].
Qed.

Lemma settles_update_returning {B} o d0 id f (k : Uuid * Account -> AM B) :
  (forall a, d0 !! id = Some a -> writes o d0 id (f a)) ->
  (forall row, preserves (outcome o d0) (k row)) ->
  settles o d0 (update_returning id f ≫= k).
Proof.
  intros Hw Hk. eapply hoare_bind with (R := fun _ => outcome o d0);
    [|intros row; apply hoare_preserves; [apply Hk|done]].
  apply hoare_map_err. eapply hoare_bind with (R := fun _ => outcome o d0);
    [|intros row; apply hoare_preserves; [eauto with gateway|done]].
  apply hoare_exec_ret. intros d <-. split; [by left|].
  intros r d' [(_ & -> & _)|(a & Ha & _ & U & F & ->)]%update_account_Some; [by left|right].
  exists id, (f a). split_and!; [by apply Hw|done..].
Qed.

Lemma settles_authorized {B} o d0 now header (k : Claims -> AM B) :
  (forall c, bears now header (sub c) -> settles o d0 (k c)) ->
  settles o d0 (authorized now header ≫= k).
Proof.
  intros Hk w Hw. destruct (authorized now header w) as [r w1] eqn:E.
  pose proof (authorized_run _ _ _ _ _ E) as [-> Hb]. unfold mbind, M_bind. rewrite E.
  destruct r as [c|e]; [by apply (Hk c (Hb c eq_refl))|by left].
Qed.

Lemma wallet_settles now header wallet d0 :
  settles (OpWallet now header wallet) d0 (update_wallet now header wallet).
Proof.
  apply settles_authorized. intros c Hc. apply settles_update_returning; [|eauto with gateway].
  intros a Ha. split; [done|]. by exists a.
Qed.

Lemma generate_settles kp draws now header d0 :
  settles (OpGenerate kp draws now header) d0 (generate_wallet config kp draws now header).
Proof.
  apply settles_authorized. intros c Hc.
  destruct (encrypt_private_key _ _ _) as [[[key salt] iv]|[]]; try apply settles_fail.
  apply settles_update_returning; [|eauto 6 with gateway].
  intros a Ha. split; [done|]. exists a. split; [done|]. by eexists _, _, _.
Qed.

Lemma substring_all t : String.substring 0 (String.length t) t = t.
Proof. induction t as [|c t IH]; simpl; [done|by rewrite IH]. Qed.

Lemma substring_app pat t :
  String.substring (String.length pat) (String.length (pat ++ t) - String.length pat) (pat ++ t) = t.
Proof.
  assert (H : (String.length (pat ++ t) - String.length pat = String.length t)%nat)
    by (induction pat; [apply Nat.sub_0_r|done]).
  rewrite H. clear H. induction pat as [|c pat IH]; simpl; [apply substring_all|exact IH].
Qed.

(** The name in a test token. *)
Lemma verify_name token : starts_with "verify_" token = true ->
  token = "verify_" ++ String.substring 7 (String.length token - 7) token.
Proof.
  intros [t ->]%starts_with_app. f_equal. symmetry. exact (substring_app "verify_" t).
Qed.

Lemma preserves_register_on_chain (I : AccountDb -> Prop) wallet :
  preserves I (register_wallet_on_chain wallet).
Proof.
  apply preserves_bind; [eauto with gateway|]. intros [s|e]; [|apply preserves_ret].
  apply preserves_bind; eauto with gateway.
Qed.

Lemma verify_settles kp draws now token d0 :
  settles (OpVerify kp draws now token) d0 (verify_email config kp draws now token).
Proof.
  assert (W : forall registered key salt iv h id a, d0 !! id = Some a ->
    pending_token token a = true \/ token = "verify_" ++ ac_username a ->
    h = verified registered (kp_pubkey kp) key salt iv \/ h = completed (kp_pubkey kp) key salt iv ->
    writes (OpVerify kp draws now token) d0 id (h a)).
  { intros registered key salt iv h id a Ha Ht Hh. exists a. split; [done|].
    exists registered, key, salt, iv. split; [done|]. destruct Hh as [-> | ->]; [by left|by right]. }
  unfold verify_email. destruct (token =? "")%string; [apply settles_ret|].
  destruct (encrypt_private_key _ _ _) as [[[key salt] iv]|[]]; try apply settles_ret; [|apply settles_fail].
  cbv zeta. eapply hoare_bind with (R := fun _ => eq d0).
  { apply hoare_preserves; [apply preserves_register_on_chain|by intros ? ? <-; left]. }
  intros registered.
  apply settles_exec_ret; [|intros [id a]; apply preserves_ret| |apply settles_ret].
  { intros id a Ha Hp. eapply (W registered); [done|by left|by left]. }
  destruct (starts_with "verify_" token) eqn:Et; [|apply settles_ret].
  apply verify_name in Et. set (name := String.substring _ _ _) in *.
  assert (K : settles (OpVerify kp draws now token) d0 (verify_any_user now name (kp_pubkey kp)
    (decode_or_empty key) (decode_or_empty salt) (decode_or_empty iv))).
  { apply settles_exec_ret; [|intros [id a]; apply preserves_ret|apply settles_ret..].
    intros id a Ha H%String.eqb_eq. eapply (W registered); [done|by right; rewrite H|by right]. }
  apply settles_exec_ret; [|intros [id a]; apply preserves_ret|exact K..].
  intros id a Ha [H%String.eqb_eq _]%andb_prop. eapply (W registered); [done|by right; rewrite H|by left].
Qed.

(** Every request ends in one of its outcomes. *)
Lemma perform_settles o d0 : settles o d0 (perform o).
Proof.
  destruct o as [id token salt now q|token now email|now q|kp draws now token|token now email
    |salt now token password|salt now header current password|fresh now header
    |now header wallet|kp draws now header]; apply settles_then.
  - by apply register_settles.
  - by apply resend_settles.
  - apply settles_query. intros r _. apply settles_ret.
  - by apply verify_settles.
  - by apply forgot_settles.
  - by apply reset_settles.
  - by apply change_settles.
  - unfold profile. destruct (decode_token _ _); [|apply settles_ret].
    apply settles_query. intros r _. apply settles_ret.
  - by apply wallet_settles.
  - by apply generate_settles.
Qed.

(** The tables after a request. *)
Lemma perform_outcome o (w : world AccountDb Event) : outcome o (st w) (st (snd (perform o w))).
Proof.
  pose proof (perform_settles o (st w) w eq_refl) as H.
  by destruct (perform o w) as [[a|e] w'].
Qed.

(** A relation between tables that every request respects, a history respects. *)
Lemma history_rel (R : AccountDb -> AccountDb -> Prop) :
  (forall d, R d d) -> (forall d1 d2 d3, R d1 d2 -> R d2 d3 -> R d1 d3) ->
  forall ops, (forall o d d', o ∈ ops -> outcome o d d' -> R d d') ->
  forall w, R (st w) (st (snd (history ops w))).
Proof.
  intros Hr Ht. induction ops as [|o ops IH]; intros Ho w; [apply Hr|].
  unfold history. simpl. unfold mbind, M_bind, spawn at 1. eapply Ht.
  - apply (Ho o); [left|apply perform_outcome].
  - apply IH. intros o' d d' Hin. apply Ho. by right.
Qed.

Lemma clash_sym a b : clash a b = clash b a.
Proof.
  unfold clash. rewrite (String.eqb_sym (ac_username a)), (String.eqb_sym (ac_email a)).
  f_equal. destruct (ac_wallet a), (ac_wallet b); [apply String.eqb_sym|done..].
Qed.

Lemma unique_in_spec id b d : unique_in id b d = true <->
  forall j c, d !! j = Some c -> clash b c = true -> j = id.
Proof.
  unfold unique_in. rewrite forallb_forall. split.
  - intros H j c Hj Hc. specialize (H (j, c)). simpl in H. rewrite Hc, orb_false_r in H.
    by apply N.eqb_eq, H, list_elem_of_In, elem_of_map_to_list.
  - intros H [j c] Hin%list_elem_of_In%elem_of_map_to_list. simpl.
    destruct (clash b c) eqn:E; [|by rewrite orb_true_r].
    apply orb_true_iff. left. apply N.eqb_eq. by eapply H.
Qed.

(** ** The invariant of the table *)

(** User names, addresses and wallets are distinct, texts fit their columns, every password was
    strong enough, a reset token has an expiry, and verification tokens are UUIDs. *)
Record accounts_ok (d : AccountDb) : Prop := {
  ok_distinct i j a b : d !! i = Some a -> d !! j = Some b -> clash a b = true -> i = j;
  ok_fits i a : d !! i = Some a -> account_fits a = true;
  ok_hashed i a : d !! i = Some a -> exists salt password, hash_password salt password = Ok (ac_password_hash a);
  ok_reset i a : d !! i = Some a -> is_Some (ac_reset_token a) <-> is_Some (ac_reset_expires a);
  ok_verification i a t : d !! i = Some a -> ac_verification_token a = Some t ->
    exists u, t = uuid_to_string u;
}.

(** What no request changes about an account. *)
Definition same_person (a b : Account) : Prop :=
  ac_username b = ac_username a /\ ac_email b = ac_email a /\ ac_role b = ac_role a
  /\ ac_active b = ac_active a /\ ac_created_at b = ac_created_at a.

(** Accounts stay, as the same person, and a new one is an ordinary user's. *)
Definition evolves (d d' : AccountDb) : Prop :=
  (forall id a, d !! id = Some a -> exists b, d' !! id = Some b /\ same_person a b)
  /\ (forall id b, d' !! id = Some b -> d !! id = None -> ac_role b = "user").

Lemma same_person_refl a : same_person a a.
Proof. done. Qed.

Lemma evolves_trans d1 d2 d3 : evolves d1 d2 -> evolves d2 d3 -> evolves d1 d3.
Proof.
  intros [A1 B1] [A2 B2]. split.
  - intros id a Ha. destruct (A1 id a Ha) as (b & Hb & Hab). destruct (A2 id b Hb) as (c & Hc & Hbc).
    exists c. split; [done|]. unfold same_person in *. intuition congruence.
  - intros id c Hc Hn. destruct (d2 !! id) as [b|] eqn:Hb; [|by eapply B2].
    destruct (A2 id b Hb) as (c' & Hc' & (_ & _ & Hr & _)). assert (c' = c) as -> by congruence.
    rewrite Hr. by eapply B1.
Qed.

(** A written row is of the same person, or new. *)
Lemma writes_person o d id b : writes o d id b ->
  match d !! id with Some a => same_person a b | None => ac_role b = "user" end.
Proof.
  destruct o; simpl.
  - intros (-> & Hn & hash & _ & ->). by rewrite Hn.
  - intros (a & -> & _ & _ & ->). by unfold same_person.
  - done.
  - intros (a & -> & ? & ? & ? & ? & _ & [-> | ->]); by unfold same_person.
  - intros (a & -> & _ & _ & ->). by unfold same_person.
  - intros (a & -> & _ & _ & _ & ? & _ & ->). by unfold same_person.
  - intros (_ & a & -> & _ & _ & ? & _ & ->). by unfold same_person.
  - done.
  - intros (_ & a & -> & ->). by unfold same_person.
  - intros (_ & a & -> & ? & ? & ? & ->). by unfold same_person.
Qed.

(** The password and the tokens of a row alone. *)
Record secrets_ok (a : Account) : Prop := {
  sk_hashed : exists salt password, hash_password salt password = Ok (ac_password_hash a);
  sk_reset : is_Some (ac_reset_token a) <-> is_Some (ac_reset_expires a);
  sk_verification t : ac_verification_token a = Some t -> exists u, t = uuid_to_string u;
}.

Lemma accounts_secrets d i a : accounts_ok d -> d !! i = Some a -> secrets_ok a.
Proof. intros [_ _ H1 H2 H3] Ha. split; [by eapply H1|by eapply H2|intros t; by eapply H3]. Qed.

Lemma writes_secrets o d id b : accounts_ok d -> writes o d id b -> secrets_ok b.
Proof.
  intros Hok Hw. pose proof (fun a => accounts_secrets d id a Hok) as Hs. clear Hok.
  destruct o; simpl in Hw; try contradiction.
  - destruct Hw as (_ & _ & hash & H & ->). split; simpl; [by eexists _, _| |intros t [= <-]; by eexists].
    by split; intros [? [=]].
  - destruct Hw as (a & Ha & _ & _ & ->). destruct (Hs a Ha). split; simpl; [done..|].
    intros t [= <-]. by eexists.
  - destruct Hw as (a & Ha & ? & ? & ? & ? & _ & [-> | ->]); destruct (Hs a Ha); by split.
  - destruct Hw as (a & Ha & _ & _ & ->). destruct (Hs a Ha). split; simpl; [done| |done].
    by split; intros _; eexists.
  - destruct Hw as (a & Ha & _ & _ & _ & hash & H & ->). destruct (Hs a Ha).
    split; simpl; [by eexists _, _| |done]. by split; intros [? [=]].
  - destruct Hw as (_ & a & Ha & _ & _ & hash & H & ->). destruct (Hs a Ha).
    split; simpl; [by eexists _, _|done..].
  - destruct Hw as (_ & a & Ha & ->). destruct (Hs a Ha); by split.
  - destruct Hw as (_ & a & Ha & ? & ? & ? & ->). destruct (Hs a Ha); by split.
Qed.

Lemma outcome_ok o d d' : accounts_ok d -> outcome o d d' -> accounts_ok d' /\ evolves d d'.
Proof.
  intros Hok [->|(id & b & Hw & U & F & ->)].
  { split; [done|]. split; [intros id a Ha; by exists a|]. congruence. }
  rewrite unique_in_spec in U. pose proof (writes_person _ _ _ _ Hw) as Hp.
  pose proof (writes_secrets _ _ _ _ Hok Hw) as Hb.
  assert (Hs : forall i a, <[id := b]> d !! i = Some a -> secrets_ok a).
  { intros i a [[<- <-]|[_ Ha]]%lookup_insert_Some; [done|by eapply accounts_secrets]. }
  split.
  - split; [| |intros i a Ha; by destruct (Hs i a Ha)|intros i a Ha; by destruct (Hs i a Ha)
           |intros i a t Ha; apply (Hs i a Ha)].
    + intros i j a c [[<- <-]|[Hi Ha]]%lookup_insert_Some [[<- <-]|[Hj Hc]]%lookup_insert_Some H;
        [done| | |by eapply (ok_distinct d Hok)].
      * symmetry. by eapply U.
      * rewrite clash_sym in H. by eapply U.
    + intros i a [[<- <-]|[_ Ha]]%lookup_insert_Some; [done|by eapply (ok_fits d Hok)].
  - split.
    + intros i a Ha. destruct (decide (i = id)) as [->|Hi].
      * exists b. rewrite lookup_insert_eq. split; [done|]. by rewrite Ha in Hp.
      * exists a. rewrite lookup_insert_ne by done. by split.
    + intros i a [[<- <-]|[_ Ha]]%lookup_insert_Some Hn; [by rewrite Hn in Hp|congruence].
Qed.

(** ** Properties *)

(** C18: the accounts stay sound through any history of the ten requests of [src/handlers/auth]
    ([history]), whatever the database, the chain and the mail server do.  The faucet, which changes
    roles, and the simulator's registration, which stores another hash and rewrites wallets, also
    write users and are not among these requests.  User names, e-mail addresses and wallets remain distinct,
    every stored password hash is of a password that met the rules, a reset token always has
    an expiry.  No account disappears or changes its user name, address, role or activity,
    and every account added has the role of an ordinary user. *)
Theorem accounts_invariant ops w : accounts_ok (st w) ->
  accounts_ok (st (snd (history ops w))) /\ evolves (st w) (st (snd (history ops w))).
Proof.
  intros Hok.
  apply (history_rel (fun d d' => accounts_ok d -> accounts_ok d' /\ evolves d d')); [..|exact Hok].
  - intros d Hd. split; [done|]. split; [intros id a Ha; by exists a|congruence].
  - intros d1 d2 d3 H12 H23 H1. destruct (H12 H1) as [H2 E12]. destruct (H23 H2) as [H3 E23].
    split; [done|by eapply evolves_trans].
  - intros o d d' _ Ho Hd. by eapply outcome_ok.
Qed.

(** C19: a password changes only by its owner's doing.  If a request changes the password hash
    of an active or inactive account, it is a reset with the token the account stores, not
    expired, of an active account; or a change under a valid token of that user whose current
    password was verified.  Either way the new hash is of a password that meets the rules. *)
Theorem password_guarded o w id a b :
  st w !! id = Some a -> st (snd (perform o w)) !! id = Some b ->
  ac_password_hash b <> ac_password_hash a ->
  ac_active a = true
  /\ (exists salt password, hash_password salt password = Ok (ac_password_hash b))
  /\ ((exists salt now token password, o = OpReset salt now token password
        /\ ac_reset_token a = Some token /\ token <> "" /\ (exists e, ac_reset_expires a = Some e /\ now <= e)
        /\ ac_reset_token b = None)
      \/ (exists salt now header current password, o = OpChange salt now header current password
        /\ bears now header id /\ bcrypt_verify current (ac_password_hash a) = Ok true)).
Proof.
  intros Ha Hb Hne. destruct (perform_outcome o w) as [E|(id' & b' & Hw & _ & _ & E)].
  { rewrite E, Ha in Hb. congruence. }
  rewrite E in Hb. apply lookup_insert_Some in Hb as [[-> ->]|[_ Hb]]; [|congruence].
  destruct o as [id' token salt now q|token now email|now q|kp draws now token|token now email
    |salt now token password|salt now header current password|fresh now header
    |now header wallet|kp draws now header]; simpl in Hw; try contradiction.
  - destruct Hw as (-> & Hn & _). congruence.
  - destruct Hw as (a' & Ha' & _ & _ & ->). simpl in Hne. congruence.
  - destruct Hw as (a' & Ha' & ? & ? & ? & ? & _ & [-> | ->]); simpl in Hne; congruence.
  - destruct Hw as (a' & Ha' & _ & _ & ->). simpl in Hne. congruence.
  - destruct Hw as (a' & Ha' & Ht & Hr & Hnow & hash & Hh & ->).
    assert (a' = a) as -> by congruence. unfold has_reset_token in Hr.
    destruct (ac_reset_token a) as [t|] eqn:Et; [|done].
    destruct (ac_reset_expires a) as [e|] eqn:Ee; [|done].
    apply andb_prop in Hr as [->%String.eqb_eq Hact]. split_and!; [done|by eexists _, _|].
    left. exists salt, now, token, password. split_and!; try done. by exists e.
  - destruct Hw as (Hb & a' & Ha' & Hact & Hv & hash & Hh & ->).
    assert (a' = a) as -> by congruence. split_and!; [done|by eexists _, _|].
    right. by exists salt, now, header, current, password.
  - destruct Hw as (_ & a' & Ha' & ->). simpl in Hne. congruence.
  - destruct Hw as (_ & a' & Ha' & ? & ? & ? & ->). simpl in Hne. congruence.
Qed.

(** ** Lemmas: runs without failures *)

Lemma send_run template to token username w : exists b w1,
  send_if_configured config template to token username w = (Ok b, w1)
  /\ st w1 = st w /\ faults w1 = faults w.
Proof.
  unfold send_if_configured, send_token_email.
  destruct (email_service config) as [[]|]; simpl; [|by eexists _, _|by eexists _, _].
  destruct (smtp_send _ _ _ _ _); by eexists _, _.
Qed.

Lemma register_on_chain_run wallet w : exists b w1,
  register_wallet_on_chain wallet w = (Ok b, w1) /\ st w1 = st w /\ faults w1 = faults w.
Proof.
  unfold register_wallet_on_chain.
  destruct (chain_attempt (RequestAirdrop wallet 100000000) w) as (r & ok & E & _).
  rewrite (bind_run _ _ _ _ _ E). destruct r as [s|e]; [|by eexists _, _].
  match goal with |- context [(attempt (chain_call ?c) ≫= ?k) ?v] =>
    destruct (chain_attempt c v) as (r2 & ok2 & E2 & _); rewrite (bind_run _ k _ _ _ E2) end.
  by eexists _, _.
Qed.

Lemma attempt_query_calm {A} (f : AccountDb -> A) (w : world AccountDb Event) :
  faults w = [] -> attempt (query f) w = (Ok (Ok (f (st w))), w).
Proof. intros H. unfold attempt. by rewrite query_calm. Qed.

Lemma attempt_exec_calm f (w : world AccountDb Event) s : faults w = [] -> f (st w) = Some s ->
  attempt (exec f) w = (Ok (Ok tt), set_st s w).
Proof. intros H E. unfold attempt. by rewrite exec_calm, E. Qed.

Lemma update_account_fits id f d a : accounts_ok d -> d !! id = Some a ->
  same_person a (f a) -> ac_wallet (f a) = ac_wallet a -> account_fits (f a) = true ->
  update_account id f d = Some (Some (id, f a), <[id := f a]> d).
Proof.
  intros Hok Ha (Hu & He & _) Hw F. unfold update_account. rewrite Ha, F.
  enough (U : unique_in id (f a) d = true) by by rewrite U.
  apply unique_in_spec. intros j c Hc H. eapply (ok_distinct d Hok); [done..|].
  rewrite clash_sym. unfold clash in *. by rewrite Hu, He, Hw in H.
Qed.

Lemma update_only_fits id f d a : accounts_ok d -> d !! id = Some a ->
  same_person a (f a) -> ac_wallet (f a) = ac_wallet a -> account_fits (f a) = true ->
  update_only id f d = Some (<[id := f a]> d).
Proof. intros Hok Ha Hp Hw F. unfold update_only. by rewrite (update_account_fits id f d a). Qed.

(** ** Logging in *)

Lemma login_found now q w id a : faults w = [] ->
  row_where (login_matches (lg_username q)) (st w) = Some (id, a) ->
  bcrypt_verify (lg_password q) (ac_password_hash a) = Ok true ->
  login now q w = (Ok (200, {| access_token := issue_token now id (ac_username a) (ac_role a);
                             expires_in := 86400; auth_user := user_response id a |}), w).
Proof.
  intros Hf Hr Hv. unfold login. cbv zeta.
  rewrite (bind_run _ _ _ _ _ (attempt_query_calm _ w Hf)), Hr. unfold verify_password.
  by rewrite Hv.
Qed.

(** Login is sound.  It never changes a table nor sends anything, always answers, and
    answers 200 only to the password of an active account whose user name or e-mail address
    was given, with a token that carries that account's identity and role, accepted until a
    minute after its day; every other answer carries no user and a fixed word as token. *)
Theorem login_sound now q w r w' : login now q w = (r, w') ->
  st w' = st w /\ trace w' = trace w /\ exists status body, r = Ok (status, body)
  /\ ((status = 200 /\ exists id a, st w !! id = Some a /\ ac_active a = true
        /\ (ac_username a = lg_username q \/ ac_email a = lg_username q)
        /\ bcrypt_verify (lg_password q) (ac_password_hash a) = Ok true
        /\ auth_user body = user_response id a
        /\ let claims := claims_new (seconds_of now) id (ac_username a) (ac_role a) in
           forall t, jwt_encode claims = Ok t -> access_token body = t
           /\ forall later, later <= seconds_of now + 24 * 3600 + 60 ->
              decode_token later (access_token body) = Ok claims)
      \/ ((status = 401 \/ status = 500) /\ auth_user body = nobody /\ expires_in body = 0
          /\ access_token body ∈ [""; "invalid_credentials"; "user_not_found"])).
Proof.
  unfold login. cbv zeta.
  destruct (attempt_query (row_where (login_matches (lg_username q))) w)
    as (x & w1 & E & Hs & Ht & _ & Hx). rewrite (bind_run _ _ _ _ _ E).
  intros [= <- <-]. split; [done|]. split; [done|].
  assert (R : forall status word, (status = 401 \/ status = 500) ->
    word ∈ [""; "invalid_credentials"; "user_not_found"] -> exists st0 body,
    Ok (E := failure) (status, {| access_token := word; expires_in := 0; auth_user := nobody |}) = Ok (st0, body)
    /\ (st0 = 401 \/ st0 = 500) /\ auth_user body = nobody /\ expires_in body = 0
    /\ access_token body ∈ [""; "invalid_credentials"; "user_not_found"])
    by (intros status word H1 H2; by eexists _, _).
  destruct Hx as [[-> _]| ->].
  { destruct (R 500 "") as (s & b & Hb & H); [by right|by left|]. exists s, b. split; [exact Hb|by right]. }
  destruct (row_where _ _) as [[id a]|] eqn:Er.
  2: { destruct (R 401 "user_not_found") as (s & b & Hb & H); [by left|by right; right; left|].
       exists s, b. split; [exact Hb|by right]. }
  apply row_where_Some in Er as [Ha [Hm%orb_true_iff Hact]%andb_prop]. unfold verify_password.
  destruct (bcrypt_verify _ _) as [[]|e] eqn:Ev.
  - eexists _, _. split; [reflexivity|]. left. split; [done|]. exists id, a. split_and!; try done.
    { by destruct Hm as [H%String.eqb_eq|H%String.eqb_eq]; [left|right]. }
    intros t Hj. simpl. unfold issue_token, encode_token. rewrite Hj. split; [done|].
    intros later Hl. unfold decode_token. rewrite (jwt_fresh later _ t Hj); [done|done|simpl; lia].
  - destruct (R 401 "invalid_credentials") as (s & b & Hb & H); [by left|by right; left|].
    exists s, b. split; [exact Hb|by right].
  - destruct (R 500 "") as (s & b & Hb & H); [by right|by left|]. exists s, b. split; [exact Hb|by right].
Qed.

(** ** Lemmas: the flows *)

(** The row written is the only one an identity that names no other account can mean. *)
Lemma login_row d id (b : Account) identity : ac_active b = true ->
  ac_username b = identity \/ ac_email b = identity ->
  (forall j c, d !! j = Some c -> j <> id -> ac_username c <> identity /\ ac_email c <> identity) ->
  row_where (login_matches identity) (<[id := b]> d) = Some (id, b).
Proof.
  intros Hact Hb Hd. apply row_where_unique; [apply lookup_insert_eq| |].
  - unfold login_matches. rewrite Hact, andb_true_r. apply orb_true_iff.
    destruct Hb as [H|H]; [left|right]; by apply String.eqb_eq.
  - intros j c [[<- _]|[Hj Hc]]%lookup_insert_Some; [done|].
    destruct (Hd j c Hc (not_eq_sym Hj)) as [H1 H2]. intros [H _]%andb_prop.
    apply orb_true_iff in H as [H%String.eqb_eq|H%String.eqb_eq]; contradiction.
Qed.

(** A successful reset. *)
Lemma reset_success salt now token password w r w1 :
  reset_password salt now token password w = (Ok r, w1) -> ve_success r = true ->
  exists id a hash, row_where (has_reset_token token) (st w) = Some (id, a)
    /\ st w1 = <[id := finish_reset hash a]> (st w).
Proof.
  unfold reset_password. destruct (token =? "")%string; [by intros [= <- _]|].
  destruct (str_len password <? 8); [by intros [= <- _]|].
  destruct (attempt_query (row_where (has_reset_token token)) w) as (x & w2 & E & Hs & _ & _ & Hx).
  rewrite (bind_run _ _ _ _ _ E). destruct Hx as [[-> _]| ->]; [by intros [= <- _]|].
  destruct (row_where _ _) as [[id a]|] eqn:Er; [|by intros [= <- _]].
  destruct (_ <? now); [by intros [= <- _]|].
  destruct (hash_password salt password) as [hash|e]; [|by intros [= <- _]].
  destruct (attempt_exec (update_only id (finish_reset hash)) w2) as (y & w3 & E2 & _ & _ & Hy).
  rewrite (bind_run _ _ _ _ _ E2). destruct Hy as [(-> & _)|[-> Hy]]; [by intros [= <- _]|].
  intros [= _ <-] _. exists id, a, hash. split; [done|]. rewrite Hs in Hy.
  apply row_where_Some in Er as [Ha _]. unfold update_only, update_account in Hy.
  rewrite Ha in Hy. destruct (_ && _); [|discriminate Hy]. by injection Hy as <-.
Qed.

(** Without its row, a reset token does nothing. *)
Lemma reset_refused salt now token password w r w1 :
  row_where (has_reset_token token) (st w) = None ->
  reset_password salt now token password w = (r, w1) ->
  st w1 = st w /\ exists x, r = Ok x /\ ve_success x = false.
Proof.
  intros Hn. unfold reset_password.
  destruct (token =? "")%string; [by intros [= <- <-]; split; [|eexists]|].
  destruct (str_len password <? 8); [by intros [= <- <-]; split; [|eexists]|].
  destruct (attempt_query (row_where (has_reset_token token)) w) as (x & w2 & E & Hs & _ & _ & Hx).
  rewrite (bind_run _ _ _ _ _ E). rewrite Hn in Hx.
  by destruct Hx as [[-> _]| ->]; intros [= <- <-]; split; [|eexists| |eexists].
Qed.

Definition token_free (token : string) (d : AccountDb) : Prop :=
  forall i a, d !! i = Some a -> ac_reset_token a <> Some token.

Lemma token_free_row token d : token_free token d -> row_where (has_reset_token token) d = None.
Proof.
  intros H. apply row_where_None. intros i a Ha. specialize (H i a Ha). unfold has_reset_token.
  destruct (ac_reset_token a) as [t|]; [|done]. destruct (ac_reset_expires a); [|done].
  destruct (t =? token)%string eqn:E; [|done]. apply String.eqb_eq in E. congruence.
Qed.

(** Only a request for a reset stores a reset token. *)
Lemma outcome_token_free o token d d' :
  (forall t now email, o = OpForgot t now email -> uuid_to_string t <> token) ->
  outcome o d d' -> token_free token d -> token_free token d'.
Proof.
  intros Ho [->|(id & b & Hw & _ & _ & ->)] Hd; [done|].
  intros i a [[<- <-]|[_ Ha]]%lookup_insert_Some; [|by eapply Hd].
  destruct o; simpl in Hw; try contradiction.
  - destruct Hw as (_ & _ & ? & _ & ->). done.
  - destruct Hw as (c & Hc & _ & _ & ->). exact (Hd id c Hc).
  - destruct Hw as (c & Hc & ? & ? & ? & ? & _ & [-> | ->]); exact (Hd id c Hc).
  - destruct Hw as (c & Hc & _ & _ & ->). simpl. specialize (Ho _ _ _ eq_refl). congruence.
  - destruct Hw as (c & Hc & _ & _ & _ & ? & _ & ->). done.
  - destruct Hw as (_ & c & Hc & _ & _ & ? & _ & ->). exact (Hd id c Hc).
  - destruct Hw as (_ & c & Hc & ->). exact (Hd id c Hc).
  - destruct Hw as (_ & c & Hc & ? & ? & ? & ->). exact (Hd id c Hc).
Qed.

(** C20: a reset token works once.  After a successful reset with a token that one account
    stored, whatever requests follow, under any failures, unless one of them draws the same
    token again: a further reset with it is refused and changes nothing. *)
Theorem reset_token_single_use salt now token password w r w1 ops :
  (forall i j a b, st w !! i = Some a -> st w !! j = Some b ->
     ac_reset_token a = Some token -> ac_reset_token b = Some token -> i = j) ->
  reset_password salt now token password w = (Ok r, w1) -> ve_success r = true ->
  (forall t now' email, OpForgot t now' email ∈ ops -> uuid_to_string t <> token) ->
  let w2 := snd (history ops w1) in
  forall salt' now' password' r' w3, reset_password salt' now' token password' w2 = (r', w3) ->
  st w3 = st w2 /\ exists x, r' = Ok x /\ ve_success x = false.
Proof.
  intros Hone Hr Hok Hops w2 salt' now' password' r' w3 H. eapply reset_refused; [|exact H].
  apply token_free_row. destruct (reset_success _ _ _ _ _ _ _ Hr Hok) as (id & a & hash & Hrow & Hst).
  apply (history_rel (fun d d' => token_free token d -> token_free token d')); [done|by eauto| |].
  - intros o d d' Hin. apply outcome_token_free. intros t n email ->. by eapply Hops.
  - rewrite Hst. apply row_where_Some in Hrow as [Ha Ht].
    intros i b [[<- <-]|[Hi Hb]]%lookup_insert_Some; [done|]. intros Hc. apply Hi.
    unfold has_reset_token in Ht. destruct (ac_reset_token a) as [t|] eqn:Et; [|done].
    destruct (ac_reset_expires a); [|done]. apply andb_prop in Ht as [->%String.eqb_eq _].
    by eapply Hone.
Qed.

(** What registers can log in.  When a registration issues a token, the account logs in
    with the user name and password just given, at once and before its e-mail address has been
    verified, provided no account has that user name as its e-mail address. *)
Theorem register_then_login id token salt now q w r w1 later :
  faults w = [] -> register config id token salt now q w = (Ok r, w1) -> is_Some (rr_auth r) ->
  (forall j b, st w !! j = Some b -> ac_email b <> nr_username q) ->
  exists a, st w1 !! id = Some a /\ ac_email_verified a = false /\ ac_role a = "user"
  /\ login later {| lg_username := nr_username q; lg_password := nr_password q |} w1
     = (Ok (200, {| access_token := issue_token later id (nr_username q) "user";
                    expires_in := 86400; auth_user := user_response id a |}), w1).
Proof.
  intros Hf. unfold register. cbv zeta.
  destruct (hash_password salt (nr_password q)) as [hash|e] eqn:Eh; [|by intros [= <- _] [? [=]]].
  set (a := new_account _ _ _ _ _).
  destruct (attempt_exec (insert_account id a) w) as (x & w2 & E & _ & Hf2 & Hx).
  rewrite (bind_run _ _ _ _ _ E). destruct Hx as [(-> & _)|[-> Hx]]; [by intros [= <- _] [? [=]]|].
  match goal with |- context [(send_if_configured config ?a ?b ?c ?d ≫= ?k) w2] =>
    destruct (send_run a b c d w2) as (sent & w3 & Es & Hs3 & Hf3); rewrite (bind_run _ k _ _ _ Es) end.
  intros [= _ <-] _ Hfree. unfold insert_account in Hx.
  destruct (st w !! id) eqn:Hid; [discriminate Hx|].
  destruct (unique_in id a (st w) && _) eqn:U; [|discriminate Hx]. injection Hx as Hst.
  apply andb_prop in U as [U _]. rewrite unique_in_spec in U.
  exists a. rewrite Hs3, <- Hst, lookup_insert_eq. split_and!; [done..|].
  rewrite (login_found later _ w3 id a); [done| | |].
  - rewrite Hf3, Hf2, Hf. done.
  - rewrite Hs3, <- Hst. apply login_row; [done|by left|].
    intros j c Hc Hj. split; [|by eapply Hfree]. intros Heq. apply Hj, (U j c Hc).
    unfold clash. simpl. by rewrite Heq, String.eqb_refl.
  - simpl. unfold hash_password in Eh. destruct (validate_password_strength _); [simpl in Eh|discriminate Eh].
    destruct (bcrypt _ _) as [h|] eqn:Eb; [|discriminate Eh]. injection Eh as <-. by eapply bcrypt_own.
Qed.

(** ** Lemmas: the text of an identifier *)

Lemma utf8_length_app s t : utf8_length (s ++ t) = (utf8_length s + utf8_length t)%nat.
Proof. induction s as [|c s IH]; simpl; [done|]. rewrite IH. by case_match. Qed.

Lemma hex_char_cases (P : string -> Prop) :
  Forall P ["0"; "1"; "2"; "3"; "4"; "5"; "6"; "7"; "8"; "9"; "a"; "b"; "c"; "d"; "e"; "f"] ->
  forall d, P (hex_char d).
Proof.
  intros H d. rewrite !list.Forall_cons in H; destruct_and! H. destruct d as [|p]; [done|].
  do 4 (try (destruct p as [p|p|]; try done)).
Qed.

Lemma hex_length k n : utf8_length (hex k n) = k.
Proof.
  revert n. induction k as [|k IH]; intros n; simpl; [done|]. rewrite utf8_length_app, IH.
  assert (H : utf8_length (hex_char (n mod 16)) = 1%nat); [|lia].
  apply (hex_char_cases (fun s => utf8_length s = 1%nat)). by repeat constructor.
Qed.

Lemma uuid_length u : utf8_length (uuid_to_string u) = 36%nat.
Proof. unfold uuid_to_string. rewrite !utf8_length_app, !hex_length. reflexivity. Qed.

Lemma hex_first k n : exists c s, hex (S k) n = String c s /\ c <> Ascii.Ascii false true true false true true true false.
Proof.
  revert n. induction k as [|k IH]; intros n.
  - simpl. apply (hex_char_cases (fun s => exists c t, s = String c t /\ c <> Ascii.Ascii false true true false true true true false)).
    repeat constructor; by eexists _, _.
  - destruct (IH (n / 16)%N) as (c & s & E & Hc). exists c, (s +:+ hex_char (n mod 16))%N.
    split; [|done]. change (hex (S (S k)) n) with (hex (S k) (n / 16) +:+ hex_char (n mod 16)). by rewrite E.
Qed.

Lemma uuid_not_test u s : uuid_to_string u <> "verify_" ++ s.
Proof.
  assert (H : forall c t x, c <> Ascii.Ascii false true true false true true true false ->
    String c t ++ x <> "verify_" ++ s) by (intros c t x Hc [= E _]; by apply Hc).
  unfold uuid_to_string. destruct (hex_first 7 (N.shiftr u 96)) as (c & t & -> & Hc). by apply H.
Qed.

(** ** Forgotten passwords *)

#[local] Opaque uuid_to_string.

Lemma secrets_fit h v ve r re a : account_fits a = true -> varchar 255 (Some h) = true ->
  varchar 128 v = true -> varchar 128 r = true -> account_fits (with_secrets h v ve r re a) = true.
Proof. unfold account_fits. destruct a; cbn -[varchar]. rewrite !andb_true_iff. tauto. Qed.

Lemma uuid_fits u : varchar 128 (Some (uuid_to_string u)) = true.
Proof. unfold varchar. by rewrite uuid_length. Qed.

Lemma uuid_nonempty u : (uuid_to_string u =? "")%string = false.
Proof.
  apply String.eqb_neq. intros E. pose proof (uuid_length u) as H. rewrite E in H. discriminate H.
Qed.

(** The two requests, one by one, while nothing fails. *)
Lemma forgot_run w token now id a : faults w = [] -> accounts_ok (st w) ->
  st w !! id = Some a -> ac_active a = true ->
  let b := start_reset (uuid_to_string token) (now + hours 1) a in
  account_fits b = true /\ exists w1 r,
    forgot_password config token now (ac_email a) w = (Ok r, w1) /\ ve_success r = true
    /\ st w1 = <[id := b]> (st w) /\ faults w1 = [] /\ accounts_ok (st w1).
Proof.
  intros Hf Hok Ha Hact b. pose proof (ok_fits _ Hok id a Ha) as Hfit.
  assert (Hb : account_fits b = true).
  { pose proof Hfit as G. unfold account_fits in G. rewrite !andb_true_iff in G.
    apply secrets_fit; [done|apply G..|apply uuid_fits]. }
  split; [done|].
  pose proof (update_only_fits id (start_reset (uuid_to_string token) (now + hours 1)) (st w) a
    Hok Ha (same_person_refl a) eq_refl Hb) as Hu.
  pose proof (perform_outcome (OpForgot token now (ac_email a)) w) as Ho.
  apply (outcome_ok _ _ _ Hok) in Ho as [Ho _]. revert Ho. unfold perform.
  unfold forgot_password. cbv zeta.
  unfold mbind at 1, M_bind at 1. rewrite (bind_run _ _ _ _ _ (attempt_query_calm _ w Hf)).
  erewrite (row_where_unique _ (st w) id a); [|done|by rewrite String.eqb_refl, Hact|].
  2: { intros j c Hc [H%String.eqb_eq _]%andb_prop. eapply (ok_distinct _ Hok); [done..|].
       unfold clash. by rewrite H, String.eqb_refl, orb_true_r. }
  rewrite (bind_run _ _ _ _ _ (attempt_exec_calm _ w _ Hf Hu)). cbv beta iota.
  match goal with |- context [(send_if_configured config ?a ?b ?c ?d ≫= ?k) ?v] =>
    destruct (send_run a b c d v) as (sent & w1 & Es & Hs1 & Hf1); rewrite (bind_run _ k _ _ _ Es) end.
  intros Ho. exists w1, (simple true "If an account with that email exists, a password reset link has been sent.").
  split_and!; [done|done|exact Hs1|by rewrite Hf1|exact Ho].
Qed.

Lemma hash_password_Ok salt password hash : hash_password salt password = Ok hash ->
  (str_len password <? 8) = false /\ bcrypt_verify password hash = Ok true.
Proof.
  unfold hash_password. destruct (validate_password_strength password) eqn:Es; [simpl|done].
  destruct (bcrypt salt password) as [h|] eqn:Eb; [|done]. intros [= <-]. split; [|by eapply bcrypt_own].
  unfold validate_password_strength in Es. by destruct (str_len password <? 8).
Qed.

Lemma reset_run w id a token e now salt password hash : faults w = [] -> accounts_ok (st w) ->
  st w !! id = Some a -> ac_active a = true -> ac_reset_token a = Some (uuid_to_string token) ->
  ac_reset_expires a = Some e -> now <= e ->
  (forall j b, st w !! j = Some b -> ac_reset_token b = Some (uuid_to_string token) -> j = id) ->
  hash_password salt password = Ok hash -> (utf8_length hash <= 255)%nat ->
  exists r, reset_password salt now (uuid_to_string token) password w
      = (Ok r, set_st (<[id := finish_reset hash a]> (st w)) w) /\ ve_success r = true.
Proof.
  intros Hf Hok Ha Hact Ht He Hnow Huniq Hh Hlen. unfold reset_password. rewrite uuid_nonempty.
  destruct (hash_password_Ok _ _ _ Hh) as [-> _].
  rewrite (bind_run _ _ _ _ _ (attempt_query_calm _ w Hf)).
  erewrite (row_where_unique _ (st w) id a); [|done|by unfold has_reset_token; rewrite Ht, He, String.eqb_refl|].
  2: { intros j c Hc H. unfold has_reset_token in H. destruct (ac_reset_token c) as [t|] eqn:Et; [|done].
       destruct (ac_reset_expires c); [|done]. apply andb_prop in H as [->%String.eqb_eq _].
       by eapply Huniq. }
  rewrite He, Hh. simpl (default _ _). rewrite (proj2 (Z.ltb_ge _ _)) by done.
  assert (F : account_fits (finish_reset hash a) = true).
  { pose proof (ok_fits _ Hok id a Ha) as G. pose proof G as G'. unfold account_fits in G'.
    rewrite !andb_true_iff in G'. apply secrets_fit; [done|by apply Nat.leb_le|apply G'|done]. }
  pose proof (update_only_fits id (finish_reset hash) (st w) a Hok Ha (same_person_refl a) eq_refl F) as Hu.
  rewrite (bind_run _ _ _ _ _ (attempt_exec_calm _ w _ Hf Hu)). by eexists.
Qed.

(** C21: a forgotten password can be replaced.  While nothing fails, an active account whose
    address asks for a reset gets a token that within the hour sets any password that meets the
    rules, and with it the account logs in by its address, provided the address is no other
    account's user name and the drawn token no other account's. *)
Theorem forgot_reset_login w token now id a later salt password hash at_login :
  faults w = [] -> accounts_ok (st w) -> st w !! id = Some a -> ac_active a = true ->
  token_free (uuid_to_string token) (st w) ->
  (forall j b, st w !! j = Some b -> ac_username b = ac_email a -> j = id) ->
  later <= now + hours 1 ->
  hash_password salt password = Ok hash -> (utf8_length hash <= 255)%nat ->
  exists w1 w2 r1 r2,
    forgot_password config token now (ac_email a) w = (Ok r1, w1) /\ ve_success r1 = true
    /\ reset_password salt later (uuid_to_string token) password w1 = (Ok r2, w2) /\ ve_success r2 = true
    /\ st w2 = <[id := finish_reset hash a]> (st w)
    /\ login at_login {| lg_username := ac_email a; lg_password := password |} w2
       = (Ok (200, {| access_token := issue_token at_login id (ac_username a) (ac_role a);
                      expires_in := 86400; auth_user := user_response id a |}), w2).
Proof.
  intros Hf Hok Ha Hact Hfree Hname Hlater Hh Hlen.
  destruct (forgot_run w token now id a Hf Hok Ha Hact) as (_ & w1 & r1 & E1 & Hr1 & Hs1 & Hf1 & Hok1).
  set (b := start_reset _ _ a) in *.
  destruct (reset_run w1 id b token (now + hours 1) later salt password hash) as (r2 & E2 & Hr2); try done.
  { by rewrite Hs1, lookup_insert_eq. }
  { intros j c Hc Ht. rewrite Hs1 in Hc. apply lookup_insert_Some in Hc as [[<- _]|[_ Hc]]; [done|].
    by destruct (Hfree j c Hc). }
  assert (Hs2 : <[id := finish_reset hash b]> (st w1) = <[id := finish_reset hash a]> (st w))
    by (rewrite Hs1, insert_insert_eq; reflexivity).
  exists w1, (set_st (<[id := finish_reset hash a]> (st w)) w1), r1, r2.
  rewrite Hs2 in E2. split_and!; try done.
  rewrite (login_found at_login _ _ id (finish_reset hash a)); [done|done| |].
  - apply login_row; [done|by right|]. intros j c Hc Hj. split.
    + intros E. by apply Hj, (Hname j c Hc).
    + intros E. apply Hj. eapply (ok_distinct _ Hok); [done..|]. unfold clash.
      by rewrite E, String.eqb_refl, orb_true_r.
  - by apply (hash_password_Ok salt).
Qed.

(** ** The test tokens of the verification *)

Lemma update_accounts_none p f d : (forall i a, d !! i = Some a -> p a = false) ->
  update_accounts p f d = Some (None, d).
Proof.
  intros H. unfold update_accounts. rewrite filter_none; [done|].
  intros [i a] Hi%elem_of_map_to_list. by eapply H.
Qed.

Lemma update_accounts_one p f d id a : d !! id = Some a -> p a = true ->
  (forall j b, d !! j = Some b -> p b = true -> j = id) ->
  update_accounts p f d = update_account id f d.
Proof.
  intros Ha Hp Hone. unfold update_accounts.
  assert (E : List.filter (fun x => p x.2) (map_to_list d) = [(id, a)]); [|by rewrite E].
  assert (G : forall l, NoDup l -> (id, a) ∈ l -> (forall x, x ∈ l -> p x.2 = true -> x = (id, a)) ->
    List.filter (fun x => p x.2) l = [(id, a)]).
  { induction l as [|x l IH]; intros Hn Hin Hx; [by apply not_elem_of_nil in Hin|].
    apply list.NoDup_cons in Hn as [Hx1 Hn]. simpl. destruct (p x.2) eqn:Ep.
    - pose proof (Hx x (list_elem_of_here _ _) Ep) as ->. f_equal. apply filter_none.
      intros y Hy. destruct (p y.2) eqn:Ey; [|done]. apply Hx in Ey; [by subst|by right].
    - apply elem_of_cons in Hin as [<-|Hin]; [simpl in Ep; congruence|].
      apply IH; [done..|]. intros y Hy. apply Hx. by right. }
  apply G; [apply NoDup_map_to_list|by apply elem_of_map_to_list|].
  intros [j b] Hj%elem_of_map_to_list Hb. simpl in Hb. pose proof (Hone j b Hj Hb) as ->. congruence.
Qed.

Lemma attempt_exec_ret_calm {A} (f : AccountDb -> option (A * AccountDb)) (w : world AccountDb Event) a s :
  faults w = [] -> f (st w) = Some (a, s) ->
  attempt (exec_ret f) w = (Ok (Ok a), set_st s w).
Proof. intros H E. unfold attempt. by rewrite exec_ret_calm, E. Qed.

Lemma completed_fits wallet key salt iv a v : ac_wallet a = Some v -> v <> "" ->
  account_fits a = true ->
  ac_wallet (completed wallet key salt iv a) = ac_wallet a
  /\ account_fits (completed wallet key salt iv a) = true.
Proof.
  intros Hv Hne F. assert (E : ac_wallet (completed wallet key salt iv a) = ac_wallet a).
  { unfold completed, coalesce. simpl. rewrite Hv. by destruct v. }
  split; [done|]. unfold account_fits in *. by rewrite E.
Qed.

(** Anyone can log in as anyone.  While nothing fails, a request to verify the e-mail
    address with the word [verify_] and a user name, and no secret at all, is answered with a
    token of that user, of whatever role, active or not, if the user has a wallet; the chain
    may fail as it likes. *)
Theorem verify_logs_in_anyone kp draws now id a v w t : faults w = [] -> accounts_ok (st w) ->
  st w !! id = Some a -> ac_wallet a = Some v -> v <> "" ->
  encrypt_private_key draws (encryption_secret config) (kp_bytes kp) = Ok t ->
  exists r w', verify_email config kp draws now ("verify_" ++ ac_username a) w = (Ok r, w')
  /\ ve_success r = true /\ forall token,
     jwt_encode (claims_new (seconds_of now) id (ac_username a) (ac_role a)) = Ok token ->
     exists u, ve_auth r = Some u /\ access_token u = token /\ ur_id (auth_user u) = id
     /\ ur_role (auth_user u) = ac_role a.
Proof.
  intros Hf Hok Ha Hv Hne Ht. destruct t as [[key salt] iv].
  unfold verify_email. change (("verify_" ++ ac_username a =? "")%string) with false. cbv iota.
  rewrite Ht. cbv zeta.
  match goal with |- context [(register_wallet_on_chain ?x ≫= ?k) w] =>
    destruct (register_on_chain_run x w) as (reg & w1 & E1 & Hs1 & Hf1); rewrite (bind_run _ k _ _ _ E1) end.
  rewrite Hf in Hf1.
  assert (N1 : forall f, update_accounts (pending_token ("verify_" ++ ac_username a)) f (st w1) = Some (None, st w1)).
  { intros f. apply update_accounts_none. intros i b Hb. rewrite Hs1 in Hb. unfold pending_token.
    destruct (ac_verification_token b) as [tk|] eqn:Etk; [|done].
    destruct (ok_verification _ Hok i b tk Hb Etk) as [u ->].
    by rewrite (proj2 (String.eqb_neq _ _) (uuid_not_test u _)). }
  rewrite (bind_run _ _ _ _ _ (attempt_exec_ret_calm _ w1 _ _ Hf1 (N1 _))). cbv beta iota.
  assert (Hpre : starts_with "verify_" ("verify_" ++ ac_username a) = true) by (simpl; by destruct (ac_username a)).
  rewrite Hpre. change 7%nat with (String.length "verify_"). rewrite substring_app.
  assert (Hname : forall j b, st w1 !! j = Some b -> ac_username b = ac_username a -> j = id).
  { intros j b Hb E. rewrite Hs1 in Hb. eapply (ok_distinct _ Hok); [done..|]. unfold clash.
    by rewrite E, String.eqb_refl. }
  unfold verify_by_username.
  assert (N2 : forall f, update_accounts (walletless (ac_username a)) f (st w1) = Some (None, st w1)).
  { intros f. apply update_accounts_none. intros i b Hb. unfold walletless.
    destruct (_ =? _)%string eqn:E; [|done]. apply String.eqb_eq in E. pose proof (Hname i b Hb E) as ->.
    rewrite Hs1 in Hb. assert (b = a) as -> by congruence. rewrite Hv. by apply String.eqb_neq. }
  set (w2 := set_st (st w1) w1).
  rewrite (bind_run _ _ _ _ _ (attempt_exec_ret_calm _ w2 _ _ Hf1 (N2 _))). cbv beta iota.
  unfold verify_any_user. set (g := completed _ _ _ _).
  destruct (completed_fits (kp_pubkey kp) (decode_or_empty key) (decode_or_empty salt) (decode_or_empty iv)
    a v Hv Hne (ok_fits _ Hok id a Ha)) as [Hw F].
  assert (N3 : update_accounts (fun a0 => (ac_username a0 =? ac_username a)%string) g (st w1)
    = Some (Some (id, g a), <[id := g a]> (st w1))).
  { rewrite Hs1. rewrite (update_accounts_one _ _ _ id a); [|done|apply String.eqb_refl|].
    - by apply update_account_fits.
    - intros j b Hb E%String.eqb_eq. apply (Hname j b); [by rewrite Hs1|done]. }
  set (w3 := set_st (st w1) w2).
  rewrite (bind_run _ _ _ _ _ (attempt_exec_ret_calm _ w3 _ _ Hf1 N3)). cbv beta iota.
  eexists _, _. split; [reflexivity|]. split; [done|]. intros token Htok.
  unfold logged_in. simpl ve_auth. unfold generate_auth_response, encode_token.
  change (ac_username (g a)) with (ac_username a). change (ac_role (g a)) with (ac_role a).
  rewrite Htok. by eexists.
Qed.
End histories.

(** ** Witnesses *)

(** The hash is the password with a mark. *)
Program Definition demo_passwords : PasswordHash :=
  {| bcrypt salt password := Ok ("$2b$" ++ password);
     bcrypt_verify password h := Ok (h =? "$2b$" ++ password)%string |}.
Next Obligation. intros salt password h [= <-]. by rewrite String.eqb_refl. Qed.

Definition demo_mailer : Mailer := {| smtp_send _ _ _ _ _ := Ok tt |}.

Section witnesses.
#[local] Existing Instance std_chars.
#[local] Existing Instance demo_chain.
#[local] Existing Instance demo_env.
#[local] Existing Instance demo_jwt.
#[local] Existing Instance demo_passwords.
#[local] Existing Instance demo_mailer.
#[local] Existing Instance demo_cipher.
#[local] Existing Instance demo_base64.

Definition demo_accounts_config : AccountsConfig :=
  {| email_service := Some true; verification_expiry_hours := 24; encryption_secret := "secret" |}.

(** An inactive account with a role of its own: the one the demo key signs for. *)
Definition demo_account (active : bool) (reset : option string) (expires : option DateTime) : Account :=
  {| ac_username := "alice"; ac_email := "alice@example.com"; ac_password_hash := "$2b$Sunny-Day-7";
     ac_role := "prosumer"; ac_first_name := Some "Alice"; ac_last_name := None;
     ac_active := active; ac_email_verified := true; ac_registered := true;
     ac_verification_token := None; ac_verification_expires := None; ac_reset_token := reset;
     ac_reset_expires := expires; ac_wallet := Some "Wa11et"; ac_key := None; ac_salt := None;
     ac_iv := None; ac_balance := Some 0; ac_locked_amount := None; ac_locked_energy := None;
     ac_created_at := 0 |}.

Definition demo_world (a : Account) : world AccountDb Event := World {[7%N := a]} [] [].

Lemma demo_row a i b : st (demo_world a) !! i = Some b -> 7%N = i /\ a = b.
Proof. apply lookup_singleton_Some. Qed.

Lemma demo_accounts_ok a : account_fits a = true -> secrets_ok a -> accounts_ok {[7%N := a]}.
Proof.
  intros F [H1 H2 H3]. split.
  - by intros i j x y [<- _]%lookup_singleton_Some [<- _]%lookup_singleton_Some _.
  - by intros i x [_ <-]%lookup_singleton_Some.
  - by intros i x [_ <-]%lookup_singleton_Some.
  - by intros i x [_ <-]%lookup_singleton_Some.
  - intros i x t [_ <-]%lookup_singleton_Some. apply H3.
Qed.

Lemma demo_account_ok active reset expires : varchar 128 reset = true ->
  (is_Some reset <-> is_Some expires) -> accounts_ok {[7%N := demo_account active reset expires]}.
Proof.
  intros F H. apply demo_accounts_ok.
  - unfold account_fits. cbn [ac_reset_token demo_account]. by rewrite F.
  - split; [|done|done]. exists [], "Sunny-Day-7". vm_compute. reflexivity.
Qed.

Definition demo_registration : RegistrationRequest :=
  {| nr_username := "bob"; nr_email := "bob@example.com"; nr_password := "Rainy-Day-8";
     nr_first_name := "Bob"; nr_last_name := "B" |}.

Definition demo_keypair : Keypair := {| kp_pubkey := "NewWa11et"; kp_bytes := [x2a; x2b] |}.

Definition demo_ops : list AccountOp :=
  [OpRegister 8 80 [] 1000 demo_registration;
   OpVerify demo_keypair demo_draws 2000 (uuid_to_string 80);
   OpForgot 81 3000 "bob@example.com";
   OpReset [] 4000 (uuid_to_string 81) "Windy-Day-9";
   OpVerify demo_keypair demo_draws 5000 "verify_alice"].

Lemma accounts_invariant_witness :
  let w := demo_world (demo_account true None None) in
  let d := st (snd (history demo_accounts_config demo_ops w)) in
  accounts_ok d
  /\ (ac_password_hash <$> d !! 8%N) = Some "$2b$Windy-Day-9"
  /\ (d !! 8%N ≫= ac_wallet) = Some "NewWa11et".
Proof.
  intros w d. split; [|split; vm_compute; reflexivity].
  apply (accounts_invariant demo_accounts_config demo_ops w).
  apply demo_account_ok; [done|]. by split; intros [? [=]].
Defined.

Definition demo_reset : Account := demo_account true (Some (uuid_to_string 9)) (Some 5000).

Lemma password_guarded_witness :
  let o := OpReset [] 4000 (uuid_to_string 9) "Windy-Day-9" in
  exists b, st (snd (perform demo_accounts_config o (demo_world demo_reset))) !! 7%N = Some b
  /\ ac_password_hash b = "$2b$Windy-Day-9" /\ ac_active demo_reset = true.
Proof.
  eexists. split; [vm_compute; reflexivity|]. split; [reflexivity|].
  apply (password_guarded demo_accounts_config (OpReset [] 4000 (uuid_to_string 9) "Windy-Day-9")
    (demo_world demo_reset) 7 demo_reset (finish_reset "$2b$Windy-Day-9" demo_reset));
    [vm_compute; reflexivity|vm_compute; reflexivity|vm_compute; discriminate].
Defined.

Definition demo_login : LoginRequest := {| lg_username := "alice@example.com"; lg_password := "Sunny-Day-7" |}.

Lemma login_sound_witness :
  exists body, fst (login 1000000000000 demo_login (demo_world (demo_account true None None))) = Ok (200, body)
  /\ access_token body = "t0".
Proof.
  destruct (login 1000000000000 demo_login (demo_world (demo_account true None None))) as [r w'] eqn:E.
  destruct (login_sound _ _ _ _ _ E) as (_ & _ & status & body & -> & _).
  exists body. vm_compute in E. injection E as <- <- _. by split.
Defined.

Lemma reset_token_single_use_witness :
  let run salt now password w := reset_password salt now (uuid_to_string 9) password w in
  exists r w1, run [] 4000 "Windy-Day-9" (demo_world demo_reset) = (Ok r, w1) /\ ve_success r = true
  /\ st (snd (run [] 4500 "Stormy-Day-1" (snd (history demo_accounts_config demo_ops w1))))
     = st (snd (history demo_accounts_config demo_ops w1)).
Proof.
  intros run.
  destruct (run [] 4000 "Windy-Day-9" (demo_world demo_reset)) as [[r|e] w1] eqn:E; [|by vm_compute in E].
  assert (Hr : ve_success r = true) by (vm_compute in E; by injection E as <- _).
  exists r, w1. split_and!; [done|done|].
  destruct (run [] 4500 "Stormy-Day-1" (snd (history demo_accounts_config demo_ops w1))) as [r2 w3] eqn:E2.
  eapply (reset_token_single_use demo_accounts_config [] 4000 (uuid_to_string 9) "Windy-Day-9"
    (demo_world demo_reset) r w1 demo_ops); [|exact E|exact Hr| |exact E2].
  - by intros i j a b [<- _]%demo_row [<- _]%demo_row.
  - intros t now email H. unfold demo_ops in H. rewrite !elem_of_cons in H.
    destruct_or! H; try discriminate H; [|by apply elem_of_nil in H].
    injection H as -> _ _. by vm_compute.
Defined.

Lemma register_then_login_witness :
  exists r w1 body, register demo_accounts_config 8 80 [] 1000 demo_registration
    (demo_world (demo_account true None None)) = (Ok r, w1) /\ is_Some (rr_auth r)
  /\ fst (login 2000 {| lg_username := "bob"; lg_password := "Rainy-Day-8" |} w1) = Ok (200, body)
  /\ ur_email (auth_user body) = "bob@example.com".
Proof.
  destruct (register demo_accounts_config 8 80 [] 1000 demo_registration
    (demo_world (demo_account true None None))) as [[r|e] w1] eqn:E; [|by vm_compute in E].
  assert (Hr : is_Some (rr_auth r)) by (vm_compute in E; injection E as <- _; by eexists).
  destruct (register_then_login demo_accounts_config 8 80 [] 1000 demo_registration
    (demo_world (demo_account true None None)) r w1 2000
    eq_refl E Hr) as (a & Ha & _ & _ & H); [by intros j b [_ <-]%demo_row|].
  eexists _, _, _. split; [reflexivity|]. split; [exact Hr|]. simpl in H. rewrite H.
  split; [reflexivity|]. vm_compute in E. injection E as _ <-. vm_compute in Ha. by injection Ha as <-.
Defined.

Lemma forgot_reset_login_witness :
  exists w1 w2 r1 r2,
    forgot_password demo_accounts_config 9 1000 "alice@example.com" (demo_world (demo_account true None None))
      = (Ok r1, w1) /\ reset_password [] 2000 (uuid_to_string 9) "Windy-Day-9" w1 = (Ok r2, w2)
    /\ ve_success r2 = true.
Proof.
  destruct (forgot_reset_login demo_accounts_config (demo_world (demo_account true None None)) 9 1000 7
    (demo_account true None None) 2000 [] "Windy-Day-9" "$2b$Windy-Day-9" 3000)
    as (w1 & w2 & r1 & r2 & H1 & _ & H2 & H3 & _).
  - done.
  - apply demo_account_ok; [done|]. by split; intros [? [=]].
  - apply lookup_singleton_eq.
  - done.
  - by intros i a [_ <-]%demo_row.
  - by intros j b [<- _]%demo_row _.
  - vm_compute. discriminate.
  - vm_compute. reflexivity.
  - vm_compute. lia.
  - by exists w1, w2, r1, r2.
Defined.

(** The account is inactive and the request knows nothing but its name. *)
Lemma verify_logs_in_anyone_witness :
  exists r w', verify_email demo_accounts_config demo_keypair demo_draws 1000000000000 "verify_alice"
    (demo_world (demo_account false None None)) = (Ok r, w')
  /\ exists u, ve_auth r = Some u /\ access_token u = "t0" /\ ur_role (auth_user u) = "prosumer".
Proof.
  destruct (verify_logs_in_anyone demo_accounts_config demo_keypair demo_draws 1000000000000 7
    (demo_account false None None) "Wa11et" (demo_world (demo_account false None None))
    (match encrypt_private_key demo_draws "secret" [x2a; x2b] with Ok t => t | Err _ => ("", "", "") end))
    as (r & w' & E & _ & H).
  - done.
  - apply demo_account_ok; [done|]. by split; intros [? [=]].
  - apply lookup_singleton_eq.
  - done.
  - done.
  - vm_compute. reflexivity.
  - exists r, w'. split; [exact E|]. destruct (H "t0") as (u & Hu & Ht & _ & Hrole); [by vm_compute|].
    by exists u.
Defined.
End witnesses.
