(* ===== verification/Wallets.v ===== *)
(** Wallets: diagnosis and repair of the users' key columns, the authority, the audit log.

    [src/services/wallet/initialization.rs], the authority of [service.rs] and
    [audit_logger.rs].  The repair works on the table of Accounts.v; each wallet it creates or
    encrypts again takes a keypair and the two random arrays from a supply indexed by the user.
    The file system, JSON and base58 are the interface [KeyFiles].  Waiting for a confirmation
    is left out: its outcome is ignored. *)
From S2P Require Import Prelude Numerics Floats Errors Store Schema Orders Settlement Text Validation Auth Crypto Accounts.
From Stdlib Require Import Strings.Byte.
Open Scope string_scope.
Open Scope Z_scope.

(** ** Diagnosis *)

Definition STANDARD_NONCE_LEN : nat := 12.
Definition LEGACY_IV_LEN : nat := 16.

Inductive WalletStatus :=
  NoWallet | AddressOnlyNoKeys | ValidEncryption | LegacyEncryption | CorruptedEncryption.

#[global] Instance WalletStatus_eq_dec : EqDecision WalletStatus.
Proof. solve_decision. Defined.

Record WalletDiagnosis := {
  wd_user_id : Uuid;
  wd_username : string;
  wd_email : string;
  wd_wallet_address : option string;
  wd_status : WalletStatus;
  wd_nonce_size : option nat;
  wd_can_decrypt : bool;
  wd_needs_action : bool;
  wd_recommended_action : string;
}.

Record WalletFixResult := {
  wf_user_id : Uuid;
  wf_success : bool;
  wf_action_taken : string;
  wf_new_wallet_address : option string;
  wf_error : option string;
}.

Record WalletInitializationReport := {
  total_users : nat;
  users_without_wallet : nat;
  users_with_legacy_encryption : nat;
  users_with_valid_encryption : nat;
  users_with_corrupted_encryption : nat;
  wallets_created : nat;
  wallets_re_encrypted : nat;
  report_errors : list string;
  duration_seconds : spec_float;
}.

Definition needs_action (s : WalletStatus) : bool :=
  match s with ValidEncryption => false | _ => true end.

Definition recommended_action (s : WalletStatus) : string :=
  match s with
  | NoWallet => "Generate new wallet"
  | AddressOnlyNoKeys => "Generate new wallet (old address will be replaced)"
  | ValidEncryption => "No action needed"
  | LegacyEncryption => "Re-encrypt with standard 12-byte nonce"
  | CorruptedEncryption => "Generate new wallet (data is corrupted)"
  end.

(** The keypair and the draws of the generator for a user. *)
Abbreviation Supply := (Uuid -> Keypair * Draws).

Section repair.
Context `{CH : Chain} `{ENV : Env} `{CI : Cipher} `{B64 : Base64}.
Context (encryption_secret : string).

Definition wallet_status (wallet : option string) (key salt iv : option bytes)
    : WalletStatus * option nat * bool :=
  match key, salt, iv with
  | Some key, Some s, Some i =>
      let nonce_len := length i in
      let can_decrypt := is_ok (decrypt_bytes key s i encryption_secret) in
      let status :=
        if (nonce_len =? STANDARD_NONCE_LEN)%nat then
          if can_decrypt then ValidEncryption else CorruptedEncryption
        else if (nonce_len =? LEGACY_IV_LEN)%nat then LegacyEncryption
        else CorruptedEncryption in
      (status, Some nonce_len, can_decrypt)
  | None, None, None =>
      match wallet with
      | Some _ => (AddressOnlyNoKeys, None, false)
      | None => (NoWallet, None, false)
      end
  | _, _, _ => (CorruptedEncryption, None, false)
  end.

Definition diagnose_wallet_data (id : Uuid) (a : Account) : WalletDiagnosis :=
  let '(status, nonce_size, can_decrypt) :=
    wallet_status (ac_wallet a) (ac_key a) (ac_salt a) (ac_iv a) in
  {| wd_user_id := id; wd_username := ac_username a; wd_email := ac_email a;
     wd_wallet_address := ac_wallet a; wd_status := status; wd_nonce_size := nonce_size;
     wd_can_decrypt := can_decrypt; wd_needs_action := needs_action status;
     wd_recommended_action := recommended_action status |}.

Definition diagnose_user_wallet (user_id : Uuid) : AM WalletDiagnosis :=
  row ← query (fun d => d !! user_id);
  user ← expect (FMsg "User not found") row;
  mret (diagnose_wallet_data user_id user).

(** [ORDER BY created_at DESC]. *)
Definition newest_accounts (d : AccountDb) : list (Uuid * Account) :=
  sort_by (fun x y => ac_created_at y.2 <=? ac_created_at x.2) (map_to_list d).

Definition diagnose_all_users : AM (list WalletDiagnosis) :=
  users ← query newest_accounts;
  mret ((fun x => diagnose_wallet_data x.1 x.2) <$> users).

(** ** Repair *)

(** A computation that may fail, in a method. *)
Definition lift_res {A} (r : res failure A) : AM A :=
  match r with Ok a => mret a | Err e => fail e end.

(** The two updates: of the wallet with its keys, and of the keys alone. *)
Definition set_wallet (wallet : option string) (key salt iv : bytes) (a : Account) : Account :=
  with_wallet (ac_email_verified a) (ac_registered a) wallet (Some key) (Some salt) (Some iv) a.
Definition set_keys (key salt iv : bytes) (a : Account) : Account :=
  set_wallet (ac_wallet a) key salt iv a.

Definition user_type (role : string) : Z := if (role =? "prosumer")%string then 0 else 1.

Definition generate_wallet_for_user (kp : Keypair) (draws : Draws) (user_id : Uuid)
    : AM WalletFixResult :=
  row ← query (fun d => ac_role <$> d !! user_id);
  role ← expect FDb row;
  health ← attempt (chain_call RpcHealth);
  match health with
  | Err _ => fail (FMsg "Solana RPC not available. Please ensure solana-test-validator is running.")
  | Ok _ =>
      let wallet_address := kp_pubkey kp in
      ignore (chain_call (RequestAirdrop wallet_address 1000000000)) ;;
      t ← lift_res (encrypt_to_bytes draws (kp_bytes kp) encryption_secret);
      let '(encrypted_key, salt, iv) := t in
      exec (update_only user_id (set_wallet (Some wallet_address) encrypted_key salt iv)) ;;
      ignore (chain_call (RegisterUser wallet_address (user_type role) "Unknown")) ;;
      mret {| wf_user_id := user_id; wf_success := true;
              wf_action_taken := "Generated new wallet with proper encryption";
              wf_new_wallet_address := Some wallet_address; wf_error := None |}
  end.

Definition re_encrypt_wallet (draws : Draws) (user_id : Uuid) : AM WalletFixResult :=
  let missing what := FMsg ("Missing " ++ what ++ " for user " ++ uuid_to_string user_id) in
  row ← query (fun d => d !! user_id);
  wallet_data ← expect FDb row;
  encrypted_key ← expect (missing "encryption key") (ac_key wallet_data);
  salt ← expect (missing "wallet salt") (ac_salt wallet_data);
  iv ← expect (missing "encryption IV") (ac_iv wallet_data);
  decrypted_bytes ← lift_res (decrypt_bytes encrypted_key salt iv encryption_secret);
  t ← lift_res (encrypt_to_bytes draws decrypted_bytes encryption_secret);
  let '(new_encrypted, new_salt, new_iv) := t in
  if negb (length new_iv =? STANDARD_NONCE_LEN)%nat then
    fail (FMsg ("New encryption produced wrong nonce size: " ++ show_len new_iv))
  else
    exec (update_only user_id (set_keys new_encrypted new_salt new_iv)) ;;
    mret {| wf_user_id := user_id; wf_success := true;
            wf_action_taken := "Re-encrypted wallet with standard 12-byte nonce";
            wf_new_wallet_address := ac_wallet wallet_data; wf_error := None |}.

Definition fix_user_wallet (kp : Keypair) (draws : Draws) (user_id : Uuid) (force_regenerate : bool)
    : AM WalletFixResult :=
  diagnosis ← diagnose_user_wallet user_id;
  let untouched action :=
    {| wf_user_id := user_id; wf_success := true; wf_action_taken := action;
       wf_new_wallet_address := wd_wallet_address diagnosis; wf_error := None |} in
  if negb (wd_needs_action diagnosis) && negb force_regenerate then
    mret (untouched "No action needed - wallet is valid")
  else
    match wd_status diagnosis with
    | NoWallet | AddressOnlyNoKeys | CorruptedEncryption => generate_wallet_for_user kp draws user_id
    | LegacyEncryption => re_encrypt_wallet draws user_id
    | ValidEncryption =>
        if force_regenerate then generate_wallet_for_user kp draws user_id
        else mret (untouched "No action needed")
    end.

(** [e.to_string()] of an [anyhow] error. *)
Definition fix_error_text (e : failure) : string :=
  match e with FDb => db_error_text | FApi e => display e | FMsg m => m | FPanic => "" end.

(** The counters of the second loop. *)
Record Tally := { created : nat; re_encrypted : nat; failed : list string }.

Definition tally_result (id : Uuid) (r : res failure WalletFixResult) (t : Tally) : Tally :=
  let push text := {| created := created t; re_encrypted := re_encrypted t;
    failed := (failed t ++ [("User " ++ uuid_to_string id ++ ": " ++ text)%string])%list |} in
  match r with
  | Ok result =>
      if wf_success result then
        if contains "Generated" (wf_action_taken result) then
          {| created := S (created t); re_encrypted := re_encrypted t; failed := failed t |}
        else if contains "Re-encrypted" (wf_action_taken result) then
          {| created := created t; re_encrypted := S (re_encrypted t); failed := failed t |}
        else t
      else match wf_error result with Some err => push err | None => t end
  | Err e => push (fix_error_text e)
  end.

Fixpoint fix_each (supply : Supply) (l : list WalletDiagnosis) (t : Tally) : AM Tally :=
  match l with
  | [] => mret t
  | d :: l =>
      if negb (wd_needs_action d) then fix_each supply l t
      else
        result ← attempt (fix_user_wallet (supply (wd_user_id d)).1 (supply (wd_user_id d)).2
                            (wd_user_id d) false);
        fix_each supply l (tally_result (wd_user_id d) result t)
  end.

Definition count_wallets (p : WalletStatus -> bool) (l : list WalletDiagnosis) : nat :=
  length (List.filter (fun d => p (wd_status d)) l).

Definition fix_all_users (supply : Supply) (elapsed : spec_float) : AM WalletInitializationReport :=
  diagnoses ← diagnose_all_users;
  t ← fix_each supply diagnoses {| created := 0; re_encrypted := 0; failed := [] |};
  mret {| total_users := length diagnoses;
          users_without_wallet :=
            count_wallets (fun s => bool_decide (s = NoWallet) || bool_decide (s = AddressOnlyNoKeys)) diagnoses;
          users_with_legacy_encryption := count_wallets (fun s => bool_decide (s = LegacyEncryption)) diagnoses;
          users_with_valid_encryption := count_wallets (fun s => bool_decide (s = ValidEncryption)) diagnoses;
          users_with_corrupted_encryption :=
            count_wallets (fun s => bool_decide (s = CorruptedEncryption)) diagnoses;
          wallets_created := created t; wallets_re_encrypted := re_encrypted t;
          report_errors := failed t; duration_seconds := elapsed |}.

(** Each address takes the next element of the supply. *)
Fixpoint initialize_test_users (supply : nat -> Keypair * Draws) (emails : list string)
    : AM (list WalletFixResult) :=
  match emails with
  | [] => mret []
  | email :: emails =>
      user ← query (row_where (fun a => (ac_email a =? email)%string));
      result ← match user with
               | Some (id, _) => fix_user_wallet (supply O).1 (supply O).2 id false
               | None => mret {| wf_user_id := 0; wf_success := false;
                   wf_action_taken := "User not found"; wf_new_wallet_address := None;
                   wf_error := Some ("No user found with email: " ++ email) |}
               end;
      results ← initialize_test_users (fun n => supply (S n)) emails;
      mret (result :: results)
  end.
End repair.

(** ** Lemmas: what a repair does *)

Section repairs.
Context `{CH : Chain} `{ENV : Env} `{CI : Cipher} `{B64 : Base64}.
Context (secret : string).

(** The status of a stored wallet. *)
Definition status_of (a : Account) : WalletStatus :=
  (wallet_status secret (ac_wallet a) (ac_key a) (ac_salt a) (ac_iv a)).1.1.

Lemma diagnose_status id a : wd_status (diagnose_wallet_data secret id a) = status_of a
  /\ wd_needs_action (diagnose_wallet_data secret id a) = needs_action (status_of a)
  /\ wd_wallet_address (diagnose_wallet_data secret id a) = ac_wallet a
  /\ wd_user_id (diagnose_wallet_data secret id a) = id.
Proof. unfold diagnose_wallet_data, status_of. by destruct (wallet_status _ _ _ _ _) as [[s n] c]. Qed.

(** Keys encrypted now are valid. *)
Lemma status_fresh draws data c s n wallet a : draws_ok draws ->
  encrypt_raw draws data secret = Ok (c, s, n) -> status_of (set_wallet wallet c s n a) = ValidEncryption.
Proof.
  intros Hd H. destruct (raw_roundtrip _ _ _ _ _ _ Hd H) as [Hr _].
  destruct (encrypt_raw_Ok _ _ _ _ _ _ Hd H) as (-> & -> & _).
  unfold status_of, wallet_status, set_wallet. simpl. rewrite Hr. simpl.
  by rewrite (nonce_len draws Hd).
Qed.

Lemma encrypt_raw_no_panic draws data : encrypt_raw draws data secret <> Err FPanic.
Proof.
  unfold encrypt_raw. destruct (pbkdf2 _ _); simpl; [|done]. by destruct (aes_encrypt _ _ _).
Qed.

Lemma decrypt_bytes_no_panic c s n : decrypt_bytes c s n secret <> Err FPanic.
Proof.
  rewrite decrypt_bytes_run. destruct (negb _); [done|]. destruct (pbkdf2 _ _); simpl; [|done].
  destruct (length n =? NONCE_LEN)%nat; simpl; [by destruct (aes_decrypt _ _ _)|].
  destruct (length n =? 16)%nat; simpl; [by destruct (aes_decrypt _ _ _)|done].
Qed.

Lemma ignore_chain_run {S} c (w : world S Event) : exists w1,
  ignore (chain_call c) w = (Ok (), w1) /\ st w1 = st w /\ faults w1 = faults w.
Proof.
  unfold ignore. destruct (chain_attempt c w) as (r & ok & E & _).
  rewrite (bind_run _ _ _ _ _ E). by eexists.
Qed.

Lemma update_only_row id f d d' a : d !! id = Some a -> update_only id f d = Some d' ->
  d' = <[id := f a]> d.
Proof.
  intros Ha. unfold update_only, update_account. rewrite Ha. destruct (_ && _); [|done].
  by intros [= <-].
Qed.

(** A method either fails without a trace in the tables, and not by a panic, or writes [b] in
    the row [id] that held [a] and answers [result]. *)
Definition repairs (id : Uuid) (w : world AccountDb Event) (good : Account -> Account -> WalletFixResult -> Prop)
    (out : res failure WalletFixResult * world AccountDb Event) : Prop :=
  match out with
  | (Err e, w') => e <> FPanic /\ st w' = st w
  | (Ok result, w') => exists a b, st w !! id = Some a /\ st w' = <[id := b]> (st w) /\ good a b result
  end.

Lemma expect_run {S T A} e (o : option A) (w : world S T) : expect e o w
  = (match o with Some a => Ok a | None => Err e end, w).
Proof. by destruct o. Qed.

Lemma exec_cases {S T} f (w : world S T) : exists r w1, exec f w = (r, w1)
  /\ ((r = Err FDb /\ st w1 = st w) \/ (r = Ok () /\ f (st w) = Some (st w1))).
Proof.
  destruct (attempt_exec f w) as (r & w1 & E & _ & _ & H). exists r, w1.
  apply attempt_Ok in E. split; [done|].
  destruct H as [(-> & ? & _)|[-> ?]]; [by left|by right].
Qed.

Lemma query_cases {S T A} (f : S -> A) (w : world S T) : exists r w1, query f w = (r, w1)
  /\ st w1 = st w /\ (r = Err FDb \/ r = Ok (f (st w))).
Proof.
  destruct (attempt_query f w) as (r & w1 & E & Hs & _ & _ & H). exists r, w1.
  apply attempt_Ok in E. split; [done|]. split; [done|]. destruct H as [[-> _]| ->]; [by left|by right].
Qed.

(** The next statement of a run, a query or a write. *)
Ltac step_query :=
  match goal with |- context [(query ?f ≫= ?k) ?w] =>
    let w1 := fresh "w" in let Hs := fresh "Hs" in
    destruct (query_cases f w) as (? & w1 & ?E & Hs & [-> | ->]);
    [rewrite (bind_run_Err _ k _ _ _ E); by split
    |rewrite (bind_run _ k _ _ _ E); cbv beta] end.
Ltac step_expect :=
  match goal with |- context [(expect ?e ?o ≫= ?k) ?w] =>
    let E := fresh "E" in pose proof (expect_run e o w) as E;
    destruct o eqn:?; [rewrite (bind_run _ k _ _ _ E)|rewrite (bind_run_Err _ k _ _ _ E); by split];
    clear E; cbv beta end.

Lemma generate_run kp draws id w :
  repairs id w (fun a b result => exists c s n,
      encrypt_raw draws (kp_bytes kp) secret = Ok (c, s, n)
      /\ b = set_wallet (Some (kp_pubkey kp)) c s n a
      /\ result = {| wf_user_id := id; wf_success := true;
           wf_action_taken := "Generated new wallet with proper encryption";
           wf_new_wallet_address := Some (kp_pubkey kp); wf_error := None |})
    (generate_wallet_for_user secret kp draws id w).
Proof.
  unfold generate_wallet_for_user. step_query.
  destruct (st w !! id) as [a|] eqn:Ha; simpl (_ <$> _); [|by split].
  rewrite (bind_run (expect _ _) _ _ _ _ (expect_run FDb (Some (ac_role a)) _)).
  destruct (chain_attempt RpcHealth w0) as (h & ok & E1 & _). rewrite (bind_run _ _ _ _ _ E1).
  destruct h as [sig|e]; [|by split]. cbv zeta.
  match goal with |- context [(ignore (chain_call ?c) ≫= ?k) ?v] =>
    destruct (ignore_chain_run c v) as (w1 & E2 & Hs2 & _); rewrite (bind_run _ k _ _ _ E2) end.
  simpl in Hs2. unfold encrypt_to_bytes.
  destruct (encrypt_raw draws (kp_bytes kp) secret) as [[[c s] n]|e] eqn:Ee.
  2: { split; [intros ->; by eapply encrypt_raw_no_panic|]. simpl. congruence. }
  simpl (lift_res _). rewrite (bind_run (mret _) _ _ _ _ eq_refl). cbv beta iota.
  match goal with |- context [(exec ?f ≫= ?k) ?v] =>
    destruct (exec_cases f v) as (r & w2 & E3 & [[-> Hs3]|[-> Hs3]]);
    [rewrite (bind_run_Err _ k _ _ _ E3)|rewrite (bind_run _ k _ _ _ E3)] end.
  { split; [done|congruence]. }
  match goal with |- context [(ignore (chain_call ?c) ≫= ?k) ?v] =>
    destruct (ignore_chain_run c v) as (w3 & E4 & Hs4 & _); rewrite (bind_run _ k _ _ _ E4) end.
  exists a. eexists. split; [done|]. rewrite Hs4. split; [|by exists c, s, n].
  rewrite Hs2, Hs in Hs3. by eapply update_only_row.
Qed.

Lemma re_encrypt_run draws id w : draws_ok draws ->
  repairs id w (fun a b result => exists key salt iv data c s n,
      ac_key a = Some key /\ ac_salt a = Some salt /\ ac_iv a = Some iv
      /\ decrypt_bytes key salt iv secret = Ok data /\ encrypt_raw draws data secret = Ok (c, s, n)
      /\ b = set_keys c s n a
      /\ result = {| wf_user_id := id; wf_success := true;
           wf_action_taken := "Re-encrypted wallet with standard 12-byte nonce";
           wf_new_wallet_address := ac_wallet a; wf_error := None |})
    (re_encrypt_wallet secret draws id w).
Proof.
  intros Hd. unfold re_encrypt_wallet. step_query. step_expect.
  rename a into a, Heqo into Ha. do 3 step_expect.
  destruct (decrypt_bytes _ _ _ _) as [data|e] eqn:Ed.
  2: { split; [intros ->; by eapply decrypt_bytes_no_panic|done]. }
  simpl (lift_res _). rewrite (bind_run (mret _) _ _ _ _ eq_refl). cbv beta. unfold encrypt_to_bytes.
  destruct (encrypt_raw draws data secret) as [[[c s] n]|e] eqn:Ee.
  2: { split; [intros ->; by eapply encrypt_raw_no_panic|done]. }
  simpl (lift_res _). rewrite (bind_run (mret _) _ _ _ _ eq_refl). cbv beta iota.
  destruct (encrypt_raw_Ok _ _ _ _ _ _ Hd Ee) as (_ & -> & _). rewrite (nonce_len draws Hd).
  change (negb (NONCE_LEN =? STANDARD_NONCE_LEN)%nat) with false. cbv iota.
  match goal with |- context [(exec ?f ≫= ?k) ?v] =>
    destruct (exec_cases f v) as (r & w2 & E3 & [[-> Hs3]|[-> Hs3]]);
    [rewrite (bind_run_Err _ k _ _ _ E3)|rewrite (bind_run _ k _ _ _ E3)] end.
  { split; [done|congruence]. }
  exists a. eexists. split; [done|]. split; [by eapply update_only_row; [|rewrite <- Hs]|].
  eexists _, _, _, data, c, s, (dr_nonce draws). by split_and!.
Qed.

Lemma repairs_imp id w (good good' : Account -> Account -> WalletFixResult -> Prop) out :
  repairs id w good out -> (forall a b r, st w !! id = Some a -> good a b r -> good' a b r) ->
  repairs id w good' out.
Proof.
  destruct out as [[r|e] w']; [|done]. intros (a & b & Ha & Hb & Hg) H. exists a, b.
  split_and!; [done..|]. by apply H.
Qed.

Lemma repairs_st id w1 w good out : st w1 = st w -> repairs id w1 good out -> repairs id w good out.
Proof. unfold repairs. by intros ->. Qed.

(** What becomes of the row [a]: a valid wallet stays unless forced, a legacy one keeps its
    address and its key, any other gives way to the new keypair. *)
Definition mended (kp : Keypair) (draws : Draws) (force : bool) (a b : Account) : Prop :=
  match status_of a, force with
  | ValidEncryption, false => b = a
  | LegacyEncryption, _ => exists key salt iv data c s n,
      ac_key a = Some key /\ ac_salt a = Some salt /\ ac_iv a = Some iv
      /\ decrypt_bytes key salt iv secret = Ok data /\ encrypt_raw draws data secret = Ok (c, s, n)
      /\ b = set_keys c s n a
  | _, _ => exists c s n, encrypt_raw draws (kp_bytes kp) secret = Ok (c, s, n)
      /\ b = set_wallet (Some (kp_pubkey kp)) c s n a
  end.

(** The word the report counts. *)
Definition action_word (force : bool) (s : WalletStatus) : string :=
  match s, force with
  | ValidEncryption, false => "No action needed - wallet is valid"
  | LegacyEncryption, _ => "Re-encrypted wallet with standard 12-byte nonce"
  | _, _ => "Generated new wallet with proper encryption"
  end.

Lemma fix_run kp draws id force w : draws_ok draws ->
  repairs id w (fun a b result => mended kp draws force a b
      /\ result = {| wf_user_id := id; wf_success := true;
           wf_action_taken := action_word force (status_of a);
           wf_new_wallet_address := ac_wallet b; wf_error := None |})
    (fix_user_wallet secret kp draws id force w).
Proof.
  intros Hd. unfold fix_user_wallet.
  assert (D : exists r w1, diagnose_user_wallet secret id w = (r, w1) /\ st w1 = st w
    /\ match r with
       | Ok x => exists a, st w !! id = Some a /\ x = diagnose_wallet_data secret id a
       | Err e => e <> FPanic end).
  { unfold diagnose_user_wallet. destruct (query_cases (fun d : AccountDb => d !! id) w) as (r & w1 & E & Hs & [-> | ->]).
    - rewrite (bind_run_Err _ _ _ _ _ E). by eexists _, w1.
    - rewrite (bind_run _ _ _ _ _ E). cbv beta. destruct (st w !! id) as [a|] eqn:Ha.
      + rewrite (bind_run (expect _ _) _ _ _ _ (expect_run _ (Some a) _)).
        eexists _, w1. split_and!; [done..|]. by exists a.
      + rewrite (bind_run_Err (expect _ _) _ _ _ _ (expect_run _ None _)). by eexists _, w1. }
  destruct D as (r & w1 & E & Hs & Hr). destruct r as [x|e].
  2: { rewrite (bind_run_Err _ _ _ _ _ E). by split. }
  rewrite (bind_run _ _ _ _ _ E). destruct Hr as (a & Ha & ->). cbv beta zeta.
  destruct (diagnose_status id a) as (-> & -> & -> & _).
  assert (G : action_word force (status_of a) = "Generated new wallet with proper encryption" ->
    (forall b, mended kp draws force a b <-> exists c s n,
      encrypt_raw draws (kp_bytes kp) secret = Ok (c, s, n) /\ b = set_wallet (Some (kp_pubkey kp)) c s n a) ->
    repairs id w (fun a b result => mended kp draws force a b
      /\ result = {| wf_user_id := id; wf_success := true;
           wf_action_taken := action_word force (status_of a);
           wf_new_wallet_address := ac_wallet b; wf_error := None |})
      (generate_wallet_for_user secret kp draws id w1)).
  { intros Hw Hm. eapply repairs_st; [exact Hs|]. eapply repairs_imp; [apply generate_run|].
    intros a' b res Ha' (c & s & n & Hc & Hb & ->). rewrite Hs in Ha'.
    assert (a' = a) as -> by congruence. split; [apply Hm; by exists c, s, n|]. by rewrite Hw, Hb. }
  unfold mended, action_word in *.
  destruct (status_of a) eqn:Es; simpl; try (by apply G); destruct force; simpl; try (by apply G).
  - exists a, a. split; [done|]. split; [by rewrite Hs, insert_id|]. by rewrite Es.
  - eapply repairs_st; [exact Hs|]. eapply repairs_imp; [by apply re_encrypt_run|].
    intros a' b res Ha'. rewrite Hs in Ha'. assert (a' = a) as -> by congruence. rewrite Es.
    intros (k & sl & iv & data & c & s & n & H1 & H2 & H3 & H4 & H5 & -> & ->).
    split; [by exists k, sl, iv, data, c, s, n|done].
  - eapply repairs_st; [exact Hs|]. eapply repairs_imp; [by apply re_encrypt_run|].
    intros a' b res Ha'. rewrite Hs in Ha'. assert (a' = a) as -> by congruence. rewrite Es.
    intros (k & sl & iv & data & c & s & n & H1 & H2 & H3 & H4 & H5 & -> & ->).
    split; [by exists k, sl, iv, data, c, s, n|done].
Qed.

Lemma mended_valid kp draws force a b : draws_ok draws -> mended kp draws force a b ->
  status_of b = ValidEncryption.
Proof.
  intros Hd. unfold mended. destruct (status_of a) eqn:Es, force;
    try (intros (c & s & n & Hc & ->); by eapply status_fresh); [by intros ->|..];
    intros (k & sl & iv & data & c & s & n & _ & _ & _ & _ & Hc & ->); by eapply status_fresh.
Qed.

(** What the repair reads, the signing routine reads. *)
Lemma valid_signs a : status_of a = ValidEncryption -> exists c s n data,
  ac_key a = Some c /\ ac_salt a = Some s /\ ac_iv a = Some n
  /\ decrypt_bytes c s n secret = Ok data /\ decrypt_private_key_bytes secret c s n = Ok data.
Proof.
  unfold status_of, wallet_status.
  destruct (ac_key a) as [c|], (ac_salt a) as [s|], (ac_iv a) as [n|]; simpl;
    try done; [|by destruct (ac_wallet a)].
  destruct (length n =? STANDARD_NONCE_LEN)%nat eqn:En; [|by destruct (length n =? LEGACY_IV_LEN)%nat].
  apply Nat.eqb_eq in En. destruct (decrypt_bytes c s n secret) as [data|e] eqn:Ed; simpl; [|done].
  intros _. exists c, s, n, data. split_and!; try done. revert Ed. rewrite decrypt_bytes_run.
  destruct (negb _); [done|]. unfold decrypt_private_key_bytes.
  destruct (pbkdf2 secret s) as [key|]; simpl; [|done]. rewrite (nonce_from_slice_ok n En).
  rewrite En. simpl. by destruct (aes_decrypt key n c).
Qed.

(** ** Properties *)

(** C22: a repaired wallet works.  When a repair answers, only the wallet columns of that user's
    row have changed, the wallet is valid and the signing routine reads its key.  A valid
    wallet is left alone unless the repair is forced; a legacy wallet keeps its address and
    the very key it had; any other wallet gets the new address and the new key. *)
Theorem fix_heals kp draws id force w r w' : draws_ok draws ->
  fix_user_wallet secret kp draws id force w = (Ok r, w') ->
  exists a b c s n data, st w !! id = Some a /\ st w' = <[id := b]> (st w)
  /\ b = with_wallet (ac_email_verified a) (ac_registered a) (ac_wallet b) (ac_key b) (ac_salt b) (ac_iv b) a
  /\ wf_success r = true /\ wf_new_wallet_address r = ac_wallet b
  /\ status_of b = ValidEncryption
  /\ ac_key b = Some c /\ ac_salt b = Some s /\ ac_iv b = Some n
  /\ decrypt_private_key_bytes secret c s n = Ok data
  /\ match status_of a, force with
     | ValidEncryption, false => b = a
     | LegacyEncryption, _ => ac_wallet b = ac_wallet a /\ exists c0 s0 n0,
         ac_key a = Some c0 /\ ac_salt a = Some s0 /\ ac_iv a = Some n0
         /\ decrypt_bytes c0 s0 n0 secret = Ok data
     | _, _ => ac_wallet b = Some (kp_pubkey kp) /\ data = kp_bytes kp
     end.
Proof.
  intros Hd H. pose proof (fix_run kp draws id force w Hd) as G. rewrite H in G.
  destruct G as (a & b & Ha & Hst & Hm & ->).
  pose proof (mended_valid _ _ _ _ _ Hd Hm) as Hv.
  destruct (valid_signs b Hv) as (c & s & n & data & Hc & Hs & Hn & Hdec & Hsign).
  exists a, b, c, s, n, data. unfold mended in Hm.
  assert (R : forall x c0 s0 n0 wl, encrypt_raw draws x secret = Ok (c0, s0, n0) ->
    b = set_wallet wl c0 s0 n0 a -> data = x).
  { intros x c0 s0 n0 wl He ->. injection Hc as ->. injection Hs as ->. injection Hn as ->.
    destruct (raw_roundtrip _ _ _ _ _ _ Hd He) as [Hx _]. congruence. }
  destruct (status_of a) eqn:Es, force; simpl in Hm.
  all: try (destruct Hm as (c0 & s0 & n0 & He & Hb); pose proof (R _ _ _ _ _ He Hb) as Hx;
            split_and!; try done; rewrite Hb; by destruct a).
  - subst b. split_and!; try done. by destruct a.
  - destruct Hm as (k & sl & iv & x & c0 & s0 & n0 & H1 & H2 & H3 & H4 & He & Hb).
    pose proof (R _ _ _ _ _ He Hb) as Hx.
    split_and!; try done; [rewrite Hb; by destruct a|by rewrite Hb|].
    exists k, sl, iv. by rewrite Hx.
  - destruct Hm as (k & sl & iv & x & c0 & s0 & n0 & H1 & H2 & H3 & H4 & He & Hb).
    pose proof (R _ _ _ _ _ He Hb) as Hx.
    split_and!; try done; [rewrite Hb; by destruct a|by rewrite Hb|].
    exists k, sl, iv. by rewrite Hx.
Qed.

(** A failed repair changes nothing, and a legacy wallet whose key cannot be decrypted with
    the secret is never repaired, not even by force, however often it is tried. *)
Theorem fix_failure kp draws id force w r w' : draws_ok draws ->
  fix_user_wallet secret kp draws id force w = (r, w') ->
  (forall e, r = Err e -> e <> FPanic /\ st w' = st w)
  /\ (forall a key salt iv, st w !! id = Some a -> status_of a = LegacyEncryption ->
      ac_key a = Some key -> ac_salt a = Some salt -> ac_iv a = Some iv ->
      is_ok (decrypt_bytes key salt iv secret) = false -> is_ok r = false /\ st w' = st w).
Proof.
  intros Hd H. pose proof (fix_run kp draws id force w Hd) as G. rewrite H in G.
  destruct r as [x|e].
  - split; [done|]. intros a key salt iv Ha Hl Hk Hs Hi Hdec. exfalso.
    destruct G as (a' & b & Ha' & _ & Hm & _). assert (a' = a) as -> by congruence.
    unfold mended in Hm. rewrite Hl in Hm.
    destruct Hm as (k & sl & iv' & data & c & s & n & H1 & H2 & H3 & H4 & _).
    assert (k = key) as -> by congruence. assert (sl = salt) as -> by congruence.
    assert (iv' = iv) as -> by congruence. by rewrite H4 in Hdec.
  - split; [by intros ? [= ->]|]. intros a key salt iv _ _ _ _ _ _. split; [done|apply G].
Qed.

(** ** The batch *)

Definition tally_total (t : Tally) : nat := (created t + re_encrypted t + length (failed t))%nat.

Definition ill (a : Account) : bool := needs_action (status_of a).

(** One result adds one to the tally; a repair of a wallet that needs it is counted. *)
Lemma tally_step id r t : (forall x, r = Ok x -> wf_success x = true
    /\ exists a, ill a = true /\ wf_action_taken x = action_word false (status_of a)) ->
  tally_total (tally_result id r t) = S (tally_total t)
  /\ (length (failed t) <= length (failed (tally_result id r t)))%nat
  /\ (length (failed (tally_result id r t)) = length (failed t) -> is_ok r = true).
Proof.
  intros H. unfold tally_total, tally_result. destruct r as [x|e]; simpl.
  - destruct (H x eq_refl) as [-> (a & Hi & ->)]. unfold ill in Hi.
    destruct (status_of a); try discriminate Hi; vm_compute contains; simpl; split_and!; (done || lia).
  - rewrite length_app. simpl. split_and!; [lia|lia|lia].
Qed.

(** The state of a row after the batch. *)
Definition treated (all_well : Prop) (a : Account) (o : option Account) : Prop :=
  exists b, o = Some b /\ (ill a = false -> b = a) /\ (b = a \/ ill b = false)
            /\ (all_well -> ill b = false).

Lemma fix_each_run supply rows t w : (forall id, draws_ok (supply id).2) -> NoDup rows.*1 ->
  (forall id a, (id, a) ∈ rows -> st w !! id = Some a) ->
  exists t' w', fix_each secret supply ((fun x => diagnose_wallet_data secret x.1 x.2) <$> rows) t w = (Ok t', w')
  /\ tally_total t' = (tally_total t + length (List.filter (fun x => ill x.2) rows))%nat
  /\ (length (failed t) <= length (failed t'))%nat
  /\ (forall id, id ∉ rows.*1 -> st w' !! id = st w !! id)
  /\ (forall id a, (id, a) ∈ rows ->
        treated (length (failed t') = length (failed t)) a (st w' !! id)).
Proof.
  intros Hd. revert t w. induction rows as [|[id a] rows IH]; intros t w Hn Hrows.
  { exists t, w. simpl. split_and!; [done|lia|lia|done|]. intros id a Hin. by apply elem_of_nil in Hin. }
  rewrite fmap_cons in Hn. apply list.NoDup_cons in Hn as [Hid Hn].
  destruct (diagnose_status id a) as (_ & Hneed & _ & Huid).
  cbn [fmap list_fmap fix_each fst snd]. rewrite Hneed, Huid. fold (ill a).
  destruct (ill a) eqn:Ei; simpl.
  2: { destruct (IH t w Hn) as (t' & w' & E & Ht & Hl & Hout & Hin); [by intros; apply Hrows; right|].
       exists t', w'. rewrite Ei. split_and!; [done..| |].
       - intros j Hj. apply Hout. intros H. apply Hj. by right.
       - intros j b [[= -> ->]|Hj]%elem_of_cons; [|by apply Hin].
         exists a. rewrite Hout by done. split_and!; [apply Hrows; left|done|by left|done]. }
  pose proof (fix_run (supply id).1 (supply id).2 id false w (Hd id)) as G.
  destruct (fix_user_wallet _ _ _ _ _ w) as [r w1] eqn:Ef.
  assert (Hr : r <> Err FPanic) by (destruct r as [x|e]; [done|destruct G; congruence]).
  rewrite (bind_run _ _ _ _ _ (attempt_run _ _ _ _ Ef Hr)).
  pose proof (Hrows id a ltac:(by left)) as Ha.
  assert (G' : (forall x, r = Ok x -> wf_success x = true
      /\ exists a', ill a' = true /\ wf_action_taken x = action_word false (status_of a'))
    /\ exists b, st w1 = <[id := b]> (st w) /\ (b = a \/ ill b = false) /\ (is_ok r = true -> ill b = false)).
  { destruct r as [x|e].
    - destruct G as (a' & b & Ha' & Hb & Hm & ->). assert (a' = a) as -> by congruence. split.
      + intros x [= <-]. split; [done|]. by exists a.
      + exists b. unfold ill. rewrite (mended_valid _ _ _ _ _ (Hd id) Hm). split_and!; [done|by right|done].
    - destruct G as [_ Hs]. split; [done|]. exists a. rewrite Hs, insert_id by done.
      split_and!; [done|by left|done]. }
  destruct G' as [Hx (b & Hst & Hb & Hok)].
  destruct (tally_step id r t Hx) as (Ht1 & Hl1 & Hl2).
  assert (Hrest : forall j c, (j, c) ∈ rows -> st w1 !! j = Some c).
  { intros j c Hj. rewrite Hst, lookup_insert_ne; [apply Hrows; by right|].
    intros <-. apply Hid. apply list_elem_of_fmap. by exists (id, c). }
  destruct (IH (tally_result id r t) w1 Hn Hrest) as (t' & w' & E & Ht & Hl & Hout & Hin).
  exists t', w'. rewrite Ei. split_and!; [done|simpl; lia|lia| |].
  - intros j Hj. rewrite Hout by (intros H; apply Hj; by right).
    rewrite Hst, lookup_insert_ne; [done|]. intros <-. apply Hj. by left.
  - intros j c [[= -> ->]|Hj]%elem_of_cons.
    + exists b. rewrite Hout, Hst, lookup_insert_eq by done. split_and!; [done|congruence|done|].
      intros Hlen. apply Hok, Hl2. lia.
    + destruct (Hin j c Hj) as (c' & H1 & H2 & H3 & H4). exists c'. split_and!; try done.
      intros Hlen. apply H4. lia.
Qed.

Lemma count_split (l : list WalletDiagnosis) :
  length l = (count_wallets (fun s => bool_decide (s = NoWallet) || bool_decide (s = AddressOnlyNoKeys)) l
    + count_wallets (fun s => bool_decide (s = LegacyEncryption)) l
    + count_wallets (fun s => bool_decide (s = ValidEncryption)) l
    + count_wallets (fun s => bool_decide (s = CorruptedEncryption)) l)%nat.
Proof.
  unfold count_wallets. induction l as [|d l IH]; simpl; [done|].
  destruct (wd_status d); simpl; lia.
Qed.

Lemma count_valid rows :
  (length (List.filter (fun x : Uuid * Account => ill x.2) rows)
   + count_wallets (fun s => bool_decide (s = ValidEncryption))
       ((fun x => diagnose_wallet_data secret x.1 x.2) <$> rows) = length rows)%nat.
Proof.
  unfold count_wallets. induction rows as [|[id a] rows IH]; [done|].
  rewrite fmap_cons. cbn [List.filter length fst snd].
  destruct (diagnose_status id a) as (-> & _).
  replace (ill a) with (needs_action (status_of a)) by done.
  destruct (status_of a); cbn [length needs_action]; simpl (bool_decide _); cbn [length]; lia.
Qed.

(** The batch repair adds up.  It fails only where the list of users cannot be read, and
    then changes nothing.  Its report counts every user once by the state found and once by
    what was done: the wallets created, those encrypted again and the errors are exactly the
    wallets that needed action.  No account is lost, a valid wallet is not touched, any other is
    as it was or valid, and all are valid when no error is listed. *)
Theorem fix_all_report supply elapsed w r w' : (forall id, draws_ok (supply id).2) ->
  fix_all_users secret supply elapsed w = (r, w') ->
  match r with
  | Err e => e = FDb /\ st w' = st w
  | Ok rep =>
      total_users rep = size (st w)
      /\ total_users rep = (users_without_wallet rep + users_with_legacy_encryption rep
          + users_with_valid_encryption rep + users_with_corrupted_encryption rep)%nat
      /\ (wallets_created rep + wallets_re_encrypted rep + length (report_errors rep)
          + users_with_valid_encryption rep = total_users rep)%nat
      /\ dom (st w') = dom (st w)
      /\ forall id a, st w !! id = Some a -> exists b, st w' !! id = Some b
         /\ (status_of a = ValidEncryption -> b = a)
         /\ (b = a \/ status_of b = ValidEncryption)
         /\ (report_errors rep = [] -> status_of b = ValidEncryption)
  end.
Proof.
  intros Hd. unfold fix_all_users, diagnose_all_users.
  destruct (query_cases newest_accounts w) as (x & w1 & E & Hs & [-> | ->]).
  { rewrite (bind_run_Err (query _ ≫= _) _ w FDb w1 (bind_run_Err _ _ _ _ _ E)). by intros [= <- <-]. }
  rewrite (bind_run (query _ ≫= _) _ w _ w1 (bind_run _ _ _ _ _ E)). cbv beta.
  set (rows := newest_accounts (st w)). set (l := _ <$> rows).
  assert (P : rows ≡ₚ map_to_list (st w)) by apply sort_by_perm.
  destruct (fix_each_run supply rows {| created := 0; re_encrypted := 0; failed := [] |} w1 Hd)
    as (t & w2 & E2 & Ht & _ & Hout & Hin).
  { rewrite P. apply NoDup_fst_map_to_list. }
  { intros id a H. rewrite Hs. apply elem_of_map_to_list. by rewrite <- P. }
  fold l in E2. rewrite (bind_run _ _ _ _ _ E2). intros [= <- <-]. simpl.
  assert (Hlen : length l = length rows) by (unfold l; by rewrite length_fmap).
  assert (Hill : forall a, ill a = false <-> status_of a = ValidEncryption)
    by (intros a; unfold ill; by destruct (status_of a)).
  assert (T : forall id a, st w !! id = Some a ->
    treated (length (failed t) = 0%nat) a (st w2 !! id)).
  { intros id a Ha. apply Hin. rewrite P. by apply elem_of_map_to_list. }
  split_and!.
  - rewrite Hlen, P. apply length_map_to_list.
  - apply count_split.
  - rewrite Hlen, <- (count_valid rows). fold l. unfold tally_total in Ht. simpl in Ht. lia.
  - apply set_eq. intros id. rewrite !elem_of_dom. split.
    + intros [b Hb]. destruct (st w !! id) as [a|] eqn:Ha; [done|]. exfalso.
      rewrite Hout in Hb; [rewrite Hs in Hb; congruence|].
      rewrite P. intros ([i a] & -> & H%elem_of_map_to_list)%list_elem_of_fmap. simpl in Ha. congruence.
    + intros [a Ha]. destruct (T id a Ha) as (b & -> & _). by eexists.
  - intros id a Ha. destruct (T id a Ha) as (b & Hb & H1 & H2 & H3). exists b.
    rewrite <- !Hill. split_and!; [done..|]. intros He. apply H3. by rewrite He.
Qed.
End repairs.

(** ** The authority ([service.rs]) *)

(** [std::fs], [serde_json], [bs58], [Keypair::new_from_array] and the text of a path. *)
Class KeyFiles := {
  path_exists : string -> bool;
  read_to_string : string -> res string string;
  parse_byte_array : string -> res string bytes;
  bs58_decode : string -> res string bytes;
  keypair_from_secret : bytes -> Keypair;
  debug_path : string -> string;
}.

Section authority.
Context `{KF : KeyFiles} `{ENV : Env}.

(** The keypair in memory is the state. *)
Abbreviation WM := (M (option Keypair) Event).

(** Both loaders, from the bytes on. *)
Definition cache_keypair (what : string) (keypair_bytes : bytes) : WM unit :=
  if negb (length keypair_bytes =? 64)%nat then
    fail (FMsg ("Invalid " ++ what ++ ": expected 64 bytes, got " ++ show_len keypair_bytes))
  else exec (fun _ => Some (Some (keypair_from_secret (take 32 keypair_bytes)))).

Definition load_from_file (path : string) : WM unit :=
  match read_to_string path with
  | Err _ => fail (FMsg ("Failed to read wallet file: " ++ debug_path path))
  | Ok contents =>
      match parse_byte_array contents with
      | Err _ => fail (FMsg "Failed to parse wallet file as JSON array")
      | Ok keypair_bytes => cache_keypair "keypair file" keypair_bytes
      end
  end.

Definition load_from_env : WM unit :=
  match env_var "AUTHORITY_WALLET_PRIVATE_KEY" with
  | None => fail (FMsg "AUTHORITY_WALLET_PRIVATE_KEY environment variable not set")
  | Some private_key_str =>
      match bs58_decode private_key_str with
      | Err _ => fail (FMsg "Failed to decode base58 private key")
      | Ok keypair_bytes => cache_keypair "private key" keypair_bytes
      end
  end.

Definition default_paths : list string :=
  ["./dev-wallet.json"; "../dev-wallet.json"; "/app/dev-wallet.json"].

(** The configured path, then the default ones. *)
Definition candidate_paths (wallet_path : option string) : list string :=
  match wallet_path with Some path => path :: default_paths | None => default_paths end.

Definition initialize_authority (wallet_path : option string) : WM unit :=
  match List.find path_exists (candidate_paths wallet_path) with
  | Some path => load_from_file path
  | None =>
      match env_var "AUTHORITY_WALLET_PRIVATE_KEY" with
      | Some _ => load_from_env
      | None => fail (FMsg "No authority wallet found. Set AUTHORITY_WALLET_PRIVATE_KEY env var or provide dev-wallet.json")
      end
  end.

Definition get_authority_keypair : WM Keypair := fun w =>
  match st w with
  | Some k => (Ok k, w)
  | None => (Err (FMsg "Authority keypair not loaded. Call initialize_authority() first."), w)
  end.

Definition get_authority_pubkey_string : WM string :=
  keypair ← get_authority_keypair; mret (kp_pubkey keypair).

Definition is_authority_loaded : WM bool := fun w =>
  (Ok (match st w with Some _ => true | None => false end), w).

(** The bytes a source holds. *)
Definition source_bytes (wallet_path : option string) : option bytes :=
  match List.find path_exists (candidate_paths wallet_path) with
  | Some path =>
      match read_to_string path with
      | Ok contents => match parse_byte_array contents with Ok l => Some l | Err _ => None end
      | Err _ => None
      end
  | None =>
      match env_var "AUTHORITY_WALLET_PRIVATE_KEY" with
      | Some key => match bs58_decode key with Ok l => Some l | Err _ => None end
      | None => None
      end
  end.

(** The authority comes from the first source there is.  Loading succeeds exactly when the
    first existing file, or without any file the environment variable, holds 64 bytes; the
    keypair is then that of their first half, and is what [get_authority_keypair] returns.
    Where that source is unusable the later ones are not tried, and the keypair in memory, or
    its absence, is left as it was. *)
Theorem authority_first_source wallet_path w r w' : faults w = [] ->
  initialize_authority wallet_path w = (r, w') ->
  match source_bytes wallet_path with
  | Some l =>
      if (length l =? 64)%nat
      then r = Ok () /\ get_authority_keypair w' = (Ok (keypair_from_secret (take 32 l)), w')
      else is_ok r = false /\ st w' = st w
  | None => is_ok r = false /\ st w' = st w
  end.
Proof.
  intros Hf. unfold initialize_authority, source_bytes, load_from_file, load_from_env.
  assert (C : forall what l r w', cache_keypair what l w = (r, w') ->
    if (length l =? 64)%nat
    then r = Ok () /\ get_authority_keypair w' = (Ok (keypair_from_secret (take 32 l)), w')
    else is_ok r = false /\ st w' = st w).
  { intros what l r0 w0. unfold cache_keypair. destruct (length l =? 64)%nat; simpl.
    - rewrite exec_calm by done. by intros [= <- <-].
    - by intros [= <- <-]. }
  destruct (List.find _ _) as [path|].
  - destruct (read_to_string path) as [contents|e]; [|by intros [= <- <-]].
    destruct (parse_byte_array contents) as [l|e]; [apply C|by intros [= <- <-]].
  - destruct (env_var _) as [key|]; [|by intros [= <- <-]].
    destruct (bs58_decode key) as [l|e]; [apply C|by intros [= <- <-]].
Qed.
End authority.

(** ** The audit log ([audit_logger.rs]) *)

Inductive MetaValue := MText (s : string) | MInt (z : Z).

Record AuditEntry := {
  au_id : Uuid;
  au_user_id : Uuid;
  au_operation : string;
  au_success : bool;
  au_ip_address : option string;
  au_user_agent : option string;
  au_error_message : option string;
  au_metadata : option (list (string * MetaValue));
  au_created_at : DateTime;
}.

(** The users the log refers to, and its rows, oldest first. *)
Record AuditDb := { audited_users : gset Uuid; audit_rows : list AuditEntry }.
Abbreviation UM := (M AuditDb Event).

Definition insert_audit (e : AuditEntry) (d : AuditDb) : option AuditDb :=
  if bool_decide (au_user_id e ∈ audited_users d)
     && negb (existsb (fun x => (au_id x =? au_id e)%N) (audit_rows d))
  then Some {| audited_users := audited_users d; audit_rows := (audit_rows d ++ [e])%list |}
  else None.

Section audit.
(** The identifier the database draws, and NOW(). *)
Context (id : Uuid) (now : DateTime).

Definition log_operation (user_id : Uuid) (operation : string) (success : bool)
    (ip_address user_agent error_message : option string)
    (metadata : option (list (string * MetaValue))) : UM unit :=
  exec (insert_audit {| au_id := id; au_user_id := user_id; au_operation := operation;
    au_success := success; au_ip_address := ip_address; au_user_agent := user_agent;
    au_error_message := error_message; au_metadata := metadata; au_created_at := now |}).

Definition log_decryption (user_id : Uuid) (operation : string) (success : bool)
    (ip_address user_agent error : option string) : UM unit :=
  log_operation user_id ("decrypt_" ++ operation) success ip_address user_agent error None.

Definition log_export (user_id : Uuid) (ip_address user_agent : option string) : UM unit :=
  log_operation user_id "export_wallet" true ip_address user_agent None
    (Some [("warning", MText "User exported private key")]).

Definition log_key_rotation (user_id : Uuid) (old_version new_version : Z) (success : bool)
    (error : option string) : UM unit :=
  log_operation user_id "rotate_key" success None None error
    (Some [("old_version", MInt old_version); ("new_version", MInt new_version)]).

Definition log_wallet_creation (user_id : Uuid) (wallet_address : string)
    (ip_address user_agent : option string) : UM unit :=
  log_operation user_id "create_wallet" true ip_address user_agent None
    (Some [("wallet_address", MText wallet_address)]).
End audit.

(** [ORDER BY created_at DESC LIMIT $2]; a negative limit is an error of the server. *)
Definition get_user_audit_log (user_id : Uuid) (limit : Z) : UM (list AuditEntry) :=
  if limit <? 0 then fail FDb
  else query (fun d => take (Z.to_nat limit)
    (sort_by (fun x y => au_created_at y <=? au_created_at x)
       (List.filter (fun e => (au_user_id e =? user_id)%N) (audit_rows d)))).

(** ** Witnesses *)

Section witnesses.
#[local] Existing Instance demo_chain.
#[local] Existing Instance demo_env.
#[local] Existing Instance demo_cipher.
#[local] Existing Instance demo_base64.

Definition key_bytes : bytes := [x2a; x2b].
Definition demo_ciphertext (secret : string) : bytes :=
  match encrypt_raw demo_draws key_bytes secret with Ok (c, _, _) => c | Err _ => [] end.

(** A wallet with an IV of sixteen bytes, encrypted under some secret. *)
Definition legacy_account (secret : string) : Account :=
  with_wallet true true (Some "Wa11et") (Some (demo_ciphertext secret)) (Some (repeat x01 16))
    (Some (repeat x02 16)) (demo_account true None None).

Definition repair_keypair : Keypair := {| kp_pubkey := "NewWa11et"; kp_bytes := [x2c; x2d] |}.

Lemma fix_heals_witness :
  exists r w', fix_user_wallet "secret" repair_keypair demo_draws 7 false (demo_world (legacy_account "secret")) = (Ok r, w')
  /\ exists c s n, (st w' !! 7%N ≫= ac_key) = Some c /\ (st w' !! 7%N ≫= ac_wallet) = Some "Wa11et"
     /\ decrypt_private_key_bytes "secret" c s n = Ok key_bytes.
Proof.
  destruct (fix_user_wallet "secret" repair_keypair demo_draws 7 false (demo_world (legacy_account "secret")))
    as [[r|e] w'] eqn:E; [|by vm_compute in E].
  exists r, w'. split; [done|].
  destruct (fix_heals "secret" repair_keypair demo_draws 7 false _ r w' demo_draws_ok E)
    as (a & b & c & s & n & data & Ha & Hst & _ & _ & _ & _ & Hc & _ & _ & Hdec & Hm).
  vm_compute in Ha. injection Ha as <-. vm_compute in Hm.
  destruct Hm as (Hw & c0 & s0 & n0 & Hc0 & Hs0 & Hn0 & Hd). exists c, s, n.
  assert (Hl : st w' !! 7%N = Some b) by (rewrite Hst; apply lookup_insert_eq). rewrite Hl.
  split; [exact Hc|]. split; [exact Hw|].
  injection Hc0 as <-. injection Hs0 as <-. injection Hn0 as <-. vm_compute in Hd.
  injection Hd as <-. exact Hdec.
Defined.

(** Encrypted under another secret: forced or not, the repair fails. *)
Lemma fix_failure_witness :
  is_ok (fst (fix_user_wallet "secret" repair_keypair demo_draws 7 true (demo_world (legacy_account "other")))) = false.
Proof.
  destruct (fix_user_wallet "secret" repair_keypair demo_draws 7 true (demo_world (legacy_account "other")))
    as [r w'] eqn:E.
  destruct (fix_failure "secret" repair_keypair demo_draws 7 true _ r w' demo_draws_ok E) as [_ H].
  apply (H (legacy_account "other") (demo_ciphertext "other") (repeat x01 16) (repeat x02 16));
    vm_compute; reflexivity.
Defined.

(** A legacy wallet and an account without one. *)
Definition demo_patients : world AccountDb Event :=
  World {[7%N := legacy_account "secret";
          8%N := new_account demo_accounts_config 5 "$2b$Rainy-Day-8" "t" demo_registration]} [] [].

Lemma fix_all_report_witness :
  exists rep w', fix_all_users "secret" (fun _ => (repair_keypair, demo_draws)) (f64_of_Z 0) demo_patients = (Ok rep, w')
  /\ report_errors rep = [] /\ total_users rep = 2%nat /\ wallets_re_encrypted rep = 1%nat
  /\ forall id a, st demo_patients !! id = Some a ->
     exists b, st w' !! id = Some b /\ status_of "secret" b = ValidEncryption.
Proof.
  destruct (fix_all_users "secret" (fun _ => (repair_keypair, demo_draws)) (f64_of_Z 0) demo_patients)
    as [[rep|e] w'] eqn:E; [|by vm_compute in E].
  exists rep, w'. split; [done|].
  pose proof (fix_all_report "secret" (fun _ => (repair_keypair, demo_draws)) (f64_of_Z 0) demo_patients _ _
    (fun _ => demo_draws_ok) E) as (_ & _ & _ & _ & H).
  assert (Hr : report_errors rep = [] /\ total_users rep = 2%nat /\ wallets_re_encrypted rep = 1%nat)
    by (vm_compute in E; injection E as <- _; by split_and!).
  destruct Hr as (He & Ht & Hc). split_and!; [done..|].
  intros id a Ha. destruct (H id a Ha) as (b & Hb & _ & _ & Hv). exists b. split; [done|by apply Hv].
Defined.

Definition demo_files : KeyFiles :=
  {| path_exists p := (p =? "/app/dev-wallet.json")%string;
     read_to_string p := Ok p; parse_byte_array _ := Ok (repeat x05 64); bs58_decode _ := Err "bad";
     keypair_from_secret l := {| kp_pubkey := "Auth"; kp_bytes := l |}; debug_path p := p |}.

Lemma authority_first_source_witness :
  fst (initialize_authority (KF := demo_files) (Some "missing.json") (World None [] [])) = Ok ().
Proof.
  destruct (initialize_authority (KF := demo_files) (Some "missing.json") (World None [] [])) as [r w'] eqn:E.
  pose proof (authority_first_source (KF := demo_files) (Some "missing.json") (World None [] []) _ _ eq_refl E) as [H _].
  exact H.
Defined.
End witnesses.
