(* ===== verification/Certificates.v ===== *)
(** Energy certificates: issuance, transfer, retirement, queries.

    [src/services/erc/]: [ErcService] and its four managers over the tables
    [erc_certificates] and [erc_certificate_transfers].  Identifiers, the random part of a
    certificate number and the current time are arguments.  The stored metadata is the
    structure that is serialised; the text of dates is an interface, and so is what the server
    makes of the ORDER BY clause one query is given as text. *)
From stdpp Require Import pretty.
From S2P Require Import Prelude Numerics Floats Errors Store Schema Orders Settlement Telemetry Readings.
Open Scope string_scope.
Open Scope Z_scope.

(** [DateTime::to_rfc3339] and the year. *)
Class DateText := { to_rfc3339 : DateTime -> string; year_of : DateTime -> string }.

(** [Pubkey::find_program_address] with the seeds "meter" and the meter's serial, in the
    registry program. *)
Class MeterPda := { meter_pda : string -> string -> string }.

(** [serde_json::Value]; numbers by their text. *)
#[warnings="-register-all"] Inductive Json :=
| JNull
| JBool (b : bool)
| JNumber (n : string)
| JString (s : string)
| JArray (l : list Json)
| JObject (l : list (string * Json)).

(** [m.get(key).and_then(|v| v.as_str())]. *)
Definition json_str (key : string) (m : Json) : option string :=
  match m with
  | JObject l =>
      match List.find (fun kv => (kv.1 =? key)%string) l with
      | Some (_, JString s) => Some s
      | _ => None
      end
  | _ => None
  end.

(** ** Tables *)

Inductive CertStatus := CertActive | CertRetired | CertExpired | CertTransferred.

#[global] Instance CertStatus_eq_dec : EqDecision CertStatus.
Proof. solve_decision. Defined.

Definition cert_status_text (s : CertStatus) : string :=
  match s with
  | CertActive => "active" | CertRetired => "retired" | CertExpired => "expired"
  | CertTransferred => "transferred"
  end.

Record ErcMetadata := {
  md_name : string;
  md_symbol : string;
  md_description : string;
  md_image : string;
  md_attributes : list (string * string);
  md_files : list (string * string);
  md_category : string;
  md_external_url : string;
  md_animation_url : option string;
}.

Record ErcCertificate := {
  ct_certificate_id : string;
  ct_user_id : option Uuid;
  ct_wallet_address : string;
  ct_kwh_amount : option Decimal;
  ct_energy_amount : Decimal;
  ct_issue_date : option DateTime;
  ct_expiry_date : option DateTime;
  ct_issuer_wallet : option string;
  ct_status : CertStatus;
  ct_signature : option string;
  ct_metadata : option ErcMetadata;
  ct_settlement_id : option Uuid;
  ct_created_at : DateTime;
  ct_updated_at : DateTime;
}.

Record CertificateTransfer := {
  tr_id : Uuid;
  tr_certificate_id : Uuid;
  tr_from_wallet : string;
  tr_to_wallet : string;
  tr_date : DateTime;
  tr_signature : string;
  tr_from_user : option Uuid;
  tr_to_user : Uuid;
}.

(** The wallets of the users, the settlements there are, the certificates and the transfers,
    oldest first. *)
Record CertDb := {
  wallets : gmap Uuid (option string);
  settled : gset Uuid;
  certificates : gmap Uuid ErcCertificate;
  transfers : list CertificateTransfer;
}.
Abbreviation CM := (M CertDb Event).

Definition set_certificates (f : gmap Uuid ErcCertificate) (d : CertDb) : CertDb :=
  {| wallets := wallets d; settled := settled d; certificates := f; transfers := transfers d |}.

(** The column changes of the statements; every UPDATE sets [updated_at] by a trigger. *)
Definition with_owner (now : DateTime) (status : CertStatus) (user : option Uuid) (wallet : string)
    (c : ErcCertificate) : ErcCertificate :=
  {| ct_certificate_id := ct_certificate_id c; ct_user_id := user; ct_wallet_address := wallet;
     ct_kwh_amount := ct_kwh_amount c; ct_energy_amount := ct_energy_amount c;
     ct_issue_date := ct_issue_date c; ct_expiry_date := ct_expiry_date c;
     ct_issuer_wallet := ct_issuer_wallet c; ct_status := status; ct_signature := ct_signature c;
     ct_metadata := ct_metadata c; ct_settlement_id := ct_settlement_id c;
     ct_created_at := ct_created_at c; ct_updated_at := now |}.

Definition retired (now : DateTime) (c : ErcCertificate) : ErcCertificate :=
  with_owner now CertRetired (ct_user_id c) (ct_wallet_address c) c.

Definition signed (now : DateTime) (signature : string) (c : ErcCertificate) : ErcCertificate :=
  {| ct_certificate_id := ct_certificate_id c; ct_user_id := ct_user_id c;
     ct_wallet_address := ct_wallet_address c; ct_kwh_amount := ct_kwh_amount c;
     ct_energy_amount := ct_energy_amount c; ct_issue_date := ct_issue_date c;
     ct_expiry_date := ct_expiry_date c; ct_issuer_wallet := ct_issuer_wallet c;
     ct_status := ct_status c; ct_signature := Some signature; ct_metadata := ct_metadata c;
     ct_settlement_id := ct_settlement_id c; ct_created_at := ct_created_at c;
     ct_updated_at := now |}.

(** VARCHAR columns and references. *)
Definition cert_fits (d : CertDb) (c : ErcCertificate) : bool :=
  varchar 100 (Some (ct_certificate_id c)) && varchar 88 (Some (ct_wallet_address c))
  && varchar 88 (ct_issuer_wallet c) && varchar 88 (ct_signature c)
  && match ct_user_id c with Some u => bool_decide (is_Some (wallets d !! u)) | None => true end
  && match ct_settlement_id c with Some s => bool_decide (s ∈ settled d) | None => true end.

(** The amount as the two NUMERIC(20, 8) columns store it. *)
Definition with_energy (e : Decimal) (c : ErcCertificate) : ErcCertificate :=
  {| ct_certificate_id := ct_certificate_id c; ct_user_id := ct_user_id c;
     ct_wallet_address := ct_wallet_address c; ct_kwh_amount := Some e; ct_energy_amount := e;
     ct_issue_date := ct_issue_date c; ct_expiry_date := ct_expiry_date c;
     ct_issuer_wallet := ct_issuer_wallet c; ct_status := ct_status c;
     ct_signature := ct_signature c; ct_metadata := ct_metadata c;
     ct_settlement_id := ct_settlement_id c; ct_created_at := ct_created_at c;
     ct_updated_at := ct_updated_at c |}.

Definition number_taken (d : CertDb) (certificate_id : string) : bool :=
  existsb (fun x => (ct_certificate_id x.2 =? certificate_id)%string) (map_to_list (certificates d)).

Definition insert_certificate `{Numerics} (id : Uuid) (c : ErcCertificate) (d : CertDb)
    : option (ErcCertificate * CertDb) :=
  match certificates d !! id, num8 (ct_energy_amount c) with
  | None, Some e =>
      let c := with_energy e c in
      if cert_fits d c && negb (number_taken d (ct_certificate_id c))
      then Some (c, set_certificates (<[id := c]> (certificates d)) d) else None
  | _, _ => None
  end.

(** [UPDATE erc_certificates SET .. WHERE id = $1 [AND p] RETURNING ..]. *)
Definition update_certificate (id : Uuid) (p : ErcCertificate -> bool)
    (f : ErcCertificate -> ErcCertificate) (d : CertDb)
    : option (option ErcCertificate * CertDb) :=
  match certificates d !! id with
  | Some c =>
      if negb (p c) then Some (None, d)
      else if cert_fits d (f c)
      then Some (Some (f c), set_certificates (<[id := f c]> (certificates d)) d) else None
  | None => Some (None, d)
  end.

Definition insert_transfer (t : CertificateTransfer) (d : CertDb)
    : option (CertificateTransfer * CertDb) :=
  if varchar 88 (Some (tr_from_wallet t)) && varchar 88 (Some (tr_to_wallet t))
     && varchar 88 (Some (tr_signature t)) && bool_decide (is_Some (wallets d !! tr_to_user t))
     && bool_decide (is_Some (certificates d !! tr_certificate_id t))
     && negb (existsb (fun x => (tr_id x =? tr_id t)%N) (transfers d))
  then Some (t, {| wallets := wallets d; settled := settled d; certificates := certificates d;
                   transfers := (transfers d ++ [t])%list |})
  else None.

(** ** Issuance ([mod.rs], [issuance.rs]) *)

Record IssueErcRequest := {
  iq_wallet_address : string;
  iq_meter_id : option string;
  iq_kwh_amount : Decimal;
  iq_expiry_date : option DateTime;
  iq_metadata : option Json;
}.

Definition upper_char (c : Ascii.ascii) : Ascii.ascii :=
  let n := Ascii.N_of_ascii c in
  if (97 <=? n)%N && (n <=? 122)%N then Ascii.ascii_of_N (n - 32) else c.
Fixpoint to_uppercase (s : string) : string :=
  match s with EmptyString => EmptyString | String c s => String (upper_char c) (to_uppercase s) end.

Section issuance.
Context `{NUM : Numerics} `{CH : Chain} `{ENV : Env} `{DF : DecimalFloat} `{FT : FloatText} `{DT : DateText}.

(** [Uuid::new_v4().simple()], its first six digits in capitals. *)
Definition generate_certificate_id (draw : Uuid) (now : DateTime) : string :=
  "ERC-" ++ year_of now ++ "-" ++ to_uppercase (String.substring 0 6 (hex 32 draw)).

Definition create_certificate_metadata (certificate_id : string) (energy_amount : spec_float)
    (renewable_source issuer : string) (issue_date : DateTime) (expiry_date : option DateTime)
    (validation_data : string) : ErcMetadata :=
  {| md_name := "Renewable Energy Certificate #" ++ certificate_id;
     md_symbol := "ERC";
     md_description := "Energy Renewable Certificate for " ++ f64_display energy_amount
       ++ " kWh from " ++ renewable_source ++ ". Issued by " ++ issuer ++ ".";
     md_image := "https://gridtokenx.com/assets/erc-certificate.png";
     md_attributes :=
       [("Renewable Source", renewable_source);
        ("Energy Amount (kWh)", f64_display energy_amount);
        ("Issuer", issuer);
        ("Issue Date", to_rfc3339 issue_date);
        ("Expiry Date", match expiry_date with Some d => to_rfc3339 d | None => "Never" end);
        ("Validation Data", validation_data)];
     md_files := [("https://gridtokenx.com/assets/erc-certificate.png", "image/png")];
     md_category := "image";
     md_external_url := "https://gridtokenx.com/erc/" ++ certificate_id;
     md_animation_url := None |}.

(** [.map_err(|e| anyhow!("{what}: {}", e))]. *)
Definition failing {A} (what : string) (m : CM A) : CM A :=
  map_err (fun _ => FMsg (what ++ ": " ++ db_error_text)) m.

Definition new_certificate (certificate_id : string) (now : DateTime) (user_id : Uuid)
    (issuer_wallet : string) (request : IssueErcRequest) (settlement_id : option Uuid)
    : ErcCertificate :=
  let text key default_ := default default_ (iq_metadata request ≫= json_str key) in
  {| ct_certificate_id := certificate_id; ct_user_id := Some user_id;
     ct_wallet_address := iq_wallet_address request;
     ct_kwh_amount := Some (iq_kwh_amount request); ct_energy_amount := iq_kwh_amount request;
     ct_issue_date := Some now; ct_expiry_date := iq_expiry_date request;
     ct_issuer_wallet := Some issuer_wallet; ct_status := CertActive; ct_signature := None;
     ct_metadata := Some (create_certificate_metadata certificate_id
       (default (f64_of_Z 0) (to_f64 (iq_kwh_amount request))) (text "renewable_source" "Unknown")
       issuer_wallet now (iq_expiry_date request) (text "validation_data" ""));
     ct_settlement_id := settlement_id; ct_created_at := now; ct_updated_at := now |}.

Definition issue_certificate (id draw : Uuid) (now : DateTime) (user_id : Uuid)
    (issuer_wallet : string) (request : IssueErcRequest) (settlement_id : option Uuid)
    : CM ErcCertificate :=
  failing "Failed to create certificate record"
    (exec_ret (insert_certificate id (new_certificate (generate_certificate_id draw now) now user_id
                                        issuer_wallet request settlement_id))).

Definition update_certificate_signature (now : DateTime) (certificate_uuid : Uuid) (signature : string)
    : CM ErcCertificate :=
  failing "Failed to update certificate signature"
    (row ← exec_ret (update_certificate certificate_uuid (fun _ => true) (signed now signature));
     expect FDb row).

(** ** Transfer ([transfer.rs]) *)

(** A failing BEGIN or COMMIT is [FDb]; the code puts words of its own before it. *)
Definition transfer_certificate (transfer_id : Uuid) (now : DateTime) (certificate_uuid : Uuid)
    (from_wallet to_wallet tx_signature : string) : CM (ErcCertificate * CertificateTransfer) :=
  with_tx (
    new_user ← failing "Failed to resolve new user"
      (query (fun d => row_where (fun w => bool_decide (w = Some to_wallet)) (wallets d)));
    to_user ← expect (FMsg ("Recipient user not found for wallet: " ++ to_wallet)) new_user;
    current ← failing "Failed to fetch certificate"
      (query (fun d => ct_user_id <$> certificates d !! certificate_uuid));
    from_user_id ← expect (FMsg "Certificate not found") current;
    certificate ← failing "Failed to update certificate"
      (row ← exec_ret (update_certificate certificate_uuid (fun _ => true)
                         (with_owner now CertTransferred (Some to_user.1) to_wallet));
       expect FDb row);
    transfer ← failing "Failed to record transfer"
      (exec_ret (insert_transfer
        {| tr_id := transfer_id; tr_certificate_id := certificate_uuid;
           tr_from_wallet := from_wallet; tr_to_wallet := to_wallet; tr_date := now;
           tr_signature := tx_signature; tr_from_user := from_user_id; tr_to_user := to_user.1 |}));
    mret (certificate, transfer)).

(** ** Retirement ([retiring.rs]) *)

Definition retirable (c : ErcCertificate) : bool :=
  bool_decide (ct_status c = CertActive) || bool_decide (ct_status c = CertTransferred).

Definition retire_certificate (now : DateTime) (certificate_uuid : Uuid) : CM ErcCertificate :=
  row ← failing "Failed to retire certificate"
    (exec_ret (update_certificate certificate_uuid retirable (retired now)));
  expect (FMsg "Certificate not found or already retired") row.

(** ** On the chain *)

Definition issue_certificate_on_chain `{MP : MeterPda} (registry_program_id : string)
    (certificate_id user_wallet meter_id : string) (energy_amount : spec_float)
    (renewable_source validation_data : string) : CM string :=
  if parse_pubkey registry_program_id then
    chain_call (IssueErc certificate_id user_wallet (meter_pda registry_program_id meter_id)
      (as_unsigned u64_max (f64_mul energy_amount (f64_of_Z 1000))) renewable_source validation_data)
  else fail (FMsg "Invalid Registry ID").

(** The account is not looked up. *)
Definition validate_certificate_on_chain (certificate_id : string) : CM bool := mret true.

Definition transfer_certificate_on_chain (certificate_id owner to_owner : string) : CM string :=
  chain_call (TransferErc certificate_id owner to_owner).

Definition retire_certificate_on_chain (certificate_id : string) : CM string :=
  chain_call (RevokeErc certificate_id "Retired via API Gateway").

(** ** Queries ([queries.rs]) *)

Record CertificateStats := {
  total_certificates : Z;
  active_kwh : Decimal;
  retired_kwh : Decimal;
  total_kwh : Decimal;
}.

Definition certificate_rows (p : ErcCertificate -> bool) (d : CertDb) : list (Uuid * ErcCertificate) :=
  List.filter (fun x => p x.2) (map_to_list (certificates d)).
Definition owned_by (user : Uuid) (c : ErcCertificate) : bool := bool_decide (ct_user_id c = Some user).
Definition has_status (status : string) (c : ErcCertificate) : bool :=
  (cert_status_text (ct_status c) =? status)%string.

(** [COUNT] and [SUM] of NUMERIC are exact. *)
Definition count_rows (p : ErcCertificate -> bool) (d : CertDb) : Z :=
  Z.of_nat (length (certificate_rows p d)).

Definition get_user_stats (user_id : Uuid) : CM CertificateStats :=
  total ← query (count_rows (owned_by user_id));
  _ ← query (count_rows (fun c => owned_by user_id c && has_status "Active" c));
  _ ← query (count_rows (fun c => owned_by user_id c && has_status "Retired" c));
  energy ← query (fun d => sumZ (fun x => default 0 (ct_kwh_amount x.2))
                             (certificate_rows (owned_by user_id) d));
  mret {| total_certificates := total; active_kwh := 0; retired_kwh := 0; total_kwh := energy |}.

Definition get_certificate_by_id (certificate_id : string) : CM (Uuid * ErcCertificate) :=
  row ← query (fun d => row_where (fun c => (ct_certificate_id c =? certificate_id)%string) (certificates d));
  expect (FMsg "Certificate not found") row.

Definition get_my_certificates (user_id : Uuid) : CM (list (Uuid * ErcCertificate)) :=
  failing "Failed to fetch user certificates"
    (query (fun d => sort_by (fun x y => ct_created_at y.2 <=? ct_created_at x.2)
                       (certificate_rows (owned_by user_id) d))).

Definition status_is (status_filter : option string) (c : ErcCertificate) : bool :=
  match status_filter with Some s => has_status s c | None => true end.

Definition count_user_certificates (user_id : Uuid) (status_filter : option string) : CM Z :=
  failing "Failed to count user certificates"
    (query (count_rows (fun c => owned_by user_id c && status_is status_filter c))).

(** [LIMIT .. OFFSET ..]; negative ones are errors of the server. *)
Definition page {A} (limit offset : Z) (l : list A) : option (list A) :=
  if (limit <? 0) || (offset <? 0) then None
  else Some (take (Z.to_nat limit) (drop (Z.to_nat offset) l)).

(** NULLs come first in a descending order. *)
Definition issue_later (x y : Uuid * ErcCertificate) : bool :=
  match ct_issue_date x.2, ct_issue_date y.2 with
  | None, _ => true
  | Some _, None => false
  | Some a, Some b => b <=? a
  end.

Definition get_certificates_by_wallet (wallet_address : string) (limit offset : Z)
    : CM (list (Uuid * ErcCertificate)) :=
  failing "Failed to fetch certificates"
    (rows ← query (fun d => page limit offset (sort_by issue_later
       (certificate_rows (fun c => (ct_wallet_address c =? wallet_address)%string) d)));
     expect FDb rows).
End issuance.

(** What the server makes of [ORDER BY {column} {direction}], or that it refuses the text. *)
Class SqlOrder := {
  sql_order : string -> string -> option (list (Uuid * ErcCertificate) -> list (Uuid * ErcCertificate));
}.

(** The statement is text: its columns [created_at as "created_at!"] keep that name, and a row
    has no column [created_at] to be decoded from. *)
Definition decode_rows (rows : list (Uuid * ErcCertificate)) : option (list (Uuid * ErcCertificate)) :=
  match rows with [] => Some [] | _ :: _ => None end.

Definition get_user_certificates `{ENV : Env} `{SO : SqlOrder} (user_id : Uuid) (limit offset : Z)
    (sort_by sort_order : string) (status_filter : option string) : CM (list (Uuid * ErcCertificate)) :=
  failing "Failed to fetch user certificates"
    (rows ← query (fun d => order ← sql_order sort_by sort_order;
       rows ← page limit offset (order
         (certificate_rows (fun c => owned_by user_id c && status_is status_filter c) d));
       decode_rows rows);
     expect FDb rows).

(** ** The certificates of a settlement

    Both the clearing engine ([matching.rs], when the sell order names a meter) and the
    settlement service ([settlement/mod.rs]) have the seller's energy certified. *)

Definition clearing_request (now : DateTime) (settlement : Uuid) (seller_wallet : option string)
    (meter_serial : string) (energy_amount : Decimal) : IssueErcRequest :=
  {| iq_wallet_address := default "" seller_wallet; iq_meter_id := Some meter_serial;
     iq_kwh_amount := energy_amount; iq_expiry_date := Some (now + 365 * 86400 * 1000000000);
     iq_metadata := Some (JObject [("renewable_source", JString "Solar");
       ("validation_data", JString ("Settlement: " ++ uuid_to_string settlement))]) |}.

Definition settlement_request (settlement : Uuid) (seller_wallet renewable_source : string)
    (energy_amount : Decimal) : IssueErcRequest :=
  {| iq_wallet_address := seller_wallet; iq_meter_id := None; iq_kwh_amount := energy_amount;
     iq_expiry_date := None;
     iq_metadata := Some (JObject [("renewable_source", JString renewable_source);
       ("validation_data", JString ("Settlement:" ++ uuid_to_string settlement));
       ("settlement_tx", JString (uuid_to_string settlement))]) |}.

(** ** Histories *)

Inductive CertOp :=
| OpIssue (id draw : Uuid) (now : DateTime) (user : Uuid) (issuer : string) (q : IssueErcRequest)
    (settlement : option Uuid)
| OpSign (now : DateTime) (id : Uuid) (signature : string)
| OpTransfer (transfer : Uuid) (now : DateTime) (id : Uuid) (from to signature : string)
| OpRetire (now : DateTime) (id : Uuid).

Section histories.
Context `{NUM : Numerics} `{CH : Chain} `{ENV : Env} `{DF : DecimalFloat} `{FT : FloatText} `{DT : DateText}.

Definition perform (o : CertOp) : CM unit :=
  match o with
  | OpIssue id draw now user issuer q s => issue_certificate id draw now user issuer q s ;; mret ()
  | OpSign now id sig => update_certificate_signature now id sig ;; mret ()
  | OpTransfer t now id from to sig => transfer_certificate t now id from to sig ;; mret ()
  | OpRetire now id => retire_certificate now id ;; mret ()
  end.

Definition history (ops : list CertOp) : CM unit := for_each (fun o => spawn (perform o)) ops.

(** What makes a certificate the one it is. *)
Definition same_certificate (c c' : ErcCertificate) : Prop :=
  ct_certificate_id c' = ct_certificate_id c /\ ct_energy_amount c' = ct_energy_amount c
  /\ ct_kwh_amount c' = ct_kwh_amount c /\ ct_settlement_id c' = ct_settlement_id c
  /\ ct_issuer_wallet c' = ct_issuer_wallet c /\ ct_metadata c' = ct_metadata c
  /\ ct_created_at c' = ct_created_at c.

(** The changes the requests make. *)
Inductive change (d : CertDb) : CertDb -> Prop :=
| Issued id c :
    certificates d !! id = None -> ct_status c = CertActive ->
    ct_kwh_amount c = Some (ct_energy_amount c) ->
    (forall j x, certificates d !! j = Some x -> ct_certificate_id x <> ct_certificate_id c) ->
    change d (set_certificates (<[id := c]> (certificates d)) d)
| Marked id c c' :
    certificates d !! id = Some c -> same_certificate c c' ->
    ct_wallet_address c' = ct_wallet_address c -> ct_user_id c' = ct_user_id c ->
    ct_status c' = ct_status c \/ retirable c = true /\ ct_status c' = CertRetired ->
    change d (set_certificates (<[id := c']> (certificates d)) d)
| Moved id c c' t :
    certificates d !! id = Some c -> same_certificate c c' ->
    ct_status c' = CertTransferred -> ct_wallet_address c' = tr_to_wallet t ->
    ct_user_id c' = Some (tr_to_user t) -> tr_certificate_id t = id ->
    wallets d !! tr_to_user t = Some (Some (tr_to_wallet t)) ->
    change d {| wallets := wallets d; settled := settled d;
                certificates := <[id := c']> (certificates d);
                transfers := (transfers d ++ [t])%list |}.

(** ** Lemmas: the statements *)

Lemma insert_certificate_Some id c d c' d' : ct_status c = CertActive ->
  insert_certificate id c d = Some (c', d') -> change d d'
  /\ num8 (ct_energy_amount c) = Some (ct_energy_amount c') /\ ct_settlement_id c' = ct_settlement_id c
  /\ d' = set_certificates (<[id := c']> (certificates d)) d /\ certificates d !! id = None.
Proof.
  intros Hc. unfold insert_certificate. destruct (certificates d !! id) eqn:E; [done|].
  destruct (num8 (ct_energy_amount c)) as [e|] eqn:En; [|done].
  destruct (_ && _) eqn:F; [|done]. apply andb_prop in F as [_ F]. intros [= <- <-].
  split; [|done]. apply Issued; [done..|]. intros j y Hy Heq. apply negb_true_iff in F.
  apply not_true_iff_false in F. apply F, existsb_exists. exists (j, y). split.
  - by apply list_elem_of_In, elem_of_map_to_list.
  - simpl. by apply String.eqb_eq.
Qed.

Lemma update_certificate_Some id p f d r d' : update_certificate id p f d = Some (r, d') ->
  (r = None /\ d' = d /\ forall c, certificates d !! id = Some c -> p c = false)
  \/ exists c, certificates d !! id = Some c /\ p c = true /\ r = Some (f c)
       /\ d' = set_certificates (<[id := f c]> (certificates d)) d.
Proof.
  unfold update_certificate. destruct (certificates d !! id) as [c|] eqn:E; [|intros [= <- <-]; by left].
  destruct (p c) eqn:Ep; simpl; [|intros [= <- <-]; left; split_and!; [done..|congruence]].
  destruct (cert_fits d (f c)); [|done]. intros [= <- <-]. right. by exists c.
Qed.

(** From the tables [d0], [m] ends in them or after a change. *)
Definition stays {A} (d0 : CertDb) (m : CM A) : Prop :=
  hoare (eq d0) m (fun _ d => d = d0 \/ change d0 d) (fun _ d => d = d0 \/ change d0 d).

Lemma stays_then {A} d0 (m : CM A) : stays d0 m -> stays d0 (m ;; mret ()).
Proof. intros H. eapply hoare_bind; [exact H|]. intros a. by apply hoare_ret. Qed.

Lemma stays_failing {A} d0 what (m : CM A) : stays d0 m -> stays d0 (failing what m).
Proof. apply hoare_map_err. Qed.

Lemma stays_exec_ret {A B} d0 f (k : A -> CM B) :
  (forall a d, f d0 = Some (a, d) -> d = d0 \/ change d0 d) ->
  (forall a I, preserves I (k a)) -> stays d0 (exec_ret f ≫= k).
Proof.
  intros Hf Hk. eapply hoare_bind with (R := fun _ d => d = d0 \/ change d0 d).
  - apply hoare_exec_ret. intros d <-. split; [by left|exact Hf].
  - intros a. apply hoare_preserves; [apply Hk|done].
Qed.

Lemma retire_stays now id d0 : stays d0 (retire_certificate now id).
Proof.
  unfold retire_certificate, stays. eapply hoare_bind with (R := fun _ d => d = d0 \/ change d0 d).
  2: { intros row. apply hoare_preserves; [eauto with gateway|done]. }
  apply hoare_map_err, hoare_exec_ret. intros d <-. split; [by left|].
  intros r d' [(_ & -> & _)|(c & Hc & Hp & _ & ->)]%update_certificate_Some; [by left|right].
  eapply Marked; try done. by right.
Qed.

(** A certificate and its transfer, as a successful transfer leaves them. *)
Definition transferred (tid : Uuid) (now : DateTime) (id : Uuid) (from to signature : string) (d : CertDb)
    (r : ErcCertificate * CertificateTransfer) (d' : CertDb) : Prop :=
  exists user c0, row_where (fun x => bool_decide (x = Some to)) (wallets d) = Some user
  /\ certificates d !! id = Some c0
  /\ r.1 = with_owner now CertTransferred (Some user.1) to c0
  /\ r.2 = {| tr_id := tid; tr_certificate_id := id; tr_from_wallet := from; tr_to_wallet := to;
              tr_date := now; tr_signature := signature; tr_from_user := ct_user_id c0;
              tr_to_user := user.1 |}
  /\ d' = {| wallets := wallets d; settled := settled d; certificates := <[id := r.1]> (certificates d);
             transfers := (transfers d ++ [r.2])%list |}.

Lemma transfer_Ok tid now id from to sig w r w' :
  transfer_certificate tid now id from to sig w = (Ok r, w') ->
  transferred tid now id from to sig (st w) r (st w').
Proof.
  unfold transfer_certificate, failing. intros H.
  apply with_tx_Ok in H as (w1 & w2 & Hs & _ & H & Hs' & _). run_steps.
  repeat match goal with H : exec_ret _ _ = (Ok _, _) |- _ => apply exec_ret_Ok in H as [H _] end.
  simplify_eq. norm_st. destruct (update_certificate_Some _ _ _ _ _ _ H6) as [(? & _)|(c0 & Hc0 & _ & Hr & Hd)]; [done|].
  simplify_eq/=. unfold insert_transfer in H5. rewrite Hd in H5. simpl in H5.
  destruct (_ && _) in H5; [|done]. simplify_eq/=. rewrite Hc0 in H3. simplify_eq/=.
  eexists _, c0. by split_and!.
Qed.

Lemma transfer_stays tid now id from to sig d0 : stays d0 (transfer_certificate tid now id from to sig).
Proof.
  intros w ->. destruct (transfer_certificate _ _ _ _ _ _ w) as [[r|e] w'] eqn:E.
  - right. apply transfer_Ok in E as ([user wallet] & c0 & Hu & Hc & Hr & Ht & ->).
    apply row_where_Some in Hu as [Hu Hb%bool_decide_eq_true].
    eapply Moved with (c := c0); rewrite ?Hr, ?Ht; try done. simpl. by rewrite Hu, Hb.
  - left. by apply with_tx_Err in E.
Qed.

Lemma retire_error now id w e w' : retire_certificate now id w = (Err e, w') -> st w' = st w.
Proof.
  unfold retire_certificate, failing. intros [H|(r & w1 & H & E)]%bind_Err.
  - unfold map_err in H. destruct (exec_ret _ w) as [[r|[]] w1] eqn:E; simplify_eq;
      unfold exec_ret, pop_fault in E; destruct w as [d [|[] fs] tr]; simpl in *;
      repeat (destruct (update_certificate _ _ _ _) as [[??]|]); by simplify_eq/=.
  - apply map_err_Ok, exec_ret_Ok in H as [H _].
    apply update_certificate_Some in H as [(-> & H & _)|(c & _ & _ & -> & _)]; [|done].
    by injection E as _ <-.
Qed.

Lemma perform_stays o d0 : stays d0 (perform o).
Proof.
  destruct o; apply stays_then.
  - unfold issue_certificate. apply stays_failing, hoare_exec_ret. intros d <-. split; [by left|].
    intros c' d' H. right. by apply insert_certificate_Some in H as [? _].
  - unfold update_certificate_signature. apply stays_failing, stays_exec_ret.
    + intros r d' [(_ & -> & _)|(c & Hc & _ & _ & ->)]%update_certificate_Some; [by left|right].
      eapply Marked; try done. by left.
    + eauto with gateway.
  - apply transfer_stays.
  - apply retire_stays.
Qed.

(** Every history is a sequence of changes. *)
Lemma history_changes ops (w : world CertDb Event) : rtc change (st w) (st (history ops w).2).
Proof.
  revert w. induction ops as [|o ops IH]; intros w; [done|].
  unfold history, for_each. fold (for_each (fun o => spawn (perform o)) ops).
  change (rtc change (st w) (st (history ops (perform o w).2).2)).
  pose proof (perform_stays o (st w) w eq_refl) as H.
  destruct (perform o w) as [[u|e] w1]; (destruct H as [H|H]; [rewrite <- H; apply IH|eapply rtc_l; [exact H|apply IH]]).
Qed.

(** ** The invariant *)

Definition last_transfer (id : Uuid) (d : CertDb) : option CertificateTransfer :=
  list.last (List.filter (fun t => (tr_certificate_id t =? id)%N) (transfers d)).

(** What a certificate's transfers say of it. *)
Definition owned_as (x : ErcCertificate) (t : option CertificateTransfer) : Prop :=
  match t with
  | Some t => ct_wallet_address x = tr_to_wallet t /\ ct_user_id x = Some (tr_to_user t)
              /\ ct_status x <> CertActive
  | None => ct_status x <> CertTransferred
  end.

Record consistent (d : CertDb) : Prop := {
  cert_numbers i j x y : certificates d !! i = Some x -> certificates d !! j = Some y ->
    ct_certificate_id x = ct_certificate_id y -> i = j;
  cert_kwh i x : certificates d !! i = Some x -> ct_kwh_amount x = Some (ct_energy_amount x);
  cert_owner i x : certificates d !! i = Some x -> owned_as x (last_transfer i d);
  transfer_known t : t ∈ transfers d -> is_Some (certificates d !! tr_certificate_id t)
    /\ wallets d !! tr_to_user t = Some (Some (tr_to_wallet t));
}.

(** Nothing that was certified or recorded goes away or changes. *)
Definition grows (d d' : CertDb) : Prop :=
  (forall i c, certificates d !! i = Some c ->
     exists c', certificates d' !! i = Some c' /\ same_certificate c c')
  /\ (transfers d `prefix_of` transfers d').

Lemma last_transfer_none id d : consistent d -> certificates d !! id = None -> last_transfer id d = None.
Proof.
  intros Hd Hn. unfold last_transfer. destruct (List.filter _ _) as [|t l] eqn:E; [done|].
  assert (Hin : List.In t (t :: l)) by by left. rewrite <- E in Hin. apply List.filter_In in Hin as [Hin Ht].
  apply N.eqb_eq in Ht. apply list_elem_of_In, (transfer_known d Hd) in Hin as [[x Hx] _]. congruence.
Qed.

Lemma last_transfer_app id d t ws se cs :
  last_transfer id {| wallets := ws; settled := se; certificates := cs; transfers := (transfers d ++ [t])%list |}
  = if (tr_certificate_id t =? id)%N then Some t else last_transfer id d.
Proof.
  unfold last_transfer. simpl. rewrite List.filter_app. simpl.
  destruct (_ =? _)%N; [by rewrite list.last_snoc|by rewrite app_nil_r].
Qed.

Lemma same_certificate_refl c : same_certificate c c.
Proof. by repeat split. Qed.

(** Replacing one certificate keeps the numbers and the amounts. *)
Lemma replace_numbers d id c c' i j x y : consistent d -> certificates d !! id = Some c ->
  same_certificate c c' ->
  <[id := c']> (certificates d) !! i = Some x -> <[id := c']> (certificates d) !! j = Some y ->
  ct_certificate_id x = ct_certificate_id y -> i = j.
Proof.
  intros Hd Hc (Hn & _). rewrite !lookup_insert_Some.
  intros [[<- <-]|[Hi Hx]] [[<- <-]|[Hj Hy]]; rewrite ?Hn; [done|..]; by eapply (cert_numbers d).
Qed.

Lemma replace_kwh d id c c' i x : consistent d -> certificates d !! id = Some c ->
  same_certificate c c' -> <[id := c']> (certificates d) !! i = Some x ->
  ct_kwh_amount x = Some (ct_energy_amount x).
Proof.
  intros Hd Hc (_ & He & Hk & _). rewrite lookup_insert_Some.
  intros [[<- <-]|[Hi Hx]]; [rewrite Hk, He|]; by eapply (cert_kwh d).
Qed.

Lemma insert_is_Some (m : gmap Uuid ErcCertificate) id c i : is_Some (m !! i) -> is_Some (<[id := c]> m !! i).
Proof. rewrite lookup_insert_is_Some. destruct (decide (id = i)); auto. Qed.

Lemma change_consistent d d' : change d d' -> consistent d -> consistent d'.
Proof.
  intros [id c Hn Ha Hk Hids|id c c' Hc Hs Hw Hu Hst|id c c' t Hc Hs Hst Hw Hu Ht Hr] Hd.
  - split; simpl.
    + intros i j x y. rewrite !lookup_insert_Some.
      intros [[<- <-]|[Hi Hx]] [[<- <-]|[Hj Hy]] He; [done|..|by eapply (cert_numbers d)].
      * by destruct (Hids j y Hy).
      * by destruct (Hids i x Hx).
    + intros i x. rewrite lookup_insert_Some. intros [[<- <-]|[_ ?]]; [done|by eapply (cert_kwh d)].
    + intros i x. rewrite lookup_insert_Some. change (last_transfer i (set_certificates _ d)) with (last_transfer i d).
      intros [[<- <-]|[_ ?]]; [|by eapply (cert_owner d)].
      rewrite last_transfer_none by done. simpl. by rewrite Ha.
    + intros t Hin. destruct (transfer_known d Hd t Hin). split; [|done]. by apply insert_is_Some.
  - split; simpl.
    + intros i j x y. by apply (replace_numbers d id c c').
    + intros i x. by apply (replace_kwh d id c c').
    + intros i x. rewrite lookup_insert_Some. change (last_transfer i (set_certificates _ d)) with (last_transfer i d).
      intros [[<- <-]|[_ ?]]; [|by eapply (cert_owner d)].
      pose proof (cert_owner d Hd id c Hc) as Ho. destruct (last_transfer id d) as [t|]; simpl in *.
      * rewrite Hw, Hu. destruct Ho as (? & ? & ?). by destruct Hst as [->|[_ ->]].
      * destruct Hst as [->|[_ ->]]; done.
    + intros t Hin. destruct (transfer_known d Hd t Hin). split; [|done]. by apply insert_is_Some.
  - split; simpl.
    + intros i j x y. by apply (replace_numbers d id c c').
    + intros i x. by apply (replace_kwh d id c c').
    + intros i x. rewrite last_transfer_app, lookup_insert_Some, Ht.
      intros [[<- <-]|[Hi ?]]; [rewrite N.eqb_refl|apply N.eqb_neq in Hi as ->; by eapply (cert_owner d)].
      simpl. by rewrite Hst.
    + intros t'. rewrite elem_of_app, list_elem_of_singleton. intros [Hin| ->].
      * destruct (transfer_known d Hd t' Hin). split; [|done]. by apply insert_is_Some.
      * split; [rewrite Ht, lookup_insert_eq; by eexists|done].
Qed.

Lemma replaced_grows d id c c' : certificates d !! id = Some c -> same_certificate c c' ->
  forall i x, certificates d !! i = Some x ->
    exists x', <[id := c']> (certificates d) !! i = Some x' /\ same_certificate x x'.
Proof.
  intros Hc Hs i x Hx. destruct (decide (id = i)) as [<-|Hi].
  - exists c'. rewrite lookup_insert_eq. split; [done|]. congruence.
  - exists x. rewrite lookup_insert_ne by done. split; [done|apply same_certificate_refl].
Qed.

Lemma change_grows d d' : change d d' -> grows d d'.
Proof.
  intros [id c Hn Ha Hk Hids|id c c' Hc Hs Hw Hu Hst|id c c' t Hc Hs Hst Hw Hu Ht Hr]; split; simpl; try done.
  - intros i x Hx. exists x. rewrite lookup_insert_ne by congruence. split; [done|apply same_certificate_refl].
  - by apply (replaced_grows d id c c').
  - by apply (replaced_grows d id c c').
  - by apply prefix_app_r.
Qed.

Lemma grows_trans d1 d2 d3 : grows d1 d2 -> grows d2 d3 -> grows d1 d3.
Proof.
  intros [H1 P1] [H2 P2]. split; [|by etrans].
  intros i c Hc. destruct (H1 i c Hc) as (c' & Hc' & S1). destruct (H2 i c' Hc') as (c'' & Hc'' & S2).
  exists c''. split; [done|]. unfold same_certificate in *. destruct_and!. split_and!; congruence.
Qed.

(** C38: whatever sequence of issues, signatures, transfers and retirements the tables see,
    and whichever statements fail: certificate numbers stay distinct, both amounts of a
    certificate agree, the owner and the wallet of a certificate are the recipient of its last
    recorded transfer (a certificate never transferred is not marked so, a transferred one is
    never active again), no certificate disappears or changes its number, amount, issuer,
    settlement or metadata, and no recorded transfer is lost. *)
Theorem certificates_history ops (w : world CertDb Event) : consistent (st w) ->
  consistent (st (history ops w).2) /\ grows (st w) (st (history ops w).2).
Proof.
  pose proof (history_changes ops w) as H. induction H as [d|d d1 d' Hc _ IH]; intros Hd.
  - split; [done|]. split; [|done]. intros i c Hi. exists c. split; [done|apply same_certificate_refl].
  - destruct IH as [Hc' Hg]; [by eapply change_consistent|]. split; [done|].
    eapply grows_trans; [by apply change_grows|done].
Qed.

(** ** Runs without failures *)

#[local] Arguments varchar : simpl never.

Lemma update_certificate_run id p f d c : certificates d !! id = Some c -> p c = true ->
  cert_fits d (f c) = true ->
  update_certificate id p f d = Some (Some (f c), set_certificates (<[id := f c]> (certificates d)) d).
Proof. unfold update_certificate. by intros -> -> ->. Qed.

(** What the columns of a transfer to [to] have to satisfy. *)
Definition can_receive (d : CertDb) (tid id : Uuid) (from sig : string) (user : Uuid) (to : string)
    (c : ErcCertificate) : Prop :=
  row_where (fun x => bool_decide (x = Some to)) (wallets d) = Some (user, Some to)
  /\ cert_fits d (with_owner 0 CertTransferred (Some user) to c) = true
  /\ varchar 88 (Some from) = true /\ varchar 88 (Some sig) = true
  /\ ~ (exists t, t ∈ transfers d /\ tr_id t = tid).

Lemma transfer_run tid now id from to sig w user c : faults w = [] ->
  certificates (st w) !! id = Some c -> can_receive (st w) tid id from sig user to c ->
  exists r w', transfer_certificate tid now id from to sig w = (Ok r, w') /\ faults w' = []
    /\ transferred tid now id from to sig (st w) r (st w').
Proof.
  intros Hf Hc (Hu & Hfit & Hfrom & Hsig & Hid).
  set (c' := with_owner now CertTransferred (Some user) to c).
  set (d1 := set_certificates (<[id := c']> (certificates (st w))) (st w)).
  set (t := {| tr_id := tid; tr_certificate_id := id; tr_from_wallet := from; tr_to_wallet := to;
               tr_date := now; tr_signature := sig; tr_from_user := ct_user_id c; tr_to_user := user |}).
  assert (Hto : varchar 88 (Some to) = true).
  { unfold cert_fits in Hfit. simpl in Hfit. by repeat (apply andb_prop in Hfit as [Hfit ?]). }
  assert (Ht : exists d2, insert_transfer t d1 = Some (t, d2)).
  { unfold insert_transfer. simpl. rewrite Hfrom, Hto, Hsig, lookup_insert_eq. simpl.
    apply row_where_Some in Hu as [Hu _]. rewrite Hu.
    destruct (existsb _ _) eqn:E; [|by eexists].
    apply existsb_exists in E as (x & Hx & Hx'). apply N.eqb_eq in Hx'. destruct Hid.
    exists x. split; [by apply list_elem_of_In|done]. }
  destruct Ht as [d2 Ht].
  assert (E : transfer_certificate tid now id from to sig w = (Ok (c', t), set_st d2 w)).
  { unfold transfer_certificate. apply with_tx_run; [done| |done].
    erewrite bind_run by (apply map_err_run; by rewrite query_calm). rewrite Hu.
    erewrite bind_run by done. erewrite bind_run by (apply map_err_run; by rewrite query_calm).
    rewrite Hc. erewrite bind_run by done. erewrite bind_run.
    2: { apply map_err_run.
         erewrite bind_run by (apply exec_ret_run; [done|by apply update_certificate_run]). done. }
    erewrite bind_run by (apply map_err_run, exec_ret_run; [done|exact Ht]). done. }
  exists (c', t), (set_st d2 w). split_and!; [done..|]. by apply transfer_Ok.
Qed.

(** A transfer that answers moved the certificate to the user who has the recipient
    wallet, marked it transferred and recorded the transfer, and did nothing else; one that
    fails leaves every table as it was, and without a failure of the database it fails only
    where recipient or certificate is missing or a value does not fit its column. *)
Theorem transfer_outcome tid now id from to sig (w : world CertDb Event) :
  match transfer_certificate tid now id from to sig w with
  | (Ok r, w') => transferred tid now id from to sig (st w) r (st w')
  | (Err e, w') => st w' = st w
      /\ (faults w = [] -> forall user c, certificates (st w) !! id = Some c ->
            can_receive (st w) tid id from sig user to c -> False)
  end.
Proof.
  destruct (transfer_certificate _ _ _ _ _ _ w) as [[r|e] w'] eqn:E; [by apply transfer_Ok|].
  split; [by apply with_tx_Err in E|]. intros Hf user c Hc Hr.
  destruct (transfer_run tid now id from to sig w user c Hf Hc Hr) as (r & w2 & E2 & _). congruence.
Qed.

Lemma retire_run now id w c : faults w = [] -> certificates (st w) !! id = Some c -> retirable c = true ->
  cert_fits (st w) (retired now c) = true ->
  retire_certificate now id w
  = (Ok (retired now c), set_st (set_certificates (<[id := retired now c]> (certificates (st w))) (st w)) w).
Proof.
  intros Hf Hc Hr Hfit. unfold retire_certificate.
  erewrite bind_run by (apply map_err_run, exec_ret_run; [done|by apply update_certificate_run]). done.
Qed.

Lemma retire_Ok now id w c' w' : retire_certificate now id w = (Ok c', w') ->
  exists c, certificates (st w) !! id = Some c /\ retirable c = true /\ c' = retired now c
    /\ st w' = set_certificates (<[id := c']> (certificates (st w))) (st w).
Proof.
  unfold retire_certificate, failing. intros E. run_steps. apply exec_ret_Ok in H as [H _]. simplify_eq.
  apply update_certificate_Some in H as [(? & _)|(c & ? & ? & ? & ?)]; [done|].
  exists c. naive_solver.
Qed.

(** Retirement succeeds exactly on an active or transferred certificate, of which it
    changes only the status; otherwise nothing changes. *)
Theorem retire_outcome now id (w : world CertDb Event) :
  match retire_certificate now id w with
  | (Ok c', w') => exists c, certificates (st w) !! id = Some c /\ retirable c = true
      /\ c' = retired now c
      /\ st w' = set_certificates (<[id := c']> (certificates (st w))) (st w)
  | (Err e, w') => st w' = st w
      /\ (faults w = [] -> forall c, certificates (st w) !! id = Some c ->
            cert_fits (st w) (retired now c) = true -> retirable c = false)
  end.
Proof.
  destruct (retire_certificate now id w) as [[c'|e] w'] eqn:E.
  - by apply retire_Ok in E.
  - pose proof (retire_error now id w e w' E) as Hst. split; [done|]. intros Hf c Hc Hfit.
    destruct (retirable c) eqn:Er; [|done]. by rewrite (retire_run now id w c) in E.
Qed.

(** Retirement is not final: while nothing fails, a retired certificate, which a
    second retirement refuses, can be transferred to any user with a wallet, by anyone and
    whoever owns it, and is then retired again: its energy is counted twice. *)
Theorem retired_not_final tid now now' id from to sig (w : world CertDb Event) user c :
  faults w = [] -> certificates (st w) !! id = Some c -> ct_status c = CertRetired ->
  can_receive (st w) tid id from sig user to c ->
  (exists e, (retire_certificate now id w).1 = Err e)
  /\ exists c' w', (transfer_certificate tid now id from to sig ;; retire_certificate now' id) w = (Ok c', w')
       /\ ct_status c' = CertRetired /\ ct_wallet_address c' = to /\ ct_user_id c' = Some user
       /\ certificates (st w') !! id = Some c'.
Proof.
  intros Hf Hc Hs Hr. split.
  - destruct (retire_certificate now id w) as [[c'|e] w'] eqn:E; [|by exists e].
    apply retire_Ok in E as (x & Hx & Hp & _). simplify_eq. unfold retirable in Hp. by rewrite Hs in Hp.
  - destruct (transfer_run tid now id from to sig w user c Hf Hc Hr) as (r & w1 & E & Hf1 & Ht).
    destruct Ht as (u & c0 & Hu & Hc0 & Hr1 & _ & Hd). destruct Hr as (Hu' & Hfit & _). simplify_eq/=.
    eexists _, _. split.
    + erewrite bind_run by exact E. apply retire_run with (c := r.1); [done|..].
      * rewrite Hd. simpl. by rewrite lookup_insert_eq.
      * by rewrite Hr1.
      * by rewrite Hd, Hr1.
    + simpl. rewrite lookup_insert_eq, Hr1. done.
Qed.

(** ** The certificates of a settlement *)

Lemma insert_certificate_run id c e d : certificates d !! id = None ->
  num8 (ct_energy_amount c) = Some e -> cert_fits d c = true -> number_taken d (ct_certificate_id c) = false ->
  insert_certificate id c d
  = Some (with_energy e c, set_certificates (<[id := with_energy e c]> (certificates d)) d).
Proof.
  unfold insert_certificate. intros -> -> Hf Hn.
  change (cert_fits d (with_energy e c)) with (cert_fits d c).
  change (ct_certificate_id (with_energy e c)) with (ct_certificate_id c). by rewrite Hf, Hn.
Qed.

Lemma number_taken_insert d id c n : ct_certificate_id c <> n -> certificates d !! id = None ->
  number_taken d n = false -> number_taken (set_certificates (<[id := c]> (certificates d)) d) n = false.
Proof.
  intros Hc Hid Hn. apply not_true_iff_false. intros Ht. apply not_true_iff_false in Hn. apply Hn.
  apply existsb_exists in Ht as ([j x] & Hin & Hx). simpl in *. apply String.eqb_eq in Hx.
  apply list_elem_of_In, elem_of_map_to_list, lookup_insert_Some in Hin.
  destruct Hin as [[<- <-]|[_ Hin]]; [done|]. apply existsb_exists. exists (j, x).
  split; [by apply list_elem_of_In, elem_of_map_to_list|]. by apply String.eqb_eq.
Qed.

(** A request that the tables accept for a settlement. *)
Definition acceptable (d : CertDb) (id draw : Uuid) (now : DateTime) (user : Uuid) (issuer : string)
    (q : IssueErcRequest) (settlement : Uuid) : Prop :=
  certificates d !! id = None
  /\ number_taken d (generate_certificate_id draw now) = false
  /\ cert_fits d (new_certificate (generate_certificate_id draw now) now user issuer q (Some settlement)) = true.

(** Nothing limits the certificates of a settlement: when the clearing engine and the
    settlement service both have it certified, as both do, the seller holds two active
    certificates, each for the whole energy of the settlement. *)
Theorem settlement_certified_twice id1 id2 draw1 draw2 now1 now2 seller serial source wallet settlement
    energy e (w : world CertDb Event) :
  let q1 := clearing_request now1 settlement (Some wallet) serial energy in
  let q2 := settlement_request settlement wallet source energy in
  faults w = [] -> num8 energy = Some e -> id1 <> id2 ->
  generate_certificate_id draw1 now1 <> generate_certificate_id draw2 now2 ->
  acceptable (st w) id1 draw1 now1 seller "PlatformAuthority" q1 settlement ->
  acceptable (st w) id2 draw2 now2 seller wallet q2 settlement ->
  exists c1 c2 w',
    (c1 ← issue_certificate id1 draw1 now1 seller "PlatformAuthority" q1 (Some settlement);
     c2 ← issue_certificate id2 draw2 now2 seller wallet q2 (Some settlement);
     mret (c1, c2)) w = (Ok (c1, c2), w')
    /\ certificates (st w') = <[id2 := c2]> (<[id1 := c1]> (certificates (st w)))
    /\ Forall (fun c => ct_settlement_id c = Some settlement /\ ct_kwh_amount c = Some e
                 /\ ct_status c = CertActive /\ ct_user_id c = Some seller) [c1; c2].
Proof.
  intros q1 q2 Hf He Hid Hnum (Hn1 & Ht1 & Hf1) (Hn2 & Ht2 & Hf2).
  set (c1 := new_certificate (generate_certificate_id draw1 now1) now1 seller "PlatformAuthority" q1 (Some settlement)) in *.
  set (c2 := new_certificate (generate_certificate_id draw2 now2) now2 seller wallet q2 (Some settlement)) in *.
  set (d1 := set_certificates (<[id1 := with_energy e c1]> (certificates (st w))) (st w)).
  set (d2 := set_certificates (<[id2 := with_energy e c2]> (certificates d1)) d1).
  exists (with_energy e c1), (with_energy e c2), (set_st d2 w). split; [|split; [done|]].
  - erewrite bind_run by (apply map_err_run, exec_ret_run; [done|by apply insert_certificate_run]).
    erewrite bind_run.
    2: { apply map_err_run, exec_ret_run; [done|]. apply insert_certificate_run; [|done..|].
         - simpl. by rewrite lookup_insert_ne.
         - by apply number_taken_insert. }
    done.
  - by repeat constructor.
Qed.

(** ** Queries *)

(** An issued certificate is active, belongs to the wallet of the request and is what
    its number finds. *)
Theorem issued_is_found id draw now user issuer q settlement (w : world CertDb Event) c w' :
  issue_certificate id draw now user issuer q settlement w = (Ok c, w') -> faults w' = [] ->
  ct_status c = CertActive /\ ct_wallet_address c = iq_wallet_address q
  /\ get_certificate_by_id (generate_certificate_id draw now) w' = (Ok (id, c), w').
Proof.
  intros H Hf. unfold issue_certificate, failing in H.
  apply map_err_Ok, exec_ret_Ok in H as [H _]. unfold insert_certificate in H.
  destruct (certificates (st w) !! id) eqn:Hid; [done|]. destruct (num8 _) as [e|]; [|done].
  destruct (_ && _) eqn:F in H; [|done]. apply andb_prop in F as [_ F%negb_true_iff].
  injection H as <- Hd. split; [done|]. split; [done|].
  unfold get_certificate_by_id. erewrite bind_run by by apply query_calm. rewrite <- Hd.
  erewrite row_where_unique; [done|simpl; by rewrite lookup_insert_eq| |].
  - by apply String.eqb_refl.
  - intros j y. simpl. rewrite lookup_insert_Some. intros [[-> _]|[Hj Hy]] Hn; [done|]. exfalso.
    apply not_true_iff_false in F. apply F, existsb_exists. exists (j, y).
    split; [by apply list_elem_of_In, elem_of_map_to_list|done].
Qed.

(** The listing of a user's certificates answers only with the empty list: as soon as
    the page has a certificate on it the request fails. *)
Theorem user_certificates_unreadable `{SO : SqlOrder} user limit offset by_ order status
    (w : world CertDb Event) :
  match (get_user_certificates user limit offset by_ order status w).1 with
  | Ok rows => rows = []
  | Err e => e = FMsg ("Failed to fetch user certificates: " ++ db_error_text)
  end.
Proof.
  unfold get_user_certificates, failing, map_err.
  match goal with |- context [(?m ≫= ?k) w] => destruct ((m ≫= k) w) as [[rows|e] w'] eqn:E end; simpl.
  - run_steps. simplify_option_eq. by destruct (page _ _ _) as [[|]|]; simplify_eq/=.
  - assert (e = FDb) as ->; [|done].
    apply bind_Err in E as [E|(rows & w1 & _ & E)]; [|destruct rows; by injection E].
    unfold query in E. destruct (pop_fault w) as [[] ?]; by simplify_eq.
Qed.
End histories.

(** ** Concrete runs *)

Definition demo_dates : DateText := {| to_rfc3339 _ := "2026-01-01"; year_of _ := "2026" |}.

Definition demo_certificates : world CertDb Event :=
  World {| wallets := <[1%N := Some "WalletA"]> (<[2%N := Some "WalletB"]> ∅); settled := {[9%N]};
           certificates := ∅; transfers := [] |} [] [].

Section runs.
#[local] Existing Instances std_numerics demo_chain demo_env demo_decimal_float demo_float_text demo_dates.

Definition demo_energy : Decimal := 25 * U.
Definition demo_request : IssueErcRequest := settlement_request 9 "WalletA" "Wind" demo_energy.
Definition demo_draw : Uuid := 0x0a1b2c00000000000000000000000000.

Definition demo_issued : world CertDb Event :=
  (issue_certificate 3 demo_draw 5 1 "Issuer" demo_request (Some 9%N) demo_certificates).2.
Definition demo_retired : world CertDb Event := (retire_certificate 6 3 demo_issued).2.

Example demo_number : map (fun x => (x.1, ct_certificate_id x.2, ct_status x.2))
    (map_to_list (certificates (st demo_retired))) = [(3%N, "ERC-2026-0A1B2C", CertRetired)].
Proof. vm_compute. reflexivity. Qed.

Lemma demo_consistent : consistent (st demo_certificates).
Proof.
  split; simpl; [intros i j x y H; by rewrite lookup_empty in H|intros i x H; by rewrite lookup_empty in H..|].
  intros t H. by apply elem_of_nil in H.
Qed.

Definition demo_history : list CertOp :=
  [OpIssue 3 demo_draw 5 1 "Issuer" demo_request (Some 9%N); OpSign 6 3 "sig";
   OpTransfer 4 7 3 "WalletA" "WalletB" "sig2"; OpTransfer 5 7 3 "WalletA" "WalletC" "sig3";
   OpRetire 8 3; OpRetire 9 3].

Lemma certificates_history_witness : consistent (st demo_certificates)
  /\ consistent (st (history demo_history demo_certificates).2)
  /\ grows (st demo_certificates) (st (history demo_history demo_certificates).2)
  /\ map (fun x => (ct_status x.2, ct_wallet_address x.2, ct_user_id x.2))
       (map_to_list (certificates (st (history demo_history demo_certificates).2)))
     = [(CertRetired, "WalletB", Some 2%N)].
Proof.
  split; [exact demo_consistent|].
  destruct (certificates_history demo_history demo_certificates demo_consistent) as [H1 H2].
  split; [exact H1|]. split; [exact H2|]. vm_compute. reflexivity.
Defined.

Lemma demo_can_receive c : certificates (st demo_retired) !! 3%N = Some c ->
  can_receive (st demo_retired) 4 3 "WalletA" "sig2" 2 "WalletB" c.
Proof.
  assert (E : (certificates (st demo_retired) !! 3%N) ≫= (fun c => if cert_fits (st demo_retired)
      (with_owner 0 CertTransferred (Some 2%N) "WalletB" c) then Some () else None) = Some ())
    by (vm_compute; reflexivity).
  assert (Et : transfers (st demo_retired) = []) by (vm_compute; reflexivity).
  assert (Ew : row_where (fun x => bool_decide (x = Some "WalletB")) (wallets (st demo_retired))
      = Some (2%N, Some "WalletB")) by (vm_compute; reflexivity).
  generalize dependent (st demo_retired). intros d E Et Ew Hc. rewrite Hc in E. simpl in E.
  split_and!; [done| |done|done|].
  - destruct (cert_fits d _); [reflexivity|discriminate].
  - rewrite Et. by intros (t & Ht%elem_of_nil & _).
Qed.

Lemma transfer_outcome_witness : exists r w',
  transfer_certificate 4 7 3 "WalletA" "WalletB" "sig2" demo_retired = (Ok r, w')
  /\ transferred 4 7 3 "WalletA" "WalletB" "sig2" (st demo_retired) r (st w').
Proof.
  pose proof (transfer_outcome 4 7 3 "WalletA" "WalletB" "sig2" demo_retired) as H.
  assert (is_ok (transfer_certificate 4 7 3 "WalletA" "WalletB" "sig2" demo_retired).1 = true) as Hok
    by (vm_compute; reflexivity).
  destruct (transfer_certificate _ _ _ _ _ _ _) as [[r|e] w'] eqn:E; [|done].
  exists r, w'. split; [reflexivity|exact H].
Defined.

Lemma retire_outcome_witness :
  (exists c w', retire_certificate 6 3 demo_issued = (Ok c, w') /\ ct_status c = CertRetired)
  /\ (exists e w', retire_certificate 6 3 demo_retired = (Err e, w') /\ st w' = st demo_retired).
Proof.
  split.
  - pose proof (retire_outcome 6 3 demo_issued) as H.
    assert (is_ok (retire_certificate 6 3 demo_issued).1 = true) as Hok by (vm_compute; reflexivity).
    destruct (retire_certificate 6 3 demo_issued) as [[c|e] w1]; [|done].
    exists c, w1. split; [reflexivity|]. by destruct H as (x & _ & _ & -> & _).
  - pose proof (retire_outcome 6 3 demo_retired) as H.
    assert (is_ok (retire_certificate 6 3 demo_retired).1 = false) as Hok by (vm_compute; reflexivity).
    destruct (retire_certificate 6 3 demo_retired) as [[c|e] w1]; [done|].
    exists e, w1. split; [reflexivity|exact (proj1 H)].
Defined.

Lemma retired_not_final_witness : exists c c' w',
  certificates (st demo_retired) !! 3%N = Some c /\ ct_status c = CertRetired
  /\ (transfer_certificate 4 7 3 "WalletA" "WalletB" "sig2" ;; retire_certificate 8 3) demo_retired = (Ok c', w')
  /\ ct_status c' = CertRetired /\ ct_user_id c' = Some 2%N.
Proof.
  assert (E : ct_status <$> certificates (st demo_retired) !! 3%N = Some CertRetired)
    by (vm_compute; reflexivity).
  destruct (certificates (st demo_retired) !! 3%N) as [c|] eqn:Hc; [|done]. simpl in E.
  destruct (retired_not_final 4 7 8 3 "WalletA" "WalletB" "sig2" demo_retired 2 c eq_refl Hc)
    as (_ & c' & w' & Hrun & Hst & _ & Hu & _); [by injection E|by apply demo_can_receive|].
  exists c, c', w'. split_and!; [reflexivity|by injection E|exact Hrun|exact Hst|exact Hu].
Defined.

Lemma settlement_certified_twice_witness : exists c1 c2 w',
  (c1 ← issue_certificate 3 demo_draw 5 1 "PlatformAuthority"
          (clearing_request 5 9 (Some "WalletA") "M1" demo_energy) (Some 9%N);
   c2 ← issue_certificate 4 1 6 1 "WalletA" (settlement_request 9 "WalletA" "Wind" demo_energy) (Some 9%N);
   mret (c1, c2)) demo_certificates = (Ok (c1, c2), w')
  /\ certificates (st w') = <[4%N := c2]> (<[3%N := c1]> ∅)
  /\ Forall (fun c => ct_settlement_id c = Some 9%N /\ ct_kwh_amount c = Some demo_energy
               /\ ct_status c = CertActive /\ ct_user_id c = Some 1%N) [c1; c2].
Proof.
  apply (settlement_certified_twice 3 4 demo_draw 1 5 6 1 "M1" "Wind" "WalletA" 9 demo_energy demo_energy
           demo_certificates).
  all: try (vm_compute; reflexivity).
  - done.
  - vm_compute. discriminate.
  - split_and!; vm_compute; reflexivity.
  - split_and!; vm_compute; reflexivity.
Defined.

Lemma issued_is_found_witness : exists c,
  get_certificate_by_id "ERC-2026-0A1B2C" demo_issued = (Ok (3%N, c), demo_issued)
  /\ ct_status c = CertActive.
Proof.
  assert (Hok : is_ok (issue_certificate 3 demo_draw 5 1 "Issuer" demo_request (Some 9%N) demo_certificates).1 = true)
    by (vm_compute; reflexivity).
  destruct (issue_certificate 3 demo_draw 5 1 "Issuer" demo_request (Some 9%N) demo_certificates)
    as [[c|e] w'] eqn:E; [|done].
  assert (w' = demo_issued) as -> by (unfold demo_issued; by rewrite E).
  destruct (issued_is_found 3 demo_draw 5 1 "Issuer" demo_request (Some 9%N) demo_certificates c demo_issued E)
    as (Ha & _ & Hf); [vm_compute; reflexivity|].
  exists c. split; [exact Hf|exact Ha].
Defined.
End runs.
