(* ===== verification/Notifications.v ===== *)
(** Notifications and price alerts.

    [src/models/notification.rs], [src/services/notification_dispatcher.rs],
    [src/handlers/notifications.rs] and [src/handlers/trading/price_alerts.rs], over the tables
    [notifications], [user_notification_preferences] and [price_alerts].  Identifiers and the
    current time are arguments; a broadcast and a mail are effects of the trace, and a mail that
    the code sends from a task of its own is sent at once. *)
From stdpp Require Import pretty.
From S2P Require Import Prelude Numerics Floats Errors Store Schema Orders Settlement Telemetry Readings Certificates.
Open Scope string_scope.
Open Scope Z_scope.

(** The SMTP transport, by address, name, title and message; [Decimal::to_string]; numbers of
    [serde_json]. *)
Class NoteMailer := { mail_answer : list Event -> string -> string -> string -> string -> bool }.
Class DecimalText := { decimal_display : Decimal -> string }.
Class JsonNumber := { json_f64 : spec_float -> Json }.

(** ** Data ([models/notification.rs]) *)

Inductive NotificationType :=
| OrderFilled | OrderMatched | ConditionalTriggered | RecurringExecuted | PriceAlertNote
| EscrowReleased | System.

#[global] Instance NotificationType_eq_dec : EqDecision NotificationType.
Proof. solve_decision. Defined.

Definition notification_type_text (t : NotificationType) : string :=
  match t with
  | OrderFilled => "order_filled" | OrderMatched => "order_matched"
  | ConditionalTriggered => "conditional_triggered" | RecurringExecuted => "recurring_executed"
  | PriceAlertNote => "price_alert" | EscrowReleased => "escrow_released" | System => "system"
  end.

Record Notification := {
  nt_id : Uuid;
  nt_user_id : Uuid;
  nt_type : NotificationType;
  nt_title : string;
  nt_message : option string;
  nt_data : option Json;
  nt_read : option bool;
  nt_created_at : DateTime;
}.

Record CreateNotificationRequest := {
  cq_user_id : Uuid;
  cq_type : NotificationType;
  cq_title : string;
  cq_message : option string;
  cq_data : option Json;
}.

(** A row of [user_notification_preferences]; its columns are nullable. *)
Record PreferenceRow := {
  pf_order_filled : option bool;
  pf_order_matched : option bool;
  pf_conditional_triggered : option bool;
  pf_recurring_executed : option bool;
  pf_price_alerts : option bool;
  pf_escrow_events : option bool;
  pf_system_announcements : option bool;
  pf_email_enabled : option bool;
  pf_push_enabled : option bool;
  pf_updated_at : option DateTime;
}.

Record NotificationPreferences := {
  np_user_id : Uuid;
  np_order_filled : bool;
  np_order_matched : bool;
  np_conditional_triggered : bool;
  np_recurring_executed : bool;
  np_price_alerts : bool;
  np_escrow_events : bool;
  np_system_announcements : bool;
  np_email_enabled : bool;
  np_push_enabled : bool;
  np_updated_at : DateTime;
}.

Record UpdatePreferencesRequest := {
  uq_order_filled : option bool;
  uq_order_matched : option bool;
  uq_conditional_triggered : option bool;
  uq_recurring_executed : option bool;
  uq_price_alerts : option bool;
  uq_escrow_events : option bool;
  uq_system_announcements : option bool;
  uq_email_enabled : option bool;
  uq_push_enabled : option bool;
}.

Record NotificationListResponse := {
  nl_notifications : list Notification;
  nl_unread_count : Z;
  nl_total : Z;
}.

(** A row decoded, every column there: [as "x!"]. *)
Definition decode_preferences (user : Uuid) (p : PreferenceRow) : option NotificationPreferences :=
  a ← pf_order_filled p; b ← pf_order_matched p; c ← pf_conditional_triggered p;
  d ← pf_recurring_executed p; e ← pf_price_alerts p; f ← pf_escrow_events p;
  g ← pf_system_announcements p; h ← pf_email_enabled p; i ← pf_push_enabled p;
  j ← pf_updated_at p;
  Some {| np_user_id := user; np_order_filled := a; np_order_matched := b;
          np_conditional_triggered := c; np_recurring_executed := d; np_price_alerts := e;
          np_escrow_events := f; np_system_announcements := g; np_email_enabled := h;
          np_push_enabled := i; np_updated_at := j |}.

(** ** Price alerts: data *)

Inductive AlertCondition := Above | Below | Crosses.
Inductive AlertStatus := AlertActive | AlertTriggered | AlertCancelled.

#[global] Instance AlertStatus_eq_dec : EqDecision AlertStatus.
Proof. solve_decision. Defined.

Record PriceAlert := {
  al_user_id : Uuid;
  al_target_price : Decimal;
  al_condition : AlertCondition;
  al_status : AlertStatus;
  al_triggered_at : option DateTime;
  al_triggered_price : option Decimal;
  al_repeat : bool;
  al_note : option string;
  al_created_at : DateTime;
}.

Record CreatePriceAlertRequest := {
  pq_target_price : Decimal;
  pq_condition : AlertCondition;
  pq_repeat : option bool;
  pq_note : option string;
}.

Record PriceAlertResponse := {
  pr_id : Uuid;
  pr_target_price : Decimal;
  pr_condition : AlertCondition;
  pr_status : AlertStatus;
  pr_created_at : DateTime;
  pr_message : string;
}.

(** ** Tables *)

(** The addresses and names of the users, and the three tables. *)
Record NoteDb := {
  people : gmap Uuid (string * string);
  preferences : gmap Uuid PreferenceRow;
  notes : gmap Uuid Notification;
  alerts : gmap Uuid PriceAlert;
}.
Abbreviation NM := (M NoteDb Event).

Definition set_preferences (m : gmap Uuid PreferenceRow) (d : NoteDb) : NoteDb :=
  {| people := people d; preferences := m; notes := notes d; alerts := alerts d |}.
Definition set_notes (m : gmap Uuid Notification) (d : NoteDb) : NoteDb :=
  {| people := people d; preferences := preferences d; notes := m; alerts := alerts d |}.
Definition set_alerts (m : gmap Uuid PriceAlert) (d : NoteDb) : NoteDb :=
  {| people := people d; preferences := preferences d; notes := notes d; alerts := m |}.

Definition is_person (d : NoteDb) (u : Uuid) : bool := bool_decide (is_Some (people d !! u)).

(** [INSERT INTO notifications .. RETURNING ..]; [read] and [created_at] by default. *)
Definition insert_notification (id : Uuid) (now : DateTime) (q : CreateNotificationRequest) (d : NoteDb)
    : option (Notification * NoteDb) :=
  let n := {| nt_id := id; nt_user_id := cq_user_id q; nt_type := cq_type q; nt_title := cq_title q;
              nt_message := cq_message q; nt_data := cq_data q; nt_read := Some false;
              nt_created_at := now |} in
  match notes d !! id with
  | Some _ => None
  | None => if is_person d (cq_user_id q) && varchar 200 (Some (cq_title q))
            then Some (n, set_notes (<[id := n]> (notes d)) d) else None
  end.

Definition mark_read (n : Notification) : Notification :=
  {| nt_id := nt_id n; nt_user_id := nt_user_id n; nt_type := nt_type n; nt_title := nt_title n;
     nt_message := nt_message n; nt_data := nt_data n; nt_read := Some true;
     nt_created_at := nt_created_at n |}.

(** A row of DEFAULTs. *)
Definition default_preferences (now : DateTime) : PreferenceRow :=
  {| pf_order_filled := Some true; pf_order_matched := Some true;
     pf_conditional_triggered := Some true; pf_recurring_executed := Some true;
     pf_price_alerts := Some true; pf_escrow_events := Some true;
     pf_system_announcements := Some true; pf_email_enabled := Some false;
     pf_push_enabled := Some true; pf_updated_at := Some now |}.

(** [COALESCE($n, column)]: the row of the conflict, or the defaults of the VALUES list. *)
Definition coalesce {A} (a b : option A) : option A := match a with Some _ => a | None => b end.

Definition merge_preferences (now : DateTime) (q : UpdatePreferencesRequest) (p : PreferenceRow) : PreferenceRow :=
  {| pf_order_filled := coalesce (uq_order_filled q) (pf_order_filled p);
     pf_order_matched := coalesce (uq_order_matched q) (pf_order_matched p);
     pf_conditional_triggered := coalesce (uq_conditional_triggered q) (pf_conditional_triggered p);
     pf_recurring_executed := coalesce (uq_recurring_executed q) (pf_recurring_executed p);
     pf_price_alerts := coalesce (uq_price_alerts q) (pf_price_alerts p);
     pf_escrow_events := coalesce (uq_escrow_events q) (pf_escrow_events p);
     pf_system_announcements := coalesce (uq_system_announcements q) (pf_system_announcements p);
     pf_email_enabled := coalesce (uq_email_enabled q) (pf_email_enabled p);
     pf_push_enabled := coalesce (uq_push_enabled q) (pf_push_enabled p);
     pf_updated_at := Some now |}.

Definition upsert_preferences (now : DateTime) (user : Uuid) (q : UpdatePreferencesRequest) (d : NoteDb)
    : option (PreferenceRow * NoteDb) :=
  let put p := Some (p, set_preferences (<[user := p]> (preferences d)) d) in
  match preferences d !! user with
  | Some p => put (merge_preferences now q p)
  | None => if is_person d user then put (merge_preferences now q (default_preferences now)) else None
  end.

Definition insert_preferences (now : DateTime) (user : Uuid) (d : NoteDb) : option (PreferenceRow * NoteDb) :=
  match preferences d !! user with
  | Some _ => None
  | None => if is_person d user
            then Some (default_preferences now,
                       set_preferences (<[user := default_preferences now]> (preferences d)) d)
            else None
  end.

Definition insert_alert `{Numerics} (id : Uuid) (a : PriceAlert) (d : NoteDb) : option NoteDb :=
  match alerts d !! id, num8 (al_target_price a) with
  | None, Some price =>
      if is_person d (al_user_id a) && varchar 200 (al_note a)
      then Some (set_alerts (<[id := {| al_user_id := al_user_id a; al_target_price := price;
                                        al_condition := al_condition a; al_status := al_status a;
                                        al_triggered_at := al_triggered_at a;
                                        al_triggered_price := al_triggered_price a;
                                        al_repeat := al_repeat a; al_note := al_note a;
                                        al_created_at := al_created_at a |}]> (alerts d)) d)
      else None
  | _, _ => None
  end.

(** ** Dispatch ([notification_dispatcher.rs]) *)

(** [respect_preferences] and, if there is a mail service, whether it is enabled. *)
Record DispatcherConfig := { respect_preferences : bool; dispatcher_email : option bool }.

(** What the preferences say of a type of notification. *)
Definition type_enabled (t : NotificationType) (p : PreferenceRow) : bool :=
  match t with
  | OrderFilled => default true (pf_order_filled p)
  | OrderMatched => default true (pf_order_matched p)
  | ConditionalTriggered => default true (pf_conditional_triggered p)
  | RecurringExecuted => default true (pf_recurring_executed p)
  | PriceAlertNote => default true (pf_price_alerts p)
  | EscrowReleased => default true (pf_escrow_events p)
  | System => default true (pf_system_announcements p)
  end.

(** Push and mail. *)
Definition wanted (t : NotificationType) (p : option PreferenceRow) : bool * bool :=
  match p with
  | None => (true, false)
  | Some p => (type_enabled t p && default true (pf_push_enabled p),
               type_enabled t p && default false (pf_email_enabled p))
  end.

Section dispatcher.
Context `{NUM : Numerics} `{ENV : Env} `{FT : FloatText} `{NML : NoteMailer} `{DX : DecimalText} `{JN : JsonNumber}.
Context (config : DispatcherConfig).

Definition check_preferences (user_id : Uuid) (t : NotificationType) : NM (bool * bool) :=
  prefs ← query (fun d => preferences d !! user_id);
  mret (wanted t prefs).

Definition create_notification (id : Uuid) (now : DateTime) (request : CreateNotificationRequest)
    (broadcast : bool) : NM Notification :=
  n ← exec_ret (insert_notification id now request);
  (if broadcast then emit (EvBroadcast (cq_user_id request) (nt_id n)) else mret ()) ;;
  mret n.

(** [send_notification_email] of [services/email/mod.rs]; a failure is only logged. *)
Definition send_notification_email (enabled : bool) (to username title message : string) : NM unit := fun w =>
  if enabled
  then emit (EvNotificationMail to username title message
               (mail_answer (trace w) to username title message)) w
  else (mret () : NM unit) w.

Definition mail_to (request : CreateNotificationRequest) : NM unit :=
  match dispatcher_email config with
  | None => mret ()
  | Some enabled =>
      user ← query (fun d => people d !! cq_user_id request);
      match user with
      | Some (email, username) =>
          send_notification_email enabled email username (cq_title request) (default "" (cq_message request))
      | None => mret ()
      end
  end.

Definition send (id : Uuid) (now : DateTime) (request : CreateNotificationRequest) : NM Notification :=
  wants ← check_preferences (cq_user_id request) (cq_type request);
  let '(should_push, should_email) := wants in
  if respect_preferences config && negb should_push
  then create_notification id now request false
  else
    notification ← create_notification id now request true;
    (if should_email : bool then mail_to request else mret ()) ;;
    mret notification.

Fixpoint send_bulk (now : DateTime) (requests : list (Uuid * CreateNotificationRequest))
    : NM (list Notification) :=
  match requests with
  | [] => mret []
  | (id, request) :: requests =>
      r ← attempt (send id now request);
      notifications ← send_bulk now requests;
      mret (match r with Ok n => n :: notifications | Err _ => notifications end)
  end.

(** The users an announcement is for. *)
Definition announced (d : NoteDb) : list Uuid :=
  List.filter (fun u => default true (p ← preferences d !! u; pf_system_announcements p))
    (map_to_list (people d)).*1.

Definition announcement (title message : string) (user : Uuid) : CreateNotificationRequest :=
  {| cq_user_id := user; cq_type := System; cq_title := title; cq_message := Some message;
     cq_data := None |}.

(** [ids u] is the identifier of the notification of [u]. *)
Fixpoint announce_each (ids : Uuid -> Uuid) (now : DateTime) (title message : string)
    (users : list Uuid) (count : Z) : NM Z :=
  match users with
  | [] => mret count
  | user :: users =>
      r ← attempt (send (ids user) now (announcement title message user));
      announce_each ids now title message users (if is_ok r then count + 1 else count)
  end.

Definition send_system_announcement (ids : Uuid -> Uuid) (now : DateTime) (title message : string) : NM Z :=
  users ← query announced;
  announce_each ids now title message users 0.

Definition notify_order_filled (id : Uuid) (now : DateTime) (user_id order_id : Uuid)
    (amount price : spec_float) : NM Notification :=
  send id now {| cq_user_id := user_id; cq_type := OrderFilled; cq_title := "Order Filled";
    cq_message := Some ("Your order for " ++ f64_fixed 2 amount ++ " kWh was filled at "
                        ++ f64_fixed 4 price ++ "/kWh");
    cq_data := Some (JObject [("order_id", JString (uuid_to_string order_id));
                              ("amount", json_f64 amount); ("price", json_f64 price)]) |}.

Definition notify_conditional_triggered (id : Uuid) (now : DateTime) (user_id order_id : Uuid)
    (trigger_type : string) (trigger_price : spec_float) : NM Notification :=
  send id now {| cq_user_id := user_id; cq_type := ConditionalTriggered;
    cq_title := trigger_type ++ " Triggered";
    cq_message := Some ("Your " ++ trigger_type ++ " order was triggered at price "
                        ++ f64_fixed 4 trigger_price);
    cq_data := Some (JObject [("order_id", JString (uuid_to_string order_id));
                              ("trigger_type", JString trigger_type);
                              ("trigger_price", json_f64 trigger_price)]) |}.

Definition notify_recurring_executed (id : Uuid) (now : DateTime) (user_id recurring_id : Uuid)
    (execution_number : Z) (amount : spec_float) : NM Notification :=
  send id now {| cq_user_id := user_id; cq_type := RecurringExecuted;
    cq_title := "Recurring Order Executed";
    cq_message := Some ("Execution #" ++ pretty execution_number ++ " completed for "
                        ++ f64_fixed 2 amount ++ " kWh");
    cq_data := Some (JObject [("recurring_id", JString (uuid_to_string recurring_id));
                              ("execution_number", JNumber (pretty execution_number));
                              ("amount", json_f64 amount)]) |}.

(** ** Requests ([handlers/notifications.rs]) *)

(** [.map_err(|e| ApiError::Internal(format!("{what}: {}", e)))] of a [sqlx::Error]. *)
Definition refusing {A} (what : string) (m : NM A) : NM A :=
  map_err (fun _ => FApi (Internal (what ++ ": " ++ db_error_text))) m.

Definition of_user (user : Uuid) (n : Notification) : bool := (nt_user_id n =? user)%N.
Definition unread (n : Notification) : bool := match nt_read n with Some false => true | _ => false end.
Definition note_rows (p : Notification -> bool) (d : NoteDb) : list Notification :=
  List.filter p (map_to_list (notes d)).*2.
Definition later_note (x y : Notification) : bool := nt_created_at y <=? nt_created_at x.

(** A page of decoded rows: [read as "read!"]. *)
Definition notification_page (user : Uuid) (unread_only : bool) (limit offset : Z) (d : NoteDb)
    : option (list Notification) :=
  rows ← page limit offset (sort_by later_note
    (note_rows (fun n => of_user user n && (negb unread_only || unread n)) d));
  mapM (fun n => _ ← nt_read n; Some n) rows.

Definition list_notifications (user : Uuid) (limit offset : option Z) (unread_only : option bool)
    : NM NotificationListResponse :=
  notifications ← refusing "Failed to list notifications"
    (rows ← query (notification_page user (default false unread_only) (Z.min (default 50 limit) 100)
                     (default 0 offset));
     expect FDb rows);
  counts ← refusing "Failed to get counts"
    (query (fun d => (length (note_rows (fun n => of_user user n && unread n) d),
                      length (note_rows (of_user user) d))));
  mret {| nl_notifications := notifications; nl_unread_count := Z.of_nat counts.1;
          nl_total := Z.of_nat counts.2 |}.

(** [UPDATE notifications SET read = true WHERE ..], and the rows it changes. *)
Definition read_where (p : Notification -> bool) (d : NoteDb) : nat * NoteDb :=
  (length (note_rows p d), set_notes ((fun n => if p n then mark_read n else n) <$> notes d) d).

Definition mark_as_read (user notification_id : Uuid) : NM unit :=
  affected ← refusing "Failed to mark as read"
    (exec_ret (fun d => Some (read_where (fun n => (nt_id n =? notification_id)%N && of_user user n) d)));
  if (affected =? 0)%nat then fail (FApi (NotFound "Notification not found")) else mret ().

(** The number of the answer's message. *)
Definition mark_all_as_read (user : Uuid) : NM nat :=
  refusing "Failed to mark all as read"
    (exec_ret (fun d => Some (read_where (fun n => of_user user n && unread n) d))).

Definition get_preferences (now : DateTime) (user : Uuid) : NM NotificationPreferences :=
  found ← refusing "Failed to get preferences"
    (row ← query (fun d => preferences d !! user);
     match row with
     | Some p => prefs ← expect FDb (decode_preferences user p); mret (Some prefs)
     | None => mret None
     end);
  match found with
  | Some prefs => mret prefs
  | None =>
      refusing "Failed to create preferences"
        (p ← exec_ret (insert_preferences now user);
         expect FDb (decode_preferences user p))
  end.

Definition update_preferences (now : DateTime) (user : Uuid) (payload : UpdatePreferencesRequest)
    : NM NotificationPreferences :=
  refusing "Failed to update preferences"
    (p ← exec_ret (upsert_preferences now user payload);
     expect FDb (decode_preferences user p)).

(** ** Price alerts ([handlers/trading/price_alerts.rs]) *)

Definition condition_text (c : AlertCondition) : string :=
  match c with Above => "above" | Below => "below" | Crosses => "to" end.

Definition create_price_alert (id : Uuid) (now : DateTime) (user : Uuid) (payload : CreatePriceAlertRequest)
    : NM PriceAlertResponse :=
  if pq_target_price payload <=? 0 then fail (FApi (BadRequest "Target price must be positive"))
  else
    refusing "Failed to create alert"
      (exec (insert_alert id {| al_user_id := user; al_target_price := pq_target_price payload;
         al_condition := pq_condition payload; al_status := AlertActive; al_triggered_at := None;
         al_triggered_price := None; al_repeat := default false (pq_repeat payload);
         al_note := pq_note payload; al_created_at := now |})) ;;
    mret {| pr_id := id; pr_target_price := pq_target_price payload;
            pr_condition := pq_condition payload; pr_status := AlertActive; pr_created_at := now;
            pr_message := "Alert created. You'll be notified when price goes "
              ++ condition_text (pq_condition payload) ++ " " ++ decimal_display (pq_target_price payload) |}.

Definition newest_alert (x y : Uuid * PriceAlert) : bool := al_created_at y.2 <=? al_created_at x.2.

Definition list_price_alerts (user : Uuid) : NM (list (Uuid * PriceAlert)) :=
  refusing "Failed to list alerts"
    (query (fun d => take 100 (sort_by newest_alert
       (List.filter (fun x => (al_user_id x.2 =? user)%N) (map_to_list (alerts d)))))).

(** [DELETE FROM price_alerts WHERE id = $1 AND user_id = $2]. *)
Definition delete_alert (user alert_id : Uuid) (d : NoteDb) : nat * NoteDb :=
  match alerts d !! alert_id with
  | Some a => if (al_user_id a =? user)%N then (1%nat, set_alerts (delete alert_id (alerts d)) d) else (0%nat, d)
  | None => (0%nat, d)
  end.

Definition delete_price_alert (user alert_id : Uuid) : NM unit :=
  affected ← refusing "Failed to delete alert" (exec_ret (fun d => Some (delete_alert user alert_id d)));
  if (affected =? 0)%nat then fail (FApi (NotFound "Alert not found")) else mret ().
End dispatcher.

(** ** Histories *)

Inductive NoteOp :=
| OpSend (id : Uuid) (now : DateTime) (q : CreateNotificationRequest)
| OpBulk (now : DateTime) (l : list (Uuid * CreateNotificationRequest))
| OpAnnounce (ids : Uuid -> Uuid) (now : DateTime) (title message : string)
| OpList (user : Uuid) (limit offset : option Z) (unread_only : option bool)
| OpRead (user id : Uuid)
| OpReadAll (user : Uuid)
| OpGetPreferences (now : DateTime) (user : Uuid)
| OpUpdatePreferences (now : DateTime) (user : Uuid) (q : UpdatePreferencesRequest)
| OpAlert (id : Uuid) (now : DateTime) (user : Uuid) (q : CreatePriceAlertRequest)
| OpListAlerts (user : Uuid)
| OpDeleteAlert (user id : Uuid).

(** What the requests rely on and keep: rows can be decoded, belong to users, and no alert has
    triggered. *)
Record sound (d : NoteDb) : Prop := {
  note_row i n : notes d !! i = Some n ->
    nt_id n = i /\ is_Some (nt_read n) /\ is_person d (nt_user_id n) = true;
  preference_row u p : preferences d !! u = Some p ->
    is_Some (decode_preferences u p) /\ is_person d u = true;
  alert_row i a : alerts d !! i = Some a ->
    al_status a = AlertActive /\ al_triggered_at a = None /\ al_triggered_price a = None
    /\ 0 <= al_target_price a /\ is_person d (al_user_id a) = true;
}.

(** Nothing sent is lost: a notification only ever becomes read. *)
Definition keeps (d d' : NoteDb) : Prop :=
  people d' = people d
  /\ (forall i n, notes d !! i = Some n -> notes d' !! i = Some n \/ notes d' !! i = Some (mark_read n))
  /\ (forall u, is_Some (preferences d !! u) -> is_Some (preferences d' !! u)).

Section histories.
Context `{NUM : Numerics} `{ENV : Env} `{FT : FloatText} `{NML : NoteMailer} `{DX : DecimalText} `{JN : JsonNumber}.
Context (config : DispatcherConfig).

Definition serve (o : NoteOp) : NM unit :=
  match o with
  | OpSend id now q => send config id now q ;; mret ()
  | OpBulk now l => send_bulk config now l ;; mret ()
  | OpAnnounce ids now title message => send_system_announcement config ids now title message ;; mret ()
  | OpList user limit offset unread_only => list_notifications user limit offset unread_only ;; mret ()
  | OpRead user id => mark_as_read user id
  | OpReadAll user => mark_all_as_read user ;; mret ()
  | OpGetPreferences now user => get_preferences now user ;; mret ()
  | OpUpdatePreferences now user q => update_preferences now user q ;; mret ()
  | OpAlert id now user q => create_price_alert id now user q ;; mret ()
  | OpListAlerts user => list_price_alerts user ;; mret ()
  | OpDeleteAlert user id => delete_price_alert user id
  end.

Definition requests (ops : list NoteOp) : NM unit := for_each (fun o => spawn (serve o)) ops.

(** ** Lemmas: the statements *)

(** A row every column of which is there. *)
Definition complete (p : PreferenceRow) : Prop :=
  Forall is_Some [pf_order_filled p; pf_order_matched p; pf_conditional_triggered p;
    pf_recurring_executed p; pf_price_alerts p; pf_escrow_events p; pf_system_announcements p;
    pf_email_enabled p; pf_push_enabled p]
  /\ is_Some (pf_updated_at p).

Lemma decode_complete u p : is_Some (decode_preferences u p) <-> complete p.
Proof.
  unfold decode_preferences, complete. rewrite !list.Forall_cons, list.Forall_nil.
  destruct p as [a b c e f g h i j k]. simpl. split.
  - intros [x H]. simplify_option_eq. split_and!; by eexists.
  - intros H. destruct_and!. repeat match goal with H : is_Some _ |- _ => destruct H as [? ->] end. by eexists.
Qed.

Lemma coalesce_is_Some {A} (a b : option A) : is_Some b -> is_Some (coalesce a b).
Proof. by destruct a; [eexists|]. Qed.

Lemma merge_complete now q p : complete p -> complete (merge_preferences now q p).
Proof.
  unfold complete. rewrite !list.Forall_cons. intros H. destruct_and!.
  split_and!; simpl; auto using coalesce_is_Some.
Qed.

Lemma default_complete now : complete (default_preferences now).
Proof. split; [|by eexists]. repeat constructor; by eexists. Qed.

Lemma mark_read_twice n : mark_read (mark_read n) = mark_read n.
Proof. done. Qed.

Lemma keeps_refl d : keeps d d.
Proof. split_and!; auto. Qed.

Lemma keeps_trans d1 d2 d3 : keeps d1 d2 -> keeps d2 d3 -> keeps d1 d3.
Proof.
  intros (P1 & N1 & F1) (P2 & N2 & F2). split_and!; [congruence| |auto].
  intros i n Hn. destruct (N1 i n Hn) as [H|H]; [auto|]. destruct (N2 i _ H) as [->| ->]; auto.
Qed.

(** One statement that keeps everything sound. *)
Definition fine (f : NoteDb -> option NoteDb) : Prop :=
  forall d d', sound d -> f d = Some d' -> sound d' /\ keeps d d'.

Definition Inv (d0 d : NoteDb) : Prop := sound d /\ keeps d0 d.

Lemma fine_exec d0 f : fine f -> preserves (Inv d0) (exec f : NM unit).
Proof.
  intros Hf. apply preserves_exec. intros d d' [Hs Hk] E. destruct (Hf d d' Hs E) as [? ?].
  split; [done|by eapply keeps_trans].
Qed.

Lemma fine_exec_ret {A} d0 (f : NoteDb -> option (A * NoteDb)) :
  fine (fun d => snd <$> f d) -> preserves (Inv d0) (exec_ret f : NM A).
Proof.
  intros Hf. apply preserves_exec_ret. intros d a d' [Hs Hk] E. destruct (Hf d d' Hs) as [? ?]; [by rewrite E|].
  split; [done|by eapply keeps_trans].
Qed.

Lemma fine_insert_notification id now q : fine (fun d => snd <$> insert_notification id now q d).
Proof.
  intros d d' Hs. unfold insert_notification. destruct (notes d !! id) eqn:E; [done|].
  destruct (_ && _) eqn:F; [|done]. apply andb_prop in F as [F _]. intros [= <-]. split; [split|split_and!]; simpl.
  - intros i n. rewrite lookup_insert_Some. intros [[<- <-]|[_ H]]; [|by apply (note_row d)]. split_and!; try done; by eexists.
  - apply (preference_row d Hs).
  - apply (alert_row d Hs).
  - done.
  - intros i n H. left. rewrite lookup_insert_ne; [done|congruence].
  - done.
Qed.

Lemma fine_preferences (f : NoteDb -> PreferenceRow) user d :
  sound d -> complete (f d) -> is_person d user = true ->
  let d' := set_preferences (<[user := f d]> (preferences d)) d in sound d' /\ keeps d d'.
Proof.
  intros Hs Hc Hp. simpl. split; [split|split_and!]; simpl; auto.
  - apply (note_row d Hs).
  - intros u p. rewrite lookup_insert_Some. intros [[<- <-]|[_ H]]; [|by apply (preference_row d)].
    split; [by apply decode_complete|done].
  - apply (alert_row d Hs).
  - intros u Hu. destruct (decide (user = u)) as [<-|?]; [rewrite lookup_insert_eq; by eexists|by rewrite lookup_insert_ne].
Qed.

Lemma fine_upsert now user q : fine (fun d => snd <$> upsert_preferences now user q d).
Proof.
  intros d d' Hs. unfold upsert_preferences. destruct (preferences d !! user) as [p|] eqn:E.
  - intros [= <-]. destruct (preference_row d Hs user p E) as [Hd Hp]. apply decode_complete in Hd.
    apply (fine_preferences (fun _ => merge_preferences now q p)); auto using merge_complete.
  - destruct (is_person d user) eqn:Hp; [|done]. intros [= <-].
    apply (fine_preferences (fun _ => merge_preferences now q (default_preferences now)));
      auto using merge_complete, default_complete.
Qed.

Lemma fine_insert_preferences now user : fine (fun d => snd <$> insert_preferences now user d).
Proof.
  intros d d' Hs. unfold insert_preferences. destruct (preferences d !! user) eqn:E; [done|].
  destruct (is_person d user) eqn:Hp; [|done]. intros [= <-].
  apply (fine_preferences (fun _ => default_preferences now)); auto using default_complete.
Qed.

Lemma fine_read_where p : fine (fun d => snd <$> Some (read_where p d)).
Proof.
  intros d d' Hs [= <-]. split; [split|split_and!]; simpl; auto.
  - intros i n. rewrite lookup_fmap_Some. intros (n0 & <- & Hn). destruct (note_row d Hs i n0 Hn) as (? & ? & ?).
    destruct (p n0); by split_and!.
  - apply (preference_row d Hs).
  - apply (alert_row d Hs).
  - intros i n Hn. rewrite lookup_fmap, Hn. simpl. destruct (p n); auto.
Qed.

Lemma alert_price_nonneg z r : 0 < z -> num8 z = Some r -> 0 <= r.
Proof. intros Hz [[k ->] Hr]%num8_stored. unfold G8 in *. lia. Qed.

Lemma fine_insert_alert id a : 0 < al_target_price a -> al_status a = AlertActive ->
  al_triggered_at a = None -> al_triggered_price a = None -> fine (insert_alert id a).
Proof.
  intros Hz Ha Ht Hp d d' Hs. unfold insert_alert. destruct (alerts d !! id) eqn:E; [done|].
  destruct (num8 _) as [price|] eqn:En; [|done]. destruct (_ && _) eqn:F; [|done].
  apply andb_prop in F as [F _]. intros [= <-]. split; [split|split_and!]; simpl; auto.
  - apply (note_row d Hs).
  - apply (preference_row d Hs).
  - intros i x. rewrite lookup_insert_Some. intros [[<- <-]|[_ H]]; [|by apply (alert_row d Hs i x)].
    split_and!; try done. by eapply alert_price_nonneg.
Qed.

Lemma fine_delete_alert user id : fine (fun d => snd <$> Some (delete_alert user id d)).
Proof.
  intros d d' Hs [= <-]. unfold delete_alert. destruct (alerts d !! id) as [a|]; [|split; [done|apply keeps_refl]].
  destruct (_ =? _)%N; [|split; [done|apply keeps_refl]]. split; [split|split_and!]; simpl; auto.
  - apply (note_row d Hs).
  - apply (preference_row d Hs).
  - intros i x. rewrite lookup_delete_Some. intros [_ H]. by apply (alert_row d Hs i x).
Qed.

(** ** The invariant *)

Lemma inv_create d0 id now q b : preserves (Inv d0) (create_notification id now q b).
Proof.
  apply preserves_bind; [apply fine_exec_ret, fine_insert_notification|]. intros n.
  destruct b; eauto with gateway.
Qed.

Lemma inv_mail d0 q : preserves (Inv d0) (mail_to config q).
Proof.
  unfold mail_to. destruct (dispatcher_email config) as [e|]; [|apply preserves_ret].
  apply preserves_bind; [apply preserves_query|]. intros [[email name]|]; [|apply preserves_ret].
  intros w Hw. unfold send_notification_email. by destruct e.
Qed.

Lemma inv_send d0 id now q : preserves (Inv d0) (send config id now q).
Proof.
  unfold send. apply preserves_bind; [unfold check_preferences; eauto with gateway|]. intros [push mail].
  destruct (_ && _); [apply inv_create|]. apply preserves_bind; [apply inv_create|]. intros n.
  apply preserves_bind; [|intros; apply preserves_ret]. destruct mail; [apply inv_mail|apply preserves_ret].
Qed.

Lemma inv_bulk d0 now l : preserves (Inv d0) (send_bulk config now l).
Proof.
  induction l as [|[id q] l IH]; simpl; [apply preserves_ret|].
  apply preserves_bind; [apply preserves_attempt, inv_send|]. eauto with gateway.
Qed.

Lemma inv_announce_each d0 ids now title message users count :
  preserves (Inv d0) (announce_each config ids now title message users count).
Proof.
  revert count. induction users as [|u users IH]; intros count; simpl; [apply preserves_ret|].
  apply preserves_bind; [apply preserves_attempt, inv_send|]. auto.
Qed.

Lemma inv_serve d0 o : preserves (Inv d0) (serve o).
Proof.
  destruct o; simpl.
  - apply preserves_bind; [apply inv_send|eauto with gateway].
  - apply preserves_bind; [apply inv_bulk|eauto with gateway].
  - apply preserves_bind; [|eauto with gateway].
    apply preserves_bind; [apply preserves_query|intros; apply inv_announce_each].
  - apply preserves_bind; [|eauto with gateway]. unfold list_notifications, refusing. eauto 10 with gateway.
  - apply preserves_bind; [apply preserves_map_err, fine_exec_ret, fine_read_where|].
    intros a. destruct (a =? 0)%nat; eauto with gateway.
  - apply preserves_bind; [apply preserves_map_err, fine_exec_ret, fine_read_where|eauto with gateway].
  - apply preserves_bind; [|eauto with gateway].
    apply preserves_bind.
    + apply preserves_map_err, preserves_bind; [apply preserves_query|]. intros [p|]; eauto with gateway.
    + intros [p|]; [apply preserves_ret|]. apply preserves_map_err, preserves_bind; [|eauto with gateway].
      apply fine_exec_ret, fine_insert_preferences.
  - apply preserves_bind; [|eauto with gateway]. apply preserves_map_err, preserves_bind; [|eauto with gateway].
    apply fine_exec_ret, fine_upsert.
  - apply preserves_bind; [|eauto with gateway]. unfold create_price_alert.
    destruct (_ <=? 0) eqn:E; [apply preserves_fail|]. apply preserves_bind; [|eauto with gateway].
    apply preserves_map_err, fine_exec, fine_insert_alert; simpl; [lia|done..].
  - apply preserves_bind; [|eauto with gateway]. unfold list_price_alerts, refusing. eauto with gateway.
  - apply preserves_bind; [apply preserves_map_err, fine_exec_ret, fine_delete_alert|].
    intros a. destruct (a =? 0)%nat; eauto with gateway.
Qed.

(** C33: Whatever requests arrive and whichever statements fail, every row stays readable and
    owned by a user, no notification is lost or changed but for becoming read, preferences
    once stored stay, and every price alert stays as it was created: none ever triggers. *)
Theorem notifications_kept ops (w : world NoteDb Event) : sound (st w) ->
  sound (st (requests ops w).2) /\ keeps (st w) (st (requests ops w).2).
Proof.
  intros Hs. assert (H : preserves (Inv (st w)) (requests ops)).
  { apply preserves_for_each. intros o. apply preserves_spawn, inv_serve. }
  apply (H w). split; [done|apply keeps_refl].
Qed.
End histories.

(** ** What a notification does *)

Section outcomes.
Context `{NUM : Numerics} `{ENV : Env} `{FT : FloatText} `{NML : NoteMailer} `{DX : DecimalText} `{JN : JsonNumber}.
Context (config : DispatcherConfig).
Implicit Types (w : world NoteDb Event).

(** Whether it is broadcast, and to whom a mail goes. *)
Definition pushed (q : CreateNotificationRequest) (d : NoteDb) : bool :=
  negb (respect_preferences config) || (wanted (cq_type q) (preferences d !! cq_user_id q)).1.

Definition mailed (q : CreateNotificationRequest) (d : NoteDb) : option (string * string) :=
  if (wanted (cq_type q) (preferences d !! cq_user_id q)).2
  then match dispatcher_email config with Some true => people d !! cq_user_id q | _ => None end
  else None.

Definition sent_effects (id : Uuid) (q : CreateNotificationRequest) (d : NoteDb) (tr : list Event) : list Event :=
  if pushed q d then
    EvBroadcast (cq_user_id q) id ::
    match mailed q d with
    | Some (email, name) =>
        [EvNotificationMail email name (cq_title q) (default "" (cq_message q))
           (mail_answer (tr ++ [EvBroadcast (cq_user_id q) id])%list email name (cq_title q)
              (default "" (cq_message q)))]
    | None => []
    end
  else [].

Lemma insert_notification_Some id now q d n d' : insert_notification id now q d = Some (n, d') ->
  notes d !! id = None /\ is_person d (cq_user_id q) = true /\ nt_id n = id
  /\ d' = set_notes (<[id := n]> (notes d)) d.
Proof.
  unfold insert_notification. destruct (notes d !! id); [done|].
  destruct (_ && _) eqn:F; [|done]. apply andb_prop in F as [? _]. by intros [= <- <-].
Qed.

(** A creation, on every failure schedule. *)
Lemma create_cases id now q b w :
  match create_notification id now q b w with
  | (Ok n, w') => insert_notification id now q (st w) = Some (n, st w')
      /\ trace w' = (trace w ++ if b then [EvBroadcast (cq_user_id q) id] else [])%list
  | (Err e, w') => e = FDb /\ st w' = st w /\ trace w' = trace w
      /\ (hd false (faults w) = false -> insert_notification id now q (st w) = None)
  end.
Proof.
  unfold create_notification. destruct (exec_ret (insert_notification id now q) w) as [[n|e] w1] eqn:E.
  - erewrite bind_run by exact E. apply exec_ret_Ok in E as [E Et].
    destruct (insert_notification_Some _ _ _ _ _ _ E) as (_ & _ & Hid & _).
    destruct b; simpl; rewrite Et, ?Hid; [done|]. by rewrite app_nil_r.
  - erewrite bind_run_Err by exact E. by apply exec_ret_Err in E.
Qed.

Lemma calm_create id now q b : stays_calm (create_notification id now q b).
Proof.
  apply calm_bind; [auto with calm|]. intros n. apply calm_bind; [|auto with calm]. by destruct b; intros w Hw.
Qed.

Lemma calm_mail q : stays_calm (mail_to config q).
Proof.
  unfold mail_to. destruct (dispatcher_email config) as [e|]; [|auto with calm].
  apply calm_bind; [auto with calm|]. intros [[email name]|]; [|auto with calm].
  intros w Hw. by destruct e.
Qed.

Lemma calm_send id now q : stays_calm (send config id now q).
Proof.
  unfold send. apply calm_bind; [unfold check_preferences; auto with calm|].
  intros [push mail]. destruct (_ && _); [apply calm_create|].
  apply calm_bind; [apply calm_create|]. intros n. apply calm_bind; [|auto with calm].
  destruct mail; [apply calm_mail|auto with calm].
Qed.

(** The mail of a user, after the row was stored. *)
Lemma mail_cases q d w : people (st w) = people d ->
  (wanted (cq_type q) (preferences d !! cq_user_id q)).2 = true ->
  match mail_to config q w with
  | (Ok _, w') => st w' = st w /\ trace w' = (trace w ++
      match mailed q d with
      | Some (email, name) => [EvNotificationMail email name (cq_title q) (default "" (cq_message q))
          (mail_answer (trace w) email name (cq_title q) (default "" (cq_message q)))]
      | None => []
      end)%list
  | (Err e, w') => e = FDb /\ st w' = st w /\ trace w' = trace w /\ faults w <> []
  end.
Proof.
  intros Hp Hw. unfold mail_to, mailed. rewrite Hw.
  destruct (dispatcher_email config) as [e|]; [|simpl; by rewrite app_nil_r].
  destruct (query (fun d => people d !! cq_user_id q) w) as [[user|err] w1] eqn:E.
  - erewrite bind_run by exact E. apply query_Ok in E as (-> & Hs & Ht). rewrite Hp.
    destruct (people d !! cq_user_id q) as [[email name]|]; simpl.
    + unfold send_notification_email. destruct e; simpl; rewrite Hs, Ht; [done|by rewrite app_nil_r].
    + rewrite Hs, Ht. destruct e; by rewrite app_nil_r.
  - erewrite bind_run_Err by exact E.
    apply query_Err in E as (-> & ? & ? & Hf). split_and!; [done..|]. intros Hw'. by rewrite Hw' in Hf.
Qed.

Lemma send_cases id now q w :
  match send config id now q w with
  | (Ok n, w') => insert_notification id now q (st w) = Some (n, st w')
      /\ trace w' = (trace w ++ sent_effects id q (st w) (trace w))%list
  | (Err e, w') => e = FDb
      /\ (faults w = [] -> insert_notification id now q (st w) = None)
      /\ ((st w' = st w /\ trace w' = trace w)
          \/ exists n, insert_notification id now q (st w) = Some (n, st w')
               /\ (wanted (cq_type q) (preferences (st w) !! cq_user_id q)).2 = true
               /\ trace w' = (trace w ++ [EvBroadcast (cq_user_id q) id])%list)
  end.
Proof.
  unfold send, check_preferences.
  destruct (query (fun d => preferences d !! cq_user_id q) w) as [[p|e] w1] eqn:E.
  2: { erewrite bind_run_Err by (by erewrite bind_run_Err by exact E).
       apply query_Err in E as (-> & ? & ? & Hf). split_and!; [done| |by left].
       intros Hw. by rewrite Hw in Hf. }
  rewrite (bind_run _ _ w (wanted (cq_type q) p) w1) by (by erewrite bind_run by exact E).
  assert (Hf : faults w = [] -> faults w1 = []).
  { intros Hf. rewrite query_calm in E by done. by simplify_eq. }
  apply query_Ok in E as (-> & Hs & Ht). unfold sent_effects, pushed.
  destruct (wanted (cq_type q) (preferences (st w) !! cq_user_id q)) as [push mail] eqn:Ew.
  replace (negb (respect_preferences config) || (push, mail).1) with (negb (respect_preferences config && negb push))
    by (by destruct (respect_preferences config), push).
  destruct (respect_preferences config && negb push); simpl.
  - pose proof (create_cases id now q false w1) as H.
    destruct (create_notification id now q false w1) as [[n|e] w2]; rewrite Hs, Ht in H; [done|].
    destruct H as (-> & ? & ? & H). split_and!; [done| |by left]. intros Hw. apply H. by rewrite Hf.
  - pose proof (create_cases id now q true w1) as H.
    destruct (create_notification id now q true w1) as [[n|e] w2] eqn:Ec; rewrite Hs, Ht in H.
    2: { erewrite bind_run_Err by exact Ec. destruct H as (-> & ? & ? & H).
         split_and!; [done| |by left]. intros Hw. apply H. by rewrite Hf. }
    erewrite bind_run by exact Ec. destruct H as [Hi Ht2].
    destruct (insert_notification_Some _ _ _ _ _ _ Hi) as (_ & _ & _ & Hd).
    destruct mail.
    + pose proof (mail_cases q (st w) w2) as H. rewrite Ew, Hd in H. specialize (H eq_refl eq_refl).
      destruct (mail_to config q w2) as [[u|e] w3] eqn:Em.
      * erewrite bind_run by exact Em. simpl. destruct H as [-> ->]. rewrite Ht2, Hd in *.
        split; [done|]. by rewrite <- app_assoc.
      * erewrite bind_run_Err by exact Em. destruct H as (-> & Hs3 & -> & Hf3).
        split_and!; [done| |right; exists n; by rewrite Hs3, <- Hd].
        intros Hw. destruct Hf3. pose proof (calm_create id now q true w1 (Hf Hw)) as Hc. by rewrite Ec in Hc.
    + simpl. rewrite Ht2. unfold mailed. by rewrite Ew.
Qed.

(** What sending a notification does, on every failure schedule.  An answer means that
    the row was stored, and that it was broadcast and mailed exactly as the preferences of its
    type say (by default broadcast, not mailed; nothing at all, also no mail, when the
    broadcast is switched off and preferences are respected).  An error means that nothing
    happened, or that the address of a wanted mail could not be read: then the row is there
    and was broadcast, though the caller is told that it failed. *)
Theorem send_outcome id now q w :
  match send config id now q w with
  | (Ok n, w') => insert_notification id now q (st w) = Some (n, st w')
      /\ trace w' = (trace w ++ sent_effects id q (st w) (trace w))%list
  | (Err e, w') => e = FDb
      /\ (faults w = [] -> insert_notification id now q (st w) = None)
      /\ ((st w' = st w /\ trace w' = trace w)
          \/ exists n, insert_notification id now q (st w) = Some (n, st w')
               /\ (wanted (cq_type q) (preferences (st w) !! cq_user_id q)).2 = true
               /\ trace w' = (trace w ++ [EvBroadcast (cq_user_id q) id])%list)
  end.
Proof. apply send_cases. Qed.

(** ** Announcements *)

Definition announced_note (ids : Uuid -> Uuid) (now : DateTime) (title message : string) (user : Uuid)
    : Notification :=
  {| nt_id := ids user; nt_user_id := user; nt_type := System; nt_title := title;
     nt_message := Some message; nt_data := None; nt_read := Some false; nt_created_at := now |}.

Definition delivered (ids : Uuid -> Uuid) (now : DateTime) (title message : string) (users : list Uuid)
    (m : gmap Uuid Notification) : gmap Uuid Notification :=
  fold_left (fun m u => <[ids u := announced_note ids now title message u]> m) users m.

Lemma delivered_lookup ids now title message users m i :
  delivered ids now title message users m !! i = m !! i
  \/ exists u, u ∈ users /\ i = ids u
       /\ delivered ids now title message users m !! i = Some (announced_note ids now title message u).
Proof.
  revert m. induction users as [|u users IH]; intros m; simpl; [by left|].
  destruct (IH (<[ids u := announced_note ids now title message u]> m)) as [H|(v & Hv & -> & H)].
  - rewrite H. destruct (decide (ids u = i)) as [<-|Hi]; [|rewrite lookup_insert_ne by done; by left].
    right. exists u. rewrite lookup_insert_eq. split_and!; [by left|done|done].
  - right. exists v. split_and!; [by right|done|exact H].
Qed.

Lemma delivered_in ids now title message users m u : NoDup (ids <$> users) -> u ∈ users ->
  delivered ids now title message users m !! ids u = Some (announced_note ids now title message u).
Proof.
  revert m. induction users as [|v users IH]; intros m Hd Hu; simpl; [by apply elem_of_nil in Hu|].
  apply list.NoDup_cons in Hd as [Hnin Hd]. apply elem_of_cons in Hu as [->|Hu]; [|by apply IH].
  destruct (delivered_lookup ids now title message users
    (<[ids v := announced_note ids now title message v]> m) (ids v)) as [->|(x & Hx & Heq & _)].
  - apply lookup_insert_eq.
  - destruct Hnin. rewrite Heq. by apply list_elem_of_fmap_2.
Qed.

(** The row of a request that the table accepts. *)
Definition new_note (id : Uuid) (now : DateTime) (q : CreateNotificationRequest) : Notification :=
  {| nt_id := id; nt_user_id := cq_user_id q; nt_type := cq_type q; nt_title := cq_title q;
     nt_message := cq_message q; nt_data := cq_data q; nt_read := Some false; nt_created_at := now |}.

Lemma send_runs id now q w : faults w = [] -> notes (st w) !! id = None ->
  is_person (st w) (cq_user_id q) = true -> varchar 200 (Some (cq_title q)) = true ->
  exists w', send config id now q w = (Ok (new_note id now q), w') /\ faults w' = []
    /\ st w' = set_notes (<[id := new_note id now q]> (notes (st w))) (st w).
Proof.
  intros Hf Hn Hp Hv.
  assert (Hi : insert_notification id now q (st w)
      = Some (new_note id now q, set_notes (<[id := new_note id now q]> (notes (st w))) (st w))).
  { unfold insert_notification. by rewrite Hn, Hp, Hv. }
  pose proof (send_cases id now q w) as H. pose proof (calm_send id now q w Hf) as Hc.
  destruct (send config id now q w) as [[n|e] w']; simpl in Hc.
  - destruct H as [H _]. rewrite Hi in H. exists w'. by simplify_eq.
  - destruct H as (_ & H & _). by rewrite H in Hi.
Qed.

Lemma announce_run ids now title message users count w : faults w = [] -> NoDup (ids <$> users) ->
  (forall u, u ∈ users -> notes (st w) !! ids u = None /\ is_person (st w) u = true) ->
  varchar 200 (Some title) = true ->
  exists w', announce_each config ids now title message users count w
      = (Ok (count + Z.of_nat (length users)), w') /\ faults w' = []
    /\ st w' = set_notes (delivered ids now title message users (notes (st w))) (st w).
Proof.
  intros Hf Hd Hu Hv. revert count w Hf Hu.
  induction users as [|u users IH]; intros count w Hf Hu; simpl.
  - exists w. split_and!; [by rewrite Z.add_0_r|done|by destruct w as [[] ? ?]].
  - apply list.NoDup_cons in Hd as [Hnin Hd]. destruct (Hu u) as [Hn Hp]; [by left|].
    destruct (send_runs (ids u) now (announcement title message u) w) as (w1 & E & Hf1 & Hs); [done..|].
    rewrite (bind_run _ _ w (Ok (new_note (ids u) now (announcement title message u))) w1)
      by (by apply attempt_run).
    destruct (IH Hd (count + 1) w1) as (w2 & E2 & Hf2 & Hs2); [done| |].
    + intros v Hin. rewrite Hs. destruct (Hu v) as [Hnv Hpv]; [by right|]. split; [|done]. simpl.
      rewrite lookup_insert_ne; [done|]. intros Heq. apply Hnin. rewrite Heq. by apply list_elem_of_fmap_2.
    + exists w2. simpl. rewrite E2. split_and!; [by do 2 f_equal; lia|done|]. by rewrite Hs2, Hs.
Qed.

Lemma announced_spec u d : u ∈ announced d <->
  is_person d u = true /\ default true (p ← preferences d !! u; pf_system_announcements p) = true.
Proof.
  unfold announced, is_person. rewrite list_elem_of_In, List.filter_In, <- list_elem_of_In, bool_decide_eq_true.
  rewrite list_elem_of_fmap. split.
  - intros [([i x] & -> & Hin%elem_of_map_to_list) H]. split; [by eexists|done].
  - intros [[x Hx] H]. split; [|done]. exists (u, x). split; [done|by apply elem_of_map_to_list].
Qed.

(** While nothing fails an announcement stores exactly one notification for every user
    who did not switch announcements off, whether or not they have preferences, counts them,
    and touches no other notification. *)
Theorem announcement_reaches_all ids now title message w : faults w = [] ->
  NoDup (ids <$> announced (st w)) ->
  (forall u, u ∈ announced (st w) -> notes (st w) !! ids u = None) ->
  varchar 200 (Some title) = true ->
  exists w', send_system_announcement config ids now title message w
      = (Ok (Z.of_nat (length (announced (st w)))), w')
    /\ (forall u, is_person (st w) u = true ->
          default true (p ← preferences (st w) !! u; pf_system_announcements p) = true ->
          notes (st w') !! ids u = Some (announced_note ids now title message u))
    /\ (forall i, (forall u, u ∈ announced (st w) -> i <> ids u) -> notes (st w') !! i = notes (st w) !! i).
Proof.
  intros Hf Hd Hfresh Hv.
  destruct (announce_run ids now title message (announced (st w)) 0 w) as (w' & E & _ & Hs); [done..| |done|].
  { intros u Hu. split; [by apply Hfresh|]. by apply announced_spec in Hu as [? _]. }
  exists w'. unfold send_system_announcement. rewrite (bind_run _ _ w (announced (st w)) w) by by apply query_calm.
  rewrite E, Hs. simpl. split_and!; [done| |].
  - intros u Hp Hw. apply delivered_in; [done|]. by apply announced_spec.
  - intros i Hi. destruct (delivered_lookup ids now title message (announced (st w)) (notes (st w)) i)
      as [H|(v & Hv' & -> & _)]; [done|]. by destruct (Hi v).
Qed.
End outcomes.

(** ** Preferences *)

Section requests.
Context `{NUM : Numerics} `{ENV : Env} `{FT : FloatText} `{NML : NoteMailer} `{DX : DecimalText} `{JN : JsonNumber}.
Implicit Types (w : world NoteDb Event).

Lemma refusing_Ok {A} what (m : NM A) w a w' : refusing what m w = (Ok a, w') -> m w = (Ok a, w').
Proof. apply map_err_Ok. Qed.

(** The answer to an update, by the row before it. *)
Definition preferred (q : UpdatePreferencesRequest) (p : PreferenceRow) (np : NotificationPreferences) : Prop :=
  coalesce (uq_order_filled q) (pf_order_filled p) = Some (np_order_filled np)
  /\ coalesce (uq_order_matched q) (pf_order_matched p) = Some (np_order_matched np)
  /\ coalesce (uq_conditional_triggered q) (pf_conditional_triggered p) = Some (np_conditional_triggered np)
  /\ coalesce (uq_recurring_executed q) (pf_recurring_executed p) = Some (np_recurring_executed np)
  /\ coalesce (uq_price_alerts q) (pf_price_alerts p) = Some (np_price_alerts np)
  /\ coalesce (uq_escrow_events q) (pf_escrow_events p) = Some (np_escrow_events np)
  /\ coalesce (uq_system_announcements q) (pf_system_announcements p) = Some (np_system_announcements np)
  /\ coalesce (uq_email_enabled q) (pf_email_enabled p) = Some (np_email_enabled np)
  /\ coalesce (uq_push_enabled q) (pf_push_enabled p) = Some (np_push_enabled np).

Lemma decode_merged now user q p np : decode_preferences user (merge_preferences now q p) = Some np ->
  preferred q p np.
Proof.
  unfold decode_preferences, preferred. intros H. simplify_option_eq. by split_and!.
Qed.

(** Preferences read back as they were answered: a field of the request, else what was
    stored, else the default; no other user's change. *)
Theorem preferences_roundtrip now now' user q w np w' : update_preferences now user q w = (Ok np, w') ->
  faults w' = [] ->
  get_preferences now' user w' = (Ok np, w')
  /\ preferred q (default (default_preferences now) (preferences (st w) !! user)) np
  /\ (forall u, u <> user -> preferences (st w') !! u = preferences (st w) !! u).
Proof.
  intros H Hf. unfold update_preferences in H. apply refusing_Ok, bind_Ok in H as (row & w1 & Hu & H).
  apply expect_Ok in H as [Hd <-]. apply exec_ret_Ok in Hu as [Hu _].
  assert (Hrow : exists p, row = merge_preferences now q p
      /\ p = default (default_preferences now) (preferences (st w) !! user)
      /\ st w' = set_preferences (<[user := row]> (preferences (st w))) (st w)).
  { unfold upsert_preferences in Hu. destruct (preferences (st w) !! user) as [p|]; [by simplify_eq; exists p|].
    destruct (is_person _ _); [|done]. simplify_eq. by exists (default_preferences now). }
  destruct Hrow as (p & -> & -> & Hs). split_and!.
  - unfold get_preferences. erewrite bind_run.
    2: { apply map_err_run. erewrite bind_run by by apply query_calm. rewrite Hs. simpl.
         rewrite lookup_insert_eq. erewrite bind_run by by rewrite Hd. done. }
    done.
  - by eapply decode_merged.
  - intros u Hu'. rewrite Hs. simpl. by rewrite lookup_insert_ne.
Qed.

(** ** Reading *)

Lemma note_rows_elem p d n : sound d -> n ∈ note_rows p d <-> notes d !! nt_id n = Some n /\ p n = true.
Proof.
  intros Hd. unfold note_rows. rewrite list_elem_of_In, List.filter_In, <- list_elem_of_In, list_elem_of_fmap. split.
  - intros [([i x] & -> & Hin%elem_of_map_to_list) Hp]. simpl in *. by destruct (note_row d Hd i x Hin) as (-> & _).
  - intros [Hn Hp]. split; [|done]. exists (nt_id n, n). split; [done|by apply elem_of_map_to_list].
Qed.

Lemma decode_read (l : list Notification) : (forall n, n ∈ l -> is_Some (nt_read n)) ->
  mapM (fun n => _ ← nt_read n; Some n) l = Some l.
Proof.
  induction l as [|n l IH]; intros H; simpl; [done|].
  destruct (H n) as [b ->]; [by left|]. simpl. rewrite IH; [done|]. intros m Hm. apply H. by right.
Qed.

Lemma length_filter_and {A} (p q : A -> bool) l :
  (length (List.filter (fun x => p x && q x) l) <= length (List.filter p l))%nat.
Proof. induction l as [|x l IH]; simpl; [done|]. destruct (p x), (q x); simpl; lia. Qed.

(** A list shows at most the limit, and never more than a hundred, of the user's own
    notifications, unread ones only if asked; the counts are of all of them. *)
Theorem list_outcome user limit offset unread_only w : sound (st w) -> faults w = [] ->
  0 <= default 50 limit -> 0 <= default 0 offset ->
  exists l, list_notifications user limit offset unread_only w = (Ok l, w)
    /\ (forall n, n ∈ nl_notifications l -> nt_user_id n = user /\ notes (st w) !! nt_id n = Some n
          /\ (unread_only = Some true -> nt_read n = Some false))
    /\ Z.of_nat (length (nl_notifications l)) <= Z.min (default 50 limit) 100
    /\ 0 <= nl_unread_count l <= nl_total l.
Proof.
  intros Hs Hf Hl Ho. unfold list_notifications.
  set (rows := take (Z.to_nat (Z.min (default 50 limit) 100)) (drop (Z.to_nat (default 0 offset))
    (sort_by later_note (note_rows (fun n => of_user user n && (negb (default false unread_only) || unread n)) (st w))))).
  assert (Hin : forall n, n ∈ rows -> notes (st w) !! nt_id n = Some n
      /\ of_user user n && (negb (default false unread_only) || unread n) = true).
  { intros n (i & Hn & _)%elem_of_take. rewrite lookup_drop in Hn. apply list_elem_of_lookup_2 in Hn.
    rewrite sort_by_perm in Hn. by apply (note_rows_elem _ (st w) n Hs) in Hn. }
  assert (Hpage : notification_page user (default false unread_only) (Z.min (default 50 limit) 100)
      (default 0 offset) (st w) = Some rows).
  { unfold notification_page, page. destruct (_ || _) eqn:E; [lia|]. simpl. fold rows.
    apply decode_read. intros n Hn. destruct (Hin n Hn) as [Hn' _]. by destruct (note_row _ Hs _ _ Hn') as (_ & ? & _). }
  eexists. split.
  - erewrite bind_run by (apply map_err_run; erewrite bind_run by (by apply query_calm); by rewrite Hpage).
    erewrite bind_run by (apply map_err_run; by apply query_calm). done.
  - simpl. split_and!.
    + intros n Hn. destruct (Hin n Hn) as [Hn' Hp]. apply andb_prop in Hp as [Hu%N.eqb_eq Hp].
      split_and!; [done..|]. intros ->. simpl in Hp. unfold unread in Hp. by destruct (nt_read n) as [[]|].
    + unfold rows. rewrite length_take. lia.
    + lia.
    + unfold note_rows. pose proof (length_filter_and (of_user user) unread (map_to_list (notes (st w))).*2). lia.
Qed.

(** Marking all as read answers how many were unread, leaves none, and touches no other
    user's notifications. *)
Theorem mark_all_outcome user w : sound (st w) -> faults w = [] ->
  exists w', mark_all_as_read user w = (Ok (length (note_rows (fun n => of_user user n && unread n) (st w))), w')
    /\ note_rows (fun n => of_user user n && unread n) (st w') = []
    /\ (forall i n, notes (st w) !! i = Some n -> nt_user_id n <> user -> notes (st w') !! i = Some n).
Proof.
  intros Hs Hf. eexists. split.
  { apply map_err_run. by apply exec_ret_run. }
  simpl. split.
  - unfold note_rows. simpl. apply filter_none. intros n Hn. apply list_elem_of_fmap in Hn as ([i x] & -> & Hin%elem_of_map_to_list).
    simpl in *. apply lookup_fmap_Some in Hin as (y & <- & Hy).
    destruct (of_user user y && unread y) eqn:E; [|done]. unfold unread. simpl. by rewrite andb_false_r.
  - intros i n Hn Hu. rewrite lookup_fmap, Hn. simpl. unfold of_user. apply N.eqb_neq in Hu. by rewrite Hu.
Qed.

(** ** Price alerts *)

(** An alert is stored active, at a positive target rounded to eight places, for its
    user; only that user can delete it, and deleting it restores the table. *)
Theorem alert_lifecycle id now user q w r w' : create_price_alert id now user q w = (Ok r, w') ->
  faults w' = [] ->
  0 < pq_target_price q
  /\ (exists a, alerts (st w) !! id = None /\ alerts (st w') = <[id := a]> (alerts (st w))
       /\ al_user_id a = user /\ al_status a = AlertActive /\ num8 (pq_target_price q) = Some (al_target_price a))
  /\ (exists w2, delete_price_alert user id w' = (Ok tt, w2) /\ alerts (st w2) = alerts (st w))
  /\ (forall other, other <> user ->
        delete_price_alert other id w' = (Err (FApi (NotFound "Alert not found")), w')).
Proof.
  intros H Hf. unfold create_price_alert in H. destruct (_ <=? 0) eqn:Ez; [done|].
  apply bind_Ok in H as ([] & w1 & H & Hr). apply ret_Ok in Hr as [_ <-].
  apply map_err_Ok, exec_Ok in H as [H _]. unfold insert_alert in H.
  destruct (alerts (st w) !! id) eqn:Ha; [done|]. simpl in H. destruct (num8 _) as [price|] eqn:En; [|done].
  destruct (_ && _); [|done]. injection H as Hs.
  set (a := Build_PriceAlert user price (pq_condition q) AlertActive None None (default false (pq_repeat q)) (pq_note q) now) in *.
  assert (Hid : alerts (st w1) !! id = Some a) by by rewrite <- Hs; simpl; rewrite lookup_insert_eq.
  split_and!; [lia| | |].
  - exists a. rewrite <- Hs. done.
  - eexists. unfold delete_price_alert. erewrite bind_run.
    2: { apply map_err_run, exec_ret_run; [done|]. unfold delete_alert. rewrite Hid. simpl. by rewrite N.eqb_refl. }
    simpl. split; [done|]. simpl. rewrite <- Hs. simpl. by apply delete_insert_id.
  - intros other Ho. unfold delete_price_alert. erewrite bind_run.
    2: { apply map_err_run, exec_ret_run; [done|]. unfold delete_alert. rewrite Hid. simpl.
         destruct (N.eqb_spec user other); [congruence|]. done. }
    simpl. by destruct w1.
Qed.
End requests.

(** ** Concrete runs *)

Definition demo_note_mailer : NoteMailer := {| mail_answer _ _ _ _ _ := true |}.
Definition demo_decimal_text : DecimalText := {| decimal_display z := pretty z |}.
Definition demo_json_number : JsonNumber := {| json_f64 _ := JNull |}.

Section runs.
#[local] Existing Instances std_numerics demo_env demo_float_text demo_note_mailer demo_decimal_text demo_json_number.

Definition demo_dispatcher : DispatcherConfig :=
  {| respect_preferences := true; dispatcher_email := Some true |}.

Definition demo_notes : world NoteDb Event :=
  World {| people := <[1%N := ("ann@example.com", "ann")]> (<[2%N := ("bob@example.com", "bob")]> ∅);
           preferences := <[2%N := {| pf_order_filled := Some true; pf_order_matched := Some true;
             pf_conditional_triggered := Some true; pf_recurring_executed := Some true;
             pf_price_alerts := Some true; pf_escrow_events := Some true;
             pf_system_announcements := Some false; pf_email_enabled := Some true;
             pf_push_enabled := Some true; pf_updated_at := Some 1 |}]> ∅;
           notes := ∅; alerts := ∅ |} [] [].

Definition demo_filled : CreateNotificationRequest :=
  {| cq_user_id := 2; cq_type := OrderFilled; cq_title := "Order Filled"; cq_message := None; cq_data := None |}.

Lemma demo_sound : sound (st demo_notes).
Proof.
  split; simpl; [intros i n H; by rewrite lookup_empty in H| |intros i a H; by rewrite lookup_empty in H].
  intros u p. rewrite lookup_insert_Some, lookup_empty. intros [[<- <-]|[_ [=]]].
  split; [by eexists|vm_compute; reflexivity].
Qed.

Definition demo_requests : list NoteOp :=
  [OpSend 10 5 demo_filled; OpAnnounce (fun u => 20 + u)%N 6 "Maintenance" "Tonight"; OpReadAll 2;
   OpAlert 30 7 1 {| pq_target_price := 4 * U; pq_condition := Above; pq_repeat := None; pq_note := None |};
   OpRead 2 21; OpDeleteAlert 2 30].

Lemma notifications_kept_witness : sound (st demo_notes)
  /\ sound (st (requests demo_dispatcher demo_requests demo_notes).2)
  /\ keeps (st demo_notes) (st (requests demo_dispatcher demo_requests demo_notes).2)
  /\ map (fun x => (x.1, nt_user_id x.2, nt_read x.2))
       (map_to_list (notes (st (requests demo_dispatcher demo_requests demo_notes).2)))
     = [(10%N, 2%N, Some true); (21%N, 1%N, Some false)].
Proof.
  split; [exact demo_sound|].
  destruct (notifications_kept demo_dispatcher demo_requests demo_notes demo_sound) as [H1 H2].
  split; [exact H1|]. split; [exact H2|]. vm_compute. reflexivity.
Defined.

Lemma send_outcome_witness : exists n w', send demo_dispatcher 10 5 demo_filled demo_notes = (Ok n, w')
  /\ trace w' = [EvBroadcast 2 10; EvNotificationMail "bob@example.com" "bob" "Order Filled" "" true].
Proof.
  pose proof (send_outcome demo_dispatcher 10 5 demo_filled demo_notes) as H.
  assert (is_ok (send demo_dispatcher 10 5 demo_filled demo_notes).1 = true) as Hok by (vm_compute; reflexivity).
  destruct (send demo_dispatcher 10 5 demo_filled demo_notes) as [[n|e] w']; [|done].
  exists n, w'. split; [reflexivity|]. destruct H as [_ ->]. vm_compute. reflexivity.
Defined.

Lemma announcement_reaches_all_witness : exists w',
  send_system_announcement demo_dispatcher (fun u => 20 + u)%N 6 "Maintenance" "Tonight" demo_notes = (Ok 1, w')
  /\ notes (st w') !! 21%N = Some (announced_note (fun u => 20 + u)%N 6 "Maintenance" "Tonight" 1).
Proof.
  destruct (announcement_reaches_all demo_dispatcher (fun u => 20 + u)%N 6 "Maintenance" "Tonight" demo_notes)
    as (w' & E & Hin & _).
  - reflexivity.
  - apply (bool_decide_unpack _). vm_compute. exact I.
  - intros u _. reflexivity.
  - vm_compute. reflexivity.
  - exists w'. split; [exact E|]. apply (Hin 1%N); vm_compute; reflexivity.
Defined.

Definition demo_update : UpdatePreferencesRequest :=
  {| uq_order_filled := None; uq_order_matched := None; uq_conditional_triggered := None;
     uq_recurring_executed := None; uq_price_alerts := Some false; uq_escrow_events := None;
     uq_system_announcements := None; uq_email_enabled := None; uq_push_enabled := None |}.

Lemma preferences_roundtrip_witness : exists np w',
  update_preferences 9 1 demo_update demo_notes = (Ok np, w')
  /\ get_preferences 10 1 w' = (Ok np, w') /\ np_price_alerts np = false /\ np_order_filled np = true.
Proof.
  destruct (update_preferences 9 1 demo_update demo_notes) as [[np|e] w'] eqn:E; [|vm_compute in E; discriminate].
  exists np, w'. split; [reflexivity|].
  assert (Hf : faults w' = []).
  { change w' with (Ok (E := failure) np, w').2. rewrite <- E. vm_compute. reflexivity. }
  destruct (preferences_roundtrip 9 10 1 demo_update demo_notes np w' E Hf) as (Hg & Hp & _).
  split; [exact Hg|]. destruct Hp as (Ha & _ & _ & _ & Hb & _). simpl in Hb. split.
  - by injection Hb.
  - change (preferences (st demo_notes) !! 1%N) with (@None PreferenceRow) in Ha. simpl in Ha. by injection Ha.
Defined.

Lemma list_outcome_witness : exists l,
  list_notifications 2 None None (Some true) demo_notes = (Ok l, demo_notes) /\ 0 <= nl_unread_count l <= nl_total l.
Proof.
  destruct (list_outcome 2 None None (Some true) demo_notes demo_sound eq_refl) as (l & E & _ & _ & H);
    [simpl; lia..|].
  exists l. split; [exact E|exact H].
Defined.

Definition demo_note_sent : world NoteDb Event := (send demo_dispatcher 10 5 demo_filled demo_notes).2.

Lemma mark_all_outcome_witness : sound (st demo_note_sent) /\
  exists w', mark_all_as_read 2 demo_note_sent = (Ok 1%nat, w')
    /\ note_rows (fun n => of_user 2 n && unread n) (st w') = [].
Proof.
  assert (Hs : sound (st demo_note_sent)).
  { apply (inv_send demo_dispatcher (st demo_notes) 10 5 demo_filled demo_notes).
    split; [exact demo_sound|apply keeps_refl]. }
  split; [exact Hs|]. destruct (mark_all_outcome 2 demo_note_sent Hs) as (w' & E & Hn & _); [vm_compute; reflexivity|].
  exists w'. split; [exact E|exact Hn].
Defined.

Definition demo_alert : CreatePriceAlertRequest :=
  {| pq_target_price := 4 * U; pq_condition := Above; pq_repeat := None; pq_note := None |}.

Lemma alert_lifecycle_witness : exists r w' w2,
  create_price_alert 30 7 1 demo_alert demo_notes = (Ok r, w')
  /\ delete_price_alert 2 30 w' = (Err (FApi (NotFound "Alert not found")), w')
  /\ delete_price_alert 1 30 w' = (Ok tt, w2) /\ alerts (st w2) = ∅.
Proof.
  destruct (create_price_alert 30 7 1 demo_alert demo_notes) as [[r|e] w'] eqn:E; [|vm_compute in E; discriminate].
  assert (Hf : faults w' = []).
  { change w' with (Ok (E := failure) r, w').2. rewrite <- E. vm_compute. reflexivity. }
  destruct (alert_lifecycle 30 7 1 demo_alert demo_notes r w' E Hf) as (_ & _ & (w2 & Hd & Ha) & Ho).
  exists r, w', w2. split; [reflexivity|]. split; [apply Ho; discriminate|]. split; [exact Hd|exact Ha].
Defined.
End runs.
