(* ===== verification/Confirmations.v ===== *)
(** Confirmation of mints on the chain, and replay of its events.

    [src/services/event_processor/] and [src/services/webhook/mod.rs]: a task that every few
    seconds looks up the transactions of minted readings and marks the confirmed ones, and a
    request that stores the events of a range of slots.  What the RPC node answers is an
    interface and may change from call to call; sleeping has no effect and is left out. *)
From stdpp Require Import pretty.
From S2P Require Import Prelude Numerics Errors Store Schema Certificates.
Open Scope string_scope.
Open Scope Z_scope.

(** A transaction as [get_transaction] returns it, and of its [meta], if there is one, whether
    [err] is absent.  A block, with the first signature of each of its transactions, if its
    encoding shows one. *)
Record TxInfo := { tx_slot : Z; tx_time : option Z; tx_success : option bool }.
Record BlockInfo := { bk_time : option Z; bk_transactions : list (option string * option bool) }.

(** The RPC node, by all that was done before ([None]: an error), [Signature::from_str], and
    whether a webhook is answered with a status of success. *)
Class Ledger := {
  get_transaction : list Event -> string -> option TxInfo;
  get_block : list Event -> Z -> option BlockInfo;
  parse_signature : string -> bool;
  webhook_answer : list Event -> string -> bool;
}.

(** [u64 as i64]. *)
Definition as_i64 (z : Z) : Z := if z <? 2 ^ 63 then z else z - 2 ^ 64.

(** ** State *)

(** The columns of [meter_readings] this service reads or writes. *)
Record MintedReading := {
  mn_id : Uuid;
  mn_minted : option bool;
  mn_signature : option string;
  mn_submitted_at : option DateTime;
  mn_confirmed : option bool;
  mn_slot : option Z;
  mn_confirmed_at : option DateTime;
}.

Inductive EventType := TokenMint | TokenTransfer | OrderCreated | OrderMatchedEvent | SettlementEvent | MeterRegistered.

Definition event_type_text (t : EventType) : string :=
  match t with
  | TokenMint => "token_mint" | TokenTransfer => "token_transfer" | OrderCreated => "order_created"
  | OrderMatchedEvent => "order_matched" | SettlementEvent => "settlement"
  | MeterRegistered => "meter_registered"
  end.

Record EventRow := {
  er_event_type : string;
  er_signature : string;
  er_slot : Z;
  er_block_time : option Z;
  er_program_id : string;
  er_processed : bool;
}.

Record ReplayStatus := {
  rs_start_slot : Z;
  rs_end_slot : Z;
  rs_current_slot : Z;
  rs_start_time : DateTime;
  rs_status : string;
}.

(** The tables (readings by their key, the identifier and the time of the reading), and what the
    service keeps in memory. *)
Record EvDb := {
  minted_readings : gmap (Uuid * DateTime) MintedReading;
  blockchain_events : list EventRow;
  retry_count : Z;
  replay_status : option ReplayStatus;
}.
Abbreviation EM := (M EvDb Event).

Definition set_readings (m : gmap (Uuid * DateTime) MintedReading) (d : EvDb) : EvDb :=
  {| minted_readings := m; blockchain_events := blockchain_events d; retry_count := retry_count d;
     replay_status := replay_status d |}.
Definition set_replay (s : option ReplayStatus) (d : EvDb) : EvDb :=
  {| minted_readings := minted_readings d; blockchain_events := blockchain_events d;
     retry_count := retry_count d; replay_status := s |}.

(** A write to memory. *)
Definition locally (f : EvDb -> EvDb) : EM unit := fun w => (Ok tt, set_st (f (st w)) w).

Definition count_retry (d : EvDb) : EvDb :=
  {| minted_readings := minted_readings d; blockchain_events := blockchain_events d;
     retry_count := wrap_u64 (retry_count d + 1); replay_status := replay_status d |}.

Record EventProcessorConfig := {
  processor_enabled : bool;
  batch_size : Z;
  max_retries : Z;
  webhook_url : option string;
}.

(** ** Statements *)

(** The unique indexes of [blockchain_events] since it was partitioned, and ON CONFLICT: the
    server refuses the statement unless one of them has exactly these columns. *)
Definition event_unique_indexes : list (list string) :=
  [["id"; "slot"]; ["transaction_signature"; "event_type"; "slot"]].

Definition same_columns (a b : list string) : bool :=
  forallb (fun c => bool_decide (c ∈ b)) a && forallb (fun c => bool_decide (c ∈ a)) b.

Definition arbiter_exists (columns : list string) : bool :=
  existsb (same_columns columns) event_unique_indexes.

Definition insert_event (e : EventRow) (d : EvDb) : option EvDb :=
  if negb (arbiter_exists ["transaction_signature"; "event_type"]) then None
  else if negb (varchar 50 (Some (er_event_type e)) && varchar 88 (Some (er_signature e))
                && varchar 44 (Some (er_program_id e))) then None
  else if existsb (fun x => (er_signature x =? er_signature e)%string
                            && (er_event_type x =? er_event_type e)%string) (blockchain_events d)
  then Some d
  else Some {| minted_readings := minted_readings d;
               blockchain_events := (blockchain_events d ++ [e])%list;
               retry_count := retry_count d; replay_status := replay_status d |}.

(** [WHERE minted = true AND on_chain_confirmed = false AND mint_tx_signature IS NOT NULL AND
    mint_tx_signature != 'mock_signature']. *)
Definition is_pending (r : MintedReading) : bool :=
  bool_decide (mn_minted r = Some true) && bool_decide (mn_confirmed r = Some false)
  && match mn_signature r with Some s => negb (s =? "mock_signature")%string | None => false end.

(** NULLs come last in an ascending order. *)
Definition submitted_before (x y : MintedReading) : bool :=
  match mn_submitted_at x, mn_submitted_at y with
  | Some a, Some b => a <=? b
  | Some _, None => true
  | None, Some _ => false
  | None, None => true
  end.

Definition pending_readings (d : EvDb) : list MintedReading :=
  sort_by submitted_before (List.filter is_pending (map_to_list (minted_readings d)).*2).

Definition pending_batch (size : Z) (d : EvDb) : option (list MintedReading) :=
  page (as_i64 size) 0 (pending_readings d).

Definition confirmed (now : DateTime) (slot : Z) (r : MintedReading) : MintedReading :=
  {| mn_id := mn_id r; mn_minted := mn_minted r; mn_signature := mn_signature r;
     mn_submitted_at := mn_submitted_at r; mn_confirmed := Some true; mn_slot := Some (as_i64 slot);
     mn_confirmed_at := Some now |}.

(** [UPDATE meter_readings .. WHERE id = $2]. *)
Definition confirm_rows (now : DateTime) (slot : Z) (reading_id : Uuid) (d : EvDb) : option EvDb :=
  Some (set_readings ((fun r => if (mn_id r =? reading_id)%N then confirmed now slot r else r)
                        <$> minted_readings d) d).

Section processor.
Context `{LG : Ledger}.
Context (config : EventProcessorConfig).

(** [rpc_client.get_transaction] and [get_block]. *)
Definition rpc_transaction (signature : string) : EM (option TxInfo) := fun w =>
  let answer := get_transaction (trace w) signature in
  (Ok answer, World (st w) (faults w)
     (trace w ++ [EvChain (GetTransaction signature) (bool_decide (is_Some answer))])%list).

Definition rpc_block (slot : Z) : EM (option BlockInfo) := fun w =>
  let answer := get_block (trace w) slot in
  (Ok answer, World (st w) (faults w)
     (trace w ++ [EvChain (GetBlock slot) (bool_decide (is_Some answer))])%list).

(** ** Webhooks ([webhook/mod.rs]) *)

(** One attempt, and the two more after failures. *)
Fixpoint post_webhook (retries : nat) (url event signature : string) (slot : Z) (time : option Z) : EM unit :=
  fun w =>
  let delivered := webhook_answer (trace w) url in
  let w1 := World (st w) (faults w) (trace w ++ [EvWebhook event signature slot time delivered])%list in
  if delivered then (Ok tt, w1)
  else match retries with
       | O => (Ok tt, w1)
       | S retries => post_webhook retries url event signature slot time w1
       end.

Definition send_webhook (event signature : string) (slot : Z) (time : option Z) : EM unit :=
  match webhook_url config with
  | Some url => post_webhook 2 url event signature slot time
  | None => mret ()
  end.

(** ** Confirmation ([event_processor/mod.rs]) *)

Definition parse_and_store_event (slot : Z) (block_time : option Z) (signature : string) : EM unit :=
  exec (insert_event {| er_event_type := event_type_text TokenMint; er_signature := signature;
    er_slot := as_i64 slot; er_block_time := block_time;
    er_program_id := "TokenzQdBNbLqP5VEhdkAS6EPFLC1PHnBqCXEpPxuEb"; er_processed := true |}) ;;
  ignore (send_webhook (event_type_text TokenMint) signature slot block_time).

(** The loop of [confirm_transaction]; [rest] is the number of attempts after this one. *)
Fixpoint confirm_loop (rest : nat) (signature_str : string) : EM bool :=
  answer ← rpc_transaction signature_str;
  match answer with
  | Some tx =>
      match tx_success tx with
      | Some true =>
          ignore (parse_and_store_event (tx_slot tx) (tx_time tx) signature_str) ;;
          mret true
      | _ => mret false
      end
  | None =>
      match rest with
      | O => mret false
      | S rest => locally count_retry ;; confirm_loop rest signature_str
      end
  end.

Definition confirm_transaction (signature_str : string) : EM bool :=
  if parse_signature signature_str
  then confirm_loop (Z.to_nat (max_retries config - 1)) signature_str
  else fail (FMsg "invalid signature").

Definition mark_transaction_confirmed (now : DateTime) (reading_id : Uuid) (signature : string) : EM unit :=
  if parse_signature signature then
    answer ← rpc_transaction signature;
    tx ← expect (FMsg "rpc error") answer;
    exec (confirm_rows now (tx_slot tx) reading_id)
  else fail (FMsg "invalid signature").

Definition process_reading (now : DateTime) (reading : MintedReading) : EM unit :=
  match mn_signature reading with
  | None => mret ()
  | Some signature_str =>
      if (signature_str =? "mock_signature")%string then mret ()
      else
        outcome ← attempt (confirm_transaction signature_str);
        match outcome with
        | Ok true => ignore (mark_transaction_confirmed now (mn_id reading) signature_str)
        | _ => mret ()
        end
  end.

Definition process_pending_transactions (now : DateTime) : EM unit :=
  batch ← query (pending_batch (batch_size config));
  readings ← expect FDb batch;
  for_each (process_reading now) readings.

(** [start], for the ticks at [times]. *)
Definition start_processor (times : list DateTime) : EM unit :=
  if processor_enabled config
  then for_each (fun now => spawn (process_pending_transactions now)) times
  else mret ().

(** ** Replay *)

Definition set_current (slot : Z) (d : EvDb) : EvDb :=
  set_replay ((fun s => {| rs_start_slot := rs_start_slot s; rs_end_slot := rs_end_slot s;
    rs_current_slot := slot; rs_start_time := rs_start_time s; rs_status := rs_status s |})
    <$> replay_status d) d.

Definition set_completed (end_slot : Z) (d : EvDb) : EvDb :=
  set_replay ((fun s => {| rs_start_slot := rs_start_slot s; rs_end_slot := rs_end_slot s;
    rs_current_slot := end_slot; rs_start_time := rs_start_time s; rs_status := "completed" |})
    <$> replay_status d) d.

Definition replay_transaction (slot : Z) (time : option Z) (tx : option string * option bool) : EM unit :=
  match tx with
  | (Some sig, Some true) => ignore (parse_and_store_event slot time sig)
  | _ => mret ()
  end.

Definition replay_slot (current_slot : Z) : EM unit :=
  (if current_slot mod 10 =? 0 then locally (set_current current_slot) else mret ()) ;;
  answer ← rpc_block current_slot;
  match answer with
  | Some block => for_each (replay_transaction current_slot (bk_time block)) (bk_transactions block)
  | None => mret ()
  end.

(** [while current_slot <= end_slot]; whether the loop came to its end within [fuel] slots. *)
Fixpoint replay_loop (fuel : nat) (current_slot end_slot : Z) : EM bool :=
  match fuel with
  | O => mret false
  | S fuel =>
      if current_slot <=? end_slot then
        replay_slot current_slot ;;
        replay_loop fuel (wrap_u64 (current_slot + 1)) end_slot
      else mret true
  end.

(** The end that is taken when none is given. *)
Definition replay_end (start_slot : Z) (end_slot : option Z) : Z :=
  default (wrap_u64 (start_slot + 1000)) end_slot.

Definition begin_replay (now : DateTime) (start_slot end_slot : Z) : EM unit :=
  locally (set_replay (Some {| rs_start_slot := start_slot; rs_end_slot := end_slot;
    rs_current_slot := start_slot; rs_start_time := now; rs_status := "running" |})).

(** The task that is spawned. *)
Definition replay_task (fuel : nat) (start_slot end_slot : Z) : EM bool :=
  finished ← replay_loop fuel start_slot end_slot;
  (if finished : bool then locally (set_completed end_slot) else mret ()) ;;
  mret finished.

Definition replay_events (fuel : nat) (now : DateTime) (start_slot : Z) (end_slot : option Z) : EM string :=
  begin_replay now start_slot (replay_end start_slot end_slot) ;;
  spawn (replay_task fuel start_slot (replay_end start_slot end_slot)) ;;
  mret ("Replay job started for slots " ++ pretty start_slot ++ "-" ++ pretty (replay_end start_slot end_slot)).

Definition get_replay_status : EM (option ReplayStatus) := fun w => (Ok (replay_status (st w)), w).

Record EventProcessorStats := {
  es_total_events : Z;
  es_confirmed_readings : Z;
  es_pending_confirmations : Z;
  es_total_retries : Z;
}.

Definition count_readings (p : MintedReading -> bool) (d : EvDb) : Z :=
  Z.of_nat (length (List.filter p (map_to_list (minted_readings d)).*2)).

Definition answer_stats (total done_ pending : Z) : EM EventProcessorStats := fun w =>
  (Ok {| es_total_events := total; es_confirmed_readings := done_;
         es_pending_confirmations := pending; es_total_retries := retry_count (st w) |}, w).

Definition get_stats : EM EventProcessorStats :=
  total ← query (fun d => Z.of_nat (length (blockchain_events d)));
  done_ ← query (count_readings (fun r => bool_decide (mn_confirmed r = Some true)));
  pending ← query (count_readings is_pending);
  answer_stats total done_ pending.
End processor.

(** ** Lemmas *)

Section lemmas.
Context `{LG : Ledger}.
Context (config : EventProcessorConfig).
Implicit Types (w : world EvDb Event).

Definition is_lookup (e : Event) : Prop :=
  match e with EvChain (GetTransaction _) _ | EvChain (GetBlock _) _ => True | _ => False end.

(** From [w] to [w'] at most [n] lookups were made, and no table changed. *)
Definition quiet (n : nat) w w' : Prop :=
  minted_readings (st w') = minted_readings (st w) /\ blockchain_events (st w') = blockchain_events (st w)
  /\ exists tr, trace w' = (trace w ++ tr)%list /\ Forall is_lookup tr /\ (length tr <= n)%nat.

Lemma quiet_refl n w : quiet n w w.
Proof. split_and!; [done..|]. exists []. rewrite app_nil_r. split_and!; [done|constructor|simpl; lia]. Qed.

Lemma quiet_same w w' : minted_readings (st w') = minted_readings (st w) ->
  blockchain_events (st w') = blockchain_events (st w) -> trace w' = trace w -> quiet 0 w w'.
Proof.
  intros H1 H2 H3. split_and!; [done..|]. exists []. rewrite app_nil_r.
  split_and!; [done|constructor|simpl; lia].
Qed.

Lemma quiet_trans n m k w1 w2 w3 : quiet n w1 w2 -> quiet m w2 w3 -> (n + m <= k)%nat -> quiet k w1 w3.
Proof.
  intros (R1 & E1 & t1 & T1 & F1 & L1) (R2 & E2 & t2 & T2 & F2 & L2) Hk.
  split_and!; [congruence..|]. exists (t1 ++ t2)%list. rewrite T2, T1, <- app_assoc.
  split_and!; [done|by apply list.Forall_app|rewrite length_app; lia].
Qed.

Lemma quiet_prefix n w w' : quiet n w w' -> trace w `prefix_of` trace w'.
Proof. intros (_ & _ & tr & -> & _). by apply prefix_app_r. Qed.

Lemma quiet_lookup sig w : quiet 1 w (rpc_transaction sig w).2.
Proof. split_and!; [done..|]. eexists. split_and!; [done|by repeat constructor|done]. Qed.

Lemma quiet_block slot w : quiet 1 w (rpc_block slot w).2.
Proof. split_and!; [done..|]. eexists. split_and!; [done|by repeat constructor|done]. Qed.

(** The statement that stores an event is always refused, so that nothing follows it. *)
Lemma insert_event_refused e d : insert_event e d = None.
Proof. reflexivity. Qed.

Lemma exec_refused f w : f (st w) = None -> exists w', exec f w = (Err FDb, w') /\ st w' = st w /\ trace w' = trace w.
Proof.
  unfold exec, pop_fault. destruct w as [d [|[] fs] tr]; simpl; intros H; rewrite ?H; by eexists.
Qed.

Lemma store_nothing slot time sig w : exists w',
  ignore (parse_and_store_event config slot time sig) w = (Ok tt, w') /\ st w' = st w /\ trace w' = trace w.
Proof.
  unfold ignore, parse_and_store_event.
  match goal with |- context [exec ?f] => destruct (exec_refused f w) as (w1 & E & Hs & Ht); [apply insert_event_refused|] end.
  exists w1. split; [|done].
  rewrite (bind_run _ _ w (Err FDb) w1); [done|]. apply attempt_run; [by apply bind_run_Err|done].
Qed.

(** A lookup that answered success, between [w] and [w']. *)
Definition looked_up (s : string) w w' : Prop :=
  exists tr info, trace w `prefix_of` tr /\ tr `prefix_of` trace w'
    /\ get_transaction tr s = Some info /\ tx_success info = Some true.

Lemma looked_up_mono s w0 w w' w1 : trace w0 `prefix_of` trace w -> trace w' `prefix_of` trace w1 ->
  looked_up s w w' -> looked_up s w0 w1.
Proof. intros H1 H2 (tr & info & P1 & P2 & H). exists tr, info. split_and!; [by etrans..|apply H|apply H]. Qed.

(** One attempt. *)
Lemma confirm_found tx s w (k : EM bool) : get_transaction (trace w) s = Some tx -> exists b w',
  (answer ← rpc_transaction s;
   match answer with
   | Some tx => match tx_success tx with
                | Some true => ignore (parse_and_store_event config (tx_slot tx) (tx_time tx) s) ;; mret true
                | _ => mret false
                end
   | None => k
   end) w = (Ok b, w') /\ quiet 1 w w' /\ (b = true -> looked_up s w w').
Proof.
  intros E. rewrite (bind_run _ _ w (Some tx) (rpc_transaction s w).2) by (unfold rpc_transaction; by rewrite E).
  pose proof (quiet_lookup s w) as Hq.
  destruct (tx_success tx) as [[]|] eqn:Es; [|by exists false, (rpc_transaction s w).2..].
  destruct (store_nothing (tx_slot tx) (tx_time tx) s (rpc_transaction s w).2) as (w1 & Er & Hs & Ht).
  exists true, w1. rewrite (bind_run _ _ _ _ _ Er). split_and!; [done| |].
  - eapply quiet_trans; [exact Hq|apply quiet_same; by rewrite ?Hs, ?Ht|lia].
  - intros _. exists (trace w), tx. split_and!; [done| |done|done]. rewrite Ht. by eapply quiet_prefix.
Qed.

Lemma confirm_missing s w (k : EM bool) (found : TxInfo -> EM bool) : get_transaction (trace w) s = None ->
  (answer ← rpc_transaction s; match answer with Some tx => found tx | None => k end) w
  = k (rpc_transaction s w).2.
Proof.
  intros E. rewrite (bind_run _ _ w None (rpc_transaction s w).2); [done|]. unfold rpc_transaction. by rewrite E.
Qed.

Lemma confirm_loop_spec rest s w : exists b w', confirm_loop config rest s w = (Ok b, w')
  /\ quiet (S rest) w w' /\ (b = true -> looked_up s w w').
Proof.
  revert w. induction rest as [|rest IH]; intros w; simpl confirm_loop;
    (destruct (get_transaction (trace w) s) as [tx|] eqn:E; [|rewrite confirm_missing by done]).
  - by apply (confirm_found tx).
  - exists false, (rpc_transaction s w).2. split_and!; [done|apply quiet_lookup|done].
  - destruct (confirm_found tx s w (locally count_retry ;; confirm_loop config rest s) E) as (b & w' & Hr & Hq & Hb).
    exists b, w'. split_and!; [done| |done]. eapply quiet_trans; [exact Hq|apply (quiet_refl 0)|lia].
  - set (w1 := set_st (count_retry (st (rpc_transaction s w).2)) (rpc_transaction s w).2).
    rewrite (bind_run _ _ _ tt w1) by done. destruct (IH w1) as (b & w' & Hr & Hq & Hb).
    exists b, w'. assert (Hq1 : quiet 1 w w1).
    { eapply quiet_trans; [apply quiet_lookup|by apply quiet_same|lia]. }
    split_and!; [done|by eapply quiet_trans|]. intros Ht.
    eapply looked_up_mono; [by eapply quiet_prefix|done|by apply Hb].
Qed.

Lemma confirm_spec s w : exists r w', attempt (confirm_transaction config s) w = (Ok r, w')
  /\ quiet (Z.to_nat (Z.max 1 (max_retries config))) w w' /\ (r = Ok true -> looked_up s w w').
Proof.
  unfold confirm_transaction. destruct (parse_signature s).
  - destruct (confirm_loop_spec (Z.to_nat (max_retries config - 1)) s w) as (b & w' & Hr & Hq & Hb).
    exists (Ok b), w'. split_and!; [by apply attempt_run| |intros [= ->]; by apply Hb].
    eapply quiet_trans; [exact Hq|apply (quiet_refl 0)|lia].
  - exists (Err (FMsg "invalid signature")), w. split_and!; [done|apply quiet_refl|done].
Qed.

(** ** Marking *)

(** Some reading with the identifier of [r] was pending with a signature that was looked up with
    success. *)
Definition justified w w' (r : MintedReading) : Prop :=
  exists k r0 s, minted_readings (st w) !! k = Some r0 /\ is_pending r0 = true /\ mn_id r0 = mn_id r
    /\ mn_signature r0 = Some s /\ looked_up s w w'.

(** What a run may do to the readings: confirm justified ones. *)
Definition evolved w w' (r r' : MintedReading) : Prop :=
  r' = r \/ justified w w' r /\ exists now slot, r' = confirmed now slot r.

Definition confirms w w' : Prop :=
  blockchain_events (st w') = blockchain_events (st w)
  /\ (exists tr, trace w' = (trace w ++ tr)%list /\ Forall is_lookup tr)
  /\ (forall k, option_Forall2 (evolved w w') (minted_readings (st w) !! k) (minted_readings (st w') !! k)).

Lemma confirms_prefix w w' : confirms w w' -> trace w `prefix_of` trace w'.
Proof. intros (_ & (tr & -> & _) & _). by apply prefix_app_r. Qed.

Lemma quiet_confirms n w w' : quiet n w w' -> confirms w w'.
Proof.
  intros (Hr & He & tr & Ht & Hl & _). split_and!; [done|by exists tr|]. intros k. rewrite Hr.
  destruct (minted_readings (st w) !! k); constructor. by left.
Qed.

Lemma confirmed_not_pending now slot r : is_pending (confirmed now slot r) = false.
Proof. unfold is_pending. simpl. by destruct (bool_decide (mn_minted r = Some true)). Qed.

Lemma justified_mono w0 w w' w1 r : confirms w0 w -> trace w' `prefix_of` trace w1 -> 
  justified w w' r -> justified w0 w1 r.
Proof.
  intros Hc Hp (k & r0 & s & Hk & Hpend & Hid & Hs & Hl). exists k, r0, s.
  assert (H0 : minted_readings (st w0) !! k = Some r0).
  { destruct Hc as (_ & _ & Hc). specialize (Hc k). rewrite Hk in Hc. inversion Hc as [x y Hev Hx Hy|]; subst.
    destruct Hev as [->|(_ & now & slot & ->)]; [done|]. by rewrite confirmed_not_pending in Hpend. }
  split_and!; [done..|]. eapply looked_up_mono; [by apply confirms_prefix|done|done].
Qed.

Lemma confirms_trans w1 w2 w3 : confirms w1 w2 -> confirms w2 w3 -> confirms w1 w3.
Proof.
  intros H12 H23. pose proof (confirms_prefix _ _ H12). pose proof (confirms_prefix _ _ H23).
  pose proof H12 as (E1 & (t1 & T1 & F1) & R1). pose proof H23 as (E2 & (t2 & T2 & F2) & R2). split_and!.
  - congruence.
  - exists (t1 ++ t2)%list. rewrite T2, T1, <- app_assoc. split; [done|by apply list.Forall_app].
  - intros k. specialize (R1 k). specialize (R2 k).
    destruct (minted_readings (st w1) !! k) as [x|], (minted_readings (st w2) !! k) as [y|],
      (minted_readings (st w3) !! k) as [z|]; try (by inversion R1); try (by inversion R2); [|constructor].
    inversion_clear R1 as [? ? Hxy|]. inversion_clear R2 as [? ? Hyz|]. constructor.
    assert (Hid : mn_id y = mn_id x) by by destruct Hxy as [->|(_ & ? & ? & ->)].
    assert (Hfst : justified w1 w2 x -> justified w1 w3 x).
    { intros (k0 & r0 & s & ? & ? & ? & ? & Hl). exists k0, r0, s. split_and!; try done.
      by apply (looked_up_mono s w1 w1 w2 w3). }
    assert (Hsnd : justified w2 w3 y -> justified w1 w3 x).
    { intros Hj. destruct (justified_mono w1 w2 w3 w3 y H12 (reflexivity _) Hj) as (k0 & r0 & s & ? & ? & ? & ? & ?).
      exists k0, r0, s. split_and!; try done. congruence. }
    destruct Hyz as [->|(Hj & n2 & s2 & ->)]; [|right; split; [by apply Hsnd|]].
    + destruct Hxy as [->|(Hj & Hc)]; [by left|right; auto].
    + destruct Hxy as [->|(_ & n1 & s1 & ->)]; by exists n2, s2.
Qed.

(** Marking a reading: its lookup, and the update if the transaction is found. *)
Lemma mark_spec now id s w : exists w', ignore (mark_transaction_confirmed now id s) w = (Ok tt, w')
  /\ (quiet 1 w w'
      \/ exists slot ok, confirm_rows now slot id (st w) = Some (st w')
           /\ trace w' = (trace w ++ [EvChain (GetTransaction s) ok])%list).
Proof.
  unfold ignore, mark_transaction_confirmed. destruct (parse_signature s).
  2: { exists w. split; [done|]. left. apply quiet_refl. }
  set (w1 := (rpc_transaction s w).2).
  destruct (get_transaction (trace w) s) as [tx|] eqn:E.
  - destruct (attempt_exec (confirm_rows now (tx_slot tx) id) w1) as (r & w2 & Er & Ht & _ & H).
    exists w2. split.
    + rewrite (bind_run _ _ w r w2); [done|]. rewrite <- Er. unfold attempt.
      by rewrite (bind_run _ _ w (get_transaction (trace w) s) w1), E by done.
    + destruct H as [(_ & Hs & _)|(_ & Hc)].
      * left. eapply quiet_trans; [apply (quiet_lookup s w)|apply quiet_same; by rewrite ?Hs, ?Ht|lia].
      * right. eexists _, _. split; [exact Hc|exact Ht].
  - exists w1. split; [|left; apply quiet_lookup].
    rewrite (bind_run _ _ w (Err (FMsg "rpc error")) w1); [done|]. unfold attempt.
    by rewrite (bind_run _ _ w (get_transaction (trace w) s) w1), E by done.
Qed.

Lemma mark_confirms w0 w1 w2 now slot k0 r0 s ok : confirms w0 w1 ->
  minted_readings (st w0) !! k0 = Some r0 -> is_pending r0 = true -> mn_signature r0 = Some s ->
  looked_up s w0 w1 -> confirm_rows now slot (mn_id r0) (st w1) = Some (st w2) ->
  trace w2 = (trace w1 ++ [EvChain (GetTransaction s) ok])%list -> confirms w0 w2.
Proof.
  intros (He & (tr & Ht & Hl) & Hr) Hk Hp Hs Hlook Hc Ht2. injection Hc as Hc.
  assert (Hpre : trace w1 `prefix_of` trace w2) by (rewrite Ht2; by apply prefix_app_r).
  split_and!; [by rewrite <- Hc| |].
  - exists (tr ++ [EvChain (GetTransaction s) ok])%list. rewrite Ht2, Ht, <- app_assoc.
    split; [done|]. apply list.Forall_app. split; [done|by repeat constructor].
  - intros k. specialize (Hr k). rewrite <- Hc. simpl. rewrite lookup_fmap.
    destruct (minted_readings (st w0) !! k) as [x|], (minted_readings (st w1) !! k) as [y|];
      try (by inversion Hr); [|constructor].
    inversion_clear Hr as [? ? Hxy|]. simpl. constructor.
    destruct (mn_id y =? mn_id r0)%N eqn:Hid.
    + apply N.eqb_eq in Hid. right. split.
      * exists k0, r0, s. split_and!; try done; [|by eapply looked_up_mono].
        rewrite <- Hid. by destruct Hxy as [->|(_ & ? & ? & ->)].
      * destruct Hxy as [->|(_ & ? & ? & ->)]; by exists now, slot.
    + destruct Hxy as [->|((k1 & r1 & s1 & ? & ? & ? & ? & ?) & Hc1)]; [by left|right].
      split; [|done]. exists k1, r1, s1. split_and!; try done. by eapply looked_up_mono.
Qed.

Lemma process_confirms w0 w now k0 r0 : confirms w0 w -> minted_readings (st w0) !! k0 = Some r0 ->
  is_pending r0 = true -> exists w', process_reading config now r0 w = (Ok tt, w') /\ confirms w0 w'.
Proof.
  intros Hc Hk Hp. unfold process_reading. destruct (mn_signature r0) as [s|] eqn:Es; [|by exists w].
  destruct (s =? "mock_signature")%string; [by exists w|].
  destruct (confirm_spec s w) as (r & w1 & Er & Hq & Hl). rewrite (bind_run _ _ _ _ _ Er).
  assert (Hc1 : confirms w0 w1) by (eapply confirms_trans; [exact Hc|by eapply quiet_confirms]).
  destruct r as [[]|]; [|by exists w1..].
  destruct (mark_spec now (mn_id r0) s w1) as (w2 & Em & Hm). exists w2. split; [done|].
  destruct Hm as [Hq2|(slot & ok & Hrows & Ht)].
  - eapply confirms_trans; [exact Hc1|by eapply quiet_confirms].
  - eapply mark_confirms; [exact Hc1|done..| |done|done].
    apply (looked_up_mono s w0 w w1 w1); [by apply confirms_prefix|done|by apply Hl].
Qed.

Lemma batch_pending size d l r : pending_batch size d = Some l -> r ∈ l ->
  is_pending r = true /\ exists k, minted_readings d !! k = Some r.
Proof.
  unfold pending_batch, page. destruct (_ || _); [done|]. intros [= <-] (i & H & _)%elem_of_take.
  rewrite lookup_drop in H. apply list_elem_of_lookup_2 in H. unfold pending_readings in H.
  rewrite sort_by_perm in H. apply list_elem_of_In, List.filter_In in H as [H Hp].
  apply list_elem_of_In, list_elem_of_fmap in H as ([k x] & -> & H%elem_of_map_to_list).
  split; [done|by exists k].
Qed.

Lemma poll_confirms now w : confirms w (process_pending_transactions config now w).2.
Proof.
  unfold process_pending_transactions.
  destruct (query (pending_batch (batch_size config)) w) as [[b|e] w1] eqn:E.
  2: { erewrite bind_run_Err by exact E. apply query_Err in E as (_ & Hs & Ht & _).
       apply (quiet_confirms 0), quiet_same; simpl; by rewrite ?Hs. }
  erewrite bind_run by exact E. apply query_Ok in E as (-> & Hs & Ht).
  destruct (pending_batch (batch_size config) (st w)) as [l|] eqn:El.
  2: { apply (quiet_confirms 0), quiet_same; simpl; by rewrite ?Hs. }
  rewrite (bind_run _ _ w1 l w1) by done.
  assert (Hc : confirms w w1) by (apply (quiet_confirms 0), quiet_same; simpl; by rewrite ?Hs).
  assert (Hin : forall r, r ∈ l -> is_pending r = true /\ exists k, minted_readings (st w) !! k = Some r)
    by (intros r; by eapply batch_pending).
  clear El Hs Ht. revert w1 Hc. induction l as [|r l IH]; intros w1 Hc; simpl; [done|].
  destruct (Hin r) as [Hp [k Hk]]; [by left|].
  destruct (process_confirms w w1 now k r Hc Hk Hp) as (w2 & E & Hc2).
  rewrite (bind_run _ _ _ _ _ E). apply IH; [intros x Hx; apply Hin; by right|done].
Qed.

Lemma start_confirms times w : confirms w (start_processor config times w).2.
Proof.
  unfold start_processor. destruct (processor_enabled config); [|apply (quiet_confirms 0), quiet_refl].
  revert w. induction times as [|now times IH]; intros w; simpl; [apply (quiet_confirms 0), quiet_refl|].
  rewrite (bind_run _ _ w tt (process_pending_transactions config now w).2) by done.
  eapply confirms_trans; [apply poll_confirms|apply IH].
Qed.

(** ** How much is asked *)

Definition asks (n : nat) w w' : Prop := (length (trace w') <= length (trace w) + n)%nat.

Lemma quiet_asks n w w' : quiet n w w' -> asks n w w'.
Proof. intros (_ & _ & tr & Ht & _ & Hn). unfold asks. rewrite Ht, length_app. lia. Qed.

Lemma process_asks now r w : exists w', process_reading config now r w = (Ok tt, w')
  /\ asks (Z.to_nat (Z.max 1 (max_retries config)) + 1) w w'.
Proof.
  unfold process_reading. destruct (mn_signature r) as [s|]; [|exists w; split; [done|unfold asks; lia]].
  destruct (s =? "mock_signature")%string; [exists w; split; [done|unfold asks; lia]|].
  destruct (confirm_spec s w) as (o & w1 & Er & Hq & _). rewrite (bind_run _ _ _ _ _ Er).
  apply quiet_asks in Hq. destruct o as [[]|]; [|exists w1; split; [done|unfold asks in *; lia]..].
  destruct (mark_spec now (mn_id r) s w1) as (w2 & Em & Hm). exists w2. split; [done|].
  destruct Hm as [Hm%quiet_asks|(slot & ok & _ & Ht)]; unfold asks in *; [lia|].
  rewrite Ht, length_app. simpl. lia.
Qed.

Lemma poll_asks now w : 0 <= batch_size config < 2 ^ 63 ->
  asks (Z.to_nat (batch_size config) * (Z.to_nat (Z.max 1 (max_retries config)) + 1)) w
    (process_pending_transactions config now w).2.
Proof.
  intros Hb. unfold process_pending_transactions.
  destruct (query (pending_batch (batch_size config)) w) as [[b|e] w1] eqn:E.
  2: { erewrite bind_run_Err by exact E. apply query_Err in E as (_ & _ & Ht & _). unfold asks. simpl. rewrite Ht. lia. }
  erewrite bind_run by exact E. apply query_Ok in E as (-> & _ & Ht).
  destruct (pending_batch (batch_size config) (st w)) as [l|] eqn:El; [|unfold asks; simpl; rewrite Ht; lia].
  rewrite (bind_run _ _ w1 l w1) by done.
  assert (Hl : (length l <= Z.to_nat (batch_size config))%nat).
  { unfold pending_batch, page, as_i64 in El. destruct (_ || _); [done|]. injection El as <-.
    rewrite length_take. destruct (_ <? _) eqn:Es; lia. }
  assert (H : forall l w1, asks (length l * (Z.to_nat (Z.max 1 (max_retries config)) + 1)) w1
      (for_each (process_reading config now) l w1).2).
  { clear. induction l as [|r l IH]; intros w1; simpl; [unfold asks; simpl; lia|].
    destruct (process_asks now r w1) as (w2 & E & H). rewrite (bind_run _ _ _ _ _ E).
    specialize (IH w2). unfold asks in *. lia. }
  specialize (H l w1). unfold asks in *. rewrite Ht in H. nia.
Qed.

(** ** A batch that never leaves *)

(** A signature that the node will never report as a success. *)
Definition hopeless (r : MintedReading) : Prop :=
  forall s tr info, mn_signature r = Some s -> get_transaction tr s = Some info -> tx_success info <> Some true.

Lemma hopeless_quiet now r w : hopeless r ->
  exists w', process_reading config now r w = (Ok tt, w') /\ minted_readings (st w') = minted_readings (st w).
Proof.
  intros Hr. unfold process_reading. destruct (mn_signature r) as [s|] eqn:Es; [|by exists w].
  destruct (s =? "mock_signature")%string; [by exists w|].
  destruct (confirm_spec s w) as (o & w1 & Er & Hq & Hl). rewrite (bind_run _ _ _ _ _ Er).
  destruct Hq as (Hq & _). destruct o as [[]|]; [|by exists w1..].
  destruct (Hl eq_refl) as (tr & info & _ & _ & Hg & Hs). by destruct (Hr s tr info).
Qed.

Lemma stuck_poll now w :
  (forall l, pending_batch (batch_size config) (st w) = Some l -> Forall hopeless l) ->
  minted_readings (st (process_pending_transactions config now w).2) = minted_readings (st w).
Proof.
  intros H. unfold process_pending_transactions.
  destruct (query (pending_batch (batch_size config)) w) as [[b|e] w1] eqn:E.
  2: { erewrite bind_run_Err by exact E. apply query_Err in E as (_ & Hs & _). simpl. by rewrite Hs. }
  erewrite bind_run by exact E. apply query_Ok in E as (-> & Hs & _).
  destruct (pending_batch (batch_size config) (st w)) as [l|]; [|simpl; by rewrite Hs].
  rewrite (bind_run _ _ w1 l w1) by done. rewrite <- Hs. specialize (H l eq_refl). clear Hs.
  revert w1. induction H as [|r l Hr _ IH]; intros w1; simpl; [done|].
  destruct (hopeless_quiet now r w1 Hr) as (w2 & E & Hs). rewrite (bind_run _ _ _ _ _ E), <- Hs. apply IH.
Qed.

Lemma stuck_start times w :
  (forall l, pending_batch (batch_size config) (st w) = Some l -> Forall hopeless l) ->
  minted_readings (st (start_processor config times w).2) = minted_readings (st w).
Proof.
  unfold start_processor. destruct (processor_enabled config); [|done].
  revert w. induction times as [|now times IH]; intros w H; simpl; [done|].
  rewrite (bind_run _ _ w tt (process_pending_transactions config now w).2) by done.
  pose proof (stuck_poll now w H) as Hs. rewrite <- Hs. apply IH.
  intros l Hl. apply H. unfold pending_batch, pending_readings in *. by rewrite <- Hs.
Qed.

(** ** Replay *)

(** A replay only looks up; on its way it keeps the status as it was set. *)
Definition looks w w' : Prop := exists n, quiet n w w'.
Definition silent w w' : Prop :=
  looks w w' /\ rs_status <$> replay_status (st w') = rs_status <$> replay_status (st w).

Lemma looks_trans w1 w2 w3 : looks w1 w2 -> looks w2 w3 -> looks w1 w3.
Proof. intros [n Hn] [m Hm]. exists (n + m)%nat. by eapply quiet_trans. Qed.

Lemma silent_refl w : silent w w.
Proof. split; [exists 0%nat; apply quiet_refl|done]. Qed.

Lemma silent_trans w1 w2 w3 : silent w1 w2 -> silent w2 w3 -> silent w1 w3.
Proof. intros [H1 E1] [H2 E2]. split; [by eapply looks_trans|congruence]. Qed.

Lemma locally_looks f w : minted_readings (f (st w)) = minted_readings (st w) ->
  blockchain_events (f (st w)) = blockchain_events (st w) -> looks w (locally f w).2.
Proof. intros H1 H2. exists 0%nat. by apply quiet_same. Qed.

Lemma set_current_silent slot w : silent w (locally (set_current slot) w).2.
Proof. split; [by apply locally_looks|]. simpl. by destruct (replay_status (st w)). Qed.

Lemma replay_transaction_silent slot time tx w : exists w',
  replay_transaction config slot time tx w = (Ok tt, w') /\ silent w w'.
Proof.
  destruct tx as [[s|] [[]|]]; try (exists w; split; [done|apply silent_refl]).
  destruct (store_nothing slot time s w) as (w' & E & Hs & Ht). exists w'. split; [done|].
  split; [exists 0%nat; apply quiet_same; by rewrite ?Hs|by rewrite Hs].
Qed.

Lemma replay_slot_silent slot w : exists w', replay_slot config slot w = (Ok tt, w') /\ silent w w'.
Proof.
  unfold replay_slot.
  assert (H : exists w1, (if slot mod 10 =? 0 then locally (set_current slot) else mret ()) w = (Ok tt, w1) /\ silent w w1).
  { destruct (_ =? 0); eexists; (split; [reflexivity|]); [apply set_current_silent|apply silent_refl]. }
  destruct H as (w1 & E & H1). rewrite (bind_run _ _ _ _ _ E).
  rewrite (bind_run _ _ w1 (get_block (trace w1) slot) (rpc_block slot w1).2) by done.
  assert (H2 : silent w (rpc_block slot w1).2) by (eapply silent_trans; [exact H1|split; [exists 1%nat; apply quiet_block|done]]).
  destruct (get_block (trace w1) slot) as [b|]; [|by eexists].
  revert H2. generalize (rpc_block slot w1).2 as w2. generalize (bk_transactions b) as l.
  induction l as [|tx l IH]; intros w2 H2; simpl; [by exists w2|].
  destruct (replay_transaction_silent slot (bk_time b) tx w2) as (w3 & E3 & H3).
  rewrite (bind_run _ _ _ _ _ E3). apply IH. by eapply silent_trans.
Qed.

Lemma replay_loop_silent fuel cur end_ w : exists b w', replay_loop config fuel cur end_ w = (Ok b, w') /\ silent w w'.
Proof.
  revert cur w. induction fuel as [|fuel IH]; intros cur w; simpl; [exists false, w; split; [done|apply silent_refl]|].
  destruct (_ <=? _); [|exists true, w; split; [done|apply silent_refl]].
  destruct (replay_slot_silent cur w) as (w1 & E & H1). rewrite (bind_run _ _ _ _ _ E).
  destruct (IH (wrap_u64 (cur + 1)) w1) as (b & w2 & E2 & H2). exists b, w2. split; [done|by eapply silent_trans].
Qed.

(** A replay: its loop's answer, and the state it leaves. *)
Lemma replay_run fuel now first last_ w b w1 : let end_ := replay_end first last_ in
  replay_loop config fuel first end_ (begin_replay now first end_ w).2 = (Ok b, w1) ->
  exists text, replay_events config fuel now first last_ w
    = (Ok text, if b then (locally (set_completed end_) w1).2 else w1).
Proof.
  intros end_ E. unfold replay_events. fold end_. eexists.
  rewrite (bind_run _ _ w tt (begin_replay now first end_ w).2) by done.
  erewrite bind_run; [reflexivity|]. unfold spawn, replay_task. rewrite (bind_run _ _ _ _ _ E).
  by destruct b.
Qed.

Lemma replay_events_looks fuel now first last_ w : exists text w',
  replay_events config fuel now first last_ w = (Ok text, w') /\ looks w w'.
Proof.
  destruct (replay_loop_silent fuel first (replay_end first last_) (begin_replay now first (replay_end first last_) w).2)
    as (b & w1 & E & H1 & _).
  destruct (replay_run fuel now first last_ w b w1 E) as [text Er]. eexists _, _. split; [exact Er|].
  eapply looks_trans; [|eapply looks_trans; [exact H1|]]; [by apply locally_looks|].
  destruct b; [by apply locally_looks|apply silent_refl].
Qed.

(** ** A batch that is confirmed *)

(** Without failures none appear, and what is confirmed remains so. *)
Definition row_later (r r' : MintedReading) : Prop :=
  mn_id r' = mn_id r /\ (mn_confirmed r = Some true -> mn_confirmed r' = Some true).
Definition later w w' : Prop :=
  (faults w = [] -> faults w' = [])
  /\ forall k, option_Forall2 row_later (minted_readings (st w) !! k) (minted_readings (st w') !! k).

#[local] Instance row_later_preorder : PreOrder row_later.
Proof. split; [by intros r|]. intros x y z [E1 H1] [E2 H2]. split; [congruence|auto]. Qed.

#[local] Instance later_preorder : PreOrder later.
Proof.
  split; [by intros w; split; [|reflexivity]|].
  intros x y z [F1 H1] [F2 H2]. split; [auto|]. intros k. etrans; [apply H1|apply H2].
Qed.

Lemma later_same w w' : (faults w = [] -> faults w' = []) ->
  minted_readings (st w') = minted_readings (st w) -> later w w'.
Proof. intros Hf Hs. split; [done|]. intros k. by rewrite Hs. Qed.

Definition keeps {A} (m : EM A) : Prop := forall w, later w (m w).2.

Lemma keeps_bind {A B} (m : EM A) (f : A -> EM B) : keeps m -> (forall a, keeps (f a)) -> keeps (m ≫= f).
Proof.
  intros Hm Hf w. unfold mbind, M_bind. specialize (Hm w). destruct (m w) as [[a|e] w1]; [|done].
  etrans; [exact Hm|apply Hf].
Qed.

Lemma keeps_attempt {A} (m : EM A) : keeps m -> keeps (attempt m).
Proof. intros Hm w. unfold attempt. specialize (Hm w). by destruct (m w) as [[a|[]] w1]. Qed.

Lemma keeps_pure {A} (r : res failure A) : keeps (fun w => (r, w)).
Proof. intros w. by apply later_same. Qed.

Lemma keeps_ignore {A} (m : EM A) : keeps m -> keeps (ignore m).
Proof. intros Hm. apply keeps_bind; [by apply keeps_attempt|]. intros a. apply keeps_pure. Qed.

Lemma keeps_exec f : (forall d d', f d = Some d' ->
  forall k, option_Forall2 row_later (minted_readings d !! k) (minted_readings d' !! k)) -> keeps (exec f).
Proof.
  intros Hf [d fs tr]. unfold exec, pop_fault. destruct fs as [|[] fs]; simpl; [|by apply later_same|].
  all: destruct (f d) as [d'|] eqn:E; [|by apply later_same].
  all: by split; [|apply (Hf d d')].
Qed.

Lemma keeps_rpc signature : keeps (rpc_transaction signature).
Proof. intros w. by apply later_same. Qed.

Lemma keeps_confirm_loop rest signature : keeps (confirm_loop config rest signature).
Proof.
  assert (Hp : forall slot time, keeps (ignore (parse_and_store_event config slot time signature))).
  { intros slot time. apply keeps_ignore. intros w. unfold parse_and_store_event.
    match goal with |- context [exec ?f] => pose proof (keeps_exec f) as Hk; destruct (exec_refused f w) as (w1 & E & _); [apply insert_event_refused|] end.
    erewrite bind_run_Err by exact E. specialize (Hk ltac:(done) w). by rewrite E in Hk. }
  induction rest as [|rest IH]; simpl; (apply keeps_bind; [apply keeps_rpc|]; intros [tx|]).
  - destruct (tx_success tx) as [[]|]; [|apply keeps_pure..]. apply keeps_bind; [apply Hp|intros; apply keeps_pure].
  - apply keeps_pure.
  - destruct (tx_success tx) as [[]|]; [|apply keeps_pure..]. apply keeps_bind; [apply Hp|intros; apply keeps_pure].
  - apply keeps_bind; [|done]. intros w. by apply later_same.
Qed.

Lemma confirm_rows_later now slot id d d' : confirm_rows now slot id d = Some d' ->
  forall k, option_Forall2 row_later (minted_readings d !! k) (minted_readings d' !! k).
Proof.
  intros [= <-] k. simpl. rewrite lookup_fmap. destruct (minted_readings d !! k) as [r|]; constructor.
  by destruct (mn_id r =? id)%N.
Qed.

Lemma keeps_process now r : keeps (process_reading config now r).
Proof.
  unfold process_reading. destruct (mn_signature r) as [s|]; [|apply keeps_pure].
  destruct (s =? "mock_signature")%string; [apply keeps_pure|]. apply keeps_bind.
  - apply keeps_attempt. unfold confirm_transaction.
    destruct (parse_signature s); [apply keeps_confirm_loop|apply keeps_pure].
  - intros [[]|]; [|apply keeps_pure..]. apply keeps_ignore. unfold mark_transaction_confirmed.
    destruct (parse_signature s); [|apply keeps_pure].
    apply keeps_bind; [apply keeps_rpc|]. intros [tx|]; (apply keeps_bind; [apply keeps_pure|]); intros t;
      by apply keeps_exec, confirm_rows_later.
Qed.

(** A signature the node reports as a success whenever it is asked. *)
Definition settled (r : MintedReading) : Prop :=
  exists s, mn_signature r = Some s /\ s <> "mock_signature" /\ parse_signature s = true
    /\ forall tr, exists info, get_transaction tr s = Some info /\ tx_success info = Some true.

Lemma settled_processed now r w k x : settled r -> faults w = [] ->
  minted_readings (st w) !! k = Some x -> mn_id x = mn_id r ->
  exists x', minted_readings (st (process_reading config now r w).2) !! k = Some x' /\ mn_confirmed x' = Some true.
Proof.
  intros (s & Es & Hmock & Hparse & Hnode) Hf Hk Hid. unfold process_reading. rewrite Es.
  rewrite (proj2 (String.eqb_neq _ _) Hmock).
  assert (Hc : exists w1, attempt (confirm_transaction config s) w = (Ok (Ok true), w1)
    /\ minted_readings (st w1) = minted_readings (st w)).
  { destruct (confirm_spec s w) as (o & w1 & E & (Hq & _) & _). exists w1. split; [|done]. rewrite E.
    unfold confirm_transaction, attempt in E. rewrite Hparse in E.
    destruct (Hnode (trace w)) as (tx & Ht & Hs).
    destruct (store_nothing (tx_slot tx) (tx_time tx) s (rpc_transaction s w).2) as (w2 & E2 & _).
    destruct (Z.to_nat _) in E; simpl in E; rewrite (bind_run _ _ w (Some tx) (rpc_transaction s w).2) in E
      by (unfold rpc_transaction; by rewrite Ht); rewrite Hs, (bind_run _ _ _ _ _ E2) in E; simpl in E; congruence. }
  destruct Hc as (w1 & Ec & Hq). rewrite (bind_run _ _ _ _ _ Ec).
  assert (Hf1 : faults w1 = []).
  { assert (Hkeep : later w (attempt (confirm_transaction config s) w).2).
    { apply keeps_attempt. unfold confirm_transaction. rewrite Hparse. apply keeps_confirm_loop. }
    rewrite Ec in Hkeep. by apply Hkeep. }
  unfold ignore, mark_transaction_confirmed. rewrite Hparse. destruct (Hnode (trace w1)) as (tx & Ht & _).
  set (w2 := (rpc_transaction s w1).2).
  assert (E : (answer ← rpc_transaction s; tx ← expect (FMsg "rpc error") answer;
      exec (confirm_rows now (tx_slot tx) (mn_id r))) w1
      = (Ok tt, set_st (set_readings ((fun x => if (mn_id x =? mn_id r)%N then confirmed now (tx_slot tx) x else x)
                   <$> minted_readings (st w2)) (st w2)) w2)).
  { rewrite (bind_run _ _ w1 (Some tx) w2) by (unfold w2, rpc_transaction; by rewrite Ht).
    rewrite (bind_run _ _ w2 tx w2) by done. by rewrite (exec_calm _ w2 Hf1). }
  rewrite (bind_run _ _ w1 (Ok tt) _ (attempt_run _ _ _ _ E ltac:(done))). simpl.
  rewrite lookup_fmap, Hq, Hk. simpl. rewrite (proj2 (N.eqb_eq _ _) Hid). by eexists.
Qed.

Lemma settled_batch now l w r k x : r ∈ l -> settled r -> faults w = [] ->
  minted_readings (st w) !! k = Some x -> mn_id x = mn_id r ->
  exists x', minted_readings (st (for_each (process_reading config now) l w).2) !! k = Some x'
    /\ mn_confirmed x' = Some true.
Proof.
  intros Hin Hr. revert w x. induction l as [|a l IH]; intros w x Hf Hk Hid; [by apply elem_of_nil in Hin|]. simpl.
  destruct (process_asks now a w) as (w1 & E & _). rewrite (bind_run _ _ _ _ _ E).
  pose proof (keeps_process now a w) as Hl. rewrite E in Hl. destruct Hl as [Hf1 Hrow].
  apply elem_of_cons in Hin as [<-|Hin].
  - destruct (settled_processed now r w k x Hr Hf Hk Hid) as (x1 & H1 & Hc). rewrite E in H1. simpl in H1.
    assert (Hall : keeps (for_each (process_reading config now) l)).
    { clear. induction l as [|b l IH]; simpl; [apply keeps_pure|]. apply keeps_bind; [apply keeps_process|done]. }
    destruct (Hall w1) as [_ H2]. specialize (H2 k). rewrite H1 in H2. inversion H2 as [? y [_ Hy]|].
    exists y. split; [done|by apply Hy].
  - specialize (Hrow k). rewrite Hk in Hrow. inversion Hrow as [? y [Hy _]|]. simplify_eq/=.
    apply (IH Hin w1 y); [by apply Hf1|done|congruence].
Qed.

(** What is settled on the chain is marked by the first poll whose batch it is in. *)
Theorem settled_confirmed now l r k w : faults w = [] ->
  pending_batch (batch_size config) (st w) = Some l -> r ∈ l -> settled r ->
  minted_readings (st w) !! k = Some r ->
  exists x, minted_readings (st (process_pending_transactions config now w).2) !! k = Some x
    /\ mn_confirmed x = Some true.
Proof.
  intros Hf Hb Hin Hr Hk. unfold process_pending_transactions.
  rewrite (bind_run _ _ w (Some l) w) by (rewrite (query_calm _ _ Hf); by rewrite Hb).
  rewrite (bind_run _ _ w l w) by done. by eapply settled_batch.
Qed.

(** C34: whatever the node answers and the database fails, the service only ever marks readings as
    confirmed, and only readings with the identifier of a pending one whose signature the node
    was asked for and reported as a success; everything else of the readings is untouched, no
    event is stored, and all that is sent out is lookups. *)
Theorem confirmations_sound times w : confirms w (start_processor config times w).2.
Proof. apply start_confirms. Qed.

(** When the oldest pending readings, as many as a batch takes, are ones that the node never
    reports as a success, no reading is ever confirmed again, however many polls follow. *)
Theorem stuck_batch times w :
  (forall l, pending_batch (batch_size config) (st w) = Some l -> Forall hopeless l) ->
  minted_readings (st (start_processor config times w).2) = minted_readings (st w).
Proof. apply stuck_start. Qed.

(** One poll asks the node at most [max_retries + 1] times for each of [batch_size] readings. *)
Theorem lookups_bounded now w : 0 <= batch_size config < 2 ^ 63 ->
  (length (trace (process_pending_transactions config now w).2)
   <= length (trace w) + Z.to_nat (batch_size config) * (Z.to_nat (Z.max 1 (max_retries config)) + 1))%nat.
Proof. apply poll_asks. Qed.

(** No replay and no confirmation ever stores an event or sends a webhook: the statement that
    stores events names two columns that no unique index of the partitioned table has. *)
Theorem events_never_stored fuel now first last_ times w :
  let w' := ((replay_events config fuel now first last_ ;; start_processor config times) w).2 in
  blockchain_events (st w') = blockchain_events (st w)
  /\ exists tr, trace w' = (trace w ++ tr)%list /\ Forall is_lookup tr.
Proof.
  simpl. destruct (replay_events_looks fuel now first last_ w) as (text & w1 & E & n & _ & He & tr & Ht & Hl & _).
  rewrite (bind_run _ _ _ _ _ E). destruct (start_confirms times w1) as (He2 & (tr2 & Ht2 & Hl2) & _).
  split; [congruence|]. exists (tr ++ tr2)%list. rewrite Ht2, Ht, <- app_assoc.
  split; [done|by apply list.Forall_app].
Qed.

(** The loop over the slots ends, but for the last slot there is. *)
Lemma replay_loop_ends n cur end_ w : 0 <= cur -> end_ < u64_max -> cur + Z.of_nat n = end_ + 1 ->
  exists w', replay_loop config (S n) cur end_ w = (Ok true, w').
Proof.
  revert cur w. induction n as [|n IH]; intros cur w Hc He Hn.
  - exists w. simpl. by destruct (Z.leb_spec cur end_); [lia|].
  - simpl. destruct (Z.leb_spec cur end_); [|lia].
    destruct (replay_slot_silent cur w) as (w1 & E & _). rewrite (bind_run _ _ _ _ _ E).
    rewrite wrap_u64_id by lia. apply IH; lia.
Qed.

Lemma replay_loop_endless fuel cur w : 0 <= cur <= u64_max ->
  exists w', replay_loop config fuel cur u64_max w = (Ok false, w').
Proof.
  revert cur w. induction fuel as [|fuel IH]; intros cur w Hc; simpl; [by exists w|].
  destruct (Z.leb_spec cur u64_max); [|lia].
  destruct (replay_slot_silent cur w) as (w1 & E & _). rewrite (bind_run _ _ _ _ _ E).
  apply IH, wrap_u64_range.
Qed.

(** A replay whose end is before the last slot comes to an end and says so. *)
Theorem replay_completes now first last_ w : 0 <= first -> let end_ := replay_end first last_ in
  first <= end_ + 1 -> end_ < u64_max -> exists text w' s,
  replay_events config (S (Z.to_nat (end_ + 1 - first))) now first last_ w = (Ok text, w')
  /\ replay_status (st w') = Some s /\ rs_status s = "completed" /\ rs_current_slot s = end_.
Proof.
  intros Hf end_ He Hm. set (n := Z.to_nat (end_ + 1 - first)). set (w0 := (begin_replay now first end_ w).2).
  destruct (replay_loop_ends n first end_ w0) as (w1 & E); [lia..|].
  destruct (replay_loop_silent (S n) first end_ w0) as (b & w1' & E' & Hs).
  rewrite E in E'. injection E' as <- <-. destruct Hs as [_ Hs].
  destruct (replay_status (st w1)) as [s|] eqn:Es; [|done].
  destruct (replay_run (S n) now first last_ w true w1 E) as [text Er].
  eexists text, _, _. split; [exact Er|]. simpl. rewrite Es. by split_and!.
Qed.

(** A replay up to the last slot there is never does, however many slots it takes. *)
Theorem replay_never_completes fuel now first last_ w : 0 <= first <= u64_max ->
  replay_end first last_ = u64_max -> exists text w' s,
  replay_events config fuel now first last_ w = (Ok text, w')
  /\ replay_status (st w') = Some s /\ rs_status s = "running".
Proof.
  intros Hf He. set (w0 := (begin_replay now first (replay_end first last_) w).2).
  destruct (replay_loop_endless fuel first w0 Hf) as (w1 & E).
  destruct (replay_loop_silent fuel first u64_max w0) as (b & w1' & E' & Hs).
  rewrite E in E'. injection E' as <- <-. destruct Hs as [_ Hs].
  rewrite <- He in E. destruct (replay_run fuel now first last_ w false w1 E) as [text Er].
  destruct (replay_status (st w1)) as [s|] eqn:Es; [|done]. exists text, w1, s. split_and!; [done..|].
  simpl in Hs. congruence.
Qed.
End lemmas.

(** ** A concrete node *)

#[local] Instance demo_ledger : Ledger := {|
  get_transaction := fun _ s =>
    if (s =? "good")%string then Some {| tx_slot := 7; tx_time := Some 70; tx_success := Some true |}
    else if (s =? "bad")%string then Some {| tx_slot := 5; tx_time := None; tx_success := Some false |}
    else None;
  get_block := fun _ slot => Some {| bk_time := Some slot; bk_transactions := [(Some "good", Some true); (None, None)] |};
  parse_signature := fun s => negb (s =? "junk")%string;
  webhook_answer := fun _ _ => true;
|}.

Definition demo_reading (id : Uuid) (signature : string) (at_ : DateTime) : MintedReading :=
  {| mn_id := id; mn_minted := Some true; mn_signature := Some signature; mn_submitted_at := Some at_;
     mn_confirmed := Some false; mn_slot := None; mn_confirmed_at := None |}.

Definition demo_ev : EvDb :=
  {| minted_readings := <[(1%N, 0) := demo_reading 1 "bad" 10]> (<[(2%N, 0) := demo_reading 2 "good" 20]> ∅);
     blockchain_events := []; retry_count := 0; replay_status := None |}.

Definition demo_processor (size : Z) : EventProcessorConfig :=
  {| processor_enabled := true; batch_size := size; max_retries := 3; webhook_url := Some "https://example.org" |}.

Definition demo_confirmations : world EvDb Event := World demo_ev [] [].

(** The readings' flags after two polls, with a batch of two and of one. *)
Example two_polls : (fun size => (fun p => (p.1.1, mn_confirmed p.2))
    <$> map_to_list (minted_readings (st (start_processor (demo_processor size) [100; 200] demo_confirmations).2))) <$> [2; 1]
  = [[(2%N, Some true); (1%N, Some false)]; [(2%N, Some false); (1%N, Some false)]].
Proof. vm_compute. reflexivity. Qed.

Lemma lookups_bounded_witness : (0 <= 2 < 2 ^ 63) /\
  (length (trace (process_pending_transactions (demo_processor 2) 100 demo_confirmations).2) <= 8)%nat.
Proof. split; [lia|]. exact (lookups_bounded (demo_processor 2) 100 demo_confirmations ltac:(simpl; lia)). Defined.

Lemma settled_confirmed_witness : exists x,
  minted_readings (st (process_pending_transactions (demo_processor 2) 100 demo_confirmations).2) !! (2%N, 0) = Some x
  /\ mn_confirmed x = Some true.
Proof.
  apply (settled_confirmed (demo_processor 2) 100 [demo_reading 1 "bad" 10; demo_reading 2 "good" 20]
           (demo_reading 2 "good" 20)).
  - reflexivity.
  - vm_compute. reflexivity.
  - right. left.
  - exists "good". split_and!; [done..|]. intros tr. eexists. by split.
  - vm_compute. reflexivity.
Defined.

Lemma stuck_batch_witness :
  minted_readings (st (start_processor (demo_processor 1) [100; 200] demo_confirmations).2) = minted_readings demo_ev.
Proof.
  apply (stuck_batch (demo_processor 1) [100; 200] demo_confirmations).
  intros l Hl. vm_compute in Hl. injection Hl as <-. repeat constructor.
  intros s tr info [= <-] [= <-]. done.
Defined.

Lemma replay_completes_witness : (3 <= 12 + 1) /\ exists text w' s,
  replay_events (demo_processor 2) 11 100 3 (Some 12) demo_confirmations = (Ok text, w')
  /\ replay_status (st w') = Some s /\ rs_status s = "completed" /\ rs_current_slot s = 12.
Proof.
  split; [lia|].
  exact (replay_completes (demo_processor 2) 100 3 (Some 12) demo_confirmations ltac:(lia) ltac:(simpl; lia) ltac:(done)).
Defined.

Lemma replay_never_completes_witness : exists text w' s,
  replay_events (demo_processor 2) 50 100 3 (Some u64_max) demo_confirmations = (Ok text, w')
  /\ replay_status (st w') = Some s /\ rs_status s = "running".
Proof. exact (replay_never_completes (demo_processor 2) 50 100 3 (Some u64_max) demo_confirmations ltac:(done) eq_refl). Defined.
