(* ===== verification/Carbon.v ===== *)
(** Carbon credits: balance, history and transfer.

    [src/handlers/carbon.rs] over the tables [carbon_credits], [carbon_transactions] and
    [erc_certificates].  Identifiers and the time of the transaction are arguments.  The
    transfer maps every database error to the same [ApiError::Internal], which is written once
    around its statements. *)
From S2P Require Import Prelude Numerics Floats Errors Store Schema Settlement Telemetry Readings Certificates Notifications.
Open Scope string_scope.
Open Scope Z_scope.

(** A negative amount is rounded like the positive one when it is stored. *)
Class NumericSign `{Numerics} := { num8_opp z : num8 (- z) = Z.opp <$> num8 z }.

(** [Decimal::to_string] parsed as [f64]. *)
Class DecimalParse := { text_f64 : Decimal -> spec_float }.

Inductive CarbonStatus := CarbonActive | CarbonRetired | CarbonTransferred.
Inductive CarbonTransactionStatus := CarbonPending | CarbonCompleted | CarbonFailed | CarbonCancelled.

#[global] Instance CarbonStatus_eq_dec : EqDecision CarbonStatus.
Proof. solve_decision. Defined.

Definition carbon_status_text (s : CarbonStatus) : string :=
  match s with
  | CarbonActive => "active" | CarbonRetired => "retired" | CarbonTransferred => "transferred"
  end.

Record CarbonCredit := {
  cc_user_id : Uuid;
  cc_amount : Decimal;
  cc_source : string;
  cc_source_reference_id : option Uuid;
  cc_status : CarbonStatus;
  cc_description : option string;
  cc_created_at : DateTime;
}.

Record CarbonTransaction := {
  cx_from_user_id : option Uuid;
  cx_to_user_id : Uuid;
  cx_amount : Decimal;
  cx_price_per_credit : option Decimal;
  cx_total_value : option Decimal;
  cx_status : CarbonTransactionStatus;
  cx_notes : option string;
  cx_created_at : DateTime;
}.

(** The wallets of the users, and the rows by their key. *)
Record CarbonDb := {
  carbon_users : gmap Uuid (option string);
  carbon_credits : gmap Uuid CarbonCredit;
  carbon_transactions : gmap Uuid CarbonTransaction;
  carbon_certificates : gmap Uuid ErcCertificate;
}.
Abbreviation KM := (M CarbonDb Event).

Definition set_credits (m : gmap Uuid CarbonCredit) (d : CarbonDb) : CarbonDb :=
  {| carbon_users := carbon_users d; carbon_credits := m;
     carbon_transactions := carbon_transactions d; carbon_certificates := carbon_certificates d |}.
Definition set_transactions (m : gmap Uuid CarbonTransaction) (d : CarbonDb) : CarbonDb :=
  {| carbon_users := carbon_users d; carbon_credits := carbon_credits d;
     carbon_transactions := m; carbon_certificates := carbon_certificates d |}.

Record CarbonTransfer := {
  to_wallet_address : string;
  transfer_amount : Decimal;
  transfer_notes : option string;
}.

Record CarbonBalance := {
  total_credits : Decimal;
  active_credits : Decimal;
  retired_credits : Decimal;
  transferred_credits : Decimal;
  kg_co2_equivalent : spec_float;
}.

Section carbon.
Context `{NUM : Numerics} `{ENV : Env} `{DT : DecimalText} `{DP : DecimalParse}.

(** ** Statements *)

(** [COALESCE(SUM(amount), 0)] over the rows of a user, all or those with a status. *)
Definition sum_credits (user : Uuid) (s : option CarbonStatus) (d : CarbonDb) : Decimal :=
  sumZ (fun c => if (cc_user_id c =? user)%N && match s with Some s => bool_decide (cc_status c = s) | None => true end
                 then cc_amount c else 0) (map_to_list (carbon_credits d)).*2.

(** The same of [kwh_amount] over the certificates. *)
Definition sum_certificates (user : Uuid) (s : option CertStatus) (d : CarbonDb) : Decimal :=
  sumZ (fun c => if bool_decide (ct_user_id c = Some user) && match s with Some s => bool_decide (ct_status c = s) | None => true end
                 then default 0 (ct_kwh_amount c) else 0) (map_to_list (carbon_certificates d)).*2.

Definition insert_credit (id : Uuid) (c : CarbonCredit) (d : CarbonDb) : option CarbonDb :=
  match carbon_users d !! cc_user_id c, carbon_credits d !! id, num8 (cc_amount c) with
  | Some _, None, Some a =>
      if varchar 50 (Some (cc_source c)) && varchar 200 (cc_description c) then
        Some (set_credits (<[id := {| cc_user_id := cc_user_id c; cc_amount := a;
          cc_source := cc_source c; cc_source_reference_id := cc_source_reference_id c;
          cc_status := cc_status c; cc_description := cc_description c;
          cc_created_at := cc_created_at c |}]> (carbon_credits d)) d)
      else None
  | _, _, _ => None
  end.

(** [INSERT INTO carbon_transactions .. RETURNING]. *)
Definition insert_carbon_transaction (id : Uuid) (t : CarbonTransaction) (d : CarbonDb)
    : option (CarbonTransaction * CarbonDb) :=
  match carbon_users d !! cx_to_user_id t, carbon_transactions d !! id, num8 (cx_amount t) with
  | Some _, None, Some a =>
      if varchar 200 (cx_notes t)
         && match cx_from_user_id t with Some u => bool_decide (is_Some (carbon_users d !! u)) | None => true end
      then
        let t' := {| cx_from_user_id := cx_from_user_id t; cx_to_user_id := cx_to_user_id t; cx_amount := a;
          cx_price_per_credit := cx_price_per_credit t; cx_total_value := cx_total_value t;
          cx_status := cx_status t; cx_notes := cx_notes t; cx_created_at := cx_created_at t |} in
        Some (t', set_transactions (<[id := t']> (carbon_transactions d)) d)
      else None
  | _, _, _ => None
  end.

(** ** Requests *)

(** [.map_err(|e| ApiError::Internal(e.to_string()))] of a [sqlx::Error]. *)
Definition internal {A} (m : KM A) : KM A :=
  map_err (fun e => match e with FDb => FApi (Internal db_error_text) | _ => e end) m.
Definition internally {A} (what : string) (m : KM A) : KM A :=
  map_err (fun _ => FApi (Internal (what ++ ": " ++ db_error_text))) m.

Definition get_carbon_balance (user : Uuid) : KM CarbonBalance :=
  internally "Failed to get balance" (query (fun d =>
    let active := sum_credits user (Some CarbonActive) d + sum_certificates user (Some CertActive) d in
    {| total_credits := sum_credits user None d + sum_certificates user None d;
       active_credits := active;
       retired_credits := sum_credits user (Some CarbonRetired) d + sum_certificates user (Some CertRetired) d;
       transferred_credits := sum_credits user (Some CarbonTransferred) d;
       kg_co2_equivalent := f64_mul (text_f64 active) (f64_of_Z 1000) |})).

(** A row of the UNION of credits and certificates: its status is [status::text]. *)
Record HistoryRow := {
  hr_id : Uuid;
  hr_user_id : option Uuid;
  hr_amount : option Decimal;
  hr_source : string;
  hr_reference : option Uuid;
  hr_status : string;
  hr_description : option string;
  hr_created_at : DateTime;
}.

Definition credit_history (x : Uuid * CarbonCredit) : HistoryRow :=
  {| hr_id := x.1; hr_user_id := Some (cc_user_id x.2); hr_amount := Some (cc_amount x.2);
     hr_source := cc_source x.2; hr_reference := cc_source_reference_id x.2;
     hr_status := carbon_status_text (cc_status x.2); hr_description := cc_description x.2;
     hr_created_at := cc_created_at x.2 |}.

Definition certificate_history (x : Uuid * ErcCertificate) : HistoryRow :=
  {| hr_id := x.1; hr_user_id := ct_user_id x.2; hr_amount := ct_kwh_amount x.2; hr_source := "REC";
     hr_reference := ct_settlement_id x.2; hr_status := cert_status_text (ct_status x.2);
     hr_description := Some (ct_certificate_id x.2); hr_created_at := ct_created_at x.2 |}.

Definition history_rows (user : Uuid) (d : CarbonDb) : list HistoryRow :=
  sort_by (fun x y => hr_created_at y <=? hr_created_at x)
    ((credit_history <$> List.filter (fun x => (cc_user_id x.2 =? user)%N) (map_to_list (carbon_credits d)))
     ++ (certificate_history <$> List.filter (fun x => bool_decide (ct_user_id x.2 = Some user))
                                    (map_to_list (carbon_certificates d))))%list.

(** A row becomes a [CarbonCredit] by its columns' types: a TEXT is not a [carbon_status]. *)
Definition decode_history (rows : list HistoryRow) : option (list (Uuid * CarbonCredit)) :=
  match rows with [] => Some [] | _ :: _ => None end.

Definition get_carbon_history (user : Uuid) (limit offset : option Z) : KM (list (Uuid * CarbonCredit)) :=
  internally "Failed to get history"
    (rows ← query (fun d => rows ← page (Z.min (default 50 limit) 100) (default 0 offset) (history_rows user d);
                            decode_history rows);
     expect FDb rows).

Definition recipient_of (address : string) (d : CarbonDb) : option Uuid :=
  fst <$> row_where (fun w => bool_decide (w = Some address)) (carbon_users d).

(** The statements of the transaction. *)
Definition transfer_statements (now : DateTime) (out_id in_id tx_id user recipient_id : Uuid)
    (payload : CarbonTransfer) : KM CarbonTransaction :=
  let amount := transfer_amount payload in
  sender_balance ← query (sum_credits user (Some CarbonActive));
  (if sender_balance <? amount
   then fail (FApi (BadRequest ("Insufficient credits. Available: " ++ decimal_display sender_balance
                                ++ ", Requested: " ++ decimal_display amount)))
   else mret ()) ;;
  exec (insert_credit out_id
    {| cc_user_id := user; cc_amount := - amount; cc_source := "transfer_out";
       cc_source_reference_id := None; cc_status := CarbonTransferred;
       cc_description := Some ("Transfer to " ++ to_wallet_address payload); cc_created_at := now |}) ;;
  exec (insert_credit in_id
    {| cc_user_id := recipient_id; cc_amount := amount; cc_source := "transfer_in";
       cc_source_reference_id := None; cc_status := CarbonActive;
       cc_description := Some "Transfer from user"; cc_created_at := now |}) ;;
  exec_ret (insert_carbon_transaction tx_id
    {| cx_from_user_id := Some user; cx_to_user_id := recipient_id; cx_amount := amount;
       cx_price_per_credit := None; cx_total_value := None; cx_status := CarbonCompleted;
       cx_notes := transfer_notes payload; cx_created_at := now |}).

Definition transfer_credits (now : DateTime) (out_id in_id tx_id user : Uuid) (payload : CarbonTransfer)
    : KM CarbonTransaction :=
  if transfer_amount payload <=? 0 then fail (FApi (BadRequest "Amount must be positive"))
  else
    recipient ← internal (query (recipient_of (to_wallet_address payload)));
    match recipient with
    | None => fail (FApi (BadRequest "Recipient not found"))
    | Some recipient_id =>
        if (recipient_id =? user)%N then fail (FApi (BadRequest "Cannot transfer to yourself"))
        else internal (with_tx (transfer_statements now out_id in_id tx_id user recipient_id payload))
    end.

Definition transaction_rows (user : Uuid) (d : CarbonDb) : list (Uuid * CarbonTransaction) :=
  sort_by (fun x y => cx_created_at y.2 <=? cx_created_at x.2)
    (List.filter (fun x => bool_decide (cx_from_user_id x.2 = Some user) || (cx_to_user_id x.2 =? user)%N)
       (map_to_list (carbon_transactions d))).

Definition get_carbon_transactions (user : Uuid) (limit offset : option Z) : KM (list (Uuid * CarbonTransaction)) :=
  internally "Failed to get transactions"
    (rows ← query (fun d => page (Z.min (default 50 limit) 100) (default 0 offset) (transaction_rows user d));
     expect FDb rows).
End carbon.

(** ** Lemmas *)

Section lemmas.
Context `{NUM : Numerics} `{ENV : Env} `{DT : DecimalText} `{DP : DecimalParse}.
Implicit Types (d : CarbonDb) (w : world CarbonDb Event).

(** The amount of a row as far as it counts for a user and a status. *)
Definition counted (user : Uuid) (s : option CarbonStatus) (c : CarbonCredit) : Decimal :=
  if (cc_user_id c =? user)%N && match s with Some s => bool_decide (cc_status c = s) | None => true end
  then cc_amount c else 0.

(** All there is. *)
Definition credits_total d : Decimal := sumZ cc_amount (map_to_list (carbon_credits d)).*2.

Definition debit (now : DateTime) (user : Uuid) (address : string) (x : Decimal) : CarbonCredit :=
  {| cc_user_id := user; cc_amount := x; cc_source := "transfer_out"; cc_source_reference_id := None;
     cc_status := CarbonTransferred; cc_description := Some ("Transfer to " ++ address); cc_created_at := now |}.
Definition credit (now : DateTime) (user : Uuid) (x : Decimal) : CarbonCredit :=
  {| cc_user_id := user; cc_amount := x; cc_source := "transfer_in"; cc_source_reference_id := None;
     cc_status := CarbonActive; cc_description := Some "Transfer from user"; cc_created_at := now |}.
Definition receipt (now : DateTime) (from to_ : Uuid) (x : Decimal) (notes : option string) : CarbonTransaction :=
  {| cx_from_user_id := Some from; cx_to_user_id := to_; cx_amount := x; cx_price_per_credit := None;
     cx_total_value := None; cx_status := CarbonCompleted; cx_notes := notes; cx_created_at := now |}.

(** The rows of a transfer that was done. *)
Definition transferred_state (now : DateTime) (o i t user recipient : Uuid) (p : CarbonTransfer) (x a : Decimal) d : CarbonDb :=
  {| carbon_users := carbon_users d;
     carbon_credits := <[i := credit now recipient a]> (<[o := debit now user (to_wallet_address p) x]> (carbon_credits d));
     carbon_transactions := <[t := receipt now user recipient a (transfer_notes p)]> (carbon_transactions d);
     carbon_certificates := carbon_certificates d |}.

(** What a transfer needs: the parties, the amount, new identifiers and columns that hold it. *)
Definition transferable (o i t user recipient : Uuid) (p : CarbonTransfer) (x a : Decimal) d : Prop :=
  0 < transfer_amount p <= sum_credits user (Some CarbonActive) d
  /\ recipient_of (to_wallet_address p) d = Some recipient /\ recipient <> user
  /\ num8 (- transfer_amount p) = Some x /\ num8 (transfer_amount p) = Some a
  /\ carbon_credits d !! o = None /\ carbon_credits d !! i = None /\ o <> i /\ carbon_transactions d !! t = None
  /\ is_Some (carbon_users d !! user) /\ is_Some (carbon_users d !! recipient)
  /\ varchar 200 (Some ("Transfer to " ++ to_wallet_address p)) = true /\ varchar 200 (transfer_notes p) = true.

Lemma internal_Ok {A} (m : KM A) w a w' : internal m w = (Ok a, w') -> m w = (Ok a, w').
Proof. apply map_err_Ok. Qed.

Lemma insert_credit_Some id c d d' : insert_credit id c d = Some d' ->
  is_Some (carbon_users d !! cc_user_id c) /\ carbon_credits d !! id = None
  /\ varchar 200 (cc_description c) = true
  /\ exists a, num8 (cc_amount c) = Some a
     /\ d' = set_credits (<[id := {| cc_user_id := cc_user_id c; cc_amount := a; cc_source := cc_source c;
          cc_source_reference_id := cc_source_reference_id c; cc_status := cc_status c;
          cc_description := cc_description c; cc_created_at := cc_created_at c |}]> (carbon_credits d)) d.
Proof.
  unfold insert_credit. destruct (carbon_users d !! cc_user_id c); [|done].
  destruct (carbon_credits d !! id); [done|]. destruct (num8 (cc_amount c)) as [a|]; [|done].
  destruct (varchar 50 _); [|done]. destruct (varchar 200 _); [|done]. intros [= <-]. split_and!; try done. by exists a.
Qed.

Lemma insert_credit_fits id c d a : is_Some (carbon_users d !! cc_user_id c) -> carbon_credits d !! id = None ->
  varchar 50 (Some (cc_source c)) && varchar 200 (cc_description c) = true -> num8 (cc_amount c) = Some a ->
  insert_credit id c d = Some (set_credits (<[id := {| cc_user_id := cc_user_id c; cc_amount := a; cc_source := cc_source c;
          cc_source_reference_id := cc_source_reference_id c; cc_status := cc_status c;
          cc_description := cc_description c; cc_created_at := cc_created_at c |}]> (carbon_credits d)) d).
Proof. intros [u Hu] Hi Hv Ha. unfold insert_credit. by rewrite Hu, Hi, Ha, Hv. Qed.

Lemma statements_Ok now o i t user recipient p w tx w' :
  transfer_statements now o i t user recipient p w = (Ok tx, w') -> 0 < transfer_amount p ->
  recipient_of (to_wallet_address p) (st w) = Some recipient -> recipient <> user ->
  exists x a, transferable o i t user recipient p x a (st w)
    /\ tx = receipt now user recipient a (transfer_notes p)
    /\ st w' = transferred_state now o i t user recipient p x a (st w) /\ trace w' = trace w.
Proof.
  intros H Hpos Hw Hne. unfold transfer_statements in H.
  apply bind_Ok in H as (b & w1 & (-> & S1 & T1)%query_Ok & H).
  apply bind_Ok in H as (u1 & w2 & Hb & H). destruct (_ <? _) eqn:Hbal in Hb; [by apply fail_Ok in Hb|].
  apply ret_Ok in Hb as [_ <-]. apply bind_Ok in H as (u2 & w3 & [H3 T3]%exec_Ok & H).
  apply bind_Ok in H as (u3 & w4 & [H4 T4]%exec_Ok & H). apply exec_ret_Ok in H as [H5 T5].
  rewrite S1 in *. apply insert_credit_Some in H3 as (Hu & Ho & Hv & x & Hx & E3).
  apply insert_credit_Some in H4 as (Hr & Hi & _ & a & Ha & E4). rewrite E4, E3 in *. simpl in *.
  apply lookup_insert_None in Hi as [Hi Hoi].
  unfold insert_carbon_transaction in H5. simpl in H5.
  destruct Hr as [ur Hr]. rewrite Hr, Ha in H5. destruct (carbon_transactions (st w) !! t) eqn:Ht; [done|].
  destruct (varchar 200 (transfer_notes p)) eqn:Hn; [|done].
  destruct (bool_decide _); [|done]. injection H5 as <- <-.
  exists x, a. split; [|by split_and!; [..|congruence]].
  apply Z.ltb_ge in Hbal. by split_and!.
Qed.

Lemma credits_transfer_Ok now o i t user p w tx w' : transfer_credits now o i t user p w = (Ok tx, w') ->
  exists recipient x a, transferable o i t user recipient p x a (st w)
    /\ tx = receipt now user recipient a (transfer_notes p)
    /\ st w' = transferred_state now o i t user recipient p x a (st w) /\ trace w' = trace w.
Proof.
  unfold transfer_credits. destruct (transfer_amount p <=? 0) eqn:Ha; [by intros ?%fail_Ok|].
  intros H. apply bind_Ok in H as (r & w1 & (-> & S1 & T1)%internal_Ok%query_Ok & H).
  destruct (recipient_of _ _) as [r|] eqn:Er; [|by apply fail_Ok in H].
  destruct (r =? user)%N eqn:Hu; [by apply fail_Ok in H|].
  apply internal_Ok, with_tx_Ok in H as (w2 & w3 & S2 & T2 & H & S3 & T3).
  to_prop. rewrite S1 in S2. destruct (statements_Ok _ _ _ _ _ _ _ _ _ _ H) as (x & a & Ht & Hx & Hs & Htr);
    rewrite ?S2; [lia|done|done|].
  rewrite S2 in *. exists r, x, a. split_and!; [done..|congruence|congruence].
Qed.

Lemma transfer_Err now o i t user p w e w' : transfer_credits now o i t user p w = (Err e, w') -> st w' = st w.
Proof.
  unfold transfer_credits. destruct (transfer_amount p <=? 0); [by intros [= _ <-]|].
  intros [H|(r & w1 & (-> & S1 & T1)%internal_Ok%query_Ok & H)]%bind_Err.
  - unfold internal, map_err in H. destruct (query _ w) as [[?|[]] w1] eqn:E; simplify_eq; by apply query_st in E.
  - destruct (recipient_of _ _); [|by injection H as _ <-].
    destruct (_ =? user)%N; [by injection H as _ <-|]. unfold internal, map_err in H.
    destruct (with_tx _ w1) as [[?|[]] w2] eqn:E; simplify_eq; apply with_tx_Err in E; congruence.
Qed.

Lemma transfer_calm now o i t user recipient p x a w : faults w = [] ->
  transferable o i t user recipient p x a (st w) ->
  transfer_credits now o i t user p w = (Ok (receipt now user recipient a (transfer_notes p)),
    set_st (transferred_state now o i t user recipient p x a (st w)) w).
Proof.
  intros Hf ([Hpos Hbal] & Hw & Hne & Hx & Ha & Ho & Hi & Hoi & Ht & Hu & Hr & Hv & Hn).
  unfold transfer_credits. destruct (Z.leb_spec (transfer_amount p) 0); [lia|].
  rewrite (bind_run _ _ w (Some recipient) w) by (unfold internal; apply map_err_run; by rewrite query_calm, Hw).
  apply N.eqb_neq in Hne. rewrite Hne. unfold internal. apply map_err_run, with_tx_run; [done| |done].
  unfold transfer_statements.
  rewrite (bind_run _ _ w (sum_credits user (Some CarbonActive) (st w)) w) by by apply query_calm.
  destruct (Z.ltb_spec (sum_credits user (Some CarbonActive) (st w)) (transfer_amount p)); [lia|].
  rewrite (bind_run _ _ w () w) by done.
  set (d1 := set_credits (<[o := debit now user (to_wallet_address p) x]> (carbon_credits (st w))) (st w)).
  rewrite (bind_run _ _ w () (set_st d1 w)).
  2: { rewrite exec_calm by done. rewrite (insert_credit_fits _ _ _ x); try done. }
  set (d2 := set_credits (<[i := credit now recipient a]> (carbon_credits d1)) d1).
  rewrite (bind_run _ _ _ () (set_st d2 w)).
  2: { rewrite exec_calm by done. rewrite (insert_credit_fits _ _ _ a); try done. simpl. by rewrite lookup_insert_ne. }
  rewrite exec_ret_calm by done. unfold insert_carbon_transaction. simpl. destruct Hr as [ur Hr].
  rewrite Hr, Ht, Ha, Hn, bool_decide_eq_true_2 by done. done.
Qed.

(** ** Sums after a transfer *)

Lemma sum_credits_counted user s d : sum_credits user s d = sumZ (counted user s) (map_to_list (carbon_credits d)).*2.
Proof. done. Qed.

Lemma sum_after now o i t user recipient p x a d (f : CarbonCredit -> Z) :
  carbon_credits d !! o = None -> carbon_credits d !! i = None -> o <> i ->
  sumZ f (map_to_list (carbon_credits (transferred_state now o i t user recipient p x a d))).*2
  = sumZ f (map_to_list (carbon_credits d)).*2 + f (debit now user (to_wallet_address p) x) + f (credit now recipient a).
Proof.
  intros Ho Hi Hoi. simpl. rewrite !sumZ_table_insert, lookup_insert_ne, Ho, Hi by done. simpl. lia.
Qed.

(** What a transfer adds to the active credits of a user. *)
Lemma active_after now o i t user recipient p x a d v : transferable o i t user recipient p x a d ->
  sum_credits v (Some CarbonActive) (transferred_state now o i t user recipient p x a d)
  = sum_credits v (Some CarbonActive) d + if (recipient =? v)%N then a else 0.
Proof.
  intros (_ & _ & _ & _ & _ & Ho & Hi & Hoi & _). rewrite !sum_credits_counted, sum_after by done.
  unfold counted, debit, credit. simpl. rewrite andb_false_r. destruct (recipient =? v)%N; simpl; lia.
Qed.

(** ** Histories of requests *)

Inductive CarbonOp :=
| DoTransfer (now : DateTime) (out_id in_id tx_id user : Uuid) (payload : CarbonTransfer)
| DoBalance (user : Uuid)
| DoHistory (user : Uuid) (limit offset : option Z)
| DoTransactions (user : Uuid) (limit offset : option Z).

Definition carbon_op (op : CarbonOp) : KM unit :=
  match op with
  | DoTransfer now o i t user p => spawn (transfer_credits now o i t user p)
  | DoBalance user => spawn (get_carbon_balance user)
  | DoHistory user limit offset => spawn (get_carbon_history user limit offset)
  | DoTransactions user limit offset => spawn (get_carbon_transactions user limit offset)
  end.

Definition carbon_run (ops : list CarbonOp) w : world CarbonDb Event :=
  foldl (fun w op => (carbon_op op w).2) w ops.

(** What may have happened to the tables: rows were added, nothing was taken from anybody. *)
Definition carbon_evolves d d' : Prop :=
  credits_total d' = credits_total d
  /\ (forall v, sum_credits v (Some CarbonActive) d <= sum_credits v (Some CarbonActive) d')
  /\ carbon_credits d ⊆ carbon_credits d' /\ carbon_transactions d ⊆ carbon_transactions d'
  /\ carbon_users d' = carbon_users d /\ carbon_certificates d' = carbon_certificates d.

Lemma carbon_evolves_refl d : carbon_evolves d d.
Proof. unfold carbon_evolves. by split_and!; try done; intros v. Qed.

Lemma carbon_evolves_trans d1 d2 d3 : carbon_evolves d1 d2 -> carbon_evolves d2 d3 -> carbon_evolves d1 d3.
Proof.
  intros (T1 & A1 & C1 & X1 & U1 & E1) (T2 & A2 & C2 & X2 & U2 & E2). split_and!; try congruence.
  - intros v. by etrans; [apply A1|apply A2].
  - by etrans.
  - by etrans.
Qed.

Lemma positive_stored z a : 0 < z -> num8 z = Some a -> 0 <= a.
Proof. intros Hz Ha. destruct (num8_stored z a Ha) as [[k ->] Hk]. unfold G8 in *. lia. Qed.

Lemma reading_keeps {A} (m : KM A) : preserves (fun _ => True) m -> forall w, st (m w).2 = st w -> carbon_evolves (st w) (st (m w).2).
Proof. intros _ w ->. apply carbon_evolves_refl. Qed.

Lemma internally_query {A} what (f : CarbonDb -> A) w : st (internally what (query f) w).2 = st w.
Proof.
  unfold internally, map_err. destruct (query f w) as [[a|e] w1] eqn:E; [|destruct e]; by apply query_st in E.
Qed.

Lemma internally_rows {A} what (f : CarbonDb -> option A) w :
  st (internally what (rows ← query f; expect FDb rows) w).2 = st w.
Proof.
  unfold internally, map_err. destruct (query f w) as [[a|e] w1] eqn:E.
  - rewrite (bind_run _ _ _ _ _ E). apply query_st in E. by destruct a.
  - rewrite (bind_run_Err _ _ _ _ _ E). apply query_st in E. by destruct e.
Qed.
End lemmas.

Section properties.
Context `{NUM : Numerics} `{NS : !NumericSign} `{ENV : Env} `{DT : DecimalText} `{DP : DecimalParse}.
Implicit Types (d : CarbonDb) (w : world CarbonDb Event).

Lemma transferred_evolves now o i t user recipient p x a d : transferable o i t user recipient p x a d ->
  carbon_evolves d (transferred_state now o i t user recipient p x a d).
Proof.
  intros Ht. pose proof Ht as ([Hpos _] & _ & _ & Hx & Ha & Ho & Hi & Hoi & Hft & _).
  pose proof (positive_stored _ _ Hpos Ha) as Ha0. rewrite num8_opp, Ha in Hx. injection Hx as <-. split_and!.
  - unfold credits_total. rewrite sum_after by done. simpl. lia.
  - intros v. rewrite active_after by done. destruct (_ =? _)%N; lia.
  - simpl. transitivity (<[o := debit now user (to_wallet_address p) (- a)]> (carbon_credits d));
      apply insert_subseteq; [done|by rewrite lookup_insert_ne].
  - simpl. by apply insert_subseteq.
  - done.
  - done.
Qed.

Lemma op_evolves op w : carbon_evolves (st w) (st (carbon_op op w).2).
Proof.
  destruct op as [now o i t user p|user|user l off|user l off]; unfold carbon_op, spawn; cbn [snd].
  - destruct (transfer_credits now o i t user p w) as [[tx|e] w'] eqn:E; cbn [snd].
    + apply credits_transfer_Ok in E as (r & x & a & Ht & _ & -> & _). by apply transferred_evolves.
    + apply transfer_Err in E as ->. apply carbon_evolves_refl.
  - unfold get_carbon_balance. rewrite internally_query. apply carbon_evolves_refl.
  - unfold get_carbon_history. rewrite internally_rows. apply carbon_evolves_refl.
  - unfold get_carbon_transactions. rewrite internally_rows. apply carbon_evolves_refl.
Qed.

(** Over any history of requests and any failures the credits in existence stay the same and no
    row is lost or changed; yet nobody's active credits ever become less, whatever they transfer. *)
Theorem carbon_history ops w : carbon_evolves (st w) (st (carbon_run ops w)).
Proof.
  unfold carbon_run. revert w. induction ops as [|op ops IH]; intros w; simpl; [apply carbon_evolves_refl|].
  eapply carbon_evolves_trans; [apply op_evolves|apply IH].
Qed.

(** A transfer that is answered stored the receipt it answers and the two rows behind it, for
    a recipient who is another user and an amount the sender had active; one that is refused
    left every table as it was; and while nothing fails nothing but that is needed. *)
Theorem transfer_credits_outcome now o i t user p w :
  match transfer_credits now o i t user p w with
  | (Ok tx, w') => exists recipient x a, transferable o i t user recipient p x a (st w)
      /\ tx = receipt now user recipient a (transfer_notes p)
      /\ st w' = transferred_state now o i t user recipient p x a (st w) /\ trace w' = trace w
  | (Err _, w') => st w' = st w /\ (faults w = [] ->
      ~ exists recipient x a, transferable o i t user recipient p x a (st w))
  end.
Proof.
  destruct (transfer_credits now o i t user p w) as [[tx|e] w'] eqn:E; [by apply credits_transfer_Ok in E|].
  split; [by eapply transfer_Err|]. intros Hf (r & x & a & Ht).
  rewrite (transfer_calm now o i t user r p x a w Hf Ht) in E. done.
Qed.

(** ** Spending twice *)

Definition fresh_ids (ids : list (Uuid * Uuid * Uuid)) d : Prop :=
  NoDup (ids ≫= fun x => [x.1.1; x.1.2]) /\ NoDup ids.*2
  /\ Forall (fun x => carbon_credits d !! x.1.1 = None /\ carbon_credits d !! x.1.2 = None
                      /\ carbon_transactions d !! x.2 = None) ids.

Definition transfer_all (now : DateTime) (user : Uuid) (p : CarbonTransfer) (ids : list (Uuid * Uuid * Uuid)) w :=
  foldl (fun w x => (transfer_credits now x.1.1 x.1.2 x.2 user p w).2) w ids.

Lemma fresh_ids_after now x ids user recipient p y a d : fresh_ids (x :: ids) d ->
  fresh_ids ids (transferred_state now x.1.1 x.1.2 x.2 user recipient p y a d).
Proof.
  intros (Hn & Ht & Hf). simpl in Hn. apply list.NoDup_cons in Hn as [Ho Hn]. apply list.NoDup_cons in Hn as [Hi Hn].
  simpl in Ht. apply list.NoDup_cons in Ht as [Hx Ht]. inversion_clear Hf as [|? ? _ Hf']. split_and!; [done..|].
  rewrite list.Forall_forall in *. intros z Hz. destruct (Hf' z Hz) as (H1 & H2 & H3). simpl.
  assert (Hin : forall v, v = z.1.1 \/ v = z.1.2 -> v ∈ ids ≫= (fun x => [x.1.1; x.1.2])).
  { intros v Hv. apply list_elem_of_bind. exists z. split; [|done]. destruct Hv as [-> | ->]; [left|right; left]. }
  rewrite !lookup_insert_ne; [by split_and!|..].
  - intros E. apply Hx. rewrite E. by apply list_elem_of_fmap_2.
  - intros E. apply Ho. right. rewrite E. apply Hin. by right.
  - intros E. apply Hi. rewrite E. apply Hin. by right.
  - intros E. apply Ho. right. rewrite E. apply Hin. by left.
  - intros E. apply Hi. rewrite E. apply Hin. by left.
Qed.

Lemma transferable_again o i t user recipient p x a d d' : transferable o i t user recipient p x a d ->
  carbon_users d' = carbon_users d ->
  sum_credits user (Some CarbonActive) d <= sum_credits user (Some CarbonActive) d' ->
  forall o' i' t', carbon_credits d' !! o' = None -> carbon_credits d' !! i' = None -> o' <> i' ->
  carbon_transactions d' !! t' = None -> transferable o' i' t' user recipient p x a d'.
Proof.
  intros ([H1 H2] & H3 & H4 & H5 & H6 & _ & _ & _ & _ & H7 & H8 & H9 & H10) Hu Hs o' i' t' Ho Hi Hn Ht.
  unfold transferable, recipient_of in *. rewrite Hu. split_and!; try done. lia.
Qed.

Lemma transfer_all_grows now user recipient p x a ids w : faults w = [] -> fresh_ids ids (st w) ->
  (forall o i t, carbon_credits (st w) !! o = None -> carbon_credits (st w) !! i = None -> o <> i ->
     carbon_transactions (st w) !! t = None -> transferable o i t user recipient p x a (st w)) ->
  user <> recipient ->
  let w' := transfer_all now user p ids w in
  sum_credits user (Some CarbonActive) (st w') = sum_credits user (Some CarbonActive) (st w)
  /\ sum_credits recipient (Some CarbonActive) (st w')
     = sum_credits recipient (Some CarbonActive) (st w) + Z.of_nat (length ids) * a
  /\ size (carbon_transactions (st w')) = (size (carbon_transactions (st w)) + length ids)%nat.
Proof.
  intros Hf Hids Hall Hne. revert w Hf Hids Hall. induction ids as [|y ids IH]; intros w Hf Hids Hall; simpl;
    [split_and!; lia|].
  pose proof Hids as (Hn & _ & Hfr). inversion_clear Hfr as [|? ? (Ho & Hi & Ht) _].
  assert (Hoi : y.1.1 <> y.1.2). { simpl in Hn. apply list.NoDup_cons in Hn as [Hn _]. intros E. apply Hn. rewrite E. left. }
  pose proof (Hall _ _ _ Ho Hi Hoi Ht) as Htr. rewrite (transfer_calm now _ _ _ user recipient p x a w Hf Htr). cbn [snd].
  set (w1 := set_st _ w). destruct (IH w1) as (H1 & H2 & H3); [done|by apply fresh_ids_after| |].
  - intros o i t Ho' Hi' Hoi' Ht'. eapply transferable_again; [exact Htr|done| |done..].
    unfold w1. simpl st. rewrite active_after by done. rewrite (proj2 (N.eqb_neq recipient user)) by done. lia.
  - unfold transfer_all in H1, H2, H3 |- *. rewrite H1, H2, H3. unfold w1. simpl st. rewrite !active_after by done.
    rewrite N.eqb_refl, (proj2 (N.eqb_neq recipient user)) by done. split_and!; [lia|lia|].
    simpl. rewrite map_size_insert_None by done. lia.
Qed.

(** The same credits can be spent any number of times: whoever can make a transfer once can
    make it as often as they like, keeps all of their own active credits, and the recipient gets
    the amount every time. *)
Theorem credits_respent now user recipient p x a ids w : faults w = [] -> fresh_ids ids (st w) ->
  (exists o i t, transferable o i t user recipient p x a (st w)) ->
  let w' := transfer_all now user p ids w in
  sum_credits user (Some CarbonActive) (st w') = sum_credits user (Some CarbonActive) (st w)
  /\ sum_credits recipient (Some CarbonActive) (st w')
     = sum_credits recipient (Some CarbonActive) (st w) + Z.of_nat (length ids) * a
  /\ size (carbon_transactions (st w')) = (size (carbon_transactions (st w)) + length ids)%nat.
Proof.
  intros Hf Hids (o & i & t & Ht). apply (transfer_all_grows now user recipient p x a); [done..| |].
  - intros o' i' t' ????. by eapply transferable_again.
  - intros ->. by destruct Ht as (_ & _ & Hne & _).
Qed.

(** The history of credits and certificates answers only with the empty list: with a row on
    the page it is an error. *)
Theorem history_unreadable user limit offset w rows w' :
  get_carbon_history user limit offset w = (Ok rows, w') ->
  rows = [] /\ (0 <= Z.min (default 50 limit) 100 /\ 0 <= default 0 offset)
  /\ (history_rows user (st w) = [] \/ Z.min (default 50 limit) 100 = 0
      \/ Z.of_nat (length (history_rows user (st w))) <= default 0 offset).
Proof.
  unfold get_carbon_history, internally. intros H%map_err_Ok.
  apply bind_Ok in H as (r & w1 & (-> & _ & _)%query_Ok & [H _]%expect_Ok).
  unfold page in H. destruct (_ || _) eqn:E in H; [done|]. apply orb_false_elim in E as [E1%Z.ltb_ge E2%Z.ltb_ge].
  simpl in H. destruct (take _ _) as [|y l] eqn:Ht; [|done]. injection H as <-. split_and!; [done..|].
  apply (f_equal length) in Ht. rewrite length_take, length_drop in Ht. simpl in Ht.
  destruct (history_rows user (st w)); [by left|right]. simpl in *. lia.
Qed.

(** The balance adds up: what is in no bucket is the energy of certificates that expired or
    changed hands. *)
Theorem balance_adds_up user w b w' : get_carbon_balance user w = (Ok b, w') ->
  total_credits b = active_credits b + retired_credits b + transferred_credits b
    + sum_certificates user (Some CertExpired) (st w) + sum_certificates user (Some CertTransferred) (st w).
Proof.
  unfold get_carbon_balance, internally. intros H%map_err_Ok. apply query_Ok in H as (-> & _ & _). simpl.
  unfold sum_credits, sum_certificates.
  assert (H1 : forall l, sumZ (counted user None) l = sumZ (counted user (Some CarbonActive)) l
    + sumZ (counted user (Some CarbonRetired)) l + sumZ (counted user (Some CarbonTransferred)) l).
  { induction l as [|c l IH]; simpl; [done|]. rewrite IH. unfold counted.
    destruct (_ =? _)%N; simpl; [|lia]. destruct (cc_status c); repeat case_bool_decide; simplify_eq; try lia. }
  rewrite (H1 _ : sumZ _ _ = _).
  enough (H2 : forall l : list ErcCertificate,
    let f s := sumZ (fun c => if bool_decide (ct_user_id c = Some user)
       && match s with Some s => bool_decide (ct_status c = s) | None => true end then default 0 (ct_kwh_amount c) else 0) l in
    f None = f (Some CertActive) + f (Some CertRetired) + f (Some CertExpired) + f (Some CertTransferred)).
  { specialize (H2 (map_to_list (carbon_certificates (st w))).*2). simpl in H2. unfold counted. lia. }
  intros l f. unfold f. induction l as [|c l IH]; simpl; [done|].
  rewrite IH. destruct (bool_decide (ct_user_id c = Some user)); simpl; [|lia].
  destruct (ct_status c); repeat case_bool_decide; simplify_eq; lia.
Qed.

(** Both parties find a transfer that was answered among their transactions. *)
Theorem transfer_listed now o i t user p w tx w' v : transfer_credits now o i t user p w = (Ok tx, w') ->
  v = user \/ recipient_of (to_wallet_address p) (st w) = Some v -> (t, tx) ∈ transaction_rows v (st w').
Proof.
  intros (r & x & a & Ht & -> & -> & _)%credits_transfer_Ok Hv. destruct Ht as (_ & Hw & _).
  unfold transaction_rows. rewrite sort_by_perm. apply list_elem_of_In, List.filter_In.
  split.
  - apply list_elem_of_In, elem_of_map_to_list. simpl. apply lookup_insert_eq.
  - simpl. apply orb_true_intro. destruct Hv as [->|Hv]; [left; by rewrite bool_decide_eq_true_2|right].
    apply N.eqb_eq. congruence.
Qed.
End properties.

(** ** Concrete runs *)

Section demo.
#[local] Existing Instances std_numerics demo_env demo_decimal_text.

#[local] Instance std_sign : NumericSign.
Proof.
  split. intros z. simpl. unfold std_num8, round8. rewrite Z.abs_opp, Z.sgn_opp.
  destruct (_ <=? _); [|done]. simpl. f_equal. lia.
Qed.

#[local] Instance demo_parse : DecimalParse := {| text_f64 z := f64_lit z U |}.

Definition demo_credits : world CarbonDb Event := World
  {| carbon_users := <[1%N := Some "WalletA"]> (<[2%N := Some "WalletB"]> ∅);
     carbon_credits := <[9%N := {| cc_user_id := 1; cc_amount := 5 * U; cc_source := "solar";
       cc_source_reference_id := None; cc_status := CarbonActive; cc_description := None; cc_created_at := 0 |}]> ∅;
     carbon_transactions := ∅; carbon_certificates := ∅ |} [] [].

Definition demo_transfer : CarbonTransfer :=
  {| to_wallet_address := "WalletB"; transfer_amount := 4 * U; transfer_notes := Some "thanks" |}.

Lemma demo_transferable o i t : carbon_credits (st demo_credits) !! o = None ->
  carbon_credits (st demo_credits) !! i = None -> o <> i -> carbon_transactions (st demo_credits) !! t = None ->
  transferable o i t 1 2 demo_transfer (- (4 * U)) (4 * U) (st demo_credits).
Proof.
  intros Ho Hi Hoi Ht. unfold transferable. change (sum_credits 1 (Some CarbonActive) (st demo_credits)) with (5 * U).
  split_and!; try done; simpl; try (unfold U; lia); by eexists.
Qed.

(** Three transfers of four of five credits leave twelve and the five. *)
Lemma credits_respent_witness :
  let w' := transfer_all 50 1 demo_transfer [(10, 11, 12); (13, 14, 15); (16, 17, 18)]%N demo_credits in
  sum_credits 1 (Some CarbonActive) (st w') = 5 * U /\ sum_credits 2 (Some CarbonActive) (st w') = 0 + 3 * (4 * U)
  /\ size (carbon_transactions (st w')) = (0 + 3)%nat.
Proof.
  apply (credits_respent 50 1 2 demo_transfer (- (4 * U)) (4 * U) [(10, 11, 12); (13, 14, 15); (16, 17, 18)]%N demo_credits).
  - reflexivity.
  - unfold fresh_ids. split; [eapply bool_decide_unpack; vm_compute; exact I|]. split; [eapply bool_decide_unpack; vm_compute; exact I|].
    by repeat (apply list.Forall_cons; split).
  - exists 10%N, 11%N, 12%N. by apply demo_transferable.
Defined.

Lemma carbon_history_witness :
  carbon_evolves (st demo_credits) (st (carbon_run [DoTransfer 50 10 11 12 1 demo_transfer] demo_credits)).
Proof. apply (carbon_history [DoTransfer 50 10 11 12 1 demo_transfer] demo_credits). Defined.

Lemma history_unreadable_witness : exists w',
  get_carbon_history 2 None None demo_credits = (Ok [], w')
  /\ (history_rows 2 (st demo_credits) = [] \/ Z.min 50 100 = 0 \/ Z.of_nat (length (history_rows 2 (st demo_credits))) <= 0).
Proof.
  destruct (get_carbon_history 2 None None demo_credits) as [r w'] eqn:E. vm_compute in E. injection E as <- <-.
  eexists. split; [vm_compute; reflexivity|].
  apply (history_unreadable 2 None None demo_credits [] demo_credits). vm_compute. reflexivity.
Defined.

Lemma balance_adds_up_witness : exists b, get_carbon_balance 1 demo_credits = (Ok b, demo_credits)
  /\ total_credits b = active_credits b + retired_credits b + transferred_credits b + 0 + 0.
Proof.
  eexists. split; [reflexivity|]. apply (balance_adds_up 1 demo_credits _ demo_credits). reflexivity.
Defined.

Lemma transfer_listed_witness : (12%N, receipt 50 1 2 (4 * U) (Some "thanks")) ∈
  transaction_rows 2 (st (transfer_credits 50 10 11 12 1 demo_transfer demo_credits).2).
Proof.
  apply (transfer_listed 50 10 11 12 1 demo_transfer demo_credits _ _ 2); [vm_compute; reflexivity|].
  right. vm_compute. reflexivity.
Defined.
End demo.
