(* ===== verification/LinkedWallets.v ===== *)
(** The wallet addresses linked to an account.

    [src/handlers/wallets.rs] over the table [user_wallets]: listing, linking, removing and
    choosing the primary one.  Identifiers and the current time are arguments.  A removal is not
    one transaction; its two halves are definitions of their own. *)
From S2P Require Import Prelude Numerics Floats Errors Store Schema Settlement.
Open Scope string_scope.
Open Scope Z_scope.

(** A row of [user_wallets]; all its columns with a default are nullable. *)
Record UserWallet := {
  uw_user_id : Uuid;
  uw_address : string;
  uw_label : option string;
  uw_primary : option bool;
  uw_verified : option bool;
  uw_created_at : option DateTime;
}.

#[global] Instance UserWallet_eq_dec : EqDecision UserWallet.
Proof. solve_decision. Defined.

(** The users there are, and the rows by their key. *)
Record LinkDb := {
  link_users : gset Uuid;
  links : gmap Uuid UserWallet;
}.
Abbreviation LM := (M LinkDb Event).

Definition set_links (m : gmap Uuid UserWallet) (d : LinkDb) : LinkDb :=
  {| link_users := link_users d; links := m |}.

Record LinkWalletRequest := {
  lk_address : string;
  lk_label : option string;
  lk_primary : option bool;
}.

Definition with_primary (b : bool) (x : UserWallet) : UserWallet :=
  {| uw_user_id := uw_user_id x; uw_address := uw_address x; uw_label := uw_label x;
     uw_primary := Some b; uw_verified := uw_verified x; uw_created_at := uw_created_at x |}.

(** ** Statements *)

Definition owned (user : Uuid) (x : UserWallet) : bool := (uw_user_id x =? user)%N.
Definition primary (x : UserWallet) : bool := default false (uw_primary x).
Definition owned_primary (user : Uuid) (x : UserWallet) : bool := owned user x && primary x.

(** Whether a row of the table is as [p] says. *)
Definition any_row (p : UserWallet -> bool) (m : gmap Uuid UserWallet) : bool :=
  existsb p (map_to_list m).*2.

(** [UPDATE .. SET is_primary = false WHERE user_id = $1 AND is_primary = true]. *)
Definition unset_primary (user : Uuid) (d : LinkDb) : option LinkDb :=
  Some (set_links ((fun x => if owned_primary user x then with_primary false x else x) <$> links d) d).

Definition count_links (user : Uuid) (d : LinkDb) : nat :=
  length (List.filter (owned user) (map_to_list (links d)).*2).

(** [INSERT INTO user_wallets]: [None] when the server refuses it, a row that is not there when
    it is [unique_wallet_address] that refuses. *)
Definition insert_link (id : Uuid) (x : UserWallet) (d : LinkDb) : option (option UserWallet * LinkDb) :=
  if negb (varchar 64 (Some (uw_address x)) && varchar 50 (uw_label x)) || bool_decide (is_Some (links d !! id))
  then None
  else if any_row (fun y => (uw_address y =? uw_address x)%string) (links d) then Some (None, d)
  else if (primary x && any_row (owned_primary (uw_user_id x)) (links d))
          || negb (bool_decide (uw_user_id x ∈ link_users d)) then None
  else Some (Some x, set_links (<[id := x]> (links d)) d).

Definition find_link (user id : Uuid) (d : LinkDb) : option UserWallet :=
  x ← links d !! id; if owned user x then Some x else None.

Definition count_others (user id : Uuid) (d : LinkDb) : nat :=
  length (List.filter (fun y => owned user y.2 && negb (y.1 =? id)%N) (map_to_list (links d))).

(** [DELETE FROM user_wallets WHERE id = $1 AND user_id = $2], and the rows it deletes. *)
Definition delete_link (user id : Uuid) (d : LinkDb) : option (nat * LinkDb) :=
  match find_link user id d with
  | Some _ => Some (1%nat, set_links (delete id (links d)) d)
  | None => Some (0%nat, d)
  end.

(** NULLs come last in an ascending order. *)
Definition linked_before (x y : Uuid * UserWallet) : bool :=
  match uw_created_at x.2, uw_created_at y.2 with
  | Some a, Some b => a <=? b
  | Some _, None => true
  | None, Some _ => false
  | None, None => true
  end.

Definition oldest_link (user : Uuid) (d : LinkDb) : option Uuid :=
  fst <$> head (sort_by linked_before (List.filter (fun y => owned user y.2) (map_to_list (links d)))).

(** Promotes the oldest wallet of a user without a primary one. *)
Definition promote (user : Uuid) (d : LinkDb) : option LinkDb :=
  if any_row (owned_primary user) (links d) then Some d
  else match oldest_link user d with
       | Some id => Some (set_links (alter (with_primary true) id (links d)) d)
       | None => Some d
       end.

(** [UPDATE .. SET is_primary = true .. RETURNING], which the index on primaries may refuse. *)
Definition make_primary (user id : Uuid) (d : LinkDb) : option (option UserWallet * LinkDb) :=
  match find_link user id d with
  | None => Some (None, d)
  | Some x =>
      if any_row (owned_primary user) (delete id (links d)) then None
      else Some (Some (with_primary true x), set_links (<[id := with_primary true x]> (links d)) d)
  end.

(** A row as the handlers read it: [is_primary!], [verified!] and [created_at!]. *)
Definition decode_link (x : UserWallet) : option UserWallet :=
  _ ← uw_primary x; _ ← uw_verified x; _ ← uw_created_at x; Some x.

(** Descending with NULLs first, then by age. *)
Definition primary_rank (x : UserWallet) : Z :=
  match uw_primary x with None => 0 | Some true => 1 | Some false => 2 end.
Definition listed_before (x y : Uuid * UserWallet) : bool :=
  (primary_rank x.2 <? primary_rank y.2)
  || (primary_rank x.2 =? primary_rank y.2) && linked_before x y.

(** ** Requests *)

Section requests.
Context `{ENV : Env}.

Definition server_error {A} (m : LM A) : LM A :=
  map_err (fun e => match e with FDb => FApi (Internal db_error_text) | _ => e end) m.
Definition server_error_in {A} (what : string) (m : LM A) : LM A :=
  map_err (fun e => match e with FDb => FApi (Internal (what ++ ": " ++ db_error_text)) | _ => e end) m.

Definition list_wallets (user : Uuid) : LM (list (Uuid * UserWallet)) :=
  server_error_in "Failed to list wallets"
    (rows ← query (fun d => mapM (fun x => _ ← decode_link x.2; Some x)
       (sort_by listed_before (List.filter (fun x => owned user x.2) (map_to_list (links d)))));
     expect FDb rows).

(** The transaction of [link_wallet]. *)
Definition link_statements (now : DateTime) (id user : Uuid) (payload : LinkWalletRequest) : LM UserWallet :=
  let set_primary := default false (lk_primary payload) in
  (if set_primary then server_error_in "Failed to update primary" (exec (unset_primary user)) else mret ()) ;;
  existing_count ← server_error (query (count_links user));
  row ← server_error_in "Failed to link wallet" (exec_ret (insert_link id
    {| uw_user_id := user; uw_address := lk_address payload; uw_label := lk_label payload;
       uw_primary := Some (set_primary || (existing_count =? 0)%nat); uw_verified := Some false;
       uw_created_at := Some now |}));
  expect (FApi (BadRequest "This wallet address is already linked to an account")) row.

Definition link_wallet (now : DateTime) (id user : Uuid) (payload : LinkWalletRequest) : LM (UserWallet * string) :=
  if (String.length (lk_address payload) <? 32)%nat || (64 <? String.length (lk_address payload))%nat
  then fail (FApi (BadRequest "Invalid wallet address format"))
  else
    wallet ← server_error (with_tx (link_statements now id user payload));
    mret (wallet, "Wallet linked successfully" ++ if primary wallet then " as primary" else "").

(** [remove_wallet] up to the DELETE, and from there on. *)
Definition remove_check (user id : Uuid) : LM unit :=
  wallet ← server_error (query (find_link user id));
  match wallet with
  | None => fail (FApi (NotFound "Wallet not found"))
  | Some x =>
      if primary x then
        other_count ← server_error (query (count_others user id));
        if (other_count =? 0)%nat
        then fail (FApi (BadRequest "Cannot remove the only wallet. Link another wallet first."))
        else mret ()
      else mret ()
  end.

Definition remove_rest (user id : Uuid) : LM unit :=
  affected ← server_error_in "Failed to remove wallet" (exec_ret (delete_link user id));
  if (affected =? 0)%nat then fail (FApi (NotFound "Wallet not found"))
  else ignore (exec (promote user)).

Definition remove_wallet (user id : Uuid) : LM unit :=
  remove_check user id ;; remove_rest user id.

Definition set_primary_wallet (user id : Uuid) : LM UserWallet :=
  server_error (with_tx (
    exec (unset_primary user) ;;
    row ← exec_ret (make_primary user id);
    wallet ← expect (FApi (NotFound "Wallet not found")) row;
    expect FDb (decode_link wallet))).
End requests.

(** ** Lemmas *)

Lemma any_row_true p m : any_row p m = true <-> exists i x, m !! i = Some x /\ p x = true.
Proof.
  unfold any_row. rewrite existsb_exists. split.
  - intros (x & H & Hp). apply list_elem_of_In, list_elem_of_fmap in H as ([i y] & -> & H%elem_of_map_to_list). by exists i, y.
  - intros (i & x & H & Hp). exists x. split; [|done]. apply list_elem_of_In, list_elem_of_fmap.
    exists (i, x). split; [done|]. by apply elem_of_map_to_list.
Qed.

Lemma any_row_false p m : any_row p m = false <-> forall i x, m !! i = Some x -> p x = false.
Proof.
  rewrite <- not_true_iff_false, any_row_true. split.
  - intros H i x Hx. apply not_true_iff_false. intros Hp. apply H. by exists i, x.
  - intros H (i & x & Hx & Hp). by rewrite (H i x Hx) in Hp.
Qed.

(** ** What holds of the table *)

(** Every row belongs to a user, and no two have an address or are the primary one of a user in
    common. *)
Record links_wf (d : LinkDb) : Prop := {
  wf_owner i x : links d !! i = Some x -> uw_user_id x ∈ link_users d;
  wf_address i j x y : links d !! i = Some x -> links d !! j = Some y -> uw_address x = uw_address y -> i = j;
  wf_primary i j x y : links d !! i = Some x -> links d !! j = Some y -> primary x = true -> primary y = true ->
    uw_user_id x = uw_user_id y -> i = j;
}.

(** Whoever has a wallet has a primary one. *)
Definition has_primary (d : LinkDb) : Prop :=
  forall i x, links d !! i = Some x -> exists j y, links d !! j = Some y /\ owned_primary (uw_user_id x) y = true.

(** Equal but for being the primary one. *)
Definition same_link (x y : UserWallet) : Prop :=
  uw_user_id y = uw_user_id x /\ uw_address y = uw_address x /\ uw_label y = uw_label x
  /\ uw_verified y = uw_verified x /\ uw_created_at y = uw_created_at x.

#[local] Instance same_link_preorder : PreOrder same_link.
Proof. split; [by intros x|]. intros x y z (?&?&?&?&?) (?&?&?&?&?). by split_and!; etrans. Qed.

Lemma with_primary_same b x : same_link x (with_primary b x).
Proof. done. Qed.

(** A row was there before, or it was never verified. *)
Definition links_evolve (d d' : LinkDb) : Prop :=
  link_users d' = link_users d
  /\ forall i y, links d' !! i = Some y -> (exists x, links d !! i = Some x /\ same_link x y) \/ uw_verified y = Some false.

Lemma links_evolve_refl d : links_evolve d d.
Proof. split; [done|]. intros i y H. left. by exists y. Qed.

Lemma links_evolve_trans d1 d2 d3 : links_evolve d1 d2 -> links_evolve d2 d3 -> links_evolve d1 d3.
Proof.
  intros [U1 H1] [U2 H2]. split; [congruence|]. intros i z Hz. destruct (H2 i z Hz) as [(y & Hy & Hs)|]; [|by right].
  destruct (H1 i y Hy) as [(x & Hx & Hs')|Hv].
  - left. exists x. split; [done|by etrans].
  - right. destruct Hs as (_ & _ & _ & -> & _). done.
Qed.

Lemma owned_true user x : owned user x = true <-> uw_user_id x = user.
Proof. apply N.eqb_eq. Qed.

Lemma owned_primary_true user x : owned_primary user x = true <-> uw_user_id x = user /\ primary x = true.
Proof. unfold owned_primary. by rewrite andb_true_iff, owned_true. Qed.

(** A table whose rows come from another's, each the same but for its primary flag. *)
Lemma wf_reflagged d m : links_wf d ->
  (forall i y, m !! i = Some y -> exists x, links d !! i = Some x /\ same_link x y) ->
  (forall i j x y, m !! i = Some x -> m !! j = Some y -> primary x = true -> primary y = true ->
     uw_user_id x = uw_user_id y -> i = j) -> links_wf (set_links m d).
Proof.
  intros [Ho Ha _] Hm Hp. split; simpl; [| |done].
  - intros i y Hy. destruct (Hm i y Hy) as (x & Hx & Hs & _). rewrite Hs. by eapply Ho.
  - intros i j y z Hy Hz. destruct (Hm i y Hy) as (x & Hx & _ & Hs & _), (Hm j z Hz) as (x' & Hx' & _ & Hs' & _).
    rewrite Hs, Hs'. by apply Ha.
Qed.

Lemma unset_lookup user d d' i y : unset_primary user d = Some d' -> links d' !! i = Some y ->
  exists x, links d !! i = Some x /\ same_link x y /\ owned_primary user y = false
    /\ (uw_user_id x <> user -> y = x).
Proof.
  intros [= <-]. simpl. rewrite lookup_fmap_Some. intros (x & <- & Hx). exists x. split; [done|].
  destruct (owned_primary user x) eqn:E; [|done]. split_and!; [done| |].
  - unfold owned_primary, primary. simpl. apply andb_false_r.
  - intros Hne. by apply owned_primary_true in E as [? _].
Qed.

Lemma unset_wf user d d' : unset_primary user d = Some d' -> links_wf d -> links_wf d' /\ links_evolve d d'.
Proof.
  intros E H. assert (Hd : d' = set_links (links d') d) by by injection E as <-. split.
  - rewrite Hd. apply wf_reflagged; [done| |].
    + intros i y Hy. destruct (unset_lookup _ _ _ _ _ E Hy) as (x & Hx & Hs & _). by exists x.
    + intros i j x y Hx Hy Px Py Hu.
      destruct (unset_lookup _ _ _ _ _ E Hx) as (x0 & Hx0 & (Hsu & _) & Nx & Ex), (unset_lookup _ _ _ _ _ E Hy) as (y0 & Hy0 & _ & Ny & Ey).
      unfold owned_primary in Nx, Ny. rewrite Px, andb_true_r in Nx. rewrite Py, andb_true_r in Ny.
      apply N.eqb_neq in Nx, Ny. destruct H as [_ _ Hp]. 
      assert (x = x0) as -> by (apply Ex; congruence).
      destruct (unset_lookup _ _ _ _ _ E Hy) as (y1 & Hy1 & (Hsu1 & _) & _ & Ey1).
      assert (y = y1) as -> by (apply Ey1; congruence). by eapply Hp.
  - split; [by injection E as <-|]. intros i y Hy. destruct (unset_lookup _ _ _ _ _ E Hy) as (x & Hx & Hs & _). left. by exists x.
Qed.

Lemma insert_link_Some id x d r d' : insert_link id x d = Some (r, d') ->
  links d !! id = None /\ (varchar 64 (Some (uw_address x)) = true /\ varchar 50 (uw_label x) = true)
  /\ (r = None /\ d' = d /\ (exists j y, links d !! j = Some y /\ uw_address y = uw_address x)
     \/ r = Some x /\ d' = set_links (<[id := x]> (links d)) d /\ uw_user_id x ∈ link_users d
        /\ (forall j y, links d !! j = Some y -> uw_address y <> uw_address x)
        /\ (primary x = true -> forall j y, links d !! j = Some y -> owned_primary (uw_user_id x) y = false)).
Proof.
  unfold insert_link. destruct (varchar 64 _); [|done]. destruct (varchar 50 _); [|done]. simpl.
  case_bool_decide as Hid; [done|]. apply eq_None_not_Some in Hid.
  destruct (any_row _ (links d)) eqn:Ea.
  - intros [= <- <-]. apply any_row_true in Ea as (j & y & Hy & E%String.eqb_eq). split_and!; [done..|].
    left. split_and!; [done..|]. by exists j, y.
  - destruct (primary x && _) eqn:Ep; [done|]. simpl. case_bool_decide as Hu; [|done]. simpl.
    intros [= <- <-]. split_and!; [done..|]. right. split_and!; [done..| |].
    + intros j y Hy. rewrite any_row_false in Ea. specialize (Ea j y Hy). by apply String.eqb_neq in Ea.
    + intros Hp j y Hy. rewrite Hp in Ep. simpl in Ep. rewrite any_row_false in Ep. by eapply Ep.
Qed.

Lemma insert_wf id x d r d' : insert_link id x d = Some (r, d') -> uw_verified x = Some false ->
  links_wf d -> links_wf d' /\ links_evolve d d'.
Proof.
  intros E Hv H. apply insert_link_Some in E as (Hid & _ & [(_ & -> & _)|(_ & -> & Hu & Ha & Hp)]);
    [split; [done|apply links_evolve_refl]|].
  destruct H as [H1 H2 H3]. split.
  - split; simpl.
    + intros i y [[<- <-]|[_ Hy]]%lookup_insert_Some; [done|by eapply H1].
    + intros i j y z [[<- <-]|[_ Hy]]%lookup_insert_Some [[<- <-]|[_ Hz]]%lookup_insert_Some; intros E; [done| | |by eapply H2].
      * by destruct (Ha j z Hz).
      * by destruct (Ha i y Hy).
    + intros i j y z [[<- <-]|[_ Hy]]%lookup_insert_Some [[<- <-]|[_ Hz]]%lookup_insert_Some; intros P1 P2 E; [done| | |by eapply H3].
      * specialize (Hp P1 j z Hz). unfold owned_primary, owned in Hp. rewrite P2, E, N.eqb_refl in Hp. done.
      * specialize (Hp P2 i y Hy). unfold owned_primary, owned in Hp. rewrite P1, E, N.eqb_refl in Hp. done.
  - split; [done|]. simpl. intros i y [[<- <-]|[_ Hy]]%lookup_insert_Some; [by right|left]. by exists y.
Qed.

Lemma find_link_Some user id d x : find_link user id d = Some x <-> links d !! id = Some x /\ uw_user_id x = user.
Proof.
  unfold find_link. destruct (links d !! id) as [y|]; simpl; [|by split; [|intros [? _]]].
  destruct (owned user y) eqn:E.
  - apply owned_true in E. split; [by intros [= ->]|by intros [[= ->] _]].
  - split; [done|]. intros [[= ->] Hu]. apply owned_true in Hu. congruence.
Qed.

Lemma delete_wf user id d n d' : delete_link user id d = Some (n, d') -> links_wf d -> links_wf d' /\ links_evolve d d'.
Proof.
  unfold delete_link. destruct (find_link user id d) as [x|]; intros [= <- <-] [H1 H2 H3];
    [|split; [by split|apply links_evolve_refl]]. split.
  - split; simpl.
    + intros i y [_ Hy]%lookup_delete_Some. by eapply H1.
    + intros i j y z [_ Hy]%lookup_delete_Some [_ Hz]%lookup_delete_Some. by eapply H2.
    + intros i j y z [_ Hy]%lookup_delete_Some [_ Hz]%lookup_delete_Some. by eapply H3.
  - split; [done|]. simpl. intros i y [_ Hy]%lookup_delete_Some. left. by exists y.
Qed.

Lemma oldest_link_Some user d id : oldest_link user d = Some id -> exists x, links d !! id = Some x /\ uw_user_id x = user.
Proof.
  unfold oldest_link. intros H. apply fmap_Some in H as ([i x] & H & ->). apply head_Some_elem_of in H.
  rewrite sort_by_perm in H. apply list_elem_of_In, List.filter_In in H as [H Ho].
  apply list_elem_of_In, elem_of_map_to_list in H. exists x. split; [done|]. by apply owned_true.
Qed.

Lemma oldest_link_None user d i x : oldest_link user d = None -> links d !! i = Some x -> uw_user_id x <> user.
Proof.
  unfold oldest_link. intros H Hx Hu. apply fmap_None, head_None in H.
  assert (Hin : (i, x) ∈ sort_by linked_before (List.filter (fun y => owned user y.2) (map_to_list (links d)))).
  { rewrite sort_by_perm. apply list_elem_of_In, List.filter_In. split; [|by apply owned_true].
    by apply list_elem_of_In, elem_of_map_to_list. }
  rewrite H in Hin. by apply elem_of_nil in Hin.
Qed.

(** Making the wallet of a user without a primary one the primary. *)
Lemma promoted_wf user id x d : links d !! id = Some x -> uw_user_id x = user ->
  (forall i y, i <> id -> links d !! i = Some y -> owned_primary user y = false) -> links_wf d ->
  links_wf (set_links (<[id := with_primary true x]> (links d)) d)
  /\ links_evolve d (set_links (<[id := with_primary true x]> (links d)) d).
Proof.
  intros Hx Hu Hn H. assert (Hrows : forall i y, <[id := with_primary true x]> (links d) !! i = Some y ->
      exists x, links d !! i = Some x /\ same_link x y).
  { intros i y [[<- <-]|[_ Hy]]%lookup_insert_Some; [by exists x|by exists y]. }
  split; [apply wf_reflagged; [done..|]|split; [done|intros i y Hy; left; by apply Hrows]].
  intros i j y z [[<- <-]|[Ni Hy]]%lookup_insert_Some [[<- <-]|[Nj Hz]]%lookup_insert_Some; intros P1 P2 E; [done| | |by eapply (wf_primary d H)].
  - assert (Hz' : owned_primary user z = false) by by eapply Hn.
    unfold owned_primary, owned in Hz'. simpl in E. rewrite P2, <- E, Hu, N.eqb_refl in Hz'. done.
  - assert (Hy' : owned_primary user y = false) by by eapply Hn.
    unfold owned_primary, owned in Hy'. simpl in E. rewrite P1, E, Hu, N.eqb_refl in Hy'. done.
Qed.

Lemma promote_Some user d d' : promote user d = Some d' ->
  d' = d /\ (any_row (owned_primary user) (links d) = true \/ oldest_link user d = None)
  \/ exists id x, any_row (owned_primary user) (links d) = false /\ links d !! id = Some x /\ uw_user_id x = user
       /\ d' = set_links (<[id := with_primary true x]> (links d)) d.
Proof.
  unfold promote. destruct (any_row _ _) eqn:Ea; [intros [= ->]; by left; auto|].
  destruct (oldest_link user d) as [id|] eqn:Eo; [|intros [= ->]; by left; auto]. intros [= <-].
  apply oldest_link_Some in Eo as (x & Hx & Hu). right. exists id, x. split_and!; [done..|].
  unfold set_links. f_equal. apply map_eq. intros k. destruct (decide (k = id)) as [->|Hk].
  - by rewrite lookup_alter_eq, lookup_insert_eq, Hx.
  - by rewrite lookup_alter_ne, lookup_insert_ne.
Qed.

Lemma promote_wf user d d' : promote user d = Some d' -> links_wf d -> links_wf d' /\ links_evolve d d'.
Proof.
  intros [(-> & _)|(id & x & Ha & Hx & Hu & ->)]%promote_Some H; [split; [done|apply links_evolve_refl]|].
  eapply promoted_wf; [done..| |done]. intros i y _ Hy. rewrite any_row_false in Ha. by eapply Ha.
Qed.

Lemma make_primary_Some user id d r d' : make_primary user id d = Some (r, d') ->
  r = None /\ d' = d /\ find_link user id d = None
  \/ exists x, links d !! id = Some x /\ uw_user_id x = user /\ r = Some (with_primary true x)
       /\ d' = set_links (<[id := with_primary true x]> (links d)) d
       /\ forall i y, i <> id -> links d !! i = Some y -> owned_primary user y = false.
Proof.
  unfold make_primary. destruct (find_link user id d) as [x|] eqn:Ef; [|intros [= <- <-]; by left].
  apply find_link_Some in Ef as [Hx Hu]. destruct (any_row _ _) eqn:Ea; [done|]. intros [= <- <-]. right.
  exists x. split_and!; [done..|]. intros i y Hi Hy. rewrite any_row_false in Ea. apply (Ea i).
  by rewrite lookup_delete_ne.
Qed.

Lemma make_primary_wf user id d r d' : make_primary user id d = Some (r, d') -> links_wf d -> links_wf d' /\ links_evolve d d'.
Proof.
  intros [(_ & -> & _)|(x & Hx & Hu & _ & -> & Hn)]%make_primary_Some H; [split; [done|apply links_evolve_refl]|].
  by eapply promoted_wf.
Qed.

(** ** Histories of requests *)

Section histories.
Context `{ENV : Env}.
Implicit Types (w : world LinkDb Event).

Inductive LinkOp :=
| OpList (user : Uuid)
| OpLink (now : DateTime) (id user : Uuid) (payload : LinkWalletRequest)
| OpRemove (user id : Uuid)
| OpSetPrimary (user id : Uuid).

Definition link_op (op : LinkOp) : LM unit :=
  match op with
  | OpList user => spawn (list_wallets user)
  | OpLink now id user payload => spawn (link_wallet now id user payload)
  | OpRemove user id => spawn (remove_wallet user id)
  | OpSetPrimary user id => spawn (set_primary_wallet user id)
  end.

Definition link_run (ops : list LinkOp) w : world LinkDb Event := foldl (fun w op => (link_op op w).2) w ops.

Definition links_since (d0 d : LinkDb) : Prop := links_wf d /\ links_evolve d0 d.

Lemma since_exec d0 f : (forall d d', f d = Some d' -> links_wf d -> links_wf d' /\ links_evolve d d') ->
  preserves (links_since d0) (exec f : LM unit).
Proof.
  intros Hf. apply preserves_exec. intros d d' [Hw He] E. destruct (Hf d d' E Hw) as [Hw' He'].
  split; [done|by eapply links_evolve_trans].
Qed.

Lemma since_exec_ret {A} d0 (f : LinkDb -> option (A * LinkDb)) :
  (forall d a d', f d = Some (a, d') -> links_wf d -> links_wf d' /\ links_evolve d d') ->
  preserves (links_since d0) (exec_ret f : LM A).
Proof.
  intros Hf. apply preserves_exec_ret. intros d a d' [Hw He] E. destruct (Hf d a d' E Hw) as [Hw' He'].
  split; [done|by eapply links_evolve_trans].
Qed.

Lemma since_tx {A} d0 (m : LM A) : preserves (links_since d0) m -> preserves (links_since d0) (with_tx m).
Proof. intros Hm. apply preserves_tx. intros w a w' Hw E. specialize (Hm w Hw). by rewrite E in Hm. Qed.

Lemma link_statements_since d0 now id user p : preserves (links_since d0) (link_statements now id user p).
Proof.
  unfold link_statements. apply preserves_bind.
  { destruct (default false _); [apply preserves_map_err, since_exec, unset_wf|apply preserves_ret]. }
  intros _. apply preserves_bind; [apply preserves_map_err, preserves_query|]. intros n.
  apply preserves_bind; [|intros r; apply preserves_expect].
  apply preserves_map_err, since_exec_ret. intros d a d' E. by eapply insert_wf.
Qed.

Lemma remove_rest_since d0 user id : preserves (links_since d0) (remove_rest user id).
Proof.
  unfold remove_rest. apply preserves_bind.
  { apply preserves_map_err, since_exec_ret. intros d n d'. apply delete_wf. }
  intros n. destruct (n =? 0)%nat; [apply preserves_fail|]. apply preserves_ignore, since_exec, promote_wf.
Qed.

Lemma remove_check_since I user id : preserves I (remove_check user id).
Proof.
  unfold remove_check. apply preserves_bind; [apply preserves_map_err, preserves_query|].
  intros [x|]; [|apply preserves_fail]. destruct (primary x); [|apply preserves_ret].
  apply preserves_bind; [apply preserves_map_err, preserves_query|]. intros n.
  destruct (n =? 0)%nat; [apply preserves_fail|apply preserves_ret].
Qed.

Lemma link_op_since d0 op : preserves (links_since d0) (link_op op).
Proof.
  destruct op as [user|now id user p|user id|user id]; apply preserves_spawn.
  - apply preserves_map_err, preserves_bind; [apply preserves_query|intros r; apply preserves_expect].
  - unfold link_wallet. destruct (_ || _); [apply preserves_fail|].
    apply preserves_bind; [apply preserves_map_err, since_tx, link_statements_since|intros x; apply preserves_ret].
  - apply preserves_bind; [apply remove_check_since|intros _; apply remove_rest_since].
  - apply preserves_map_err, since_tx. apply preserves_bind; [apply since_exec, unset_wf|]. intros _.
    apply preserves_bind; [apply since_exec_ret; intros d r d'; apply make_primary_wf|].
    intros r. apply preserves_bind; [apply preserves_expect|intros x; apply preserves_expect].
Qed.

Lemma link_run_since d0 ops w : links_since d0 (st w) -> links_since d0 (st (link_run ops w)).
Proof.
  unfold link_run. revert w. induction ops as [|op ops IH]; intros w Hw; simpl; [done|].
  apply IH. by apply link_op_since.
Qed.

(** Over any history of requests and any failures no two rows share an address, nobody has two
    primary wallets, every row is of a user, and a row that is still there changed nothing but
    whether it is the primary one; in particular no wallet ever becomes verified. *)
Theorem links_history ops w : links_wf (st w) ->
  links_wf (st (link_run ops w)) /\ links_evolve (st w) (st (link_run ops w)).
Proof. intros Hw. apply link_run_since. split; [done|apply links_evolve_refl]. Qed.

(** ** Single requests *)

Definition linked_row (now : DateTime) (user : Uuid) (p : LinkWalletRequest) (d : LinkDb) : UserWallet :=
  {| uw_user_id := user; uw_address := lk_address p; uw_label := lk_label p;
     uw_primary := Some (default false (lk_primary p) || (count_links user d =? 0)%nat);
     uw_verified := Some false; uw_created_at := Some now |}.

(** The table when a wallet is inserted. *)
Definition before_link (user : Uuid) (p : LinkWalletRequest) (d : LinkDb) : LinkDb :=
  if default false (lk_primary p) then default d (unset_primary user d) else d.

Lemma link_Ok now id user p w r w' : link_wallet now id user p w = (Ok r, w') ->
  let d1 := before_link user p (st w) in
  r.1 = linked_row now user p d1 /\ insert_link id r.1 d1 = Some (Some r.1, st w')
  /\ (32 <= String.length (lk_address p) <= 64)%nat.
Proof.
  unfold link_wallet. destruct (_ || _) eqn:Hlen; [by intros ?%fail_Ok|].
  apply orb_false_elim in Hlen as [H1%Nat.ltb_ge H2%Nat.ltb_ge]. intros H.
  apply bind_Ok in H as (x & w1 & H & Hr). apply ret_Ok in Hr as [<- <-]. unfold server_error in H.
  apply map_err_Ok, with_tx_Ok in H as (wa & wb & Sa & _ & H & Sb & _). unfold link_statements in H.
  apply bind_Ok in H as (u & w2 & Hu & H). apply bind_Ok in H as (n & w3 & Hn & H).
  apply map_err_Ok, query_Ok in Hn as (-> & Sn & _). apply bind_Ok in H as (row & w4 & Hi & H).
  apply map_err_Ok, exec_ret_Ok in Hi as [Hi _]. apply expect_Ok in H as [-> ->].
  assert (E : st w2 = before_link user p (st w)).
  { unfold before_link. destruct (default false (lk_primary p)).
    - apply map_err_Ok, exec_Ok in Hu as [Hu _]. rewrite Sa in Hu. by rewrite Hu.
    - apply ret_Ok in Hu as [_ <-]. done. }
  rewrite Sn, E in Hi. pose proof (insert_link_Some _ _ _ _ _ Hi) as (_ & _ & [(? & _)|(Hx & _)]); [done|].
  injection Hx as Hx. simpl. rewrite Sb. split_and!; [by rewrite Hx|by rewrite <- Hx in Hi at 1|done..].
Qed.

Lemma server_tx_Err {A} (m : LM A) w e w' : server_error (with_tx m) w = (Err e, w') -> st w' = st w.
Proof.
  unfold server_error, map_err. destruct (with_tx m w) as [[a|[]] w1] eqn:E; intros; simplify_eq;
    by apply with_tx_Err in E.
Qed.

Lemma link_Err now id user p w e w' : link_wallet now id user p w = (Err e, w') -> st w' = st w.
Proof.
  unfold link_wallet. destruct (_ || _); [by intros [= _ <-]|].
  intros [H|(x & w1 & _ & H)]%bind_Err; [by apply server_tx_Err in H|done].
Qed.

Lemma set_primary_Ok user id w x w' : set_primary_wallet user id w = (Ok x, w') ->
  exists d1, unset_primary user (st w) = Some d1 /\ make_primary user id d1 = Some (Some x, st w').
Proof.
  unfold set_primary_wallet. intros H%map_err_Ok. apply with_tx_Ok in H as (wa & wb & Sa & _ & H & Sb & _).
  apply bind_Ok in H as (u & w1 & [Hu _]%exec_Ok & H). apply bind_Ok in H as (r & w2 & [Hr _]%exec_ret_Ok & H).
  apply bind_Ok in H as (y & w3 & [-> ->]%expect_Ok & [Hd ->]%expect_Ok).
  assert (y = x) as ->.
  { unfold decode_link in Hd. destruct (uw_primary y), (uw_verified y), (uw_created_at y); simpl in Hd; congruence. }
  exists (st w1). rewrite <- Sa, Sb. done.
Qed.

(** ** Everybody with wallets keeps a primary one *)

Lemma unset_has d user d' : unset_primary user d = Some d' -> has_primary d ->
  forall i x, links d' !! i = Some x -> uw_user_id x <> user ->
  exists j y, links d' !! j = Some y /\ owned_primary (uw_user_id x) y = true.
Proof.
  intros E H i x Hx Hu. destruct (unset_lookup _ _ _ _ _ E Hx) as (x0 & Hx0 & (Hs & _) & _ & Hsame).
  destruct (H i x0 Hx0) as (j & y & Hy & Hp). exists j, y. injection E as <-. simpl in *.
  rewrite lookup_fmap, Hy. simpl. apply owned_primary_true in Hp as [Hy1 Hy2].
  assert (Hf : owned_primary user y = false).
  { unfold owned_primary, owned. apply andb_false_intro1, N.eqb_neq. congruence. }
  rewrite Hf. split; [done|]. apply owned_primary_true. split; [congruence|done].
Qed.

Lemma count_links_0 user d i x : count_links user d = 0%nat -> links d !! i = Some x -> uw_user_id x <> user.
Proof.
  intros H%nil_length_inv Hx Hu.
  assert (Hin : x ∈ List.filter (owned user) (map_to_list (links d)).*2).
  { apply list_elem_of_In, List.filter_In. split; [|by apply owned_true].
    apply list_elem_of_In, list_elem_of_fmap. exists (i, x). split; [done|]. by apply elem_of_map_to_list. }
  rewrite H in Hin. by apply elem_of_nil in Hin.
Qed.

Lemma link_has now id user p w r w' : link_wallet now id user p w = (Ok r, w') -> has_primary (st w) -> has_primary (st w').
Proof.
  intros H Hp. apply link_Ok in H as (Hr & Hi & _). destruct r as [x text]. simpl in *.
  apply insert_link_Some in Hi as (Hid & _ & [(? & _)|(_ & -> & _)]); [done|].
  assert (Hxu : uw_user_id x = user) by by rewrite Hr.
  set (d1 := before_link user p (st w)) in *. unfold has_primary. simpl. intros i y [[<- <-]|[Hne Hy]]%lookup_insert_Some; simpl.
  - destruct (primary x) eqn:Px.
    + exists id, x. rewrite lookup_insert_eq. split; [done|]. by apply owned_primary_true.
    + rewrite Hr in Px. unfold primary in Px. simpl in Px. apply orb_false_elim in Px as [Ps Hc%Nat.eqb_neq].
      assert (Hd1 : d1 = st w) by (unfold d1, before_link; by rewrite Ps).
      unfold count_links in Hc. destruct (List.filter (owned user) (map_to_list (links d1)).*2) as [|z l] eqn:Ef; [done|].
      assert (Hz : z ∈ List.filter (owned user) (map_to_list (links d1)).*2) by (rewrite Ef; left).
      apply list_elem_of_In, List.filter_In in Hz as [Hz Hu%owned_true].
      apply list_elem_of_In, list_elem_of_fmap in Hz as ([k z'] & -> & Hz%elem_of_map_to_list). simpl in Hu.
      rewrite Hd1 in Hz. destruct (Hp k z' Hz) as (j & v & Hv & Hvp). exists j, v. rewrite lookup_insert_ne.
      * rewrite Hd1. split; [done|]. by rewrite Hxu, <- Hu.
      * intros ->. rewrite Hd1 in Hid. congruence.
  - destruct (decide (uw_user_id y = user)) as [Hu|Hu].
    + destruct (primary x) eqn:Px.
      * exists id, x. rewrite lookup_insert_eq. split; [done|]. apply owned_primary_true. split; [congruence|done].
      * rewrite Hr in Px. unfold primary in Px. simpl in Px. apply orb_false_elim in Px as [Ps _].
        assert (Hd1 : d1 = st w) by (unfold d1, before_link; by rewrite Ps).
        rewrite Hd1 in Hy, Hid. destruct (Hp i y Hy) as (j & v & Hv & Hvp). exists j, v. rewrite Hd1, lookup_insert_ne; [done|].
        intros ->. congruence.
    + assert (Hex : exists j v, links d1 !! j = Some v /\ owned_primary (uw_user_id y) v = true).
      { unfold d1, before_link in Hy |- *. destruct (default false (lk_primary p)); [|by eapply Hp].
        destruct (unset_primary user (st w)) as [d'|] eqn:E; [|done]. simpl in *. by eapply unset_has. }
      destruct Hex as (j & v & Hv & Hvp). exists j, v. rewrite lookup_insert_ne; [done|]. intros ->. congruence.
Qed.

Lemma set_primary_has user id w x w' : set_primary_wallet user id w = (Ok x, w') -> has_primary (st w) -> has_primary (st w').
Proof.
  intros (d1 & Hd & Hm)%set_primary_Ok Hp.
  apply make_primary_Some in Hm as [(? & _)|(y & Hy & Hu & [= ->] & -> & _)]; [done|].
  unfold has_primary. simpl. intros i z [[<- <-]|[Hne Hz]]%lookup_insert_Some; simpl.
  - exists id, (with_primary true y). rewrite lookup_insert_eq. split; [done|]. apply owned_primary_true. done.
  - destruct (decide (uw_user_id z = user)) as [Hzu|Hzu].
    + exists id, (with_primary true y). rewrite lookup_insert_eq. split; [done|]. apply owned_primary_true. split; [simpl; congruence|done].
    + destruct (unset_has _ _ _ Hd Hp i z Hz Hzu) as (j & v & Hv & Hvp). exists j, v. rewrite lookup_insert_ne; [done|].
      intros ->. apply owned_primary_true in Hvp as [Hvu _]. congruence.
Qed.

(** What a removal does while nothing fails: the row goes, and who is left without a primary wallet
    gets the oldest. *)
Definition removed_state (user id : Uuid) (d : LinkDb) : LinkDb :=
  let d1 := set_links (delete id (links d)) d in default d1 (promote user d1).

Lemma promote_total user d : exists d', promote user d = Some d'.
Proof. unfold promote. destruct (any_row _ _); [by eexists|]. destruct (oldest_link user d); by eexists. Qed.

Lemma remove_rest_calm user id x w : faults w = [] -> find_link user id (st w) = Some x ->
  remove_rest user id w = (Ok tt, set_st (removed_state user id (st w)) w).
Proof.
  intros Hf Hx. unfold remove_rest. set (d1 := set_links (delete id (links (st w))) (st w)).
  rewrite (bind_run _ _ w 1%nat (set_st d1 w)).
  2: { apply map_err_run, exec_ret_run; [done|]. unfold delete_link. by rewrite Hx. }
  simpl. unfold ignore, removed_state. fold d1. destruct (promote_total user d1) as [d2 Hd2]. rewrite Hd2.
  rewrite (bind_run _ _ (set_st d1 w) (Ok tt) (set_st d2 w)); [done|]. apply attempt_run; [|done].
  rewrite exec_calm by done. simpl. by rewrite Hd2.
Qed.

Lemma remove_rest_gone user id w : faults w = [] -> find_link user id (st w) = None ->
  remove_rest user id w = (Err (FApi (NotFound "Wallet not found")), w).
Proof.
  intros Hf Hx. unfold remove_rest. rewrite (bind_run _ _ w 0%nat w); [done|].
  apply map_err_run. rewrite exec_ret_calm by done. unfold delete_link. rewrite Hx. by destruct w.
Qed.

(** The answer of the check. *)
Definition check_answer (user id : Uuid) (d : LinkDb) : res failure unit :=
  match find_link user id d with
  | None => Err (FApi (NotFound "Wallet not found"))
  | Some x =>
      if primary x && (count_others user id d =? 0)%nat
      then Err (FApi (BadRequest "Cannot remove the only wallet. Link another wallet first."))
      else Ok tt
  end.

Lemma remove_check_calm user id w : faults w = [] -> remove_check user id w = (check_answer user id (st w), w).
Proof.
  intros Hf. unfold remove_check, check_answer.
  rewrite (bind_run _ _ w (find_link user id (st w)) w) by by apply map_err_run, query_calm.
  destruct (find_link user id (st w)) as [x|]; [|done]. destruct (primary x); [|done].
  rewrite (bind_run _ _ w (count_others user id (st w)) w) by by apply map_err_run, query_calm.
  simpl. by destruct (count_others user id (st w) =? 0)%nat.
Qed.

(** What a removal answers and leaves while nothing fails. *)
Theorem remove_outcome user id w : faults w = [] ->
  remove_wallet user id w = match check_answer user id (st w) with
                            | Ok _ => (Ok tt, set_st (removed_state user id (st w)) w)
                            | Err e => (Err e, w)
                            end.
Proof.
  intros Hf. unfold remove_wallet. destruct (check_answer user id (st w)) as [[]|e] eqn:E.
  - rewrite (bind_run _ _ w tt w) by (by rewrite remove_check_calm, E). unfold check_answer in E.
    destruct (find_link user id (st w)) as [x|] eqn:Hx; [|done]. by eapply remove_rest_calm.
  - apply bind_run_Err. by rewrite remove_check_calm, E.
Qed.

Lemma removed_has user id x d : find_link user id d = Some x -> has_primary d -> has_primary (removed_state user id d).
Proof.
  intros [Hx Hu]%find_link_Some Hp. unfold removed_state. set (d1 := set_links (delete id (links d)) d).
  assert (Hother : forall i z, links d1 !! i = Some z -> uw_user_id z <> user ->
      exists j y, links d1 !! j = Some y /\ owned_primary (uw_user_id z) y = true).
  { unfold d1. simpl. intros i z [_ Hz]%lookup_delete_Some Hzu. destruct (Hp i z Hz) as (j & y & Hy & Hyp). exists j, y.
    split; [|done]. apply lookup_delete_Some. split; [|done]. intros <-.
    apply owned_primary_true in Hyp as [Hyu _]. congruence. }
  destruct (promote_total user d1) as [d2 E]. rewrite E. simpl.
  apply promote_Some in E as [(-> & Hwhy)|(k & y & Ha & Hy & Hyu & ->)]; intros i z Hz.
  - destruct (decide (uw_user_id z = user)) as [<-|Hzu]; [|by eapply Hother].
    destruct Hwhy as [(j & y & Hy & Hyp)%any_row_true|Ho]; [by exists j, y|].
    by destruct (oldest_link_None _ _ _ _ Ho Hz).
  - simpl in Hz. apply lookup_insert_Some in Hz as [[<- <-]|[Hne Hz]]; simpl.
    + exists k, (with_primary true y). rewrite lookup_insert_eq. split; [done|]. by apply owned_primary_true.
    + destruct (decide (uw_user_id z = user)) as [Hzu|Hzu].
      * exists k, (with_primary true y). rewrite lookup_insert_eq. split; [done|]. apply owned_primary_true.
        split; [simpl; congruence|done].
      * destruct (Hother i z Hz Hzu) as (j & v & Hv & Hvp). exists j, v. simpl. rewrite lookup_insert_ne; [done|].
        intros <-. apply owned_primary_true in Hvp as [Hvu _]. congruence.
Qed.

Lemma op_calm op : stays_calm (link_op op).
Proof.
  destruct op as [user|now id user p|user id|user id]; apply calm_spawn.
  - unfold list_wallets, server_error_in. auto with calm.
  - unfold link_wallet. destruct (_ || _); [auto with calm|].
    unfold link_statements, server_error, server_error_in. destruct (default false _); auto 20 with calm.
  - apply calm_bind; [|intros _; unfold remove_rest; apply calm_bind; [unfold server_error_in; auto with calm|]].
    + intros w Hw. by rewrite remove_check_calm.
    + intros n. destruct (n =? 0)%nat; auto with calm.
  - unfold set_primary_wallet, server_error. auto 20 with calm.
Qed.

Lemma op_has op w : faults w = [] -> has_primary (st w) -> has_primary (st (link_op op w).2).
Proof.
  intros Hf Hp. destruct op as [user|now id user p|user id|user id]; unfold link_op, spawn; cbn [snd].
  - enough (H : st (list_wallets user w).2 = st w) by by rewrite H.
    unfold list_wallets, server_error_in, map_err. rewrite (bind_run _ _ w _ w (query_calm _ _ Hf)).
    by destruct (mapM _ _).
  - destruct (link_wallet now id user p w) as [[r|e] w'] eqn:E; cbn [snd]; [by eapply link_has|].
    apply link_Err in E. by rewrite E.
  - rewrite remove_outcome by done. unfold check_answer.
    destruct (find_link user id (st w)) as [x|] eqn:Hx; [|done]. destruct (_ && _); [done|].
    by eapply removed_has.
  - destruct (set_primary_wallet user id w) as [[x|e] w'] eqn:E; cbn [snd]; [by eapply set_primary_has|].
    apply server_tx_Err in E. by rewrite E.
Qed.

(** C36: While nothing fails, everybody who has a linked wallet keeps exactly one primary one, over
    any history of requests of anybody. *)
Theorem one_primary ops w : faults w = [] -> links_wf (st w) -> has_primary (st w) ->
  forall i x, links (st (link_run ops w)) !! i = Some x ->
  exists j, (exists y, links (st (link_run ops w)) !! j = Some y /\ owned_primary (uw_user_id x) y = true)
    /\ forall k z, links (st (link_run ops w)) !! k = Some z -> owned_primary (uw_user_id x) z = true -> k = j.
Proof.
  intros Hf Hw Hp. destruct (link_run_since (st w) ops w) as [Hw' _]; [split; [done|apply links_evolve_refl]|].
  assert (Hp' : has_primary (st (link_run ops w))).
  { clear Hw Hw'. unfold link_run. revert w Hf Hp. induction ops as [|op ops IH]; intros w Hf Hp; simpl; [done|].
    apply IH; [by apply op_calm|by apply op_has]. }
  intros i x Hx. destruct (Hp' i x Hx) as (j & y & Hy & Hyp). exists j. split; [by exists y|].
  intros k z Hz Hzp. apply owned_primary_true in Hyp as [Hyu Hyp], Hzp as [Hzu Hzp].
  eapply (wf_primary _ Hw'); [done..|congruence].
Qed.

(** ** Failures, races and foreign addresses *)

(** A removal of the primary wallet whose last statement fails answers success and leaves the
    user without a primary wallet, although wallets remain. *)
Theorem promotion_lost user id x w rest : links_wf (st w) ->
  links (st w) !! id = Some x -> owned_primary user x = true -> (0 < count_others user id (st w))%nat ->
  faults w = false :: false :: false :: true :: rest ->
  exists w', remove_wallet user id w = (Ok tt, w') /\ faults w' = rest
    /\ (exists j y, links (st w') !! j = Some y /\ owned user y = true)
    /\ forall j y, links (st w') !! j = Some y -> owned_primary user y = false.
Proof.
  intros Hw Hx Hop Hc Hf. pose proof Hop as [Hu Hprim]%owned_primary_true. destruct w as [d fs tr]. simpl in *. subst fs.
  assert (Hfind : find_link user id d = Some x) by by apply find_link_Some.
  set (d' := set_links (delete id (links d)) d). exists (World d' rest tr).
  split; [|split; [done|split]].
  - unfold remove_wallet. rewrite (bind_run _ _ _ tt (World d (false :: true :: rest) tr)).
    2: { unfold remove_check. rewrite (bind_run _ _ _ (Some x) (World d (false :: false :: true :: rest) tr)) by (unfold server_error, map_err, query; simpl; by rewrite Hfind).
         rewrite Hprim. rewrite (bind_run _ _ _ (count_others user id d) (World d (false :: true :: rest) tr)) by done.
         destruct (count_others user id d); [lia|done]. }
    unfold remove_rest. rewrite (bind_run _ _ _ 1%nat (World d' (true :: rest) tr)); [done|].
    unfold server_error_in, map_err, exec_ret, delete_link. simpl. by rewrite Hfind.
  - unfold count_others in Hc. destruct (List.filter _ (map_to_list (links d))) as [|[j y] l] eqn:Ef; [simpl in Hc; lia|].
    assert (Hin : (j, y) ∈ (j, y) :: l) by left. rewrite <- Ef in Hin.
    apply list_elem_of_In, List.filter_In in Hin as [Hin [Ho Hne%negb_true_iff%N.eqb_neq]%andb_prop]. simpl in *.
    exists j, y. split; [|done]. apply lookup_delete_Some. split; [done|]. by apply elem_of_map_to_list, list_elem_of_In.
  - simpl. intros j y [Hne Hy]%lookup_delete_Some. apply not_true_iff_false. intros [Hyu Hyp]%owned_primary_true.
    apply Hne. eapply (wf_primary _ Hw); [done..|congruence].
Qed.

Lemma removed_rows user id d i z : links (removed_state user id d) !! i = Some z ->
  i <> id /\ exists z', links d !! i = Some z' /\ uw_user_id z' = uw_user_id z.
Proof.
  unfold removed_state. set (d1 := set_links (delete id (links d)) d).
  destruct (promote_total user d1) as [d2 E]. rewrite E. simpl. intros Hz.
  assert (Hdom : exists z', links d1 !! i = Some z' /\ uw_user_id z' = uw_user_id z).
  { apply promote_Some in E as [(-> & _)|(k & v & _ & Hv & _ & ->)]; [by exists z|].
    simpl in Hz. apply lookup_insert_Some in Hz as [[<- <-]|[_ Hz]]; [by exists v|by exists z]. }
  destruct Hdom as (z' & Hz' & Hu). unfold d1 in Hz'. simpl in Hz'. apply lookup_delete_Some in Hz' as [Hne Hz'].
  split; [done|by exists z'].
Qed.

(** A removal leaves the other wallets of the user. *)
Lemma removed_find user p q y d : p <> q -> find_link user q d = Some y ->
  exists y', find_link user q (removed_state user p d) = Some y'.
Proof.
  intros Hpq [Hy Hyu]%find_link_Some. unfold removed_state. set (d1 := set_links (delete p (links d)) d).
  assert (Hq : links d1 !! q = Some y) by (simpl; by rewrite lookup_delete_ne).
  destruct (promote_total user d1) as [d2 E]. rewrite E. simpl.
  apply promote_Some in E as [(-> & _)|(k & v & _ & Hv & Hvu & ->)]; [exists y; by apply find_link_Some|].
  destruct (decide (k = q)) as [->|Hk].
  - exists (with_primary true v). apply find_link_Some. simpl. by rewrite lookup_insert_eq.
  - exists y. apply find_link_Some. simpl. by rewrite lookup_insert_ne.
Qed.

(** Of two removals whose checks both ran before either delete, both are done: a user who has
    only the two wallets is left with none, which each check alone would have refused. *)
Theorem both_removed user p q x y w : faults w = [] -> p <> q ->
  find_link user p (st w) = Some x -> find_link user q (st w) = Some y -> primary y = false ->
  (forall i z, links (st w) !! i = Some z -> owned user z = true -> i = p \/ i = q) ->
  exists w', (remove_check user p ;; remove_check user q ;; remove_rest user p ;; remove_rest user q) w = (Ok tt, w')
    /\ forall i z, links (st w') !! i = Some z -> owned user z = false.
Proof.
  intros Hf Hpq Hx Hy Hny Hall.
  assert (Hcp : check_answer user p (st w) = Ok tt).
  { unfold check_answer. rewrite Hx. destruct (count_others user p (st w) =? 0)%nat eqn:Hc; [|by rewrite andb_false_r].
    apply Nat.eqb_eq in Hc. unfold count_others in Hc. apply nil_length_inv in Hc.
    apply find_link_Some in Hy as [Hy Hyu].
    assert (Hin : (q, y) ∈ List.filter (fun z => owned user z.2 && negb (z.1 =? p)%N) (map_to_list (links (st w)))).
    { apply list_elem_of_In, List.filter_In. split; [by apply list_elem_of_In, elem_of_map_to_list|]. simpl.
      rewrite (proj2 (owned_true user y) Hyu), (proj2 (N.eqb_neq q p)) by done. done. }
    rewrite Hc in Hin. by apply elem_of_nil in Hin. }
  assert (Hcq : check_answer user q (st w) = Ok tt) by (unfold check_answer; by rewrite Hy, Hny).
  set (w1 := set_st (removed_state user p (st w)) w).
  destruct (removed_find user p q y (st w) Hpq Hy) as [y' Hy'].
  exists (set_st (removed_state user q (st w1)) w1). split.
  - rewrite (bind_run _ _ w tt w) by (by rewrite remove_check_calm, Hcp).
    rewrite (bind_run _ _ w tt w) by (by rewrite remove_check_calm, Hcq).
    rewrite (bind_run _ _ w tt w1) by by eapply remove_rest_calm. by eapply remove_rest_calm.
  - intros i z (Hiq & z1 & Hz1 & Hu1)%removed_rows. unfold w1 in Hz1.
    apply removed_rows in Hz1 as (Hip & z2 & Hz2 & Hu2). apply not_true_iff_false. intros Ho%owned_true.
    destruct (Hall i z2 Hz2); [apply owned_true; congruence|done..].
Qed.

Lemma insert_taken id x d j y : links d !! j = Some y -> uw_address y = uw_address x -> links d !! id = None ->
  varchar 64 (Some (uw_address x)) = true -> varchar 50 (uw_label x) = true -> insert_link id x d = Some (None, d).
Proof.
  intros Hy Ha Hid H64 Hl. unfold insert_link. rewrite H64, Hl, Hid. simpl.
  rewrite (proj2 (any_row_true _ (links d))); [done|].
  exists j, y. split; [done|]. by apply String.eqb_eq.
Qed.

Lemma before_link_lookup user p d id : fmap uw_address (links (before_link user p d) !! id) = fmap uw_address (links d !! id).
Proof.
  unfold before_link. destruct (default false (lk_primary p)); simpl; [|done]. rewrite lookup_fmap.
  destruct (links d !! id) as [x|]; [|done]. simpl. by destruct (owned_primary user x).
Qed.

(** Nobody's ownership of an address is checked, and an address is linked once: after anybody
    linked it, every other request to link it is refused, whoever makes it. *)
Theorem address_taken now id user p w r w' now2 id2 user2 p2 :
  link_wallet now id user p w = (Ok r, w') -> faults w' = [] -> lk_address p2 = lk_address p ->
  links (st w') !! id2 = None -> varchar 50 (lk_label p2) = true ->
  link_wallet now2 id2 user2 p2 w'
    = (Err (FApi (BadRequest "This wallet address is already linked to an account")), w').
Proof.
  intros H Hf Ha Hid Hl. apply link_Ok in H as (Hr & Hi & Hlen). destruct r as [x text]. simpl in *.
  apply insert_link_Some in Hi as (_ & [H64 _] & [(? & _)|(_ & Hst & _)]); [done|].
  assert (Hx : links (st w') !! id = Some x) by (rewrite Hst; apply lookup_insert_eq).
  assert (Hxa : uw_address x = lk_address p2) by (rewrite Hr; simpl; congruence).
  unfold link_wallet. rewrite Ha, (proj2 (Nat.ltb_ge _ _)), (proj2 (Nat.ltb_ge 64 _)) by lia. simpl.
  apply bind_run_Err. unfold server_error. set (d1 := before_link user2 p2 (st w')).
  assert (Hins : forall c, insert_link id2 {| uw_user_id := user2; uw_address := lk_address p2; uw_label := lk_label p2;
      uw_primary := c; uw_verified := Some false; uw_created_at := Some now2 |} d1 = Some (None, d1)).
  { intros c. pose proof (before_link_lookup user2 p2 (st w') id) as Hj. rewrite Hx in Hj. fold d1 in Hj.
    destruct (links d1 !! id) as [y|] eqn:Hy; [|done]. injection Hj as Hj.
    pose proof (before_link_lookup user2 p2 (st w') id2) as Hn. rewrite Hid in Hn. fold d1 in Hn.
    destruct (links d1 !! id2) eqn:Hd1; [done|].
    apply (insert_taken _ _ _ id y); simpl; try done; [congruence|]. by rewrite <- Hxa. }
  assert (Hbody : link_statements now2 id2 user2 p2 w'
      = (Err (FApi (BadRequest "This wallet address is already linked to an account")), set_st d1 w')).
  { unfold link_statements. rewrite (bind_run _ _ w' tt (set_st d1 w')).
    2: { unfold d1, before_link. destruct (default false (lk_primary p2)); [|by destruct w'].
         apply map_err_run. by rewrite exec_calm. }
    rewrite (bind_run _ _ (set_st d1 w') (count_links user2 d1) (set_st d1 w')) by by apply map_err_run, query_calm.
    rewrite (bind_run _ _ (set_st d1 w') None (set_st d1 w')); [done|].
    apply map_err_run. rewrite exec_ret_calm by done. simpl st. by rewrite Hins. }
  unfold map_err, with_tx, pop_fault. rewrite Hf, Hbody. by destruct w'.
Qed.

End histories.

(** ** Concrete runs *)

Section demo.
#[local] Existing Instance demo_env.

Definition demo_link (user : Uuid) (address : string) (main : bool) (at_ : DateTime) : UserWallet :=
  {| uw_user_id := user; uw_address := address; uw_label := None; uw_primary := Some main;
     uw_verified := Some false; uw_created_at := Some at_ |}.

Definition demo_address : string := "9xQeWvG816bUx9EPjHmaT23yvVM2ZWbrrpZb9PusVFin".

Definition demo_links : LinkDb :=
  {| link_users := {[1%N; 2%N]};
     links := <[10%N := demo_link 1 "main" true 5]> (<[11%N := demo_link 1 "spare" false 6]> ∅) |}.

Definition demo_linked (fs : list bool) : world LinkDb Event := World demo_links fs [].

Definition demo_link_request : LinkWalletRequest :=
  {| lk_address := demo_address; lk_label := Some "phone"; lk_primary := Some true |}.

Lemma demo_rows i x : links demo_links !! i = Some x ->
  (i = 10%N /\ x = demo_link 1 "main" true 5) \/ (i = 11%N /\ x = demo_link 1 "spare" false 6).
Proof.
  simpl. intros [[<- <-]|[_ H]]%lookup_insert_Some; [by left|].
  apply lookup_insert_Some in H as [[<- <-]|[_ H]]; [by right|]. by rewrite lookup_empty in H.
Qed.

Lemma demo_wf : links_wf demo_links.
Proof.
  split.
  - intros i x [[_ ->]|[_ ->]]%demo_rows; simpl; set_solver.
  - intros i j x y [[-> ->]|[-> ->]]%demo_rows [[-> ->]|[-> ->]]%demo_rows; simpl; done.
  - intros i j x y [[-> ->]|[-> ->]]%demo_rows [[-> ->]|[-> ->]]%demo_rows; simpl; done.
Qed.

Lemma demo_has : has_primary demo_links.
Proof. intros i x H. exists 10%N, (demo_link 1 "main" true 5). split; [done|]. by destruct (demo_rows i x H) as [[_ ->]|[_ ->]]. Qed.

Definition demo_ops : list LinkOp :=
  [OpLink 7 12 1 demo_link_request; OpLink 8 13 2 demo_link_request; OpRemove 1 12; OpSetPrimary 1 11; OpRemove 1 10].

Lemma links_history_witness : links_wf (st (link_run demo_ops (demo_linked [true])))
  /\ links_evolve demo_links (st (link_run demo_ops (demo_linked [true]))).
Proof. exact (links_history demo_ops (demo_linked [true]) demo_wf). Defined.

Lemma one_primary_witness : exists j,
  (exists y, links (st (link_run demo_ops (demo_linked []))) !! j = Some y /\ owned_primary 1 y = true)
  /\ forall k z, links (st (link_run demo_ops (demo_linked []))) !! k = Some z -> owned_primary 1 z = true -> k = j.
Proof.
  apply (one_primary demo_ops (demo_linked []) eq_refl demo_wf demo_has 11%N (demo_link 1 "spare" true 6)).
  vm_compute. reflexivity.
Defined.

Lemma remove_outcome_witness : faults (demo_linked []) = []
  /\ remove_wallet 1 10 (demo_linked []) = (Ok tt, set_st (removed_state 1 10 demo_links) (demo_linked [])).
Proof. split; [reflexivity|]. apply (remove_outcome 1 10 (demo_linked [])). reflexivity. Defined.

Lemma promotion_lost_witness : exists w',
  remove_wallet 1 10 (demo_linked [false; false; false; true]) = (Ok tt, w') /\ faults w' = []
  /\ (exists j y, links (st w') !! j = Some y /\ owned 1 y = true)
  /\ forall j y, links (st w') !! j = Some y -> owned_primary 1 y = false.
Proof.
  apply (promotion_lost 1 10 (demo_link 1 "main" true 5) (demo_linked [false; false; false; true]) []);
    [exact demo_wf|reflexivity|reflexivity|vm_compute; lia|reflexivity].
Defined.

Lemma both_removed_witness : exists w',
  (remove_check 1 10 ;; remove_check 1 11 ;; remove_rest 1 10 ;; remove_rest 1 11) (demo_linked []) = (Ok tt, w')
  /\ forall i z, links (st w') !! i = Some z -> owned 1 z = false.
Proof.
  apply (both_removed 1 10 11 (demo_link 1 "main" true 5) (demo_link 1 "spare" false 6) (demo_linked [])); try reflexivity.
  - discriminate.
  - intros i z [[-> _]|[-> _]]%demo_rows _; [by left|by right].
Defined.

Lemma address_taken_witness : exists r w',
  link_wallet 7 12 1 demo_link_request (demo_linked []) = (Ok r, w')
  /\ link_wallet 8 13 2 demo_link_request w'
     = (Err (FApi (BadRequest "This wallet address is already linked to an account")), w').
Proof.
  destruct (link_wallet 7 12 1 demo_link_request (demo_linked [])) as [[r|e] w'] eqn:E.
  - exists r, w'. split; [reflexivity|].
    assert (H : faults w' = [] /\ links (st w') !! 13%N = None).
    { apply (f_equal snd) in E. simpl in E. rewrite <- E. split; vm_compute; reflexivity. }
    apply (address_taken 7 12 1 demo_link_request (demo_linked []) r w' 8 13 2 demo_link_request E (proj1 H) eq_refl (proj2 H)).
    reflexivity.
  - exfalso. apply (f_equal fst) in E. vm_compute in E. discriminate.
Defined.
End demo.
