(* ===== verification/OrderQueries.v ===== *)
(** What a trader may read: orders, the public book, trades, the token balance, and the state of
    matching and of the settlements.

    [src/handlers/trading/orders/queries.rs], [status.rs], [OrderQuery] of [types.rs] and the
    epoch of [market_data.rs], over the tables of [Schema].  The token ledger, the exact product
    of two columns as the driver reads it, and [float8] are interfaces; the current time is an
    argument. *)
From S2P Require Import Prelude Numerics Floats Errors Store Schema Escrow Orders Telemetry Readings Pagination Minting.
Open Scope string_scope.
Open Scope Z_scope.

(** A NUMERIC computed by the server, read as a [Decimal]: [None] when the driver cannot. *)
Class NumericDecode := {
  decode_decimal : Z -> option Decimal;
  decode_exact z : repr z -> decode_decimal z = Some z;
}.

(** [NUMERIC::float8] is monotone. *)
Class PgFloatMono `{PgFloat} := { float8_mono a b : a <= b -> f64_le (float8_of a) (float8_of b) = true }.

(** [Pubkey::from_str] (its error text, if there is one), and the balance the node knows, by all
    that was done before. *)
Class TokenLedger := {
  pubkey_refusal : string -> option string;
  ledger_balance : list Event -> string -> string -> option Z;
}.

(** ** Parameters ([types.rs]) *)

Record OrderQuery := {
  oq_status : option OrderStatus;
  oq_side : option OrderSide;
  oq_order_type : option OrderType;
  oq_params : PaginationParams;
}.

Definition sort_fields : list string := ["created_at"; "price_per_kwh"; "energy_amount"; "filled_at"].

Definition set_params (p : PaginationParams) (q : OrderQuery) : OrderQuery :=
  {| oq_status := oq_status q; oq_side := oq_side q; oq_order_type := oq_order_type q; oq_params := p |}.

(** [validate_params(&mut self)]: the result, and [self] afterwards. *)
Definition validate_order_query (q : OrderQuery) : res ApiError unit * OrderQuery :=
  let q' := set_params {| page := clamp_page (page (oq_params q)); page_size := clamp_size (page_size (oq_params q));
                          sort_by := sort_by (oq_params q); sort_order := sort_order (oq_params q) |} q in
  (match sort_by (oq_params q) with
   | Some field =>
       if bool_decide (field ∈ sort_fields) then Ok tt
       else Err (validation_error "Invalid sort_by field. Allowed values: created_at, price_per_kwh, energy_amount, filled_at"
                   (Some "sort_by"))
   | None => Ok tt
   end, q').

Definition get_sort_field (q : OrderQuery) : string := default "created_at" (sort_by (oq_params q)).

(** ** Rows *)

(** The column an order is sorted by; NULLs come last ascending and first descending. *)
Definition sort_column (field : string) (o : TradingOrderDb) : option Z :=
  if (field =? "price_per_kwh")%string then Some (o_price_per_kwh o)
  else if (field =? "energy_amount")%string then Some (o_energy_amount o)
  else if (field =? "filled_at")%string then o_filled_at o
  else o_created_at o.

Definition nulls_last (a b : option Z) : bool :=
  match a, b with
  | Some a, Some b => a <=? b
  | Some _, None => true
  | None, Some _ => false
  | None, None => true
  end.

Definition order_before (field : string) (dir : SortOrder) (x y : TradingOrderDb) : bool :=
  match dir with
  | Asc => nulls_last (sort_column field x) (sort_column field y)
  | Desc => nulls_last (sort_column field y) (sort_column field x)
  end.

Definition listed_orders (p : TradingOrderDb -> bool) (d : Db) : list TradingOrderDb :=
  List.filter p (map_to_list (orders d)).*2.

Definition is_or_any `{EqDecision A} (o : option A) (a : A) : bool :=
  match o with Some b => bool_decide (b = a) | None => true end.

Definition query_filter (q : OrderQuery) (o : TradingOrderDb) : bool :=
  is_or_any (oq_side q) (o_side o) && is_or_any (oq_order_type q) (o_order_type o).

(** The WHERE clauses of the two lists. *)
Definition user_filter (user : Uuid) (q : OrderQuery) (o : TradingOrderDb) : bool :=
  (o_user_id o =? user)%N && is_or_any (oq_status q) (o_status o) && query_filter q o.

Definition book_filter (now : DateTime) (q : OrderQuery) (o : TradingOrderDb) : bool :=
  match o_expires_at o with Some t => now <? t | None => false end
  && match oq_status q with
     | Some s => bool_decide (s = o_status o)
     | None => bool_decide (o_status o = Pending) || bool_decide (o_status o = Active)
     end
  && query_filter q o.

(** What the statement selects, and what [TradingOrderDb] takes from a row, each by its name. *)
Definition selected_columns : list string :=
  ["id"; "user_id"; "order_type"; "side"; "energy_amount"; "price_per_kwh"; "filled_amount"; "status";
   "expires_at"; "created_at"; "filled_at"; "epoch_id"; "zone_id"; "meter_id"; "refund_tx_signature";
   "order_pda"; "session_token"; "trigger_price"; "trigger_type"; "trigger_status"; "trailing_offset";
   "triggered_at"].

Definition row_fields : list string :=
  ["id"; "user_id"; "order_type"; "side"; "energy_amount"; "price_per_kwh"; "filled_amount"; "status";
   "expires_at"; "created_at"; "filled_at"; "epoch_id"; "zone_id"; "meter_id"; "refund_tx_signature";
   "order_pda"; "session_token"; "is_confidential"; "energy_source"; "trigger_price"; "trigger_type";
   "trigger_status"; "trailing_offset"; "triggered_at"].

(** A field whose column is not in the row is an error, [Option] or not. *)
Definition decode_order (columns : list string) (o : TradingOrderDb) : option TradingOrderDb :=
  if forallb (fun f => bool_decide (f ∈ columns)) row_fields then Some o else None.

Record TradingOrdersResponse := {
  tor_data : list TradingOrder;
  tor_pagination : PaginationMeta;
}.

Section queries.
Context `{NUM : Numerics} `{FT : FloatText} `{PF : PgFloat} `{ND : NumericDecode} `{TL : TokenLedger}.

(** Count, page and answer: what both lists do after their WHERE clause is built. *)
Definition answer_orders (p : TradingOrderDb -> bool) (q : OrderQuery) : TM TradingOrdersResponse :=
  total ← query (fun d => Z.of_nat (length (listed_orders p d)));
  rows ← query (fun d => mapM (decode_order selected_columns)
    (sql_page (params_limit (oq_params q)) (params_offset (oq_params q))
       (Prelude.sort_by (order_before (get_sort_field q) (sort_order (oq_params q))) (listed_orders p d))));
  rows ← expect FDb rows;
  mret {| tor_data := TradingOrder_from <$> rows; tor_pagination := meta_new (oq_params q) total |}.

Definition get_user_trading_orders (user : Uuid) (params : OrderQuery) : TM TradingOrdersResponse :=
  match validate_order_query params with
  | (Err e, _) => fail (FApi e)
  | (Ok _, q) => answer_orders (user_filter user q) q
  end.

Definition get_trading_order_book (now : DateTime) (params : OrderQuery) : TM TradingOrdersResponse :=
  match validate_order_query params with
  | (Err e, _) => fail (FApi e)
  | (Ok _, q) => answer_orders (book_filter now q) q
  end.

(** ** Trades *)

Record TradeRecord := {
  tr_id : Uuid;
  tr_quantity : Decimal;
  tr_price : Decimal;
  tr_total_value : Decimal;
  tr_role : string;
  tr_counterparty_id : Uuid;
  tr_executed_at : DateTime;
  tr_status : string;
  tr_wheeling_charge : option Decimal;
  tr_loss_cost : option Decimal;
  tr_effective_energy : option Decimal;
  tr_buyer_zone_id : option Z;
  tr_seller_zone_id : option Z;
}.

(** A joined row: the match, the users of its orders, and its settlement if there is one. *)
Definition joined (d : Db) (m : OrderMatch) : option (OrderMatch * Uuid * Uuid * option SettlementRow) :=
  b ← orders d !! om_buy_order_id m;
  s ← orders d !! om_sell_order_id m;
  Some (m, o_user_id b, o_user_id s, sid ← om_settlement_id m; settlements d !! sid).

Definition trade_seen (user : Uuid) (j : OrderMatch * Uuid * Uuid * option SettlementRow) : option TradeRecord :=
  let '(m, buyer, seller, s) := j in
  total ← decode_decimal (om_matched_amount m * om_match_price m / U);
  Some {| tr_id := om_id m; tr_quantity := om_matched_amount m; tr_price := om_match_price m;
          tr_total_value := total; tr_role := if (buyer =? user)%N then "buyer" else "seller";
          tr_counterparty_id := if (buyer =? user)%N then seller else buyer;
          tr_executed_at := om_match_time m; tr_status := om_status m;
          tr_wheeling_charge := s ≫= s_wheeling_charge; tr_loss_cost := s ≫= s_loss_cost;
          tr_effective_energy := s ≫= s_effective_energy; tr_buyer_zone_id := s ≫= s_buyer_zone_id;
          tr_seller_zone_id := s ≫= s_seller_zone_id |}.

Definition trade_rows (user : Uuid) (d : Db) : list (OrderMatch * Uuid * Uuid * option SettlementRow) :=
  Prelude.sort_by (fun x y => om_match_time y.1.1.1 <=? om_match_time x.1.1.1)
    (List.filter (fun j => (j.1.1.2 =? user)%N || (j.1.2 =? user)%N)
       (omap (joined d) (map_to_list (order_matches d)).*2)).

(** [LIMIT $2]: a negative one is an error of the server. *)
Definition get_my_trades (user : Uuid) (limit : option Z) : TM (list TradeRecord) :=
  let limit := Z.min (default 20 limit) 100 in
  rows ← query (fun d => if limit <? 0 then None
                         else mapM (trade_seen user) (take (Z.to_nat limit) (trade_rows user d)));
  expect FDb rows.

(** ** Token balance *)

Record TokenBalanceResponse := {
  tb_wallet_address : option string;
  tb_token_balance : spec_float;
  tb_raw_balance : Z;
  tb_mint : string;
}.

Definition ask_balance (wallet mint : string) : TM (option Z) := fun w =>
  (Ok (ledger_balance (trace w) wallet mint), w).

Definition get_user_token_balance (mint : string) (user : Uuid) : TM TokenBalanceResponse :=
  row ← query (fun d => users d !! user);
  u ← expect FDb row;
  match u_wallet_address u with
  | Some address =>
      if (address =? "")%string then
        mret {| tb_wallet_address := None; tb_token_balance := f64_of_Z 0; tb_raw_balance := 0; tb_mint := mint |}
      else
        match pubkey_refusal address with
        | Some e => fail (FApi (BadRequest ("Invalid wallet address: " ++ e)))
        | None =>
            match pubkey_refusal mint with
            | Some e => fail (FApi (Internal ("Invalid mint address: " ++ e)))
            | None =>
                raw ← ask_balance address mint;
                let raw := default 0 raw in
                mret {| tb_wallet_address := Some address;
                        tb_token_balance := f64_div (f64_of_Z raw) (f64_of_Z 1000000000);
                        tb_raw_balance := raw; tb_mint := mint |}
            end
        end
  | None => mret {| tb_wallet_address := None; tb_token_balance := f64_of_Z 0; tb_raw_balance := 0; tb_mint := mint |}
  end.

(** ** The state of matching ([status.rs]) *)

Record PriceRange := { pr_min : option spec_float; pr_max : option spec_float }.

Record MatchingStatus := {
  pending_buy_orders : Z;
  pending_sell_orders : Z;
  pending_matches : Z;
  buy_price_range : PriceRange;
  sell_price_range : PriceRange;
  can_match : bool;
  match_reason : string;
}.

Definition pending_on (side : OrderSide) (o : TradingOrderDb) : bool :=
  bool_decide (o_status o = Pending) && bool_decide (o_side o = side).

Definition pending_prices (side : OrderSide) (d : Db) : list Decimal :=
  o_price_per_kwh <$> listed_orders (pending_on side) d.

(** [MIN] and [MAX]: NULL of no rows. *)
Fixpoint least (l : list Z) : option Z :=
  match l with [] => None | a :: l => Some (match least l with Some b => Z.min a b | None => a end) end.
Fixpoint greatest (l : list Z) : option Z :=
  match l with [] => None | a :: l => Some (match greatest l with Some b => Z.max a b | None => a end) end.

Definition side_range (side : OrderSide) (d : Db) : PriceRange :=
  {| pr_min := float8_of <$> least (pending_prices side d);
     pr_max := float8_of <$> greatest (pending_prices side d) |}.

Definition matching_answer (buy_max sell_min : option spec_float) : bool * string :=
  match buy_max, sell_min with
  | Some b, Some s =>
      if f64_le s b
      then (true, "Matching possible: buy max " ++ f64_fixed 4 b ++ " >= sell min " ++ f64_fixed 4 s)
      else (false, "Price gap: buy max " ++ f64_fixed 4 b ++ " < sell min " ++ f64_fixed 4 s)
  | None, _ => (false, "No pending buy orders")
  | _, None => (false, "No pending sell orders")
  end.

Definition get_matching_status : TM MatchingStatus :=
  sides ← query (fun d => (length (pending_prices Buy d), side_range Buy d,
                           (length (pending_prices Sell d), side_range Sell d)));
  pending ← attempt (query (fun d => length (List.filter (fun m => (om_status m =? "pending")%string)
                                               (map_to_list (order_matches d)).*2)));
  let '(buys, buy_range, (sells, sell_range)) := sides in
  let answer := matching_answer (pr_max buy_range) (pr_min sell_range) in
  mret {| pending_buy_orders := Z.of_nat buys; pending_sell_orders := Z.of_nat sells;
          pending_matches := match pending with Ok n => Z.of_nat n | Err _ => 0 end;
          buy_price_range := buy_range; sell_price_range := sell_range;
          can_match := answer.1; match_reason := answer.2 |}.

(** ** Settlement statistics ([status.rs]) *)

Record RecentSettlement := {
  rc_id : Uuid;
  rc_status : string;
  rc_energy_amount : spec_float;
  rc_total_amount : spec_float;
  rc_created_at : DateTime;
}.

Record SettlementStatusResponse := {
  ss_pending_count : Z;
  ss_processing_count : Z;
  ss_completed_count : Z;
  ss_failed_count : Z;
  ss_total_settled_value : spec_float;
  ss_recent_settlements : list RecentSettlement;
}.

Definition all_settlements (d : Db) : list SettlementRow := (map_to_list (settlements d)).*2.

(** [COUNT] with [FILTER (WHERE status = ..)]. *)
Definition status_count (status : string) (l : list SettlementRow) : Z :=
  Z.of_nat (length (List.filter (fun s => (s_status s =? status)%string) l)).

(** A sum of [float8], in the order of the table. *)
Definition settled_value (l : list SettlementRow) : spec_float :=
  foldl (fun acc s => f64_add acc (if (s_status s =? "completed")%string then float8_of (s_total_amount s) else f64_of_Z 0))
    (f64_of_Z 0) l.

Definition recent_settlement (s : SettlementRow) : RecentSettlement :=
  {| rc_id := s_id s; rc_status := s_status s; rc_energy_amount := float8_of (s_energy_amount s);
     rc_total_amount := float8_of (s_total_amount s); rc_created_at := s_created_at s |}.

Definition get_settlement_status : TM SettlementStatusResponse :=
  stats ← query all_settlements;
  recent ← query (fun d => take 10 (Prelude.sort_by (fun x y => s_created_at y <=? s_created_at x) (all_settlements d)));
  mret {| ss_pending_count := status_count "pending" stats; ss_processing_count := status_count "processing" stats;
          ss_completed_count := status_count "completed" stats; ss_failed_count := status_count "failed" stats;
          ss_total_settled_value := settled_value stats;
          ss_recent_settlements := recent_settlement <$> recent |}.
End queries.

(** ** The hour ([market_data.rs]) *)

Record MarketData := {
  mk_current_epoch : Z;
  mk_epoch_start_time : DateTime;
  mk_epoch_end_time : DateTime;
  mk_status : string;
  mk_sell_orders : list TradingOrder;
  mk_buy_orders : list TradingOrder;
  mk_recent_trades : list OrderMatch;
}.

(** [now.timestamp() / 3600] of the whole seconds; a division that truncates, and a cast. *)
Definition get_market_data (now : DateTime) : MarketData :=
  let current_epoch := Z.quot (now / 1000000000) 3600 mod 2 ^ 64 in
  let start := current_epoch * 3600 * 1000000000 in
  {| mk_current_epoch := current_epoch; mk_epoch_start_time := start;
     mk_epoch_end_time := start + nanos_per_hour; mk_status := "active";
     mk_sell_orders := []; mk_buy_orders := []; mk_recent_trades := [] |}.

(** ** Lemmas *)

Section lemmas.
Context `{NUM : Numerics} `{FT : FloatText} `{PF : PgFloat} `{ND : NumericDecode} `{TL : TokenLedger}.
Implicit Types (d : Db) (w : world Db Event).

Lemma elem_of_listed_orders p d o : o ∈ listed_orders p d <-> (exists i, orders d !! i = Some o) /\ p o = true.
Proof.
  unfold listed_orders. rewrite list_elem_of_In, List.filter_In, <- list_elem_of_In, list_elem_of_fmap. split.
  - intros [([i x] & -> & H%elem_of_map_to_list) Hp]. split; [by exists i|done].
  - intros [[i H] Hp]. split; [|done]. exists (i, o). split; [done|]. by apply elem_of_map_to_list.
Qed.

(** ** The lists of orders *)

Lemma decode_order_refused o : decode_order selected_columns o = None.
Proof. reflexivity. Qed.

Lemma decode_orders_empty l rows : mapM (decode_order selected_columns) l = Some rows -> l = [] /\ rows = [].
Proof. destruct l as [|o l]; simpl; [by intros [= <-]|]. done. Qed.

Lemma answer_orders_Ok p q w r w' : answer_orders p q w = (Ok r, w') ->
  tor_data r = [] /\ tor_pagination r = meta_new (oq_params q) (Z.of_nat (length (listed_orders p (st w))))
  /\ st w' = st w.
Proof.
  unfold answer_orders. intros H. apply bind_Ok in H as (n & w1 & (-> & S1 & _)%query_Ok & H).
  apply bind_Ok in H as (rows & w2 & (-> & S2 & _)%query_Ok & H).
  apply bind_Ok in H as (l & w3 & [Hd ->]%expect_Ok & [<- <-]%ret_Ok).
  apply decode_orders_empty in Hd as [_ ->]. simpl. by split_and!; [..|congruence].
Qed.

Lemma answer_orders_calm p q w : faults w = [] ->
  sql_page (params_limit (oq_params q)) (params_offset (oq_params q))
     (Prelude.sort_by (order_before (get_sort_field q) (sort_order (oq_params q))) (listed_orders p (st w))) <> [] ->
  answer_orders p q w = (Err FDb, w).
Proof.
  intros Hf Hne. unfold answer_orders. rewrite (bind_run _ _ w _ w (query_calm _ _ Hf)).
  rewrite (bind_run _ _ w _ w (query_calm _ _ Hf)). destruct (sql_page _ _ _) as [|o l]; [done|]. done.
Qed.

(** ** Trades *)

Lemma trade_seen_Some user m b s st_ t : trade_seen user (m, b, s, st_) = Some t ->
  tr_id t = om_id m /\ tr_quantity t = om_matched_amount m /\ tr_price t = om_match_price m
  /\ tr_executed_at t = om_match_time m
  /\ decode_decimal (om_matched_amount m * om_match_price m / U) = Some (tr_total_value t)
  /\ tr_role t = (if (b =? user)%N then "buyer" else "seller")
  /\ tr_counterparty_id t = (if (b =? user)%N then s else b).
Proof. unfold trade_seen. destruct (decode_decimal _) as [z|] eqn:E; [|done]. intros [= <-]. by split_and!. Qed.

Lemma joined_Some d m m' b s st_ : joined d m = Some (m', b, s, st_) ->
  m' = m /\ (exists bo so, orders d !! om_buy_order_id m = Some bo /\ orders d !! om_sell_order_id m = Some so
             /\ b = o_user_id bo /\ s = o_user_id so) /\ st_ = (om_settlement_id m ≫= fun i => settlements d !! i).
Proof.
  unfold joined. destruct (orders d !! om_buy_order_id m) as [bo|]; [|done]. simpl.
  destruct (orders d !! om_sell_order_id m) as [so|]; [|done]. simpl. intros [= <- <- <- <-].
  split_and!; [done| |done]. by exists bo, so.
Qed.

Lemma trade_rows_elem user d m b s st_ : (m, b, s, st_) ∈ trade_rows user d <->
  ((exists i, order_matches d !! i = Some m) /\ joined d m = Some (m, b, s, st_)) /\ (b = user \/ s = user).
Proof.
  unfold trade_rows. rewrite sort_by_perm, list_elem_of_In, List.filter_In, <- list_elem_of_In, list_elem_of_omap.
  simpl. rewrite orb_true_iff, !N.eqb_eq. split.
  - intros [(x & Hx & Hj) Hu]. split; [|done]. apply list_elem_of_fmap in Hx as ([i y] & -> & Hx%elem_of_map_to_list).
    simpl in *. pose proof (joined_Some _ _ _ _ _ _ Hj) as [-> _].
    split; [by exists i|done].
  - intros [[[i Hi] Hj] Hu]. split; [|done]. exists m. split; [|done]. apply list_elem_of_fmap. exists (i, m).
    split; [done|]. by apply elem_of_map_to_list.
Qed.

Lemma trades_sorted user d : Sorted.StronglySorted (fun x y => om_match_time y.1.1.1 <= om_match_time x.1.1.1) (trade_rows user d).
Proof.
  apply Sorted.Sorted_StronglySorted; [intros x y z; lia|]. unfold trade_rows.
  pose proof (sort_by_sorted (fun x y : OrderMatch * Uuid * Uuid * option SettlementRow =>
     om_match_time y.1.1.1 <=? om_match_time x.1.1.1)) as H. unfold rel in H.
  eapply Sorted.Sorted_ind; [constructor| |apply H]; [intros x l _ IH Hd|intros x y; rewrite !Z.leb_le; lia].
  constructor; [done|]. destruct Hd as [|y l Hy]; constructor. by apply Z.leb_le.
Qed.

Lemma sorted_take {A} (R : A -> A -> Prop) n l : Sorted.StronglySorted R l ->
  Sorted.StronglySorted R (take n l) /\ forall x y, x ∈ take n l -> y ∈ drop n l -> R x y.
Proof.
  intros H. revert n. induction H as [|a l Hs IH Hall]; intros [|n]; simpl; [split; [constructor|]..|].
  all: try (intros x y Hx; by apply elem_of_nil in Hx). destruct (IH n) as [IH1 IH2]. split.
  - constructor; [done|]. by apply Forall_take.
  - intros x y [->|Hx]%elem_of_cons Hy; [|by apply IH2]. rewrite list.Forall_forall in Hall. apply Hall.
    by apply (subseteq_drop n l) in Hy.
Qed.

Lemma my_trades_Ok user limit w ts w' : get_my_trades user limit w = (Ok ts, w') ->
  0 <= Z.min (default 20 limit) 100 /\ st w' = st w
  /\ mapM (trade_seen user) (take (Z.to_nat (Z.min (default 20 limit) 100)) (trade_rows user (st w))) = Some ts.
Proof.
  unfold get_my_trades. intros H. apply bind_Ok in H as (r & w1 & (-> & S1 & _)%query_Ok & [H ->]%expect_Ok).
  destruct (_ <? 0) eqn:E; [done|]. apply Z.ltb_ge in E. done.
Qed.

(** The list of trades holds the user's newest ones, at most as many as the limit and all of
    them if they are fewer: each is a recorded match of one of the user's orders, seen from the
    user's side, and its value is what the driver reads of the exact product. *)
Theorem my_trades_outcome user limit w ts w' : get_my_trades user limit w = (Ok ts, w') ->
  Z.of_nat (length ts) = Z.min (Z.min (default 20 limit) 100) (Z.of_nat (length (trade_rows user (st w))))
  /\ Sorted.StronglySorted (fun x y => tr_executed_at y <= tr_executed_at x) ts
  /\ forall t, t ∈ ts -> exists i m bo so, order_matches (st w) !! i = Some m /\ tr_id t = om_id m
     /\ orders (st w) !! om_buy_order_id m = Some bo /\ orders (st w) !! om_sell_order_id m = Some so
     /\ decode_decimal (om_matched_amount m * om_match_price m / U) = Some (tr_total_value t)
     /\ (tr_role t = "buyer" /\ o_user_id bo = user /\ tr_counterparty_id t = o_user_id so
         \/ tr_role t = "seller" /\ o_user_id so = user /\ o_user_id bo <> user /\ tr_counterparty_id t = o_user_id bo).
Proof.
  intros (Hl & _ & H)%my_trades_Ok. apply mapM_Some in H. split_and!.
  - apply Forall2_length in H. rewrite length_take in H. lia.
  - assert (Hs : Sorted.StronglySorted (fun x y => om_match_time y.1.1.1 <= om_match_time x.1.1.1)
        (take (Z.to_nat (Z.min (default 20 limit) 100)) (trade_rows user (st w)))).
    { apply sorted_take, trades_sorted. }
    induction H as [|[[[m b] s] st_] t l k Ht Hk IH]; [constructor|].
    inversion_clear Hs as [|? ? Hs' Hall]. constructor; [by apply IH|].
    apply trade_seen_Some in Ht as (_ & _ & _ & -> & _). clear IH Hs'.
    induction Hk as [|[[[m' b'] s'] st'] t' l k Ht' Hk IH]; [constructor|].
    inversion_clear Hall as [|? ? Hm Hall']. constructor; [|by apply IH].
    apply trade_seen_Some in Ht' as (_ & _ & _ & -> & _). done.
  - intros t [n Hn]%list_elem_of_lookup. destruct (Forall2_lookup_r _ _ _ _ _ H Hn) as ([[[m b] s] st_] & Hin%list_elem_of_lookup_2 & Ht).
    apply trade_seen_Some in Ht as (Hid & _ & _ & _ & Htot & Hr & Hc).
    apply elem_of_take in Hin as (i & Hin & _). apply list_elem_of_lookup_2, trade_rows_elem in Hin as [[[j Hj] Hjoin] Hu].
    apply joined_Some in Hjoin as (_ & (bo & so & Hb & Hso & -> & ->) & _).
    exists j, m, bo, so. split_and!; [done..|]. destruct (o_user_id bo =? user)%N eqn:E.
    + apply N.eqb_eq in E. left. by split_and!.
    + apply N.eqb_neq in E. right. destruct Hu as [|Hu]; [done|]. by split_and!.
Qed.

(** ** The state of matching *)

Lemma least_spec l : match least l with
  | Some m => m ∈ l /\ forall a, a ∈ l -> m <= a
  | None => l = [] end.
Proof.
  induction l as [|a l IH]; simpl; [done|]. destruct (least l) as [m|].
  - destruct IH as [Hm Hle]. split; [destruct (Z.min_spec a m) as [[_ ->]|[_ ->]]; [left|by right]|].
    intros b [->|Hb]%elem_of_cons; [lia|]. specialize (Hle b Hb). lia.
  - subst l. split; [left|]. intros b [->|Hb]%elem_of_cons; [done|by apply elem_of_nil in Hb].
Qed.

Lemma greatest_spec l : match greatest l with
  | Some m => m ∈ l /\ forall a, a ∈ l -> a <= m
  | None => l = [] end.
Proof.
  induction l as [|a l IH]; simpl; [done|]. destruct (greatest l) as [m|].
  - destruct IH as [Hm Hle]. split; [destruct (Z.max_spec a m) as [[_ ->]|[_ ->]]; [by right|left]|].
    intros b [->|Hb]%elem_of_cons; [lia|]. specialize (Hle b Hb). lia.
  - subst l. split; [left|]. intros b [->|Hb]%elem_of_cons; [done|by apply elem_of_nil in Hb].
Qed.

Lemma pending_price_elem side d x : x ∈ pending_prices side d <->
  exists i o, orders d !! i = Some o /\ o_status o = Pending /\ o_side o = side /\ o_price_per_kwh o = x.
Proof.
  unfold pending_prices. rewrite list_elem_of_fmap. split.
  - intros (o & -> & [[i Hi] Hp]%elem_of_listed_orders). apply andb_prop in Hp as [H1%bool_decide_eq_true H2%bool_decide_eq_true].
    by exists i, o.
  - intros (i & o & Hi & H1 & H2 & <-). exists o. split; [done|]. apply elem_of_listed_orders. split; [by exists i|].
    unfold pending_on. by rewrite !bool_decide_eq_true_2.
Qed.

Lemma matching_status_Ok w r w' : get_matching_status w = (Ok r, w') ->
  st w' = st w /\ buy_price_range r = side_range Buy (st w) /\ sell_price_range r = side_range Sell (st w)
  /\ can_match r = (matching_answer (pr_max (side_range Buy (st w))) (pr_min (side_range Sell (st w)))).1
  /\ pending_buy_orders r = Z.of_nat (length (pending_prices Buy (st w)))
  /\ pending_sell_orders r = Z.of_nat (length (pending_prices Sell (st w))).
Proof.
  unfold get_matching_status. intros H. apply bind_Ok in H as (x & w1 & (-> & S1 & _)%query_Ok & H).
  apply bind_Ok in H as (y & w2 & Hy%attempt_Ok%query_st & H). apply ret_Ok in H as [<- <-]. simpl.
  split_and!; [congruence|done..].
Qed.

Lemma clamp_size_pos n : 1 <= clamp_size n.
Proof. unfold clamp_size, default_page_size. destruct (Z.ltb_spec n 1), (Z.ltb_spec 100 n); lia. Qed.

Lemma first_page_nonempty {A} (p : PaginationParams) (l : list A) : page p = 1 -> 1 <= page_size p -> l <> [] ->
  sql_page (params_limit p) (params_offset p) l <> [].
Proof.
  intros H1 H2 Hl. unfold sql_page, params_limit, params_offset. rewrite H1.
  replace (wrap_u32 (1 - 1)) with 0 by done. rewrite Z.mul_0_l. replace (wrap_u32 0) with 0 by done. simpl.
  destruct l as [|a l]; [done|]. destruct (Z.to_nat (page_size p)) eqn:E; [lia|done].
Qed.

Lemma answer_first_page p q w o : faults w = [] -> page (oq_params q) = 1 -> 1 <= page_size (oq_params q) ->
  o ∈ listed_orders p (st w) -> answer_orders p q w = (Err FDb, w).
Proof.
  intros Hf Hp Hs Ho. apply answer_orders_calm; [done|]. apply first_page_nonempty; [done..|].
  intros Hn. assert (Hin : o ∈ Prelude.sort_by (order_before (get_sort_field q) (sort_order (oq_params q))) (listed_orders p (st w)))
    by by rewrite sort_by_perm. rewrite Hn in Hin. by apply elem_of_nil in Hin.
Qed.

Lemma validated q q' e : validate_order_query q = (e, q') ->
  oq_status q' = oq_status q /\ oq_side q' = oq_side q /\ oq_order_type q' = oq_order_type q
  /\ page (oq_params q') = clamp_page (page (oq_params q)) /\ 1 <= page_size (oq_params q').
Proof. intros [= _ <-]. simpl. split_and!; [done..|]. apply clamp_size_pos. Qed.

(** Neither list of orders can show an order: an answer is an empty page (with the true count
    of the orders there are), and while nothing fails the first page of a list that has an order
    is an error, since the statement does not select two columns a row is made of. *)
Theorem orders_unreadable user now q w :
  (forall r w', get_user_trading_orders user q w = (Ok r, w') \/ get_trading_order_book now q w = (Ok r, w') -> tor_data r = [])
  /\ (faults w = [] -> page (oq_params q) <= 1 -> (validate_order_query q).1 = Ok tt ->
      (forall i o, orders (st w) !! i = Some o -> user_filter user q o = true -> get_user_trading_orders user q w = (Err FDb, w))
      /\ (forall i o, orders (st w) !! i = Some o -> book_filter now q o = true -> get_trading_order_book now q w = (Err FDb, w))).
Proof.
  split.
  - intros r w' [H|H]; unfold get_user_trading_orders, get_trading_order_book in H;
      destruct (validate_order_query q) as [[[]|e] q']; try (by apply fail_Ok in H); by apply answer_orders_Ok in H as [? _].
  - intros Hf Hp Hv. unfold get_user_trading_orders, get_trading_order_book. destruct (validate_order_query q) as [[[]|e] q'] eqn:E; [|done].
    destruct (validated _ _ _ E) as (E1 & E2 & E3 & E4 & E5).
    assert (Hp1 : page (oq_params q') = 1) by (rewrite E4; unfold clamp_page; destruct (Z.ltb_spec (page (oq_params q)) 1); lia).
    split; intros i o Hi Ho; apply (answer_first_page _ _ _ o); try done; apply elem_of_listed_orders; (split; [by exists i|]).
    + unfold user_filter, query_filter in *. by rewrite E1, E2, E3.
    + unfold book_filter, query_filter in *. by rewrite E1, E2, E3.
Qed.

(** C29: The status says that matching is possible whenever a pending buyer pays at least the price
    of a pending seller; when it says so there are such two, up to the rounding of [float8]. *)
Theorem matching_possible `{!PgFloatMono} w r w' : get_matching_status w = (Ok r, w') ->
  let pending side x := exists i o, orders (st w) !! i = Some o /\ o_status o = Pending /\ o_side o = side /\ o_price_per_kwh o = x in
  (forall b s, pending Buy b -> pending Sell s -> s <= b -> can_match r = true)
  /\ (can_match r = true -> exists b s, pending Buy b /\ pending Sell s /\ f64_le (float8_of s) (float8_of b) = true).
Proof.
  intros (_ & _ & _ & Hc & _)%matching_status_Ok pending. unfold side_range in Hc. simpl in Hc.
  pose proof (greatest_spec (pending_prices Buy (st w))) as Hg. pose proof (least_spec (pending_prices Sell (st w))) as Hl.
  split.
  - intros b s Hb Hs Hle. apply pending_price_elem in Hb, Hs.
    destruct (greatest _) as [gb|]; [|rewrite Hg in Hb; by apply elem_of_nil in Hb].
    destruct (least _) as [ls|]; [|rewrite Hl in Hs; by apply elem_of_nil in Hs].
    destruct Hg as [_ Hg], Hl as [_ Hl]. simpl in Hc. rewrite float8_mono in Hc; [done|].
    specialize (Hg _ Hb). specialize (Hl _ Hs). lia.
  - rewrite Hc. destruct (greatest _) as [gb|]; simpl; [|done]. destruct (least _) as [ls|]; simpl; [|done].
    destruct (f64_le (float8_of ls) (float8_of gb)) eqn:E; [|done]. intros _. exists gb, ls.
    split_and!; [by apply pending_price_elem, Hg|by apply pending_price_elem, Hl|done].
Qed.

(** ** Settlements *)

Lemma recent_sorted d : Sorted.StronglySorted (fun x y => s_created_at y <= s_created_at x)
  (Prelude.sort_by (fun x y => s_created_at y <=? s_created_at x) (all_settlements d)).
Proof.
  apply Sorted.Sorted_StronglySorted; [intros x y z; lia|].
  pose proof (sort_by_sorted (fun x y : SettlementRow => s_created_at y <=? s_created_at x)) as H. unfold rel in H.
  eapply Sorted.Sorted_ind; [constructor| |apply H]; [intros x l _ IH Hd|intros x y; rewrite !Z.leb_le; lia].
  constructor; [done|]. destruct Hd as [|y l Hy]; constructor. by apply Z.leb_le.
Qed.

(** The statistics count every settlement once if its status is one of the four, and list the
    ten newest: any that is not listed is at most as new as each that is. *)
Theorem settlement_stats_outcome w r w' : get_settlement_status w = (Ok r, w') -> faults w = [] ->
  let rows := all_settlements (st w) in
  (Forall (fun s => s_status s ∈ ["pending"; "processing"; "completed"; "failed"]) rows ->
     ss_pending_count r + ss_processing_count r + ss_completed_count r + ss_failed_count r = Z.of_nat (length rows))
  /\ exists listed others, rows ≡ₚ (listed ++ others)%list /\ ss_recent_settlements r = recent_settlement <$> listed
     /\ length listed = Nat.min 10 (length rows)
     /\ forall x y, x ∈ listed -> y ∈ others -> s_created_at y <= s_created_at x.
Proof.
  intros H Hf. unfold get_settlement_status in H. rewrite (bind_run _ _ w _ w (query_calm _ _ Hf)) in H.
  rewrite (bind_run _ _ w _ w (query_calm _ _ Hf)) in H. apply ret_Ok in H as [<- _]. simpl. split.
  - unfold status_count. generalize (all_settlements (st w)). induction 1 as [|s l Hs Hl IH]; [done|].
    rewrite !elem_of_cons in Hs. simpl.
    destruct Hs as [E|[E|[E|[E|E%elem_of_nil]]]]; [..|done]; rewrite E; simpl; lia.
  - set (l := Prelude.sort_by _ _). exists (take 10 l), (drop 10 l). split_and!.
    + rewrite take_drop. unfold l. by rewrite sort_by_perm.
    + done.
    + rewrite length_take. f_equal. unfold l. by rewrite sort_by_perm.
    + intros x y. apply (sorted_take (fun x y => s_created_at y <= s_created_at x)), recent_sorted.
Qed.
End lemmas.

(** The hour of the market data is the one of the time that is given, and begins on the hour. *)
Theorem market_hour now : 0 <= now < 2 ^ 63 * 1000000000 ->
  mk_epoch_start_time (get_market_data now) <= now < mk_epoch_end_time (get_market_data now)
  /\ (nanos_per_hour | mk_epoch_start_time (get_market_data now))
  /\ mk_epoch_end_time (get_market_data now) = mk_epoch_start_time (get_market_data now) + nanos_per_hour.
Proof.
  intros Hn. unfold get_market_data. cbn [mk_epoch_start_time mk_epoch_end_time].
  assert (Hs : 0 <= now / 1000000000 < 2 ^ 63) by (split; [apply Z.div_pos; lia|apply Z.div_lt_upper_bound; lia]).
  rewrite Z.quot_div_nonneg by lia. rewrite Z.mod_small.
  2: { split; [apply Z.div_pos; lia|]. apply Z.div_lt_upper_bound; lia. }
  rewrite Z.div_div by lia. unfold nanos_per_hour.
  pose proof (Z.div_mod now 3600000000000 ltac:(lia)). pose proof (Z.mod_pos_bound now 3600000000000 ltac:(lia)).
  replace (1000000000 * 3600) with 3600000000000 by lia.
  split; [lia|]. split; [exists (now / 3600000000000); lia|done].
Qed.

(** ** Concrete runs *)

Section demo.
#[local] Existing Instances std_numerics demo_float_text demo_pg_float.

#[local] Instance demo_decode : NumericDecode := {| decode_decimal z := Some z; decode_exact z _ := eq_refl |}.

Definition demo_order_row (id user : Uuid) (side : OrderSide) (price at_ : Z) : TradingOrderDb :=
  {| o_id := id; o_user_id := user; o_order_type := Limit; o_side := side; o_energy_amount := 10 * U;
     o_price_per_kwh := price; o_filled_amount := None; o_status := Pending; o_expires_at := Some 1000;
     o_created_at := Some at_; o_filled_at := None; o_epoch_id := None; o_zone_id := None; o_meter_id := None;
     o_refund_tx_signature := None; o_order_pda := None; o_blockchain_tx_signature := None; o_session_token := None; o_is_confidential := false;
     o_energy_source := None; o_trigger_price := None; o_trigger_type := None; o_trigger_status := None;
     o_trailing_offset := None; o_triggered_at := None |}.

Definition demo_match : OrderMatch :=
  {| om_id := 30; om_epoch_id := 5; om_buy_order_id := 10; om_sell_order_id := 11; om_matched_amount := 2 * U;
     om_match_price := 3 * U; om_match_time := 50; om_status := "pending"; om_settlement_id := None |}.

Definition demo_market : world Db Event := World
  (set_matches (<[30%N := demo_match]> ∅)
     (set_orders (<[10%N := demo_order_row 10 1 Buy (4 * U) 1]> (<[11%N := demo_order_row 11 2 Sell (3 * U) 2]> ∅)) empty_db))
  [] [].

Definition demo_query_all : OrderQuery :=
  {| oq_status := None; oq_side := None; oq_order_type := None;
     oq_params := {| page := 1; page_size := 20; sort_by := None; sort_order := Desc |} |}.

Lemma orders_unreadable_witness : get_user_trading_orders 1 demo_query_all demo_market = (Err FDb, demo_market)
  /\ get_trading_order_book 500 demo_query_all demo_market = (Err FDb, demo_market).
Proof.
  destruct (orders_unreadable 1 500 demo_query_all demo_market) as [_ H].
  destruct (H eq_refl ltac:(simpl; lia) eq_refl) as [H1 H2].
  split; [apply (H1 10%N (demo_order_row 10 1 Buy (4 * U) 1))|apply (H2 10%N (demo_order_row 10 1 Buy (4 * U) 1))];
    vm_compute; reflexivity.
Defined.

Lemma my_trades_outcome_witness : exists ts, get_my_trades 2 None demo_market = (Ok ts, demo_market)
  /\ Z.of_nat (length ts) = 1 /\ (fun t => (tr_role t, tr_counterparty_id t, tr_total_value t)) <$> ts = [("seller", 1%N, 6 * U)].
Proof.
  destruct (get_my_trades 2 None demo_market) as [[ts|e] w'] eqn:E; [|exfalso; apply (f_equal fst) in E; vm_compute in E; discriminate].
  pose proof (my_trades_outcome 2 None demo_market ts w' E) as (Hl & _). exists ts.
  assert (Ew : w' = demo_market) by (apply (f_equal snd) in E; cbn [snd] in E; by rewrite <- E). rewrite Ew. split; [done|].
  split; [rewrite Hl; vm_compute; reflexivity|]. apply (f_equal fst) in E. vm_compute in E. injection E as <-. vm_compute. reflexivity.
Defined.

(** A coarse [float8], of three values. *)
#[local] Instance coarse_float : PgFloat :=
  {| float8_of z := if z <? U then f64_of_Z 0 else if z <? 4 * U then f64_of_Z 1 else f64_of_Z 2 |}.
#[local] Instance coarse_mono : PgFloatMono.
Proof.
  split. intros a b H. unfold float8_of, coarse_float. assert (0 < U) by reflexivity.
  destruct (Z.ltb_spec a U), (Z.ltb_spec b U), (Z.ltb_spec a (4 * U)), (Z.ltb_spec b (4 * U)); first [reflexivity|exfalso; lia].
Defined.

Lemma matching_possible_witness : exists r, get_matching_status demo_market = (Ok r, demo_market) /\ can_match r = true.
Proof.
  destruct (get_matching_status demo_market) as [[r|e] w'] eqn:E; [|exfalso; apply (f_equal fst) in E; vm_compute in E; discriminate].
  assert (Ew : w' = demo_market) by (apply (f_equal snd) in E; cbn [snd] in E; by rewrite <- E). subst w'. exists r. split; [done|].
  apply (matching_possible demo_market r demo_market E) with (b := 4 * U) (s := 3 * U).
  - exists 10%N, (demo_order_row 10 1 Buy (4 * U) 1). split_and!; reflexivity.
  - exists 11%N, (demo_order_row 11 2 Sell (3 * U) 2). split_and!; reflexivity.
  - unfold U. lia.
Defined.

Lemma settlement_stats_outcome_witness : exists r, get_settlement_status demo_market = (Ok r, demo_market)
  /\ ss_pending_count r + ss_processing_count r + ss_completed_count r + ss_failed_count r = 0.
Proof.
  eexists. split; [reflexivity|]. apply (settlement_stats_outcome demo_market _ demo_market eq_refl eq_refl). by constructor.
Defined.

Lemma market_hour_witness : mk_epoch_start_time (get_market_data 5000000000000) = 3600000000000
  /\ mk_epoch_start_time (get_market_data 5000000000000) <= 5000000000000 < mk_epoch_end_time (get_market_data 5000000000000).
Proof. split; [vm_compute; reflexivity|]. apply (market_hour 5000000000000). lia. Defined.
End demo.
