(* ===== verification/Export.v ===== *)
(** The export of a user's orders as CSV and JSON.

    [src/handlers/trading/export.rs] over [trading_orders].  Texts of dates, and of a JSON value,
    are interfaces; a date is its day since 1970, and the current time is an argument. *)
From stdpp Require Import pretty.
From S2P Require Import Prelude Numerics Floats Errors Store Schema Escrow Orders Text Settlement Telemetry Readings Certificates Notifications Carbon.
Open Scope string_scope.
Open Scope Z_scope.

(** [format("%Y-%m-%d %H:%M:%S")], [format("%Y%m%d_%H%M%S")] and [to_string_pretty]. *)
Class ExportText := {
  csv_time : DateTime -> string;
  file_time : DateTime -> string;
  json_pretty : Json -> string;
}.

Record ExportQuery := {
  ex_start_date : option Z;
  ex_end_date : option Z;
  ex_side : option string;
  ex_status : option string;
}.

Record ExportRow := {
  xr_date : DateTime;
  xr_order_id : string;
  xr_order_type : string;
  xr_side : string;
  xr_energy_amount : spec_float;
  xr_price_per_kwh : spec_float;
  xr_total_value : spec_float;
  xr_status : string;
}.

Record HttpResponse := {
  http_status : Z;
  http_headers : list (string * string);
  http_body : string;
}.

(** [and_hms_opt(0, 0, 0)] and [and_hms_opt(23, 59, 59)]. *)
Definition day_start (d : Z) : DateTime := d * nanos_per_day.
Definition day_end (d : Z) : DateTime := d * nanos_per_day + 86399 * 1000000000.

(** [{:?}] of the enumerations. *)
Definition OrderSide_debug (s : OrderSide) : string := match s with Buy => "Buy" | Sell => "Sell" end.
Definition OrderType_debug (t : OrderType) : string := match t with Limit => "Limit" | Market => "Market" end.
Definition OrderStatus_debug (s : OrderStatus) : string :=
  match s with
  | Pending => "Pending" | Active => "Active" | PartiallyFilled => "PartiallyFilled" | Filled => "Filled"
  | Settled => "Settled" | Cancelled => "Cancelled" | Expired => "Expired"
  end.

Section export.
Context `{NUM : Numerics} `{FT : FloatText} `{DP : DecimalParse} `{CC : CharClass} `{ET : ExportText} `{DT : DateText}
  `{JN : JsonNumber}.

Definition in_period (start end_ : option DateTime) (o : TradingOrderDb) : bool :=
  match start with
  | None => true
  | Some s => match o_created_at o with Some t => s <=? t | None => false end
  end
  && match end_ with
     | None => true
     | Some e => match o_created_at o with Some t => t <=? e | None => false end
     end.

(** NULLs come first in a descending order. *)
Definition created_later (x y : TradingOrderDb) : bool :=
  match o_created_at x, o_created_at y with
  | None, _ => true
  | Some _, None => false
  | Some a, Some b => b <=? a
  end.

(** The rows of the statement. *)
Definition export_rows (user : Uuid) (start end_ : option DateTime) (d : Db) : list TradingOrderDb :=
  take (Z.to_nat 10000) (sort_by created_later
    (List.filter (fun o => (o_user_id o =? user)%N && in_period start end_ o) (map_to_list (orders d)).*2)).

(** [created_at!]: a NULL is an error. *)
Definition decode_created (o : TradingOrderDb) : option (TradingOrderDb * DateTime) :=
  t ← o_created_at o; Some (o, t).

(** Whether a row passes the two filters on its texts, and the record that is made of it. *)
Definition passes (filter : option string) (text : string) : bool :=
  match filter with Some f => contains (lowercase f) text | None => true end.

Definition export_row (o : TradingOrderDb * DateTime) : ExportRow :=
  let energy := text_f64 (o_energy_amount o.1) in
  let price := text_f64 (o_price_per_kwh o.1) in
  {| xr_date := o.2; xr_order_id := uuid_to_string (o_id o.1);
     xr_order_type := lowercase (OrderType_debug (o_order_type o.1));
     xr_side := lowercase (OrderSide_debug (o_side o.1)); xr_energy_amount := energy; xr_price_per_kwh := price;
     xr_total_value := f64_mul energy price; xr_status := lowercase (OrderStatus_debug (o_status o.1)) |}.

Definition keep_row (side_filter status_filter : option string) (o : TradingOrderDb * DateTime) : bool :=
  passes side_filter (lowercase (OrderSide_debug (o_side o.1)))
  && passes status_filter (lowercase (OrderStatus_debug (o_status o.1))).

Definition fetch_orders (user : Uuid) (start end_ : option DateTime) (side_filter status_filter : option string)
    : TM (list ExportRow) :=
  rows ← query (fun d => mapM decode_created (export_rows user start end_ d));
  rows ← expect FDb rows;
  mret (export_row <$> List.filter (keep_row side_filter status_filter) rows).

Definition newline : string := String (Ascii.ascii_of_N 10) "".

Definition csv_row (r : ExportRow) : string :=
  csv_time (xr_date r) ++ "," ++ xr_order_id r ++ "," ++ xr_order_type r ++ "," ++ xr_side r ++ ","
  ++ f64_fixed 4 (xr_energy_amount r) ++ "," ++ f64_fixed 6 (xr_price_per_kwh r) ++ ","
  ++ f64_fixed 4 (xr_total_value r) ++ "," ++ xr_status r ++ newline.

(** A sum of [f64], in order. *)
Definition sum_f64 (f : ExportRow -> spec_float) (l : list ExportRow) : spec_float :=
  foldl (fun acc r => f64_add acc (f r)) (f64_of_Z 0) l.

Definition csv_summary (l : list ExportRow) : string :=
  newline ++ "# Summary: " ++ pretty (Z.of_nat (length l)) ++ " trades, "
  ++ f64_fixed 2 (sum_f64 xr_energy_amount l) ++ " kWh total volume, "
  ++ f64_fixed 2 (sum_f64 xr_total_value l) ++ " total value" ++ newline.

Definition generate_csv (records : list ExportRow) : string :=
  "Date,Order ID,Type,Side,Amount (kWh),Price (per kWh),Total Value,Status" ++ newline
  ++ foldr (fun r text => csv_row r ++ text) "" records
  ++ match records with [] => "" | _ :: _ => csv_summary records end.

Definition failed_export : HttpResponse :=
  {| http_status := 500; http_headers := []; http_body := "Failed to export orders" |}.

Definition download (kind filename body : string) : HttpResponse :=
  {| http_status := 200;
     http_headers := [("content-type", kind);
       ("content-disposition", "attachment; filename=" ++ String (Ascii.ascii_of_N 34) (filename ++ String (Ascii.ascii_of_N 34) ""))];
     http_body := body |}.

(** The orders both exports ask for. *)
Definition exported (user : Uuid) (params : ExportQuery) : TM (list ExportRow) :=
  fetch_orders user (day_start <$> ex_start_date params) (day_end <$> ex_end_date params)
    (ex_side params) (ex_status params).

Definition export_csv (now : DateTime) (user : Uuid) (params : ExportQuery) : TM HttpResponse :=
  orders ← attempt (exported user params);
  match orders with
  | Err _ => mret failed_export
  | Ok orders => mret (download "text/csv; charset=utf-8" ("gridtokenx_trades_" ++ file_time now ++ ".csv") (generate_csv orders))
  end.

Definition json_row (r : ExportRow) : Json :=
  JObject [("date", JString (to_rfc3339 (xr_date r))); ("order_id", JString (xr_order_id r));
    ("order_type", JString (xr_order_type r)); ("side", JString (xr_side r));
    ("energy_amount", json_f64 (xr_energy_amount r)); ("price_per_kwh", json_f64 (xr_price_per_kwh r));
    ("total_value", json_f64 (xr_total_value r)); ("status", JString (xr_status r))].

Definition json_export (now : DateTime) (records : list ExportRow) : Json :=
  JObject [("trades", JArray (json_row <$> records)); ("count", JNumber (pretty (Z.of_nat (length records))));
    ("exported_at", JString (to_rfc3339 now))].

Definition export_json (now : DateTime) (user : Uuid) (params : ExportQuery) : TM HttpResponse :=
  orders ← attempt (exported user params);
  match orders with
  | Err _ => mret failed_export
  | Ok orders => mret (download "application/json; charset=utf-8" ("gridtokenx_trades_" ++ file_time now ++ ".json")
                         (json_pretty (json_export now orders)))
  end.
End export.

(** ** Lemmas *)

Section lemmas.
Context `{NUM : Numerics} `{FT : FloatText} `{DP : DecimalParse} `{CC : CharClass} `{ET : ExportText} `{DT : DateText}
  `{JN : JsonNumber}.
Implicit Types (d : Db) (w : world Db Event).

Lemma fetch_Ok user start end_ side status w rows w' : fetch_orders user start end_ side status w = (Ok rows, w') ->
  st w' = st w /\ exists l, mapM decode_created (export_rows user start end_ (st w)) = Some l
    /\ rows = export_row <$> List.filter (keep_row side status) l.
Proof.
  unfold fetch_orders. intros H. apply bind_Ok in H as (r & w1 & (-> & S1 & _)%query_Ok & H).
  apply bind_Ok in H as (l & w2 & [Hl ->]%expect_Ok & [<- <-]%ret_Ok). split; [done|]. by exists l.
Qed.

Lemma decode_created_Some o o' t : decode_created o = Some (o', t) -> o' = o /\ o_created_at o = Some t.
Proof. unfold decode_created. destruct (o_created_at o); simpl; [|done]. by intros [= <- <-]. Qed.

Lemma export_rows_elem user start end_ d o : o ∈ export_rows user start end_ d ->
  (exists i, orders d !! i = Some o) /\ o_user_id o = user /\ in_period start end_ o = true.
Proof.
  unfold export_rows. intros (k & H & _)%elem_of_take. apply list_elem_of_lookup_2 in H. rewrite sort_by_perm in H.
  apply list_elem_of_In, List.filter_In in H as [H [Hu%N.eqb_eq Hp]%andb_prop].
  apply list_elem_of_In, list_elem_of_fmap in H as ([i x] & -> & H%elem_of_map_to_list). split_and!; [by exists i|done..].
Qed.

Definition wanted_orders (user : Uuid) (start end_ : option DateTime) d : list TradingOrderDb :=
  List.filter (fun o => (o_user_id o =? user)%N && in_period start end_ o) (map_to_list (orders d)).*2.

Lemma wanted_elem user start end_ d i o : orders d !! i = Some o -> o_user_id o = user -> in_period start end_ o = true ->
  o ∈ wanted_orders user start end_ d.
Proof.
  intros Hi Hu Hp. apply list_elem_of_In, List.filter_In. rewrite Hp, (proj2 (N.eqb_eq _ _) Hu). split; [|done].
  apply list_elem_of_In, list_elem_of_fmap. exists (i, o). split; [done|]. by apply elem_of_map_to_list.
Qed.

Lemma export_rows_all user start end_ d o : (length (wanted_orders user start end_ d) <= Z.to_nat 10000)%nat ->
  o ∈ wanted_orders user start end_ d -> o ∈ export_rows user start end_ d.
Proof.
  intros Hl Ho. unfold export_rows. fold (wanted_orders user start end_ d). rewrite take_ge.
  - by rewrite sort_by_perm.
  - by rewrite sort_by_perm.
Qed.

(** An export holds orders of the user of the period that pass the filters, and nothing else;
    and all of them, as long as the period has at most ten thousand orders. *)
Theorem export_outcome user start end_ side status w rows w' :
  fetch_orders user start end_ side status w = (Ok rows, w') ->
  (forall r, r ∈ rows -> exists i o t, orders (st w) !! i = Some o /\ o_user_id o = user /\ o_created_at o = Some t
     /\ in_period start end_ o = true /\ keep_row side status (o, t) = true /\ r = export_row (o, t))
  /\ ((length (wanted_orders user start end_ (st w)) <= Z.to_nat 10000)%nat ->
      forall i o t, orders (st w) !! i = Some o -> o_user_id o = user -> o_created_at o = Some t ->
      in_period start end_ o = true -> keep_row side status (o, t) = true -> export_row (o, t) ∈ rows).
Proof.
  intros (_ & l & Hl & ->)%fetch_Ok. apply mapM_Some in Hl. split.
  - intros r ((o & t) & -> & Hin)%list_elem_of_fmap. apply list_elem_of_In, List.filter_In in Hin as [Hin Hk].
    apply list_elem_of_In, list_elem_of_lookup in Hin as [n Hn].
    destruct (Forall2_lookup_r _ _ _ _ _ Hl Hn) as (o' & Ho' & [-> Ht]%decode_created_Some).
    apply list_elem_of_lookup_2, export_rows_elem in Ho' as ([i Hi] & Hu & Hp). by exists i, o', t.
  - intros Hlen i o t Hi Hu Ht Hp Hk. apply list_elem_of_fmap. exists (o, t). split; [done|].
    apply list_elem_of_In, List.filter_In. split; [|done]. apply list_elem_of_In.
    assert (Hin : o ∈ export_rows user start end_ (st w)) by (eapply export_rows_all; [done|by eapply wanted_elem]).
    apply list_elem_of_lookup in Hin as [n Hn].
    destruct (Forall2_lookup_l _ _ _ _ _ Hl Hn) as ([o' t'] & Hx & [-> Ht']%decode_created_Some).
    assert (t' = t) as -> by congruence. by eapply list_elem_of_lookup_2.
Qed.

(** The texts the filters look at. *)
Lemma side_text s : lowercase (OrderSide_debug s) = match s with Buy => "buy" | Sell => "sell" end.
Proof. by destruct s; rewrite lowercase_ascii. Qed.

Lemma status_text s : lowercase (OrderStatus_debug s) = match s with
  | Pending => "pending" | Active => "active" | PartiallyFilled => "partiallyfilled" | Filled => "filled"
  | Settled => "settled" | Cancelled => "cancelled" | Expired => "expired" end.
Proof. by destruct s; rewrite lowercase_ascii. Qed.

(** The filter "partially_filled", which is the name of the status everywhere else, exports
    nothing, while "filled" also exports orders that are filled in part. *)
Theorem partial_filter user start end_ w :
  (forall rows w', fetch_orders user start end_ None (Some "partially_filled") w = (Ok rows, w') -> rows = [])
  /\ forall o t, o_status o = PartiallyFilled -> keep_row None (Some "filled") (o, t) = true.
Proof.
  split.
  - intros rows w' (_ & l & _ & ->)%fetch_Ok. enough (List.filter (keep_row None (Some "partially_filled")) l = []) as -> by done.
    apply filter_none. intros [o t] _. unfold keep_row, passes. simpl. rewrite status_text, lowercase_ascii by done.
    by destruct (o_status o).
  - intros o t Ho. unfold keep_row, passes. simpl. rewrite Ho, status_text, lowercase_ascii by done. done.
Qed.

(** An order created in the last second of the last day, after its beginning, is in no export
    that ends on that day. *)
Theorem last_second_lost user params day o t w rows w' : ex_end_date params = Some day ->
  exported user params w = (Ok rows, w') -> o_created_at o = Some t ->
  day * nanos_per_day + 86399 * 1000000000 < t < (day + 1) * nanos_per_day ->
  (export_row (o, t) ∉ rows) /\ forall r, r ∈ rows -> xr_date r < t.
Proof.
  intros Hd H Ho Ht. unfold exported in H. rewrite Hd in H. simpl in H.
  assert (Hall : forall r, r ∈ rows -> xr_date r < t).
  { intros r Hr. apply export_outcome in H as [H _]. destruct (H r Hr) as (i & o' & t' & _ & _ & Hc & Hp & _ & ->).
    simpl. unfold in_period in Hp. apply andb_prop in Hp as [_ Hp]. rewrite Hc in Hp. apply Z.leb_le in Hp.
    unfold day_end in Hp. lia. }
  split; [|done]. intros Hin. specialize (Hall _ Hin). simpl in Hall. lia.
Qed.

(** ** The shape of the CSV *)

(** The lines of a text: how many of its characters end one. *)
Fixpoint lines (s : string) : nat :=
  match s with
  | EmptyString => 0
  | String c s => (if (Ascii.N_of_ascii c =? 10)%N then 1 else 0) + lines s
  end.

Fixpoint commas (s : string) : nat :=
  match s with
  | EmptyString => 0
  | String c s => (if (Ascii.N_of_ascii c =? 44)%N then 1 else 0) + commas s
  end.

Lemma lines_app s t : lines (s ++ t) = (lines s + lines t)%nat.
Proof. induction s as [|c s IH]; simpl; [done|]. change (s +:+ t)%string with (s ++ t). rewrite IH. lia. Qed.

Lemma commas_app s t : commas (s ++ t) = (commas s + commas t)%nat.
Proof. induction s as [|c s IH]; simpl; [done|]. change (s +:+ t)%string with (s ++ t). rewrite IH. lia. Qed.

(** Neither a line break nor a comma. *)
Definition plain (s : string) : Prop := lines s = 0%nat /\ commas s = 0%nat.

Lemma plain_app s t : plain s -> plain t -> plain (s ++ t).
Proof. intros [L1 C1] [L2 C2]. split; rewrite ?lines_app, ?commas_app; lia. Qed.

Lemma plain_hex k n : plain (hex k n).
Proof.
  revert n. induction k as [|k IH]; intros n; simpl; [done|]. apply plain_app; [apply IH|].
  unfold hex_char. repeat (case_match; try done).
Qed.

Lemma plain_uuid u : plain (uuid_to_string u).
Proof. unfold uuid_to_string. repeat (apply plain_app; [first [apply plain_hex|done]|]). apply plain_hex. Qed.

Lemma plain_digit n s : plain s -> plain (String (pretty_N_char n) s).
Proof.
  intros [L C]. unfold pretty_N_char. split; simpl; (repeat case_match; subst; simpl; [..|]); done.
Qed.

Lemma plain_pretty_N n s : plain s -> plain (pretty_N_go n s).
Proof.
  revert s. induction (N.lt_wf_0 n) as [n _ IH]. intros s Hs.
  destruct (decide (n = 0)%N) as [->|Hn]; [by rewrite pretty_N_go_0|].
  rewrite pretty_N_go_step by lia. apply IH; [apply N.div_lt; lia|by apply plain_digit].
Qed.

Lemma plain_pretty (n : nat) : plain (pretty (Z.of_nat n)).
Proof.
  unfold pretty, pretty_Z. destruct (Z.of_nat n) as [|p|p] eqn:E; [done| |lia].
  unfold pretty, pretty_N. destruct (decide (N.pos p = 0%N)); [done|]. by apply plain_pretty_N.
Qed.

Hypothesis plain_floats : forall n x, plain (f64_fixed n x).
Hypothesis plain_times : forall t, plain (csv_time t).

Lemma csv_row_shape o : lines (csv_row (export_row o)) = 1%nat /\ commas (csv_row (export_row o)) = 7%nat.
Proof.
  unfold csv_row, export_row. cbn [xr_date xr_order_id xr_order_type xr_side xr_energy_amount xr_price_per_kwh xr_total_value xr_status].
  rewrite side_text, status_text.
  assert (Ht : plain (lowercase (OrderType_debug (o_order_type o.1)))) by (destruct (o_order_type o.1); by rewrite lowercase_ascii).
  rewrite !lines_app, !commas_app.
  pose proof (plain_times o.2) as [-> ->]. pose proof (plain_uuid (o_id o.1)) as [-> ->]. destruct Ht as [-> ->].
  pose proof (plain_floats 4 (text_f64 (o_energy_amount o.1))) as [-> ->].
  pose proof (plain_floats 6 (text_f64 (o_price_per_kwh o.1))) as [-> ->].
  pose proof (plain_floats 4 (f64_mul (text_f64 (o_energy_amount o.1)) (text_f64 (o_price_per_kwh o.1)))) as [-> ->].
  by destruct (o_side o.1), (o_status o.1).
Qed.

Lemma csv_rows_shape l : lines (foldr (fun r text => csv_row r ++ text) "" (export_row <$> l)) = length l
  /\ commas (foldr (fun r text => csv_row r ++ text) "" (export_row <$> l)) = (7 * length l)%nat.
Proof.
  induction l as [|o l [IH1 IH2]]; [done|]. rewrite fmap_cons. cbn [foldr length].
  destruct (csv_row_shape o) as [H1 H2]. rewrite lines_app, commas_app, H1, H2, IH1, IH2. lia.
Qed.

Lemma csv_summary_shape l : lines (csv_summary l) = 2%nat /\ commas (csv_summary l) = 2%nat.
Proof.
  unfold csv_summary. rewrite !lines_app, !commas_app.
  pose proof (plain_pretty (length l)) as [-> ->]. pose proof (plain_floats 2 (sum_f64 xr_energy_amount l)) as [-> ->].
  by pose proof (plain_floats 2 (sum_f64 xr_total_value l)) as [-> ->].
Qed.

(** The CSV of an export has one line of eight columns for its header and for each order, and
    two more for the summary if there is an order: no text of an order breaks a line or a column. *)
Theorem csv_shape user start end_ side status w rows w' :
  fetch_orders user start end_ side status w = (Ok rows, w') ->
  lines (generate_csv rows) = (1 + length rows + if decide (rows = []) then 0 else 2)%nat
  /\ commas (generate_csv rows) = (7 * (1 + length rows) + if decide (rows = []) then 0 else 2)%nat.
Proof.
  intros (_ & l & _ & ->)%fetch_Ok. set (k := List.filter _ l). unfold generate_csv. rewrite !lines_app, !commas_app.
  destruct (csv_rows_shape k) as [-> ->]. rewrite length_fmap. destruct k as [|o k]; [done|]. rewrite fmap_cons.
  destruct (csv_summary_shape (export_row o :: (export_row <$> k))) as [-> ->].
  rewrite decide_False by done. change (lines newline) with 1%nat. change (commas newline) with 0%nat. split; simpl; lia.
Qed.
End lemmas.

(** ** Concrete runs *)

Section demo.
#[local] Existing Instances std_numerics demo_float_text std_chars demo_dates demo_json_number.
#[local] Instance demo_text_f64 : DecimalParse := {| text_f64 z := f64_lit z U |}.
#[local] Instance demo_export_text : ExportText :=
  {| csv_time _ := "2026-01-08 20:46:28"; file_time _ := "20260108_204628"; json_pretty _ := "{}" |}.

Definition demo_exported (id : Uuid) (status : OrderStatus) (at_ : Z) : TradingOrderDb :=
  {| o_id := id; o_user_id := 1; o_order_type := Limit; o_side := Buy; o_energy_amount := 10 * U;
     o_price_per_kwh := 3 * U; o_filled_amount := None; o_status := status; o_expires_at := None;
     o_created_at := Some at_; o_filled_at := None; o_epoch_id := None; o_zone_id := None; o_meter_id := None;
     o_refund_tx_signature := None; o_order_pda := None; o_blockchain_tx_signature := None; o_session_token := None; o_is_confidential := false;
     o_energy_source := None; o_trigger_price := None; o_trigger_type := None; o_trigger_status := None;
     o_trailing_offset := None; o_triggered_at := None |}.

(** The second order is of the last half second of the first day. *)
Definition demo_late : Z := 86399500000000.
Definition demo_history_orders : world Db Event := World
  (set_orders (<[10%N := demo_exported 10 PartiallyFilled 5]> (<[11%N := demo_exported 11 Filled demo_late]> ∅)) empty_db) [] [].

Definition demo_day : ExportQuery :=
  {| ex_start_date := Some 0; ex_end_date := Some 0; ex_side := Some "BUY"; ex_status := None |}.

Definition demo_csv_rows : list ExportRow := [export_row (demo_exported 10 PartiallyFilled 5, 5)].

Lemma demo_exports : exported 1 demo_day demo_history_orders = (Ok demo_csv_rows, demo_history_orders).
Proof. vm_compute. reflexivity. Qed.

Lemma export_outcome_witness : forall r, r ∈ demo_csv_rows -> exists i o t,
  orders (st demo_history_orders) !! i = Some o /\ o_user_id o = 1%N /\ o_created_at o = Some t
  /\ in_period (Some 0) (Some (day_end 0)) o = true /\ keep_row (Some "BUY") None (o, t) = true /\ r = export_row (o, t).
Proof.
  exact (proj1 (export_outcome 1 (Some 0) (Some (day_end 0)) (Some "BUY") None demo_history_orders demo_csv_rows
    demo_history_orders demo_exports)).
Defined.

Lemma last_second_lost_witness : (export_row (demo_exported 11 Filled demo_late, demo_late) ∉ demo_csv_rows)
  /\ forall r, r ∈ demo_csv_rows -> xr_date r < demo_late.
Proof.
  apply (last_second_lost 1 demo_day 0 (demo_exported 11 Filled demo_late) demo_late demo_history_orders demo_csv_rows
    demo_history_orders eq_refl demo_exports eq_refl).
  unfold demo_late, nanos_per_day. lia.
Defined.

Lemma partial_filter_witness : keep_row None (Some "filled") (demo_exported 10 PartiallyFilled 5, 5) = true.
Proof. apply (partial_filter 1 None None demo_history_orders). reflexivity. Defined.

Lemma csv_shape_witness : lines (generate_csv demo_csv_rows) = 4%nat /\ commas (generate_csv demo_csv_rows) = 16%nat.
Proof.
  assert (Hf : forall n x, plain (f64_fixed n x)) by (intros n x; split; reflexivity).
  assert (Ht : forall t, plain (csv_time t)) by (intros t; split; reflexivity).
  exact (csv_shape Hf Ht 1 (Some 0) (Some (day_end 0)) (Some "BUY") None demo_history_orders demo_csv_rows
    demo_history_orders demo_exports).
Defined.
End demo.
