(* ===== verification/Instructions.v ===== *)
(** The instructions the gateway builds for its Solana programs:
    [src/services/blockchain/instructions/] ([trading.rs], [registry.rs], [governance.rs],
    [tokens.rs] and the [InstructionBuilder] of [mod.rs]).

    Every builder is a function of its arguments: the program, the accounts with their flags and
    the bytes of the data: a tag, then the arguments in little-endian order, texts with a length of
    four bytes.  [instructions_unambiguous] says exactly which requests build the same program and
    data.  The on-chain programs are not part of the repository; [decode_data] is no model of them but
    a left inverse of the encoding, used in the proof only.  Addresses ([Pubkey::from_str], [Pubkey::find_program_address]) are the SDK's. *)
From S2P Require Import Prelude Errors Store Schema Settlement Crypto.
From stdpp Require Import vector.
From Stdlib Require Import Strings.Byte.
Open Scope string_scope.
Open Scope Z_scope.
Open Scope list_scope.

(** ** Bytes *)

Definition byte_of (z : Z) : byte := default x00 (Byte.of_N (Z.to_N (z mod 256))).
Definition byte_value (b : byte) : Z := Z.of_N (Byte.to_N b).

(** [to_le_bytes] of an integer of [n] bytes (two's complement), and [from_le_bytes]. *)
Fixpoint le_bytes (n : nat) (z : Z) : bytes :=
  match n with
  | O => []
  | S n => byte_of z :: le_bytes n (z / 256)
  end.

Fixpoint le_value (l : bytes) : Z :=
  match l with
  | [] => 0
  | b :: l => byte_value b + 256 * le_value l
  end.

(** The signed reading of eight bytes. *)
Definition to_i64 (z : Z) : Z :=
  if z <? 9223372036854775808 then z else z - 18446744073709551616.

Definition byte_list (l : list Z) : bytes := map byte_of l.
Definition text_bytes (s : string) : bytes := String.list_byte_of_string s.

(** The closure [write_string]; [bytes.len() as u32] wraps. *)
Definition write_string (d : bytes) (s : string) : bytes :=
  d ++ le_bytes 4 (wrap_u32 (Z.of_nat (length (text_bytes s)))) ++ text_bytes s.

Lemma byte_value_of z : byte_value (byte_of z) = z mod 256.
Proof.
  unfold byte_value, byte_of. pose proof (Z.mod_pos_bound z 256 ltac:(lia)) as Hb.
  destruct (Byte.of_N (Z.to_N (z mod 256))) as [b|] eqn:E.
  - simpl. apply Byte.to_of_N in E. rewrite E, Z2N.id; lia.
  - apply Byte.of_N_None_iff in E. lia.
Qed.

Lemma length_le_bytes n z : length (le_bytes n z) = n.
Proof. revert z. induction n as [|n IH]; intros z; simpl; [done|by rewrite IH]. Qed.

Lemma le_value_bytes n z : le_value (le_bytes n z) = z mod 256 ^ Z.of_nat n.
Proof.
  revert z. induction n as [|n IH]; intros z.
  - simpl. by rewrite Z.mod_1_r.
  - cbn [le_bytes le_value]. rewrite byte_value_of, IH, Nat2Z.inj_succ, Z.pow_succ_r by lia.
    assert (0 < 256 ^ Z.of_nat n) by (apply Z.pow_pos_nonneg; lia).
    rewrite (Z.rem_mul_r z 256 (256 ^ Z.of_nat n)) by lia. lia.
Qed.

Lemma le_value_u64 z : 0 <= z <= u64_max -> le_value (le_bytes 8 z) = z.
Proof. intros H. rewrite le_value_bytes. apply Z.mod_small. unfold u64_max in H. simpl. lia. Qed.

Lemma le_value_i64 z : - 9223372036854775808 <= z < 9223372036854775808 ->
  to_i64 (le_value (le_bytes 8 z)) = z.
Proof.
  intros H. rewrite le_value_bytes. change (256 ^ Z.of_nat 8) with 18446744073709551616.
  unfold to_i64. case_match eqn:E; [apply Z.ltb_lt in E|apply Z.ltb_ge in E];
    Z.to_euclidean_division_equations; lia.
Qed.

(** ** The SDK *)

(** [Pubkey] is [[u8; 32]]. *)
Abbreviation Pubkey := (vec byte 32).

Definition SYSTEM_PROGRAM_ID : string := "11111111111111111111111111111111".
Definition REGISTRY_PROGRAM_ID : string := "HWoKSbNy4jJBFJ7g7drxZgAfTmjFqvg1Sx6vXosfJNAi".
Definition ORACLE_PROGRAM_ID : string := "5z6Qaf6UUv42uCqbxQLfKz7cSXhMABsq73mRMwvHKzFA".
Definition GOVERNANCE_PROGRAM_ID : string := "2WrMSfreZvCCKdQMQGY7bTFgXKgr42fYipJR6VXn1Q8c".
Definition ENERGY_TOKEN_PROGRAM_ID : string := "MwAdshY2978VqcpJzWSKmPfDtKfweD7YLMCQSBcR4wP".
Definition TRADING_PROGRAM_ID : string := "Fmk6vb74MjZpXVE9kAS5q4U5L8hr2AEJcDikfRSFTiyY".
Definition TOKEN_2022 : string := "TokenzQdBNbLqP5VEhdkAS6EPFLC1PHnBqCXEpPxuEb".

Definition program_constants : list string :=
  [SYSTEM_PROGRAM_ID; REGISTRY_PROGRAM_ID; ORACLE_PROGRAM_ID; GOVERNANCE_PROGRAM_ID;
   ENERGY_TOKEN_PROGRAM_ID; TRADING_PROGRAM_ID; TOKEN_2022].

(** [Instruction] and [AccountMeta]. *)
Record AccountMeta := { am_pubkey : Pubkey; am_is_signer : bool; am_is_writable : bool }.
Record Instruction := { i_program_id : Pubkey; i_accounts : list AccountMeta; i_data : bytes }.

Definition account_new (k : Pubkey) (signer : bool) : AccountMeta :=
  {| am_pubkey := k; am_is_signer := signer; am_is_writable := true |}.
Definition account_readonly (k : Pubkey) (signer : bool) : AccountMeta :=
  {| am_pubkey := k; am_is_signer := signer; am_is_writable := false |}.

(** [key_of_text] is [Pubkey::from_str]: the constants above are addresses.
    [program_address] is [Pubkey::find_program_address] without its bump ([None]: it panics): a
    seed has at most 32 bytes, and there are at most fifteen beside the bump. *)
Class SolanaSdk := {
  key_of_text : string -> res string Pubkey;
  program_address : list bytes -> Pubkey -> option Pubkey;
  clock_sysvar : Pubkey;
  rent_sysvar : Pubkey;
  spl_transfer_checked (token_program from mint to authority : Pubkey) (amount decimals : Z) :
    res string Instruction;
  constants_parse s : s ∈ program_constants -> exists k, key_of_text s = Ok k;
  constants_differ s s' : s ∈ program_constants -> s' ∈ program_constants ->
    key_of_text s = key_of_text s' -> s = s';
  long_seed_panics seeds p : Exists (fun s => (32 < length s)%nat) seeds ->
    program_address seeds p = None;
  short_seeds_found seeds p : Forall (fun s => (length s <= 32)%nat) seeds ->
    (length seeds <= 15)%nat -> exists k, program_address seeds p = Some k;
}.

Abbreviation Built := (res failure Instruction).

Section builders.
Context `{SDK : SolanaSdk}.

(** [Pubkey::from_str(s)?] and [let (k, _) = Pubkey::find_program_address(..);]. *)
Definition address_of_text (s : string) : res failure Pubkey :=
  match key_of_text s with Ok k => Ok k | Err e => Err (FMsg e) end.
Definition find_address (seeds : list bytes) (program : Pubkey) : res failure Pubkey :=
  match program_address seeds program with Some k => Ok k | None => Err FPanic end.

Definition built (program : Pubkey) (accounts : list AccountMeta) (data : bytes) : Built :=
  Ok {| i_program_id := program; i_accounts := accounts; i_data := data |}.

(** ** [trading.rs] *)

Definition build_create_order_instruction (market order_pda : Pubkey)
    (energy_amount price_per_kwh : Z) (order_type : string) (erc_certificate_pda : option Pubkey)
    (payer : Pubkey) : Built :=
  program_id ← address_of_text TRADING_PROGRAM_ID;
  system_program ← address_of_text SYSTEM_PROGRAM_ID;
  let accounts :=
    if (order_type =? "sell")%string then
      [account_new market false; account_new order_pda false;
       account_readonly (default program_id erc_certificate_pda) false;
       account_new payer true; account_readonly system_program false]
    else
      [account_new market false; account_new order_pda false;
       account_new payer true; account_readonly system_program false] in
  let tag :=
    if (order_type =? "sell")%string then byte_list [53; 52; 255; 44; 191; 74; 171; 225]
    else byte_list [182; 87; 0; 160; 192; 66; 151; 130] in
  built program_id accounts (tag ++ le_bytes 8 energy_amount ++ le_bytes 8 price_per_kwh).

Definition build_match_orders_instruction (payer : Pubkey)
    (market_pubkey buy_order_pubkey sell_order_pubkey : string) (match_amount : Z)
    (trade_record : Pubkey) : Built :=
  program_id ← address_of_text TRADING_PROGRAM_ID;
  market ← address_of_text market_pubkey;
  buy_order ← address_of_text buy_order_pubkey;
  sell_order ← address_of_text sell_order_pubkey;
  system_program ← address_of_text SYSTEM_PROGRAM_ID;
  built program_id
    [account_new market false; account_new buy_order false; account_new sell_order false;
     account_new trade_record false; account_new payer true;
     account_readonly system_program false]
    (byte_list [17; 1; 201; 93; 7; 51; 251; 134] ++ le_bytes 8 match_amount).

Definition build_initialize_market_instruction (authority : Pubkey) : Built :=
  program_id ← address_of_text TRADING_PROGRAM_ID;
  system_program ← address_of_text SYSTEM_PROGRAM_ID;
  market_pda ← find_address [text_bytes "market"] program_id;
  built program_id
    [account_new market_pda false; account_new authority true;
     account_readonly system_program false]
    (byte_list [35; 35; 189; 193; 155; 48; 170; 203]).

(** The accounts of a settlement, in the order of the arguments. *)
Record SettleAccounts := {
  sa_market : Pubkey; sa_buy_order : Pubkey; sa_sell_order : Pubkey;
  sa_buyer_currency_escrow : Pubkey; sa_seller_energy_escrow : Pubkey;
  sa_seller_currency_account : Pubkey; sa_buyer_energy_account : Pubkey;
  sa_fee_collector : Pubkey; sa_wheeling_collector : Pubkey;
  sa_energy_mint : Pubkey; sa_currency_mint : Pubkey;
  sa_escrow_authority : Pubkey; sa_market_authority : Pubkey;
  sa_token_program_id : Pubkey; sa_secondary_token_program_id : Pubkey;
}.

Definition build_execute_atomic_settlement_instruction (a : SettleAccounts)
    (amount price wheeling_charge : Z) : Built :=
  program_id ← address_of_text TRADING_PROGRAM_ID;
  system_program ← address_of_text SYSTEM_PROGRAM_ID;
  built program_id
    [account_new (sa_market a) false; account_new (sa_buy_order a) false;
     account_new (sa_sell_order a) false; account_new (sa_buyer_currency_escrow a) false;
     account_new (sa_seller_energy_escrow a) false;
     account_new (sa_seller_currency_account a) false;
     account_new (sa_buyer_energy_account a) false; account_new (sa_fee_collector a) false;
     account_new (sa_wheeling_collector a) false; account_readonly (sa_energy_mint a) false;
     account_readonly (sa_currency_mint a) false; account_readonly (sa_escrow_authority a) true;
     account_readonly (sa_market_authority a) true;
     account_readonly (sa_token_program_id a) false; account_readonly system_program false;
     account_readonly (sa_secondary_token_program_id a) false]
    (byte_list [86; 216; 13; 114; 76; 114; 212; 11] ++ le_bytes 8 amount ++ le_bytes 8 price
     ++ le_bytes 8 wheeling_charge).

Definition build_shield_energy_instruction
    (confidential_balance mint user_token_account owner : Pubkey) (amount : Z)
    (encrypted_amount proof_data : vec byte 64) : Built :=
  program_id ← address_of_text TRADING_PROGRAM_ID;
  token_program ← address_of_text TOKEN_2022;
  built program_id
    [account_new confidential_balance false; account_new mint false;
     account_new user_token_account false; account_new owner true;
     account_readonly token_program false]
    (byte_list [18; 113; 101; 142; 63; 11; 252; 178] ++ le_bytes 8 amount
     ++ vec_to_list encrypted_amount ++ vec_to_list proof_data).

Definition build_swap_energy_instruction
    (pool user_energy user_currency pool_energy_vault pool_currency_vault energy_mint
     currency_mint user : Pubkey) (amount_milli_kwh max_currency : Z) : Built :=
  program_id ← address_of_text TRADING_PROGRAM_ID;
  token_program ← address_of_text TOKEN_2022;
  built program_id
    [account_new pool false; account_new user_energy false; account_new user_currency false;
     account_new pool_energy_vault false; account_new pool_currency_vault false;
     account_readonly energy_mint false; account_readonly currency_mint false;
     account_readonly user true; account_readonly token_program false]
    (byte_list [173; 218; 178; 117; 111; 237; 240; 16] ++ le_bytes 8 amount_milli_kwh
     ++ le_bytes 8 max_currency).

Definition build_initiate_bridge_transfer_instruction (market sell_order authority : Pubkey)
    (amount target_chain : Z) (target_address : vec byte 32) : Built :=
  program_id ← address_of_text TRADING_PROGRAM_ID;
  system_program ← address_of_text SYSTEM_PROGRAM_ID;
  built program_id
    [account_new market false; account_new sell_order false; account_new authority true;
     account_readonly system_program false]
    (byte_list [181; 100; 216; 14; 219; 149; 169; 185] ++ le_bytes 8 amount
     ++ le_bytes 2 target_chain ++ vec_to_list target_address).

Definition build_complete_bridge_transfer_instruction (authority : Pubkey)
    (vaa_hash : vec byte 32) : Built :=
  program_id ← address_of_text TRADING_PROGRAM_ID;
  built program_id [account_new authority true]
    (byte_list [141; 172; 85; 238; 118; 149; 19; 188]).

(** ** [registry.rs] *)

Definition build_initialize_registry_instruction (payer : Pubkey) : Built :=
  program_id ← address_of_text REGISTRY_PROGRAM_ID;
  system_program ← address_of_text SYSTEM_PROGRAM_ID;
  registry_pda ← find_address [text_bytes "registry"] program_id;
  built program_id
    [account_new registry_pda false; account_new payer true;
     account_readonly system_program false]
    (byte_list [175; 175; 109; 31; 13; 152; 155; 237]).

Definition build_register_user_instruction (payer user_authority registry : Pubkey)
    (user_type : Z) (location : string) : Built :=
  program_id ← address_of_text REGISTRY_PROGRAM_ID;
  system_program ← address_of_text SYSTEM_PROGRAM_ID;
  user_account_pda ← find_address [text_bytes "user"; vec_to_list user_authority] program_id;
  built program_id
    [account_new registry false; account_new user_account_pda false;
     account_new user_authority true; account_readonly system_program false]
    (write_string (byte_list [153; 150; 36; 97; 226; 70; 52; 72] ++ [byte_of user_type]) location).

Definition build_initialize_oracle_instruction (payer api_gateway : Pubkey) : Built :=
  program_id ← address_of_text ORACLE_PROGRAM_ID;
  system_program ← address_of_text SYSTEM_PROGRAM_ID;
  oracle_data_pda ← find_address [text_bytes "oracle_data"] program_id;
  built program_id
    [account_new oracle_data_pda false; account_new payer true;
     account_readonly system_program false]
    (byte_list [175; 175; 109; 31; 13; 152; 155; 237] ++ vec_to_list api_gateway).

Definition get_price_feed_account_pubkey (price_feed_id : string) : res failure Pubkey :=
  program_id ← address_of_text ORACLE_PROGRAM_ID;
  find_address [text_bytes "price_feed"; text_bytes price_feed_id] program_id.

Definition get_participant_account_pubkey (participant_id : string) : res failure Pubkey :=
  program_id ← address_of_text REGISTRY_PROGRAM_ID;
  find_address [text_bytes "participant"; text_bytes participant_id] program_id.

Definition get_user_account_pda (user_authority : Pubkey) : res failure Pubkey :=
  program_id ← address_of_text REGISTRY_PROGRAM_ID;
  find_address [text_bytes "user"; vec_to_list user_authority] program_id.

Definition build_update_price_instruction (payer : Pubkey) (price_feed_id : string)
    (price confidence : Z) : Built :=
  program_id ← address_of_text ORACLE_PROGRAM_ID;
  price_feed_account ← get_price_feed_account_pubkey price_feed_id;
  system_program ← address_of_text SYSTEM_PROGRAM_ID;
  built program_id
    [account_new price_feed_account false; account_readonly payer true;
     account_readonly clock_sysvar false; account_readonly system_program false]
    (byte_list [1; 0; 0; 0] ++ le_bytes 8 price ++ le_bytes 8 confidence).

Definition build_update_meter_reading_instruction (meter_id : string)
    (produced consumed timestamp : Z) : Built :=
  program_id ← address_of_text ORACLE_PROGRAM_ID;
  oracle_data_pda ← find_address [text_bytes "oracle_data"] program_id;
  built program_id [account_new oracle_data_pda false]
    (write_string (byte_list [181; 247; 196; 139; 78; 88; 192; 206]) meter_id
     ++ le_bytes 8 produced ++ le_bytes 8 consumed ++ le_bytes 8 timestamp).

Definition build_register_meter_instruction (payer : Pubkey) (meter_id : string)
    (meter_type : Z) : Built :=
  program_id ← address_of_text REGISTRY_PROGRAM_ID;
  system_program ← address_of_text SYSTEM_PROGRAM_ID;
  registry_pda ← find_address [text_bytes "registry"] program_id;
  meter_account_pda ← find_address [text_bytes "meter"; text_bytes meter_id] program_id;
  built program_id
    [account_new registry_pda false; account_new meter_account_pda false;
     account_new payer true; account_readonly system_program false]
    (write_string (byte_list [94; 154; 252; 175; 41; 143; 27; 21]) meter_id
     ++ [byte_of meter_type]).

(** [InstructionBuilder::build_update_registry_instruction]; the data are the text of the JSON. *)
Definition build_update_registry_instruction (payer : Pubkey) (participant_id : string)
    (update_data : string) : Built :=
  program_id ← address_of_text REGISTRY_PROGRAM_ID;
  participant_account ← get_participant_account_pubkey participant_id;
  system_program ← address_of_text SYSTEM_PROGRAM_ID;
  built program_id
    [account_new participant_account false; account_readonly payer true;
     account_readonly system_program false]
    (byte_list [1; 0; 0; 0] ++ text_bytes update_data).

(** ** [governance.rs] *)

Definition build_initialize_governance_instruction (payer : Pubkey) : Built :=
  program_id ← address_of_text GOVERNANCE_PROGRAM_ID;
  system_program ← address_of_text SYSTEM_PROGRAM_ID;
  poa_config_pda ← find_address [text_bytes "poa_config"] program_id;
  built program_id
    [account_new poa_config_pda false; account_new payer true;
     account_readonly system_program false]
    (byte_list [98; 199; 82; 10; 244; 161; 157; 46]).

Definition build_issue_erc_instruction (payer : Pubkey) (certificate_id : string)
    (meter_account : Pubkey) (energy_amount : Z) (renewable_source validation_data : string)
    : Built :=
  program_id ← address_of_text GOVERNANCE_PROGRAM_ID;
  system_program ← address_of_text SYSTEM_PROGRAM_ID;
  poa_config_pda ← find_address [text_bytes "poa_config"] program_id;
  erc_certificate_pda ←
    find_address [text_bytes "erc_certificate"; text_bytes certificate_id] program_id;
  let data := write_string (byte_list [174; 248; 149; 107; 155; 4; 196; 8]) certificate_id in
  let data := data ++ le_bytes 8 energy_amount in
  let data := write_string data renewable_source in
  let data := write_string data validation_data in
  built program_id
    [account_new poa_config_pda false; account_new erc_certificate_pda false;
     account_new meter_account false; account_new payer true;
     account_readonly system_program false] data.

Definition get_proposal_account_pubkey (proposal_id : Z) : res failure Pubkey :=
  program_id ← address_of_text GOVERNANCE_PROGRAM_ID;
  find_address [text_bytes "proposal"; le_bytes 8 proposal_id] program_id.

Definition get_erc_certificate_pubkey (certificate_id : string) : res failure Pubkey :=
  program_id ← address_of_text GOVERNANCE_PROGRAM_ID;
  find_address [text_bytes "erc_certificate"; text_bytes certificate_id] program_id.

Definition build_vote_instruction (payer : Pubkey) (proposal_id : Z) (vote : bool) : Built :=
  program_id ← address_of_text GOVERNANCE_PROGRAM_ID;
  proposal_account ← get_proposal_account_pubkey proposal_id;
  system_program ← address_of_text SYSTEM_PROGRAM_ID;
  built program_id
    [account_new proposal_account false; account_readonly payer true;
     account_readonly system_program false]
    (byte_list [1; 0; 0; 0] ++ le_bytes 8 proposal_id ++ [byte_of (if vote then 1 else 0)]).

Definition build_transfer_erc_instruction (certificate_id : string) (owner new_owner : Pubkey)
    : Built :=
  program_id ← address_of_text GOVERNANCE_PROGRAM_ID;
  poa_config_pda ← find_address [text_bytes "poa_config"] program_id;
  erc_certificate_pda ←
    find_address [text_bytes "erc_certificate"; text_bytes certificate_id] program_id;
  built program_id
    [account_new poa_config_pda false; account_new erc_certificate_pda false;
     account_new owner true; account_readonly new_owner false]
    (byte_list [200; 15; 16; 13; 13; 143; 11; 11]).

Definition build_revoke_erc_instruction (payer : Pubkey) (certificate_id reason : string) : Built :=
  program_id ← address_of_text GOVERNANCE_PROGRAM_ID;
  poa_config_pda ← find_address [text_bytes "poa_config"] program_id;
  erc_certificate_pda ←
    find_address [text_bytes "erc_certificate"; text_bytes certificate_id] program_id;
  built program_id
    [account_new poa_config_pda false; account_new erc_certificate_pda false;
     account_new payer true]
    (write_string (byte_list [16; 48; 113; 85; 118; 70; 185; 150]) reason).

(** ** [tokens.rs] *)

Definition build_initialize_energy_token_instruction (authority : Pubkey) : Built :=
  program_id ← address_of_text ENERGY_TOKEN_PROGRAM_ID;
  system_program ← address_of_text SYSTEM_PROGRAM_ID;
  token_program ← address_of_text TOKEN_2022;
  token_info_pda ← find_address [text_bytes "token_info_2022"] program_id;
  mint_pda ← find_address [text_bytes "mint_2022"] program_id;
  built program_id
    [account_new token_info_pda false; account_new mint_pda false; account_new authority true;
     account_readonly system_program false; account_readonly token_program false;
     account_readonly rent_sysvar false]
    (byte_list [38; 209; 150; 50; 190; 117; 16; 54]).

Definition get_token_mint_pubkey `{Env} : res failure Pubkey :=
  match env_var "ENERGY_TOKEN_MINT" with
  | None => Err (FMsg "ENERGY_TOKEN_MINT not set: environment variable not found")
  | Some mint_str =>
      match key_of_text mint_str with
      | Ok k => Ok k
      | Err e => Err (FMsg ("Failed to parse token mint pubkey: " +:+ e))
      end
  end.

Definition get_token_program_id : res failure Pubkey :=
  match key_of_text TOKEN_2022 with
  | Ok k => Ok k
  | Err e => Err (FMsg ("Failed to parse token program ID: " +:+ e))
  end.

Definition build_mint_instruction `{Env} (payer : Pubkey) (recipient : string) (amount : Z)
    : Built :=
  program_id ← address_of_text ENERGY_TOKEN_PROGRAM_ID;
  recipient_pubkey ← address_of_text recipient;
  mint_pubkey ← get_token_mint_pubkey;
  token_program ← address_of_text TOKEN_2022;
  built program_id
    [account_new recipient_pubkey false; account_new mint_pubkey false;
     account_readonly payer true; account_readonly token_program false]
    (byte_list [1; 0; 0; 0] ++ le_bytes 8 amount).

Definition build_transfer_instruction (payer : Pubkey) (from to : string) (amount : Z)
    (token_mint : string) : Built :=
  program_id ← address_of_text ENERGY_TOKEN_PROGRAM_ID;
  from_pubkey ← address_of_text from;
  to_pubkey ← address_of_text to;
  mint_pubkey ← address_of_text token_mint;
  token_program ← address_of_text TOKEN_2022;
  built program_id
    [account_new from_pubkey false; account_new to_pubkey false; account_new mint_pubkey false;
     account_readonly payer true; account_readonly token_program false]
    (byte_list [2; 0; 0; 0] ++ le_bytes 8 amount).

Definition build_burn_instruction (authority user_token_account mint : Pubkey)
    (amount_lamports : Z) : Built :=
  program_id ← address_of_text ENERGY_TOKEN_PROGRAM_ID;
  token_info_pda ← find_address [text_bytes "token_info_2022"] program_id;
  token_program ← get_token_program_id;
  built program_id
    [account_new token_info_pda false; account_new mint false;
     account_new user_token_account false; account_readonly authority true;
     account_readonly token_program false]
    (byte_list [155; 77; 8; 19; 8; 49; 98; 110] ++ le_bytes 8 amount_lamports).

Definition build_spl_transfer_instruction (authority from to mint : Pubkey)
    (amount decimals : Z) : Built :=
  token_program_id ← get_token_program_id;
  match spl_transfer_checked token_program_id from mint to authority amount decimals with
  | Ok i => Ok i
  | Err e => Err (FMsg e)
  end.

(** ** [mod.rs]: the builder and its methods, one constructor each *)

Inductive BuilderRequest :=
| CreateOrder (market order_pda : Pubkey) (energy_amount price_per_kwh : Z) (order_type : string)
    (erc_certificate_id : option string) (order_payer : Pubkey)
| MatchOrders (market buy_order sell_order : string) (match_amount : Z) (trade_record : Pubkey)
| InitializeMarket (authority : Pubkey)
| ExecuteAtomicSettlement (accounts : SettleAccounts) (amount price wheeling_charge : Z)
| InitiateBridgeTransfer (market sell_order authority : Pubkey) (amount target_chain : Z)
    (target_address : vec byte 32)
| CompleteBridgeTransfer (authority : Pubkey) (vaa_hash : vec byte 32)
| ShieldEnergy (confidential_balance mint user_token_account owner : Pubkey) (amount : Z)
    (encrypted_amount proof_data : vec byte 64)
| SwapEnergy (pool user_energy user_currency pool_energy_vault pool_currency_vault energy_mint
    currency_mint user : Pubkey) (amount_milli_kwh max_currency : Z)
| InitializeRegistry
| RegisterUser (user_authority registry : Pubkey) (user_type : Z) (location : string)
| InitializeOracle (api_gateway : Pubkey)
| UpdateMeterReading (meter_id : string) (produced consumed timestamp : Z)
| RegisterMeter (meter_id : string) (meter_type : Z)
| UpdatePrice (price_feed_id : string) (price confidence : Z)
| UpdateRegistry (participant_id update_data : string)
| InitializeGovernance
| IssueErc (certificate_id : string) (user_wallet meter_account : Pubkey) (energy_amount : Z)
    (renewable_source validation_data : string)
| CastVote (proposal_id : Z) (vote : bool)
| TransferErc (certificate_id : string) (owner new_owner : Pubkey)
| RevokeErc (certificate_id reason : string)
| InitializeEnergyToken (authority : Pubkey)
| MintTokens (recipient : string) (amount : Z)
| TransferTokens (from to : string) (amount : Z) (token_mint : string).

Definition instruction_builder `{Env} (payer : Pubkey) (r : BuilderRequest) : Built :=
  match r with
  | CreateOrder market order_pda amount price order_type erc order_payer =>
      erc_pda ← match erc with
                | Some id => k ← get_erc_certificate_pubkey id; Ok (Some k)
                | None => Ok None
                end;
      build_create_order_instruction market order_pda amount price order_type erc_pda order_payer
  | MatchOrders market buy sell amount record =>
      build_match_orders_instruction payer market buy sell amount record
  | InitializeMarket authority => build_initialize_market_instruction authority
  | ExecuteAtomicSettlement a amount price wheeling =>
      build_execute_atomic_settlement_instruction a amount price wheeling
  | InitiateBridgeTransfer market order authority amount chain address =>
      build_initiate_bridge_transfer_instruction market order authority amount chain address
  | CompleteBridgeTransfer authority hash =>
      build_complete_bridge_transfer_instruction authority hash
  | ShieldEnergy balance mint account owner amount encrypted proof =>
      build_shield_energy_instruction balance mint account owner amount encrypted proof
  | SwapEnergy pool ue uc pe pc em cm user amount maximum =>
      build_swap_energy_instruction pool ue uc pe pc em cm user amount maximum
  | InitializeRegistry => build_initialize_registry_instruction payer
  | RegisterUser authority registry user_type location =>
      build_register_user_instruction payer authority registry user_type location
  | InitializeOracle gateway => build_initialize_oracle_instruction payer gateway
  | UpdateMeterReading meter produced consumed timestamp =>
      build_update_meter_reading_instruction meter produced consumed timestamp
  | RegisterMeter meter meter_type => build_register_meter_instruction payer meter meter_type
  | UpdatePrice feed price confidence =>
      build_update_price_instruction payer feed price confidence
  | UpdateRegistry participant data => build_update_registry_instruction payer participant data
  | InitializeGovernance => build_initialize_governance_instruction payer
  | IssueErc id _ meter amount source data =>
      build_issue_erc_instruction payer id meter amount source data
  | CastVote proposal vote => build_vote_instruction payer proposal vote
  | TransferErc id owner new_owner => build_transfer_erc_instruction id owner new_owner
  | RevokeErc id reason => build_revoke_erc_instruction payer id reason
  | InitializeEnergyToken authority => build_initialize_energy_token_instruction authority
  | MintTokens recipient amount => build_mint_instruction payer recipient amount
  | TransferTokens from to amount mint => build_transfer_instruction payer from to amount mint
  end.
End builders.

(** ** A left inverse of the encoding, for proofs only *)

Inductive Program := Trading | Registry | Oracle | Governance | EnergyToken.

Definition program_text (p : Program) : string :=
  match p with
  | Trading => TRADING_PROGRAM_ID
  | Registry => REGISTRY_PROGRAM_ID
  | Oracle => ORACLE_PROGRAM_ID
  | Governance => GOVERNANCE_PROGRAM_ID
  | EnergyToken => ENERGY_TOKEN_PROGRAM_ID
  end.

(** An argument, and a call: the tag's place in the program's list, then the arguments. *)
Inductive Argument := AInt (z : Z) | AText (s : string) | ABytes (l : bytes).
Inductive Shape := SU8 | SU16 | SU64 | SI64 | SText | SBytes (n : nat) | SRest.
#[global] Instance Shape_eq_dec : EqDecision Shape.
Proof. solve_decision. Defined.

Definition cut (n : nat) (d : bytes) : option (bytes * bytes) :=
  if (n <=? length d)%nat then Some (take n d, drop n d) else None.

Definition read_arg (s : Shape) (d : bytes) : option (Argument * bytes) :=
  match s with
  | SU8 => '(x, d) ← cut 1 d; Some (AInt (le_value x), d)
  | SU16 => '(x, d) ← cut 2 d; Some (AInt (le_value x), d)
  | SU64 => '(x, d) ← cut 8 d; Some (AInt (le_value x), d)
  | SI64 => '(x, d) ← cut 8 d; Some (AInt (to_i64 (le_value x)), d)
  | SText =>
      '(x, d) ← cut 4 d;
      '(x, d) ← cut (Z.to_nat (le_value x)) d;
      Some (AText (String.string_of_list_byte x), d)
  | SBytes n => '(x, d) ← cut n d; Some (ABytes x, d)
  | SRest => Some (AText (String.string_of_list_byte d), [])
  end.

Fixpoint read_args (l : list Shape) (d : bytes) : option (list Argument) :=
  match l with
  | [] => match d with [] => Some [] | _ => None end
  | s :: l => '(a, d) ← read_arg s d; rest ← read_args l d; Some (a :: rest)
  end.

Fixpoint strip (tag d : bytes) : option bytes :=
  match tag, d with
  | [], _ => Some d
  | t :: tag, b :: d => if Byte.eqb t b then strip tag d else None
  | _, [] => None
  end.

(** What the builders write for each program: a name, the tag, the shape of the arguments. *)
Definition calls (p : Program) : list (string * bytes * list Shape) :=
  match p with
  | Trading =>
      [("create_sell_order", byte_list [53; 52; 255; 44; 191; 74; 171; 225], [SU64; SU64]);
       ("create_buy_order", byte_list [182; 87; 0; 160; 192; 66; 151; 130], [SU64; SU64]);
       ("match_orders", byte_list [17; 1; 201; 93; 7; 51; 251; 134], [SU64]);
       ("initialize_market", byte_list [35; 35; 189; 193; 155; 48; 170; 203], []);
       ("execute_atomic_settlement", byte_list [86; 216; 13; 114; 76; 114; 212; 11],
         [SU64; SU64; SU64]);
       ("shield_energy", byte_list [18; 113; 101; 142; 63; 11; 252; 178],
         [SU64; SBytes 64; SBytes 64]);
       ("swap_energy", byte_list [173; 218; 178; 117; 111; 237; 240; 16], [SU64; SU64]);
       ("initiate_bridge_transfer", byte_list [181; 100; 216; 14; 219; 149; 169; 185],
         [SU64; SU16; SBytes 32]);
       ("complete_bridge_transfer", byte_list [141; 172; 85; 238; 118; 149; 19; 188], [])]
  | Registry =>
      [("initialize", byte_list [175; 175; 109; 31; 13; 152; 155; 237], []);
       ("register_user", byte_list [153; 150; 36; 97; 226; 70; 52; 72], [SU8; SText]);
       ("register_meter", byte_list [94; 154; 252; 175; 41; 143; 27; 21], [SText; SU8]);
       ("update_registry", byte_list [1; 0; 0; 0], [SRest])]
  | Oracle =>
      [("initialize", byte_list [175; 175; 109; 31; 13; 152; 155; 237], [SBytes 32]);
       ("submit_meter_reading", byte_list [181; 247; 196; 139; 78; 88; 192; 206],
         [SText; SU64; SU64; SI64]);
       ("update_price", byte_list [1; 0; 0; 0], [SU64; SU64])]
  | Governance =>
      [("initialize_poa", byte_list [98; 199; 82; 10; 244; 161; 157; 46], []);
       ("issue_erc", byte_list [174; 248; 149; 107; 155; 4; 196; 8],
         [SText; SU64; SText; SText]);
       ("transfer_erc", byte_list [200; 15; 16; 13; 13; 143; 11; 11], []);
       ("revoke_erc", byte_list [16; 48; 113; 85; 118; 70; 185; 150], [SText]);
       ("vote", byte_list [1; 0; 0; 0], [SU64; SU8])]
  | EnergyToken =>
      [("initialize_token", byte_list [38; 209; 150; 50; 190; 117; 16; 54], []);
       ("mint", byte_list [1; 0; 0; 0], [SU64]);
       ("transfer", byte_list [2; 0; 0; 0], [SU64]);
       ("burn", byte_list [155; 77; 8; 19; 8; 49; 98; 110], [SU64])]
  end.

Fixpoint decode_with (l : list (string * bytes * list Shape)) (d : bytes)
    : option (string * list Argument) :=
  match l with
  | [] => None
  | (name, tag, shape) :: l =>
      match strip tag d with
      | Some d => args ← read_args shape d; Some (name, args)
      | None => decode_with l d
      end
  end.

Definition decode_data (p : Program) (d : bytes) : option (string * list Argument) :=
  decode_with (calls p) d.

(** What of a request gets into the data: the program, the call and its arguments. *)
Definition asked (r : BuilderRequest) : Program * (string * list Argument) :=
  match r with
  | CreateOrder _ _ amount price order_type _ _ =>
      (Trading, (if (order_type =? "sell")%string then "create_sell_order" else "create_buy_order",
                 [AInt amount; AInt price]))
  | MatchOrders _ _ _ amount _ => (Trading, ("match_orders", [AInt amount]))
  | InitializeMarket _ => (Trading, ("initialize_market", []))
  | ExecuteAtomicSettlement _ amount price wheeling =>
      (Trading, ("execute_atomic_settlement", [AInt amount; AInt price; AInt wheeling]))
  | InitiateBridgeTransfer _ _ _ amount chain address =>
      (Trading, ("initiate_bridge_transfer",
                 [AInt amount; AInt chain; ABytes (vec_to_list address)]))
  | CompleteBridgeTransfer _ _ => (Trading, ("complete_bridge_transfer", []))
  | ShieldEnergy _ _ _ _ amount encrypted proof =>
      (Trading, ("shield_energy",
                 [AInt amount; ABytes (vec_to_list encrypted); ABytes (vec_to_list proof)]))
  | SwapEnergy _ _ _ _ _ _ _ _ amount maximum =>
      (Trading, ("swap_energy", [AInt amount; AInt maximum]))
  | InitializeRegistry => (Registry, ("initialize", []))
  | RegisterUser _ _ user_type location =>
      (Registry, ("register_user", [AInt user_type; AText location]))
  | InitializeOracle gateway => (Oracle, ("initialize", [ABytes (vec_to_list gateway)]))
  | UpdateMeterReading meter produced consumed timestamp =>
      (Oracle, ("submit_meter_reading",
                [AText meter; AInt produced; AInt consumed; AInt timestamp]))
  | RegisterMeter meter meter_type =>
      (Registry, ("register_meter", [AText meter; AInt meter_type]))
  | UpdatePrice _ price confidence => (Oracle, ("update_price", [AInt price; AInt confidence]))
  | UpdateRegistry _ data => (Registry, ("update_registry", [AText data]))
  | InitializeGovernance => (Governance, ("initialize_poa", []))
  | IssueErc id _ _ amount source data =>
      (Governance, ("issue_erc", [AText id; AInt amount; AText source; AText data]))
  | CastVote proposal vote => (Governance, ("vote", [AInt proposal; AInt (if vote then 1 else 0)]))
  | TransferErc _ _ _ => (Governance, ("transfer_erc", []))
  | RevokeErc _ reason => (Governance, ("revoke_erc", [AText reason]))
  | InitializeEnergyToken _ => (EnergyToken, ("initialize_token", []))
  | MintTokens _ amount => (EnergyToken, ("mint", [AInt amount]))
  | TransferTokens _ _ amount _ => (EnergyToken, ("transfer", [AInt amount]))
  end.

(** The arguments have their types: [u8], [u16], [u64], [i64], texts of less than 4 GiB. *)
Definition arg_fits (s : Shape) (a : Argument) : Prop :=
  match s, a with
  | SU8, AInt z => 0 <= z <= 255
  | SU16, AInt z => 0 <= z <= 65535
  | SU64, AInt z => 0 <= z <= u64_max
  | SI64, AInt z => - 9223372036854775808 <= z < 9223372036854775808
  | SText, AText s => Z.of_nat (String.length s) <= u32_max
  | SBytes n, ABytes l => length l = n
  | SRest, AText _ => True
  | _, _ => False
  end.

Fixpoint args_fit (l : list Shape) (args : list Argument) : Prop :=
  match l, args with
  | [], [] => True
  | s :: l, a :: args => arg_fits s a /\ args_fit l args
  | _, _ => False
  end.

(** An argument's bytes. *)
Definition write_arg (s : Shape) (a : Argument) : bytes :=
  match s, a with
  | SU8, AInt z => [byte_of z]
  | SU16, AInt z => le_bytes 2 z
  | (SU64 | SI64), AInt z => le_bytes 8 z
  | SText, AText s => write_string [] s
  | SBytes _, ABytes l => l
  | SRest, AText s => text_bytes s
  | _, _ => []
  end.

Fixpoint write_args (l : list Shape) (args : list Argument) : bytes :=
  match l, args with
  | s :: l, a :: args => write_arg s a ++ write_args l args
  | _, _ => []
  end.

(** The shape of a call. *)
Definition call_of (p : Program) (name : string) : option (string * bytes * list Shape) :=
  List.find (fun c => (c.1.1 =? name)%string) (calls p).

Definition call_fits (r : BuilderRequest) : Prop :=
  exists c, call_of (asked r).1 (asked r).2.1 = Some c /\ args_fit c.2 (asked r).2.2.

(** The fields of a request have their Rust types, and its texts less than 4 GiB. *)
Definition is_u8 (z : Z) : Prop := 0 <= z <= 255.
Definition is_u16 (z : Z) : Prop := 0 <= z <= 65535.
Definition is_u64 (z : Z) : Prop := 0 <= z <= u64_max.
Definition is_i64 (z : Z) : Prop := - 9223372036854775808 <= z < 9223372036854775808.
Definition is_text (s : string) : Prop := Z.of_nat (String.length s) <= u32_max.

Definition request_fits (r : BuilderRequest) : Prop :=
  match r with
  | CreateOrder _ _ amount price _ _ _ => is_u64 amount /\ is_u64 price
  | MatchOrders _ _ _ amount _ => is_u64 amount
  | ExecuteAtomicSettlement _ amount price wheeling => is_u64 amount /\ is_u64 price /\ is_u64 wheeling
  | InitiateBridgeTransfer _ _ _ amount chain _ => is_u64 amount /\ is_u16 chain
  | ShieldEnergy _ _ _ _ amount _ _ => is_u64 amount
  | SwapEnergy _ _ _ _ _ _ _ _ amount maximum => is_u64 amount /\ is_u64 maximum
  | RegisterUser _ _ user_type location => is_u8 user_type /\ is_text location
  | UpdateMeterReading meter produced consumed timestamp =>
      is_text meter /\ is_u64 produced /\ is_u64 consumed /\ is_i64 timestamp
  | RegisterMeter meter meter_type => is_text meter /\ is_u8 meter_type
  | UpdatePrice _ price confidence => is_u64 price /\ is_u64 confidence
  | IssueErc id _ _ amount source data => is_text id /\ is_u64 amount /\ is_text source /\ is_text data
  | CastVote proposal _ => is_u64 proposal
  | RevokeErc _ reason => is_text reason
  | MintTokens _ amount | TransferTokens _ _ amount _ => is_u64 amount
  | InitializeMarket _ | CompleteBridgeTransfer _ _ | InitializeRegistry | InitializeOracle _
  | UpdateRegistry _ _ | InitializeGovernance | TransferErc _ _ _ | InitializeEnergyToken _ => True
  end.

(** Two requests with the same call and the same arguments.  What is not compared is not in the
    data: the addresses (they are accounts of the instruction), the identifiers an address is
    derived from, the hash of a bridge transfer that is completed, the certificate of an order, and
    the kind of an order that is not "sell". *)
Definition same_call (r r' : BuilderRequest) : Prop :=
  match r, r' with
  | CreateOrder _ _ amount price kind _ _, CreateOrder _ _ amount' price' kind' _ _ =>
      amount = amount' /\ price = price' /\ (kind = "sell" <-> kind' = "sell")%string
  | MatchOrders _ _ _ amount _, MatchOrders _ _ _ amount' _ => amount = amount'
  | InitializeMarket _, InitializeMarket _ => True
  | ExecuteAtomicSettlement _ amount price wheeling, ExecuteAtomicSettlement _ amount' price' wheeling' =>
      amount = amount' /\ price = price' /\ wheeling = wheeling'
  | InitiateBridgeTransfer _ _ _ amount chain address,
    InitiateBridgeTransfer _ _ _ amount' chain' address' =>
      amount = amount' /\ chain = chain' /\ address = address'
  | CompleteBridgeTransfer _ _, CompleteBridgeTransfer _ _ => True
  | ShieldEnergy _ _ _ _ amount encrypted proof, ShieldEnergy _ _ _ _ amount' encrypted' proof' =>
      amount = amount' /\ encrypted = encrypted' /\ proof = proof'
  | SwapEnergy _ _ _ _ _ _ _ _ amount maximum, SwapEnergy _ _ _ _ _ _ _ _ amount' maximum' =>
      amount = amount' /\ maximum = maximum'
  | InitializeRegistry, InitializeRegistry => True
  | RegisterUser _ _ user_type location, RegisterUser _ _ user_type' location' =>
      user_type = user_type' /\ location = location'
  | InitializeOracle gateway, InitializeOracle gateway' => gateway = gateway'
  | UpdateMeterReading meter produced consumed timestamp,
    UpdateMeterReading meter' produced' consumed' timestamp' =>
      meter = meter' /\ produced = produced' /\ consumed = consumed' /\ timestamp = timestamp'
  | RegisterMeter meter meter_type, RegisterMeter meter' meter_type' =>
      meter = meter' /\ meter_type = meter_type'
  | UpdatePrice _ price confidence, UpdatePrice _ price' confidence' =>
      price = price' /\ confidence = confidence'
  | UpdateRegistry _ data, UpdateRegistry _ data' => data = data'
  | InitializeGovernance, InitializeGovernance => True
  | IssueErc id _ _ amount source data, IssueErc id' _ _ amount' source' data' =>
      id = id' /\ amount = amount' /\ source = source' /\ data = data'
  | CastVote proposal vote, CastVote proposal' vote' => proposal = proposal' /\ vote = vote'
  | TransferErc _ _ _, TransferErc _ _ _ => True
  | RevokeErc _ reason, RevokeErc _ reason' => reason = reason'
  | InitializeEnergyToken _, InitializeEnergyToken _ => True
  | MintTokens _ amount, MintTokens _ amount' => amount = amount'
  | TransferTokens _ _ amount _, TransferTokens _ _ amount' _ => amount = amount'
  | _, _ => False
  end.

(** The texts that have to be addresses. *)
Definition request_addresses `{Env} (r : BuilderRequest) : list (option string) :=
  match r with
  | MatchOrders market buy sell _ _ => [Some market; Some buy; Some sell]
  | MintTokens recipient _ => [Some recipient; env_var "ENERGY_TOKEN_MINT"]
  | TransferTokens from to _ mint => [Some from; Some to; Some mint]
  | _ => []
  end.

Definition address_text `{SolanaSdk} (o : option string) : Prop :=
  exists s k, o = Some s /\ key_of_text s = Ok k.

(** Who signs. *)
Definition signers (i : Instruction) : list Pubkey :=
  map am_pubkey (List.filter am_is_signer (i_accounts i)).

Definition request_signers (payer : Pubkey) (r : BuilderRequest) : list Pubkey :=
  match r with
  | CreateOrder _ _ _ _ _ _ order_payer => [order_payer]
  | InitializeMarket authority | InitializeEnergyToken authority => [authority]
  | ExecuteAtomicSettlement a _ _ _ => [sa_escrow_authority a; sa_market_authority a]
  | InitiateBridgeTransfer _ _ authority _ _ _ | CompleteBridgeTransfer authority _ => [authority]
  | ShieldEnergy _ _ _ owner _ _ _ => [owner]
  | SwapEnergy _ _ _ _ _ _ _ user _ _ => [user]
  | RegisterUser authority _ _ _ => [authority]
  | TransferErc _ owner _ => [owner]
  | UpdateMeterReading _ _ _ _ => []
  | _ => [payer]
  end.

(** The texts an address is derived from. *)
Definition request_seeds (r : BuilderRequest) : list string :=
  match r with
  | CreateOrder _ _ _ _ _ (Some id) _ => [id]
  | RegisterMeter id _ | UpdatePrice id _ _ | UpdateRegistry id _
  | IssueErc id _ _ _ _ _ | TransferErc id _ _ | RevokeErc id _ => [id]
  | _ => []
  end.

(** ** Reading back what was written *)

Lemma text_bytes_length s : length (text_bytes s) = String.length s.
Proof. induction s as [|c s IH]; simpl; [done|by f_equal]. Qed.

Lemma cut_app n x d : length x = n -> cut n (x ++ d) = Some (x, d).
Proof.
  intros H. unfold cut. rewrite length_app, H.
  replace (n <=? n + length d)%nat with true by (symmetry; apply Nat.leb_le; lia).
  by rewrite take_app_length', drop_app_length'.
Qed.

Lemma strip_app tag d : strip tag (tag ++ d) = Some d.
Proof. induction tag as [|t tag IH]; simpl; [done|]. by rewrite (Byte.byte_dec_lb (eq_refl t)). Qed.

(** Tags that differ within their common length. *)
Fixpoint apart (t u : bytes) : bool :=
  match t, u with
  | a :: t, b :: u => negb (Byte.eqb a b) || apart t u
  | _, _ => false
  end.

Lemma strip_apart t u d : apart t u = true -> strip t (u ++ d) = None.
Proof.
  revert u. induction t as [|a t IH]; intros [|b u]; simpl; try done.
  by destruct (Byte.eqb a b); simpl; [apply IH|].
Qed.

Fixpoint tags_apart (l : list (string * bytes * list Shape)) : bool :=
  match l with
  | [] => true
  | c :: l => forallb (fun x => apart c.1.2 x.1.2) l && tags_apart l
  end.

Lemma program_tags_apart p : tags_apart (calls p) = true.
Proof. by destruct p; vm_compute. Qed.

Lemma decode_with_found l name tag shape d :
  tags_apart l = true -> In (name, tag, shape) l ->
  decode_with l (tag ++ d) = (args ← read_args shape d; Some (name, args)).
Proof.
  induction l as [|[[n t] s] l IH]; simpl; [done|]. intros [Ht Hl]%andb_prop [E|Hin].
  - injection E as -> -> ->. by rewrite strip_app.
  - rewrite forallb_forall in Ht. rewrite (strip_apart t tag d (Ht _ Hin)). auto.
Qed.

(** Only the last argument may take the rest of the data. *)
Fixpoint rest_last (l : list Shape) : bool :=
  match l with
  | [] => true
  | [_] => true
  | SRest :: _ => false
  | _ :: l => rest_last l
  end.

Lemma read_write_arg s a d : arg_fits s a -> s <> SRest ->
  read_arg s (write_arg s a ++ d) = Some (a, d).
Proof.
  intros Hf Hs. destruct s, a; simpl in Hf; try done; unfold read_arg, write_arg.
  - rewrite (cut_app 1) by done. simpl. rewrite byte_value_of, Z.mod_small by lia.
    by rewrite Z.mul_0_r, Z.add_0_r.
  - rewrite cut_app by apply length_le_bytes. cbn -[le_value le_bytes Z.pow wrap_u32 cut]. rewrite le_value_bytes, Z.mod_small; [done|].
    simpl. lia.
  - rewrite cut_app by apply length_le_bytes. cbn -[le_value le_bytes Z.pow wrap_u32 cut]. by rewrite le_value_u64.
  - rewrite cut_app by apply length_le_bytes. cbn -[le_value le_bytes Z.pow wrap_u32 cut]. by rewrite le_value_i64.
  - unfold write_string. rewrite app_nil_l, <- (assoc_L (++)), cut_app by apply length_le_bytes.
    cbn -[le_value le_bytes Z.pow wrap_u32 cut]. rewrite wrap_u32_id by (rewrite text_bytes_length; lia).
    rewrite le_value_bytes, Z.mod_small, Nat2Z.id
      by (rewrite text_bytes_length; unfold u32_max in Hf; simpl; lia).
    rewrite cut_app by done. simpl. by rewrite String.string_of_list_byte_of_string.
  - by rewrite cut_app.
Qed.

Lemma read_write_args l args : rest_last l = true -> args_fit l args ->
  read_args l (write_args l args) = Some args.
Proof.
  revert args. induction l as [|s l IH]; intros [|a args] Hr Hf; simpl in Hf; try done.
  destruct Hf as [Ha Hf]. cbn [read_args write_args]. destruct (decide (s = SRest)) as [->|Hs].
  - destruct l; [|done]. destruct args; [|done]. destruct a; [done| |done]. simpl.
    by rewrite app_nil_r, String.string_of_list_byte_of_string.
  - rewrite read_write_arg by done. simpl. rewrite IH; [done| |done].
    destruct s; try done; by destruct l.
Qed.

Lemma decode_call p c args :
  call_of p c.1.1 = Some c -> args_fit c.2 args ->
  decode_data p (c.1.2 ++ write_args c.2 args) = Some (c.1.1, args).
Proof.
  destruct c as [[name tag] shape]. intros [Hin _]%find_some Hf. unfold decode_data.
  rewrite (decode_with_found (calls p) name tag shape) by (done || apply program_tags_apart).
  cbn [snd] in *. rewrite read_write_args; [done| |done].
  assert (Hr : forallb (fun c => rest_last c.2) (calls p) = true) by by destruct p; vm_compute.
  rewrite forallb_forall in Hr. exact (Hr _ Hin).
Qed.

(** ** What the builders build *)

Section built.
Context `{SDK : SolanaSdk} `{ENV : Env}.

Create HintDb builders.
Create HintDb addresses.
#[local] Hint Unfold build_create_order_instruction
  build_match_orders_instruction build_initialize_market_instruction
  build_execute_atomic_settlement_instruction build_shield_energy_instruction
  build_swap_energy_instruction build_initiate_bridge_transfer_instruction
  build_complete_bridge_transfer_instruction build_initialize_registry_instruction
  build_register_user_instruction build_initialize_oracle_instruction
  build_update_price_instruction build_update_meter_reading_instruction
  build_register_meter_instruction build_update_registry_instruction
  build_initialize_governance_instruction build_issue_erc_instruction
  build_vote_instruction build_transfer_erc_instruction build_revoke_erc_instruction
  build_initialize_energy_token_instruction build_mint_instruction
  build_transfer_instruction : builders.
#[local] Hint Unfold get_participant_account_pubkey get_price_feed_account_pubkey
  get_proposal_account_pubkey get_erc_certificate_pubkey : addresses.

Lemma address_of_const s : s ∈ program_constants -> exists k,
  key_of_text s = Ok k /\ address_of_text s = Ok k.
Proof. intros [k Hk]%constants_parse. exists k. unfold address_of_text. by rewrite Hk. Qed.

Lemma bind_res_Ok {A B} (m : res failure A) (f : A -> res failure B) b :
  m ≫= f = Ok b -> exists a, m = Ok a /\ f a = Ok b.
Proof. destruct m; simpl; [eauto|done]. Qed.

(** Walk through the steps of a builder that returned. *)
Ltac steps H :=
  repeat match type of H with
  | _ ≫= _ = Ok _ =>
      let k := fresh "k" in let E := fresh "E" in
      apply bind_res_Ok in H as (k & E & H)
  end.

Lemma from_str_key s k : address_of_text s = Ok k -> key_of_text s = Ok k.
Proof. unfold address_of_text. destruct (key_of_text s); congruence. Qed.

(** Every instruction goes to the program of its call; its data are the call's tag and its
    arguments, and its signers those of the request. *)
Lemma built_parts payer r i : instruction_builder payer r = Ok i ->
  exists c, call_of (asked r).1 (asked r).2.1 = Some c
    /\ key_of_text (program_text (asked r).1) = Ok (i_program_id i)
    /\ i_data i = c.1.2 ++ write_args c.2 (asked r).2.2
    /\ signers i = request_signers payer r.
Proof.
  intros H. destruct r; simpl in H; autounfold with builders in H; steps H; try injection H as <-;
    unfold asked; try destruct (order_type =? "sell")%string;
    try (eexists; split_and!; [reflexivity|by apply from_str_key| |reflexivity];
         cbn -[le_bytes byte_list text_bytes wrap_u32]; unfold write_string;
         rewrite ?app_nil_l, ?app_nil_r, <- ?(assoc_L (++)); reflexivity).
Qed.

Lemma request_call_fits r : request_fits r -> call_fits r.
Proof.
  unfold call_fits, asked.
  destruct r; simpl; try destruct (_ =? "sell")%string; intros H;
    (eexists; split; [reflexivity|]); cbn; unfold is_text, is_u8, is_u16, is_u64, is_i64 in *;
    repeat match goal with b : bool |- _ => destruct b end;
    rewrite ?length_vec_to_list; intuition (done || lia).
Qed.

Lemma instruction_decoded payer r i : instruction_builder payer r = Ok i -> request_fits r ->
  key_of_text (program_text (asked r).1) = Ok (i_program_id i)
  /\ decode_data (asked r).1 (i_data i) = Some (asked r).2.
Proof.
  intros (c & Hc & Hk & -> & _)%built_parts (c' & Hc' & Hf)%request_call_fits. simplify_eq. split; [done|].
  assert (E : c.1.1 = (asked r).2.1) by (apply find_some in Hc as [_ E]; by apply String.eqb_eq in E).
  rewrite <- E in Hc. rewrite (decode_call _ c _ Hc Hf), E. by destruct (asked r) as [? []].
Qed.

Lemma program_text_inj p p' : key_of_text (program_text p) = key_of_text (program_text p') -> p = p'.
Proof.
  intros H. apply constants_differ in H; [by destruct p, p'|..];
    eapply bool_decide_unpack; destruct p, p'; vm_compute; exact I.
Qed.

Lemma asked_same_call r r' : asked r = asked r' <-> same_call r r'.
Proof.
  assert (Hs : forall k k' : string, (k = "sell" <-> k' = "sell")%string ->
    (k =? "sell")%string = (k' =? "sell")%string).
  { intros k k' H. destruct (String.eqb_spec k "sell"), (String.eqb_spec k' "sell"); tauto. }
  split.
  - destruct r, r'; repeat match goal with b : bool |- _ => destruct b end; cbn; try (intros [=]; done);
      repeat match goal with
      | |- context [(?k =? "sell")%string] => destruct (String.eqb_spec k "sell")
      end; intros [=];
      repeat match goal with
      | H : vec_to_list _ = vec_to_list _ |- _ => apply vec_to_list_inj2 in H
      end; subst; first [reflexivity|split_and!; first [done|tauto]].
  - destruct r, r'; cbn; try done; intros H; destruct_and?; subst; try done.
    by erewrite Hs.
Qed.

(** C24: which requests are told apart on the chain.  Two instructions the builders have built, of
    requests whose fields have their types, go to the same program with the same data exactly when
    they are the same call with the same arguments; [same_call] says what the data leave out, the
    hash of a completed bridge transfer among it. *)
Theorem instructions_unambiguous payer payer' r r' i i' :
  instruction_builder payer r = Ok i -> instruction_builder payer' r' = Ok i' ->
  request_fits r -> request_fits r' ->
  i_program_id i = i_program_id i' /\ i_data i = i_data i' <-> same_call r r'.
Proof.
  intros Hi Hi' Hf Hf'. rewrite <- asked_same_call. split.
  - intros [Hp Hd]. destruct (instruction_decoded _ _ _ Hi Hf) as [Hk Hr].
    destruct (instruction_decoded _ _ _ Hi' Hf') as [Hk' Hr'].
    assert (E : (asked r).1 = (asked r').1) by (apply program_text_inj; congruence).
    rewrite E, Hd, Hr' in Hr. destruct (asked r), (asked r'). simpl in *. congruence.
  - intros E. apply built_parts in Hi as (c & Hc & Hk & Hd & _).
    apply built_parts in Hi' as (c' & Hc' & Hk' & Hd' & _). rewrite E in Hc, Hk, Hd.
    split; [congruence|]. rewrite Hd, Hd'. congruence.
Qed.

(** The signatures an instruction requires are those of its request, whoever builds it: a meter
    reading requires none, an order its own payer's, and most of the rest the builder's payer's. *)
Theorem instruction_signers payer r i :
  instruction_builder payer r = Ok i -> signers i = request_signers payer r.
Proof. by intros (_ & _ & _ & _ & ->)%built_parts. Qed.

(** *** What can go wrong *)

Definition short (s : string) : Prop := (String.length s <= 32)%nat.

Lemma find_address_outcome name s p : (String.length name <= 32)%nat ->
  (short s /\ exists k, find_address [text_bytes name; text_bytes s] p = Ok k)
  \/ (~ short s /\ find_address [text_bytes name; text_bytes s] p = Err FPanic).
Proof.
  intros Hn. unfold short, find_address.
  destruct (decide (String.length s <= 32)%nat) as [Hs|Hs]; [left|right]; split; try done.
  - destruct (short_seeds_found [text_bytes name; text_bytes s] p) as [k ->]; [|simpl; lia|by eexists].
    repeat (apply list.Forall_cons; split; [by rewrite text_bytes_length|]). done.
  - rewrite long_seed_panics; [done|]. right. left. rewrite text_bytes_length. lia.
Qed.

Lemma find_address_fixed l p : forallb (fun s => length s <=? 32)%nat l && (length l <=? 15)%nat = true ->
  exists k, find_address l p = Ok k.
Proof.
  intros [H Hl]%andb_prop. unfold find_address. destruct (short_seeds_found l p) as [k ->]; [| |by eexists].
  - rewrite forallb_forall in H. apply list.Forall_forall. intros x Hx. apply Nat.leb_le, H.
    by apply list_elem_of_In.
  - by apply Nat.leb_le.
Qed.

Lemma address_step s : (exists k, address_of_text s = Ok k /\ address_text (Some s))
  \/ (exists e, address_of_text s = Err (FMsg e) /\ ~ address_text (Some s)).
Proof.
  unfold address_of_text. destruct (key_of_text s) as [k|e] eqn:E; [left|right]; eexists.
  - split; [done|]. by exists s, k.
  - split; [done|]. intros (s' & k & [= <-] & E'). congruence.
Qed.

Lemma mint_step : (exists k, get_token_mint_pubkey = Ok k /\ address_text (env_var "ENERGY_TOKEN_MINT"))
  \/ (exists e, get_token_mint_pubkey = Err (FMsg e) /\ ~ address_text (env_var "ENERGY_TOKEN_MINT")).
Proof.
  unfold get_token_mint_pubkey. destruct (env_var _) as [s|]; [|right; eexists; split; [done|by intros (?&?&?&?)]].
  destruct (address_step s) as [(k & Hk & H)|(e & He & H)]; unfold address_of_text in *;
    destruct (key_of_text s) eqn:E; simplify_eq; [left|right]; by eexists.
Qed.

Lemma find_address_user (k p : Pubkey) : exists a, find_address [text_bytes "user"; vec_to_list k] p = Ok a.
Proof. apply find_address_fixed. simpl. by rewrite length_vec_to_list. Qed.

(** One step of a builder: a constant, a fixed address, a text, an identifier. *)
Ltac build_step :=
  match goal with
  | |- context [address_of_text ?s] =>
      let k := fresh "k" in let E := fresh "E" in
      first
        [ destruct (address_of_const s) as (k & _ & E); [eapply bool_decide_unpack; vm_compute; exact I|]
        | destruct (address_step s) as [(k & E & ?)|(k & E & ?)] ];
      rewrite E
  | |- context [get_token_mint_pubkey] =>
      let k := fresh "k" in let E := fresh "E" in
      destruct mint_step as [(k & E & ?)|(k & E & ?)]; rewrite E
  | |- context [find_address [text_bytes ?n; text_bytes ?s] ?p] =>
      let k := fresh "k" in let E := fresh "E" in
      destruct (find_address_outcome n s p) as [(? & k & E)|(? & E)]; [by apply Nat.leb_le| |]; rewrite E
  | |- context [find_address [text_bytes ?n; vec_to_list ?a] ?p] =>
      let k := fresh "k" in let E := fresh "E" in
      destruct (find_address_user a p) as [k E]; rewrite E
  | |- context [find_address ?l ?p] =>
      let k := fresh "k" in let E := fresh "E" in
      destruct (find_address_fixed l p) as [k E]; [reflexivity|]; rewrite E
  end; cbn [mbind res_bind].

(** Building fails for two reasons only: an identifier of more than 32 bytes panics (a seed of an
    address is at most that long), and a text that is no address is refused. *)
Theorem builder_outcome payer r :
  match instruction_builder payer r with
  | Ok _ => Forall short (request_seeds r) /\ Forall address_text (request_addresses r)
  | Err FPanic => ~ Forall short (request_seeds r)
  | Err (FMsg _) => ~ Forall address_text (request_addresses r)
  | Err _ => False
  end.
Proof.
  assert (W : forall (A : Type) (P : A -> Prop) x l, ~ P x -> x ∈ l -> ~ Forall P l)
    by (intros A P x l Hx Hl HF; rewrite list.Forall_forall in HF; eauto).
  destruct r; simpl; autounfold with builders addresses;
    try match goal with |- context [match ?o with Some _ => _ | None => _ end] => destruct o end;
    cbn [mbind res_bind]; repeat build_step; unfold built;
    first [ by split; repeat (apply list.Forall_cons; split); try apply list.Forall_nil
          | by eapply W; [eassumption|rewrite ?elem_of_cons; tauto] ].
Qed.
End built.

(** ** A concrete chain *)

Section demo.

Definition key_of_bytes (l : bytes) : Pubkey := fun_to_vec (fun i : fin 32 => default x00 (l !! fin_to_nat i)).

#[local] Instance demo_sdk : SolanaSdk.
Proof.
  refine {|
    key_of_text s := if (32 <=? String.length s)%nat then Ok (key_of_bytes (text_bytes s)) else Err "Invalid";
    program_address seeds p :=
      if forallb (fun s => length s <=? 32)%nat seeds && (length seeds <=? 15)%nat
      then Some (key_of_bytes (concat seeds ++ vec_to_list p)) else None;
    clock_sysvar := key_of_bytes (text_bytes "clock");
    rent_sysvar := key_of_bytes (text_bytes "rent");
    spl_transfer_checked _ _ _ _ _ _ _ := Err "no token program" |}.
  - intros s Hs. destruct (32 <=? String.length s)%nat eqn:E; [by eexists|].
    repeat (apply elem_of_cons in Hs as [->|Hs]; [done|]). by apply elem_of_nil in Hs.
  - intros s s' Hs Hs' H.
    assert (Hall : forallb (fun s => forallb (fun s' => (s =? s')%string
        || ((32 <=? String.length s)%nat && (32 <=? String.length s')%nat
            && negb (bool_decide (key_of_bytes (text_bytes s) = key_of_bytes (text_bytes s')))))
        program_constants) program_constants = true) by (vm_compute; reflexivity).
    rewrite forallb_forall in Hall. specialize (Hall s ltac:(by apply list_elem_of_In)).
    rewrite forallb_forall in Hall. specialize (Hall s' ltac:(by apply list_elem_of_In)).
    apply orb_prop in Hall as [E%String.eqb_eq|E]; [done|].
    apply andb_prop in E as [[E1 E2]%andb_prop E]. rewrite E1, E2 in H.
    apply negb_true_iff, bool_decide_eq_false in E. congruence.
  - intros seeds p H. replace (forallb _ seeds) with false; [done|]. symmetry.
    apply not_true_is_false. rewrite forallb_forall. intros Hall.
    apply Exists_exists in H as (x & Hx%list_elem_of_In & Hl). apply Hall, Nat.leb_le in Hx. lia.
  - intros seeds p H Hl. replace (forallb _ seeds) with true.
    + replace (length seeds <=? 15)%nat with true by (symmetry; by apply Nat.leb_le). by eexists.
    + symmetry. apply forallb_forall. intros x Hx%list_elem_of_In. apply Nat.leb_le.
      rewrite list.Forall_forall in H. auto.
Defined.

#[local] Instance no_env : Env :=
  {| env_var _ := None; db_error_text := ""; decimal_from_str _ := None |}.

Definition demo_payer : Pubkey := key_of_bytes (text_bytes "payer").
Definition demo_request : BuilderRequest := UpdateMeterReading "MTR-1" 1500 20 (-5).

(** The same reading by two payers, and another one. *)
Definition other_request : BuilderRequest := UpdateMeterReading "MTR-1" 1500 20 5.

Lemma instructions_unambiguous_witness : exists i i' j,
  instruction_builder demo_payer demo_request = Ok i
  /\ instruction_builder (key_of_bytes []) demo_request = Ok i'
  /\ instruction_builder demo_payer other_request = Ok j
  /\ (i_program_id i = i_program_id i' /\ i_data i = i_data i')
  /\ ~ (i_program_id i = i_program_id j /\ i_data i = i_data j).
Proof.
  assert (Hf : request_fits demo_request) by (vm_compute; intuition discriminate).
  assert (Ho : request_fits other_request) by (vm_compute; intuition discriminate).
  destruct (instruction_builder demo_payer demo_request) as [i|e] eqn:Ei; [|vm_compute in Ei; discriminate].
  destruct (instruction_builder (key_of_bytes []) demo_request) as [i'|e] eqn:Ei';
    [|vm_compute in Ei'; discriminate].
  destruct (instruction_builder demo_payer other_request) as [j|e] eqn:Ej; [|vm_compute in Ej; discriminate].
  exists i, i', j. split_and!; [done..| | |].
  1-2: by apply (proj2 (instructions_unambiguous demo_payer (key_of_bytes []) _ _ _ _ Ei Ei' Hf Hf)).
  rewrite (instructions_unambiguous demo_payer demo_payer _ _ _ _ Ei Ej Hf Ho). simpl. intuition discriminate.
Defined.

Lemma instruction_signers_witness : exists i,
  instruction_builder demo_payer demo_request = Ok i /\ signers i = [].
Proof.
  destruct (instruction_builder demo_payer demo_request) as [i|e] eqn:E; [|vm_compute in E; discriminate].
  exists i. split; [done|]. apply (instruction_signers demo_payer demo_request i E).
Defined.
End demo.
