(* ===== verification/Transactions.v ===== *)
(** How the gateway sends a Solana transaction: [src/services/blockchain/transactions/] with
    [account_management.rs], [utils/keys.rs] and the managers of [on_chain/].

    A transaction is its message (instructions, fee payer, blockhash) and the signatures it
    carries; a signature is a key and the message it signed.  The cached blockhash and the idle
    connections are the state; what the RPC node answers may depend on everything asked before.
    A signing key is named by its address.  [Keypair::new] and the jitter of a delay are arguments,
    indexed by the attempt.  The SDK's [try_sign] and the node's check of the signatures are
    interfaces with their documented behaviour. *)
From S2P Require Import Prelude Errors Store Schema Settlement Crypto Accounts Wallets Instructions.
From stdpp Require Import pretty.
Open Scope string_scope.
Open Scope Z_scope.
Open Scope list_scope.

(** ** Transactions *)

Abbreviation Hash := N.

Record Message := {
  m_instructions : list Instruction;
  m_fee_payer : Pubkey;
  m_blockhash : Hash;
}.

Record Transaction := {
  t_message : Message;
  t_signatures : list (Pubkey * Message);
}.

#[global] Instance AccountMeta_eq_dec : EqDecision AccountMeta.
Proof. solve_decision. Defined.
#[global] Instance Instruction_eq_dec : EqDecision Instruction.
Proof. solve_decision. Defined.
#[global] Instance Message_eq_dec : EqDecision Message.
Proof. solve_decision. Defined.

(** The accounts that have to sign: the fee payer and the signers of the instructions. *)
Definition required (m : Message) : list Pubkey :=
  m_fee_payer m :: concat (map signers (m_instructions m)).

Definition with_blockhash (h : Hash) (m : Message) : Message :=
  {| m_instructions := m_instructions m; m_fee_payer := m_fee_payer m; m_blockhash := h |}.

(** [transaction.message.recent_blockhash = h]: the signatures stay. *)
Definition set_blockhash (h : Hash) (t : Transaction) : Transaction :=
  {| t_message := with_blockhash h (t_message t); t_signatures := t_signatures t |}.

(** [Transaction::new_with_payer]; before a blockhash is set it is the default one. *)
Definition new_with_payer (instructions : list Instruction) (payer : Pubkey) : Transaction :=
  {| t_message := {| m_instructions := instructions; m_fee_payer := payer; m_blockhash := 0%N |};
     t_signatures := [] |}.

(** The signatures after [try_sign]: a new blockhash clears the old ones. *)
Definition signatures_after (keys : list Pubkey) (h : Hash) (t : Transaction)
    : list (Pubkey * Message) :=
  map (fun k => (k, with_blockhash h (t_message t))) keys ++
  (if decide (h = m_blockhash (t_message t))
   then List.filter (fun s => bool_decide (s.1 ∉ keys)) (t_signatures t) else []).

(** ** Outside *)

Inductive TxEvent :=
| TBlockhash (ok : bool)
| TSend (t : Transaction) (ok : bool)
| TStatus (signature : string)
| TDelay (ms : Z).

(** [TransactionConfirmationStatus], and [get_signature_status] with the details
    [get_signature_statuses] adds: an error's text, or the level and the confirmations. *)
Inductive Level := LProcessed | LConfirmed | LFinalized.
Definition SigStatus : Type := res string (option (option Level * option Z)).

(** [try_sign] refuses a key that is no required signer ([KeypairPubkeyMismatch]) and a result
    that misses a signature ([NotEnoughSigners]).  The node takes a transaction only when every
    required signer has signed this very message.  [Signature::from_str] decodes 64 bytes, so the
    text of an address is refused. *)
Class Rpc := {
  latest_blockhash : list TxEvent -> res string Hash;
  send_and_confirm : list TxEvent -> Transaction -> res string string;
  signature_status : list TxEvent -> string -> res string (option SigStatus);
  account_data : list TxEvent -> Pubkey -> res string bytes;
  try_sign : list Pubkey -> Hash -> Transaction -> res string Transaction;
  signature_of_text : string -> res string string;
  key_text : Pubkey -> string;
  secret_key : bytes -> Pubkey;
  try_sign_spec keys h t t' : try_sign keys h t = Ok t' <->
    Forall (fun k => k ∈ required (t_message t)) keys
    /\ t' = {| t_message := with_blockhash h (t_message t);
               t_signatures := signatures_after keys h t |}
    /\ Forall (fun r => r ∈ (t_signatures t').*1) (required (t_message t));
  send_verified l t s : send_and_confirm l t = Ok s ->
    Forall (fun r => (r, t_message t) ∈ t_signatures t) (required (t_message t));
  address_no_signature k : exists e, signature_of_text (key_text k) = Err e;
}.

(** [RwLock<Option<Hash>>] of the query manager and [RwLock<Vec<..>>] of the pool. *)
Record TxState := { recent_blockhash : option Hash; idle_connections : nat }.
Abbreviation TxM := (M TxState TxEvent).

Definition step_state (f : TxState -> TxState) : TxM unit := fun w => (Ok tt, set_st (f (st w)) w).
Definition read_state {A} (f : TxState -> A) : TxM A := fun w => (Ok (f (st w)), w).

Definition get_connection : TxM unit :=
  step_state (fun s => {| recent_blockhash := recent_blockhash s;
                          idle_connections := pred (idle_connections s) |}).
Definition return_connection : TxM unit :=
  step_state (fun s => {| recent_blockhash := recent_blockhash s;
                          idle_connections := S (idle_connections s) |}).

(** [.map_err(|e| anyhow!("what: {}", e))?] *)
Definition described {A} (what : string) (r : res string A) : TxM A :=
  match r with Ok a => mret a | Err e => fail (FMsg (what +:+ e)) end.

Definition capped_backoff (attempts base max random : Z) : Z :=
  let exp := Z.min (base * 2 ^ (attempts - 1)) u64_max in
  Z.min exp max + random mod (exp / 4 + 1).

Definition max_retries : nat := 5.

Section transactions.
Context `{RPC : Rpc} `{KF : KeyFiles} `{ENV : Env}.
(** [Keypair::new()] and [rand::random()] of the attempt; 0 is the signing before the first. *)
Variable fresh : nat -> Pubkey.
Variable random : nat -> Z.

(** ** Keys ([utils/keys.rs], [signing.rs]) *)

Definition load_keypair_from_file (path : string) : res failure Pubkey :=
  match read_to_string path with
  | Err e => Err (FMsg ("Failed to read keypair file '" +:+ path +:+ "': " +:+ e))
  | Ok contents =>
      match parse_byte_array contents with
      | Err e => Err (FMsg ("Failed to parse keypair JSON: " +:+ e))
      | Ok l =>
          if negb (length l =? 64)%nat then
            Err (FMsg ("Invalid keypair file: expected 64 bytes, got " +:+ show_len l))
          else Ok (secret_key (take 32 l))
      end
  end.

Definition key_paths : list string :=
  ["/run/secrets/payer.json"; "/app/payer.json"; "/etc/gridtokenx/payer.json"].

Fixpoint first_keypair (paths : list string) : res failure Pubkey :=
  match paths with
  | [] => Err (FMsg "Payer keypair not found in secure storage")
  | path :: paths =>
      match load_keypair_from_file path with
      | Ok k => Ok k
      | Err _ => first_keypair paths
      end
  end.

Definition load_payer_keypair : res failure Pubkey := first_keypair key_paths.

(** The payer the deployment configured, if it did. *)
Definition configured_payer : option Pubkey :=
  match load_payer_keypair with
  | Ok k => Some k
  | Err _ =>
      private_key ← env_var "PAYER_PRIVATE_KEY";
      match bs58_decode private_key with
      | Ok l =>
          if (length l =? 64)%nat then Some (secret_key (take 32 l))
          else if (length l =? 32)%nat then Some (secret_key l) else None
      | Err _ => None
      end
  end.

Definition get_payer_keypair (n : nat) : Pubkey := default (fresh n) configured_payer.

(** ** Sending ([queries.rs], [validation.rs], [execution.rs], [mod.rs]) *)

Definition ask_blockhash (what : string) : TxM Hash := fun w =>
  let r := latest_blockhash (trace w) in
  described what r (World (st w) (faults w) (trace w ++ [TBlockhash (is_ok r)])).

(** The cache is filled once and never emptied. *)
Definition get_recent_blockhash : TxM Hash :=
  cached ← read_state recent_blockhash;
  match cached with
  | Some h => mret h
  | None =>
      h ← ask_blockhash "Failed to get blockhash: ";
      step_state (fun s => {| recent_blockhash := Some h;
                              idle_connections := idle_connections s |}) ;;
      mret h
  end.

Fixpoint empty_instruction (l : list Instruction) (i : nat) : option nat :=
  match l with
  | [] => None
  | x :: l => match i_data x with [] => Some i | _ => empty_instruction l (S i) end
  end.

Definition validate_transaction (t : Transaction) : TxM unit :=
  match m_instructions (t_message t) with
  | [] => fail (FMsg "Transaction cannot be empty")
  | l =>
      match empty_instruction l 0 with
      | Some i => fail (FMsg ("Instruction " +:+ pretty (N.of_nat i) +:+ " cannot be empty"))
      | None => mret ()
      end
  end.

Definition send_tx (t : Transaction) : TxM (res string string) := fun w =>
  let r := send_and_confirm (trace w) t in
  (Ok r, World (st w) (faults w) (trace w ++ [TSend t (is_ok r)])).

(** [attempts] are the attempts made before; [fuel] bounds the loop. *)
Fixpoint retry_loop (fuel attempts : nat) (t : Transaction) : TxM string :=
  match fuel with
  | O => fail FPanic
  | S fuel =>
      let attempts := S attempts in
      get_connection ;;
      recent ← ask_blockhash "Retry blockhash failed: ";
      let t := set_blockhash recent t in
      t ← described "Retry sign failed: " (try_sign [get_payer_keypair attempts] recent t);
      r ← send_tx t;
      return_connection ;;
      match r with
      | Ok signature => mret signature
      | Err e =>
          if contains "insufficient funds" e || (max_retries <=? attempts)%nat
          then fail (FMsg ("Transaction failed: " +:+ e))
          else
            emit (TDelay (capped_backoff (Z.of_nat attempts) 500 30000 (random attempts))) ;;
            retry_loop fuel attempts t
      end
  end.

Definition submit_with_retry (t : Transaction) : TxM string := retry_loop max_retries 0 t.

Definition sign_transaction (t : Transaction) (payer : Pubkey) (h : Hash) : TxM Transaction :=
  described "Failed to sign transaction: " (try_sign [payer] h t).

Definition submit_transaction (t : Transaction) : TxM string :=
  get_connection ;;
  recent ← get_recent_blockhash;
  return_connection ;;
  let t := set_blockhash recent t in
  validate_transaction t ;;
  t ← sign_transaction t (get_payer_keypair 0) recent;
  submit_with_retry t.

(** [transaction.sign] panics where [try_sign] refuses; so does [signers[0]]. *)
Definition build_and_send_transaction (instructions : list Instruction) (keys : list Pubkey)
    : TxM string :=
  get_connection ;;
  recent ← get_recent_blockhash;
  return_connection ;;
  match keys with
  | [] => fail FPanic
  | first :: _ =>
      match try_sign keys recent (new_with_payer instructions first) with
      | Err _ => fail FPanic
      | Ok t => submit_with_retry t
      end
  end.

(** ** Confirmation ([confirmation.rs], [account_management.rs]) *)

Definition status_of_signature (signature : string) : TxM (res string (option SigStatus)) := fun w =>
  (Ok (signature_status (trace w) signature),
   World (st w) (faults w) (trace w ++ [TStatus signature])).

Definition rpc_confirm (text : string) : TxM bool :=
  signature ← described "Invalid signature: " (signature_of_text text);
  r ← status_of_signature signature;
  status ← described "Failed to get signature status: " r;
  mret (match status with Some _ => true | None => false end).

Definition account_exists (k : Pubkey) : TxM bool := rpc_confirm (key_text k).

(** [get_token_account_balance] of the node, and [TokenManager::get_token_balance]. *)
Definition get_token_balance_of (associated : Pubkey -> Pubkey -> Pubkey)
    (account_balance : list TxEvent -> Pubkey -> res string Z) (owner mint : Pubkey) : TxM Z :=
  exists_ ← account_exists (associated owner mint);
  if negb exists_ then mret 0
  else fun w => described "" (account_balance (trace w) (associated owner mint)) w.

Inductive TransactionStatus :=
| StPending | StProcessed | StConfirmed (count : Z) | StFinalized | StFailed (e : string).

Definition status_seen (s : option SigStatus) : TransactionStatus :=
  match s with
  | None => StPending
  | Some (Err e) => StFailed e
  | Some (Ok (Some (Some LFinalized, _))) => StFinalized
  | Some (Ok (Some (Some LConfirmed, n))) => StConfirmed (default 1 n)
  | Some (Ok _) => StProcessed
  end.

Definition get_transaction_status (signature : string) : TxM TransactionStatus :=
  r ← status_of_signature signature;
  s ← described "Failed to get signature status: " r;
  mret (status_seen s).

(** The verdict that ends the polling. *)
Definition final_status (s : TransactionStatus) : option TransactionStatus :=
  match s with
  | StFinalized => Some StFinalized
  | StConfirmed count => if 32 <=? count then Some StFinalized else None
  | StFailed e => Some (StFailed e)
  | _ => None
  end.

(** [elapsed n]: the milliseconds since the start at the [n]th turn. *)
Fixpoint poll_loop (fuel : nat) (elapsed : nat -> Z) (turn : nat) (signature : string)
    (timeout_secs poll_interval_ms : Z) : TxM TransactionStatus :=
  match fuel with
  | O => fail FPanic
  | S fuel =>
      if timeout_secs * 1000 <=? elapsed turn then mret StPending
      else
        s ← get_transaction_status signature;
        match final_status s with
        | Some verdict => mret verdict
        | None =>
            emit (TDelay poll_interval_ms) ;;
            poll_loop fuel elapsed (S turn) signature timeout_secs poll_interval_ms
        end
  end.

(** ** The managers ([on_chain/]): build, then send with the authority as fee payer *)

Definition send_request `{SDK : SolanaSdk} (builder_payer authority : Pubkey) (r : BuilderRequest)
    : TxM string :=
  match instruction_builder builder_payer r with
  | Ok i => submit_transaction (new_with_payer [i] authority)
  | Err e => fail e
  end.

(** The methods of the four managers. *)
Definition manager_initialize_market `{SDK : SolanaSdk} (payer authority : Pubkey) : TxM string :=
  send_request payer authority (InitializeMarket authority).

Definition manager_execute_settlement (market_authority : Pubkey) (ix : Instruction) : TxM string :=
  submit_transaction (new_with_payer [ix] market_authority).

Definition manager_swap_energy (user : Pubkey) (ix : Instruction) : TxM string :=
  submit_transaction (new_with_payer [ix] user).

Definition manager_initialize_registry `{SDK : SolanaSdk} (payer authority : Pubkey) : TxM string :=
  send_request payer authority InitializeRegistry.

Definition manager_initialize_oracle `{SDK : SolanaSdk} (payer authority api_gateway : Pubkey)
    : TxM string :=
  send_request payer authority (InitializeOracle api_gateway).

Definition manager_update_price `{SDK : SolanaSdk} (payer authority : Pubkey) (feed : string)
    (price confidence : Z) : TxM string :=
  send_request payer authority (UpdatePrice feed price confidence).

Definition manager_update_meter_reading `{SDK : SolanaSdk} (payer authority : Pubkey)
    (meter_id : string) (produced consumed timestamp : Z) : TxM string :=
  send_request payer authority (UpdateMeterReading meter_id produced consumed timestamp).

Definition manager_register_meter `{SDK : SolanaSdk} (payer authority : Pubkey)
    (meter_id : string) (meter_type : Z) : TxM string :=
  send_request payer authority (RegisterMeter meter_id meter_type).

Definition manager_initialize_governance `{SDK : SolanaSdk} (payer authority : Pubkey) : TxM string :=
  send_request payer authority InitializeGovernance.

Definition manager_issue_erc `{SDK : SolanaSdk} (payer authority : Pubkey) (certificate_id : string)
    (user_wallet meter_account : Pubkey) (amount : Z) (source data : string) : TxM string :=
  send_request payer authority
    (IssueErc certificate_id user_wallet meter_account amount source data).

Definition manager_transfer_erc `{SDK : SolanaSdk} (payer owner : Pubkey) (certificate_id : string)
    (new_owner : Pubkey) : TxM string :=
  send_request payer owner (TransferErc certificate_id owner new_owner).

Definition manager_initialize_token `{SDK : SolanaSdk} (payer authority : Pubkey) : TxM string :=
  send_request payer authority (InitializeEnergyToken authority).

Definition manager_mint_tokens `{SDK : SolanaSdk} (payer authority : Pubkey) (recipient : string)
    (amount : Z) : TxM string :=
  send_request payer authority (MintTokens recipient amount).

Definition manager_transfer_tokens `{SDK : SolanaSdk} (payer authority : Pubkey)
    (from to : string) (amount : Z) (mint : string) : TxM string :=
  send_request payer authority (TransferTokens from to amount mint).

Definition env_key `{SDK : SolanaSdk} (name : string) : res failure Pubkey :=
  match env_var name with
  | None => Err (FMsg "environment variable not found")
  | Some s => address_of_text s
  end.

Definition register_user_on_chain `{SDK : SolanaSdk} (builder_payer user_authority : Pubkey)
    (user_type : Z) (location : string) : TxM string :=
  match env_key "SOLANA_REGISTRY_PDA" with
  | Ok registry =>
      send_request builder_payer user_authority
        (RegisterUser user_authority registry user_type location)
  | Err e => fail e
  end.

(** The address of the next order: the market's counter of active orders is one of its seeds. *)
Definition derive_order_pda `{SDK : SolanaSdk} (authority market_address : Pubkey) : TxM Pubkey :=
  fun w =>
  match account_data (trace w) market_address with
  | Err e => (Err (FMsg ("Failed to get account: " +:+ e)), w)
  | Ok data =>
      if (length data <? 44)%nat then (Err (FMsg "Market account data too small"), w)
      else
        let active_orders := le_value (take 4 (drop 40 data)) in
        (program ← env_key "SOLANA_TRADING_PROGRAM_ID";
         find_address [text_bytes "order"; vec_to_list authority; vec_to_list market_address;
                       le_bytes 4 active_orders] program, w)
  end.
End transactions.

(** How often a transaction was sent, and how long the gateway waited. *)
Definition sends (l : list TxEvent) : nat :=
  length (List.filter (fun e => match e with TSend _ _ => true | _ => false end) l).
Definition waited (l : list TxEvent) : Z :=
  sumZ (fun e => match e with TDelay ms => ms | _ => 0 end) l.

Lemma sends_app l l' : sends (l ++ l') = (sends l + sends l')%nat.
Proof. unfold sends. by rewrite List.filter_app, length_app. Qed.
Lemma waited_app l l' : waited (l ++ l') = waited l + waited l'.
Proof. apply sumZ_app. Qed.

(** ** Signatures *)

Lemma required_blockhash h m : required (with_blockhash h m) = required m.
Proof. done. Qed.

Section sending.
Context `{RPC : Rpc} `{KF : KeyFiles} `{ENV : Env}.
Variable fresh : nat -> Pubkey.
Variable random : nat -> Z.

Lemma described_Ok {A} what (r : res string A) w a w' :
  described what r w = (Ok a, w') -> r = Ok a /\ w' = w.
Proof. unfold described. destruct r; simpl; intros [= <- <-] || intros; simplify_eq; done. Qed.

(** What a signed transaction looks like. *)
Lemma try_sign_Ok keys h t t' : try_sign keys h t = Ok t' ->
  t_message t' = with_blockhash h (t_message t)
  /\ t_signatures t' = signatures_after keys h t
  /\ Forall (fun k => k ∈ required (t_message t)) keys
  /\ Forall (fun r => r ∈ (t_signatures t').*1) (required (t_message t)).
Proof. by intros (Hk & -> & Hr)%try_sign_spec. Qed.

(** A signature over a transaction after signing: by one of the keys, or already there. *)
Lemma signature_origin keys h t s : s ∈ signatures_after keys h t ->
  (s.1 ∈ keys /\ s.2 = with_blockhash h (t_message t)) \/ s ∈ t_signatures t.
Proof.
  unfold signatures_after. intros [(k & -> & Hk)%list_elem_of_fmap|Hs]%elem_of_app; [by left|].
  case_decide; [|by apply elem_of_nil in Hs]. right.
  by apply list_elem_of_In, filter_In in Hs as [Hs%list_elem_of_In _].
Qed.

(** Signing a fresh transaction takes exactly the required keys. *)
Lemma sole_signer k h t t' : t_signatures t = [] -> try_sign [k] h t = Ok t' ->
  Forall (fun r => r = k) (required (t_message t)).
Proof.
  intros Hs (_ & Ht & _ & Hr)%try_sign_Ok. eapply list.Forall_impl; [exact Hr|].
  intros r. rewrite Ht. intros (s & -> & [[Hk _]|Hx]%signature_origin)%list_elem_of_fmap.
  - by apply list_elem_of_singleton in Hk.
  - rewrite Hs in Hx. by apply elem_of_nil in Hx.
Qed.

(** One attempt, taken apart. *)
Lemma attempt_cases fuel attempts t w r w' :
  retry_loop fresh random (S fuel) attempts t w = (r, w') ->
  (exists e l, r = Err (FMsg e) /\ trace w' = trace w ++ l /\ (sends l <= 1)%nat /\ waited l = 0)
  \/ (exists h t1 w1, try_sign [get_payer_keypair fresh (S attempts)] h (set_blockhash h t) = Ok t1
      /\ ((exists s, send_and_confirm (trace w ++ [TBlockhash true]) t1 = Ok s /\ r = Ok s
             /\ trace w' = (trace w ++ [TBlockhash true]) ++ [TSend t1 true])
          \/ (exists e ms, send_and_confirm (trace w ++ [TBlockhash true]) t1 = Err e
             /\ contains "insufficient funds" e = false /\ (S attempts < max_retries)%nat
             /\ ms = capped_backoff (Z.of_nat (S attempts)) 500 30000 (random (S attempts))
             /\ trace w1 = ((trace w ++ [TBlockhash true]) ++ [TSend t1 false]) ++ [TDelay ms]
             /\ retry_loop fresh random fuel (S attempts) t1 w1 = (r, w')))).
Proof.
  cbn [retry_loop]. unfold mbind, M_bind, get_connection, return_connection, step_state, ask_blockhash, send_tx.
  cbn -[try_sign max_retries].
  destruct (latest_blockhash (trace w)) as [h|e] eqn:Eh; cbn -[try_sign max_retries].
  2:{ intros [= <- <-]. left. eexists _, _. split_and!; [done..|unfold sends; cbn; lia|done]. }
  destruct (try_sign _ h _) as [t1|e] eqn:Et; cbn -[max_retries].
  2:{ intros [= <- <-]. left. eexists _, _. split_and!; [done..|unfold sends; cbn; lia|done]. }
  destruct (send_and_confirm _ t1) as [s|e] eqn:Es; cbn -[max_retries].
  { intros [= <- <-]. right. exists h, t1, w. split; [done|]. left. by exists s. }
  destruct (contains _ e || _) eqn:Ec; cbn -[max_retries].
  - intros [= <- <-]. left. eexists _, ([TBlockhash true] ++ [TSend t1 false]).
    split_and!; [done|cbn; by rewrite <- (assoc_L (++))|unfold sends; cbn; lia|done].
  - intros Hr. apply orb_false_elim in Ec as [Hc Hm%Nat.leb_gt]. right. eexists h, t1, _. split; [done|]. right.
    exists e. eexists. split_and!; [..|exact Hr]; done.
Qed.

(** Whoever had to sign is one of the gateway's payers, or had signed what was sent before. *)
Lemma retry_loop_signed fuel attempts t w s w' :
  retry_loop fresh random fuel attempts t w = (Ok s, w') ->
  get_payer_keypair fresh (S attempts) ∈ required (t_message t)
  /\ exists t', TSend t' true ∈ trace w' /\ (exists h, t_message t' = with_blockhash h (t_message t))
     /\ Forall (fun r => (exists i, r = get_payer_keypair fresh i)
                        \/ (r, t_message t') ∈ t_signatures t) (required (t_message t)).
Proof.
  revert attempts t w. induction fuel as [|fuel IH]; intros attempts t w; [done|].
  intros [(e & l & ? & _)|(h & t1 & w1 & Ht & Hcase)]%attempt_cases; [done|].
  apply try_sign_Ok in Ht as (Hm & Hs & Hk & _). apply list.Forall_cons in Hk as [Hk _].
  assert (Horig : forall x, x ∈ t_signatures t1 ->
    x.1 = get_payer_keypair fresh (S attempts) \/ x ∈ t_signatures t).
  { intros x. rewrite Hs. intros [[Hx _]|Hx]%signature_origin; [left|by right].
    by apply list_elem_of_singleton in Hx. }
  split; [exact Hk|]. destruct Hcase as [(s' & Hsend & _ & Htr)|(e & ms & _ & _ & _ & _ & _ & Hrest)].
  - exists t1. split_and!.
    + rewrite Htr. apply elem_of_app. right. by apply list_elem_of_singleton.
    + exists h. exact Hm.
    + apply send_verified in Hsend. rewrite Hm in Hsend at 1. eapply list.Forall_impl; [exact Hsend|].
      intros r [Hr|Hr]%Horig; [left; by eexists|by right].
  - apply IH in Hrest as (_ & t' & Hin & [h' Hh] & Hall). rewrite Hm in Hall, Hh.
    exists t'. split_and!; [done|exists h'; exact Hh|].
    eapply list.Forall_impl; [exact Hall|]. intros r [Hr|[Hr|Hr]%Horig]; [by left|left; by eexists|by right].
Qed.

Lemma submit_parts t w s w' : submit_transaction fresh random t w = (Ok s, w') ->
  exists h t1 w1, try_sign [get_payer_keypair fresh 0] h (set_blockhash h t) = Ok t1
    /\ submit_with_retry fresh random t1 w1 = (Ok s, w').
Proof.
  unfold submit_transaction. intros H.
  apply bind_Ok in H as ([] & ? & _ & H). apply bind_Ok in H as (h & ? & _ & H).
  apply bind_Ok in H as ([] & ? & _ & H). apply bind_Ok in H as ([] & ? & _ & H).
  apply bind_Ok in H as (t1 & w1 & [Ht ->]%described_Ok & H). exists h, t1. by eexists.
Qed.

(** Every transaction a run of the loop sends, taken by the node or not: the message it was given
    under some blockhash, with the payer of the first attempt among those who have to sign, and
    every one of these either a payer of the gateway or a signer it came with. *)
Lemma retry_loop_sends fuel attempts t w r w' :
  retry_loop fresh random fuel attempts t w = (r, w') ->
  exists l, trace w' = trace w ++ l /\ forall t' ok, TSend t' ok ∈ l ->
    (exists h, t_message t' = with_blockhash h (t_message t))
    /\ get_payer_keypair fresh (S attempts) ∈ required (t_message t)
    /\ Forall (fun x => (exists i, x = get_payer_keypair fresh i) \/ x ∈ (t_signatures t).*1)
         (required (t_message t)).
Proof.
  revert attempts t w. induction fuel as [|fuel IH]; intros attempts t w.
  { intros [= <- <-]. exists []. rewrite app_nil_r. split; [done|]. by intros ?? ?%elem_of_nil. }
  cbn [retry_loop]. unfold mbind, M_bind, get_connection, return_connection, step_state, ask_blockhash, send_tx.
  cbn -[try_sign max_retries].
  destruct (latest_blockhash (trace w)) as [h|e] eqn:Eh; cbn -[try_sign max_retries].
  2:{ intros [= <- <-]. eexists. split; [reflexivity|]. by intros t' ok ?%list_elem_of_singleton. }
  destruct (try_sign _ h _) as [t1|e] eqn:Et; cbn -[max_retries].
  2:{ intros [= <- <-]. eexists. split; [reflexivity|]. by intros t' ok ?%list_elem_of_singleton. }
  apply try_sign_Ok in Et as (Hm & Hs & Hk & Hr). apply list.Forall_cons in Hk as [Hk _].
  cbn in Hm, Hk, Hr.
  assert (Hsig : forall x, x ∈ (t_signatures t1).*1 ->
    x = get_payer_keypair fresh (S attempts) \/ x ∈ (t_signatures t).*1).
  { intros x (y & -> & Hy)%list_elem_of_fmap. rewrite Hs in Hy.
    apply signature_origin in Hy as [[Hy _]|Hy]; [left; by apply list_elem_of_singleton in Hy|right].
    by apply list_elem_of_fmap_2. }
  assert (Hthis : (exists h, t_message t1 = with_blockhash h (t_message t))
    /\ get_payer_keypair fresh (S attempts) ∈ required (t_message t)
    /\ Forall (fun x => (exists i, x = get_payer_keypair fresh i) \/ x ∈ (t_signatures t).*1)
         (required (t_message t))).
  { split; [by exists h; rewrite Hm|]. split; [exact Hk|]. eapply list.Forall_impl; [exact Hr|].
    intros x [->|Hx]%Hsig; [left; by eexists|by right]. }
  assert (Hin : forall l t' ok b, TSend t' ok ∈ ([TBlockhash b] ++ [TSend t1 l]) -> t' = t1)
    by (intros l t' ok b; rewrite elem_of_app, !list_elem_of_singleton; intros [?|?]; congruence).
  destruct (send_and_confirm _ t1) as [s|e] eqn:Es; cbn -[max_retries].
  { intros [= <- <-]. exists ([TBlockhash true] ++ [TSend t1 true]). split; [by rewrite (assoc_L (++))|].
    by intros t' ok ->%Hin. }
  destruct (contains _ e || _) eqn:Ec; cbn -[max_retries].
  { intros [= <- <-]. exists ([TBlockhash true] ++ [TSend t1 false]). split; [by rewrite (assoc_L (++))|].
    by intros t' ok ->%Hin. }
  intros Hrest. apply IH in Hrest as (l & Hl & Hall). cbn in Hl.
  exists (([TBlockhash true] ++ [TSend t1 false]) ++ [TDelay (capped_backoff (Z.of_nat (S attempts)) 500 30000 (random (S attempts)))] ++ l).
  split; [rewrite Hl; by rewrite <- !(assoc_L (++))|].
  intros t' ok [->%Hin|[Hd|Ht']%elem_of_app]%elem_of_app; [exact Hthis|by apply list_elem_of_singleton in Hd|].
  destruct (Hall _ _ Ht') as ([h' Hh'] & _ & _). destruct Hthis as (_ & H2 & H3).
  split_and!; [|exact H2|exact H3]. exists h'. rewrite Hh', Hm. done.
Qed.

Lemma blockhash_sends w r w' : get_recent_blockhash w = (r, w') ->
  exists l, trace w' = trace w ++ l /\ forall t ok, TSend t ok ∉ l.
Proof.
  unfold get_recent_blockhash, read_state, mbind, M_bind. destruct (recent_blockhash (st w)).
  - intros [= _ <-]. exists []. rewrite app_nil_r. split; [done|]. by intros ?? ?%elem_of_nil.
  - unfold ask_blockhash, step_state, described. destruct (latest_blockhash _); intros [= _ <-];
      (eexists; split; [reflexivity|]); by intros ?? ?%list_elem_of_singleton.
Qed.

(** What a transaction without signatures leads to. *)
Lemma submit_sends t w r w' : t_signatures t = [] -> fresh 0%nat <> fresh 1%nat ->
  submit_transaction fresh random t w = (r, w') ->
  exists l, trace w' = trace w ++ l /\ forall t' ok, TSend t' ok ∈ l ->
    (exists h, t_message t' = with_blockhash h (t_message t))
    /\ exists k, configured_payer = Some k /\ Forall (fun r => r = k) (required (t_message t)).
Proof.
  intros Ht Hf. unfold submit_transaction, mbind, M_bind, get_connection, return_connection, step_state. cbn -[submit_with_retry].
  match goal with |- context [get_recent_blockhash ?w0] => set (v := w0) end.
  destruct (get_recent_blockhash v) as [[h|e] v1] eqn:Eh; cbn -[submit_with_retry];
    destruct (blockhash_sends _ _ _ Eh) as (l1 & Hl1 & Hn1); cbn in Hl1.
  2:{ intros [= _ <-]. exists l1. split; [done|]. by intros t' ok ?%Hn1. }
  assert (Hv : forall e, validate_transaction (set_blockhash h t) (set_st
    {| recent_blockhash := recent_blockhash (st v1); idle_connections := S (idle_connections (st v1)) |} v1) = e ->
    e.2 = set_st {| recent_blockhash := recent_blockhash (st v1);
                    idle_connections := S (idle_connections (st v1)) |} v1).
  { intros e <-. unfold validate_transaction. destruct (m_instructions _); [done|]. by destruct (empty_instruction _ _). }
  destruct (validate_transaction _ _) as [[[]|e] v2] eqn:Ev; cbn -[submit_with_retry];
    pose proof (Hv _ eq_refl) as Hv2; cbn in Hv2; subst v2.
  2:{ intros [= _ <-]. exists l1. split; [done|]. by intros t' ok ?%Hn1. }
  unfold sign_transaction, described. destruct (try_sign _ h _) as [t1|e] eqn:Et; cbn -[submit_with_retry].
  2:{ intros [= _ <-]. exists l1. split; [done|]. by intros t' ok ?%Hn1. }
  intros Hr. apply (retry_loop_sends max_retries) in Hr as (l2 & Hl2 & Hs2). cbn in Hl2.
  exists (l1 ++ l2). split; [rewrite Hl2, Hl1; by rewrite <- (assoc_L (++))|].
  intros t' ok [?%Hn1|Hin]%elem_of_app; [done|]. destruct (Hs2 _ _ Hin) as ([h' Hh'] & Hp & _).
  pose proof (sole_signer _ h (set_blockhash h t) t1 Ht Et) as Hall.
  apply try_sign_Ok in Et as (Hm & _). rewrite Hm in Hh', Hp. cbn in Hall, Hp. split; [by exists h'|].
  rewrite list.Forall_forall in Hall. pose proof (Hall _ Hp) as E.
  unfold get_payer_keypair in E, Hall. destruct configured_payer as [k|]; [|done].
  exists k. split; [done|]. by apply list.Forall_forall.
Qed.

(** C25: who has to sign what is sent, accepted by the node or not, in every run of both ways to
    send, successful or not.  What [submit_transaction] sends of an unsigned transaction has the
    configured payer as its fee payer and only signer: neither an authority's nor a user's
    signature is ever added, and without a configured payer nothing is sent (two draws of a random
    one differing).  What [build_and_send_transaction] sends is paid by the first of the signers it
    was given; everybody else who has to sign is another of them or a payer of the gateway, and
    such a payer always has to. *)
Theorem submit_needs_payer :
  (forall t w r w', fresh 0%nat <> fresh 1%nat -> t_signatures t = [] ->
    submit_transaction fresh random t w = (r, w') ->
    exists l, trace w' = trace w ++ l /\ forall t' ok, TSend t' ok ∈ l ->
      (exists h, t_message t' = with_blockhash h (t_message t))
      /\ exists k, configured_payer = Some k /\ Forall (fun r => r = k) (required (t_message t')))
  /\ (forall instructions keys w r w',
    build_and_send_transaction fresh random instructions keys w = (r, w') ->
    exists l, trace w' = trace w ++ l /\ forall t' ok, TSend t' ok ∈ l ->
      m_instructions (t_message t') = instructions /\ head keys = Some (m_fee_payer (t_message t'))
      /\ (exists i, get_payer_keypair fresh (S i) ∈ required (t_message t'))
      /\ Forall (fun r => r ∈ keys \/ exists i, r = get_payer_keypair fresh i) (required (t_message t'))).
Proof.
  split.
  - intros t w r w' Hf Ht H. destruct (submit_sends t w r w' Ht Hf H) as (l & Hl & Hall). exists l.
    split; [done|]. intros t' ok Hin. destruct (Hall _ _ Hin) as ([h Hh] & k & Hk & Hr).
    split; [by exists h|]. exists k. split; [done|]. by rewrite Hh, required_blockhash.
  - intros instructions keys w r w'.
    unfold build_and_send_transaction, mbind, M_bind, get_connection, return_connection, step_state. cbn -[submit_with_retry].
    match goal with |- context [get_recent_blockhash ?w0] => set (v := w0) end.
    destruct (get_recent_blockhash v) as [[h|e] v1] eqn:Eh; cbn -[submit_with_retry];
      destruct (blockhash_sends _ _ _ Eh) as (l1 & Hl1 & Hn1); cbn in Hl1.
    2:{ intros [= _ <-]. exists l1. split; [done|]. by intros t' ok ?%Hn1. }
    destruct keys as [|k keys]; cbn -[submit_with_retry].
    { intros [= _ <-]. exists l1. split; [done|]. by intros t' ok ?%Hn1. }
    destruct (try_sign _ h _) as [t|e] eqn:Et; cbn -[submit_with_retry].
    2:{ intros [= _ <-]. exists l1. split; [done|]. by intros t' ok ?%Hn1. }
    apply try_sign_Ok in Et as (Hm & Hs & _ & _).
    intros (l2 & Hl2 & Hall)%retry_loop_sends. cbn in Hl2.
    exists (l1 ++ l2). split; [rewrite Hl2, Hl1; by rewrite <- (assoc_L (++))|].
    intros t' ok [?%Hn1|Hin]%elem_of_app; [done|]. destruct (Hall _ _ Hin) as ([h' Hh'] & Hp & Hr).
    rewrite Hm in Hh', Hp, Hr. rewrite Hh'. cbn. split_and!; [done..|by exists 0%nat|].
    eapply list.Forall_impl; [exact Hr|]. intros x [Hx|Hx]; [by right|left].
    apply list_elem_of_fmap in Hx as (y & -> & Hy). rewrite Hs in Hy.
    apply signature_origin in Hy as [[Hy _]|Hy]; [exact Hy|by apply elem_of_nil in Hy].
Qed.

(** A confirmed submission has sent its transaction. *)
Lemma submit_Ok_payer t w s w' :
  fresh 0%nat <> fresh 1%nat -> t_signatures t = [] ->
  submit_transaction fresh random t w = (Ok s, w') ->
  exists k, configured_payer = Some k /\ Forall (fun r => r = k) (required (t_message t)).
Proof.
  intros Hf Ht (h & t1 & w1 & Hsign & [Hin _]%retry_loop_signed)%submit_parts.
  pose proof (sole_signer _ h (set_blockhash h t) t1 Ht Hsign) as Hall.
  apply try_sign_Ok in Hsign as (Hm & _). rewrite Hm in Hin. cbn in Hall, Hin.
  rewrite list.Forall_forall in Hall. pose proof (Hall _ Hin) as E.
  unfold get_payer_keypair in E, Hall. destruct configured_payer as [k|]; [|done].
  exists k. split; [done|]. by apply list.Forall_forall.
Qed.

(** So an operation of the managers is sent only for the gateway itself: an authority or a user
    whose key is not the payer's cannot register, order or transfer on chain. *)
Theorem request_needs_payer `{SDK : SolanaSdk} builder_payer authority r w s w' :
  fresh 0%nat <> fresh 1%nat -> send_request fresh random builder_payer authority r w = (Ok s, w') ->
  exists k, configured_payer = Some k /\ authority = k
    /\ Forall (fun x => x = k) (request_signers builder_payer r).
Proof.
  intros Hf H. unfold send_request in H. destruct (instruction_builder builder_payer r) as [i|e] eqn:E; [|done].
  apply submit_Ok_payer in H as (k & Hk & Hall); [|done..]. exists k. split; [done|].
  unfold required in Hall. cbn in Hall. rewrite app_nil_r in Hall. apply list.Forall_cons in Hall as [Ha Hall].
  split; [done|]. apply built_parts in E as (_ & _ & _ & _ & <-). exact Hall.
Qed.

(** A transaction signed beforehand is sent only while the cached blockhash is the newest one:
    otherwise every signer is one of the payers. *)
Theorem presigned_needs_blockhash instructions keys w s w' :
  build_and_send_transaction fresh random instructions keys w = (Ok s, w') ->
  exists t', TSend t' true ∈ trace w' /\ m_instructions (t_message t') = instructions
    /\ Forall (fun r => (exists i, r = get_payer_keypair fresh i)
         \/ (r ∈ keys /\ exists w1 w2, get_recent_blockhash w1 = (Ok (m_blockhash (t_message t')), w2)))
       (required (t_message t')).
Proof.
  unfold build_and_send_transaction. intros H.
  apply bind_Ok in H as ([] & w1 & _ & H). apply bind_Ok in H as (h & w2 & Hh & H).
  apply bind_Ok in H as ([] & w3 & _ & H). destruct keys as [|k keys]; [done|].
  destruct (try_sign _ h _) as [t|e] eqn:Et; [|done].
  apply try_sign_Ok in Et as (Hm & Hs & _ & _).
  apply retry_loop_signed in H as (_ & t' & Hin & [h' Hh'] & Hall). exists t'. rewrite Hm in Hh', Hall.
  split_and!; [done|by rewrite Hh'|]. rewrite Hh'. cbn.
  eapply list.Forall_impl; [exact Hall|]. intros r [Hr|Hr]; [by left|]. right.
  rewrite Hs in Hr. apply signature_origin in Hr as [[Hk Hmsg]|Hr]; [|by apply elem_of_nil in Hr].
  cbn in Hk, Hmsg. split; [done|]. exists w1, w2. rewrite Hh' in Hmsg. injection Hmsg as ->. done.
Qed.

(** *** How often and how long *)

(** The longest wait still ahead after so many attempts. *)
Definition wait_left (attempts : nat) : Z :=
  match attempts with 0%nat => 9375 | 1%nat => 8750 | 2%nat => 7500 | 3%nat => 5000 | _ => 0 end.

Lemma backoff_bounds n r : (n < 4)%nat ->
  500 * 2 ^ Z.of_nat n <= capped_backoff (Z.of_nat (S n)) 500 30000 r <= wait_left n - wait_left (S n).
Proof.
  intros Hn. unfold capped_backoff.
  assert (E : Z.min (500 * 2 ^ (Z.of_nat (S n) - 1)) u64_max = 500 * 2 ^ Z.of_nat n)
    by by destruct n as [|[|[|[|n]]]]; [..|lia].
  rewrite E. assert (Hq : 500 * 2 ^ Z.of_nat n / 4 = 125 * 2 ^ Z.of_nat n /\ 0 < 2 ^ Z.of_nat n
    /\ 625 * 2 ^ Z.of_nat n = wait_left n - wait_left (S n) /\ 500 * 2 ^ Z.of_nat n <= 30000)
    by by destruct n as [|[|[|[|n]]]]; [..|lia].
  destruct Hq as (-> & Hp & <- & Hmax). rewrite Z.min_l by done.
  pose proof (Z.mod_pos_bound r (125 * 2 ^ Z.of_nat n + 1) ltac:(lia)). lia.
Qed.

Lemma retry_loop_bounded fuel attempts t w r w' :
  (attempts + fuel = max_retries)%nat -> (0 < fuel)%nat ->
  retry_loop fresh random fuel attempts t w = (r, w') ->
  r <> Err FPanic /\ exists l, trace w' = trace w ++ l /\ (sends l <= fuel)%nat
    /\ 0 <= waited l <= wait_left attempts.
Proof.
  revert attempts t w. induction fuel as [|fuel IH]; intros attempts t w Hf Hpos; [lia|].
  assert (Hw : 0 <= wait_left attempts) by by destruct attempts as [|[|[|[|?]]]].
  intros [(e & l & -> & Hl & Hs & Hz)|(h & t1 & w1 & _ & [(s & _ & -> & Hl)|(e & ms & _ & _ & Hm & -> & Htr & Hr)])]%attempt_cases.
  - split; [done|]. exists l. rewrite Hz. split_and!; [done|lia|done|done].
  - split; [done|]. exists ([TBlockhash true] ++ [TSend t1 true]).
    split_and!; [by rewrite (assoc_L (++))|unfold sends; cbn; lia|done|done].
  - unfold max_retries in *.
    destruct (IH (S attempts) t1 w1 ltac:(lia) ltac:(lia) Hr) as (Hp & l & Hl & Hs & Hb).
    split; [done|]. pose proof (backoff_bounds attempts (random (S attempts)) ltac:(lia)) as Hback.
    assert (0 <= 500 * 2 ^ Z.of_nat attempts) by (apply Z.mul_nonneg_nonneg; [done|apply Z.pow_nonneg; done]).
    eexists. rewrite Hl, Htr, <- !(assoc_L (++)). split_and!; [done|..];
      rewrite ?sends_app, ?waited_app; unfold sends in *; cbn -[capped_backoff wait_left] in *; lia.
Qed.

(** Sending ends: at most five times, with less than ten seconds of waiting, and the loop never
    runs out of the five turns it is given. *)
Theorem submit_bounded t w r w' : submit_with_retry fresh random t w = (r, w') ->
  r <> Err FPanic /\ exists l, trace w' = trace w ++ l /\ (sends l <= 5)%nat /\ 0 <= waited l <= 9375.
Proof. intros H. apply (retry_loop_bounded max_retries 0) in H; [done|done|]. unfold max_retries. lia. Qed.

(** *** Asking the chain *)

(** Whether an account exists is asked as if its address were a signature: the answer is always
    an error, on any chain. *)
Theorem account_exists_fails k w : exists e,
  account_exists k w = (Err (FMsg ("Invalid signature: " +:+ e)), w).
Proof.
  destruct (address_no_signature k) as [e He]. exists e.
  unfold account_exists, rpc_confirm, mbind, M_bind. by rewrite He.
Qed.

(** So a token balance is never read. *)
Theorem token_balance_fails associated account_balance owner mint w :
  is_ok (get_token_balance_of associated account_balance owner mint w).1 = false.
Proof.
  unfold get_token_balance_of, account_exists, rpc_confirm, mbind, M_bind.
  by destruct (address_no_signature (associated owner mint)) as [e ->].
Qed.

(** A transaction the chain rejected counts as confirmed, unlike for its status. *)
Theorem failed_confirmed text signature e w :
  signature_of_text text = Ok signature ->
  signature_status (trace w) signature = Ok (Some (Err e)) ->
  (rpc_confirm text w).1 = Ok true
  /\ (get_transaction_status signature w).1 = Ok (StFailed e).
Proof.
  intros Hs He. unfold rpc_confirm, get_transaction_status, status_of_signature, mbind, M_bind.
  rewrite Hs. cbn. by rewrite He.
Qed.

(** The cached blockhash is never replaced. *)
Definition remembers (h : Hash) (s : TxState) : Prop := recent_blockhash s = Some h.

Lemma preserves_step (I : TxState -> Prop) f : (forall s, I s -> I (f s)) -> preserves I (step_state f).
Proof. intros H w Hw. by apply H. Qed.
Lemma preserves_described {A} (I : TxState -> Prop) what (r : res string A) : preserves I (described what r).
Proof. unfold described. destruct r; intros w Hw; exact Hw. Qed.
Lemma preserves_read {A} (I : TxState -> Prop) (f : TxState -> A) : preserves I (read_state f).
Proof. by intros w Hw. Qed.
Lemma preserves_ask (I : TxState -> Prop) what : preserves I (ask_blockhash what).
Proof. intros w Hw. unfold ask_blockhash, described. by destruct (latest_blockhash _). Qed.
Lemma preserves_send (I : TxState -> Prop) t : preserves I (send_tx t).
Proof. by intros w Hw. Qed.
Lemma get_kept h : preserves (remembers h) get_connection.
Proof. by intros w Hw. Qed.
Lemma return_kept h : preserves (remembers h) return_connection.
Proof. by intros w Hw. Qed.
Lemma validate_kept (I : TxState -> Prop) t : preserves I (validate_transaction t).
Proof. unfold validate_transaction. repeat case_match; auto using preserves_fail, preserves_ret. Qed.
#[local] Hint Resolve get_kept return_kept validate_kept preserves_described preserves_read preserves_ask preserves_send : gateway.

Lemma recent_kept h : preserves (remembers h) get_recent_blockhash.
Proof.
  intros w Hw. unfold remembers in Hw. unfold get_recent_blockhash, mbind, M_bind, read_state. by rewrite Hw.
Qed.

Lemma retry_kept h fuel attempts t : preserves (remembers h) (retry_loop fresh random fuel attempts t).
Proof.
  revert attempts t. induction fuel as [|fuel IH]; intros attempts t; [by intros w|]. cbn [retry_loop].
  repeat (apply preserves_bind; [auto with gateway|intros]).
  case_match; [apply preserves_ret|]. case_match; [apply preserves_fail|].
  apply preserves_bind; [apply preserves_emit|auto].
Qed.

(** Once the blockhash was read, every later transaction is first signed for the same one. *)
Theorem blockhash_kept h t : preserves (remembers h) (submit_transaction fresh random t).
Proof.
  unfold submit_transaction, sign_transaction.
  do 5 (apply preserves_bind; [auto using recent_kept with gateway|intros]). apply retry_kept.
Qed.

(** *** Polling *)

Definition poll_answer (r : res failure TransactionStatus) : Prop :=
  match r with
  | Ok (StPending | StFinalized | StFailed _) | Err (FMsg _) => True
  | _ => False
  end.

Lemma status_answered signature w r w' : get_transaction_status signature w = (r, w') ->
  match r with Ok _ | Err (FMsg _) => True | _ => False end.
Proof.
  unfold get_transaction_status, mbind, M_bind, status_of_signature, described. cbn.
  destruct (signature_status _ _); cbn; by intros [= <- <-].
Qed.

Lemma poll_loop_ends elapsed signature timeout interval fuel turn w r w' :
  0 < interval -> (forall n, Z.of_nat n * interval <= elapsed n) ->
  timeout * 1000 / interval + 1 < Z.of_nat (turn + fuel) -> (0 < fuel)%nat ->
  poll_loop fuel elapsed turn signature timeout interval w = (r, w') -> poll_answer r.
Proof.
  intros Hi He. revert turn w. induction fuel as [|fuel IH]; intros turn w Hend Hpos; [lia|]. cbn [poll_loop].
  case_match eqn:Et; [by intros [= <- <-]|]. apply Z.leb_gt in Et.
  unfold mbind, M_bind. destruct (get_transaction_status signature w) as [x w1] eqn:Es.
  apply status_answered in Es. destruct x as [s|[]]; try done; [|by intros [= <- <-]].
  destruct (final_status s) eqn:Ef.
  - intros [= <- <-]. destruct s; simplify_eq/=; try case_match; by simplify_eq/=.
  - cbn. apply IH; [lia|]. specialize (He turn).
    assert (Z.of_nat turn <= timeout * 1000 / interval) by (apply Z.div_le_lower_bound; lia). lia.
Qed.

(** When every turn takes at least the interval, the polling ends: with the transaction finalized
    or failed, with an error, or still pending. *)
Theorem polling_ends elapsed signature timeout interval fuel w :
  0 < interval -> (forall n, Z.of_nat n * interval <= elapsed n) ->
  Z.max 0 (timeout * 1000 / interval + 1) < Z.of_nat fuel ->
  poll_answer (poll_loop fuel elapsed 0 signature timeout interval w).1.
Proof.
  intros Hi He Hf. destruct (poll_loop _ _ _ _ _ _ w) as [r w'] eqn:E.
  eapply poll_loop_ends; [done|done| | |exact E]; lia.
Qed.
End sending.

(** ** A concrete chain *)

Section demo.
#[local] Existing Instance demo_sdk.
#[local] Existing Instance no_env.

#[local] Instance payer_file : KeyFiles := {|
  path_exists _ := true;
  read_to_string p := if (p =? "/app/payer.json")%string then Ok "payer" else Err "No such file";
  parse_byte_array _ := Ok (repeat Byte.x01 64);
  bs58_decode _ := Err "no key";
  keypair_from_secret l := {| kp_pubkey := "payer"; kp_bytes := l |};
  debug_path p := p |}.

Definition payer_key : Pubkey := key_of_bytes (repeat Byte.x01 32).

Definition demo_try_sign (keys : list Pubkey) (h : Hash) (t : Transaction) : res string Transaction :=
  let t' := {| t_message := with_blockhash h (t_message t);
               t_signatures := signatures_after keys h t |} in
  if bool_decide (Forall (fun k => k ∈ required (t_message t)) keys
                  /\ Forall (fun r => r ∈ (t_signatures t').*1) (required (t_message t)))
  then Ok t' else Err "keypair-pubkey mismatch".

(** The node confirms what is signed and has a new blockhash each time. *)
#[local] Instance demo_rpc : Rpc.
Proof.
  refine {|
    latest_blockhash l := Ok (N.of_nat (S (length l)));
    send_and_confirm l t :=
      if bool_decide (Forall (fun r => (r, t_message t) ∈ t_signatures t) (required (t_message t)))
      then Ok "sig" else Err "signature verification failed";
    signature_status _ _ := Ok (Some (Err "custom program error"));
    account_data _ _ := Ok (repeat Byte.x00 44);
    try_sign := demo_try_sign;
    signature_of_text s := if (String.length s =? 64)%nat then Ok s else Err "wrong size";
    key_text k := String.string_of_list_byte (vec_to_list k);
    secret_key := key_of_bytes |}.
  - intros keys h t t'. unfold demo_try_sign. case_bool_decide as Hd; split.
    + intros [= <-]. tauto.
    + by intros (_ & -> & _).
    + done.
    + intros (Hk & -> & Hr). by destruct Hd.
  - intros l t s. case_bool_decide; [done|discriminate].
  - intros k. rewrite <- text_bytes_length. unfold text_bytes.
    rewrite String.list_byte_of_string_of_list_byte, length_vec_to_list. by eexists.
Defined.

Definition demo_fresh (n : nat) : Pubkey := key_of_bytes (repeat Byte.x02 n).
Definition quiet_chain : world TxState TxEvent :=
  World {| recent_blockhash := None; idle_connections := 0 |} [] [].

(** The gateway's own market is initialized. *)
Definition market_request : BuilderRequest := InitializeMarket payer_key.
Definition market_instruction : Instruction :=
  match instruction_builder payer_key market_request with
  | Ok i => i
  | Err _ => {| i_program_id := payer_key; i_accounts := []; i_data := [] |}
  end.

Lemma fresh_differ : demo_fresh 0%nat <> demo_fresh 1%nat.
Proof. eapply bool_decide_unpack. vm_compute. exact I. Qed.

Definition demo_transaction : Transaction := new_with_payer [market_instruction] payer_key.
Definition demo_sent : world TxState TxEvent :=
  snd (submit_transaction demo_fresh (fun _ => 0) demo_transaction quiet_chain).

Lemma submit_needs_payer_witness : sends (trace demo_sent) = 1%nat
  /\ exists l, trace demo_sent = [] ++ l /\ forall t' ok, TSend t' ok ∈ l ->
      (exists h, t_message t' = with_blockhash h (t_message demo_transaction))
      /\ exists k, configured_payer = Some k /\ Forall (fun r => r = k) (required (t_message t')).
Proof.
  split; [vm_compute; reflexivity|].
  eapply (proj1 (submit_needs_payer demo_fresh (fun _ => 0)) demo_transaction quiet_chain);
    [apply fresh_differ|reflexivity|apply surjective_pairing].
Defined.

Lemma request_needs_payer_witness : exists w',
  send_request demo_fresh (fun _ => 0) payer_key payer_key market_request quiet_chain = (Ok "sig", w')
  /\ exists k, configured_payer = Some k /\ payer_key = k
     /\ Forall (fun x => x = k) (request_signers payer_key market_request).
Proof.
  eexists. split; [vm_compute; reflexivity|].
  eapply (request_needs_payer demo_fresh (fun _ => 0) payer_key payer_key market_request quiet_chain "sig");
    [apply fresh_differ|vm_compute; reflexivity].
Defined.

Lemma presigned_needs_blockhash_witness : exists s w',
  build_and_send_transaction demo_fresh (fun _ => 0) [market_instruction] [payer_key] quiet_chain = (Ok s, w')
  /\ exists t', TSend t' true ∈ trace w' /\ m_instructions (t_message t') = [market_instruction].
Proof.
  eexists _, _. split; [vm_compute; reflexivity|].
  edestruct (presigned_needs_blockhash demo_fresh (fun _ => 0) [market_instruction] [payer_key] quiet_chain)
    as (t' & Hin & Hi & _); [vm_compute; reflexivity|]. by exists t'.
Defined.

Lemma submit_bounded_witness : exists r w',
  submit_with_retry demo_fresh (fun _ => 0) (new_with_payer [market_instruction] payer_key) quiet_chain = (r, w')
  /\ r <> Err FPanic.
Proof.
  eexists _, _. split; [vm_compute; reflexivity|].
  eapply (submit_bounded demo_fresh (fun _ => 0) (new_with_payer [market_instruction] payer_key) quiet_chain).
  vm_compute. reflexivity.
Defined.

Definition demo_signature : string :=
  "1111111111111111111111111111111111111111111111111111111111111111".

Lemma failed_confirmed_witness :
  (rpc_confirm demo_signature quiet_chain).1 = Ok true
  /\ (get_transaction_status demo_signature quiet_chain).1 = Ok (StFailed "custom program error").
Proof. apply (failed_confirmed demo_signature demo_signature); reflexivity. Defined.

Lemma polling_ends_witness :
  poll_answer (poll_loop 32 (fun n => Z.of_nat n * 1000) 0 demo_signature 30 1000 quiet_chain).1.
Proof. apply (polling_ends (fun n => Z.of_nat n * 1000)); [done|done|reflexivity]. Defined.
End demo.
