(* ===== verification/RefundQueue.v ===== *)
(** The retry queue of chain tasks: [src/services/blockchain_task/mod.rs], with the INSERT of
    [src/services/market_clearing/orders.rs] and the worker of [src/startup.rs].

    A refund that failed on the chain is stored as a task; every ten seconds the worker reads up
    to ten due tasks and runs them one after the other.  The tables are those of [Schema.v] and
    [blockchain_tasks], whose rows are kept here with all their columns ([qd_tasks]; the
    [refund_tasks] of [Schema.v] only list what the clearing service queued).  Identifiers and the times of the statements are arguments.  The JSON of
    a payload is an interface: a [Decimal] goes through a double on its way (the feature
    [serde-float] of [rust_decimal]). *)
From S2P Require Import Prelude Numerics Errors Store Schema Crypto OnChain.
Open Scope string_scope.
Open Scope Z_scope.
Open Scope list_scope.

Inductive BlockchainTaskType := TaskEscrowRefund | TaskSettlement | TaskMinting.
Inductive TaskStatus := TaskPending | TaskProcessing | TaskCompleted | TaskFailed | TaskMaxRetries.
#[global] Instance BlockchainTaskType_eq_dec : EqDecision BlockchainTaskType.
Proof. solve_decision. Defined.
#[global] Instance TaskStatus_eq_dec : EqDecision TaskStatus.
Proof. solve_decision. Defined.

Record EscrowRefundPayload := {
  ep_user_id : Uuid;
  ep_amount : Decimal;
  ep_asset_type : string;
  ep_order_id : Uuid;
}.
Inductive TaskPayload := PayloadEscrowRefund (data : EscrowRefundPayload).

Record Task := {
  tk_type : BlockchainTaskType;
  tk_payload : string;
  tk_status : TaskStatus;
  tk_retry_count : Z;
  tk_max_retries : Z;
  tk_last_error : option string;
  tk_next_retry_at : option DateTime;
}.

Record QueueDb := { qd_db : Db; qd_tasks : gmap Uuid Task }.
Abbreviation QM := (M QueueDb Event).

Definition set_qd_db (c : Db) (d : QueueDb) : QueueDb :=
  {| qd_db := c; qd_tasks := qd_tasks d |}.
Definition set_qd_tasks (t : gmap Uuid Task) (d : QueueDb) : QueueDb :=
  {| qd_db := qd_db d; qd_tasks := t |}.

(** [serde_json::to_value] and [from_value].  The amount becomes the nearest double and back:
    with at most fifteen digits it stays what it was. *)
Class TaskJson := {
  payload_json : TaskPayload -> string;
  payload_of_json : string -> res string TaskPayload;
  json_amount : Decimal -> Decimal;
  payload_roundtrip p : payload_of_json (payload_json (PayloadEscrowRefund p))
    = Ok (PayloadEscrowRefund {| ep_user_id := ep_user_id p; ep_amount := json_amount (ep_amount p);
                                 ep_asset_type := ep_asset_type p; ep_order_id := ep_order_id p |});
  json_amount_short s z : 0 <= s <= 28 -> on_grid s z -> Z.abs z < 10 ^ 15 * 10 ^ (28 - s) ->
    json_amount z = z;
}.

Section queue.
Context `{NUM : Numerics} `{ENV : Env} `{TC : TokenChain} `{TJ : TaskJson}.
Variable real : bool.

Definition insert_task (id : Uuid) (t : Task) (d : QueueDb) : option QueueDb :=
  match qd_tasks d !! id with
  | Some _ => None
  | None => Some (set_qd_tasks (<[id := t]> (qd_tasks d)) d)
  end.

Definition queue_task (now : DateTime) (id : Uuid) (task_type : BlockchainTaskType)
    (payload : TaskPayload) : QM Uuid :=
  exec (insert_task id
    {| tk_type := task_type; tk_payload := payload_json payload; tk_status := TaskPending;
       tk_retry_count := 0; tk_max_retries := 5; tk_last_error := None;
       tk_next_retry_at := Some now |}) ;;
  mret id.

(** ** The worker *)

Definition task_due (now : DateTime) (t : Task) : bool :=
  bool_decide (tk_status t = TaskPending \/ tk_status t = TaskFailed)
  && match tk_next_retry_at t with Some at_ => at_ <=? now | None => false end
  && (tk_retry_count t <? tk_max_retries t).

(** [ORDER BY next_retry_at ASC LIMIT 10]; the locks of FOR UPDATE end with the statement. *)
Definition due_tasks (now : DateTime) (d : QueueDb) : list (Uuid * Task) :=
  take 10 (sort_by (fun a b => default 0 (tk_next_retry_at a.2) <=? default 0 (tk_next_retry_at b.2))
    (List.filter (fun x => task_due now x.2) (map_to_list (qd_tasks d)))).

Definition execute_task (task_type : BlockchainTaskType) (payload : TaskPayload) : QM unit :=
  match task_type, payload with
  | TaskEscrowRefund, PayloadEscrowRefund data =>
      zoom qd_db set_qd_db
        (execute_escrow_refund_retry real (ep_user_id data) (ep_amount data) (ep_asset_type data)) ;;
      mret ()
  | _, _ => fail (FMsg "Unsupported task type or payload mismatch")
  end.

Definition update_task (id : Uuid) (f : Task -> option Task) (d : QueueDb) : option QueueDb :=
  match qd_tasks d !! id with
  | None => Some d
  | Some t => t' ← f t; Some (set_qd_tasks (<[id := t']> (qd_tasks d)) d)
  end.

Definition completed_task (t : Task) : Task :=
  {| tk_type := tk_type t; tk_payload := tk_payload t; tk_status := TaskCompleted;
     tk_retry_count := tk_retry_count t; tk_max_retries := tk_max_retries t;
     tk_last_error := tk_last_error t; tk_next_retry_at := tk_next_retry_at t |}.

Definition mark_as_completed (id : Uuid) : QM unit :=
  exec (update_task id (fun t => Some (completed_task t))).

Definition seconds : Z := 1000000000.

(** [POWER(5, retry_count) * INTERVAL '1 second'] is out of range from the nineteenth on. *)
Definition failed_task (now : DateTime) (error : string) (t : Task) : option Task :=
  if 18 <? tk_retry_count t then None
  else Some
  {| tk_type := tk_type t; tk_payload := tk_payload t;
     tk_status := if tk_max_retries t <=? tk_retry_count t + 1 then TaskMaxRetries else TaskFailed;
     tk_retry_count := tk_retry_count t + 1; tk_max_retries := tk_max_retries t;
     tk_last_error := Some error;
     tk_next_retry_at := Some (now + 5 ^ tk_retry_count t * seconds) |}.

Definition hopeless_task (error : string) (t : Task) : Task :=
  {| tk_type := tk_type t; tk_payload := tk_payload t; tk_status := TaskMaxRetries;
     tk_retry_count := tk_retry_count t; tk_max_retries := tk_max_retries t;
     tk_last_error := Some error; tk_next_retry_at := tk_next_retry_at t |}.

Definition mark_as_failed (now : DateTime) (id : Uuid) (error : string) (valid_for_retry : bool)
    : QM unit :=
  if valid_for_retry then exec (update_task id (failed_task now error))
  else exec (update_task id (fun t => Some (hopeless_task error t))).

Definition task_error_text (e : failure) : string :=
  match e with FDb => db_error_text | FApi a => display a | FMsg m => m | FPanic => "" end.

(** One turn of the loop over the rows that were read. *)
Definition run_task (now : DateTime) (x : Uuid * Task) : QM unit :=
  match payload_of_json (tk_payload x.2) with
  | Err e => mark_as_failed now x.1 e false
  | Ok payload =>
      r ← attempt (execute_task (tk_type x.2) payload);
      match r with
      | Ok _ => mark_as_completed x.1
      | Err e => mark_as_failed now x.1 (task_error_text e) true
      end
  end.

Definition run_batch (clock : Uuid -> DateTime) (tasks : list (Uuid * Task)) : QM unit :=
  for_each (fun x => run_task (clock x.1) x) tasks.

Definition process_pending_tasks (now : DateTime) (clock : Uuid -> DateTime) : QM unit :=
  tasks ← query (due_tasks now);
  run_batch clock tasks.

(** The worker of [startup.rs]: an error is logged and the next turn comes ten seconds later. *)
Fixpoint worker (polls : list (DateTime * (Uuid -> DateTime))) : QM unit :=
  match polls with
  | [] => mret ()
  | (now, clock) :: polls => ignore (process_pending_tasks now clock) ;; worker polls
  end.
End queue.

(** ** One payment *)

Section payment.
Context `{NUM : Numerics} `{ENV : Env} `{TC : TokenChain} `{TJ : TaskJson}.

Lemma log_call_calm {A} (answer : list Event -> res string A) event : stays_calm (log_call answer event).
Proof. intros w Hw. unfold log_call. by destruct (answer _). Qed.
Lemma text_res_calm {A} (r : res string A) : stays_calm (text_res r).
Proof. destruct r; [apply calm_ret|apply calm_fail]. Qed.

Lemma pay_calm kind e1 e2 user amount asset : stays_calm (pay_from_escrow kind e1 e2 user amount asset).
Proof.
  unfold pay_from_escrow. do 2 (apply calm_bind; [auto with calm|intros]). destruct a0; [|auto with calm].
  repeat (apply calm_bind; [auto using text_res_calm with calm; apply log_call_calm|intros]).
  apply log_call_calm.
Qed.

Lemma pay_no_panic kind e1 e2 user amount asset : no_panic (pay_from_escrow kind e1 e2 user amount asset).
Proof.
  assert (L : forall A (answer : list Event -> res string A) event, no_panic (log_call answer event))
    by (intros A answer event w; unfold log_call; by destruct (answer _)).
  assert (T : forall A (r : res string A), no_panic (text_res r)) by (intros A [] w; done).
  unfold pay_from_escrow. apply no_panic_bind; [apply no_panic_query|intros row].
  apply no_panic_bind; [by apply no_panic_expect|intros [wallet|]]; [|by apply no_panic_fail].
  repeat (apply no_panic_bind; [apply T || apply L|intros ?]). apply L.
Qed.

Lemma set_qd_db_same d : set_qd_db (qd_db d) d = d.
Proof. by destruct d. Qed.

(** The calls of a refund that is made, in order: the gateway's authority, the account of the wallet
    stored for the user, and the transfer to it, confirmed. *)
Definition refund_made (data : EscrowRefundPayload) (d : Db) (l : list Event) : Prop :=
  exists l' mv, l = l' ++ [EvOnChain (OMove mv true)]
    /\ pays MRefund (ep_user_id data) (ep_amount data) (ep_asset_type data) d l' mv.

Lemma refund_made_moves data d l : refund_made data d l -> exists mv, moves l = [mv] /\ asked_moves l = [mv].
Proof.
  intros (l' & mv & -> & u & wallet & au & ac & _ & _ & _ & -> & _). by exists mv.
Qed.

(** A refund inside the queue's tables: it is made or fails, and changes no table; in mock mode it
    asks for nothing and succeeds. *)
Lemma execute_task_effect real task_type payload w :
  match execute_task real task_type payload w with
  | (Ok _, w') => st w' = st w /\ (faults w = [] -> faults w' = [])
      /\ exists l data, payload = PayloadEscrowRefund data /\ trace w' = trace w ++ l
         /\ if real then refund_made data (qd_db (st w)) l else l = []
  | (Err e, w') => st w' = st w /\ (faults w = [] -> faults w' = []) /\ e <> FPanic
      /\ exists l, trace w' = trace w ++ l /\ moves l = []
         /\ (length (asked_moves l) <= if real then 1 else 0)%nat
  end.
Proof.
  destruct task_type, payload as [data]; cbn [execute_task];
    try (split_and!; [done..|]; exists []; rewrite app_nil_r; split_and!; [done..|simpl; lia]).
  unfold execute_escrow_refund_retry, execute_escrow_refund. destruct real; cbn [negb].
  2: { unfold mbind, M_bind, zoom. cbn. rewrite set_qd_db_same. split_and!; [done..|].
       exists [], data. by rewrite app_nil_r. }
  unfold mbind, M_bind, zoom.
  set (w0 := World (qd_db (st w)) (faults w) (trace w)).
  match goal with |- context [pay_from_escrow ?k ?a ?b ?u ?v ?t w0] =>
    pose proof (pay_from_escrow_outcome k a b u v t w0) as Ho;
    pose proof (pay_calm k a b u v t w0) as Hc;
    pose proof (pay_no_panic k a b u v t w0) as Hn;
    destruct (pay_from_escrow k a b u v t w0) as [[x|e] w1] end; cbn [fst snd] in *;
    destruct Ho as [Hs (l & Hl & Ho)]; cbn; rewrite Hs; (split; [apply set_qd_db_same|]).
  - destruct Ho as [[_ ?]|(mv & l' & -> & _ & Hp)]; [done|]. split; [exact Hc|].
    exists (l' ++ [EvOnChain (OMove mv true)]), data. split_and!; [done..|]. by exists l', mv.
  - split; [exact Hc|]. split; [congruence|]. exists l. split; [done|].
    destruct Ho as [[Ho _]|(mv & l' & -> & Hm & _)].
    + split; [by apply moves_asked|]. rewrite Ho. simpl. lia.
    + rewrite moves_app, asked_moves_app, (moves_asked _ Hm), Hm. split; [done|simpl; lia].
Qed.

(** ** One task *)

Definition same_task (t t' : Task) : Prop :=
  tk_type t' = tk_type t /\ tk_payload t' = tk_payload t /\ tk_max_retries t' = tk_max_retries t
  /\ tk_retry_count t <= tk_retry_count t'.

Definition is_completed (t : Task) : bool := bool_decide (tk_status t = TaskCompleted).

(** [d'] is [d] with the row [id] rewritten by [f], or [d] itself. *)
Definition rewritten (id : Uuid) (f : Task -> option Task) (d d' : QueueDb) : Prop :=
  d' = d \/ exists t t', qd_tasks d !! id = Some t /\ f t = Some t'
             /\ d' = set_qd_tasks (<[id := t']> (qd_tasks d)) d.

Lemma mark_effect id f (w : world QueueDb Event) :
  let w' := (exec (update_task id f) w).2 in
  trace w' = trace w /\ rewritten id f (st w) (st w')
  /\ (faults w = [] -> faults w' = []
      /\ forall t t', qd_tasks (st w) !! id = Some t -> f t = Some t' ->
           st w' = set_qd_tasks (<[id := t']> (qd_tasks (st w))) (st w)).
Proof.
  assert (Hu : forall d d', update_task id f d = Some d' -> rewritten id f d d').
  { intros d d' E. unfold update_task in E. destruct (qd_tasks d !! id) as [t|] eqn:Et; [|left; congruence].
    destruct (f t) as [t'|] eqn:Ef; [|done]. injection E as <-. right. by exists t, t'. }
  unfold exec, pop_fault. destruct w as [d [|[] fs] tr]; cbn.
  - destruct (update_task id f d) as [d'|] eqn:E; cbn; (split_and!; [done| |]).
    + by apply Hu.
    + intros _. split; [done|]. intros t t' Ht Hf. unfold update_task in E. rewrite Ht in E. cbn in E.
      rewrite Hf in E. by injection E as <-.
    + by left.
    + intros _. split; [done|]. intros t t' Ht Hf. unfold update_task in E. rewrite Ht in E. cbn in E.
      by rewrite Hf in E.
  - split_and!; [done|by left|done].
  - destruct (update_task id f d) as [d'|] eqn:E; cbn; (split_and!; [done| |done]); [by apply Hu|by left].
Qed.

(** What a turn did beside rewriting its row: completed its task, after a refund was made (in mock
    mode after nothing); recorded a failed attempt, which asked for at most one transfer; or gave up a
    task that it could not read. *)
Inductive turn_did (real : bool) (w : world QueueDb Event) : list Event -> (Task -> option Task) -> Prop :=
| did_complete data l : (if real then refund_made data (qd_db (st w)) l else l = []) ->
    turn_did real w l (fun t => Some (completed_task t))
| did_fail l at_ e : moves l = [] -> (length (asked_moves l) <= if real then 1 else 0)%nat ->
    turn_did real w l (failed_task at_ e)
| did_give_up e : turn_did real w [] (fun t => Some (hopeless_task e t)).

Lemma failed_task_same at_ e t t' : failed_task at_ e t = Some t' ->
  same_task t t' /\ is_completed t' = false /\ tk_retry_count t' = tk_retry_count t + 1.
Proof.
  unfold failed_task. destruct (18 <? _); [done|]. intros [= <-].
  unfold same_task, is_completed. cbn. split_and!; try done; try lia. by case_match.
Qed.

Lemma turn_did_same real w l f t t' : turn_did real w l f -> f t = Some t' -> same_task t t'.
Proof.
  intros [data l' _|l' at_ e _ _|e]; [intros [= <-]|by intros [? _]%failed_task_same|intros [= <-]];
    unfold same_task; cbn; split_and!; done || lia.
Qed.

(** A turn rewrites nothing but its own row. *)
Lemma run_task_cases real now x w :
  let w' := (run_task real now x w).2 in
  exists l f, trace w' = trace w ++ l /\ rewritten x.1 f (st w) (st w') /\ turn_did real w l f
    /\ (faults w = [] -> faults w' = []
        /\ forall t t', qd_tasks (st w) !! x.1 = Some t -> f t = Some t' ->
             st w' = set_qd_tasks (<[x.1 := t']> (qd_tasks (st w))) (st w)).
Proof.
  unfold run_task. destruct (payload_of_json _) as [p|e].
  - unfold attempt, mbind, M_bind. pose proof (execute_task_effect real (tk_type x.2) p w) as He.
    destruct (execute_task real (tk_type x.2) p w) as [[[]|e] w1].
    + destruct He as (Hs & Hc & l & data & _ & Hl & Hm).
      destruct (mark_effect x.1 (fun t => Some (completed_task t)) w1) as (Ht & Hr & Hcalm).
      exists l, (fun t => Some (completed_task t)). unfold mark_as_completed. rewrite Ht, Hl. rewrite Hs in Hr, Hcalm.
      split_and!; [done|done|by apply (did_complete _ _ data)|]. intros Hw. by apply Hcalm, Hc.
    + destruct He as (Hs & Hc & Hp & l & Hl & Hm & Ha).
      assert (Hgo : forall text, let w2 := (mark_as_failed now x.1 text true w1).2 in
        exists l f, trace w2 = trace w ++ l /\ rewritten x.1 f (st w) (st w2) /\ turn_did real w l f
          /\ (faults w = [] -> faults w2 = []
              /\ forall t t', qd_tasks (st w) !! x.1 = Some t -> f t = Some t' ->
                   st w2 = set_qd_tasks (<[x.1 := t']> (qd_tasks (st w))) (st w))).
      { intros text. cbn [mark_as_failed].
        destruct (mark_effect x.1 (failed_task now text) w1) as (Ht & Hr & Hcalm). rewrite Hs in Hr, Hcalm.
        exists l, (failed_task now text). rewrite Ht, Hl.
        split_and!; [done|done|by apply did_fail|]. intros Hw. by apply Hcalm, Hc. }
      destruct e as [|a|m|]; [apply Hgo..|done].
  - destruct (mark_effect x.1 (fun t => Some (hopeless_task e t)) w) as (Ht & Hr & Hcalm).
    exists [], (fun t => Some (hopeless_task e t)). unfold mark_as_failed. rewrite Ht, app_nil_r.
    split_and!; [done|done|apply did_give_up|exact Hcalm].
Qed.

(** ** The worker over time *)

Definition finished (t : Task) : Prop := tk_status t = TaskCompleted \/ tk_status t = TaskMaxRetries.

(** No row comes or goes, what was asked stays, and outside [ids] nothing changes at all. *)
Definition only_touches (ids : list Uuid) (d d' : QueueDb) : Prop :=
  qd_db d' = qd_db d /\ forall id,
    match qd_tasks d !! id, qd_tasks d' !! id with
    | Some t, Some t' => same_task t t' /\ (id ∉ ids -> t' = t)
    | None, None => True
    | _, _ => False
    end.

Lemma same_task_refl t : same_task t t.
Proof. unfold same_task. split_and!; done || lia. Qed.
Lemma same_task_trans t t' t'' : same_task t t' -> same_task t' t'' -> same_task t t''.
Proof. unfold same_task. intros (? & ? & ? & ?) (? & ? & ? & ?). split_and!; try congruence. lia. Qed.

Lemma only_touches_refl ids d : only_touches ids d d.
Proof. split; [done|]. intros id. case_match; [|done]. split; [apply same_task_refl|done]. Qed.

Lemma only_touches_rewritten ids d d' d'' id f :
  (forall t t', f t = Some t' -> same_task t t') -> id ∈ ids ->
  only_touches ids d d' -> rewritten id f d' d'' -> only_touches ids d d''.
Proof.
  intros Hf Hid [Hc H] [->|(t & t' & Ht & Hft & ->)]; [done|]. split; [done|]. intros j. cbn.
  specialize (H j). destruct (decide (j = id)) as [->|Hj].
  - rewrite lookup_insert_eq. rewrite Ht in H. destruct (qd_tasks d !! id); [|done].
    destruct H as [H _]. split; [|done]. eapply same_task_trans; [exact H|by apply Hf].
  - by rewrite lookup_insert_ne by done.
Qed.

Lemma batch_touches real clock rows ids d : rows.*1 ⊆ ids ->
  preserves (only_touches ids d) (run_batch real clock rows).
Proof.
  unfold run_batch. intros Hids. induction rows as [|x rows IH]; [apply preserves_ret|]. cbn [for_each].
  cbn in Hids. apply preserves_bind; [|intros _; apply IH; intros j Hj; apply Hids; by right].
  intros w Hw. destruct (run_task_cases real (clock x.1) x w) as (l & f & _ & Hr & Hf & _).
  eapply only_touches_rewritten; [intros t t'; by eapply turn_did_same| |exact Hw|exact Hr]. apply Hids. by left.
Qed.

Lemma due_tasks_spec now d x : x ∈ due_tasks now d ->
  qd_tasks d !! x.1 = Some x.2 /\ task_due now x.2 = true.
Proof.
  unfold due_tasks. intros Hx%elem_of_take. destruct Hx as (i & Hi & _). apply list_elem_of_lookup_2 in Hi.
  rewrite sort_by_perm in Hi. apply list_elem_of_In, filter_In in Hi as [Hi Hd].
  apply list_elem_of_In in Hi. destruct x as [id t]. by apply elem_of_map_to_list in Hi.
Qed.

Lemma due_tasks_NoDup now d : NoDup (due_tasks now d).*1.
Proof.
  unfold due_tasks. rewrite fmap_take.
  eapply sublist_NoDup; [|apply sublist_take]. rewrite sort_by_perm. apply NoDup_fmap_filter.
  apply NoDup_fst_map_to_list.
Qed.

(** Over any time and any failures nothing happens to a task that is completed or given up. *)
Definition tasks_evolve (d d' : QueueDb) : Prop :=
  qd_db d' = qd_db d /\ forall id,
    match qd_tasks d !! id, qd_tasks d' !! id with
    | Some t, Some t' => same_task t t' /\ (finished t -> t' = t)
    | None, None => True
    | _, _ => False
    end.

Lemma tasks_evolve_refl d : tasks_evolve d d.
Proof. split; [done|]. intros id. case_match; [|done]. split; [apply same_task_refl|done]. Qed.

Lemma tasks_evolve_trans d d' d'' : tasks_evolve d d' -> tasks_evolve d' d'' -> tasks_evolve d d''.
Proof.
  intros [Hc H] [Hc' H']. split; [congruence|]. intros id. specialize (H id). specialize (H' id).
  destruct (qd_tasks d !! id), (qd_tasks d' !! id), (qd_tasks d'' !! id); try done.
  destruct H as [Hs Hf], H' as [Hs' Hf']. split; [by eapply same_task_trans|].
  intros Ht. pose proof (Hf Ht) as ->. auto.
Qed.

Lemma poll_evolves real now clock w : tasks_evolve (st w) (st (process_pending_tasks real now clock w).2).
Proof.
  unfold process_pending_tasks, mbind, M_bind.
  destruct (query (due_tasks now) w) as [[rows|e] w1] eqn:E.
  - apply query_Ok in E as (-> & Hs & _).
    assert (Hw : only_touches (due_tasks now (st w)).*1 (st w) (st w1)) by (rewrite Hs; apply only_touches_refl).
    apply (batch_touches real clock _ _ (st w) (reflexivity _)) in Hw. destruct Hw as [Hc H]. split; [done|].
    intros id. specialize (H id). destruct (qd_tasks (st w) !! id) as [t|] eqn:Et; [|done].
    case_match; [|done]. destruct H as [Hsame Hu]. split; [done|]. intros Hfin. apply Hu.
    intros (x & -> & [Hx Hd]%due_tasks_spec)%list_elem_of_fmap. rewrite Et in Hx. injection Hx as ->.
    unfold task_due in Hd. apply andb_prop in Hd as [[Hd _]%andb_prop _]. apply bool_decide_eq_true in Hd.
    destruct Hfin as [Hfin|Hfin]; rewrite Hfin in Hd; by destruct Hd.
  - assert (Hs : st w1 = st w).
    { unfold query, pop_fault in E. destruct w as [d [|[] fs] tr]; by simplify_eq/=. }
    cbn. rewrite Hs. apply tasks_evolve_refl.
Qed.

(** C13: Over any number of polls, whatever the database and the chain fail and in either mode, no
    task is lost or rewritten, and one that is completed or given up is never touched again. *)
Theorem worker_evolves real polls w : tasks_evolve (st w) (st (worker real polls w).2).
Proof.
  revert w. induction polls as [|[now clock] polls IH]; intros w; [apply tasks_evolve_refl|].
  cbn [worker]. unfold ignore, attempt, mbind, M_bind. pose proof (poll_evolves real now clock w) as H.
  destruct (process_pending_tasks real now clock w) as [[a|[]] w1]; cbn in *;
    try (eapply tasks_evolve_trans; [exact H|apply IH]). exact H.
Qed.

(** ** Payments and completed tasks *)

Definition completed_count (d : QueueDb) : Z :=
  sumZ (fun t => if is_completed t then 1 else 0) (map_to_list (qd_tasks d)).*2.

(** The transfers the chain confirmed, all that were asked for, and the failed attempts recorded. *)
Definition confirmed_count (w : world QueueDb Event) : Z := Z.of_nat (length (moves (trace w))).
Definition asked_count (w : world QueueDb Event) : Z := Z.of_nat (length (asked_moves (trace w))).
Definition attempts (d : QueueDb) : Z := sumZ tk_retry_count (map_to_list (qd_tasks d)).*2.

(** How the counts of two moments are related. *)
Definition accounted (real : bool) (w w' : world QueueDb Event) : Prop :=
  (if real then confirmed_count w' - completed_count (st w') = confirmed_count w - completed_count (st w)
   else asked_count w' = asked_count w)
  /\ asked_count w' - confirmed_count w' - attempts (st w')
     <= asked_count w - confirmed_count w - attempts (st w)
  /\ completed_count (st w) <= completed_count (st w').

Lemma accounted_refl real w : accounted real w w.
Proof. unfold accounted. destruct real; lia. Qed.
Lemma accounted_trans real w w' w'' : accounted real w w' -> accounted real w' w'' -> accounted real w w''.
Proof. unfold accounted. destruct real; lia. Qed.

Lemma completed_count_insert d id t t' : qd_tasks d !! id = Some t ->
  completed_count (set_qd_tasks (<[id := t']> (qd_tasks d)) d)
  = completed_count d - (if is_completed t then 1 else 0) + (if is_completed t' then 1 else 0).
Proof. intros Ht. unfold completed_count. cbn. rewrite sumZ_table_insert, Ht. done. Qed.

Lemma attempts_insert d id t t' : qd_tasks d !! id = Some t ->
  attempts (set_qd_tasks (<[id := t']> (qd_tasks d)) d)
  = attempts d - tk_retry_count t + tk_retry_count t'.
Proof. intros Ht. unfold attempts. cbn. rewrite sumZ_table_insert, Ht. done. Qed.

(** Every task may be tried at most nineteen times: [queue_task] gives it five tries. *)
Definition few_tries (d : QueueDb) : Prop := map_Forall (fun _ t => tk_max_retries t <= 19) (qd_tasks d).

Lemma run_task_accounts real now x w t : faults w = [] -> qd_tasks (st w) !! x.1 = Some t ->
  is_completed t = false -> tk_retry_count t <= 18 ->
  let w' := (run_task real now x w).2 in accounted real w w' /\ faults w' = []
  /\ (forall id, id <> x.1 -> qd_tasks (st w') !! id = qd_tasks (st w) !! id).
Proof.
  intros Hw Ht Hn Hle w'. destruct (run_task_cases real now x w) as (l & f & Hl & Hr & Hd & Hc).
  fold w' in Hl, Hr, Hc. destruct (Hc Hw) as [Hf Hup]. split_and!; [|done|].
  2: { intros id Hid. destruct Hr as [->|(t0 & t' & _ & _ & ->)]; [done|]. cbn. by rewrite lookup_insert_ne. }
  unfold accounted, confirmed_count, asked_count. rewrite Hl, moves_app, asked_moves_app, !length_app.
  destruct Hd as [data l Hm|l at_ e Hm Ha|e].
  - rewrite (Hup _ _ Ht eq_refl), (completed_count_insert _ _ t), (attempts_insert _ _ t), Hn by done.
    change (is_completed (completed_task t)) with true. change (tk_retry_count (completed_task t)) with (tk_retry_count t).
    destruct real; [|rewrite Hm; cbn; lia].
    apply refund_made_moves in Hm as (mv & -> & ->). cbn. lia.
  - destruct (failed_task at_ e t) as [t'|] eqn:Ef.
    2: { unfold failed_task in Ef. replace (18 <? tk_retry_count t) with false in Ef; [done|].
         symmetry. by apply Z.ltb_ge. }
    rewrite (Hup _ _ Ht Ef), (completed_count_insert _ _ t), (attempts_insert _ _ t), Hn by done.
    apply failed_task_same in Ef as (_ & -> & ->). rewrite Hm. cbn. destruct real; lia.
  - rewrite (Hup _ _ Ht eq_refl), (completed_count_insert _ _ t), (attempts_insert _ _ t), Hn by done.
    change (is_completed (hopeless_task e t)) with false.
    change (tk_retry_count (hopeless_task e t)) with (tk_retry_count t). cbn. destruct real; lia.
Qed.

Lemma batch_accounts real clock rows w : faults w = [] -> NoDup rows.*1 ->
  (forall x, x ∈ rows -> qd_tasks (st w) !! x.1 = Some x.2 /\ is_completed x.2 = false
                        /\ tk_retry_count x.2 <= 18) ->
  let w' := (run_batch real clock rows w).2 in accounted real w w' /\ faults w' = [].
Proof.
  unfold run_batch. revert w. induction rows as [|x rows IH]; intros w Hw Hnd Hrows;
    [split; [apply accounted_refl|done]|]. cbn [for_each].
  cbn in Hnd. apply list.NoDup_cons in Hnd as [Hx Hnd].
  destruct (Hrows x) as (Ht & Hn & Hle); [by left|].
  destruct (run_task_accounts real (clock x.1) x w _ Hw Ht Hn Hle) as (Hu & Hc & Hsame).
  unfold mbind, M_bind. destruct (run_task real (clock x.1) x w) as [[[]|e] w1]; cbn [snd] in *; [|done].
  destruct (IH w1 Hc Hnd) as [Hu' Hc'].
  { intros y Hy. rewrite Hsame; [apply Hrows; by right|].
    intros Heq. apply Hx. rewrite <- Heq. by apply list_elem_of_fmap_2. }
  split; [by eapply accounted_trans|done].
Qed.

(** C12: The worker's accounts, while the database does not fail, one worker runs and no task may be
    tried more than nineteen times, over any number of polls.  In real mode exactly as many transfers are
    confirmed as tasks become completed, and the transfers that were asked for and answered with an
    error, which may have landed all the same and are then made again, are at most as many as the failed
    attempts recorded in the tasks.  In mock mode no transfer is ever asked for, though tasks become
    completed. *)
Theorem payments_accounted real polls w : faults w = [] -> few_tries (st w) ->
  let w' := (worker real polls w).2 in
  (if real then confirmed_count w' - confirmed_count w = completed_count (st w') - completed_count (st w)
   else asked_count w' = asked_count w)
  /\ (asked_count w' - asked_count w) - (confirmed_count w' - confirmed_count w)
     <= attempts (st w') - attempts (st w)
  /\ completed_count (st w) <= completed_count (st w').
Proof.
  assert (Hpoll : forall now clock w, faults w = [] -> few_tries (st w) ->
    let w' := (process_pending_tasks real now clock w).2 in accounted real w w' /\ faults w' = []).
  { intros now clock w0 Hw Hfew. unfold process_pending_tasks, mbind, M_bind, query, pop_fault. rewrite Hw.
    apply batch_accounts; [done|apply due_tasks_NoDup|]. intros x [Hx Hd]%due_tasks_spec. split; [done|].
    unfold task_due in Hd. apply andb_prop in Hd as [[Hd _]%andb_prop Hlt]. apply bool_decide_eq_true in Hd.
    apply Z.ltb_lt in Hlt. specialize (Hfew _ _ Hx). cbn in Hfew.
    split; [|lia]. unfold is_completed. by destruct Hd as [-> | ->]. }
  assert (Hfews : forall d d', tasks_evolve d d' -> few_tries d -> few_tries d').
  { intros d d' [_ H] Hd id t Ht. specialize (H id). rewrite Ht in H.
    destruct (qd_tasks d !! id) as [t0|] eqn:E; [|done]. destruct H as [(_ & _ & -> & _) _]. by apply (Hd id). }
  enough (H : faults w = [] -> few_tries (st w) -> accounted real w (worker real polls w).2).
  { intros Hw Hfew w'. destruct (H Hw Hfew) as (H1 & H2 & H3). fold w' in H1, H2, H3.
    split_and!; [destruct real|..]; lia. }
  revert w. induction polls as [|[now clock] polls IH]; intros w Hw Hfew; [apply accounted_refl|].
  cbn [worker]. unfold ignore, attempt, mbind, M_bind. destruct (Hpoll now clock w Hw Hfew) as [Hu Hc].
  pose proof (poll_evolves real now clock w) as He.
  destruct (process_pending_tasks real now clock w) as [[a|[]] w1]; cbn in *; try done;
    (eapply accounted_trans; [exact Hu|apply IH; [done|by eapply Hfews]]).
Qed.

(** ** When the chain pays *)

(** A chain that accepts what it is asked. *)
Record willing : Prop := {
  accepts_address s : address_ok s = Ok tt;
  accepts_authority l : is_ok (authority_answer l) = true;
  accepts_ensure l wallet mint : is_ok (ensure_answer l wallet mint) = true;
  accepts_move l m : is_ok (move_answer l m) = true;
}.

Definition has_wallet (user : Uuid) (d : QueueDb) : Prop :=
  exists u wallet, users (qd_db d) !! user = Some u /\ u_wallet_address u = Some wallet.

Lemma log_call_willing {A} (answer : list Event -> res string A) event (w : world Db Event) :
  (forall l, is_ok (answer l) = true) -> exists a,
  log_call answer event w = (Ok a, World (st w) (faults w) (trace w ++ [EvOnChain (event (Ok a))])).
Proof. intros H. unfold log_call. specialize (H (trace w)). destruct (answer _) as [a|]; [by exists a|done]. Qed.

(** A refund takes one statement and is paid. *)
Lemma execute_task_willing data w : willing -> hd false (faults w) = false ->
  has_wallet (ep_user_id data) (st w) ->
  exists w', execute_task true TaskEscrowRefund (PayloadEscrowRefund data) w = (Ok tt, w')
    /\ faults w' = tl (faults w).
Proof.
  intros Hwill Hf (a & wallet & Ha & Hw). cbn [execute_task].
  unfold execute_escrow_refund_retry, execute_escrow_refund, pay_from_escrow. cbn [negb].
  unfold mbind, M_bind, zoom, query, pop_fault, expect, text_res. destruct w as [d fs tr]. cbn in Hf, Ha.
  assert (E : match fs with [] => (false, World (qd_db d) fs tr)
              | b :: f => (b, World (qd_db d) f tr) end = (false, World (qd_db d) (tl fs) tr))
    by (destruct fs as [|[] fs]; done).
  cbn [faults st trace]. destruct fs as [|[] fs]; [|done|]; cbn; rewrite Ha; cbn; rewrite Hw; cbn;
    rewrite !(accepts_address Hwill); cbn; unfold get_authority, ensure_token_account, move_tokens;
    match goal with |- context [log_call ?f ?e ?w0] =>
      destruct (log_call_willing f e w0 (accepts_authority Hwill)) as [owner ->] end; cbn;
    match goal with |- context [log_call ?f ?e ?w0] =>
      destruct (log_call_willing f e w0 (fun l => accepts_ensure Hwill l _ _)) as [account ->] end; cbn;
    match goal with |- context [log_call ?f ?e ?w0] =>
      destruct (log_call_willing f e w0 (fun l => accepts_move Hwill l _)) as [sig ->] end; cbn;
    by eexists.
Qed.

(** A task of the queue that can be paid. *)
Definition payable (x : Uuid * Task) (data : EscrowRefundPayload) (d : QueueDb) : Prop :=
  payload_of_json (tk_payload x.2) = Ok (PayloadEscrowRefund data)
  /\ tk_type x.2 = TaskEscrowRefund /\ has_wallet (ep_user_id data) d.

(** A turn over a row that was read pays, whatever became of the row since; then it is marked, if
    the statement does not fail. *)
Lemma run_task_pays now x data w : willing -> payable x data (st w) -> hd false (faults w) = false ->
  exists w1 l, trace w1 = trace w ++ l /\ refund_made data (qd_db (st w)) l
    /\ st w1 = st w /\ faults w1 = tl (faults w)
    /\ run_task true now x w = mark_as_completed x.1 w1.
Proof.
  intros Hwill (Hp & Ht & Hu) Hf. destruct (execute_task_willing data w Hwill Hf Hu) as (w1 & E & Hf1).
  pose proof (execute_task_effect true TaskEscrowRefund (PayloadEscrowRefund data) w) as He. rewrite E in He.
  destruct He as (Hs & _ & l & data' & [= <-] & Hl & Hm).
  exists w1, l. split_and!; [done..|]. unfold run_task. rewrite Hp, Ht. unfold attempt, mbind, M_bind. by rewrite E.
Qed.

Lemma has_wallet_tasks user d t : has_wallet user d -> has_wallet user (set_qd_tasks t d).
Proof. done. Qed.

(** C14: In real mode, when no other task is due at the poll, the database does not fail, the chain
    accepts what it is asked ([willing]) and the user has a wallet, a refund that was queued is paid at
    the next poll and its task is completed: the poll asks for the gateway's authority and for the token
    account of the user's stored wallet, then for one transfer to that account, of the amount that was
    queued, and nothing else.  The amount has at most fifteen digits: the payload keeps it as a double. *)
Theorem queued_refund_paid now later id data w w1 s :
  willing -> faults w = [] -> has_wallet (ep_user_id data) (st w) ->
  due_tasks later (st w) = [] -> now <= later ->
  0 <= s <= 28 -> on_grid s (ep_amount data) -> Z.abs (ep_amount data) < 10 ^ 15 * 10 ^ (28 - s) ->
  queue_task now id TaskEscrowRefund (PayloadEscrowRefund data) w = (Ok id, w1) ->
  exists w2 l, process_pending_tasks true later (fun _ => later) w1 = (Ok tt, w2)
    /\ trace w2 = trace w ++ l /\ refund_made data (qd_db (st w)) l
    /\ exists t, qd_tasks (st w2) !! id = Some t /\ tk_status t = TaskCompleted.
Proof.
  intros Hwill Hf Hu Hnone Hle Hs Hg Hb Hq.
  unfold queue_task in Hq. apply bind_Ok in Hq as ([] & w0 & He & Hq). injection Hq as <-.
  assert (Hf0 : faults w0 = []) 
    by (match type of He with exec ?f w = _ => pose proof (calm_exec f w Hf) as Hc; by rewrite He in Hc end).
  apply exec_Ok in He as [He Htr]. unfold insert_task in He.
  destruct (qd_tasks (st w) !! id) eqn:Eid; [done|]. injection He as Hst.
  match type of Hst with set_qd_tasks (<[_ := ?t]> _) _ = _ => set (task := t) in * end.
  assert (Hdue : due_tasks later (st w0) = [(id, task)]).
  { unfold due_tasks in Hnone |- *. rewrite <- Hst. cbn [qd_tasks set_qd_tasks].
    assert (Hnil : List.filter (fun x => task_due later x.2) (map_to_list (qd_tasks (st w))) = []).
    { destruct (List.filter _ _) as [|y l] eqn:El; [done|]. exfalso.
      assert (Hlen : length (take 10 (sort_by (fun a b : Uuid * Task =>
        default 0 (tk_next_retry_at a.2) <=? default 0 (tk_next_retry_at b.2)) (y :: l))) = 0%nat) by by rewrite Hnone.
      rewrite length_take, (Permutation_length (sort_by_perm _ _)) in Hlen. simpl in Hlen. lia. }
    assert (Hperm : List.filter (fun x => task_due later x.2) (map_to_list (<[id := task]> (qd_tasks (st w))))
                    ≡ₚ [(id, task)]).
    { rewrite (map_to_list_insert _ _ _ Eid). cbn. unfold task_due at 1. cbn.
      replace (now <=? later) with true by (symmetry; by apply Z.leb_le). cbn. by rewrite Hnil. }
    apply Permutation_singleton_r in Hperm. rewrite Hperm. reflexivity. }
  assert (Hpay : payable (id, task) data (st w0)).
  { unfold payable, task. cbn. split_and!; [|done|].
    - rewrite payload_roundtrip, (json_amount_short s); [by destruct data|done..].
    - rewrite <- Hst. by apply has_wallet_tasks. }
  destruct (run_task_pays later (id, task) data w0 Hwill Hpay) as (w2 & l & Hmv & Hr & Hst2 & Hf2 & Hrun);
    [by rewrite Hf0|].
  rewrite Hf0 in Hf2. cbn in Hf2.
  assert (Hmark : mark_as_completed id w2 = (Ok tt, set_st
    (set_qd_tasks (<[id := completed_task task]> (qd_tasks (st w0))) (st w0)) w2)).
  { unfold mark_as_completed, exec, pop_fault. rewrite Hf2, Hst2. unfold update_task.
    rewrite <- Hst at 1. cbn. by rewrite lookup_insert_eq. }
  eexists _, l. split_and!.
  - unfold process_pending_tasks, mbind, M_bind, query, pop_fault. rewrite Hf0, Hdue. unfold run_batch. cbn [for_each].
    unfold mbind, M_bind. rewrite Hrun. cbn [fst]. rewrite Hmark. reflexivity.
  - unfold set_st. cbn [trace]. by rewrite Hmv, Htr.
  - rewrite <- Hst in Hr. exact Hr.
  - cbn. exists (completed_task task). by rewrite lookup_insert_eq.
Qed.

(** ** What the lock does not prevent *)

Lemma mark_calm id (w : world QueueDb Event) : faults w = [] ->
  exists w', mark_as_completed id w = (Ok tt, w') /\ trace w' = trace w /\ faults w' = []
    /\ qd_db (st w') = qd_db (st w).
Proof.
  intros Hf. unfold mark_as_completed, exec, pop_fault. rewrite Hf. unfold update_task.
  destruct (qd_tasks (st w) !! id) as [t|]; cbn; by eexists.
Qed.

Lemma payable_chain x data d d' : qd_db d' = qd_db d -> payable x data d -> payable x data d'.
Proof. unfold payable, has_wallet. by intros ->. Qed.

(** A batch of one row pays, also when another worker has paid it since the row was read. *)
Lemma batch_pays clock x data w : willing -> payable x data (st w) -> faults w = [] ->
  exists w' l, run_batch true clock [x] w = (Ok tt, w') /\ trace w' = trace w ++ l
    /\ refund_made data (qd_db (st w)) l /\ faults w' = [] /\ qd_db (st w') = qd_db (st w).
Proof.
  intros Hwill Hp Hf.
  destruct (run_task_pays (clock x.1) x data w Hwill Hp) as (w1 & l & Hm & Hr & Hs & Hf1 & Hrun); [by rewrite Hf|].
  rewrite Hf in Hf1. destruct (mark_calm x.1 w1 Hf1) as (w2 & Hmark & Ht & Hf2 & Hc).
  exists w2, l. unfold run_batch. cbn [for_each]. unfold mbind, M_bind. rewrite Hrun, Hmark.
  split_and!; [done|by rewrite Ht|done|done|by rewrite Hc, Hs].
Qed.

(** Two workers: each reads its rows in a statement of its own and runs them afterwards. *)
Record duo := {
  du_world : world QueueDb Event;
  du_first : option (list (Uuid * Task));
  du_second : option (list (Uuid * Task));
}.

Inductive duo_step (now : DateTime) : duo -> duo -> Prop :=
| first_reads d rows w : du_first d = None -> query (due_tasks now) (du_world d) = (Ok rows, w) ->
    duo_step now d {| du_world := w; du_first := Some rows; du_second := du_second d |}
| second_reads d rows w : du_second d = None -> query (due_tasks now) (du_world d) = (Ok rows, w) ->
    duo_step now d {| du_world := w; du_first := du_first d; du_second := Some rows |}
| first_runs d rows : du_first d = Some rows ->
    duo_step now d {| du_world := (run_batch true (fun _ => now) rows (du_world d)).2;
                      du_first := None; du_second := du_second d |}
| second_runs d rows : du_second d = Some rows ->
    duo_step now d {| du_world := (run_batch true (fun _ => now) rows (du_world d)).2;
                      du_first := du_first d; du_second := None |}.

(** FOR UPDATE SKIP LOCKED outside a transaction reserves nothing: two workers that read the same
    due task before either of them marks it both pay it. *)
Theorem two_workers_pay_twice now w x data :
  willing -> faults w = [] -> due_tasks now (st w) = [x] -> payable x data (st w) ->
  exists d, rtc (duo_step now) {| du_world := w; du_first := None; du_second := None |} d
    /\ exists l1 l2, trace (du_world d) = trace w ++ l1 ++ l2
       /\ refund_made data (qd_db (st w)) l1 /\ refund_made data (qd_db (st w)) l2.
Proof.
  intros Hwill Hf Hdue Hp.
  destruct (batch_pays (fun _ => now) x data w Hwill Hp Hf) as (w1 & m1 & E1 & Hm1 & Hr1 & Hf1 & Hc1).
  destruct (batch_pays (fun _ => now) x data w1 Hwill (payable_chain _ _ _ _ Hc1 Hp) Hf1)
    as (w2 & m2 & E2 & Hm2 & Hr2 & _ & _).
  exists {| du_world := w2; du_first := None; du_second := None |}. split.
  - assert (Hq : query (due_tasks now) w = (Ok [x], w))
      by (unfold query, pop_fault; by rewrite Hf, Hdue).
    eapply rtc_l; [by eapply first_reads|]. eapply rtc_l; [by eapply second_reads|].
    eapply rtc_l; [by eapply first_runs|]. eapply rtc_l; [by eapply second_runs|].
    cbn [du_world du_first du_second]. rewrite E1. cbn [snd]. rewrite E2. apply rtc_refl.
  - exists m1, m2. cbn. split_and!; [by rewrite Hm2, Hm1, <- (assoc_L (++))|done|].
    by rewrite <- Hc1.
Qed.

(** A payment whose mark the database fails is forgotten: the task is as it was, and the next poll pays
    it again. *)
Theorem unmarked_refund_repeats now clock w x data :
  willing -> faults w = [false; false; true] -> due_tasks now (st w) = [x] -> payable x data (st w) ->
  let w1 := (process_pending_tasks true now clock w).2 in
  let w2 := (process_pending_tasks true now clock w1).2 in
  st w1 = st w /\ exists l1 l2, trace w1 = trace w ++ l1 /\ trace w2 = trace w ++ l1 ++ l2
    /\ refund_made data (qd_db (st w)) l1 /\ refund_made data (qd_db (st w)) l2.
Proof.
  intros Hwill Hf Hdue Hp. set (w0 := World (st w) [false; true] (trace w)).
  destruct (run_task_pays (clock x.1) x data w0 Hwill Hp eq_refl) as (wp & m1 & Hm1 & Hr1 & Hs1 & Hf1 & Hrun).
  assert (E1 : process_pending_tasks true now clock w = (Err FDb, World (st w) [] (trace wp))).
  { unfold process_pending_tasks, mbind, M_bind, query, pop_fault. rewrite Hf. fold w0.
    change (st w0) with (st w). rewrite Hdue.
    unfold run_batch. cbn [for_each]. unfold mbind, M_bind. rewrite Hrun.
    unfold mark_as_completed, exec, pop_fault. rewrite Hf1. cbn. by rewrite Hs1. }
  rewrite E1. cbn [snd]. split; [done|].
  destruct (batch_pays clock x data (World (st w) [] (trace wp)) Hwill Hp eq_refl)
    as (w2 & m2 & E2 & Hm2 & Hr2 & _).
  exists m1, m2. split_and!; [exact Hm1| |exact Hr1|exact Hr2].
  unfold process_pending_tasks, mbind, M_bind, query, pop_fault. cbn [faults st]. rewrite Hdue, E2. cbn [snd].
  rewrite Hm2. cbn [trace]. rewrite Hm1. by rewrite <- (assoc_L (++)).
Qed.

(** ** Giving up *)

(** A task after failures at the given times. *)
Fixpoint failures (times : list (DateTime * string)) (t : Task) : option Task :=
  match times with
  | [] => Some t
  | (now, error) :: times => t' ← failed_task now error t; failures times t'
  end.

(** After its [k]th failure a task waits [5^(k-1)] seconds: one, five, twenty-five..; with the last of
    its attempts it is given up. *)
Theorem failures_schedule times now error t t' :
  tk_retry_count t = 0 -> Z.of_nat (S (length times)) <= tk_max_retries t ->
  failures (times ++ [(now, error)]) t = Some t' ->
  tk_retry_count t' = Z.of_nat (S (length times)) /\ tk_last_error t' = Some error
  /\ tk_next_retry_at t' = Some (now + 5 ^ Z.of_nat (length times) * seconds)
  /\ tk_status t' = (if tk_max_retries t =? Z.of_nat (S (length times)) then TaskMaxRetries else TaskFailed).
Proof.
  assert (G : forall l u u', failures l u = Some u' ->
    tk_retry_count u' = tk_retry_count u + Z.of_nat (length l) /\ tk_max_retries u' = tk_max_retries u).
  { induction l as [|[n e] l IH]; intros u u'; cbn [failures length].
    - intros [= <-]. split; [lia|done].
    - intros H. apply bind_Some in H as (v & Hv & [Hr Hmax]%IH). unfold failed_task in Hv.
      destruct (18 <? _); [done|]. injection Hv as <-. cbn in Hr, Hmax. split; [lia|done]. }
  intros H0 Hmax H. assert (Hsplit : exists u, failures times t = Some u /\ failed_task now error u = Some t').
  { clear H0 Hmax. revert t H. induction times as [|[n e] times IH]; intros t; cbn.
    - intros (v & Hv & [= <-])%bind_Some. by exists t.
    - intros (v & Hv & (u & Hu & Hl)%IH)%bind_Some. exists u. by rewrite Hv. }
  destruct Hsplit as (u & [Hr Hm]%G & Hf). unfold failed_task in Hf. destruct (18 <? _); [done|].
  injection Hf as <-. cbn. rewrite Hr, Hm, H0. split_and!; [lia|done|by rewrite Z.add_0_l|].
  destruct (tk_max_retries t =? _) eqn:E; [apply Z.eqb_eq in E|apply Z.eqb_neq in E].
  - replace (tk_max_retries t <=? _) with true; [done|]. symmetry. apply Z.leb_le. lia.
  - replace (tk_max_retries t <=? _) with false; [done|]. symmetry. apply Z.leb_gt. lia.
Qed.

(** A payload that cannot be read gives its task up at once, and a task of another type fails like a
    refused refund, so it is tried as often: neither pays anything. *)
Theorem unusable_task now x w t :
  faults w = [] -> qd_tasks (st w) !! x.1 = Some t -> tk_retry_count t <= 18 ->
  (forall e, payload_of_json (tk_payload x.2) = Err e ->
     run_task true now x w
     = (Ok tt, set_st (set_qd_tasks (<[x.1 := hopeless_task e t]> (qd_tasks (st w))) (st w)) w))
  /\ (forall p, payload_of_json (tk_payload x.2) = Ok p -> tk_type x.2 <> TaskEscrowRefund ->
     exists t', failed_task now "Unsupported task type or payload mismatch" t = Some t'
     /\ run_task true now x w
         = (Ok tt, set_st (set_qd_tasks (<[x.1 := t']> (qd_tasks (st w))) (st w)) w)).
Proof.
  intros Hf Ht Hr. unfold run_task. split.
  - intros e ->. unfold mark_as_failed, exec, pop_fault. rewrite Hf. unfold update_task. by rewrite Ht.
  - intros p -> Hty. unfold failed_task. replace (18 <? tk_retry_count t) with false by (symmetry; by apply Z.ltb_ge).
    eexists. split; [done|]. unfold attempt, mbind, M_bind.
    assert (E : execute_task true (tk_type x.2) p w = (Err (FMsg "Unsupported task type or payload mismatch"), w))
      by (by destruct (tk_type x.2), p).
    rewrite E. cbn [task_error_text]. unfold mark_as_failed, exec, pop_fault. rewrite Hf. unfold update_task. rewrite Ht.
    unfold failed_task. replace (18 <? tk_retry_count t) with false by (symmetry; by apply Z.ltb_ge). done.
Qed.
End payment.

(** ** A concrete queue *)

Section demo.
#[local] Existing Instance std_numerics.
#[local] Existing Instance two_mints.

Fixpoint pos_text (p : positive) : string :=
  match p with
  | xH => ""
  | xO p => String (Ascii.ascii_of_nat 48) (pos_text p)
  | xI p => String (Ascii.ascii_of_nat 49) (pos_text p)
  end.
Fixpoint text_pos (s : string) : option positive :=
  match s with
  | "" => Some xH
  | String c s =>
      p ← text_pos s;
      if Ascii.eqb c (Ascii.ascii_of_nat 48) then Some (xO p) else if Ascii.eqb c (Ascii.ascii_of_nat 49) then Some (xI p) else None
  end.
Lemma text_pos_text p : text_pos (pos_text p) = Some p.
Proof. induction p as [p IH|p IH|]; simpl; [by rewrite IH..|done]. Qed.

#[local] Instance demo_task_json : TaskJson.
Proof.
  refine {|
    payload_json p := let 'PayloadEscrowRefund d := p in
      pos_text (encode (ep_user_id d, ep_amount d, ep_asset_type d, ep_order_id d));
    payload_of_json s :=
      match p ← text_pos s; decode p with
      | Some (u, a, t, o) =>
          Ok (PayloadEscrowRefund {| ep_user_id := u; ep_amount := a; ep_asset_type := t; ep_order_id := o |})
      | None => Err "missing field"
      end;
    json_amount z := z |}.
  - intros p. rewrite text_pos_text. cbn -[encode decode]. by rewrite decode_encode.
  - done.
Defined.

(** A chain that accepts everything. *)
#[local] Instance open_tokens : TokenChain := {|
  address_ok _ := Ok tt;
  ata owner mint := owner +:+ ":" +:+ mint;
  market_address := Ok "market";
  default_signature := "111";
  authority_answer _ := Ok "Gateway";
  ensure_answer _ wallet mint := Ok (wallet +:+ ":" +:+ mint);
  move_answer _ _ := Ok "moved";
  order_answer _ _ _ _ _ _ := Ok ("sig", "pda");
  swap_answer _ _ := Ok "swapped" |}.

Lemma open_willing : willing.
Proof. by split. Qed.

Definition demo_refund : EscrowRefundPayload :=
  {| ep_user_id := 1; ep_amount := 2 * U; ep_asset_type := "energy"; ep_order_id := 5 |}.
Definition demo_task : Task :=
  {| tk_type := TaskEscrowRefund; tk_payload := payload_json (PayloadEscrowRefund demo_refund);
     tk_status := TaskPending; tk_retry_count := 0; tk_max_retries := 5; tk_last_error := None;
     tk_next_retry_at := Some 0 |}.
Definition demo_queue (tasks : gmap Uuid Task) (fs : list bool) : world QueueDb Event :=
  World {| qd_db := st (chain_world (chain_user (Some "WalletA") None)); qd_tasks := tasks |} fs [].

Lemma demo_wallet tasks fs : has_wallet 1 (st (demo_queue tasks fs)).
Proof. by exists (chain_user (Some "WalletA") None), "WalletA". Qed.

Lemma demo_payable tasks fs : payable (7%N, demo_task) demo_refund (st (demo_queue tasks fs)).
Proof. split; [vm_compute; reflexivity|]. split; [done|apply demo_wallet]. Qed.

Lemma queued_refund_paid_witness : exists w1 w2 l,
  queue_task 0 7 TaskEscrowRefund (PayloadEscrowRefund demo_refund) (demo_queue ∅ []) = (Ok 7%N, w1)
  /\ process_pending_tasks true 10 (fun _ => 10) w1 = (Ok tt, w2)
  /\ trace w2 = l /\ refund_made demo_refund (qd_db (st (demo_queue ∅ []))) l.
Proof.
  destruct (queue_task 0 7 TaskEscrowRefund (PayloadEscrowRefund demo_refund) (demo_queue ∅ [])) as [r w1] eqn:E.
  assert (Hr : r = Ok 7%N) by (apply (f_equal fst) in E; vm_compute in E; by rewrite E). subst r. exists w1.
  destruct (queued_refund_paid 0 10 7 demo_refund (demo_queue ∅ []) w1 0)
    as (w2 & l & H1 & H2 & H3 & _); [apply open_willing|reflexivity|apply demo_wallet|reflexivity|done|done
    |exists 2; reflexivity|vm_compute; reflexivity|exact E|].
  exists w2, l. split; [reflexivity|]. split; [exact H1|]. split; [exact H2|exact H3].
Defined.

Lemma two_workers_pay_twice_witness : exists d l1 l2,
  rtc (duo_step 10) {| du_world := demo_queue {[ 7%N := demo_task ]} []; du_first := None; du_second := None |} d
  /\ trace (du_world d) = l1 ++ l2 /\ refund_made demo_refund (qd_db (st (demo_queue ∅ []))) l2.
Proof.
  destruct (two_workers_pay_twice 10 (demo_queue {[ 7%N := demo_task ]} []) (7%N, demo_task) demo_refund)
    as (d & Hd & l1 & l2 & Hm & _ & H2);
    [apply open_willing|reflexivity|vm_compute; reflexivity|apply demo_payable|].
  exists d, l1, l2. split; [exact Hd|]. split; [exact Hm|exact H2].
Defined.

Lemma unmarked_refund_repeats_witness :
  let w1 := (process_pending_tasks true 10 (fun _ => 10)
               (demo_queue {[ 7%N := demo_task ]} [false; false; true])).2 in
  exists l1 l2, trace (process_pending_tasks true 10 (fun _ => 10) w1).2 = l1 ++ l2
    /\ refund_made demo_refund (qd_db (st (demo_queue ∅ []))) l2.
Proof.
  destruct (unmarked_refund_repeats 10 (fun _ => 10) (demo_queue {[ 7%N := demo_task ]} [false; false; true])
    (7%N, demo_task) demo_refund) as (_ & l1 & l2 & _ & Hm & _ & H2);
    [apply open_willing|reflexivity|vm_compute; reflexivity|apply demo_payable|].
  exists l1, l2. split; [exact Hm|exact H2].
Defined.

Lemma payments_accounted_witness :
  let w := demo_queue {[ 7%N := demo_task ]} [] in
  let w' := (worker true [(10, fun _ => 10); (20, fun _ => 20)] w).2 in
  completed_count (st w') = 1 /\ confirmed_count w' - confirmed_count w = 1 - completed_count (st w).
Proof.
  cbv zeta. set (w := demo_queue {[ 7%N := demo_task ]} []).
  assert (C : completed_count (st (worker true [(10, fun _ => 10); (20, fun _ => 20)] w).2) = 1)
    by (vm_compute; reflexivity).
  split; [exact C|]. rewrite <- C.
  refine (proj1 (payments_accounted true [(10, fun _ => 10); (20, fun _ => 20)] w eq_refl _)).
  unfold few_tries, w. cbn [st qd_tasks demo_queue]. apply map_Forall_singleton. vm_compute. discriminate.
Defined.

Definition refused (n : Z) : DateTime * string := (n * seconds, "refused").

Lemma failures_schedule_witness : exists t',
  failures ([refused 1; refused 3; refused 9; refused 40] ++ [refused 170]) demo_task = Some t'
  /\ tk_status t' = TaskMaxRetries /\ tk_next_retry_at t' = Some (170 * seconds + 625 * seconds).
Proof.
  eexists. split; [reflexivity|].
  destruct (failures_schedule [refused 1; refused 3; refused 9; refused 40] (170 * seconds) "refused"
    demo_task _ eq_refl ltac:(vm_compute; discriminate) eq_refl) as (_ & _ & H1 & H2).
  split; [exact H2|exact H1].
Defined.

Lemma unusable_task_witness : exists t',
  failed_task 9 "Unsupported task type or payload mismatch" demo_task = Some t'.
Proof.
  set (x := (7%N, {| tk_type := TaskMinting; tk_payload := payload_json (PayloadEscrowRefund demo_refund);
     tk_status := TaskPending; tk_retry_count := 0; tk_max_retries := 5; tk_last_error := None;
     tk_next_retry_at := Some 0 |})).
  destruct (unusable_task 9 x (demo_queue {[ 7%N := demo_task ]} []) demo_task) as [_ H];
    [reflexivity|vm_compute; reflexivity|vm_compute; discriminate|].
  destruct (H (PayloadEscrowRefund demo_refund)) as (t' & Ht & _); [vm_compute; reflexivity|discriminate|].
  by exists t'.
Defined.
End demo.
