(* ===== verification/Operations.v ===== *)
(** The records of what was sent to the chain: [src/models/transaction.rs],
    [src/services/transaction/query.rs], [monitoring.rs], [recovery.rs] and [coordinator.rs], with
    the view [blockchain_operations] and the functions of
    [migrations/20241123000001_add_transaction_tracking.sql].

    The state holds the tracking columns of the four tables under the view, with the owner the
    view shows, and the tables the settlement service works on.  The column [updated_at] is left
    out: every row has one and nothing reads what is decoded from it.  Statements name tables by
    their text; one that is not among the four has no such columns.  Rows of equal creation time
    are listed in the order of the view. *)
From S2P Require Import Prelude Numerics Floats Errors Store Schema Escrow Crypto Settlement Text.
From stdpp Require Import pretty.
Open Scope string_scope.
Open Scope Z_scope.

(** ** Status and type ([models/transaction.rs]) *)

Inductive TransactionStatus :=
| TxPending | TxSubmitted | TxConfirmed | TxFailed | TxSettled | TxProcessing.

Inductive TransactionType :=
| EnergyTrade | TokenMint | TokenTransfer | GovernanceVote | OracleUpdate | RegistryUpdate | Swap.

#[global] Instance TransactionStatus_eq_dec : EqDecision TransactionStatus.
Proof. solve_decision. Defined.
#[global] Instance TransactionType_eq_dec : EqDecision TransactionType.
Proof. solve_decision. Defined.

(** The [Display] of both; that of the type is also its [as_str]. *)
Definition status_display (s : TransactionStatus) : string :=
  match s with
  | TxPending => "pending"
  | TxSubmitted => "submitted"
  | TxConfirmed => "confirmed"
  | TxFailed => "failed"
  | TxSettled => "settled"
  | TxProcessing => "processing"
  end.

Definition type_display (t : TransactionType) : string :=
  match t with
  | EnergyTrade => "energy_trade"
  | TokenMint => "token_mint"
  | TokenTransfer => "token_transfer"
  | GovernanceVote => "governance_vote"
  | OracleUpdate => "oracle_update"
  | RegistryUpdate => "registry_update"
  | Swap => "swap"
  end.

Definition status_of_text `{CharClass} (text : string) : option TransactionStatus :=
  let s := lowercase text in
  if (s =? "pending")%string then Some TxPending
  else if (s =? "submitted")%string then Some TxSubmitted
  else if (s =? "confirmed")%string then Some TxConfirmed
  else if (s =? "failed")%string then Some TxFailed
  else if (s =? "settled")%string then Some TxSettled
  else if (s =? "processing")%string then Some TxProcessing
  else None.

Definition type_of_text `{CharClass} (text : string) : option TransactionType :=
  let s := lowercase text in
  if (s =? "energy_trade")%string then Some EnergyTrade
  else if (s =? "token_mint")%string then Some TokenMint
  else if (s =? "token_transfer")%string then Some TokenTransfer
  else if (s =? "governance_vote")%string then Some GovernanceVote
  else if (s =? "oracle_update")%string then Some OracleUpdate
  else if (s =? "registry_update")%string then Some RegistryUpdate
  else if (s =? "swap")%string then Some Swap
  else None.

(** [payload] and [max_priority_fee] are always null. *)
Record BlockchainOperation := {
  bo_operation_type : TransactionType;
  bo_operation_id : Uuid;
  bo_user_id : Uuid;
  bo_signature : option string;
  bo_tx_type : string;
  bo_status : TransactionStatus;
  bo_operation_status : string;
  bo_attempts : Z;
  bo_last_error : option string;
  bo_submitted_at : option DateTime;
  bo_confirmed_at : option DateTime;
  bo_created_at : DateTime;
}.

Record TransactionFilters := {
  tf_user_id : option Uuid;
  tf_operation_type : option string;
  tf_tx_type : option TransactionType;
  tf_status : option TransactionStatus;
  tf_date_from : option DateTime;
  tf_date_to : option DateTime;
  tf_min_attempts : option Z;
  tf_has_signature : option bool;
  tf_limit : option Z;
  tf_offset : option Z;
}.

Record TransactionResponse := {
  tr_transaction_type : TransactionType;
  tr_operation_id : Uuid;
  tr_user_id : Uuid;
  tr_status : TransactionStatus;
  tr_signature : option string;
  tr_attempts : Z;
  tr_last_error : option string;
  tr_created_at : DateTime;
  tr_submitted_at : option DateTime;
  tr_confirmed_at : option DateTime;
  tr_settled_at : option DateTime;
}.

Record TransactionStats := {
  ts_total_count : Z;
  ts_pending_count : Z;
  ts_submitted_count : Z;
  ts_confirmed_count : Z;
  ts_failed_count : Z;
  ts_settled_count : Z;
  ts_processing_count : Z;
  ts_avg_confirmation_time_seconds : option spec_float;
  ts_success_rate : spec_float;
}.

Record TransactionMonitoringConfig := {
  tc_polling_interval_ms : Z;
  tc_max_retries : Z;
  tc_confirmation_blocks : Z;
  tc_enabled : bool;
  tc_max_retry_attempts : Z;
  tc_transaction_expiry_seconds : Z;
}.

Definition default_monitoring : TransactionMonitoringConfig :=
  {| tc_polling_interval_ms := 1000; tc_max_retries := 3; tc_confirmation_blocks := 1;
     tc_enabled := true; tc_max_retry_attempts := 5; tc_transaction_expiry_seconds := 3600 |}.

Record TransactionRetryRequest := {
  rq_operation_id : Uuid;
  rq_max_attempts : option Z;
  rq_operation_type : option string;
}.

Record TransactionRetryResponse := {
  rp_operation_id : Uuid;
  rp_success : bool;
  rp_attempts : Z;
  rp_last_error : option string;
  rp_signature : option string;
  rp_status : TransactionStatus;
  rp_new_attempts : Z;
}.

(** ** Tables and the view *)

(** The columns the migration adds to each table, and [created_at]. *)
Record Tracked := {
  tk_signature : option string;
  tk_type : option string;
  tk_status : option string;
  tk_attempts : option Z;
  tk_last_error : option string;
  tk_submitted_at : option DateTime;
  tk_confirmed_at : option DateTime;
  tk_created_at : option DateTime;
}.

Record OpsDb := {
  od_orders : gmap Uuid (Uuid * Tracked);
  od_settlements : gmap Uuid (Uuid * Tracked);
  od_readings : gmap Uuid Tracked;
  od_users : gmap Uuid Tracked;
  od_books : Db;
}.

Abbreviation OpM := (M OpsDb Event).

Record OpRow := {
  op_operation_type : string;
  op_operation_id : Uuid;
  op_user_id : option Uuid;
  op_columns : Tracked;
}.

(** [WHERE blockchain_tx_signature IS NOT NULL]. *)
Definition on_chain (r : OpRow) : bool := bool_decide (tk_signature (op_columns r) <> None).

Definition blockchain_operations (d : OpsDb) : list OpRow :=
  List.filter on_chain
    (((fun x => {| op_operation_type := "trading_order"; op_operation_id := x.1;
                   op_user_id := Some x.2.1; op_columns := x.2.2 |}) <$> map_to_list (od_orders d))
     ++ ((fun x => {| op_operation_type := "settlement"; op_operation_id := x.1;
                      op_user_id := Some x.2.1; op_columns := x.2.2 |}) <$> map_to_list (od_settlements d))
     ++ ((fun x => {| op_operation_type := "meter_reading"; op_operation_id := x.1;
                      op_user_id := None; op_columns := x.2 |}) <$> map_to_list (od_readings d))
     ++ ((fun x => {| op_operation_type := "user_registration"; op_operation_id := x.1;
                      op_user_id := Some x.1; op_columns := x.2 |}) <$> map_to_list (od_users d)))%list.

(** The trigger [update_blockchain_status_on_hash] of the four tables. *)
Definition on_hash (now : DateTime) (old new : Tracked) : Tracked :=
  match tk_signature new, tk_signature old with
  | Some _, None =>
      {| tk_signature := tk_signature new; tk_type := tk_type new; tk_status := Some "submitted";
         tk_attempts := tk_attempts new; tk_last_error := tk_last_error new;
         tk_submitted_at := Some now; tk_confirmed_at := tk_confirmed_at new;
         tk_created_at := tk_created_at new |}
  | _, _ => new
  end.

Definition adjust {A} (id : Uuid) (f : A -> option A) (m : gmap Uuid A) : option (gmap Uuid A) :=
  match m !! id with
  | Some a => a' ← f a; Some (<[id := a']> m)
  | None => Some m
  end.

(** [UPDATE <table> SET .. WHERE id = <id>]: [None] when the server refuses. *)
Definition update_tracked (now : DateTime) (table : string) (id : Uuid)
    (f : Tracked -> option Tracked) (d : OpsDb) : option OpsDb :=
  let g t := t' ← f t; Some (on_hash now t t') in
  let g2 (x : Uuid * Tracked) := t' ← g x.2; Some (x.1, t') in
  if (table =? "trading_orders")%string then
    m ← adjust id g2 (od_orders d);
    Some {| od_orders := m; od_settlements := od_settlements d; od_readings := od_readings d;
            od_users := od_users d; od_books := od_books d |}
  else if (table =? "settlements")%string then
    m ← adjust id g2 (od_settlements d);
    Some {| od_orders := od_orders d; od_settlements := m; od_readings := od_readings d;
            od_users := od_users d; od_books := od_books d |}
  else if (table =? "meter_readings")%string then
    m ← adjust id g (od_readings d);
    Some {| od_orders := od_orders d; od_settlements := od_settlements d; od_readings := m;
            od_users := od_users d; od_books := od_books d |}
  else if (table =? "users")%string then
    m ← adjust id g (od_users d);
    Some {| od_orders := od_orders d; od_settlements := od_settlements d;
            od_readings := od_readings d; od_users := m; od_books := od_books d |}
  else None.

(** [EXCEPTION WHEN OTHERS THEN .. RETURN FALSE]. *)
Definition or_false (f : OpsDb -> option OpsDb) (d : OpsDb) : option (bool * OpsDb) :=
  Some match f d with Some d' => (true, d') | None => (false, d) end.

Definition attempted (message : option string) (t : Tracked) : option Tracked :=
  if bool_decide (tk_attempts t = Some (2 ^ 31 - 1)) then None
  else Some {| tk_signature := tk_signature t; tk_type := tk_type t; tk_status := tk_status t;
               tk_attempts := Z.succ <$> tk_attempts t; tk_last_error := message;
               tk_submitted_at := tk_submitted_at t; tk_confirmed_at := tk_confirmed_at t;
               tk_created_at := tk_created_at t |}.

Definition increment_blockchain_attempts (now : DateTime) (table : string) (id : Uuid)
    (message : option string) : OpM bool :=
  exec_ret (or_false (update_tracked now table id (attempted message))).

Definition confirmed_columns (now : DateTime) (sig status : string) (t : Tracked) : option Tracked :=
  if varchar 88 (Some sig) && varchar 20 (Some status)
  then Some {| tk_signature := Some sig; tk_type := tk_type t; tk_status := Some status;
               tk_attempts := tk_attempts t; tk_last_error := tk_last_error t;
               tk_submitted_at := tk_submitted_at t; tk_confirmed_at := Some now;
               tk_created_at := tk_created_at t |}
  else None.

Definition mark_blockchain_confirmed (now : DateTime) (table : string) (id : Uuid)
    (sig status : string) : OpM bool :=
  exec_ret (or_false (update_tracked now table id (confirmed_columns now sig status))).

Definition submitted_columns (now : DateTime) (sig : option string) (tx_type : option string)
    (t : Tracked) : option Tracked :=
  if varchar 88 sig && varchar 50 tx_type
  then Some {| tk_signature := sig;
               tk_type := match tx_type with Some x => Some x | None => tk_type t end;
               tk_status := Some "submitted"; tk_attempts := tk_attempts t;
               tk_last_error := tk_last_error t; tk_submitted_at := Some now;
               tk_confirmed_at := tk_confirmed_at t; tk_created_at := tk_created_at t |}
  else None.

Definition mark_blockchain_submitted (now : DateTime) (table : string) (id : Uuid)
    (sig tx_type : option string) : OpM bool :=
  exec_ret (or_false (update_tracked now table id (submitted_columns now sig tx_type))).

Definition failed_columns (t : Tracked) : option Tracked :=
  Some {| tk_signature := tk_signature t; tk_type := tk_type t; tk_status := Some "failed";
          tk_attempts := tk_attempts t; tk_last_error := tk_last_error t;
          tk_submitted_at := tk_submitted_at t; tk_confirmed_at := tk_confirmed_at t;
          tk_created_at := tk_created_at t |}.

(** ** Interfaces *)

(** [Signature::from_str], with the text of the signature it reads; what
    [BlockchainService::get_signature_status] answers; [DateTime]'s [Display]; the rows and the
    tables after a statement whose text a quote in a filter has changed; and the driver's reading
    of AVG(EXTRACT(EPOCH FROM ..)) over intervals ([None] when it cannot). *)
Class OpsOutside := {
  read_signature : string -> option string;
  signature_outcome : list Event -> string -> res string (option bool);
  display_time : DateTime -> string;
  other_statement : string -> OpsDb -> option (list OpRow * OpsDb);
  average_seconds : list (option Z) -> option (option spec_float);
}.

Section operations.
Context `{NUM : Numerics} `{CH : Chain} `{ENV : Env} `{KEYS : KeyStore} `{CIPHER : Cipher}
        `{B64 : Base64} `{KP : Keypairs} `{CC : CharClass} `{OO : OpsOutside}.

(** ** Queries ([query.rs]) *)

(** A row as [try_get] reads it: [None] where a column that must not be NULL is. *)
Definition decode_operation (missing : TransactionStatus) (r : OpRow) : option BlockchainOperation :=
  let t := op_columns r in
  user ← op_user_id r;
  tx_type ← tk_type t;
  status ← tk_status t;
  created ← tk_created_at t;
  Some {| bo_operation_type := default Swap (type_of_text (op_operation_type r));
          bo_operation_id := op_operation_id r; bo_user_id := user;
          bo_signature := tk_signature t; bo_tx_type := tx_type;
          bo_status := default missing (status_of_text status); bo_operation_status := status;
          bo_attempts := default 0 (tk_attempts t); bo_last_error := tk_last_error t;
          bo_submitted_at := tk_submitted_at t; bo_confirmed_at := tk_confirmed_at t;
          bo_created_at := created |}.

Definition response_of (o : BlockchainOperation) : TransactionResponse :=
  {| tr_transaction_type := bo_operation_type o; tr_operation_id := bo_operation_id o;
     tr_user_id := bo_user_id o; tr_status := bo_status o; tr_signature := bo_signature o;
     tr_attempts := bo_attempts o; tr_last_error := bo_last_error o;
     tr_created_at := bo_created_at o; tr_submitted_at := bo_submitted_at o;
     tr_confirmed_at := bo_confirmed_at o; tr_settled_at := None |}.

(** [row.get] panics where [try_get] would fail. *)
Definition get_blockchain_operation (id : Uuid) : OpM BlockchainOperation :=
  rows ← query (fun d => List.filter (fun r => (op_operation_id r =? id)%N) (blockchain_operations d));
  row ← expect FDb (head rows);
  expect FPanic (decode_operation TxPending row).

Definition get_transaction_status (id : Uuid) : OpM TransactionResponse :=
  operation ← get_blockchain_operation id;
  mret (response_of operation).

(** The text of the statement. *)
Definition select_operations : string :=
  "
            SELECT
                operation_type,
                operation_id,
                user_id,
                signature,
                tx_type,
                operation_status,
                attempts,
                last_error,
                submitted_at,
                confirmed_at,
                created_at,
                updated_at
            FROM blockchain_operations
            WHERE 1=1
            ".

Definition clause {A} (before : string) (show : A -> string) (after : string) (o : option A) : string :=
  match o with Some a => before +:+ show a +:+ after | None => "" end.

(** The clauses after the one on the operation type. *)
Definition more_clauses (f : TransactionFilters) : string :=
  clause " AND tx_type = '" type_display "'" (tf_tx_type f)
  +:+ clause " AND operation_status = '" status_display "'" (tf_status f)
  +:+ clause " AND user_id = '" uuid_to_string "'" (tf_user_id f)
  +:+ clause " AND created_at >= '" display_time "'" (tf_date_from f)
  +:+ clause " AND created_at <= '" display_time "'" (tf_date_to f)
  +:+ clause " AND attempts >= " pretty "" (tf_min_attempts f)
  +:+ " ORDER BY created_at DESC"
  +:+ clause " LIMIT " pretty "" (tf_limit f)
  +:+ clause " OFFSET " pretty "" (tf_offset f).

Definition filter_sql (f : TransactionFilters) : string :=
  select_operations +:+ clause " AND operation_type = '" id "'" (tf_operation_type f) +:+ more_clauses f.

(** What the statement selects when no quote closes a literal early.  Comparisons with NULL are
    not true. *)
Definition text_is (c : option string) (v : string) : bool := bool_decide (c = Some v).
Definition at_least (c : option Z) (v : Z) : bool := match c with Some x => v <=? x | None => false end.
Definition at_most (c : option Z) (v : Z) : bool := match c with Some x => x <=? v | None => false end.
Definition if_given {A} (o : option A) (p : A -> bool) : bool :=
  match o with Some a => p a | None => true end.

Definition filter_matches (f : TransactionFilters) (r : OpRow) : bool :=
  let t := op_columns r in
  if_given (tf_operation_type f) (fun x => (op_operation_type r =? x)%string)
  && if_given (tf_tx_type f) (fun x => text_is (tk_type t) (type_display x))
  && if_given (tf_status f) (fun x => text_is (tk_status t) (status_display x))
  && if_given (tf_user_id f) (fun x => bool_decide (op_user_id r = Some x))
  && if_given (tf_date_from f) (at_least (tk_created_at t))
  && if_given (tf_date_to f) (at_most (tk_created_at t))
  && if_given (tf_min_attempts f) (at_least (tk_attempts t)).

Definition row_created (r : OpRow) : option DateTime := tk_created_at (op_columns r).

(** [ORDER BY created_at]: NULLs are last ascending and first descending. *)
Definition older (a b : OpRow) : bool :=
  match row_created a, row_created b with
  | Some x, Some y => x <=? y
  | _, None => true
  | None, Some _ => false
  end.
Definition newer (a b : OpRow) : bool := older b a.

Definition natural (o : option Z) : bool := if_given o (fun z => 0 <=? z).

Definition window (limit offset : option Z) (l : list OpRow) : list OpRow :=
  let l := drop (Z.to_nat (default 0 offset)) l in
  match limit with Some n => take (Z.to_nat n) l | None => l end.

Definition selected (f : TransactionFilters) (d : OpsDb) : list OpRow :=
  window (tf_limit f) (tf_offset f) (sort_by newer (List.filter (filter_matches f) (blockchain_operations d))).

Definition has_quote (f : TransactionFilters) : bool :=
  match tf_operation_type f with Some x => contains "'" x | None => false end.

Definition run_filtered (f : TransactionFilters) (d : OpsDb) : option (list OpRow * OpsDb) :=
  if has_quote f then other_statement (filter_sql f) d
  else if natural (tf_limit f) && natural (tf_offset f) then Some (selected f d, d)
  else None.

Definition decode_all (missing : TransactionStatus) (rows : list OpRow) : OpM (list BlockchainOperation) :=
  expect FDb (mapM (decode_operation missing) rows).

Definition get_transactions_with_filters (f : TransactionFilters) : OpM (list BlockchainOperation) :=
  rows ← exec_ret (run_filtered f);
  decode_all TxPending rows.

(** The text [get_transactions] builds first is dropped. *)
Definition get_transactions (f : TransactionFilters) : OpM (list TransactionResponse) :=
  operations ← get_transactions_with_filters f;
  mret (response_of <$> operations).

Definition for_user (user : Uuid) (f : TransactionFilters) : TransactionFilters :=
  {| tf_user_id := Some user; tf_operation_type := tf_operation_type f; tf_tx_type := tf_tx_type f;
     tf_status := tf_status f; tf_date_from := tf_date_from f; tf_date_to := tf_date_to f;
     tf_min_attempts := tf_min_attempts f; tf_has_signature := tf_has_signature f;
     tf_limit := tf_limit f; tf_offset := tf_offset f |}.

Definition get_user_transactions (user : Uuid) (f : TransactionFilters) : OpM (list TransactionResponse) :=
  get_transactions (for_user user f).

Definition with_status_text (s : string) (d : OpsDb) : list OpRow :=
  List.filter (fun r => text_is (tk_status (op_columns r)) s) (blockchain_operations d).

Definition count (l : OpsDb -> list OpRow) : OpM Z := query (fun d => Z.of_nat (length (l d))).

Definition confirmation_times (d : OpsDb) : list (option Z) :=
  (fun r => c ← tk_confirmed_at (op_columns r); b ← row_created r; Some (c - b))
    <$> with_status_text "confirmed" d.

Definition get_transaction_stats : OpM TransactionStats :=
  total_count ← count blockchain_operations;
  pending_count ← count (with_status_text "pending");
  submitted_count ← count (with_status_text "submitted");
  confirmed_count ← count (with_status_text "confirmed");
  failed_count ← count (with_status_text "failed");
  avg_seconds ←
    (if 0 <? confirmed_count then
       avg ← query (fun d => average_seconds (confirmation_times d));
       expect FDb avg
     else mret None);
  let success_rate :=
    if 0 <? total_count then f64_div (f64_of_Z confirmed_count) (f64_of_Z total_count)
    else f64_of_Z 0 in
  mret {| ts_total_count := total_count; ts_pending_count := pending_count;
          ts_submitted_count := submitted_count; ts_confirmed_count := confirmed_count;
          ts_failed_count := failed_count; ts_settled_count := 0;
          ts_processing_count := submitted_count;
          ts_avg_confirmation_time_seconds := avg_seconds; ts_success_rate := success_rate |}.

(** ** Monitoring ([monitoring.rs]) *)

Definition get_table_name (t : TransactionType) : string :=
  match t with
  | EnergyTrade => "energy_trades"
  | TokenMint => "token_mints"
  | TokenTransfer => "token_transfers"
  | GovernanceVote => "governance_votes"
  | OracleUpdate => "oracle_updates"
  | RegistryUpdate => "registry_updates"
  | Swap => "swap_transactions"
  end.

Definition mark_transaction_confirmed (now : DateTime) (table : string) (id : Uuid) (sig : string)
    : OpM bool :=
  mark_blockchain_confirmed now table id sig "confirmed".

Definition mark_transaction_failed (now : DateTime) (table : string) (id : Uuid)
    (message : option string) : OpM bool :=
  result ← increment_blockchain_attempts now table id message;
  exec (update_tracked now table id failed_columns) ;;
  mret result.

Definition get_signature_status (sig : string) : OpM (option bool) := fun w =>
  match signature_outcome (trace w) sig with
  | Ok a => (Ok a, World (st w) (faults w) (trace w ++ [EvChain (SignatureStatus sig) true]))
  | Err m => (Err (FMsg m), World (st w) (faults w) (trace w ++ [EvChain (SignatureStatus sig) false]))
  end.

Definition awaiting (d : OpsDb) : list OpRow :=
  sort_by older (List.filter (fun r => text_is (tk_status (op_columns r)) "pending"
                                       || text_is (tk_status (op_columns r)) "submitted")
    (blockchain_operations d)).

Definition u64_as_i64 (z : Z) : Z := if z <? 2 ^ 63 then z else z - 2 ^ 64.

(** [num_seconds] truncates; [transaction_expiry_seconds as i64]. *)
Definition pending_duration (now : DateTime) (o : BlockchainOperation) : Z :=
  Z.quot (now - default (bo_created_at o) (bo_submitted_at o)) 1000000000.

Definition expired (config : TransactionMonitoringConfig) (now : DateTime) (o : BlockchainOperation) : bool :=
  u64_as_i64 (tc_transaction_expiry_seconds config) <? pending_duration now o.

(** How many operations the turn of one adds to the count. *)
Definition monitor_one (config : TransactionMonitoringConfig) (now : DateTime) (o : BlockchainOperation)
    : OpM nat :=
  let table := get_table_name (bo_operation_type o) in
  if expired config now o then
    mark_transaction_failed now table (bo_operation_id o) (Some "Transaction pending too long") ;;
    mret 1%nat
  else
    match bo_status o, bo_signature o with
    | TxSubmitted, Some text =>
        match read_signature text with
        | None => mret 0%nat
        | Some sig =>
            r ← attempt (get_signature_status sig);
            match r with
            | Ok (Some true) =>
                b ← mark_transaction_confirmed now table (bo_operation_id o) sig;
                mret (if b : bool then 1%nat else 0%nat)
            | Ok (Some false) =>
                b ← mark_transaction_failed now table (bo_operation_id o)
                      (Some "Transaction failed on blockchain");
                mret (if b : bool then 1%nat else 0%nat)
            | Ok None | Err _ => mret 0%nat
            end
        end
    | _, _ => mret 0%nat
    end.

Fixpoint monitor_each (config : TransactionMonitoringConfig) (now : DateTime)
    (l : list BlockchainOperation) (updated_count : nat) : OpM nat :=
  match l with
  | [] => mret updated_count
  | o :: l =>
      n ← monitor_one config now o;
      monitor_each config now l (updated_count + n)%nat
  end.

Definition monitor_pending_transactions (config : TransactionMonitoringConfig) (now : DateTime) : OpM nat :=
  if negb (tc_enabled config) then mret 0%nat
  else
    rows ← query awaiting;
    pending_operations ← decode_all TxPending rows;
    monitor_each config now pending_operations 0.

(** ** Recovery ([recovery.rs]) *)

Definition put_books (b : Db) (d : OpsDb) : OpsDb :=
  {| od_orders := od_orders d; od_settlements := od_settlements d; od_readings := od_readings d;
     od_users := od_users d; od_books := b |}.

(** The arguments of the second statement stand in the order the code binds them: the text
    [settlement] is the signature. *)
Definition retry_settlement_transaction (settlement : SettlementConfig) (mock_sig : string)
    (now : DateTime) (id : Uuid) : OpM unit :=
  increment_blockchain_attempts now "settlements" id (Some "Retrying settlement") ;;
  zoom od_books put_books (execute_settlement settlement mock_sig now id) ;;
  mark_blockchain_submitted now "settlements" id (Some "settlement") None ;;
  mret ().

Definition failed_operations (max_attempts : Z) (d : OpsDb) : list OpRow :=
  take 100 (sort_by older
    (List.filter (fun r => text_is (tk_status (op_columns r)) "failed"
                           && match tk_attempts (op_columns r) with Some n => n <? max_attempts | None => false end)
       (blockchain_operations d))).

Section recovery.
Context (settlement : SettlementConfig) (config : TransactionMonitoringConfig)
        (mock_sig : Uuid -> string) (now : DateTime).

Fixpoint retry_operations (l : list BlockchainOperation) (retried_count : nat) : OpM nat :=
  match l with
  | [] => mret retried_count
  | o :: l =>
      if (type_display (bo_operation_type o) =? "settlement")%string then
        r ← attempt (retry_settlement_transaction settlement (mock_sig (bo_operation_id o)) now (bo_operation_id o));
        retry_operations l (if is_ok r then S retried_count else retried_count)
      else retry_operations l retried_count
  end.

Definition retry_failed_transactions (max_attempts : Z) : OpM nat :=
  if negb (tc_enabled config) then mret 0%nat
  else
    rows ← query (failed_operations max_attempts);
    failed ← decode_all TxFailed rows;
    retry_operations failed 0.

Definition retry_refused (id : Uuid) (why : string) (o : BlockchainOperation) : TransactionRetryResponse :=
  {| rp_operation_id := id; rp_success := false; rp_attempts := bo_attempts o;
     rp_last_error := Some why; rp_signature := bo_signature o; rp_status := bo_status o;
     rp_new_attempts := bo_attempts o |}.

Definition retry_transaction (request : TransactionRetryRequest) : OpM TransactionRetryResponse :=
  let id := rq_operation_id request in
  r ← attempt (get_blockchain_operation id);
  match r with
  | Err e =>
      mret {| rp_operation_id := id; rp_success := false; rp_attempts := 0;
              rp_last_error := Some ("Failed to get transaction: " +:+ error_text e);
              rp_signature := None; rp_status := TxFailed; rp_new_attempts := 0 |}
  | Ok o =>
      if match rq_operation_type request with
         | Some t => negb (type_display (bo_operation_type o) =? t)%string
         | None => false
         end then mret (retry_refused id "Operation type mismatch" o)
      else if default (tc_max_retry_attempts config) (rq_max_attempts request) <=? bo_attempts o
      then mret (retry_refused id "Maximum retry attempts exceeded" o)
      else if (type_display (bo_operation_type o) =? "settlement")%string then
        retry_settlement_transaction settlement (mock_sig (bo_operation_id o)) now (bo_operation_id o) ;;
        updated ← get_blockchain_operation (bo_operation_id o);
        mret {| rp_operation_id := bo_operation_id o; rp_success := true;
                rp_attempts := bo_attempts updated; rp_last_error := bo_last_error updated;
                rp_signature := bo_signature updated; rp_status := bo_status updated;
                rp_new_attempts := bo_attempts updated |}
      else mret (retry_refused (bo_operation_id o)
             ("No retry handler for operation type: " +:+ type_display (bo_operation_type o)) o)
  end.
End recovery.

(** ** The coordinator ([coordinator.rs]) passes its calls on *)

Inductive coordinator_call :=
| GetStatus (id : Uuid)
| GetUserTransactions (user : Uuid) (f : TransactionFilters)
| GetTransactions (f : TransactionFilters)
| GetStats
| MonitorPending (now : DateTime)
| RetryFailed (mock_sig : Uuid -> string) (now : DateTime) (max_attempts : Z)
| RetryOne (mock_sig : Uuid -> string) (now : DateTime) (request : TransactionRetryRequest)
| GetOperation (id : Uuid).

Definition coordinate (settlement : SettlementConfig) (config : TransactionMonitoringConfig)
    (c : coordinator_call) : OpM unit :=
  match c with
  | GetStatus id => get_transaction_status id ;; mret ()
  | GetUserTransactions user f => get_user_transactions user f ;; mret ()
  | GetTransactions f => get_transactions f ;; mret ()
  | GetStats => get_transaction_stats ;; mret ()
  | MonitorPending now => monitor_pending_transactions config now ;; mret ()
  | RetryFailed mock_sig now n => retry_failed_transactions settlement config mock_sig now n ;; mret ()
  | RetryOne mock_sig now request => retry_transaction settlement config mock_sig now request ;; mret ()
  | GetOperation id => get_blockchain_operation id ;; mret ()
  end.

(** Calls one after another, whatever each of them answers. *)
Definition coordinate_all (settlement : SettlementConfig) (config : TransactionMonitoringConfig)
    (l : list coordinator_call) (w : world OpsDb Event) : world OpsDb Event :=
  foldl (fun w c => snd (coordinate settlement config c w)) w l.
End operations.

(** ** Calls that leave every table as it was *)

(** A look at the chain changes nothing there. *)
Definition is_look (e : Event) : Prop := exists sig b, e = EvChain (SignatureStatus sig) b.

Definition looked (t t' : list Event) : Prop := exists l, t' = (t ++ l)%list /\ Forall is_look l.

Lemma looked_refl t : looked t t.
Proof. exists []. by rewrite app_nil_r. Qed.

Lemma looked_trans t1 t2 t3 : looked t1 t2 -> looked t2 t3 -> looked t1 t3.
Proof.
  intros (l & -> & Hl) (l' & -> & Hl'). exists (l ++ l')%list. rewrite app_assoc. split; [done|].
  by apply list.Forall_app.
Qed.

(** [m] writes no table, does nothing outside but look, and its outcome is in [Q]. *)
Definition leaves_tables {A} (m : OpM A) (Q : res failure A -> Prop) : Prop :=
  forall w, let '(r, w') := m w in st w' = st w /\ looked (trace w) (trace w') /\ Q r.

Section no_write.
Context {A : Type}.
Implicit Types (m : OpM A) (Q R : res failure A -> Prop).

Lemma quiet_mono m Q R : leaves_tables m Q -> (forall r, Q r -> R r) -> leaves_tables m R.
Proof.
  intros H HQ w. specialize (H w). destruct (m w) as [r w']. destruct H as (? & ? & ?). auto.
Qed.

Lemma quiet_ret (a : A) Q : Q (Ok a) -> leaves_tables (mret a) Q.
Proof. intros H w. split_and!; [done|apply looked_refl|done]. Qed.

Lemma quiet_query (f : OpsDb -> A) : leaves_tables (query f) (fun r => r = Err FDb \/ exists d, r = Ok (f d)).
Proof.
  intros w. unfold query. pose proof (pop_fault_st w). pose proof (pop_fault_trace w) as E.
  destruct (pop_fault w) as [[] w1]; simpl in *; rewrite E; (split_and!; [done|apply looked_refl|eauto]).
Qed.

Lemma quiet_expect e (o : option A) Q : (o = None -> Q (Err e)) -> (forall a, o = Some a -> Q (Ok a)) ->
  leaves_tables (expect e o) Q.
Proof. intros HN HS w. destruct o; (split_and!; [done|apply looked_refl|auto]). Qed.

Lemma quiet_bind {B} (m : OpM B) (k : B -> OpM A) (R : res failure B -> Prop) Q :
  leaves_tables m R -> (forall e, R (Err e) -> Q (Err e)) -> (forall b, R (Ok b) -> leaves_tables (k b) Q) ->
  leaves_tables (m ≫= k) Q.
Proof.
  intros Hm He Hk w. specialize (Hm w). unfold mbind, M_bind.
  destruct (m w) as [[b|e] w1]; destruct Hm as (S1 & T1 & R1); [|auto].
  specialize (Hk b R1 w1). destruct (k b w1) as [r w2]. destruct Hk as (S2 & T2 & Q2).
  split_and!; [by rewrite S2|by eapply looked_trans|done].
Qed.

Lemma quiet_attempt m (Q : res failure (res failure A) -> Prop) R : leaves_tables m R ->
  (forall r, R r -> r <> Err FPanic -> Q (Ok r)) -> (R (Err FPanic) -> Q (Err FPanic)) -> leaves_tables (attempt m) Q.
Proof.
  intros Hm HQ HP w. specialize (Hm w). unfold attempt.
  destruct (m w) as [[a|[]] w1]; destruct Hm as (? & ? & ?); (split_and!; [done|done|]); auto.
  all: by apply HQ.
Qed.
End no_write.

(** What the server refuses whatever the tables hold. *)
Lemma quiet_refused (f : OpsDb -> option OpsDb) : (forall d, f d = None) ->
  leaves_tables (exec f) (fun r => r = Err FDb).
Proof.
  intros Hf w. unfold exec. pose proof (pop_fault_st w). pose proof (pop_fault_trace w) as E.
  destruct (pop_fault w) as [[] w1]; simpl in *; try rewrite Hf; simpl; rewrite E;
    (split_and!; [done|apply looked_refl|done]).
Qed.

Lemma quiet_or_false (f : OpsDb -> option OpsDb) : (forall d, f d = None) ->
  leaves_tables (exec_ret (or_false f)) (fun r => r = Err FDb \/ r = Ok false).
Proof.
  intros Hf w. unfold exec_ret, or_false. pose proof (pop_fault_st w). pose proof (pop_fault_trace w) as E.
  destruct (pop_fault w) as [[] w1]; simpl in *; try rewrite Hf; simpl; rewrite E;
    (split_and!; [done|apply looked_refl|auto]).
Qed.

Section facts.
Context `{NUM : Numerics} `{CH : Chain} `{ENV : Env} `{KEYS : KeyStore} `{CIPHER : Cipher}
        `{B64 : Base64} `{KP : Keypairs} `{CC : CharClass} `{OO : OpsOutside}.

(** ** Texts *)

Lemma lowercase_of s : is_ascii s = true -> to_lowercase s = s -> lowercase s = s.
Proof. intros H E. by rewrite lowercase_ascii. Qed.

(** Status and type survive being written and read again, in any case of letters. *)
Theorem display_reads_back (s : TransactionStatus) (t : TransactionType) :
  (forall text, is_ascii text = true -> to_lowercase text = status_display s -> status_of_text text = Some s)
  /\ (forall text, is_ascii text = true -> to_lowercase text = type_display t -> type_of_text text = Some t)
  /\ (forall text s', status_of_text text = Some s' -> lowercase text = status_display s')
  /\ (forall text t', type_of_text text = Some t' -> lowercase text = type_display t').
Proof.
  split_and!; intros text.
  - intros Ha E. unfold status_of_text. rewrite lowercase_ascii, E by done. by destruct s.
  - intros Ha E. unfold type_of_text. rewrite lowercase_ascii, E by done. by destruct t.
  - intros s' H. unfold status_of_text in H.
    repeat match type of H with context [(?a =? ?b)%string] =>
      destruct (String.eqb_spec a b) as [E|_]; [injection H as <-; exact E|] end. done.
  - intros t' H. unfold type_of_text in H.
    repeat match type of H with context [(?a =? ?b)%string] =>
      destruct (String.eqb_spec a b) as [E|_]; [injection H as <-; exact E|] end. done.
Qed.

(** ** The view *)

Definition view_types : list string := ["trading_order"; "settlement"; "meter_reading"; "user_registration"].

Lemma view_type d r : r ∈ blockchain_operations d -> op_operation_type r ∈ view_types.
Proof.
  unfold blockchain_operations, view_types. rewrite list_elem_of_In, List.filter_In, <- list_elem_of_In.
  rewrite !elem_of_app.
  intros [[H|[H|[H|H]]] _]; apply list_elem_of_fmap in H as (x & -> & _); set_solver.
Qed.

Lemma view_on_chain d r : r ∈ blockchain_operations d -> tk_signature (op_columns r) <> None.
Proof.
  unfold blockchain_operations. rewrite list_elem_of_In, List.filter_In. intros [_ H].
  by apply bool_decide_eq_true in H.
Qed.

(** None of the texts the view puts in [operation_type] is that of a type: they are all read as
    the fallback. *)
Lemma view_reads_swap d r missing o : r ∈ blockchain_operations d ->
  decode_operation missing r = Some o -> bo_operation_type o = Swap.
Proof.
  intros Hr%view_type. unfold decode_operation. intros H.
  repeat match type of H with context [mbind _ ?o] => destruct o; simpl in H; [|done] end.
  simplify_eq/=. revert Hr. unfold view_types.
  rewrite !elem_of_cons, elem_of_nil. intros [->|[->|[->|[->|[]]]]]; unfold type_of_text; by rewrite lowercase_of.
Qed.

Definition reads_swap (o : BlockchainOperation) : Prop := bo_operation_type o = Swap.

Lemma decoded_swaps d missing rows l : Forall (fun r => r ∈ blockchain_operations d) rows ->
  mapM (decode_operation missing) rows = Some l -> Forall reads_swap l.
Proof.
  intros Hr H. apply mapM_Some in H. revert Hr. induction H as [|r o rows l E _ IH]; [constructor|].
  intros [Hr Hrs]%list.Forall_cons. constructor; [by eapply view_reads_swap|by apply IH].
Qed.

Lemma in_view (le : OpRow -> OpRow -> bool) p d :
  Forall (fun r => r ∈ blockchain_operations d) (sort_by le (List.filter p (blockchain_operations d))).
Proof.
  apply list.Forall_forall. intros r. rewrite sort_by_perm, list_elem_of_In, List.filter_In, <- list_elem_of_In.
  by intros [? _].
Qed.

(** ** Monitoring *)

(** The table the code takes for the fallback has no tracking columns. *)
Lemma swap_untracked now id f d : update_tracked now (get_table_name Swap) id f d = None.
Proof. reflexivity. Qed.

Lemma failing_swaps now id message :
  leaves_tables (mark_transaction_failed now (get_table_name Swap) id message) (fun r => r = Err FDb).
Proof.
  unfold mark_transaction_failed. eapply quiet_bind.
  - apply quiet_or_false. intros d. apply swap_untracked.
  - intros e [?|?]; congruence.
  - intros b _. eapply quiet_bind; [by apply quiet_refused|by intros e [= ->]|by intros ? [=]].
Qed.

Lemma looks_only sig : leaves_tables (get_signature_status sig) (fun r => forall e, r = Err e -> e <> FPanic).
Proof.
  intros w. unfold get_signature_status.
  destruct (signature_outcome _ _); simpl; (split_and!; [done| |by (intros; simplify_eq)]).
  all: eexists; split; [done|]; repeat constructor; by eexists _, _.
Qed.

Lemma monitor_one_quiet config now o : reads_swap o ->
  leaves_tables (monitor_one config now o)
    (fun r => r = Err FDb \/ (r = Ok 0%nat /\ expired config now o = false)).
Proof.
  intros Ho. unfold monitor_one. rewrite Ho. destruct (expired config now o) eqn:E.
  { eapply quiet_bind; [apply failing_swaps|intros e [= ->]; by left|by intros ? [=]]. }
  assert (Z0 : leaves_tables (mret 0%nat) (fun r => r = Err FDb \/ (r = Ok 0%nat /\ false = false)))
    by (apply quiet_ret; auto).
  destruct (bo_status o), (bo_signature o) as [text|]; try done.
  destruct (read_signature text) as [sig|]; [|done].
  eapply quiet_bind with (R := fun r => forall e, r <> Err e).
  { eapply quiet_attempt; [apply looks_only|done|]. intros H. by destruct (H FPanic). }
  { intros e H. by destruct (H e). }
  intros [[[]|]|e] _; try done.
  - eapply quiet_bind; [by apply quiet_or_false|intros e [?|?]; left; congruence|].
    intros b [?|[= ->]]; done.
  - eapply quiet_bind; [apply failing_swaps|intros e [= ->]; by left|by intros ? [=]].
Qed.

Lemma monitor_each_quiet config now l n : Forall reads_swap l ->
  leaves_tables (monitor_each config now l n)
    (fun r => r = Err FDb \/ (r = Ok n /\ Forall (fun o => expired config now o = false) l)).
Proof.
  revert n. induction l as [|o l IH]; intros n Hl; simpl; [by apply quiet_ret; auto|].
  apply list.Forall_cons in Hl as [Ho Hl].
  eapply quiet_bind; [by apply monitor_one_quiet|intros e [?|[? _]]; left; congruence|].
  intros k [?|[[= ->] Eo]]; [done|]. rewrite Nat.add_0_r.
  eapply quiet_mono; [by apply IH|]. intros r [?|[? ?]]; [by left|right]. split; [done|]. by constructor.
Qed.

Lemma monitor_quiet config now :
  leaves_tables (monitor_pending_transactions config now) (fun r => r = Err FDb \/ r = Ok 0%nat).
Proof.
  unfold monitor_pending_transactions. destruct (tc_enabled config); simpl; [|by apply quiet_ret; auto].
  eapply quiet_bind; [apply quiet_query|intros e [?|[? ?]]; [left|]; congruence|].
  intros rows [?|[d [= ->]]]; [done|].
  eapply quiet_bind with (R := fun r => r = Err FDb \/ exists l, r = Ok l /\ Forall reads_swap l).
  - apply quiet_expect; [by left|]. intros l Hl. right. exists l. split; [done|].
    eapply decoded_swaps, Hl. apply in_view.
  - intros e [?|(l & ? & _)]; [left|]; congruence.
  - intros l [?|(? & [= <-] & Hl)]; [done|]. eapply quiet_mono; [by apply monitor_each_quiet|].
    intros r [?|[? _]]; auto.
Qed.

(** ** Recovery *)

Lemma retry_operations_quiet settlement mock_sig now l n : Forall reads_swap l ->
  leaves_tables (retry_operations settlement mock_sig now l n) (fun r => r = Ok n).
Proof.
  induction l as [|o l IH]; intros Hl; simpl; [by apply quiet_ret|].
  apply list.Forall_cons in Hl as [Ho Hl]. rewrite Ho. by apply IH.
Qed.

Lemma retry_failed_quiet settlement config mock_sig now n :
  leaves_tables (retry_failed_transactions settlement config mock_sig now n)
    (fun r => r = Err FDb \/ r = Ok 0%nat).
Proof.
  unfold retry_failed_transactions. destruct (tc_enabled config); simpl; [|by apply quiet_ret; auto].
  eapply quiet_bind; [apply quiet_query|intros e [?|[? ?]]; [left|]; congruence|].
  intros rows [?|[d [= ->]]]; [done|].
  eapply quiet_bind with (R := fun r => r = Err FDb \/ exists l, r = Ok l /\ Forall reads_swap l).
  - apply quiet_expect; [by left|]. intros l Hl. right. exists l. split; [done|].
    eapply decoded_swaps, Hl. unfold failed_operations. apply list.Forall_take, in_view.
  - intros e [?|(l & ? & _)]; [left|]; congruence.
  - intros l [?|(? & [= <-] & Hl)]; [done|]. eapply quiet_mono; [by apply retry_operations_quiet|]. auto.
Qed.

Lemma get_operation_quiet id :
  leaves_tables (get_blockchain_operation id) (fun r => forall o, r = Ok o -> reads_swap o).
Proof.
  unfold get_blockchain_operation.
  eapply quiet_bind; [apply quiet_query|by intros e _ o|]. intros rows [?|[d [= ->]]]; [done|].
  eapply quiet_bind with (R := fun r => forall x, r = Ok x -> x ∈ blockchain_operations d).
  - apply quiet_expect; [done|]. intros r Hr x [= <-]. apply head_Some_elem_of in Hr.
    by apply list_elem_of_In, List.filter_In in Hr as [?%list_elem_of_In _].
  - by intros e _ o.
  - intros r Hr. specialize (Hr r eq_refl).
    apply quiet_expect; [done|]. intros o Ho ? [= <-]. by eapply view_reads_swap.
Qed.

Lemma retry_one_quiet settlement config mock_sig now request :
  leaves_tables (retry_transaction settlement config mock_sig now request)
    (fun r => match r with Ok a => rp_success a = false | Err e => e = FPanic end).
Proof.
  unfold retry_transaction.
  eapply quiet_bind with (R := fun r => match r with Ok (Ok o) => reads_swap o | Ok _ => True | Err e => e = FPanic end).
  - eapply quiet_attempt; [apply get_operation_quiet| |done]. intros [o|e] Ho _; [by apply Ho|done].
  - by intros e ->.
  - intros [o|e] Ho; [|by apply quiet_ret]. rewrite Ho.
    destruct (match rq_operation_type request with Some t => _ | None => _ end); [by apply quiet_ret|].
    destruct (_ <=? _); [by apply quiet_ret|]. simpl. by apply quiet_ret.
Qed.

(** ** Lists *)

Lemma list_quiet f : has_quote f = false ->
  leaves_tables (get_transactions f)
    (fun r => r = Err FDb \/ exists d l, mapM (decode_operation TxPending) (selected f d) = Some l
                               /\ r = Ok (response_of <$> l)).
Proof.
  intros Hq. unfold get_transactions, get_transactions_with_filters, run_filtered. rewrite Hq.
  eapply quiet_bind with (R := fun r => r = Err FDb \/ exists d l,
      mapM (decode_operation TxPending) (selected f d) = Some l /\ r = Ok l).
  - eapply quiet_bind with (R := fun r => r = Err FDb \/ exists d, r = Ok (selected f d)).
    + intros w. unfold exec_ret. pose proof (pop_fault_st w). pose proof (pop_fault_trace w) as E.
      destruct (pop_fault w) as [[] w1]; simpl in *; [|destruct (natural _ && natural _)]; simpl; rewrite E;
        (split_and!; [done|apply looked_refl|eauto]).
    + intros e [?|[? ?]]; [left|]; congruence.
    + intros rows [?|[d [= ->]]]; [done|]. apply quiet_expect; [by left|]. intros l Hl. right. eauto.
  - intros e [?|(? & ? & _ & ?)]; [left|]; congruence.
  - intros l [?|(d & ? & Hl & [= <-])]; [done|]. apply quiet_ret. right. eauto.
Qed.

Lemma count_quiet l : leaves_tables (count l) (fun r => forall e, r = Err e -> e = FDb).
Proof.
  eapply quiet_mono; [apply quiet_query|]. intros r [->|[d ->]] e [= <-]. done.
Qed.

Lemma stats_quiet : leaves_tables get_transaction_stats (fun r => forall e, r = Err e -> e = FDb).
Proof.
  unfold get_transaction_stats.
  repeat (eapply quiet_bind; [apply count_quiet|intros e H ? [= <-]; by apply H|intros ? _]).
  eapply quiet_bind with (R := fun r => forall e, r = Err e -> e = FDb).
  - destruct (0 <? _); [|by apply quiet_ret].
    eapply quiet_bind; [apply quiet_query|intros e [?|[? ?]]; intros; congruence|].
    intros avg _. by apply quiet_expect; [intros _ ? [= <-]|].
  - intros e H ? [= <-]. by apply H.
  - intros a _. by apply quiet_ret.
Qed.

(** A call whose filter, if it has one, does not break out of its literal. *)
Definition literal_filter (c : coordinator_call) : Prop :=
  match c with
  | GetUserTransactions _ f | GetTransactions f => has_quote f = false
  | _ => True
  end.

Lemma quiet_drop {A} (m : OpM A) Q : leaves_tables m Q -> leaves_tables (m ;; mret ()) (fun _ => True).
Proof. intros H. eapply quiet_bind; [exact H|done|]. intros a _. by apply quiet_ret. Qed.

Lemma coordinate_quiet settlement config c : literal_filter c ->
  leaves_tables (coordinate settlement config c) (fun _ => True).
Proof.
  intros Hc. destruct c; simpl in *; eapply quiet_drop.
  - eapply quiet_bind with (Q := fun _ => True); [apply get_operation_quiet|done|]. intros o _.
    by apply quiet_ret.
  - by apply list_quiet.
  - by apply list_quiet.
  - apply stats_quiet.
  - apply monitor_quiet.
  - apply retry_failed_quiet.
  - apply retry_one_quiet.
  - apply get_operation_quiet.
Qed.

(** No history of calls to the coordinator changes a table: nothing is ever marked as confirmed or
    as failed and no settlement is retried, whatever the database refuses and the chain reports.
    All that reaches the outside are questions for the state of a signature. *)
Theorem tracking_inert settlement config (l : list coordinator_call) (w : world OpsDb Event) :
  Forall literal_filter l ->
  st (coordinate_all settlement config l w) = st w
  /\ looked (trace w) (trace (coordinate_all settlement config l w)).
Proof.
  unfold coordinate_all. revert w. induction l as [|c l IH]; intros w; simpl; [split; [done|apply looked_refl]|].
  intros [Hc Hl]%list.Forall_cons.
  pose proof (coordinate_quiet settlement config c Hc w) as Q.
  destruct (coordinate settlement config c w) as [r w1] eqn:E. destruct Q as (S1 & T1 & _).
  destruct (IH w1 Hl) as [S2 T2]. simpl. split; [by rewrite S2|by eapply looked_trans].
Qed.

(** Monitoring counts no update and recovery no retry; a single retry that answers at all says it
    did not succeed. *)
Theorem recovery_outcome settlement config mock_sig now n request (w : world OpsDb Event) :
  ((monitor_pending_transactions config now w).1 = Err FDb
   \/ (monitor_pending_transactions config now w).1 = Ok 0%nat)
  /\ ((retry_failed_transactions settlement config mock_sig now n w).1 = Err FDb
      \/ (retry_failed_transactions settlement config mock_sig now n w).1 = Ok 0%nat)
  /\ match (retry_transaction settlement config mock_sig now request w).1 with
     | Ok a => rp_success a = false
     | Err e => e = FPanic
     end.
Proof.
  pose proof (monitor_quiet config now w) as Q1.
  pose proof (retry_failed_quiet settlement config mock_sig now n w) as Q2.
  pose proof (retry_one_quiet settlement config mock_sig now request w) as Q3.
  destruct (monitor_pending_transactions config now w), (retry_failed_transactions _ _ _ _ _ w),
    (retry_transaction _ _ _ _ _ w).
  destruct Q1 as (_ & _ & Q1), Q2 as (_ & _ & Q2), Q3 as (_ & _ & Q3). by split_and!.
Qed.

Lemma awaiting_elem d r : r ∈ awaiting d <-> r ∈ blockchain_operations d
  /\ (tk_status (op_columns r) = Some "pending" \/ tk_status (op_columns r) = Some "submitted").
Proof.
  unfold awaiting, text_is. rewrite sort_by_perm, !list_elem_of_In, List.filter_In, orb_true_iff,
    !bool_decide_eq_true. done.
Qed.

Lemma mapM_elem {A B} (f : A -> option B) l l' a : mapM f l = Some l' -> a ∈ l ->
  exists b, f a = Some b /\ b ∈ l'.
Proof.
  intros H%mapM_Some Ha. apply list_elem_of_lookup in Ha as [i Hi].
  destruct (Forall2_lookup_l _ _ _ _ _ H Hi) as (b & Hb & E). exists b.
  split; [done|]. by eapply list_elem_of_lookup_2.
Qed.

(** An operation that waits longer than the limit makes every round of the monitor fail, and with
    it all that was submitted later is never looked at. *)
Theorem monitor_blocked config now (w : world OpsDb Event) r o :
  tc_enabled config = true -> r ∈ awaiting (st w) -> decode_operation TxPending r = Some o ->
  expired config now o = true ->
  (monitor_pending_transactions config now w).1 = Err FDb.
Proof.
  intros He Hr Ho Hx. unfold monitor_pending_transactions. rewrite He. simpl. unfold mbind, M_bind.
  destruct (query awaiting w) as [[rows|e] w1] eqn:Q.
  2: { apply query_Err in Q as [-> _]. done. }
  apply query_Ok in Q as (-> & _ & _). unfold decode_all, expect.
  destruct (mapM _ _) as [l|] eqn:E; simpl; [|done].
  destruct (mapM_elem _ _ _ _ E Hr) as (o' & ? & Hin). simplify_eq.
  assert (Hl : Forall reads_swap l).
  { eapply decoded_swaps, E. unfold awaiting. apply in_view. }
  pose proof (monitor_each_quiet config now l 0 Hl w1) as M.
  destruct (monitor_each _ _ _ _ _) as [res w2]. destruct M as (_ & _ & [->|[_ Hf]]); [done|].
  eapply list.Forall_forall in Hf; [|exact Hin]. congruence.
Qed.

(** A list of transactions answers with exactly the rows it selects, newest first within its
    window; one row without a user or a type, as every meter reading and every order is, makes it
    fail. *)
Theorem transactions_listed f (w : world OpsDb Event) : has_quote f = false -> faults w = [] ->
  natural (tf_limit f) = true -> natural (tf_offset f) = true ->
  (Forall (fun r => op_user_id r <> None /\ tk_type (op_columns r) <> None
                    /\ tk_status (op_columns r) <> None /\ row_created r <> None) (selected f (st w)) ->
   exists l, get_transactions f w = (Ok (response_of <$> l), w)
     /\ Forall2 (fun r o => decode_operation TxPending r = Some o) (selected f (st w)) l)
  /\ (forall r, r ∈ selected f (st w) -> op_user_id r = None \/ tk_type (op_columns r) = None ->
      get_transactions f w = (Err FDb, w)).
Proof.
  intros Hq Hf Hl Ho.
  assert (E : get_transactions f w = match mapM (decode_operation TxPending) (selected f (st w)) with
      Some l => (Ok (response_of <$> l), w) | None => (Err FDb, w) end).
  { unfold get_transactions, get_transactions_with_filters, mbind, M_bind. rewrite exec_ret_calm by done.
    unfold run_filtered. rewrite Hq, Hl, Ho. simpl. unfold decode_all, expect.
    replace (set_st (st w) w) with w by (by destruct w). by destruct (mapM _ _). }
  split.
  - intros Hr. rewrite E.
    destruct (mapM (decode_operation TxPending) (selected f (st w))) as [l|] eqn:M.
    + exists l. split; [done|]. by apply mapM_Some.
    + apply mapM_None, list.Exists_exists in M as (r & Hin & M).
      rewrite list.Forall_forall in Hr. destruct (Hr _ Hin) as (? & ? & ? & Hc). unfold row_created in Hc.
      unfold decode_operation in M. by destruct (op_user_id r), (tk_type _), (tk_status _), (tk_created_at _).
  - intros r Hin Hr. rewrite E.
    destruct (mapM _ _) as [l|] eqn:M; [|done].
    destruct (mapM_elem _ _ _ _ M Hin) as (o & D & _). unfold decode_operation in D.
    destruct Hr as [Hr|Hr]; rewrite Hr in D; [done|]. by destruct (op_user_id r).
Qed.

(** The filter on signatures selects nothing out: also a list of the transactions without one
    shows those that have one. *)
Theorem signature_filter_ignored f b :
  get_transactions {| tf_user_id := tf_user_id f; tf_operation_type := tf_operation_type f;
      tf_tx_type := tf_tx_type f; tf_status := tf_status f; tf_date_from := tf_date_from f;
      tf_date_to := tf_date_to f; tf_min_attempts := tf_min_attempts f; tf_has_signature := b;
      tf_limit := tf_limit f; tf_offset := tf_offset f |} = get_transactions f.
Proof. done. Qed.

Lemma text_app_assoc (a b c : string) : (a +:+ b) +:+ c = a +:+ (b +:+ c).
Proof. induction a as [|x a IH]; [done|exact (f_equal (String x) IH)]. Qed.

(** What a caller writes behind a quote becomes part of the statement. *)
Theorem filter_injects f condition (w : world OpsDb Event) :
  tf_operation_type f = Some ("x' OR " +:+ condition) ->
  exists before after,
    filter_sql f = before +:+ " AND operation_type = 'x' OR " +:+ condition +:+ "'" +:+ after
    /\ run_filtered f (st w) = other_statement (filter_sql f) (st w).
Proof.
  intros Hf. exists select_operations, (more_clauses f). split.
  - unfold filter_sql. rewrite Hf. unfold clause, id. rewrite !text_app_assoc. reflexivity.
  - unfold run_filtered, has_quote. rewrite Hf. done.
Qed.

(** The statistics: no state is counted twice, and what is processing is what was submitted. *)
Theorem stats_add_up (w w' : world OpsDb Event) s : get_transaction_stats w = (Ok s, w') ->
  0 <= ts_pending_count s /\ 0 <= ts_submitted_count s /\ 0 <= ts_confirmed_count s
  /\ 0 <= ts_failed_count s
  /\ ts_pending_count s + ts_submitted_count s + ts_confirmed_count s + ts_failed_count s
     <= ts_total_count s
  /\ ts_processing_count s = ts_submitted_count s
  /\ ts_total_count s = Z.of_nat (length (blockchain_operations (st w))).
Proof.
  unfold get_transaction_stats, count. intros H.
  do 5 (apply bind_Ok in H as (? & ? & Q & H); apply query_Ok in Q as (-> & ? & ?)).
  apply bind_Ok in H as (avg & ? & _ & H). apply ret_Ok in H as (<- & _). simpl. norm_st.
  split_and!; try lia. unfold with_status_text.
  induction (blockchain_operations (st w)) as [|r l IH]; [done|]. simpl.
  unfold text_is in *. destruct (tk_status (op_columns r)); [|simpl; lia].
  repeat (case_bool_decide; simplify_eq/=); lia.
Qed.
End facts.

(** ** Witnesses *)

#[local] Existing Instances std_numerics demo_env demo_keys demo_cipher demo_base64 chain_of_signatures std_chars.

(** A node that knows one signature, as a success. *)
Definition demo_outside : OpsOutside := {|
  read_signature s := if (s =? "")%string then None else Some s;
  signature_outcome _ s := if (s =? "5igDone")%string then Ok (Some true) else Ok None;
  display_time _ := "2026-01-01 00:00:00 UTC";
  other_statement _ _ := None;
  average_seconds _ := Some None;
|}.
#[local] Existing Instance demo_outside.

Definition tracked_as (tx_type : option string) (sig : string) (submitted : DateTime) : Tracked :=
  {| tk_signature := Some sig; tk_type := tx_type; tk_status := Some "submitted";
     tk_attempts := Some 0; tk_last_error := None; tk_submitted_at := Some submitted;
     tk_confirmed_at := None; tk_created_at := Some submitted |}.

(** A confirmed settlement and an order on the chain. *)
Definition demo_ops : OpsDb :=
  {| od_orders := {[ 1%N := (7%N, tracked_as None "5igOrder" 5000000000) ]};
     od_settlements := {[ 2%N := (7%N, tracked_as (Some "settlement") "5igDone" 1000000000) ]};
     od_readings := ∅; od_users := ∅; od_books := trade_db |}.

(** The settlement alone, which every list can show. *)
Definition only_settlement : OpsDb :=
  {| od_orders := ∅; od_settlements := od_settlements demo_ops; od_readings := ∅; od_users := ∅;
     od_books := od_books demo_ops |}.

Definition any_filter : TransactionFilters :=
  {| tf_user_id := None; tf_operation_type := None; tf_tx_type := None; tf_status := None;
     tf_date_from := None; tf_date_to := None; tf_min_attempts := None; tf_has_signature := None;
     tf_limit := Some 10; tf_offset := None |}.

Example tracking_inert_witness :
  let calls := [MonitorPending 2000000000; GetTransactions any_filter; GetStats] in
  let w := World only_settlement [] [] in
  st (coordinate_all default_config default_monitoring calls w) = only_settlement
  /\ trace (coordinate_all default_config default_monitoring calls w)
     = [EvChain (SignatureStatus "5igDone") true].
Proof.
  split; [|vm_compute; reflexivity].
  refine (proj1 (tracking_inert default_config default_monitoring _ (World only_settlement [] []) _)).
  repeat constructor.
Defined.

(** Two hours after its submission the settlement blocks the monitor. *)
Example monitor_blocked_witness :
  (monitor_pending_transactions default_monitoring 7201000000000 (World only_settlement [] [])).1 = Err FDb.
Proof.
  eapply monitor_blocked with (r := {| op_operation_type := "settlement"; op_operation_id := 2%N;
    op_user_id := Some 7%N; op_columns := tracked_as (Some "settlement") "5igDone" 1000000000 |}).
  - reflexivity.
  - by left.
  - vm_compute. reflexivity.
  - vm_compute. reflexivity.
Defined.

Example transactions_listed_witness :
  get_transactions any_filter (World demo_ops [] []) = (Err FDb, World demo_ops [] [])
  /\ exists l, get_transactions any_filter (World only_settlement [] [])
       = (Ok (response_of <$> l), World only_settlement [] []).
Proof.
  split.
  - eapply (proj2 (transactions_listed any_filter (World demo_ops [] []) eq_refl eq_refl eq_refl eq_refl)
      {| op_operation_type := "trading_order"; op_operation_id := 1%N; op_user_id := Some 7%N;
         op_columns := tracked_as None "5igOrder" 5000000000 |}); [|by right].
    by left.
  - destruct (proj1 (transactions_listed any_filter (World only_settlement [] []) eq_refl eq_refl eq_refl eq_refl))
      as (l & E & _); [|by exists l].
    replace (selected any_filter (st (World only_settlement [] []))) with
      [{| op_operation_type := "settlement"; op_operation_id := 2%N;
          op_user_id := Some 7%N; op_columns := tracked_as (Some "settlement") "5igDone" 1000000000 |}]
      by reflexivity.
    repeat constructor; discriminate.
Defined.

Example filter_injects_witness : exists before after,
  filter_sql {| tf_user_id := None; tf_operation_type := Some "x' OR 'a'='a"; tf_tx_type := None;
    tf_status := None; tf_date_from := None; tf_date_to := None; tf_min_attempts := None;
    tf_has_signature := None; tf_limit := None; tf_offset := None |}
  = before +:+ " AND operation_type = 'x' OR 'a'='a'" +:+ after.
Proof.
  destruct (filter_injects {| tf_user_id := None; tf_operation_type := Some "x' OR 'a'='a"; tf_tx_type := None;
    tf_status := None; tf_date_from := None; tf_date_to := None; tf_min_attempts := None;
    tf_has_signature := None; tf_limit := None; tf_offset := None |} "'a'='a" (World demo_ops [] []) eq_refl)
    as (b & a & E & _).
  exists b, a. exact E.
Defined.

Example stats_add_up_witness : exists s w',
  get_transaction_stats (World demo_ops [] []) = (Ok s, w') /\ ts_submitted_count s = 2
  /\ ts_pending_count s + ts_submitted_count s + ts_confirmed_count s + ts_failed_count s <= ts_total_count s.
Proof.
  destruct (get_transaction_stats (World demo_ops [] [])) as [[s|e] w'] eqn:E; [|by vm_compute in E].
  exists s, w'. split; [done|]. split; [vm_compute in E; by injection E as <- _|].
  by destruct (stats_add_up _ _ _ E) as (_ & _ & _ & _ & ? & _).
Defined.
