(* ===== verification/Submissions.v ===== *)
(** What surrounds the sending of a transaction: the validation of a request
    ([src/services/validation/transaction_validation_service.rs]), the priority fee
    ([src/services/blockchain/priority_fee.rs]) and the stand-in service with its monitor, retries,
    queue and counters ([src/services/transaction/service.rs]).

    The services a validation asks and the node's recent fees are interfaces.  A [Duration] is in
    nanoseconds; the time of a call is an argument. *)
From S2P Require Import Prelude Floats Errors Store Schema Text Accounts Certificates Operations.
From stdpp Require Import pretty.
Open Scope string_scope.
Open Scope Z_scope.
#[local] Set Warnings "-clear-no-such-hyp".

(** ** Validation *)

Record TradingCertificate := {
  ec_certificate_id : string;
  ec_energy_amount : Z;
  ec_validated_for_trading : bool;
  ec_expires_at : option DateTime;
}.

Record MarketInfo := {
  mi_market_pubkey : string;
  mi_active : bool;
  mi_market_fee_bps : Z;
}.

(** The trait [ValidationServices]; the repository has no implementation of it. *)
Class ValidationServices := {
  get_erc_certificate : string -> res ApiError TradingCertificate;
  get_market : string -> res ApiError MarketInfo;
  get_user_balance : string -> string -> res ApiError Z;
  is_user_eligible_to_vote : Uuid -> Z -> res ApiError bool;
  has_oracle_authority : Uuid -> res ApiError bool;
  has_registry_authority : Uuid -> string -> res ApiError bool;
}.

Record ValidationError := { ve_code : string; ve_message : string; ve_field : option string }.

Definition validation_new (code message : string) : ValidationError :=
  {| ve_code := code; ve_message := message; ve_field := None |}.
Definition validation_with_field (code message field : string) : ValidationError :=
  {| ve_code := code; ve_message := message; ve_field := Some field |}.

Inductive TransactionPayload :=
| PayEnergyTrade (market_pubkey : string) (energy_amount price_per_kwh : Z) (order_type : string)
    (erc_certificate_id : option string)
| PayTokenMint (recipient : string) (amount : Z)
| PayTokenTransfer (from to : string) (amount : Z) (token_mint : string)
| PayGovernanceVote (proposal_id : Z) (vote : bool)
| PayOracleUpdate (price_feed_id : string) (price confidence : Z)
| PayRegistryUpdate (participant_id : string) (update_data : Json).

Record CreateTransactionRequest := {
  cr_user_id : Uuid;
  cr_transaction_type : TransactionType;
  cr_payload : TransactionPayload;
  cr_skip_prevalidation : bool;
}.

Section validation.
Context `{VS : ValidationServices}.
Context (now : DateTime).

Abbreviation verdict := (res ValidationError unit).

Definition refuse (code message : string) : verdict := Err (validation_new code message).

(** [.map_err(|e| ..)?] on the answer of a service. *)
Definition answered {A} (r : res ApiError A) (code what : string) (k : A -> verdict) : verdict :=
  match r with
  | Ok a => k a
  | Err e => refuse code (what +:+ display e)
  end.

Definition check_certificate (energy_amount : Z) (cert : TradingCertificate) : verdict :=
  if negb (ec_validated_for_trading cert)
  then refuse "ERC_NOT_VALIDATED" "ERC certificate is not validated for trading"
  else if match ec_expires_at cert with Some t => t <? now | None => false end
  then refuse "ERC_EXPIRED" "ERC certificate has expired"
  else if ec_energy_amount cert <? energy_amount
  then refuse "EXCEEDS_ERC_AMOUNT" "Energy amount exceeds ERC certificate amount"
  else Ok tt.

Definition validate_energy_trade (market_pubkey : string) (energy_amount price_per_kwh : Z)
    (erc_certificate_id : option string) : verdict :=
  if energy_amount =? 0
  then refuse "INVALID_ENERGY_AMOUNT" "Energy amount must be greater than 0"
  else if price_per_kwh =? 0
  then refuse "INVALID_PRICE" "Price per kWh must be greater than 0"
  else answered (get_market market_pubkey) "MARKET_ERROR" "Failed to fetch market: " (fun market =>
    if negb (mi_active market)
    then refuse "MARKET_INACTIVE" "Market is not active for trading"
    else match erc_certificate_id with
         | Some cert_id =>
             answered (get_erc_certificate cert_id) "ERC_ERROR" "Failed to fetch ERC certificate: "
               (check_certificate energy_amount)
         | None => Ok tt
         end).

Definition validate_token_mint (user_id : Uuid) (recipient : string) (amount : Z) : verdict :=
  if (recipient =? "")%string
  then refuse "INVALID_RECIPIENT" "Recipient address cannot be empty"
  else if amount =? 0
  then refuse "INVALID_AMOUNT" "Token amount must be greater than 0"
  else if Nat.eqb (utf8_length (uuid_to_string user_id)) 0
  then refuse "UNAUTHORIZED" "User not authorized to mint tokens"
  else Ok tt.

Definition validate_token_transfer (from to : string) (amount : Z) (token_mint : string) : verdict :=
  if (from =? "")%string
  then Err (validation_with_field "INVALID_SENDER" "Sender address cannot be empty" "from")
  else if (to =? "")%string
  then Err (validation_with_field "INVALID_RECIPIENT" "Recipient address cannot be empty" "to")
  else if (from =? to)%string
  then refuse "SELF_TRANSFER" "Cannot transfer tokens to the same address"
  else if amount =? 0
  then refuse "INVALID_AMOUNT" "Token amount must be greater than 0"
  else answered (get_user_balance from token_mint) "BALANCE_ERROR" "Failed to fetch balance: "
    (fun balance =>
       if balance <? amount
       then refuse "INSUFFICIENT_BALANCE" "Insufficient token balance for transfer"
       else Ok tt).

Definition validate_governance_vote (user_id : Uuid) (proposal_id : Z) : verdict :=
  if proposal_id =? 0
  then refuse "INVALID_PROPOSAL_ID" "Proposal ID must be greater than 0"
  else answered (is_user_eligible_to_vote user_id proposal_id) "VOTING_ERROR"
         "Failed to check voting eligibility: " (fun eligible : bool =>
       if eligible then Ok tt
       else refuse "NOT_ELIGIBLE_TO_VOTE" "User is not eligible to vote on this proposal").

Definition validate_oracle_update (user_id : Uuid) (price_feed_id : string) (price confidence : Z) : verdict :=
  if (price_feed_id =? "")%string
  then refuse "INVALID_PRICE_FEED_ID" "Price feed ID cannot be empty"
  else if price =? 0
  then refuse "INVALID_PRICE" "Price must be greater than 0"
  else if 100 <? confidence
  then refuse "INVALID_CONFIDENCE" "Confidence must be between 0 and 100"
  else answered (has_oracle_authority user_id) "ORACLE_ERROR" "Failed to check oracle authority: "
    (fun has_authority : bool =>
       if has_authority then Ok tt
       else refuse "UNAUTHORIZED_ORACLE" "User does not have oracle authority").

Definition validate_registry_update (user_id : Uuid) (participant_id : string) (update_data : Json) : verdict :=
  if (participant_id =? "")%string
  then refuse "INVALID_PARTICIPANT_ID" "Participant ID cannot be empty"
  else if match update_data with JNull => true | _ => false end
  then refuse "INVALID_UPDATE_DATA" "Update data cannot be null"
  else answered (has_registry_authority user_id participant_id) "REGISTRY_ERROR"
         "Failed to check registry authority: " (fun has_authority : bool =>
       if has_authority then Ok tt
       else refuse "UNAUTHORIZED_REGISTRY" "User does not have authority to update this participant").

Definition validate_transaction (request : CreateTransactionRequest) : verdict :=
  if cr_skip_prevalidation request then Ok tt
  else match cr_payload request with
       | PayEnergyTrade market energy price _ cert => validate_energy_trade market energy price cert
       | PayTokenMint recipient amount => validate_token_mint (cr_user_id request) recipient amount
       | PayTokenTransfer from to amount mint => validate_token_transfer from to amount mint
       | PayGovernanceVote proposal _ => validate_governance_vote (cr_user_id request) proposal
       | PayOracleUpdate feed price confidence =>
           validate_oracle_update (cr_user_id request) feed price confidence
       | PayRegistryUpdate participant data =>
           validate_registry_update (cr_user_id request) participant data
       end.

(** *** What an accepted request has *)

Definition usable_certificate (energy : Z) (c : TradingCertificate) : Prop :=
  ec_validated_for_trading c = true /\ (forall t, ec_expires_at c = Some t -> now <= t)
  /\ energy <= ec_energy_amount c.

Definition fit_payload (user : Uuid) (p : TransactionPayload) : Prop :=
  match p with
  | PayEnergyTrade market energy price _ cert =>
      energy <> 0 /\ price <> 0 /\ (exists m, get_market market = Ok m /\ mi_active m = true)
      /\ forall id, cert = Some id -> exists c, get_erc_certificate id = Ok c /\ usable_certificate energy c
  | PayTokenMint recipient amount => recipient <> "" /\ amount <> 0
  | PayTokenTransfer from to amount mint =>
      from <> "" /\ to <> "" /\ from <> to /\ amount <> 0
      /\ exists b, get_user_balance from mint = Ok b /\ amount <= b
  | PayGovernanceVote proposal _ => proposal <> 0 /\ is_user_eligible_to_vote user proposal = Ok true
  | PayOracleUpdate feed price confidence =>
      feed <> "" /\ price <> 0 /\ confidence <= 100 /\ has_oracle_authority user = Ok true
  | PayRegistryUpdate participant data =>
      participant <> "" /\ data <> JNull /\ has_registry_authority user participant = Ok true
  end.

Lemma asked_Ok {A} (r : res ApiError A) code what k :
  answered r code what k = Ok tt <-> exists a, r = Ok a /\ k a = Ok tt.
Proof.
  unfold answered. destruct r as [a|e]; split; [by exists a|by intros (? & [= ->] & ?)|done|by intros (? & ? & ?)].
Qed.

Lemma guard_Ok (b : bool) v code message : (if b then refuse code message else v) = Ok tt <-> b = false /\ v = Ok tt.
Proof. destruct b; split; [done|by intros [? _]|done|by intros [_ ?]]. Qed.

Lemma field_guard_Ok (b : bool) v e : (if b then Err e else v : verdict) = Ok tt <-> b = false /\ v = Ok tt.
Proof. destruct b; split; [done|by intros [? _]|done|by intros [_ ?]]. Qed.

Lemma guard_true (b : bool) code message : (if b then Ok tt else refuse code message) = Ok tt <-> b = true.
Proof. by destruct b. Qed.

Lemma certificate_Ok energy c : check_certificate energy c = Ok tt <-> usable_certificate energy c.
Proof.
  unfold check_certificate, usable_certificate. rewrite !guard_Ok, negb_false_iff, Z.ltb_ge.
  split.
  - intros (? & H & ? & _). split_and!; [done| |done]. intros t Et. by rewrite Et, Z.ltb_ge in H.
  - intros (? & H & ?). split_and!; [done| |done|done].
    destruct (ec_expires_at c); [|done]. apply Z.ltb_ge. auto.
Qed.

(** A request passes exactly when its payload has what its kind needs, or when its sender asked
    for no validation; the type it names plays no part, nor does who mints. *)
Theorem validation_exact (request : CreateTransactionRequest) :
  validate_transaction request = Ok tt <->
  cr_skip_prevalidation request = true \/ fit_payload (cr_user_id request) (cr_payload request).
Proof.
  unfold validate_transaction. destruct (cr_skip_prevalidation request); [naive_solver|].
  transitivity (fit_payload (cr_user_id request) (cr_payload request)); [|naive_solver].
  destruct (cr_payload request); simpl.
  - unfold validate_energy_trade. rewrite !guard_Ok, asked_Ok, !Z.eqb_neq.
    setoid_rewrite guard_Ok. setoid_rewrite negb_false_iff. destruct erc_certificate_id as [id|].
    + setoid_rewrite asked_Ok. setoid_rewrite certificate_Ok. naive_solver.
    + naive_solver.
  - unfold validate_token_mint. rewrite uuid_length, !guard_Ok, String.eqb_neq, Z.eqb_neq. naive_solver.
  - unfold validate_token_transfer. rewrite !field_guard_Ok, !guard_Ok, asked_Ok, !String.eqb_neq, Z.eqb_neq.
    setoid_rewrite guard_Ok. setoid_rewrite Z.ltb_ge. naive_solver.
  - unfold validate_governance_vote. rewrite guard_Ok, asked_Ok, Z.eqb_neq. setoid_rewrite guard_true. naive_solver.
  - unfold validate_oracle_update. rewrite !guard_Ok, asked_Ok, String.eqb_neq, Z.eqb_neq, Z.ltb_ge.
    setoid_rewrite guard_true. naive_solver.
  - unfold validate_registry_update. rewrite !guard_Ok, asked_Ok, String.eqb_neq. setoid_rewrite guard_true.
    destruct update_data; naive_solver.
Qed.
End validation.

(** ** Priority fees *)

Module PriorityFee.

(** The [TransactionType] of [priority_fee.rs]. *)
Inductive FeeClass := FeeTransfer | FeeMinting | FeeTrading | FeeSettlement | FeeOther.

Definition multiplier (t : FeeClass) : spec_float :=
  match t with
  | FeeTransfer => f64_of_Z 1
  | FeeMinting => f64_lit 3 2
  | FeeTrading => f64_of_Z 2
  | FeeSettlement => f64_lit 5 2
  | FeeOther => f64_of_Z 1
  end.

Record CachedFee := { cf_base_fee : Z; cf_timestamp : Z }.

(** [new]: ten seconds of validity, and the limits in micro-lamports. *)
Definition cache_ttl : Z := 10000000000.
Definition default_fee : Z := 10000.
Definition min_fee : Z := 1000.
Definition max_fee : Z := 1000000.

(** [fee_values.get((len * 75) / 100)] of the sorted values. *)
Definition p75 (fee_values : list Z) : Z :=
  default default_fee (sort_by Z.leb fee_values !! ((length fee_values * 75) / 100)%nat).

(** [saturating_mul(120) / 100]. *)
Definition buffered (fee : Z) : Z := Z.min u64_max (fee * 120) / 100.

(** [None]: the node did not answer. *)
Definition fetch_priority_fee_from_network (fees : option (list Z)) : Z :=
  match fees with
  | Some fees =>
      match List.filter (fun f => 0 <? f) fees with
      | [] => default_fee
      | fee_values => buffered (p75 fee_values)
      end
  | None => default_fee
  end.

(** The fee, the cache afterwards, and whether the node was asked. *)
Definition get_base_priority_fee (now : Z) (fees : option (list Z)) (cache : option CachedFee)
    : Z * option CachedFee * bool :=
  match cache with
  | Some cached =>
      if Z.max 0 (now - cf_timestamp cached) <? cache_ttl then (cf_base_fee cached, cache, false)
      else let fee := fetch_priority_fee_from_network fees in
           (fee, Some {| cf_base_fee := fee; cf_timestamp := now |}, true)
  | None => let fee := fetch_priority_fee_from_network fees in
            (fee, Some {| cf_base_fee := fee; cf_timestamp := now |}, true)
  end.

Definition clamp (lo hi z : Z) : Z := if z <? lo then lo else if hi <? z then hi else z.

Definition get_priority_fee (t : FeeClass) (now : Z) (fees : option (list Z)) (cache : option CachedFee)
    : Z * option CachedFee * bool :=
  let '(base_fee, cache', was_asked) := get_base_priority_fee now fees cache in
  let adjusted_fee := as_unsigned u64_max (f64_mul (f64_of_Z base_fee) (multiplier t)) in
  (clamp min_fee max_fee adjusted_fee, cache', was_asked).

Definition clear_cache : option CachedFee := None.

(** A transaction never offers less than the smallest nor more than the largest fee, whatever the
    node reports and whatever the cache holds. *)
Theorem fee_limits t now fees cache :
  min_fee <= (get_priority_fee t now fees cache).1.1 <= max_fee.
Proof.
  unfold get_priority_fee. destruct (get_base_priority_fee _ _ _) as [[b c] a]. simpl.
  unfold clamp, min_fee, max_fee. destruct (Z.ltb_spec (as_unsigned u64_max (f64_mul (f64_of_Z b) (multiplier t))) 1000).
  - lia.
  - destruct (Z.ltb_spec 1000000 (as_unsigned u64_max (f64_mul (f64_of_Z b) (multiplier t)))); lia.
Qed.

(** The position of the percentile is always inside the list: the fallback beside it is never
    used. *)
Lemma p75_position (l : list Z) : l <> [] ->
  sort_by Z.leb l !! ((length l * 75) / 100)%nat = Some (p75 l).
Proof.
  intros Hl. unfold p75.
  destruct (sort_by Z.leb l !! _) as [x|] eqn:E; [done|].
  apply lookup_ge_None in E. rewrite sort_by_perm in E.
  assert (0 < length l)%nat by (destruct l; simpl; [done|lia]).
  assert (length l * 75 / 100 < length l)%nat by (apply Nat.Div0.div_lt_upper_bound; lia). lia.
Qed.

Lemma ascending (l : list Z) : Sorted.StronglySorted Z.le (sort_by Z.leb l).
Proof.
  apply Sorted.Sorted_StronglySorted; [intros ? ? ?; lia|].
  assert (R : Sorted.Sorted (rel Z.leb) (sort_by Z.leb l)).
  { apply sort_by_sorted. intros a b. rewrite !Z.leb_le. lia. }
  induction R as [|a k _ IH Hd]; [constructor|]. constructor; [done|].
  destruct Hd as [|b k Hb]; constructor. by apply Z.leb_le.
Qed.

Lemma sorted_count (l : list Z) i x : Sorted.StronglySorted Z.le l -> l !! i = Some x ->
  (i < length (List.filter (fun y => (y <=? x)%Z) l))%nat.
Proof.
  revert i. induction l as [|y l IH]; intros i Hs Hi; [done|].
  inversion Hs as [|? ? Hs' Hy]; subst. destruct i as [|i]; simpl in Hi.
  - simplify_eq. simpl. rewrite Z.leb_refl. simpl. lia.
  - simpl. assert (y <= x) as ->%Z.leb_le.
    { rewrite List.Forall_forall in Hy. apply Hy, list_elem_of_In. by eapply list_elem_of_lookup_2. }
    simpl. specialize (IH i Hs' Hi). lia.
Qed.

(** The fee fetched covers three quarters of the fees that were paid: at least that share of the
    fees is at most the percentile, and the fee is the percentile with a fifth on top. *)
Theorem fee_covers_quartile (fees : list Z) :
  let paid := List.filter (fun f => 0 <? f) fees in
  Forall (fun f => f <= u64_max) fees -> paid <> [] ->
  exists p, p ∈ paid /\ fetch_priority_fee_from_network (Some fees) = Z.min u64_max (p * 120) / 100
    /\ (3 * length paid < 4 * length (List.filter (fun f => f <=? p)%Z paid) + 4)%nat
    /\ (p * 100 <= u64_max -> p <= fetch_priority_fee_from_network (Some fees)).
Proof.
  intros paid Hf Hp. pose proof (p75_position paid Hp) as E. exists (p75 paid).
  assert (F : fetch_priority_fee_from_network (Some fees) = buffered (p75 paid)).
  { unfold fetch_priority_fee_from_network. fold paid. by destruct paid. }
  assert (Hin : p75 paid ∈ paid).
  { pose proof (list_elem_of_lookup_2 _ _ _ E) as H. by rewrite sort_by_perm in H. }
  assert (0 < p75 paid).
  { apply list_elem_of_In, List.filter_In in Hin as [_ H]. by apply Z.ltb_lt in H. }
  split_and!; [done|done| |].
  - rewrite <- (sort_by_perm Z.leb paid) at 2.
    pose proof (ascending paid) as S.
    pose proof (sorted_count _ _ _ S E) as C.
    pose proof (Nat.div_mod_eq (length paid * 75) 100). pose proof (Nat.mod_upper_bound (length paid * 75) 100). lia.
  - intros Hu. rewrite F. unfold buffered. apply Z.div_le_lower_bound; [lia|]. lia.
Qed.

(** Within ten seconds the node is asked once. *)
Theorem fee_cached t t' now now' fees fees' cache :
  let '(_, cache1, _) := get_priority_fee t now fees cache in
  now <= now' -> now' - now < cache_ttl -> (get_priority_fee t' now' fees' (Some {| cf_base_fee := fetch_priority_fee_from_network fees; cf_timestamp := now |})).2 = false
  /\ (cache = None -> cache1 = Some {| cf_base_fee := fetch_priority_fee_from_network fees; cf_timestamp := now |}).
Proof.
  destruct (get_priority_fee t now fees cache) as [[f cache1] a] eqn:E. intros H1 H2. split.
  - unfold get_priority_fee, get_base_priority_fee. cbn [cf_timestamp cf_base_fee].
    destruct (Z.ltb_spec (Z.max 0 (now' - now)) cache_ttl); [done|lia].
  - intros ->. by injection E as _ <- _.
Qed.
End PriorityFee.

(** ** The stand-in service *)

(** A signature is the text of a hash of the time. *)
Definition mock_signature (hash : string) : string := "mock_signature_" +:+ hash.

Record TransactionSubmissionResult := {
  su_signature : string;
  su_status : string;
  su_block_time : DateTime;
  su_confirmations : Z;
}.

Record MockStatus := {
  ms_signature : string;
  ms_status : string;
  ms_block_time : option DateTime;
  ms_confirmations : Z;
}.

Definition mock_submit (hash : string) (now : DateTime) : res ApiError TransactionSubmissionResult :=
  Ok {| su_signature := mock_signature hash; su_status := "confirmed"; su_block_time := now;
        su_confirmations := 1 |}.

Definition mock_status (signature : string) (now : DateTime) : res ApiError MockStatus :=
  if (String.length signature <? 10)%nat then Err (BadRequest "Invalid signature format")
  else Ok {| ms_signature := signature; ms_status := "success"; ms_block_time := Some now;
             ms_confirmations := 1 |}.

Definition retry_mock (hash signature : string) (now : DateTime) : res ApiError TransactionSubmissionResult :=
  match mock_status signature now with
  | Err e => Err e
  | Ok status =>
      if negb (ms_status status =? "failed")%string
      then Err (BadRequest "Transaction is not in failed state")
      else mock_submit hash now
  end.

Definition parse_transaction (transaction : string) : res ApiError string :=
  if (transaction =? "")%string then Err (BadRequest "Empty transaction") else Ok transaction.

(** One look every two seconds; [now] counts from the start. [None]: not ended within the fuel. *)
Fixpoint monitor_transaction (fuel : nat) (signature : string) (now max_wait_time : Z)
    : option (res ApiError MockStatus) :=
  match fuel with
  | O => None
  | S fuel =>
      match mock_status signature now with
      | Err e => Some (Err e)
      | Ok status =>
          if negb (ms_status status =? "pending")%string then Some (Ok status)
          else if max_wait_time <? now then Some (Err (Internal "Transaction monitoring timeout"))
          else monitor_transaction fuel signature (now + 2000000000) max_wait_time
      end
  end.

Definition process_transaction_batch (hash : nat -> string) (now : DateTime) (transactions : list string)
    : list TransactionSubmissionResult :=
  omap (fun i => match mock_submit (hash i) now with Ok r => Some r | Err _ => None end)
    (seq 0 (length transactions)).

Definition mock_submit_with_retry (max_retries : nat) (hash : string) (now : DateTime)
    : res ApiError TransactionSubmissionResult :=
  match max_retries with
  | O => Err (Internal "All retry attempts failed")
  | S _ => mock_submit hash now
  end.

(** *** The queue *)

Record QueuedTransaction := {
  qt_id : string;
  qt_transaction : string;
  qt_priority : Z;
  qt_created_at : DateTime;
  qt_retry_count : Z;
}.

Record TransactionQueue := {
  tq_pending : gmap string QueuedTransaction;
  tq_max_queue_size : nat;
}.

Definition new_queue (max_queue_size : nat) : TransactionQueue :=
  {| tq_pending := ∅; tq_max_queue_size := max_queue_size |}.

Definition add_transaction (t : QueuedTransaction) (q : TransactionQueue)
    : res ApiError unit * TransactionQueue :=
  if (tq_max_queue_size q <=? size (tq_pending q))%nat
  then (Err (Internal "Transaction queue is full"), q)
  else (Ok tt, {| tq_pending := <[qt_id t := t]> (tq_pending q);
                  tq_max_queue_size := tq_max_queue_size q |}).

Definition remove_transaction (id : string) (q : TransactionQueue)
    : option QueuedTransaction * TransactionQueue :=
  (tq_pending q !! id,
   {| tq_pending := delete id (tq_pending q); tq_max_queue_size := tq_max_queue_size q |}).

Definition get_queued (id : string) (q : TransactionQueue) : option QueuedTransaction := tq_pending q !! id.
Definition get_pending_count (q : TransactionQueue) : nat := size (tq_pending q).
Definition get_high_priority_transactions (q : TransactionQueue) : list QueuedTransaction :=
  List.filter (fun t => 2 <=? qt_priority t) (map_to_list (tq_pending q)).*2.

Inductive queue_op := AddTx (t : QueuedTransaction) | RemoveTx (id : string).

Definition run_queue_op (q : TransactionQueue) (o : queue_op) : TransactionQueue :=
  match o with
  | AddTx t => (add_transaction t q).2
  | RemoveTx id => (remove_transaction id q).2
  end.

(** *** Counters *)

Record TransactionAnalytics := {
  ta_total_submitted : Z;
  ta_total_confirmed : Z;
  ta_total_failed : Z;
  ta_average_confirmation_time : Z;
}.

Definition new_analytics : TransactionAnalytics :=
  {| ta_total_submitted := 0; ta_total_confirmed := 0; ta_total_failed := 0;
     ta_average_confirmation_time := 30000000000 |}.

Definition as_millis (d : Z) : Z := d / 1000000.

Inductive analytics_op := Submitted | Confirmed (time : Z) | Failed.

(** [record_submission], [record_confirmation] and [record_failure]. *)
Definition record (a : TransactionAnalytics) (o : analytics_op) : TransactionAnalytics :=
  match o with
  | Submitted =>
      {| ta_total_submitted := wrap_u64 (ta_total_submitted a + 1);
         ta_total_confirmed := ta_total_confirmed a; ta_total_failed := ta_total_failed a;
         ta_average_confirmation_time := ta_average_confirmation_time a |}
  | Confirmed time =>
      {| ta_total_submitted := ta_total_submitted a;
         ta_total_confirmed := wrap_u64 (ta_total_confirmed a + 1);
         ta_total_failed := ta_total_failed a;
         ta_average_confirmation_time :=
           wrap_u64 ((as_millis (ta_average_confirmation_time a) + as_millis time) / 2) * 1000000 |}
  | Failed =>
      {| ta_total_submitted := ta_total_submitted a; ta_total_confirmed := ta_total_confirmed a;
         ta_total_failed := wrap_u64 (ta_total_failed a + 1);
         ta_average_confirmation_time := ta_average_confirmation_time a |}
  end.

Definition get_success_rate (a : TransactionAnalytics) : spec_float :=
  if ta_total_submitted a =? 0 then f64_of_Z 0
  else f64_div (f64_of_Z (ta_total_confirmed a)) (f64_of_Z (ta_total_submitted a)).

(** *** Properties *)

(** The stand-in never reports a failure: no transaction can be retried, while monitoring ends at
    the first look and retrying at the first attempt. *)
Theorem stand_in_outcomes hash signature now max_wait :
  (exists m, retry_mock hash signature now = Err (BadRequest m))
  /\ monitor_transaction 1 signature now max_wait = Some (mock_status signature now)
  /\ (forall n, mock_submit_with_retry (S n) hash now = mock_submit hash now)
  /\ mock_submit_with_retry 0 hash now = Err (Internal "All retry attempts failed").
Proof.
  unfold retry_mock, monitor_transaction, mock_status.
  destruct (String.length signature <? 10)%nat; simpl; split_and!; eauto.
Qed.

Lemma queue_bound_step q o : (size (tq_pending q) <= tq_max_queue_size q)%nat ->
  (size (tq_pending (run_queue_op q o)) <= tq_max_queue_size (run_queue_op q o))%nat
  /\ tq_max_queue_size (run_queue_op q o) = tq_max_queue_size q.
Proof.
  intros H. destruct o as [t|id]; simpl.
  - unfold add_transaction. destruct (Nat.leb_spec (tq_max_queue_size q) (size (tq_pending q))); [done|].
    simpl. split; [|done]. destruct (tq_pending q !! qt_id t) eqn:E.
    + rewrite map_size_insert_Some; [lia|by eexists].
    + rewrite map_size_insert_None by done. lia.
  - split; [|done]. rewrite map_size_delete. destruct (tq_pending q !! id); simpl; lia.
Qed.

(** The queue never holds more than it was made for, and what was added is there until it is
    removed or replaced under its id. *)
Theorem queue_bounded (max : nat) (l : list queue_op) :
  let q := foldl run_queue_op (new_queue max) l in
  (get_pending_count q <= max)%nat /\ tq_max_queue_size q = max
  /\ (forall t, (get_pending_count q < max)%nat ->
        get_queued (qt_id t) (add_transaction t q).2 = Some t
        /\ forall id, id <> qt_id t -> get_queued id (add_transaction t q).2 = get_queued id q)
  /\ (forall id, get_queued id (remove_transaction id q).2 = None
        /\ (remove_transaction id q).1 = get_queued id q)
  /\ (forall t, get_pending_count q = max -> add_transaction t q = (Err (Internal "Transaction queue is full"), q)).
Proof.
  intros q. unfold get_pending_count, get_queued.
  assert (B : (size (tq_pending q) <= tq_max_queue_size q)%nat /\ tq_max_queue_size q = max).
  { unfold q. assert (G : forall q0, (size (tq_pending q0) <= tq_max_queue_size q0)%nat ->
      (size (tq_pending (foldl run_queue_op q0 l)) <= tq_max_queue_size (foldl run_queue_op q0 l))%nat
      /\ tq_max_queue_size (foldl run_queue_op q0 l) = tq_max_queue_size q0).
    { induction l as [|o l IH]; intros q0 H; [done|]. simpl.
      destruct (queue_bound_step q0 o H) as [H1 H2]. destruct (IH _ H1) as [H3 H4].
      split; [done|]. by rewrite H4. }
    refine (G (new_queue max) _). apply Nat.le_0_l. }
  destruct B as [B1 B2]. split_and!; [by rewrite <- B2|done| | |].
  - intros t Ht. unfold add_transaction. rewrite B2. destruct (Nat.leb_spec max (size (tq_pending q))); [lia|].
    simpl. split; [by rewrite lookup_insert_eq|]. intros id Hid. by rewrite lookup_insert_ne.
  - intros id. simpl. by rewrite lookup_delete_eq.
  - intros t Ht. unfold add_transaction. rewrite B2. by destruct (Nat.leb_spec max (size (tq_pending q))); [|lia].
Qed.

(** What the average does: it stays between the shortest and the longest time seen, the thirty
    seconds of the start among them; but it is the mean of the last two values, not of all: after
    one confirmation of ten seconds it shows twenty. *)
Theorem average_between lo hi (l : list analytics_op) :
  0 <= lo -> lo <= 30000 -> 30000 <= hi -> hi < 2 ^ 64 ->
  Forall (fun o => match o with Confirmed t => lo <= as_millis t <= hi | _ => True end) l ->
  lo <= as_millis (ta_average_confirmation_time (foldl record new_analytics l)) <= hi
  /\ as_millis (ta_average_confirmation_time (record new_analytics (Confirmed 10000000000))) = 20000.
Proof.
  intros H0 Hlo Hhi Hm Hl. split; [|reflexivity].
  assert (G : forall a, lo <= as_millis (ta_average_confirmation_time a) <= hi ->
    lo <= as_millis (ta_average_confirmation_time (foldl record a l)) <= hi).
  { induction Hl as [|o l Ho _ IH]; intros a Ha; [done|]. simpl. apply IH. destruct o as [|t|]; simpl; try done.
    set (x := as_millis (ta_average_confirmation_time a)) in *. set (y := as_millis t) in *.
    unfold as_millis. rewrite Z.div_mul by done.
    assert (lo <= (x + y) / 2 <= hi) by (split; [apply Z.div_le_lower_bound|apply Z.div_le_upper_bound]; lia).
    unfold wrap_u64. rewrite Z.mod_small; lia. }
  apply G. by vm_compute; split.
Qed.

(** ** Witnesses *)

(** An open market, no certificates, and everyone may do everything. *)
Definition demo_validation : ValidationServices := {|
  get_erc_certificate _ := Err (Internal "no certificate");
  get_market m := Ok {| mi_market_pubkey := m; mi_active := true; mi_market_fee_bps := 0 |};
  get_user_balance _ _ := Ok 50;
  is_user_eligible_to_vote _ _ := Ok true;
  has_oracle_authority _ := Ok true;
  has_registry_authority _ _ := Ok true;
|}.
#[local] Existing Instance demo_validation.

Example validation_exact_example :
  validate_transaction 0 {| cr_user_id := 1%N; cr_transaction_type := Swap;
    cr_payload := PayTokenTransfer "a" "b" 51 "mint"; cr_skip_prevalidation := false |}
  = Err (validation_new "INSUFFICIENT_BALANCE" "Insufficient token balance for transfer").
Proof. reflexivity. Qed.

Example fee_covers_quartile_witness :
  exists p, p ∈ [100; 200; 300; 400]
    /\ PriorityFee.fetch_priority_fee_from_network (Some [0; 300; 100; 0; 400; 200]) = Z.min u64_max (p * 120) / 100.
Proof.
  destruct (PriorityFee.fee_covers_quartile [0; 300; 100; 0; 400; 200]) as (p & Hp & E & _).
  - repeat constructor; discriminate.
  - discriminate.
  - exists p. split; [|exact E]. simpl in Hp. set_solver.
Defined.

Example average_between_witness :
  10000 <= as_millis (ta_average_confirmation_time
    (foldl record new_analytics [Submitted; Confirmed 10000000000; Failed; Confirmed 60000000000])) <= 60000.
Proof.
  refine (proj1 (average_between 10000 60000 _ _ _ _ _ _)); try lia.
  repeat constructor; vm_compute; discriminate.
Defined.
