(* ===== verification/OrderRequests.v ===== *)
(** Orders as requests: [create_order] of [src/handlers/trading/orders/create.rs], [cancel_order]
    and [update_order] of [orders/management.rs], and the order and the market account of
    [src/handlers/trading/blockchain.rs].

    The handlers work on the tables of [Schema], and call the service modelled in [Orders] and
    the escrow of [Escrow].  A statement that reads whole rows decodes them against the columns
    of the table, an argument: [migrated_columns] are those the migrations create.  HMAC-SHA256
    is an interface, as are the keys' encryption and the texts of decimals; sessions and meters,
    which are only read, are arguments. *)
From S2P Require Import Prelude Numerics Errors Store Schema Escrow Crypto OnChain Orders Settlement Notifications MatchingLifecycle OrderQueries Instructions.
From Stdlib Require Import Strings.Byte Strings.String.
From stdpp Require Import pretty.
Open Scope string_scope.
Open Scope Z_scope.

(** ** Requests *)

Record CreateOrderRequest := {
  co_side : OrderSide;
  co_energy_amount : Decimal;
  co_price_per_kwh : option Decimal;
  co_order_type : OrderType;
  co_expiry_time : option DateTime;
  co_zone_id : option Z;
  co_meter_id : option Uuid;
  co_signature : option string;
  co_timestamp : option Z;
  co_session_token : option string;
}.

Record CreateOrderResponse := {
  cp_id : Uuid;
  cp_status : OrderStatus;
  cp_created_at : DateTime;
  cp_message : string;
}.

Record UpdateOrderRequest := {
  uo_energy_amount : option Decimal;
  uo_price_per_kwh : option Decimal;
}.

(** A row of [wallet_sessions]. *)
Record WalletSession := {
  ss_user_id : Uuid;
  ss_token : string;
  ss_cached_key_encrypted : bytes;
  ss_key_salt : bytes;
  ss_key_iv : bytes;
  ss_expires_at : DateTime;
  ss_is_active : option bool;
}.

(** HMAC-SHA256 of a message under a key, in hexadecimal; keys of every length are accepted. *)
Class Hmac := { hmac_hex : bytes -> string -> string }.

(** The columns of [trading_orders] after all migrations. *)
Definition migrated_columns : list string :=
  ["id"; "user_id"; "epoch_id"; "order_type"; "energy_amount"; "price_per_kwh"; "filled_amount";
   "status"; "transaction_hash"; "created_at"; "updated_at"; "settled_at"; "side"; "kwh_amount";
   "expires_at"; "blockchain_tx_signature"; "blockchain_tx_type"; "blockchain_status";
   "blockchain_attempts"; "blockchain_last_error"; "blockchain_submitted_at";
   "blockchain_confirmed_at"; "order_pda"; "filled_at"; "zone_id"; "refund_tx_signature";
   "meter_id"; "trigger_price"; "trigger_type"; "trigger_status"; "triggered_at";
   "trailing_offset"; "session_token"].

(** ** Signatures ([create.rs]) *)

(** Arithmetic of [i64]. *)
Definition i64 (z : Z) : Z := (z + 2 ^ 63) mod 2 ^ 64 - 2 ^ 63.
Definition i64_abs (z : Z) : Z := if z <? 0 then i64 (- z) else z.

(** [(now_ts - timestamp).abs() > 5 * 60 * 1000]. *)
Definition timestamp_expired (now_ts timestamp : Z) : bool := 300000 <? i64_abs (i64 (now_ts - timestamp)).

Definition test_key : bytes := list_byte_of_string "test_secret_key".

Section requests.
Context `{NUM : Numerics} `{CAL : Calendar} `{CH : Chain} `{ENV : Env} `{CI : Cipher} `{B64 : Base64}
        `{KP : Keypairs} `{TC : TokenChain} `{DT : DecimalText} `{HM : Hmac}.

Definition signed_message (p : CreateOrderRequest) (timestamp : Z) : string :=
  OrderSide_as_str (co_side p) +:+ ":" +:+ decimal_display (co_energy_amount p) +:+ ":"
  +:+ match co_price_per_kwh p with Some x => decimal_display x | None => "" end
  +:+ ":" +:+ pretty timestamp.

Definition live_session (user : Uuid) (token : string) (now : DateTime) (s : WalletSession) : bool :=
  (ss_user_id s =? user)%N && (ss_token s =? token)%string && bool_decide (ss_is_active s = Some true)
  && (now <? ss_expires_at s).

Definition signing_key (sessions : list WalletSession) (user : Uuid) (token : option string)
    (now : DateTime) : TM bytes :=
  match token with
  | None => mret test_key
  | Some token =>
      session ← query (fun _ => List.find (live_session user token now) sessions);
      match session with
      | Some s =>
          match decrypt_private_key_bytes token (ss_cached_key_encrypted s) (ss_key_salt s) (ss_key_iv s) with
          | Ok key => mret key
          | Err FPanic => fail FPanic
          | Err _ => fail (FApi (Internal "Failed to decrypt signing key"))
          end
      | None => fail (FApi (Unauthorized "Invalid or expired session token"))
      end
  end.

Definition check_signature (sessions : list WalletSession) (user : Uuid) (p : CreateOrderRequest)
    (now : DateTime) : TM unit :=
  match co_signature p, co_timestamp p with
  | Some signature, Some timestamp =>
      if timestamp_expired (now / 1000000) timestamp
      then fail (FApi (BadRequest "Order timestamp expired"))
      else
        secret_key ← signing_key sessions user (co_session_token p) now;
        if (signature =? hmac_hex secret_key (signed_message p timestamp))%string then mret ()
        else fail (FApi (BadRequest "Invalid order signature"))
  | _, _ => mret ()
  end.

(** ** Creation *)

(** The zone of the request, or of the meter registered last. *)
Definition request_zone (zone_of : Uuid -> option Z) (user : Uuid) (p : CreateOrderRequest)
    : TM (option Z) :=
  match co_zone_id p with
  | Some z => mret (Some z)
  | None =>
      r ← attempt (query (fun _ => zone_of user));
      mret match r with Ok z => z | Err _ => None end
  end.

Definition order_request (user : Uuid) (p : CreateOrderRequest) (zone : option Z) : OrderRequest :=
  {| q_user_id := user; q_side := co_side p; q_order_type := co_order_type p;
     q_energy_amount := co_energy_amount p; q_price_per_kwh := co_price_per_kwh p;
     q_expiry_time := co_expiry_time p; q_zone_id := zone; q_meter_id := co_meter_id p;
     q_session_token := co_session_token p |}.

(** [now] and [later] are the two readings of the clock, with a fresh id for each epoch that may
    have to be made.  A missing price, which no order that was placed has, is broadcast as an
    empty text, here 0. *)
Definition create_order_handler (config : OrderConfig) (sessions : list WalletSession)
    (zone_of : Uuid -> option Z) (meter_type : Uuid -> option string) (user : Uuid)
    (p : CreateOrderRequest) (order_id epoch_id epoch_id' : Uuid) (now later : DateTime)
    (wal : NewWallet) : TM CreateOrderResponse :=
  check_signature sessions user p now ;;
  zone ← request_zone zone_of user p;
  id ← map_err (fun e => FApi (Internal ("Order creation failed: " +:+ error_text e)))
         (create_order config (order_request user p zone) order_id epoch_id now meter_type wal);
  epoch ← map_err (fun _ => FApi (Internal "Failed to assign order to epoch"))
            (get_or_create_epoch later later epoch_id');
  emit (EvOrderUpdate id user (OrderSide_as_str (co_side p)) "open" (co_energy_amount p) 0
          (co_energy_amount p) (default 0 (co_price_per_kwh p))) ;;
  mret {| cp_id := id; cp_status := Pending; cp_created_at := later;
          cp_message := "Order created successfully and assigned to epoch "
                        +:+ pretty (e_epoch_number epoch) +:+ " for matching." |}.

(** ** Cancellation and update ([management.rs]) *)

Context (columns : list string).

(** [SELECT * .. WHERE id = $1 AND user_id = $2]. *)
Definition own_order (id user : Uuid) : TM (option TradingOrderDb) :=
  row ← query (fun d => o ← orders d !! id; if (o_user_id o =? user)%N then Some o else None);
  match row with
  | Some o => o ← expect FDb (decode_order columns o); mret (Some o)
  | None => mret None
  end.

(** [UPDATE .. WHERE id = $1 RETURNING *]: the row afterwards; no row is an error of the driver. *)
Definition order_returning (id : Uuid) (f : TradingOrderDb -> option TradingOrderDb) : TM TradingOrderDb :=
  row ← exec_ret (fun d => d' ← update_order id f d; Some (orders d' !! id, d'));
  o ← expect FDb row;
  expect FDb (decode_order columns o).

Definition no_such_order {A} (id : Uuid) : TM A :=
  fail (FApi (NotFound ("Order " +:+ uuid_to_string id +:+ " not found"))).

(** What is left of the order goes back, if the release succeeds. *)
Definition release_remaining (id user : Uuid) (order : TradingOrderDb) : TM unit :=
  let remaining := dsub (o_energy_amount order) (filled order) in
  if 0 <? remaining then
    match o_side order with
    | Buy => ignore (unlock_funds user id (dmul remaining (o_price_per_kwh order)) "Order Cancelled")
    | Sell => ignore (unlock_energy user id remaining "Order Cancelled")
    end
  else mret ().

(** From the update on: the status is not looked at again. *)
Definition cancel_write (id user : Uuid) : TM TradingOrder :=
  updated ← order_returning id (fun o => Some (set_order_status Cancelled o));
  release_remaining id user updated ;;
  mret (TradingOrder_from updated).

Definition cancel_order_handler (id user : Uuid) : TM TradingOrder :=
  found ← own_order id user;
  match found with
  | None => no_such_order id
  | Some order =>
      if negb (bool_decide (o_status order = Pending))
      then fail (FApi (BadRequest ("Cannot cancel order with status: " +:+ OrderStatus_as_str (o_status order))))
      else cancel_write id user
  end.

(** [SET energy_amount = $1, price_per_kwh = $2] with the checks of the table. *)
Definition set_amounts (energy price : Decimal) (o : TradingOrderDb) : option TradingOrderDb :=
  e ← num8 energy;
  p ← num8 price;
  if (0 <? e) && (0 <? p) then
    Some {| o_id := o_id o; o_user_id := o_user_id o; o_order_type := o_order_type o; o_side := o_side o;
            o_energy_amount := e; o_price_per_kwh := p; o_filled_amount := o_filled_amount o;
            o_status := o_status o; o_expires_at := o_expires_at o; o_created_at := o_created_at o;
            o_filled_at := o_filled_at o; o_epoch_id := o_epoch_id o; o_zone_id := o_zone_id o;
            o_meter_id := o_meter_id o; o_refund_tx_signature := o_refund_tx_signature o;
            o_order_pda := o_order_pda o; o_blockchain_tx_signature := o_blockchain_tx_signature o; o_session_token := o_session_token o;
            o_is_confidential := o_is_confidential o; o_energy_source := o_energy_source o;
            o_trigger_price := o_trigger_price o; o_trigger_type := o_trigger_type o;
            o_trigger_status := o_trigger_status o; o_trailing_offset := o_trailing_offset o;
            o_triggered_at := o_triggered_at o |}
  else None.

Definition adjust_escrow (id user : Uuid) (order : TradingOrderDb) (new_energy new_price : Decimal)
    : TM unit :=
  match o_side order with
  | Buy =>
      let old_escrow := dmul (o_energy_amount order) (o_price_per_kwh order) in
      let new_escrow := dmul new_energy new_price in
      if old_escrow <? new_escrow then
        map_err (fun e => FApi (BadRequest ("Insufficient balance for update: " +:+ error_text e)))
          (lock_funds user id (dsub new_escrow old_escrow))
      else if new_escrow <? old_escrow then
        ignore (unlock_funds user id (dsub old_escrow new_escrow) "Order Updated")
      else mret ()
  | Sell =>
      if o_energy_amount order <? new_energy then
        map_err (fun e => FApi (Internal ("Energy lock failed: " +:+ error_text e)))
          (lock_energy user id (dsub new_energy (o_energy_amount order)))
      else if new_energy <? o_energy_amount order then
        ignore (unlock_energy user id (dsub (o_energy_amount order) new_energy) "Order Updated")
      else mret ()
  end.

Definition not_positive (o : option Decimal) : bool :=
  match o with Some x => x <=? 0 | None => false end.

Definition update_order_handler (id user : Uuid) (p : UpdateOrderRequest) : TM TradingOrder :=
  if not_positive (uo_energy_amount p) then fail (FApi (BadRequest "Energy amount must be positive"))
  else if not_positive (uo_price_per_kwh p) then fail (FApi (BadRequest "Price must be positive"))
  else
    found ← own_order id user;
    match found with
    | None => no_such_order id
    | Some order =>
        if negb (bool_decide (o_status order = Pending))
        then fail (FApi (BadRequest "Only pending orders can be updated"))
        else
          let new_energy := default (o_energy_amount order) (uo_energy_amount p) in
          let new_price := default (o_price_per_kwh order) (uo_price_per_kwh p) in
          adjust_escrow id user order new_energy new_price ;;
          updated ← order_returning id (set_amounts new_energy new_price);
          mret (TradingOrder_from updated)
    end.
End requests.

(** ** The order of [blockchain.rs] *)

Record CreateBlockchainOrderRequest := {
  cb_order_type : string;
  cb_energy_amount : Z;
  cb_price_per_kwh : Z;
}.

Section blockchain.
Context `{NUM : Numerics} `{CAL : Calendar} `{ENV : Env}.

(** The amounts are whole units; nothing is locked.  The value is the text of the side. *)
Definition create_blockchain_order (user : Uuid) (p : CreateBlockchainOrderRequest)
    (order_id epoch_id : Uuid) (now : DateTime) : TM string :=
  let side :=
    if (cb_order_type p =? "buy")%string then Some Buy
    else if (cb_order_type p =? "sell")%string then Some Sell else None in
  match side with
  | None => fail (FApi (BadRequest "Order type must be 'buy' or 'sell'"))
  | Some side =>
      if cb_energy_amount p =? 0 then fail (FApi (BadRequest "Energy amount must be positive"))
      else if cb_price_per_kwh p =? 0 then fail (FApi (BadRequest "Price per kWh must be positive"))
      else
        epoch ← map_err (fun e => FApi (Internal ("Failed to get epoch: " +:+ error_text e)))
                  (get_or_create_epoch now now epoch_id);
        exec (insert_order (new_order_row order_id user Limit side (dec (cb_energy_amount p) 0)
                (dec (cb_price_per_kwh p) 0) (now + nanos_per_day) now (Some (e_id epoch)) None None None)) ;;
        mret (cb_order_type p)
  end.
End blockchain.

(** The account of the market, after its discriminator; the answer shows the authority as the
    base58 text of these bytes. *)
Record BlockchainMarketData := {
  md_authority : bytes;
  md_active_orders : Z;
  md_total_volume : Z;
  md_total_trades : Z;
  md_market_fee_bps : Z;
  md_clearing_enabled : bool;
  md_created_at : Z;
}.

Definition slice (from to : nat) (l : bytes) : bytes := take (to - from) (drop from l).

Definition parse_market_data (data : bytes) : res ApiError BlockchainMarketData :=
  if (length data <? 72)%nat then Err (Internal "Market data too short")
  else Ok {| md_authority := slice 0 32 data;
             md_active_orders := le_value (slice 32 40 data);
             md_total_volume := le_value (slice 40 48 data);
             md_total_trades := le_value (slice 48 56 data);
             md_market_fee_bps := le_value (slice 66 68 data);
             md_clearing_enabled := negb (le_value (slice 64 65 data) =? 0);
             md_created_at := to_i64 (le_value (slice 56 64 data)) |}.

(** ** Signatures *)

Section signatures.
Context `{NUM : Numerics} `{CI : Cipher} `{DT : DecimalText} `{HM : Hmac}.

(** A request that passes carries no signature at all, or a fresh timestamp and the signature of
    its side, amount, price and time under the key of a live session of its user; without a
    session token that key is a constant of the program. *)
Theorem signature_checked sessions user p now (w w' : world Db Event) :
  check_signature sessions user p now w = (Ok tt, w') ->
  st w' = st w /\ trace w' = trace w
  /\ (co_signature p = None \/ co_timestamp p = None
      \/ exists signature timestamp key,
           co_signature p = Some signature /\ co_timestamp p = Some timestamp
           /\ timestamp_expired (now / 1000000) timestamp = false
           /\ signature = hmac_hex key (signed_message p timestamp)
           /\ match co_session_token p with
              | None => key = test_key
              | Some token => exists s, s ∈ sessions /\ live_session user token now s = true
                  /\ decrypt_private_key_bytes token (ss_cached_key_encrypted s) (ss_key_salt s)
                       (ss_key_iv s) = Ok key
              end).
Proof.
  unfold check_signature. intros H.
  destruct (co_signature p) as [sig|]; [|apply ret_Ok in H as [_ <-]; auto].
  destruct (co_timestamp p) as [ts|]; [|apply ret_Ok in H as [_ <-]; auto].
  destruct (timestamp_expired _ _) eqn:Ex; [by apply fail_Ok in H|].
  apply bind_Ok in H as (key & w1 & K & H).
  destruct (String.eqb_spec sig (hmac_hex key (signed_message p ts))) as [E|]; [|by apply fail_Ok in H].
  apply ret_Ok in H as [_ <-]. unfold signing_key in K. destruct (co_session_token p) as [token|].
  - apply bind_Ok in K as (found & w2 & Q & K). apply query_Ok in Q as (F & Q1 & Q2).
    destruct found as [s|]; [|by apply fail_Ok in K].
    destruct (decrypt_private_key_bytes _ _ _ _) as [k|[]] eqn:D; try by apply fail_Ok in K.
    apply ret_Ok in K as [<- <-]. symmetry in F. apply List.find_some in F as [F1 F2].
    split_and!; [done..|]. right; right. exists sig, ts, k. split_and!; try done.
    exists s. split_and!; try done. by apply list_elem_of_In.
  - apply ret_Ok in K as [<- <-]. split_and!; [done..|]. right; right. by exists sig, ts, test_key.
Qed.

(** Nobody needs a key: a request without a signature passes, and so does one that is signed with
    the constant, for every user. *)
Theorem unsigned_orders_pass sessions user p now timestamp (w : world Db Event) :
  (co_signature p = None -> check_signature sessions user p now w = (Ok tt, w))
  /\ (co_session_token p = None -> co_timestamp p = Some timestamp ->
      timestamp_expired (now / 1000000) timestamp = false ->
      co_signature p = Some (hmac_hex test_key (signed_message p timestamp)) ->
      check_signature sessions user p now w = (Ok tt, w)).
Proof.
  unfold check_signature. split; [by intros ->|]. intros Ht -> Hx ->. rewrite Hx.
  unfold signing_key. rewrite Ht. unfold mbind, M_bind. simpl. by rewrite String.eqb_refl.
Qed.

(** The window of five minutes, and the one distance that slips through: 2^63 milliseconds, whose
    absolute value is negative. *)
Theorem timestamp_window now_ts timestamp : - 2 ^ 63 <= now_ts < 2 ^ 63 -> - 2 ^ 63 <= timestamp < 2 ^ 63 ->
  (Z.abs (now_ts - timestamp) < 2 ^ 63 ->
   (timestamp_expired now_ts timestamp = false <-> Z.abs (now_ts - timestamp) <= 300000))
  /\ (Z.abs (now_ts - timestamp) = 2 ^ 63 -> timestamp_expired now_ts timestamp = false).
Proof.
  intros Hn Ht. unfold timestamp_expired, i64_abs. split.
  - intros H. assert (E : i64 (now_ts - timestamp) = now_ts - timestamp)
      by (unfold i64; rewrite Z.mod_small; lia).
    rewrite E, Z.ltb_ge. destruct (Z.ltb_spec (now_ts - timestamp) 0); [|lia].
    replace (i64 (- (now_ts - timestamp))) with (- (now_ts - timestamp)); [lia|].
    unfold i64. rewrite Z.mod_small; lia.
  - intros H. assert (now_ts - timestamp = 2 ^ 63 \/ now_ts - timestamp = - 2 ^ 63) as [-> | ->] by lia;
      reflexivity.
Qed.
End signatures.

(** ** Creation *)

Section creation.
Context `{NUM : Numerics} `{CAL : Calendar} `{CH : Chain} `{ENV : Env} `{CI : Cipher} `{B64 : Base64}
        `{KP : Keypairs} `{TC : TokenChain} `{DT : DecimalText} `{HM : Hmac}.
Context (config : OrderConfig).

Lemma signature_keeps sessions user p now d0 :
  preserves (T := Event) (fun d => d = d0) (check_signature sessions user p now).
Proof.
  unfold check_signature, signing_key. destruct (co_signature p); [|apply preserves_ret].
  destruct (co_timestamp p); [|apply preserves_ret]. destruct (timestamp_expired _ _); [apply preserves_fail|].
  apply preserves_bind; [|intros k; destruct (_ =? _)%string; [apply preserves_ret|apply preserves_fail]].
  destruct (co_session_token p); [|apply preserves_ret].
  apply preserves_bind; [apply preserves_query|]. intros [found|]; [|apply preserves_fail].
  destruct (decrypt_private_key_bytes _ _ _ _) as [k|[]]; (apply preserves_ret || apply preserves_fail).
Qed.

Lemma zone_keeps zone_of user p d0 : preserves (fun d => d = d0) (request_zone zone_of user p).
Proof.
  unfold request_zone. destruct (co_zone_id p); [apply preserves_ret|].
  apply preserves_bind; [apply preserves_attempt, preserves_query|]. intros r. apply preserves_ret.
Qed.

Lemma order_placed_money linked q order_id now d d' d'' :
  order_placed config linked q order_id now d d' -> same_money d' d'' ->
  order_placed config linked q order_id now d d''.
Proof. unfold order_placed. intros H (-> & -> & ->). exact H. Qed.

Lemma order_absent_money q d d' d'' : order_absent q d d' -> same_money d' d'' -> order_absent q d d''.
Proof. unfold order_absent. intros H (-> & -> & ->). exact H. Qed.

(** A request either left balances, orders and escrow as they were or placed the order as a whole
    ([order_placed]); an error may be reported for an order that was placed, when the on-chain step
    failed after the commit or only the epoch could not be read afterwards. *)
Theorem create_request_outcome sessions zone_of mt user p order_id eid eid' now later wal w :
  let '(r, w') := create_order_handler config sessions zone_of mt user p order_id eid eid' now later wal w in
  let placed linked := exists zone,
    order_placed config linked (order_request user p zone) order_id now (st w) (st w') in
  let absent := co_meter_id p <> None /\ exists zone, order_absent (order_request user p zone) (st w) (st w') in
  match r with
  | Err _ => same_money (st w) (st w') \/ placed true \/ placed false \/ absent
  | Ok a => cp_id a = order_id /\ cp_status a = Pending /\ (placed true \/ absent)
  end.
Proof.
  unfold create_order_handler, mbind, M_bind.
  pose proof (signature_keeps sessions user p now (st w) w eq_refl) as S1.
  destruct (check_signature sessions user p now w) as [[[]|e] w1]; simpl in S1; [|left; by rewrite S1].
  pose proof (zone_keeps zone_of user p (st w1) w1 eq_refl) as S2.
  destruct (request_zone zone_of user p w1) as [[zone|e] w2]; simpl in S2; [|left; by rewrite S2, S1].
  unfold map_err at 1.
  pose proof (create_order_cases config (order_request user p zone) order_id eid now mt wal w2) as C.
  destruct (create_order config (order_request user p zone) order_id eid now mt wal w2) as [r w3].
  specialize (C r w3 eq_refl) as [_ C]. rewrite S2, S1 in C.
  destruct r as [id|e]; simpl in C.
  2: { enough (G : same_money (st w) (st w3)
         \/ (exists zone, order_placed config true (order_request user p zone) order_id now (st w) (st w3))
         \/ (exists zone, order_placed config false (order_request user p zone) order_id now (st w) (st w3))
         \/ (co_meter_id p <> None /\ exists zone, order_absent (order_request user p zone) (st w) (st w3)))
         by (by destruct e).
       destruct C as [[_ C]|(_ & _ & [C|[Hm C]])]; [by left|right; right; left; by exists zone|].
       right; right; right. split; [done|by exists zone]. }
  destruct C as [[? _]|(Hid & _ & C)]; [done|]. rewrite (Hid id eq_refl).
  pose proof (get_or_create_epoch_money later later eid' (st w3) w3 (same_money_refl _)) as M.
  unfold map_err. destruct (get_or_create_epoch later later eid' w3) as [[ep|e] w4]; simpl in M.
  - simpl. split; [done|]. split; [done|]. destruct C as [C|[Hm C]]; [left|right; split; [done|]]; exists zone.
    + by eapply order_placed_money.
    + by eapply order_absent_money.
  - enough (G : (exists zone, order_placed config true (order_request user p zone) order_id now (st w) (st w4))
        \/ (co_meter_id p <> None /\ exists zone, order_absent (order_request user p zone) (st w) (st w4))).
    { destruct e; destruct G as [G|G]; auto. }
    destruct C as [C|[Hm C]]; [left|right; split; [done|]]; exists zone.
    + by eapply order_placed_money.
    + by eapply order_absent_money.
Qed.
End creation.

(** ** Cancellation and update *)

Section management.
Context `{NUM : Numerics} (columns : list string).

Lemma decode_order_cases :
  (forall o, decode_order columns o = Some o) \/ (forall o, decode_order columns o = None).
Proof. unfold decode_order. destruct (forallb _ _); auto. Qed.

Lemma own_order_spec id user w r w' : own_order columns id user w = (r, w') ->
  st w' = st w /\ match r with
  | Ok (Some o) => orders (st w) !! id = Some o /\ o_user_id o = user
  | Ok None => forall o, orders (st w) !! id = Some o -> o_user_id o <> user
  | Err _ => True
  end.
Proof.
  unfold own_order, mbind at 1, M_bind at 1. destruct (query _ w) as [[row|e] w1] eqn:Q;
    pose proof (query_st _ _ _ _ Q) as S1; [|by intros [= <- <-]].
  apply query_Ok in Q as (-> & _). destruct (orders (st w) !! id) as [o|] eqn:Ho; simpl.
  2: { intros [= <- <-]. split; [done|]. by intros o. }
  destruct (N.eqb_spec (o_user_id o) user) as [E|E].
  - destruct decode_order_cases as [D|D]; rewrite D; simpl; by intros [= <- <-].
  - intros [= <- <-]. split; [done|]. intros o' [= <-]. done.
Qed.

(** The row afterwards; an error leaves the tables, or the row that could not be read back. *)
Lemma order_returning_spec id f w r w' : order_returning columns id f w = (r, w') ->
  match r with
  | Ok o => exists o0, orders (st w) !! id = Some o0 /\ f o0 = Some o
      /\ st w' = set_orders (<[id := o]> (orders (st w))) (st w)
  | Err _ => st w' = st w \/ forall o, decode_order columns o = None
  end.
Proof.
  unfold order_returning, mbind at 1, M_bind at 1.
  destruct (exec_ret _ w) as [[row|e] w1] eqn:Q.
  2: { apply exec_ret_Err in Q as (_ & S1 & _). intros [= <- <-]. by left. }
  apply exec_ret_Ok in Q as [Q _]. unfold update_order in Q.
  destruct (orders (st w) !! id) as [o|] eqn:Ho; simpl in Q.
  2: { injection Q as <- Q. rewrite Ho. simpl. intros [= <- <-]. by left. }
  destruct (f o) as [o'|] eqn:Hf; simpl in Q; [|done]. injection Q as <- Q.
  rewrite lookup_insert_eq. unfold mbind, M_bind. simpl.
  destruct decode_order_cases as [D|D]; rewrite D; simpl; intros [= <- <-]; [|by right]. by exists o.
Qed.

(** The part of [user] that a release of [o] pays back; nothing when nothing is left. *)
Definition released_by (o : TradingOrderDb) : User -> option User :=
  let remaining := dsub (o_energy_amount o) (filled o) in
  match o_side o with
  | Buy => add_balance_locked (dmul remaining (o_price_per_kwh o)) (- dmul remaining (o_price_per_kwh o))
  | Sell => add_locked_energy (- remaining)
  end.

(** One update of the account of [user]. *)
Definition account_update (user : Uuid) (f : User -> option User) (m : gmap Uuid User) : option (gmap Uuid User) :=
  match m !! user with
  | None => Some m
  | Some u => u' ← f u; Some (<[user := u']> m)
  end.

Lemma update_user_account user f d d' : update_user user f d = Some d' ->
  account_update user f (users d) = Some (users d').
Proof.
  unfold update_user, account_update. destruct (users d !! user) as [u|]; [|by intros [= <-]].
  destruct (f u); [|done]. by intros [= <-].
Qed.

(** Either the accounts and the escrow are as they were, or one update of one account was made. *)
Definition moved (user : Uuid) (f : User -> option User) (d d' : Db) : Prop :=
  (users d' = users d /\ escrow_records d' = escrow_records d)
  \/ account_update user f (users d) = Some (users d').

(** Each of the four operations leaves the orders, and the users as they were or updated once. *)
Lemma unlock_moves user (f : User -> option User) p note w r w' :
  with_tx (T := Event) (exec (update_user user f) ;; exec (release_escrow p note)) w = (r, w') ->
  match r with
  | Err _ => st w' = st w
  | Ok _ => orders (st w') = orders (st w)
      /\ account_update user f (users (st w)) = Some (users (st w'))
  end.
Proof.
  destruct r as [[]|e]; [|by intros ?%with_tx_Err]. intros H. run_steps.
  match goal with H : update_user _ _ _ = Some _ |- _ => pose proof (update_user_frame _ _ _ _ H) as [? _];
    apply update_user_account in H as U end.
  match goal with H : release_escrow _ _ _ = Some _ |- _ => unfold release_escrow in H; injection H as R end.
  norm_st. rewrite <- R. simpl. split; [congruence|]. by norm_st.
Qed.

Lemma ignore_unlock_moves user (f : User -> option User) p note w r w' :
  ignore (with_tx (T := Event) (exec (update_user user f) ;; exec (release_escrow p note))) w = (r, w') ->
  r = Ok tt /\ orders (st w') = orders (st w) /\ moved user f (st w) (st w').
Proof.
  intros E. assert (N : no_panic (with_tx (T := Event) (exec (update_user user f) ;; exec (release_escrow p note))))
    by (apply no_panic_tx, no_panic_bind; intros; apply no_panic_exec).
  specialize (N w). unfold ignore, attempt, mbind, M_bind in E.
  destruct (with_tx _ w) as [x w1] eqn:X. pose proof (unlock_moves _ _ _ _ _ _ _ X) as U. simpl in N.
  destruct x as [[]|[]]; try done; injection E as <- <-; (split; [done|]);
    first [split; [apply U|]; right; apply U | split; [by rewrite U|]; left; by rewrite U].
Qed.

Lemma lock_moves user id (f : User -> option User) a k t note w r w' :
  with_tx (T := Event) (exec (update_user user f) ;; exec (insert_escrow user id a k t note)) w = (r, w') ->
  match r with
  | Err _ => st w' = st w
  | Ok _ => orders (st w') = orders (st w)
      /\ account_update user f (users (st w)) = Some (users (st w'))
  end.
Proof.
  destruct r as [[]|e]; [|by intros ?%with_tx_Err]. intros H. run_steps.
  match goal with H : update_user _ _ _ = Some _ |- _ => pose proof (update_user_frame _ _ _ _ H) as [? _];
    apply update_user_account in H as U end.
  match goal with H : insert_escrow _ _ _ _ _ _ _ = Some _ |- _ => rename H into R end.
  unfold insert_escrow in R. repeat case_match; try done. injection R as R.
  norm_st. rewrite <- R. simpl. split; [congruence|]. by norm_st.
Qed.
End management.

Section management_props.
Context `{NUM : Numerics} `{ENV : Env} `{CH : Chain}.

Definition own_pending (id user : Uuid) (o : TradingOrderDb) (d : Db) : Prop :=
  orders d !! id = Some o /\ o_user_id o = user /\ o_status o = Pending.

(** On the tables the migrations make, no order can be cancelled or updated: the row lacks two
    of the columns its type demands, so the handler always fails, and changes nothing. *)
Theorem requests_unreadable id user p (w : world Db Event) :
  (is_ok (fst (cancel_order_handler migrated_columns id user w)) = false
   /\ st (snd (cancel_order_handler migrated_columns id user w)) = st w)
  /\ (is_ok (fst (update_order_handler migrated_columns id user p w)) = false
   /\ st (snd (update_order_handler migrated_columns id user p w)) = st w).
Proof.
  assert (K : exists w', st w' = st w /\ (own_order migrated_columns id user w = (Ok None, w')
      \/ exists e, own_order migrated_columns id user w = (Err e, w'))).
  { destruct (own_order migrated_columns id user w) as [r w'] eqn:E. exists w'.
    pose proof (own_order_spec _ _ _ _ _ _ E) as [S1 _]. split; [done|].
    destruct r as [[o|]|e]; [|by left|right; by exists e]. exfalso.
    unfold own_order in E. apply bind_Ok in E as (row & w1 & _ & E). destruct row as [o'|]; [|done].
    apply bind_Ok in E as (o1 & w2 & [D _]%expect_Ok & _). done. }
  destruct K as (w' & S1 & K). split.
  - unfold cancel_order_handler, mbind, M_bind. by destruct K as [-> | [e ->]].
  - unfold update_order_handler. destruct (not_positive _); [done|]. destruct (not_positive _); [done|].
    unfold mbind, M_bind. by destruct K as [-> | [e ->]].
Qed.

Context (columns : list string) (readable : forall o, decode_order columns o = Some o).

Lemma never_unreadable : ~ forall o, decode_order columns o = None.
Proof. intros Q. specialize (readable (demo_order 0 0 Buy 0 0)). by rewrite Q in readable. Qed.

Lemma release_remaining_moves id user o w r w' : release_remaining id user o w = (r, w') ->
  r = Ok tt /\ orders (st w') = orders (st w) /\ moved user (released_by o) (st w) (st w').
Proof.
  unfold release_remaining, released_by. destruct (0 <? _).
  - destruct (o_side o); apply ignore_unlock_moves.
  - intros [= <- <-]. split_and!; [done..|]. by left.
Qed.

Lemma cancel_write_moves id user w r w' : cancel_write columns id user w = (r, w') ->
  match r with
  | Ok _ => exists o, orders (st w) !! id = Some o
      /\ orders (st w') = <[id := set_order_status Cancelled o]> (orders (st w))
      /\ moved user (released_by o) (st w) (st w')
  | Err _ => st w' = st w
  end.
Proof.
  unfold cancel_write, mbind at 1, M_bind at 1.
  destruct (order_returning _ _ _ w) as [[o'|e] w1] eqn:Q; apply order_returning_spec in Q.
  2: { intros [= <- <-]. by destruct Q as [Q|Q%never_unreadable]. }
  destruct Q as (o & Ho & [= <-] & S1). unfold mbind, M_bind.
  destruct (release_remaining _ _ _ w1) as [r2 w2] eqn:E2.
  apply release_remaining_moves in E2 as (-> & So & M). intros [= <- <-].
  exists o. split; [done|]. rewrite So. unfold moved in *. by rewrite S1 in *.
Qed.

(** A cancellation that succeeds was of the caller's pending order, which is cancelled; the rest
    of it was paid back, or nothing was: the answer is the same.  An error changes nothing. *)
Theorem cancel_request_outcome id user (w : world Db Event) :
  let '(r, w') := cancel_order_handler columns id user w in
  match r with
  | Ok _ => exists o, own_pending id user o (st w)
      /\ orders (st w') = <[id := set_order_status Cancelled o]> (orders (st w))
      /\ moved user (released_by o) (st w) (st w')
  | Err _ => st w' = st w
  end.
Proof.
  unfold cancel_order_handler, mbind, M_bind.
  destruct (own_order columns id user w) as [[[o|]|e] w1] eqn:E;
    pose proof (own_order_spec _ _ _ _ _ _ E) as [S1 Ho]; try done.
  destruct (bool_decide_reflect (o_status o = Pending)) as [P|P]; simpl; [|done].
  destruct (cancel_write columns id user w1) as [r w'] eqn:E2. apply cancel_write_moves in E2.
  destruct r as [a|e]; [|congruence]. destruct E2 as (o' & Ho' & So & M). rewrite S1 in *.
  destruct Ho as [Ho1 Ho2]. simplify_eq. exists o. by split_and!.
Qed.

(** When the release cannot begin, the order is cancelled all the same and what it locked stays
    locked: from then on every cancellation is refused. *)
Theorem cancel_loses_funds id user o (w w' : world Db Event) r :
  own_pending id user o (st w) -> faults w = [false; false; true] -> 0 < dsub (o_energy_amount o) (filled o) ->
  cancel_order_handler columns id user w = (r, w') ->
  is_ok r = true /\ users (st w') = users (st w) /\ escrow_records (st w') = escrow_records (st w)
  /\ forall w2 : world Db Event, st w2 = st w' ->
       is_ok (fst (cancel_order_handler columns id user w2)) = false
       /\ is_ok (fst (cancel_order id user w2)) = false.
Proof.
  intros (Ho & Hu & Hs) Hf Hr E.
  assert (K : is_ok r = true /\ st w' = set_orders (<[id := set_order_status Cancelled o]> (orders (st w))) (st w)).
  { destruct w as [d fs tr]. simpl in *. subst fs user.
    unfold cancel_order_handler, own_order, query, pop_fault, mbind, M_bind in E. simpl in E.
    rewrite Ho in E. simpl in E. rewrite N.eqb_refl, readable in E. simpl in E. rewrite Hs in E. simpl in E.
    unfold cancel_write, order_returning, exec_ret, pop_fault, mbind, M_bind, update_order in E. simpl in E.
    rewrite Ho in E. simpl in E. rewrite lookup_insert_eq in E. simpl in E. rewrite readable in E. simpl in E.
    unfold release_remaining in E. simpl in E.
    change (filled (set_order_status Cancelled o)) with (filled o) in E.
    apply Z.ltb_lt in Hr. rewrite Hr in E. destruct (o_side o); simpl in E; injection E as <- <-; done. }
  destruct K as [K1 K2]. rewrite K2. split_and!; [done..|]. intros w2 S2.
  assert (L : orders (st w2) !! id = Some (set_order_status Cancelled o))
    by (rewrite S2; simpl; apply lookup_insert_eq).
  split.
  - pose proof (own_order_spec columns id user w2) as O. unfold cancel_order_handler, mbind, M_bind.
    destruct (own_order columns id user w2) as [[[o'|]|e] w3]; try done.
    destruct (O _ _ eq_refl) as (_ & O1 & _). by simplify_eq.
  - pose proof (cancel_order_cases id user w2) as C. destruct (cancel_order id user w2) as [[a|e] w3]; [|done].
    destruct C as (o' & C1 & _ & C2 & _). simplify_eq. simpl in C2. by destruct C2.
Qed.
End management_props.

Section updates.
Context `{NUM : Numerics} `{ENV : Env} `{CH : Chain}.
Context (columns : list string) (readable : forall o, decode_order columns o = Some o).

(** The status that was checked is not the status that is replaced: an order filled between the
    two statements becomes a cancelled one. *)
Theorem cancel_overwrites_status id user o (w : world Db Event) :
  faults w = [] -> orders (st w) !! id = Some o ->
  is_ok (fst (cancel_write columns id user w)) = true
  /\ orders (st (snd (cancel_write columns id user w))) = <[id := set_order_status Cancelled o]> (orders (st w)).
Proof.
  intros Hf Ho. destruct (cancel_write columns id user w) as [r w'] eqn:E.
  pose proof (cancel_write_moves columns readable id user w r w' E) as C. destruct r as [a|e].
  - destruct C as (o' & Ho' & So & _). by simplify_eq.
  - exfalso. unfold cancel_write, order_returning in E.
    destruct w as [d fs tr]. simpl in *. subst fs.
    unfold exec_ret, pop_fault, mbind, M_bind, update_order in E. simpl in E.
    rewrite Ho in E. simpl in E. rewrite lookup_insert_eq in E. simpl in E. rewrite readable in E. simpl in E.
    destruct (release_remaining _ _ _ _) as [r2 w2] eqn:E2.
    apply release_remaining_moves in E2 as (-> & _). done.
Qed.

(** The change an update asks of the account that placed the order. *)
Definition escrow_change (o : TradingOrderDb) (new_energy new_price : Decimal) : User -> option User :=
  match o_side o with
  | Buy =>
      let before := dmul (o_energy_amount o) (o_price_per_kwh o) in
      let after := dmul new_energy new_price in
      if before <? after then add_balance_locked (- dsub after before) (dsub after before)
      else add_balance_locked (dsub before after) (- dsub before after)
  | Sell =>
      if o_energy_amount o <? new_energy then add_locked_energy (dsub new_energy (o_energy_amount o))
      else add_locked_energy (- dsub (o_energy_amount o) new_energy)
  end.

Lemma lock_funds_moves id user amount w r w' : lock_funds user id amount w = (r, w') ->
  match r with
  | Err _ => st w' = st w
  | Ok _ => orders (st w') = orders (st w)
      /\ account_update user (add_balance_locked (- amount) amount) (users (st w)) = Some (users (st w'))
  end.
Proof.
  destruct r as [[]|e]; [|by intros ?%with_tx_Err]. unfold lock_funds. intros H. run_steps.
  case_match; run_steps.
  match goal with H : update_user _ _ _ = Some _ |- _ => pose proof (update_user_frame _ _ _ _ H) as [? _];
    apply update_user_account in H as U end.
  match goal with H : insert_escrow _ _ _ _ _ _ _ = Some _ |- _ => rename H into R end.
  unfold insert_escrow in R. repeat case_match; try done. injection R as R.
  norm_st. rewrite <- R. simpl. split; [congruence|]. by norm_st.
Qed.

Lemma adjust_escrow_moves id user o e p w r w' : adjust_escrow id user o e p w = (r, w') ->
  match r with
  | Err _ => st w' = st w
  | Ok _ => orders (st w') = orders (st w) /\ moved user (escrow_change o e p) (st w) (st w')
  end.
Proof.
  assert (Same : forall f, moved user f (st w) (st w)) by (by left).
  unfold adjust_escrow, escrow_change. destruct (o_side o); cbv zeta.
  - destruct (_ <? _).
    + unfold map_err. destruct (lock_funds _ _ _ w) as [[[]|x] w1] eqn:L; apply lock_funds_moves in L.
      * intros [= <- <-]. split; [apply L|right; apply L].
      * destruct x; by intros [= <- <-].
    + destruct (_ <? _); [|by intros [= <- <-]].
      intros E. unfold unlock_funds in E. apply ignore_unlock_moves in E as (-> & ?). done.
  - destruct (_ <? _).
    + unfold map_err. destruct (lock_energy _ _ _ w) as [[[]|x] w1] eqn:L; unfold lock_energy in L;
        apply lock_moves in L.
      * intros [= <- <-]. split; [apply L|right; apply L].
      * destruct x; by intros [= <- <-].
    + destruct (_ <? _); [|by intros [= <- <-]].
      intros E. unfold unlock_energy in E. apply ignore_unlock_moves in E as (-> & ?). done.
Qed.

(** An update that succeeds was of the caller's pending order and gave it the new amounts; an
    error leaves every order as it was.  Either way the account may have been adjusted to the new
    cost, also for the error, and may not have been, also for the success. *)
Theorem update_request_outcome id user p (w : world Db Event) :
  let '(r, w') := update_order_handler columns id user p w in
  match r with
  | Err _ => orders (st w') = orders (st w)
  | Ok _ => exists o o', own_pending id user o (st w)
      /\ set_amounts (default (o_energy_amount o) (uo_energy_amount p))
                     (default (o_price_per_kwh o) (uo_price_per_kwh p)) o = Some o'
      /\ orders (st w') = <[id := o']> (orders (st w))
  end
  /\ ((users (st w') = users (st w) /\ escrow_records (st w') = escrow_records (st w))
      \/ exists o, own_pending id user o (st w)
         /\ account_update user (escrow_change o (default (o_energy_amount o) (uo_energy_amount p))
              (default (o_price_per_kwh o) (uo_price_per_kwh p))) (users (st w)) = Some (users (st w'))).
Proof.
  unfold update_order_handler. destruct (not_positive _); [by split; [|left]|].
  destruct (not_positive _); [by split; [|left]|]. unfold mbind at 1, M_bind at 1.
  destruct (own_order columns id user w) as [[[o|]|e] w1] eqn:E;
    pose proof (own_order_spec _ _ _ _ _ _ E) as [S1 Ho]; try (rewrite S1; by split; [|left]).
  2: { unfold no_such_order, fail. rewrite S1. by split; [|left]. }
  destruct (bool_decide_reflect (o_status o = Pending)) as [P|P]; simpl; [|rewrite S1; by split; [|left]].
  unfold mbind at 1, M_bind at 1. rewrite <- S1 in *. destruct Ho as [Ho1 Ho2].
  assert (OP : own_pending id user o (st w1)) by done.
  destruct (adjust_escrow id user o _ _ w1) as [[[]|e] w2] eqn:A; apply adjust_escrow_moves in A.
  2: { rewrite A. by split; [|left]. }
  destruct A as [A1 A2]. unfold mbind, M_bind.
  destruct (order_returning columns id _ w2) as [[o'|e] w3] eqn:Q; apply order_returning_spec in Q.
  - destruct Q as (o0 & Q1 & Q2 & Q3). rewrite A1, Ho1 in Q1. injection Q1 as <-.
    simpl. rewrite Q3. simpl. rewrite A1. split; [by exists o, o'|].
    destruct A2 as [A2|A2]; [by left|right; by exists o].
  - destruct Q as [Q|Q%(never_unreadable columns readable)]; [|done].
    simpl. rewrite Q, A1. split; [done|]. destruct A2 as [A2|A2]; [by left|right; by exists o].
Qed.

(** ** The order of [blockchain.rs] *)

Context `{CAL : Calendar}.

(** An order that was stored without anything being locked can be cancelled, and is then paid its
    cost out of nothing (the locked amount may go below zero). *)
Theorem unbacked_order user p id eid now (w w1 w2 : world Db Event) t :
  create_blockchain_order user p id eid now w = (Ok t, w1) ->
  cancel_order id user w1 = (Ok tt, w2) ->
  users (st w1) = users (st w) /\ escrow_records (st w1) = escrow_records (st w)
  /\ exists o, orders (st w1) !! id = Some o /\ o_user_id o = user
     /\ account_update user (released_by o) (users (st w)) = Some (users (st w2))
     /\ 0 < dsub (o_energy_amount o) (filled o).
Proof.
  intros H C. unfold create_blockchain_order in H.
  match type of H with (match ?s with _ => _ end) _ = _ => destruct s as [side|]; [|done] end.
  destruct (_ =? 0); [done|]. destruct (_ =? 0); [done|].
  apply bind_Ok in H as (ep & wa & H1%map_err_Ok & H).
  apply bind_Ok in H as ([] & wb & [I _]%exec_Ok & [_ <-]%ret_Ok).
  pose proof (get_or_create_epoch_money now now eid (st w) w (same_money_refl _)) as M. rewrite H1 in M. simpl in M.
  destruct M as (Mu & Mo & Me). apply insert_order_Ok in I as (Iu & Ie & e0 & p0 & o' & _).
  pose proof (cancel_order_cases id user wb) as K. rewrite C in K.
  destruct K as (o & Ko & Ku & _ & _ & Kr & Kup & _).
  split; [congruence|]. split; [congruence|]. exists o. split_and!; try done.
  apply update_user_account in Kup. simpl in Kup. by rewrite Iu, Mu in Kup.
Qed.
End updates.

(** ** The account of the market *)

Lemma slice_here from to (a b l : bytes) :
  length a = from -> length b = (to - from)%nat -> slice from to (a ++ b ++ l)%list = b.
Proof. intros <- H. unfold slice. rewrite drop_app_length, take_app_length'; done. Qed.

Lemma slice_skip from to (a l : bytes) : (length a <= from)%nat -> (from <= to)%nat ->
  slice from to (a ++ l)%list = slice (from - length a) (to - length a) l.
Proof.
  intros H H'. unfold slice. rewrite drop_app_ge by done. f_equal. lia.
Qed.

(** What [parse_market_data] takes from an account that holds these fields in this order. *)
Theorem market_data_fields authority active volume trades created enabled fee flag rest :
  length authority = 32%nat -> 0 <= active <= u64_max -> 0 <= volume <= u64_max -> 0 <= trades <= u64_max ->
  - 2 ^ 63 <= created < 2 ^ 63 -> 0 <= fee < 65536 -> (4 <= length rest)%nat ->
  parse_market_data (authority ++ le_bytes 8 active ++ le_bytes 8 volume ++ le_bytes 8 trades
    ++ le_bytes 8 created ++ le_bytes 1 (if enabled : bool then 1 else 0) ++ [flag] ++ le_bytes 2 fee ++ rest)%list
  = Ok {| md_authority := authority; md_active_orders := active; md_total_volume := volume;
          md_total_trades := trades; md_market_fee_bps := fee; md_clearing_enabled := enabled;
          md_created_at := created |}.
Proof.
  intros Ha H1 H2 H3 H4 H5 Hr. unfold parse_market_data.
  destruct (Nat.ltb_spec (length (authority ++ le_bytes 8 active ++ le_bytes 8 volume ++ le_bytes 8 trades
    ++ le_bytes 8 created ++ le_bytes 1 (if enabled then 1 else 0) ++ [flag] ++ le_bytes 2 fee ++ rest)%list) 72)
    as [L|_]; [rewrite !length_app, !length_le_bytes in L; simpl in L; lia|].
  assert (Skip : forall from to n z (l : bytes), (n <= from)%nat -> (from <= to)%nat ->
    slice from to (le_bytes n z ++ l)%list = slice (from - n) (to - n) l).
  { intros from to n z l Hn Hft. rewrite slice_skip; rewrite ?length_le_bytes; done. }
  assert (Here : forall n z (l : bytes), slice 0 n (le_bytes n z ++ l)%list = le_bytes n z).
  { intros n z l. apply (slice_here 0 n []); [done|]. rewrite length_le_bytes. lia. }
  assert (Front : forall l, slice 0 32 (authority ++ l)%list = authority)
    by (intros l; apply (slice_here 0 32 []); [done|lia]).
  rewrite Front, !(slice_skip _ _ authority), Ha by lia. cbn [Nat.sub].
  repeat (rewrite ?Here; rewrite ?Skip by lia; cbn [Nat.sub]).
  rewrite !(slice_skip _ _ [flag]) by (simpl; lia). cbn [Nat.sub length]. rewrite Here.
  rewrite !le_value_u64 by done. rewrite le_value_i64 by lia. rewrite !le_value_bytes.
  rewrite (Z.mod_small fee) by (simpl; lia). by destruct enabled.
Qed.

(** Anything shorter is refused, without a panic. *)
Theorem market_data_short data : (length data < 72)%nat ->
  parse_market_data data = Err (Internal "Market data too short").
Proof. intros H. unfold parse_market_data. apply Nat.ltb_lt in H. by rewrite H. Qed.

(** ** Witnesses *)
#[local] Program Instance demo_calendar : Calendar := {| civil n := (n, 1, 1) |}.
Next Obligation. intros n. cbn. lia. Qed.
Next Obligation. intros. simplify_eq. done. Qed.

Section witnesses.
#[local] Existing Instance std_numerics.
#[local] Existing Instance demo_chain.
#[local] Existing Instance demo_env.
#[local] Existing Instance demo_cipher.
#[local] Existing Instance demo_decimal_text.
#[local] Instance demo_hmac : Hmac := {| hmac_hex k m := string_of_list_byte (k ++ list_byte_of_string m)%list |}.

Lemma row_fields_readable o : decode_order row_fields o = Some o.
Proof. reflexivity. Qed.

Definition demo_signed (signature : string) : CreateOrderRequest :=
  {| co_side := Sell; co_energy_amount := dec 5 0; co_price_per_kwh := Some (dec 2 0); co_order_type := Limit;
     co_expiry_time := None; co_zone_id := Some 1; co_meter_id := None; co_signature := Some signature;
     co_timestamp := Some 0; co_session_token := None |}.
Definition demo_signature : string := hmac_hex test_key (signed_message (demo_signed "") 0).

Lemma signature_checked_witness :
  exists s t key, co_signature (demo_signed demo_signature) = Some s
    /\ s = hmac_hex key (signed_message (demo_signed demo_signature) t) /\ key = test_key.
Proof.
  assert (R : check_signature [] 1 (demo_signed demo_signature) 0 demo_world = (Ok tt, demo_world))
    by (vm_compute; reflexivity).
  destruct (signature_checked [] 1 (demo_signed demo_signature) 0 demo_world demo_world R) as (_ & _ & H).
  destruct H as [H|[H|(s & t & key & H1 & H2 & _ & H3 & H4)]]; [discriminate H|discriminate H|].
  exists s, t, key. split; [exact H1|]. split; [exact H3|exact H4].
Defined.

Lemma timestamp_window_witness : timestamp_expired (2 ^ 62) (- 2 ^ 62) = false.
Proof. apply (timestamp_window (2 ^ 62) (- 2 ^ 62)); lia. Defined.

Definition demo_cancel_world : world Db Event := World (st demo_locked) [false; false; true] [].

Lemma cancel_loses_funds_witness :
  users (st (snd (cancel_order_handler row_fields 7 1 demo_cancel_world))) = users (st demo_locked).
Proof.
  assert (E : exists r w', cancel_order_handler row_fields 7 1 demo_cancel_world = (r, w'))
    by (destruct (cancel_order_handler row_fields 7 1 demo_cancel_world); eauto).
  destruct E as (r & w' & E). rewrite E.
  refine (proj1 (proj2 (cancel_loses_funds row_fields row_fields_readable 7 1
    (demo_order 7 1 Buy (dec 10 0) (dec 2 0)) demo_cancel_world w' r _ eq_refl _ E))).
  - split; [vm_compute; reflexivity|split; reflexivity].
  - vm_compute. reflexivity.
Defined.

Lemma cancel_request_outcome_witness :
  exists o, orders (st demo_locked) !! 7%N = Some o
    /\ orders (st (snd (cancel_order_handler row_fields 7 1 demo_locked)))
       = <[7%N := set_order_status Cancelled o]> (orders (st demo_locked)).
Proof.
  pose proof (cancel_request_outcome row_fields row_fields_readable 7 1 demo_locked) as H.
  assert (R : is_ok (fst (cancel_order_handler row_fields 7 1 demo_locked)) = true) by (vm_compute; reflexivity).
  destruct (cancel_order_handler row_fields 7 1 demo_locked) as [[a|e] w']; [|discriminate R].
  destruct H as (o & (Ho & _) & So & _). exists o. split; [exact Ho|exact So].
Defined.

(** An update whose last statement fails: the difference stays locked for an order that was not
    changed. *)
Lemma update_failure_keeps_lock :
  let w := World demo_db [false; false; false; false; false; false; true] [] in
  let '(r, w') := update_order_handler row_fields 7 1
                    {| uo_energy_amount := Some (dec 20 0); uo_price_per_kwh := None |} w in
  is_ok r = false /\ orders (st w') = orders demo_db
  /\ (u_locked_amount <$> users (st w') !! 1%N) = Some (Some (dec 20 0)).
Proof. vm_compute. split_and!; reflexivity. Qed.

Definition demo_unbacked : CreateBlockchainOrderRequest :=
  {| cb_order_type := "buy"; cb_energy_amount := 10; cb_price_per_kwh := 2 |}.
Definition demo_unbacked_placed : world Db Event :=
  snd (create_blockchain_order 1 demo_unbacked 20 9 0 demo_world).
Definition demo_unbacked_cancelled : world Db Event := snd (cancel_order 20 1 demo_unbacked_placed).

Lemma unbacked_order_witness :
  users (st demo_unbacked_placed) = users demo_db
  /\ (u_balance <$> users (st demo_unbacked_cancelled) !! 1%N) = Some (Some (dec 120 0)).
Proof.
  split; [|vm_compute; reflexivity].
  refine (proj1 (unbacked_order 1 demo_unbacked 20 9 0 demo_world demo_unbacked_placed
    demo_unbacked_cancelled "buy" _ _)).
  - unfold demo_unbacked_placed. apply run_ok. vm_compute. reflexivity.
  - unfold demo_unbacked_cancelled. apply run_ok. vm_compute. reflexivity.
Defined.
End witnesses.
