(* ===== verification/Websocket.v ===== *)
(** Delivery over WebSockets: the market feed of [src/services/websocket/] and the connections of
    the users of [src/handlers/websocket/].

    Each connection has a task that forwards messages from a channel to its socket and one that
    reads the socket.  The tasks interleave: the state is the registry with all connections, an
    action is one turn of a task or one call of the service, and a run is a list of actions.
    The channels of [tokio] and the JSON of a message are interfaces with their documented
    behaviour; whether a socket takes a text is part of the action. *)
From S2P Require Import Prelude Numerics Floats Errors Store Schema Auth Certificates.
Open Scope string_scope.
Open Scope Z_scope.
Open Scope list_scope.
#[local] Set Warnings "-clear-no-such-hyp".

(** ** Messages ([types.rs] of both) *)

Record PriceLevel := { pl_price : string; pl_volume : string }.

Record ZoneStatus := {
  zs_zone_id : Z;
  zs_generation : spec_float;
  zs_consumption : spec_float;
  zs_net_balance : spec_float;
  zs_active_meters : Z;
}.

Inductive MarketEvent :=
| OfferCreated (offer_id : string) (energy_amount price_per_kwh : spec_float)
    (energy_source location created_by : string)
| OfferUpdated (offer_id status : string) (energy_amount : option spec_float)
| OrderCreated (order_id : string) (energy_amount max_price_per_kwh : spec_float)
    (energy_source : option string) (created_by : string)
| OrderMatched (order_id offer_id transaction_id : string) (matched_amount price_per_kwh : spec_float)
| TransactionUpdated (transaction_id status buyer_id seller_id : string)
| MarketStats (total_active_offers total_pending_orders : Z) (average_price total_volume_24h : spec_float)
| OrderBookBuyUpdate (price_levels : list PriceLevel) (best_bid : option string) (timestamp : string)
| OrderBookSellUpdate (price_levels : list PriceLevel) (best_ask : option string) (timestamp : string)
| OrderBookSnapshot (bids asks : list PriceLevel) (best_bid best_ask mid_price spread : option string)
    (timestamp : string)
| TradeExecuted (trade_id buy_order_id sell_order_id buyer_id seller_id quantity price total_value
    executed_at : string)
| MarketDepthUpdate (total_buy_volume total_sell_volume : string) (buy_orders_count sell_orders_count : Z)
    (spread_percentage : option spec_float)
| MeterReadingReceived (user_id : Uuid) (wallet_address meter_serial : string) (kwh_amount : spec_float)
    (power voltage current : option spec_float) (timestamp : DateTime)
| TokensMinted (user_id : Uuid) (wallet_address meter_serial : string) (kwh_amount : spec_float)
    (tokens_minted : Z) (transaction_signature : string) (timestamp : DateTime)
| MeterReadingValidationFailed (user_id : Uuid) (wallet_address meter_serial : string)
    (kwh_amount : spec_float) (error_reason : string) (timestamp : DateTime)
| BatchMintingCompleted (batch_id : string) (total_readings successful_mints failed_mints : Z)
    (timestamp : DateTime)
| GridStatusUpdated (total_generation total_consumption net_balance : spec_float) (active_meters : Z)
    (co2_saved_kg : spec_float) (zones : gmap Z ZoneStatus) (timestamp : DateTime)
| MeterAlert (meter_id alert_type severity message : string) (timestamp : DateTime).

Record WsOrderBookEntry := { ob_price : string; ob_quantity : string; ob_order_count : Z }.
Record OrderBookData := { ob_buys : list WsOrderBookEntry; ob_sells : list WsOrderBookEntry }.

Inductive WsMessage :=
| OrderBookUpdate (epoch_number : Z) (buys sells : list WsOrderBookEntry) (timestamp : DateTime)
| OrderUpdate (order_id : Uuid) (status : string) (timestamp : DateTime)
| MatchNotification (match_id buy_order_id sell_order_id : Uuid) (matched_amount match_price : string)
    (timestamp : DateTime)
| EpochTransition (old_epoch new_epoch : Z) (clearing_price : option string) (total_volume : string)
    (timestamp : DateTime)
| WsError (code message : string) (timestamp : DateTime)
| Ping (timestamp : DateTime)
| Pong (timestamp : DateTime)
| TransactionStatusUpdate (operation_id : Uuid) (transaction_type old_status new_status : string)
    (signature error_message : option string) (timestamp : DateTime)
| P2POrderUpdate (order_id user_id : Uuid) (side status original_amount filled_amount remaining_amount
    price_per_kwh : string) (timestamp : DateTime)
| SettlementComplete (settlement_id buyer_id seller_id : Uuid) (energy_amount total_cost : string)
    (transaction_signature : option string) (timestamp : DateTime).

Record WsParams := { wp_channels : option string; wp_epoch : option Z; wp_token : option string }.

(** ** Interfaces *)

(** [tokio::sync::mpsc::unbounded_channel] with its one receiver: [mpsc_content] is what has been
    sent and not received, [None] once the receiver is gone. *)
Class Mpsc (A : Type) := {
  mpsc : Type;
  mpsc_new : mpsc;
  mpsc_send : A -> mpsc -> option mpsc;
  mpsc_recv : mpsc -> option (A * mpsc);
  mpsc_drop : mpsc -> mpsc;
  mpsc_content : mpsc -> option (list A);
  content_new : mpsc_content mpsc_new = Some [];
  content_send a c :
    match mpsc_content c with
    | Some l => exists c', mpsc_send a c = Some c' /\ mpsc_content c' = Some (l ++ [a])
    | None => mpsc_send a c = None
    end;
  content_recv c :
    match mpsc_content c with
    | Some (a :: l) => exists c', mpsc_recv c = Some (a, c') /\ mpsc_content c' = Some l
    | _ => mpsc_recv c = None
    end;
  content_drop c : mpsc_content (mpsc_drop c) = None;
}.
Arguments mpsc A {_}.

(** [tokio::sync::broadcast::channel] with one receiver.  It keeps at least as many values as asked
    for; a receiver that falls behind misses the oldest and is told so once.  Sending fails when
    nobody can receive. *)
Inductive Received (A : Type) := Value (a : A) | Lagged | Closed | Waiting.
Arguments Value {A} a.
Arguments Lagged {A}.
Arguments Closed {A}.
Arguments Waiting {A}.

Class Broadcast (A : Type) := {
  ring : Type;
  ring_new : nat -> ring;
  ring_send : A -> ring -> option ring;
  ring_recv : ring -> Received A * ring;
  ring_drop_receiver : ring -> ring;
  ring_drop_sender : ring -> ring;
  ring_capacity : ring -> nat;
  ring_unread : ring -> option (list A);
  ring_sender : ring -> bool;
  new_ring n : (n <= ring_capacity (ring_new n))%nat /\ ring_unread (ring_new n) = Some []
    /\ ring_sender (ring_new n) = true;
  send_ring a r :
    match ring_unread r with
    | Some l => exists r', ring_send a r = Some r' /\ ring_unread r' = Some (l ++ [a])
        /\ ring_capacity r' = ring_capacity r /\ ring_sender r' = ring_sender r
    | None => ring_send a r = None
    end;
  recv_ring r l : ring_unread r = Some l ->
    if (ring_capacity r <? length l)%nat then (ring_recv r).1 = Lagged
    else match l with
         | a :: l => exists r', ring_recv r = (Value a, r') /\ ring_unread r' = Some l
             /\ ring_capacity r' = ring_capacity r /\ ring_sender r' = ring_sender r
         | [] => (ring_recv r).1 = (if ring_sender r then Waiting else Closed)
                 /\ (ring_recv r).2 = r
         end;
  drop_ring_receiver r : ring_unread (ring_drop_receiver r) = None;
  drop_ring_sender r : ring_unread (ring_drop_sender r) = ring_unread r
    /\ ring_capacity (ring_drop_sender r) = ring_capacity r /\ ring_sender (ring_drop_sender r) = false;
}.
Arguments ring A {_}.

(** [serde_json::to_string] of the messages, and the text of the greeting. *)
Class WsJson := {
  event_json : MarketEvent -> res string string;
  message_json : WsMessage -> res string string;
  welcome_json : Uuid -> string;
}.

(** ** The market feed *)

Section feed.
Context `{MP : Mpsc MarketEvent} `{WJ : WsJson} `{DT : DateText}.

(** The forwarding task of a client: before its greeting, in its loop, out of its loop, ended. *)
Inductive Forwarder := Greeting | Forwarding | Leaving | Gone.
#[global] Instance Forwarder_eq_dec : EqDecision Forwarder.
Proof. solve_decision. Defined.

Record Subscriber := {
  sb_channel : mpsc MarketEvent;
  sb_forwarder : Forwarder;
  sb_reading : bool;
  sb_sent : list string;
}.

(** [clients], each with the channel of its subscriber, and all subscribers there were. *)
Record WebSocketService := {
  ws_clients : gset Uuid;
  ws_subscribers : gmap Uuid Subscriber;
}.

Definition ws_new : WebSocketService := {| ws_clients := ∅; ws_subscribers := ∅ |}.

Definition set_channel (c : mpsc MarketEvent) (s : Subscriber) : Subscriber :=
  {| sb_channel := c; sb_forwarder := sb_forwarder s; sb_reading := sb_reading s; sb_sent := sb_sent s |}.
Definition set_forwarder (f : Forwarder) (s : Subscriber) : Subscriber :=
  {| sb_channel := sb_channel s; sb_forwarder := f; sb_reading := sb_reading s; sb_sent := sb_sent s |}.
Definition stop_reading (s : Subscriber) : Subscriber :=
  {| sb_channel := sb_channel s; sb_forwarder := sb_forwarder s; sb_reading := false; sb_sent := sb_sent s |}.
Definition add_sent (t : string) (s : Subscriber) : Subscriber :=
  {| sb_channel := sb_channel s; sb_forwarder := sb_forwarder s; sb_reading := sb_reading s;
     sb_sent := sb_sent s ++ [t] |}.

(** Up to the two tasks it starts. *)
Definition register_client (id : Uuid) (f : WebSocketService) : WebSocketService :=
  {| ws_clients := {[id]} ∪ ws_clients f;
     ws_subscribers := <[id := {| sb_channel := mpsc_new; sb_forwarder := Greeting; sb_reading := true;
                                  sb_sent := [] |}]> (ws_subscribers f) |}.

(** A failing [send] is logged. *)
Definition offer (e : MarketEvent) (s : Subscriber) : Subscriber :=
  match mpsc_send e (sb_channel s) with Some c => set_channel c s | None => s end.

Definition broadcast (e : MarketEvent) (f : WebSocketService) : WebSocketService :=
  if decide (ws_clients f = ∅) then f
  else {| ws_clients := ws_clients f;
          ws_subscribers := map_imap (fun id s => Some (if bool_decide (id ∈ ws_clients f) then offer e s else s))
                              (ws_subscribers f) |}.

Definition client_count (f : WebSocketService) : nat := size (ws_clients f).

(** One turn of the forwarding task; [taken]: the socket took the text. *)
Definition forward_turn (id : Uuid) (taken : bool) (s : Subscriber) : Subscriber :=
  match sb_forwarder s with
  | Greeting => set_forwarder Forwarding (if taken then add_sent (welcome_json id) s else s)
  | Forwarding =>
      match mpsc_recv (sb_channel s) with
      | None => s
      | Some (e, c) =>
          match event_json e with
          | Ok json => if taken then add_sent json (set_channel c s) else set_forwarder Leaving (set_channel c s)
          | Err _ => set_channel c s
          end
      end
  | _ => s
  end.

(** [clients.write().await.remove(&client_id)]: the end of the task, and of the receiver. *)
Definition leave (id : Uuid) (f : WebSocketService) : WebSocketService :=
  match ws_subscribers f !! id with
  | Some s =>
      if decide (sb_forwarder s = Leaving) then
        {| ws_clients := ws_clients f ∖ {[id]};
           ws_subscribers := <[id := set_forwarder Gone (set_channel (mpsc_drop (sb_channel s)) s)]>
                               (ws_subscribers f) |}
      else f
  | None => f
  end.

(** What the reading task gets from the socket; a broken or ended stream ends it as a close does. *)
Inductive Incoming := InText (t : string) | InPing | InPong | InBinary | InClose | InEnd.

Definition read_turn (m : Incoming) (s : Subscriber) : Subscriber :=
  match m with InClose | InEnd => stop_reading s | _ => s end.

Inductive FeedAction :=
| ARegister (id : Uuid)
| ABroadcast (e : MarketEvent)
| AForward (id : Uuid) (taken : bool)
| ALeave (id : Uuid)
| ARead (id : Uuid) (m : Incoming).

Definition with_subscriber (id : Uuid) (g : Subscriber -> Subscriber) (f : WebSocketService) : WebSocketService :=
  {| ws_clients := ws_clients f; ws_subscribers := alter g id (ws_subscribers f) |}.

Definition feed_step (f : WebSocketService) (a : FeedAction) : WebSocketService :=
  match a with
  | ARegister id => register_client id f
  | ABroadcast e => broadcast e f
  | AForward id taken => with_subscriber id (forward_turn id taken) f
  | ALeave id => leave id f
  | ARead id m => with_subscriber id (read_turn m) f
  end.

Definition feed_run (acts : list FeedAction) (f : WebSocketService) : WebSocketService := foldl feed_step f acts.

(** *** The events of the service *)

Definition broadcast_offer_created (offer_id : string) (energy_amount price_per_kwh : spec_float)
    (energy_source location created_by : string) : WebSocketService -> WebSocketService :=
  broadcast (OfferCreated offer_id energy_amount price_per_kwh energy_source location created_by).

Definition broadcast_offer_updated (offer_id status : string) (energy_amount : option spec_float) :=
  broadcast (OfferUpdated offer_id status energy_amount).

Definition broadcast_order_created (order_id : string) (energy_amount max_price_per_kwh : spec_float)
    (energy_source : option string) (created_by : string) :=
  broadcast (OrderCreated order_id energy_amount max_price_per_kwh energy_source created_by).

Definition broadcast_order_matched (order_id offer_id transaction_id : string)
    (matched_amount price_per_kwh : spec_float) :=
  broadcast (OrderMatched order_id offer_id transaction_id matched_amount price_per_kwh).

Definition broadcast_transaction_updated (transaction_id status buyer_id seller_id : string) :=
  broadcast (TransactionUpdated transaction_id status buyer_id seller_id).

Definition broadcast_market_stats (total_active_offers total_pending_orders : Z)
    (average_price total_volume_24h : spec_float) :=
  broadcast (MarketStats total_active_offers total_pending_orders average_price total_volume_24h).

Definition price_level (x : string * string) : PriceLevel := {| pl_price := x.1; pl_volume := x.2 |}.

Definition broadcast_order_book_snapshot (bids asks : list (string * string))
    (best_bid best_ask mid_price spread : option string) (now : DateTime) :=
  broadcast (OrderBookSnapshot (price_level <$> bids) (price_level <$> asks) best_bid best_ask mid_price spread
               (to_rfc3339 now)).

Definition broadcast_order_book_buy_update (price_levels : list (string * string)) (best_bid : option string)
    (now : DateTime) :=
  broadcast (OrderBookBuyUpdate (price_level <$> price_levels) best_bid (to_rfc3339 now)).

Definition broadcast_order_book_sell_update (price_levels : list (string * string)) (best_ask : option string)
    (now : DateTime) :=
  broadcast (OrderBookSellUpdate (price_level <$> price_levels) best_ask (to_rfc3339 now)).

Definition broadcast_trade_executed (trade_id buy_order_id sell_order_id buyer_id seller_id quantity price
    total_value executed_at : string) :=
  broadcast (TradeExecuted trade_id buy_order_id sell_order_id buyer_id seller_id quantity price total_value
               executed_at).

Definition broadcast_market_depth_update (total_buy_volume total_sell_volume : string)
    (buy_orders_count sell_orders_count : Z) (spread_percentage : option spec_float) :=
  broadcast (MarketDepthUpdate total_buy_volume total_sell_volume buy_orders_count sell_orders_count
               spread_percentage).

Definition broadcast_meter_reading_received (user_id : Uuid) (wallet_address meter_serial : string)
    (kwh_amount : spec_float) (power voltage current : option spec_float) (now : DateTime) :=
  broadcast (MeterReadingReceived user_id wallet_address meter_serial kwh_amount power voltage current now).

Definition broadcast_tokens_minted (user_id : Uuid) (wallet_address meter_serial : string)
    (kwh_amount : spec_float) (tokens_minted : Z) (transaction_signature : string) (now : DateTime) :=
  broadcast (TokensMinted user_id wallet_address meter_serial kwh_amount tokens_minted transaction_signature now).

Definition broadcast_meter_reading_validation_failed (user_id : Uuid) (wallet_address meter_serial : string)
    (kwh_amount : spec_float) (error_reason : string) (now : DateTime) :=
  broadcast (MeterReadingValidationFailed user_id wallet_address meter_serial kwh_amount error_reason now).

Definition broadcast_batch_minting_completed (batch_id : string) (total_readings successful_mints failed_mints : Z)
    (now : DateTime) :=
  broadcast (BatchMintingCompleted batch_id total_readings successful_mints failed_mints now).

Definition broadcast_grid_status_updated (total_generation total_consumption net_balance : spec_float)
    (active_meters : Z) (co2_saved_kg : spec_float) (zones : gmap Z ZoneStatus) (now : DateTime) :=
  broadcast (GridStatusUpdated total_generation total_consumption net_balance active_meters co2_saved_kg zones now).

Definition broadcast_meter_alert (meter_id alert_type severity message : string) (now : DateTime) :=
  broadcast (MeterAlert meter_id alert_type severity message now).

(** Only logs. *)
Definition broadcast_to_channel (channel message : string) (f : WebSocketService) : WebSocketService := f.
End feed.

(** ** The connections of the users *)

Section manager.
Context `{MP : Mpsc MarketEvent} `{BC : Broadcast WsMessage} `{WJ : WsJson} `{JWT : JwtLib}.

(** A socket of a user: its channel, whether its forwarding task runs, whether it is open. *)
Record Connection := {
  cn_user : Uuid;
  cn_ring : ring WsMessage;
  cn_forwarding : bool;
  cn_open : bool;
  cn_sent : list string;
}.

(** [connections]: for a user the socket whose channel is registered.  The receiver of
    [broadcaster] is dropped where it is made. *)
Record ConnectionManager := {
  cm_connections : gmap Uuid nat;
  cm_broadcaster : ring WsMessage;
  cm_sockets : gmap nat Connection;
}.

Definition manager_new : ConnectionManager :=
  {| cm_connections := ∅; cm_broadcaster := ring_drop_receiver (ring_new 1000); cm_sockets := ∅ |}.

Definition set_ring (r : ring WsMessage) (c : Connection) : Connection :=
  {| cn_user := cn_user c; cn_ring := r; cn_forwarding := cn_forwarding c; cn_open := cn_open c;
     cn_sent := cn_sent c |}.
Definition send_text (t : string) (c : Connection) : Connection :=
  {| cn_user := cn_user c; cn_ring := cn_ring c; cn_forwarding := cn_forwarding c; cn_open := cn_open c;
     cn_sent := cn_sent c ++ [t] |}.
(** The forwarding task ends, and its receiver with it. *)
Definition stop_forwarding (c : Connection) : Connection :=
  {| cn_user := cn_user c; cn_ring := ring_drop_receiver (cn_ring c); cn_forwarding := false;
     cn_open := cn_open c; cn_sent := cn_sent c |}.
Definition close_socket (c : Connection) : Connection :=
  {| cn_user := cn_user c; cn_ring := cn_ring c; cn_forwarding := cn_forwarding c; cn_open := false;
     cn_sent := cn_sent c |}.

Definition with_socket (k : nat) (g : Connection -> Connection) (m : ConnectionManager) : ConnectionManager :=
  {| cm_connections := cm_connections m; cm_broadcaster := cm_broadcaster m;
     cm_sockets := alter g k (cm_sockets m) |}.

(** The entry of [user] is replaced or removed: its sender is dropped. *)
Definition release_sender (user : Uuid) (m : ConnectionManager) : ConnectionManager :=
  match cm_connections m !! user with
  | Some k => with_socket k (fun c => set_ring (ring_drop_sender (cn_ring c)) c) m
  | None => m
  end.

Definition set_connections (l : gmap Uuid nat) (m : ConnectionManager) : ConnectionManager :=
  {| cm_connections := l; cm_broadcaster := cm_broadcaster m; cm_sockets := cm_sockets m |}.

(** [k] names the new socket; its forwarding task starts with the receiver. *)
Definition add_connection (k : nat) (user : Uuid) (m : ConnectionManager) : ConnectionManager :=
  let m := release_sender user m in
  {| cm_connections := <[user := k]> (cm_connections m);
     cm_broadcaster := cm_broadcaster m;
     cm_sockets := <[k := {| cn_user := user; cn_ring := ring_new 100; cn_forwarding := true; cn_open := true;
                             cn_sent := [] |}]> (cm_sockets m) |}.

Definition remove_connection (user : Uuid) (m : ConnectionManager) : ConnectionManager :=
  let m := release_sender user m in set_connections (delete user (cm_connections m)) m.

(** [Err]: the channel is closed. *)
Definition send_to_user (user : Uuid) (msg : WsMessage) (m : ConnectionManager)
    : res unit unit * ConnectionManager :=
  match cm_connections m !! user with
  | None => (Ok tt, m)
  | Some k =>
      match cm_sockets m !! k with
      | None => (Ok tt, m)
      | Some c =>
          match ring_send msg (cn_ring c) with
          | Some r => (Ok tt, with_socket k (set_ring r) m)
          | None => (Err tt, m)
          end
      end
  end.

Definition manager_broadcast (msg : WsMessage) (m : ConnectionManager) : res unit unit * ConnectionManager :=
  (Ok tt, match ring_send msg (cm_broadcaster m) with
          | Some r => {| cm_connections := cm_connections m; cm_broadcaster := r; cm_sockets := cm_sockets m |}
          | None => m
          end).

Definition connection_count (m : ConnectionManager) : nat := size (cm_connections m).

(** One turn of [forward_task]; [taken]: the socket took the text. *)
Definition forward_message (taken : bool) (c : Connection) : Connection :=
  if cn_forwarding c then
    match ring_recv (cn_ring c) with
    | (Value msg, r) =>
        match message_json msg with
        | Ok json => if taken then send_text json (set_ring r c) else stop_forwarding (set_ring r c)
        | Err _ => set_ring r c
        end
    | (Waiting, _) => c
    | (_, r) => stop_forwarding (set_ring r c)
    end
  else c.

(** The end of [handle_authenticated_socket]: the socket was closed, broke or ended. *)
Definition disconnect (k : nat) (m : ConnectionManager) : ConnectionManager :=
  match cm_sockets m !! k with
  | Some c =>
      if cn_open c
      then remove_connection (cn_user c)
             (with_socket k (fun c => close_socket (stop_forwarding c)) m)
      else m
  | None => m
  end.

(** *** The handshake *)

(** The user whose socket is opened, or the body of the answer with status 401.  The channel of
    the path only appears in a log. *)
Definition websocket_handler_internal (now : Z) (channel : option string) (params : WsParams)
    : res (string * string) Uuid :=
  match wp_token params with
  | Some token =>
      match decode_token now token with
      | Ok claims => Ok (sub claims)
      | Err _ => Err ("unauthorized", "Invalid or expired token")
      end
  | None => Err ("unauthorized", "Token is required")
  end.

Definition websocket_handler (now : Z) (params : WsParams) : res (string * string) Uuid :=
  websocket_handler_internal now None params.

Definition websocket_channel_handler (now : Z) (channel : string) (params : WsParams)
    : res (string * string) Uuid :=
  websocket_handler_internal now (Some channel) params.

Record WsStats := { wst_active : Z; wst_channels : list string; wst_uptime : Z; wst_status : string }.
Definition websocket_stats : WsStats :=
  {| wst_active := 0; wst_channels := ["order-book"; "orders"; "matches"; "epochs"]; wst_uptime := 0;
     wst_status := "WebSocket infrastructure ready" |}.

(** *** Messages of the services ([broadcaster.rs]) *)

Definition broadcast_order_book_update (epoch_number : Z) (order_book : OrderBookData) (now : DateTime)
    : ConnectionManager -> res unit unit * ConnectionManager :=
  manager_broadcast (OrderBookUpdate epoch_number (ob_buys order_book) (ob_sells order_book) now).

Definition broadcast_match_notification (match_id buy_order_id sell_order_id : Uuid)
    (matched_amount match_price : string) (now : DateTime)
    : ConnectionManager -> res unit unit * ConnectionManager :=
  manager_broadcast (MatchNotification match_id buy_order_id sell_order_id matched_amount match_price now).

Definition create_sample_order_book : OrderBookData :=
  {| ob_buys := [{| ob_price := "0.095"; ob_quantity := "100"; ob_order_count := 2 |};
                 {| ob_price := "0.090"; ob_quantity := "150"; ob_order_count := 1 |}];
     ob_sells := [{| ob_price := "0.100"; ob_quantity := "200"; ob_order_count := 3 |};
                  {| ob_price := "0.105"; ob_quantity := "75"; ob_order_count := 1 |}] |}.

Definition broadcast_transaction_status_update (user_id operation_id : Uuid)
    (transaction_type old_status new_status : string) (signature error_message : option string) (now : DateTime)
    : ConnectionManager -> res unit unit * ConnectionManager :=
  send_to_user user_id (TransactionStatusUpdate operation_id transaction_type old_status new_status signature
                          error_message now).

Definition broadcast_p2p_order_update (order_id user_id : Uuid) (side status original_amount filled_amount
    remaining_amount price_per_kwh : string) (now : DateTime)
    : ConnectionManager -> res unit unit * ConnectionManager :=
  send_to_user user_id (P2POrderUpdate order_id user_id side status original_amount filled_amount remaining_amount
                          price_per_kwh now).

Definition broadcast_settlement_complete (settlement_id buyer_id seller_id : Uuid)
    (energy_amount total_cost : string) (transaction_signature : option string) (now : DateTime)
    (m : ConnectionManager) : res unit unit * ConnectionManager :=
  let message := SettlementComplete settlement_id buyer_id seller_id energy_amount total_cost
                   transaction_signature now in
  match send_to_user buyer_id message m with
  | (Err e, m) => (Err e, m)
  | (Ok _, m) => send_to_user seller_id message m
  end.

(** *** Runs *)

Inductive ManagerAction :=
| MConnect (k : nat) (user : Uuid)
| MSend (user : Uuid) (msg : WsMessage)
| MBroadcast (msg : WsMessage)
| MForward (k : nat) (taken : bool)
| MDisconnect (k : nat).

Definition manager_step (m : ConnectionManager) (a : ManagerAction) : ConnectionManager :=
  match a with
  | MConnect k user => add_connection k user m
  | MSend user msg => (send_to_user user msg m).2
  | MBroadcast msg => (manager_broadcast msg m).2
  | MForward k taken => with_socket k (forward_message taken) m
  | MDisconnect k => disconnect k m
  end.

Definition manager_run (acts : list ManagerAction) (m : ConnectionManager) : ConnectionManager :=
  foldl manager_step m acts.
End manager.

(** ** What a client of the feed gets *)

Section feed_props.
Context `{MP : Mpsc MarketEvent} `{WJ : WsJson} `{DT : DateText}.

(** The events broadcast since [id] registered. *)
Definition since_step (id : Uuid) (l : list MarketEvent) (a : FeedAction) : list MarketEvent :=
  match a with
  | ARegister i => if (i =? id)%N then [] else l
  | ABroadcast e => l ++ [e]
  | _ => l
  end.
Definition since (id : Uuid) (acts : list FeedAction) : list MarketEvent := foldl (since_step id) [] acts.

Definition event_text (e : MarketEvent) : option string :=
  match event_json e with Ok t => Some t | Err _ => None end.

(** [l] are the events to deliver, of which [taken] were taken from the channel. *)
Definition delivery (id : Uuid) (s : Subscriber) (l taken rest : list MarketEvent) (w : list string) : Prop :=
  l = taken ++ rest /\ (w = [] \/ w = [welcome_json id]) /\ sb_sent s = w ++ omap event_text taken
  /\ (sb_forwarder s = Greeting -> w = [] /\ taken = [])
  /\ (sb_forwarder s = Greeting \/ sb_forwarder s = Forwarding -> mpsc_content (sb_channel s) = Some rest).

Lemma delivery_more id s l taken rest w e : delivery id s l taken rest w ->
  (sb_forwarder s <> Gone -> delivery id (offer e s) (l ++ [e]) taken (rest ++ [e]) w)
  /\ (sb_forwarder s = Gone -> delivery id s (l ++ [e]) taken (rest ++ [e]) w).
Proof.
  intros (-> & Hw & Hs & Hg & Hc). split; intros Hf.
  - unfold delivery, offer. pose proof (content_send e (sb_channel s)) as C.
    destruct (mpsc_content (sb_channel s)) as [q|] eqn:Q.
    + destruct C as (c' & -> & C). simpl. split_and!; try done; [by rewrite app_assoc|].
      intros F. specialize (Hc F). injection Hc as ->. done.
    + rewrite C. split_and!; try done; [by rewrite app_assoc|]. intros F. specialize (Hc F). done.
  - unfold delivery. split_and!; try done; [by rewrite app_assoc|]. rewrite Hf. by intros [|].
Qed.

Lemma forward_delivers id taken_ s l taken rest w : delivery id s l taken rest w ->
  exists taken' rest' w', delivery id (forward_turn id taken_ s) l taken' rest' w'.
Proof.
  intros (-> & Hw & Hs & Hg & Hc). unfold forward_turn. destruct (sb_forwarder s) eqn:F.
  - destruct (Hg eq_refl) as [-> ->]. specialize (Hc (or_introl eq_refl)). simpl in Hs.
    exists [], rest, (if taken_ then [welcome_json id] else []). unfold delivery.
    destruct taken_; simpl; rewrite Hs; split_and!; try done; auto.
  - specialize (Hc (or_intror eq_refl)). pose proof (content_recv (sb_channel s)) as R. rewrite Hc in R.
    destruct rest as [|e rest].
    { rewrite R. exists taken, [], w. unfold delivery. rewrite F. by split_and!. }
    destruct R as (c' & -> & R). unfold delivery, event_text in *.
    destruct (event_json e) as [t|x] eqn:J; [destruct taken_|].
    + exists (taken ++ [e]), rest, w. simpl. rewrite F, Hs, omap_app. simpl. rewrite J.
      split_and!; try done; [by rewrite <- app_assoc|by rewrite app_assoc].
    + exists taken, (e :: rest), w. simpl. split_and!; try done; by intros [|].
    + exists (taken ++ [e]), rest, w. simpl. rewrite F, Hs, omap_app. simpl. rewrite J, app_nil_r.
      split_and!; try done. by rewrite <- app_assoc.
  - exists taken, rest, w. unfold delivery. rewrite F. by split_and!.
  - exists taken, rest, w. unfold delivery. rewrite F. by split_and!.
Qed.

(** The registry holds exactly those whose task has not ended. *)
Definition registry_ok (f : WebSocketService) : Prop :=
  forall id, id ∈ ws_clients f <-> exists s, ws_subscribers f !! id = Some s /\ sb_forwarder s <> Gone.

Lemma offer_forwarder e s : sb_forwarder (offer e s) = sb_forwarder s.
Proof. unfold offer. by destruct (mpsc_send _ _). Qed.

Lemma forward_not_gone id t s : sb_forwarder s <> Gone <-> sb_forwarder (forward_turn id t s) <> Gone.
Proof.
  unfold forward_turn. destruct (sb_forwarder s) eqn:F; simpl; rewrite ?F; try done.
  destruct (mpsc_recv _) as [[e c]|]; [|by rewrite F].
  destruct (event_json e); [destruct t|]; simpl; by rewrite ?F.
Qed.

Lemma lookup_broadcast e f id : ws_clients f <> ∅ ->
  ws_subscribers (broadcast e f) !! id
  = (fun s => if bool_decide (id ∈ ws_clients f) then offer e s else s) <$> ws_subscribers f !! id.
Proof.
  intros H. unfold broadcast. rewrite decide_False by done. simpl. rewrite map_lookup_imap.
  by destruct (ws_subscribers f !! id).
Qed.

Lemma registry_alter f id g : (forall s, sb_forwarder s <> Gone <-> sb_forwarder (g s) <> Gone) ->
  registry_ok f -> registry_ok (with_subscriber id g f).
Proof.
  intros Hg H i. unfold with_subscriber. simpl. rewrite (H i). destruct (decide (i = id)) as [->|N].
  - rewrite lookup_alter_eq. destruct (ws_subscribers f !! id) as [s|]; simpl.
    + pose proof (Hg s) as [G1 G2].
      split; intros (s' & [= <-] & F); [exists (g s)|exists s]; (split; [done|]); auto.
    + split; intros (s' & E & _); done.
  - by rewrite lookup_alter_ne by done.
Qed.

Lemma registry_step f a : registry_ok f -> registry_ok (feed_step f a).
Proof.
  intros H. destruct a as [i|e|i t|i|i m]; simpl.
  - intros id. simpl. rewrite elem_of_union, elem_of_singleton. destruct (decide (id = i)) as [->|N].
    + rewrite lookup_insert_eq. split; [|auto]. intros _. by eexists.
    + rewrite lookup_insert_ne by done. rewrite <- (H id). naive_solver.
  - destruct (decide (ws_clients f = ∅)) as [E|E]; [unfold broadcast; by rewrite decide_True|].
    intros id. rewrite lookup_broadcast by done. unfold broadcast. rewrite decide_False by done. simpl.
    rewrite (H id). destruct (ws_subscribers f !! id) as [s|]; simpl.
    + split; intros (s' & [= <-] & F); eexists; (split; [done|]);
        case_bool_decide; rewrite ?offer_forwarder in *; done.
    + split; intros (s' & E' & _); done.
  - apply registry_alter; [|done]. intros s. apply forward_not_gone.
  - unfold leave. destruct (ws_subscribers f !! i) as [s|] eqn:L; [|done].
    destruct (decide (sb_forwarder s = Leaving)) as [F|F]; [|done].
    intros id. simpl. rewrite elem_of_difference, elem_of_singleton. destruct (decide (id = i)) as [->|N].
    + rewrite lookup_insert_eq. split; [by intros [_ []]|]. intros (s' & [= <-] & G). done.
    + rewrite lookup_insert_ne by done. rewrite (H id). naive_solver.
  - apply registry_alter; [|done]. intros s. by destruct m.
Qed.

Lemma feed_run_app acts a f : feed_run (acts ++ [a]) f = feed_step (feed_run acts f) a.
Proof. unfold feed_run. by rewrite foldl_app. Qed.

Lemma registry_run acts : registry_ok (feed_run acts ws_new).
Proof.
  induction acts as [|a acts IH] using rev_ind.
  - intros id. unfold feed_run, ws_new. cbn [foldl ws_subscribers ws_clients]. rewrite lookup_empty.
    split; [by intros ?%elem_of_empty|by intros (s & ? & _)].
  - rewrite feed_run_app. by apply registry_step.
Qed.

Lemma feed_invariant acts id s : ws_subscribers (feed_run acts ws_new) !! id = Some s ->
  exists taken rest w, delivery id s (since id acts) taken rest w.
Proof.
  revert s. induction acts as [|a acts IH] using rev_ind; intros s.
  { unfold feed_run, ws_new. cbn [foldl ws_subscribers]. by rewrite lookup_empty. }
  rewrite feed_run_app. unfold since. rewrite foldl_app. fold (since id acts). simpl.
  set (f := feed_run acts ws_new) in *. pose proof (registry_run acts) as Rg. fold f in Rg.
  destruct a as [i|e|i t|i|i m]; simpl.
  - destruct (N.eqb_spec i id) as [->|N].
    + rewrite lookup_insert_eq. intros [= <-]. exists [], [], []. unfold delivery. simpl. rewrite content_new.
      split_and!; auto.
    + rewrite lookup_insert_ne by done. apply IH.
  - destruct (decide (ws_clients f = ∅)) as [E|E].
    + unfold broadcast. rewrite decide_True by done. intros L. destruct (IH s L) as (tk & rs & w & D).
      exists tk, (rs ++ [e]), w. apply (delivery_more id s (since id acts)); [done|].
      destruct (decide (sb_forwarder s = Gone)) as [G|G]; [done|].
      exfalso. assert (id ∈ ws_clients f) as X by (apply Rg; by exists s). rewrite E in X. by apply elem_of_empty in X.
    + rewrite lookup_broadcast by done. destruct (ws_subscribers f !! id) as [s0|] eqn:L; [|done].
      destruct (IH s0 eq_refl) as (tk & rs & w & D). intros [= <-]. exists tk, (rs ++ [e]), w.
      destruct (delivery_more id s0 (since id acts) tk rs w e D) as [D1 D2].
      case_bool_decide as M; [apply D1|apply D2].
      * apply Rg in M as (s' & L' & G). congruence.
      * destruct (decide (sb_forwarder s0 = Gone)); [done|]. exfalso. apply M, Rg. by exists s0.
  - destruct (decide (id = i)) as [->|N]; [|rewrite lookup_alter_ne by done; apply IH].
    rewrite lookup_alter_eq. destruct (ws_subscribers f !! i) as [s0|]; [|done]. intros [= <-].
    destruct (IH s0 eq_refl) as (tk & rs & w & D). by eapply forward_delivers.
  - unfold leave. destruct (ws_subscribers f !! i) as [s0|] eqn:L; [|apply IH].
    destruct (decide (sb_forwarder s0 = Leaving)) as [F|F]; [|apply IH]. simpl.
    destruct (decide (id = i)) as [->|N]; [|rewrite lookup_insert_ne by done; apply IH].
    rewrite lookup_insert_eq. intros [= <-]. destruct (IH s0 L) as (tk & rs & w & D1 & D2 & D3 & _).
    exists tk, rs, w. unfold delivery. simpl. split_and!; try done. by intros [|].
  - destruct (decide (id = i)) as [->|N]; [|rewrite lookup_alter_ne by done; apply IH].
    rewrite lookup_alter_eq. destruct (ws_subscribers f !! i) as [s0|]; [|done]. intros [= <-].
    destruct (IH s0 eq_refl) as (tk & rs & w & D). exists tk, rs, w. by destruct m.
Qed.
End feed_props.

Section feed_theorems.
Context `{MP : Mpsc MarketEvent} `{WJ : WsJson} `{DT : DateText}.

(** C27: Whatever the interleaving, a client has been sent, after its greeting, the texts of a
    beginning of the events broadcast since it registered, in their order, none twice and none
    left out; while its task runs, its channel holds exactly the others. *)
Theorem feed_in_order acts id s : ws_subscribers (feed_run acts ws_new) !! id = Some s ->
  exists taken rest w, since id acts = taken ++ rest /\ (w = [] \/ w = [welcome_json id])
    /\ sb_sent s = w ++ omap event_text taken
    /\ (sb_forwarder s = Greeting \/ sb_forwarder s = Forwarding -> mpsc_content (sb_channel s) = Some rest).
Proof.
  intros L. destruct (feed_invariant acts id s L) as (taken & rest & w & H1 & H2 & H3 & _ & H5).
  by exists taken, rest, w.
Qed.

Lemma turn_after id n f s : ws_subscribers f !! id = Some s ->
  ws_subscribers (feed_run (replicate n (AForward id true)) f) !! id = Some (Nat.iter n (forward_turn id true) s).
Proof.
  revert f s. induction n as [|n IH]; intros f s L; [done|]. rewrite Nat.iter_succ_r.
  apply (IH (feed_step f (AForward id true))). simpl. by rewrite lookup_alter_eq, L.
Qed.

Lemma turns_drain id n s rest : sb_forwarder s = Forwarding -> mpsc_content (sb_channel s) = Some rest ->
  (length rest <= n)%nat ->
  mpsc_content (sb_channel (Nat.iter n (forward_turn id true) s)) = Some []
  /\ sb_sent (Nat.iter n (forward_turn id true) s) = sb_sent s ++ omap event_text rest
  /\ sb_forwarder (Nat.iter n (forward_turn id true) s) = Forwarding.
Proof.
  revert s rest. induction n as [|n IH]; intros s rest F C Hn.
  - destruct rest; [|simpl in Hn; lia]. simpl. by rewrite app_nil_r.
  - rewrite Nat.iter_succ_r. pose proof (content_recv (sb_channel s)) as R. rewrite C in R.
    destruct rest as [|e rest].
    + assert (T : forward_turn id true s = s) by (unfold forward_turn; by rewrite F, R).
      rewrite T. apply (IH s []); [done..|simpl; lia].
    + destruct R as (c' & R & C'). unfold event_text. simpl omap. fold event_text.
      assert (T : forward_turn id true s
        = match event_json e with Ok t => add_sent t (set_channel c' s) | Err _ => set_channel c' s end)
        by (unfold forward_turn; by rewrite F, R).
      simpl in Hn. assert (Hl : (length rest <= n)%nat) by lia.
      rewrite T. destruct (event_json e) as [t|x]; simpl.
      * destruct (IH (add_sent t (set_channel c' s)) rest F C' Hl) as (I1 & I2 & I3).
        split_and!; [done| |done]. rewrite I2. simpl. by rewrite <- app_assoc.
      * by destruct (IH (set_channel c' s) rest F C' Hl) as (I1 & I2 & I3).
Qed.

(** A client whose socket takes what it is given gets everything: as many turns as events wait,
    and one for the greeting, leave nothing behind. *)
Theorem feed_catches_up acts id s n : ws_subscribers (feed_run acts ws_new) !! id = Some s ->
  sb_forwarder s = Greeting \/ sb_forwarder s = Forwarding -> (S (length (since id acts)) <= n)%nat ->
  exists s' w, ws_subscribers (feed_run (acts ++ replicate n (AForward id true)) ws_new) !! id = Some s'
    /\ (w = [] \/ w = [welcome_json id]) /\ sb_sent s' = w ++ omap event_text (since id acts).
Proof.
  intros L F Hn. destruct (feed_invariant acts id s L) as (taken & rest & w & H1 & H2 & H3 & H4 & H5).
  unfold feed_run. rewrite foldl_app. fold (feed_run acts ws_new).
  change (foldl feed_step (feed_run acts ws_new)) with (fun l => feed_run l (feed_run acts ws_new)). cbv beta.
  exists (Nat.iter n (forward_turn id true) s).
  rewrite (turn_after id n _ s L).
  assert (Hl : (length rest < n)%nat) by (rewrite H1, length_app in Hn; lia).
  specialize (H5 F). destruct F as [F|F].
  - destruct (H4 F) as [-> ->]. simpl in H3. exists [welcome_json id]. split; [done|]. split; [by right|].
    destruct n as [|n]; [lia|]. rewrite Nat.iter_succ_r. unfold forward_turn at 2. rewrite F.
    destruct (turns_drain id n (set_forwarder Forwarding (add_sent (welcome_json id) s)) rest) as (_ & D & _);
      [done|exact H5|lia|]. rewrite D. simpl. by rewrite H3, H1.
  - exists w. split; [done|]. split; [done|].
    destruct (turns_drain id n s rest F H5) as (_ & D & _); [lia|]. rewrite D, H3, <- app_assoc, <- omap_app.
    by rewrite H1.
Qed.

Definition no_news (id : Uuid) (a : FeedAction) : Prop :=
  match a with ABroadcast _ => False | ARegister i => i <> id | _ => True end.

(** A client that closed its socket is forgotten only after the next event: without one it counts
    as connected, whatever its tasks do. *)
Theorem closed_client_counted acts id s (f : WebSocketService) :
  id ∈ ws_clients f -> ws_subscribers f !! id = Some s -> mpsc_content (sb_channel s) = Some [] ->
  sb_forwarder s = Greeting \/ sb_forwarder s = Forwarding -> Forall (no_news id) acts ->
  id ∈ ws_clients (feed_run acts f) /\ (0 < client_count (feed_run acts f))%nat.
Proof.
  intros Hc L C F A.
  assert (G : id ∈ ws_clients (feed_run acts f)).
  2: { split; [done|]. unfold client_count. destruct (decide (size (ws_clients (feed_run acts f)) = 0%nat)) as [Z|Z]; [|lia].
       apply size_empty_inv in Z. set_solver. }
  revert f s Hc L C F. induction A as [|a acts Ha A IH]; intros f s Hc L C F; [done|].
  cbn [feed_run foldl]. change (foldl feed_step ?f0 acts) with (feed_run acts f0).
  destruct a as [i|e|i t|i|i m]; simpl in Ha; try done; simpl.
  - apply (IH _ s); simpl; [set_solver|by rewrite lookup_insert_ne|done..].
  - destruct (decide (i = id)) as [->|N].
    2: { apply (IH _ s); simpl; [done|by rewrite lookup_alter_ne|done..]. }
    apply (IH _ (forward_turn id t s)); simpl; [done|by rewrite lookup_alter_eq, L| |];
      unfold forward_turn; pose proof (content_recv (sb_channel s)) as R; rewrite C in R;
      (destruct F as [F|F]; rewrite F; [destruct t; simpl; auto|]); rewrite R; auto.
  - unfold leave. destruct (ws_subscribers f !! i) as [s'|] eqn:L'; [|by apply (IH _ s)].
    destruct (decide (sb_forwarder s' = Leaving)) as [E|E]; [|by apply (IH _ s)].
    assert (i <> id) by (intros ->; simplify_eq; destruct F; congruence).
    apply (IH _ s); simpl; [set_solver|by rewrite lookup_insert_ne|done..].
  - destruct (decide (i = id)) as [->|N].
    + apply (IH _ (read_turn m s)); simpl; [done|by rewrite lookup_alter_eq, L|by destruct m..].
    + apply (IH _ s); simpl; [done|by rewrite lookup_alter_ne|done..].
Qed.
End feed_theorems.

(** ** What a user gets *)

Section manager_props.
Context `{MP : Mpsc MarketEvent} `{BC : Broadcast WsMessage} `{WJ : WsJson} `{JWT : JwtLib}.

Definition connects (acts : list ManagerAction) : list nat :=
  omap (fun a => match a with MConnect k _ => Some k | _ => None end) acts.

(** The messages sent to the user of socket [k] since it connected. *)
Definition sent_step (k : nat) (l : option (Uuid * list WsMessage)) (a : ManagerAction)
    : option (Uuid * list WsMessage) :=
  match a with
  | MConnect k' u => if (k' =? k)%nat then Some (u, []) else l
  | MSend u msg => match l with Some (u', ms) => Some (u', if (u =? u')%N then ms ++ [msg] else ms) | None => None end
  | _ => l
  end.
Definition addressed (k : nat) (acts : list ManagerAction) : option (Uuid * list WsMessage) :=
  foldl (sent_step k) None acts.

Definition message_text (m : WsMessage) : option string :=
  match message_json m with Ok t => Some t | Err _ => None end.

(** [pending] is what waits in the channel, [missed] what went elsewhere. *)
Definition told (registered : bool) (c : Connection) (ms taken pending missed : list WsMessage) : Prop :=
  ms = taken ++ pending ++ missed /\ cn_sent c = omap message_text taken
  /\ (cn_forwarding c = true -> ring_unread (cn_ring c) = Some pending)
  /\ (cn_forwarding c = true -> registered = true -> missed = []).

(** The registry names existing sockets of the right user. *)
Definition manager_ok (acts : list ManagerAction) (m : ConnectionManager) : Prop :=
  ring_unread (cm_broadcaster m) = None
  /\ (forall k c, cm_sockets m !! k = Some c -> k ∈ connects acts)
  /\ (forall u k, cm_connections m !! u = Some k -> exists c, cm_sockets m !! k = Some c /\ cn_user c = u)
  /\ (forall k c, cm_sockets m !! k = Some c -> exists ms taken pending missed,
        addressed k acts = Some (cn_user c, ms)
        /\ told (bool_decide (cm_connections m !! cn_user c = Some k)) c ms taken pending missed).

Lemma broadcast_idle msg (m : ConnectionManager) : ring_unread (cm_broadcaster m) = None ->
  manager_broadcast msg m = (Ok tt, m).
Proof.
  intros H. unfold manager_broadcast. pose proof (send_ring msg (cm_broadcaster m)) as S. rewrite H in S.
  by rewrite S.
Qed.

Lemma told_forward reg taken_ c ms taken pending missed : told reg c ms taken pending missed ->
  exists taken' pending' missed', told reg (forward_message taken_ c) ms taken' pending' missed'
    /\ cn_user (forward_message taken_ c) = cn_user c.
Proof.
  intros (-> & Hs & Hu & Hm). unfold forward_message. destruct (cn_forwarding c) eqn:F.
  2: { exists taken, pending, missed. split; [|done]. split_and!; try done; congruence. }
  specialize (Hu eq_refl). specialize (Hm eq_refl). pose proof (recv_ring _ _ Hu) as R.
  assert (Stop : forall r, exists taken' pending' missed',
     told reg (stop_forwarding (set_ring r c)) (taken ++ pending ++ missed) taken' pending' missed'
     /\ cn_user (stop_forwarding (set_ring r c)) = cn_user c).
  { intros r. exists taken, pending, missed. split; [|done]. by split_and!. }
  destruct (ring_capacity (cn_ring c) <? length pending)%nat.
  { destruct (ring_recv (cn_ring c)) as [x r]. simpl in R. subst x. apply Stop. }
  destruct pending as [|msg pending].
  - destruct (ring_recv (cn_ring c)) as [x r]. simpl in R. destruct R as [-> ->].
    destruct (ring_sender (cn_ring c)); [|apply Stop].
    exists taken, [], missed. split; [|done]. by split_and!.
  - destruct R as (r & -> & R & _). unfold told, message_text in *.
    destruct (message_json msg) as [t|x] eqn:J; [destruct taken_|].
    + exists (taken ++ [msg]), pending, missed. simpl. rewrite Hs, omap_app, F. simpl. rewrite J.
      split_and!; try done. by rewrite <- !app_assoc.
    + apply Stop.
    + exists (taken ++ [msg]), pending, missed. simpl. rewrite Hs, omap_app, F. simpl. rewrite J, app_nil_r.
      split_and!; try done. by rewrite <- !app_assoc.
Qed.

Lemma told_weaken reg reg' c c' ms taken pending missed : told reg c ms taken pending missed ->
  (reg' = true -> reg = true) -> cn_sent c' = cn_sent c -> (cn_forwarding c' = true -> cn_forwarding c = true) ->
  (cn_forwarding c' = true -> ring_unread (cn_ring c') = ring_unread (cn_ring c)) ->
  told reg' c' ms taken pending missed.
Proof.
  intros (-> & Hs & Hu & Hm) Hr E1 E2 E3. split_and!; [done|congruence| |auto].
  intros F. rewrite E3 by done. auto.
Qed.

(** A release touches the ring of one socket, and leaves what it holds. *)
Lemma release_sockets u (m : ConnectionManager) k c : cm_sockets (release_sender u m) !! k = Some c ->
  exists c0, cm_sockets m !! k = Some c0 /\ cn_user c = cn_user c0 /\ cn_sent c = cn_sent c0
    /\ cn_forwarding c = cn_forwarding c0 /\ cn_open c = cn_open c0
    /\ ring_unread (cn_ring c) = ring_unread (cn_ring c0).
Proof.
  unfold release_sender. destruct (cm_connections m !! u) as [k'|]; [|intros; by exists c].
  simpl. destruct (decide (k = k')) as [->|N]; [|rewrite lookup_alter_ne by done; intros; by exists c].
  rewrite lookup_alter_eq. destruct (cm_sockets m !! k') as [c0|]; [|done]. intros [= <-]. exists c0. simpl.
  split_and!; try done. apply drop_ring_sender.
Qed.

Lemma release_connections u (m : ConnectionManager) : cm_connections (release_sender u m) = cm_connections m
  /\ cm_broadcaster (release_sender u m) = cm_broadcaster m.
Proof. unfold release_sender. by destruct (cm_connections m !! u). Qed.

Lemma release_has u (m : ConnectionManager) k c0 : cm_sockets m !! k = Some c0 ->
  exists c, cm_sockets (release_sender u m) !! k = Some c /\ cn_user c = cn_user c0 /\ cn_open c = cn_open c0.
Proof.
  intros H. unfold release_sender. destruct (cm_connections m !! u) as [k'|]; [|by exists c0].
  simpl. destruct (decide (k = k')) as [->|N]; [|rewrite lookup_alter_ne by done; by exists c0].
  rewrite lookup_alter_eq, H. by eexists.
Qed.

Lemma manager_ok_nil : manager_ok [] manager_new.
Proof.
  unfold manager_ok, manager_new. simpl. split_and!.
  - apply drop_ring_receiver.
  - intros k c. by rewrite lookup_empty.
  - intros u k. by rewrite lookup_empty.
  - intros k c. by rewrite lookup_empty.
Qed.

Lemma ok_connect acts m k u : manager_ok acts m -> k ∉ connects acts ->
  manager_ok (acts ++ [MConnect k u]) (add_connection k u m).
Proof.
  intros (H1 & H2 & H3 & H4) Hk. unfold manager_ok, add_connection. simpl.
  destruct (release_connections u m) as [Ec Eb]. rewrite Ec, Eb. split_and!; [done| | |].
  - intros k' c. unfold connects. rewrite omap_app. simpl. intros L.
    apply elem_of_app. destruct (decide (k' = k)) as [->|N]; [right; by apply list_elem_of_singleton|].
    rewrite lookup_insert_ne in L by done. apply release_sockets in L as (c0 & L & _). left. by eapply H2.
  - intros u' k'. destruct (decide (u' = u)) as [->|N].
    + rewrite lookup_insert_eq. intros [= <-]. rewrite lookup_insert_eq. by eexists.
    + rewrite lookup_insert_ne by done. intros L. destruct (H3 _ _ L) as (c0 & L0 & U).
      assert (k' <> k) by (intros ->; apply Hk; by eapply H2). rewrite lookup_insert_ne by done.
      destruct (release_has u m k' c0 L0) as (c & L1 & U1 & _). exists c. split; [done|congruence].
  - intros k' c L. unfold addressed. rewrite foldl_app. fold (addressed k' acts). simpl.
    destruct (Nat.eqb_spec k k') as [<-|N].
    + rewrite lookup_insert_eq in L. injection L as <-. simpl.
      exists [], [], [], []. split; [done|]. split_and!; try done. intros _. apply (new_ring 100).
    + rewrite lookup_insert_ne in L by done.
      apply release_sockets in L as (c0 & L & U & S & F & O & R).
      destruct (H4 k' c0 L) as (ms & tk & pd & mi & A & T). exists ms, tk, pd, mi. rewrite U. split; [done|].
      eapply told_weaken; [exact T|..]; try congruence.
      rewrite !bool_decide_eq_true. destruct (decide (cn_user c0 = u)) as [->|Nu].
      * rewrite lookup_insert_eq. intros [= ->]. done.
      * by rewrite lookup_insert_ne by done.
Qed.

Lemma ok_send acts m u msg : manager_ok acts m -> manager_ok (acts ++ [MSend u msg]) (send_to_user u msg m).2.
Proof.
  intros (H1 & H2 & H3 & H4).
  assert (C : connects (acts ++ [MSend u msg]) = connects acts)
    by (unfold connects; rewrite omap_app; simpl; by rewrite app_nil_r).
  assert (A : forall k, addressed k (acts ++ [MSend u msg])
     = match addressed k acts with Some (u', ms) => Some (u', if (u =? u')%N then ms ++ [msg] else ms) | None => None end)
    by (intros k; unfold addressed; by rewrite foldl_app).
  (* the sockets that got nothing *)
  assert (K : forall k c, cm_sockets m !! k = Some c ->
     (cm_connections m !! u <> Some k \/ ring_unread (cn_ring c) = None) ->
     exists ms taken pending missed, addressed k (acts ++ [MSend u msg]) = Some (cn_user c, ms)
        /\ told (bool_decide (cm_connections m !! cn_user c = Some k)) c ms taken pending missed).
  { intros k c L Hn. destruct (H4 k c L) as (ms & tk & pd & mi & Ad & (-> & S & U & M)). rewrite A, Ad.
    destruct (N.eqb_spec u (cn_user c)) as [->|Nu].
    - exists (tk ++ pd ++ (mi ++ [msg])), tk, pd, (mi ++ [msg]). rewrite <- !app_assoc. split; [done|].
      split_and!; try done. intros F. specialize (U F). specialize (M F). rewrite bool_decide_eq_true.
      intros R. destruct Hn; [done|congruence].
    - exists (tk ++ pd ++ mi), tk, pd, mi. split; [done|]. by split_and!. }
  unfold send_to_user. destruct (cm_connections m !! u) as [k0|] eqn:E.
  2: { simpl. unfold manager_ok. rewrite C. split_and!; try done. intros k c L. apply K; [done|]. by left. }
  destruct (H3 u k0 E) as (c0 & L0 & U0). rewrite L0.
  pose proof (send_ring msg (cn_ring c0)) as S. destruct (ring_unread (cn_ring c0)) as [q|] eqn:Q.
  2: { rewrite S. simpl. unfold manager_ok. rewrite C. split_and!; try done. intros k c L. apply K; [done|].
       destruct (decide (k = k0)) as [->|N]; [right; congruence|left; congruence]. }
  destruct S as (r & -> & Sr & _). unfold manager_ok. rewrite C. simpl. split_and!; [done| | |].
  - intros k c. destruct (decide (k = k0)) as [->|N]; [intros _; by eapply H2|].
    rewrite lookup_alter_ne by done. apply H2.
  - intros u' k L. destruct (decide (k = k0)) as [->|N].
    + rewrite lookup_alter_eq, L0. simpl. eexists. split; [done|]. destruct (H3 _ _ L) as (c & Lc & <-).
      by simplify_eq.
    + rewrite lookup_alter_ne by done. by apply H3.
  - intros k c. destruct (decide (k = k0)) as [->|N].
    2: { rewrite lookup_alter_ne by done. intros L. apply K; [done|]. left. congruence. }
    rewrite lookup_alter_eq, L0. intros [= <-]. simpl.
    destruct (H4 k0 c0 L0) as (ms & tk & pd & mi & Ad & (-> & S & U & M)). rewrite A, Ad, U0, N.eqb_refl.
    rewrite U0, bool_decide_eq_true_2 in M by done.
    destruct (cn_forwarding c0) eqn:F.
    + specialize (U eq_refl). specialize (M eq_refl eq_refl) as ->. rewrite Q in U. injection U as ->.
      exists (tk ++ (pd ++ [msg]) ++ []), tk, (pd ++ [msg]), []. split; [by rewrite !app_nil_r, app_assoc|].
      split_and!; try done.
    + exists (tk ++ pd ++ (mi ++ [msg])), tk, pd, (mi ++ [msg]). split; [by rewrite <- !app_assoc|].
      split_and!; simpl; try done; congruence.
Qed.

Lemma ok_forward acts m k t : manager_ok acts m ->
  manager_ok (acts ++ [MForward k t]) (with_socket k (forward_message t) m).
Proof.
  intros (H1 & H2 & H3 & H4).
  assert (C : connects (acts ++ [MForward k t]) = connects acts)
    by (unfold connects; rewrite omap_app; simpl; by rewrite app_nil_r).
  unfold manager_ok. rewrite C. simpl.
  assert (A : forall i, addressed i (acts ++ [MForward k t]) = addressed i acts)
    by (intros i; unfold addressed; by rewrite foldl_app).
  assert (X : forall c, cm_sockets m !! k = Some c -> cn_user (forward_message t c) = cn_user c).
  { intros c L. destruct (H4 k c L) as (ms & tk & pd & mi & _ & T).
    by destruct (told_forward _ t _ _ _ _ _ T) as (? & ? & ? & _ & ?). }
  split_and!; [done| | |].
  - intros i c. destruct (decide (i = k)) as [->|N]; [|rewrite lookup_alter_ne by done; apply H2].
    rewrite lookup_alter_eq. destruct (cm_sockets m !! k) as [c0|] eqn:L; [|done]. intros _. by eapply H2.
  - intros u i L. destruct (H3 u i L) as (c & Lc & U). destruct (decide (i = k)) as [->|N].
    + rewrite lookup_alter_eq, Lc. simpl. eexists. split; [done|]. by rewrite X.
    + rewrite lookup_alter_ne by done. by exists c.
  - intros i c. rewrite A. destruct (decide (i = k)) as [->|N]; [|rewrite lookup_alter_ne by done; apply H4].
    rewrite lookup_alter_eq. destruct (cm_sockets m !! k) as [c0|] eqn:L; [|done]. intros [= <-].
    destruct (H4 k c0 L) as (ms & tk & pd & mi & Ad & T).
    destruct (told_forward _ t _ _ _ _ _ T) as (tk' & pd' & mi' & T' & U). rewrite U.
    exists ms, tk', pd', mi'. by split.
Qed.

Lemma ok_disconnect acts m k : manager_ok acts m -> manager_ok (acts ++ [MDisconnect k]) (disconnect k m).
Proof.
  intros (H1 & H2 & H3 & H4).
  assert (C : connects (acts ++ [MDisconnect k]) = connects acts)
    by (unfold connects; rewrite omap_app; simpl; by rewrite app_nil_r).
  assert (A : forall i, addressed i (acts ++ [MDisconnect k]) = addressed i acts)
    by (intros i; unfold addressed; by rewrite foldl_app).
  unfold disconnect. destruct (cm_sockets m !! k) as [c0|] eqn:L0.
  2: { unfold manager_ok. rewrite C. split_and!; try done. intros i c. rewrite A. apply H4. }
  destruct (cn_open c0).
  2: { unfold manager_ok. rewrite C. split_and!; try done. intros i c. rewrite A. apply H4. }
  set (m1 := with_socket k _ m). unfold remove_connection, manager_ok. rewrite C.
  destruct (release_connections (cn_user c0) m1) as [Ec Eb]. simpl. rewrite Ec, Eb. split_and!; [done| | |].
  - intros i c (c1 & L1 & _)%release_sockets. unfold m1 in L1. simpl in L1.
    destruct (decide (i = k)) as [->|N]; [by eapply H2|]. rewrite lookup_alter_ne in L1 by done. by eapply H2.
  - intros u i. unfold m1. simpl. intros [Nu L]%lookup_delete_Some. destruct (H3 u i L) as (c & Lc & U).
    assert (M : exists c1, cm_sockets m1 !! i = Some c1 /\ cn_user c1 = u).
    { unfold m1. simpl. destruct (decide (i = k)) as [->|N]; [rewrite lookup_alter_eq, Lc; by eexists|].
      rewrite lookup_alter_ne by done. by exists c. }
    destruct M as (c1 & L1 & U1). destruct (release_has (cn_user c0) m1 i c1 L1) as (c2 & L2 & U2 & _).
    exists c2. split; [done|congruence].
  - intros i c L. rewrite A. apply release_sockets in L as (c1 & L1 & U1 & S1 & F1 & O1 & R1).
    unfold m1 in L1. simpl in L1. rewrite U1. destruct (decide (i = k)) as [->|N].
    + rewrite lookup_alter_eq, L0 in L1. injection L1 as <-. simpl in *.
      destruct (H4 k c0 L0) as (ms & tk & pd & mi & Ad & T). exists ms, tk, pd, mi. split; [done|].
      eapply told_weaken; [exact T|..]; rewrite ?F1; try done. rewrite !bool_decide_eq_true. unfold m1. simpl.
      by rewrite lookup_delete_eq.
    + rewrite lookup_alter_ne in L1 by done. destruct (H4 i c1 L1) as (ms & tk & pd & mi & Ad & T).
      exists ms, tk, pd, mi. split; [done|]. eapply told_weaken; [exact T|..]; rewrite ?F1, ?R1; try done.
      rewrite !bool_decide_eq_true. unfold m1. simpl. by intros [_ ?]%lookup_delete_Some.
Qed.

Lemma manager_run_app acts a m : manager_run (acts ++ [a]) m = manager_step (manager_run acts m) a.
Proof. unfold manager_run. by rewrite foldl_app. Qed.

Lemma manager_invariant acts : NoDup (connects acts) -> manager_ok acts (manager_run acts manager_new).
Proof.
  induction acts as [|a acts IH] using rev_ind; intros Hn; [apply manager_ok_nil|].
  assert (Hn' : NoDup (connects acts))
    by (unfold connects in *; rewrite omap_app in Hn; by apply list.NoDup_app in Hn as (? & _ & _)).
  specialize (IH Hn'). rewrite manager_run_app. destruct a as [k u|u msg|msg|k t|k]; simpl.
  - apply ok_connect; [done|]. unfold connects in Hn. rewrite omap_app in Hn. simpl in Hn.
    apply list.NoDup_app in Hn as (_ & D & _). intros X. apply (D _ X). by apply list_elem_of_singleton.
  - by apply ok_send.
  - destruct IH as (H1 & H2 & H3 & H4). unfold manager_broadcast.
    pose proof (send_ring msg (cm_broadcaster (manager_run acts manager_new))) as S. rewrite H1 in S. rewrite S.
    assert (C : connects (acts ++ [MBroadcast msg]) = connects acts)
      by (unfold connects; rewrite omap_app; simpl; by rewrite app_nil_r).
    unfold manager_ok. rewrite C. split_and!; try done. intros k c. unfold addressed. rewrite foldl_app. apply H4.
  - by apply ok_forward.
  - by apply ok_disconnect.
Qed.
End manager_props.

Section manager_theorems.
Context `{MP : Mpsc MarketEvent} `{BC : Broadcast WsMessage} `{WJ : WsJson} `{JWT : JwtLib}.

(** C28: A socket has been sent, in order and without a gap, the texts of a beginning of the messages
    addressed to its user since it connected; while its task runs and its channel is the
    registered one, exactly the others wait in the channel. *)
Theorem direct_in_order acts k c : NoDup (connects acts) ->
  cm_sockets (manager_run acts manager_new) !! k = Some c ->
  exists ms taken rest, addressed k acts = Some (cn_user c, ms) /\ ms = taken ++ rest
    /\ cn_sent c = omap message_text taken
    /\ (cn_forwarding c = true -> cm_connections (manager_run acts manager_new) !! cn_user c = Some k ->
        ring_unread (cn_ring c) = Some rest).
Proof.
  intros Hn L. destruct (manager_invariant acts Hn) as (_ & _ & _ & H).
  destruct (H k c L) as (ms & tk & pd & mi & A & (-> & S & U & M)).
  exists (tk ++ pd ++ mi), tk, (pd ++ mi). split_and!; try done.
  intros F R. rewrite bool_decide_eq_true_2 in M by done. rewrite (M F eq_refl), app_nil_r. by apply U.
Qed.

(** Order books and matches are sent to a channel nobody listens to: no run ever brings one to a
    socket, and the sender is told it went well. *)
Theorem broadcasts_reach_nobody acts msg : NoDup (connects acts) ->
  manager_broadcast msg (manager_run acts manager_new) = (Ok tt, manager_run acts manager_new).
Proof. intros Hn. apply broadcast_idle. by destruct (manager_invariant acts Hn). Qed.

(** A user with two sockets: when the first closes, the second stays open but is no longer
    registered, so that nothing addressed to the user arrives, and nobody notices. *)
Theorem closing_silences_other m u k0 c0 k msg : cm_sockets m !! k0 = Some c0 -> cn_user c0 = u ->
  cn_open c0 = true -> k <> k0 ->
  let m' := disconnect k0 (add_connection k u m) in
  (exists c, cm_sockets m' !! k = Some c /\ cn_user c = u /\ cn_open c = true)
  /\ send_to_user u msg m' = (Ok tt, m').
Proof.
  intros L <- Ho N. cbv zeta.
  destruct (release_has (cn_user c0) m k0 c0 L) as (c1 & L1 & U1 & O1).
  set (m1 := add_connection k (cn_user c0) m).
  assert (L2 : cm_sockets m1 !! k0 = Some c1) by (unfold m1, add_connection; simpl; by rewrite lookup_insert_ne).
  assert (L3 : exists c, cm_sockets m1 !! k = Some c /\ cn_user c = cn_user c0 /\ cn_open c = true)
    by (unfold m1, add_connection; simpl; rewrite lookup_insert_eq; by eexists).
  unfold disconnect. rewrite L2, O1, Ho, U1. set (m2 := with_socket k0 _ m1). unfold remove_connection.
  split.
  - destruct L3 as (c & L3 & Uc & Oc).
    assert (L4 : cm_sockets m2 !! k = Some c) by (unfold m2; simpl; by rewrite lookup_alter_ne).
    destruct (release_has (cn_user c0) m2 k c L4) as (c' & L5 & U5 & O5). exists c'. simpl.
    split_and!; congruence.
  - unfold send_to_user. simpl. by rewrite lookup_delete_eq.
Qed.

(** A socket that falls behind by more than its channel holds never gets a message again, though
    it stays open and registered; from then on messages to its user are errors. *)
Theorem lag_ends_stream m u k c l taken msg : cm_connections m !! u = Some k -> cm_sockets m !! k = Some c ->
  cn_forwarding c = true -> ring_unread (cn_ring c) = Some l -> (ring_capacity (cn_ring c) < length l)%nat ->
  let m' := with_socket k (forward_message taken) m in
  (exists c', cm_sockets m' !! k = Some c' /\ cn_forwarding c' = false /\ cn_open c' = cn_open c
     /\ cn_sent c' = cn_sent c)
  /\ send_to_user u msg m' = (Err tt, m').
Proof.
  intros E L F U C. cbv zeta. unfold with_socket, send_to_user. simpl. rewrite E, lookup_alter_eq, L. simpl.
  unfold forward_message. rewrite F. pose proof (recv_ring _ _ U) as R. apply Nat.ltb_lt in C. rewrite C in R.
  destruct (ring_recv (cn_ring c)) as [x r]. simpl in R. subst x. split; [by eexists|]. simpl.
  pose proof (send_ring msg (ring_drop_receiver r)) as S. rewrite drop_ring_receiver in S. by rewrite S.
Qed.

(** When the buyer cannot be told of a settlement, the seller is not told either. *)
Theorem settlement_stops_at_buyer id buyer seller amount cost sig now m e m' :
  send_to_user buyer (SettlementComplete id buyer seller amount cost sig now) m = (Err e, m') ->
  broadcast_settlement_complete id buyer seller amount cost sig now m = (Err e, m).
Proof.
  intros H. unfold broadcast_settlement_complete. rewrite H. f_equal. unfold send_to_user in H.
  destruct (cm_connections m !! buyer) as [k|]; [|done]. destruct (cm_sockets m !! k); [|done].
  destruct (ring_send _ _); [done|]. by injection H as _ <-.
Qed.

(** A socket of the users is opened for the user of a valid token and no one else, whatever the
    channel of the path; the market feed asks for no token. *)
Theorem handshake_needs_token now channel params user :
  websocket_handler_internal now channel params = Ok user <->
  exists token c, wp_token params = Some token /\ decode_token now token = Ok c /\ sub c = user.
Proof.
  unfold websocket_handler_internal. destruct (wp_token params) as [token|].
  2: { split; [done|]. by intros (token & c & ? & _). }
  destruct (decode_token now token) as [c|e] eqn:D; split.
  - intros [= <-]. by exists token, c.
  - intros (token' & c' & [= <-] & E & <-). congruence.
  - done.
  - intros (token' & c' & [= <-] & E & _). congruence.
Qed.
End manager_theorems.

(** ** Witnesses *)

Section witnesses.

Definition demo_take {A} (c : option (list A)) : option (A * option (list A)) :=
  match c with Some (a :: l) => Some (a, Some l) | _ => None end.

Program Definition demo_mpsc (A : Type) : Mpsc A :=
  {| mpsc := option (list A); mpsc_new := Some [];
     mpsc_send a c := (fun l => Some (l ++ [a])) <$> c;
     mpsc_recv := demo_take;
     mpsc_drop _ := None; mpsc_content c := c |}.
Next Obligation. done. Qed.
Next Obligation. intros A a [l|]; simpl; [by eexists|done]. Qed.
Next Obligation. intros A [[|a l]|]; simpl; [done|by eexists|done]. Qed.
Next Obligation. done. Qed.

Record DemoRing (A : Type) := { dr_capacity : nat; dr_unread : option (list A); dr_sender : bool }.
Arguments dr_capacity {A}.
Arguments dr_unread {A}.
Arguments dr_sender {A}.

Definition with_unread {A} (u : option (list A)) (r : DemoRing A) : DemoRing A :=
  {| dr_capacity := dr_capacity r; dr_unread := u; dr_sender := dr_sender r |}.

Definition demo_receive {A} (r : DemoRing A) : Received A * DemoRing A :=
  match dr_unread r with
  | Some l =>
      if (dr_capacity r <? length l)%nat then (Lagged, with_unread (Some (drop (length l - dr_capacity r) l)) r)
      else match l with
           | a :: l => (Value a, with_unread (Some l) r)
           | [] => (if dr_sender r then Waiting else Closed, r)
           end
  | None => (Closed, r)
  end.

Program Definition demo_broadcast (A : Type) : Broadcast A :=
  {| ring := DemoRing A;
     ring_new n := {| dr_capacity := n; dr_unread := Some []; dr_sender := true |};
     ring_send a r := (fun l => with_unread (Some (l ++ [a])) r) <$> dr_unread r;
     ring_recv := demo_receive;
     ring_drop_receiver r := {| dr_capacity := dr_capacity r; dr_unread := None; dr_sender := dr_sender r |};
     ring_drop_sender r := {| dr_capacity := dr_capacity r; dr_unread := dr_unread r; dr_sender := false |};
     ring_capacity := dr_capacity; ring_unread := dr_unread; ring_sender := dr_sender |}.
Next Obligation. done. Qed.
Next Obligation. intros A a [n [l|] s]; simpl; [by eexists|done]. Qed.
Next Obligation.
  intros A [n u s] l. unfold demo_receive. simpl. intros ->. destruct (n <? length l)%nat; [done|]. destruct l; [done|]. by eexists.
Qed.
Next Obligation. done. Qed.
Next Obligation. done. Qed.

Definition demo_ws_json : WsJson :=
  {| event_json e := match e with OfferUpdated i _ _ => Ok i | _ => Err "no text" end;
     message_json m := match m with WsError c _ _ => Ok c | _ => Err "no text" end;
     welcome_json id := "hello" |}.

#[local] Existing Instances demo_mpsc demo_broadcast demo_ws_json.

Definition demo_news (t : string) : MarketEvent := OfferUpdated t "open" None.
Definition demo_feed : list FeedAction :=
  [ABroadcast (demo_news "zero"); ARegister 5; ABroadcast (demo_news "one"); AForward 5 true;
   ABroadcast (demo_news "two"); AForward 5 true].
Definition demo_subscriber : Subscriber :=
  {| sb_channel := Some [demo_news "two"]; sb_forwarder := Forwarding; sb_reading := true;
     sb_sent := ["hello"; "one"] |}.

Lemma demo_subscribed : ws_subscribers (feed_run demo_feed ws_new) !! 5%N = Some demo_subscriber.
Proof. vm_compute. reflexivity. Qed.

Lemma feed_in_order_witness : since 5 demo_feed = [demo_news "one"; demo_news "two"]
  /\ exists w taken rest, since 5 demo_feed = taken ++ rest /\ ["hello"; "one"] = w ++ omap event_text taken.
Proof.
  split; [reflexivity|].
  destruct (feed_in_order demo_feed 5 demo_subscriber demo_subscribed) as (taken & rest & w & H1 & _ & H2 & _).
  exists w, taken, rest. split; [exact H1|exact H2].
Defined.

Lemma feed_catches_up_witness :
  exists s' w, ws_subscribers (feed_run (demo_feed ++ replicate 3 (AForward 5 true)) ws_new) !! 5%N = Some s'
    /\ sb_sent s' = w ++ ["one"; "two"].
Proof.
  destruct (feed_catches_up demo_feed 5 demo_subscriber 3 demo_subscribed (or_intror eq_refl) (le_n 3))
    as (s' & w & H1 & _ & H2).
  exists s', w. split; [exact H1|exact H2].
Defined.

Lemma closed_client_counted_witness :
  (0 < client_count (feed_run [ARead 5 InClose; AForward 5 true; ARead 5 InEnd] (register_client 5 ws_new)))%nat.
Proof.
  refine (proj2 (closed_client_counted [ARead 5 InClose; AForward 5 true; ARead 5 InEnd] 5
    {| sb_channel := Some []; sb_forwarder := Greeting; sb_reading := true; sb_sent := [] |}
    (register_client 5 ws_new) _ eq_refl eq_refl (or_introl eq_refl) _)).
  - unfold register_client, ws_new. simpl. set_solver.
  - repeat constructor.
Defined.

Definition demo_direct : list ManagerAction :=
  [MConnect 0 7; MSend 7 (WsError "one" "" 0); MSend 7 (WsError "two" "" 0); MSend 8 (WsError "other" "" 0);
   MForward 0 true].
Definition demo_socket : Connection :=
  {| cn_user := 7; cn_ring := {| dr_capacity := 100; dr_unread := Some [WsError "two" "" 0]; dr_sender := true |};
     cn_forwarding := true; cn_open := true; cn_sent := ["one"] |}.

Lemma demo_direct_fresh : NoDup (connects demo_direct).
Proof. apply NoDup_singleton. Qed.

Lemma demo_connected : cm_sockets (manager_run demo_direct manager_new) !! 0%nat = Some demo_socket.
Proof. vm_compute. reflexivity. Qed.

Lemma direct_in_order_witness :
  exists taken rest, [WsError "one" "" 0; WsError "two" "" 0] = taken ++ rest /\ ["one"] = omap message_text taken.
Proof.
  destruct (direct_in_order demo_direct 0 demo_socket demo_direct_fresh demo_connected)
    as (ms & taken & rest & H1 & H2 & H3 & _).
  injection H1 as <-. exists taken, rest. split; [exact H2|exact H3].
Defined.

Lemma broadcasts_reach_nobody_witness :
  (manager_broadcast (Ping 0) (manager_run demo_direct manager_new)).1 = Ok tt.
Proof. rewrite (broadcasts_reach_nobody demo_direct (Ping 0) demo_direct_fresh). reflexivity. Defined.

Lemma closing_silences_other_witness :
  send_to_user 7 (Ping 0) (disconnect 0 (add_connection 1 7 (manager_run demo_direct manager_new)))
  = (Ok tt, disconnect 0 (add_connection 1 7 (manager_run demo_direct manager_new))).
Proof.
  refine (proj2 (closing_silences_other (manager_run demo_direct manager_new) 7 0 demo_socket 1 (Ping 0)
    demo_connected eq_refl eq_refl _)). discriminate.
Defined.
End witnesses.
