(* ===== verification/ZoneRates.v ===== *)
(** The administration of the zone rates: [src/handlers/analytics/zone_rates.rs].

    The rows are those the grid topology ([GridTopology]) caches: the last theorems follow a rate
    from its request over the table into the cache and what [calculate_wheeling_charge_async] answers.
    Nothing calls that function: the matching engine charges trades with the synchronous one, which
    never looks at the table.  [SERIAL] ids and the time of a
    statement are arguments; what a NUMERIC column keeps is an interface.  A query without an
    ORDER BY answers with its rows in any order. *)
From S2P Require Import Prelude Numerics Floats Errors Store Schema GridTopology Readings.
Open Scope string_scope.
Open Scope Z_scope.
#[local] Set Warnings "-clear-no-such-hyp".

(** ** Rows and requests *)

(** A row of [zone_rates]; its id is the key of the table. *)
Record StoredRate := {
  sr_row : ZoneRateRow;
  sr_description : option string;
}.

Abbreviation RateTable := (gmap Z StoredRate).

Record ZoneRateResponse := { zp_id : Z; zp_rate : StoredRate }.

Record CreateZoneRateRequest := {
  cz_from_zone_id : Z;
  cz_to_zone_id : Z;
  cz_wheeling_charge : Decimal;
  cz_loss_factor : Decimal;
  cz_description : option string;
}.

Record UpdateZoneRateRequest := {
  uz_wheeling_charge : Decimal;
  uz_loss_factor : Decimal;
  uz_description : option string;
  uz_is_active : bool;
}.

Definition sr_pair (r : StoredRate) : Z * Z :=
  (from_zone_id (zr_rate (sr_row r)), to_zone_id (zr_rate (sr_row r))).
Definition sr_since (r : StoredRate) : Z := zr_effective_from (sr_row r).
Definition sr_active (r : StoredRate) : bool := zr_is_active (sr_row r).
Definition of_pair (from_zone to_zone : Z) (r : StoredRate) : bool :=
  bool_decide (sr_pair r = (from_zone, to_zone)).

(** ** Statements *)

Section rates.
Context `{PN : PgNumeric}.

Abbreviation RM := (M RateTable Event).

(** [UNIQUE (from_zone_id, to_zone_id, effective_from)]. *)
Definition rate_taken (pair : Z * Z) (since : Z) (d : RateTable) : bool :=
  existsb (fun x => bool_decide (sr_pair x.2 = pair) && (sr_since x.2 =? since)) (map_to_list d).

Definition insert_rate (id : Z) (req : CreateZoneRateRequest) (now : Z) (d : RateTable)
    : option (StoredRate * RateTable) :=
  w ← numeric_dec 10 4 (cz_wheeling_charge req);
  l ← numeric_dec 5 4 (cz_loss_factor req);
  let row :=
    {| sr_row := {| zr_rate := {| from_zone_id := cz_from_zone_id req; to_zone_id := cz_to_zone_id req;
                                  wheeling_charge := w; loss_factor := l |};
                    zr_is_active := true; zr_effective_from := now; zr_effective_until := None |};
       sr_description := cz_description req |} in
  if varchar 255 (cz_description req) && negb (rate_taken (sr_pair row) now d)
     && bool_decide (d !! id = None)
  then Some (row, <[id := row]> d) else None.

Definition update_rate (id : Z) (f : StoredRate -> option StoredRate) (d : RateTable)
    : option (option StoredRate * RateTable) :=
  match d !! id with
  | None => Some (None, d)
  | Some r => r' ← f r; Some (Some r', <[id := r']> d)
  end.

Definition set_rate (req : UpdateZoneRateRequest) (r : StoredRate) : option StoredRate :=
  w ← numeric_dec 10 4 (uz_wheeling_charge req);
  l ← numeric_dec 5 4 (uz_loss_factor req);
  if varchar 255 (uz_description req) then
    Some {| sr_row := {| zr_rate := {| from_zone_id := from_zone_id (zr_rate (sr_row r));
                                       to_zone_id := to_zone_id (zr_rate (sr_row r));
                                       wheeling_charge := w; loss_factor := l |};
                         zr_is_active := uz_is_active req;
                         zr_effective_from := sr_since r;
                         zr_effective_until := zr_effective_until (sr_row r) |};
            sr_description := uz_description req |}
  else None.

Definition deactivate (r : StoredRate) : option StoredRate :=
  Some {| sr_row := {| zr_rate := zr_rate (sr_row r); zr_is_active := false;
                       zr_effective_from := sr_since r;
                       zr_effective_until := zr_effective_until (sr_row r) |};
          sr_description := sr_description r |}.

(** ** Handlers *)

(** [ORDER BY from_zone_id, to_zone_id]. *)
Definition rate_before (a b : Z * StoredRate) : bool :=
  let '(f1, t1) := sr_pair a.2 in let '(f2, t2) := sr_pair b.2 in
  (f1 <? f2) || ((f1 =? f2) && (t1 <=? t2)).

Definition rate_response (x : Z * StoredRate) : ZoneRateResponse := {| zp_id := x.1; zp_rate := x.2 |}.

Definition list_zone_rates : RM (list ZoneRateResponse) :=
  query (fun d => rate_response <$> Prelude.sort_by rate_before (map_to_list d)).

(** The active rows of the pair, latest first. *)
Definition active_rates (from_zone to_zone : Z) (d : RateTable) : list (Z * StoredRate) :=
  Prelude.sort_by (fun a b => sr_since b.2 <=? sr_since a.2)
    (List.filter (fun x => of_pair from_zone to_zone x.2 && sr_active x.2) (map_to_list d)).

Definition get_zone_rate_by_zones (from_zone to_zone : Z) : RM ZoneRateResponse :=
  row ← query (fun d => head (active_rates from_zone to_zone d));
  match row with
  | Some x => mret (rate_response x)
  | None => fail (FApi (NotFound "Zone rate not found"))
  end.

Definition create_zone_rate (id : Z) (req : CreateZoneRateRequest) (now : Z) : RM ZoneRateResponse :=
  row ← exec_ret (insert_rate id req now);
  mret {| zp_id := id; zp_rate := row |}.

Definition update_zone_rate (id : Z) (req : UpdateZoneRateRequest) : RM ZoneRateResponse :=
  row ← exec_ret (update_rate id (set_rate req));
  match row with
  | Some r => mret {| zp_id := id; zp_rate := r |}
  | None => fail (FApi (NotFound "Zone rate not found"))
  end.

Definition delete_zone_rate (id : Z) : RM unit :=
  row ← exec_ret (update_rate id deactivate);
  match row with
  | Some _ => mret ()
  | None => fail (FApi (NotFound "Zone rate not found"))
  end.

(** ** Histories *)

Inductive RateRequest :=
| RList
| RGet (from_zone to_zone : Z)
| RCreate (id : Z) (req : CreateZoneRateRequest) (now : Z)
| RUpdate (id : Z) (req : UpdateZoneRateRequest)
| RDelete (id : Z).

Definition rate_request (r : RateRequest) : RM unit :=
  match r with
  | RList => ignore list_zone_rates
  | RGet f t => ignore (get_zone_rate_by_zones f t)
  | RCreate id req now => ignore (create_zone_rate id req now)
  | RUpdate id req => ignore (update_zone_rate id req)
  | RDelete id => ignore (delete_zone_rate id)
  end.

(** A row is never lost, and keeps its zones and the time it took effect. *)
Definition rates_evolve (d d' : RateTable) : Prop :=
  forall id r, d !! id = Some r -> exists r', d' !! id = Some r' /\ sr_pair r' = sr_pair r /\ sr_since r' = sr_since r.

Definition rates_unique (d : RateTable) : Prop :=
  forall i j r s, d !! i = Some r -> d !! j = Some s -> sr_pair r = sr_pair s -> sr_since r = sr_since s -> i = j.

Lemma rates_evolve_refl d : rates_evolve d d.
Proof. intros id r H. by exists r. Qed.

Lemma rates_evolve_trans d1 d2 d3 : rates_evolve d1 d2 -> rates_evolve d2 d3 -> rates_evolve d1 d3.
Proof.
  intros H1 H2 id r L. destruct (H1 id r L) as (r1 & L1 & P1 & S1). destruct (H2 id r1 L1) as (r2 & L2 & P2 & S2).
  exists r2. split_and!; congruence.
Qed.

Lemma rate_taken_spec pair since d : rate_taken pair since d = false <->
  forall id r, d !! id = Some r -> ~ (sr_pair r = pair /\ sr_since r = since).
Proof.
  unfold rate_taken. rewrite <- Bool.not_true_iff_false, List.existsb_exists. split.
  - intros H id r L [P S]. apply H. exists (id, r). split; [by apply list_elem_of_In, elem_of_map_to_list|].
    simpl. by rewrite P, S, Z.eqb_refl, bool_decide_eq_true_2.
  - intros H ([id r] & I & E). apply list_elem_of_In, elem_of_map_to_list in I. simpl in E.
    apply andb_prop in E as [E1 E2]. apply bool_decide_eq_true in E1. apply Z.eqb_eq in E2. by apply (H id r).
Qed.

(** What an update may do to a row. *)
Definition keeps_key (f : StoredRate -> option StoredRate) : Prop :=
  forall r r', f r = Some r' -> sr_pair r' = sr_pair r /\ sr_since r' = sr_since r.

Lemma set_rate_keeps req : keeps_key (set_rate req).
Proof.
  intros r r'. unfold set_rate. destruct (numeric_dec 10 4 _); [|done]. destruct (numeric_dec 5 4 _); [|done].
  simpl. destruct (varchar 255 _); [|done]. by intros [= <-].
Qed.

Lemma deactivate_keeps : keeps_key deactivate.
Proof. intros r r' [= <-]. done. Qed.

Lemma update_rate_evolves id f d x d' : keeps_key f -> update_rate id f d = Some (x, d') -> rates_unique d ->
  rates_unique d' /\ rates_evolve d d'.
Proof.
  intros Hf H Hu. unfold update_rate in H. destruct (d !! id) as [r|] eqn:L.
  2: { simplify_eq. split; [done|apply rates_evolve_refl]. }
  destruct (f r) as [r'|] eqn:F; [|done]. simpl in H. simplify_eq. destruct (Hf _ _ F) as [P S].
  assert (K : forall i s, <[id := r']> d !! i = Some s ->
     exists s0, d !! i = Some s0 /\ sr_pair s = sr_pair s0 /\ sr_since s = sr_since s0).
  { intros i s. destruct (decide (i = id)) as [->|N]; [rewrite lookup_insert_eq|rewrite lookup_insert_ne by done].
    - intros [= <-]. by exists r.
    - intros Ls. by exists s. }
  split.
  - intros i j a b (a0 & La & Pa & Sa)%K (b0 & Lb & Pb & Sb)%K E1 E2. apply (Hu i j a0 b0); congruence.
  - intros i s Ls. destruct (decide (i = id)) as [->|N].
    + assert (s = r) as -> by congruence. exists r'. by rewrite lookup_insert_eq.
    + exists s. by rewrite lookup_insert_ne.
Qed.

Lemma insert_rate_evolves id req now d x d' : insert_rate id req now d = Some (x, d') -> rates_unique d ->
  rates_unique d' /\ rates_evolve d d'.
Proof.
  intros H Hu. unfold insert_rate in H. destruct (numeric_dec 10 4 _) as [w|]; [|done].
  destruct (numeric_dec 5 4 _) as [l|]; [|done]. simpl in H. case_match eqn:E; [|done]. simplify_eq.
  apply andb_prop in E as [E E3]. apply andb_prop in E as [_ E2]. apply negb_true_iff in E2.
  apply bool_decide_eq_true in E3. rewrite rate_taken_spec in E2. split.
  - intros i j a b. destruct (decide (i = id)) as [->|Ni], (decide (j = id)) as [->|Nj]; [done| | |].
    + rewrite lookup_insert_eq, lookup_insert_ne by done. intros [= <-] Lb P S. destruct (E2 j b Lb). split; by symmetry.
    + rewrite lookup_insert_ne, lookup_insert_eq by done. intros La [= <-] P S. by destruct (E2 i a La).
    + rewrite !lookup_insert_ne by done. apply Hu.
  - intros i s Ls. exists s. rewrite lookup_insert_ne; [done|]. congruence.
Qed.

Lemma request_evolves r d0 : preserves (fun d => rates_unique d /\ rates_evolve d0 d) (rate_request r).
Proof.
  destruct r as [|f t|id req now|id req|id]; simpl; apply preserves_ignore.
  - apply preserves_query.
  - apply preserves_bind; [apply preserves_query|]. intros [x|]; [apply preserves_ret|apply preserves_fail].
  - apply preserves_bind; [|intros; apply preserves_ret]. apply preserves_exec_ret.
    intros d x d' [Hu He] H. destruct (insert_rate_evolves _ _ _ _ _ _ H Hu) as [Hu' He'].
    split; [done|by eapply rates_evolve_trans].
  - apply preserves_bind; [|intros [?|]; [apply preserves_ret|apply preserves_fail]]. apply preserves_exec_ret.
    intros d x d' [Hu He] H. destruct (update_rate_evolves _ _ _ _ _ (set_rate_keeps req) H Hu) as [Hu' He'].
    split; [done|by eapply rates_evolve_trans].
  - apply preserves_bind; [|intros [?|]; [apply preserves_ret|apply preserves_fail]]. apply preserves_exec_ret.
    intros d x d' [Hu He] H. destruct (update_rate_evolves _ _ _ _ _ deactivate_keeps H Hu) as [Hu' He'].
    split; [done|by eapply rates_evolve_trans].
Qed.

(** Whatever is asked and whatever fails, no rate is lost or moved to other zones or another time,
    and no two rates of a pair take effect at once. *)
Theorem rates_history (rs : list RateRequest) (w : world RateTable Event) : rates_unique (st w) ->
  rates_unique (st (for_each rate_request rs w).2) /\ rates_evolve (st w) (st (for_each rate_request rs w).2).
Proof.
  intros Hu. apply (preserves_for_each (fun d => rates_unique d /\ rates_evolve (st w) d) rate_request rs).
  - intros r. apply request_evolves.
  - split; [done|apply rates_evolve_refl].
Qed.

(** ** From the table to a trade *)

(** What [load_rates] may read: the rows in any order. *)
Definition answers (d : RateTable) (rows : list ZoneRateRow) : Prop :=
  rows ≡ₚ (fun x => sr_row x.2) <$> map_to_list d.

Lemma answers_rows d rows row : answers d rows -> row ∈ rows <-> exists id r, d !! id = Some r /\ row = sr_row r.
Proof.
  intros ->. rewrite list_elem_of_fmap. split.
  - intros ([id r] & -> & I). exists id, r. by apply elem_of_map_to_list in I.
  - intros (id & r & L & ->). exists (id, r). split; [done|by apply elem_of_map_to_list].
Qed.

(** The row is in force for [load_rates]. *)
Definition in_force (now : Z) (r : StoredRate) : Prop :=
  sr_active r = true /\ sr_since r <= now
  /\ match zr_effective_until (sr_row r) with None => True | Some u => now < u end.

Lemma selected_row now rows rate : rate ∈ selected_rates now rows <->
  exists row, row ∈ rows /\ rate = zr_rate row /\ zr_is_active row = true /\ zr_effective_from row <= now
    /\ match zr_effective_until row with None => True | Some u => now < u end.
Proof.
  unfold selected_rates. rewrite list_elem_of_fmap. split.
  - intros (row & -> & I). apply list_elem_of_In, List.filter_In in I as [I E]. apply list_elem_of_In in I.
    apply andb_prop in E as [E E3]. apply andb_prop in E as [E1 E2]. apply Z.leb_le in E3. exists row.
    split_and!; try done. destruct (zr_effective_until row); [by apply Z.ltb_lt|done].
  - intros (row & I & -> & E1 & E2 & E3). exists row. split; [done|].
    apply list_elem_of_In, List.filter_In. split; [by apply list_elem_of_In|]. rewrite E1. simpl.
    apply andb_true_intro. split; [|by apply Z.leb_le]. destruct (zr_effective_until row); [by apply Z.ltb_lt|done].
Qed.

(** The rate a refresh keeps for a pair. *)
Lemma last_rate_unique now rows f t rate : rate ∈ selected_rates now rows ->
  from_zone_id rate = f -> to_zone_id rate = t ->
  (forall x, x ∈ selected_rates now rows -> from_zone_id x = f -> to_zone_id x = t -> x = rate) ->
  last_rate f t (selected_rates now rows) = Some rate.
Proof.
  intros I Hf Ht U. unfold last_rate.
  set (l := List.filter _ _).
  assert (L : forall x, x ∈ l <-> x ∈ selected_rates now rows /\ from_zone_id x = f /\ to_zone_id x = t).
  { intros x. unfold l. rewrite list_elem_of_In, List.filter_In, <- list_elem_of_In, andb_true_iff, !Z.eqb_eq. tauto. }
  destruct (list.last l) as [x|] eqn:E.
  - f_equal. apply list.last_Some_elem_of in E. apply L in E as (E1 & E2 & E3). by apply U.
  - apply list.last_None in E. assert (X : rate ∈ l) by (by apply L). rewrite E in X. by apply not_elem_of_nil in X.
Qed.
End rates.

Section composition.
Context `{NUM : Numerics} `{F64 : DecimalFromF64} `{PN : PgNumeric}.

(** The only active row of its pair. *)
Definition sole_rate (f t : Z) (id : Z) (r : StoredRate) (d : RateTable) : Prop :=
  d !! id = Some r /\ sr_pair r = (f, t) /\ sr_active r = true
  /\ forall j s, d !! j = Some s -> sr_pair s = (f, t) -> sr_active s = true -> j = id.

Lemma active_rates_in f t d x : x ∈ active_rates f t d <->
  d !! x.1 = Some x.2 /\ sr_pair x.2 = (f, t) /\ sr_active x.2 = true.
Proof.
  unfold active_rates. rewrite (elem_of_Permutation_proper _ _ _ (sort_by_perm _ _)).
  rewrite list_elem_of_In, List.filter_In, <- list_elem_of_In, andb_true_iff. destruct x as [i r].
  rewrite elem_of_map_to_list. unfold of_pair. rewrite bool_decide_eq_true. done.
Qed.

Lemma sole_shown f t id r (w : world RateTable Event) : sole_rate f t id r (st w) -> faults w = [] ->
  (get_zone_rate_by_zones f t w).1 = Ok {| zp_id := id; zp_rate := r |}.
Proof.
  intros (L & P & A & U) Hf. unfold get_zone_rate_by_zones. rewrite (bind_run _ _ w _ w (query_calm _ _ Hf)).
  assert (I : (id, r) ∈ active_rates f t (st w)) by (by apply active_rates_in).
  destruct (active_rates f t (st w)) as [|[j s] l] eqn:Q; [by apply elem_of_nil in I|].
  assert (J : (j, s) ∈ active_rates f t (st w)) by (rewrite Q; apply elem_of_cons; by left).
  apply active_rates_in in J as (J1 & J2 & J3). simpl in *.
  assert (j = id) as -> by by apply (U j s). assert (s = r) as -> by congruence. done.
Qed.

(** What the cache answers for a pair after a refresh is its only active rate in force; the handler
    that shows the rate of a pair shows the same one.  Trades are not charged
    it ([GridTopology.calculate_wheeling_charge]). *)
Theorem rate_cached f t id r rows now g (w : world RateTable Event) :
  sole_rate f t id r (st w) -> in_force now r -> answers (st w) rows -> pool g = true -> faults w = [] ->
  calculate_wheeling_charge_async (load_rates (Ok rows) now g).2 (Some f) (Some t) = wheeling_charge (zr_rate (sr_row r))
  /\ (get_zone_rate_by_zones f t w).1 = Ok {| zp_id := id; zp_rate := r |}.
Proof.
  intros (L & P & A & U) (_ & S & E) Hrows Hp Hf. split.
  - unfold load_rates. rewrite Hp. simpl. unfold calculate_wheeling_charge_async, get_rate. simpl.
    rewrite cache_fold, lookup_empty, (last_rate_unique now rows f t (zr_rate (sr_row r))); [done| | | |].
    + apply selected_row. exists (sr_row r). split_and!; try done. apply (answers_rows (st w)); [done|]. by exists id, r.
    + by injection P as ->.
    + by injection P as _ ->.
    + intros x (row & I & -> & E1 & E2 & E3)%selected_row Hx Hy. apply (answers_rows (st w)) in I as (j & s & Ls & ->); [|done].
      assert (j = id) as -> by (apply (U j s); [done| |done]; unfold sr_pair; by rewrite Hx, Hy). congruence.
  - by apply sole_shown.
Qed.

(** Two active rates of a pair: which one a refresh keeps depends on the order the server
    happens to answer in, which no clause fixes. *)
Theorem rates_ambiguous f t i j r s now g (d : RateTable) : pool g = true -> i <> j ->
  d !! i = Some r -> d !! j = Some s -> sr_pair r = (f, t) -> sr_pair s = (f, t) ->
  in_force now r -> in_force now s ->
  exists rows rows', answers d rows /\ answers d rows'
    /\ calculate_wheeling_charge_async (load_rates (Ok rows) now g).2 (Some f) (Some t) = wheeling_charge (zr_rate (sr_row r))
    /\ calculate_wheeling_charge_async (load_rates (Ok rows') now g).2 (Some f) (Some t) = wheeling_charge (zr_rate (sr_row s)).
Proof.
  intros Hp N Li Lj Pr Ps Fr Fs.
  assert (Last : forall k x, d !! k = Some x -> sr_pair x = (f, t) -> in_force now x ->
    exists rows, answers d rows /\ calculate_wheeling_charge_async (load_rates (Ok rows) now g).2 (Some f) (Some t)
                   = wheeling_charge (zr_rate (sr_row x))).
  { intros k x L P (A & S & E).
    exists (((fun y => sr_row y.2) <$> map_to_list (delete k d)) ++ [sr_row x])%list. split.
    - unfold answers. rewrite <- (map_to_list_delete d k x L). simpl. by rewrite Permutation_app_comm.
    - unfold load_rates. rewrite Hp. simpl. unfold calculate_wheeling_charge_async, get_rate. simpl.
      rewrite cache_fold. unfold last_rate, selected_rates. rewrite !List.filter_app, fmap_app, List.filter_app.
      simpl. unfold sr_active, sr_since in *. rewrite A. injection P as P1 P2.
      assert (T : match zr_effective_until (sr_row x) with None => true | Some u => now <? u end = true)
        by (destruct (zr_effective_until (sr_row x)); [by apply Z.ltb_lt|done]).
      apply Z.leb_le in S. rewrite T, S. simpl. rewrite P1, P2, !Z.eqb_refl. simpl. by rewrite list.last_snoc. }
  destruct (Last i r Li Pr Fr) as (rows & R1 & R2). destruct (Last j s Lj Ps Fs) as (rows' & R3 & R4).
  by exists rows, rows'.
Qed.

(** For a pair whose rows are inactive or out of force the cache answers the built-in formula, also
    when the handler still shows a rate for it: it does not look at the end of a rate. *)
Theorem expired_rate_shown f t id r rows now g (w : world RateTable Event) :
  sole_rate f t id r (st w) -> zr_effective_until (sr_row r) = Some now ->
  answers (st w) rows -> pool g = true -> faults w = [] ->
  calculate_wheeling_charge_async (load_rates (Ok rows) now g).2 (Some f) (Some t)
    = calculate_wheeling_charge (Some f) (Some t)
  /\ (get_zone_rate_by_zones f t w).1 = Ok {| zp_id := id; zp_rate := r |}.
Proof.
  intros (L & P & A & U) E Hrows Hp Hf. split.
  - unfold load_rates. rewrite Hp. simpl. unfold calculate_wheeling_charge_async, get_rate. simpl.
    rewrite cache_fold, lookup_empty. unfold last_rate.
    destruct (list.last _) as [x|] eqn:Q; [|done]. exfalso. apply list.last_Some_elem_of in Q.
    apply list_elem_of_In, List.filter_In in Q as [I B]. apply list_elem_of_In in I.
    apply andb_prop in B as [B1 B2]. apply Z.eqb_eq in B1, B2.
    apply selected_row in I as (row & I & -> & E1 & E2 & E3).
    apply (answers_rows (st w)) in I as (j & s & Ls & ->); [|done].
    assert (j = id) as -> by (apply (U j s); [done| |done]; unfold sr_pair; by rewrite B1, B2).
    assert (s = r) as -> by congruence. rewrite E in E3. lia.
  - by apply sole_shown.
Qed.

(** A rate is created exactly when its columns can hold the numbers and the description, and its
    id and its key are free: no charge is refused for being negative, no loss for being more than
    everything. *)
Theorem create_rate_outcome id req now (w : world RateTable Event) : faults w = [] ->
  match numeric_dec 10 4 (cz_wheeling_charge req), numeric_dec 5 4 (cz_loss_factor req) with
  | Some c, Some l =>
      if varchar 255 (cz_description req)
         && negb (rate_taken (cz_from_zone_id req, cz_to_zone_id req) now (st w))
         && bool_decide (st w !! id = None)
      then exists p, (create_zone_rate id req now w).1 = Ok p /\ st (create_zone_rate id req now w).2 = <[id := zp_rate p]> (st w)
        /\ wheeling_charge (zr_rate (sr_row (zp_rate p))) = c /\ loss_factor (zr_rate (sr_row (zp_rate p))) = l
        /\ in_force now (zp_rate p)
      else create_zone_rate id req now w = (Err FDb, w)
  | _, _ => create_zone_rate id req now w = (Err FDb, w)
  end.
Proof.
  intros Hf. unfold create_zone_rate, mbind, M_bind. rewrite exec_ret_calm by done. unfold insert_rate.
  destruct (numeric_dec 10 4 _) as [c|]; [|done]. destruct (numeric_dec 5 4 _) as [l|]; [|done]. simpl.
  unfold sr_pair. simpl. destruct (_ && _ && _) eqn:E; [|done]. simpl. eexists. split_and!; try done.
Qed.
End composition.

(** ** Witnesses *)
Section witnesses.
#[local] Existing Instances std_numerics std_from_f64.

Definition demo_rate (charge since : Z) (until : option Z) : StoredRate :=
  {| sr_row := {| zr_rate := {| from_zone_id := 1; to_zone_id := 2; wheeling_charge := dec charge 0;
                                loss_factor := dec 3 2 |};
                  zr_is_active := true; zr_effective_from := since; zr_effective_until := until |};
     sr_description := None |}.
Definition one_rate (until : option Z) : world RateTable Event := World {[7 := demo_rate 3 0 until]} [] [].

Lemma one_sole until : sole_rate 1 2 7 (demo_rate 3 0 until) (st (one_rate until)).
Proof.
  split; [apply lookup_singleton_eq|]. split; [done|]. split; [done|].
  intros j s L _ _. unfold one_rate in L. simpl in L. by apply lookup_singleton_Some in L as [-> _].
Qed.

Lemma one_answer until : answers (st (one_rate until)) [sr_row (demo_rate 3 0 until)].
Proof. unfold answers. simpl. by rewrite map_to_list_singleton. Qed.

Lemma rate_cached_witness :
  calculate_wheeling_charge_async (load_rates (Ok [sr_row (demo_rate 3 0 None)]) 5 with_pool).2 (Some 1) (Some 2) = dec 3 0.
Proof.
  refine (proj1 (rate_cached 1 2 7 (demo_rate 3 0 None) [sr_row (demo_rate 3 0 None)] 5 with_pool
    (one_rate None) (one_sole None) _ (one_answer None) eq_refl eq_refl)).
  split; [reflexivity|]. split; [vm_compute; discriminate|exact I].
Defined.

Lemma expired_rate_shown_witness :
  (get_zone_rate_by_zones 1 2 (one_rate (Some 5))).1 = Ok {| zp_id := 7; zp_rate := demo_rate 3 0 (Some 5) |}.
Proof.
  exact (proj2 (expired_rate_shown 1 2 7 (demo_rate 3 0 (Some 5)) [sr_row (demo_rate 3 0 (Some 5))] 5 with_pool
    (one_rate (Some 5)) (one_sole (Some 5)) eq_refl (one_answer (Some 5)) eq_refl eq_refl)).
Defined.

Definition two_rates : RateTable := <[7 := demo_rate 3 0 None]> {[8 := demo_rate 4 1 None]}.

Lemma rates_ambiguous_witness : exists rows rows', answers two_rates rows /\ answers two_rates rows'
  /\ calculate_wheeling_charge_async (load_rates (Ok rows) 5 with_pool).2 (Some 1) (Some 2) = dec 3 0
  /\ calculate_wheeling_charge_async (load_rates (Ok rows') 5 with_pool).2 (Some 1) (Some 2) = dec 4 0.
Proof.
  apply (rates_ambiguous 1 2 7 8 (demo_rate 3 0 None) (demo_rate 4 1 None) 5 with_pool two_rates);
    try reflexivity; try discriminate; (split; [reflexivity|]; split; [vm_compute; discriminate|exact I]).
Defined.
End witnesses.
