(* ===== verification/Faucet.v ===== *)
(** The faucet for developers: [src/handlers/dev/faucet.rs], which [src/router/mod.rs] serves to
    everyone.

    The tables are the columns of [users] and [user_wallets] it reads or writes.  The chain, the
    parsing of addresses and of amounts, and which of several rows a LIMIT 1 without an order
    picks, are an interface. *)
From S2P Require Import Prelude Numerics Floats Errors Store Schema Telemetry Minting.
Open Scope string_scope.
Open Scope Z_scope.
#[local] Set Warnings "-clear-no-such-hyp".

Record FaucetRequest := {
  fq_wallet_address : string;
  fq_amount_sol : option spec_float;
  fq_mint_tokens_kwh : option spec_float;
  fq_deposit_fiat : option spec_float;
  fq_promote_to_role : option string;
}.

Record FaucetResponse := {
  fr_success : bool;
  fr_message : string;
  fr_sol_tx_signature : option string;
  fr_token_tx_signature : option string;
}.

Record FaucetUser := {
  fu_wallet : option string;
  fu_balance : option Decimal;
  fu_role : string;
}.

Record FaucetDb := {
  fd_users : gmap Uuid FaucetUser;
  fd_wallets : list (Uuid * string);
}.

Inductive FaucetCall :=
| CAirdrop (wallet : string) (sol : spec_float)
| CMint (wallet : string) (amount : spec_float).

Class FaucetOutside := {
  airdrop_answer : string -> spec_float -> res string string;
  mint_answer : string -> spec_float -> res string string;
  address_valid : string -> bool;
  decimal_of_f64 : spec_float -> option Decimal;
  any_row : list Uuid -> option Uuid;
  any_row_in l i : any_row l = Some i -> i ∈ l;
  any_row_none l : any_row l = None -> l = [];
}.

(** [user_role] after all migrations. *)
Definition user_roles : list string := ["user"; "admin"; "prosumer"; "consumer"; "corporate"].

Section faucet.
Context `{NUM : Numerics} `{FT : FloatText} `{FO : FaucetOutside}.

Abbreviation FM := (M FaucetDb FaucetCall).

Definition owners (wallet : string) (d : FaucetDb) : list Uuid :=
  ((fun x => x.1) <$> List.filter (fun x => (x.2 =? wallet)%string) (fd_wallets d))
  ++ ((fun x => x.1) <$> List.filter (fun x => bool_decide (fu_wallet x.2 = Some wallet)) (map_to_list (fd_users d))).

(** The UNION with LIMIT 1. *)
Definition find_owner (wallet : string) : FM (option Uuid) :=
  map_err (fun e => FApi (Internal "DB error: ")) (query (fun d => any_row (owners wallet d))).

Definition update_faucet_user (id : Uuid) (f : FaucetUser -> option FaucetUser) (d : FaucetDb) : option FaucetDb :=
  match fd_users d !! id with
  | None => Some d
  | Some u => u' ← f u; Some {| fd_users := <[id := u']> (fd_users d); fd_wallets := fd_wallets d |}
  end.

Definition pay (amount : Decimal) (u : FaucetUser) : option FaucetUser :=
  b ← col_add (fu_balance u) amount;
  Some {| fu_wallet := fu_wallet u; fu_balance := b; fu_role := fu_role u |}.

(** [$1::text::user_role]: a text that is no role is refused. *)
Definition set_role (role : string) (u : FaucetUser) : option FaucetUser :=
  if bool_decide (role ∈ user_roles)
  then Some {| fu_wallet := fu_wallet u; fu_balance := fu_balance u; fu_role := role |}
  else None.

Definition above_zero (x : spec_float) : bool := f64_lt (f64_of_Z 0) x.

(** [(kwh * 1_000_000_000.0) as u64 as f64]. *)
Definition atomic_amount (kwh : spec_float) : spec_float :=
  f64_of_Z (as_unsigned u64_max (f64_mul kwh (f64_of_Z 1000000000))).

(** The units [mint_energy_tokens] mints for the kWh it is given. *)
Definition minted_units (amount_kwh : spec_float) : Z :=
  as_unsigned u64_max (f64_mul amount_kwh (f64_of_Z 1000000000)).

(** The amount of a step that is asked for. *)
Definition requested (o : option spec_float) : option spec_float :=
  match o with Some x => if above_zero x then Some x else None | None => None end.

Definition airdrop_step (p : FaucetRequest) : FM (option string * list string) :=
  match requested (fq_amount_sol p) with
  | None => mret (None, [])
  | Some amount =>
      emit (CAirdrop (fq_wallet_address p) amount) ;;
      match airdrop_answer (fq_wallet_address p) amount with
      | Ok sig => mret (Some sig, ["Airdropped " +:+ f64_display amount +:+ " SOL"])
      | Err e => fail (FApi (Internal ("Failed to airdrop SOL: " +:+ e)))
      end
  end.

Definition mint_step (p : FaucetRequest) : FM (option string * list string) :=
  match requested (fq_mint_tokens_kwh p) with
  | None => mret (None, [])
  | Some kwh =>
      emit (CMint (fq_wallet_address p) (atomic_amount kwh)) ;;
      match mint_answer (fq_wallet_address p) (atomic_amount kwh) with
      | Ok sig => mret (Some sig, ["Minted " +:+ f64_display kwh +:+ " kWh tokens"])
      | Err e => fail (FApi (Internal ("Failed to mint tokens: " +:+ e)))
      end
  end.

Definition deposit_step (p : FaucetRequest) : FM (list string) :=
  match requested (fq_deposit_fiat p) with
  | None => mret []
  | Some fiat =>
      owner ← find_owner (fq_wallet_address p);
      match owner with
      | Some id =>
          amount ← expect (FApi (BadRequest "Invalid amount")) (decimal_of_f64 fiat);
          map_err (fun e => FApi (Internal "Failed to deposit funds: ")) (exec (update_faucet_user id (pay amount))) ;;
          mret ["Deposited " +:+ f64_display fiat +:+ " THB"]
      | None => mret ["Wallet " +:+ fq_wallet_address p +:+ " not linked to user, skipped fiat deposit"]
      end
  end.

Definition promote_step (p : FaucetRequest) : FM (list string) :=
  match fq_promote_to_role p with
  | None => mret []
  | Some role =>
      owner ← find_owner (fq_wallet_address p);
      match owner with
      | Some id =>
          map_err (fun e => FApi (Internal "Failed to update role: ")) (exec (update_faucet_user id (set_role role))) ;;
          mret ["Promoted user to role: " +:+ role]
      | None => mret ["Wallet " +:+ fq_wallet_address p +:+ " not linked to user, skipped role promotion"]
      end
  end.

(** The messages of an internal error end with the text of the driver, left out here. *)
Definition request_faucet (p : FaucetRequest) : FM FaucetResponse :=
  if address_valid (fq_wallet_address p) then
    sol ← airdrop_step p;
    token ← mint_step p;
    deposit ← deposit_step p;
    role ← promote_step p;
    let messages := (sol.2 ++ token.2 ++ deposit ++ role)%list in
    mret {| fr_success := true;
            fr_message := match messages with [] => "No actions requested" | _ => String.concat ", " messages end;
            fr_sol_tx_signature := sol.1; fr_token_tx_signature := token.1 |}
  else fail (FApi (BadRequest "Invalid wallet address")).
End faucet.

Section faucet_props.
Context `{NUM : Numerics} `{FT : FloatText} `{FO : FaucetOutside}.

Abbreviation FM := (M FaucetDb FaucetCall).

Lemma find_owner_calm wallet (w : world FaucetDb FaucetCall) : faults w = [] ->
  find_owner wallet w = (Ok (any_row (owners wallet (st w))), w).
Proof. intros Hf. unfold find_owner, map_err. by rewrite query_calm. Qed.

(** The accounts of others: whoever does not hold the wallet. *)
Definition others_kept (wallet : string) (d d' : FaucetDb) : Prop :=
  fd_wallets d' = fd_wallets d
  /\ (forall i, fu_wallet <$> fd_users d' !! i = fu_wallet <$> fd_users d !! i)
  /\ forall i, i ∉ owners wallet d -> fd_users d' !! i = fd_users d !! i.

Lemma owners_In wallet d i : i ∈ owners wallet d <->
  (exists x, x ∈ fd_wallets d /\ x.2 = wallet /\ x.1 = i)
  \/ exists u, fd_users d !! i = Some u /\ fu_wallet u = Some wallet.
Proof.
  unfold owners. rewrite elem_of_app, !list_elem_of_fmap. split.
  - intros [(x & -> & I)|([j u] & -> & I)]; apply list_elem_of_In, List.filter_In in I as [I E];
      apply list_elem_of_In in I.
    + left. exists x. apply String.eqb_eq in E. done.
    + right. exists u. apply elem_of_map_to_list in I. apply bool_decide_eq_true in E. done.
  - intros [(x & I & E & <-)|(u & L & E)]; [left; exists x|right; exists (i, u)]; (split; [done|]);
      apply list_elem_of_In, List.filter_In; (split; [apply list_elem_of_In|]).
    + done.
    + by apply String.eqb_eq.
    + by apply elem_of_map_to_list.
    + by apply bool_decide_eq_true.
Qed.

Lemma owners_kept wallet d d' i : others_kept wallet d d' -> i ∈ owners wallet d' <-> i ∈ owners wallet d.
Proof.
  intros (W & U & _). rewrite !owners_In, W. specialize (U i).
  destruct (fd_users d' !! i) as [a|], (fd_users d !! i) as [b|]; simpl in U; try done.
  injection U as U. split; (intros [?|(x & [= <-] & E)]; [by left|right; eexists; split; [done|congruence]]).
Qed.

Lemma update_keeps wallet id f d0 d d' : (forall u u', f u = Some u' -> fu_wallet u' = fu_wallet u) ->
  id ∈ owners wallet d -> others_kept wallet d0 d -> update_faucet_user id f d = Some d' -> others_kept wallet d0 d'.
Proof.
  intros Hf I K H. unfold update_faucet_user in H. destruct (fd_users d !! id) as [u|] eqn:L; [|by simplify_eq].
  destruct (f u) as [u'|] eqn:F; [|done]. simpl in H. injection H as <-.
  pose proof (owners_kept wallet d0 d id K) as O. destruct K as (W & U & R). unfold others_kept. simpl.
  split_and!; [done| |]; intros i; (destruct (decide (i = id)) as [->|N];
    [rewrite lookup_insert_eq|rewrite lookup_insert_ne by done; auto]).
  - simpl. rewrite <- (U id), L. simpl. f_equal. by apply Hf.
  - intros Hi. by apply O in I.
Qed.

Lemma pay_wallet a u u' : pay a u = Some u' -> fu_wallet u' = fu_wallet u.
Proof. unfold pay. destruct (col_add _ _); [|done]. by intros [= <-]. Qed.
Lemma set_role_wallet r u u' : set_role r u = Some u' -> fu_wallet u' = fu_wallet u.
Proof. unfold set_role. case_bool_decide; [|done]. by intros [= <-]. Qed.

Lemma owner_step {A} wallet (d0 : FaucetDb) (k : option Uuid -> FM A) (w : world FaucetDb FaucetCall) :
  others_kept wallet d0 (st w) ->
  (forall i w', i ∈ owners wallet (st w') -> others_kept wallet d0 (st w') -> others_kept wallet d0 (st (k (Some i) w').2)) ->
  (forall w', others_kept wallet d0 (st w') -> others_kept wallet d0 (st (k None w').2)) ->
  others_kept wallet d0 (st ((find_owner wallet ≫= k) w).2).
Proof.
  intros K H1 H2. unfold mbind, M_bind, find_owner, map_err. destruct (query _ w) as [[o|e] w1] eqn:Q;
    pose proof (query_st _ _ _ _ Q) as S1.
  - apply query_Ok in Q as (-> & _). destruct (any_row _) as [i|] eqn:A0.
    + apply H1; rewrite S1; [by apply any_row_in|done].
    + apply H2. by rewrite S1.
  - destruct e; simpl; by rewrite S1.
Qed.

Lemma write_step {A} wallet d0 id f g (a : A) (w : world FaucetDb FaucetCall) :
  (forall u u', f u = Some u' -> fu_wallet u' = fu_wallet u) -> id ∈ owners wallet (st w) ->
  others_kept wallet d0 (st w) ->
  others_kept wallet d0 (st ((map_err g (exec (update_faucet_user id f)) ;; mret a : FM A) w).2).
Proof.
  intros Hf I K. unfold mbind, M_bind, map_err, exec. pose proof (pop_fault_st w) as P.
  destruct (pop_fault w) as [[] w1]; simpl in P; [simpl; by rewrite P|].
  rewrite P. destruct (update_faucet_user id f (st w)) as [d|] eqn:U; simpl; [|by rewrite P].
  by eapply update_keeps.
Qed.

(** Whatever is requested and whatever fails, only accounts that hold the wallet are touched. *)
Theorem faucet_keeps_others p (w : world FaucetDb FaucetCall) :
  others_kept (fq_wallet_address p) (st w) (st (request_faucet p w).2).
Proof.
  assert (K : others_kept (fq_wallet_address p) (st w) (st w)) by done.
  revert K. generalize (st w) at 1 3. intros d0. revert w.
  change (preserves (others_kept (fq_wallet_address p) d0) (request_faucet p)).
  unfold request_faucet. destruct (address_valid _); [|apply preserves_fail].
  apply preserves_bind.
  { unfold airdrop_step. destruct (requested _); [|apply preserves_ret]. apply preserves_bind; [apply preserves_emit|].
    intros _. destruct (airdrop_answer _ _); [apply preserves_ret|apply preserves_fail]. }
  intros sol. apply preserves_bind.
  { unfold mint_step. destruct (requested _); [|apply preserves_ret]. apply preserves_bind; [apply preserves_emit|].
    intros _. destruct (mint_answer _ _); [apply preserves_ret|apply preserves_fail]. }
  intros token. apply preserves_bind.
  { unfold deposit_step. destruct (requested _) as [x|]; [|apply preserves_ret]. intros w K. apply owner_step; [done| |done].
    intros i w' I K'. destruct (decimal_of_f64 x) as [a|]; [|done].
    apply (write_step _ _ _ _ _ ["Deposited " +:+ f64_display x +:+ " THB"]); [apply pay_wallet|done..]. }
  intros deposit. apply preserves_bind; [|intros; apply preserves_ret].
  unfold promote_step. destruct (fq_promote_to_role p) as [r|]; [|apply preserves_ret]. intros w K.
  apply owner_step; [done| |done]. intros i w' I K'.
  apply (write_step _ _ _ _ _ ["Promoted user to role: " +:+ r]); [apply set_role_wallet|done..].
Qed.

(** Anyone who knows the wallet of a user makes that user an administrator: the request asks for
    no credentials, and none of its conditions is one. *)
Theorem anyone_promotes wallet role id u (w : world FaucetDb FaucetCall) :
  address_valid wallet = true -> role ∈ user_roles -> any_row (owners wallet (st w)) = Some id ->
  fd_users (st w) !! id = Some u -> faults w = [] ->
  let p := {| fq_wallet_address := wallet; fq_amount_sol := None; fq_mint_tokens_kwh := None;
              fq_deposit_fiat := None; fq_promote_to_role := Some role |} in
  is_ok (request_faucet p w).1 = true
  /\ fd_users (st (request_faucet p w).2) !! id
     = Some {| fu_wallet := fu_wallet u; fu_balance := fu_balance u; fu_role := role |}.
Proof.
  intros Hv Hr Ho Hu Hf. cbv zeta. unfold request_faucet, airdrop_step, mint_step, deposit_step, promote_step.
  cbn [fq_wallet_address fq_amount_sol fq_mint_tokens_kwh fq_deposit_fiat fq_promote_to_role requested]. rewrite Hv.
  unfold mbind, M_bind, mret, M_ret. rewrite (find_owner_calm _ _ Hf), Ho. unfold map_err.
  rewrite exec_calm by done. unfold update_faucet_user. rewrite Hu. unfold set_role.
  rewrite bool_decide_eq_true_2 by done. simpl. split; [done|]. by rewrite lookup_insert_eq.
Qed.

Definition sole_owner (wallet : string) (id : Uuid) (d : FaucetDb) : Prop :=
  forall i, i ∈ owners wallet d <-> i = id.

Lemma sole_owner_picked wallet id d : sole_owner wallet id d -> any_row (owners wallet d) = Some id.
Proof.
  intros H. destruct (any_row (owners wallet d)) as [i|] eqn:E.
  - f_equal. by apply H, any_row_in.
  - apply any_row_none in E. assert (X : id ∈ owners wallet d) by by apply H. rewrite E in X. by apply not_elem_of_nil in X.
Qed.

(** The steps are not one transaction: a request that ends in an error for its role has paid out
    its deposit, and may be sent again. *)
Theorem deposit_survives_error wallet fiat amount role id u b (w : world FaucetDb FaucetCall) :
  address_valid wallet = true -> above_zero fiat = true -> decimal_of_f64 fiat = Some amount ->
  role ∉ user_roles -> sole_owner wallet id (st w) ->
  fd_users (st w) !! id = Some u -> col_add (fu_balance u) amount = Some b -> faults w = [] ->
  let p := {| fq_wallet_address := wallet; fq_amount_sol := None; fq_mint_tokens_kwh := None;
              fq_deposit_fiat := Some fiat; fq_promote_to_role := Some role |} in
  is_ok (request_faucet p w).1 = false
  /\ fd_users (st (request_faucet p w).2) !! id
     = Some {| fu_wallet := fu_wallet u; fu_balance := b; fu_role := fu_role u |}.
Proof.
  intros Hv Hp Hd Hr Hs Hu Hb Hf. cbv zeta.
  assert (Ho : any_row (owners wallet (st w)) = Some id) by by apply sole_owner_picked.
  unfold request_faucet, airdrop_step, mint_step, deposit_step, promote_step.
  cbn [fq_wallet_address fq_amount_sol fq_mint_tokens_kwh fq_deposit_fiat fq_promote_to_role requested]. rewrite Hv, Hp.
  unfold mbind, M_bind, mret, M_ret. rewrite (find_owner_calm _ _ Hf), Ho, Hd. unfold map_err, expect, mret, M_ret.
  rewrite exec_calm by done. unfold update_faucet_user. rewrite Hu. unfold pay. rewrite Hb. simpl.
  set (d := {| fd_users := _; fd_wallets := _ |}).
  assert (K : others_kept wallet (st w) d).
  { eapply (update_keeps wallet id (pay amount)); [apply pay_wallet|by apply any_row_in|done|].
    unfold update_faucet_user. rewrite Hu. unfold pay. by rewrite Hb. }
  assert (Hk : any_row (owners wallet d) = Some id)
    by (apply sole_owner_picked; intros i; rewrite (owners_kept _ _ _ i K); apply Hs).
  rewrite find_owner_calm by done. simpl. rewrite Hk. rewrite exec_calm by done. simpl.
  rewrite lookup_insert_eq. unfold set_role. rewrite bool_decide_eq_false_2 by done. simpl.
  split; [done|]. by rewrite lookup_insert_eq.
Qed.
End faucet_props.

(** The scale is applied twice: for each kWh asked for, the token program is told 10^18 units
    instead of 10^9, as far as they fit. *)
Theorem faucet_mints_billionfold (n : Z) : 1 <= n <= 18 ->
  minted_units (f64_of_Z n) = n * 10 ^ 9 /\ minted_units (atomic_amount (f64_of_Z n)) = n * 10 ^ 18.
Proof.
  intros Hn.
  assert (H : forallb (fun k => let n := Z.of_nat k in
     (minted_units (f64_of_Z n) =? n * 10 ^ 9) && (minted_units (atomic_amount (f64_of_Z n)) =? n * 10 ^ 18))
     (List.seq 1 18) = true) by (vm_compute; reflexivity).
  rewrite List.forallb_forall in H. specialize (H (Z.to_nat n)). rewrite Z2Nat.id in H by lia.
  destruct (andb_prop _ _ (H ltac:(apply List.in_seq; lia))) as [H1 H2].
  by apply Z.eqb_eq in H1, H2.
Qed.

(** ** Witnesses *)
Section witnesses.
#[local] Existing Instance std_numerics.
#[local] Instance plain_float_text : FloatText := {| f64_display _ := "x"; f64_fixed _ _ := "x" |}.
#[local] Program Instance demo_faucet : FaucetOutside :=
  {| airdrop_answer _ _ := Ok "sig"; mint_answer _ _ := Ok "sig"; address_valid _ := true;
     decimal_of_f64 x := Some (dec (as_unsigned u64_max x) 0); any_row := head |}.
Next Obligation. intros [|a l] i; [done|]. intros [= ->]. apply elem_of_cons. by left. Qed.
Next Obligation. by intros [|a l]. Qed.

Definition faucet_user : FaucetUser := {| fu_wallet := Some "w"; fu_balance := Some (dec 1 0); fu_role := "user" |}.
Definition faucet_world : world FaucetDb FaucetCall :=
  World {| fd_users := {[1%N := faucet_user]}; fd_wallets := [] |} [] [].

Lemma anyone_promotes_witness :
  fd_users (st (request_faucet {| fq_wallet_address := "w"; fq_amount_sol := None; fq_mint_tokens_kwh := None;
              fq_deposit_fiat := None; fq_promote_to_role := Some "admin" |} faucet_world).2) !! 1%N
  = Some {| fu_wallet := Some "w"; fu_balance := Some (dec 1 0); fu_role := "admin" |}.
Proof.
  refine (proj2 (anyone_promotes "w" "admin" 1 faucet_user faucet_world eq_refl _ eq_refl eq_refl eq_refl)).
  unfold user_roles. set_solver.
Defined.

Lemma deposit_survives_error_witness :
  (fu_balance <$> fd_users (st (request_faucet {| fq_wallet_address := "w"; fq_amount_sol := None;
     fq_mint_tokens_kwh := None; fq_deposit_fiat := Some (f64_of_Z 5); fq_promote_to_role := Some "king" |}
     faucet_world).2) !! 1%N) = Some (Some (dec 6 0)).
Proof.
  assert (R : "king" ∉ user_roles) by (unfold user_roles; set_solver).
  assert (S : sole_owner "w" 1 (st faucet_world)).
  { intros i. unfold owners, faucet_world. simpl. rewrite map_to_list_singleton. apply list_elem_of_singleton. }
  pose proof (deposit_survives_error "w" (f64_of_Z 5) (dec 5 0) "king" 1 faucet_user (Some (dec 6 0))
    faucet_world) as H. cbv zeta in H.
  rewrite (proj2 (H eq_refl ltac:(vm_compute; reflexivity) ltac:(vm_compute; reflexivity) R S eq_refl
    ltac:(vm_compute; reflexivity) eq_refl)).
  reflexivity.
Defined.

Lemma faucet_mints_billionfold_witness : minted_units (atomic_amount (f64_of_Z 2)) = 2 * 10 ^ 18.
Proof. refine (proj2 (faucet_mints_billionfold 2 _)). lia. Defined.
End witnesses.
