(* ===== verification/Diagnostics.v ===== *)
(** What the gateway keeps and checks besides trading: the error tracker, the profiler of queries,
    the counters of pending transactions, the health of its dependencies, its secrets, the
    signatures of readings, the origin of a request and the errors of a JSON body.

    [src/utils/error_tracker.rs], [query_profiler.rs], [secrets.rs], [signature.rs] and
    [request_info.rs], [src/services/transaction/metrics.rs], [src/services/health_check/] and
    [src/middleware/json_validation.rs].  The state of a tracker is a value; a run is a list of
    calls.  Ed25519 and base58, the dependencies asked for their health, and the order of a
    [HashMap] are interfaces or arguments, as are clocks and the environment. *)
From Stdlib Require Import Strings.String Strings.Byte.
From S2P Require Import Prelude Text Numerics Errors Store Schema Certificates.
Open Scope string_scope.
Open Scope Z_scope.
Open Scope list_scope.
#[local] Set Warnings "-clear-no-such-hyp".

(** ** The error tracker ([error_tracker.rs]) *)

Module Tracker.

(** [format!("{:?}", code)]. *)
Definition code_debug (c : Code.ErrorCode) : string :=
  match c with
  | Code.InvalidCredentials => "InvalidCredentials"
  | Code.TokenExpired => "TokenExpired"
  | Code.TokenInvalid => "TokenInvalid"
  | Code.TokenMissing => "TokenMissing"
  | Code.EmailNotVerified => "EmailNotVerified"
  | Code.AccountLocked => "AccountLocked"
  | Code.AccountDisabled => "AccountDisabled"
  | Code.InsufficientPermissions => "InsufficientPermissions"
  | Code.ResourceAccessDenied => "ResourceAccessDenied"
  | Code.RoleNotAuthorized => "RoleNotAuthorized"
  | Code.InvalidInput => "InvalidInput"
  | Code.MissingRequiredField => "MissingRequiredField"
  | Code.InvalidFormat => "InvalidFormat"
  | Code.InvalidWalletAddress => "InvalidWalletAddress"
  | Code.InvalidAmount => "InvalidAmount"
  | Code.InvalidEmail => "InvalidEmail"
  | Code.InvalidPassword => "InvalidPassword"
  | Code.PasswordTooWeak => "PasswordTooWeak"
  | Code.NotFound => "NotFound"
  | Code.AlreadyExists => "AlreadyExists"
  | Code.Conflict => "Conflict"
  | Code.Gone => "Gone"
  | Code.InsufficientBalance => "InsufficientBalance"
  | Code.OrderNotMatched => "OrderNotMatched"
  | Code.TradingNotAllowed => "TradingNotAllowed"
  | Code.MeterReadingInvalid => "MeterReadingInvalid"
  | Code.TokenMintingFailed => "TokenMintingFailed"
  | Code.EpochNotActive => "EpochNotActive"
  | Code.BlockchainConnectionFailed => "BlockchainConnectionFailed"
  | Code.BlockchainTransactionFailed => "BlockchainTransactionFailed"
  | Code.TransactionTimeout => "TransactionTimeout"
  | Code.InvalidSignature => "InvalidSignature"
  | Code.InsufficientGasFee => "InsufficientGasFee"
  | Code.ProgramError => "ProgramError"
  | Code.DatabaseConnectionFailed => "DatabaseConnectionFailed"
  | Code.QueryFailed => "QueryFailed"
  | Code.DatabaseTransactionFailed => "DatabaseTransactionFailed"
  | Code.ConstraintViolation => "ConstraintViolation"
  | Code.ExternalServiceUnavailable => "ExternalServiceUnavailable"
  | Code.ExternalServiceTimeout => "ExternalServiceTimeout"
  | Code.ExternalServiceError => "ExternalServiceError"
  | Code.EmailServiceFailed => "EmailServiceFailed"
  | Code.ServiceUnavailable => "ServiceUnavailable"
  | Code.RateLimitExceeded => "RateLimitExceeded"
  | Code.TooManyRequests => "TooManyRequests"
  | Code.InternalServerError => "InternalServerError"
  | Code.ConfigurationError => "ConfigurationError"
  | Code.UnexpectedError => "UnexpectedError"
  end.

Record ErrorEntry := {
  er_timestamp : DateTime;
  er_error_code : Code.ErrorCode;
  er_endpoint : string;
  er_user_id : option string;
  er_message : string;
  er_request_id : string;
}.

Record ErrorMetrics := {
  total_errors : Z;
  errors_by_code : gmap string Z;
  errors_by_endpoint : gmap string Z;
  last_errors : list ErrorEntry;
}.

Definition no_errors : ErrorMetrics :=
  {| total_errors := 0; errors_by_code := ∅; errors_by_endpoint := ∅; last_errors := [] |}.

(** [*map.entry(k).or_insert(0) += 1] on [u64]. *)
Definition count_one (k : string) (m : gmap string Z) : gmap string Z :=
  <[k := wrap_u64 (default 0 (m !! k) + 1)]> m.

Section tracker.
Context (max_last_errors : nat).

Definition track_error (e : ErrorEntry) (m : ErrorMetrics) : ErrorMetrics :=
  let last := last_errors m ++ [e] in
  {| total_errors := wrap_u64 (total_errors m + 1);
     errors_by_code := count_one (code_debug (er_error_code e)) (errors_by_code m);
     errors_by_endpoint := count_one (er_endpoint e) (errors_by_endpoint m);
     last_errors := if (max_last_errors <? length last)%nat then tail last else last |}.

Definition reset_metrics (m : ErrorMetrics) : ErrorMetrics := no_errors.

Definition get_endpoint_error_rate (endpoint : string) (m : ErrorMetrics) : Z :=
  default 0 (errors_by_endpoint m !! endpoint).

(** [entries]: the map in the order it iterates. *)
Definition top (limit : nat) (entries : list (string * Z)) : list (string * Z) :=
  take limit (Prelude.sort_by (fun a b => b.2 <=? a.2) entries).
Definition get_top_error_codes (limit : nat) (entries : list (string * Z)) : list (string * Z) := top limit entries.
Definition get_top_error_endpoints (limit : nat) (entries : list (string * Z)) : list (string * Z) := top limit entries.

Definition get_recent_errors (limit : nat) (m : ErrorMetrics) : list ErrorEntry :=
  drop (if (limit <? length (last_errors m))%nat then length (last_errors m) - limit else 0) (last_errors m).

Inductive TrackerCall := TTrack (e : ErrorEntry) | TReset.
Definition tracker_step (m : ErrorMetrics) (c : TrackerCall) : ErrorMetrics :=
  match c with TTrack e => track_error e m | TReset => reset_metrics m end.
Definition tracker_run (calls : list TrackerCall) : ErrorMetrics := foldl tracker_step no_errors calls.

(** The errors since the last reset. *)
Definition tracked (calls : list TrackerCall) : list ErrorEntry :=
  foldl (fun l c => match c with TTrack e => l ++ [e] | TReset => [] end) [] calls.

(** The last [n] of a list. *)
Definition lasts {A} (n : nat) (l : list A) : list A := drop (length l - n) l.

Definition occurrences (k : string) (l : list string) : nat :=
  length (List.filter (String.eqb k) l).
Definition tallied (l : list string) (m : gmap string Z) : Prop :=
  forall k, m !! k = if (occurrences k l =? 0)%nat then None else Some (Z.of_nat (occurrences k l)).

Lemma occurrences_snoc k l x : occurrences k (l ++ [x]) = (occurrences k l + if (k =? x)%string then 1 else 0)%nat.
Proof.
  unfold occurrences. rewrite List.filter_app, length_app. simpl. by destruct (k =? x)%string.
Qed.

Lemma occurrences_bound k l : (occurrences k l <= length l)%nat.
Proof. unfold occurrences. apply List.filter_length_le. Qed.

Lemma tallied_snoc l x m : (Z.of_nat (length l) < u64_max) -> tallied l m -> tallied (l ++ [x]) (count_one x m).
Proof.
  intros Hl H k. rewrite occurrences_snoc. unfold count_one. destruct (String.eqb_spec k x) as [->|N].
  - rewrite lookup_insert_eq, (H x). pose proof (occurrences_bound x l) as B.
    destruct (Nat.eqb_spec (occurrences x l) 0) as [E|E]; simpl.
    + rewrite E. reflexivity.
    + destruct (Nat.eqb_spec (occurrences x l + 1) 0); [lia|]. f_equal. unfold wrap_u64, u64_max in *.
      rewrite Z.mod_small by lia. lia.
  - rewrite lookup_insert_ne by congruence. rewrite (H k). by rewrite Nat.add_0_r.
Qed.

Lemma drop_tail1 {A} (l : list A) : drop 1 l = tail l.
Proof. by destruct l. Qed.

Lemma lasts_snoc {A} n (l : list A) x :
  lasts n (l ++ [x]) = if (n <? length (lasts n l ++ [x]))%nat then tail (lasts n l ++ [x]) else lasts n l ++ [x].
Proof.
  unfold lasts. rewrite !length_app, length_drop. simpl.
  destruct (Nat.ltb_spec n (length l - (length l - n) + 1)) as [H|H].
  - replace (length l + 1 - n)%nat with (S (length l - n)) by lia.
    rewrite <- (drop_app_le l [x]) by lia. by rewrite <- Nat.add_1_r, <- drop_drop, drop_tail1.
  - replace (length l + 1 - n)%nat with 0%nat by lia. replace (length l - n)%nat with 0%nat by lia. done.
Qed.

(** After any history of fewer than 2^64 calls the totals are what was tracked since the last
    reset, for each code and each endpoint, and the last errors are its end. *)
Theorem tracker_counts (calls : list TrackerCall) : Z.of_nat (length calls) <= u64_max ->
  let m := tracker_run calls in let l := tracked calls in
  total_errors m = Z.of_nat (length l)
  /\ tallied (code_debug ∘ er_error_code <$> l) (errors_by_code m)
  /\ tallied (er_endpoint <$> l) (errors_by_endpoint m)
  /\ last_errors m = lasts max_last_errors l.
Proof.
  intros Hn. cbv zeta.
  assert (G : (length (tracked calls) <= length calls)%nat /\ total_errors (tracker_run calls) = Z.of_nat (length (tracked calls))
    /\ tallied (code_debug ∘ er_error_code <$> tracked calls) (errors_by_code (tracker_run calls))
    /\ tallied (er_endpoint <$> tracked calls) (errors_by_endpoint (tracker_run calls))
    /\ last_errors (tracker_run calls) = lasts max_last_errors (tracked calls)); [|by destruct G].
  assert (Z0 : forall m, m = no_errors -> total_errors m = 0 /\ tallied [] (errors_by_code m)
     /\ tallied [] (errors_by_endpoint m) /\ last_errors m = []).
  { intros m ->. split_and!; try done; intros k; by rewrite lookup_empty. }
  induction calls as [|c calls IH] using rev_ind.
  { destruct (Z0 _ eq_refl) as (A1 & A2 & A3 & A4). by split_and!. }
  rewrite length_app in Hn. simpl in Hn. unfold tracker_run, tracked. rewrite !foldl_app.
  fold (tracker_run calls) (tracked calls). simpl.
  destruct IH as (L & T & C & E & R); [lia|]. destruct c as [e|]; simpl.
  2: { destruct (Z0 _ eq_refl) as (A1 & A2 & A3 & A4). split_and!; [lia|exact A1|exact A2|exact A3|reflexivity]. }
  rewrite !length_app, !fmap_app, T, R, lasts_snoc. simpl. split_and!; [lia| | | |by rewrite ?length_app].
  - unfold wrap_u64, u64_max in *. rewrite Z.mod_small by lia. lia.
  - apply tallied_snoc; [rewrite length_fmap; unfold u64_max in *; lia|done].
  - apply tallied_snoc; [rewrite length_fmap; unfold u64_max in *; lia|done].
Qed.

(** The top is a part of the map in falling order, and nothing left out has a larger count. *)
Theorem top_is_top limit entries m : entries ≡ₚ map_to_list m ->
  Sorted.Sorted (fun a b : string * Z => is_true (b.2 <=? a.2)) (top limit entries)
  /\ (forall k n, (k, n) ∈ top limit entries -> m !! k = Some n)
  /\ length (top limit entries) = Nat.min limit (size m)
  /\ forall k n, m !! k = Some n -> (k, n) ∉ top limit entries ->
       Forall (fun x => n <= x.2) (top limit entries).
Proof.
  intros P. unfold top. set (le := fun a b : string * Z => b.2 <=? a.2).
  assert (Tot : forall x y, le x y = true \/ le y x = true) by (intros x y; unfold le; rewrite !Z.leb_le; lia).
  pose proof (sort_by_sorted le Tot entries) as S. pose proof (Permutation_trans (sort_by_perm le entries) P) as Q.
  set (l := Prelude.sort_by le entries) in *.
  assert (Tr : Relations_1.Transitive (rel le))
    by (intros x y z; unfold rel, le; rewrite !Z.leb_le; lia).
  assert (SS : Sorted.StronglySorted (rel le) l) by (apply Sorted.Sorted_StronglySorted; [exact Tr|exact S]).
  rewrite <- (take_drop limit l) in SS.
  assert (In_l : forall k n, (k, n) ∈ l <-> m !! k = Some n)
    by (intros k n; rewrite Q; apply elem_of_map_to_list).
  split_and!.
  - rewrite <- (take_drop limit l) in S. clear -S. revert S. generalize (take limit l) (drop limit l). intros a b.
    induction a as [|x a IH]; intros S; [constructor|]. simpl in S. inversion S as [|? ? S1 H]; subst.
    constructor; [by apply IH|]. destruct a; constructor. by inversion H.
  - intros k n I. apply In_l. rewrite <- (take_drop limit l). apply elem_of_app. by left.
  - rewrite length_take, Q. by rewrite length_map_to_list.
  - intros k n L N. apply In_l in L. rewrite <- (take_drop limit l), elem_of_app in L. destruct L as [L|L]; [done|].
    apply list.Forall_forall. intros x Ix. clear -SS L Ix. revert SS. generalize (take limit l) (drop limit l) Ix L.
    intros a b Ia Ib. induction a as [|y a IH]; [by apply not_elem_of_nil in Ia|]. simpl. intros SS.
    inversion SS as [|? ? S1 F]; subst. apply elem_of_cons in Ia as [->|Ia]; [|by apply IH].
    rewrite list.Forall_forall in F. specialize (F (k, n)). unfold rel, le in F. simpl in F. apply Z.leb_le, F.
    apply elem_of_app. by right.
Qed.
End tracker.
End Tracker.

(** ** Timing of queries ([query_profiler.rs]) *)

Module Profiler.

Definition SLOW_QUERY_THRESHOLD_MS : Z := 100.
Definition CRITICAL_QUERY_THRESHOLD_MS : Z := 1000.

(** The duration is in nanoseconds. *)
Record QueryProfile := {
  qp_query_name : string;
  qp_duration : Z;
  qp_success : bool;
  qp_row_count : option Z;
}.

Definition to_millis (d : Z) : Z := d / 1000000.
Definition is_slow (p : QueryProfile) : bool := SLOW_QUERY_THRESHOLD_MS <? to_millis (qp_duration p).
Definition is_critical (p : QueryProfile) : bool := CRITICAL_QUERY_THRESHOLD_MS <? to_millis (qp_duration p).

Inductive Severity := LDebug | LInfo | LWarn | LError.
Record LogLine := { ll_level : Severity; ll_text : string }.

Definition log_query_profile (p : QueryProfile) : LogLine :=
  if negb (qp_success p) then {| ll_level := LError; ll_text := "Query failed" |}
  else if is_critical p then {| ll_level := LError; ll_text := "CRITICAL: Query extremely slow (>1000ms)" |}
  else if is_slow p then {| ll_level := LWarn; ll_text := "SLOW QUERY: Query exceeded threshold (>100ms)" |}
  else {| ll_level := LDebug; ll_text := "Query completed" |}.

(** The result is handed through; [elapsed] is what the clock measured around the query. *)
Definition profile_query {E A} (name : string) (elapsed : Z) (result : res E A) : res E A * LogLine :=
  (result, log_query_profile {| qp_query_name := name; qp_duration := elapsed; qp_success := is_ok result;
                                qp_row_count := None |}).

Definition profile_query_with_count {E A} (name : string) (elapsed : Z) (extract_count : A -> Z) (result : res E A)
    : res E A * LogLine :=
  (result, log_query_profile {| qp_query_name := name; qp_duration := elapsed; qp_success := is_ok result;
                                qp_row_count := match result with Ok a => Some (extract_count a) | Err _ => None end |}).

Record QueryBatcher := { qb_profiles : list QueryProfile; qb_batch_name : string; qb_start_time : Z }.

Definition batcher_new (name : string) (now : Z) : QueryBatcher :=
  {| qb_profiles := []; qb_batch_name := name; qb_start_time := now |}.
Definition record_profile (p : QueryProfile) (b : QueryBatcher) : QueryBatcher :=
  {| qb_profiles := qb_profiles b ++ [p]; qb_batch_name := qb_batch_name b; qb_start_time := qb_start_time b |}.

Definition batch_profile {E A} (name : string) (elapsed : Z) (result : res E A) (b : QueryBatcher)
    : res E A * QueryBatcher :=
  (result, record_profile {| qp_query_name := name; qp_duration := elapsed; qp_success := is_ok result;
                             qp_row_count := None |} b).

(** The line, with the numbers of queries, of slow and of failed ones. *)
Definition finish (b : QueryBatcher) : LogLine * (nat * nat * nat) :=
  let total := length (qb_profiles b) in
  let slow := length (List.filter is_slow (qb_profiles b)) in
  let failed := length (List.filter (fun p => negb (qp_success p)) (qb_profiles b)) in
  ((if (0 <? failed)%nat then {| ll_level := LWarn; ll_text := "Query batch completed with failures" |}
    else if (0 <? slow)%nat then {| ll_level := LWarn; ll_text := "Query batch completed with slow queries" |}
    else {| ll_level := LInfo; ll_text := "Query batch completed successfully" |}), (total, slow, failed)).

(** [QueryTimer::stop]. *)
Definition timer_stop (elapsed : Z) : Z * LogLine :=
  (elapsed,
   if CRITICAL_QUERY_THRESHOLD_MS <? to_millis elapsed
   then {| ll_level := LError; ll_text := "CRITICAL: Operation extremely slow" |}
   else if SLOW_QUERY_THRESHOLD_MS <? to_millis elapsed
   then {| ll_level := LWarn; ll_text := "SLOW: Operation exceeded threshold" |}
   else {| ll_level := LDebug; ll_text := "Operation completed" |}).

(** Profiling never changes a result; a failure is always an error in the log, and a success is one
    exactly from 1001 milliseconds on, a warning from 101 on. *)
Theorem profiling_transparent {E A} name d (r : res E A) : 0 <= d ->
  (profile_query name d r).1 = r
  /\ ll_level (profile_query name d r).2
     = match r with
       | Err _ => LError
       | Ok _ => if 1001000000 <=? d then LError else if 101000000 <=? d then LWarn else LDebug
       end.
Proof.
  intros Hd. split; [done|]. unfold profile_query, log_query_profile, is_critical, is_slow, to_millis,
    SLOW_QUERY_THRESHOLD_MS, CRITICAL_QUERY_THRESHOLD_MS. simpl.
  destruct r as [a|e]; simpl; [|done].
  assert (K : forall k, 0 <= k -> (k <? d / 1000000) = ((k + 1) * 1000000 <=? d)).
  { intros k Hk. destruct (Z.leb_spec ((k + 1) * 1000000) d) as [H|H].
    - apply Z.ltb_lt. assert (k + 1 <= d / 1000000) by (apply Z.div_le_lower_bound; lia). lia.
    - apply Z.ltb_ge. assert (d / 1000000 < k + 1) by (apply Z.div_lt_upper_bound; lia). lia. }
  rewrite !K by lia. replace ((1000 + 1) * 1000000) with 1001000000 by lia.
  replace ((100 + 1) * 1000000) with 101000000 by lia.
  destruct (1001000000 <=? d); [done|]. by destruct (101000000 <=? d).
Qed.

Definition record_all (l : list (string * Z * bool)) (b : QueryBatcher) : QueryBatcher :=
  foldl (fun b x => (batch_profile (A := unit) (E := unit) x.1.1 x.1.2 (if x.2 : bool then Ok tt else Err tt) b).2) b l.

Lemma record_all_profiles l b : qb_profiles (record_all l b)
  = qb_profiles b ++ ((fun x => {| qp_query_name := x.1.1; qp_duration := x.1.2; qp_success := x.2;
                                   qp_row_count := None |}) <$> l).
Proof.
  revert b. induction l as [|x l IH]; intros b; simpl; [by rewrite app_nil_r|].
  unfold record_all in *. simpl. rewrite IH. simpl. rewrite <- app_assoc. simpl. by destruct x as [[? ?] []].
Qed.

(** A batch is reported as failed exactly when one of its queries failed, whatever came after. *)
Theorem batch_reports_failures name now l :
  ll_text (finish (record_all l (batcher_new name now))).1 = "Query batch completed with failures"
  <-> Exists (fun x : string * Z * bool => x.2 = false) l.
Proof.
  unfold finish. rewrite record_all_profiles. simpl. rewrite list.Exists_exists.
  set (f := List.filter _ (_ <$> l)).
  assert (M : (exists x, x ∈ l /\ x.2 = false) <-> f <> []).
  { unfold f. split.
    - intros (x & I & E) N.
      assert (X : In {| qp_query_name := x.1.1; qp_duration := x.1.2; qp_success := x.2; qp_row_count := None |} f).
      { apply List.filter_In. split; [|simpl; by rewrite E]. apply list_elem_of_In, list_elem_of_fmap. by exists x. }
      unfold f in X. by rewrite N in X.
    - intros N. destruct (List.filter _ _) as [|p q] eqn:Q; [done|].
      assert (X : In p (p :: q)) by by left. rewrite <- Q in X. apply List.filter_In in X as [X1 X2].
      apply list_elem_of_In, list_elem_of_fmap in X1 as (x & -> & I). exists x. split; [done|].
      simpl in X2. by apply negb_true_iff in X2. }
  rewrite M. destruct f as [|p f]; simpl; [|split; [done|done]].
  split; [|done]. by destruct (0 <? _)%nat.
Qed.
End Profiler.

(** ** Pending transactions ([transaction/metrics.rs]) *)

Module Pending.
Section pending.

(** [PENDING_TX_COUNTS], keyed by the text of the type; the counts are [i64]. *)
Abbreviation Counts := (gmap string Z).

Definition record_submission (k : string) (m : Counts) : Counts := <[k := default 0 (m !! k) + 1]> m.

(** Both outcomes do the same. *)
Definition decrement (k : string) (m : Counts) : Counts :=
  match m !! k with
  | Some n => if 0 <? n then <[k := n - 1]> m else m
  | None => m
  end.
Definition record_confirmation (k : string) (duration_seconds : Z) : Counts -> Counts := decrement k.
Definition record_failure (k error_type : string) : Counts -> Counts := decrement k.
Definition record_retry (k : string) (m : Counts) : Counts := m.

Definition get_pending_stats (m : Counts) : Counts := m.

Inductive MetricCall := MSubmit (k : string) | MConfirm (k : string) (d : Z) | MFail (k e : string) | MRetry (k : string).
Definition metric_step (m : Counts) (c : MetricCall) : Counts :=
  match c with
  | MSubmit k => record_submission k m
  | MConfirm k d => record_confirmation k d m
  | MFail k e => record_failure k e m
  | MRetry k => record_retry k m
  end.
Definition metric_run (l : list MetricCall) : Counts := foldl metric_step ∅ l.

Definition submitted (k : string) (l : list MetricCall) : nat :=
  length (List.filter (fun c => match c with MSubmit k' => (k =? k')%string | _ => false end) l).
Definition ended (k : string) (l : list MetricCall) : nat :=
  length (List.filter (fun c => match c with MConfirm k' _ | MFail k' _ => (k =? k')%string | _ => false end) l).

Lemma submitted_snoc k l c : submitted k (l ++ [c])
  = (submitted k l + match c with MSubmit k' => if (k =? k')%string then 1 else 0 | _ => 0 end)%nat.
Proof.
  unfold submitted. rewrite List.filter_app, length_app. f_equal. simpl.
  destruct c; simpl; try done. by destruct (_ =? _)%string.
Qed.
Lemma ended_snoc k l c : ended k (l ++ [c])
  = (ended k l + match c with MConfirm k' _ | MFail k' _ => if (k =? k')%string then 1 else 0 | _ => 0 end)%nat.
Proof.
  unfold ended. rewrite List.filter_app, length_app. f_equal. simpl.
  destruct c; simpl; try done; by destruct (_ =? _)%string.
Qed.

Lemma decrement_lookup k k' m : default 0 (decrement k m !! k')
  = if (k' =? k)%string && (0 <? default 0 (m !! k)) then default 0 (m !! k) - 1 else default 0 (m !! k').
Proof.
  unfold decrement. destruct (m !! k) as [n|] eqn:L; simpl; [|by rewrite andb_false_r].
  destruct (0 <? n) eqn:P; [|by rewrite andb_false_r]. rewrite andb_true_r.
  destruct (String.eqb_spec k' k) as [->|N]; [by rewrite lookup_insert_eq|by rewrite lookup_insert_ne].
Qed.

(** A count is never negative nor above the submissions, and never below what is open; it is
    exactly that as long as nothing ended before it was submitted. *)
Theorem pending_bounds k l :
  let n := default 0 (metric_run l !! k) in
  0 <= n <= Z.of_nat (submitted k l) /\ Z.of_nat (submitted k l) - Z.of_nat (ended k l) <= n
  /\ ((forall l1 l2, l = l1 ++ l2 -> (ended k l1 <= submitted k l1)%nat) ->
      n = Z.of_nat (submitted k l) - Z.of_nat (ended k l)).
Proof.
  cbv zeta. induction l as [|c l IH] using rev_ind.
  { unfold metric_run. cbn [foldl]. rewrite lookup_empty. simpl. split_and!; try lia; done. }
  rewrite submitted_snoc, ended_snoc. unfold metric_run. rewrite foldl_app. fold (metric_run l). simpl.
  destruct IH as (I1 & I2 & I3).
  assert (Pre : (forall l1 l2, l ++ [c] = l1 ++ l2 -> (ended k l1 <= submitted k l1)%nat) ->
     default 0 (metric_run l !! k) = Z.of_nat (submitted k l) - Z.of_nat (ended k l)
     /\ (ended k (l ++ [c]) <= submitted k (l ++ [c]))%nat).
  { intros H. split; [|apply (H _ []); by rewrite app_nil_r].
    apply I3. intros l1 l2 ->. apply (H l1 (l2 ++ [c])). by rewrite app_assoc. }
  rewrite ended_snoc, submitted_snoc in Pre.
  assert (Dec : forall k', default 0 (decrement k' (metric_run l) !! k)
     = if (k =? k')%string then Z.max 0 (default 0 (metric_run l !! k) - 1) else default 0 (metric_run l !! k)).
  { intros k'. rewrite decrement_lookup. destruct (String.eqb_spec k k') as [<-|N]; [|done]. simpl.
    destruct (Z.ltb_spec 0 (default 0 (metric_run l !! k))); lia. }
  destruct c as [k'|k' d|k' e|k']; simpl in *.
  - unfold record_submission. destruct (String.eqb_spec k k') as [<-|N].
    + rewrite lookup_insert_eq. simpl. split_and!; try lia. intros H. destruct (Pre H) as [-> _]. lia.
    + rewrite lookup_insert_ne by congruence. split_and!; try lia. intros H. destruct (Pre H) as [-> _]. lia.
  - unfold record_confirmation. rewrite Dec. destruct (k =? k')%string; split_and!; try lia;
      intros H; destruct (Pre H) as [-> ?]; lia.
  - unfold record_failure. rewrite Dec. destruct (k =? k')%string; split_and!; try lia;
      intros H; destruct (Pre H) as [-> ?]; lia.
  - unfold record_retry. split_and!; try lia. intros H. destruct (Pre H) as [-> ?]. lia.
Qed.
End pending.
End Pending.

(** ** Health ([health_check/]) *)

Module Health.

Inductive HealthCheckStatus := Healthy | Degraded | Unhealthy | Unknown.
#[global] Instance HealthCheckStatus_eq_dec : EqDecision HealthCheckStatus.
Proof. solve_decision. Defined.

Record DependencyHealth := {
  dh_name : string;
  dh_status : HealthCheckStatus;
  dh_error_message : option string;
  dh_details : option string;
}.

Definition check_database (answer : res string unit) : DependencyHealth :=
  match answer with
  | Ok _ => {| dh_name := "PostgreSQL"; dh_status := Healthy; dh_error_message := None;
               dh_details := Some "Database connection successful" |}
  | Err e => {| dh_name := "PostgreSQL"; dh_status := Unhealthy; dh_error_message := Some e; dh_details := None |}
  end.

(** The connection, then a GET. *)
Definition check_redis (answer : res string (res string unit)) : DependencyHealth :=
  match answer with
  | Ok (Ok _) => {| dh_name := "Redis"; dh_status := Healthy; dh_error_message := None;
                    dh_details := Some "Redis connection successful" |}
  | Ok (Err e) => {| dh_name := "Redis"; dh_status := Unhealthy; dh_error_message := Some e; dh_details := None |}
  | Err e => {| dh_name := "Redis"; dh_status := Unhealthy; dh_error_message := Some e; dh_details := None |}
  end.

(** Making the client, the request, and whether its status is a success, with the text of the status. *)
Definition check_blockchain (answer : res string (res string (bool * string))) : DependencyHealth :=
  match answer with
  | Ok (Ok (true, _)) => {| dh_name := "Solana RPC"; dh_status := Healthy; dh_error_message := None;
                            dh_details := Some "RPC endpoint responding" |}
  | Ok (Ok (false, s)) => {| dh_name := "Solana RPC"; dh_status := Degraded;
                             dh_error_message := Some ("HTTP " +:+ s); dh_details := None |}
  | Ok (Err e) => {| dh_name := "Solana RPC"; dh_status := Unhealthy; dh_error_message := Some e; dh_details := None |}
  | Err e => {| dh_name := "Solana RPC"; dh_status := Unhealthy; dh_error_message := Some e; dh_details := None |}
  end.

Definition check_email (enabled : bool) : DependencyHealth :=
  if enabled
  then {| dh_name := "Email Service"; dh_status := Healthy; dh_error_message := None;
          dh_details := Some "Email service is configured and enabled" |}
  else {| dh_name := "Email Service"; dh_status := Degraded;
          dh_error_message := Some "Email service is NOT configured"; dh_details := None |}.

Definition overall_status (dependencies : list DependencyHealth) : string :=
  if forallb (fun d => bool_decide (dh_status d = Healthy)) dependencies then "healthy"
  else if existsb (fun d => bool_decide (dh_status d = Unhealthy)) dependencies then "unhealthy"
  else "degraded".

(** The status and the dependencies; the result is also what [get_cached_health] returns until the
    next check. *)
Definition perform_health_check (db : res string unit) (redis : res string (res string unit))
    (chain : res string (res string (bool * string))) (email : bool) : string * list DependencyHealth :=
  let dependencies := [check_database db; check_redis redis; check_blockchain chain; check_email email] in
  (overall_status dependencies, dependencies).

(** The system is healthy exactly when everything answers and mail is configured, and unhealthy
    exactly when a dependency cannot be reached: a chain node that answers with an error, and
    missing mail, degrade it. *)
Theorem health_exact db redis chain email :
  ((perform_health_check db redis chain email).1 = "healthy" <->
     is_ok db = true /\ (exists a, redis = Ok (Ok a)) /\ (exists s, chain = Ok (Ok (true, s))) /\ email = true)
  /\ ((perform_health_check db redis chain email).1 = "unhealthy" <->
     is_ok db = false \/ (forall a, redis <> Ok (Ok a)) \/ (forall a, chain <> Ok (Ok a))).
Proof.
  destruct db as [[]|e1], redis as [[[]|e2]|e2], chain as [[[[] s]|e3]|e3], email; simpl;
    (split; split; intros H; try done; try (left; done); try (right; left; intros ?; done);
     try (right; right; intros ?; done);
     try (split_and!; try done; eexists; done);
     try (destruct H as (H1 & (a & H2) & (s' & H3) & H4); done);
     try (destruct H as [H|[H|H]]; [done|exfalso; by eapply H|exfalso; by eapply H])).
Qed.
End Health.

(** ** Secrets ([secrets.rs]) *)

Module Secrets.
Section secrets.
Context `{CC : CharClass}.

(** The environment. *)
Context (env : string -> option string).

Definition critical_secrets : list (string * nat * bool) :=
  [("JWT_SECRET", 32%nat, true); ("DATABASE_URL", 10%nat, false); ("REDIS_URL", 10%nat, false)].
Definition optional_secrets : list (string * nat) := [("ENGINEERING_API_KEY", 32%nat); ("SMTP_PASSWORD", 8%nat)].
Definition weak_secret_patterns : list string :=
  ["password"; "secret"; "changeme"; "default"; "admin"; "test"; "12345"; "qwerty"; "abc123"].

Definition is_weak_secret (secret : string) : bool :=
  existsb (fun pattern => contains pattern (lowercase secret)) weak_secret_patterns.

(** What the loop pushes on [missing_secrets], [weak_secrets] and [warnings]; a length is in bytes. *)
Definition missing_secrets : list string :=
  (fun x => x.1.1) <$> List.filter (fun x => match env x.1.1 with Some v => (v =? "")%string | None => true end)
                         critical_secrets.

Definition too_short (x : string * nat * bool) : bool :=
  match env x.1.1 with
  | Some v => negb (v =? "")%string && (String.length v <? x.1.2)%nat
  | None => false
  end.
Definition weak_secrets : list string :=
  (fun x => x.1.1 +:+ " (minimum " +:+ pretty.pretty x.1.2 +:+ " characters required)")
    <$> List.filter too_short critical_secrets.

Definition weak_value (x : string * nat * bool) : bool :=
  match env x.1.1 with
  | Some v => negb (v =? "")%string && negb (String.length v <? x.1.2)%nat && x.2 && is_weak_secret v
  | None => false
  end.
Definition value_warnings : list string :=
  (fun x => x.1.1 +:+ " appears to be a weak or default value") <$> List.filter weak_value critical_secrets.

Definition optional_warnings : list string :=
  (fun x => x.1 +:+ " is shorter than recommended (" +:+ pretty.pretty x.2 +:+ " chars)")
    <$> List.filter (fun x => match env x.1 with
                              | Some v => negb (v =? "")%string && (String.length v <? x.2)%nat
                              | None => false end) optional_secrets.

Definition local_url (v : string) : bool := contains "localhost" v || contains "127.0.0.1" v.

Definition check_for_defaults : list string :=
  match env "JWT_SECRET" with
  | Some v => if (String.length v <? 64)%nat then ["JWT_SECRET should be at least 64 characters for production"] else []
  | None => []
  end
  ++ (if bool_decide (env "ENVIRONMENT" = Some "production") then
        match env "DATABASE_URL" with
        | Some v => if local_url v then ["DATABASE_URL points to localhost in production environment"] else []
        | None => []
        end
        ++ match env "REDIS_URL" with
           | Some v => if local_url v then ["REDIS_URL points to localhost in production environment"] else []
           | None => []
           end
      else []).

Definition validate_ssl_configuration : list string :=
  match env "DATABASE_URL" with
  | Some v =>
      if negb (contains "sslmode=" v)
      then ["DATABASE_URL does not specify SSL mode (add ?sslmode=require for production)"]
      else if contains "sslmode=disable" v || contains "sslmode=prefer" v
      then ["DATABASE_URL has weak SSL mode (use sslmode=require, verify-ca, or verify-full)"] else []
  | None => []
  end
  ++ match env "REDIS_URL" with
     | Some v =>
         (if negb (String.prefix "rediss://" v)
          then ["REDIS_URL does not use TLS (consider using rediss:// protocol)"] else [])
         ++ (if negb (contains "@" v) && negb (contains ":password" v)
             then ["REDIS_URL does not include authentication credentials"] else [])
     | None => []
     end.

(** The error, or the warnings that are printed and the number that is reported. *)
Definition validate_secrets : res string (list string * nat) :=
  let warnings := value_warnings ++ optional_warnings ++ check_for_defaults in
  match missing_secrets, weak_secrets with
  | (_ :: _) as l, _ => Err ("❌ Missing required secrets: " +:+ String.concat ", " l)
  | [], (_ :: _) as l => Err ("❌ Weak secrets detected: " +:+ String.concat ", " l)
  | [], [] => Ok (warnings, length (warnings ++ validate_ssl_configuration))
  end.

(** Start-up goes on exactly when every required variable has its length, however weak its value;
    what the connections lack is tallied but never printed. *)
Theorem secrets_exact :
  (is_ok validate_secrets = true <->
     Forall (fun x => exists v, env x.1.1 = Some v /\ v <> "" /\ (x.1.2 <= String.length v)%nat) critical_secrets)
  /\ forall printed n, validate_secrets = Ok (printed, n) ->
       n = (length printed + length validate_ssl_configuration)%nat
       /\ printed = value_warnings ++ optional_warnings ++ check_for_defaults.
Proof.
  split.
  - assert (K : is_ok validate_secrets = true <-> missing_secrets = [] /\ weak_secrets = []).
    { unfold validate_secrets. destruct missing_secrets; [|split; [done|by intros [? _]]].
      destruct weak_secrets; [done|split; [done|by intros [_ ?]]]. }
    rewrite K. unfold missing_secrets, weak_secrets.
    assert (F : forall (f g : string * nat * bool -> bool) (h k : string * nat * bool -> string) l,
      (h <$> List.filter f l = [] /\ k <$> List.filter g l = []) <-> Forall (fun x => f x = false /\ g x = false) l).
    { intros f g h k l. induction l as [|x l IH]; simpl; [by split|]. rewrite list.Forall_cons, <- IH.
      destruct (f x), (g x); simpl; split; intros H; try done; try (by destruct H as [? ?]);
        try (destruct H as [[? ?] ?]; done). }
    rewrite F. apply Forall_proper; [|done]. intros x. unfold too_short.
    destruct (env x.1.1) as [v|]; [|split; [by intros [? _]|by intros (v & ? & _)]].
    destruct (String.eqb_spec v "") as [->|N]; simpl.
    + split; [by intros [? _]|]. by intros (v & [= <-] & ? & _).
    + rewrite Nat.ltb_ge. split; [intros [_ H]; by exists v|]. by intros (v' & [= <-] & _ & H).
  - intros printed n. unfold validate_secrets. destruct missing_secrets; [|done]. destruct weak_secrets; [|done].
    intros [= <- <-]. split; [|done]. by rewrite length_app.
Qed.
End secrets.
End Secrets.

(** ** Signatures of readings ([signature.rs]) *)

Module Signatures.

Record MeterReadingMessage := {
  mr_meter_serial : string;
  mr_timestamp : string;
  mr_kwh_amount : string;
  mr_wallet : string;
}.

Definition line_feed : Ascii.ascii := Ascii.ascii_of_N 10.

(** The text of an amount with six decimals. *)
Definition message_new `{DateText} (kwh_text : Decimal -> string) (meter_serial : string) (timestamp : DateTime)
    (kwh_amount : Decimal) (wallet : string) : MeterReadingMessage :=
  {| mr_meter_serial := meter_serial; mr_timestamp := to_rfc3339 timestamp; mr_kwh_amount := kwh_text kwh_amount;
     mr_wallet := wallet |}.

Definition to_canonical_string (m : MeterReadingMessage) : string :=
  "GRIDTOKENX_METER_READING" +:+ String line_feed ("meter_serial: " +:+ mr_meter_serial m
    +:+ String line_feed ("timestamp: " +:+ mr_timestamp m
    +:+ String line_feed ("kwh_amount: " +:+ mr_kwh_amount m
    +:+ String line_feed ("wallet: " +:+ mr_wallet m)))).

Definition to_bytes (m : MeterReadingMessage) : list byte := list_byte_of_string (to_canonical_string m).

(** [bs58], and Ed25519 of 32-byte keys and 64-byte signatures. *)
Class Ed25519 := {
  base58_decode : string -> res string (list byte);
  valid_key : list byte -> option string;
  ed_verify : list byte -> list byte -> list byte -> bool;
}.

Section verify.
Context `{ED : Ed25519}.

Definition decode_exactly (what : string) (n : nat) (text : string) : res string (list byte) :=
  match base58_decode text with
  | Err e => Err ("Invalid " +:+ what +:+ " base58: " +:+ e)
  | Ok b => if (length b =? n)%nat then Ok b
            else Err ("Invalid " +:+ what +:+ " length: expected " +:+ pretty.pretty n +:+ " bytes, got "
                      +:+ pretty.pretty (length b))
  end.

(** [valid_key]: the error of a point that is no key. *)
Definition verify_signature (public_key_base58 signature_base58 : string) (m : MeterReadingMessage)
    : res string bool :=
  match decode_exactly "public key" 32 public_key_base58 with
  | Err e => Err e
  | Ok key =>
      match valid_key key with
      | Some e => Err ("Invalid public key: " +:+ e)
      | None =>
          match decode_exactly "signature" 64 signature_base58 with
          | Err e => Err e
          | Ok sig => Ok (ed_verify key (to_bytes m) sig)
          end
      end
  end.

(** A signature is accepted exactly when key and signature decode to their lengths and verify. *)
Theorem verify_exact key sig m : verify_signature key sig m = Ok true <->
  exists k s, base58_decode key = Ok k /\ length k = 32%nat /\ valid_key k = None
    /\ base58_decode sig = Ok s /\ length s = 64%nat /\ ed_verify k (to_bytes m) s = true.
Proof.
  unfold verify_signature, decode_exactly. split.
  - destruct (base58_decode key) as [k|]; [|done]. destruct (Nat.eqb_spec (length k) 32); [|done].
    destruct (valid_key k) eqn:V; [done|]. destruct (base58_decode sig) as [s|]; [|done].
    destruct (Nat.eqb_spec (length s) 64); [|done]. intros [= E]. by exists k, s.
  - intros (k & s & -> & Lk & V & -> & Ls & E). rewrite Lk. simpl. rewrite V, Ls. simpl. by rewrite E.
Qed.
End verify.

Fixpoint one_line (s : string) : bool :=
  match s with EmptyString => true | String c s => negb (Ascii.eqb c line_feed) && one_line s end.

Lemma line_split x y u v : one_line x = true -> one_line y = true ->
  x +:+ String line_feed u = y +:+ String line_feed v -> x = y /\ u = v.
Proof.
  revert y. induction x as [|c x IH]; intros [|d y]; simpl; intros Hx Hy E.
  - by injection E as ->.
  - injection E as <- E. by rewrite Ascii.eqb_refl in Hy.
  - injection E as -> E. by rewrite Ascii.eqb_refl in Hx.
  - apply andb_prop in Hx as [_ Hx], Hy as [_ Hy]. injection E as -> E. by destruct (IH y Hx Hy E) as [-> ->].
Qed.

Lemma text_cancel p x y : p +:+ x = p +:+ y -> x = y.
Proof. induction p as [|c p IH]; simpl; [done|]. intros [= E]. by apply IH. Qed.

Definition single_lines (m : MeterReadingMessage) : Prop :=
  one_line (mr_meter_serial m) = true /\ one_line (mr_timestamp m) = true /\ one_line (mr_kwh_amount m) = true.

(** The text that is signed determines the message, if none of its first three fields has a line
    break in it. *)
Theorem canonical_injective m m' : single_lines m -> single_lines m' -> to_canonical_string m = to_canonical_string m' -> m = m'.
Proof.
  intros (A1 & A2 & A3) (B1 & B2 & B3) E. unfold to_canonical_string in E. apply text_cancel in E.
  injection E as E. apply text_cancel in E. apply line_split in E as [E1 E]; [|done..].
  apply text_cancel in E. apply line_split in E as [E2 E]; [|done..].
  apply text_cancel in E. apply line_split in E as [E3 E]; [|done..]. apply text_cancel in E.
  destruct m, m'. simpl in *. congruence.
Qed.

(** With one, a signature made for one message is a signature of another. *)
Theorem canonical_ambiguous : exists m m', m <> m' /\ mr_timestamp m <> mr_timestamp m'
  /\ forall (ED : Ed25519) key sig, verify_signature key sig m = verify_signature key sig m'.
Proof.
  exists {| mr_meter_serial := "A" +:+ String line_feed "timestamp: T"; mr_timestamp := "U"; mr_kwh_amount := "1";
            mr_wallet := "W" |},
         {| mr_meter_serial := "A"; mr_timestamp := "T" +:+ String line_feed "timestamp: U"; mr_kwh_amount := "1";
            mr_wallet := "W" |}.
  split; [done|]. split; [done|]. intros ED key sig. reflexivity.
Qed.
End Signatures.

(** ** The origin of a request ([request_info.rs]) *)

Module RequestInfo.

(** The first value of a header, if it is a text. *)
Record Headers := { h_forwarded_for : option string; h_real_ip : option string; h_user_agent : option string }.

Definition comma : Ascii.ascii := Ascii.ascii_of_N 44.

Fixpoint until_comma (s : string) : string :=
  match s with
  | EmptyString => ""
  | String c s => if Ascii.eqb c comma then "" else String c (until_comma s)
  end.

(** [trim] on the text of a header: spaces and tabs. *)
Definition blank (c : Ascii.ascii) : bool := Ascii.eqb c (Ascii.ascii_of_N 32) || Ascii.eqb c (Ascii.ascii_of_N 9).
Fixpoint trim_start (s : string) : string :=
  match s with String c s' => if blank c then trim_start s' else s | EmptyString => "" end.
Fixpoint trim_end (s : string) : string :=
  match s with
  | EmptyString => ""
  | String c s => match trim_end s with
                  | EmptyString => if blank c then "" else String c ""
                  | s' => String c s'
                  end
  end.
Definition trim (s : string) : string := trim_end (trim_start s).

Definition extract_ip_address (h : Headers) : string :=
  let forwarded := match h_forwarded_for h with Some v => trim (until_comma v) | None => "" end in
  if negb (forwarded =? "")%string then forwarded
  else match h_real_ip h with
       | Some v => if negb (v =? "")%string then v else "127.0.0.1"
       | None => "127.0.0.1"
       end.

Definition extract_user_agent (h : Headers) : option string := h_user_agent h.

Fixpoint no_char (p : Ascii.ascii -> bool) (s : string) : bool :=
  match s with EmptyString => true | String c s => negb (p c) && no_char p s end.

Lemma until_comma_app x y : no_char (Ascii.eqb comma) x = true -> until_comma (x +:+ String comma y) = x.
Proof.
  induction x as [|c x IH]; [done|].
  change (String c x +:+ String comma y) with (String c (x +:+ String comma y)). cbn [no_char until_comma].
  intros [H1 H2]%andb_prop. rewrite Ascii.eqb_sym. apply negb_true_iff in H1. by rewrite H1, IH.
Qed.

Lemma trim_plain x : no_char blank x = true -> trim x = x.
Proof.
  intros H. unfold trim. assert (S : trim_start x = x).
  { destruct x as [|c x]; [done|]. cbn [no_char trim_start] in *. apply andb_prop in H as [H _].
    apply negb_true_iff in H. by rewrite H. }
  rewrite S. clear S. induction x as [|c x IH]; cbn [no_char trim_end] in *; [done|]. apply andb_prop in H as [H1 H2].
  apply negb_true_iff in H1. rewrite (IH H2). destruct x; [by rewrite H1|done].
Qed.

(** The address that is recorded is the first one of the header, which the client chooses: the
    proxies that forwarded the request only add theirs after it. *)
Theorem client_chooses_address x y real agent : x <> "" -> no_char blank x = true -> no_char (Ascii.eqb comma) x = true ->
  extract_ip_address {| h_forwarded_for := Some (x +:+ String comma y); h_real_ip := real; h_user_agent := agent |} = x.
Proof.
  intros N B C. unfold extract_ip_address. simpl. rewrite until_comma_app, trim_plain by done.
  by apply String.eqb_neq in N as ->.
Qed.

(** Some address is always recorded. *)
Theorem address_never_empty h : extract_ip_address h <> "".
Proof.
  unfold extract_ip_address. destruct (negb _) eqn:E; [by apply negb_true_iff, String.eqb_neq in E|].
  destruct (h_real_ip h) as [v|]; [|done]. destruct (negb (v =? "")%string) eqn:E'; [|done].
  by apply negb_true_iff, String.eqb_neq in E'.
Qed.
End RequestInfo.

(** ** Errors of a JSON body ([json_validation.rs]) *)

Module JsonErrors.

Inductive Method := GET | DELETE | OtherMethod (name : string).

Definition drop_text (n : nat) (s : string) : string := String.substring n (String.length s - n) s.

(** What stands between [pattern] and the next backtick. *)
Definition quoted_after (pattern s : string) : option string :=
  match String.index 0 pattern s with
  | Some i =>
      let rest := drop_text (i + String.length pattern) s in
      match String.index 0 "`" rest with
      | Some n => Some (String.substring 0 n rest)
      | None => None
      end
  | None => None
  end.

Definition extract_field_name (error_msg : string) : option string := quoted_after "unknown field `" error_msg.
Definition extract_missing_field (error_msg : string) : option string := quoted_after "missing field `" error_msg.

(** By the text of the error. *)
Definition handle_json_error (error_str : string) : ApiError :=
  if contains "unknown field" error_str then
    match extract_field_name error_str with
    | Some field =>
        if (field =? "role")%string
        then with_details Code.InvalidInput "Role cannot be specified during registration"
               "All users are assigned to 'user' role by default. Role assignment is handled by administrators."
        else with_code Code.InvalidInput "Invalid input provided"
    | None => with_code Code.InvalidInput "Unknown field in request. Please check the API documentation."
    end
  else if contains "missing field" error_str then
    match extract_missing_field error_str with
    | Some field => validation_field field ("Required field '" +:+ field +:+ "' is missing")
    | None => with_code Code.MissingRequiredField "Required field is missing"
    end
  else if contains "invalid type" error_str then with_code Code.InvalidFormat "Invalid data format provided"
  else if contains "expected" error_str && contains "at line" error_str
  then with_code Code.InvalidInput "Invalid JSON structure"
  else with_code Code.InvalidFormat "Invalid JSON format in request body".

Section middleware.
(** [serde_json::from_slice::<Value>]: the text of the error, if the bytes are no JSON. *)
Context (json_error : list byte -> option string).

(** [content_type]: the header, if it is a text; [body]: [None] when reading it fails.  The value is
    the body that is handed on. *)
Definition json_validation_middleware (content_type : option string) (method : Method) (body : option (list byte))
    : res ApiError (option (list byte)) :=
  let is_json := match content_type with Some t => contains "application/json" t | None => false end in
  if negb is_json || match method with GET | DELETE => true | _ => false end then Ok body
  else match body with
       | None => Err (with_code Code.InvalidInput "Invalid request body format")
       | Some bytes =>
           match json_error bytes with
           | None => Ok (Some bytes)
           | Some e => Err (handle_json_error e)
           end
       end.

(** The middleware never changes a body, and stops only one that claims to be JSON and is not. *)
Theorem json_middleware_exact content_type name bytes r :
  json_validation_middleware content_type (OtherMethod name) (Some bytes) = r ->
  match r with
  | Ok b => b = Some bytes
      /\ ((forall t, content_type = Some t -> contains "application/json" t = false) \/ json_error bytes = None)
  | Err e => exists t m, content_type = Some t /\ contains "application/json" t = true
      /\ json_error bytes = Some m /\ e = handle_json_error m
  end.
Proof.
  unfold json_validation_middleware. rewrite orb_false_r.
  destruct content_type as [t|]; simpl; [|intros <-; split; [done|left; by intros t]].
  destruct (contains "application/json" t) eqn:C; simpl.
  - destruct (json_error bytes) as [m|] eqn:J; intros <-; [by exists t, m|]. split; [done|by right].
  - intros <-. split; [done|]. left. by intros t' [= <-].
Qed.

(** Any JSON is a [Value], so that its errors are about syntax: the answers that name a field, the
    hint about the role among them, are never given. *)
Theorem field_hints_dead content_type method body e :
  (forall b m, json_error b = Some m -> contains "unknown field" m = false /\ contains "missing field" m = false) ->
  json_validation_middleware content_type method body = Err e ->
  e = with_code Code.InvalidInput "Invalid request body format"
  \/ e = with_code Code.InvalidFormat "Invalid data format provided"
  \/ e = with_code Code.InvalidInput "Invalid JSON structure"
  \/ e = with_code Code.InvalidFormat "Invalid JSON format in request body".
Proof.
  intros S. unfold json_validation_middleware. destruct (_ || _); [done|]. destruct body as [b|]; [|intros [= <-]; auto].
  destruct (json_error b) as [m|] eqn:J; [|done]. destruct (S b m J) as [S1 S2]. intros [= <-].
  unfold handle_json_error. rewrite S1, S2. destruct (contains "invalid type" m); [auto|].
  destruct (contains "expected" m && contains "at line" m); auto.
Qed.
End middleware.

Definition backtick : Ascii.ascii := Ascii.ascii_of_N 96.

Lemma index_quote f rest : RequestInfo.no_char (Ascii.eqb backtick) f = true ->
  String.index 0 "`" (f +:+ String backtick rest) = Some (String.length f).
Proof.
  induction f as [|c f IH]; intros H.
  - simpl. by destruct rest.
  - change (String c f +:+ String backtick rest) with (String c (f +:+ String backtick rest)).
    cbn [RequestInfo.no_char] in H. apply andb_prop in H as [H1 H2]. apply negb_true_iff in H1.
    change (String.index 0 "`" (String c (f +:+ String backtick rest)))
      with (if String.prefix "`" (String c (f +:+ String backtick rest)) then Some 0%nat
            else match String.index 0 "`" (f +:+ String backtick rest) with Some n => Some (S n) | None => None end).
    replace (String.prefix "`" (String c (f +:+ String backtick rest))) with false.
    + by rewrite (IH H2).
    + symmetry. cbn [String.prefix]. match goal with |- context [if ?d then _ else _] => destruct d as [E|E]; [|done] end.
      exfalso. subst c. by rewrite Ascii.eqb_refl in H1.
Qed.

Lemma substring_text f rest : String.substring 0 (String.length f) (f +:+ rest) = f.
Proof.
  induction f as [|c f IH]; [by destruct rest|].
  change (String c f +:+ rest) with (String c (f +:+ rest)). simpl. by rewrite IH.
Qed.

(** The field is read back from the error that names it. *)
Theorem field_named f rest : RequestInfo.no_char (Ascii.eqb backtick) f = true ->
  extract_field_name ("unknown field `" +:+ f +:+ String backtick rest) = Some f
  /\ extract_missing_field ("missing field `" +:+ f +:+ String backtick rest) = Some f.
Proof.
  intros H. unfold extract_field_name, extract_missing_field, quoted_after, drop_text.
  assert (K : forall p u, String.substring (String.length p) (String.length (p +:+ u) - String.length p) (p +:+ u) = u).
  { intros p u. induction p as [|c p IH].
    - change ("" +:+ u) with u. rewrite Nat.sub_0_r. cbn [String.length].
      induction u as [|c u IH]; simpl; [done|by rewrite IH].
    - exact IH. }
  assert (P : forall p u, p <> "" -> String.index 0 p (p +:+ u) = Some 0%nat).
  { intros p u N. destruct p as [|c p]; [done|]. change (String c p +:+ u) with (String c (p +:+ u)).
    cbn [String.index]. replace (String.prefix (String c p) (String c (p +:+ u))) with true; [done|]. symmetry.
    change (String c (p +:+ u)) with (String c p +:+ u). generalize (String c p) as q. clear.
    induction q as [|c q IH]; [by destruct u|]. change (String c q +:+ u) with (String c (q +:+ u)).
    cbn [String.prefix]. by destruct (Ascii.ascii_dec c c). }
  split; rewrite P by done; rewrite Nat.add_0_l, K, index_quote by done; by rewrite substring_text.
Qed.
End JsonErrors.

(** ** Witnesses *)

Section witnesses.

Lemma tracker_counts_witness : Tracker.total_errors (Tracker.tracker_run 5 [Tracker.TReset]) = 0.
Proof. apply (Tracker.tracker_counts 5 [Tracker.TReset]). vm_compute. discriminate. Defined.

Lemma profiling_transparent_witness :
  Profiler.ll_level (Profiler.profile_query (E := unit) "q" 150000000 (Ok 1)).2 = Profiler.LWarn.
Proof. apply (Profiler.profiling_transparent "q" 150000000 (Ok 1 : res unit Z)). lia. Defined.

Lemma canonical_injective_witness :
  forall w, Signatures.to_canonical_string {| Signatures.mr_meter_serial := "A"; Signatures.mr_timestamp := "T";
     Signatures.mr_kwh_amount := "1"; Signatures.mr_wallet := w |}
   = Signatures.to_canonical_string {| Signatures.mr_meter_serial := "A"; Signatures.mr_timestamp := "T";
     Signatures.mr_kwh_amount := "1"; Signatures.mr_wallet := "W" |} -> w = "W".
Proof.
  intros w H. apply Signatures.canonical_injective in H; [by injection H|repeat split|repeat split].
Defined.

Lemma client_chooses_address_witness :
  RequestInfo.extract_ip_address {| RequestInfo.h_forwarded_for := Some "6.6.6.6, 203.0.113.1";
     RequestInfo.h_real_ip := None; RequestInfo.h_user_agent := None |} = "6.6.6.6".
Proof. exact (RequestInfo.client_chooses_address "6.6.6.6" " 203.0.113.1" None None ltac:(discriminate) eq_refl eq_refl). Defined.

Lemma field_named_witness : JsonErrors.extract_field_name "unknown field `role`, expected" = Some "role".
Proof. exact (proj1 (JsonErrors.field_named "role" ", expected" eq_refl)). Defined.
End witnesses.
