(* ===== verification/Analytics.v ===== *)
(** The statistics of the market, of a trader and of the zones.

    [src/handlers/analytics/types.rs], [market.rs], [user.rs], [zones.rs] and [admin.rs], over the
    tables of [Schema] with the names and roles of the users, the meters, and the view
    [blockchain_operations] of [Operations].  Sums of columns and of products of two columns are
    exact, as the server computes them; averages, the deviation and the order in which rows of an
    unordered query come are interfaces.  The current time is an argument. *)
From stdpp Require Import pretty.
From S2P Require Import Prelude Numerics Floats Errors Store Schema Escrow Orders Telemetry Readings Triggers Pagination Minting OrderQueries Carbon Operations.
Open Scope string_scope.
Open Scope Z_scope.

(** [STDDEV] of NUMERIC values (NULL of fewer than two), as the driver reads it. *)
Class Deviation := { stddev : list Decimal -> option Decimal }.

(** The order of rows the server is not asked to sort. *)
Class Plan := {
  arrange : forall {A}, list A -> list A;
  arrange_perm {A} (l : list A) : arrange l ≡ₚ l;
}.

(** ** Tables *)

(** [an_people]: user name and role; [an_meters]: [is_verified] of every meter. *)
Record AnDb := {
  an_books : Db;
  an_people : gmap Uuid (string * string);
  an_meters : gmap Uuid (option bool);
  an_tracked : OpsDb;
}.

Abbreviation AnM := (M AnDb Event).

(** ** Timeframes and numbers ([types.rs]) *)

Definition parse_timeframe (timeframe : string) : res ApiError Z :=
  if (timeframe =? "1h")%string then Ok nanos_per_hour
  else if (timeframe =? "24h")%string || (timeframe =? "1d")%string then Ok (24 * nanos_per_hour)
  else if (timeframe =? "7d")%string then Ok (7 * (24 * nanos_per_hour))
  else if (timeframe =? "30d")%string then Ok (30 * (24 * nanos_per_hour))
  else Err (validation_field "timeframe" "Invalid timeframe. Use: 1h, 24h, 7d, or 30d").

Definition timeframe {A} (text : string) (k : Z -> AnM A) : AnM A :=
  match parse_timeframe text with
  | Ok duration => k duration
  | Err e => fail (FApi e)
  end.

Section analytics.
Context `{NUM : Numerics} `{DF : DecimalFloat} `{ND : NumericDecode} `{PA : PriceAverage} `{DV : Deviation}
  `{PL : Plan} `{DP : DecimalParse}.

Definition decimal_to_f64 (d : Decimal) : spec_float := default (f64_of_Z 0) (to_f64 d).

(** [decimal_to_f64(row.get(..))]: [get] panics when the column is NULL or cannot be read. *)
Definition get_f64 (column : option Z) : AnM spec_float :=
  d ← expect FPanic (column ≫= decode_decimal);
  mret (decimal_to_f64 d).

(** [SUM]: NULL of no values; [AVG] with [COALESCE(.., 0)]. *)
Definition sum_opt (l : list Decimal) : option Z :=
  match l with [] => None | _ => Some (sumZ (fun x => x) l) end.
Definition average_or_zero (l : list Decimal) : Decimal :=
  match l with [] => 0 | p :: l => avg p l end.

(** ** The market ([market.rs]) *)

Record MarketOverview := {
  mo_active_offers : Z;
  mo_pending_orders : Z;
  mo_completed : Z;
  mo_users_trading : Z;
  mo_avg_match_time : spec_float;
}.

Record TradingVolume := {
  tv_energy : spec_float;
  tv_value : spec_float;
  tv_transactions : Z;
  tv_avg_size : spec_float;
  tv_trend : spec_float;
}.

Record PriceStatistics := {
  ps_avg : spec_float;
  ps_lowest : spec_float;
  ps_highest : spec_float;
  ps_median : spec_float;
  ps_volatility : spec_float;
  ps_trend : spec_float;
}.

Record EnergySourceStats := {
  es_source : string;
  es_volume : spec_float;
  es_price : spec_float;
  es_count : Z;
  es_share : spec_float;
}.

Record TraderStats := {
  td_user_id : Uuid;
  td_username : string;
  td_volume : spec_float;
  td_count : Z;
  td_avg_price : spec_float;
  td_role : string;
}.

Record MarketAnalytics := {
  ma_timeframe : string;
  ma_overview : MarketOverview;
  ma_volume : TradingVolume;
  ma_prices : PriceStatistics;
  ma_sources : list EnergySourceStats;
  ma_traders : list TraderStats;
}.

Definition all_matches (d : Db) : list OrderMatch := (map_to_list (order_matches d)).*2.
Definition all_orders (d : Db) : list TradingOrderDb := (map_to_list (orders d)).*2.
Definition matched_since (start : DateTime) (m : OrderMatch) : bool := start <=? om_match_time m.
Definition matched_between (start end_ : DateTime) (m : OrderMatch) : bool :=
  (start <=? om_match_time m) && (om_match_time m <? end_).
Definition created_since (start : DateTime) (o : TradingOrderDb) : bool :=
  match o_created_at o with Some t => start <=? t | None => false end.

(** [matched_amount * match_price]: two columns of eight decimals have an exact product. *)
Definition match_value (m : OrderMatch) : Z := om_matched_amount m * om_match_price m / U.

Definition overview_of (start : DateTime) (d : Db) : MarketOverview :=
  {| mo_active_offers := Z.of_nat (length (List.filter (fun o => bool_decide (o_status o = Active) && bool_decide (o_side o = Sell)) (all_orders d)));
     mo_pending_orders := Z.of_nat (length (List.filter (fun o => bool_decide (o_status o = Pending)) (all_orders d)));
     mo_completed := Z.of_nat (length (List.filter (matched_since start) (all_matches d)));
     mo_users_trading := Z.of_nat (size (list_to_set (o_user_id <$> List.filter (created_since start) (all_orders d)) : gset Uuid));
     mo_avg_match_time := f64_of_Z 0 |}.

(** [0.0] is a NUMERIC, which [try_get::<f64>] does not read: the time is 0 by [unwrap_or]. *)
Definition get_market_overview (start : DateTime) : AnM MarketOverview :=
  query (fun d => overview_of start (an_books d)).

(** [((current - previous) / previous) * 100.0] and the like. *)
Definition ratio_percent (x y : spec_float) : spec_float := f64_mul (f64_div x y) (f64_of_Z 100).
Definition trend_percent (current previous : spec_float) : spec_float :=
  if f64_lt (f64_of_Z 0) previous then ratio_percent (f64_sub current previous) previous else f64_of_Z 0.

Definition get_trading_volume (start prev : DateTime) : AnM TradingVolume :=
  current ← query (fun d => List.filter (matched_since start) (all_matches (an_books d)));
  previous ← query (fun d => List.filter (matched_between prev start) (all_matches (an_books d)));
  energy ← get_f64 (Some (sumZ om_matched_amount current));
  value ← get_f64 (Some (sumZ match_value current));
  before ← get_f64 (Some (sumZ om_matched_amount previous));
  let count := Z.of_nat (length current) in
  mret {| tv_energy := energy; tv_value := value; tv_transactions := count;
          tv_avg_size := if 0 <? count then f64_div energy (f64_of_Z count) else f64_of_Z 0;
          tv_trend := trend_percent energy before |}.

(** [PERCENTILE_CONT] is a double, which [try_get::<Decimal>] does not read: the median is 0 by
    [unwrap_or]. *)
Definition get_price_statistics (start prev : DateTime) : AnM PriceStatistics :=
  current ← query (fun d => om_match_price <$> List.filter (matched_since start) (all_matches (an_books d)));
  previous ← query (fun d => om_match_price <$> List.filter (matched_between prev start) (all_matches (an_books d)));
  average ← get_f64 (Some (average_or_zero current));
  lowest ← get_f64 (Some (default 0 (least current)));
  highest ← get_f64 (Some (default 0 (greatest current)));
  deviation ← get_f64 (Some (default 0 (stddev current)));
  before ← get_f64 (Some (average_or_zero previous));
  mret {| ps_avg := average; ps_lowest := lowest; ps_highest := highest; ps_median := decimal_to_f64 0;
          ps_volatility := if f64_lt (f64_of_Z 0) average then ratio_percent deviation average else f64_of_Z 0;
          ps_trend := trend_percent average before |}.

Definition get_energy_source_breakdown : list EnergySourceStats :=
  [{| es_source := "Solar"; es_volume := f64_of_Z 0; es_price := f64_of_Z 0; es_count := 0;
      es_share := f64_of_Z 0 |}].

(** The matches of [start] on with the buyer and the seller: [JOIN trading_orders]. *)
Definition dealt (d : Db) (m : OrderMatch) : option (OrderMatch * Uuid * Uuid) :=
  b ← orders d !! om_buy_order_id m;
  s ← orders d !! om_sell_order_id m;
  Some (m, o_user_id b, o_user_id s).
Definition sale_of (d : Db) (m : OrderMatch) : option (OrderMatch * Uuid) :=
  s ← orders d !! om_sell_order_id m; Some (m, o_user_id s).

Record SellerRow := { sr_seller : Uuid; sr_matches : list OrderMatch }.
Definition seller_volume (r : SellerRow) : Z := sumZ om_matched_amount (sr_matches r).

(** [GROUP BY o.user_id]. *)
Definition seller_rows (start : DateTime) (d : Db) : list SellerRow :=
  let sales := omap (sale_of d) (List.filter (matched_since start) (all_matches d)) in
  (fun u => {| sr_seller := u; sr_matches := (List.filter (fun x => (x.2 =? u)%N) sales).*1 |})
    <$> elements (list_to_set sales.*2 : gset Uuid).

(** The inner query with its order and LIMIT, and the join with [users]. *)
Definition user_trades (start : DateTime) (limit : Z) (d : Db) : list SellerRow :=
  take (Z.to_nat limit)
    (Prelude.sort_by (fun r s => seller_volume s <=? seller_volume r) (arrange (seller_rows start d))).

Definition trader_stats (x : SellerRow * (string * string)) : AnM TraderStats :=
  volume ← get_f64 (Some (seller_volume x.1));
  price ← get_f64 (Some (average_or_zero (om_match_price <$> sr_matches x.1)));
  mret {| td_user_id := sr_seller x.1; td_username := x.2.1; td_volume := volume;
          td_count := Z.of_nat (length (sr_matches x.1)); td_avg_price := price; td_role := x.2.2 |}.

Definition named_traders (start : DateTime) (limit : Z) (d : AnDb) : list (SellerRow * (string * string)) :=
  arrange (omap (fun r => p ← an_people d !! sr_seller r; Some (r, p)) (user_trades start limit (an_books d))).

(** [iter().map(..).collect()] over a fallible body. *)
Fixpoint collect {A B} (f : A -> AnM B) (l : list A) : AnM (list B) :=
  match l with
  | [] => mret []
  | a :: l => b ← f a; bs ← collect f l; mret (b :: bs)
  end.

Definition get_top_traders (start : DateTime) (limit : Z) : AnM (list TraderStats) :=
  rows ← query (named_traders start limit);
  collect trader_stats rows.

Definition get_market_analytics (now : DateTime) (text : string) : AnM MarketAnalytics :=
  timeframe text (fun duration =>
    let start := now - duration in
    let prev := start - duration in
    overview ← get_market_overview start;
    volume ← get_trading_volume start prev;
    prices ← get_price_statistics start prev;
    traders ← get_top_traders start 10;
    mret {| ma_timeframe := text; ma_overview := overview; ma_volume := volume; ma_prices := prices;
            ma_sources := get_energy_source_breakdown; ma_traders := traders |}).

(** ** A trader ([user.rs]) *)

Record SellerStats := {
  sl_created : Z;
  sl_fulfilled : Z;
  sl_energy : spec_float;
  sl_revenue : spec_float;
  sl_avg_price : spec_float;
}.

Record BuyerStats := {
  by_created : Z;
  by_fulfilled : Z;
  by_energy : spec_float;
  by_spent : spec_float;
  by_avg_price : spec_float;
}.

Record OverallUserStats := {
  ov_transactions : Z;
  ov_volume : spec_float;
  ov_net_revenue : spec_float;
  ov_favorite : option string;
}.

Record UserTradingStats := {
  us_user_id : Uuid;
  us_username : string;
  us_timeframe : string;
  us_as_seller : SellerStats;
  us_as_buyer : BuyerStats;
  us_overall : OverallUserStats;
}.

Definition orders_since (user : Uuid) (side : OrderSide) (start : DateTime) (d : Db) : list TradingOrderDb :=
  List.filter (fun o => (o_user_id o =? user)%N && bool_decide (o_side o = side) && created_since start o)
    (all_orders d).
Definition filled_count (l : list TradingOrderDb) : Z :=
  Z.of_nat (length (List.filter (fun o => bool_decide (o_status o = Filled)) l)).

(** [LEFT JOIN order_matches om ON <key> = o.id AND om.match_time >= $2]: the joined matches. *)
Definition matches_of (key : OrderMatch -> Uuid) (user : Uuid) (side : OrderSide) (start : DateTime) (d : Db)
    : list OrderMatch :=
  concat ((fun o => List.filter (fun m => (key m =? o_id o)%N && matched_since start m) (all_matches d))
            <$> orders_since user side start d).

Definition get_seller_stats (user : Uuid) (start : DateTime) : AnM SellerStats :=
  row ← query (fun d => (orders_since user Sell start (an_books d),
                         matches_of om_sell_order_id user Sell start (an_books d)));
  energy ← get_f64 (Some (sumZ om_matched_amount row.2));
  revenue ← get_f64 (Some (sumZ match_value row.2));
  price ← get_f64 (Some (average_or_zero (om_match_price <$> row.2)));
  mret {| sl_created := Z.of_nat (length row.1); sl_fulfilled := filled_count row.1; sl_energy := energy;
          sl_revenue := revenue; sl_avg_price := price |}.

Definition get_buyer_stats (user : Uuid) (start : DateTime) : AnM BuyerStats :=
  row ← query (fun d => (orders_since user Buy start (an_books d),
                         matches_of om_buy_order_id user Buy start (an_books d)));
  energy ← get_f64 (Some (sumZ om_matched_amount row.2));
  spent ← get_f64 (Some (sumZ match_value row.2));
  price ← get_f64 (Some (average_or_zero (om_match_price <$> row.2)));
  mret {| by_created := Z.of_nat (length row.1); by_fulfilled := filled_count row.1; by_energy := energy;
          by_spent := spent; by_avg_price := price |}.

(** The matches a user takes part in, and what each is worth to the user. *)
Definition my_matches (user : Uuid) (start : DateTime) (d : Db) : list (OrderMatch * Uuid * Uuid) :=
  List.filter (fun x => ((x.2 =? user)%N || (x.1.2 =? user)%N) && matched_since start x.1.1)
    (omap (dealt d) (all_matches d)).
Definition delta (user : Uuid) (x : OrderMatch * Uuid * Uuid) : Z :=
  if (x.2 =? user)%N then match_value x.1.1 else - match_value x.1.1.
Definition net_revenue (user : Uuid) (start : DateTime) (d : Db) : Z :=
  sumZ (delta user) (my_matches user start d).

Definition get_overall_user_stats (user : Uuid) (start : DateTime) : AnM OverallUserStats :=
  row ← query (fun d => let mine := my_matches user start (an_books d) in
                        (length mine, sumZ (fun x => om_matched_amount x.1.1) mine, net_revenue user start (an_books d)));
  volume ← get_f64 (Some row.1.2);
  net ← get_f64 (Some row.2);
  mret {| ov_transactions := Z.of_nat row.1.1; ov_volume := volume; ov_net_revenue := net; ov_favorite := None |}.

Definition get_user_trading_stats (now : DateTime) (user : Uuid) (username text : string) : AnM UserTradingStats :=
  timeframe text (fun duration =>
    let start := now - duration in
    seller ← get_seller_stats user start;
    buyer ← get_buyer_stats user start;
    overall ← get_overall_user_stats user start;
    mret {| us_user_id := user; us_username := username; us_timeframe := text; us_as_seller := seller;
            us_as_buyer := buyer; us_overall := overall |}).

(** ** The history of a trader's balance *)

Record WealthPoint := { wp_timestamp : DateTime; wp_balance : spec_float }.
Record UserWealthHistory := { uw_timeframe : string; uw_history : list WealthPoint }.

(** [date_trunc('hour', match_time)] of a server that runs at a whole number of hours from UTC. *)
Definition match_hour (x : OrderMatch * Uuid * Uuid) : Z := om_match_time x.1.1 / nanos_per_hour * nanos_per_hour.

Definition binned (user : Uuid) (start : DateTime) (d : Db) : list (Z * Z) :=
  let mine := my_matches user start d in
  (fun b => (b, sumZ (delta user) (List.filter (fun x => match_hour x =? b) mine)))
    <$> Prelude.sort_by Z.leb (elements (list_to_set (match_hour <$> mine) : gset Z)).

(** [SUM(delta) OVER (ORDER BY bucket)]. *)
Fixpoint running (acc : Z) (l : list (Z * Z)) : list (Z * Z) :=
  match l with [] => [] | (b, x) :: l => (b, acc + x) :: running (acc + x) l end.

Definition wealth_point (x : Z * Z) : AnM WealthPoint :=
  balance ← get_f64 (Some x.2);
  mret {| wp_timestamp := x.1; wp_balance := balance |}.

Definition get_user_wealth_history (now : DateTime) (user : Uuid) (text : string) : AnM UserWealthHistory :=
  timeframe text (fun duration =>
    rows ← query (fun d => running 0 (binned user (now - duration) (an_books d)));
    history ← collect wealth_point rows;
    mret {| uw_timeframe := text; uw_history := history |}).

End analytics.

(** ** The transactions of a user *)

(** The object the server builds from the row behind an operation. *)
Inductive Metadata :=
| OfSettlement (s : SettlementRow)
| OfOrder (o : TradingOrderDb).

Record UserTransaction := {
  ut_operation_type : string;
  ut_operation_id : Uuid;
  ut_user_id : option Uuid;
  ut_signature : option string;
  ut_tx_type : option string;
  ut_status : string;
  ut_attempts : Z;
  ut_last_error : option string;
  ut_submitted_at : option DateTime;
  ut_confirmed_at : option DateTime;
  ut_created_at : DateTime;
  ut_metadata : option Metadata;
}.

Record TransactionQuery := {
  tq_type : option string;
  tq_status : option string;
  tq_limit : option Z;
  tq_offset : option Z;
}.

Record UserTransactionsResponse := { ur_transactions : list UserTransaction; ur_total : Z }.

Definition optional_text (wanted : option string) (x : option string) : bool :=
  match wanted with None => true | Some t => bool_decide (x = Some t) end.

(** The condition both statements share; a NULL column satisfies no test. *)
Definition own_operation (user : Uuid) (q : TransactionQuery) (r : OpRow) : bool :=
  bool_decide (op_user_id r = Some user) && optional_text (tq_type q) (Some (op_operation_type r))
  && optional_text (tq_status q) (tk_status (op_columns r)).

Definition metadata_of (r : OpRow) (d : Db) : option Metadata :=
  if (op_operation_type r =? "settlement")%string then OfSettlement <$> settlements d !! op_operation_id r
  else if (op_operation_type r =? "trading_order")%string then OfOrder <$> orders d !! op_operation_id r
  else None.

(** [FromRow]: a NULL in a column that is not an [Option] is an error. *)
Definition read_transaction (d : Db) (r : OpRow) : option UserTransaction :=
  let t := op_columns r in
  status ← tk_status t;
  attempts ← tk_attempts t;
  created ← tk_created_at t;
  Some {| ut_operation_type := op_operation_type r; ut_operation_id := op_operation_id r;
          ut_user_id := op_user_id r; ut_signature := tk_signature t; ut_tx_type := tk_type t;
          ut_status := status; ut_attempts := attempts; ut_last_error := tk_last_error t;
          ut_submitted_at := tk_submitted_at t; ut_confirmed_at := tk_confirmed_at t;
          ut_created_at := created; ut_metadata := metadata_of r d |}.

(** [ORDER BY created_at DESC]: NULL comes first. *)
Definition later_first (r s : OpRow) : bool :=
  match tk_created_at (op_columns r), tk_created_at (op_columns s) with
  | None, _ => true
  | Some _, None => false
  | Some x, Some y => y <=? x
  end.

Definition own_operations `{Plan} (user : Uuid) (q : TransactionQuery) (d : AnDb) : list OpRow :=
  List.filter (own_operation user q) (blockchain_operations (an_tracked d)).

Definition transaction_page `{Plan} (user : Uuid) (q : TransactionQuery) (d : AnDb) : option (list UserTransaction) :=
  let limit := Z.min (default 50 (tq_limit q)) 100 in
  let offset := default 0 (tq_offset q) in
  if (limit <? 0) || (offset <? 0) then None
  else mapM (read_transaction (an_books d))
         (sql_page limit offset (Prelude.sort_by later_first (arrange (own_operations user q d)))).

(** [unwrap_or(0)] and [unwrap_or_default()]. *)
Definition get_user_transactions `{Plan} (user : Uuid) (q : TransactionQuery) : AnM UserTransactionsResponse :=
  total ← attempt (query (fun d => Z.of_nat (length (own_operations user q d))));
  rows ← attempt (page ← query (transaction_page user q); expect FDb page);
  mret {| ur_transactions := match rows with Ok l => l | Err _ => [] end;
          ur_total := match total with Ok n => n | Err _ => 0 end |}.

(** ** The zones ([zones.rs]) *)

Record ZoneTradingStats := {
  zs_zone_id : Z;
  zs_zone_name : string;
  zs_active_trades : Z;
  zs_volume : spec_float;
  zs_avg_price : spec_float;
  zs_value : spec_float;
  zs_prosumers : Z;
  zs_consumers : Z;
}.

Record ZoneTradingStatsResponse := {
  zt_zones : list ZoneTradingStats;
  zt_active_trades : Z;
  zt_volume : spec_float;
}.

(** A row of the statement. *)
Record ZoneTradingRow := {
  zr_zone : Z;
  zr_active : Z;
  zr_volume : Decimal;
  zr_avg : Decimal;
  zr_value : Decimal;
  zr_prosumers : Z;
  zr_consumers : Z;
}.

(** A statement the server refuses: [trading_orders] has no column [price], and ['open'] is not a
    value of [order_status]. *)
Definition refused_statement {A} : AnM A := row ← query (fun _ => None); expect FDb row.

Section zones.
Context `{DF : DecimalFloat} `{ND : NumericDecode} `{PA : PriceAverage} `{PL : Plan} `{DP : DecimalParse}.

Definition zone_trading (r : ZoneTradingRow) : ZoneTradingStats :=
  {| zs_zone_id := zr_zone r; zs_zone_name := "Zone " ++ pretty (zr_zone r); zs_active_trades := zr_active r;
     zs_volume := decimal_to_f64 (zr_volume r); zs_avg_price := decimal_to_f64 (zr_avg r);
     zs_value := decimal_to_f64 (zr_value r); zs_prosumers := zr_prosumers r; zs_consumers := zr_consumers r |}.

Definition get_zone_trading_stats : AnM ZoneTradingStatsResponse :=
  rows ← refused_statement;
  let zones := zone_trading <$> rows in
  mret {| zt_zones := zones; zt_active_trades := sumZ zs_active_trades zones;
          zt_volume := foldl (fun acc z => f64_add acc (zs_volume z)) (f64_of_Z 0) zones |}.

(** ** The platform ([admin.rs]) *)

Record AdminStatsResponse := {
  ad_users : Z;
  ad_meters : Z;
  ad_active_meters : Z;
  ad_volume : spec_float;
  ad_orders : Z;
  ad_success_rate : spec_float;
}.

Definition count_or {A} (fallback : A) (f : AnDb -> A) : AnM A :=
  n ← attempt (query f);
  mret match n with Ok n => n | Err _ => fallback end.

(** [SUM(filled_amount)] of the filled and settled orders. *)
Definition filled_volume (d : Db) : option Z :=
  sum_opt (omap o_filled_amount
    (List.filter (fun o => bool_decide (o_status o = Filled) || bool_decide (o_status o = Settled)) (all_orders d))).

Definition get_admin_stats : AnM AdminStatsResponse :=
  users ← count_or 0 (fun d => Z.of_nat (size (an_people d)));
  meters ← count_or (0, 0) (fun d => (Z.of_nat (size (an_meters d)),
    Z.of_nat (length (List.filter (fun v => bool_decide (v = Some true)) (map_to_list (an_meters d)).*2))));
  volume ← query (fun d => match filled_volume (an_books d) with
                           | Some v => Some <$> decode_decimal v
                           | None => Some None
                           end);
  volume ← expect FDb volume;
  orders ← count_or 0 (fun d => Z.of_nat (size (orders (an_books d))));
  mret {| ad_users := users; ad_meters := meters.1; ad_active_meters := meters.2;
          ad_volume := text_f64 (default 0 volume); ad_orders := orders; ad_success_rate := f64_of_Z 100 |}.

Record ZoneTradeStats := {
  zx_timeframe : string;
  zx_total : spec_float;
  zx_intra : spec_float;
  zx_inter : spec_float;
  zx_intra_percent : spec_float;
  zx_inter_percent : spec_float;
}.

Record ZoneRevenueBreakdown := {
  zb_zone_id : Z;
  zb_value : spec_float;
  zb_fees : spec_float;
  zb_wheeling : spec_float;
  zb_avg_price : spec_float;
}.

Record ZoneEconomicInsights := {
  zi_timeframe : string;
  zi_trades : ZoneTradeStats;
  zi_breakdown : list ZoneRevenueBreakdown;
}.

(** [WHERE processed_at >= $1 AND status = 'completed']. *)
Definition completed_since (start : DateTime) (d : Db) : list SettlementRow :=
  List.filter (fun s => match s_processed_at s with Some t => start <=? t | None => false end
                        && (s_status s =? "completed")%string)
    (map_to_list (settlements d)).*2.

(** [buyer_zone_id = seller_zone_id]: unknown when one is NULL. *)
Definition same_zone (s : SettlementRow) : option bool :=
  b ← s_buyer_zone_id s; e ← s_seller_zone_id s; Some (b =? e).
Definition energy_when (same : bool) (s : SettlementRow) : Z :=
  if bool_decide (same_zone s = Some same) then s_energy_amount s else 0.

Definition zone_totals (l : list SettlementRow) : Z * Z * Z :=
  (sumZ s_energy_amount l, sumZ (energy_when true) l, sumZ (energy_when false) l).

Record ZoneRow := { zr_id : Z; zr_settlements : list SettlementRow }.

(** [GROUP BY buyer_zone_id ORDER BY buyer_zone_id]. *)
Definition zone_rows (l : list SettlementRow) : list ZoneRow :=
  (fun z => {| zr_id := z; zr_settlements := List.filter (fun s => bool_decide (s_buyer_zone_id s = Some z)) l |})
    <$> Prelude.sort_by Z.leb (elements (list_to_set (omap s_buyer_zone_id l) : gset Z)).

Definition zone_revenue (r : ZoneRow) : AnM ZoneRevenueBreakdown :=
  value ← get_f64 (Some (sumZ s_total_amount (zr_settlements r)));
  fees ← get_f64 (Some (sumZ s_fee_amount (zr_settlements r)));
  wheeling ← get_f64 (sum_opt (omap s_wheeling_charge (zr_settlements r)));
  price ← get_f64 (Some (average_or_zero (s_price <$> zr_settlements r)));
  mret {| zb_zone_id := zr_id r; zb_value := value; zb_fees := fees; zb_wheeling := wheeling;
          zb_avg_price := price |}.

Definition share_percent (part total : spec_float) : spec_float :=
  if f64_lt (f64_of_Z 0) total then ratio_percent part total else f64_of_Z 0.

Definition get_zone_economic_insights (now : DateTime) (text : string) : AnM ZoneEconomicInsights :=
  timeframe text (fun duration =>
    let start := now - duration in
    row ← query (fun d => zone_totals (completed_since start (an_books d)));
    total ← get_f64 (Some row.1.1);
    intra ← get_f64 (Some row.1.2);
    inter ← get_f64 (Some row.2);
    rows ← query (fun d => zone_rows (completed_since start (an_books d)));
    breakdown ← collect zone_revenue rows;
    mret {| zi_timeframe := text;
            zi_trades := {| zx_timeframe := text; zx_total := total; zx_intra := intra; zx_inter := inter;
                            zx_intra_percent := share_percent intra total;
                            zx_inter_percent := share_percent inter total |};
            zi_breakdown := breakdown |}).
End zones.

(** ** Sums by group *)

Lemma sumZ_ext {A} (f g : A -> Z) l : (forall x, x ∈ l -> f x = g x) -> sumZ f l = sumZ g l.
Proof.
  induction l as [|a l IH]; intros H; [done|]. simpl. rewrite (H a) by left. f_equal. apply IH. intros x I. apply H. by right.
Qed.

Lemma sumZ_zero {A} (f : A -> Z) l : (forall x, x ∈ l -> f x = 0) -> sumZ f l = 0.
Proof. intros H. rewrite (sumZ_ext f (fun _ => 0)) by done. clear. induction l; simpl; lia. Qed.

Lemma sumZ_add {A} (f g : A -> Z) l : sumZ (fun x => f x + g x) l = sumZ f l + sumZ g l.
Proof. induction l; simpl; lia. Qed.

Lemma sumZ_opp {A} (f : A -> Z) l : sumZ (fun x => - f x) l = - sumZ f l.
Proof. induction l; simpl; lia. Qed.

Lemma sumZ_swap {A B} (f : A -> B -> Z) ks l :
  sumZ (fun k => sumZ (f k) l) ks = sumZ (fun x => sumZ (fun k => f k x) ks) l.
Proof.
  induction l as [|x l IH]; simpl; [by apply sumZ_zero|]. by rewrite sumZ_add, IH.
Qed.

Lemma sumZ_fmap {A B} (f : B -> Z) (g : A -> B) l : sumZ f (g <$> l) = sumZ (fun x => f (g x)) l.
Proof. induction l as [|a l IH]; [done|]. rewrite fmap_cons. simpl. by rewrite IH. Qed.

Lemma sumZ_omap {A B} (f : B -> Z) (g : A -> option B) l :
  sumZ f (omap g l) = sumZ (fun x => match g x with Some y => f y | None => 0 end) l.
Proof. induction l as [|a l IH]; [done|]. simpl. destruct (g a); simpl; by rewrite <- IH. Qed.

(** Only one key counts. *)
Lemma sumZ_one {A} (f : A -> Z) ks k : NoDup ks -> k ∈ ks -> (forall j, j ∈ ks -> j <> k -> f j = 0) -> sumZ f ks = f k.
Proof.
  induction 1 as [|a ks Ha N IH]; intros I Z; [by apply not_elem_of_nil in I|]. simpl.
  apply elem_of_cons in I as [->|I].
  - rewrite (sumZ_zero f ks); [lia|]. intros j J. apply Z; [by right|]. by intros ->.
  - rewrite IH; [|done|intros j J; apply Z; by right]. rewrite (Z a); [lia|left|]. by intros ->.
Qed.

(** The sums of the groups add up to the whole. *)
Lemma sumZ_group {A B} (key : A -> B) (is_key : B -> A -> bool) (f : A -> Z) ks l :
  NoDup ks -> (forall x k, is_key k x = true <-> key x = k) -> (forall x, x ∈ l -> key x ∈ ks) ->
  sumZ (fun k => sumZ f (List.filter (is_key k) l)) ks = sumZ f l.
Proof.
  intros N K C. rewrite (sumZ_ext _ (fun k => sumZ (fun x => if is_key k x then f x else 0) l))
    by (intros; apply sumZ_filter).
  rewrite sumZ_swap. apply sumZ_ext. intros x I. rewrite (sumZ_one _ _ (key x)); [|done|by apply C|].
  - by rewrite (proj2 (K x (key x)) eq_refl).
  - intros j _ E. destruct (is_key j x) eqn:F; [|done]. by apply K in F.
Qed.

Lemma NoDup_sorted_keys {A} `{Countable A} (le : A -> A -> bool) (X : gset A) :
  NoDup (Prelude.sort_by le (elements X)).
Proof. rewrite sort_by_perm. apply NoDup_elements. Qed.

Lemma elem_of_sorted_keys {A} `{Countable A} (le : A -> A -> bool) (l : list A) x :
  x ∈ Prelude.sort_by le (elements (list_to_set l : gset A)) <-> x ∈ l.
Proof. rewrite sort_by_perm. set_solver. Qed.

(** ** The statements *)

Lemma timeframe_Ok {A} text (k : Z -> AnM A) w a w' : timeframe text k w = (Ok a, w') ->
  exists duration, parse_timeframe text = Ok duration /\ k duration w = (Ok a, w').
Proof. unfold timeframe. destruct (parse_timeframe text) as [d|e]; [by exists d|done]. Qed.

Section trader.
Context `{NUM : Numerics} `{DF : DecimalFloat} `{ND : NumericDecode} `{PA : PriceAverage} `{DV : Deviation}
  `{PL : Plan} `{DP : DecimalParse}.

Lemma get_f64_Ok x (w : world AnDb Event) y w' : get_f64 x w = (Ok y, w') ->
  w' = w /\ exists z d, x = Some z /\ decode_decimal z = Some d /\ y = decimal_to_f64 d.
Proof.
  unfold get_f64. intros H. apply bind_Ok in H as (d & w1 & [E ->]%expect_Ok & [<- <-]%ret_Ok).
  destruct x as [z|]; [|done]. simpl in E. split; [done|]. by exists z, d.
Qed.

Lemma collect_Ok {A B} (f : A -> AnM B) l w bs w' : collect f l w = (Ok bs, w') ->
  (forall a v b v', f a v = (Ok b, v') -> v' = v) ->
  w' = w /\ Forall2 (fun a b => f a w = (Ok b, w)) l bs.
Proof.
  intros H F. revert bs w' H. induction l as [|a l IH]; intros bs w' H; simpl in H.
  - apply ret_Ok in H as [<- <-]. by split.
  - apply bind_Ok in H as (b & w1 & H1 & H). pose proof (F _ _ _ _ H1) as ->.
    apply bind_Ok in H as (bs' & w2 & [-> H2]%IH & [<- <-]%ret_Ok). split; [done|]. by constructor.
Qed.

(** *** The balance *)

Lemma running_last acc l :
  match list.last (running acc l) with Some p => p.2 = acc + sumZ snd l | None => sumZ snd l = 0 end.
Proof.
  revert acc. induction l as [|[b x] l IH]; intros acc; [done|]. simpl.
  rewrite list.last_cons. specialize (IH (acc + x)). destruct (list.last (running (acc + x) l)); simpl in *; lia.
Qed.

Lemma binned_total user start d : sumZ snd (binned user start d) = net_revenue user start d.
Proof.
  unfold binned, net_revenue. set (mine := my_matches user start d).
  rewrite <- (sumZ_group match_hour (fun b x => match_hour x =? b) (delta user)
    (Prelude.sort_by Z.leb (elements (list_to_set (match_hour <$> mine) : gset Z))) mine).
  - by rewrite sumZ_fmap.
  - apply NoDup_sorted_keys.
  - intros. apply Z.eqb_eq.
  - intros x I. apply elem_of_sorted_keys. by apply list_elem_of_fmap_2.
Qed.

Lemma running_nil acc l : running acc l = [] <-> l = [].
Proof. by destruct l as [|[]]. Qed.

Lemma binned_nil user start d : binned user start d = [] -> my_matches user start d = [].
Proof.
  unfold binned. intros H. apply fmap_nil_inv in H. destruct (my_matches user start d) as [|x l] eqn:E; [done|].
  exfalso. assert (I : match_hour x ∈ Prelude.sort_by Z.leb (elements (list_to_set (match_hour <$> x :: l) : gset Z))).
  { apply elem_of_sorted_keys. left. }
  rewrite H in I. by apply not_elem_of_nil in I.
Qed.

(** C15: when both requests answer on the same tables, the history of a trader's balance ends at the
    net revenue that the statistics of the same time frame show; if it is empty, the statistics
    count no transaction and the net revenue is zero. *)
Theorem history_ends_at_net now user text duration h o (w w1 w2 : world AnDb Event) :
  parse_timeframe text = Ok duration ->
  get_user_wealth_history now user text w = (Ok h, w1) ->
  get_overall_user_stats user (now - duration) w = (Ok o, w2) ->
  match list.last (uw_history h) with
  | Some p => wp_balance p = ov_net_revenue o
  | None => ov_transactions o = 0 /\ net_revenue user (now - duration) (an_books (st w)) = 0
  end.
Proof.
  intros P (d & P' & H)%timeframe_Ok O. assert (d = duration) as -> by congruence. clear P'.
  apply bind_Ok in H as (rows & v1 & (-> & S1 & _)%query_Ok & H).
  apply bind_Ok in H as (hist & v2 & C & [<- <-]%ret_Ok). apply collect_Ok in C as [-> C].
  2: { intros a v b v' E. apply bind_Ok in E as (y & v3 & [-> _]%get_f64_Ok & [_ <-]%ret_Ok). done. }
  unfold get_overall_user_stats in O. apply bind_Ok in O as (row & v3 & (-> & S3 & _)%query_Ok & O).
  apply bind_Ok in O as (vol & v4 & [-> _]%get_f64_Ok & O).
  apply bind_Ok in O as (net & v5 & [-> (z & dn & [= <-] & Dn & ->)]%get_f64_Ok & [<- <-]%ret_Ok).
  simpl in *. set (l := binned user (now - duration) (an_books (st w))) in *.
  pose proof (running_last 0 l) as R. unfold l in R at 2 3. rewrite binned_total, Z.add_0_l in R.
  destruct (list.last hist) as [p|] eqn:L.
  - destruct (list.last (running 0 l)) as [[b x]|] eqn:Lr.
    + simpl in R. subst x. assert (E : wealth_point (b, net_revenue user (now - duration) (an_books (st w))) v1 = (Ok p, v1)).
      { apply list.last_Some in L as [h1 ->]. apply list.last_Some in Lr as [r1 E]. rewrite E in C.
        apply Forall2_app_inv_r in C as (a & c & _ & C2 & E2). inversion C2 as [|? ? ? ? C3 C4]; subst.
        inversion C4; subst. apply app_inj_tail in E2 as [_ <-]. done. }
      apply bind_Ok in E as (y & v6 & [-> (z & dz & [= <-] & Dz & ->)]%get_f64_Ok & [<- _]%ret_Ok). simpl.
      congruence.
    + apply list.last_None in Lr. rewrite Lr in C. inversion C; subst. done.
  - apply list.last_None in L. subst hist. inversion C as [E|]. symmetry in E. rewrite running_nil in E.
    rewrite E in R. simpl in R. split; [|done]. by rewrite (binned_nil _ _ _ E).
Qed.

(** *** What traders earn together *)

Definition dealt_since (start : DateTime) (d : Db) : list (OrderMatch * Uuid * Uuid) :=
  List.filter (fun x => matched_since start x.1.1) (omap (dealt d) (all_matches d)).

Definition takes_part (user : Uuid) (x : OrderMatch * Uuid * Uuid) : bool := (x.2 =? user)%N || (x.1.2 =? user)%N.
Definition self_trade (x : OrderMatch * Uuid * Uuid) : bool := (x.2 =? x.1.2)%N.

Lemma filter_filter {A} (p q : A -> bool) l : List.filter (fun x => p x && q x) l = List.filter p (List.filter q l).
Proof.
  induction l as [|a l IH]; [done|]. simpl. destruct (q a); simpl; [|by rewrite andb_false_r].
  destruct (p a); simpl; by rewrite IH.
Qed.

Lemma net_revenue_sum user start d :
  net_revenue user start d = sumZ (fun x => if takes_part user x then delta user x else 0) (dealt_since start d).
Proof.
  unfold net_revenue, my_matches. rewrite filter_filter, sumZ_filter. apply sumZ_ext. intros x _. done.
Qed.

(** What the sellers of the matches of a period earn is what their buyers pay: the net revenues
    of all who take part add up to the value of the matches of a user with oneself, which count
    as income. *)
Theorem net_revenues_cancel us start d : NoDup us ->
  (forall x, x ∈ dealt_since start d -> x.1.2 ∈ us /\ x.2 ∈ us) ->
  sumZ (fun u => net_revenue u start d) us
  = sumZ (fun x => match_value x.1.1) (List.filter self_trade (dealt_since start d)).
Proof.
  intros N C. rewrite (sumZ_ext _ (fun u => sumZ (fun x => if takes_part u x then delta u x else 0) (dealt_since start d)))
    by (intros; apply net_revenue_sum).
  rewrite sumZ_swap, sumZ_filter. apply sumZ_ext. intros [[m b] s] I. destruct (C _ I) as [Cb Cs]. simpl in *.
  unfold takes_part, delta, self_trade. simpl.
  rewrite (sumZ_ext _ (fun u => (if (u =? s)%N then match_value m else 0)
                                + (if (u =? b)%N && negb (b =? s)%N then - match_value m else 0))).
  - rewrite sumZ_add, (sumZ_one _ us s), (sumZ_one _ us b); simpl; try done.
    + rewrite !N.eqb_refl, (N.eqb_sym s b). destruct (b =? s)%N; simpl; lia.
    + intros u _ Hu. by apply N.eqb_neq in Hu as ->.
    + intros u _ Hu. by apply N.eqb_neq in Hu as ->.
  - intros u _. rewrite (N.eqb_sym s u), (N.eqb_sym b u). destruct (N.eqb_spec u s) as [->|Hs]; simpl.
    + destruct (N.eqb_spec s b) as [->|]; simpl; [by rewrite N.eqb_refl; simpl; lia|lia].
    + destruct (N.eqb_spec u b) as [->|]; simpl; [|lia]. apply N.eqb_neq in Hs as ->. simpl. lia.
Qed.

(** *** The two sides of a trader *)

Lemma dealt_match d m x : dealt d m = Some x -> x.1.1 = m.
Proof.
  unfold dealt. intros H. destruct (orders d !! om_buy_order_id m); [|done]. simpl in H.
  destruct (orders d !! om_sell_order_id m); [|done]. simpl in H. by simplify_eq.
Qed.

Definition orders_keyed (d : Db) : Prop := map_Forall (fun i o => o_id o = i) (orders d).

(** A sum over the joined matches of some orders is a sum over the matches. *)
Lemma joined_sum (key : OrderMatch -> Uuid) (f : OrderMatch -> Z) start (l : list TradingOrderDb) ms :
  NoDup (o_id <$> l) ->
  sumZ f (concat ((fun o => List.filter (fun m => (key m =? o_id o)%N && matched_since start m) ms) <$> l))
  = sumZ (fun m => if bool_decide (key m ∈ o_id <$> l) && matched_since start m then f m else 0) ms.
Proof.
  induction l as [|o l IH]; intros N.
  - simpl. symmetry. apply sumZ_zero. intros m _. done.
  - rewrite fmap_cons in *. apply list.NoDup_cons in N as [No N]. simpl. rewrite sumZ_app, IH, sumZ_filter, <- sumZ_add by done.
    apply sumZ_ext. intros m _. destruct (matched_since start m); [|by rewrite !andb_false_r].
    rewrite !andb_true_r. destruct (N.eqb_spec (key m) (o_id o)) as [E|E].
    + rewrite bool_decide_eq_false_2 by by rewrite E. rewrite bool_decide_eq_true_2 by (rewrite E; left). lia.
    + destruct (bool_decide (key m ∈ o_id <$> l)) eqn:B.
      * apply bool_decide_eq_true_1 in B. rewrite bool_decide_eq_true_2 by by right. lia.
      * apply bool_decide_eq_false_1 in B. rewrite bool_decide_eq_false_2; [lia|].
        by intros [?|?]%elem_of_cons.
Qed.

Lemma all_orders_ids d : orders_keyed d -> NoDup (o_id <$> all_orders d).
Proof.
  intros K. unfold all_orders. rewrite <- list_fmap_compose.
  rewrite (list_fmap_ext _ fst (map_to_list (orders d))); [apply NoDup_fst_map_to_list|].
  intros i [k o] E%list_elem_of_lookup_2%elem_of_map_to_list. by apply K in E.
Qed.

Lemma own_order user side start d m (key : OrderMatch -> Uuid) o : orders_keyed d -> orders d !! key m = Some o ->
  key m ∈ o_id <$> orders_since user side start d <->
  o_user_id o = user /\ o_side o = side /\ created_since start o = true.
Proof.
  intros K L. unfold orders_since. rewrite list_elem_of_fmap. split.
  - intros (o' & E & I). apply list_elem_of_In, List.filter_In in I as [I H]. apply list_elem_of_In in I.
    apply elem_of_values in I as [i Hi]. pose proof (K _ _ Hi) as Ki. simpl in Ki. assert (o' = o) as -> by congruence.
    apply andb_prop in H as [H ?]. apply andb_prop in H as [H1 H2]. apply N.eqb_eq in H1. by apply bool_decide_eq_true_1 in H2.
  - intros (H1 & H2 & H3). exists o. split; [by rewrite (K _ _ L)|]. apply list_elem_of_In, List.filter_In. split.
    + apply list_elem_of_In, elem_of_values. by exists (key m).
    + rewrite H3, bool_decide_eq_true_2 by done. apply N.eqb_eq in H1 as ->. done.
Qed.

(** The period covers the orders behind its matches, on their sides. *)
Definition covered (start : DateTime) (d : Db) : Prop :=
  forall m, m ∈ all_matches d -> matched_since start m = true ->
    exists b s, orders d !! om_buy_order_id m = Some b /\ orders d !! om_sell_order_id m = Some s
      /\ o_side b = Buy /\ o_side s = Sell /\ created_since start b = true /\ created_since start s = true.

(** When the orders behind the matches of the period were placed in it, the net revenue of a
    trader is the revenue as a seller less the spending as a buyer, but for the purchases from
    oneself, which are not subtracted. *)
Theorem net_is_sold_less_bought user start d : orders_keyed d -> covered start d ->
  net_revenue user start d
  = sumZ match_value (matches_of om_sell_order_id user Sell start d)
    - sumZ match_value (matches_of om_buy_order_id user Buy start d)
    + sumZ (fun x => match_value x.1.1)
        (List.filter (fun x => self_trade x && takes_part user x) (dealt_since start d)).
Proof.
  intros K C. unfold matches_of. rewrite !joined_sum by (apply NoDup_fmap_filter, all_orders_ids, K).
  rewrite net_revenue_sum. unfold dealt_since. rewrite !sumZ_filter.
  rewrite !sumZ_omap. change ((map_to_list (order_matches d)).*2) with (all_matches d).
  rewrite <- Z.add_opp_r, <- sumZ_opp, <- !sumZ_add. apply sumZ_ext. intros m I.
  destruct (matched_since start m) eqn:M.
  2: { rewrite !andb_false_r. destruct (dealt d m) as [x|] eqn:D; [|done]. rewrite (dealt_match _ _ _ D), M. done. }
  destruct (C m I M) as (b & s & Lb & Ls & Sb & Ss & Tb & Ts).
  unfold dealt. rewrite Lb, Ls. simpl. rewrite M, !andb_true_r.
  rewrite (bool_decide_ext _ _ (own_order user Sell start d m om_sell_order_id s K Ls)).
  rewrite (bool_decide_ext _ _ (own_order user Buy start d m om_buy_order_id b K Lb)).
  unfold takes_part, delta, self_trade. simpl.
  destruct (N.eqb_spec (o_user_id s) user) as [Eu|Eu]; destruct (N.eqb_spec (o_user_id b) user) as [Ev|Ev]; simpl;
    rewrite ?(bool_decide_eq_true_2 (o_user_id s = _ /\ _ /\ _)) by done;
    rewrite ?(bool_decide_eq_true_2 (o_user_id b = _ /\ _ /\ _)) by done;
    rewrite ?(bool_decide_eq_false_2 (o_user_id s = _ /\ _ /\ _)) by (by intros [? _]);
    rewrite ?(bool_decide_eq_false_2 (o_user_id b = _ /\ _ /\ _)) by (by intros [? _]).
  all: destruct (N.eqb_spec (o_user_id s) (o_user_id b)) as [E|E]; simpl; try congruence; lia.
Qed.
End trader.

(** ** The zones *)

Definition unzoned (s : SettlementRow) : bool := bool_decide (same_zone s = None).

(** The traded energy is that within zones, that between zones and that of the settlements that
    lack a zone; the values of the zones add up to that of the settlements with a buyer zone, and
    every such zone has one row, in rising order. *)
Theorem zones_partition start d :
  let l := completed_since start d in
  let '(total, intra, inter) := zone_totals l in
  total = intra + inter + sumZ s_energy_amount (List.filter unzoned l)
  /\ sumZ (fun r => sumZ s_total_amount (zr_settlements r)) (zone_rows l)
     = sumZ s_total_amount (List.filter (fun s => bool_decide (is_Some (s_buyer_zone_id s))) l)
  /\ (forall z, z ∈ zr_id <$> zone_rows l <-> exists s, s ∈ l /\ s_buyer_zone_id s = Some z)
  /\ NoDup (zr_id <$> zone_rows l)
  /\ Sorted.Sorted (fun x y => is_true (x <=? y)) (zr_id <$> zone_rows l).
Proof.
  intros l. unfold zone_totals.
  assert (Ids : zr_id <$> zone_rows l = Prelude.sort_by Z.leb (elements (list_to_set (omap s_buyer_zone_id l) : gset Z))).
  { unfold zone_rows. rewrite <- list_fmap_compose. apply list_fmap_id. }
  split_and!.
  - rewrite sumZ_filter, <- !sumZ_add. apply sumZ_ext. intros s _. unfold energy_when, unzoned.
    destruct (same_zone s) as [[]|]; simpl; lia.
  - unfold zone_rows. rewrite sumZ_fmap. simpl.
    set (p := fun s : SettlementRow => bool_decide (is_Some (s_buyer_zone_id s))).
    rewrite (sumZ_ext _ (fun z => sumZ s_total_amount (List.filter
       (fun s => bool_decide (s_buyer_zone_id s = Some z)) (List.filter p l)))).
    + rewrite <- (sumZ_fmap (fun k => sumZ s_total_amount (List.filter (fun s => bool_decide (s_buyer_zone_id s = k)) (List.filter p l))) Some).
      apply (sumZ_group s_buyer_zone_id (fun k s => bool_decide (s_buyer_zone_id s = k)) s_total_amount).
      * apply NoDup_fmap_2; [by intros ? ? [= ->]|apply NoDup_sorted_keys].
      * intros s k. by rewrite bool_decide_eq_true.
      * intros s I. apply list_elem_of_In, List.filter_In in I as [I [z Z]%bool_decide_eq_true_1]. rewrite Z.
        apply list_elem_of_fmap_2, elem_of_sorted_keys, list_elem_of_omap. exists s. split; [by apply list_elem_of_In|done].
    + intros z _. f_equal. rewrite <- filter_filter. apply List.filter_ext. intros s. unfold p.
      destruct (decide (s_buyer_zone_id s = Some z)) as [E|E]; [|by rewrite bool_decide_eq_false_2].
      rewrite E. by rewrite !bool_decide_eq_true_2.
  - intros z. rewrite Ids, elem_of_sorted_keys. apply list_elem_of_omap.
  - rewrite Ids. apply NoDup_sorted_keys.
  - rewrite Ids. apply (sort_by_sorted Z.leb). intros x y. rewrite !Z.leb_le. lia.
Qed.

(** The trading statistics of the zones are never answered. *)
Theorem zone_trading_refused `{DecimalFloat} (w : world AnDb Event) : (get_zone_trading_stats w).1 = Err FDb.
Proof.
  unfold get_zone_trading_stats, refused_statement, query, expect. unfold mbind, M_bind, mret, M_ret, fail.
  destruct (pop_fault w) as [[] w1]; done.
Qed.

(** ** The traders *)

Section traders.
Context `{PL : Plan}.

(** The ranking holds the sellers with the largest volumes: no seller outside it has sold more
    than one in it, it is as long as asked for if there are so many, and no seller is in it
    twice. *)
Theorem top_sellers_best start limit d r s : r ∈ user_trades start limit d -> s ∈ seller_rows start d ->
  s ∉ user_trades start limit d ->
  seller_volume s <= seller_volume r
  /\ length (user_trades start limit d) = Nat.min (Z.to_nat limit) (length (seller_rows start d))
  /\ NoDup (sr_seller <$> user_trades start limit d).
Proof.
  intros R S N. unfold user_trades in *. set (le := fun r s => seller_volume s <=? seller_volume r) in *.
  pose proof (Permutation_trans (sort_by_perm le (arrange (seller_rows start d))) (arrange_perm _)) as Q.
  assert (SS : Sorted.StronglySorted (fun x y => seller_volume y <= seller_volume x)
                 (Prelude.sort_by le (arrange (seller_rows start d)))).
  { pose proof (sort_by_sorted le) as Hs. unfold rel in Hs.
    apply Sorted.Sorted_StronglySorted; [intros x y z; lia|].
    eapply Sorted.Sorted_ind; [constructor| |apply Hs; intros x y; unfold le; rewrite !Z.leb_le; lia].
    intros x l _ IH Hd. constructor; [done|]. destruct Hd as [|y l Hy]; constructor. by apply Z.leb_le. }
  set (l := Prelude.sort_by le (arrange (seller_rows start d))) in *. split_and!.
  - apply (sorted_take _ (Z.to_nat limit)) in SS as [_ SS]. apply SS; [done|].
    assert (I : s ∈ l) by by rewrite Q. rewrite <- (take_drop (Z.to_nat limit) l) in I. apply elem_of_app in I as [I|I]; done.
  - rewrite length_take, Q. done.
  - assert (NoDup (sr_seller <$> l)) as ND.
    { rewrite Q. unfold seller_rows. rewrite <- list_fmap_compose, list_fmap_id. apply NoDup_elements. }
    rewrite <- (take_drop (Z.to_nat limit) l), fmap_app in ND. by apply list.NoDup_app in ND as [? _].
Qed.

(** ** The transactions *)

Lemma own_operation_view user q d r : r ∈ own_operations user q d ->
  r ∈ blockchain_operations (an_tracked d) /\ op_user_id r = Some user
  /\ optional_text (tq_type q) (Some (op_operation_type r)) = true
  /\ optional_text (tq_status q) (tk_status (op_columns r)) = true.
Proof.
  unfold own_operations. rewrite list_elem_of_In, List.filter_In, <- list_elem_of_In. intros [I H].
  apply andb_prop in H as [H ?]. apply andb_prop in H as [U ?]. by apply bool_decide_eq_true_1 in U.
Qed.

Lemma readings_unowned d r user : r ∈ blockchain_operations d -> op_user_id r = Some user ->
  op_operation_type r <> "meter_reading".
Proof.
  unfold blockchain_operations. rewrite list_elem_of_In, List.filter_In, <- list_elem_of_In.
  intros [I _] U. rewrite !elem_of_app, !list_elem_of_fmap in I.
  destruct I as [(x & -> & _)|[(x & -> & _)|[(x & -> & _)|(x & -> & _)]]]; done.
Qed.

Lemma transaction_page_in user q d l t : transaction_page user q d = Some l -> t ∈ l ->
  exists r, r ∈ own_operations user q d /\ read_transaction (an_books d) r = Some t.
Proof.
  unfold transaction_page. destruct (_ || _); [done|]. intros H%mapM_Some [i Hi]%list_elem_of_lookup.
  destruct (Forall2_lookup_r _ _ _ _ _ H Hi) as (r & Hr%list_elem_of_lookup_2 & E). exists r. split; [|done].
  unfold sql_page in Hr. apply subseteq_take, subseteq_drop in Hr. by rewrite sort_by_perm, arrange_perm in Hr.
Qed.

(** C17: the request always answers and changes nothing.  Whatever fails, a user is shown only
    operations of the user's own of the type and status asked for, at most a hundred and, when the
    database does not fail, at most as many as the total says; a reading is never among them, since
    the view gives readings no user. *)
Theorem transactions_own user q (w : world AnDb Event) :
  exists r w', get_user_transactions user q w = (Ok r, w') /\ st w' = st w
    /\ (length (ur_transactions r) <= 100)%nat
    /\ (faults w = [] -> Z.of_nat (length (ur_transactions r)) <= ur_total r)
    /\ forall t, t ∈ ur_transactions r ->
         ut_user_id t = Some user /\ ut_operation_type t <> "meter_reading"
         /\ optional_text (tq_type q) (Some (ut_operation_type t)) = true
         /\ optional_text (tq_status q) (Some (ut_status t)) = true.
Proof.
  unfold get_user_transactions.
  destruct (attempt_query (fun d => Z.of_nat (length (own_operations user q d))) w) as (n & w1 & En & S1 & _ & _ & V1).
  rewrite (bind_run _ _ _ _ _ En).
  assert (P : exists rows w2, attempt (page ← query (transaction_page user q); expect FDb page) w1 = (Ok rows, w2)
     /\ st w2 = st w1 /\ (forall l, rows = Ok l -> transaction_page user q (st w1) = Some l)).
  { unfold attempt, query, expect. unfold mbind, M_bind, mret, M_ret, fail. pose proof (pop_fault_st w1) as Hs.
    destruct (pop_fault w1) as [[] w2]; simpl in *; [eexists _, w2; by split_and!|].
    rewrite <- Hs. destruct (transaction_page user q (st w2)) eqn:E; eexists _, w2; split_and!; try done; congruence. }
  destruct P as (rows & w2 & Ep & S2 & Hp). rewrite (bind_run _ _ _ _ _ Ep).
  eexists _, w2. split; [reflexivity|]. simpl. split; [congruence|]. rewrite S1 in Hp.
  destruct rows as [l|e]; [|split_and!; [simpl; lia| |by intros ? ?%not_elem_of_nil]].
  2: { intros _. simpl. destruct V1 as [[V1 _]|V1]; subst n; simpl; lia. }
  pose proof (Hp l eq_refl) as E. unfold transaction_page in E.
  destruct ((_ <? 0) || _) eqn:Neg; [done|]. apply orb_false_elim in Neg as [N1%Z.ltb_ge N2%Z.ltb_ge].
  apply mapM_Some, Forall2_length in E. unfold sql_page in E.
  rewrite length_take, length_drop, sort_by_perm, arrange_perm in E. split_and!.
  - lia.
  - intros F. destruct V1 as [[_ V1]|V1]; [by rewrite F in V1|subst n; lia].
  - intros t I. destruct (transaction_page_in _ _ _ _ _ (Hp l eq_refl) I) as (r & Ir & Er).
    apply own_operation_view in Ir as (Iv & U & Ty & Sta). unfold read_transaction in Er.
    destruct (tk_status (op_columns r)) as [s|] eqn:Es; [|done]. simpl in Er.
    destruct (tk_attempts _); [|done]. simpl in Er. destruct (tk_created_at _); [|done]. simpl in Er. simplify_eq. simpl.
    split_and!; try done. by eapply readings_unowned.
Qed.
End traders.

(** ** Witnesses *)

Section witnesses.
#[local] Existing Instances std_numerics demo_decimal_float demo_decode mean_average demo_parse.
#[local] Instance no_deviation : Deviation := {| stddev _ := None |}.
#[local] Instance as_stored : Plan := {| arrange _ l := l; arrange_perm _ l := reflexivity l |}.

Definition demo_match (id : Uuid) (amount price : Decimal) (at_ : DateTime) : OrderMatch :=
  {| om_id := id; om_epoch_id := 9; om_buy_order_id := 7; om_sell_order_id := 8; om_matched_amount := amount;
     om_match_price := price; om_match_time := at_; om_status := "pending"; om_settlement_id := None |}.

(** User 2 sold to user 1 in two hours. *)
Definition demo_books : Db :=
  set_orders {[7%N := demo_order 7 1 Buy (dec 10 0) (dec 2 0); 8%N := demo_order 8 2 Sell (dec 10 0) (dec 1 0)]}
    {| users := ∅; orders := ∅; escrow_records := [];
       order_matches := {[3%N := demo_match 3 (dec 2 0) (dec 15 1) 0;
                          4%N := demo_match 4 (dec 1 0) (dec 2 0) nanos_per_hour]};
       settlements := ∅; epochs := ∅; platform_revenue := []; refund_tasks := [] |}.

Definition demo_analytics : world AnDb Event :=
  World {| an_books := demo_books; an_people := ∅; an_meters := ∅;
           an_tracked := {| od_orders := ∅; od_settlements := ∅; od_readings := ∅; od_users := ∅;
                            od_books := demo_books |} |} [] [].

Definition demo_history := get_user_wealth_history (2 * nanos_per_hour) 2 "24h" demo_analytics.
Definition demo_overall := get_overall_user_stats 2 (2 * nanos_per_hour - 24 * nanos_per_hour) demo_analytics.

Lemma history_ends_at_net_witness : exists h o p q,
  demo_history = (Ok h, demo_analytics) /\ demo_overall = (Ok o, demo_analytics)
  /\ uw_history h = [p; q] /\ wp_balance q = ov_net_revenue o
  /\ net_revenue 2 (- 22 * nanos_per_hour) demo_books = dec 5 0.
Proof.
  destruct demo_history as [[h|e] w1] eqn:E1; [|apply (f_equal fst) in E1; vm_compute in E1; discriminate E1].
  destruct demo_overall as [[o|e] w2] eqn:E2; [|apply (f_equal fst) in E2; vm_compute in E2; discriminate E2].
  pose proof (history_ends_at_net (2 * nanos_per_hour) 2 "24h" (24 * nanos_per_hour) h o demo_analytics w1 w2
    eq_refl E1 E2) as H.
  assert (W1 : w1 = demo_analytics) by (apply (f_equal snd) in E1; vm_compute in E1; by rewrite <- E1).
  assert (W2 : w2 = demo_analytics) by (apply (f_equal snd) in E2; vm_compute in E2; by rewrite <- E2).
  subst w1 w2. apply (f_equal fst) in E1. cbn [fst] in E1. vm_compute in E1. injection E1 as E1.
  subst h. eexists _, o, _, _. split; [reflexivity|]. split; [reflexivity|]. split; [reflexivity|].
  split; [exact H|]. vm_compute. reflexivity.
Defined.

Lemma net_revenues_cancel_witness :
  sumZ (fun u => net_revenue u 0 demo_books) [1; 2]%N = 0.
Proof.
  rewrite (net_revenues_cancel [1; 2]%N 0 demo_books); [vm_compute; reflexivity| |].
  - apply NoDup_ListNoDup. repeat constructor; simpl; intuition discriminate.
  - assert (F : Forall (fun x => x.1.2 ∈ [1; 2]%N /\ x.2 ∈ [1; 2]%N) (dealt_since 0 demo_books)).
    { vm_compute dealt_since. repeat constructor; simpl; set_solver. }
    intros x I. by eapply list.Forall_forall in F.
Defined.
End witnesses.
